(* ===== verification/_CoqProject ===== *)
-Q . S2P
Prelude.v
Codec.v
ChkTypes.v
ChkSection.v
Accessors.v
UnitTechSections.v
StructSections.v
StringUsers.v
Terrain.v
Objects.v
Locations.v
TriggerTables.v
Triggers.v
TriggerStrings.v
TriggerProps.v
StringTable.v
StrSection.v
StrProps.v
TableProps.v
Ktrg.v
ScenarioStrings.v
ScenarioProps.v
EscapeStrings.v
EscapeProps.v
Sha256.v
ShaProps.v
Kstr.v
KstrProps.v
Ktgp.v
ScenarioFile.v
ScenarioFileProps.v
ScenarioSave.v
Passwords.v
ScenarioTriggers.v
ScenarioTriggersProps.v
ScenarioSettings.v
ScenarioSettingsProps.v
ScenarioLayers.v
ScenarioLayersProps.v
ScenarioTriggerSections.v
ScenarioPlayers.v
ScenarioVersions.v
ScenarioNames.v
ScenarioNamesProps.v
ScenarioVersionsProps.v
ScenarioUpgrade.v
ScenarioUpgradeProps.v
TextLib.v
TextTrigNames.v
TextTrigArgs.v
TextTrigParser.v
TextTrigProps.v
TextTrigTypes.v
TextTrigBuild.v
TextTrigBuildProps.v
TextTrigStrings.v
ScNames.v
TextTrigGenerator.v
TextTrigClean.v
TextTrigTokens.v
TextTrigReads.v
TextTrigArguments.v
TextTrigSteps.v
TextTrigPieces.v
TextTrigActionPieces.v
TextTrigRoundTrip.v
TextTrigNormal.v
Selections.v
SelectionsProps.v
EditorUndos.v
EditorHistory.v
EditorActions.v
EditorActionsProps.v
EditorCommands.v
EditorCommandsProps.v
EditorUndoProps.v
EditorClipboard.v
EditorClipboardProps.v
