(* ===== verification/Prelude.v ===== *)
(** * Chkdraft: scenarios, text triggers and the editor's state

    Chkdraft edits StarCraft scenarios.  Its core, [src/MappingCoreLib], keeps
    a scenario as the sections of a CHK file: each section is a class with the
    data of one chunk, its accessors, and [read] and [write].  Above them the
    classes of Scenario.cpp ([Strings], [Players], [Properties], [Layers],
    [Triggers], [Versions]) combine the sections, and the class [Scenario]
    reads them from a file and saves them.  The text trigger compiler and the
    text trigger generator turn the triggers of a scenario into text and back.
    The editor, [src/ChkdraftLib], keeps a selection, a clipboard and lists of
    undos and redos beside the scenario, and changes it by commands.  This
    development models the sections, the conditions, actions and triggers of
    Chk.cpp, the string tables, the file with its passwords, the conversions of
    strings, the classes of Scenario.cpp, the two text trigger classes, and the
    editor's selection, undo, clipboard and commands, and proves what makes them
    correct.

    ** Conventions

    A C++ function becomes a function on values; what it assigns to is
    returned.  [outcome] is its result: [Ret] a value, [Throw] an exception,
    [Undef] undefined behaviour (an index out of a vector or bitset, a
    dangling or null pointer).  Integers are [Z] with the conversions of C++
    written out ([u8], [u16], [u32], [u64], [s32]); a [std::bitset] is the set of
    its one bits and a [std::map] a [gmap].  Vectors are lists, accessed by
    [vget], [vset], [vinsert] and [verase], which are [Undef] outside of the
    vector; [for_each], [first_such] and [any_such] are the loops.  A
    [shared_ptr] to a record stands for the record itself ([option] where it
    may be null): the lists of objects, locations and triggers hold each
    pointer once.  [&v[0]] of an empty vector, for an input or output of
    length zero, does nothing.  The templates over the kind of string are
    taken at [RawString], to which every other kind is converted first.
    Structures are copied to and from the file byte for byte: [Codec] has the
    little-endian layouts, [ChkTypes] the structure of every section.

    ** Files

    - [Prelude], [Codec]: outcomes, vectors, loops, machine integers; codecs.
    - [ChkTypes] (Chk.h, Sc.h): the packed structures with their layouts.
    - [ChkSection] (Sections.h, Sections.cpp): names and load behaviour of
      sections, [DataSection], and [StructSection] with its raw vector and the
      pointer into it.
    - [Accessors]: bounds-checked accessors and their laws ([Lawful]).
    - [UnitTechSections], [StructSections] (Sections.cpp): the sections that
      are one structure: units, upgrades, technologies, versions, players,
      dimensions, unit properties.
    - [StringUsers] (Sections.cpp): SPRP, FORC, WAV, SWNM, the names of UNIS
      and UNIx, and OSTR; the class [StringUserLaws] is what a section that
      uses strings promises.
    - [Terrain], [Objects], [Locations] (Sections.cpp): MTXM, TILE, ISOM,
      MASK; UNIT, DD2, THG2; MRGN.
    - [TriggerTables], [Triggers] (Chk.cpp, Sections.cpp): the argument tables,
      conditions, actions, triggers, TRIG and MBRF; [TriggerStrings] and
      [TriggerProps] have their properties.
    - [StringTable], [StrSection] (Sections.cpp, Sections.h): strings, the
      operations of a string table against its [StrSynchronizer], and STR;
      [StrProps] has the properties of its bytes and [TableProps] those of the
      operations, proved from the class [StrSynchronizerLaws].
    - [Ktrg] (Sections.cpp): KTRG, the extended data of triggers.
    - [ScenarioStrings], [ScenarioProps] (Scenario.cpp): the users of strings
      over a whole scenario and the class [Strings] as synchronizer of STR.
    - [EscapeStrings], [EscapeProps] (EscapeStrings.cpp): the two notations for
      characters that cannot be typed, and the conversions between them.
    - [Sha256], [ShaProps] (sha256.cpp): the hash class, against the definition
      of SHA-256.
    - [Kstr], [KstrProps], [Ktgp] (Sections.cpp, Scenario.cpp): the editor's
      strings and trigger groups with their byte formats.
    - [ScenarioFile] (Sections.cpp, Scenario.cpp): allocating a section by its
      name, the loop that parses a file, the choice among sections of one name,
      saving, the list of sections, passwords; section objects are in a heap
      and pointers are indices.  [ScenarioFileProps], [ScenarioSave] and
      [Passwords] have the properties.
    - [ScenarioTriggers], [ScenarioTriggersProps] (Scenario.cpp, [Triggers]):
      create-unit slots and the data attached to triggers.
    - [ScenarioSettings], [ScenarioSettingsProps] (Scenario.cpp, [Properties]):
      unit, upgrade and technology settings over the original and the expansion
      sections; the structure sections with their data pointers.
    - [ScenarioLayers], [ScenarioLayersProps] (Scenario.cpp, [Terrain] and
      [Layers]): the map and the change of its dimensions.
    - [ScenarioPlayers] (Scenario.cpp, [Players]).
    - [ScenarioTriggerSections] (Scenario.cpp, [Triggers]): the members that pass
      their arguments to a section.
    - [ScenarioNames], [ScenarioNamesProps] (Scenario.cpp, [Strings]): strings by
      scope and by what they name, and moving them between the two tables.
    - [ScenarioVersions], [ScenarioVersionsProps] (Scenario.cpp, [Versions] and
      [Scenario::changeVersionTo]): the version and the sections saved with it.
    - [ScenarioUpgrade], [ScenarioUpgradeProps] (Scenario.cpp): the upgrade of
      old editor strings.
    - [TextLib], [TextTrigNames], [TextTrigArgs], [TextTrigParser],
      [TextTrigBuild] (TextTrigCompiler.cpp): the standard functions on text,
      the parsers of names and arguments, cleaning, the state machine of the
      parser, the tables loaded from a map and the building of the new map.
      [TextTrigProps], [TextTrigTypes], [TextTrigBuildProps] and
      [TextTrigStrings] have the properties.
    - [ScNames], [TextTrigGenerator] (Sc.cpp, TextTrigGenerator.cpp): unit names
      and the text of every argument, condition, action and trigger.
    - [TextTrigClean], [TextTrigTokens], [TextTrigReads], [TextTrigArguments],
      [TextTrigSteps], [TextTrigPieces], [TextTrigActionPieces],
      [TextTrigRoundTrip], [TextTrigNormal]: that the compiler reads what the
      generator wrote, from single characters up to whole trigger lists.
    - [Selections], [SelectionsProps] (Selections.cpp): selected tiles with
      their borders, locations and units.
    - [EditorUndos], [EditorHistory] (Reversibles.cpp, Undos.cpp): lists of
      actions, undos and redos, the counters of unsaved changes; the abstract
      timeline, and the class [ReversingLaws] of what an action promises.
    - [EditorActions], [EditorActionsProps] (ChkdUndos, GuiMap.cpp): the actions
      of the editor with their reversals, and that they obey [ReversingLaws].
    - [EditorCommands], [EditorCommandsProps] (GuiMap.cpp, UnitProperties.cpp,
      LocationProperties.cpp): the commands that change tiles, units and
      locations and record their undo; [EditorUndoProps] has the ones whose undo
      does not lead back.
    - [EditorClipboard], [EditorClipboardProps] (Clipboard.cpp): copying,
      pasting and filling.

    ** What is shown

    - Round trips: structure sections ([struct_roundtrip]), STR
      ([str_roundtrip]), KSTR, terrain, placed objects, locations, triggers and
      KTRG read back what they wrote, and so does a whole file
      ([file_roundtrip]); text survives its conversions
      ([convertStr_keeps_raw], [escaped_bytes_roundtrip]).
    - Text triggers: what the generator writes the compiler reads, for triggers
      that have a text and up to the fields that it does not show
      ([text_round_trip]), and the triggers such a text was read to come back as
      they are ([text_fixpoint]).  The
      parser ends on every text and yields triggers whose fields fit their
      widths ([parseTriggers_ends], [parseTriggers_fits]); cleaning a text
      reads each character once when all quotes are closed, and never ends
      when one is not ([cleanText_ends_or_never]).  The names it looks up are those of
      the map ([loaded_names]), and building the new map stores the triggers
      and their texts, or fails and leaves the triggers and the game's strings
      ([buildNewMap_whole], [buildNewMap_edges]).
    - The editor: the borders of a tile selection are its outline
      ([tile_borders]), unless all tiles are selected at once
      ([selectAll_twice]); every location under the cursor is selected within two
      rounds of clicks ([clicks_select_each]); the selection of units follows
      the units when they move ([selection_follows_units]).  The lists of
      undos and redos are an abstract timeline for edits whose actions reverse
      them ([undos_are_timelines]); such edits are the commands of
      [commands_undone], tiles that are the same in MTXM and TILE provided, and
      others are not ([undo_failures]).  Moving units
      to the top keeps their order ([moveTop_spec]); filling replaces the
      connected region of a map whose MTXM and TILE agree ([fill_region]).
    - Files: parsing reads chunk after chunk and ends ([parse_reads_chunks]),
      and the section a scenario uses is the last or the merged one
      ([final_section_merged]); passwords ([setPassword_spec]).
    - Reference definitions: the streaming hash is SHA-256
      ([sha256_streaming], [processBlock_is_compress]); validating a map after
      a change of its dimensions is clamping and filtering
      ([validateSizes_spec]).
    - Scenario classes: references between triggers and their data
      ([fixTriggerExtensions_links]), create-unit slots ([addCuwp_spec]), which
      section a setting is written to and read from ([unit_settings_laws] and
      its companions for upgrades and technologies), owners of players
      ([slot_types]), the change of the version ([changeVersionTo_spec]), names
      that are set are read back ([names_set_and_read]) and kept by the upgrade
      ([upgrade_keeps_names]).
    - Refinement: a member function through the data pointer acts on the
      structure ([struct_viaData]); every section that uses strings obeys one
      contract for deleting, marking, remapping and listing string ids
      ([string_remap_contract] and the others, [trig_string_contracts],
      [mrgn_string_contracts], [mbrf_string_contracts]), and so does the scenario
      ([scenario_string_contracts]), which makes [Strings] a lawful
      synchronizer.
    - String tables: adding, resizing, deleting, defragmenting and moving
      ([addString_spec], [setCapacity_spec], [deleteUnusedStrings_spec],
      [defragment_first_to_zero]); [moveString_down] is about any lawful
      synchronizer that marks what is used, which the scenario does not do when a
      string is moved ([scenario_moveString_overwrites]).  Deleting unused strings over a whole
      scenario keeps exactly those in use ([unused_strings_deleted]).
    - Invariants and bounds: trimming locations keeps the used ones
      ([trim_keeps_locations]), the crop of the fog of war, the accessors of the
      unit, upgrade and technology tables, the tables of arguments, the index
      of extended data.
    - Where the code does not do what it means to, the theorem says what it
      does instead: [struct_oversize_read_dangles], [str_offsets_wrap],
      [deleteGameString_spec], [scenario_moveString_overwrites],
      [mbrf_deleteString_keeps], [trig_remap_locations], [align_packed],
      [move_anywhere], [mask_grow_right], [ktrg_read_written],
      [kstr_single_overruns], [ktgp_size_wrong], [parseChkdBytes_plain],
      [read_jump_diverges], [resave_doubles], [deleteTrigger_last_undef],
      [reset_dangles], [setDimensions_stale], [setTileWidth_ignored] and the
      theorems beside them.

    ** Fuel

    Loops that are not structural have fuel.  The cascade of [moveString] runs
    with one round per id between source and target, which [moveString_down]
    shows to be enough.  The loop of [addExtendedTrigger] over unusable indices
    has fuel 2: no three indices in a row are unusable ([skipUnusable_spec]).
    The parsers of escaped text have one round per character
    ([parse_result]), the full blocks of a hash one per byte.  Removing sections
    has one round per section ([removeSection_filter]).  Parsing a file takes
    its fuel as an argument, since a file can make it loop
    ([read_jump_diverges]); a file of chunks needs one round per chunk and one
    more ([parse_reads_chunks]).  Of a text of [n] characters, cleaning has [n]
    rounds and parsing triggers [2 * (n + 1)] ([parseTriggers_ends]); a text that
    was generated is cleaned and parsed with [4 * n + 2] ([text_round_trip]).  Deleting the
    selected units has one round per selected unit, filling a region four rounds
    per tile and two more ([fill_region]).

    ** What is not modelled

    StarCraft's data files, which are input from the game's archives: the names
    of units are in [ScNames], the extent of a unit is a parameter.  [Buffers]:
    its string builder stands for the list of its characters.  Map files,
    archives and streams on disk.  The Commander library, which is threads and
    logging.  Of the editor: dragging with the mouse, which snaps by
    floating-point numbers, the drawing, the dialogs and the text clipboard of
    Windows.  The wrappers of the Windows API, the vendored libraries, the
    programs and tests.  The graph of parent strings of [ScStr], which no code
    builds.  Duplicates of sections that do not append, in the upgrade of old
    editor strings.  The output to logs.  Failure to allocate.
    [file_roundtrip] leaves out KTRG and KTGP, which do not read back what they
    write within a file ([ktrg_read_written], [ktgp_size_wrong]). *)
From stdpp Require Export base list list_numbers gmap.
From Stdlib Require Export ZArith Lia.

Open Scope Z_scope.

(** ** Outcomes *)

(** The exceptions the modelled functions throw. *)
Inductive exn :=
  | OutOfRange
  | InvalidArgument
  | LengthError
  | NegativeSectionSize
  | MaxSectionSizeExceeded
  | SectionValidationException
  | MaximumStringsExceeded
  | InsufficientStringCapacity
  | MaximumCharactersExceeded
  | StrSerializationFailure
  | InvalidSize.

#[export] Instance exn_eq_dec : EqDecision exn.
Proof. solve_decision. Defined.

(** A C++ call either returns, throws, or has no defined behaviour
    (an out-of-bounds element access, a null or dangling dereference). *)
Inductive outcome (A : Type) : Type :=
  | Ret (a : A)
  | Throw (e : exn)
  | Undef.
Arguments Ret {A} a.
Arguments Throw {A} e.
Arguments Undef {A}.

Definition obind {A B} (o : outcome A) (f : A -> outcome B) : outcome B :=
  match o with
  | Ret a => f a
  | Throw e => Throw e
  | Undef => Undef
  end.

#[export] Instance outcome_eq_dec {A} `{EqDecision A} : EqDecision (outcome A).
Proof. solve_decision. Defined.

Declare Scope cpp_scope.
Delimit Scope cpp_scope with cpp.
Open Scope cpp_scope.

Notation "'let*' x ':=' o 'in' k" := (obind o (fun x => k))
  (at level 10, x pattern, k at level 200) : cpp_scope.

Definition is_ret {A} (o : outcome A) : Prop := exists a, o = Ret a.

Lemma bind_ret {A B} (a : A) (f : A -> outcome B) : (let* x := Ret a in f x) = f a.
Proof. reflexivity. Qed.

Lemma bind_inv {A B} (o : outcome A) (f : A -> outcome B) b :
  (let* x := o in f x) = Ret b -> exists a, o = Ret a /\ f a = Ret b.
Proof. destruct o; cbn; intros H; try discriminate; eauto. Qed.

(** ** Machine integers *)

(** Conversions to the unsigned and signed types of the source. *)
Definition u8 (z : Z) : Z := z mod 2 ^ 8.
Definition u16 (z : Z) : Z := z mod 2 ^ 16.
Definition u32 (z : Z) : Z := z mod 2 ^ 32.
Definition u64 (z : Z) : Z := z mod 2 ^ 64.
Definition s32 (z : Z) : Z := (z + 2 ^ 31) mod 2 ^ 32 - 2 ^ 31.

Definition is_u (bits z : Z) : Prop := 0 <= z < 2 ^ bits.
#[export] Instance is_u_dec bits z : Decision (is_u bits z).
Proof. unfold is_u. apply _. Defined.

Lemma u8_range z : is_u 8 (u8 z).
Proof. apply Z.mod_pos_bound; lia. Qed.
Lemma u16_range z : is_u 16 (u16 z).
Proof. apply Z.mod_pos_bound; lia. Qed.
Lemma u32_range z : is_u 32 (u32 z).
Proof. apply Z.mod_pos_bound; lia. Qed.
Lemma u8_id z : is_u 8 z -> u8 z = z.
Proof. apply Z.mod_small. Qed.
Lemma u16_id z : is_u 16 z -> u16 z = z.
Proof. apply Z.mod_small. Qed.
Lemma u32_id z : is_u 32 z -> u32 z = z.
Proof. apply Z.mod_small. Qed.
Lemma s32_id z : - 2 ^ 31 <= z < 2 ^ 31 -> s32 z = z.
Proof. intros H. unfold s32. rewrite Z.mod_small; lia. Qed.

(** [(flags & mask) == mask] *)
Definition has_flag (flags mask : Z) : bool := Z.land flags mask =? mask.

(** ** Vectors *)

Definition zlen {A} (l : list A) : Z := Z.of_nat (length l).

(** [v[i]]: undefined outside of the vector. *)
Definition vget {A} (l : list A) (i : Z) : outcome A :=
  if i <? 0 then Undef else
  match l !! Z.to_nat i with Some a => Ret a | None => Undef end.

(** [v[i] = a] *)
Definition vset {A} (l : list A) (i : Z) (a : A) : outcome (list A) :=
  if (0 <=? i) && (i <? zlen l) then Ret (<[Z.to_nat i := a]> l) else Undef.

(** [v.insert(std::next(v.begin(), i), a)]: the position must be in
    [[begin, end]]. *)
Definition vinsert {A} (l : list A) (i : Z) (a : A) : outcome (list A) :=
  if (0 <=? i) && (i <=? zlen l)
  then Ret (take (Z.to_nat i) l ++ a :: drop (Z.to_nat i) l) else Undef.

(** [v.insert(v.begin()+i, n, a)] *)
Definition vinsertn {A} (l : list A) (i n : Z) (a : A) : outcome (list A) :=
  if (0 <=? i) && (i <=? zlen l)
  then Ret (take (Z.to_nat i) l ++ replicate (Z.to_nat n) a ++ drop (Z.to_nat i) l)
  else Undef.

(** [v.erase(v.begin()+i)] *)
Definition verase {A} (l : list A) (i : Z) : outcome (list A) :=
  if (0 <=? i) && (i <? zlen l) then Ret (delete (Z.to_nat i) l) else Undef.

(** [v.erase(v.begin()+i, v.begin()+j)] *)
Definition verase_range {A} (l : list A) (i j : Z) : outcome (list A) :=
  if (0 <=? i) && (i <=? j) && (j <=? zlen l)
  then Ret (take (Z.to_nat i) l ++ drop (Z.to_nat j) l) else Undef.

(** ** Loops *)

(** The indices of [for ( i = lo; i < hi; i++ )]. *)
Fixpoint range_from (lo : Z) (n : nat) : list Z :=
  match n with O => [] | S n => lo :: range_from (lo + 1) n end.
Definition range (lo hi : Z) : list Z := range_from lo (Z.to_nat (hi - lo)).

(** [for ( i = lo; i < hi; i++ ) s = body(i, s)] *)
Fixpoint for_each {A S} (body : A -> S -> outcome S) (l : list A) (s : S) : outcome S :=
  match l with
  | [] => Ret s
  | a :: l => let* s' := body a s in for_each body l s'
  end.

(** A loop that returns at the first index whose test succeeds. *)
Fixpoint first_such {A} (p : A -> outcome bool) (l : list A) : outcome (option A) :=
  match l with
  | [] => Ret None
  | a :: l => let* b := p a in if b then Ret (Some a) else first_such p l
  end.

Definition any_such {A} (p : A -> outcome bool) (l : list A) : outcome bool :=
  let* o := first_such p l in Ret (match o with Some _ => true | None => false end).

(** ** Vector lemmas *)

Lemma vget_Some {A} (l : list A) i a : 0 <= i -> l !! Z.to_nat i = Some a -> vget l i = Ret a.
Proof. intros Hi Hl. unfold vget. rewrite (proj2 (Z.ltb_ge _ _)) by lia. by rewrite Hl. Qed.

Lemma vget_inv {A} (l : list A) i a : vget l i = Ret a -> 0 <= i < zlen l /\ l !! Z.to_nat i = Some a.
Proof.
  unfold vget. destruct (Z.ltb_spec i 0); [done|]. destruct (l !! Z.to_nat i) as [x|] eqn:E; [|done].
  intros [= ->]. assert (Hl := lookup_lt_Some _ _ _ E). unfold zlen. split; [lia|done].
Qed.

Lemma vget_in {A} (l : list A) i : 0 <= i < zlen l ->
  exists a, l !! Z.to_nat i = Some a /\ vget l i = Ret a.
Proof.
  intros Hi. unfold zlen in Hi.
  destruct (lookup_lt_is_Some_2 l (Z.to_nat i)) as [a Ha]; [lia|].
  exists a; split; [done|]. by apply vget_Some; [lia|].
Qed.

Lemma vget_elem {A} (l : list A) i a : vget l i = Ret a -> a ∈ l.
Proof.
  unfold vget. destruct (i <? 0); [done|].
  destruct (l !! Z.to_nat i) eqn:E; [|done]. intros [= <-]. by eapply list_elem_of_lookup_2.
Qed.

Lemma vset_in {A} (l : list A) i a : 0 <= i < zlen l -> vset l i a = Ret (<[Z.to_nat i := a]> l).
Proof.
  intros [Hi Hl]. unfold vset.
  by rewrite (proj2 (Z.leb_le _ _) Hi), (proj2 (Z.ltb_lt _ _) Hl).
Qed.

Lemma zlen_insert {A} (l : list A) i a : zlen (<[i := a]> l) = zlen l.
Proof. unfold zlen. by rewrite length_insert. Qed.

Lemma vget_vset {A} (l : list A) i j a : 0 <= i < zlen l -> 0 <= j ->
  vget (<[Z.to_nat i := a]> l) j = if decide (j = i) then Ret a else vget l j.
Proof.
  intros Hi Hj. unfold vget. rewrite (proj2 (Z.ltb_ge j 0)) by lia.
  unfold zlen in Hi. case_decide as E.
  - subst j. by rewrite list_lookup_insert_eq by lia.
  - by rewrite list_lookup_insert_ne by lia.
Qed.

Lemma vget_out {A} (l : list A) i : zlen l <= i -> vget l i = Undef.
Proof.
  intros Hi. unfold vget, zlen in *. destruct (i <? 0); [done|].
  by rewrite lookup_ge_None_2 by lia.
Qed.

Lemma zlen_nonneg {A} (l : list A) : 0 <= zlen l.
Proof. unfold zlen; lia. Qed.

Lemma zlen_app {A} (l k : list A) : zlen (l ++ k) = zlen l + zlen k.
Proof. unfold zlen. rewrite length_app. lia. Qed.

Lemma zlen_cons {A} (a : A) l : zlen (a :: l) = 1 + zlen l.
Proof. unfold zlen. simpl length. lia. Qed.

Lemma zlen_replicate {A} n (a : A) : 0 <= n -> zlen (replicate (Z.to_nat n) a) = n.
Proof. intros. unfold zlen. rewrite length_replicate. lia. Qed.

(** ** Loop lemmas *)

Lemma range_seqZ lo hi : range lo hi = seqZ lo (hi - lo).
Proof.
  unfold range, seqZ. generalize (Z.to_nat (hi - lo)) as n. intros n. revert lo. induction n as [|n IH]; intros lo; [done|].
  cbn [range_from seq]. rewrite IH, <- fmap_S_seq, fmap_cons, <- list_fmap_compose. f_equal.
  apply list_fmap_ext. intros i x _. cbn. lia.
Qed.

Lemma range_empty lo hi : hi <= lo -> range lo hi = [].
Proof. intros. rewrite range_seqZ. apply seqZ_nil. lia. Qed.

Lemma range_cons lo hi : lo < hi -> range lo hi = lo :: range (lo + 1) hi.
Proof.
  intros. rewrite !range_seqZ, seqZ_cons by lia. f_equal. f_equal; lia.
Qed.

Lemma elem_of_range lo hi i : i ∈ range lo hi <-> lo <= i < hi.
Proof. rewrite range_seqZ, elem_of_seqZ. lia. Qed.

(** Induction over the indices that are left in an ascending loop. *)
Lemma range_ind (hi : Z) (P : Z -> Prop) :
  (forall lo, hi <= lo -> P lo) -> (forall lo, lo < hi -> P (lo + 1) -> P lo) ->
  forall lo, P lo.
Proof.
  intros Hb Hs lo. remember (Z.to_nat (hi - lo)) as n eqn:En. revert lo En.
  induction n as [|n IH]; intros lo En; [apply Hb; lia|].
  apply Hs; [lia|]. apply IH. lia.
Qed.

(** A search that scans a vector by index: it returns, with the first hit. *)
Lemma first_such_vget {A} (l : list A) (q : Z -> A -> bool) N lo :
  zlen l = N -> 0 <= lo ->
  exists o, first_such (fun i => let* v := vget l i in Ret (q i v)) (range lo N) = Ret o /\
    match o with
    | Some i => lo <= i < N /\ (exists v, vget l i = Ret v /\ q i v = true) /\
        forall j v, lo <= j < i -> vget l j = Ret v -> q j v = false
    | None => forall j v, lo <= j < N -> vget l j = Ret v -> q j v = false
    end.
Proof.
  intros HN. revert lo. apply (range_ind N (fun lo => 0 <= lo -> _)).
  - intros lo Hlo _. rewrite range_empty by done. exists None. split; [done|]. intros; lia.
  - intros lo Hlo IH Hpos. rewrite range_cons by done. cbn [first_such].
    destruct (vget_in l lo) as (v & _ & Hv); [lia|]. rewrite Hv; cbn [obind].
    destruct (q lo v) eqn:Hq.
    { exists (Some lo). split; [done|]. split; [lia|]. split; [eauto|]. intros; lia. }
    destruct IH as (o & Ho & Hspec); [lia|]. exists o. split; [done|].
    assert (Hlow : forall w, vget l lo = Ret w -> q lo w = false).
    { intros w Hw. rewrite Hv in Hw. by injection Hw as <-. }
    destruct o as [i|].
    + destruct Hspec as (Hi & Hhit & Hbefore). split; [lia|]. split; [done|].
      intros j w Hj Hw. destruct (decide (j = lo)) as [->|]; [auto|]. apply Hbefore; [lia|done].
    + intros j w Hj Hw. destruct (decide (j = lo)) as [->|]; [auto|]. apply Hspec; [lia|done].
Qed.

(** An ascending loop that rewrites every element of a vector in place, from
    the end of a prefix on. *)
Lemma for_each_update_from {A} (f : A -> A) (P : A -> Prop)
    (body : Z -> list A -> outcome (list A)) :
  (forall i l v, 0 <= i -> P v -> l !! Z.to_nat i = Some v ->
     body i l = Ret (<[Z.to_nat i := f v]> l)) ->
  forall rest pre N, Forall P rest -> zlen pre + zlen rest = N ->
    for_each body (range (zlen pre) N) (pre ++ rest) = Ret (pre ++ (f <$> rest)).
Proof.
  intros Hbody rest. induction rest as [|x rest IH]; intros pre N HP HN.
  - rewrite range_empty; [done|]. unfold zlen in HN. simpl in HN. unfold zlen. lia.
  - apply Forall_cons in HP as [Hx HP].
    rewrite zlen_cons in HN. pose proof (zlen_nonneg rest).
    rewrite range_cons by lia. cbn [for_each].
    assert (Hn : Z.to_nat (zlen pre) = length pre) by (unfold zlen; lia).
    rewrite (Hbody _ _ x); [|apply zlen_nonneg|done|by rewrite Hn, list_lookup_middle].
    cbn [obind]. rewrite Hn, <- (Nat.add_0_r (length pre)), insert_app_r. cbn.
    rewrite (cons_middle (f x)), app_assoc.
    replace (zlen pre + 1) with (zlen (pre ++ [f x])) by (rewrite zlen_app, zlen_cons; done).
    rewrite IH; [by rewrite <- app_assoc|done|].
    rewrite zlen_app, zlen_cons. unfold zlen in *; simpl; lia.
Qed.

Lemma for_each_update {A} (f : A -> A) (body : Z -> list A -> outcome (list A)) :
  (forall i l v, 0 <= i -> l !! Z.to_nat i = Some v -> body i l = Ret (<[Z.to_nat i := f v]> l)) ->
  forall l N, zlen l = N -> for_each body (range 0 N) l = Ret (f <$> l).
Proof.
  intros Hbody l N HN. refine (for_each_update_from f (fun _ => True) body _ l [] N _ _); auto.
  by apply Forall_true.
Qed.

(** Loops with the same body. *)
Lemma for_each_ext {A S} (f g : A -> S -> outcome S) l s :
  (forall a s, f a s = g a s) -> for_each f l s = for_each g l s.
Proof.
  intros H. revert s. induction l as [|a l IH]; intros s; [done|]. cbn. rewrite H.
  destruct (g a s); [apply IH | done | done].
Qed.

(** Loops that only read a vector by index are loops over its elements. *)
Lemma for_each_read_at {A S} (k : Z -> A -> S -> outcome S) (l : list A) lo hi s (v : Z -> outcome A) :
  hi - lo = zlen l -> (forall i a, l !! i = Some a -> v (lo + Z.of_nat i) = Ret a) ->
  for_each (fun i s => let* a := v i in k i a s) (range lo hi) s =
  for_each (fun p s => k p.1 p.2 s) (zip (range lo hi) l) s.
Proof.
  revert lo s. induction l as [|x l IH]; intros lo s Hlen Hv.
  - rewrite range_empty; [done|]. unfold zlen in Hlen; simpl in Hlen; lia.
  - rewrite zlen_cons in Hlen. pose proof (zlen_nonneg l).
    rewrite range_cons by lia. cbn [for_each zip zip_with fst snd].
    assert (Hx := Hv 0%nat x eq_refl). rewrite Z.add_0_r in Hx. rewrite Hx. cbn [obind].
    destruct (k lo x s) as [s'|e|]; [cbn [obind]|done|done].
    apply IH; [lia|]. intros i a Hi. rewrite <- (Hv (Datatypes.S i) a Hi). f_equal. lia.
Qed.

Lemma for_each_read {A S} (k : Z -> A -> S -> outcome S) (l : list A) N s :
  zlen l = N ->
  for_each (fun i s => let* a := vget l i in k i a s) (range 0 N) s =
  for_each (fun p s => k p.1 p.2 s) (zip (range 0 N) l) s.
Proof.
  intros HN. apply for_each_read_at; [lia|]. intros i a Hi.
  apply vget_Some; [lia|]. by rewrite Z.add_0_l, Nat2Z.id.
Qed.

Lemma any_such_read {A} (q : A -> bool) (l : list A) N :
  zlen l = N -> any_such (fun i => let* a := vget l i in Ret (q a)) (range 0 N) = Ret (existsb q l).
Proof.
  intros HN. destruct (first_such_vget l (fun _ => q) N 0 HN ltac:(lia)) as (o & Ho & Hs).
  unfold any_such. rewrite Ho. cbn [obind]. f_equal. symmetry. destruct o as [i|].
  - destruct Hs as (_ & (v & Hv & Hq) & _). apply existsb_exists. exists v.
    split; [by eapply list_elem_of_In, vget_elem | done].
  - apply not_true_is_false. intros (x & Hx & Hq)%existsb_exists.
    apply list_elem_of_In, list_elem_of_lookup_1 in Hx as [i Hi].
    assert (Hlt := lookup_lt_Some _ _ _ Hi).
    rewrite (Hs (Z.of_nat i) x) in Hq; [done| unfold zlen in HN; lia |].
    apply vget_Some; [lia|]. by rewrite Nat2Z.id.
Qed.

(** Short-circuit disjunction of two tests. *)
Definition oor (a b : outcome bool) : outcome bool :=
  let* x := a in if x then Ret true else b.

Lemma oor_ret a b : oor (Ret a) (Ret b) = Ret (a || b).
Proof. by destruct a. Qed.

(** A property every step of a loop establishes holds when the loop ends. *)
Lemma for_each_inv {A S} (P : S -> Prop) (body : A -> S -> outcome S) l s s' :
  (forall a s s', P s -> body a s = Ret s' -> P s') ->
  P s -> for_each body l s = Ret s' -> P s'.
Proof.
  intros Hstep. revert s. induction l as [|a l IH]; intros s Hs; cbn [for_each].
  - by intros [= <-].
  - intros (s1 & H1 & H2)%bind_inv. eauto.
Qed.

(** An ascending loop whose every iteration returns and takes the invariant
    of its index to that of the next one. *)
Lemma for_each_range_inv {S} (P : Z -> S -> Prop) (body : Z -> S -> outcome S) lo hi s :
  lo <= hi ->
  (forall i s, lo <= i < hi -> P i s -> exists s', body i s = Ret s' /\ P (i + 1) s') ->
  P lo s -> exists s', for_each body (range lo hi) s = Ret s' /\ P hi s'.
Proof.
  intros Hle Hstep. revert lo s Hle Hstep.
  apply (range_ind hi (fun lo => forall s, lo <= hi -> _ -> P lo s -> _)).
  - intros lo Hge s Hle _ Hs. assert (lo = hi) as -> by lia.
    rewrite range_empty by lia. eexists; split; [reflexivity | done].
  - intros lo Hlt IH s Hle Hstep Hs. rewrite range_cons by done. cbn [for_each].
    destruct (Hstep lo s) as (s1 & -> & Hs1); [lia | done|]. cbn [obind].
    apply IH; [lia | | done]. intros i s' Hi. apply Hstep. lia.
Qed.

(** ** Automation *)

(** [cpp] holds the reductions every component uses: a monadic step whose
    result is known, accesses inside of a vector. *)
Create HintDb cpp.
Create Rewrite HintDb cpp.
#[export] Hint Resolve zlen_nonneg u8_range u16_range u32_range : cpp.
#[export] Hint Rewrite @zlen_app @zlen_cons @zlen_insert @bind_ret : cpp.

(** Invert a sequence of steps that returned. *)
Ltac ret_inv :=
  repeat match goal with
  | H : obind ?o _ = Ret _ |- _ =>
      let a := fresh "a" in let E := fresh "E" in
      apply bind_inv in H; destruct H as (a & E & H)
  | H : Ret _ = Ret _ |- _ => injection H as H; subst
  | H : Throw _ = Ret _ |- _ => discriminate H
  | H : Undef = Ret _ |- _ => discriminate H
  end.

(** Decide the comparisons of a guard. *)
Ltac zb :=
  repeat match goal with
  | |- context [?a <? ?b] => destruct (Z.ltb_spec a b); try lia
  | |- context [?a <=? ?b] => destruct (Z.leb_spec a b); try lia
  | |- context [?a =? ?b] => destruct (Z.eqb_spec a b); try lia
  end.
