(* ===== verification/Codec.v ===== *)
(** Byte layouts of the packed structures of [Chk.h].

    The scenario file is read and written by casting a structure to
    [char*] ([#pragma pack(1)], little endian).  A [codec A] gives the size
    of such a structure, the values that inhabit it ([cwf]), its bytes and
    the value a run of bytes denotes; [CodecOk] is what the sections rely
    on.  Integers, fixed arrays and consecutive members are the
    combinators; [ChkTypes] builds every structure from them. *)
From S2P Require Import Prelude.
Open Scope Z_scope.

Abbreviation bytes := (list Z).
Abbreviation is_bytes := (Forall (is_u 8)).

Record codec (A : Type) := Codec {
  csize : nat;
  cwf : A -> Prop;
  cenc : A -> bytes;
  cdec : bytes -> A
}.
Arguments Codec {A}. Arguments csize {A}. Arguments cwf {A}.
Arguments cenc {A}. Arguments cdec {A}.

Class CodecOk {A} (c : codec A) : Prop := {
  enc_length : forall a, cwf c a -> length (cenc c a) = csize c;
  enc_bytes : forall a, cwf c a -> is_bytes (cenc c a);
  dec_wf : forall bs, is_bytes bs -> (csize c <= length bs)%nat -> cwf c (cdec c bs);
  dec_enc : forall a rest, cwf c a -> cdec c (cenc c a ++ rest) = a;
  enc_dec : forall bs, is_bytes bs -> (csize c <= length bs)%nat ->
    cenc c (cdec c bs) = take (csize c) bs
}.

Lemma dec_enc' {A} (c : codec A) `{!CodecOk c} a : cwf c a -> cdec c (cenc c a) = a.
Proof. intros H. rewrite <- (app_nil_r (cenc c a)). by apply dec_enc. Qed.

(** ** Little-endian integers *)

Fixpoint le_enc (n : nat) (z : Z) : bytes :=
  match n with
  | O => []
  | S n => z mod 256 :: le_enc n (z / 256)
  end.

Fixpoint le_dec (n : nat) (bs : bytes) : Z :=
  match n, bs with
  | S n, b :: bs => b + 256 * le_dec n bs
  | _, _ => 0
  end.

Definition le_codec (n : nat) : codec Z :=
  Codec n (is_u (8 * Z.of_nat n)) (le_enc n) (le_dec n).

Lemma pow_succ8 n : 2 ^ (8 * Z.of_nat (S n)) = 256 * 2 ^ (8 * Z.of_nat n).
Proof. replace (8 * Z.of_nat (S n)) with (8 + 8 * Z.of_nat n) by lia. by rewrite Z.pow_add_r by lia. Qed.

Lemma le_enc_length n z : length (le_enc n z) = n.
Proof. revert z; induction n; simpl; intros; auto. Qed.

Lemma le_enc_bytes n z : is_bytes (le_enc n z).
Proof.
  revert z; induction n; intros z; simpl; constructor; auto.
  apply Z.mod_pos_bound; lia.
Qed.

Lemma le_dec_range n bs :
  is_bytes bs -> (n <= length bs)%nat -> is_u (8 * Z.of_nat n) (le_dec n bs).
Proof.
  revert bs; induction n; intros bs Hb Hl; [by vm_compute|].
  destruct Hb as [|b bs Hx Hb]; simpl in Hl; [lia|].
  specialize (IHn bs Hb ltac:(lia)). unfold is_u in *.
  rewrite pow_succ8. cbn [le_dec]. lia.
Qed.

Lemma le_dec_enc n z rest :
  is_u (8 * Z.of_nat n) z -> le_dec n (le_enc n z ++ rest) = z.
Proof.
  revert z; induction n; intros z Hz.
  { unfold is_u in Hz; simpl in *. lia. }
  cbn [le_enc app le_dec]. unfold is_u in *. rewrite pow_succ8 in Hz.
  rewrite IHn; [pose proof (Z.div_mod z 256); lia|].
  split; [apply Z.div_pos; lia | apply Z.div_lt_upper_bound; lia].
Qed.

Lemma le_enc_dec n bs :
  is_bytes bs -> (n <= length bs)%nat -> le_enc n (le_dec n bs) = take n bs.
Proof.
  revert bs; induction n; intros bs Hb Hl; [done|].
  destruct Hb as [|b bs Hx Hb]; simpl in Hl; [lia|].
  cbn [le_dec le_enc take]. unfold is_u in Hx.
  rewrite Z.add_comm, Z.mul_comm, Z.div_add_l, (Z.div_small b) by lia.
  rewrite Z.add_comm, Z.mod_add, Z.mod_small, Z.add_0_r by lia.
  by rewrite IHn by (auto; lia).
Qed.

#[export] Instance le_codec_ok n : CodecOk (le_codec n).
Proof.
  split; simpl; intros.
  - apply le_enc_length.
  - apply le_enc_bytes.
  - by apply le_dec_range.
  - by apply le_dec_enc.
  - by apply le_enc_dec.
Qed.

Abbreviation u8c := (le_codec 1).
Abbreviation u16c := (le_codec 2).
Abbreviation u32c := (le_codec 4).

(** ** Consecutive members *)

Definition pair_codec {A B} (a : codec A) (b : codec B) : codec (A * B) :=
  Codec (csize a + csize b)
    (fun p => cwf a p.1 /\ cwf b p.2)
    (fun p => cenc a p.1 ++ cenc b p.2)
    (fun bs => (cdec a bs, cdec b (drop (csize a) bs))).

#[export] Instance pair_codec_ok {A B} (a : codec A) (b : codec B)
  `{!CodecOk a, !CodecOk b} : CodecOk (pair_codec a b).
Proof.
  split; simpl.
  - intros [x y] [Hx Hy]; simpl. by rewrite length_app, !enc_length.
  - intros [x y] [Hx Hy]; simpl. apply Forall_app; split; by apply enc_bytes.
  - intros bs Hb Hl; split; apply dec_wf; try done; try lia.
    + by apply Forall_drop.
    + rewrite length_drop; lia.
  - intros [x y] rest [Hx Hy]; simpl in *. rewrite <- app_assoc, dec_enc by done.
    rewrite drop_app_length' by (by rewrite enc_length). by rewrite dec_enc.
  - intros bs Hb Hl. rewrite enc_dec by (auto; lia).
    rewrite enc_dec by (rewrite ?length_drop; auto using Forall_drop; lia).
    rewrite <- (take_drop (csize a) (take (csize a + csize b) bs)).
    rewrite take_take, skipn_firstn_comm. f_equal; f_equal; lia.
Qed.

(** ** Fixed arrays *)

Fixpoint arr_enc {A} (c : codec A) (l : list A) : bytes :=
  match l with [] => [] | x :: l => cenc c x ++ arr_enc c l end.

Fixpoint arr_dec {A} (c : codec A) (n : nat) (bs : bytes) : list A :=
  match n with O => [] | S n => cdec c bs :: arr_dec c n (drop (csize c) bs) end.

Definition array_codec {A} (n : nat) (c : codec A) : codec (list A) :=
  Codec (n * csize c) (fun l => length l = n /\ Forall (cwf c) l) (arr_enc c) (arr_dec c n).

Section arrays.
Context {A} (c : codec A) `{!CodecOk c}.

Lemma arr_enc_length l : Forall (cwf c) l -> length (arr_enc c l) = (length l * csize c)%nat.
Proof. induction 1; simpl; [done|]. rewrite length_app, enc_length by done. lia. Qed.

Lemma arr_enc_bytes l : Forall (cwf c) l -> is_bytes (arr_enc c l).
Proof. induction 1; simpl; [done|]. apply Forall_app; split; auto using enc_bytes. Qed.

Lemma arr_dec_length n bs : length (arr_dec c n bs) = n.
Proof. revert bs; induction n; simpl; auto. Qed.

Lemma arr_dec_wf n bs :
  is_bytes bs -> (n * csize c <= length bs)%nat -> Forall (cwf c) (arr_dec c n bs).
Proof.
  revert bs; induction n; intros bs Hb Hl; simpl; constructor.
  - apply dec_wf; auto; simpl in Hl; lia.
  - apply IHn; [by apply Forall_drop|]. rewrite length_drop. simpl in Hl; lia.
Qed.

Lemma arr_dec_enc l rest :
  Forall (cwf c) l -> arr_dec c (length l) (arr_enc c l ++ rest) = l.
Proof.
  induction 1; simpl; [done|]. rewrite <- app_assoc, dec_enc by done.
  rewrite drop_app_length' by (by rewrite enc_length). by f_equal.
Qed.

Lemma arr_enc_dec n bs :
  is_bytes bs -> (n * csize c <= length bs)%nat ->
  arr_enc c (arr_dec c n bs) = take (n * csize c) bs.
Proof.
  revert bs; induction n; intros bs Hb Hl; simpl; [done|]. simpl in Hl.
  rewrite enc_dec by (auto; lia).
  rewrite IHn by (rewrite ?length_drop; auto using Forall_drop; lia).
  rewrite <- (take_drop (csize c) (take (csize c + n * csize c) bs)).
  rewrite take_take, skipn_firstn_comm. f_equal; f_equal; lia.
Qed.

#[export] Instance array_codec_ok n : CodecOk (array_codec n c).
Proof.
  split; simpl.
  - intros l [<- Hl]. by apply arr_enc_length.
  - intros l [<- Hl]. by apply arr_enc_bytes.
  - intros bs Hb Hl; split; [apply arr_dec_length | by apply arr_dec_wf].
  - intros l rest [<- Hl]. by apply arr_dec_enc.
  - by apply arr_enc_dec.
Qed.
End arrays.

(** ** A structure from the tuple of its members *)

Definition iso_codec {A B} (c : codec A) (mk : A -> B) (un : B -> A) : codec B :=
  Codec (csize c) (fun b => cwf c (un b)) (fun b => cenc c (un b)) (fun bs => mk (cdec c bs)).

Lemma iso_codec_ok {A B} (c : codec A) (mk : A -> B) (un : B -> A) `{!CodecOk c} :
  (forall a, un (mk a) = a) -> (forall b, mk (un b) = b) -> CodecOk (iso_codec c mk un).
Proof.
  intros Hum Hmu. split; simpl; intros.
  - by apply enc_length.
  - by apply enc_bytes.
  - rewrite Hum. by apply dec_wf.
  - by rewrite dec_enc.
  - rewrite Hum. by apply enc_dec.
Qed.

(** ** Well-formedness is decidable *)

Class CwfDec {A} (c : codec A) := cwf_dec : forall a, Decision (cwf c a).

#[export] Instance le_codec_dec n : CwfDec (le_codec n).
Proof. intros z; cbn; apply _. Defined.
#[export] Instance pair_codec_dec {A B} (a : codec A) (b : codec B) `{!CwfDec a, !CwfDec b} :
  CwfDec (pair_codec a b).
Proof. intros p. apply and_dec; apply cwf_dec. Defined.
#[export] Instance array_codec_dec {A} (c : codec A) n `{!CwfDec c} : CwfDec (array_codec n c).
Proof. intros l. apply and_dec; [apply _|]. apply Forall_dec. intros x. apply cwf_dec. Defined.
#[export] Instance iso_codec_dec {A B} (c : codec A) (mk : A -> B) (un : B -> A) `{!CwfDec c} :
  CwfDec (iso_codec c mk un).
Proof. intros b. exact (cwf_dec (un b)). Defined.

Declare Scope codec_scope.
Delimit Scope codec_scope with codec.
Notation "a ** b" := (pair_codec a b) (at level 40, left associativity) : codec_scope.
Notation "c ⟦ n ⟧" := (array_codec (Z.to_nat n) c) (at level 1, n at level 200, format "c ⟦ n ⟧") : codec_scope.
