(* ===== verification/ChkTypes.v ===== *)
(** The structures of [Chk.h] and the array bounds of [Sc.h], member for
    member, with their byte layouts.

    Enumerations of the source ([enum_t]) are one-to-one with their
    underlying integer type, so an enumerated member is that integer.  Each
    module holds one structure: the record, its [layout] (a codec in the
    order of the members), the proof that the layout is lawful, and an
    [Updater] per member for [s <| member := v |>], an assignment to the
    member. *)
From S2P Require Import Prelude Codec.
Open Scope Z_scope.

(** ** Member assignment *)

Class Updater {S V} (f : S -> V) := {
  upd : V -> S -> S;
  upd_get : forall v s, f (upd v s) = v;
  upd_upd : forall v w s, upd v (upd w s) = upd v s
}.
Arguments upd {S V} f {_}.
Notation "s <| f := v |>" := (upd f v s)
  (at level 1, f at level 200) : cpp_scope.

(** ** Array bounds *)

Definition Player_Total : Z := 12.
Definition Player_TotalSlots : Z := 8.
Definition Unit_TotalTypes : Z := 228.
Definition MaxCuwps : Z := 64.
Definition Upgrade_TotalOriginalTypes : Z := 46.
Definition Upgrade_TotalTypes : Z := 61.
Definition Tech_TotalOriginalTypes : Z := 24.
Definition Tech_TotalTypes : Z := 44.
Definition Weapon_TotalOriginal : Z := 100.
Definition Weapon_Total : Z := 130.
Definition TotalValidationSeeds : Z := 256.
Definition TotalValidationOpCodes : Z := 16.
Definition MaxStrings : Z := 65536.
Definition TotalOriginalLocations : Z := 64.
Definition TotalLocations : Z := 255.
Definition LocationId_NoLocation : Z := 0.
Definition LocationId_Anywhere : Z := 64.
Definition TotalForces : Z := 4.
Definition TotalSounds : Z := 512.
Definition TotalSwitches : Z := 256.
Definition MaxConditions : Z := 16.
Definition MaxActions : Z := 64.
Definition MaxOwners : Z := 27.

Ltac solve_layout :=
  apply iso_codec_ok; [apply _ | intros; repeat match goal with x : _ * _ |- _ => destruct x end; reflexivity | by intros []].

Module Unit.
Record Unit := mkUnit {
  classId : Z;
  xc : Z;
  yc : Z;
  type : Z;
  relationFlags : Z;
  validStateFlags : Z;
  validFieldFlags : Z;
  owner : Z;
  hitpointPercent : Z;
  shieldPercent : Z;
  energyPercent : Z;
  resourceAmount : Z;
  hangerAmount : Z;
  stateFlags : Z;
  unused : Z;
  relationClassId : Z
}.
Definition layout : codec Unit := iso_codec
  (u32c **
   u16c **
   u16c **
   u16c **
   u16c **
   u16c **
   u16c **
   u8c **
   u8c **
   u8c **
   u8c **
   u32c **
   u16c **
   u16c **
   u32c **
   u32c)%codec
  (fun '(x0, x1, x2, x3, x4, x5, x6, x7, x8, x9, x10, x11, x12, x13, x14, x15) => mkUnit x0 x1 x2 x3 x4 x5 x6 x7 x8 x9 x10 x11 x12 x13 x14 x15)
  (fun s => (classId s, xc s, yc s, type s, relationFlags s, validStateFlags s, validFieldFlags s, owner s, hitpointPercent s, shieldPercent s, energyPercent s, resourceAmount s, hangerAmount s, stateFlags s, unused s, relationClassId s)).
#[global] Instance layout_ok : CodecOk layout.
Proof. solve_layout. Qed.
#[global] Instance layout_dec : CwfDec layout.
Proof. unfold layout; apply _. Defined.
#[global] Instance upd_classId : Updater classId :=
  {| upd v s := mkUnit v (xc s) (yc s) (type s) (relationFlags s) (validStateFlags s) (validFieldFlags s) (owner s) (hitpointPercent s) (shieldPercent s) (energyPercent s) (resourceAmount s) (hangerAmount s) (stateFlags s) (unused s) (relationClassId s); upd_get v s := eq_refl; upd_upd v w s := eq_refl |}.
#[global] Instance upd_xc : Updater xc :=
  {| upd v s := mkUnit (classId s) v (yc s) (type s) (relationFlags s) (validStateFlags s) (validFieldFlags s) (owner s) (hitpointPercent s) (shieldPercent s) (energyPercent s) (resourceAmount s) (hangerAmount s) (stateFlags s) (unused s) (relationClassId s); upd_get v s := eq_refl; upd_upd v w s := eq_refl |}.
#[global] Instance upd_yc : Updater yc :=
  {| upd v s := mkUnit (classId s) (xc s) v (type s) (relationFlags s) (validStateFlags s) (validFieldFlags s) (owner s) (hitpointPercent s) (shieldPercent s) (energyPercent s) (resourceAmount s) (hangerAmount s) (stateFlags s) (unused s) (relationClassId s); upd_get v s := eq_refl; upd_upd v w s := eq_refl |}.
#[global] Instance upd_type : Updater type :=
  {| upd v s := mkUnit (classId s) (xc s) (yc s) v (relationFlags s) (validStateFlags s) (validFieldFlags s) (owner s) (hitpointPercent s) (shieldPercent s) (energyPercent s) (resourceAmount s) (hangerAmount s) (stateFlags s) (unused s) (relationClassId s); upd_get v s := eq_refl; upd_upd v w s := eq_refl |}.
#[global] Instance upd_relationFlags : Updater relationFlags :=
  {| upd v s := mkUnit (classId s) (xc s) (yc s) (type s) v (validStateFlags s) (validFieldFlags s) (owner s) (hitpointPercent s) (shieldPercent s) (energyPercent s) (resourceAmount s) (hangerAmount s) (stateFlags s) (unused s) (relationClassId s); upd_get v s := eq_refl; upd_upd v w s := eq_refl |}.
#[global] Instance upd_validStateFlags : Updater validStateFlags :=
  {| upd v s := mkUnit (classId s) (xc s) (yc s) (type s) (relationFlags s) v (validFieldFlags s) (owner s) (hitpointPercent s) (shieldPercent s) (energyPercent s) (resourceAmount s) (hangerAmount s) (stateFlags s) (unused s) (relationClassId s); upd_get v s := eq_refl; upd_upd v w s := eq_refl |}.
#[global] Instance upd_validFieldFlags : Updater validFieldFlags :=
  {| upd v s := mkUnit (classId s) (xc s) (yc s) (type s) (relationFlags s) (validStateFlags s) v (owner s) (hitpointPercent s) (shieldPercent s) (energyPercent s) (resourceAmount s) (hangerAmount s) (stateFlags s) (unused s) (relationClassId s); upd_get v s := eq_refl; upd_upd v w s := eq_refl |}.
#[global] Instance upd_owner : Updater owner :=
  {| upd v s := mkUnit (classId s) (xc s) (yc s) (type s) (relationFlags s) (validStateFlags s) (validFieldFlags s) v (hitpointPercent s) (shieldPercent s) (energyPercent s) (resourceAmount s) (hangerAmount s) (stateFlags s) (unused s) (relationClassId s); upd_get v s := eq_refl; upd_upd v w s := eq_refl |}.
#[global] Instance upd_hitpointPercent : Updater hitpointPercent :=
  {| upd v s := mkUnit (classId s) (xc s) (yc s) (type s) (relationFlags s) (validStateFlags s) (validFieldFlags s) (owner s) v (shieldPercent s) (energyPercent s) (resourceAmount s) (hangerAmount s) (stateFlags s) (unused s) (relationClassId s); upd_get v s := eq_refl; upd_upd v w s := eq_refl |}.
#[global] Instance upd_shieldPercent : Updater shieldPercent :=
  {| upd v s := mkUnit (classId s) (xc s) (yc s) (type s) (relationFlags s) (validStateFlags s) (validFieldFlags s) (owner s) (hitpointPercent s) v (energyPercent s) (resourceAmount s) (hangerAmount s) (stateFlags s) (unused s) (relationClassId s); upd_get v s := eq_refl; upd_upd v w s := eq_refl |}.
#[global] Instance upd_energyPercent : Updater energyPercent :=
  {| upd v s := mkUnit (classId s) (xc s) (yc s) (type s) (relationFlags s) (validStateFlags s) (validFieldFlags s) (owner s) (hitpointPercent s) (shieldPercent s) v (resourceAmount s) (hangerAmount s) (stateFlags s) (unused s) (relationClassId s); upd_get v s := eq_refl; upd_upd v w s := eq_refl |}.
#[global] Instance upd_resourceAmount : Updater resourceAmount :=
  {| upd v s := mkUnit (classId s) (xc s) (yc s) (type s) (relationFlags s) (validStateFlags s) (validFieldFlags s) (owner s) (hitpointPercent s) (shieldPercent s) (energyPercent s) v (hangerAmount s) (stateFlags s) (unused s) (relationClassId s); upd_get v s := eq_refl; upd_upd v w s := eq_refl |}.
#[global] Instance upd_hangerAmount : Updater hangerAmount :=
  {| upd v s := mkUnit (classId s) (xc s) (yc s) (type s) (relationFlags s) (validStateFlags s) (validFieldFlags s) (owner s) (hitpointPercent s) (shieldPercent s) (energyPercent s) (resourceAmount s) v (stateFlags s) (unused s) (relationClassId s); upd_get v s := eq_refl; upd_upd v w s := eq_refl |}.
#[global] Instance upd_stateFlags : Updater stateFlags :=
  {| upd v s := mkUnit (classId s) (xc s) (yc s) (type s) (relationFlags s) (validStateFlags s) (validFieldFlags s) (owner s) (hitpointPercent s) (shieldPercent s) (energyPercent s) (resourceAmount s) (hangerAmount s) v (unused s) (relationClassId s); upd_get v s := eq_refl; upd_upd v w s := eq_refl |}.
#[global] Instance upd_unused : Updater unused :=
  {| upd v s := mkUnit (classId s) (xc s) (yc s) (type s) (relationFlags s) (validStateFlags s) (validFieldFlags s) (owner s) (hitpointPercent s) (shieldPercent s) (energyPercent s) (resourceAmount s) (hangerAmount s) (stateFlags s) v (relationClassId s); upd_get v s := eq_refl; upd_upd v w s := eq_refl |}.
#[global] Instance upd_relationClassId : Updater relationClassId :=
  {| upd v s := mkUnit (classId s) (xc s) (yc s) (type s) (relationFlags s) (validStateFlags s) (validFieldFlags s) (owner s) (hitpointPercent s) (shieldPercent s) (energyPercent s) (resourceAmount s) (hangerAmount s) (stateFlags s) (unused s) v; upd_get v s := eq_refl; upd_upd v w s := eq_refl |}.
End Unit.

Module IsomEntry.
Record IsomEntry := mkIsomEntry {
  left : Z;
  top : Z;
  right : Z;
  bottom : Z
}.
Definition layout : codec IsomEntry := iso_codec
  (u16c **
   u16c **
   u16c **
   u16c)%codec
  (fun '(x0, x1, x2, x3) => mkIsomEntry x0 x1 x2 x3)
  (fun s => (left s, top s, right s, bottom s)).
#[global] Instance layout_ok : CodecOk layout.
Proof. solve_layout. Qed.
#[global] Instance layout_dec : CwfDec layout.
Proof. unfold layout; apply _. Defined.
#[global] Instance upd_left : Updater left :=
  {| upd v s := mkIsomEntry v (top s) (right s) (bottom s); upd_get v s := eq_refl; upd_upd v w s := eq_refl |}.
#[global] Instance upd_top : Updater top :=
  {| upd v s := mkIsomEntry (left s) v (right s) (bottom s); upd_get v s := eq_refl; upd_upd v w s := eq_refl |}.
#[global] Instance upd_right : Updater right :=
  {| upd v s := mkIsomEntry (left s) (top s) v (bottom s); upd_get v s := eq_refl; upd_upd v w s := eq_refl |}.
#[global] Instance upd_bottom : Updater bottom :=
  {| upd v s := mkIsomEntry (left s) (top s) (right s) v; upd_get v s := eq_refl; upd_upd v w s := eq_refl |}.
End IsomEntry.

Module Doodad.
Record Doodad := mkDoodad {
  type : Z;
  xc : Z;
  yc : Z;
  owner : Z;
  enabled : Z
}.
Definition layout : codec Doodad := iso_codec
  (u16c **
   u16c **
   u16c **
   u8c **
   u8c)%codec
  (fun '(x0, x1, x2, x3, x4) => mkDoodad x0 x1 x2 x3 x4)
  (fun s => (type s, xc s, yc s, owner s, enabled s)).
#[global] Instance layout_ok : CodecOk layout.
Proof. solve_layout. Qed.
#[global] Instance layout_dec : CwfDec layout.
Proof. unfold layout; apply _. Defined.
#[global] Instance upd_type : Updater type :=
  {| upd v s := mkDoodad v (xc s) (yc s) (owner s) (enabled s); upd_get v s := eq_refl; upd_upd v w s := eq_refl |}.
#[global] Instance upd_xc : Updater xc :=
  {| upd v s := mkDoodad (type s) v (yc s) (owner s) (enabled s); upd_get v s := eq_refl; upd_upd v w s := eq_refl |}.
#[global] Instance upd_yc : Updater yc :=
  {| upd v s := mkDoodad (type s) (xc s) v (owner s) (enabled s); upd_get v s := eq_refl; upd_upd v w s := eq_refl |}.
#[global] Instance upd_owner : Updater owner :=
  {| upd v s := mkDoodad (type s) (xc s) (yc s) v (enabled s); upd_get v s := eq_refl; upd_upd v w s := eq_refl |}.
#[global] Instance upd_enabled : Updater enabled :=
  {| upd v s := mkDoodad (type s) (xc s) (yc s) (owner s) v; upd_get v s := eq_refl; upd_upd v w s := eq_refl |}.
End Doodad.

Module Sprite.
Record Sprite := mkSprite {
  type : Z;
  xc : Z;
  yc : Z;
  owner : Z;
  unused : Z;
  flags : Z
}.
Definition layout : codec Sprite := iso_codec
  (u16c **
   u16c **
   u16c **
   u8c **
   u8c **
   u16c)%codec
  (fun '(x0, x1, x2, x3, x4, x5) => mkSprite x0 x1 x2 x3 x4 x5)
  (fun s => (type s, xc s, yc s, owner s, unused s, flags s)).
#[global] Instance layout_ok : CodecOk layout.
Proof. solve_layout. Qed.
#[global] Instance layout_dec : CwfDec layout.
Proof. unfold layout; apply _. Defined.
#[global] Instance upd_type : Updater type :=
  {| upd v s := mkSprite v (xc s) (yc s) (owner s) (unused s) (flags s); upd_get v s := eq_refl; upd_upd v w s := eq_refl |}.
#[global] Instance upd_xc : Updater xc :=
  {| upd v s := mkSprite (type s) v (yc s) (owner s) (unused s) (flags s); upd_get v s := eq_refl; upd_upd v w s := eq_refl |}.
#[global] Instance upd_yc : Updater yc :=
  {| upd v s := mkSprite (type s) (xc s) v (owner s) (unused s) (flags s); upd_get v s := eq_refl; upd_upd v w s := eq_refl |}.
#[global] Instance upd_owner : Updater owner :=
  {| upd v s := mkSprite (type s) (xc s) (yc s) v (unused s) (flags s); upd_get v s := eq_refl; upd_upd v w s := eq_refl |}.
#[global] Instance upd_unused : Updater unused :=
  {| upd v s := mkSprite (type s) (xc s) (yc s) (owner s) v (flags s); upd_get v s := eq_refl; upd_upd v w s := eq_refl |}.
#[global] Instance upd_flags : Updater flags :=
  {| upd v s := mkSprite (type s) (xc s) (yc s) (owner s) (unused s) v; upd_get v s := eq_refl; upd_upd v w s := eq_refl |}.
End Sprite.

Module Cuwp.
Record Cuwp := mkCuwp {
  validUnitStateFlags : Z;
  validUnitFieldFlags : Z;
  owner : Z;
  hitpointPercent : Z;
  shieldPercent : Z;
  energyPercent : Z;
  resourceAmount : Z;
  hangerAmount : Z;
  unitStateFlags : Z;
  unknown : Z
}.
Definition layout : codec Cuwp := iso_codec
  (u16c **
   u16c **
   u8c **
   u8c **
   u8c **
   u8c **
   u32c **
   u16c **
   u16c **
   u32c)%codec
  (fun '(x0, x1, x2, x3, x4, x5, x6, x7, x8, x9) => mkCuwp x0 x1 x2 x3 x4 x5 x6 x7 x8 x9)
  (fun s => (validUnitStateFlags s, validUnitFieldFlags s, owner s, hitpointPercent s, shieldPercent s, energyPercent s, resourceAmount s, hangerAmount s, unitStateFlags s, unknown s)).
#[global] Instance layout_ok : CodecOk layout.
Proof. solve_layout. Qed.
#[global] Instance layout_dec : CwfDec layout.
Proof. unfold layout; apply _. Defined.
#[global] Instance upd_validUnitStateFlags : Updater validUnitStateFlags :=
  {| upd v s := mkCuwp v (validUnitFieldFlags s) (owner s) (hitpointPercent s) (shieldPercent s) (energyPercent s) (resourceAmount s) (hangerAmount s) (unitStateFlags s) (unknown s); upd_get v s := eq_refl; upd_upd v w s := eq_refl |}.
#[global] Instance upd_validUnitFieldFlags : Updater validUnitFieldFlags :=
  {| upd v s := mkCuwp (validUnitStateFlags s) v (owner s) (hitpointPercent s) (shieldPercent s) (energyPercent s) (resourceAmount s) (hangerAmount s) (unitStateFlags s) (unknown s); upd_get v s := eq_refl; upd_upd v w s := eq_refl |}.
#[global] Instance upd_owner : Updater owner :=
  {| upd v s := mkCuwp (validUnitStateFlags s) (validUnitFieldFlags s) v (hitpointPercent s) (shieldPercent s) (energyPercent s) (resourceAmount s) (hangerAmount s) (unitStateFlags s) (unknown s); upd_get v s := eq_refl; upd_upd v w s := eq_refl |}.
#[global] Instance upd_hitpointPercent : Updater hitpointPercent :=
  {| upd v s := mkCuwp (validUnitStateFlags s) (validUnitFieldFlags s) (owner s) v (shieldPercent s) (energyPercent s) (resourceAmount s) (hangerAmount s) (unitStateFlags s) (unknown s); upd_get v s := eq_refl; upd_upd v w s := eq_refl |}.
#[global] Instance upd_shieldPercent : Updater shieldPercent :=
  {| upd v s := mkCuwp (validUnitStateFlags s) (validUnitFieldFlags s) (owner s) (hitpointPercent s) v (energyPercent s) (resourceAmount s) (hangerAmount s) (unitStateFlags s) (unknown s); upd_get v s := eq_refl; upd_upd v w s := eq_refl |}.
#[global] Instance upd_energyPercent : Updater energyPercent :=
  {| upd v s := mkCuwp (validUnitStateFlags s) (validUnitFieldFlags s) (owner s) (hitpointPercent s) (shieldPercent s) v (resourceAmount s) (hangerAmount s) (unitStateFlags s) (unknown s); upd_get v s := eq_refl; upd_upd v w s := eq_refl |}.
#[global] Instance upd_resourceAmount : Updater resourceAmount :=
  {| upd v s := mkCuwp (validUnitStateFlags s) (validUnitFieldFlags s) (owner s) (hitpointPercent s) (shieldPercent s) (energyPercent s) v (hangerAmount s) (unitStateFlags s) (unknown s); upd_get v s := eq_refl; upd_upd v w s := eq_refl |}.
#[global] Instance upd_hangerAmount : Updater hangerAmount :=
  {| upd v s := mkCuwp (validUnitStateFlags s) (validUnitFieldFlags s) (owner s) (hitpointPercent s) (shieldPercent s) (energyPercent s) (resourceAmount s) v (unitStateFlags s) (unknown s); upd_get v s := eq_refl; upd_upd v w s := eq_refl |}.
#[global] Instance upd_unitStateFlags : Updater unitStateFlags :=
  {| upd v s := mkCuwp (validUnitStateFlags s) (validUnitFieldFlags s) (owner s) (hitpointPercent s) (shieldPercent s) (energyPercent s) (resourceAmount s) (hangerAmount s) v (unknown s); upd_get v s := eq_refl; upd_upd v w s := eq_refl |}.
#[global] Instance upd_unknown : Updater unknown :=
  {| upd v s := mkCuwp (validUnitStateFlags s) (validUnitFieldFlags s) (owner s) (hitpointPercent s) (shieldPercent s) (energyPercent s) (resourceAmount s) (hangerAmount s) (unitStateFlags s) v; upd_get v s := eq_refl; upd_upd v w s := eq_refl |}.
End Cuwp.

Module Location.
Record Location := mkLocation {
  left : Z;
  top : Z;
  right : Z;
  bottom : Z;
  stringId : Z;
  elevationFlags : Z
}.
Definition layout : codec Location := iso_codec
  (u32c **
   u32c **
   u32c **
   u32c **
   u16c **
   u16c)%codec
  (fun '(x0, x1, x2, x3, x4, x5) => mkLocation x0 x1 x2 x3 x4 x5)
  (fun s => (left s, top s, right s, bottom s, stringId s, elevationFlags s)).
#[global] Instance layout_ok : CodecOk layout.
Proof. solve_layout. Qed.
#[global] Instance layout_dec : CwfDec layout.
Proof. unfold layout; apply _. Defined.
#[global] Instance upd_left : Updater left :=
  {| upd v s := mkLocation v (top s) (right s) (bottom s) (stringId s) (elevationFlags s); upd_get v s := eq_refl; upd_upd v w s := eq_refl |}.
#[global] Instance upd_top : Updater top :=
  {| upd v s := mkLocation (left s) v (right s) (bottom s) (stringId s) (elevationFlags s); upd_get v s := eq_refl; upd_upd v w s := eq_refl |}.
#[global] Instance upd_right : Updater right :=
  {| upd v s := mkLocation (left s) (top s) v (bottom s) (stringId s) (elevationFlags s); upd_get v s := eq_refl; upd_upd v w s := eq_refl |}.
#[global] Instance upd_bottom : Updater bottom :=
  {| upd v s := mkLocation (left s) (top s) (right s) v (stringId s) (elevationFlags s); upd_get v s := eq_refl; upd_upd v w s := eq_refl |}.
#[global] Instance upd_stringId : Updater stringId :=
  {| upd v s := mkLocation (left s) (top s) (right s) (bottom s) v (elevationFlags s); upd_get v s := eq_refl; upd_upd v w s := eq_refl |}.
#[global] Instance upd_elevationFlags : Updater elevationFlags :=
  {| upd v s := mkLocation (left s) (top s) (right s) (bottom s) (stringId s) v; upd_get v s := eq_refl; upd_upd v w s := eq_refl |}.
End Location.

Module Condition.
Record Condition := mkCondition {
  locationId : Z;
  player : Z;
  amount : Z;
  unitType : Z;
  comparison : Z;
  conditionType : Z;
  typeIndex : Z;
  flags : Z;
  maskFlag : Z
}.
Definition layout : codec Condition := iso_codec
  (u32c **
   u32c **
   u32c **
   u16c **
   u8c **
   u8c **
   u8c **
   u8c **
   u16c)%codec
  (fun '(x0, x1, x2, x3, x4, x5, x6, x7, x8) => mkCondition x0 x1 x2 x3 x4 x5 x6 x7 x8)
  (fun s => (locationId s, player s, amount s, unitType s, comparison s, conditionType s, typeIndex s, flags s, maskFlag s)).
#[global] Instance layout_ok : CodecOk layout.
Proof. solve_layout. Qed.
#[global] Instance layout_dec : CwfDec layout.
Proof. unfold layout; apply _. Defined.
#[global] Instance upd_locationId : Updater locationId :=
  {| upd v s := mkCondition v (player s) (amount s) (unitType s) (comparison s) (conditionType s) (typeIndex s) (flags s) (maskFlag s); upd_get v s := eq_refl; upd_upd v w s := eq_refl |}.
#[global] Instance upd_player : Updater player :=
  {| upd v s := mkCondition (locationId s) v (amount s) (unitType s) (comparison s) (conditionType s) (typeIndex s) (flags s) (maskFlag s); upd_get v s := eq_refl; upd_upd v w s := eq_refl |}.
#[global] Instance upd_amount : Updater amount :=
  {| upd v s := mkCondition (locationId s) (player s) v (unitType s) (comparison s) (conditionType s) (typeIndex s) (flags s) (maskFlag s); upd_get v s := eq_refl; upd_upd v w s := eq_refl |}.
#[global] Instance upd_unitType : Updater unitType :=
  {| upd v s := mkCondition (locationId s) (player s) (amount s) v (comparison s) (conditionType s) (typeIndex s) (flags s) (maskFlag s); upd_get v s := eq_refl; upd_upd v w s := eq_refl |}.
#[global] Instance upd_comparison : Updater comparison :=
  {| upd v s := mkCondition (locationId s) (player s) (amount s) (unitType s) v (conditionType s) (typeIndex s) (flags s) (maskFlag s); upd_get v s := eq_refl; upd_upd v w s := eq_refl |}.
#[global] Instance upd_conditionType : Updater conditionType :=
  {| upd v s := mkCondition (locationId s) (player s) (amount s) (unitType s) (comparison s) v (typeIndex s) (flags s) (maskFlag s); upd_get v s := eq_refl; upd_upd v w s := eq_refl |}.
#[global] Instance upd_typeIndex : Updater typeIndex :=
  {| upd v s := mkCondition (locationId s) (player s) (amount s) (unitType s) (comparison s) (conditionType s) v (flags s) (maskFlag s); upd_get v s := eq_refl; upd_upd v w s := eq_refl |}.
#[global] Instance upd_flags : Updater flags :=
  {| upd v s := mkCondition (locationId s) (player s) (amount s) (unitType s) (comparison s) (conditionType s) (typeIndex s) v (maskFlag s); upd_get v s := eq_refl; upd_upd v w s := eq_refl |}.
#[global] Instance upd_maskFlag : Updater maskFlag :=
  {| upd v s := mkCondition (locationId s) (player s) (amount s) (unitType s) (comparison s) (conditionType s) (typeIndex s) (flags s) v; upd_get v s := eq_refl; upd_upd v w s := eq_refl |}.
End Condition.

Module Action.
Record Action := mkAction {
  locationId : Z;
  stringId : Z;
  soundStringId : Z;
  time : Z;
  group : Z;
  number : Z;
  type : Z;
  actionType : Z;
  type2 : Z;
  flags : Z;
  padding : Z;
  maskFlag : Z
}.
Definition layout : codec Action := iso_codec
  (u32c **
   u32c **
   u32c **
   u32c **
   u32c **
   u32c **
   u16c **
   u8c **
   u8c **
   u8c **
   u8c **
   u16c)%codec
  (fun '(x0, x1, x2, x3, x4, x5, x6, x7, x8, x9, x10, x11) => mkAction x0 x1 x2 x3 x4 x5 x6 x7 x8 x9 x10 x11)
  (fun s => (locationId s, stringId s, soundStringId s, time s, group s, number s, type s, actionType s, type2 s, flags s, padding s, maskFlag s)).
#[global] Instance layout_ok : CodecOk layout.
Proof. solve_layout. Qed.
#[global] Instance layout_dec : CwfDec layout.
Proof. unfold layout; apply _. Defined.
#[global] Instance upd_locationId : Updater locationId :=
  {| upd v s := mkAction v (stringId s) (soundStringId s) (time s) (group s) (number s) (type s) (actionType s) (type2 s) (flags s) (padding s) (maskFlag s); upd_get v s := eq_refl; upd_upd v w s := eq_refl |}.
#[global] Instance upd_stringId : Updater stringId :=
  {| upd v s := mkAction (locationId s) v (soundStringId s) (time s) (group s) (number s) (type s) (actionType s) (type2 s) (flags s) (padding s) (maskFlag s); upd_get v s := eq_refl; upd_upd v w s := eq_refl |}.
#[global] Instance upd_soundStringId : Updater soundStringId :=
  {| upd v s := mkAction (locationId s) (stringId s) v (time s) (group s) (number s) (type s) (actionType s) (type2 s) (flags s) (padding s) (maskFlag s); upd_get v s := eq_refl; upd_upd v w s := eq_refl |}.
#[global] Instance upd_time : Updater time :=
  {| upd v s := mkAction (locationId s) (stringId s) (soundStringId s) v (group s) (number s) (type s) (actionType s) (type2 s) (flags s) (padding s) (maskFlag s); upd_get v s := eq_refl; upd_upd v w s := eq_refl |}.
#[global] Instance upd_group : Updater group :=
  {| upd v s := mkAction (locationId s) (stringId s) (soundStringId s) (time s) v (number s) (type s) (actionType s) (type2 s) (flags s) (padding s) (maskFlag s); upd_get v s := eq_refl; upd_upd v w s := eq_refl |}.
#[global] Instance upd_number : Updater number :=
  {| upd v s := mkAction (locationId s) (stringId s) (soundStringId s) (time s) (group s) v (type s) (actionType s) (type2 s) (flags s) (padding s) (maskFlag s); upd_get v s := eq_refl; upd_upd v w s := eq_refl |}.
#[global] Instance upd_type : Updater type :=
  {| upd v s := mkAction (locationId s) (stringId s) (soundStringId s) (time s) (group s) (number s) v (actionType s) (type2 s) (flags s) (padding s) (maskFlag s); upd_get v s := eq_refl; upd_upd v w s := eq_refl |}.
#[global] Instance upd_actionType : Updater actionType :=
  {| upd v s := mkAction (locationId s) (stringId s) (soundStringId s) (time s) (group s) (number s) (type s) v (type2 s) (flags s) (padding s) (maskFlag s); upd_get v s := eq_refl; upd_upd v w s := eq_refl |}.
#[global] Instance upd_type2 : Updater type2 :=
  {| upd v s := mkAction (locationId s) (stringId s) (soundStringId s) (time s) (group s) (number s) (type s) (actionType s) v (flags s) (padding s) (maskFlag s); upd_get v s := eq_refl; upd_upd v w s := eq_refl |}.
#[global] Instance upd_flags : Updater flags :=
  {| upd v s := mkAction (locationId s) (stringId s) (soundStringId s) (time s) (group s) (number s) (type s) (actionType s) (type2 s) v (padding s) (maskFlag s); upd_get v s := eq_refl; upd_upd v w s := eq_refl |}.
#[global] Instance upd_padding : Updater padding :=
  {| upd v s := mkAction (locationId s) (stringId s) (soundStringId s) (time s) (group s) (number s) (type s) (actionType s) (type2 s) (flags s) v (maskFlag s); upd_get v s := eq_refl; upd_upd v w s := eq_refl |}.
#[global] Instance upd_maskFlag : Updater maskFlag :=
  {| upd v s := mkAction (locationId s) (stringId s) (soundStringId s) (time s) (group s) (number s) (type s) (actionType s) (type2 s) (flags s) (padding s) v; upd_get v s := eq_refl; upd_upd v w s := eq_refl |}.
End Action.

Module Trigger.
Record Trigger := mkTrigger {
  conditions : list Condition.Condition;
  actions : list Action.Action;
  flags : Z;
  owners : list Z;
  currentAction : Z
}.
Definition layout : codec Trigger := iso_codec
  (Condition.layout⟦MaxConditions⟧ **
   Action.layout⟦MaxActions⟧ **
   u32c **
   u8c⟦MaxOwners⟧ **
   u8c)%codec
  (fun '(x0, x1, x2, x3, x4) => mkTrigger x0 x1 x2 x3 x4)
  (fun s => (conditions s, actions s, flags s, owners s, currentAction s)).
#[global] Instance layout_ok : CodecOk layout.
Proof. solve_layout. Qed.
#[global] Instance layout_dec : CwfDec layout.
Proof. unfold layout; apply _. Defined.
#[global] Instance upd_conditions : Updater conditions :=
  {| upd v s := mkTrigger v (actions s) (flags s) (owners s) (currentAction s); upd_get v s := eq_refl; upd_upd v w s := eq_refl |}.
#[global] Instance upd_actions : Updater actions :=
  {| upd v s := mkTrigger (conditions s) v (flags s) (owners s) (currentAction s); upd_get v s := eq_refl; upd_upd v w s := eq_refl |}.
#[global] Instance upd_flags : Updater flags :=
  {| upd v s := mkTrigger (conditions s) (actions s) v (owners s) (currentAction s); upd_get v s := eq_refl; upd_upd v w s := eq_refl |}.
#[global] Instance upd_owners : Updater owners :=
  {| upd v s := mkTrigger (conditions s) (actions s) (flags s) v (currentAction s); upd_get v s := eq_refl; upd_upd v w s := eq_refl |}.
#[global] Instance upd_currentAction : Updater currentAction :=
  {| upd v s := mkTrigger (conditions s) (actions s) (flags s) (owners s) v; upd_get v s := eq_refl; upd_upd v w s := eq_refl |}.
End Trigger.

Module ExtendedTrigData.
Record ExtendedTrigData := mkExtendedTrigData {
  commentStringId : Z;
  notesStringId : Z;
  groupId : Z;
  trigNum : Z;
  maskId : Z
}.
Definition layout : codec ExtendedTrigData := iso_codec
  (u32c **
   u32c **
   u32c **
   u32c **
   u32c)%codec
  (fun '(x0, x1, x2, x3, x4) => mkExtendedTrigData x0 x1 x2 x3 x4)
  (fun s => (commentStringId s, notesStringId s, groupId s, trigNum s, maskId s)).
#[global] Instance layout_ok : CodecOk layout.
Proof. solve_layout. Qed.
#[global] Instance layout_dec : CwfDec layout.
Proof. unfold layout; apply _. Defined.
#[global] Instance upd_commentStringId : Updater commentStringId :=
  {| upd v s := mkExtendedTrigData v (notesStringId s) (groupId s) (trigNum s) (maskId s); upd_get v s := eq_refl; upd_upd v w s := eq_refl |}.
#[global] Instance upd_notesStringId : Updater notesStringId :=
  {| upd v s := mkExtendedTrigData (commentStringId s) v (groupId s) (trigNum s) (maskId s); upd_get v s := eq_refl; upd_upd v w s := eq_refl |}.
#[global] Instance upd_groupId : Updater groupId :=
  {| upd v s := mkExtendedTrigData (commentStringId s) (notesStringId s) v (trigNum s) (maskId s); upd_get v s := eq_refl; upd_upd v w s := eq_refl |}.
#[global] Instance upd_trigNum : Updater trigNum :=
  {| upd v s := mkExtendedTrigData (commentStringId s) (notesStringId s) (groupId s) v (maskId s); upd_get v s := eq_refl; upd_upd v w s := eq_refl |}.
#[global] Instance upd_maskId : Updater maskId :=
  {| upd v s := mkExtendedTrigData (commentStringId s) (notesStringId s) (groupId s) (trigNum s) v; upd_get v s := eq_refl; upd_upd v w s := eq_refl |}.
End ExtendedTrigData.

Module TYPE.
Record TYPE := mkTYPE {
  scenarioType : Z
}.
Definition layout : codec TYPE := iso_codec
  (u32c)%codec
  (fun x0 => mkTYPE x0)
  (fun s => (scenarioType s)).
#[global] Instance layout_ok : CodecOk layout.
Proof. solve_layout. Qed.
#[global] Instance layout_dec : CwfDec layout.
Proof. unfold layout; apply _. Defined.
#[global] Instance upd_scenarioType : Updater scenarioType :=
  {| upd v s := mkTYPE v; upd_get v s := eq_refl; upd_upd v w s := eq_refl |}.
End TYPE.

Module VER.
Record VER := mkVER {
  version : Z
}.
Definition layout : codec VER := iso_codec
  (u16c)%codec
  (fun x0 => mkVER x0)
  (fun s => (version s)).
#[global] Instance layout_ok : CodecOk layout.
Proof. solve_layout. Qed.
#[global] Instance layout_dec : CwfDec layout.
Proof. unfold layout; apply _. Defined.
#[global] Instance upd_version : Updater version :=
  {| upd v s := mkVER v; upd_get v s := eq_refl; upd_upd v w s := eq_refl |}.
End VER.

Module IVER.
Record IVER := mkIVER {
  version : Z
}.
Definition layout : codec IVER := iso_codec
  (u16c)%codec
  (fun x0 => mkIVER x0)
  (fun s => (version s)).
#[global] Instance layout_ok : CodecOk layout.
Proof. solve_layout. Qed.
#[global] Instance layout_dec : CwfDec layout.
Proof. unfold layout; apply _. Defined.
#[global] Instance upd_version : Updater version :=
  {| upd v s := mkIVER v; upd_get v s := eq_refl; upd_upd v w s := eq_refl |}.
End IVER.

Module IVE2.
Record IVE2 := mkIVE2 {
  version : Z
}.
Definition layout : codec IVE2 := iso_codec
  (u16c)%codec
  (fun x0 => mkIVE2 x0)
  (fun s => (version s)).
#[global] Instance layout_ok : CodecOk layout.
Proof. solve_layout. Qed.
#[global] Instance layout_dec : CwfDec layout.
Proof. unfold layout; apply _. Defined.
#[global] Instance upd_version : Updater version :=
  {| upd v s := mkIVE2 v; upd_get v s := eq_refl; upd_upd v w s := eq_refl |}.
End IVE2.

Module VCOD.
Record VCOD := mkVCOD {
  seedValues : list Z;
  opCodes : list Z
}.
Definition layout : codec VCOD := iso_codec
  (u32c⟦TotalValidationSeeds⟧ **
   u8c⟦TotalValidationOpCodes⟧)%codec
  (fun '(x0, x1) => mkVCOD x0 x1)
  (fun s => (seedValues s, opCodes s)).
#[global] Instance layout_ok : CodecOk layout.
Proof. solve_layout. Qed.
#[global] Instance layout_dec : CwfDec layout.
Proof. unfold layout; apply _. Defined.
#[global] Instance upd_seedValues : Updater seedValues :=
  {| upd v s := mkVCOD v (opCodes s); upd_get v s := eq_refl; upd_upd v w s := eq_refl |}.
#[global] Instance upd_opCodes : Updater opCodes :=
  {| upd v s := mkVCOD (seedValues s) v; upd_get v s := eq_refl; upd_upd v w s := eq_refl |}.
End VCOD.

Module IOWN.
Record IOWN := mkIOWN {
  slotType : list Z
}.
Definition layout : codec IOWN := iso_codec
  (u8c⟦Player_Total⟧)%codec
  (fun x0 => mkIOWN x0)
  (fun s => (slotType s)).
#[global] Instance layout_ok : CodecOk layout.
Proof. solve_layout. Qed.
#[global] Instance layout_dec : CwfDec layout.
Proof. unfold layout; apply _. Defined.
#[global] Instance upd_slotType : Updater slotType :=
  {| upd v s := mkIOWN v; upd_get v s := eq_refl; upd_upd v w s := eq_refl |}.
End IOWN.

Module OWNR.
Record OWNR := mkOWNR {
  slotType : list Z
}.
Definition layout : codec OWNR := iso_codec
  (u8c⟦Player_Total⟧)%codec
  (fun x0 => mkOWNR x0)
  (fun s => (slotType s)).
#[global] Instance layout_ok : CodecOk layout.
Proof. solve_layout. Qed.
#[global] Instance layout_dec : CwfDec layout.
Proof. unfold layout; apply _. Defined.
#[global] Instance upd_slotType : Updater slotType :=
  {| upd v s := mkOWNR v; upd_get v s := eq_refl; upd_upd v w s := eq_refl |}.
End OWNR.

Module ERA.
Record ERA := mkERA {
  tileset : Z
}.
Definition layout : codec ERA := iso_codec
  (u16c)%codec
  (fun x0 => mkERA x0)
  (fun s => (tileset s)).
#[global] Instance layout_ok : CodecOk layout.
Proof. solve_layout. Qed.
#[global] Instance layout_dec : CwfDec layout.
Proof. unfold layout; apply _. Defined.
#[global] Instance upd_tileset : Updater tileset :=
  {| upd v s := mkERA v; upd_get v s := eq_refl; upd_upd v w s := eq_refl |}.
End ERA.

Module DIM.
Record DIM := mkDIM {
  tileWidth : Z;
  tileHeight : Z
}.
Definition layout : codec DIM := iso_codec
  (u16c **
   u16c)%codec
  (fun '(x0, x1) => mkDIM x0 x1)
  (fun s => (tileWidth s, tileHeight s)).
#[global] Instance layout_ok : CodecOk layout.
Proof. solve_layout. Qed.
#[global] Instance layout_dec : CwfDec layout.
Proof. unfold layout; apply _. Defined.
#[global] Instance upd_tileWidth : Updater tileWidth :=
  {| upd v s := mkDIM v (tileHeight s); upd_get v s := eq_refl; upd_upd v w s := eq_refl |}.
#[global] Instance upd_tileHeight : Updater tileHeight :=
  {| upd v s := mkDIM (tileWidth s) v; upd_get v s := eq_refl; upd_upd v w s := eq_refl |}.
End DIM.

Module SIDE.
Record SIDE := mkSIDE {
  playerRaces : list Z
}.
Definition layout : codec SIDE := iso_codec
  (u8c⟦Player_Total⟧)%codec
  (fun x0 => mkSIDE x0)
  (fun s => (playerRaces s)).
#[global] Instance layout_ok : CodecOk layout.
Proof. solve_layout. Qed.
#[global] Instance layout_dec : CwfDec layout.
Proof. unfold layout; apply _. Defined.
#[global] Instance upd_playerRaces : Updater playerRaces :=
  {| upd v s := mkSIDE v; upd_get v s := eq_refl; upd_upd v w s := eq_refl |}.
End SIDE.

Module PUNI.
Record PUNI := mkPUNI {
  playerUnitBuildable : list (list Z);
  defaultUnitBuildable : list Z;
  playerUnitUsesDefault : list (list Z)
}.
Definition layout : codec PUNI := iso_codec
  (u8c⟦Player_Total⟧⟦Unit_TotalTypes⟧ **
   u8c⟦Unit_TotalTypes⟧ **
   u8c⟦Player_Total⟧⟦Unit_TotalTypes⟧)%codec
  (fun '(x0, x1, x2) => mkPUNI x0 x1 x2)
  (fun s => (playerUnitBuildable s, defaultUnitBuildable s, playerUnitUsesDefault s)).
#[global] Instance layout_ok : CodecOk layout.
Proof. solve_layout. Qed.
#[global] Instance layout_dec : CwfDec layout.
Proof. unfold layout; apply _. Defined.
#[global] Instance upd_playerUnitBuildable : Updater playerUnitBuildable :=
  {| upd v s := mkPUNI v (defaultUnitBuildable s) (playerUnitUsesDefault s); upd_get v s := eq_refl; upd_upd v w s := eq_refl |}.
#[global] Instance upd_defaultUnitBuildable : Updater defaultUnitBuildable :=
  {| upd v s := mkPUNI (playerUnitBuildable s) v (playerUnitUsesDefault s); upd_get v s := eq_refl; upd_upd v w s := eq_refl |}.
#[global] Instance upd_playerUnitUsesDefault : Updater playerUnitUsesDefault :=
  {| upd v s := mkPUNI (playerUnitBuildable s) (defaultUnitBuildable s) v; upd_get v s := eq_refl; upd_upd v w s := eq_refl |}.
End PUNI.

Module UPGR.
Record UPGR := mkUPGR {
  playerMaxUpgradeLevel : list (list Z);
  playerStartUpgradeLevel : list (list Z);
  defaultMaxLevel : list Z;
  defaultStartLevel : list Z;
  playerUpgradeUsesDefault : list (list Z)
}.
Definition layout : codec UPGR := iso_codec
  (u8c⟦Player_Total⟧⟦Upgrade_TotalOriginalTypes⟧ **
   u8c⟦Player_Total⟧⟦Upgrade_TotalOriginalTypes⟧ **
   u8c⟦Upgrade_TotalOriginalTypes⟧ **
   u8c⟦Upgrade_TotalOriginalTypes⟧ **
   u8c⟦Player_Total⟧⟦Upgrade_TotalOriginalTypes⟧)%codec
  (fun '(x0, x1, x2, x3, x4) => mkUPGR x0 x1 x2 x3 x4)
  (fun s => (playerMaxUpgradeLevel s, playerStartUpgradeLevel s, defaultMaxLevel s, defaultStartLevel s, playerUpgradeUsesDefault s)).
#[global] Instance layout_ok : CodecOk layout.
Proof. solve_layout. Qed.
#[global] Instance layout_dec : CwfDec layout.
Proof. unfold layout; apply _. Defined.
#[global] Instance upd_playerMaxUpgradeLevel : Updater playerMaxUpgradeLevel :=
  {| upd v s := mkUPGR v (playerStartUpgradeLevel s) (defaultMaxLevel s) (defaultStartLevel s) (playerUpgradeUsesDefault s); upd_get v s := eq_refl; upd_upd v w s := eq_refl |}.
#[global] Instance upd_playerStartUpgradeLevel : Updater playerStartUpgradeLevel :=
  {| upd v s := mkUPGR (playerMaxUpgradeLevel s) v (defaultMaxLevel s) (defaultStartLevel s) (playerUpgradeUsesDefault s); upd_get v s := eq_refl; upd_upd v w s := eq_refl |}.
#[global] Instance upd_defaultMaxLevel : Updater defaultMaxLevel :=
  {| upd v s := mkUPGR (playerMaxUpgradeLevel s) (playerStartUpgradeLevel s) v (defaultStartLevel s) (playerUpgradeUsesDefault s); upd_get v s := eq_refl; upd_upd v w s := eq_refl |}.
#[global] Instance upd_defaultStartLevel : Updater defaultStartLevel :=
  {| upd v s := mkUPGR (playerMaxUpgradeLevel s) (playerStartUpgradeLevel s) (defaultMaxLevel s) v (playerUpgradeUsesDefault s); upd_get v s := eq_refl; upd_upd v w s := eq_refl |}.
#[global] Instance upd_playerUpgradeUsesDefault : Updater playerUpgradeUsesDefault :=
  {| upd v s := mkUPGR (playerMaxUpgradeLevel s) (playerStartUpgradeLevel s) (defaultMaxLevel s) (defaultStartLevel s) v; upd_get v s := eq_refl; upd_upd v w s := eq_refl |}.
End UPGR.

Module PTEC.
Record PTEC := mkPTEC {
  techAvailableForPlayer : list (list Z);
  techResearchedForPlayer : list (list Z);
  techAvailableByDefault : list Z;
  techResearchedByDefault : list Z;
  playerUsesDefaultsForTech : list (list Z)
}.
Definition layout : codec PTEC := iso_codec
  (u8c⟦Player_Total⟧⟦Tech_TotalOriginalTypes⟧ **
   u8c⟦Player_Total⟧⟦Tech_TotalOriginalTypes⟧ **
   u8c⟦Tech_TotalOriginalTypes⟧ **
   u8c⟦Tech_TotalOriginalTypes⟧ **
   u8c⟦Player_Total⟧⟦Tech_TotalOriginalTypes⟧)%codec
  (fun '(x0, x1, x2, x3, x4) => mkPTEC x0 x1 x2 x3 x4)
  (fun s => (techAvailableForPlayer s, techResearchedForPlayer s, techAvailableByDefault s, techResearchedByDefault s, playerUsesDefaultsForTech s)).
#[global] Instance layout_ok : CodecOk layout.
Proof. solve_layout. Qed.
#[global] Instance layout_dec : CwfDec layout.
Proof. unfold layout; apply _. Defined.
#[global] Instance upd_techAvailableForPlayer : Updater techAvailableForPlayer :=
  {| upd v s := mkPTEC v (techResearchedForPlayer s) (techAvailableByDefault s) (techResearchedByDefault s) (playerUsesDefaultsForTech s); upd_get v s := eq_refl; upd_upd v w s := eq_refl |}.
#[global] Instance upd_techResearchedForPlayer : Updater techResearchedForPlayer :=
  {| upd v s := mkPTEC (techAvailableForPlayer s) v (techAvailableByDefault s) (techResearchedByDefault s) (playerUsesDefaultsForTech s); upd_get v s := eq_refl; upd_upd v w s := eq_refl |}.
#[global] Instance upd_techAvailableByDefault : Updater techAvailableByDefault :=
  {| upd v s := mkPTEC (techAvailableForPlayer s) (techResearchedForPlayer s) v (techResearchedByDefault s) (playerUsesDefaultsForTech s); upd_get v s := eq_refl; upd_upd v w s := eq_refl |}.
#[global] Instance upd_techResearchedByDefault : Updater techResearchedByDefault :=
  {| upd v s := mkPTEC (techAvailableForPlayer s) (techResearchedForPlayer s) (techAvailableByDefault s) v (playerUsesDefaultsForTech s); upd_get v s := eq_refl; upd_upd v w s := eq_refl |}.
#[global] Instance upd_playerUsesDefaultsForTech : Updater playerUsesDefaultsForTech :=
  {| upd v s := mkPTEC (techAvailableForPlayer s) (techResearchedForPlayer s) (techAvailableByDefault s) (techResearchedByDefault s) v; upd_get v s := eq_refl; upd_upd v w s := eq_refl |}.
End PTEC.

Module UPRP.
Record UPRP := mkUPRP {
  createUnitProperties : list Cuwp.Cuwp
}.
Definition layout : codec UPRP := iso_codec
  (Cuwp.layout⟦MaxCuwps⟧)%codec
  (fun x0 => mkUPRP x0)
  (fun s => (createUnitProperties s)).
#[global] Instance layout_ok : CodecOk layout.
Proof. solve_layout. Qed.
#[global] Instance layout_dec : CwfDec layout.
Proof. unfold layout; apply _. Defined.
#[global] Instance upd_createUnitProperties : Updater createUnitProperties :=
  {| upd v s := mkUPRP v; upd_get v s := eq_refl; upd_upd v w s := eq_refl |}.
End UPRP.

Module UPUS.
Record UPUS := mkUPUS {
  cuwpUsed : list Z
}.
Definition layout : codec UPUS := iso_codec
  (u8c⟦MaxCuwps⟧)%codec
  (fun x0 => mkUPUS x0)
  (fun s => (cuwpUsed s)).
#[global] Instance layout_ok : CodecOk layout.
Proof. solve_layout. Qed.
#[global] Instance layout_dec : CwfDec layout.
Proof. unfold layout; apply _. Defined.
#[global] Instance upd_cuwpUsed : Updater cuwpUsed :=
  {| upd v s := mkUPUS v; upd_get v s := eq_refl; upd_upd v w s := eq_refl |}.
End UPUS.

Module SPRP.
Record SPRP := mkSPRP {
  scenarioNameStringId : Z;
  scenarioDescriptionStringId : Z
}.
Definition layout : codec SPRP := iso_codec
  (u16c **
   u16c)%codec
  (fun '(x0, x1) => mkSPRP x0 x1)
  (fun s => (scenarioNameStringId s, scenarioDescriptionStringId s)).
#[global] Instance layout_ok : CodecOk layout.
Proof. solve_layout. Qed.
#[global] Instance layout_dec : CwfDec layout.
Proof. unfold layout; apply _. Defined.
#[global] Instance upd_scenarioNameStringId : Updater scenarioNameStringId :=
  {| upd v s := mkSPRP v (scenarioDescriptionStringId s); upd_get v s := eq_refl; upd_upd v w s := eq_refl |}.
#[global] Instance upd_scenarioDescriptionStringId : Updater scenarioDescriptionStringId :=
  {| upd v s := mkSPRP (scenarioNameStringId s) v; upd_get v s := eq_refl; upd_upd v w s := eq_refl |}.
End SPRP.

Module FORC.
Record FORC := mkFORC {
  playerForce : list Z;
  forceString : list Z;
  flags : list Z
}.
Definition layout : codec FORC := iso_codec
  (u8c⟦Player_TotalSlots⟧ **
   u16c⟦TotalForces⟧ **
   u8c⟦TotalForces⟧)%codec
  (fun '(x0, x1, x2) => mkFORC x0 x1 x2)
  (fun s => (playerForce s, forceString s, flags s)).
#[global] Instance layout_ok : CodecOk layout.
Proof. solve_layout. Qed.
#[global] Instance layout_dec : CwfDec layout.
Proof. unfold layout; apply _. Defined.
#[global] Instance upd_playerForce : Updater playerForce :=
  {| upd v s := mkFORC v (forceString s) (flags s); upd_get v s := eq_refl; upd_upd v w s := eq_refl |}.
#[global] Instance upd_forceString : Updater forceString :=
  {| upd v s := mkFORC (playerForce s) v (flags s); upd_get v s := eq_refl; upd_upd v w s := eq_refl |}.
#[global] Instance upd_flags : Updater flags :=
  {| upd v s := mkFORC (playerForce s) (forceString s) v; upd_get v s := eq_refl; upd_upd v w s := eq_refl |}.
End FORC.

Module WAV.
Record WAV := mkWAV {
  soundPathStringId : list Z
}.
Definition layout : codec WAV := iso_codec
  (u32c⟦TotalSounds⟧)%codec
  (fun x0 => mkWAV x0)
  (fun s => (soundPathStringId s)).
#[global] Instance layout_ok : CodecOk layout.
Proof. solve_layout. Qed.
#[global] Instance layout_dec : CwfDec layout.
Proof. unfold layout; apply _. Defined.
#[global] Instance upd_soundPathStringId : Updater soundPathStringId :=
  {| upd v s := mkWAV v; upd_get v s := eq_refl; upd_upd v w s := eq_refl |}.
End WAV.

Module UNIS.
Record UNIS := mkUNIS {
  useDefault : list Z;
  hitpoints : list Z;
  shieldPoints : list Z;
  armorLevel : list Z;
  buildTime : list Z;
  mineralCost : list Z;
  gasCost : list Z;
  nameStringId : list Z;
  baseDamage : list Z;
  upgradeDamage : list Z
}.
Definition layout : codec UNIS := iso_codec
  (u8c⟦Unit_TotalTypes⟧ **
   u32c⟦Unit_TotalTypes⟧ **
   u16c⟦Unit_TotalTypes⟧ **
   u8c⟦Unit_TotalTypes⟧ **
   u16c⟦Unit_TotalTypes⟧ **
   u16c⟦Unit_TotalTypes⟧ **
   u16c⟦Unit_TotalTypes⟧ **
   u16c⟦Unit_TotalTypes⟧ **
   u16c⟦Weapon_TotalOriginal⟧ **
   u16c⟦Weapon_TotalOriginal⟧)%codec
  (fun '(x0, x1, x2, x3, x4, x5, x6, x7, x8, x9) => mkUNIS x0 x1 x2 x3 x4 x5 x6 x7 x8 x9)
  (fun s => (useDefault s, hitpoints s, shieldPoints s, armorLevel s, buildTime s, mineralCost s, gasCost s, nameStringId s, baseDamage s, upgradeDamage s)).
#[global] Instance layout_ok : CodecOk layout.
Proof. solve_layout. Qed.
#[global] Instance layout_dec : CwfDec layout.
Proof. unfold layout; apply _. Defined.
#[global] Instance upd_useDefault : Updater useDefault :=
  {| upd v s := mkUNIS v (hitpoints s) (shieldPoints s) (armorLevel s) (buildTime s) (mineralCost s) (gasCost s) (nameStringId s) (baseDamage s) (upgradeDamage s); upd_get v s := eq_refl; upd_upd v w s := eq_refl |}.
#[global] Instance upd_hitpoints : Updater hitpoints :=
  {| upd v s := mkUNIS (useDefault s) v (shieldPoints s) (armorLevel s) (buildTime s) (mineralCost s) (gasCost s) (nameStringId s) (baseDamage s) (upgradeDamage s); upd_get v s := eq_refl; upd_upd v w s := eq_refl |}.
#[global] Instance upd_shieldPoints : Updater shieldPoints :=
  {| upd v s := mkUNIS (useDefault s) (hitpoints s) v (armorLevel s) (buildTime s) (mineralCost s) (gasCost s) (nameStringId s) (baseDamage s) (upgradeDamage s); upd_get v s := eq_refl; upd_upd v w s := eq_refl |}.
#[global] Instance upd_armorLevel : Updater armorLevel :=
  {| upd v s := mkUNIS (useDefault s) (hitpoints s) (shieldPoints s) v (buildTime s) (mineralCost s) (gasCost s) (nameStringId s) (baseDamage s) (upgradeDamage s); upd_get v s := eq_refl; upd_upd v w s := eq_refl |}.
#[global] Instance upd_buildTime : Updater buildTime :=
  {| upd v s := mkUNIS (useDefault s) (hitpoints s) (shieldPoints s) (armorLevel s) v (mineralCost s) (gasCost s) (nameStringId s) (baseDamage s) (upgradeDamage s); upd_get v s := eq_refl; upd_upd v w s := eq_refl |}.
#[global] Instance upd_mineralCost : Updater mineralCost :=
  {| upd v s := mkUNIS (useDefault s) (hitpoints s) (shieldPoints s) (armorLevel s) (buildTime s) v (gasCost s) (nameStringId s) (baseDamage s) (upgradeDamage s); upd_get v s := eq_refl; upd_upd v w s := eq_refl |}.
#[global] Instance upd_gasCost : Updater gasCost :=
  {| upd v s := mkUNIS (useDefault s) (hitpoints s) (shieldPoints s) (armorLevel s) (buildTime s) (mineralCost s) v (nameStringId s) (baseDamage s) (upgradeDamage s); upd_get v s := eq_refl; upd_upd v w s := eq_refl |}.
#[global] Instance upd_nameStringId : Updater nameStringId :=
  {| upd v s := mkUNIS (useDefault s) (hitpoints s) (shieldPoints s) (armorLevel s) (buildTime s) (mineralCost s) (gasCost s) v (baseDamage s) (upgradeDamage s); upd_get v s := eq_refl; upd_upd v w s := eq_refl |}.
#[global] Instance upd_baseDamage : Updater baseDamage :=
  {| upd v s := mkUNIS (useDefault s) (hitpoints s) (shieldPoints s) (armorLevel s) (buildTime s) (mineralCost s) (gasCost s) (nameStringId s) v (upgradeDamage s); upd_get v s := eq_refl; upd_upd v w s := eq_refl |}.
#[global] Instance upd_upgradeDamage : Updater upgradeDamage :=
  {| upd v s := mkUNIS (useDefault s) (hitpoints s) (shieldPoints s) (armorLevel s) (buildTime s) (mineralCost s) (gasCost s) (nameStringId s) (baseDamage s) v; upd_get v s := eq_refl; upd_upd v w s := eq_refl |}.
End UNIS.

Module UPGS.
Record UPGS := mkUPGS {
  useDefault : list Z;
  baseMineralCost : list Z;
  mineralCostFactor : list Z;
  baseGasCost : list Z;
  gasCostFactor : list Z;
  baseResearchTime : list Z;
  researchTimeFactor : list Z
}.
Definition layout : codec UPGS := iso_codec
  (u8c⟦Upgrade_TotalOriginalTypes⟧ **
   u16c⟦Upgrade_TotalOriginalTypes⟧ **
   u16c⟦Upgrade_TotalOriginalTypes⟧ **
   u16c⟦Upgrade_TotalOriginalTypes⟧ **
   u16c⟦Upgrade_TotalOriginalTypes⟧ **
   u16c⟦Upgrade_TotalOriginalTypes⟧ **
   u16c⟦Upgrade_TotalOriginalTypes⟧)%codec
  (fun '(x0, x1, x2, x3, x4, x5, x6) => mkUPGS x0 x1 x2 x3 x4 x5 x6)
  (fun s => (useDefault s, baseMineralCost s, mineralCostFactor s, baseGasCost s, gasCostFactor s, baseResearchTime s, researchTimeFactor s)).
#[global] Instance layout_ok : CodecOk layout.
Proof. solve_layout. Qed.
#[global] Instance layout_dec : CwfDec layout.
Proof. unfold layout; apply _. Defined.
#[global] Instance upd_useDefault : Updater useDefault :=
  {| upd v s := mkUPGS v (baseMineralCost s) (mineralCostFactor s) (baseGasCost s) (gasCostFactor s) (baseResearchTime s) (researchTimeFactor s); upd_get v s := eq_refl; upd_upd v w s := eq_refl |}.
#[global] Instance upd_baseMineralCost : Updater baseMineralCost :=
  {| upd v s := mkUPGS (useDefault s) v (mineralCostFactor s) (baseGasCost s) (gasCostFactor s) (baseResearchTime s) (researchTimeFactor s); upd_get v s := eq_refl; upd_upd v w s := eq_refl |}.
#[global] Instance upd_mineralCostFactor : Updater mineralCostFactor :=
  {| upd v s := mkUPGS (useDefault s) (baseMineralCost s) v (baseGasCost s) (gasCostFactor s) (baseResearchTime s) (researchTimeFactor s); upd_get v s := eq_refl; upd_upd v w s := eq_refl |}.
#[global] Instance upd_baseGasCost : Updater baseGasCost :=
  {| upd v s := mkUPGS (useDefault s) (baseMineralCost s) (mineralCostFactor s) v (gasCostFactor s) (baseResearchTime s) (researchTimeFactor s); upd_get v s := eq_refl; upd_upd v w s := eq_refl |}.
#[global] Instance upd_gasCostFactor : Updater gasCostFactor :=
  {| upd v s := mkUPGS (useDefault s) (baseMineralCost s) (mineralCostFactor s) (baseGasCost s) v (baseResearchTime s) (researchTimeFactor s); upd_get v s := eq_refl; upd_upd v w s := eq_refl |}.
#[global] Instance upd_baseResearchTime : Updater baseResearchTime :=
  {| upd v s := mkUPGS (useDefault s) (baseMineralCost s) (mineralCostFactor s) (baseGasCost s) (gasCostFactor s) v (researchTimeFactor s); upd_get v s := eq_refl; upd_upd v w s := eq_refl |}.
#[global] Instance upd_researchTimeFactor : Updater researchTimeFactor :=
  {| upd v s := mkUPGS (useDefault s) (baseMineralCost s) (mineralCostFactor s) (baseGasCost s) (gasCostFactor s) (baseResearchTime s) v; upd_get v s := eq_refl; upd_upd v w s := eq_refl |}.
End UPGS.

Module TECS.
Record TECS := mkTECS {
  useDefault : list Z;
  mineralCost : list Z;
  gasCost : list Z;
  researchTime : list Z;
  energyCost : list Z
}.
Definition layout : codec TECS := iso_codec
  (u8c⟦Tech_TotalOriginalTypes⟧ **
   u16c⟦Tech_TotalOriginalTypes⟧ **
   u16c⟦Tech_TotalOriginalTypes⟧ **
   u16c⟦Tech_TotalOriginalTypes⟧ **
   u16c⟦Tech_TotalOriginalTypes⟧)%codec
  (fun '(x0, x1, x2, x3, x4) => mkTECS x0 x1 x2 x3 x4)
  (fun s => (useDefault s, mineralCost s, gasCost s, researchTime s, energyCost s)).
#[global] Instance layout_ok : CodecOk layout.
Proof. solve_layout. Qed.
#[global] Instance layout_dec : CwfDec layout.
Proof. unfold layout; apply _. Defined.
#[global] Instance upd_useDefault : Updater useDefault :=
  {| upd v s := mkTECS v (mineralCost s) (gasCost s) (researchTime s) (energyCost s); upd_get v s := eq_refl; upd_upd v w s := eq_refl |}.
#[global] Instance upd_mineralCost : Updater mineralCost :=
  {| upd v s := mkTECS (useDefault s) v (gasCost s) (researchTime s) (energyCost s); upd_get v s := eq_refl; upd_upd v w s := eq_refl |}.
#[global] Instance upd_gasCost : Updater gasCost :=
  {| upd v s := mkTECS (useDefault s) (mineralCost s) v (researchTime s) (energyCost s); upd_get v s := eq_refl; upd_upd v w s := eq_refl |}.
#[global] Instance upd_researchTime : Updater researchTime :=
  {| upd v s := mkTECS (useDefault s) (mineralCost s) (gasCost s) v (energyCost s); upd_get v s := eq_refl; upd_upd v w s := eq_refl |}.
#[global] Instance upd_energyCost : Updater energyCost :=
  {| upd v s := mkTECS (useDefault s) (mineralCost s) (gasCost s) (researchTime s) v; upd_get v s := eq_refl; upd_upd v w s := eq_refl |}.
End TECS.

Module SWNM.
Record SWNM := mkSWNM {
  switchName : list Z
}.
Definition layout : codec SWNM := iso_codec
  (u32c⟦TotalSwitches⟧)%codec
  (fun x0 => mkSWNM x0)
  (fun s => (switchName s)).
#[global] Instance layout_ok : CodecOk layout.
Proof. solve_layout. Qed.
#[global] Instance layout_dec : CwfDec layout.
Proof. unfold layout; apply _. Defined.
#[global] Instance upd_switchName : Updater switchName :=
  {| upd v s := mkSWNM v; upd_get v s := eq_refl; upd_upd v w s := eq_refl |}.
End SWNM.

Module COLR.
Record COLR := mkCOLR {
  playerColor : list Z
}.
Definition layout : codec COLR := iso_codec
  (u8c⟦Player_TotalSlots⟧)%codec
  (fun x0 => mkCOLR x0)
  (fun s => (playerColor s)).
#[global] Instance layout_ok : CodecOk layout.
Proof. solve_layout. Qed.
#[global] Instance layout_dec : CwfDec layout.
Proof. unfold layout; apply _. Defined.
#[global] Instance upd_playerColor : Updater playerColor :=
  {| upd v s := mkCOLR v; upd_get v s := eq_refl; upd_upd v w s := eq_refl |}.
End COLR.

Module PUPx.
Record PUPx := mkPUPx {
  playerMaxUpgradeLevel : list (list Z);
  playerStartUpgradeLevel : list (list Z);
  defaultMaxLevel : list Z;
  defaultStartLevel : list Z;
  playerUpgradeUsesDefault : list (list Z)
}.
Definition layout : codec PUPx := iso_codec
  (u8c⟦Player_Total⟧⟦Upgrade_TotalTypes⟧ **
   u8c⟦Player_Total⟧⟦Upgrade_TotalTypes⟧ **
   u8c⟦Upgrade_TotalTypes⟧ **
   u8c⟦Upgrade_TotalTypes⟧ **
   u8c⟦Player_Total⟧⟦Upgrade_TotalTypes⟧)%codec
  (fun '(x0, x1, x2, x3, x4) => mkPUPx x0 x1 x2 x3 x4)
  (fun s => (playerMaxUpgradeLevel s, playerStartUpgradeLevel s, defaultMaxLevel s, defaultStartLevel s, playerUpgradeUsesDefault s)).
#[global] Instance layout_ok : CodecOk layout.
Proof. solve_layout. Qed.
#[global] Instance layout_dec : CwfDec layout.
Proof. unfold layout; apply _. Defined.
#[global] Instance upd_playerMaxUpgradeLevel : Updater playerMaxUpgradeLevel :=
  {| upd v s := mkPUPx v (playerStartUpgradeLevel s) (defaultMaxLevel s) (defaultStartLevel s) (playerUpgradeUsesDefault s); upd_get v s := eq_refl; upd_upd v w s := eq_refl |}.
#[global] Instance upd_playerStartUpgradeLevel : Updater playerStartUpgradeLevel :=
  {| upd v s := mkPUPx (playerMaxUpgradeLevel s) v (defaultMaxLevel s) (defaultStartLevel s) (playerUpgradeUsesDefault s); upd_get v s := eq_refl; upd_upd v w s := eq_refl |}.
#[global] Instance upd_defaultMaxLevel : Updater defaultMaxLevel :=
  {| upd v s := mkPUPx (playerMaxUpgradeLevel s) (playerStartUpgradeLevel s) v (defaultStartLevel s) (playerUpgradeUsesDefault s); upd_get v s := eq_refl; upd_upd v w s := eq_refl |}.
#[global] Instance upd_defaultStartLevel : Updater defaultStartLevel :=
  {| upd v s := mkPUPx (playerMaxUpgradeLevel s) (playerStartUpgradeLevel s) (defaultMaxLevel s) v (playerUpgradeUsesDefault s); upd_get v s := eq_refl; upd_upd v w s := eq_refl |}.
#[global] Instance upd_playerUpgradeUsesDefault : Updater playerUpgradeUsesDefault :=
  {| upd v s := mkPUPx (playerMaxUpgradeLevel s) (playerStartUpgradeLevel s) (defaultMaxLevel s) (defaultStartLevel s) v; upd_get v s := eq_refl; upd_upd v w s := eq_refl |}.
End PUPx.

Module PTEx.
Record PTEx := mkPTEx {
  techAvailableForPlayer : list (list Z);
  techResearchedForPlayer : list (list Z);
  techAvailableByDefault : list Z;
  techResearchedByDefault : list Z;
  playerUsesDefaultsForTech : list (list Z)
}.
Definition layout : codec PTEx := iso_codec
  (u8c⟦Player_Total⟧⟦Tech_TotalTypes⟧ **
   u8c⟦Player_Total⟧⟦Tech_TotalTypes⟧ **
   u8c⟦Tech_TotalTypes⟧ **
   u8c⟦Tech_TotalTypes⟧ **
   u8c⟦Player_Total⟧⟦Tech_TotalTypes⟧)%codec
  (fun '(x0, x1, x2, x3, x4) => mkPTEx x0 x1 x2 x3 x4)
  (fun s => (techAvailableForPlayer s, techResearchedForPlayer s, techAvailableByDefault s, techResearchedByDefault s, playerUsesDefaultsForTech s)).
#[global] Instance layout_ok : CodecOk layout.
Proof. solve_layout. Qed.
#[global] Instance layout_dec : CwfDec layout.
Proof. unfold layout; apply _. Defined.
#[global] Instance upd_techAvailableForPlayer : Updater techAvailableForPlayer :=
  {| upd v s := mkPTEx v (techResearchedForPlayer s) (techAvailableByDefault s) (techResearchedByDefault s) (playerUsesDefaultsForTech s); upd_get v s := eq_refl; upd_upd v w s := eq_refl |}.
#[global] Instance upd_techResearchedForPlayer : Updater techResearchedForPlayer :=
  {| upd v s := mkPTEx (techAvailableForPlayer s) v (techAvailableByDefault s) (techResearchedByDefault s) (playerUsesDefaultsForTech s); upd_get v s := eq_refl; upd_upd v w s := eq_refl |}.
#[global] Instance upd_techAvailableByDefault : Updater techAvailableByDefault :=
  {| upd v s := mkPTEx (techAvailableForPlayer s) (techResearchedForPlayer s) v (techResearchedByDefault s) (playerUsesDefaultsForTech s); upd_get v s := eq_refl; upd_upd v w s := eq_refl |}.
#[global] Instance upd_techResearchedByDefault : Updater techResearchedByDefault :=
  {| upd v s := mkPTEx (techAvailableForPlayer s) (techResearchedForPlayer s) (techAvailableByDefault s) v (playerUsesDefaultsForTech s); upd_get v s := eq_refl; upd_upd v w s := eq_refl |}.
#[global] Instance upd_playerUsesDefaultsForTech : Updater playerUsesDefaultsForTech :=
  {| upd v s := mkPTEx (techAvailableForPlayer s) (techResearchedForPlayer s) (techAvailableByDefault s) (techResearchedByDefault s) v; upd_get v s := eq_refl; upd_upd v w s := eq_refl |}.
End PTEx.

Module UNIx.
Record UNIx := mkUNIx {
  useDefault : list Z;
  hitpoints : list Z;
  shieldPoints : list Z;
  armorLevel : list Z;
  buildTime : list Z;
  mineralCost : list Z;
  gasCost : list Z;
  nameStringId : list Z;
  baseDamage : list Z;
  upgradeDamage : list Z
}.
Definition layout : codec UNIx := iso_codec
  (u8c⟦Unit_TotalTypes⟧ **
   u32c⟦Unit_TotalTypes⟧ **
   u16c⟦Unit_TotalTypes⟧ **
   u8c⟦Unit_TotalTypes⟧ **
   u16c⟦Unit_TotalTypes⟧ **
   u16c⟦Unit_TotalTypes⟧ **
   u16c⟦Unit_TotalTypes⟧ **
   u16c⟦Unit_TotalTypes⟧ **
   u16c⟦Weapon_Total⟧ **
   u16c⟦Weapon_Total⟧)%codec
  (fun '(x0, x1, x2, x3, x4, x5, x6, x7, x8, x9) => mkUNIx x0 x1 x2 x3 x4 x5 x6 x7 x8 x9)
  (fun s => (useDefault s, hitpoints s, shieldPoints s, armorLevel s, buildTime s, mineralCost s, gasCost s, nameStringId s, baseDamage s, upgradeDamage s)).
#[global] Instance layout_ok : CodecOk layout.
Proof. solve_layout. Qed.
#[global] Instance layout_dec : CwfDec layout.
Proof. unfold layout; apply _. Defined.
#[global] Instance upd_useDefault : Updater useDefault :=
  {| upd v s := mkUNIx v (hitpoints s) (shieldPoints s) (armorLevel s) (buildTime s) (mineralCost s) (gasCost s) (nameStringId s) (baseDamage s) (upgradeDamage s); upd_get v s := eq_refl; upd_upd v w s := eq_refl |}.
#[global] Instance upd_hitpoints : Updater hitpoints :=
  {| upd v s := mkUNIx (useDefault s) v (shieldPoints s) (armorLevel s) (buildTime s) (mineralCost s) (gasCost s) (nameStringId s) (baseDamage s) (upgradeDamage s); upd_get v s := eq_refl; upd_upd v w s := eq_refl |}.
#[global] Instance upd_shieldPoints : Updater shieldPoints :=
  {| upd v s := mkUNIx (useDefault s) (hitpoints s) v (armorLevel s) (buildTime s) (mineralCost s) (gasCost s) (nameStringId s) (baseDamage s) (upgradeDamage s); upd_get v s := eq_refl; upd_upd v w s := eq_refl |}.
#[global] Instance upd_armorLevel : Updater armorLevel :=
  {| upd v s := mkUNIx (useDefault s) (hitpoints s) (shieldPoints s) v (buildTime s) (mineralCost s) (gasCost s) (nameStringId s) (baseDamage s) (upgradeDamage s); upd_get v s := eq_refl; upd_upd v w s := eq_refl |}.
#[global] Instance upd_buildTime : Updater buildTime :=
  {| upd v s := mkUNIx (useDefault s) (hitpoints s) (shieldPoints s) (armorLevel s) v (mineralCost s) (gasCost s) (nameStringId s) (baseDamage s) (upgradeDamage s); upd_get v s := eq_refl; upd_upd v w s := eq_refl |}.
#[global] Instance upd_mineralCost : Updater mineralCost :=
  {| upd v s := mkUNIx (useDefault s) (hitpoints s) (shieldPoints s) (armorLevel s) (buildTime s) v (gasCost s) (nameStringId s) (baseDamage s) (upgradeDamage s); upd_get v s := eq_refl; upd_upd v w s := eq_refl |}.
#[global] Instance upd_gasCost : Updater gasCost :=
  {| upd v s := mkUNIx (useDefault s) (hitpoints s) (shieldPoints s) (armorLevel s) (buildTime s) (mineralCost s) v (nameStringId s) (baseDamage s) (upgradeDamage s); upd_get v s := eq_refl; upd_upd v w s := eq_refl |}.
#[global] Instance upd_nameStringId : Updater nameStringId :=
  {| upd v s := mkUNIx (useDefault s) (hitpoints s) (shieldPoints s) (armorLevel s) (buildTime s) (mineralCost s) (gasCost s) v (baseDamage s) (upgradeDamage s); upd_get v s := eq_refl; upd_upd v w s := eq_refl |}.
#[global] Instance upd_baseDamage : Updater baseDamage :=
  {| upd v s := mkUNIx (useDefault s) (hitpoints s) (shieldPoints s) (armorLevel s) (buildTime s) (mineralCost s) (gasCost s) (nameStringId s) v (upgradeDamage s); upd_get v s := eq_refl; upd_upd v w s := eq_refl |}.
#[global] Instance upd_upgradeDamage : Updater upgradeDamage :=
  {| upd v s := mkUNIx (useDefault s) (hitpoints s) (shieldPoints s) (armorLevel s) (buildTime s) (mineralCost s) (gasCost s) (nameStringId s) (baseDamage s) v; upd_get v s := eq_refl; upd_upd v w s := eq_refl |}.
End UNIx.

Module UPGx.
Record UPGx := mkUPGx {
  useDefault : list Z;
  unused : Z;
  baseMineralCost : list Z;
  mineralCostFactor : list Z;
  baseGasCost : list Z;
  gasCostFactor : list Z;
  baseResearchTime : list Z;
  researchTimeFactor : list Z
}.
Definition layout : codec UPGx := iso_codec
  (u8c⟦Upgrade_TotalTypes⟧ **
   u8c **
   u16c⟦Upgrade_TotalTypes⟧ **
   u16c⟦Upgrade_TotalTypes⟧ **
   u16c⟦Upgrade_TotalTypes⟧ **
   u16c⟦Upgrade_TotalTypes⟧ **
   u16c⟦Upgrade_TotalTypes⟧ **
   u16c⟦Upgrade_TotalTypes⟧)%codec
  (fun '(x0, x1, x2, x3, x4, x5, x6, x7) => mkUPGx x0 x1 x2 x3 x4 x5 x6 x7)
  (fun s => (useDefault s, unused s, baseMineralCost s, mineralCostFactor s, baseGasCost s, gasCostFactor s, baseResearchTime s, researchTimeFactor s)).
#[global] Instance layout_ok : CodecOk layout.
Proof. solve_layout. Qed.
#[global] Instance layout_dec : CwfDec layout.
Proof. unfold layout; apply _. Defined.
#[global] Instance upd_useDefault : Updater useDefault :=
  {| upd v s := mkUPGx v (unused s) (baseMineralCost s) (mineralCostFactor s) (baseGasCost s) (gasCostFactor s) (baseResearchTime s) (researchTimeFactor s); upd_get v s := eq_refl; upd_upd v w s := eq_refl |}.
#[global] Instance upd_unused : Updater unused :=
  {| upd v s := mkUPGx (useDefault s) v (baseMineralCost s) (mineralCostFactor s) (baseGasCost s) (gasCostFactor s) (baseResearchTime s) (researchTimeFactor s); upd_get v s := eq_refl; upd_upd v w s := eq_refl |}.
#[global] Instance upd_baseMineralCost : Updater baseMineralCost :=
  {| upd v s := mkUPGx (useDefault s) (unused s) v (mineralCostFactor s) (baseGasCost s) (gasCostFactor s) (baseResearchTime s) (researchTimeFactor s); upd_get v s := eq_refl; upd_upd v w s := eq_refl |}.
#[global] Instance upd_mineralCostFactor : Updater mineralCostFactor :=
  {| upd v s := mkUPGx (useDefault s) (unused s) (baseMineralCost s) v (baseGasCost s) (gasCostFactor s) (baseResearchTime s) (researchTimeFactor s); upd_get v s := eq_refl; upd_upd v w s := eq_refl |}.
#[global] Instance upd_baseGasCost : Updater baseGasCost :=
  {| upd v s := mkUPGx (useDefault s) (unused s) (baseMineralCost s) (mineralCostFactor s) v (gasCostFactor s) (baseResearchTime s) (researchTimeFactor s); upd_get v s := eq_refl; upd_upd v w s := eq_refl |}.
#[global] Instance upd_gasCostFactor : Updater gasCostFactor :=
  {| upd v s := mkUPGx (useDefault s) (unused s) (baseMineralCost s) (mineralCostFactor s) (baseGasCost s) v (baseResearchTime s) (researchTimeFactor s); upd_get v s := eq_refl; upd_upd v w s := eq_refl |}.
#[global] Instance upd_baseResearchTime : Updater baseResearchTime :=
  {| upd v s := mkUPGx (useDefault s) (unused s) (baseMineralCost s) (mineralCostFactor s) (baseGasCost s) (gasCostFactor s) v (researchTimeFactor s); upd_get v s := eq_refl; upd_upd v w s := eq_refl |}.
#[global] Instance upd_researchTimeFactor : Updater researchTimeFactor :=
  {| upd v s := mkUPGx (useDefault s) (unused s) (baseMineralCost s) (mineralCostFactor s) (baseGasCost s) (gasCostFactor s) (baseResearchTime s) v; upd_get v s := eq_refl; upd_upd v w s := eq_refl |}.
End UPGx.

Module TECx.
Record TECx := mkTECx {
  useDefault : list Z;
  mineralCost : list Z;
  gasCost : list Z;
  researchTime : list Z;
  energyCost : list Z
}.
Definition layout : codec TECx := iso_codec
  (u8c⟦Tech_TotalTypes⟧ **
   u16c⟦Tech_TotalTypes⟧ **
   u16c⟦Tech_TotalTypes⟧ **
   u16c⟦Tech_TotalTypes⟧ **
   u16c⟦Tech_TotalTypes⟧)%codec
  (fun '(x0, x1, x2, x3, x4) => mkTECx x0 x1 x2 x3 x4)
  (fun s => (useDefault s, mineralCost s, gasCost s, researchTime s, energyCost s)).
#[global] Instance layout_ok : CodecOk layout.
Proof. solve_layout. Qed.
#[global] Instance layout_dec : CwfDec layout.
Proof. unfold layout; apply _. Defined.
#[global] Instance upd_useDefault : Updater useDefault :=
  {| upd v s := mkTECx v (mineralCost s) (gasCost s) (researchTime s) (energyCost s); upd_get v s := eq_refl; upd_upd v w s := eq_refl |}.
#[global] Instance upd_mineralCost : Updater mineralCost :=
  {| upd v s := mkTECx (useDefault s) v (gasCost s) (researchTime s) (energyCost s); upd_get v s := eq_refl; upd_upd v w s := eq_refl |}.
#[global] Instance upd_gasCost : Updater gasCost :=
  {| upd v s := mkTECx (useDefault s) (mineralCost s) v (researchTime s) (energyCost s); upd_get v s := eq_refl; upd_upd v w s := eq_refl |}.
#[global] Instance upd_researchTime : Updater researchTime :=
  {| upd v s := mkTECx (useDefault s) (mineralCost s) (gasCost s) v (energyCost s); upd_get v s := eq_refl; upd_upd v w s := eq_refl |}.
#[global] Instance upd_energyCost : Updater energyCost :=
  {| upd v s := mkTECx (useDefault s) (mineralCost s) (gasCost s) (researchTime s) v; upd_get v s := eq_refl; upd_upd v w s := eq_refl |}.
End TECx.

Module OSTR.
Record OSTR := mkOSTR {
  version : Z;
  scenarioName : Z;
  scenarioDescription : Z;
  forceName : list Z;
  unitName : list Z;
  expUnitName : list Z;
  soundPath : list Z;
  switchName : list Z;
  locationName : list Z
}.
Definition layout : codec OSTR := iso_codec
  (u32c **
   u32c **
   u32c **
   u32c⟦TotalForces⟧ **
   u32c⟦Unit_TotalTypes⟧ **
   u32c⟦Unit_TotalTypes⟧ **
   u32c⟦TotalSounds⟧ **
   u32c⟦TotalSwitches⟧ **
   u32c⟦TotalLocations⟧)%codec
  (fun '(x0, x1, x2, x3, x4, x5, x6, x7, x8) => mkOSTR x0 x1 x2 x3 x4 x5 x6 x7 x8)
  (fun s => (version s, scenarioName s, scenarioDescription s, forceName s, unitName s, expUnitName s, soundPath s, switchName s, locationName s)).
#[global] Instance layout_ok : CodecOk layout.
Proof. solve_layout. Qed.
#[global] Instance layout_dec : CwfDec layout.
Proof. unfold layout; apply _. Defined.
#[global] Instance upd_version : Updater version :=
  {| upd v s := mkOSTR v (scenarioName s) (scenarioDescription s) (forceName s) (unitName s) (expUnitName s) (soundPath s) (switchName s) (locationName s); upd_get v s := eq_refl; upd_upd v w s := eq_refl |}.
#[global] Instance upd_scenarioName : Updater scenarioName :=
  {| upd v s := mkOSTR (version s) v (scenarioDescription s) (forceName s) (unitName s) (expUnitName s) (soundPath s) (switchName s) (locationName s); upd_get v s := eq_refl; upd_upd v w s := eq_refl |}.
#[global] Instance upd_scenarioDescription : Updater scenarioDescription :=
  {| upd v s := mkOSTR (version s) (scenarioName s) v (forceName s) (unitName s) (expUnitName s) (soundPath s) (switchName s) (locationName s); upd_get v s := eq_refl; upd_upd v w s := eq_refl |}.
#[global] Instance upd_forceName : Updater forceName :=
  {| upd v s := mkOSTR (version s) (scenarioName s) (scenarioDescription s) v (unitName s) (expUnitName s) (soundPath s) (switchName s) (locationName s); upd_get v s := eq_refl; upd_upd v w s := eq_refl |}.
#[global] Instance upd_unitName : Updater unitName :=
  {| upd v s := mkOSTR (version s) (scenarioName s) (scenarioDescription s) (forceName s) v (expUnitName s) (soundPath s) (switchName s) (locationName s); upd_get v s := eq_refl; upd_upd v w s := eq_refl |}.
#[global] Instance upd_expUnitName : Updater expUnitName :=
  {| upd v s := mkOSTR (version s) (scenarioName s) (scenarioDescription s) (forceName s) (unitName s) v (soundPath s) (switchName s) (locationName s); upd_get v s := eq_refl; upd_upd v w s := eq_refl |}.
#[global] Instance upd_soundPath : Updater soundPath :=
  {| upd v s := mkOSTR (version s) (scenarioName s) (scenarioDescription s) (forceName s) (unitName s) (expUnitName s) v (switchName s) (locationName s); upd_get v s := eq_refl; upd_upd v w s := eq_refl |}.
#[global] Instance upd_switchName : Updater switchName :=
  {| upd v s := mkOSTR (version s) (scenarioName s) (scenarioDescription s) (forceName s) (unitName s) (expUnitName s) (soundPath s) v (locationName s); upd_get v s := eq_refl; upd_upd v w s := eq_refl |}.
#[global] Instance upd_locationName : Updater locationName :=
  {| upd v s := mkOSTR (version s) (scenarioName s) (scenarioDescription s) (forceName s) (unitName s) (expUnitName s) (soundPath s) (switchName s) v; upd_get v s := eq_refl; upd_upd v w s := eq_refl |}.
End OSTR.

