(* ===== verification/ChkSection.v ===== *)
(** The base classes of [Sections.h]: [ChkSection] with its name tables,
    [StructSection] (a section that is one packed structure) and
    [DataSection] (raw bytes), and the streams they read and write.

    A [StructSection] keeps its bytes in the vector [rawData] and a raw
    pointer [data] into it.  [data] is set by the constructors only, so a
    read that makes the vector reallocate leaves it dangling: [dataLive]
    records whether it still points into [rawData], and an access through a
    dangling pointer is [Undef].  How much a vector over-allocates is not
    specified by C++, so the growth policy is a parameter. *)
From S2P Require Import Prelude Codec ChkTypes.
Open Scope Z_scope.

(** ** Section names *)

Module SectionName.
Definition TYPE := 1162893652.
Definition VER := 542262614.
Definition IVER := 1380275785.
Definition IVE2 := 843404873.
Definition VCOD := 1146045270.
Definition IOWN := 1314344777.
Definition OWNR := 1380865871.
Definition ERA := 541151813.
Definition DIM := 541935940.
Definition SIDE := 1162103123.
Definition MTXM := 1297634381.
Definition PUNI := 1229870416.
Definition UPGR := 1380405333.
Definition PTEC := 1128617040.
Definition UNIT := 1414090325.
Definition ISOM := 1297044297.
Definition TILE := 1162627412.
Definition DD2 := 540165188.
Definition THG2 := 843532372.
Definition MASK := 1263747405.
Definition STR := 542266451.
Definition UPRP := 1347571797.
Definition UPUS := 1398100053.
Definition MRGN := 1313296973.
Definition TRIG := 1195987540.
Definition MBRF := 1179796045.
Definition SPRP := 1347571795.
Definition FORC := 1129467718.
Definition WAV := 542523735.
Definition UNIS := 1397313109.
Definition UPGS := 1397182549.
Definition TECS := 1396917588.
Definition SWNM := 1296979795.
Definition COLR := 1380732739.
Definition PUPx := 2018530640.
Definition PTEx := 2017809488.
Definition UNIx := 2018070101.
Definition UPGx := 2017939541.
Definition TECx := 2017674580.
Definition OSTR := 1381258063.
Definition KSTR := 1381258059.
Definition KTRG := 1196577867.
Definition KTGP := 1346851915.
Definition UNKNOWN := 4294967295.
End SectionName.

(** [ChkSection::sectionNames], in file order. *)
Definition sectionNames : list Z :=
  [SectionName.TYPE; SectionName.VER; SectionName.IVER; SectionName.IVE2; SectionName.VCOD; SectionName.IOWN; SectionName.OWNR; SectionName.ERA; SectionName.DIM; SectionName.SIDE; SectionName.MTXM; SectionName.PUNI; SectionName.UPGR; SectionName.PTEC; SectionName.UNIT; SectionName.ISOM; SectionName.TILE; SectionName.DD2; SectionName.THG2; SectionName.MASK; SectionName.STR; SectionName.UPRP; SectionName.UPUS; SectionName.MRGN; SectionName.TRIG; SectionName.MBRF; SectionName.SPRP; SectionName.FORC; SectionName.WAV; SectionName.UNIS; SectionName.UPGS; SectionName.TECS; SectionName.SWNM; SectionName.COLR; SectionName.PUPx; SectionName.PTEx; SectionName.UNIx; SectionName.UPGx; SectionName.TECx; SectionName.OSTR; SectionName.KSTR; SectionName.KTRG; SectionName.KTGP; SectionName.UNKNOWN].

(** [ChkSection::sectionNameStrings]: the characters of each name. *)
Definition sectionNameStrings : list (Z * bytes) :=
  [(SectionName.TYPE, [84; 89; 80; 69]);
   (SectionName.VER, [86; 69; 82]);
   (SectionName.IVER, [73; 86; 69; 82]);
   (SectionName.IVE2, [73; 86; 69; 50]);
   (SectionName.VCOD, [86; 67; 79; 68]);
   (SectionName.IOWN, [73; 79; 87; 78]);
   (SectionName.OWNR, [79; 87; 78; 82]);
   (SectionName.ERA, [69; 82; 65]);
   (SectionName.DIM, [68; 73; 77]);
   (SectionName.SIDE, [83; 73; 68; 69]);
   (SectionName.MTXM, [77; 84; 88; 77]);
   (SectionName.PUNI, [80; 85; 78; 73]);
   (SectionName.UPGR, [85; 80; 71; 82]);
   (SectionName.PTEC, [80; 84; 69; 67]);
   (SectionName.UNIT, [85; 78; 73; 84]);
   (SectionName.ISOM, [73; 83; 79; 77]);
   (SectionName.TILE, [84; 73; 76; 69]);
   (SectionName.DD2, [68; 68; 50]);
   (SectionName.THG2, [84; 72; 71; 50]);
   (SectionName.MASK, [77; 65; 83; 75]);
   (SectionName.STR, [83; 84; 82]);
   (SectionName.UPRP, [85; 80; 82; 80]);
   (SectionName.UPUS, [85; 80; 85; 83]);
   (SectionName.MRGN, [77; 82; 71; 78]);
   (SectionName.TRIG, [84; 82; 73; 71]);
   (SectionName.MBRF, [77; 66; 82; 70]);
   (SectionName.SPRP, [83; 80; 82; 80]);
   (SectionName.FORC, [70; 79; 82; 67]);
   (SectionName.WAV, [87; 65; 86]);
   (SectionName.UNIS, [85; 78; 73; 83]);
   (SectionName.UPGS, [85; 80; 71; 83]);
   (SectionName.TECS, [84; 69; 67; 83]);
   (SectionName.SWNM, [83; 87; 78; 77]);
   (SectionName.COLR, [67; 79; 76; 82]);
   (SectionName.PUPx, [80; 85; 80; 120]);
   (SectionName.PTEx, [80; 84; 69; 120]);
   (SectionName.UNIx, [85; 78; 73; 120]);
   (SectionName.UPGx, [85; 80; 71; 120]);
   (SectionName.TECx, [84; 69; 67; 120]);
   (SectionName.OSTR, [79; 83; 84; 82]);
   (SectionName.KSTR, [75; 83; 84; 82]);
   (SectionName.KTRG, [75; 84; 82; 71]);
   (SectionName.KTGP, [75; 84; 71; 80]);
   (SectionName.UNKNOWN, [85; 78; 75; 78; 79; 87; 78])].

(** [ChkSection::sectionIndexes]. *)
Definition SectionIndex_UNKNOWN : Z := 4294967295.
Definition sectionIndexes : list (Z * Z) :=
  [(SectionName.TYPE, 0);
   (SectionName.VER, 1);
   (SectionName.IVER, 2);
   (SectionName.IVE2, 3);
   (SectionName.VCOD, 4);
   (SectionName.IOWN, 5);
   (SectionName.OWNR, 6);
   (SectionName.ERA, 7);
   (SectionName.DIM, 8);
   (SectionName.SIDE, 9);
   (SectionName.MTXM, 10);
   (SectionName.PUNI, 11);
   (SectionName.UPGR, 12);
   (SectionName.PTEC, 13);
   (SectionName.UNIT, 14);
   (SectionName.ISOM, 15);
   (SectionName.TILE, 16);
   (SectionName.DD2, 17);
   (SectionName.THG2, 18);
   (SectionName.MASK, 19);
   (SectionName.STR, 20);
   (SectionName.UPRP, 21);
   (SectionName.UPUS, 22);
   (SectionName.MRGN, 23);
   (SectionName.TRIG, 24);
   (SectionName.MBRF, 25);
   (SectionName.SPRP, 26);
   (SectionName.FORC, 27);
   (SectionName.WAV, 28);
   (SectionName.UNIS, 29);
   (SectionName.UPGS, 30);
   (SectionName.TECS, 31);
   (SectionName.SWNM, 32);
   (SectionName.COLR, 33);
   (SectionName.PUPx, 34);
   (SectionName.PTEx, 35);
   (SectionName.UNIx, 36);
   (SectionName.UPGx, 37);
   (SectionName.TECx, 38);
   (SectionName.OSTR, 39);
   (SectionName.KSTR, 40);
   (SectionName.KTRG, 41);
   (SectionName.KTGP, 42);
   (SectionName.UNKNOWN, SectionIndex_UNKNOWN)].

Inductive LoadBehavior := Standard | Override | Append.

Definition nonStandardLoadBehaviors : list (Z * LoadBehavior) :=
  [(SectionName.MTXM, Override); (SectionName.UNIT, Append);
   (SectionName.THG2, Append); (SectionName.STR, Override);
   (SectionName.TRIG, Append); (SectionName.MBRF, Append)].

(** [unordered_map::find] on a table with distinct keys. *)
Fixpoint table_find {V} (table : list (Z * V)) (key : Z) : option V :=
  match table with
  | [] => None
  | (k, v) :: table => if k =? key then Some v else table_find table key
  end.

Definition getLoadBehavior (sectionName : Z) : LoadBehavior :=
  match table_find nonStandardLoadBehaviors sectionName with
  | Some b => b
  | None => Standard
  end.

Definition getNameString (sectionName : Z) : outcome bytes :=
  match table_find sectionNameStrings sectionName with
  | Some str => Ret str
  | None =>
      match table_find sectionNameStrings SectionName.UNKNOWN with
      | Some str => Ret str
      | None => Undef
      end
  end.

(** ** The base class *)

Record ChkSection := mkChkSection {
  sectionIndex : Z;
  sectionName : Z;
  virtualizable : bool;
  dataIsVirtual : bool
}.

Definition newChkSection (name : Z) (virtualizable isVirtual : bool) : ChkSection :=
  mkChkSection
    (match table_find sectionIndexes name with Some i => i | None => SectionIndex_UNKNOWN end)
    name virtualizable isVirtual.

Definition setVirtual (isVirtual : bool) (s : ChkSection) : ChkSection :=
  mkChkSection (sectionIndex s) (sectionName s) (virtualizable s)
    (if virtualizable s then isVirtual else false).

(** ** Streams *)

(** An input stream: the bytes left and whether the stream is still good. *)
Record istream := mkIstream { ibytes : bytes; igood : bool }.

(** [is.read(p, n)]: the bytes stored at [p] ([is.gcount()] is their number)
    and the stream afterwards; a short read or a stream that is not good
    leaves the stream failed. *)
Definition istream_read (ist : istream) (n : Z) : bytes * istream :=
  if igood ist
  then (take (Z.to_nat n) (ibytes ist),
        mkIstream (drop (Z.to_nat n) (ibytes ist)) (n <=? zlen (ibytes ist)))
  else ([], ist).

Lemma istream_read_app bs rest :
  istream_read (mkIstream (bs ++ rest) true) (zlen bs) = (bs, mkIstream rest true).
Proof.
  unfold istream_read, zlen; simpl. rewrite Nat2Z.id, take_app_length, drop_app_length.
  rewrite (proj2 (Z.leb_le _ _)); [done|]. rewrite length_app. lia.
Qed.

(** Storing the bytes that were read over the start of a buffer. *)
Definition store (buf got : bytes) : outcome bytes :=
  if (length got <=? length buf)%nat then Ret (got ++ drop (length got) buf) else Undef.

(** ** Raw sections *)

Module DataSection.
Definition read (sizeInBytes : Z) (ist : istream) : outcome (bytes * Z * istream) :=
  if sizeInBytes <? 0 then Throw LengthError (* [data.assign] of a [size_t] past [max_size()] *)
  else
    let data := replicate (Z.to_nat sizeInBytes) 0 in
    if 0 <? sizeInBytes then
      let '(got, ist') := istream_read ist sizeInBytes in
      let* data' := store data got in
      Ret (data', zlen got, ist')
    else Ret (data, 0, ist).

Definition write (data : bytes) : bytes := data.

Definition getSize (data : bytes) : Z := s32 (zlen data).
End DataSection.

(** ** Structure sections *)

Record StructSection := mkStructSection {
  base : ChkSection;
  rawData : bytes;
  rawCapacity : Z;
  writeSize : Z;
  dataLive : bool
}.

Section StructSection.
Context {T : Type} (layout : codec T).

(** The capacity a vector of capacity [cap] grows to when it must hold [n]
    elements. *)
Variable grow : Z -> Z -> Z.
Hypothesis grow_ge : forall cap n, n <= grow cap n.

Definition sizeof : Z := Z.of_nat (csize layout).

(** [StructSection(sectionName)] *)
Definition newStructSection (name : Z) (virt : bool) : StructSection :=
  mkStructSection (newChkSection name virt false) (replicate (csize layout) 0)
    (grow 0 sizeof) sizeof true.

(** [StructSection(sectionName, structData)] *)
Definition newStructSectionFrom (name : Z) (virt : bool) (structData : T) : StructSection :=
  mkStructSection (newChkSection name virt false)
    (cenc layout structData ++ drop (length (cenc layout structData)) (replicate (csize layout) 0))
    (grow 0 sizeof) sizeof true.

Definition getSize (s : StructSection) : Z := s32 (writeSize s).

(** [rawData.assign(n, u8(0))]: a larger vector than the capacity moves. *)
Definition assignRaw (n : Z) (s : StructSection) : StructSection :=
  let moved := rawCapacity s <? n in
  mkStructSection (base s) (replicate (Z.to_nat n) 0)
    (if moved then grow (rawCapacity s) n else rawCapacity s) (writeSize s)
    (dataLive s && negb moved).

Definition readStruct (sizeInBytes : Z) (ist : istream) (s : StructSection)
    : outcome (StructSection * Z * istream) :=
  if sizeInBytes <? 0 then Throw InvalidArgument
  else
    let s := assignRaw (if sizeInBytes <? sizeof then sizeof else sizeInBytes) s in
    let '(got, ist') := istream_read ist sizeInBytes in
    let* raw := store (rawData s) got in
    Ret (mkStructSection (base s) raw (rawCapacity s) (writeSize s) (dataLive s), zlen got, ist').

(** [os.write((const char * )&rawData[0], writeSize)] *)
Definition writeStruct (s : StructSection) : outcome bytes :=
  if writeSize s <=? zlen (rawData s) then Ret (take (Z.to_nat (writeSize s)) (rawData s))
  else Undef.

(** Reading and assigning [*data]. *)
Definition getData (s : StructSection) : outcome T :=
  if dataLive s then Ret (cdec layout (rawData s)) else Undef.

Definition setData (d : T) (s : StructSection) : outcome StructSection :=
  if dataLive s then
    Ret (mkStructSection (base s) (cenc layout d ++ drop (csize layout) (rawData s))
           (rawCapacity s) (writeSize s) (dataLive s))
  else Undef.

(** A member function that works through [data]. *)
Definition viaData (f : T -> outcome T) (s : StructSection) : outcome StructSection :=
  let* d := getData s in let* d' := f d in setData d' s.

(** The invariant the members rely on. *)
Definition struct_ok (s : StructSection) : Prop :=
  is_bytes (rawData s) /\ sizeof <= zlen (rawData s) /\ zlen (rawData s) <= rawCapacity s /\
  writeSize s = sizeof.

(** ** Properties of structure sections *)

Context `{!CodecOk layout}.

Lemma sizeof_nonneg : 0 <= sizeof.
Proof. unfold sizeof; lia. Qed.

Lemma newStructSection_ok name virt :
  struct_ok (newStructSection name virt) /\ dataLive (newStructSection name virt) = true.
Proof.
  unfold struct_ok, newStructSection, zlen, sizeof; simpl. rewrite length_replicate.
  pose proof (grow_ge 0 (Z.of_nat (csize layout))).
  repeat split; try lia. by apply Forall_replicate.
Qed.

(** Reading [n] bytes into the section, every length. *)
Lemma readStruct_spec s n bs rest :
  struct_ok s -> 0 <= n -> is_bytes bs -> zlen bs = n ->
  exists s', readStruct n (mkIstream (bs ++ rest) true) s = Ret (s', n, mkIstream rest true) /\
    struct_ok s' /\ rawData s' = bs ++ replicate (csize layout - length bs) 0 /\
    dataLive s' = dataLive s && (Z.max n sizeof <=? rawCapacity s).
Proof.
  intros (Hb & Hsz & Hcap & Hw) Hn Hbs Hl. subst n. unfold readStruct.
  rewrite (proj2 (Z.ltb_ge (zlen bs) 0)) by lia. rewrite istream_read_app.
  set (m := if zlen bs <? sizeof then sizeof else zlen bs).
  assert (Hm : m = Z.max (zlen bs) sizeof) by (unfold m; destruct (Z.ltb_spec (zlen bs) sizeof); lia).
  rewrite <- Hm.
  assert (Hlm : (length bs <= Z.to_nat m)%nat) by (unfold zlen in *; lia).
  unfold store, assignRaw; cbn [rawData]. rewrite length_replicate, (proj2 (Nat.leb_le _ _)) by done.
  eexists; split; [reflexivity|]. unfold struct_ok; cbn [rawData rawCapacity writeSize dataLive].
  rewrite drop_replicate.
  replace (Z.to_nat m - length bs)%nat with (csize layout - length bs)%nat
    by (unfold sizeof, zlen in *; lia).
  split; [|split; [done|]].
  - split; [apply Forall_app; split; [done | by apply Forall_replicate]|].
    unfold zlen in *. rewrite length_app, length_replicate.
    pose proof (grow_ge (rawCapacity s) m). unfold sizeof in *.
    destruct (Z.ltb_spec (rawCapacity s) m); repeat split; lia.
  - f_equal. destruct (Z.ltb_spec (rawCapacity s) m), (Z.leb_spec m (rawCapacity s)); done || lia.
Qed.

Lemma getData_prefix s d tail :
  dataLive s = true -> rawData s = cenc layout d ++ tail -> cwf layout d -> getData s = Ret d.
Proof. intros Hl Hr Hd. unfold getData. by rewrite Hl, Hr, dec_enc. Qed.

Lemma writeStruct_prefix s d tail :
  struct_ok s -> rawData s = cenc layout d ++ tail -> cwf layout d ->
  writeStruct s = Ret (cenc layout d).
Proof.
  intros (Hb & Hsz & Hcap & Hw) Hr Hd. unfold writeStruct.
  rewrite Hw, (proj2 (Z.leb_le _ _)) by done.
  unfold sizeof. rewrite Nat2Z.id, Hr, <- (enc_length d Hd). by rewrite take_app_length.
Qed.

(** C1: a structure section that is written and read back denotes the same
    structure: from any live section, reading the bytes another section
    wrote gives a live section with that structure, consumes exactly them,
    and writes the same bytes again. *)
Theorem struct_roundtrip s d rest :
  struct_ok s -> dataLive s = true -> cwf layout d ->
  exists s', readStruct sizeof (mkIstream (cenc layout d ++ rest) true) s
             = Ret (s', sizeof, mkIstream rest true) /\
    struct_ok s' /\ getData s' = Ret d /\ writeStruct s' = Ret (cenc layout d).
Proof.
  intros Hs Hlive Hd.
  destruct (readStruct_spec s sizeof (cenc layout d) rest) as (s' & Hr & Hok & Hraw & Hl);
    auto using enc_bytes, sizeof_nonneg.
  { unfold zlen, sizeof. by rewrite enc_length. }
  exists s'. split; [done|]. split; [done|].
  assert (Hlive' : dataLive s' = true).
  { rewrite Hl, Hlive, (proj2 (Z.leb_le _ _)); [done|]. destruct Hs as (? & ? & ? & ?). lia. }
  split; [by eapply getData_prefix | by eapply writeStruct_prefix].
Qed.

(** A member function that returns, through a live pointer. *)
Lemma viaData_ret s d d' (f : T -> outcome T) :
  struct_ok s -> dataLive s = true -> getData s = Ret d -> f d = Ret d' -> cwf layout d' ->
  exists s', viaData f s = Ret s' /\ struct_ok s' /\ dataLive s' = true /\
    getData s' = Ret d' /\ writeStruct s' = Ret (cenc layout d').
Proof.
  intros (Hb & Hsz & Hcap & Hw) Hlive Hd Hf Hd'. unfold viaData, setData.
  rewrite Hd; cbn [obind]. rewrite Hf; cbn [obind]. rewrite Hlive.
  eexists; split; [reflexivity|].
  assert (Hok : struct_ok (mkStructSection (base s)
            (cenc layout d' ++ drop (csize layout) (rawData s)) (rawCapacity s) (writeSize s) true)).
  { unfold struct_ok, zlen, sizeof in *; cbn [rawData rawCapacity writeSize].
    rewrite length_app, length_drop, enc_length by done.
    repeat split; try lia. apply Forall_app; split; [by apply enc_bytes | by apply Forall_drop]. }
  split; [done|]. split; [done|].
  split; [by eapply getData_prefix | by eapply writeStruct_prefix].
Qed.

(** Member functions that work through [data] refine the structure: one
    that turns [d] into [d'] turns a live section that denotes [d] into a
    live section that denotes [d'] and writes exactly the bytes of [d'];
    one that throws leaves no section behind. *)
Theorem struct_viaData s d d' (f : T -> outcome T) :
  struct_ok s -> dataLive s = true -> getData s = Ret d -> f d = Ret d' -> cwf layout d' ->
  exists s', viaData f s = Ret s' /\ struct_ok s' /\ dataLive s' = true /\
    getData s' = Ret d' /\ writeStruct s' = Ret (cenc layout d').
Proof. apply viaData_ret. Qed.

(** A section shorter than its structure is completed with zero bytes,
    and one no longer than the structure never invalidates [data]. *)
Theorem struct_short_read s bs rest :
  struct_ok s -> dataLive s = true -> is_bytes bs -> zlen bs <= sizeof ->
  exists s', readStruct (zlen bs) (mkIstream (bs ++ rest) true) s
             = Ret (s', zlen bs, mkIstream rest true) /\
    getData s' = Ret (cdec layout (bs ++ replicate (csize layout - length bs) 0)).
Proof.
  intros Hs Hlive Hbs Hle.
  destruct (readStruct_spec s (zlen bs) bs rest) as (s' & Hr & Hok & Hraw & Hl);
    auto; [unfold zlen; lia|].
  exists s'. split; [done|]. unfold getData. destruct Hs as (? & ? & ? & ?).
  by rewrite Hl, Hlive, (proj2 (Z.leb_le _ _)), Hraw by lia.
Qed.

(** A section that is longer than the vector's capacity reallocates
    [rawData] and leaves [data] dangling: every later access through it is
    undefined, and since [writeSize] is never updated, only the first
    [sizeof] of the bytes that were read can be written back. *)
Theorem struct_oversize_read_dangles s bs rest :
  struct_ok s -> is_bytes bs -> rawCapacity s < zlen bs ->
  exists s', readStruct (zlen bs) (mkIstream (bs ++ rest) true) s
             = Ret (s', zlen bs, mkIstream rest true) /\
    getData s' = Undef /\ (forall f, viaData f s' = Undef) /\
    writeStruct s' = Ret (take (csize layout) bs).
Proof.
  intros Hs Hbs Hlt.
  destruct (readStruct_spec s (zlen bs) bs rest) as (s' & Hr & Hok & Hraw & Hl);
    auto; [unfold zlen; lia|].
  exists s'. split; [done|].
  rewrite (proj2 (Z.leb_gt _ _)), andb_false_r in Hl by lia.
  unfold viaData, getData, writeStruct. rewrite Hl. split; [done|]. split; [done|].
  destruct Hs as (_ & Hsz & Hcap & _). destruct Hok as (_ & Hsz' & _ & ->).
  rewrite (proj2 (Z.leb_le _ _)) by done. unfold sizeof. rewrite Nat2Z.id, Hraw.
  rewrite take_app_le; [done|]. unfold sizeof, zlen in *; lia.
Qed.
End StructSection.

(** ** Witnesses *)

Module StructSectionWitness.
(** A vector that never over-allocates. *)
Definition exact (cap n : Z) : Z := n.
Lemma exact_ge cap n : n <= exact cap n.
Proof. unfold exact; lia. Qed.

Definition fresh : StructSection := newStructSection DIM.layout exact SectionName.DIM false.
Definition map64x96 : DIM.DIM := DIM.mkDIM 64 96.

Lemma fresh_ok : struct_ok DIM.layout fresh /\ dataLive fresh = true.
Proof. apply newStructSection_ok, exact_ge. Qed.
Lemma map64x96_wf : cwf DIM.layout map64x96.
Proof. repeat split; vm_compute; congruence. Qed.

Lemma struct_roundtrip_witness :
  exists s', readStruct DIM.layout exact 4 (mkIstream [64; 0; 96; 0; 7] true) fresh
             = Ret (s', 4, mkIstream [7] true) /\
    struct_ok DIM.layout s' /\ getData DIM.layout s' = Ret map64x96 /\
    writeStruct s' = Ret [64; 0; 96; 0].
Proof.
  exact (struct_roundtrip DIM.layout exact exact_ge fresh map64x96 [7]
    (proj1 fresh_ok) (proj2 fresh_ok) map64x96_wf).
Defined.

Lemma struct_viaData_witness :
  exists s', viaData DIM.layout (fun d => Ret (d <| DIM.tileWidth := 128 |>)) fresh = Ret s' /\
    struct_ok DIM.layout s' /\ dataLive s' = true /\
    getData DIM.layout s' = Ret (DIM.mkDIM 128 0) /\ writeStruct s' = Ret [128; 0; 0; 0].
Proof.
  refine (struct_viaData DIM.layout fresh (DIM.mkDIM 0 0) (DIM.mkDIM 128 0) _
    (proj1 fresh_ok) (proj2 fresh_ok) eq_refl eq_refl _).
  repeat split; vm_compute; congruence.
Defined.

Lemma struct_short_read_witness :
  exists s', readStruct DIM.layout exact 3 (mkIstream [64; 0; 96] true) fresh
             = Ret (s', 3, mkIstream [] true) /\ getData DIM.layout s' = Ret map64x96.
Proof.
  refine (struct_short_read DIM.layout exact exact_ge fresh [64; 0; 96] []
    (proj1 fresh_ok) (proj2 fresh_ok) _ _).
  - repeat constructor; vm_compute; congruence.
  - vm_compute; congruence.
Defined.

Lemma struct_oversize_read_dangles_witness :
  exists s', readStruct DIM.layout exact 5 (mkIstream [64; 0; 96; 0; 7] true) fresh
             = Ret (s', 5, mkIstream [] true) /\
    getData DIM.layout s' = Undef /\ (forall f, viaData DIM.layout f s' = Undef) /\
    writeStruct s' = Ret [64; 0; 96; 0].
Proof.
  refine (struct_oversize_read_dangles DIM.layout exact exact_ge fresh [64; 0; 96; 0; 7] []
    (proj1 fresh_ok) _ _).
  - repeat constructor; vm_compute; congruence.
  - vm_compute; congruence.
Defined.
End StructSectionWitness.
