(* ===== verification/Accessors.v ===== *)
(** The bounds-checked member accessors the structure sections share, and
    what it means for a getter and a setter to be lawful.

    Nearly every member function of a structure section has one of two
    shapes: [if ( i < N ) return data->member[i]; else throw out_of_range]
    and its assignment.  [get_at]/[set_at] (and their two-index versions)
    are those shapes; [assign] stores the new array in the structure.
    [Lawful] and [Lawful2] are the interface a section's accessors promise;
    [Member] is what the layout of the structure provides, and the two
    [lawful] lemmas discharge the interface from it. *)
From S2P Require Import Prelude Codec ChkTypes.
Open Scope Z_scope.

(** ** Accessors *)

Definition get_at {A} (N : Z) (l : list A) (i : Z) : outcome A :=
  if i <? N then vget l i else Throw OutOfRange.

Definition set_at {A} (N : Z) (l : list A) (i : Z) (a : A) : outcome (list A) :=
  if i <? N then vset l i a else Throw OutOfRange.

Definition get_at2 {A} (N M : Z) (l : list (list A)) (i j : Z) : outcome A :=
  if i <? N then
    if j <? M then let* row := vget l i in vget row j else Throw OutOfRange
  else Throw OutOfRange.

Definition set_at2 {A} (N M : Z) (l : list (list A)) (i j : Z) (a : A) : outcome (list (list A)) :=
  if i <? N then
    if j <? M then let* row := vget l i in let* row' := vset row j a in vset l i row'
    else Throw OutOfRange
  else Throw OutOfRange.

(** Like [set_at2], but only the first index is checked. *)
Definition set_at2_unchecked {A} (N : Z) (l : list (list A)) (i j : Z) (a : A)
    : outcome (list (list A)) :=
  if i <? N then let* row := vget l i in let* row' := vset row j a in vset l i row'
  else Throw OutOfRange.

(** [data->member = l], when [l] has been computed. *)
Definition assign {S V} (f : S -> V) `{!Updater f} (o : outcome V) (d : S) : outcome S :=
  let* v := o in Ret (d <| f := v |>).

(** [v != No] for the two-valued enumerations, and the value of a flag. *)
Definition is_yes (v : Z) : bool := negb (v =? 0).
Definition yes_no (b : bool) : Z := if b then 1 else 0.
Definition get_yes (o : outcome Z) : outcome bool := let* v := o in Ret (is_yes v).

Lemma yes_no_byte b : is_u 8 (yes_no b).
Proof. destruct b; vm_compute; split; congruence. Qed.

Lemma is_yes_yes_no b : is_yes (yes_no b) = b.
Proof. by destruct b. Qed.

(** ** Lawful accessors *)

(** [get] and [set] access [N] independent cells of a structure: inside of
    the bound both return, a setter stores [norm v] in its own cell, keeps
    every other cell and everything [erase] leaves (all other members) and
    the structure's invariant; outside of it both throw. *)
Record Lawful {S V} (wf : S -> Prop) (erase : S -> S) (ok : V -> Prop) (norm : V -> V) (N : Z)
    (get : S -> Z -> outcome V) (set : S -> Z -> V -> outcome S) : Prop := {
  law_get_in : forall s i, wf s -> 0 <= i < N -> is_ret (get s i);
  law_get_out : forall s i, N <= i -> get s i = Throw OutOfRange;
  law_set_out : forall s i v, N <= i -> set s i v = Throw OutOfRange;
  law_set_in : forall s i v, wf s -> ok v -> 0 <= i < N ->
    exists s', set s i v = Ret s' /\ wf s' /\ erase s' = erase s /\
      forall j, 0 <= j -> get s' j = if decide (j = i) then Ret (norm v) else get s j
}.

(** Lawfulness only depends on what the getter returns. *)
Lemma lawful_get {S V} (wf : S -> Prop) erase (ok : V -> Prop) norm N
    (get get' : S -> Z -> outcome V) set :
  (forall s i, get s i = get' s i) ->
  Lawful wf erase ok norm N get set -> Lawful wf erase ok norm N get' set.
Proof.
  intros E [H1 H2 H3 H4]. split; intros.
  - rewrite <- E; auto.
  - rewrite <- E; auto.
  - auto.
  - destruct (H4 s i v) as (s' & ? & ? & ? & Hg); auto. exists s'. repeat split; auto.
    intros j Hj. rewrite <- !E. auto.
Qed.

Record Lawful2 {S V} (wf : S -> Prop) (erase : S -> S) (ok : V -> Prop) (norm : V -> V) (N M : Z)
    (get : S -> Z -> Z -> outcome V) (set : S -> Z -> Z -> V -> outcome S) : Prop := {
  law2_get_in : forall s i j, wf s -> 0 <= i < N -> 0 <= j < M -> is_ret (get s i j);
  law2_get_out : forall s i j, N <= i \/ M <= j -> get s i j = Throw OutOfRange;
  law2_set_out : forall s i j v, N <= i \/ M <= j -> set s i j v = Throw OutOfRange;
  law2_set_in : forall s i j v, wf s -> ok v -> 0 <= i < N -> 0 <= j < M ->
    exists s', set s i j v = Ret s' /\ wf s' /\ erase s' = erase s /\
      forall i' j', 0 <= i' -> 0 <= j' ->
        get s' i' j' = if decide (i' = i /\ j' = j) then Ret (norm v) else get s i' j'
}.

Lemma lawful2_get {S V} (wf : S -> Prop) erase (ok : V -> Prop) norm N M
    (get get' : S -> Z -> Z -> outcome V) set :
  (forall s i j, get s i j = get' s i j) ->
  Lawful2 wf erase ok norm N M get set -> Lawful2 wf erase ok norm N M get' set.
Proof.
  intros E [H1 H2 H3 H4]. split; intros.
  - rewrite <- E; auto.
  - rewrite <- E; auto.
  - auto.
  - destruct (H4 s i j v) as (s' & ? & ? & ? & Hg); auto. exists s'. repeat split; auto.
    intros i' j' Hi' Hj'. rewrite <- !E. auto.
Qed.

(** [f] is an array member of the structure: [N] elements of layout [c]. *)
Class Member {S A} (layout : codec S) (f : S -> list A) `{!Updater f} (c : codec A) (N : Z) : Prop := {
  member_nonneg : 0 <= N;
  member_wf : forall s, cwf layout s -> length (f s) = Z.to_nat N /\ Forall (cwf c) (f s);
  member_upd : forall s l, cwf layout s -> length l = Z.to_nat N -> Forall (cwf c) l ->
    cwf layout (s <| f := l |>)
}.

Ltac solve_member :=
  split; [done | intros []; cbn; tauto | intros [] l; cbn; tauto].

Section lawful.
Context {S A : Type} (layout : codec S) (f : S -> list A) `{!Updater f} (c : codec A) (N : Z).
Context `{!Member layout f c N}.

Lemma member_zlen s : cwf layout s -> zlen (f s) = N.
Proof.
  intros H. destruct (member_wf s H) as [Hl _]. pose proof member_nonneg. unfold zlen. lia.
Qed.

(** One index: [get] reads through [rd], [set] stores [wr v]. *)
Lemma lawful_member {V} (rd : A -> V) (wr : V -> A) (ok : V -> Prop) (norm : V -> V) :
  (forall v, ok v -> cwf c (wr v)) -> (forall v, rd (wr v) = norm v) ->
  Lawful (cwf layout) (upd f []) ok norm N
    (fun s i => let* a := get_at N (f s) i in Ret (rd a))
    (fun s i v => assign f (set_at N (f s) i (wr v)) s).
Proof.
  intros Hok Hnorm. unfold get_at, set_at, assign. split.
  - intros s i Hs Hi. rewrite (proj2 (Z.ltb_lt _ _)) by lia.
    destruct (vget_in (f s) i) as (a & _ & ->); [by rewrite member_zlen|]. eexists; reflexivity.
  - intros s i Hi. by rewrite (proj2 (Z.ltb_ge _ _)).
  - intros s i v Hi. by rewrite (proj2 (Z.ltb_ge _ _)).
  - intros s i v Hs Hv Hi. rewrite (proj2 (Z.ltb_lt _ _)) by lia.
    rewrite vset_in by (by rewrite member_zlen). cbn [obind].
    eexists; split; [reflexivity|]. destruct (member_wf s Hs) as [Hl Hf]. split.
    { apply member_upd; [done | by rewrite length_insert|].
      apply Forall_insert; auto. }
    split; [by rewrite upd_upd|]. intros j Hj. rewrite upd_get.
    case_decide as E; [subst j|].
    + rewrite (proj2 (Z.ltb_lt _ _)) by lia.
      rewrite vget_vset by (rewrite ?member_zlen; done). rewrite decide_True by done.
      cbn [obind]. by rewrite Hnorm.
    + destruct (j <? N); [|done].
      rewrite vget_vset by (rewrite ?member_zlen; done). by rewrite decide_False.
Qed.
End lawful.

Section lawful2.
Context {S A : Type} (layout : codec S) (f : S -> list (list A)) `{!Updater f}.
Context (c : codec A) (N M : Z) `{!Member layout f (array_codec (Z.to_nat M) c) N}.

Lemma member_row s i : cwf layout s -> 0 <= i < N ->
  exists row, f s !! Z.to_nat i = Some row /\ vget (f s) i = Ret row /\
    length row = Z.to_nat M /\ Forall (cwf c) row.
Proof.
  intros Hs Hi. destruct (vget_in (f s) i) as (row & Hr & Hg); [by erewrite member_zlen|].
  exists row. split; [done|]. split; [done|]. destruct (member_wf s Hs) as [_ Hf].
  apply (Forall_lookup_1 _ _ _ _ Hf Hr).
Qed.

Lemma lawful2_member {V} (rd : A -> V) (wr : V -> A) (ok : V -> Prop) (norm : V -> V) :
  (forall v, ok v -> cwf c (wr v)) -> (forall v, rd (wr v) = norm v) ->
  Lawful2 (cwf layout) (upd f []) ok norm N M
    (fun s i j => let* a := get_at2 N M (f s) i j in Ret (rd a))
    (fun s i j v => assign f (set_at2 N M (f s) i j (wr v)) s).
Proof.
  intros Hok Hnorm. unfold get_at2, set_at2, assign. split.
  - intros s i j Hs Hi Hj. rewrite !(proj2 (Z.ltb_lt _ _)) by lia.
    destruct (member_row s i) as (row & _ & -> & Hl & _); auto; cbn [obind].
    destruct (vget_in row j) as (a & _ & ->); [unfold zlen; lia|]. eexists; reflexivity.
  - intros s i j [E|E]; apply Z.ltb_ge in E; rewrite E; [done | by destruct (i <? N)].
  - intros s i j v [E|E]; apply Z.ltb_ge in E; rewrite E; [done | by destruct (i <? N)].
  - intros s i j v Hs Hv Hi Hj. rewrite !(proj2 (Z.ltb_lt _ _)) by lia.
    destruct (member_row s i) as (row & Hrow & Hg & Hl & Hf); auto.
    rewrite Hg; cbn [obind]. rewrite (vset_in row) by (unfold zlen; lia); cbn [obind].
    rewrite vset_in by (by erewrite member_zlen); cbn [obind].
    eexists; split; [reflexivity|]. destruct (member_wf s Hs) as [Hlf Hff]. split.
    { apply member_upd; [done | by rewrite length_insert|]. apply Forall_insert; [done|].
      split; [by rewrite length_insert | apply Forall_insert; auto]. }
    split; [by rewrite upd_upd|]. intros i' j' Hi' Hj'. rewrite upd_get.
    destruct (Z.ltb_spec i' N); [|by rewrite decide_False by lia].
    destruct (Z.ltb_spec j' M); [|by rewrite decide_False by lia].
    rewrite vget_vset by (erewrite ?member_zlen; eauto).
    destruct (decide (i' = i)) as [->|Hne]; [|by rewrite decide_False by lia].
    cbn [obind]. rewrite vget_vset by (unfold zlen; lia). rewrite Hg; cbn [obind].
    destruct (decide (j' = j)) as [->|]; [|by rewrite decide_False by lia].
    rewrite decide_True by done. cbn [obind]. by rewrite Hnorm.
Qed.
End lawful2.

(** The four kinds of members: a flag, a number stored as given, a number
    narrowed to a byte, and their two-index versions. *)
Section kinds.
Context {S : Type} (layout : codec S).

Lemma lawful_yes (f : S -> list Z) `{!Updater f} N `{!Member layout f u8c N} :
  Lawful (cwf layout) (upd f []) (fun _ => True) id N
    (fun s i => get_yes (get_at N (f s) i))
    (fun s i b => assign f (set_at N (f s) i (yes_no b)) s).
Proof.
  apply (lawful_member layout f u8c N is_yes yes_no); intros b; [|apply is_yes_yes_no].
  intros _. apply yes_no_byte.
Qed.

Lemma lawful_plain (f : S -> list Z) `{!Updater f} c N `{!Member layout f c N} :
  Lawful (cwf layout) (upd f []) (cwf c) id N
    (fun s i => get_at N (f s) i)
    (fun s i v => assign f (set_at N (f s) i v) s).
Proof.
  eapply lawful_get; [|by apply (lawful_member layout f c N id id)].
  intros s i; simpl. by destruct (get_at N (f s) i).
Qed.

Lemma lawful_u8 (f : S -> list Z) `{!Updater f} N `{!Member layout f u8c N} :
  Lawful (cwf layout) (upd f []) (fun _ => True) u8 N
    (fun s i => get_at N (f s) i)
    (fun s i v => assign f (set_at N (f s) i (u8 v)) s).
Proof.
  eapply lawful_get; [|apply (lawful_member layout f u8c N id u8); [intros v _; apply (u8_range v) | done]].
  intros s i; simpl. by destruct (get_at N (f s) i).
Qed.

Lemma lawful2_yes (f : S -> list (list Z)) `{!Updater f} N M
    `{!Member layout f (array_codec (Z.to_nat M) u8c) N} :
  Lawful2 (cwf layout) (upd f []) (fun _ => True) id N M
    (fun s i j => get_yes (get_at2 N M (f s) i j))
    (fun s i j b => assign f (set_at2 N M (f s) i j (yes_no b)) s).
Proof.
  apply (lawful2_member layout f u8c N M is_yes yes_no); intros b; [|apply is_yes_yes_no].
  intros _. apply yes_no_byte.
Qed.

Lemma lawful2_u8 (f : S -> list (list Z)) `{!Updater f} N M
    `{!Member layout f (array_codec (Z.to_nat M) u8c) N} :
  Lawful2 (cwf layout) (upd f []) (fun _ => True) u8 N M
    (fun s i j => get_at2 N M (f s) i j)
    (fun s i j v => assign f (set_at2 N M (f s) i j (u8 v)) s).
Proof.
  eapply lawful2_get; [|apply (lawful2_member layout f u8c N M id u8); [intros v _; apply (u8_range v) | done]].
  intros s i j; simpl. by destruct (get_at2 N M (f s) i j).
Qed.

(** An unchecked second index past the row is an out-of-bounds write. *)
Lemma unchecked_row_undef (f : S -> list (list Z)) `{!Updater f} N M
    `{!Member layout f (array_codec (Z.to_nat M) u8c) N} d i j v :
  0 <= M -> cwf layout d -> 0 <= i < N -> M <= j ->
  assign f (set_at2_unchecked N (f d) i j v) d = Undef.
Proof.
  intros HM Hd Hi Hj. unfold set_at2_unchecked, assign.
  rewrite (proj2 (Z.ltb_lt _ _)) by lia.
  destruct (member_row layout f u8c N M d i) as (row & _ & -> & Hl & _); auto; cbn [obind].
  unfold vset, zlen. rewrite (proj2 (Z.ltb_ge j _)) by lia. by rewrite andb_false_r.
Qed.
End kinds.

Ltac solve_lawful :=
  lazymatch goal with
  | |- Lawful _ (upd ?f _) _ _ _ _ _ =>
      first [ exact (lawful_yes _ f _) | exact (lawful_plain _ f _ _) | exact (lawful_u8 _ f _) ]
  | |- Lawful2 _ (upd ?f _) _ _ _ ?M _ _ =>
      first [ exact (lawful2_yes _ f _ M) | exact (lawful2_u8 _ f _ M) ]
  end.

(** ** Default values *)

Definition filled (N v : Z) : list Z := replicate (Z.to_nat N) v.
Definition filled2 (N M v : Z) : list (list Z) := replicate (Z.to_nat N) (filled M v).

Lemma vget_filled {A} n (a : A) i : 0 <= i < Z.of_nat n -> vget (replicate n a) i = Ret a.
Proof. intros Hi. apply vget_Some; [lia|]. apply lookup_replicate_2. lia. Qed.

Lemma get_yes_filled2 N M i j : 0 <= i < N -> 0 <= j < M ->
  get_yes (get_at2 N M (filled2 N M 1) i j) = Ret true.
Proof.
  intros Hi Hj. unfold get_at2, filled2, filled.
  rewrite !(proj2 (Z.ltb_lt _ _)) by lia. rewrite vget_filled by lia; cbn [obind].
  by rewrite vget_filled by lia.
Qed.

(** Two functions agree below a bound, checked by evaluation. *)
Lemma eq_below {A} `{EqDecision A} (f g : Z -> A) N :
  forallb (fun i => bool_decide (f i = g i)) (seqZ 0 N) = true ->
  forall i, 0 <= i < N -> f i = g i.
Proof.
  rewrite forallb_forall. intros H i Hi. eapply bool_decide_eq_true_1, H.
  apply list_elem_of_In, elem_of_seqZ. lia.
Qed.

(** Well-formedness of a concrete structure, by evaluation. *)
Lemma cwf_check {A} (c : codec A) `{!CwfDec c} a :
  (if cwf_dec (c := c) a then true else false) = true -> cwf c a.
Proof. by destruct (cwf_dec a). Qed.
Ltac solve_default := refine (cwf_check _ _ _); vm_compute; reflexivity.
