(* ===== verification/UnitTechSections.v ===== *)
(** The availability and settings sections: PUNI, UPGR/PUPx, PTEC/PTEx (what
    each player may build, research and start with) and UNIS/UNIx, UPGS/UPGx,
    TECS/TECx (costs and statistics), with their accessors in the order of
    [Sections.cpp].  The original and the expansion section of a pair differ
    in their bounds only; each is translated on its own.  An accessor works
    on the structure [data] points to; [ChkSection.viaData] carries it to
    the section's bytes. *)
From S2P Require Import Prelude Codec ChkTypes Accessors.
Open Scope Z_scope.


(** ** PUNI *)

Module PuniSection.
Import PUNI.

Definition GetDefault : PUNI := mkPUNI (filled2 Unit_TotalTypes Player_Total 1) (filled Unit_TotalTypes 1) (filled2 Unit_TotalTypes Player_Total 1).

Definition isUnitBuildable (data : PUNI) (unitType playerIndex : Z) : outcome bool :=
  get_yes (get_at2 Unit_TotalTypes Player_Total (playerUnitBuildable data) unitType playerIndex).
Definition isUnitDefaultBuildable (data : PUNI) (unitType : Z) : outcome bool :=
  get_yes (get_at Unit_TotalTypes (defaultUnitBuildable data) unitType).
Definition playerUsesDefault (data : PUNI) (unitType playerIndex : Z) : outcome bool :=
  get_yes (get_at2 Unit_TotalTypes Player_Total (playerUnitUsesDefault data) unitType playerIndex).
Definition setUnitBuildable (data : PUNI) (unitType playerIndex : Z) (buildable : bool) : outcome PUNI :=
  assign playerUnitBuildable (set_at2 Unit_TotalTypes Player_Total (playerUnitBuildable data) unitType playerIndex (yes_no buildable)) data.
Definition setUnitDefaultBuildable (data : PUNI) (unitType : Z) (buildable : bool) : outcome PUNI :=
  assign defaultUnitBuildable (set_at Unit_TotalTypes (defaultUnitBuildable data) unitType (yes_no buildable)) data.
Definition setPlayerUsesDefault (data : PUNI) (unitType playerIndex : Z) (useDefault : bool) : outcome PUNI :=
  assign playerUnitUsesDefault (set_at2 Unit_TotalTypes Player_Total (playerUnitUsesDefault data) unitType playerIndex (yes_no useDefault)) data.

#[global] Instance playerUnitBuildable_member : Member layout playerUnitBuildable (array_codec (Z.to_nat Player_Total) u8c) Unit_TotalTypes.
Proof. solve_member. Qed.
#[global] Instance defaultUnitBuildable_member : Member layout defaultUnitBuildable u8c Unit_TotalTypes.
Proof. solve_member. Qed.
#[global] Instance playerUnitUsesDefault_member : Member layout playerUnitUsesDefault (array_codec (Z.to_nat Player_Total) u8c) Unit_TotalTypes.
Proof. solve_member. Qed.
End PuniSection.

(** ** UPGR *)

Module UpgrSection.
Import UPGR.

Definition GetDefault : UPGR := mkUPGR (filled2 Upgrade_TotalOriginalTypes Player_Total 0) (filled2 Upgrade_TotalOriginalTypes Player_Total 0)
    [3; 3; 3; 3; 3; 3; 3; 3; 3; 3; 3; 3; 3; 3; 3; 3;
     1; 1; 0; 1; 1; 1; 1; 1; 1; 1; 1; 1; 1; 1; 1; 1;
     1; 1; 1; 1; 1; 1; 1; 1; 1; 1; 1; 1; 1; 0]
    (filled Upgrade_TotalOriginalTypes 0) (filled2 Upgrade_TotalOriginalTypes Player_Total 1).

Definition getMaxUpgradeLevel (data : UPGR) (upgradeType playerIndex : Z) : outcome Z :=
  get_at2 Upgrade_TotalOriginalTypes Player_Total (playerMaxUpgradeLevel data) upgradeType playerIndex.
Definition getStartUpgradeLevel (data : UPGR) (upgradeType playerIndex : Z) : outcome Z :=
  get_at2 Upgrade_TotalOriginalTypes Player_Total (playerStartUpgradeLevel data) upgradeType playerIndex.
Definition getDefaultMaxUpgradeLevel (data : UPGR) (upgradeType : Z) : outcome Z :=
  get_at Upgrade_TotalOriginalTypes (defaultMaxLevel data) upgradeType.
Definition getDefaultStartUpgradeLevel (data : UPGR) (upgradeType : Z) : outcome Z :=
  get_at Upgrade_TotalOriginalTypes (defaultStartLevel data) upgradeType.
Definition playerUsesDefault (data : UPGR) (upgradeType playerIndex : Z) : outcome bool :=
  get_yes (get_at2 Upgrade_TotalOriginalTypes Player_Total (playerUpgradeUsesDefault data) upgradeType playerIndex).
Definition setMaxUpgradeLevel (data : UPGR) (upgradeType playerIndex maxUpgradeLevel : Z) : outcome UPGR :=
  assign playerMaxUpgradeLevel (set_at2 Upgrade_TotalOriginalTypes Player_Total (playerMaxUpgradeLevel data) upgradeType playerIndex (u8 maxUpgradeLevel)) data.
Definition setStartUpgradeLevel (data : UPGR) (upgradeType playerIndex startUpgradeLevel : Z) : outcome UPGR :=
  assign playerStartUpgradeLevel (set_at2 Upgrade_TotalOriginalTypes Player_Total (playerStartUpgradeLevel data) upgradeType playerIndex (u8 startUpgradeLevel)) data.
Definition setDefaultMaxUpgradeLevel (data : UPGR) (upgradeType maxUpgradeLevel : Z) : outcome UPGR :=
  assign defaultMaxLevel (set_at Upgrade_TotalOriginalTypes (defaultMaxLevel data) upgradeType (u8 maxUpgradeLevel)) data.
Definition setDefaultStartUpgradeLevel (data : UPGR) (upgradeType startUpgradeLevel : Z) : outcome UPGR :=
  assign defaultStartLevel (set_at Upgrade_TotalOriginalTypes (defaultStartLevel data) upgradeType (u8 startUpgradeLevel)) data.
Definition setPlayerUsesDefault (data : UPGR) (upgradeType playerIndex : Z) (useDefault : bool) : outcome UPGR :=
  assign playerUpgradeUsesDefault (set_at2 Upgrade_TotalOriginalTypes Player_Total (playerUpgradeUsesDefault data) upgradeType playerIndex (yes_no useDefault)) data.

#[global] Instance playerMaxUpgradeLevel_member : Member layout playerMaxUpgradeLevel (array_codec (Z.to_nat Player_Total) u8c) Upgrade_TotalOriginalTypes.
Proof. solve_member. Qed.
#[global] Instance playerStartUpgradeLevel_member : Member layout playerStartUpgradeLevel (array_codec (Z.to_nat Player_Total) u8c) Upgrade_TotalOriginalTypes.
Proof. solve_member. Qed.
#[global] Instance defaultMaxLevel_member : Member layout defaultMaxLevel u8c Upgrade_TotalOriginalTypes.
Proof. solve_member. Qed.
#[global] Instance defaultStartLevel_member : Member layout defaultStartLevel u8c Upgrade_TotalOriginalTypes.
Proof. solve_member. Qed.
#[global] Instance playerUpgradeUsesDefault_member : Member layout playerUpgradeUsesDefault (array_codec (Z.to_nat Player_Total) u8c) Upgrade_TotalOriginalTypes.
Proof. solve_member. Qed.
End UpgrSection.

(** ** PUPx *)

Module PupxSection.
Import PUPx.

Definition GetDefault : PUPx := mkPUPx (filled2 Upgrade_TotalTypes Player_Total 0) (filled2 Upgrade_TotalTypes Player_Total 0)
    [3; 3; 3; 3; 3; 3; 3; 3; 3; 3; 3; 3; 3; 3; 3; 3;
     1; 1; 0; 1; 1; 1; 1; 1; 1; 1; 1; 1; 1; 1; 1; 1;
     1; 1; 1; 1; 1; 1; 1; 1; 1; 1; 1; 1; 1; 0; 0; 1;
     0; 1; 0; 1; 1; 1; 1; 0; 0; 0; 0; 0; 0]
    (filled Upgrade_TotalTypes 0) (filled2 Upgrade_TotalTypes Player_Total 1).

Definition getMaxUpgradeLevel (data : PUPx) (upgradeType playerIndex : Z) : outcome Z :=
  get_at2 Upgrade_TotalTypes Player_Total (playerMaxUpgradeLevel data) upgradeType playerIndex.
Definition getStartUpgradeLevel (data : PUPx) (upgradeType playerIndex : Z) : outcome Z :=
  get_at2 Upgrade_TotalTypes Player_Total (playerStartUpgradeLevel data) upgradeType playerIndex.
Definition getDefaultMaxUpgradeLevel (data : PUPx) (upgradeType : Z) : outcome Z :=
  get_at Upgrade_TotalTypes (defaultMaxLevel data) upgradeType.
Definition getDefaultStartUpgradeLevel (data : PUPx) (upgradeType : Z) : outcome Z :=
  get_at Upgrade_TotalTypes (defaultStartLevel data) upgradeType.
Definition playerUsesDefault (data : PUPx) (upgradeType playerIndex : Z) : outcome bool :=
  get_yes (get_at2 Upgrade_TotalTypes Player_Total (playerUpgradeUsesDefault data) upgradeType playerIndex).
Definition setMaxUpgradeLevel (data : PUPx) (upgradeType playerIndex maxUpgradeLevel : Z) : outcome PUPx :=
  assign playerMaxUpgradeLevel (set_at2 Upgrade_TotalTypes Player_Total (playerMaxUpgradeLevel data) upgradeType playerIndex (u8 maxUpgradeLevel)) data.
Definition setStartUpgradeLevel (data : PUPx) (upgradeType playerIndex startUpgradeLevel : Z) : outcome PUPx :=
  assign playerStartUpgradeLevel (set_at2 Upgrade_TotalTypes Player_Total (playerStartUpgradeLevel data) upgradeType playerIndex (u8 startUpgradeLevel)) data.
Definition setDefaultMaxUpgradeLevel (data : PUPx) (upgradeType maxUpgradeLevel : Z) : outcome PUPx :=
  assign defaultMaxLevel (set_at Upgrade_TotalTypes (defaultMaxLevel data) upgradeType (u8 maxUpgradeLevel)) data.
Definition setDefaultStartUpgradeLevel (data : PUPx) (upgradeType startUpgradeLevel : Z) : outcome PUPx :=
  assign defaultStartLevel (set_at Upgrade_TotalTypes (defaultStartLevel data) upgradeType (u8 startUpgradeLevel)) data.
Definition setPlayerUsesDefault (data : PUPx) (upgradeType playerIndex : Z) (useDefault : bool) : outcome PUPx :=
  assign playerUpgradeUsesDefault (set_at2 Upgrade_TotalTypes Player_Total (playerUpgradeUsesDefault data) upgradeType playerIndex (yes_no useDefault)) data.

#[global] Instance playerMaxUpgradeLevel_member : Member layout playerMaxUpgradeLevel (array_codec (Z.to_nat Player_Total) u8c) Upgrade_TotalTypes.
Proof. solve_member. Qed.
#[global] Instance playerStartUpgradeLevel_member : Member layout playerStartUpgradeLevel (array_codec (Z.to_nat Player_Total) u8c) Upgrade_TotalTypes.
Proof. solve_member. Qed.
#[global] Instance defaultMaxLevel_member : Member layout defaultMaxLevel u8c Upgrade_TotalTypes.
Proof. solve_member. Qed.
#[global] Instance defaultStartLevel_member : Member layout defaultStartLevel u8c Upgrade_TotalTypes.
Proof. solve_member. Qed.
#[global] Instance playerUpgradeUsesDefault_member : Member layout playerUpgradeUsesDefault (array_codec (Z.to_nat Player_Total) u8c) Upgrade_TotalTypes.
Proof. solve_member. Qed.
End PupxSection.

(** ** PTEC *)

Module PtecSection.
Import PTEC.

Definition GetDefault : PTEC := mkPTEC (filled2 Tech_TotalOriginalTypes Player_Total 0) (filled2 Tech_TotalOriginalTypes Player_Total 0) (filled Tech_TotalOriginalTypes 1)
    [0; 0; 0; 0; 1; 0; 1; 0; 0; 0; 0; 0; 1; 0; 1; 0; 0; 0; 1; 0; 0; 0; 0; 1]
    (filled2 Tech_TotalOriginalTypes Player_Total 1).

Definition techAvailable (data : PTEC) (techType playerIndex : Z) : outcome bool :=
  get_yes (get_at2 Tech_TotalOriginalTypes Player_Total (techAvailableForPlayer data) techType playerIndex).
Definition techResearched (data : PTEC) (techType playerIndex : Z) : outcome bool :=
  get_yes (get_at2 Tech_TotalOriginalTypes Player_Total (techResearchedForPlayer data) techType playerIndex).
Definition techDefaultAvailable (data : PTEC) (techType : Z) : outcome bool :=
  get_yes (get_at Tech_TotalOriginalTypes (techAvailableByDefault data) techType).
Definition techDefaultResearched (data : PTEC) (techType : Z) : outcome bool :=
  get_yes (get_at Tech_TotalOriginalTypes (techResearchedByDefault data) techType).
Definition playerUsesDefault (data : PTEC) (techType playerIndex : Z) : outcome bool :=
  get_yes (get_at2 Tech_TotalOriginalTypes Player_Total (playerUsesDefaultsForTech data) techType playerIndex).
Definition setTechAvailable (data : PTEC) (techType playerIndex : Z) (available : bool) : outcome PTEC :=
  assign techAvailableForPlayer (set_at2 Tech_TotalOriginalTypes Player_Total (techAvailableForPlayer data) techType playerIndex (yes_no available)) data.
Definition setTechResearched (data : PTEC) (techType playerIndex : Z) (researched : bool) : outcome PTEC :=
  assign techResearchedForPlayer (set_at2 Tech_TotalOriginalTypes Player_Total (techResearchedForPlayer data) techType playerIndex (yes_no researched)) data.
Definition setDefaultTechAvailable (data : PTEC) (techType : Z) (available : bool) : outcome PTEC :=
  assign techAvailableByDefault (set_at Tech_TotalOriginalTypes (techAvailableByDefault data) techType (yes_no available)) data.
Definition setDefaultTechResearched (data : PTEC) (techType : Z) (researched : bool) : outcome PTEC :=
  assign techResearchedByDefault (set_at Tech_TotalOriginalTypes (techResearchedByDefault data) techType (yes_no researched)) data.
(** The player index is not checked here. *)
Definition setPlayerUsesDefault (data : PTEC) (techType playerIndex : Z) (useDefault : bool) : outcome PTEC :=
  assign playerUsesDefaultsForTech (set_at2_unchecked Tech_TotalOriginalTypes (playerUsesDefaultsForTech data) techType playerIndex (yes_no useDefault)) data.

#[global] Instance techAvailableForPlayer_member : Member layout techAvailableForPlayer (array_codec (Z.to_nat Player_Total) u8c) Tech_TotalOriginalTypes.
Proof. solve_member. Qed.
#[global] Instance techResearchedForPlayer_member : Member layout techResearchedForPlayer (array_codec (Z.to_nat Player_Total) u8c) Tech_TotalOriginalTypes.
Proof. solve_member. Qed.
#[global] Instance techAvailableByDefault_member : Member layout techAvailableByDefault u8c Tech_TotalOriginalTypes.
Proof. solve_member. Qed.
#[global] Instance techResearchedByDefault_member : Member layout techResearchedByDefault u8c Tech_TotalOriginalTypes.
Proof. solve_member. Qed.
#[global] Instance playerUsesDefaultsForTech_member : Member layout playerUsesDefaultsForTech (array_codec (Z.to_nat Player_Total) u8c) Tech_TotalOriginalTypes.
Proof. solve_member. Qed.
End PtecSection.

(** ** PTEx *)

Module PtexSection.
Import PTEx.

Definition GetDefault : PTEx := mkPTEx (filled2 Tech_TotalTypes Player_Total 0) (filled2 Tech_TotalTypes Player_Total 0) (filled Tech_TotalTypes 1)
    [0; 0; 0; 0; 1; 0; 1; 0; 0; 0; 0; 0; 1; 0; 1; 0; 0; 0; 1; 0; 0; 0; 0; 1;
     0; 0; 0; 0; 1; 1; 0; 0; 0; 1; 1; 0; 0; 0; 0; 0; 0; 0; 0; 0]
    (filled2 Tech_TotalTypes Player_Total 1).

Definition techAvailable (data : PTEx) (techType playerIndex : Z) : outcome bool :=
  get_yes (get_at2 Tech_TotalTypes Player_Total (techAvailableForPlayer data) techType playerIndex).
Definition techResearched (data : PTEx) (techType playerIndex : Z) : outcome bool :=
  get_yes (get_at2 Tech_TotalTypes Player_Total (techResearchedForPlayer data) techType playerIndex).
Definition techDefaultAvailable (data : PTEx) (techType : Z) : outcome bool :=
  get_yes (get_at Tech_TotalTypes (techAvailableByDefault data) techType).
Definition techDefaultResearched (data : PTEx) (techType : Z) : outcome bool :=
  get_yes (get_at Tech_TotalTypes (techResearchedByDefault data) techType).
Definition playerUsesDefault (data : PTEx) (techType playerIndex : Z) : outcome bool :=
  get_yes (get_at2 Tech_TotalTypes Player_Total (playerUsesDefaultsForTech data) techType playerIndex).
Definition setTechAvailable (data : PTEx) (techType playerIndex : Z) (available : bool) : outcome PTEx :=
  assign techAvailableForPlayer (set_at2 Tech_TotalTypes Player_Total (techAvailableForPlayer data) techType playerIndex (yes_no available)) data.
Definition setTechResearched (data : PTEx) (techType playerIndex : Z) (researched : bool) : outcome PTEx :=
  assign techResearchedForPlayer (set_at2 Tech_TotalTypes Player_Total (techResearchedForPlayer data) techType playerIndex (yes_no researched)) data.
Definition setDefaultTechAvailable (data : PTEx) (techType : Z) (available : bool) : outcome PTEx :=
  assign techAvailableByDefault (set_at Tech_TotalTypes (techAvailableByDefault data) techType (yes_no available)) data.
Definition setDefaultTechResearched (data : PTEx) (techType : Z) (researched : bool) : outcome PTEx :=
  assign techResearchedByDefault (set_at Tech_TotalTypes (techResearchedByDefault data) techType (yes_no researched)) data.
(** The player index is not checked here. *)
Definition setPlayerUsesDefault (data : PTEx) (techType playerIndex : Z) (useDefault : bool) : outcome PTEx :=
  assign playerUsesDefaultsForTech (set_at2_unchecked Tech_TotalTypes (playerUsesDefaultsForTech data) techType playerIndex (yes_no useDefault)) data.

#[global] Instance techAvailableForPlayer_member : Member layout techAvailableForPlayer (array_codec (Z.to_nat Player_Total) u8c) Tech_TotalTypes.
Proof. solve_member. Qed.
#[global] Instance techResearchedForPlayer_member : Member layout techResearchedForPlayer (array_codec (Z.to_nat Player_Total) u8c) Tech_TotalTypes.
Proof. solve_member. Qed.
#[global] Instance techAvailableByDefault_member : Member layout techAvailableByDefault u8c Tech_TotalTypes.
Proof. solve_member. Qed.
#[global] Instance techResearchedByDefault_member : Member layout techResearchedByDefault u8c Tech_TotalTypes.
Proof. solve_member. Qed.
#[global] Instance playerUsesDefaultsForTech_member : Member layout playerUsesDefaultsForTech (array_codec (Z.to_nat Player_Total) u8c) Tech_TotalTypes.
Proof. solve_member. Qed.
End PtexSection.

(** ** UNIS *)

Module UnisSection.
Import UNIS.

Definition GetDefault : UNIS := mkUNIS (filled Unit_TotalTypes 1) (filled Unit_TotalTypes 0) (filled Unit_TotalTypes 0) (filled Unit_TotalTypes 0) (filled Unit_TotalTypes 0)
    (filled Unit_TotalTypes 0) (filled Unit_TotalTypes 0) (filled Unit_TotalTypes 0) (filled Weapon_TotalOriginal 0) (filled Weapon_TotalOriginal 0).

Definition unitUsesDefaultSettings (data : UNIS) (unitType : Z) : outcome bool :=
  get_yes (get_at Unit_TotalTypes (useDefault data) unitType).
Definition getUnitHitpoints (data : UNIS) (unitType : Z) : outcome Z :=
  get_at Unit_TotalTypes (hitpoints data) unitType.
Definition getUnitShieldPoints (data : UNIS) (unitType : Z) : outcome Z :=
  get_at Unit_TotalTypes (shieldPoints data) unitType.
Definition getUnitArmorLevel (data : UNIS) (unitType : Z) : outcome Z :=
  get_at Unit_TotalTypes (armorLevel data) unitType.
Definition getUnitBuildTime (data : UNIS) (unitType : Z) : outcome Z :=
  get_at Unit_TotalTypes (buildTime data) unitType.
Definition getUnitMineralCost (data : UNIS) (unitType : Z) : outcome Z :=
  get_at Unit_TotalTypes (mineralCost data) unitType.
Definition getUnitGasCost (data : UNIS) (unitType : Z) : outcome Z :=
  get_at Unit_TotalTypes (gasCost data) unitType.
Definition getUnitNameStringId (data : UNIS) (unitType : Z) : outcome Z :=
  get_at Unit_TotalTypes (nameStringId data) unitType.
Definition getWeaponBaseDamage (data : UNIS) (weaponType : Z) : outcome Z :=
  get_at Weapon_TotalOriginal (baseDamage data) weaponType.
Definition getWeaponUpgradeDamage (data : UNIS) (weaponType : Z) : outcome Z :=
  get_at Weapon_TotalOriginal (upgradeDamage data) weaponType.
Definition setUnitUsesDefaultSettings (data : UNIS) (unitType : Z) (usesDefault : bool) : outcome UNIS :=
  assign useDefault (set_at Unit_TotalTypes (useDefault data) unitType (yes_no usesDefault)) data.
Definition setUnitHitpoints (data : UNIS) (unitType hitpoints' : Z) : outcome UNIS :=
  assign hitpoints (set_at Unit_TotalTypes (hitpoints data) unitType hitpoints') data.
Definition setUnitShieldPoints (data : UNIS) (unitType shieldPoints' : Z) : outcome UNIS :=
  assign shieldPoints (set_at Unit_TotalTypes (shieldPoints data) unitType shieldPoints') data.
Definition setUnitArmorLevel (data : UNIS) (unitType armorLevel' : Z) : outcome UNIS :=
  assign armorLevel (set_at Unit_TotalTypes (armorLevel data) unitType armorLevel') data.
Definition setUnitBuildTime (data : UNIS) (unitType buildTime' : Z) : outcome UNIS :=
  assign buildTime (set_at Unit_TotalTypes (buildTime data) unitType buildTime') data.
Definition setUnitMineralCost (data : UNIS) (unitType mineralCost' : Z) : outcome UNIS :=
  assign mineralCost (set_at Unit_TotalTypes (mineralCost data) unitType mineralCost') data.
Definition setUnitGasCost (data : UNIS) (unitType gasCost' : Z) : outcome UNIS :=
  assign gasCost (set_at Unit_TotalTypes (gasCost data) unitType gasCost') data.
Definition setUnitNameStringId (data : UNIS) (unitType nameStringId' : Z) : outcome UNIS :=
  assign nameStringId (set_at Unit_TotalTypes (nameStringId data) unitType nameStringId') data.
Definition setWeaponBaseDamage (data : UNIS) (weaponType baseDamage' : Z) : outcome UNIS :=
  assign baseDamage (set_at Weapon_TotalOriginal (baseDamage data) weaponType baseDamage') data.
Definition setWeaponUpgradeDamage (data : UNIS) (weaponType upgradeDamage' : Z) : outcome UNIS :=
  assign upgradeDamage (set_at Weapon_TotalOriginal (upgradeDamage data) weaponType upgradeDamage') data.

#[global] Instance useDefault_member : Member layout useDefault u8c Unit_TotalTypes.
Proof. solve_member. Qed.
#[global] Instance hitpoints_member : Member layout hitpoints u32c Unit_TotalTypes.
Proof. solve_member. Qed.
#[global] Instance shieldPoints_member : Member layout shieldPoints u16c Unit_TotalTypes.
Proof. solve_member. Qed.
#[global] Instance armorLevel_member : Member layout armorLevel u8c Unit_TotalTypes.
Proof. solve_member. Qed.
#[global] Instance buildTime_member : Member layout buildTime u16c Unit_TotalTypes.
Proof. solve_member. Qed.
#[global] Instance mineralCost_member : Member layout mineralCost u16c Unit_TotalTypes.
Proof. solve_member. Qed.
#[global] Instance gasCost_member : Member layout gasCost u16c Unit_TotalTypes.
Proof. solve_member. Qed.
#[global] Instance nameStringId_member : Member layout nameStringId u16c Unit_TotalTypes.
Proof. solve_member. Qed.
#[global] Instance baseDamage_member : Member layout baseDamage u16c Weapon_TotalOriginal.
Proof. solve_member. Qed.
#[global] Instance upgradeDamage_member : Member layout upgradeDamage u16c Weapon_TotalOriginal.
Proof. solve_member. Qed.
End UnisSection.

(** ** UNIx *)

Module UnixSection.
Import UNIx.

Definition GetDefault : UNIx := mkUNIx (filled Unit_TotalTypes 1) (filled Unit_TotalTypes 0) (filled Unit_TotalTypes 0) (filled Unit_TotalTypes 0) (filled Unit_TotalTypes 0)
    (filled Unit_TotalTypes 0) (filled Unit_TotalTypes 0) (filled Unit_TotalTypes 0) (filled Weapon_Total 0) (filled Weapon_Total 0).

Definition unitUsesDefaultSettings (data : UNIx) (unitType : Z) : outcome bool :=
  get_yes (get_at Unit_TotalTypes (useDefault data) unitType).
Definition getUnitHitpoints (data : UNIx) (unitType : Z) : outcome Z :=
  get_at Unit_TotalTypes (hitpoints data) unitType.
Definition getUnitShieldPoints (data : UNIx) (unitType : Z) : outcome Z :=
  get_at Unit_TotalTypes (shieldPoints data) unitType.
Definition getUnitArmorLevel (data : UNIx) (unitType : Z) : outcome Z :=
  get_at Unit_TotalTypes (armorLevel data) unitType.
Definition getUnitBuildTime (data : UNIx) (unitType : Z) : outcome Z :=
  get_at Unit_TotalTypes (buildTime data) unitType.
Definition getUnitMineralCost (data : UNIx) (unitType : Z) : outcome Z :=
  get_at Unit_TotalTypes (mineralCost data) unitType.
Definition getUnitGasCost (data : UNIx) (unitType : Z) : outcome Z :=
  get_at Unit_TotalTypes (gasCost data) unitType.
Definition getUnitNameStringId (data : UNIx) (unitType : Z) : outcome Z :=
  get_at Unit_TotalTypes (nameStringId data) unitType.
Definition getWeaponBaseDamage (data : UNIx) (weaponType : Z) : outcome Z :=
  get_at Weapon_Total (baseDamage data) weaponType.
Definition getWeaponUpgradeDamage (data : UNIx) (weaponType : Z) : outcome Z :=
  get_at Weapon_Total (upgradeDamage data) weaponType.
Definition setUnitUsesDefaultSettings (data : UNIx) (unitType : Z) (usesDefault : bool) : outcome UNIx :=
  assign useDefault (set_at Unit_TotalTypes (useDefault data) unitType (yes_no usesDefault)) data.
Definition setUnitHitpoints (data : UNIx) (unitType hitpoints' : Z) : outcome UNIx :=
  assign hitpoints (set_at Unit_TotalTypes (hitpoints data) unitType hitpoints') data.
Definition setUnitShieldPoints (data : UNIx) (unitType shieldPoints' : Z) : outcome UNIx :=
  assign shieldPoints (set_at Unit_TotalTypes (shieldPoints data) unitType shieldPoints') data.
Definition setUnitArmorLevel (data : UNIx) (unitType armorLevel' : Z) : outcome UNIx :=
  assign armorLevel (set_at Unit_TotalTypes (armorLevel data) unitType armorLevel') data.
Definition setUnitBuildTime (data : UNIx) (unitType buildTime' : Z) : outcome UNIx :=
  assign buildTime (set_at Unit_TotalTypes (buildTime data) unitType buildTime') data.
Definition setUnitMineralCost (data : UNIx) (unitType mineralCost' : Z) : outcome UNIx :=
  assign mineralCost (set_at Unit_TotalTypes (mineralCost data) unitType mineralCost') data.
Definition setUnitGasCost (data : UNIx) (unitType gasCost' : Z) : outcome UNIx :=
  assign gasCost (set_at Unit_TotalTypes (gasCost data) unitType gasCost') data.
Definition setUnitNameStringId (data : UNIx) (unitType nameStringId' : Z) : outcome UNIx :=
  assign nameStringId (set_at Unit_TotalTypes (nameStringId data) unitType nameStringId') data.
Definition setWeaponBaseDamage (data : UNIx) (weaponType baseDamage' : Z) : outcome UNIx :=
  assign baseDamage (set_at Weapon_Total (baseDamage data) weaponType baseDamage') data.
Definition setWeaponUpgradeDamage (data : UNIx) (weaponType upgradeDamage' : Z) : outcome UNIx :=
  assign upgradeDamage (set_at Weapon_Total (upgradeDamage data) weaponType upgradeDamage') data.

#[global] Instance useDefault_member : Member layout useDefault u8c Unit_TotalTypes.
Proof. solve_member. Qed.
#[global] Instance hitpoints_member : Member layout hitpoints u32c Unit_TotalTypes.
Proof. solve_member. Qed.
#[global] Instance shieldPoints_member : Member layout shieldPoints u16c Unit_TotalTypes.
Proof. solve_member. Qed.
#[global] Instance armorLevel_member : Member layout armorLevel u8c Unit_TotalTypes.
Proof. solve_member. Qed.
#[global] Instance buildTime_member : Member layout buildTime u16c Unit_TotalTypes.
Proof. solve_member. Qed.
#[global] Instance mineralCost_member : Member layout mineralCost u16c Unit_TotalTypes.
Proof. solve_member. Qed.
#[global] Instance gasCost_member : Member layout gasCost u16c Unit_TotalTypes.
Proof. solve_member. Qed.
#[global] Instance nameStringId_member : Member layout nameStringId u16c Unit_TotalTypes.
Proof. solve_member. Qed.
#[global] Instance baseDamage_member : Member layout baseDamage u16c Weapon_Total.
Proof. solve_member. Qed.
#[global] Instance upgradeDamage_member : Member layout upgradeDamage u16c Weapon_Total.
Proof. solve_member. Qed.
End UnixSection.

(** ** UPGS *)

Module UpgsSection.
Import UPGS.

Definition GetDefault : UPGS := mkUPGS (filled Upgrade_TotalOriginalTypes 1) (filled Upgrade_TotalOriginalTypes 0) (filled Upgrade_TotalOriginalTypes 0) (filled Upgrade_TotalOriginalTypes 0) (filled Upgrade_TotalOriginalTypes 0) (filled Upgrade_TotalOriginalTypes 0) (filled Upgrade_TotalOriginalTypes 0).

Definition upgradeUsesDefaultCosts (data : UPGS) (upgradeType : Z) : outcome bool :=
  get_yes (get_at Upgrade_TotalOriginalTypes (useDefault data) upgradeType).
Definition getBaseMineralCost (data : UPGS) (upgradeType : Z) : outcome Z :=
  get_at Upgrade_TotalOriginalTypes (baseMineralCost data) upgradeType.
Definition getMineralCostFactor (data : UPGS) (upgradeType : Z) : outcome Z :=
  get_at Upgrade_TotalOriginalTypes (mineralCostFactor data) upgradeType.
Definition getBaseGasCost (data : UPGS) (upgradeType : Z) : outcome Z :=
  get_at Upgrade_TotalOriginalTypes (baseGasCost data) upgradeType.
Definition getGasCostFactor (data : UPGS) (upgradeType : Z) : outcome Z :=
  get_at Upgrade_TotalOriginalTypes (gasCostFactor data) upgradeType.
Definition getBaseResearchTime (data : UPGS) (upgradeType : Z) : outcome Z :=
  get_at Upgrade_TotalOriginalTypes (baseResearchTime data) upgradeType.
Definition getResearchTimeFactor (data : UPGS) (upgradeType : Z) : outcome Z :=
  get_at Upgrade_TotalOriginalTypes (researchTimeFactor data) upgradeType.
Definition setUpgradeUsesDefaultCosts (data : UPGS) (upgradeType : Z) (usesDefault : bool) : outcome UPGS :=
  assign useDefault (set_at Upgrade_TotalOriginalTypes (useDefault data) upgradeType (yes_no usesDefault)) data.
Definition setBaseMineralCost (data : UPGS) (upgradeType baseMineralCost' : Z) : outcome UPGS :=
  assign baseMineralCost (set_at Upgrade_TotalOriginalTypes (baseMineralCost data) upgradeType baseMineralCost') data.
Definition setMineralCostFactor (data : UPGS) (upgradeType mineralCostFactor' : Z) : outcome UPGS :=
  assign mineralCostFactor (set_at Upgrade_TotalOriginalTypes (mineralCostFactor data) upgradeType mineralCostFactor') data.
Definition setBaseGasCost (data : UPGS) (upgradeType baseGasCost' : Z) : outcome UPGS :=
  assign baseGasCost (set_at Upgrade_TotalOriginalTypes (baseGasCost data) upgradeType baseGasCost') data.
Definition setGasCostFactor (data : UPGS) (upgradeType gasCostFactor' : Z) : outcome UPGS :=
  assign gasCostFactor (set_at Upgrade_TotalOriginalTypes (gasCostFactor data) upgradeType gasCostFactor') data.
Definition setBaseResearchTime (data : UPGS) (upgradeType baseResearchTime' : Z) : outcome UPGS :=
  assign baseResearchTime (set_at Upgrade_TotalOriginalTypes (baseResearchTime data) upgradeType baseResearchTime') data.
Definition setResearchTimeFactor (data : UPGS) (upgradeType researchTimeFactor' : Z) : outcome UPGS :=
  assign researchTimeFactor (set_at Upgrade_TotalOriginalTypes (researchTimeFactor data) upgradeType researchTimeFactor') data.

#[global] Instance useDefault_member : Member layout useDefault u8c Upgrade_TotalOriginalTypes.
Proof. solve_member. Qed.
#[global] Instance baseMineralCost_member : Member layout baseMineralCost u16c Upgrade_TotalOriginalTypes.
Proof. solve_member. Qed.
#[global] Instance mineralCostFactor_member : Member layout mineralCostFactor u16c Upgrade_TotalOriginalTypes.
Proof. solve_member. Qed.
#[global] Instance baseGasCost_member : Member layout baseGasCost u16c Upgrade_TotalOriginalTypes.
Proof. solve_member. Qed.
#[global] Instance gasCostFactor_member : Member layout gasCostFactor u16c Upgrade_TotalOriginalTypes.
Proof. solve_member. Qed.
#[global] Instance baseResearchTime_member : Member layout baseResearchTime u16c Upgrade_TotalOriginalTypes.
Proof. solve_member. Qed.
#[global] Instance researchTimeFactor_member : Member layout researchTimeFactor u16c Upgrade_TotalOriginalTypes.
Proof. solve_member. Qed.
End UpgsSection.

(** ** UPGx *)

Module UpgxSection.
Import UPGx.

Definition GetDefault : UPGx := mkUPGx (filled Upgrade_TotalTypes 1) 0 (filled Upgrade_TotalTypes 0) (filled Upgrade_TotalTypes 0) (filled Upgrade_TotalTypes 0) (filled Upgrade_TotalTypes 0) (filled Upgrade_TotalTypes 0) (filled Upgrade_TotalTypes 0).

Definition upgradeUsesDefaultCosts (data : UPGx) (upgradeType : Z) : outcome bool :=
  get_yes (get_at Upgrade_TotalTypes (useDefault data) upgradeType).
Definition getBaseMineralCost (data : UPGx) (upgradeType : Z) : outcome Z :=
  get_at Upgrade_TotalTypes (baseMineralCost data) upgradeType.
Definition getMineralCostFactor (data : UPGx) (upgradeType : Z) : outcome Z :=
  get_at Upgrade_TotalTypes (mineralCostFactor data) upgradeType.
Definition getBaseGasCost (data : UPGx) (upgradeType : Z) : outcome Z :=
  get_at Upgrade_TotalTypes (baseGasCost data) upgradeType.
Definition getGasCostFactor (data : UPGx) (upgradeType : Z) : outcome Z :=
  get_at Upgrade_TotalTypes (gasCostFactor data) upgradeType.
Definition getBaseResearchTime (data : UPGx) (upgradeType : Z) : outcome Z :=
  get_at Upgrade_TotalTypes (baseResearchTime data) upgradeType.
Definition getResearchTimeFactor (data : UPGx) (upgradeType : Z) : outcome Z :=
  get_at Upgrade_TotalTypes (researchTimeFactor data) upgradeType.
Definition setUpgradeUsesDefaultCosts (data : UPGx) (upgradeType : Z) (usesDefault : bool) : outcome UPGx :=
  assign useDefault (set_at Upgrade_TotalTypes (useDefault data) upgradeType (yes_no usesDefault)) data.
Definition setBaseMineralCost (data : UPGx) (upgradeType baseMineralCost' : Z) : outcome UPGx :=
  assign baseMineralCost (set_at Upgrade_TotalTypes (baseMineralCost data) upgradeType baseMineralCost') data.
Definition setMineralCostFactor (data : UPGx) (upgradeType mineralCostFactor' : Z) : outcome UPGx :=
  assign mineralCostFactor (set_at Upgrade_TotalTypes (mineralCostFactor data) upgradeType mineralCostFactor') data.
Definition setBaseGasCost (data : UPGx) (upgradeType baseGasCost' : Z) : outcome UPGx :=
  assign baseGasCost (set_at Upgrade_TotalTypes (baseGasCost data) upgradeType baseGasCost') data.
Definition setGasCostFactor (data : UPGx) (upgradeType gasCostFactor' : Z) : outcome UPGx :=
  assign gasCostFactor (set_at Upgrade_TotalTypes (gasCostFactor data) upgradeType gasCostFactor') data.
Definition setBaseResearchTime (data : UPGx) (upgradeType baseResearchTime' : Z) : outcome UPGx :=
  assign baseResearchTime (set_at Upgrade_TotalTypes (baseResearchTime data) upgradeType baseResearchTime') data.
Definition setResearchTimeFactor (data : UPGx) (upgradeType researchTimeFactor' : Z) : outcome UPGx :=
  assign researchTimeFactor (set_at Upgrade_TotalTypes (researchTimeFactor data) upgradeType researchTimeFactor') data.

#[global] Instance useDefault_member : Member layout useDefault u8c Upgrade_TotalTypes.
Proof. solve_member. Qed.
#[global] Instance baseMineralCost_member : Member layout baseMineralCost u16c Upgrade_TotalTypes.
Proof. solve_member. Qed.
#[global] Instance mineralCostFactor_member : Member layout mineralCostFactor u16c Upgrade_TotalTypes.
Proof. solve_member. Qed.
#[global] Instance baseGasCost_member : Member layout baseGasCost u16c Upgrade_TotalTypes.
Proof. solve_member. Qed.
#[global] Instance gasCostFactor_member : Member layout gasCostFactor u16c Upgrade_TotalTypes.
Proof. solve_member. Qed.
#[global] Instance baseResearchTime_member : Member layout baseResearchTime u16c Upgrade_TotalTypes.
Proof. solve_member. Qed.
#[global] Instance researchTimeFactor_member : Member layout researchTimeFactor u16c Upgrade_TotalTypes.
Proof. solve_member. Qed.
End UpgxSection.

(** ** TECS *)

Module TecsSection.
Import TECS.

Definition GetDefault : TECS := mkTECS (filled Tech_TotalOriginalTypes 1) (filled Tech_TotalOriginalTypes 0) (filled Tech_TotalOriginalTypes 0) (filled Tech_TotalOriginalTypes 0) (filled Tech_TotalOriginalTypes 0).

Definition techUsesDefaultSettings (data : TECS) (techType : Z) : outcome bool :=
  get_yes (get_at Tech_TotalOriginalTypes (useDefault data) techType).
Definition getTechMineralCost (data : TECS) (techType : Z) : outcome Z :=
  get_at Tech_TotalOriginalTypes (mineralCost data) techType.
Definition getTechGasCost (data : TECS) (techType : Z) : outcome Z :=
  get_at Tech_TotalOriginalTypes (gasCost data) techType.
Definition getTechResearchTime (data : TECS) (techType : Z) : outcome Z :=
  get_at Tech_TotalOriginalTypes (researchTime data) techType.
Definition getTechEnergyCost (data : TECS) (techType : Z) : outcome Z :=
  get_at Tech_TotalOriginalTypes (energyCost data) techType.
Definition setTechUsesDefaultSettings (data : TECS) (techType : Z) (usesDefault : bool) : outcome TECS :=
  assign useDefault (set_at Tech_TotalOriginalTypes (useDefault data) techType (yes_no usesDefault)) data.
Definition setTechMineralCost (data : TECS) (techType mineralCost' : Z) : outcome TECS :=
  assign mineralCost (set_at Tech_TotalOriginalTypes (mineralCost data) techType mineralCost') data.
Definition setTechGasCost (data : TECS) (techType gasCost' : Z) : outcome TECS :=
  assign gasCost (set_at Tech_TotalOriginalTypes (gasCost data) techType gasCost') data.
Definition setTechResearchTime (data : TECS) (techType researchTime' : Z) : outcome TECS :=
  assign researchTime (set_at Tech_TotalOriginalTypes (researchTime data) techType researchTime') data.
Definition setTechEnergyCost (data : TECS) (techType energyCost' : Z) : outcome TECS :=
  assign energyCost (set_at Tech_TotalOriginalTypes (energyCost data) techType energyCost') data.

#[global] Instance useDefault_member : Member layout useDefault u8c Tech_TotalOriginalTypes.
Proof. solve_member. Qed.
#[global] Instance mineralCost_member : Member layout mineralCost u16c Tech_TotalOriginalTypes.
Proof. solve_member. Qed.
#[global] Instance gasCost_member : Member layout gasCost u16c Tech_TotalOriginalTypes.
Proof. solve_member. Qed.
#[global] Instance researchTime_member : Member layout researchTime u16c Tech_TotalOriginalTypes.
Proof. solve_member. Qed.
#[global] Instance energyCost_member : Member layout energyCost u16c Tech_TotalOriginalTypes.
Proof. solve_member. Qed.
End TecsSection.

(** ** TECx *)

Module TecxSection.
Import TECx.

Definition GetDefault : TECx := mkTECx (filled Tech_TotalTypes 1) (filled Tech_TotalTypes 0) (filled Tech_TotalTypes 0) (filled Tech_TotalTypes 0) (filled Tech_TotalTypes 0).

Definition techUsesDefaultSettings (data : TECx) (techType : Z) : outcome bool :=
  get_yes (get_at Tech_TotalTypes (useDefault data) techType).
Definition getTechMineralCost (data : TECx) (techType : Z) : outcome Z :=
  get_at Tech_TotalTypes (mineralCost data) techType.
Definition getTechGasCost (data : TECx) (techType : Z) : outcome Z :=
  get_at Tech_TotalTypes (gasCost data) techType.
Definition getTechResearchTime (data : TECx) (techType : Z) : outcome Z :=
  get_at Tech_TotalTypes (researchTime data) techType.
Definition getTechEnergyCost (data : TECx) (techType : Z) : outcome Z :=
  get_at Tech_TotalTypes (energyCost data) techType.
Definition setTechUsesDefaultSettings (data : TECx) (techType : Z) (usesDefault : bool) : outcome TECx :=
  assign useDefault (set_at Tech_TotalTypes (useDefault data) techType (yes_no usesDefault)) data.
Definition setTechMineralCost (data : TECx) (techType mineralCost' : Z) : outcome TECx :=
  assign mineralCost (set_at Tech_TotalTypes (mineralCost data) techType mineralCost') data.
Definition setTechGasCost (data : TECx) (techType gasCost' : Z) : outcome TECx :=
  assign gasCost (set_at Tech_TotalTypes (gasCost data) techType gasCost') data.
Definition setTechResearchTime (data : TECx) (techType researchTime' : Z) : outcome TECx :=
  assign researchTime (set_at Tech_TotalTypes (researchTime data) techType researchTime') data.
Definition setTechEnergyCost (data : TECx) (techType energyCost' : Z) : outcome TECx :=
  assign energyCost (set_at Tech_TotalTypes (energyCost data) techType energyCost') data.

#[global] Instance useDefault_member : Member layout useDefault u8c Tech_TotalTypes.
Proof. solve_member. Qed.
#[global] Instance mineralCost_member : Member layout mineralCost u16c Tech_TotalTypes.
Proof. solve_member. Qed.
#[global] Instance gasCost_member : Member layout gasCost u16c Tech_TotalTypes.
Proof. solve_member. Qed.
#[global] Instance researchTime_member : Member layout researchTime u16c Tech_TotalTypes.
Proof. solve_member. Qed.
#[global] Instance energyCost_member : Member layout energyCost u16c Tech_TotalTypes.
Proof. solve_member. Qed.
End TecxSection.

(** ** Properties *)

(** Every PUNI accessor is bounds checked and reads or writes exactly
    its own unit and player cell: a setter keeps all other cells and members
    and the layout, and an index out of range throws. *)
Theorem puni_accessors_lawful :
  Lawful2 (cwf PUNI.layout) (upd PUNI.playerUnitBuildable []) (fun _ => True) id Unit_TotalTypes Player_Total
    PuniSection.isUnitBuildable PuniSection.setUnitBuildable /\
  Lawful (cwf PUNI.layout) (upd PUNI.defaultUnitBuildable []) (fun _ => True) id Unit_TotalTypes
    PuniSection.isUnitDefaultBuildable PuniSection.setUnitDefaultBuildable /\
  Lawful2 (cwf PUNI.layout) (upd PUNI.playerUnitUsesDefault []) (fun _ => True) id Unit_TotalTypes Player_Total
    PuniSection.playerUsesDefault PuniSection.setPlayerUsesDefault.
Proof. split_and!; solve_lawful. Qed.

(** The UPGR and PUPx accessors are lawful over 46 and 61 upgrades;
    a level is stored modulo 256, so the getter returns the level that was
    set only up to that conversion. *)
Theorem upgrade_level_accessors_lawful :
  Lawful2 (cwf UPGR.layout) (upd UPGR.playerMaxUpgradeLevel []) (fun _ => True) u8 Upgrade_TotalOriginalTypes Player_Total
    UpgrSection.getMaxUpgradeLevel UpgrSection.setMaxUpgradeLevel /\
  Lawful2 (cwf UPGR.layout) (upd UPGR.playerStartUpgradeLevel []) (fun _ => True) u8 Upgrade_TotalOriginalTypes Player_Total
    UpgrSection.getStartUpgradeLevel UpgrSection.setStartUpgradeLevel /\
  Lawful (cwf UPGR.layout) (upd UPGR.defaultMaxLevel []) (fun _ => True) u8 Upgrade_TotalOriginalTypes
    UpgrSection.getDefaultMaxUpgradeLevel UpgrSection.setDefaultMaxUpgradeLevel /\
  Lawful (cwf UPGR.layout) (upd UPGR.defaultStartLevel []) (fun _ => True) u8 Upgrade_TotalOriginalTypes
    UpgrSection.getDefaultStartUpgradeLevel UpgrSection.setDefaultStartUpgradeLevel /\
  Lawful2 (cwf UPGR.layout) (upd UPGR.playerUpgradeUsesDefault []) (fun _ => True) id Upgrade_TotalOriginalTypes Player_Total
    UpgrSection.playerUsesDefault UpgrSection.setPlayerUsesDefault /\
  Lawful2 (cwf PUPx.layout) (upd PUPx.playerMaxUpgradeLevel []) (fun _ => True) u8 Upgrade_TotalTypes Player_Total
    PupxSection.getMaxUpgradeLevel PupxSection.setMaxUpgradeLevel /\
  Lawful2 (cwf PUPx.layout) (upd PUPx.playerStartUpgradeLevel []) (fun _ => True) u8 Upgrade_TotalTypes Player_Total
    PupxSection.getStartUpgradeLevel PupxSection.setStartUpgradeLevel /\
  Lawful (cwf PUPx.layout) (upd PUPx.defaultMaxLevel []) (fun _ => True) u8 Upgrade_TotalTypes
    PupxSection.getDefaultMaxUpgradeLevel PupxSection.setDefaultMaxUpgradeLevel /\
  Lawful (cwf PUPx.layout) (upd PUPx.defaultStartLevel []) (fun _ => True) u8 Upgrade_TotalTypes
    PupxSection.getDefaultStartUpgradeLevel PupxSection.setDefaultStartUpgradeLevel /\
  Lawful2 (cwf PUPx.layout) (upd PUPx.playerUpgradeUsesDefault []) (fun _ => True) id Upgrade_TotalTypes Player_Total
    PupxSection.playerUsesDefault PupxSection.setPlayerUsesDefault.
Proof. split_and!; solve_lawful. Qed.

(** The PTEC and PTEx accessors that check both indices are lawful
    over 24 and 44 technologies. *)
Theorem tech_availability_accessors_lawful :
  Lawful2 (cwf PTEC.layout) (upd PTEC.techAvailableForPlayer []) (fun _ => True) id Tech_TotalOriginalTypes Player_Total
    PtecSection.techAvailable PtecSection.setTechAvailable /\
  Lawful2 (cwf PTEC.layout) (upd PTEC.techResearchedForPlayer []) (fun _ => True) id Tech_TotalOriginalTypes Player_Total
    PtecSection.techResearched PtecSection.setTechResearched /\
  Lawful (cwf PTEC.layout) (upd PTEC.techAvailableByDefault []) (fun _ => True) id Tech_TotalOriginalTypes
    PtecSection.techDefaultAvailable PtecSection.setDefaultTechAvailable /\
  Lawful (cwf PTEC.layout) (upd PTEC.techResearchedByDefault []) (fun _ => True) id Tech_TotalOriginalTypes
    PtecSection.techDefaultResearched PtecSection.setDefaultTechResearched /\
  Lawful2 (cwf PTEx.layout) (upd PTEx.techAvailableForPlayer []) (fun _ => True) id Tech_TotalTypes Player_Total
    PtexSection.techAvailable PtexSection.setTechAvailable /\
  Lawful2 (cwf PTEx.layout) (upd PTEx.techResearchedForPlayer []) (fun _ => True) id Tech_TotalTypes Player_Total
    PtexSection.techResearched PtexSection.setTechResearched /\
  Lawful (cwf PTEx.layout) (upd PTEx.techAvailableByDefault []) (fun _ => True) id Tech_TotalTypes
    PtexSection.techDefaultAvailable PtexSection.setDefaultTechAvailable /\
  Lawful (cwf PTEx.layout) (upd PTEx.techResearchedByDefault []) (fun _ => True) id Tech_TotalTypes
    PtexSection.techDefaultResearched PtexSection.setDefaultTechResearched.
Proof. split_and!; solve_lawful. Qed.

(** Every UNIS and UNIx accessor is lawful over 228 units and 100 or
    130 weapons: no setting aliases another one. *)
Theorem unit_settings_accessors_lawful :
  Lawful (cwf UNIS.layout) (upd UNIS.useDefault []) (fun _ => True) id Unit_TotalTypes
    UnisSection.unitUsesDefaultSettings UnisSection.setUnitUsesDefaultSettings /\
  Lawful (cwf UNIS.layout) (upd UNIS.hitpoints []) (is_u 32) id Unit_TotalTypes
    UnisSection.getUnitHitpoints UnisSection.setUnitHitpoints /\
  Lawful (cwf UNIS.layout) (upd UNIS.shieldPoints []) (is_u 16) id Unit_TotalTypes
    UnisSection.getUnitShieldPoints UnisSection.setUnitShieldPoints /\
  Lawful (cwf UNIS.layout) (upd UNIS.armorLevel []) (is_u 8) id Unit_TotalTypes
    UnisSection.getUnitArmorLevel UnisSection.setUnitArmorLevel /\
  Lawful (cwf UNIS.layout) (upd UNIS.buildTime []) (is_u 16) id Unit_TotalTypes
    UnisSection.getUnitBuildTime UnisSection.setUnitBuildTime /\
  Lawful (cwf UNIS.layout) (upd UNIS.mineralCost []) (is_u 16) id Unit_TotalTypes
    UnisSection.getUnitMineralCost UnisSection.setUnitMineralCost /\
  Lawful (cwf UNIS.layout) (upd UNIS.gasCost []) (is_u 16) id Unit_TotalTypes
    UnisSection.getUnitGasCost UnisSection.setUnitGasCost /\
  Lawful (cwf UNIS.layout) (upd UNIS.nameStringId []) (is_u 16) id Unit_TotalTypes
    UnisSection.getUnitNameStringId UnisSection.setUnitNameStringId /\
  Lawful (cwf UNIS.layout) (upd UNIS.baseDamage []) (is_u 16) id Weapon_TotalOriginal
    UnisSection.getWeaponBaseDamage UnisSection.setWeaponBaseDamage /\
  Lawful (cwf UNIS.layout) (upd UNIS.upgradeDamage []) (is_u 16) id Weapon_TotalOriginal
    UnisSection.getWeaponUpgradeDamage UnisSection.setWeaponUpgradeDamage /\
  Lawful (cwf UNIx.layout) (upd UNIx.useDefault []) (fun _ => True) id Unit_TotalTypes
    UnixSection.unitUsesDefaultSettings UnixSection.setUnitUsesDefaultSettings /\
  Lawful (cwf UNIx.layout) (upd UNIx.hitpoints []) (is_u 32) id Unit_TotalTypes
    UnixSection.getUnitHitpoints UnixSection.setUnitHitpoints /\
  Lawful (cwf UNIx.layout) (upd UNIx.shieldPoints []) (is_u 16) id Unit_TotalTypes
    UnixSection.getUnitShieldPoints UnixSection.setUnitShieldPoints /\
  Lawful (cwf UNIx.layout) (upd UNIx.armorLevel []) (is_u 8) id Unit_TotalTypes
    UnixSection.getUnitArmorLevel UnixSection.setUnitArmorLevel /\
  Lawful (cwf UNIx.layout) (upd UNIx.buildTime []) (is_u 16) id Unit_TotalTypes
    UnixSection.getUnitBuildTime UnixSection.setUnitBuildTime /\
  Lawful (cwf UNIx.layout) (upd UNIx.mineralCost []) (is_u 16) id Unit_TotalTypes
    UnixSection.getUnitMineralCost UnixSection.setUnitMineralCost /\
  Lawful (cwf UNIx.layout) (upd UNIx.gasCost []) (is_u 16) id Unit_TotalTypes
    UnixSection.getUnitGasCost UnixSection.setUnitGasCost /\
  Lawful (cwf UNIx.layout) (upd UNIx.nameStringId []) (is_u 16) id Unit_TotalTypes
    UnixSection.getUnitNameStringId UnixSection.setUnitNameStringId /\
  Lawful (cwf UNIx.layout) (upd UNIx.baseDamage []) (is_u 16) id Weapon_Total
    UnixSection.getWeaponBaseDamage UnixSection.setWeaponBaseDamage /\
  Lawful (cwf UNIx.layout) (upd UNIx.upgradeDamage []) (is_u 16) id Weapon_Total
    UnixSection.getWeaponUpgradeDamage UnixSection.setWeaponUpgradeDamage.
Proof. split_and!; solve_lawful. Qed.

(** Every UPGS, UPGx, TECS and TECx accessor is lawful over its
    number of upgrades or technologies. *)
Theorem upgrade_tech_cost_accessors_lawful :
  Lawful (cwf UPGS.layout) (upd UPGS.useDefault []) (fun _ => True) id Upgrade_TotalOriginalTypes
    UpgsSection.upgradeUsesDefaultCosts UpgsSection.setUpgradeUsesDefaultCosts /\
  Lawful (cwf UPGS.layout) (upd UPGS.baseMineralCost []) (is_u 16) id Upgrade_TotalOriginalTypes
    UpgsSection.getBaseMineralCost UpgsSection.setBaseMineralCost /\
  Lawful (cwf UPGS.layout) (upd UPGS.mineralCostFactor []) (is_u 16) id Upgrade_TotalOriginalTypes
    UpgsSection.getMineralCostFactor UpgsSection.setMineralCostFactor /\
  Lawful (cwf UPGS.layout) (upd UPGS.baseGasCost []) (is_u 16) id Upgrade_TotalOriginalTypes
    UpgsSection.getBaseGasCost UpgsSection.setBaseGasCost /\
  Lawful (cwf UPGS.layout) (upd UPGS.gasCostFactor []) (is_u 16) id Upgrade_TotalOriginalTypes
    UpgsSection.getGasCostFactor UpgsSection.setGasCostFactor /\
  Lawful (cwf UPGS.layout) (upd UPGS.baseResearchTime []) (is_u 16) id Upgrade_TotalOriginalTypes
    UpgsSection.getBaseResearchTime UpgsSection.setBaseResearchTime /\
  Lawful (cwf UPGS.layout) (upd UPGS.researchTimeFactor []) (is_u 16) id Upgrade_TotalOriginalTypes
    UpgsSection.getResearchTimeFactor UpgsSection.setResearchTimeFactor /\
  Lawful (cwf UPGx.layout) (upd UPGx.useDefault []) (fun _ => True) id Upgrade_TotalTypes
    UpgxSection.upgradeUsesDefaultCosts UpgxSection.setUpgradeUsesDefaultCosts /\
  Lawful (cwf UPGx.layout) (upd UPGx.baseMineralCost []) (is_u 16) id Upgrade_TotalTypes
    UpgxSection.getBaseMineralCost UpgxSection.setBaseMineralCost /\
  Lawful (cwf UPGx.layout) (upd UPGx.mineralCostFactor []) (is_u 16) id Upgrade_TotalTypes
    UpgxSection.getMineralCostFactor UpgxSection.setMineralCostFactor /\
  Lawful (cwf UPGx.layout) (upd UPGx.baseGasCost []) (is_u 16) id Upgrade_TotalTypes
    UpgxSection.getBaseGasCost UpgxSection.setBaseGasCost /\
  Lawful (cwf UPGx.layout) (upd UPGx.gasCostFactor []) (is_u 16) id Upgrade_TotalTypes
    UpgxSection.getGasCostFactor UpgxSection.setGasCostFactor /\
  Lawful (cwf UPGx.layout) (upd UPGx.baseResearchTime []) (is_u 16) id Upgrade_TotalTypes
    UpgxSection.getBaseResearchTime UpgxSection.setBaseResearchTime /\
  Lawful (cwf UPGx.layout) (upd UPGx.researchTimeFactor []) (is_u 16) id Upgrade_TotalTypes
    UpgxSection.getResearchTimeFactor UpgxSection.setResearchTimeFactor /\
  Lawful (cwf TECS.layout) (upd TECS.useDefault []) (fun _ => True) id Tech_TotalOriginalTypes
    TecsSection.techUsesDefaultSettings TecsSection.setTechUsesDefaultSettings /\
  Lawful (cwf TECS.layout) (upd TECS.mineralCost []) (is_u 16) id Tech_TotalOriginalTypes
    TecsSection.getTechMineralCost TecsSection.setTechMineralCost /\
  Lawful (cwf TECS.layout) (upd TECS.gasCost []) (is_u 16) id Tech_TotalOriginalTypes
    TecsSection.getTechGasCost TecsSection.setTechGasCost /\
  Lawful (cwf TECS.layout) (upd TECS.researchTime []) (is_u 16) id Tech_TotalOriginalTypes
    TecsSection.getTechResearchTime TecsSection.setTechResearchTime /\
  Lawful (cwf TECS.layout) (upd TECS.energyCost []) (is_u 16) id Tech_TotalOriginalTypes
    TecsSection.getTechEnergyCost TecsSection.setTechEnergyCost /\
  Lawful (cwf TECx.layout) (upd TECx.useDefault []) (fun _ => True) id Tech_TotalTypes
    TecxSection.techUsesDefaultSettings TecxSection.setTechUsesDefaultSettings /\
  Lawful (cwf TECx.layout) (upd TECx.mineralCost []) (is_u 16) id Tech_TotalTypes
    TecxSection.getTechMineralCost TecxSection.setTechMineralCost /\
  Lawful (cwf TECx.layout) (upd TECx.gasCost []) (is_u 16) id Tech_TotalTypes
    TecxSection.getTechGasCost TecxSection.setTechGasCost /\
  Lawful (cwf TECx.layout) (upd TECx.researchTime []) (is_u 16) id Tech_TotalTypes
    TecxSection.getTechResearchTime TecxSection.setTechResearchTime /\
  Lawful (cwf TECx.layout) (upd TECx.energyCost []) (is_u 16) id Tech_TotalTypes
    TecxSection.getTechEnergyCost TecxSection.setTechEnergyCost.
Proof. split_and!; solve_lawful. Qed.

(** [setPlayerUsesDefault] of PTEC and PTEx checks the technology but not
    the player: for a player index past the twelve players it writes outside
    of the row, where its own getter throws. *)
Theorem tech_setPlayerUsesDefault_unchecked :
  (forall d t p b, cwf PTEC.layout d -> 0 <= t < Tech_TotalOriginalTypes -> Player_Total <= p ->
    PtecSection.setPlayerUsesDefault d t p b = Undef /\
    PtecSection.playerUsesDefault d t p = Throw OutOfRange) /\
  (forall d t p b, cwf PTEx.layout d -> 0 <= t < Tech_TotalTypes -> Player_Total <= p ->
    PtexSection.setPlayerUsesDefault d t p b = Undef /\
    PtexSection.playerUsesDefault d t p = Throw OutOfRange).
Proof.
  split; intros d t p b Hd Ht Hp; split;
    first [ apply (unchecked_row_undef PTEC.layout PTEC.playerUsesDefaultsForTech Tech_TotalOriginalTypes Player_Total);
              by try apply _
          | apply (unchecked_row_undef PTEx.layout PTEx.playerUsesDefaultsForTech Tech_TotalTypes Player_Total);
              by try apply _
          | unfold PtecSection.playerUsesDefault, PtexSection.playerUsesDefault, get_yes, get_at2;
            rewrite (proj2 (Z.ltb_lt _ _)), (proj2 (Z.ltb_ge _ _)) by lia; done ].
Qed.

(** The default availability sections are well formed, every player uses
    the defaults in them, and the expansion defaults extend the original
    ones entry for entry. *)
Theorem availability_defaults :
  cwf PUNI.layout PuniSection.GetDefault /\ cwf UPGR.layout UpgrSection.GetDefault /\
  cwf PUPx.layout PupxSection.GetDefault /\ cwf PTEC.layout PtecSection.GetDefault /\
  cwf PTEx.layout PtexSection.GetDefault /\
  (forall u p, 0 <= u < Unit_TotalTypes -> 0 <= p < Player_Total ->
    PuniSection.playerUsesDefault PuniSection.GetDefault u p = Ret true) /\
  (forall u p, 0 <= u < Upgrade_TotalTypes -> 0 <= p < Player_Total ->
    PupxSection.playerUsesDefault PupxSection.GetDefault u p = Ret true) /\
  (forall t p, 0 <= t < Tech_TotalTypes -> 0 <= p < Player_Total ->
    PtexSection.playerUsesDefault PtexSection.GetDefault t p = Ret true) /\
  (forall u, 0 <= u < Upgrade_TotalOriginalTypes ->
    PupxSection.getDefaultMaxUpgradeLevel PupxSection.GetDefault u =
    UpgrSection.getDefaultMaxUpgradeLevel UpgrSection.GetDefault u) /\
  (forall t, 0 <= t < Tech_TotalOriginalTypes ->
    PtexSection.techDefaultResearched PtexSection.GetDefault t =
    PtecSection.techDefaultResearched PtecSection.GetDefault t).
Proof.
  do 5 (split; [solve_default|]).
  do 3 (split; [intros i p Hi Hp; by apply get_yes_filled2|]).
  split; apply eq_below; vm_compute; reflexivity.
Qed.

