(* ===== verification/StructSections.v ===== *)
(** The structure sections that describe the scenario as a whole: TYPE, VER,
    IVER, IVE2, VCOD, IOWN, OWNR, ERA, DIM, SIDE, COLR, and the create-unit
    slots UPRP and UPUS.  As in [UnitTechSections], the functions work on the
    structure [data] points to; [setType] also resets the virtual flag, so
    it works on the whole section. *)
From S2P Require Import Prelude Codec ChkTypes ChkSection Accessors.
Open Scope Z_scope.

(** ** Versions *)

Definition Version_StarCraft_Original : Z := 59.
Definition Version_StarCraft_Hybrid : Z := 63.
Definition Version_StarCraft_BroodWar : Z := 205.
Definition Type_RAWS : Z := 0x53574152.
Definition Type_RAWB : Z := 0x42574152.

Module TypeSection.
Definition GetDefault (version : Z) : TYPE.TYPE :=
  if version <? Version_StarCraft_BroodWar then TYPE.mkTYPE Type_RAWS else TYPE.mkTYPE Type_RAWB.

Definition getType (data : TYPE.TYPE) : Z := TYPE.scenarioType data.

Definition setType (type : Z) (s : StructSection) : outcome StructSection :=
  let* s' := viaData TYPE.layout (fun data => Ret (data <| TYPE.scenarioType := type |>)) s in
  Ret (mkStructSection (setVirtual false (base s')) (rawData s') (rawCapacity s') (writeSize s')
         (dataLive s')).
End TypeSection.

Module VerSection.
Definition GetDefault : VER.VER := VER.mkVER Version_StarCraft_Hybrid.

Definition isOriginal (data : VER.VER) : bool := VER.version data <? Version_StarCraft_Hybrid.

Definition isHybrid (data : VER.VER) : bool :=
  (VER.version data >=? Version_StarCraft_Hybrid) && (VER.version data <? Version_StarCraft_BroodWar).

Definition isExpansion (data : VER.VER) : bool := VER.version data >=? Version_StarCraft_BroodWar.

Definition isHybridOrAbove (data : VER.VER) : bool := VER.version data >=? Version_StarCraft_Hybrid.

Definition getVersion (data : VER.VER) : Z := VER.version data.

Definition setVersion (data : VER.VER) (version : Z) : VER.VER := data <| VER.version := version |>.
End VerSection.

Module IverSection.
Definition GetDefault : IVER.IVER := IVER.mkIVER 10.
Definition getVersion (data : IVER.IVER) : Z := IVER.version data.
Definition setVersion (data : IVER.IVER) (version : Z) : IVER.IVER := data <| IVER.version := version |>.
End IverSection.

Module Ive2Section.
Definition GetDefault : IVE2.IVE2 := IVE2.mkIVE2 11.
Definition getVersion (data : IVE2.IVE2) : Z := IVE2.version data.
Definition setVersion (data : IVE2.IVE2) (version : Z) : IVE2.IVE2 := data <| IVE2.version := version |>.
End Ive2Section.

(** ** Validation codes *)

Module VcodSection.
Definition GetDefault : VCOD.VCOD := VCOD.mkVCOD
    [2009733428; 1902697625; 3284099082; 2809522087; 2793220383; 3141185751; 3978572236; 185814039;
     3080855653; 1796783505; 3713909645; 936737506; 3563346422; 252877411; 1177443395; 720925923;
     104294920; 1003943479; 375624718; 3965478725; 3086449623; 2664758298; 2353003123; 266453038;
     118060241; 3613713301; 1952978549; 3662653337; 521674965; 3198215911; 535017126; 1894714570;
     823842097; 891598925; 2110257379; 3730316001; 1126630900; 131837114; 180251100; 1240240040;
     1058429143; 2327960549; 96522049; 1914489501; 2774512034; 2607817668; 350291076; 3666901888;
     107600890; 1074787235; 3570332606; 3620456931; 872497242; 4162087154; 449154616; 1262343934;
     4194633043; 2386890804; 4268331485; 4042186927; 3716040947; 1977396639; 3853285986; 1734482737;
     1295437088; 1948358880; 1903757819; 2144167734; 1020682103; 3332809378; 1791943450; 1823067470;
     1000192646; 4252431541; 3169862904; 695134510; 1798251811; 1143450376; 2580288122; 1978850541;
     2117614789; 3306888439; 1704209873; 3712534790; 2888643262; 2167589301; 886590054; 3742711605;
     3068915378; 2521691652; 2626961973; 1641253474; 1870374994; 4110180828; 4264367212; 178580121;
     335469032; 1497647312; 3824379520; 428726580; 4267955990; 981342256; 2970586523; 2364928018;
     3680008202; 2360894270; 2398333498; 773491255; 4026085724; 2128834019; 322878875; 3116385478;
     2430220988; 1957735844; 2301057016; 926934599; 1517896420; 4002235359; 3897100980; 445170492;
     1986724232; 2751316874; 1447983638; 3133898663; 3961282050; 1992931760; 967934494; 3310864702;
     1278747673; 3092524893; 2388090223; 1376428336; 1584470125; 1505953299; 1648286751; 3954563804;
     4187328795; 3671429543; 1808683827; 24117493; 3907967103; 3471903424; 3551980387; 2781671288;
     2763808170; 3539118998; 2599092065; 2733468328; 1642938045; 2458042681; 2971874838; 3844382896;
     2863110917; 865800717; 3659567747; 4243370021; 590925860; 1962055164; 434467712; 1149063319;
     3678704453; 1763552674; 3891139652; 4287069996; 4046626360; 3660168269; 4263913282; 2838221505;
     242893558; 3514624203; 1458330383; 828487529; 637103540; 1836659776; 195515386; 3464668410;
     1632191939; 2402043149; 4150282536; 516521459; 3247034383; 3556266534; 339054413; 190815674;
     4892935; 791028471; 536569662; 3323042977; 1717391209; 2417308760; 1179968876; 3596836783;
     3751087242; 2950958525; 1279279295; 1901196963; 4163300649; 3575785605; 4207918783; 1367328040;
     123930296; 697286124; 1904104954; 1714569242; 2648626408; 2482790100; 1003830650; 2150528461;
     2272546570; 3935292443; 2094770586; 4024783638; 1858173099; 1518957220; 1349528728; 534749691;
     1155118955; 1451393031; 2210447357; 1540376846; 241854494; 789299866; 3785376654; 3002469529;
     1578924768; 1168164908; 2296974140; 3331766700; 713272948; 1710887867; 2787069931; 3783953072;
     3115903361; 1310021077; 2611868229; 2117452350; 1915654751; 594041782; 239453806; 3565632489;
     3821027828; 3192128936; 327815140; 4097295386; 4015341658; 1260222877; 2621077834; 3426190710;
     3054452098; 2123605600; 3301072061; 2424293234; 278272845; 1751647507; 4286300213; 709068102]
    [1; 4; 5; 6; 2; 1; 5; 2; 0; 3; 7; 7; 5; 4; 6; 3].

(** [memcmp(data, defaultVcod->data, sizeof(Chk::VCOD)) == 0] *)
Definition isDefault (data : VCOD.VCOD) : bool :=
  bool_decide (cenc VCOD.layout data = cenc VCOD.layout GetDefault).

(** [memcpy] over the whole structure. *)
Definition setToDefault (data : VCOD.VCOD) : VCOD.VCOD :=
  cdec VCOD.layout (cenc VCOD.layout GetDefault).
End VcodSection.

(** ** Players *)

Definition SlotType_Inactive : Z := 0.
Definition SlotType_GameOpen : Z := 6.
Definition openSlots : list Z := replicate 8 SlotType_GameOpen ++ replicate 4 SlotType_Inactive.

Module IownSection.
Definition GetDefault : IOWN.IOWN := IOWN.mkIOWN openSlots.
Definition getSlotType (data : IOWN.IOWN) (slotIndex : Z) : outcome Z :=
  get_at Player_Total (IOWN.slotType data) slotIndex.
Definition setSlotType (data : IOWN.IOWN) (slotIndex slotType : Z) : outcome IOWN.IOWN :=
  assign IOWN.slotType (set_at Player_Total (IOWN.slotType data) slotIndex slotType) data.
#[global] Instance slotType_member : Member IOWN.layout IOWN.slotType u8c Player_Total.
Proof. solve_member. Qed.
End IownSection.

Module OwnrSection.
Definition GetDefault : OWNR.OWNR := OWNR.mkOWNR openSlots.
Definition getSlotType (data : OWNR.OWNR) (slotIndex : Z) : outcome Z :=
  get_at Player_Total (OWNR.slotType data) slotIndex.
Definition setSlotType (data : OWNR.OWNR) (slotIndex slotType : Z) : outcome OWNR.OWNR :=
  assign OWNR.slotType (set_at Player_Total (OWNR.slotType data) slotIndex slotType) data.
#[global] Instance slotType_member : Member OWNR.layout OWNR.slotType u8c Player_Total.
Proof. solve_member. Qed.
End OwnrSection.

Module SideSection.
(** Terran 1, Zerg 0, Protoss 2, Inactive 7, Neutral 4. *)
Definition GetDefault : SIDE.SIDE := SIDE.mkSIDE [1; 0; 2; 1; 0; 2; 1; 0; 7; 7; 7; 4].
Definition getPlayerRace (data : SIDE.SIDE) (playerIndex : Z) : outcome Z :=
  get_at Player_Total (SIDE.playerRaces data) playerIndex.
Definition setPlayerRace (data : SIDE.SIDE) (playerIndex race : Z) : outcome SIDE.SIDE :=
  assign SIDE.playerRaces (set_at Player_Total (SIDE.playerRaces data) playerIndex race) data.
#[global] Instance playerRaces_member : Member SIDE.layout SIDE.playerRaces u8c Player_Total.
Proof. solve_member. Qed.
End SideSection.

Module ColrSection.
(** Red to Yellow, the colors 0 to 7. *)
Definition GetDefault : COLR.COLR := COLR.mkCOLR [0; 1; 2; 3; 4; 5; 6; 7].
Definition getPlayerColor (data : COLR.COLR) (slotIndex : Z) : outcome Z :=
  get_at Player_TotalSlots (COLR.playerColor data) slotIndex.
Definition setPlayerColor (data : COLR.COLR) (slotIndex color : Z) : outcome COLR.COLR :=
  assign COLR.playerColor (set_at Player_TotalSlots (COLR.playerColor data) slotIndex color) data.
#[global] Instance playerColor_member : Member COLR.layout COLR.playerColor u8c Player_TotalSlots.
Proof. solve_member. Qed.
End ColrSection.

(** ** Terrain type and dimensions *)

Module EraSection.
Definition GetDefault (tileset : Z) : ERA.ERA := ERA.mkERA tileset.
Definition getTileset (data : ERA.ERA) : Z := ERA.tileset data.
Definition setTileset (data : ERA.ERA) (tileset : Z) : ERA.ERA := data <| ERA.tileset := tileset |>.
End EraSection.

Module DimSection.
Definition PixelsPerTile : Z := 32.
Definition GetDefault (tileWidth tileHeight : Z) : DIM.DIM := DIM.mkDIM tileWidth tileHeight.
Definition getTileWidth (data : DIM.DIM) : Z := DIM.tileWidth data.
Definition getTileHeight (data : DIM.DIM) : Z := DIM.tileHeight data.
Definition getPixelWidth (data : DIM.DIM) : Z := u64 (DIM.tileWidth data * PixelsPerTile).
Definition getPixelHeight (data : DIM.DIM) : Z := u64 (DIM.tileHeight data * PixelsPerTile).
Definition setTileWidth (data : DIM.DIM) (tileWidth : Z) : DIM.DIM := data <| DIM.tileWidth := tileWidth |>.
Definition setTileHeight (data : DIM.DIM) (tileHeight : Z) : DIM.DIM := data <| DIM.tileHeight := tileHeight |>.
Definition setDimensions (data : DIM.DIM) (tileWidth tileHeight : Z) : DIM.DIM :=
  data <| DIM.tileWidth := tileWidth |> <| DIM.tileHeight := tileHeight |>.
End DimSection.

(** ** Create-unit-with-properties slots *)

Module UprpSection.
Definition blankCuwp : Cuwp.Cuwp := Cuwp.mkCuwp 0 0 0 0 0 0 0 0 0 0.
Definition GetDefault : UPRP.UPRP := UPRP.mkUPRP (replicate (Z.to_nat MaxCuwps) blankCuwp).

(** The index is not checked. *)
Definition getCuwp (data : UPRP.UPRP) (cuwpIndex : Z) : outcome Cuwp.Cuwp :=
  vget (UPRP.createUnitProperties data) cuwpIndex.

Definition setCuwp (data : UPRP.UPRP) (cuwpIndex : Z) (cuwp : Cuwp.Cuwp) : outcome UPRP.UPRP :=
  if cuwpIndex <? MaxCuwps
  then assign UPRP.createUnitProperties (vset (UPRP.createUnitProperties data) cuwpIndex cuwp) data
  else Ret data.

Definition findCuwp (data : UPRP.UPRP) (cuwp : Cuwp.Cuwp) : outcome Z :=
  let* found := first_such (fun i =>
      let* slot := vget (UPRP.createUnitProperties data) i in
      Ret (bool_decide (cenc Cuwp.layout cuwp = cenc Cuwp.layout slot))) (range 0 MaxCuwps) in
  Ret (match found with Some i => i | None => MaxCuwps end).

#[global] Instance createUnitProperties_member :
  Member UPRP.layout UPRP.createUnitProperties Cuwp.layout MaxCuwps.
Proof. solve_member. Qed.
End UprpSection.

Module UpusSection.
Definition GetDefault : UPUS.UPUS := UPUS.mkUPUS (filled MaxCuwps 0).

Definition cuwpUsed (data : UPUS.UPUS) (cuwpIndex : Z) : outcome bool :=
  if cuwpIndex <? MaxCuwps
  then let* used := vget (UPUS.cuwpUsed data) cuwpIndex in Ret (if used =? 0 then false else true)
  else Ret false.

Definition setCuwpUsed (data : UPUS.UPUS) (cuwpIndex : Z) (used : bool) : outcome UPUS.UPUS :=
  if cuwpIndex <? MaxCuwps
  then assign UPUS.cuwpUsed (vset (UPUS.cuwpUsed data) cuwpIndex (yes_no used)) data
  else Ret data.

Definition getNextUnusedCuwpIndex (data : UPUS.UPUS) : outcome Z :=
  let* found := first_such (fun i =>
      let* used := vget (UPUS.cuwpUsed data) i in Ret (used =? 0)) (range 0 MaxCuwps) in
  Ret (match found with Some i => i | None => MaxCuwps end).

#[global] Instance cuwpUsed_member : Member UPUS.layout UPUS.cuwpUsed u8c MaxCuwps.
Proof. solve_member. Qed.
End UpusSection.

(** ** Lemmas on the create-unit slots *)

Lemma negb_if_bind (o : outcome Z) :
  (let* v := o in Ret (if v =? 0 then false else true)) = (let* v := o in Ret (negb (v =? 0))).
Proof. destruct o as [v| |]; cbn [obind]; [by destruct (v =? 0) | done | done]. Qed.

Lemma next_unused_spec (data : UPUS.UPUS) : cwf UPUS.layout data ->
  exists i, UpusSection.getNextUnusedCuwpIndex data = Ret i /\ 0 <= i <= MaxCuwps /\
    UpusSection.cuwpUsed data i = Ret false /\
    (forall j, 0 <= j < i -> UpusSection.cuwpUsed data j = Ret true).
Proof.
  intros Hd. pose proof (member_zlen UPUS.layout UPUS.cuwpUsed u8c MaxCuwps data Hd) as Hlen.
  unfold UpusSection.getNextUnusedCuwpIndex, UpusSection.cuwpUsed.
  destruct (first_such_vget (UPUS.cuwpUsed data) (fun _ used => used =? 0) MaxCuwps 0)
    as (o & Ho & Hspec); [done | done|].
  rewrite Ho; cbn [obind].
  assert (Hbelow : forall hi, hi <= MaxCuwps ->
    (forall j v, 0 <= j < hi -> vget (UPUS.cuwpUsed data) j = Ret v -> (v =? 0) = false) ->
    forall j, 0 <= j < hi ->
    (if j <? MaxCuwps
     then let* used := vget (UPUS.cuwpUsed data) j in Ret (if used =? 0 then false else true)
     else Ret false) = Ret true).
  { intros hi Hhi Hb j Hj. rewrite (proj2 (Z.ltb_lt _ _)) by lia.
    destruct (vget_in (UPUS.cuwpUsed data) j) as (v & _ & Hv); [lia|].
    rewrite Hv; cbn [obind]. by rewrite (Hb j v). }
  destruct o as [i|].
  - destruct Hspec as (Hi & (v & Hv & Hq) & Hbefore). exists i. split; [done|]. split; [lia|].
    rewrite (proj2 (Z.ltb_lt _ _)), Hv by lia; cbn [obind]. rewrite Hq. split; [done|].
    apply Hbelow; [lia | done].
  - exists MaxCuwps. split; [done|]. split; [vm_compute; split; congruence|].
    rewrite Z.ltb_irrefl. split; [done|]. by apply Hbelow.
Qed.

Lemma setCuwpUsed_spec (data : UPUS.UPUS) i used : cwf UPUS.layout data -> 0 <= i < MaxCuwps ->
  exists data', UpusSection.setCuwpUsed data i used = Ret data' /\ cwf UPUS.layout data' /\
    forall j, 0 <= j ->
      UpusSection.cuwpUsed data' j = if decide (j = i) then Ret used else UpusSection.cuwpUsed data j.
Proof.
  intros Hd Hi. destruct (lawful_yes UPUS.layout UPUS.cuwpUsed MaxCuwps) as [_ _ _ Hset].
  destruct (Hset data i used Hd I Hi) as (d' & Hs & Hw & _ & Hg). exists d'.
  unfold UpusSection.setCuwpUsed, set_at, get_at, get_yes, is_yes in *.
  rewrite (proj2 (Z.ltb_lt i _)) in * by lia. split; [done|]. split; [done|].
  intros j Hj. specialize (Hg j Hj). unfold UpusSection.cuwpUsed.
  destruct (Z.ltb_spec j MaxCuwps); [|by rewrite decide_False by lia].
  rewrite (negb_if_bind (vget (UPUS.cuwpUsed d') j)), (negb_if_bind (vget (UPUS.cuwpUsed data) j)).
  exact Hg.
Qed.

(** ** Properties *)

(** The player tables IOWN, OWNR and SIDE hold twelve independent bytes
    and COLR eight; reading and writing outside of them throws. *)
Theorem player_table_accessors_lawful :
  Lawful (cwf IOWN.layout) (upd IOWN.slotType []) (is_u 8) id Player_Total
    IownSection.getSlotType IownSection.setSlotType /\
  Lawful (cwf OWNR.layout) (upd OWNR.slotType []) (is_u 8) id Player_Total
    OwnrSection.getSlotType OwnrSection.setSlotType /\
  Lawful (cwf SIDE.layout) (upd SIDE.playerRaces []) (is_u 8) id Player_Total
    SideSection.getPlayerRace SideSection.setPlayerRace /\
  Lawful (cwf COLR.layout) (upd COLR.playerColor []) (is_u 8) id Player_TotalSlots
    ColrSection.getPlayerColor ColrSection.setPlayerColor.
Proof. split_and!; solve_lawful. Qed.

(** The version predicates split every version into exactly one of
    original, hybrid and expansion, [isHybridOrAbove] is the union of the
    last two, and the default type of a version is RAWB exactly for the
    expansion. *)
Theorem version_predicates (data : VER.VER) :
  (Nat.b2n (VerSection.isOriginal data) + Nat.b2n (VerSection.isHybrid data) +
   Nat.b2n (VerSection.isExpansion data) = 1)%nat /\
  VerSection.isHybridOrAbove data = VerSection.isHybrid data || VerSection.isExpansion data /\
  (TypeSection.getType (TypeSection.GetDefault (VER.version data)) = Type_RAWB <->
   VerSection.isExpansion data = true).
Proof.
  unfold VerSection.isOriginal, VerSection.isHybrid, VerSection.isExpansion,
    VerSection.isHybridOrAbove, TypeSection.getType, TypeSection.GetDefault,
    Version_StarCraft_Hybrid, Version_StarCraft_BroodWar.
  destruct data as [v]; cbn [VER.version]. rewrite !Z.geb_leb.
  destruct (Z.ltb_spec v 63), (Z.ltb_spec v 205), (Z.leb_spec 63 v), (Z.leb_spec 205 v);
    try lia; repeat split; try done; intros; try discriminate; vm_compute in *; congruence.
Qed.

(** [isDefault] of VCOD recognises exactly the default table, and
    [setToDefault] produces it. *)
Theorem vcod_default (data : VCOD.VCOD) :
  cwf VCOD.layout data ->
  (VcodSection.isDefault data = true <-> data = VcodSection.GetDefault) /\
  VcodSection.isDefault (VcodSection.setToDefault data) = true.
Proof.
  intros Hwf. assert (Hd : cwf VCOD.layout VcodSection.GetDefault) by solve_default.
  unfold VcodSection.isDefault, VcodSection.setToDefault. rewrite !bool_decide_eq_true.
  split; [split|].
  - intros E. apply (f_equal (cdec VCOD.layout)) in E.
    rewrite (dec_enc' _ _ Hwf), (dec_enc' _ _ Hd) in E. exact E.
  - by intros ->.
  - by rewrite (dec_enc' _ _ Hd).
Qed.

(** The pixel dimensions never wrap: for every pair of tile dimensions
    that fits the section they are 32 times the tiles. *)
Theorem dim_pixels (w h : Z) :
  is_u 16 w -> is_u 16 h ->
  let data := DimSection.setDimensions (DimSection.GetDefault 0 0) w h in
  cwf DIM.layout data /\ DimSection.getTileWidth data = w /\ DimSection.getTileHeight data = h /\
  DimSection.getPixelWidth data = 32 * w /\ DimSection.getPixelHeight data = 32 * h.
Proof.
  intros Hw Hh data. unfold data, DimSection.setDimensions, DimSection.getPixelWidth,
    DimSection.getPixelHeight, u64, is_u, DimSection.PixelsPerTile in *. cbn.
  repeat split; try apply Hw; try apply Hh; rewrite Z.mod_small; lia.
Qed.

(** [findCuwp] returns the first slot that holds the given properties,
    or 64 when no slot does. *)
Theorem findCuwp_first (data : UPRP.UPRP) (c : Cuwp.Cuwp) :
  cwf UPRP.layout data -> cwf Cuwp.layout c ->
  exists i, UprpSection.findCuwp data c = Ret i /\ 0 <= i <= MaxCuwps /\
    (i < MaxCuwps -> UprpSection.getCuwp data i = Ret c) /\
    (forall j, 0 <= j < i -> UprpSection.getCuwp data j <> Ret c).
Proof.
  intros Hd Hc. unfold UprpSection.findCuwp, UprpSection.getCuwp.
  destruct (first_such_vget (UPRP.createUnitProperties data)
    (fun _ slot => bool_decide (cenc Cuwp.layout c = cenc Cuwp.layout slot)) MaxCuwps 0)
    as (o & Ho & Hspec); [by apply (member_zlen UPRP.layout _ Cuwp.layout) | done|].
  rewrite Ho; cbn [obind]. destruct (member_wf (c := Cuwp.layout) data Hd) as [_ Hall].
  assert (Hinj : forall j v, vget (UPRP.createUnitProperties data) j = Ret v ->
            cenc Cuwp.layout c = cenc Cuwp.layout v -> c = v).
  { intros j v Hv E. apply vget_elem in Hv.
    assert (Hvw : cwf Cuwp.layout v) by (by apply (proj1 (Forall_forall _ _) Hall)).
    apply (f_equal (cdec Cuwp.layout)) in E.
    by rewrite (dec_enc' _ _ Hc), (dec_enc' _ _ Hvw) in E. }
  destruct o as [i|].
  - destruct Hspec as (Hi & (v & Hv & Hq) & Hbefore). exists i. split; [done|].
    apply bool_decide_eq_true in Hq. split; [lia|]. split.
    + intros _. by rewrite Hv, <- (Hinj i v).
    + intros j Hj Hg. specialize (Hbefore j c Hj Hg). by rewrite bool_decide_eq_false in Hbefore.
  - exists MaxCuwps. split; [done|]. split; [vm_compute; split; congruence|]. split; [lia|].
    intros j Hj Hg. specialize (Hspec j c Hj Hg). by rewrite bool_decide_eq_false in Hspec.
Qed.

(** [getNextUnusedCuwpIndex] returns the least slot not marked used (64
    when all are), and marking it used moves the next free slot past it. *)
Theorem next_unused_cuwp (data : UPUS.UPUS) :
  cwf UPUS.layout data ->
  exists i, UpusSection.getNextUnusedCuwpIndex data = Ret i /\ 0 <= i <= MaxCuwps /\
    UpusSection.cuwpUsed data i = Ret false /\
    (forall j, 0 <= j < i -> UpusSection.cuwpUsed data j = Ret true) /\
    (forall data' i', UpusSection.setCuwpUsed data i true = Ret data' -> i < MaxCuwps ->
       UpusSection.getNextUnusedCuwpIndex data' = Ret i' -> i < i').
Proof.
  intros Hd.
  destruct (next_unused_spec data Hd) as (i & Hi & Hr & Hfree & Hused).
  exists i. split; [done|]. split; [done|]. split; [done|]. split; [done|].
  intros data' i' Hset Hlt Hi'.
  destruct (setCuwpUsed_spec data i true Hd ltac:(lia)) as (d & Hset' & Hd' & Hget).
  rewrite Hset' in Hset. injection Hset as <-.
  destruct (next_unused_spec d Hd') as (k & Hk & Hkr & Hkfree & Hkused).
  rewrite Hk in Hi'. injection Hi' as <-.
  destruct (Z.lt_ge_cases i k) as [|Hle]; [done|exfalso].
  rewrite Hget in Hkfree by lia. case_decide; [done|].
  rewrite Hused in Hkfree by lia. done.
Qed.

(** ** Witnesses *)

Lemma vcod_default_witness :
  cwf VCOD.layout VcodSection.GetDefault /\ VcodSection.isDefault VcodSection.GetDefault = true.
Proof.
  assert (H : cwf VCOD.layout VcodSection.GetDefault) by solve_default.
  exact (conj H (proj2 (proj1 (vcod_default VcodSection.GetDefault H)) eq_refl)).
Defined.

Lemma dim_pixels_witness :
  DimSection.getPixelWidth (DimSection.setDimensions (DimSection.GetDefault 0 0) 65535 256) = 2097120.
Proof. apply (dim_pixels 65535 256); split; vm_compute; congruence. Defined.

Lemma findCuwp_first_witness :
  exists i, UprpSection.findCuwp UprpSection.GetDefault UprpSection.blankCuwp = Ret i /\
    0 <= i <= MaxCuwps /\
    (i < MaxCuwps -> UprpSection.getCuwp UprpSection.GetDefault i = Ret UprpSection.blankCuwp) /\
    (forall j, 0 <= j < i ->
       UprpSection.getCuwp UprpSection.GetDefault j <> Ret UprpSection.blankCuwp).
Proof. apply (findCuwp_first UprpSection.GetDefault UprpSection.blankCuwp); solve_default. Defined.

Lemma next_unused_cuwp_witness :
  exists i, UpusSection.getNextUnusedCuwpIndex UpusSection.GetDefault = Ret i /\ 0 <= i <= MaxCuwps /\
    UpusSection.cuwpUsed UpusSection.GetDefault i = Ret false /\
    (forall j, 0 <= j < i -> UpusSection.cuwpUsed UpusSection.GetDefault j = Ret true) /\
    (forall data' i', UpusSection.setCuwpUsed UpusSection.GetDefault i true = Ret data' ->
       i < MaxCuwps -> UpusSection.getNextUnusedCuwpIndex data' = Ret i' -> i < i').
Proof. apply (next_unused_cuwp UpusSection.GetDefault). solve_default. Defined.
