(* ===== verification/StringUsers.v ===== *)
(** The sections whose structure holds string ids: SPRP, FORC, WAV, SWNM,
    the unit names of UNIS and UNIx, and OSTR (Sections.cpp).

    Every one of them answers whether a string is used, marks the strings it
    uses in a bitset, appends its users, remaps its ids after the string
    table was reordered, and clears the ids of a deleted string.  The loops
    they share are defined once; [StringUserLaws] is what a section promises
    to the string tables (STR, KSTR) and to the scenario, proved from the
    interface alone in [Section client] and discharged for each section. *)
From S2P Require Import Prelude Codec ChkTypes ChkSection Accessors UnitTechSections.
Open Scope Z_scope.

(** ** String users *)

Module StringUserFlag.
Definition None : Z := 0.
Definition ScenarioName : Z := 1.
Definition ScenarioDescription : Z := 2.
Definition Force : Z := 4.
Definition Location : Z := 8.
Definition OriginalUnitSettings : Z := 16.
Definition ExpansionUnitSettings : Z := 32.
Definition Sound : Z := 64.
Definition Switch : Z := 128.
Definition TriggerAction : Z := 256.
Definition TriggerActionSound : Z := 512.
Definition ExtendedTriggerComment : Z := 1024.
Definition ExtendedTriggerNotes : Z := 2048.
Definition BriefingTriggerAction : Z := 4096.
Definition BriefingTriggerActionSound : Z := 8192.
Definition ScenarioProperties : Z := Z.lor ScenarioName ScenarioDescription.
Definition BothUnitSettings : Z := Z.lor OriginalUnitSettings ExpansionUnitSettings.
Definition AnyTrigger : Z := Z.lor TriggerAction TriggerActionSound.
Definition AnyTriggerExtension : Z := Z.lor ExtendedTriggerComment ExtendedTriggerNotes.
Definition AnyBriefingTrigger : Z := Z.lor BriefingTriggerAction BriefingTriggerActionSound.
Definition All : Z := 4294967295.
End StringUserFlag.

Record StringUser := mkStringUser { userFlags : Z; index : Z; subIndex : Z }.

#[export] Instance StringUser_eq_dec : EqDecision StringUser.
Proof. solve_decision. Defined.

(** [stringIdUsed[id] = true] on a [std::bitset] of [N] bits, kept as the
    set of its one bits: out of range the behaviour is undefined. *)
Definition bs_set (N : Z) (bs : gset Z) (i : Z) : outcome (gset Z) :=
  if (0 <=? i) && (i <? N) then Ret ({[i]} ∪ bs) else Undef.

(** ** The shared loops over an array of [N] ids *)

(** [if ( ids[i] == id ) return true;] *)
Definition used_in (N : Z) (ids : list Z) (id : Z) : outcome bool :=
  any_such (fun i => let* v := vget ids i in Ret (v =? id)) (range 0 N).

(** [if ( ids[i] == id ) stringUsers.push_back(StringUser(flag, i));] *)
Definition append_from (N : Z) (ids : list Z) (flag id : Z) (users : list StringUser)
    : outcome (list StringUser) :=
  for_each (fun i users => let* v := vget ids i in
      if v =? id then Ret (users ++ [mkStringUser flag i 0]) else Ret users)
    (range 0 N) users.

(** [if ( guard(ids[i]) ) stringIdUsed[ids[i]] = true;] *)
Definition mark_from (guard : Z -> bool) (N : Z) (ids : list Z) (bs : gset Z) : outcome (gset Z) :=
  for_each (fun i bs => let* v := vget ids i in
      if guard v then bs_set MaxStrings bs v else Ret bs)
    (range 0 N) bs.

(** [auto found = remappings.find(ids[i]); if ( found != end ) ids[i] = found->second;]
    with the conversion [norm] to the type of the element. *)
Definition remap_in (norm : Z -> Z) (N : Z) (remappings : gmap Z Z) (ids : list Z)
    : outcome (list Z) :=
  for_each (fun i ids => let* v := vget ids i in
      match remappings !! v with Some w => vset ids i (norm w) | None => Ret ids end)
    (range 0 N) ids.

(** [if ( ids[i] == id ) ids[i] = 0;] *)
Definition delete_in (N id : Z) (ids : list Z) : outcome (list Z) :=
  for_each (fun i ids => let* v := vget ids i in
      if v =? id then vset ids i 0 else Ret ids)
    (range 0 N) ids.

(** A setter that ignores an index out of range. *)
Definition set_quiet {A} (N : Z) (l : list A) (i : Z) (a : A) : outcome (list A) :=
  if i <? N then vset l i a else Ret l.

(** ** The sections *)

Module SprpSection.
Definition GetDefault (scenarioNameStringId scenarioDescriptionStringId : Z) : SPRP.SPRP :=
  SPRP.mkSPRP scenarioNameStringId scenarioDescriptionStringId.

Definition getScenarioNameStringId (data : SPRP.SPRP) : Z := SPRP.scenarioNameStringId data.

Definition getScenarioDescriptionStringId (data : SPRP.SPRP) : Z :=
  SPRP.scenarioDescriptionStringId data.

Definition setScenarioNameStringId (data : SPRP.SPRP) (id : Z) : SPRP.SPRP :=
  data <| SPRP.scenarioNameStringId := id |>.

Definition setScenarioDescriptionStringId (data : SPRP.SPRP) (id : Z) : SPRP.SPRP :=
  data <| SPRP.scenarioDescriptionStringId := id |>.

Definition stringUsed (data : SPRP.SPRP) (stringId userMask : Z) : bool :=
  (has_flag userMask StringUserFlag.ScenarioName
     && (SPRP.scenarioNameStringId data =? u16 stringId))
  || (has_flag userMask StringUserFlag.ScenarioDescription
     && (SPRP.scenarioDescriptionStringId data =? u16 stringId)).

Definition appendUsage (data : SPRP.SPRP) (stringId : Z) (stringUsers : list StringUser)
    (userMask : Z) : list StringUser :=
  let stringUsers :=
    if has_flag userMask StringUserFlag.ScenarioName
         && (SPRP.scenarioNameStringId data =? u16 stringId)
    then stringUsers ++ [mkStringUser StringUserFlag.ScenarioName 0 0] else stringUsers in
  if has_flag userMask StringUserFlag.ScenarioDescription
       && (SPRP.scenarioDescriptionStringId data =? u16 stringId)
  then stringUsers ++ [mkStringUser StringUserFlag.ScenarioDescription 0 0] else stringUsers.

Definition deleteString (data : SPRP.SPRP) (stringId : Z) : SPRP.SPRP :=
  let data := if SPRP.scenarioNameStringId data =? stringId
              then data <| SPRP.scenarioNameStringId := 0 |> else data in
  if SPRP.scenarioDescriptionStringId data =? stringId
  then data <| SPRP.scenarioDescriptionStringId := 0 |> else data.

Definition remapStringIds (data : SPRP.SPRP) (remappings : gmap Z Z) : SPRP.SPRP :=
  let scenarioNameRemapping := remappings !! SPRP.scenarioNameStringId data in
  let scenarioDescriptionRemapping := remappings !! SPRP.scenarioDescriptionStringId data in
  let data := match scenarioNameRemapping with
              | Some w => data <| SPRP.scenarioNameStringId := u16 w |>
              | None => data end in
  match scenarioDescriptionRemapping with
  | Some w => data <| SPRP.scenarioDescriptionStringId := u16 w |>
  | None => data
  end.

Definition markUsedStrings (data : SPRP.SPRP) (stringIdUsed : gset Z) (userMask : Z)
    : outcome (gset Z) :=
  let* stringIdUsed :=
    if has_flag userMask StringUserFlag.ScenarioName && (SPRP.scenarioNameStringId data >? 0)
    then bs_set MaxStrings stringIdUsed (SPRP.scenarioNameStringId data) else Ret stringIdUsed in
  if has_flag userMask StringUserFlag.ScenarioDescription
       && (SPRP.scenarioDescriptionStringId data >? 0)
  then bs_set MaxStrings stringIdUsed (SPRP.scenarioDescriptionStringId data)
  else Ret stringIdUsed.
End SprpSection.

Module ForcSection.
Definition ForceFlags_All : Z := 15.

Definition GetDefault : FORC.FORC :=
  FORC.mkFORC (filled Player_TotalSlots 0) [4; 5; 6; 7] (filled TotalForces ForceFlags_All).

Definition getPlayerForce (data : FORC.FORC) (slotIndex : Z) : outcome Z :=
  get_at Player_TotalSlots (FORC.playerForce data) slotIndex.

Definition getForceStringId (data : FORC.FORC) (force : Z) : outcome Z :=
  get_at TotalForces (FORC.forceString data) force.

Definition getForceFlags (data : FORC.FORC) (force : Z) : outcome Z :=
  get_at TotalForces (FORC.flags data) force.

Definition setPlayerForce (data : FORC.FORC) (slotIndex force : Z) : outcome FORC.FORC :=
  assign FORC.playerForce (set_at Player_TotalSlots (FORC.playerForce data) slotIndex force) data.

Definition setForceStringId (data : FORC.FORC) (force forceStringId : Z) : outcome FORC.FORC :=
  assign FORC.forceString (set_quiet TotalForces (FORC.forceString data) force forceStringId) data.

Definition setForceFlags (data : FORC.FORC) (force forceFlags : Z) : outcome FORC.FORC :=
  assign FORC.flags (set_quiet TotalForces (FORC.flags data) force forceFlags) data.

Definition appendUsage (data : FORC.FORC) (stringId : Z) (stringUsers : list StringUser)
    : outcome (list StringUser) :=
  append_from TotalForces (FORC.forceString data) StringUserFlag.Force stringId stringUsers.

Definition stringUsed (data : FORC.FORC) (stringId : Z) : outcome bool :=
  let uses i := let* v := vget (FORC.forceString data) i in Ret (v =? u16 stringId) in
  oor (uses 0) (oor (uses 1) (oor (uses 2) (uses 3))).

Definition markUsedStrings (data : FORC.FORC) (stringIdUsed : gset Z) : outcome (gset Z) :=
  mark_from (fun v => negb (v =? 0)) TotalForces (FORC.forceString data) stringIdUsed.

Definition remapStringIds (data : FORC.FORC) (remappings : gmap Z Z) : outcome FORC.FORC :=
  let* one := vget (FORC.forceString data) 0 in
  let* two := vget (FORC.forceString data) 1 in
  let* three := vget (FORC.forceString data) 2 in
  let* four := vget (FORC.forceString data) 3 in
  let store i found l :=
    match found with Some w => vset l i (u16 w) | None => Ret l end in
  let* l := store 0 (remappings !! one) (FORC.forceString data) in
  let* l := store 1 (remappings !! two) l in
  let* l := store 2 (remappings !! three) l in
  let* l := store 3 (remappings !! four) l in
  Ret (data <| FORC.forceString := l |>).

Definition deleteString (data : FORC.FORC) (stringId : Z) : outcome FORC.FORC :=
  assign FORC.forceString (delete_in TotalForces stringId (FORC.forceString data)) data.
End ForcSection.

Module WavSection.
Definition GetDefault : WAV.WAV := WAV.mkWAV (filled TotalSounds 0).

Definition addSound (data : WAV.WAV) (stringId : Z) : outcome (WAV.WAV * Z) :=
  let* found := first_such (fun i => let* v := vget (WAV.soundPathStringId data) i in Ret (v =? 0))
                  (range 0 TotalSounds) in
  match found with
  | Some i =>
      let* data' := assign WAV.soundPathStringId
                      (vset (WAV.soundPathStringId data) i (u32 stringId)) data in
      Ret (data', i)
  | None => Ret (data, TotalSounds)
  end.

Definition stringIsSound (data : WAV.WAV) (stringId : Z) : outcome bool :=
  used_in TotalSounds (WAV.soundPathStringId data) (u32 stringId).

Definition getSoundStringId (data : WAV.WAV) (soundIndex : Z) : outcome Z :=
  get_at TotalSounds (WAV.soundPathStringId data) soundIndex.

Definition setSoundStringId (data : WAV.WAV) (soundIndex soundStringId : Z) : outcome WAV.WAV :=
  assign WAV.soundPathStringId
    (set_quiet TotalSounds (WAV.soundPathStringId data) soundIndex (u32 soundStringId)) data.

Definition appendUsage (data : WAV.WAV) (stringId : Z) (stringUsers : list StringUser)
    : outcome (list StringUser) :=
  append_from TotalSounds (WAV.soundPathStringId data) StringUserFlag.Sound stringId stringUsers.

Definition stringUsed (data : WAV.WAV) (stringId : Z) : outcome bool := stringIsSound data stringId.

Definition markUsedStrings (data : WAV.WAV) (stringIdUsed : gset Z) : outcome (gset Z) :=
  mark_from (fun v => negb (v =? 0) && (v <? MaxStrings)) TotalSounds
    (WAV.soundPathStringId data) stringIdUsed.

Definition remapStringIds (data : WAV.WAV) (remappings : gmap Z Z) : outcome WAV.WAV :=
  assign WAV.soundPathStringId
    (remap_in u32 TotalSounds remappings (WAV.soundPathStringId data)) data.

Definition deleteString (data : WAV.WAV) (stringId : Z) : outcome WAV.WAV :=
  assign WAV.soundPathStringId (delete_in TotalSounds stringId (WAV.soundPathStringId data)) data.
End WavSection.

Module SwnmSection.
Definition GetDefault : SWNM.SWNM := SWNM.mkSWNM (filled TotalSwitches 0).

Definition getSwitchNameStringId (data : SWNM.SWNM) (switchIndex : Z) : outcome Z :=
  get_at TotalSwitches (SWNM.switchName data) switchIndex.

Definition setSwitchNameStringId (data : SWNM.SWNM) (switchIndex stringId : Z) : outcome SWNM.SWNM :=
  assign SWNM.switchName
    (set_quiet TotalSwitches (SWNM.switchName data) switchIndex (u32 stringId)) data.

Definition appendUsage (data : SWNM.SWNM) (stringId : Z) (stringUsers : list StringUser)
    : outcome (list StringUser) :=
  append_from TotalSwitches (SWNM.switchName data) StringUserFlag.Switch stringId stringUsers.

Definition stringUsed (data : SWNM.SWNM) (stringId : Z) : outcome bool :=
  used_in TotalSwitches (SWNM.switchName data) (u32 stringId).

Definition markUsedStrings (data : SWNM.SWNM) (stringIdUsed : gset Z) : outcome (gset Z) :=
  mark_from (fun v => (v >? 0) && (v <? MaxStrings)) TotalSwitches
    (SWNM.switchName data) stringIdUsed.

Definition remapStringIds (data : SWNM.SWNM) (remappings : gmap Z Z) : outcome SWNM.SWNM :=
  assign SWNM.switchName (remap_in u32 TotalSwitches remappings (SWNM.switchName data)) data.

Definition deleteString (data : SWNM.SWNM) (stringId : Z) : outcome SWNM.SWNM :=
  assign SWNM.switchName (delete_in TotalSwitches stringId (SWNM.switchName data)) data.
End SwnmSection.

(** The string functions of UNIS (its accessors are in [UnitTechSections]). *)
Module UnisNames.
Definition appendUsage (data : UNIS.UNIS) (stringId : Z) (stringUsers : list StringUser)
    : outcome (list StringUser) :=
  append_from Unit_TotalTypes (UNIS.nameStringId data) StringUserFlag.OriginalUnitSettings
    (u16 stringId) stringUsers.

Definition stringUsed (data : UNIS.UNIS) (stringId : Z) : outcome bool :=
  used_in Unit_TotalTypes (UNIS.nameStringId data) (u16 stringId).

Definition markUsedStrings (data : UNIS.UNIS) (stringIdUsed : gset Z) : outcome (gset Z) :=
  mark_from (fun v => v >? 0) Unit_TotalTypes (UNIS.nameStringId data) stringIdUsed.

Definition remapStringIds (data : UNIS.UNIS) (remappings : gmap Z Z) : outcome UNIS.UNIS :=
  assign UNIS.nameStringId (remap_in u16 Unit_TotalTypes remappings (UNIS.nameStringId data)) data.

Definition deleteString (data : UNIS.UNIS) (stringId : Z) : outcome UNIS.UNIS :=
  assign UNIS.nameStringId (delete_in Unit_TotalTypes stringId (UNIS.nameStringId data)) data.
End UnisNames.

(** The string functions of UNIx (its accessors are in [UnitTechSections]). *)
Module UnixNames.
Definition appendUsage (data : UNIx.UNIx) (stringId : Z) (stringUsers : list StringUser)
    : outcome (list StringUser) :=
  append_from Unit_TotalTypes (UNIx.nameStringId data) StringUserFlag.ExpansionUnitSettings
    (u16 stringId) stringUsers.

Definition stringUsed (data : UNIx.UNIx) (stringId : Z) : outcome bool :=
  used_in Unit_TotalTypes (UNIx.nameStringId data) (u16 stringId).

Definition markUsedStrings (data : UNIx.UNIx) (stringIdUsed : gset Z) : outcome (gset Z) :=
  mark_from (fun v => v >? 0) Unit_TotalTypes (UNIx.nameStringId data) stringIdUsed.

Definition remapStringIds (data : UNIx.UNIx) (remappings : gmap Z Z) : outcome UNIx.UNIx :=
  assign UNIx.nameStringId (remap_in u16 Unit_TotalTypes remappings (UNIx.nameStringId data)) data.

Definition deleteString (data : UNIx.UNIx) (stringId : Z) : outcome UNIx.UNIx :=
  assign UNIx.nameStringId (delete_in Unit_TotalTypes stringId (UNIx.nameStringId data)) data.
End UnixNames.

Module OstrSection.
Definition GetDefault : OSTR.OSTR :=
  OSTR.mkOSTR 1 0 0 (filled TotalForces 0) (filled Unit_TotalTypes 0) (filled Unit_TotalTypes 0)
    (filled TotalSounds 0) (filled TotalSwitches 0) (filled TotalLocations 0).

Definition getVersion (data : OSTR.OSTR) : Z := OSTR.version data.

Definition getScenarioNameStringId (data : OSTR.OSTR) : Z := OSTR.scenarioName data.

Definition getScenarioDescriptionStringId (data : OSTR.OSTR) : Z := OSTR.scenarioDescription data.

Definition getForceNameStringId (data : OSTR.OSTR) (force : Z) : outcome Z :=
  get_at TotalForces (OSTR.forceName data) force.

Definition getUnitNameStringId (data : OSTR.OSTR) (unitType : Z) : outcome Z :=
  get_at Unit_TotalTypes (OSTR.unitName data) unitType.

Definition getExpUnitNameStringId (data : OSTR.OSTR) (unitType : Z) : outcome Z :=
  get_at Unit_TotalTypes (OSTR.expUnitName data) unitType.

Definition getSoundPathStringId (data : OSTR.OSTR) (soundIndex : Z) : outcome Z :=
  get_at TotalSounds (OSTR.soundPath data) soundIndex.

Definition getSwitchNameStringId (data : OSTR.OSTR) (switchIndex : Z) : outcome Z :=
  get_at TotalSwitches (OSTR.switchName data) switchIndex.

Definition getLocationNameStringId (data : OSTR.OSTR) (locationId : Z) : outcome Z :=
  if (locationId >? 0) && (locationId <=? TotalLocations)
  then vget (OSTR.locationName data) (locationId - 1) else Throw OutOfRange.

Definition setScenarioNameStringId (data : OSTR.OSTR) (id : Z) : OSTR.OSTR :=
  data <| OSTR.scenarioName := id |>.

Definition setScenarioDescriptionStringId (data : OSTR.OSTR) (id : Z) : OSTR.OSTR :=
  data <| OSTR.scenarioDescription := id |>.

Definition setForceNameStringId (data : OSTR.OSTR) (force id : Z) : outcome OSTR.OSTR :=
  assign OSTR.forceName (set_at TotalForces (OSTR.forceName data) force id) data.

Definition setUnitNameStringId (data : OSTR.OSTR) (unitType id : Z) : outcome OSTR.OSTR :=
  assign OSTR.unitName (set_at Unit_TotalTypes (OSTR.unitName data) unitType id) data.

Definition setExpUnitNameStringId (data : OSTR.OSTR) (unitType id : Z) : outcome OSTR.OSTR :=
  assign OSTR.expUnitName (set_at Unit_TotalTypes (OSTR.expUnitName data) unitType id) data.

Definition setSoundPathStringId (data : OSTR.OSTR) (soundIndex id : Z) : outcome OSTR.OSTR :=
  assign OSTR.soundPath (set_at TotalSounds (OSTR.soundPath data) soundIndex id) data.

Definition setSwitchNameStringId (data : OSTR.OSTR) (switchIndex id : Z) : outcome OSTR.OSTR :=
  assign OSTR.switchName (set_at TotalSwitches (OSTR.switchName data) switchIndex id) data.

Definition setLocationNameStringId (data : OSTR.OSTR) (locationId id : Z) : outcome OSTR.OSTR :=
  if (locationId >? 0) && (locationId <=? TotalLocations)
  then assign OSTR.locationName (vset (OSTR.locationName data) (locationId - 1) id) data
  else Throw OutOfRange.

Definition appendUsage (data : OSTR.OSTR) (stringId : Z) (stringUsers : list StringUser)
    (userMask : Z) : outcome (list StringUser) :=
  let stringUsers := if OSTR.scenarioName data =? stringId
    then stringUsers ++ [mkStringUser StringUserFlag.ScenarioName 0 0] else stringUsers in
  let stringUsers := if OSTR.scenarioDescription data =? stringId
    then stringUsers ++ [mkStringUser StringUserFlag.ScenarioDescription 0 0] else stringUsers in
  let* stringUsers :=
    append_from TotalForces (OSTR.forceName data) StringUserFlag.Force stringId stringUsers in
  let* stringUsers :=
    append_from Unit_TotalTypes (OSTR.unitName data) StringUserFlag.OriginalUnitSettings stringId stringUsers in
  let* stringUsers :=
    append_from Unit_TotalTypes (OSTR.expUnitName data) StringUserFlag.ExpansionUnitSettings stringId stringUsers in
  let* stringUsers :=
    append_from TotalSounds (OSTR.soundPath data) StringUserFlag.Sound stringId stringUsers in
  let* stringUsers :=
    append_from TotalSwitches (OSTR.switchName data) StringUserFlag.Switch stringId stringUsers in
  append_from TotalLocations (OSTR.locationName data) StringUserFlag.Location stringId stringUsers.

Definition stringUsed (data : OSTR.OSTR) (stringId userMask : Z) : outcome bool :=
  if (OSTR.scenarioName data =? stringId) || (OSTR.scenarioDescription data =? stringId)
  then Ret true else
  oor (used_in TotalForces (OSTR.forceName data) stringId) (
  oor (used_in Unit_TotalTypes (OSTR.unitName data) stringId) (
  oor (used_in Unit_TotalTypes (OSTR.expUnitName data) stringId) (
  oor (used_in TotalSounds (OSTR.soundPath data) stringId) (
  oor (used_in TotalSwitches (OSTR.switchName data) stringId) (
  used_in TotalLocations (OSTR.locationName data) stringId))))).

Definition markUsedStrings (data : OSTR.OSTR) (stringIdUsed : gset Z) (userMask : Z)
    : outcome (gset Z) :=
  let mark_array flag N ids bs :=
    if has_flag userMask flag then mark_from (fun v => negb (v =? 0)) N ids bs else Ret bs in
  let* bs :=
    if has_flag userMask StringUserFlag.ScenarioName && negb (OSTR.scenarioName data =? 0)
    then bs_set MaxStrings stringIdUsed (OSTR.scenarioName data) else Ret stringIdUsed in
  let* bs :=
    if has_flag userMask StringUserFlag.ScenarioDescription
         && negb (OSTR.scenarioDescription data =? 0)
    then bs_set MaxStrings bs (OSTR.scenarioDescription data) else Ret bs in
  let* bs := mark_array StringUserFlag.Force TotalForces (OSTR.forceName data) bs in
  let* bs := mark_array StringUserFlag.OriginalUnitSettings Unit_TotalTypes (OSTR.unitName data) bs in
  let* bs := mark_array StringUserFlag.ExpansionUnitSettings Unit_TotalTypes (OSTR.expUnitName data) bs in
  let* bs := mark_array StringUserFlag.Sound TotalSounds (OSTR.soundPath data) bs in
  let* bs := mark_array StringUserFlag.Switch TotalSwitches (OSTR.switchName data) bs in
  mark_array StringUserFlag.Location TotalLocations (OSTR.locationName data) bs.

Definition remapStringIds (data : OSTR.OSTR) (remappings : gmap Z Z) : outcome OSTR.OSTR :=
  let scenarioNameRemapping := remappings !! OSTR.scenarioName data in
  let scenarioDescriptionRemapping := remappings !! OSTR.scenarioDescription data in
  let* one := vget (OSTR.forceName data) 0 in
  let* two := vget (OSTR.forceName data) 1 in
  let* three := vget (OSTR.forceName data) 2 in
  let* four := vget (OSTR.forceName data) 3 in
  let data := match scenarioNameRemapping with
              | Some w => data <| OSTR.scenarioName := w |> | None => data end in
  let data := match scenarioDescriptionRemapping with
              | Some w => data <| OSTR.scenarioDescription := w |> | None => data end in
  let store i found l :=
    match found with Some w => vset l i w | None => Ret l end in
  let* l := store 0 (remappings !! one) (OSTR.forceName data) in
  let* l := store 1 (remappings !! two) l in
  let* l := store 2 (remappings !! three) l in
  let* l := store 3 (remappings !! four) l in
  let data := data <| OSTR.forceName := l |> in
  let* data := assign OSTR.unitName (remap_in id Unit_TotalTypes remappings (OSTR.unitName data)) data in
  let* data := assign OSTR.expUnitName (remap_in id Unit_TotalTypes remappings (OSTR.expUnitName data)) data in
  let* data := assign OSTR.soundPath (remap_in id TotalSounds remappings (OSTR.soundPath data)) data in
  let* data := assign OSTR.switchName (remap_in id TotalSwitches remappings (OSTR.switchName data)) data in
  assign OSTR.locationName (remap_in id TotalLocations remappings (OSTR.locationName data)) data.

Definition deleteString (data : OSTR.OSTR) (stringId : Z) : outcome OSTR.OSTR :=
  let data := if OSTR.scenarioName data =? stringId
              then data <| OSTR.scenarioName := 0 |> else data in
  let data := if OSTR.scenarioDescription data =? stringId
              then data <| OSTR.scenarioDescription := 0 |> else data in
  let* data := assign OSTR.forceName (delete_in TotalForces stringId (OSTR.forceName data)) data in
  let* data := assign OSTR.unitName (delete_in Unit_TotalTypes stringId (OSTR.unitName data)) data in
  let* data := assign OSTR.expUnitName (delete_in Unit_TotalTypes stringId (OSTR.expUnitName data)) data in
  let* data := assign OSTR.soundPath (delete_in TotalSounds stringId (OSTR.soundPath data)) data in
  let* data := assign OSTR.switchName (delete_in TotalSwitches stringId (OSTR.switchName data)) data in
  assign OSTR.locationName (delete_in TotalLocations stringId (OSTR.locationName data)) data.
End OstrSection.

(** ** What the loops compute *)

Definition remap1 (norm : Z -> Z) (remappings : gmap Z Z) (id : Z) : Z :=
  match remappings !! id with Some w => norm w | None => id end.
Definition clear1 (id v : Z) : Z := if v =? id then 0 else v.
Definition markable (v : Z) : bool := (0 <? v) && (v <? MaxStrings).
Definition ids_set (ids : list Z) : gset Z := list_to_set (filter markable ids).
Arguments ids_set : simpl never.

Lemma ids_set_cons v ids :
  ids_set (v :: ids) = (if markable v then {[v]} else ∅) ∪ ids_set ids.
Proof.
  unfold ids_set. rewrite filter_cons. destruct (markable v); cbn; [done | set_solver].
Qed.

Lemma ids_set_app ids ids' : ids_set (ids ++ ids') = ids_set ids ∪ ids_set ids'.
Proof. unfold ids_set. by rewrite filter_app, list_to_set_app_L. Qed.

Lemma elem_of_ids_set id ids : id ∈ ids_set ids <-> 0 < id < MaxStrings /\ id ∈ ids.
Proof.
  unfold ids_set. rewrite elem_of_list_to_set, list_elem_of_filter, Is_true_true.
  unfold markable. rewrite andb_true_iff, !Z.ltb_lt. tauto.
Qed.

(** The users of an array of ids, with the id each one holds. *)
Definition array_users (flag N : Z) (ids : list Z) : list (StringUser * Z) :=
  zip ((fun i => mkStringUser flag i 0) <$> range 0 N) ids.
Definition users_of (id : Z) (users : list (StringUser * Z)) : list StringUser :=
  fst <$> filter (fun p => p.2 = id) users.
Arguments users_of : simpl never.

Lemma users_of_app id us vs : users_of id (us ++ vs) = users_of id us ++ users_of id vs.
Proof. unfold users_of. by rewrite filter_app, fmap_app. Qed.

Lemma users_of_cons id u v users :
  users_of id ((u, v) :: users) = (if v =? id then [u] else []) ++ users_of id users.
Proof.
  unfold users_of. rewrite filter_cons. cbn.
  destruct (Z.eqb_spec v id); [by rewrite decide_True | by rewrite decide_False].
Qed.

Lemma array_users_ids flag N ids : zlen ids = N -> (array_users flag N ids).*2 = ids.
Proof.
  intros H. unfold array_users. rewrite snd_zip; [done|].
  rewrite length_fmap. rewrite ?range_seqZ. rewrite length_seqZ. unfold zlen in H. lia.
Qed.

Lemma array_users_map flag N ids (f : Z -> Z) :
  array_users flag N (f <$> ids) = prod_map id f <$> array_users flag N ids.
Proof.
  unfold array_users. generalize ((fun i => mkStringUser flag i 0) <$> range 0 N). intros us.
  revert us. induction ids as [|v ids IH]; intros [|u us]; cbn; f_equal; auto.
Qed.

Lemma used_in_spec N ids id : zlen ids = N -> used_in N ids id = Ret (bool_decide (id ∈ ids)).
Proof.
  intros HN. unfold used_in. rewrite (any_such_read (fun v => v =? id)) by done. f_equal.
  apply eq_true_iff_eq. rewrite existsb_exists, bool_decide_eq_true. split.
  - intros (x & Hx & ->%Z.eqb_eq). by apply list_elem_of_In.
  - intros H. exists id. split; [by apply list_elem_of_In | apply Z.eqb_refl].
Qed.

Lemma append_from_spec N ids flag id users : zlen ids = N ->
  append_from N ids flag id users = Ret (users ++ users_of id (array_users flag N ids)).
Proof.
  intros HN. unfold append_from, array_users. rewrite for_each_read by done.
  generalize (range 0 N) as r. intros r. clear HN. revert r users.
  induction ids as [|v ids IH]; intros [|i r] users; cbn;
    try (unfold users_of; simpl; by rewrite app_nil_r).
  rewrite users_of_cons. destruct (v =? id); cbn; rewrite IH; [by rewrite <- app_assoc | done].
Qed.

Lemma mark_from_spec guard N ids bs : zlen ids = N ->
  Forall (fun v => guard v = markable v) ids ->
  mark_from guard N ids bs = Ret (ids_set ids ∪ bs).
Proof.
  intros HN Hg. unfold mark_from. rewrite for_each_read by done.
  assert (Hlen : length (range 0 N) = length ids)
    by (rewrite ?range_seqZ; rewrite length_seqZ; unfold zlen in HN; lia).
  revert Hlen. generalize (range 0 N) as r. clear HN. revert bs.
  induction Hg as [|v ids Hv Hg IH]; intros bs [|i r] Hlen; try done; cbn.
  - unfold ids_set; cbn. f_equal. set_solver.
  - assert (Hr : length r = length ids) by (simpl in Hlen; lia).
    rewrite Hv, ids_set_cons. unfold bs_set, markable.
    destruct (Z.ltb_spec 0 v), (Z.ltb_spec v MaxStrings), (Z.leb_spec 0 v); try lia; cbn;
      rewrite IH by done; f_equal; set_solver.
Qed.

Lemma mark_from_undef guard N ids bs v : zlen ids = N -> v ∈ ids -> guard v = true ->
  v >= MaxStrings -> mark_from guard N ids bs = Undef.
Proof.
  intros HN Hin Hg Hv. unfold mark_from. rewrite for_each_read by done.
  assert (Hlen : length (range 0 N) = length ids)
    by (rewrite ?range_seqZ; rewrite length_seqZ; unfold zlen in HN; lia).
  revert Hlen. generalize (range 0 N) as r. clear HN. revert bs.
  induction ids as [|w ids IH]; intros bs [|i r] Hlen; try done; [by apply not_elem_of_nil in Hin|].
  assert (Hr : length r = length ids) by (simpl in Hlen; lia).
  cbn. apply elem_of_cons in Hin as [->|Hin].
  - rewrite Hg. unfold bs_set. by rewrite (proj2 (Z.ltb_ge _ _)), andb_false_r by lia.
  - destruct (guard w); cbn; [|by apply IH]. unfold bs_set.
    destruct ((0 <=? w) && (w <? MaxStrings)); cbn; [by apply IH | done].
Qed.

Lemma remap_in_spec norm N m ids : zlen ids = N ->
  remap_in norm N m ids = Ret (remap1 norm m <$> ids).
Proof.
  intros HN. unfold remap_in. apply for_each_update; [|done].
  intros i l v Hi Hv. rewrite (vget_Some _ _ v) by done. cbn. unfold remap1.
  destruct (m !! v); [|by rewrite list_insert_id].
  apply vset_in. apply lookup_lt_Some in Hv. unfold zlen. lia.
Qed.

Lemma delete_in_spec N id ids : zlen ids = N -> delete_in N id ids = Ret (clear1 id <$> ids).
Proof.
  intros HN. unfold delete_in. apply for_each_update; [|done].
  intros i l v Hi Hv. rewrite (vget_Some _ _ v) by done. cbn. unfold clear1.
  destruct (v =? id); [|by rewrite list_insert_id].
  apply vset_in. apply lookup_lt_Some in Hv. unfold zlen. lia.
Qed.

(** ** The interface *)

(** The string operations of a section, called with every user flag set. *)
Record StringUserOps (S : Type) := mkStringUserOps {
  op_stringUsed : S -> Z -> outcome bool;
  op_appendUsage : S -> Z -> list StringUser -> outcome (list StringUser);
  op_markUsedStrings : S -> gset Z -> outcome (gset Z);
  op_remapStringIds : S -> gmap Z Z -> outcome S;
  op_deleteString : S -> Z -> outcome S
}.
Arguments op_stringUsed {S}. Arguments op_appendUsage {S}. Arguments op_markUsedStrings {S}.
Arguments op_remapStringIds {S}. Arguments op_deleteString {S}.
Arguments mkStringUserOps {S}.

(** What a section promises, in terms of the users it has ([users s]: each
    user with its string id): [bits] is the width its ids are compared at,
    [marks] the condition under which marking stays inside of the bitset. *)
Class StringUserLaws {S} (wf : S -> Prop) (bits : Z) (users : S -> list (StringUser * Z))
    (marks : S -> Prop) (ops : StringUserOps S) : Prop := {
  law_stringUsed : forall s id, wf s -> is_u bits id ->
    op_stringUsed ops s id = Ret (bool_decide (id ∈ (users s).*2));
  law_appendUsage : forall s id us, wf s -> is_u bits id ->
    op_appendUsage ops s id us = Ret (us ++ users_of id (users s));
  law_markUsedStrings : forall s bs, wf s -> marks s ->
    op_markUsedStrings ops s bs = Ret (ids_set (users s).*2 ∪ bs);
  law_remapStringIds : forall s m, wf s -> map_Forall (fun _ w => is_u bits w) m ->
    exists s', op_remapStringIds ops s m = Ret s' /\ wf s' /\
      users s' = prod_map id (remap1 id m) <$> users s;
  law_deleteString : forall s id, wf s ->
    exists s', op_deleteString ops s id = Ret s' /\ wf s' /\
      users s' = prod_map Datatypes.id (clear1 id) <$> users s
}.

Lemma prod_map_snd {A} (f : Z -> Z) (l : list (A * Z)) :
  (prod_map id f <$> l).*2 = f <$> l.*2.
Proof. induction l as [|[a v] l IH]; cbn; [done | by rewrite IH]. Qed.

(** What the string tables rely on. *)
Definition DeleteContract {S} (wf : S -> Prop) (bits : Z) (ops : StringUserOps S) : Prop :=
  forall s id, wf s -> is_u bits id -> id <> 0 ->
    exists s', op_deleteString ops s id = Ret s' /\ wf s' /\
      op_stringUsed ops s' id = Ret false /\
      forall other, is_u bits other -> other <> 0 -> other <> id ->
        op_stringUsed ops s' other = op_stringUsed ops s other.

Definition MarkContract {S} (wf : S -> Prop) (bits : Z) (marks : S -> Prop)
    (ops : StringUserOps S) : Prop :=
  forall s bs, wf s -> marks s ->
    exists bs', op_markUsedStrings ops s bs = Ret bs' /\
      forall id, is_u bits id ->
        id ∈ bs' <-> id ∈ bs \/ (0 < id < MaxStrings /\ op_stringUsed ops s id = Ret true).

Definition RemapContract {S} (wf : S -> Prop) (bits : Z) (ops : StringUserOps S) : Prop :=
  forall s m, wf s -> map_Forall (fun _ w => is_u bits w) m ->
    exists s', op_remapStringIds ops s m = Ret s' /\ wf s' /\
      (forall id users, is_u bits id ->
        (forall v, is_u bits v -> remap1 Datatypes.id m v = remap1 Datatypes.id m id -> v = id) ->
        op_stringUsed ops s' (remap1 Datatypes.id m id) = op_stringUsed ops s id /\
        op_appendUsage ops s' (remap1 Datatypes.id m id) users = op_appendUsage ops s id users) /\
      forall w users, is_u bits w ->
        (op_stringUsed ops s' w = Ret true <->
           exists v, is_u bits v /\ remap1 Datatypes.id m v = w /\ op_stringUsed ops s v = Ret true) /\
        exists new, op_appendUsage ops s' w users = Ret (users ++ new) /\
          forall u, u ∈ new <-> exists v old, is_u bits v /\ remap1 Datatypes.id m v = w /\
            op_appendUsage ops s v users = Ret (users ++ old) /\ u ∈ old.

Definition UsageContract {S} (wf : S -> Prop) (bits : Z) (ops : StringUserOps S) : Prop :=
  forall s id us, wf s -> is_u bits id ->
    exists new used, op_appendUsage ops s id us = Ret (us ++ new) /\
      op_stringUsed ops s id = Ret used /\ (used = true <-> new <> []).

Section client.
Context {S : Type} (wf : S -> Prop) (bits : Z) (users : S -> list (StringUser * Z)).
Context (marks : S -> Prop) (ops : StringUserOps S).
Context `{!StringUserLaws wf bits users marks ops}.
Context (users_bits : forall s p, wf s -> p ∈ users s -> is_u bits p.2).

Lemma delete_contract : DeleteContract wf bits ops.
Proof.
  intros s id Hs Hid Hne. destruct (law_deleteString s id Hs) as (s' & Hd & Hs' & Hu).
  exists s'. split; [done|]. split; [done|].
  assert (Hids : forall v, v <> 0 -> v ∈ (users s').*2 <-> v <> id /\ v ∈ (users s).*2).
  { intros v Hv. rewrite Hu, prod_map_snd, list_elem_of_fmap. unfold clear1. split.
    - intros (y & Hy & Hin). destruct (Z.eqb_spec y id); subst; [congruence | done].
    - intros [Hvi Hin]. exists v. destruct (Z.eqb_spec v id); [congruence | done]. }
  split.
  - rewrite law_stringUsed by done. f_equal. apply bool_decide_eq_false.
    rewrite Hids by done. tauto.
  - intros other Ho Hz Hn. rewrite !law_stringUsed by done. f_equal.
    apply bool_decide_ext. rewrite Hids by done. tauto.
Qed.

Lemma mark_contract : MarkContract wf bits marks ops.
Proof.
  intros s bs Hs Hm. eexists. split; [by apply law_markUsedStrings|].
  intros id Hid. rewrite law_stringUsed by done. rewrite elem_of_union, elem_of_ids_set.
  destruct (bool_decide_reflect (id ∈ (users s).*2)); split; intros; destruct_or?; destruct_and?;
    try done; auto.
Qed.

(** The users of an id after a remapping are those of all ids that it was for. *)
Lemma remapped_users s s' m w us : wf s -> wf s' -> is_u bits w ->
  users s' = prod_map Datatypes.id (remap1 Datatypes.id m) <$> users s ->
  (op_stringUsed ops s' w = Ret true <->
     exists v, is_u bits v /\ remap1 Datatypes.id m v = w /\ op_stringUsed ops s v = Ret true) /\
  exists new, op_appendUsage ops s' w us = Ret (us ++ new) /\
    forall u, u ∈ new <-> exists v old, is_u bits v /\ remap1 Datatypes.id m v = w /\
      op_appendUsage ops s v us = Ret (us ++ old) /\ u ∈ old.
Proof.
  intros Hs Hs' Hw Hu. split.
  - rewrite law_stringUsed by done. rewrite Hu, prod_map_snd. split.
    + intros [= E]. apply bool_decide_eq_true, list_elem_of_fmap in E as (v & -> & Hv). exists v.
      assert (Hb : is_u bits v) by (apply list_elem_of_fmap in Hv as (p & -> & Hp); by apply (users_bits s)).
      split; [done|]. split; [done|]. rewrite law_stringUsed by done. by rewrite bool_decide_eq_true_2.
    + intros (v & Hb & <- & E). rewrite law_stringUsed in E by done. injection E as E. apply bool_decide_eq_true in E.
      f_equal. apply bool_decide_eq_true. apply list_elem_of_fmap. eauto.
  - eexists. split; [by apply law_appendUsage|]. intros u. rewrite Hu. unfold users_of.
    rewrite list_elem_of_fmap. split.
    + intros ([u' w'] & -> & [Ew Hin]%list_elem_of_filter). apply list_elem_of_fmap in Hin as ([u1 v] & [= -> ->] & Hp).
      assert (Hb : is_u bits v) by exact (users_bits s (_, v) Hs Hp). exists v. eexists. split; [done|]. split; [exact Ew|].
      split; [by apply law_appendUsage|]. unfold users_of. apply list_elem_of_fmap. exists (u1, v).
      split; [done|]. by apply list_elem_of_filter.
    + intros (v & old & Hb & Ev & E & Hin). rewrite law_appendUsage in E by done. injection E as E. apply app_inv_head in E. subst old.
      unfold users_of in Hin. apply list_elem_of_fmap in Hin as ([u1 v1] & -> & [E1 Hp]%list_elem_of_filter). cbn in E1. subst v1.
      exists (u1, w). split; [done|]. apply list_elem_of_filter. split; [done|]. apply list_elem_of_fmap. exists (u1, v).
      split; [|done]. cbn. by rewrite Ev.
Qed.

Lemma remap_contract : RemapContract wf bits ops.
Proof.
  intros s m Hs Hm. destruct (law_remapStringIds s m Hs Hm) as (s' & Hr & Hs' & Hu).
  exists s'. split; [done|]. split; [done|]. split; [|intros w us Hw; by apply remapped_users].
  intros id us Hid Hinj.
  assert (Hw : is_u bits (remap1 Datatypes.id m id)).
  { unfold remap1. destruct (m !! id) eqn:E; [|done]. by apply (Hm _ _ E). }
  assert (Hiff : forall p, p ∈ users s -> remap1 Datatypes.id m p.2 = remap1 Datatypes.id m id <-> p.2 = id).
  { intros p Hp. split; [|congruence]. apply Hinj. by apply (users_bits s p Hs Hp). }
  rewrite !law_stringUsed, !law_appendUsage by done. rewrite Hu. split; f_equal.
  - apply bool_decide_ext. rewrite prod_map_snd, !list_elem_of_fmap. split.
    + intros (v & Hv & (p & -> & Hp)%list_elem_of_fmap). exists p. split; [|done].
      symmetry. by apply Hiff.
    + intros (p & -> & Hp). exists p.2. split; [done|]. apply list_elem_of_fmap. eauto.
  - f_equal. clear Hu Hr. induction (users s) as [|[u v] l IH]; [done|].
    cbn. rewrite !users_of_cons, IH by (intros; apply Hiff; set_solver).
    f_equal. specialize (Hiff (u, v) ltac:(set_solver)). cbn in Hiff.
    destruct (Z.eqb_spec (remap1 Datatypes.id m v) (remap1 Datatypes.id m id)), (Z.eqb_spec v id); tauto.
Qed.

Lemma usage_contract : UsageContract wf bits ops.
Proof.
  intros s id us Hs Hid. rewrite law_appendUsage, law_stringUsed by done.
  eexists _, _. split; [done|]. split; [done|]. rewrite bool_decide_eq_true.
  induction (users s) as [|[u v] l IH]; cbn;
    [split; [by intros ?%not_elem_of_nil | done]|].
  rewrite users_of_cons. rewrite elem_of_cons, IH.
  destruct (Z.eqb_spec v id); cbn; split; intros; try tauto; try done.
  - left; congruence.
  - destruct_or?; [congruence | done].
Qed.
End client.

(** ** The sections discharge it *)

(** A section with one array of ids. *)
Section array_section.
Context {S : Type} (layout : codec S) (f : S -> list Z) `{!Updater f} (c : codec Z) (N bits : Z).
Context `{!Member layout f c N}.
Context (flag : Z) (cast cast' norm : Z -> Z) (guard : Z -> bool).
Context (c_bits : forall v, cwf c v <-> is_u bits v).
Context (cast_id : forall v, is_u bits v -> cast v = v).
Context (cast'_id : forall v, is_u bits v -> cast' v = v).
Context (norm_id : forall v, is_u bits v -> norm v = v).
Context (guard_ok : forall v, is_u bits v -> guard v = markable v).

Definition array_ops : StringUserOps S := mkStringUserOps
  (fun s id => used_in N (f s) (cast id))
  (fun s id us => append_from N (f s) flag (cast' id) us)
  (fun s bs => mark_from guard N (f s) bs)
  (fun s m => assign f (remap_in norm N m (f s)) s)
  (fun s id => assign f (delete_in N id (f s)) s).

Lemma array_upd s (g : Z -> Z) : cwf layout s -> (forall v, is_u bits v -> is_u bits (g v)) ->
  cwf layout (s <| f := g <$> f s |>).
Proof.
  intros Hs Hg. destruct (member_wf s Hs) as [Hl Hf].
  apply member_upd; [done | by rewrite length_fmap|].
  apply Forall_fmap. eapply Forall_impl; [exact Hf|]. intros v Hv. apply c_bits, Hg, c_bits, Hv.
Qed.

Lemma array_laws : StringUserLaws (cwf layout) bits (fun s => array_users flag N (f s))
  (fun _ => True) array_ops.
Proof.
  split; cbn.
  - intros s id Hs Hid. assert (HN := member_zlen layout f c N s Hs).
    rewrite used_in_spec, cast_id by done. f_equal. by rewrite array_users_ids.
  - intros s id us Hs Hid. rewrite cast'_id by done. apply append_from_spec.
    by apply (member_zlen layout f c).
  - intros s bs Hs _. assert (HN := member_zlen layout f c N s Hs).
    rewrite array_users_ids by done. apply mark_from_spec; [done|].
    destruct (member_wf s Hs) as [_ Hf]. eapply Forall_impl; [exact Hf|].
    intros v Hv. by apply guard_ok, c_bits.
  - intros s m Hs Hm. assert (HN := member_zlen layout f c N s Hs). unfold assign.
    assert (E : remap1 norm m <$> f s = remap1 id m <$> f s).
    { apply list_fmap_ext. intros i v _. unfold remap1.
      destruct (m !! v) eqn:Ev; [|done]. apply norm_id. by apply (Hm _ _ Ev). }
    rewrite remap_in_spec by done. cbn. eexists. split; [done|].
    rewrite E. split.
    + apply array_upd; [done|]. intros v Hv. unfold remap1.
      destruct (m !! v) eqn:Ev; [by apply (Hm _ _ Ev) | done].
    + by rewrite upd_get, array_users_map.
  - intros s id Hs. assert (HN := member_zlen layout f c N s Hs). unfold assign.
    rewrite delete_in_spec by done. cbn. eexists. split; [done|]. split.
    + apply array_upd; [done|]. intros v Hv. unfold clear1, is_u in *. destruct (v =? id); lia.
    + by rewrite upd_get, array_users_map.
Qed.

Lemma array_users_bits s p : cwf layout s -> p ∈ array_users flag N (f s) -> is_u bits p.2.
Proof.
  intros Hs Hp. destruct (member_wf s Hs) as [_ Hf]. apply c_bits.
  rewrite Forall_forall in Hf. apply Hf.
  rewrite <- (array_users_ids flag N (f s)) by (by apply (member_zlen layout f c)).
  apply list_elem_of_fmap. by exists p.
Qed.
End array_section.

(** Operations that agree on well-formed structures obey the same laws. *)
Lemma laws_ext {S} (wf : S -> Prop) bits users marks (ops ops' : StringUserOps S) :
  StringUserLaws wf bits users marks ops ->
  (forall s id, wf s -> op_stringUsed ops' s id = op_stringUsed ops s id) ->
  (forall s id us, wf s -> op_appendUsage ops' s id us = op_appendUsage ops s id us) ->
  (forall s bs, wf s -> op_markUsedStrings ops' s bs = op_markUsedStrings ops s bs) ->
  (forall s m, wf s -> op_remapStringIds ops' s m = op_remapStringIds ops s m) ->
  (forall s id, wf s -> op_deleteString ops' s id = op_deleteString ops s id) ->
  StringUserLaws wf bits users marks ops'.
Proof.
  intros [L1 L2 L3 L4 L5] E1 E2 E3 E4 E5.
  split; intros; rewrite ?E1, ?E2, ?E3, ?E4, ?E5 by done; auto.
Qed.

#[export] Instance forc_string_member : Member FORC.layout FORC.forceString u16c TotalForces.
Proof. solve_member. Qed.
#[export] Instance wav_member : Member WAV.layout WAV.soundPathStringId u32c TotalSounds.
Proof. solve_member. Qed.
#[export] Instance swnm_member : Member SWNM.layout SWNM.switchName u32c TotalSwitches.
Proof. solve_member. Qed.
#[export] Instance unis_name_member : Member UNIS.layout UNIS.nameStringId u16c Unit_TotalTypes.
Proof. solve_member. Qed.
#[export] Instance unix_name_member : Member UNIx.layout UNIx.nameStringId u16c Unit_TotalTypes.
Proof. solve_member. Qed.

Definition forc_ops : StringUserOps FORC.FORC := mkStringUserOps
  ForcSection.stringUsed ForcSection.appendUsage ForcSection.markUsedStrings
  ForcSection.remapStringIds ForcSection.deleteString.
Definition wav_ops : StringUserOps WAV.WAV := mkStringUserOps
  WavSection.stringUsed WavSection.appendUsage WavSection.markUsedStrings
  WavSection.remapStringIds WavSection.deleteString.
Definition swnm_ops : StringUserOps SWNM.SWNM := mkStringUserOps
  SwnmSection.stringUsed SwnmSection.appendUsage SwnmSection.markUsedStrings
  SwnmSection.remapStringIds SwnmSection.deleteString.
Definition unis_ops : StringUserOps UNIS.UNIS := mkStringUserOps
  UnisNames.stringUsed UnisNames.appendUsage UnisNames.markUsedStrings
  UnisNames.remapStringIds UnisNames.deleteString.
Definition unix_ops : StringUserOps UNIx.UNIx := mkStringUserOps
  UnixNames.stringUsed UnixNames.appendUsage UnixNames.markUsedStrings
  UnixNames.remapStringIds UnixNames.deleteString.
Definition sprp_ops : StringUserOps SPRP.SPRP := mkStringUserOps
  (fun s id => Ret (SprpSection.stringUsed s id StringUserFlag.All))
  (fun s id us => Ret (SprpSection.appendUsage s id us StringUserFlag.All))
  (fun s bs => SprpSection.markUsedStrings s bs StringUserFlag.All)
  (fun s m => Ret (SprpSection.remapStringIds s m))
  (fun s id => Ret (SprpSection.deleteString s id)).
Definition ostr_ops : StringUserOps OSTR.OSTR := mkStringUserOps
  (fun s id => OstrSection.stringUsed s id StringUserFlag.All)
  (fun s id us => OstrSection.appendUsage s id us StringUserFlag.All)
  (fun s bs => OstrSection.markUsedStrings s bs StringUserFlag.All)
  OstrSection.remapStringIds OstrSection.deleteString.

Definition forc_users (s : FORC.FORC) := array_users StringUserFlag.Force TotalForces (FORC.forceString s).
Definition wav_users (s : WAV.WAV) := array_users StringUserFlag.Sound TotalSounds (WAV.soundPathStringId s).
Definition swnm_users (s : SWNM.SWNM) := array_users StringUserFlag.Switch TotalSwitches (SWNM.switchName s).
Definition unis_users (s : UNIS.UNIS) :=
  array_users StringUserFlag.OriginalUnitSettings Unit_TotalTypes (UNIS.nameStringId s).
Definition unix_users (s : UNIx.UNIx) :=
  array_users StringUserFlag.ExpansionUnitSettings Unit_TotalTypes (UNIx.nameStringId s).
Definition sprp_users (s : SPRP.SPRP) : list (StringUser * Z) :=
  [(mkStringUser StringUserFlag.ScenarioName 0 0, SPRP.scenarioNameStringId s);
   (mkStringUser StringUserFlag.ScenarioDescription 0 0, SPRP.scenarioDescriptionStringId s)].

Lemma u16c_bits v : cwf u16c v <-> is_u 16 v.
Proof. reflexivity. Qed.
Lemma u32c_bits v : cwf u32c v <-> is_u 32 v.
Proof. reflexivity. Qed.

Lemma guard16 v : is_u 16 v -> (v >? 0) = markable v.
Proof.
  unfold is_u, markable, MaxStrings. change (2 ^ 16) with 65536. intros Hv.
  rewrite (proj2 (Z.ltb_lt v 65536)), andb_true_r by lia. by rewrite Z.gtb_ltb.
Qed.
Lemma guard_ne bits v : is_u bits v -> negb (v =? 0) = (v >? 0).
Proof.
  intros [Hv _]. destruct (Z.eqb_spec v 0) as [->|Hne]; [done|]. cbn. symmetry.
  apply Z.gtb_lt. lia.
Qed.
Lemma guard32 v : is_u 32 v -> (v >? 0) && (v <? MaxStrings) = markable v.
Proof. intros _. unfold markable. by rewrite Z.gtb_ltb. Qed.

#[export] Instance wav_laws :
  StringUserLaws (cwf WAV.layout) 32 wav_users (fun _ => True) wav_ops.
Proof.
  exact (array_laws WAV.layout WAV.soundPathStringId u32c TotalSounds 32 _ u32 id u32 _
    u32c_bits u32_id (fun v _ => eq_refl) u32_id (fun v Hv => eq_trans (f_equal (fun b => b && (v <? MaxStrings)) (guard_ne 32 v Hv)) (guard32 v Hv))).
Qed.
#[export] Instance swnm_laws :
  StringUserLaws (cwf SWNM.layout) 32 swnm_users (fun _ => True) swnm_ops.
Proof.
  exact (array_laws SWNM.layout SWNM.switchName u32c TotalSwitches 32 _ u32 id u32 _
    u32c_bits u32_id (fun v _ => eq_refl) u32_id guard32).
Qed.
#[export] Instance unis_laws :
  StringUserLaws (cwf UNIS.layout) 16 unis_users (fun _ => True) unis_ops.
Proof.
  exact (array_laws UNIS.layout UNIS.nameStringId u16c Unit_TotalTypes 16 _ u16 u16 u16 _
    u16c_bits u16_id u16_id u16_id guard16).
Qed.
#[export] Instance unix_laws :
  StringUserLaws (cwf UNIx.layout) 16 unix_users (fun _ => True) unix_ops.
Proof.
  exact (array_laws UNIx.layout UNIx.nameStringId u16c Unit_TotalTypes 16 _ u16 u16 u16 _
    u16c_bits u16_id u16_id u16_id guard16).
Qed.

(** FORC and OSTR spell the four forces out instead of looping. *)
Lemma four_slots (l : list Z) : zlen l = TotalForces -> exists a b c d, l = [a; b; c; d].
Proof. destruct l as [|a [|b [|c [|d [|]]]]]; try done; [eauto|]. rewrite !zlen_cons. pose proof (zlen_nonneg l). unfold TotalForces. lia. Qed.

Ltac vget4 a b c d :=
  change (vget [a; b; c; d] 0) with (Ret a); change (vget [a; b; c; d] 1) with (Ret b);
  change (vget [a; b; c; d] 2) with (Ret c); change (vget [a; b; c; d] 3) with (Ret d);
  cbn [obind].

(** [auto one = find(l[0]); ...; if ( one != end ) l[0] = one->second; ...] *)
Lemma four_slots_remap {B} norm (m : gmap Z Z) a b c d (k : list Z -> outcome B) :
  (let store i (found : option Z) l :=
     match found with Some w => vset l i (norm w) | None => Ret l end in
   let* l := store 0 (m !! a) [a; b; c; d] in
   let* l := store 1 (m !! b) l in
   let* l := store 2 (m !! c) l in
   let* l := store 3 (m !! d) l in k l) = k (remap1 norm m <$> [a; b; c; d]).
Proof.
  cbn. unfold remap1. by destruct (m !! a), (m !! b), (m !! c), (m !! d).
Qed.

#[export] Instance forc_laws :
  StringUserLaws (cwf FORC.layout) 16 forc_users (fun _ => True) forc_ops.
Proof.
  refine (laws_ext _ _ _ _ _ _ (array_laws FORC.layout FORC.forceString u16c TotalForces 16
    StringUserFlag.Force u16 id u16 (fun v => negb (v =? 0)) u16c_bits u16_id (fun v _ => eq_refl) u16_id
    (fun v Hv => eq_trans (guard_ne 16 v Hv) (guard16 v Hv))) _ _ _ _ _); try reflexivity.
  - intros s id Hs. assert (HN := member_zlen FORC.layout FORC.forceString u16c TotalForces s Hs).
    cbn [op_stringUsed forc_ops array_ops]. unfold ForcSection.stringUsed.
    rewrite used_in_spec by done.
    destruct (four_slots _ HN) as (a & b & c & d & ->). vget4 a b c d. rewrite !oor_ret.
    f_equal. apply eq_true_iff_eq.
    rewrite !orb_true_iff, !Z.eqb_eq, bool_decide_eq_true, !elem_of_cons, elem_of_nil.
    rewrite !(Z.eq_sym_iff (u16 id)). tauto.
  - intros s m Hs. assert (HN := member_zlen FORC.layout FORC.forceString u16c TotalForces s Hs).
    cbn [op_remapStringIds forc_ops array_ops]. unfold ForcSection.remapStringIds, assign.
    rewrite remap_in_spec by done.
    destruct (four_slots _ HN) as (a & b & c & d & ->). vget4 a b c d.
    exact (four_slots_remap u16 m a b c d (fun l => Ret (s <| FORC.forceString := l |>))).
Qed.

(** Every flag is in [All]. *)
Ltac all_flags :=
  repeat match goal with
  | |- context [has_flag StringUserFlag.All ?x] =>
      change (has_flag StringUserFlag.All x) with true
  | H : context [has_flag StringUserFlag.All ?x] |- _ =>
      change (has_flag StringUserFlag.All x) with true in H
  end; cbn [andb] in *.

(** One id held outside of an array. *)
Lemma mark_one guard v bs : guard = markable v ->
  (if guard then bs_set MaxStrings bs v else Ret bs) = Ret (ids_set [v] ∪ bs).
Proof.
  intros ->. rewrite ids_set_cons. unfold bs_set, markable. change (ids_set []) with (∅ : gset Z).
  destruct (Z.ltb_spec 0 v), (Z.ltb_spec v MaxStrings), (Z.leb_spec 0 v); try lia; cbn;
    f_equal; set_solver.
Qed.

#[export] Instance sprp_laws :
  StringUserLaws (cwf SPRP.layout) 16 sprp_users (fun _ => True) sprp_ops.
Proof.
  split; intros [n d]; cbn [sprp_ops op_stringUsed op_appendUsage op_markUsedStrings
    op_remapStringIds op_deleteString].
  - intros id _ Hid. unfold SprpSection.stringUsed.
    all_flags. rewrite u16_id by done. f_equal. cbn.
    apply eq_true_iff_eq.
    rewrite orb_true_iff, !Z.eqb_eq, bool_decide_eq_true, !elem_of_cons, elem_of_nil.
    rewrite !(Z.eq_sym_iff id). tauto.
  - intros id us _ Hid. unfold SprpSection.appendUsage.
    all_flags. rewrite u16_id by done.
    unfold sprp_users. rewrite !users_of_cons. cbn [andb].
    change (users_of id []) with (@nil StringUser).
    by destruct (n =? id) eqn:En, (d =? id) eqn:Ed; cbn; rewrite En, Ed, ?app_nil_r, <- ?app_assoc.
  - intros bs [Hn Hd] _. unfold SprpSection.markUsedStrings.
    all_flags. cbn [andb SPRP.scenarioNameStringId SPRP.scenarioDescriptionStringId].
    rewrite mark_one by (by apply guard16). cbn [obind].
    rewrite mark_one by (by apply guard16). f_equal. cbn. rewrite !ids_set_cons.
    change (ids_set []) with (∅ : gset Z). set_solver.
  - intros m [Hn Hd] Hm. eexists. split; [reflexivity|].
    unfold SprpSection.remapStringIds. cbn. unfold remap1.
    destruct (m !! n) eqn:En, (m !! d) eqn:Ed; cbn; rewrite ?u16_id; eauto.
  - intros id [Hn Hd]. eexists. split; [reflexivity|].
    unfold SprpSection.deleteString, clear1, prod_map; cbn in *.
    destruct (n =? id) eqn:En; cbn; destruct (d =? id) eqn:Ed; cbn; done.
Qed.

(** OSTR holds two ids and six arrays of ids. *)
#[export] Instance ostr_forceName_member : Member OSTR.layout OSTR.forceName u32c TotalForces.
Proof. solve_member. Qed.
#[export] Instance ostr_unitName_member : Member OSTR.layout OSTR.unitName u32c Unit_TotalTypes.
Proof. solve_member. Qed.
#[export] Instance ostr_expUnitName_member : Member OSTR.layout OSTR.expUnitName u32c Unit_TotalTypes.
Proof. solve_member. Qed.
#[export] Instance ostr_soundPath_member : Member OSTR.layout OSTR.soundPath u32c TotalSounds.
Proof. solve_member. Qed.
#[export] Instance ostr_switchName_member : Member OSTR.layout OSTR.switchName u32c TotalSwitches.
Proof. solve_member. Qed.
#[export] Instance ostr_locationName_member : Member OSTR.layout OSTR.locationName u32c TotalLocations.
Proof. solve_member. Qed.

Definition ostr_users (s : OSTR.OSTR) : list (StringUser * Z) :=
  [(mkStringUser StringUserFlag.ScenarioName 0 0, OSTR.scenarioName s);
   (mkStringUser StringUserFlag.ScenarioDescription 0 0, OSTR.scenarioDescription s)] ++
  array_users StringUserFlag.Force TotalForces (OSTR.forceName s) ++
  array_users StringUserFlag.OriginalUnitSettings Unit_TotalTypes (OSTR.unitName s) ++
  array_users StringUserFlag.ExpansionUnitSettings Unit_TotalTypes (OSTR.expUnitName s) ++
  array_users StringUserFlag.Sound TotalSounds (OSTR.soundPath s) ++
  array_users StringUserFlag.Switch TotalSwitches (OSTR.switchName s) ++
  array_users StringUserFlag.Location TotalLocations (OSTR.locationName s).

(** Every id is below the size of the bitset. *)
Definition ostr_markable (s : OSTR.OSTR) : Prop := Forall (fun p => p.2 < MaxStrings) (ostr_users s).

Lemma ostr_lens s : cwf OSTR.layout s ->
  zlen (OSTR.forceName s) = TotalForces /\
  zlen (OSTR.unitName s) = Unit_TotalTypes /\
  zlen (OSTR.expUnitName s) = Unit_TotalTypes /\
  zlen (OSTR.soundPath s) = TotalSounds /\
  zlen (OSTR.switchName s) = TotalSwitches /\
  zlen (OSTR.locationName s) = TotalLocations.
Proof.
  intros Hs.
  pose proof (member_zlen OSTR.layout OSTR.forceName u32c TotalForces s Hs).
  pose proof (member_zlen OSTR.layout OSTR.unitName u32c Unit_TotalTypes s Hs).
  pose proof (member_zlen OSTR.layout OSTR.expUnitName u32c Unit_TotalTypes s Hs).
  pose proof (member_zlen OSTR.layout OSTR.soundPath u32c TotalSounds s Hs).
  pose proof (member_zlen OSTR.layout OSTR.switchName u32c TotalSwitches s Hs).
  pose proof (member_zlen OSTR.layout OSTR.locationName u32c TotalLocations s Hs).
  tauto.
Qed.

Lemma ostr_ids s : cwf OSTR.layout s -> (ostr_users s).*2 =
  [OSTR.scenarioName s; OSTR.scenarioDescription s] ++ OSTR.forceName s ++ OSTR.unitName s ++
  OSTR.expUnitName s ++ OSTR.soundPath s ++ OSTR.switchName s ++ OSTR.locationName s.
Proof.
  intros Hs. destruct (ostr_lens s Hs) as (H1 & H2 & H3 & H4 & H5 & H6).
  unfold ostr_users. rewrite !fmap_app, !array_users_ids by done. done.
Qed.

Lemma ostr_wf_ids s : cwf OSTR.layout s -> Forall (is_u 32) (ostr_users s).*2.
Proof.
  intros Hs. rewrite ostr_ids by done. destruct s. cbn in Hs. destruct_and?.
  rewrite !Forall_app, Forall_cons, Forall_singleton. split_and!; assumption.
Qed.

Lemma ostr_used s id : cwf OSTR.layout s ->
  OstrSection.stringUsed s id StringUserFlag.All = Ret (bool_decide (id ∈ (ostr_users s).*2)).
Proof.
  intros Hs. destruct (ostr_lens s Hs) as (H1 & H2 & H3 & H4 & H5 & H6).
  rewrite ostr_ids by done. unfold OstrSection.stringUsed.
  rewrite !used_in_spec, !oor_ret by done.
  assert (E : forall b c : bool, (if b then Ret true else Ret c) = Ret (b || c)) by (by intros []).
  rewrite E. f_equal. apply eq_true_iff_eq.
  rewrite !orb_true_iff, !Z.eqb_eq, !bool_decide_eq_true, !elem_of_app, !elem_of_cons, elem_of_nil.
  rewrite !(Z.eq_sym_iff id). tauto.
Qed.

Lemma ostr_append s id us : cwf OSTR.layout s ->
  OstrSection.appendUsage s id us StringUserFlag.All = Ret (us ++ users_of id (ostr_users s)).
Proof.
  intros Hs. destruct (ostr_lens s Hs) as (H1 & H2 & H3 & H4 & H5 & H6).
  unfold OstrSection.appendUsage.
  do 5 (rewrite append_from_spec by done; cbn [obind]). rewrite append_from_spec by done.
  unfold ostr_users. rewrite !users_of_app, !users_of_cons.
  change (users_of id []) with (@nil StringUser).
  destruct (OSTR.scenarioName s =? id), (OSTR.scenarioDescription s =? id); cbn;
    by rewrite <- ?app_assoc.
Qed.

Lemma ostr_mark s bs : cwf OSTR.layout s -> ostr_markable s ->
  OstrSection.markUsedStrings s bs StringUserFlag.All = Ret (ids_set (ostr_users s).*2 ∪ bs).
Proof.
  intros Hs Hm. destruct (ostr_lens s Hs) as (H1 & H2 & H3 & H4 & H5 & H6).
  assert (Hg : Forall (fun v => negb (v =? 0) = markable v) (ostr_users s).*2).
  { assert (Hw := ostr_wf_ids s Hs). rewrite Forall_fmap in Hw.
    apply Forall_fmap. eapply Forall_impl; [apply Forall_and; split; [exact Hm | exact Hw]|].
    intros p [Hlt Hu]. cbn in *. rewrite (guard_ne 32) by done. unfold markable.
      by rewrite (proj2 (Z.ltb_lt _ _) Hlt), andb_true_r, Z.gtb_ltb. }
  rewrite ostr_ids in * by done. rewrite !Forall_app, Forall_cons, Forall_singleton in Hg.
  destruct Hg as ([G0 G0'] & G1 & G2 & G3 & G4 & G5 & G6).
  unfold OstrSection.markUsedStrings.
  all_flags.
  rewrite mark_one by done. cbn [obind]. rewrite mark_one by done. cbn [obind].
  do 5 (rewrite mark_from_spec by done; cbn [obind]). rewrite mark_from_spec by done.
  rewrite !ids_set_app, !ids_set_cons. change (ids_set []) with (∅ : gset Z). f_equal. set_solver.
Qed.

(** One more array was rewritten pointwise. *)
Lemma ostr_array_step (f : OSTR.OSTR -> list Z) `{!Updater f} N `{!Member OSTR.layout f u32c N} g s :
  cwf OSTR.layout s -> (forall v, is_u 32 v -> is_u 32 (g v)) ->
  cwf OSTR.layout (s <| f := g <$> f s |>).
Proof. intros. by eapply (array_upd OSTR.layout f u32c N 32). Qed.

(** The pointwise rewriting of every id. *)
Definition ostr_map (g : Z -> Z) (s : OSTR.OSTR) : OSTR.OSTR :=
  OSTR.mkOSTR (OSTR.version s) (g (OSTR.scenarioName s)) (g (OSTR.scenarioDescription s))
    (g <$> OSTR.forceName s) (g <$> OSTR.unitName s) (g <$> OSTR.expUnitName s)
    (g <$> OSTR.soundPath s) (g <$> OSTR.switchName s) (g <$> OSTR.locationName s).

Lemma ostr_map_ok g s : cwf OSTR.layout s -> (forall v, is_u 32 v -> is_u 32 (g v)) ->
  cwf OSTR.layout (ostr_map g s) /\ ostr_users (ostr_map g s) = prod_map id g <$> ostr_users s.
Proof.
  intros Hs Hg. split.
  - destruct s. cbn in Hs. destruct_and?.
    cbn. rewrite !length_fmap. split_and!; auto;
      (apply Forall_fmap; eapply Forall_impl; [eassumption | intros v Hv; by apply Hg]).
  - unfold ostr_users. rewrite !fmap_app. cbn [ostr_map]. destruct s; cbn [ostr_map OSTR.forceName
      OSTR.unitName OSTR.expUnitName OSTR.soundPath OSTR.switchName OSTR.locationName].
    by rewrite !array_users_map.
Qed.

Lemma ostr_remap s m : cwf OSTR.layout s ->
  OstrSection.remapStringIds s m = Ret (ostr_map (remap1 id m) s).
Proof.
  intros Hs. destruct (ostr_lens s Hs) as (H1 & H2 & H3 & H4 & H5 & H6).
  unfold OstrSection.remapStringIds.
  destruct (four_slots _ H1) as (a & b & c & d & E). destruct s as [ver n ds fs us es ss ws ls].
  cbn [OSTR.forceName OSTR.unitName OSTR.expUnitName OSTR.soundPath OSTR.switchName OSTR.locationName
    OSTR.scenarioName OSTR.scenarioDescription] in *. subst fs. vget4 a b c d.
  unfold ostr_map. cbn [OSTR.forceName OSTR.unitName OSTR.expUnitName OSTR.soundPath OSTR.switchName
    OSTR.locationName OSTR.scenarioName OSTR.scenarioDescription OSTR.version].
  assert (En : remap1 id m n = match m !! n with Some w => w | None => n end) by done.
  assert (Ed : remap1 id m ds = match m !! ds with Some w => w | None => ds end) by done.
  rewrite En, Ed.
  destruct (m !! n), (m !! ds); cbn [upd OSTR.upd_scenarioName OSTR.upd_scenarioDescription
    OSTR.forceName OSTR.unitName OSTR.expUnitName OSTR.soundPath OSTR.switchName
    OSTR.locationName OSTR.scenarioName OSTR.scenarioDescription OSTR.version];
    (etransitivity; [exact (four_slots_remap id m a b c d _)|]); unfold assign; cbn -[remap_in remap1];
    do 5 (rewrite remap_in_spec by done; cbn -[remap_in remap1]); reflexivity.
Qed.

Lemma ostr_delete s id : cwf OSTR.layout s ->
  OstrSection.deleteString s id = Ret (ostr_map (clear1 id) s).
Proof.
  intros Hs. destruct (ostr_lens s Hs) as (H1 & H2 & H3 & H4 & H5 & H6).
  unfold OstrSection.deleteString, ostr_map, assign. destruct s as [ver n ds fs us es ss ws ls].
  cbn [OSTR.forceName OSTR.unitName OSTR.expUnitName OSTR.soundPath OSTR.switchName OSTR.locationName
    OSTR.scenarioName OSTR.scenarioDescription OSTR.version] in *.
  assert (En : clear1 id n = if n =? id then 0 else n) by done.
  assert (Ed : clear1 id ds = if ds =? id then 0 else ds) by done.
  rewrite En, Ed.
  destruct (n =? id), (ds =? id) eqn:Es; cbn -[delete_in clear1 Z.eqb]; rewrite Es;
    cbn -[delete_in clear1 Z.eqb];
    do 6 (rewrite delete_in_spec by done; cbn -[delete_in clear1]); reflexivity.
Qed.

#[export] Instance ostr_laws :
  StringUserLaws (cwf OSTR.layout) 32 ostr_users ostr_markable ostr_ops.
Proof.
  split; cbn [ostr_ops op_stringUsed op_appendUsage op_markUsedStrings op_remapStringIds op_deleteString].
  - intros s id Hs _. by apply ostr_used.
  - intros s id us Hs _. by apply ostr_append.
  - apply ostr_mark.
  - intros s m Hs Hm. rewrite ostr_remap by done. eexists; split; [done|].
    apply ostr_map_ok; [done|]. intros v Hv. unfold remap1.
    destruct (m !! v) eqn:E; [by apply (Hm _ _ E) | done].
  - intros s id Hs. rewrite ostr_delete by done. eexists; split; [done|].
    apply ostr_map_ok; [done|]. intros v Hv. unfold clear1, is_u in *. destruct (v =? id); lia.
Qed.

(** ** Properties *)

Lemma sprp_users_bits s p : cwf SPRP.layout s -> p ∈ sprp_users s -> is_u 16 p.2.
Proof.
  destruct s as [n d]. intros [Hn Hd]. unfold sprp_users. rewrite !elem_of_cons, elem_of_nil.
  intros [->|[->|[]]]; assumption.
Qed.

Lemma ostr_users_bits s p : cwf OSTR.layout s -> p ∈ ostr_users s -> is_u 32 p.2.
Proof.
  intros Hs Hp. assert (Hw := ostr_wf_ids s Hs). rewrite Forall_fmap, Forall_forall in Hw.
  exact (Hw p Hp).
Qed.

(** After [deleteString(id)] of a non-zero id the section no longer uses
    the string, stays well formed and uses every other string as before, for
    each of the seven sections. *)
Theorem string_delete_contract :
  DeleteContract (cwf SPRP.layout) 16 sprp_ops /\ DeleteContract (cwf FORC.layout) 16 forc_ops /\
  DeleteContract (cwf WAV.layout) 32 wav_ops /\ DeleteContract (cwf SWNM.layout) 32 swnm_ops /\
  DeleteContract (cwf UNIS.layout) 16 unis_ops /\ DeleteContract (cwf UNIx.layout) 16 unix_ops /\
  DeleteContract (cwf OSTR.layout) 32 ostr_ops.
Proof. split_and!; eapply delete_contract; apply _. Qed.

(** [markUsedStrings] marks exactly the non-zero ids below [MaxStrings]
    for which [stringUsed] holds; for OSTR under the condition that every id
    it holds is below [MaxStrings]. *)
Theorem string_mark_contract :
  MarkContract (cwf SPRP.layout) 16 (fun _ => True) sprp_ops /\
  MarkContract (cwf FORC.layout) 16 (fun _ => True) forc_ops /\
  MarkContract (cwf WAV.layout) 32 (fun _ => True) wav_ops /\
  MarkContract (cwf SWNM.layout) 32 (fun _ => True) swnm_ops /\
  MarkContract (cwf UNIS.layout) 16 (fun _ => True) unis_ops /\
  MarkContract (cwf UNIx.layout) 16 (fun _ => True) unix_ops /\
  MarkContract (cwf OSTR.layout) 32 ostr_markable ostr_ops.
Proof. split_and!; eapply mark_contract; apply _. Qed.

(** C24: [remapStringIds] renames users, for each of the seven sections and every
    map of ids that fit the section: afterwards an id is used exactly when some id
    that is renamed to it (or is it and has no entry) was used, and its users are
    the users of all these ids.  So an id that is renamed to one in use joins its
    users, and an id that alone is renamed to its new id keeps its users in
    their order. *)
Theorem string_remap_contract :
  RemapContract (cwf SPRP.layout) 16 sprp_ops /\ RemapContract (cwf FORC.layout) 16 forc_ops /\
  RemapContract (cwf WAV.layout) 32 wav_ops /\ RemapContract (cwf SWNM.layout) 32 swnm_ops /\
  RemapContract (cwf UNIS.layout) 16 unis_ops /\ RemapContract (cwf UNIx.layout) 16 unix_ops /\
  RemapContract (cwf OSTR.layout) 32 ostr_ops.
Proof.
  split_and!; eapply remap_contract; try apply _; intros s p.
  - apply sprp_users_bits.
  - apply (array_users_bits FORC.layout FORC.forceString u16c TotalForces 16 _ u16c_bits).
  - apply (array_users_bits WAV.layout WAV.soundPathStringId u32c TotalSounds 32 _ u32c_bits).
  - apply (array_users_bits SWNM.layout SWNM.switchName u32c TotalSwitches 32 _ u32c_bits).
  - apply (array_users_bits UNIS.layout UNIS.nameStringId u16c Unit_TotalTypes 16 _ u16c_bits).
  - apply (array_users_bits UNIx.layout UNIx.nameStringId u16c Unit_TotalTypes 16 _ u16c_bits).
  - apply ostr_users_bits.
Qed.

(** Renaming string 3 to 5, which is in use as well: 5 has the users of both. *)
Definition remap_sample : FORC.FORC := FORC.mkFORC (replicate 8 0) [3; 5; 0; 0] (replicate 4 0).

Lemma string_remap_contract_witness : exists s', ForcSection.remapStringIds remap_sample {[3 := 5]} = Ret s' /\
  ForcSection.stringUsed s' 5 = Ret true /\ ForcSection.stringUsed s' 3 <> Ret true.
Proof.
  destruct (proj1 (proj2 string_remap_contract) remap_sample {[3 := 5]}) as (s' & E & _ & _ & Hu).
  - solve_default.
  - by apply map_Forall_singleton.
  - exists s'. split; [exact E|]. split.
    + apply (Hu 5 []); [done|]. exists 3. split; [done|]. by split.
    + intros H. apply (Hu 3 []) in H; [|done]. destruct H as (v & _ & Hv & Hused). unfold remap1 in Hv.
      destruct (decide (v = 3)) as [->|Hne]; [by rewrite lookup_singleton_eq in Hv|].
      rewrite lookup_singleton_ne in Hv by done. done.
Defined.

(** [appendUsage] only appends, and appends some user exactly when
    [stringUsed] holds. *)
Theorem string_usage_contract :
  UsageContract (cwf SPRP.layout) 16 sprp_ops /\ UsageContract (cwf FORC.layout) 16 forc_ops /\
  UsageContract (cwf WAV.layout) 32 wav_ops /\ UsageContract (cwf SWNM.layout) 32 swnm_ops /\
  UsageContract (cwf UNIS.layout) 16 unis_ops /\ UsageContract (cwf UNIx.layout) 16 unix_ops /\
  UsageContract (cwf OSTR.layout) 32 ostr_ops.
Proof. split_and!; eapply usage_contract; apply _. Qed.

Lemma mark_from_ret guard N ids bs bs' : zlen ids = N -> mark_from guard N ids bs = Ret bs' ->
  Forall (fun v => guard v = true -> v < MaxStrings) ids.
Proof.
  intros HN H. apply Forall_forall. intros v Hv Hg. apply Znot_ge_lt. intros Hge.
  by rewrite (mark_from_undef _ _ _ _ v) in H.
Qed.

Lemma bs_set_ret N bs i bs' : bs_set N bs i = Ret bs' -> i < N.
Proof. unfold bs_set. destruct (Z.ltb_spec i N); [done|]. by rewrite andb_false_r. Qed.

(** OSTR's [markUsedStrings] has defined behaviour exactly when every id
    it holds is below [MaxStrings]: unlike WAV and SWNM it does not check the
    32-bit ids of a file against the size of the bitset. *)
Theorem ostr_mark_defined (s : OSTR.OSTR) (bs : gset Z) (H : cwf OSTR.layout s) :
  is_ret (OstrSection.markUsedStrings s bs StringUserFlag.All) <-> ostr_markable s.
Proof.
  split; [|intros Hm; eexists; by apply ostr_mark].
  intros [bs' Hr]. destruct (ostr_lens s H) as (H1 & H2 & H3 & H4 & H5 & H6).
  unfold ostr_markable. rewrite <- (Forall_fmap snd (fun v => v < MaxStrings)), ostr_ids by done.
  assert (Hgt : forall ids, Forall (fun v => negb (v =? 0) = true -> v < MaxStrings) ids ->
    Forall (fun v => v < MaxStrings) ids).
  { intros ids Hids. eapply Forall_impl; [exact Hids|]. intros v; cbn beta.
    destruct (Z.eqb_spec v 0) as [->|]; [done | intros Hv; by apply Hv]. }
  assert (Hone : forall v bs bs1, (if negb (v =? 0) then bs_set MaxStrings bs v else Ret bs) = Ret bs1 ->
    v < MaxStrings).
  { intros v b b1. destruct (Z.eqb_spec v 0) as [->|]; [done|]. apply bs_set_ret. }
  unfold OstrSection.markUsedStrings in Hr.
  all_flags. ret_inv.
  rewrite !Forall_app, Forall_cons, Forall_singleton.
  split_and!; [exact (Hone _ _ _ E) | exact (Hone _ _ _ E0)
    | exact (Hgt _ (mark_from_ret _ _ _ _ _ H1 E1)) | exact (Hgt _ (mark_from_ret _ _ _ _ _ H2 E2))
    | exact (Hgt _ (mark_from_ret _ _ _ _ _ H3 E3)) | exact (Hgt _ (mark_from_ret _ _ _ _ _ H4 E4))
    | exact (Hgt _ (mark_from_ret _ _ _ _ _ H5 E5)) | exact (Hgt _ (mark_from_ret _ _ _ _ _ H6 Hr))].
Qed.

Lemma ostr_mark_defined_witness :
  ~ is_ret (OstrSection.markUsedStrings
      (OstrSection.setScenarioNameStringId OstrSection.GetDefault 65536) ∅ StringUserFlag.All).
Proof.
  rewrite ostr_mark_defined.
  - intros [H _]%Forall_cons. revert H. vm_compute. discriminate.
  - solve_default.
Defined.

(** *** Accessors *)

(** A setter that stores [norm v] in range and ignores an index out of range. *)
Record QuietSetter {S V} (wf : S -> Prop) (erase : S -> S) (ok : V -> Prop) (norm : V -> V) (N : Z)
    (get : S -> Z -> outcome V) (set : S -> Z -> V -> outcome S) : Prop := {
  quiet_out : forall s i v, N <= i -> set s i v = Ret s;
  quiet_in : forall s i v, wf s -> ok v -> 0 <= i < N ->
    exists s', set s i v = Ret s' /\ wf s' /\ erase s' = erase s /\
      forall j, 0 <= j -> get s' j = if decide (j = i) then Ret (norm v) else get s j
}.

Lemma quiet_lawful {S V} (wf : S -> Prop) erase (ok : V -> Prop) norm N
    (get : S -> Z -> outcome V) set set' :
  Lawful wf erase ok norm N get set ->
  (forall s i v, i < N -> set' s i v = set s i v) -> (forall s i v, N <= i -> set' s i v = Ret s) ->
  QuietSetter wf erase ok norm N get set'.
Proof.
  intros L Hin Hout. split; [done|]. intros s i v Hs Hv Hi. rewrite Hin by lia.
  exact (law_set_in _ _ _ _ _ _ _ L s i v Hs Hv Hi).
Qed.

Lemma quiet_member {S} (layout : codec S) (f : S -> list Z) `{!Updater f} c N `{!Member layout f c N}
    (wr : Z -> Z) (ok : Z -> Prop) :
  (forall s, s <| f := f s |> = s) -> (forall v, ok v -> cwf c (wr v)) ->
  QuietSetter (cwf layout) (upd f []) ok wr N
    (fun s i => get_at N (f s) i) (fun s i v => assign f (set_quiet N (f s) i (wr v)) s).
Proof.
  intros Hid Hok. eapply quiet_lawful.
  - eapply lawful_get; [|apply (lawful_member layout f c N id wr ok wr Hok); done].
    intros s i; simpl. by destruct (get_at N (f s) i).
  - intros s i v Hi. unfold set_quiet, set_at. by rewrite (proj2 (Z.ltb_lt i N)) by lia.
  - intros s i v Hi. unfold set_quiet, assign. rewrite (proj2 (Z.ltb_ge i N)) by lia.
    cbn. by rewrite Hid.
Qed.

#[export] Instance forc_playerForce_member : Member FORC.layout FORC.playerForce u8c Player_TotalSlots.
Proof. solve_member. Qed.
#[export] Instance forc_flags_member : Member FORC.layout FORC.flags u8c TotalForces.
Proof. solve_member. Qed.

(** The accessors of FORC, WAV and SWNM: the player forces are a lawful
    table; the setters of force strings, force flags, sound paths and switch
    names store in their own slot and ignore an index out of range, which
    the getters report with an exception. *)
Theorem string_table_accessors :
  Lawful (cwf FORC.layout) (upd FORC.playerForce []) (is_u 8) id Player_TotalSlots
    ForcSection.getPlayerForce ForcSection.setPlayerForce /\
  QuietSetter (cwf FORC.layout) (upd FORC.forceString []) (is_u 16) id TotalForces
    ForcSection.getForceStringId ForcSection.setForceStringId /\
  QuietSetter (cwf FORC.layout) (upd FORC.flags []) (is_u 8) id TotalForces
    ForcSection.getForceFlags ForcSection.setForceFlags /\
  QuietSetter (cwf WAV.layout) (upd WAV.soundPathStringId []) (fun _ => True) u32 TotalSounds
    WavSection.getSoundStringId WavSection.setSoundStringId /\
  QuietSetter (cwf SWNM.layout) (upd SWNM.switchName []) (fun _ => True) u32 TotalSwitches
    SwnmSection.getSwitchNameStringId SwnmSection.setSwitchNameStringId.
Proof.
  split_and!.
  - solve_lawful.
  - apply (quiet_member FORC.layout FORC.forceString u16c TotalForces id); [by intros [] | done].
  - apply (quiet_member FORC.layout FORC.flags u8c TotalForces id); [by intros [] | done].
  - apply (quiet_member WAV.layout WAV.soundPathStringId u32c TotalSounds u32);
      [by intros [] | intros v _; apply (u32_range v)].
  - apply (quiet_member SWNM.layout SWNM.switchName u32c TotalSwitches u32);
      [by intros [] | intros v _; apply (u32_range v)].
Qed.

(** The OSTR accessors are lawful; locations are numbered from 1, so
    their accessors are lawful in [locationId - 1] and throw for id 0. *)
Theorem ostr_accessors_lawful :
  Lawful (cwf OSTR.layout) (upd OSTR.forceName []) (is_u 32) id TotalForces
    OstrSection.getForceNameStringId OstrSection.setForceNameStringId /\
  Lawful (cwf OSTR.layout) (upd OSTR.unitName []) (is_u 32) id Unit_TotalTypes
    OstrSection.getUnitNameStringId OstrSection.setUnitNameStringId /\
  Lawful (cwf OSTR.layout) (upd OSTR.expUnitName []) (is_u 32) id Unit_TotalTypes
    OstrSection.getExpUnitNameStringId OstrSection.setExpUnitNameStringId /\
  Lawful (cwf OSTR.layout) (upd OSTR.soundPath []) (is_u 32) id TotalSounds
    OstrSection.getSoundPathStringId OstrSection.setSoundPathStringId /\
  Lawful (cwf OSTR.layout) (upd OSTR.switchName []) (is_u 32) id TotalSwitches
    OstrSection.getSwitchNameStringId OstrSection.setSwitchNameStringId /\
  (forall s id, OstrSection.getLocationNameStringId s 0 = Throw OutOfRange /\
    OstrSection.setLocationNameStringId s 0 id = Throw OutOfRange) /\
  Lawful (cwf OSTR.layout) (upd OSTR.locationName []) (is_u 32) id TotalLocations
    (fun s i => if i <? 0 then get_at TotalLocations (OSTR.locationName s) i
                else OstrSection.getLocationNameStringId s (i + 1))
    (fun s i id => if i <? 0 then assign OSTR.locationName (set_at TotalLocations (OSTR.locationName s) i id) s
                   else OstrSection.setLocationNameStringId s (i + 1) id).
Proof.
  split_and!; try solve_lawful; [done|].
  assert (L : Lawful (cwf OSTR.layout) (upd OSTR.locationName []) (is_u 32) id TotalLocations
    (fun s i => get_at TotalLocations (OSTR.locationName s) i)
    (fun s i v => assign OSTR.locationName (set_at TotalLocations (OSTR.locationName s) i v) s))
    by solve_lawful.
  assert (Eg : forall s i, (if i <? 0 then get_at TotalLocations (OSTR.locationName s) i
      else OstrSection.getLocationNameStringId s (i + 1)) = get_at TotalLocations (OSTR.locationName s) i).
  { intros s i. unfold get_at, OstrSection.getLocationNameStringId. rewrite Z.gtb_ltb.
    replace (i + 1 - 1) with i by lia.
    destruct (Z.ltb_spec i 0), (Z.ltb_spec 0 (i + 1)), (Z.leb_spec (i + 1) TotalLocations),
      (Z.ltb_spec i TotalLocations); try done; lia. }
  assert (Es : forall s i v, (if i <? 0 then assign OSTR.locationName (set_at TotalLocations (OSTR.locationName s) i v) s
      else OstrSection.setLocationNameStringId s (i + 1) v) =
      assign OSTR.locationName (set_at TotalLocations (OSTR.locationName s) i v) s).
  { intros s i v. unfold set_at, OstrSection.setLocationNameStringId. rewrite Z.gtb_ltb.
    replace (i + 1 - 1) with i by lia.
    destruct (Z.ltb_spec i 0), (Z.ltb_spec 0 (i + 1)), (Z.leb_spec (i + 1) TotalLocations),
      (Z.ltb_spec i TotalLocations); try done; lia. }
  destruct L as [L1 L2 L3 L4]. split.
  - intros; rewrite Eg; auto.
  - intros; rewrite Eg; auto.
  - intros; rewrite Es; auto.
  - intros s i v Hs Hv Hi. rewrite Es. destruct (L4 s i v Hs Hv Hi) as (s' & ? & ? & ? & Hg).
    exists s'. split_and!; auto. intros j Hj. rewrite !Eg. auto.
Qed.

(** [addSound] stores the string in the first unused slot and returns
    its index; when no slot is unused it changes nothing and returns
    [TotalSounds]. *)
Theorem addSound_first (s : WAV.WAV) (stringId : Z) (H : cwf WAV.layout s) :
  exists s' i, WavSection.addSound s stringId = Ret (s', i) /\ cwf WAV.layout s' /\
    (i = TotalSounds /\ s' = s /\
       (forall j v, WavSection.getSoundStringId s j = Ret v -> 0 <= j -> v <> 0) \/
     0 <= i < TotalSounds /\ WavSection.getSoundStringId s i = Ret 0 /\
       (forall j v, WavSection.getSoundStringId s j = Ret v -> 0 <= j < i -> v <> 0) /\
       forall j, 0 <= j -> WavSection.getSoundStringId s' j =
         if decide (j = i) then Ret (u32 stringId) else WavSection.getSoundStringId s j).
Proof.
  assert (HN := member_zlen WAV.layout WAV.soundPathStringId u32c TotalSounds s H).
  destruct (first_such_vget (WAV.soundPathStringId s) (fun _ v => v =? 0) TotalSounds 0 HN
    ltac:(lia)) as (o & Ho & Hspec).
  assert (Hlt : forall j, j < TotalSounds ->
    WavSection.getSoundStringId s j = vget (WAV.soundPathStringId s) j).
  { intros j Hj. unfold WavSection.getSoundStringId, get_at. by rewrite (proj2 (Z.ltb_lt _ _)) by lia. }
  unfold WavSection.addSound. rewrite Ho. cbn [obind]. destruct o as [i|].
  - destruct Hspec as (Hi & (v & Hv & Hz%Z.eqb_eq) & Hbefore). subst v.
    assert (L := quiet_member WAV.layout WAV.soundPathStringId u32c TotalSounds u32 (fun _ => True)
      ltac:(by intros []) (fun v _ => u32_range v)).
    destruct (quiet_in _ _ _ _ _ _ _ L s i stringId H I Hi) as (s' & Hs & Hw & _ & Hg).
    unfold set_quiet in Hs. rewrite (proj2 (Z.ltb_lt i TotalSounds)) in Hs by lia. rewrite Hs.
    exists s', i. split; [done|]. split; [done|]. right. split; [done|]. rewrite Hlt by lia.
    split; [done|]. split; [|done]. intros j w Hj Hji ->.
    rewrite Hlt in Hj by lia. specialize (Hbefore j 0 Hji Hj). done.
  - exists s, TotalSounds. split; [done|]. split; [done|]. left. split_and!; try done.
    intros j w Hj Hpos ->. unfold WavSection.getSoundStringId, get_at in Hj.
    destruct (Z.ltb_spec j TotalSounds); [|done].
    by specialize (Hspec j 0 ltac:(lia) Hj).
Qed.

Lemma addSound_first_witness : exists s' i,
  WavSection.addSound WavSection.GetDefault 9 = Ret (s', i) /\ i = 0.
Proof.
  destruct (addSound_first WavSection.GetDefault 9) as (s' & i & Hr & _).
  - solve_default.
  - exists s', i. split; [exact Hr|]. vm_compute in Hr. by injection Hr as _ <-.
Defined.
