(* ===== verification/Terrain.v ===== *)
(** The terrain sections of Sections.cpp: MTXM and TILE (tile values), MASK
    (fog of war) and ISOM (isometric values), each a vector of fixed-size
    elements.

    [vec_store] is a write through [&v[0]]: the vector seen as bytes.  The
    functions of MTXM, TILE and MASK differ in the element type and in what
    an empty section does; [setDimensions] is the same text for all three,
    except that MTXM and TILE run it on a copy. *)
From S2P Require Import Prelude Codec ChkTypes ChkSection Accessors.
Open Scope Z_scope.

(** ** Vectors as bytes *)

Section vec.
Context {A : Type} (c : codec A).

(** The element type's size. *)
Definition elem_size : Z := Z.of_nat (csize c).

(** Copy [got] over the start of the vector's storage. *)
Definition vec_store (l : list A) (got : bytes) : outcome (list A) :=
  let* raw := store (arr_enc c l) got in Ret (arr_dec c (length l) raw).

(** [readSize/sizeof + readSize%sizeof] *)
Definition read_count (readSize : Z) : Z := readSize / elem_size + readSize mod elem_size.

(** [memset(&v[0], 0, readSize); is.read(&v[0], readSize); return is.gcount();] *)
Definition fill_from (l : list A) (readSize : Z) (ist : istream) : outcome (list A * Z * istream) :=
  let* l := vec_store l (replicate (Z.to_nat readSize) 0) in
  let '(got, ist') := istream_read ist readSize in
  let* l := vec_store l got in
  Ret (l, zlen got, ist').
End vec.

(** ** Tile vectors: MTXM, TILE, MASK *)

Section tiles.
Context (c : codec Z).

(** [read]: [clears] says whether a section of size zero empties the vector. *)
Definition read_tiles (clears : bool) (sizeInBytes : Z) (ist : istream) (overriding : bool)
    (tiles : list Z) : outcome (list Z * Z * istream) :=
  if sizeInBytes <? 0 then Throw NegativeSectionSize
  else
    let readSize := sizeInBytes in
    if readSize >? 0 then
      let readNumTiles := read_count c readSize in
      let* tiles :=
        if readNumTiles >? zlen tiles
        then vinsertn tiles (zlen tiles) (readNumTiles - zlen tiles) 0
        else if negb overriding && (readNumTiles <? zlen tiles)
        then verase_range tiles readNumTiles (zlen tiles)
        else Ret tiles in
      fill_from c tiles readSize ist
    else if clears then Ret ([], 0, ist) else Ret (tiles, 0, ist).

Definition write_tiles (tiles : list Z) : bytes := arr_enc c tiles.

Definition size_tiles (tiles : list Z) : Z := s32 (u64 (elem_size c * zlen tiles)).

Definition get_tile (tiles : list Z) (tileIndex : Z) : outcome Z :=
  get_at (zlen tiles) tiles tileIndex.

Definition set_tile (tiles : list Z) (tileIndex tileValue : Z) : outcome (list Z) :=
  set_at (zlen tiles) tiles tileIndex tileValue.
End tiles.

Definition default_tiles (tileWidth tileHeight : Z) : list Z :=
  replicate (Z.to_nat (tileWidth * tileHeight)) 0.

(** The tiles and the dimensions [setDimensions] has reached. *)
Record Resizing := mkResizing { cells : list Z; currTileWidth : Z; currTileHeight : Z }.

(** [for ( row = h-1; row >= 0; row-- ) tiles.erase(at(row), at(row)+n)] *)
Definition erase_columns (h : Z) (at_ : Z -> Z) (n : Z) (tiles : list Z) : outcome (list Z) :=
  for_each (fun row tiles => verase_range tiles (at_ row) (at_ row + n)) (reverse (range 0 h)) tiles.

(** [for ( row = h-1; row >= 0; row-- ) tiles.insert(at(row), n, 0)] *)
Definition insert_columns (h : Z) (at_ : Z -> Z) (n : Z) (tiles : list Z) : outcome (list Z) :=
  for_each (fun row tiles => vinsertn tiles (at_ row) n 0) (reverse (range 0 h)) tiles.

(** The guard of the four removal steps. *)
Definition if_live (cond : bool) (r : Resizing) (k : outcome Resizing) : outcome Resizing :=
  if cond && (currTileWidth r >? 0) && (currTileHeight r >? 0) then k else Ret r.

(** Rows are removed from the bottom. *)
Definition remove_bottom (newBottom oldBottom : Z) (r : Resizing) : outcome Resizing :=
  if_live (newBottom <? oldBottom) r (
    let numRowsRemoved := oldBottom - newBottom in
    let numTilesRemoved := numRowsRemoved * currTileWidth r in
    if numTilesRemoved >=? zlen (cells r) then Ret (mkResizing [] 0 0)
    else
      let* tiles := verase_range (cells r) (zlen (cells r) - numTilesRemoved) (zlen (cells r)) in
      Ret (mkResizing tiles (currTileWidth r) (currTileHeight r - numRowsRemoved))).

(** Rows are removed from the top. *)
Definition remove_top (newTop oldTop : Z) (r : Resizing) : outcome Resizing :=
  if_live (newTop >? oldTop) r (
    let numRowsRemoved := newTop - oldTop in
    let numTilesRemoved := numRowsRemoved * currTileWidth r in
    if numTilesRemoved >=? zlen (cells r) then Ret (mkResizing [] 0 0)
    else
      let* tiles := verase_range (cells r) 0 numTilesRemoved in
      Ret (mkResizing tiles (currTileWidth r) (currTileHeight r - numRowsRemoved))).

(** Columns are removed from the right. *)
Definition remove_right (newRight oldRight : Z) (r : Resizing) : outcome Resizing :=
  if_live (newRight <? oldRight) r (
    let numColumnsRemoved := oldRight - newRight in
    if numColumnsRemoved >=? currTileWidth r then Ret (mkResizing [] 0 0)
    else
      let firstRemovedColumn := currTileWidth r - numColumnsRemoved in
      let* tiles := erase_columns (currTileHeight r)
                      (fun row => row * currTileWidth r + firstRemovedColumn)
                      numColumnsRemoved (cells r) in
      Ret (mkResizing tiles (currTileWidth r - numColumnsRemoved) (currTileHeight r))).

(** Columns are removed from the left. *)
Definition remove_left (newLeft oldLeft : Z) (r : Resizing) : outcome Resizing :=
  if_live (newLeft >? oldLeft) r (
    let numColumnsRemoved := newLeft - oldLeft in
    if numColumnsRemoved >=? currTileHeight r then Ret (mkResizing [] 0 0)
    else
      let* tiles := erase_columns (currTileHeight r) (fun row => row * currTileWidth r)
                      numColumnsRemoved (cells r) in
      Ret (mkResizing tiles (currTileWidth r - numColumnsRemoved) (currTileHeight r))).

(** Columns are added to the right. *)
Definition add_right (newRight oldRight : Z) (r : Resizing) : outcome Resizing :=
  if newRight >? oldRight then
    let numColumnsAdded := newRight - oldRight in
    let* tiles := insert_columns (currTileHeight r)
                    (fun row => row * currTileWidth r + numColumnsAdded) numColumnsAdded (cells r) in
    Ret (mkResizing tiles (currTileWidth r + numColumnsAdded) (currTileHeight r))
  else Ret r.

(** Columns are added to the left. *)
Definition add_left (newLeft oldLeft : Z) (r : Resizing) : outcome Resizing :=
  if newLeft <? oldLeft then
    let numColumnsAdded := oldLeft - newLeft in
    let* tiles := insert_columns (currTileHeight r)
                    (fun row => row * numColumnsAdded) numColumnsAdded (cells r) in
    Ret (mkResizing tiles (currTileWidth r + numColumnsAdded) (currTileHeight r))
  else Ret r.

(** Rows are added to the top. *)
Definition add_top (newTop oldTop : Z) (r : Resizing) : outcome Resizing :=
  if newTop <? oldTop then
    let numRowsAdded := oldTop - newTop in
    let* tiles := vinsertn (cells r) 0 (currTileWidth r * numRowsAdded) 0 in
    Ret (mkResizing tiles (currTileWidth r) (currTileHeight r + numRowsAdded))
  else Ret r.

(** Rows are added to the bottom. *)
Definition add_bottom (newBottom oldBottom : Z) (r : Resizing) : outcome Resizing :=
  if newBottom >? oldBottom then
    let numRowsAdded := newBottom - oldBottom in
    let* tiles := vinsertn (cells r) (zlen (cells r)) (currTileWidth r * numRowsAdded) 0 in
    Ret (mkResizing tiles (currTileWidth r) (currTileHeight r))
  else Ret r.

(** The body of [setMtxmOrTileDimensions] and of [MaskSection::setDimensions]. *)
Definition resize (tiles : list Z)
    (newTileWidth newTileHeight oldTileWidth oldTileHeight leftEdge topEdge : Z)
    : outcome (list Z) :=
  let oldLeft := 0 in let oldTop := 0 in
  let oldRight := oldTileWidth in let oldBottom := oldTileHeight in
  let newLeft := leftEdge in let newTop := topEdge in
  let newRight := leftEdge + newTileWidth in let newBottom := topEdge + newTileHeight in
  let* r := remove_bottom newBottom oldBottom (mkResizing tiles oldTileWidth oldTileHeight) in
  let* r := remove_top newTop oldTop r in
  let* r := remove_right newRight oldRight r in
  let* r := remove_left newLeft oldLeft r in
  if (currTileWidth r =? 0) || (currTileHeight r =? 0) then Ret []
  else
    let* r := add_right newRight oldRight r in
    let* r := add_left newLeft oldLeft r in
    let* r := add_top newTop oldTop r in
    let* r := add_bottom newBottom oldBottom r in
    Ret (cells r).

(** [setMtxmOrTileDimensions(std::vector<u16> tiles, ...)]: the caller's
    vector is passed by value, so nothing is left of the result. *)
Definition setMtxmOrTileDimensions (tiles : list Z)
    (newTileWidth newTileHeight oldTileWidth oldTileHeight leftEdge topEdge : Z) : outcome unit :=
  let* _ := resize tiles newTileWidth newTileHeight oldTileWidth oldTileHeight leftEdge topEdge in
  Ret tt.

(** ** The sections *)

Module MtxmSection.
Definition GetDefault (tileWidth tileHeight : Z) : list Z := default_tiles tileWidth tileHeight.
Definition getTile (tiles : list Z) (tileIndex : Z) : outcome Z := get_tile tiles tileIndex.
Definition setTile (tiles : list Z) (tileIndex tileValue : Z) : outcome (list Z) :=
  set_tile tiles tileIndex tileValue.
Definition setDimensions (tiles : list Z)
    (newTileWidth newTileHeight oldTileWidth oldTileHeight leftEdge topEdge : Z)
    : outcome (list Z) :=
  let* _ := setMtxmOrTileDimensions tiles newTileWidth newTileHeight oldTileWidth oldTileHeight
              leftEdge topEdge in
  Ret tiles.
Definition getSize (tiles : list Z) : Z := size_tiles u16c tiles.
Definition read (sizeInBytes : Z) (ist : istream) (overriding : bool) (tiles : list Z)
    : outcome (list Z * Z * istream) :=
  read_tiles u16c (negb overriding) sizeInBytes ist overriding tiles.
Definition write (tiles : list Z) : bytes := write_tiles u16c tiles.
End MtxmSection.

Module TileSection.
Definition GetDefault (tileWidth tileHeight : Z) : list Z := default_tiles tileWidth tileHeight.
Definition getTile (tiles : list Z) (tileIndex : Z) : outcome Z := get_tile tiles tileIndex.
Definition setTile (tiles : list Z) (tileIndex tileValue : Z) : outcome (list Z) :=
  set_tile tiles tileIndex tileValue.
Definition setDimensions (tiles : list Z)
    (newTileWidth newTileHeight oldTileWidth oldTileHeight leftEdge topEdge : Z)
    : outcome (list Z) :=
  let* _ := setMtxmOrTileDimensions tiles newTileWidth newTileHeight oldTileWidth oldTileHeight
              leftEdge topEdge in
  Ret tiles.
Definition getSize (tiles : list Z) : Z := size_tiles u16c tiles.
Definition read (sizeInBytes : Z) (ist : istream) (overriding : bool) (tiles : list Z)
    : outcome (list Z * Z * istream) :=
  read_tiles u16c true sizeInBytes ist overriding tiles.
Definition write (tiles : list Z) : bytes := write_tiles u16c tiles.
End TileSection.

Module MaskSection.
Definition GetDefault (tileWidth tileHeight : Z) : list Z := default_tiles tileWidth tileHeight.
Definition getFog (fogTiles : list Z) (tileIndex : Z) : outcome Z := get_tile fogTiles tileIndex.
Definition setFog (fogTiles : list Z) (tileIndex fogOfWarPlayers : Z) : outcome (list Z) :=
  set_tile fogTiles tileIndex fogOfWarPlayers.
Definition setDimensions (fogTiles : list Z)
    (newTileWidth newTileHeight oldTileWidth oldTileHeight leftEdge topEdge : Z)
    : outcome (list Z) :=
  resize fogTiles newTileWidth newTileHeight oldTileWidth oldTileHeight leftEdge topEdge.
Definition getSize (fogTiles : list Z) : Z := size_tiles u8c fogTiles.
Definition read (sizeInBytes : Z) (ist : istream) (overriding : bool) (fogTiles : list Z)
    : outcome (list Z * Z * istream) :=
  read_tiles u8c true sizeInBytes ist overriding fogTiles.
Definition write (fogTiles : list Z) : bytes := write_tiles u8c fogTiles.
End MaskSection.

Module IsomSection.
Definition blank : IsomEntry.IsomEntry := IsomEntry.mkIsomEntry 0 0 0 0.

Definition GetDefault (tileWidth tileHeight : Z) : list IsomEntry.IsomEntry :=
  replicate (Z.to_nat ((tileWidth / 2 + 1) * (tileHeight + 1))) blank.

Definition getIsomEntry (isomEntries : list IsomEntry.IsomEntry) (isomIndex : Z)
    : outcome IsomEntry.IsomEntry :=
  get_at (zlen isomEntries) isomEntries isomIndex.

Definition setDimensions (isomEntries : list IsomEntry.IsomEntry)
    (newTileWidth newTileHeight oldTileWidth oldTileHeight leftEdge topEdge : Z)
    : outcome (list IsomEntry.IsomEntry) :=
  let oldNumIndices := zlen isomEntries in
  let newNumIndices := newTileWidth * newTileHeight in
  if oldNumIndices <? newNumIndices then
    for_each (fun _ isomEntries => Ret (isomEntries ++ [blank]))
      (range oldNumIndices newNumIndices) isomEntries
  else if oldNumIndices >? newNumIndices then
    verase_range isomEntries newNumIndices (zlen isomEntries)
  else Ret isomEntries.

Definition getSize (isomEntries : list IsomEntry.IsomEntry) : Z :=
  s32 (u64 (elem_size IsomEntry.layout * zlen isomEntries)).

Definition read (sizeInBytes : Z) (ist : istream) (isomEntries : list IsomEntry.IsomEntry)
    : outcome (list IsomEntry.IsomEntry * Z * istream) :=
  if sizeInBytes <? 0 then Throw NegativeSectionSize
  else
    let readSize := sizeInBytes in
    if readSize >? 0 then
      let readNumIsomEntries := read_count IsomEntry.layout readSize in
      let isomEntries := replicate (Z.to_nat readNumIsomEntries) blank in
      let '(got, ist') := istream_read ist readSize in
      let* isomEntries := vec_store IsomEntry.layout isomEntries got in
      Ret (isomEntries, zlen got, ist')
    else Ret ([], 0, ist).

Definition write (isomEntries : list IsomEntry.IsomEntry) : bytes :=
  arr_enc IsomEntry.layout isomEntries.
End IsomSection.

(** ** Vectors as bytes: lemmas *)

Section vec_lemmas.
Context {A : Type} (c : codec A) `{!CodecOk c}.

Lemma arr_enc_app l k : arr_enc c (l ++ k) = arr_enc c l ++ arr_enc c k.
Proof. induction l as [|x l IH]; simpl; [done|]. by rewrite IH, app_assoc. Qed.

Lemma arr_enc_zlen l : Forall (cwf c) l -> zlen (arr_enc c l) = elem_size c * zlen l.
Proof. intros Hl. unfold zlen, elem_size. rewrite arr_enc_length by done. lia. Qed.

Lemma arr_enc_drop n l : Forall (cwf c) l ->
  drop (n * csize c) (arr_enc c l) = arr_enc c (drop n l).
Proof.
  revert n. induction l as [|x l IH]; intros n Hl.
  - cbn [arr_enc]. rewrite !drop_nil. done.
  - apply Forall_cons in Hl as [Hx Hl]. destruct n as [|n]; [done|]. simpl.
    rewrite <- (IH n Hl), drop_app, (enc_length x Hx).
    rewrite drop_ge by (rewrite enc_length by done; lia). simpl. f_equal. lia.
Qed.

Lemma vec_store_ret l got : Forall (cwf c) l -> is_bytes got -> (length got <= length l * csize c)%nat ->
  exists l', vec_store c l got = Ret l' /\ length l' = length l /\ Forall (cwf c) l' /\
    arr_enc c l' = got ++ drop (length got) (arr_enc c l).
Proof.
  intros Hl Hg Hlen. unfold vec_store, store.
  rewrite (proj2 (Nat.leb_le _ _)) by (by rewrite arr_enc_length). cbn [obind].
  assert (Hb : is_bytes (got ++ drop (length got) (arr_enc c l))).
  { apply Forall_app; split; [done|]. by apply Forall_drop, arr_enc_bytes. }
  assert (Hsz : length (got ++ drop (length got) (arr_enc c l)) = (length l * csize c)%nat).
  { rewrite length_app, length_drop, arr_enc_length by done. lia. }
  eexists. split; [done|]. split; [apply arr_dec_length|].
  split; [apply arr_dec_wf; [apply _ | done | rewrite Hsz; lia]|].
  rewrite arr_enc_dec by (try done; rewrite Hsz; lia). rewrite take_ge; [done|].
  rewrite Hsz; lia.
Qed.

(** Equal bytes are equal vectors. *)
Lemma arr_enc_inj l l' : length l = length l' -> Forall (cwf c) l -> Forall (cwf c) l' ->
  arr_enc c l = arr_enc c l' -> l = l'.
Proof.
  intros Hlen Hl Hl' E. rewrite <- (arr_dec_enc c l []), <- (arr_dec_enc c l' []) by done.
  by rewrite Hlen, E.
Qed.

(** Storing the bytes of [l'] over a vector at least as long. *)
Lemma vec_store_enc l l' : Forall (cwf c) l -> Forall (cwf c) l' -> (length l' <= length l)%nat ->
  vec_store c l (arr_enc c l') = Ret (l' ++ drop (length l') l).
Proof.
  intros Hl Hl' Hlen. destruct (vec_store_ret l (arr_enc c l')) as (r & Hr & Hrl & Hrw & Hre);
    auto using arr_enc_bytes.
  { rewrite arr_enc_length by done. nia. }
  rewrite Hr. f_equal. apply arr_enc_inj; auto.
  - rewrite length_app, length_drop. lia.
  - apply Forall_app; split; [done | by apply Forall_drop].
  - by rewrite Hre, arr_enc_app, arr_enc_length, arr_enc_drop.
Qed.

Lemma fill_from_enc l l' rest : Forall (cwf c) l -> Forall (cwf c) l' -> (length l' <= length l)%nat ->
  fill_from c l (elem_size c * zlen l') (mkIstream (arr_enc c l' ++ rest) true) =
  Ret (l' ++ drop (length l') l, elem_size c * zlen l', mkIstream rest true).
Proof.
  intros Hl Hl' Hlen. unfold fill_from.
  set (n := Z.to_nat (elem_size c * zlen l')).
  assert (Hn : n = length (arr_enc c l')).
  { rewrite arr_enc_length by done. unfold n, elem_size, zlen. lia. }
  destruct (vec_store_ret l (replicate n 0)) as (r & Hr & Hrl & Hrw & Hre); auto.
  { by apply Forall_replicate. }
  { rewrite length_replicate, Hn, arr_enc_length by done. nia. }
  rewrite Hr. cbn [obind].
  rewrite <- arr_enc_zlen, istream_read_app by done. cbn [fst snd].
  rewrite vec_store_enc by (try done; lia). cbn [obind]. f_equal. f_equal. f_equal. f_equal.
  apply arr_enc_inj; auto using Forall_drop.
  { rewrite !length_drop. lia. }
  rewrite <- !arr_enc_drop, Hre by done. rewrite <- arr_enc_length, <- Hn by done.
  rewrite length_replicate. by rewrite drop_app_length' by (by rewrite length_replicate).
Qed.
End vec_lemmas.

Lemma read_count_exact {A} (c : codec A) n : (0 < csize c)%nat -> 0 <= n ->
  read_count c (elem_size c * n) = n.
Proof.
  intros Hc Hn. unfold read_count, elem_size. rewrite Z.mul_comm, Z.div_mul, Z.mod_mul; lia.
Qed.

Section tiles_lemmas.
Context (c : codec Z) `{!CodecOk c} (c_pos : (0 < csize c)%nat) (c_zero : cwf c 0).

(** Reading the bytes of a non-empty vector of tiles: an overriding read
    keeps the tiles past the end of the section, another one does not. *)
Lemma read_tiles_enc clears overriding tiles prior rest :
  Forall (cwf c) tiles -> Forall (cwf c) prior -> tiles <> [] ->
  read_tiles c clears (elem_size c * zlen tiles) (mkIstream (write_tiles c tiles ++ rest) true)
    overriding prior =
  Ret (tiles ++ (if overriding then drop (length tiles) prior else []),
       elem_size c * zlen tiles, mkIstream rest true).
Proof.
  intros Ht Hp Hne. unfold read_tiles, write_tiles.
  assert (Hlen : 0 < zlen tiles) by (destruct tiles; [done | rewrite zlen_cons; pose proof (zlen_nonneg tiles); lia]).
  assert (Hpos : 0 < elem_size c * zlen tiles) by (unfold elem_size; lia).
  rewrite (proj2 (Z.ltb_ge _ _)) by lia. rewrite Z.gtb_ltb, (proj2 (Z.ltb_lt _ _)) by lia.
  rewrite read_count_exact by (done || lia). rewrite Z.gtb_ltb.
  assert (Hfix : forall p, Forall (cwf c) p -> (length tiles <= length p)%nat ->
    drop (length tiles) p = (if overriding then drop (length tiles) prior else []) ->
    fill_from c p (elem_size c * zlen tiles) (mkIstream (arr_enc c tiles ++ rest) true) =
    Ret (tiles ++ (if overriding then drop (length tiles) prior else []),
         elem_size c * zlen tiles, mkIstream rest true)).
  { intros p Hpw Hpl <-. by apply fill_from_enc. }
  unfold zlen in Hlen. unfold vinsertn, verase_range.
  destruct (Z.ltb_spec (zlen prior) (zlen tiles)) as [Hlt|Hge]; unfold zlen in *.
  - rewrite (proj2 (Z.leb_le 0 _)), (proj2 (Z.leb_le _ _)) by lia. cbn [andb obind].
    rewrite Nat2Z.id, take_ge, drop_ge, app_nil_r by lia. apply Hfix.
    + apply Forall_app; split; [done | by apply Forall_replicate].
    + rewrite length_app, length_replicate. lia.
    + rewrite drop_ge by (rewrite length_app, length_replicate; lia).
      destruct overriding; [by rewrite drop_ge by lia | done].
  - destruct (Z.ltb_spec (Z.of_nat (length tiles)) (Z.of_nat (length prior))), overriding; cbn [negb andb].
    + cbn [obind]. apply Hfix; auto; lia.
    + rewrite (proj2 (Z.leb_le 0 _)), !(proj2 (Z.leb_le _ _)) by lia. cbn [andb obind].
      rewrite !Nat2Z.id, (drop_ge prior), app_nil_r by lia. apply Hfix.
      * by apply Forall_take.
      * rewrite length_take. lia.
      * rewrite drop_ge; [done|]. rewrite length_take. lia.
    + cbn [obind]. apply Hfix; auto; lia.
    + cbn [obind]. apply Hfix; [done | lia|]. apply drop_ge. lia.
Qed.

Lemma read_tiles_roundtrip tiles prior rest :
  Forall (cwf c) tiles -> Forall (cwf c) prior ->
  read_tiles c true (elem_size c * zlen tiles) (mkIstream (write_tiles c tiles ++ rest) true) false prior =
  Ret (tiles, elem_size c * zlen tiles, mkIstream rest true).
Proof.
  intros Ht Hp. destruct tiles as [|t tiles].
  - unfold read_tiles. unfold zlen. simpl length. by rewrite Z.mul_0_r.
  - rewrite read_tiles_enc by done. by rewrite app_nil_r.
Qed.
End tiles_lemmas.

(** ** Resizing a grid of rows *)

Section rows.
Context (w : Z) (w_pos : 0 < w).

(** The tiles are [rows] of [w] tiles each. *)
Definition grid (rows : list (list Z)) : Prop := Forall (fun r => zlen r = w) rows.

Lemma grid_size rows : grid rows -> zlen (concat rows) = zlen rows * w.
Proof.
  induction 1 as [|r rows Hr Hrows IH]; [done|]. cbn [concat].
  rewrite zlen_app, zlen_cons, IH, Hr. lia.
Qed.

Lemma concat_take_drop (rows : list (list Z)) n :
  concat rows = concat (take n rows) ++ concat (drop n rows).
Proof. by rewrite <- concat_app, take_drop. Qed.

Lemma range_snoc lo hi : lo <= hi -> range lo (hi + 1) = range lo hi ++ [hi].
Proof.
  intros. rewrite ?range_seqZ. replace (hi + 1 - lo) with ((hi - lo) + 1) by lia.
  rewrite seqZ_app by lia. f_equal. unfold seqZ. simpl. f_equal. lia.
Qed.

Lemma take_concat_app rows (r suffix : list Z) k : grid rows -> 0 <= k ->
  take (Z.to_nat (zlen rows * w + k)) (concat rows ++ r ++ suffix) =
    concat rows ++ take (Z.to_nat k) (r ++ suffix) /\
  drop (Z.to_nat (zlen rows * w + k)) (concat rows ++ r ++ suffix) = drop (Z.to_nat k) (r ++ suffix).
Proof.
  intros Hg Hk. pose proof (grid_size rows Hg). pose proof (zlen_nonneg rows).
  assert (E : Z.to_nat (zlen rows * w + k) = (length (concat rows) + Z.to_nat k)%nat)
    by (unfold zlen in *; nia).
  rewrite E, take_app_add, drop_app_add. done.
Qed.

(** Erasing [n] columns from column [k] on. *)
Lemma erase_columns_rows rows k n suffix : grid rows -> 0 <= k -> 0 <= n -> k + n <= w ->
  erase_columns (zlen rows) (fun row => row * w + k) n (concat rows ++ suffix) =
  Ret (concat ((fun r => take (Z.to_nat k) r ++ drop (Z.to_nat (k + n)) r) <$> rows) ++ suffix).
Proof.
  intros Hg Hk Hn Hkn. revert suffix. unfold erase_columns.
  induction rows as [|r rows IH] using rev_ind; intros suffix; [done|].
  apply Forall_app in Hg as [Hg Hr]. rewrite Forall_singleton in Hr.
  pose proof (grid_size rows Hg) as Hsz. pose proof (zlen_nonneg rows) as Hpos.
  pose proof (zlen_nonneg suffix) as Hsuf.
  assert (Hall : zlen (concat rows ++ r ++ suffix) = zlen rows * w + w + zlen suffix)
    by (rewrite !zlen_app, Hsz, Hr; lia).
  assert (Hnn : 0 <= zlen rows * w) by nia.
  rewrite zlen_app. change (zlen [r]) with 1. rewrite range_snoc, reverse_app by lia.
  cbn [reverse rev_append app for_each]. rewrite concat_app. cbn [concat]. rewrite app_nil_r, <- app_assoc.
  destruct (take_concat_app rows r suffix k Hg Hk) as [Ht _].
  destruct (take_concat_app rows r suffix (k + n) Hg ltac:(lia)) as [_ Hd].
  unfold verase_range.
  rewrite (proj2 (Z.leb_le 0 _)), (proj2 (Z.leb_le (zlen rows * w + k) _)),
    (proj2 (Z.leb_le (zlen rows * w + k + n) _)) by lia.
  cbn [andb]. rewrite <- Z.add_assoc, Ht, Hd. cbn [obind].
  rewrite take_app_le, drop_app_le by (unfold zlen in *; lia).
  rewrite <- app_assoc, IH by done. rewrite fmap_app, concat_app. cbn.
  by rewrite app_nil_r, <- !app_assoc.
Qed.

(** Inserting [n] empty columns before column [k]. *)
Lemma insert_columns_rows rows k n suffix : grid rows -> 0 <= k <= w -> 0 <= n ->
  insert_columns (zlen rows) (fun row => row * w + k) n (concat rows ++ suffix) =
  Ret (concat ((fun r => take (Z.to_nat k) r ++ replicate (Z.to_nat n) 0 ++ drop (Z.to_nat k) r) <$> rows)
       ++ suffix).
Proof.
  intros Hg Hk Hn. revert suffix. unfold insert_columns.
  induction rows as [|r rows IH] using rev_ind; intros suffix; [done|].
  apply Forall_app in Hg as [Hg Hr]. rewrite Forall_singleton in Hr.
  pose proof (grid_size rows Hg) as Hsz. pose proof (zlen_nonneg rows) as Hpos.
  pose proof (zlen_nonneg suffix) as Hsuf.
  assert (Hall : zlen (concat rows ++ r ++ suffix) = zlen rows * w + w + zlen suffix)
    by (rewrite !zlen_app, Hsz, Hr; lia).
  assert (Hnn : 0 <= zlen rows * w) by nia.
  rewrite zlen_app. change (zlen [r]) with 1. rewrite range_snoc, reverse_app by lia.
  cbn [reverse rev_append app for_each]. rewrite concat_app. cbn [concat]. rewrite app_nil_r, <- app_assoc.
  destruct (take_concat_app rows r suffix k Hg ltac:(lia)) as [Ht Hd].
  unfold vinsertn.
  rewrite (proj2 (Z.leb_le 0 _)), (proj2 (Z.leb_le (zlen rows * w + k) _)) by lia.
  cbn [andb]. rewrite Ht, Hd. cbn [obind].
  rewrite take_app_le, drop_app_le by (unfold zlen in *; lia).
  rewrite <- app_assoc, IH by done. rewrite fmap_app, concat_app. cbn.
  by rewrite app_nil_r, <- !app_assoc.
Qed.

(** The four removal steps on a grid. *)
Lemma if_live_rows cond rows (k : outcome Resizing) : rows <> [] ->
  if_live cond (mkResizing (concat rows) w (zlen rows)) k =
  if cond then k else Ret (mkResizing (concat rows) w (zlen rows)).
Proof.
  intros Hne. unfold if_live; cbn [currTileWidth currTileHeight].
  assert (0 < zlen rows) by (destruct rows; [done | rewrite zlen_cons; pose proof (zlen_nonneg rows); lia]).
  rewrite !Z.gtb_ltb, !(proj2 (Z.ltb_lt _ _)) by lia. by rewrite !andb_true_r.
Qed.

Lemma remove_bottom_rows rows nb : grid rows -> 0 < nb <= zlen rows ->
  remove_bottom nb (zlen rows) (mkResizing (concat rows) w (zlen rows)) =
  Ret (mkResizing (concat (take (Z.to_nat nb) rows)) w nb).
Proof.
  intros Hg Hnb. assert (Hsz := grid_size rows Hg).
  unfold remove_bottom. rewrite if_live_rows by (intros ->; unfold zlen in *; simpl in *; lia).
  cbn [cells currTileWidth currTileHeight]. destruct (Z.ltb_spec nb (zlen rows)).
  - rewrite Z.geb_leb, (proj2 (Z.leb_gt _ _)) by nia. unfold verase_range.
    rewrite (proj2 (Z.leb_le 0 _)), !(proj2 (Z.leb_le _ _)) by nia. cbn [andb obind].
    rewrite (drop_ge (concat rows)), app_nil_r by (unfold zlen; lia).
    assert (Hg' : grid (take (Z.to_nat nb) rows)) by (by apply Forall_take).
    assert (Hl : zlen (take (Z.to_nat nb) rows) = nb) by (unfold zlen in *; rewrite length_take; lia).
    rewrite Hsz, (concat_take_drop rows (Z.to_nat nb)).
    pose proof (grid_size _ Hg') as Hs'. rewrite Hl in Hs'.
    rewrite take_app_length' by (unfold zlen in *; nia). f_equal. f_equal. lia.
  - assert (nb = zlen rows) as -> by lia. rewrite take_ge by (unfold zlen; lia). done.
Qed.

Lemma remove_top_rows rows t : grid rows -> 0 <= t < zlen rows ->
  remove_top t 0 (mkResizing (concat rows) w (zlen rows)) =
  Ret (mkResizing (concat (drop (Z.to_nat t) rows)) w (zlen rows - t)).
Proof.
  intros Hg Ht. assert (Hsz := grid_size rows Hg).
  unfold remove_top. rewrite if_live_rows by (intros ->; unfold zlen in *; simpl in *; lia).
  cbn [cells currTileWidth currTileHeight]. rewrite Z.gtb_ltb. destruct (Z.ltb_spec 0 t).
  - rewrite Z.geb_leb, (proj2 (Z.leb_gt _ _)) by nia. unfold verase_range.
    rewrite (proj2 (Z.leb_le 0 0)), !(proj2 (Z.leb_le _ _)) by nia. cbn [andb obind].
    assert (Hg' : grid (take (Z.to_nat t) rows)) by (by apply Forall_take).
    assert (Hl : zlen (take (Z.to_nat t) rows) = t) by (unfold zlen in *; rewrite length_take; lia).
    rewrite (concat_take_drop rows (Z.to_nat t)).
    pose proof (grid_size _ Hg') as Hs'. rewrite Hl in Hs'. simpl.
    rewrite drop_app_length' by (unfold zlen in *; nia). f_equal. f_equal. lia.
  - assert (t = 0) as -> by lia. by rewrite Z.sub_0_r.
Qed.

Lemma remove_right_rows rows nr : grid rows -> rows <> [] -> 0 < nr <= w ->
  remove_right nr w (mkResizing (concat rows) w (zlen rows)) =
  Ret (mkResizing (concat (take (Z.to_nat nr) <$> rows)) nr (zlen rows)).
Proof.
  intros Hg Hne Hnr. unfold remove_right. rewrite if_live_rows by done.
  cbn [cells currTileWidth currTileHeight].
  destruct (Z.ltb_spec nr w).
  - rewrite Z.geb_leb, (proj2 (Z.leb_gt _ _)) by lia.
    replace (w - (w - nr)) with nr by lia. rewrite <- (app_nil_r (concat rows)).
    rewrite erase_columns_rows by (done || lia). cbn [obind]. rewrite !app_nil_r.
    f_equal. f_equal. f_equal. apply list_fmap_ext. intros i r Hr.
    rewrite drop_ge, app_nil_r; [done|].
    pose proof (Forall_lookup_1 _ _ _ _ Hg Hr) as E. cbn in E. unfold zlen in E. lia.
  - assert (nr = w) as -> by lia. f_equal. f_equal. f_equal.
    rewrite <- (list_fmap_id rows) at 1. apply list_fmap_ext. intros i r Hr.
    pose proof (Forall_lookup_1 _ _ _ _ Hg Hr) as E. cbn in E. unfold zlen in E.
    by rewrite take_ge by lia.
Qed.

Lemma remove_left_rows rows l : grid rows -> 0 <= l < w -> l < zlen rows ->
  remove_left l 0 (mkResizing (concat rows) w (zlen rows)) =
  Ret (mkResizing (concat (drop (Z.to_nat l) <$> rows)) (w - l) (zlen rows)).
Proof.
  intros Hg Hl Hh. unfold remove_left.
  rewrite if_live_rows by (intros ->; unfold zlen in *; simpl in *; lia).
  cbn [cells currTileWidth currTileHeight]. rewrite Z.gtb_ltb. destruct (Z.ltb_spec 0 l).
  - rewrite Z.geb_leb, (proj2 (Z.leb_gt _ _)) by lia. rewrite Z.sub_0_r.
    pose proof (erase_columns_rows rows 0 l [] Hg ltac:(lia) ltac:(lia) ltac:(lia)) as E.
    rewrite !app_nil_r in E. unfold erase_columns in *.
    erewrite for_each_ext; [rewrite E; done|]. intros i m. cbn beta. by rewrite Z.add_0_r.
  - assert (l = 0) as -> by lia. rewrite Z.sub_0_r. f_equal. f_equal. f_equal.
    by rewrite <- (list_fmap_id rows) at 1.
Qed.

(** The first step that can clear everything too early. *)
Lemma remove_left_clears rows l : grid rows -> rows <> [] -> 0 < l -> zlen rows <= l ->
  remove_left l 0 (mkResizing (concat rows) w (zlen rows)) = Ret (mkResizing [] 0 0).
Proof.
  intros Hg Hne Hl Hh. unfold remove_left. rewrite if_live_rows by done.
  cbn [currTileHeight]. rewrite Z.gtb_ltb, (proj2 (Z.ltb_lt _ _)) by lia.
  by rewrite Z.geb_leb, (proj2 (Z.leb_le _ _)) by lia.
Qed.
End rows.

(** ** Properties *)

Lemma zlen_take_drop {A} (l : list A) a n : 0 <= a -> 0 <= n -> a + n <= zlen l ->
  zlen (drop (Z.to_nat a) (take (Z.to_nat (a + n)) l)) = n.
Proof. intros. unfold zlen in *. rewrite length_drop, length_take. lia. Qed.

Lemma zlen_ne {A} (l : list A) : 0 < zlen l -> l <> [].
Proof. by intros H ->. Qed.

Lemma grid_take w n rows : grid w rows -> grid w (take n rows).
Proof. apply Forall_take. Qed.
Lemma grid_drop w n rows : grid w rows -> grid w (drop n rows).
Proof. apply Forall_drop. Qed.

(** Cropping keeps the rows and columns of the window. *)
Lemma resize_rows_then w rows nh top :
  0 < w -> grid w rows -> 0 <= top -> 0 < nh -> top + nh <= zlen rows ->
  (let* r := remove_bottom (top + nh) (zlen rows) (mkResizing (concat rows) w (zlen rows)) in
   remove_top top 0 r) =
  Ret (mkResizing (concat (drop (Z.to_nat top) (take (Z.to_nat (top + nh)) rows))) w nh).
Proof.
  intros Hw Hg Ht Hnh Hb. rewrite remove_bottom_rows by (done || lia). cbn [obind].
  set (kept := take (Z.to_nat (top + nh)) rows).
  assert (Hl : zlen kept = top + nh) by (unfold kept, zlen in *; rewrite length_take; lia).
  rewrite <- Hl at 1. rewrite remove_top_rows by (try apply grid_take; done || lia).
  f_equal. f_equal. lia.
Qed.

(** Shrinking the fog of war to a window inside of the map keeps exactly
    the rows and columns of the window, provided the left edge moves by less
    than the new height. *)
Theorem mask_crop (rows : list (list Z)) (w nw nh left top : Z) :
  0 < w -> grid w rows -> 0 <= left -> 0 <= top -> 0 < nw -> 0 < nh ->
  left + nw <= w -> top + nh <= zlen rows -> left < nh ->
  MaskSection.setDimensions (concat rows) nw nh w (zlen rows) left top =
  Ret (concat ((fun r => drop (Z.to_nat left) (take (Z.to_nat (left + nw)) r)) <$>
    drop (Z.to_nat top) (take (Z.to_nat (top + nh)) rows))).
Proof.
  intros Hw Hg Hl Ht Hnw Hnh Hr Hb Hlh. unfold MaskSection.setDimensions, resize.
  pose proof (resize_rows_then w rows nh top Hw Hg Ht Hnh Hb) as Hrows.
  destruct (remove_bottom _ _ _) as [r1| |]; cbn [obind] in Hrows |- *; try discriminate.
  rewrite Hrows. cbn [obind].
  set (mid := drop (Z.to_nat top) (take (Z.to_nat (top + nh)) rows)) in *.
  assert (Hmid : grid w mid) by (by apply grid_drop, grid_take).
  assert (Hml : zlen mid = nh) by (apply zlen_take_drop; lia).
  rewrite <- Hml at 1. rewrite remove_right_rows; try done; [|by apply zlen_ne; lia|lia]. cbn [obind].
  set (mid' := take (Z.to_nat (left + nw)) <$> mid).
  assert (Hmid' : grid (left + nw) mid').
  { apply Forall_fmap. eapply Forall_impl; [exact Hmid|]. intros r Hlen. cbn in *.
    unfold zlen in *. rewrite length_take. lia. }
  assert (Hml' : zlen mid' = zlen mid) by (unfold mid', zlen; by rewrite length_fmap).
  rewrite <- Hml'. rewrite remove_left_rows by (done || lia). cbn [obind currTileWidth currTileHeight].
  rewrite !(proj2 (Z.eqb_neq _ _)) by lia. cbn [orb].
  unfold add_right, add_left, add_top, add_bottom. rewrite !Z.gtb_ltb.
  do 4 (rewrite (proj2 (Z.ltb_ge _ _)) by lia; cbn [obind]). cbn [cells].
  unfold mid'. by rewrite <- list_fmap_compose.
Qed.

Lemma mask_crop_witness :
  MaskSection.setDimensions (concat [[1;2;3;4];[5;6;7;8];[9;10;11;12]]) 2 2 4 3 1 1 = Ret [6;7;10;11].
Proof. apply (mask_crop [[1;2;3;4];[5;6;7;8];[9;10;11;12]] 4 2 2 1 1); try done. repeat constructor. Defined.

(** When the left edge moves by at least the new height, cropping clears
    the whole fog of war: the removal from the left compares the number of
    columns with the height. *)
Theorem mask_crop_left_clears (rows : list (list Z)) (w nw nh left top : Z) :
  0 < w -> grid w rows -> 0 <= top -> 0 < nw -> 0 < nh -> 0 < left ->
  left + nw <= w -> top + nh <= zlen rows -> nh <= left ->
  MaskSection.setDimensions (concat rows) nw nh w (zlen rows) left top = Ret [].
Proof.
  intros Hw Hg Ht Hnw Hnh Hl Hr Hb Hlh. unfold MaskSection.setDimensions, resize.
  pose proof (resize_rows_then w rows nh top Hw Hg Ht Hnh Hb) as Hrows.
  destruct (remove_bottom _ _ _) as [r1| |]; cbn [obind] in Hrows |- *; try discriminate.
  rewrite Hrows. cbn [obind].
  set (mid := drop (Z.to_nat top) (take (Z.to_nat (top + nh)) rows)) in *.
  assert (Hmid : grid w mid) by (by apply grid_drop, grid_take).
  assert (Hml : zlen mid = nh) by (apply zlen_take_drop; lia).
  rewrite <- Hml at 1. rewrite remove_right_rows; try done; [|by apply zlen_ne; lia|lia]. cbn [obind].
  set (mid' := take (Z.to_nat (left + nw)) <$> mid).
  assert (Hmid' : grid (left + nw) mid').
  { apply Forall_fmap. eapply Forall_impl; [exact Hmid|]. intros r Hlen. cbn in *.
    unfold zlen in *. rewrite length_take. lia. }
  assert (Hml' : zlen mid' = zlen mid) by (unfold mid', zlen; by rewrite length_fmap).
  rewrite <- Hml'. rewrite remove_left_clears; try done; try lia.
  apply zlen_ne. lia.
Qed.

Lemma mask_crop_left_clears_witness :
  MaskSection.setDimensions (concat [[1;2;3;4];[5;6;7;8]]) 2 2 4 2 2 0 = Ret [].
Proof. apply (mask_crop_left_clears [[1;2;3;4];[5;6;7;8]] 4 2 2 2 0); try done. repeat constructor. Defined.

Lemma resize_no_removal tiles nw nh w h left top :
  left <= 0 -> top <= 0 -> w <= left + nw -> h <= top + nh -> 0 < w -> 0 < h ->
  resize tiles nw nh w h left top =
  (let* r := add_right (left + nw) w (mkResizing tiles w h) in
   let* r := add_left left 0 r in let* r := add_top top 0 r in
   let* r := add_bottom (top + nh) h r in Ret (cells r)).
Proof.
  intros Hl Ht Hr Hb Hw Hh. unfold resize, remove_bottom, remove_top, remove_right, remove_left, if_live.
  rewrite !Z.gtb_ltb.
  rewrite (proj2 (Z.ltb_ge (top + nh) h)), (proj2 (Z.ltb_ge 0 top)) by lia. cbn [andb obind].
  rewrite (proj2 (Z.ltb_ge (left + nw) w)), (proj2 (Z.ltb_ge 0 left)) by lia. cbn [andb obind].
  cbn [currTileWidth currTileHeight]. by rewrite !(proj2 (Z.eqb_neq _ _)) by lia.
Qed.

Lemma add_top_zeros l w h n : 0 <= n ->
  add_top (- n) 0 (mkResizing l w h) = Ret (mkResizing (replicate (Z.to_nat (w * n)) 0 ++ l) w (h + n)).
Proof.
  intros Hn. unfold add_top, vinsertn. cbn [cells currTileWidth currTileHeight].
  destruct (Z.ltb_spec (- n) 0).
  - rewrite (proj2 (Z.leb_le _ _) (zlen_nonneg _)). cbn [andb Z.leb Z.compare obind].
    replace (0 - - n) with n by lia. done.
  - assert (n = 0) as -> by lia. by rewrite Z.add_0_r, Z.mul_0_r.
Qed.

Lemma add_bottom_zeros l w h oldBottom n : 0 <= n ->
  add_bottom (oldBottom + n) oldBottom (mkResizing l w h) =
  Ret (mkResizing (l ++ replicate (Z.to_nat (w * n)) 0) w h).
Proof.
  intros Hn. unfold add_bottom, vinsertn. cbn [cells currTileWidth currTileHeight]. rewrite Z.gtb_ltb.
  destruct (Z.ltb_spec oldBottom (oldBottom + n)).
  - rewrite (proj2 (Z.leb_le 0 _) (zlen_nonneg _)), (proj2 (Z.leb_le _ _)) by lia. cbn [andb obind].
    rewrite take_ge, drop_ge, app_nil_r by (unfold zlen; lia).
    by replace (oldBottom + n - oldBottom) with n by lia.
  - assert (n = 0) as -> by lia. by rewrite Z.mul_0_r, app_nil_r.
Qed.

Lemma replicate_rows w n : 0 <= w -> 0 <= n -> replicate (Z.to_nat (w * n)) 0 =
  concat (replicate (Z.to_nat n) (replicate (Z.to_nat w) 0)).
Proof.
  intros Hw Hn. rewrite <- (Z2Nat.id n) by done. rewrite Nat2Z.id.
  induction (Z.to_nat n) as [|m IH]; [by rewrite Z.mul_0_r|].
  replace (Z.to_nat (w * Z.of_nat (S m))) with (Z.to_nat w + Z.to_nat (w * Z.of_nat m))%nat by lia.
  by rewrite replicate_add, IH.
Qed.

(** Growing the fog of war at the top and the bottom adds rows of zeros
    there and keeps every row. *)
Theorem mask_grow_rows (rows : list (list Z)) (w above below : Z) :
  0 < w -> grid w rows -> rows <> [] -> 0 <= above -> 0 <= below ->
  MaskSection.setDimensions (concat rows) w (above + zlen rows + below) w (zlen rows) 0 (- above) =
  Ret (concat (replicate (Z.to_nat above) (replicate (Z.to_nat w) 0) ++ rows ++
               replicate (Z.to_nat below) (replicate (Z.to_nat w) 0))).
Proof.
  intros Hw Hg Hne Ha Hb. unfold MaskSection.setDimensions.
  assert (0 < zlen rows) by (destruct rows; [done | rewrite zlen_cons; pose proof (zlen_nonneg rows); lia]).
  rewrite resize_no_removal by lia. unfold add_right, add_left.
  rewrite Z.gtb_ltb, (proj2 (Z.ltb_ge w (0 + w))) by lia. cbn [obind Z.ltb Z.compare].
  rewrite add_top_zeros by done. cbn [obind].
  replace (- above + (above + zlen rows + below)) with (zlen rows + below) by lia.
  rewrite add_bottom_zeros by done. cbn [obind cells].
  rewrite !replicate_rows, !concat_app by lia. by rewrite <- app_assoc.
Qed.

Lemma mask_grow_rows_witness :
  MaskSection.setDimensions (concat [[1;2];[3;4]]) 2 4 2 2 0 (-1) = Ret [0;0;1;2;3;4;0;0].
Proof. apply (mask_grow_rows [[1;2];[3;4]] 2 1 1); try done. repeat constructor. Defined.

(** Growing the fog of war by [n] columns to the right inserts them after
    column [n] of every row instead of after the last one, and inserts past
    the end of the vector when [n] exceeds the width. *)
Theorem mask_grow_right (rows : list (list Z)) (w n : Z) :
  0 < w -> grid w rows -> rows <> [] -> 0 < n ->
  MaskSection.setDimensions (concat rows) (w + n) (zlen rows) w (zlen rows) 0 0 =
  if n <=? w
  then Ret (concat ((fun r => take (Z.to_nat n) r ++ replicate (Z.to_nat n) 0 ++ drop (Z.to_nat n) r) <$> rows))
  else Undef.
Proof.
  intros Hw Hg Hne Hn. unfold MaskSection.setDimensions.
  assert (0 < zlen rows) by (destruct rows; [done | rewrite zlen_cons; pose proof (zlen_nonneg rows); lia]).
  rewrite resize_no_removal by lia. unfold add_right. rewrite Z.add_0_l, Z.gtb_ltb.
  rewrite (proj2 (Z.ltb_lt _ _)) by lia. cbn [cells currTileWidth currTileHeight].
  replace (w + n - w) with n by lia. destruct (Z.leb_spec n w).
  - rewrite <- (app_nil_r (concat rows)), insert_columns_rows by (done || lia).
    cbn [obind]. unfold add_left, add_top, add_bottom.
    rewrite Z.gtb_ltb, Z.add_0_l, Z.ltb_irrefl. cbn [Z.ltb Z.compare obind].
    rewrite Z.ltb_irrefl. cbn [cells obind]. by rewrite app_nil_r.
  - unfold insert_columns.
    destruct (range_snoc 0 (zlen rows - 1) ltac:(lia)).
    replace (range 0 (zlen rows)) with (range 0 (zlen rows - 1) ++ [zlen rows - 1]).
    + rewrite reverse_app. cbn [reverse rev_append app for_each]. unfold vinsertn.
      rewrite (grid_size w) by done.
      rewrite (proj2 (Z.leb_gt _ (zlen rows * w))) by nia. by rewrite andb_false_r.
    + rewrite <- range_snoc by lia. f_equal. lia.
Qed.

Lemma mask_grow_right_witness :
  MaskSection.setDimensions (concat [[1;2];[3;4]]) 3 2 2 2 0 0 = Ret [1;0;2;3;0;4].
Proof. apply (mask_grow_right [[1;2];[3;4]] 2 1); try done. repeat constructor. Defined.

(** The dimensions of MTXM and TILE never change: whatever the new
    dimensions, a call of [setDimensions] that returns leaves every tile as it
    was, also where [MaskSection::setDimensions], the same algorithm run in
    place, resizes. *)
Theorem tile_setDimensions_noop (tiles tiles' : list Z) (nw nh w h left top : Z) :
  MtxmSection.setDimensions tiles nw nh w h left top = Ret tiles' \/
  TileSection.setDimensions tiles nw nh w h left top = Ret tiles' ->
  tiles' = tiles /\ exists resized, MaskSection.setDimensions tiles nw nh w h left top = Ret resized.
Proof.
  unfold MtxmSection.setDimensions, TileSection.setDimensions, setMtxmOrTileDimensions,
    MaskSection.setDimensions.
  intros [H|H]; ret_inv; eauto.
Qed.

Lemma tile_setDimensions_noop_witness :
  MtxmSection.setDimensions [1;2;3;4] 2 1 2 2 0 0 = Ret [1;2;3;4] /\
  MaskSection.setDimensions [1;2;3;4] 2 1 2 2 0 0 = Ret [1;2] /\ [1;2;3;4] = [1;2;3;4].
Proof.
  split; [reflexivity|]. split; [reflexivity|].
  exact (proj1 (tile_setDimensions_noop [1;2;3;4] [1;2;3;4] 2 1 2 2 0 0 (or_introl eq_refl))).
Defined.

(** The terrain sections round trip: whatever the section held before,
    reading the bytes a section wrote gives its tiles back and consumes
    exactly them. *)
Theorem terrain_roundtrip (tiles prior : list Z) (fog priorFog : list Z)
    (isom priorIsom : list IsomEntry.IsomEntry) (rest : bytes) :
  Forall (is_u 16) tiles -> Forall (is_u 16) prior -> Forall (is_u 8) fog -> Forall (is_u 8) priorFog ->
  Forall (cwf IsomEntry.layout) isom ->
  MtxmSection.read (2 * zlen tiles) (mkIstream (MtxmSection.write tiles ++ rest) true) false prior =
    Ret (tiles, 2 * zlen tiles, mkIstream rest true) /\
  TileSection.read (2 * zlen tiles) (mkIstream (TileSection.write tiles ++ rest) true) false prior =
    Ret (tiles, 2 * zlen tiles, mkIstream rest true) /\
  MaskSection.read (zlen fog) (mkIstream (MaskSection.write fog ++ rest) true) false priorFog =
    Ret (fog, zlen fog, mkIstream rest true) /\
  IsomSection.read (8 * zlen isom) (mkIstream (IsomSection.write isom ++ rest) true) priorIsom =
    Ret (isom, 8 * zlen isom, mkIstream rest true).
Proof.
  intros Ht Hp Hf Hpf Hi. split_and!.
  - exact (read_tiles_roundtrip u16c ltac:(simpl; lia) ltac:(done) tiles prior rest Ht Hp).
  - exact (read_tiles_roundtrip u16c ltac:(simpl; lia) ltac:(done) tiles prior rest Ht Hp).
  - pose proof (read_tiles_roundtrip u8c ltac:(simpl; lia) ltac:(done) fog priorFog rest Hf Hpf) as E.
    change (elem_size u8c) with 1 in E. by rewrite Z.mul_1_l in E.
  - unfold IsomSection.read, IsomSection.write. destruct isom as [|e isom]; [done|].
    set (es := e :: isom) in *. assert (Hlen : 0 < zlen es) by (unfold es; rewrite zlen_cons; pose proof (zlen_nonneg isom); lia).
    rewrite (proj2 (Z.ltb_ge _ _)) by lia. rewrite Z.gtb_ltb, (proj2 (Z.ltb_lt _ _)) by lia.
    change 8 with (elem_size IsomEntry.layout). rewrite read_count_exact by (simpl; lia).
    rewrite <- (arr_enc_zlen IsomEntry.layout es) by done. rewrite istream_read_app.
    rewrite vec_store_enc; try done; try (apply _).
    + cbn [obind]. rewrite drop_ge, app_nil_r; [done|]. rewrite length_replicate. unfold zlen; lia.
    + by apply Forall_replicate.
    + rewrite length_replicate. unfold zlen; lia.
Qed.

Lemma terrain_roundtrip_witness :
  MtxmSection.read 4 (mkIstream [1;2;3;4;5] true) false [9;9;9] = Ret ([513;1027], 4, mkIstream [5] true).
Proof.
  apply (terrain_roundtrip [513;1027] [9;9;9] [] [] [] [] [5]);
    repeat (apply Forall_cons; split); try apply Forall_nil; vm_compute; split; congruence.
Defined.

(** An overriding read of a non-empty MTXM, TILE or MASK section replaces
    the tiles it has and keeps the ones past its end; only MTXM keeps its
    tiles when the overriding section is empty. *)
Theorem terrain_override (tiles prior : list Z) (rest : bytes) (ist : istream) :
  Forall (is_u 16) tiles -> Forall (is_u 16) prior -> tiles <> [] ->
  MtxmSection.read (2 * zlen tiles) (mkIstream (MtxmSection.write tiles ++ rest) true) true prior =
    Ret (tiles ++ drop (length tiles) prior, 2 * zlen tiles, mkIstream rest true) /\
  TileSection.read (2 * zlen tiles) (mkIstream (TileSection.write tiles ++ rest) true) true prior =
    Ret (tiles ++ drop (length tiles) prior, 2 * zlen tiles, mkIstream rest true) /\
  MtxmSection.read 0 ist true prior = Ret (prior, 0, ist) /\
  TileSection.read 0 ist true prior = Ret ([], 0, ist) /\
  MaskSection.read 0 ist true prior = Ret ([], 0, ist).
Proof.
  intros Ht Hp Hne. split_and!; try done.
  - by apply (read_tiles_enc u16c ltac:(simpl; lia) ltac:(done) _ true tiles prior rest).
  - by apply (read_tiles_enc u16c ltac:(simpl; lia) ltac:(done) _ true tiles prior rest).
Qed.

Lemma terrain_override_witness :
  MtxmSection.read 2 (mkIstream [1;2] true) true [9;9] = Ret ([513;9], 2, mkIstream [] true).
Proof.
  apply (terrain_override [513] [9;9] [] (mkIstream [] true));
    repeat (apply Forall_cons; split); try apply Forall_nil; try done; vm_compute; split; congruence.
Defined.

(** The size a terrain section announces is the number of bytes it
    writes, as long as that fits a section size. *)
Theorem terrain_size (tiles fog : list Z) (isom : list IsomEntry.IsomEntry) :
  Forall (is_u 16) tiles -> Forall (is_u 8) fog -> Forall (cwf IsomEntry.layout) isom ->
  2 * zlen tiles < 2 ^ 31 -> zlen fog < 2 ^ 31 -> 8 * zlen isom < 2 ^ 31 ->
  MtxmSection.getSize tiles = zlen (MtxmSection.write tiles) /\
  TileSection.getSize tiles = zlen (TileSection.write tiles) /\
  MaskSection.getSize fog = zlen (MaskSection.write fog) /\
  IsomSection.getSize isom = zlen (IsomSection.write isom).
Proof.
  intros Ht Hf Hi Hlt Hlf Hli.
  assert (E : forall A (c : codec A) (l : list A), 0 <= elem_size c * zlen l < 2 ^ 31 ->
    s32 (u64 (elem_size c * zlen l)) = elem_size c * zlen l).
  { intros A c l H. unfold u64. rewrite (Z.mod_small _ (2 ^ 64)) by lia. apply s32_id. lia. }
  unfold MtxmSection.getSize, TileSection.getSize, MaskSection.getSize, IsomSection.getSize, size_tiles,
    MtxmSection.write, TileSection.write, MaskSection.write, IsomSection.write, write_tiles.
  pose proof (zlen_nonneg tiles). pose proof (zlen_nonneg fog). pose proof (zlen_nonneg isom).
  rewrite !arr_enc_zlen by (try done; apply _).
  split_and!; apply E; cbn [elem_size csize le_codec]; unfold elem_size; simpl csize; lia.
Qed.

Lemma terrain_size_witness : MtxmSection.getSize [513] = zlen (MtxmSection.write [513]).
Proof.
  apply (terrain_size [513] [] []); repeat (apply Forall_cons; split); try apply Forall_nil;
    vm_compute; try split; congruence.
Defined.

(** Tile accesses: in range [getTile] returns the tile and [setTile]
    changes only that tile; past the end both throw. *)
Theorem tile_access (tiles : list Z) (i v : Z) :
  0 <= i ->
  (zlen tiles <= i /\ MtxmSection.getTile tiles i = Throw OutOfRange /\
     MtxmSection.setTile tiles i v = Throw OutOfRange) \/
  (i < zlen tiles /\ is_ret (MtxmSection.getTile tiles i) /\
     exists tiles', MtxmSection.setTile tiles i v = Ret tiles' /\ zlen tiles' = zlen tiles /\
       forall j, 0 <= j -> MtxmSection.getTile tiles' j =
         if decide (j = i) then Ret v else MtxmSection.getTile tiles j).
Proof.
  intros Hi. unfold MtxmSection.getTile, MtxmSection.setTile, get_tile, set_tile, get_at, set_at.
  destruct (Z.ltb_spec i (zlen tiles)); [right | by left].
  split; [done|]. destruct (vget_in tiles i) as (a & _ & ->); [lia|]. split; [by eexists|].
  rewrite vset_in by lia. eexists. split; [done|]. rewrite zlen_insert. split; [done|].
  intros j Hj. rewrite vget_vset by lia. case_decide; [|done].
  subst j. by rewrite (proj2 (Z.ltb_lt _ _)) by lia.
Qed.

Lemma tile_access_witness : MtxmSection.getTile [7] 0 = Ret 7 /\ is_ret (MtxmSection.getTile [7] 0).
Proof.
  split; [reflexivity|].
  destruct (tile_access [7] 0 9) as [[H _]|[_ [H _]]]; [done | vm_compute in H; congruence | exact H].
Defined.

(** Resizing ISOM leaves one entry per tile of the new map: the first old
    entries, completed with blank ones.  A new map of the same size has
    [(width/2 + 1) * (height + 1)] entries instead. *)
Theorem isom_setDimensions_count (entries : list IsomEntry.IsomEntry) (nw nh w h left top : Z) :
  0 <= nw -> 0 <= nh ->
  exists entries', IsomSection.setDimensions entries nw nh w h left top = Ret entries' /\
    zlen entries' = nw * nh /\
    entries' = take (Z.to_nat (nw * nh)) entries ++
      replicate (Z.to_nat (nw * nh) - length entries) IsomSection.blank /\
    zlen (IsomSection.GetDefault nw nh) = (nw / 2 + 1) * (nh + 1).
Proof.
  intros Hw Hh. set (n := nw * nh). assert (Hn : 0 <= n) by (unfold n; nia).
  assert (Hd : zlen (IsomSection.GetDefault nw nh) = (nw / 2 + 1) * (nh + 1)).
  { unfold IsomSection.GetDefault. apply zlen_replicate. pose proof (Z.div_pos nw 2 Hw ltac:(lia)). nia. }
  assert (Hpush : forall is_ l, for_each (fun (_ : Z) l => Ret (l ++ [IsomSection.blank])) is_ l =
    Ret (l ++ replicate (length is_) IsomSection.blank)).
  { intros is_. induction is_ as [|i is_ IH]; intros l; cbn; [by rewrite app_nil_r|].
    rewrite IH. by rewrite <- app_assoc. }
  unfold IsomSection.setDimensions. fold n. rewrite Z.gtb_ltb.
  destruct (Z.ltb_spec (zlen entries) n); [|destruct (Z.ltb_spec n (zlen entries))]; unfold zlen in *.
  - rewrite Hpush. eexists. split; [done|]. rewrite ?range_seqZ. rewrite length_seqZ.
    rewrite length_app, length_replicate, take_ge by lia. split; [lia|]. split; [|done].
    f_equal. f_equal. lia.
  - unfold verase_range, zlen. rewrite !(proj2 (Z.leb_le _ _)) by lia. cbn [andb].
    rewrite drop_ge, app_nil_r by lia. eexists. split; [done|]. rewrite length_take.
    split; [lia|]. split; [|done].
    replace (Z.to_nat n - length entries)%nat with 0%nat by lia. by rewrite app_nil_r.
  - eexists. split; [done|]. split; [lia|]. split; [|done].
    rewrite take_ge by lia. replace (Z.to_nat n - length entries)%nat with 0%nat by lia.
    by rewrite app_nil_r.
Qed.

Lemma isom_setDimensions_count_witness :
  exists entries', IsomSection.setDimensions (IsomSection.GetDefault 2 2) 4 4 2 2 0 0 = Ret entries' /\
    zlen entries' = 16 /\ zlen (IsomSection.GetDefault 4 4) = 15.
Proof.
  destruct (isom_setDimensions_count (IsomSection.GetDefault 2 2) 4 4 2 2 0 0) as (e & He & Hl & _ & Hd);
    [lia | lia | exists e; auto].
Defined.
