(* ===== verification/Objects.v ===== *)
(** The sections that are lists of placed objects: UNIT, DD2 (doodads) and
    THG2 (sprites) of Sections.cpp.  A section is the vector of the objects
    its shared pointers point to; the sections only rearrange the pointers
    and never change an object, and their pointers are never null. *)
From S2P Require Import Prelude Codec ChkTypes ChkSection Accessors Terrain.
Open Scope Z_scope.

(** ** Operations on a vector of objects *)

Section objects.
Context {A : Type} (c : codec A).

Definition num_objects (l : list A) : Z := zlen l.

Definition get_object (l : list A) (i : Z) : outcome A := vget l i.

Definition add_object (l : list A) (x : A) : list A * Z := (l ++ [x], zlen (l ++ [x]) - 1).

Definition insert_object (l : list A) (i : Z) (x : A) : outcome (list A) :=
  if i <? zlen l then vinsert l i x
  else if i =? zlen l then Ret (l ++ [x])
  else Ret l.

Definition delete_object (l : list A) (i : Z) : outcome (list A) :=
  if i <? zlen l then verase l i else Ret l.

(** [v[i].swap(v[j])] *)
Definition vswap (l : list A) (i j : Z) : outcome (list A) :=
  let* a := vget l i in
  let* b := vget l j in
  let* l := vset l i b in
  vset l j a.

Definition move_object (l : list A) (indexFrom indexTo : Z) : outcome (list A) :=
  let indexMin := Z.min indexFrom indexTo in
  let indexMax := Z.max indexFrom indexTo in
  if (indexMax <? zlen l) && negb (indexFrom =? indexTo) then
    if (indexMax - indexMin =? 1) && (indexMax <? zlen l) then vswap l indexMin indexMax
    else
      let* x := vget l indexFrom in
      let* l := verase l indexFrom in
      vinsert l (indexTo - 1) x
  else Ret l.

(** [sizeof(Object)*objects.size()] as a section size. *)
Definition size_objects (l : list A) : Z := s32 (u64 (elem_size c * zlen l)).

(** [std::vector<Object> buffer(n)]: zeroed objects. *)
Definition zeroed (n : Z) : list A := replicate (Z.to_nat n) (cdec c (replicate (csize c) 0)).

(** [read] of UNIT and THG2. *)
Definition read_objects (sizeInBytes : Z) (ist : istream) (append : bool) (l : list A)
    : outcome (list A * Z * istream) :=
  if sizeInBytes <? 0 then Throw NegativeSectionSize
  else
    let readSize := sizeInBytes in
    if readSize >? 0 then
      let buffer := zeroed (read_count c readSize) in
      let '(got, ist') := istream_read ist readSize in
      let* buffer := vec_store c buffer got in
      Ret (if append then l ++ buffer else buffer, zlen got, ist')
    else if negb append then Ret ([], 0, ist)
    else Ret (l, 0, ist).

Definition write_objects (l : list A) : bytes := arr_enc c l.
End objects.

(** ** The sections *)

Module UnitSection.
Definition GetDefault : list Unit.Unit := [].
Definition numUnits (units : list Unit.Unit) : Z := num_objects units.
Definition getUnit (units : list Unit.Unit) (unitIndex : Z) : outcome Unit.Unit :=
  get_object units unitIndex.
Definition addUnit (units : list Unit.Unit) (unit : Unit.Unit) : list Unit.Unit * Z :=
  add_object units unit.
Definition insertUnit (units : list Unit.Unit) (unitIndex : Z) (unit : Unit.Unit)
    : outcome (list Unit.Unit) := insert_object units unitIndex unit.
Definition deleteUnit (units : list Unit.Unit) (unitIndex : Z) : outcome (list Unit.Unit) :=
  delete_object units unitIndex.
Definition moveUnit (units : list Unit.Unit) (unitIndexFrom unitIndexTo : Z)
    : outcome (list Unit.Unit) := move_object units unitIndexFrom unitIndexTo.
Definition getSize (units : list Unit.Unit) : Z := size_objects Unit.layout units.
Definition read (sizeInBytes : Z) (ist : istream) (append : bool) (units : list Unit.Unit)
    : outcome (list Unit.Unit * Z * istream) :=
  read_objects Unit.layout sizeInBytes ist append units.
Definition write (units : list Unit.Unit) : bytes := write_objects Unit.layout units.
End UnitSection.

Module Dd2Section.
Definition GetDefault : list Doodad.Doodad := [].
Definition numDoodads (doodads : list Doodad.Doodad) : Z := num_objects doodads.
Definition getDoodad (doodads : list Doodad.Doodad) (doodadIndex : Z) : outcome Doodad.Doodad :=
  get_object doodads doodadIndex.
Definition addDoodad (doodads : list Doodad.Doodad) (doodad : Doodad.Doodad)
    : list Doodad.Doodad * Z := add_object doodads doodad.
Definition insertDoodad (doodads : list Doodad.Doodad) (doodadIndex : Z) (doodad : Doodad.Doodad)
    : outcome (list Doodad.Doodad) := insert_object doodads doodadIndex doodad.
Definition deleteDoodad (doodads : list Doodad.Doodad) (doodadIndex : Z)
    : outcome (list Doodad.Doodad) := delete_object doodads doodadIndex.
Definition moveDoodad (doodads : list Doodad.Doodad) (doodadIndexFrom doodadIndexTo : Z)
    : outcome (list Doodad.Doodad) := move_object doodads doodadIndexFrom doodadIndexTo.
Definition getSize (doodads : list Doodad.Doodad) : Z := size_objects Doodad.layout doodads.
(** The doodads are replaced whether or not the section is appended. *)
Definition read (sizeInBytes : Z) (ist : istream) (append : bool) (doodads : list Doodad.Doodad)
    : outcome (list Doodad.Doodad * Z * istream) :=
  read_objects Doodad.layout sizeInBytes ist false doodads.
Definition write (doodads : list Doodad.Doodad) : bytes := write_objects Doodad.layout doodads.
End Dd2Section.

Module Thg2Section.
Definition GetDefault : list Sprite.Sprite := [].
Definition numSprites (sprites : list Sprite.Sprite) : Z := num_objects sprites.
Definition getSprite (sprites : list Sprite.Sprite) (spriteIndex : Z) : outcome Sprite.Sprite :=
  get_object sprites spriteIndex.
Definition addSprite (sprites : list Sprite.Sprite) (sprite : Sprite.Sprite)
    : list Sprite.Sprite * Z := add_object sprites sprite.
Definition insertSprite (sprites : list Sprite.Sprite) (spriteIndex : Z) (sprite : Sprite.Sprite)
    : outcome (list Sprite.Sprite) := insert_object sprites spriteIndex sprite.
Definition deleteSprite (sprites : list Sprite.Sprite) (spriteIndex : Z)
    : outcome (list Sprite.Sprite) := delete_object sprites spriteIndex.
Definition moveSprite (sprites : list Sprite.Sprite) (spriteIndexFrom spriteIndexTo : Z)
    : outcome (list Sprite.Sprite) := move_object sprites spriteIndexFrom spriteIndexTo.
Definition getSize (sprites : list Sprite.Sprite) : Z := size_objects Sprite.layout sprites.
Definition read (sizeInBytes : Z) (ist : istream) (append : bool) (sprites : list Sprite.Sprite)
    : outcome (list Sprite.Sprite * Z * istream) :=
  read_objects Sprite.layout sizeInBytes ist append sprites.
Definition write (sprites : list Sprite.Sprite) : bytes := write_objects Sprite.layout sprites.
End Thg2Section.

(** ** Lemmas *)

Section objects_lemmas.
Context {A : Type} (c : codec A) `{!CodecOk c} (c_pos : (0 < csize c)%nat).

Lemma zeroed_wf n : Forall (cwf c) (zeroed c n).
Proof.
  apply Forall_replicate, dec_wf; [by apply Forall_replicate | by rewrite length_replicate].
Qed.

Lemma zeroed_length n : length (zeroed c n) = Z.to_nat n.
Proof. apply length_replicate. Qed.

Lemma read_objects_enc append l l' rest : Forall (cwf c) l' ->
  read_objects c (elem_size c * zlen l') (mkIstream (write_objects c l' ++ rest) true) append l =
  Ret (if append then l ++ l' else l', elem_size c * zlen l', mkIstream rest true).
Proof.
  intros Hl'. unfold read_objects, write_objects. destruct l' as [|x l'].
  - change (zlen []) with 0. rewrite Z.mul_0_r. cbn. destruct append; cbn; [by rewrite app_nil_r | done].
  - set (k := x :: l') in *.
    assert (Hk : 0 < zlen k) by (unfold k; rewrite zlen_cons; pose proof (zlen_nonneg l'); lia).
    assert (Hpos : 0 < elem_size c * zlen k) by (unfold elem_size; lia).
    rewrite (proj2 (Z.ltb_ge _ _)) by lia. rewrite Z.gtb_ltb, (proj2 (Z.ltb_lt _ _)) by lia.
    rewrite read_count_exact by (done || lia). rewrite <- arr_enc_zlen, istream_read_app by done.
    rewrite vec_store_enc; [|apply _|apply zeroed_wf|done|rewrite zeroed_length; unfold zlen; lia].
    cbn [obind]. rewrite drop_ge, app_nil_r; [done|]. rewrite zeroed_length. unfold zlen; lia.
Qed.

(** How many objects a section of any size yields. *)
Lemma read_objects_count n bs rest l : 0 < n -> is_bytes bs -> zlen bs = n ->
  exists l', read_objects c n (mkIstream (bs ++ rest) true) false l = Ret (l', n, mkIstream rest true) /\
    Forall (cwf c) l' /\ zlen l' = n / elem_size c + n mod elem_size c.
Proof.
  intros Hn Hb Hl. subst n. unfold read_objects.
  rewrite (proj2 (Z.ltb_ge _ _)) by lia. rewrite Z.gtb_ltb, (proj2 (Z.ltb_lt _ _)) by lia.
  rewrite istream_read_app.
  assert (He : 0 < elem_size c) by (unfold elem_size; lia).
  pose proof (Z.div_mod (zlen bs) (elem_size c) ltac:(lia)) as Hdm.
  pose proof (Z.mod_pos_bound (zlen bs) (elem_size c) He) as Hm.
  pose proof (Z.div_pos (zlen bs) (elem_size c) ltac:(lia) He) as Hd.
  destruct (vec_store_ret c (zeroed c (read_count c (zlen bs))) bs) as (l' & Hr & Hrl & Hrw & _).
  - apply zeroed_wf.
  - done.
  - rewrite zeroed_length. unfold read_count. unfold zlen, elem_size in *. nia.
  - rewrite Hr. cbn [obind]. exists l'. split; [done|]. split; [done|].
    unfold zlen in *. rewrite Hrl, zeroed_length. unfold read_count, zlen. lia.
Qed.
End objects_lemmas.

Section list_lemmas.
Context {A : Type}.
Implicit Types (l : list A) (x : A).

Lemma vinsert_in l i x : 0 <= i <= zlen l ->
  vinsert l i x = Ret (take (Z.to_nat i) l ++ x :: drop (Z.to_nat i) l).
Proof. intros Hi. unfold vinsert. by rewrite !(proj2 (Z.leb_le _ _)) by lia. Qed.

Lemma verase_in l i : 0 <= i < zlen l -> verase l i = Ret (delete (Z.to_nat i) l).
Proof.
  intros Hi. unfold verase. by rewrite (proj2 (Z.leb_le _ _)), (proj2 (Z.ltb_lt _ _)) by lia.
Qed.

Lemma insert_object_in l i x : 0 <= i <= zlen l ->
  insert_object l i x = Ret (take (Z.to_nat i) l ++ x :: drop (Z.to_nat i) l).
Proof.
  intros Hi. unfold insert_object. destruct (Z.ltb_spec i (zlen l)); [by apply vinsert_in|].
  rewrite (proj2 (Z.eqb_eq _ _)) by lia. rewrite take_ge, drop_ge by (unfold zlen in *; lia). done.
Qed.

Lemma delete_inserted l i x : 0 <= i <= zlen l ->
  delete (Z.to_nat i) (take (Z.to_nat i) l ++ x :: drop (Z.to_nat i) l) = l.
Proof.
  intros Hi. assert (Hl : length (take (Z.to_nat i) l) = Z.to_nat i)
    by (rewrite length_take; unfold zlen in *; lia).
  rewrite <- Hl at 1. by rewrite delete_middle, take_drop.
Qed.

Lemma vswap_in l i j : 0 <= i < zlen l -> 0 <= j < zlen l ->
  exists a b, vget l i = Ret a /\ vget l j = Ret b /\
    vswap l i j = Ret (<[Z.to_nat j := a]> (<[Z.to_nat i := b]> l)).
Proof.
  intros Hi Hj. destruct (vget_in l i Hi) as (a & _ & Ha), (vget_in l j Hj) as (b & _ & Hb).
  exists a, b. split; [done|]. split; [done|]. unfold vswap. rewrite Ha, Hb. cbn [obind].
  rewrite vset_in by done. cbn [obind]. by rewrite vset_in by (by rewrite zlen_insert).
Qed.

(** Moving by more than one: the object ends up one place before the target. *)
Lemma move_object_far l from to_ : 0 <= from < zlen l -> 0 <= to_ < zlen l ->
  1 < Z.abs (from - to_) ->
  move_object l from to_ =
  if to_ =? 0 then Undef
  else let* x := vget l from in
       Ret (take (Z.to_nat (to_ - 1)) (delete (Z.to_nat from) l) ++
            x :: drop (Z.to_nat (to_ - 1)) (delete (Z.to_nat from) l)).
Proof.
  intros Hf Ht Hd. unfold move_object.
  rewrite (proj2 (Z.ltb_lt _ _)), (proj2 (Z.eqb_neq from to_)) by lia. cbn [andb negb].
  rewrite (proj2 (Z.eqb_neq _ 1)) by lia. cbn [andb].
  destruct (vget_in l from Hf) as (x & _ & ->). cbn [obind]. rewrite verase_in by done. cbn [obind].
  assert (Hdl : zlen (delete (Z.to_nat from) l) = zlen l - 1).
  { unfold zlen in *. rewrite length_delete; [lia|]. apply lookup_lt_is_Some_2. lia. }
  destruct (Z.eqb_spec to_ 0) as [->|Hne]; [done|]. apply vinsert_in. lia.
Qed.
End list_lemmas.

(** ** Properties *)

(** UNIT, DD2 and THG2 read back exactly the objects they wrote; an
    appended UNIT or THG2 section adds its objects after the present ones,
    an appended DD2 section replaces them. *)
Theorem objects_roundtrip (append : bool) (units units' : list Unit.Unit)
    (doodads doodads' : list Doodad.Doodad) (sprites sprites' : list Sprite.Sprite) (rest : bytes) :
  Forall (cwf Unit.layout) units' -> Forall (cwf Doodad.layout) doodads' ->
  Forall (cwf Sprite.layout) sprites' ->
  UnitSection.read (36 * zlen units') (mkIstream (UnitSection.write units' ++ rest) true) append units =
    Ret (if append then units ++ units' else units', 36 * zlen units', mkIstream rest true) /\
  Dd2Section.read (8 * zlen doodads') (mkIstream (Dd2Section.write doodads' ++ rest) true) append doodads =
    Ret (doodads', 8 * zlen doodads', mkIstream rest true) /\
  Thg2Section.read (10 * zlen sprites') (mkIstream (Thg2Section.write sprites' ++ rest) true) append sprites =
    Ret (if append then sprites ++ sprites' else sprites', 10 * zlen sprites', mkIstream rest true).
Proof.
  intros Hu Hd Hs. split_and!.
  - exact (read_objects_enc Unit.layout ltac:(simpl; lia) append units units' rest Hu).
  - exact (read_objects_enc Doodad.layout ltac:(simpl; lia) false doodads doodads' rest Hd).
  - exact (read_objects_enc Sprite.layout ltac:(simpl; lia) append sprites sprites' rest Hs).
Qed.

Lemma objects_roundtrip_witness :
  Dd2Section.read 8 (mkIstream [1;0;2;0;3;0;4;1;99] true) true [] =
    Ret ([Doodad.mkDoodad 1 2 3 4 1], 8, mkIstream [99] true).
Proof.
  apply (objects_roundtrip true [] [] [] [Doodad.mkDoodad 1 2 3 4 1] [] [] [99]);
    [by apply Forall_nil | | by apply Forall_nil].
  apply Forall_singleton. solve_default.
Defined.

(** A UNIT section of [n] bytes yields [n / 36 + n mod 36] units: a
    partial unit at the end makes as many units as it has bytes, instead of
    one. *)
Theorem unit_partial_count (n : Z) (bs rest : bytes) (units : list Unit.Unit) :
  0 < n -> is_bytes bs -> zlen bs = n ->
  exists units', UnitSection.read n (mkIstream (bs ++ rest) true) false units
      = Ret (units', n, mkIstream rest true) /\
    Forall (cwf Unit.layout) units' /\ UnitSection.numUnits units' = n / 36 + n mod 36.
Proof.
  intros Hn Hb Hl.
  exact (read_objects_count Unit.layout ltac:(simpl; lia) n bs rest units Hn Hb Hl).
Qed.

Lemma unit_partial_count_witness : exists units',
  UnitSection.read 41 (mkIstream (replicate 41 7 ++ []) true) false [] = Ret (units', 41, mkIstream [] true) /\
  UnitSection.numUnits units' = 6.
Proof.
  destruct (unit_partial_count 41 (replicate 41 7) [] []) as (us & Hr & _ & Hc);
    [lia | | reflexivity | exists us; auto].
  apply Forall_replicate. vm_compute. split; congruence.
Defined.

(** Inserting a unit at an index up to the number of units and deleting
    that index gives the units back; past the end both change nothing; an
    added unit is found under the returned index. *)
Theorem unit_insert_delete (units : list Unit.Unit) (i : Z) (unit : Unit.Unit) :
  0 <= i ->
  exists units', UnitSection.insertUnit units i unit = Ret units' /\
    (if i <=? UnitSection.numUnits units
     then UnitSection.deleteUnit units' i = Ret units /\ UnitSection.getUnit units' i = Ret unit
     else units' = units /\ UnitSection.deleteUnit units i = Ret units) /\
    let '(units'', last) := UnitSection.addUnit units unit in
    UnitSection.getUnit units'' last = Ret unit /\ UnitSection.deleteUnit units'' last = Ret units.
Proof.
  intros Hi. unfold UnitSection.insertUnit, UnitSection.deleteUnit, UnitSection.getUnit,
    UnitSection.numUnits, num_objects, UnitSection.addUnit, add_object, get_object.
  assert (Hone : forall j, 0 <= j <= zlen units -> insert_object units j unit =
      Ret (take (Z.to_nat j) units ++ unit :: drop (Z.to_nat j) units) /\
    delete_object (take (Z.to_nat j) units ++ unit :: drop (Z.to_nat j) units) j = Ret units /\
    vget (take (Z.to_nat j) units ++ unit :: drop (Z.to_nat j) units) j = Ret unit).
  { intros j Hj. split; [by apply insert_object_in|].
    assert (Hl : zlen (take (Z.to_nat j) units ++ unit :: drop (Z.to_nat j) units) = zlen units + 1).
    { rewrite zlen_app, zlen_cons. unfold zlen in *. rewrite length_take, length_drop. lia. }
    unfold delete_object. rewrite Hl, (proj2 (Z.ltb_lt _ _)), verase_in, delete_inserted by lia.
    split; [done|]. apply vget_Some; [lia|]. apply list_lookup_middle.
    rewrite length_take. unfold zlen in *; lia. }
  destruct (Hone (zlen units)) as (_ & Hdel & Hget); [pose proof (zlen_nonneg units); lia|].
  rewrite take_ge, drop_ge in Hdel, Hget by (unfold zlen; lia).
  destruct (Z.leb_spec i (zlen units)).
  - destruct (Hone i) as (H1 & H2 & H3); [lia|]. eexists. split; [exact H1|]. split; [done|].
    rewrite zlen_app. change (zlen [unit]) with 1. by replace (zlen units + 1 - 1) with (zlen units) by lia.
  - exists units. unfold insert_object, delete_object at 1.
    rewrite (proj2 (Z.ltb_ge i _)), (proj2 (Z.eqb_neq _ _)) by lia. split; [done|]. split; [done|].
    rewrite zlen_app. change (zlen [unit]) with 1. by replace (zlen units + 1 - 1) with (zlen units) by lia.
Qed.

Definition sampleUnit (n : Z) : Unit.Unit := Unit.mkUnit n 0 0 0 0 0 0 0 0 0 0 0 0 0 0 0.

Lemma unit_insert_delete_witness : exists units',
  UnitSection.insertUnit [sampleUnit 1; sampleUnit 2] 1 (sampleUnit 3) = Ret units' /\
  UnitSection.deleteUnit units' 1 = Ret [sampleUnit 1; sampleUnit 2].
Proof.
  destruct (unit_insert_delete [sampleUnit 1; sampleUnit 2] 1 (sampleUnit 3)) as (us & Hi & Hd & _);
    [lia | exists us; split; [exact Hi | exact (proj1 Hd)]].
Defined.

(** Moving a unit to a neighbouring index swaps the two units and keeps
    the others; moving it further inserts it one place before the index asked
    for, and has no defined behaviour when that index is 0. *)
Theorem unit_move (units : list Unit.Unit) (from to_ : Z) :
  0 <= from < zlen units -> 0 <= to_ < zlen units -> from <> to_ ->
  exists unit other, UnitSection.getUnit units from = Ret unit /\ UnitSection.getUnit units to_ = Ret other /\
    UnitSection.moveUnit units from to_ =
    if Z.abs (from - to_) =? 1
    then Ret (<[Z.to_nat to_ := unit]> (<[Z.to_nat from := other]> units))
    else if to_ =? 0 then Undef
    else Ret (take (Z.to_nat (to_ - 1)) (delete (Z.to_nat from) units) ++
              unit :: drop (Z.to_nat (to_ - 1)) (delete (Z.to_nat from) units)).
Proof.
  intros Hf Ht Hne. unfold UnitSection.getUnit, UnitSection.moveUnit, get_object.
  destruct (vget_in units from Hf) as (u & _ & Hu), (vget_in units to_ Ht) as (o & _ & Ho).
  exists u, o. split; [done|]. split; [done|]. destruct (Z.eqb_spec (Z.abs (from - to_)) 1) as [H1|H1].
  - unfold move_object. rewrite (proj2 (Z.ltb_lt _ _)), (proj2 (Z.eqb_neq from to_)) by lia.
    rewrite (proj2 (Z.eqb_eq _ 1)) by lia. cbn [andb negb].
    destruct (Z.min_spec from to_) as [[? ->]|[? ->]], (Z.max_spec from to_) as [[? ->]|[? ->]]; try lia.
    + destruct (vswap_in units from to_ Hf Ht) as (a & b & Ha & Hb & ->). congruence.
    + destruct (vswap_in units to_ from Ht Hf) as (a & b & Ha & Hb & ->).
      rewrite list_insert_insert_ne by lia. congruence.
  - rewrite move_object_far by lia. destruct (to_ =? 0); [done|]. by rewrite Hu.
Qed.

Lemma unit_move_witness :
  UnitSection.moveUnit (sampleUnit <$> [0;1;2;3]) 0 3 = Ret (sampleUnit <$> [1;2;0;3]) /\
  UnitSection.moveUnit (sampleUnit <$> [0;1;2;3]) 3 0 = Undef.
Proof.
  split.
  - destruct (unit_move (sampleUnit <$> [0;1;2;3]) 0 3) as (u & o & Hu & _ & ->);
      [by vm_compute | by vm_compute | lia|]. vm_compute in Hu. by injection Hu as <-.
  - reflexivity.
Defined.
