(* ===== verification/Locations.v ===== *)
(** The locations of a scenario: [MrgnSection] of Sections.cpp and
    [Chk::Location] of Chk.cpp.

    [locations] is the deque of nullable pointers, index 0 unused; a pointer
    is an [option], dereferencing null has no behaviour.  No two indices
    share a location object (every caller inserts a fresh one), so an
    assignment through a pointer changes one slot.  The trigger sections are
    reached through the abstract [LocationSynchronizer]; its two calls are
    parameters of [trimToOriginal] and [locationsFitOriginal]. *)
From S2P Require Import Prelude Codec ChkTypes ChkSection Accessors StringUsers Terrain Objects.
Open Scope Z_scope.

Definition deref {A} (p : option A) : outcome A :=
  match p with Some a => Ret a | None => Undef end.

(** [Chk::Location()] and [Chk::Location::isBlank]. *)
Definition blankLocation : Location.Location := Location.mkLocation 0 0 0 0 0 0.

Definition location_isBlank (l : Location.Location) : bool :=
  (Location.left l =? 0) && (Location.top l =? 0) && (Location.right l =? 0) &&
  (Location.bottom l =? 0) && (Location.stringId l =? 0) && (Location.elevationFlags l =? 0).

Module MrgnSection.
Abbreviation t := (list (option Location.Location)).

Definition GetDefault (tileWidth tileHeight : Z) : t :=
  [None] ++
  replicate (Z.to_nat (LocationId_Anywhere - 1)) (Some blankLocation) ++
  [Some (Location.mkLocation 0 0 (tileWidth * 32) (tileHeight * 32) 3 0)] ++
  replicate (Z.to_nat (TotalLocations - LocationId_Anywhere)) (Some blankLocation).

Definition numLocations (locations : t) : Z :=
  if zlen locations >? 0 then zlen locations - 1 else 0.

Definition getLocation (locations : t) (locationId : Z) : outcome (option Location.Location) :=
  vget locations locationId.

Definition isBlank (locations : t) (locationId : Z) : outcome bool :=
  if (locationId >? 0) && (locationId <? zlen locations) then
    let* location := vget locations locationId in
    Ret (match location with None => true | Some l => location_isBlank l end)
  else Ret false.

Definition addLocation (locations : t) (location : option Location.Location) : outcome (t * Z) :=
  let* found := first_such (isBlank locations) (range 1 (zlen locations)) in
  match found with
  | Some i => let* locations := vset locations i location in Ret (locations, i)
  | None => Ret (locations, LocationId_NoLocation)
  end.

Definition replaceLocation (locations : t) (locationId : Z) (location : option Location.Location)
    : outcome t :=
  if (locationId >? 0) && (locationId <? zlen locations) then
    let* blank := isBlank locations locationId in
    if blank then vset locations locationId location else Ret locations
  else Throw OutOfRange.

Definition deleteLocation (locations : t) (locationId : Z) : outcome t :=
  if (locationId >? 0) && (locationId <? zlen locations) then
    let* p := vget locations locationId in
    let* l := deref p in
    vset locations locationId (Some (l <| Location.stringId := 0 |> <| Location.left := 0 |>
      <| Location.right := 0 |> <| Location.top := 0 |> <| Location.bottom := 0 |>
      <| Location.elevationFlags := 0 |>))
  else Ret locations.

Definition moveLocation (locations : t) (locationIdFrom locationIdTo : Z) (lockAnywhere : bool)
    : outcome (t * bool) :=
  let locationIdMin := Z.min locationIdFrom locationIdTo in
  let locationIdMax := Z.max locationIdFrom locationIdTo in
  if (locationIdFrom >? 0) && (locationIdTo >? 0) && (locationIdMax <? zlen locations) &&
     negb (locationIdFrom =? locationIdTo) &&
     (negb lockAnywhere || (negb (locationIdMin =? LocationId_Anywhere) &&
                            negb (locationIdMax =? LocationId_Anywhere)))
  then
    if (locationIdMax - locationIdMin =? 1) && (locationIdMax <? zlen locations) then
      let* locations := vswap locations locationIdMin locationIdMax in Ret (locations, true)
    else
      let* location := vget locations locationIdFrom in
      let* locations := verase locations locationIdFrom in
      let* locations := vinsert locations (locationIdTo - 1) location in
      if lockAnywhere && (locationIdMin <? LocationId_Anywhere) &&
         (locationIdMax >? LocationId_Anywhere)
      then
        let* locations := vswap locations (LocationId_Anywhere - 1) LocationId_Anywhere in
        Ret (locations, true)
      else Ret (locations, false)
  else Ret (locations, false).

Definition appendUsage (locations : t) (stringId : Z) (stringUsers : list StringUser)
    : outcome (list StringUser) :=
  for_each (fun i stringUsers => let* location := vget locations i in
      match location with
      | Some l => if Location.stringId l =? stringId
                  then Ret (stringUsers ++ [mkStringUser StringUserFlag.Location i 0])
                  else Ret stringUsers
      | None => Ret stringUsers
      end)
    (range 0 (zlen locations)) stringUsers.

Definition stringUsed (locations : t) (stringId : Z) : outcome bool :=
  any_such (fun i => let* location := vget locations i in
      Ret (match location with
           | Some l => Location.stringId l =? u16 stringId
           | None => false
           end))
    (range 1 (zlen locations)).

Definition markNonZeroLocations (locations : t) (locationIdUsed : gset Z) : outcome (gset Z) :=
  let limit := Z.min TotalLocations (zlen locations) in
  for_each (fun i used => let* location := vget locations i in
      match location with
      | Some l => if location_isBlank l then Ret used else bs_set (TotalLocations + 1) used i
      | None => Ret used
      end)
    (range 1 limit) locationIdUsed.

Definition markUsedStrings (locations : t) (stringIdUsed : gset Z) : outcome (gset Z) :=
  for_each (fun i bs => let* p := vget locations i in
      let* l := deref p in
      if Location.stringId l >? 0 then bs_set MaxStrings bs (Location.stringId l) else Ret bs)
    (range 1 (zlen locations)) stringIdUsed.

Definition remapStringIds (locations : t) (remappings : gmap Z Z) : outcome t :=
  for_each (fun i locations => let* p := vget locations i in
      let* l := deref p in
      match remappings !! Location.stringId l with
      | Some w => vset locations i (Some (l <| Location.stringId := u16 w |>))
      | None => Ret locations
      end)
    (range 1 (zlen locations)) locations.

Definition deleteString (locations : t) (stringId : Z) : outcome t :=
  for_each (fun i locations => let* p := vget locations i in
      let* l := deref p in
      if Location.stringId l =? stringId
      then vset locations i (Some (l <| Location.stringId := 0 |>))
      else Ret locations)
    (range 1 (zlen locations)) locations.

(** The ids the counting loop counts. *)
Definition usedOrCreated (locationIdUsed : gset Z) (lockAnywhere : bool) : list Z :=
  filter (fun i => i ∈ locationIdUsed \/ (i = LocationId_Anywhere /\ lockAnywhere = true))
    (range 1 (TotalLocations + 1)).

Definition locationsFitOriginal (markUsedLocations : gset Z -> outcome (gset Z))
    (locations : t) (lockAnywhere autoDefragment : bool) : outcome bool :=
  let* locationIdUsed := markUsedLocations ∅ in
  let* locationIdUsed := markNonZeroLocations locations locationIdUsed in
  let countUsedOrCreated := zlen (usedOrCreated locationIdUsed lockAnywhere) in
  Ret (countUsedOrCreated <=? TotalOriginalLocations).

(** The state of the defragmentation. *)
Record Defragment := mkDefragment {
  d_locations : t; d_used : gset Z; d_remappings : gmap Z Z
}.

(** [i != Anywhere || !lockAnywhere] *)
Definition movable (lockAnywhere : bool) (i : Z) : bool :=
  negb (i =? LocationId_Anywhere) || negb lockAnywhere.

(** The body of the loop over [firstUnused]. *)
Definition fillUnused (lockAnywhere : bool) (firstUnused : Z) (d : Defragment) : outcome Defragment :=
  if negb (bool_decide (firstUnused ∈ d_used d)) && movable lockAnywhere firstUnused then
    let* found := first_such
      (fun i => Ret (bool_decide (i ∈ d_used d) && movable lockAnywhere i))
      (range (firstUnused + 1) (TotalLocations + 1)) in
    match found with
    | Some i =>
        let* moved := vget (d_locations d) i in
        let* locations := vset (d_locations d) firstUnused moved in
        let* locations := vset locations i (Some blankLocation) in
        Ret (mkDefragment locations ({[firstUnused]} ∪ (d_used d ∖ {[i]}))
               (match d_remappings d !! i with
                | Some _ => d_remappings d
                | None => <[i := firstUnused]> (d_remappings d)
                end))
    | None => Ret d
    end
  else Ret d.

(** [trimToOriginal]: the locations, the result, and what is passed to
    [LocationSynchronizer::remapLocationIds]. *)
Definition trimToOriginal (markUsedLocations : gset Z -> outcome (gset Z))
    (locations : t) (lockAnywhere autoDefragment : bool)
    : outcome (t * bool * option (gmap Z Z)) :=
  if zlen locations >? TotalOriginalLocations then
    let* locationIdUsed := markUsedLocations ∅ in
    let* locationIdUsed := markNonZeroLocations locations locationIdUsed in
    let countUsedOrCreated := zlen (usedOrCreated locationIdUsed lockAnywhere) in
    if countUsedOrCreated <=? TotalOriginalLocations then
      let* d := for_each (fillUnused lockAnywhere) (range 1 (TotalLocations + 1))
                  (mkDefragment locations locationIdUsed ∅) in
      let* locations := verase_range (d_locations d) (TotalOriginalLocations + 1)
                          (zlen (d_locations d)) in
      Ret (locations, true, Some (d_remappings d))
    else Ret (locations, false, None)
  else Ret (locations, false, None).

Definition expandToScHybridOrExpansion (locations : t) : t :=
  locations ++ ((fun _ => Some blankLocation) <$> range (zlen locations) (TotalLocations + 1)).

Definition getSize (locations : t) : Z := s32 (u64 (elem_size Location.layout * u64 (zlen locations - 1))).

Definition read (sizeInBytes : Z) (ist : istream) (append : bool) (locations : t)
    : outcome (t * Z * istream) :=
  if sizeInBytes <? 0 then Throw NegativeSectionSize
  else
    let readSize := sizeInBytes in
    if readSize >? 0 then
      let locationBuffer := zeroed Location.layout (read_count Location.layout readSize) in
      let '(got, ist') := istream_read ist readSize in
      let* locationBuffer := vec_store Location.layout locationBuffer got in
      Ret (if append then locations ++ (Some <$> locationBuffer)
           else [None] ++ (Some <$> locationBuffer), zlen got, ist')
    else if negb append then Ret ([None], 0, ist)
    else Ret (locations, 0, ist).

Definition write (locations : t) : outcome bytes :=
  for_each (fun i os => let* p := vget locations i in
      let* l := deref p in
      Ret (os ++ cenc Location.layout l))
    (range 1 (zlen locations)) [].
End MrgnSection.

Import MrgnSection.

(** ** Trimming to the original number of locations *)

Section trim.
Context (lock : bool) (L0 : list (option Location.Location)) (U0 : gset Z).

(** A location that is marked and may be moved. *)
Definition live (U : gset Z) (i : Z) : Prop :=
  1 <= i <= TotalLocations /\ i ∈ U /\ movable lock i = true.

(** Where a location is after the remapping. *)
Definition renamed (M : gmap Z Z) (i : Z) : Z := default i (M !! i).

(** The ids that count: marked, or the locked Anywhere. *)
Definition occupied (U : gset Z) : gset Z := list_to_set (usedOrCreated U lock).

Lemma elem_of_occupied U i :
  i ∈ occupied U <-> 1 <= i <= TotalLocations /\ (i ∈ U \/ movable lock i = false).
Proof.
  unfold occupied, usedOrCreated, movable.
  rewrite elem_of_list_to_set, list_elem_of_filter, elem_of_range.
  rewrite orb_false_iff, !negb_false_iff, Z.eqb_eq. unfold TotalLocations.
  split; intros; destruct_and?; split; try tauto; lia.
Qed.

Lemma occupied_size U : Z.of_nat (size (occupied U)) = zlen (usedOrCreated U lock).
Proof.
  unfold occupied, zlen. rewrite size_list_to_set; [done|].
  apply NoDup_filter. rewrite ?range_seqZ. apply NoDup_seqZ.
Qed.

(** What holds before the loop reaches [k]. *)
Record trim_inv (k : Z) (d : Defragment) : Prop := {
  ti_len : zlen (d_locations d) = zlen L0;
  ti_size : size (occupied (d_used d)) = size (occupied U0);
  ti_kept : forall u, live U0 u -> live (d_used d) (renamed (d_remappings d) u) /\
    vget (d_locations d) (renamed (d_remappings d) u) = vget L0 u;
  ti_locked : forall i, movable lock i = false -> vget (d_locations d) i = vget L0 i;
  ti_inj : forall u v, live U0 u -> live U0 v ->
    renamed (d_remappings d) u = renamed (d_remappings d) v -> u = v;
  ti_moved : forall u w, d_remappings d !! u = Some w -> live U0 u /\ w < k;
  ti_ahead : forall v, live (d_used d) v -> k <= v -> live U0 v /\ d_remappings d !! v = None;
  ti_compact : forall j v, 1 <= j < k -> movable lock j = true -> j ∉ d_used d ->
    live (d_used d) v -> v < j
}.

Lemma trim_inv_init : trim_inv 1 (mkDefragment L0 U0 ∅).
Proof.
  assert (Hr : forall u, renamed ∅ u = u) by (intros u; unfold renamed; by rewrite lookup_empty).
  split; cbn [d_locations d_used d_remappings].
  - done.
  - done.
  - intros u Hu. by rewrite Hr.
  - done.
  - intros u v _ _. by rewrite !Hr.
  - intros u w. by rewrite lookup_empty.
  - intros v Hv _. by rewrite lookup_empty.
  - intros j v Hj. lia.
Qed.

(** The next used location of the inner loop. *)
Lemma first_such_pure {A} (q : A -> bool) (l : list A) :
  exists o, first_such (fun a => Ret (q a)) l = Ret o /\
    match o with
    | Some a => a ∈ l /\ q a = true
    | None => forall a, a ∈ l -> q a = false
    end.
Proof.
  induction l as [|a l (o & Ho & Hs)]; cbn.
  - exists None. split; [done|]. by intros a ?%not_elem_of_nil.
  - destruct (q a) eqn:Hq.
    + exists (Some a). split; [done|]. split; [apply elem_of_cons; by left | done].
    + exists o. split; [done|]. destruct o as [b|].
      * destruct Hs. split; [apply elem_of_cons; by right | done].
      * intros b [->|Hb]%elem_of_cons; auto.
Qed.

(** A step that leaves the state as it is. *)
Lemma trim_inv_skip k d : 1 <= k -> trim_inv k d ->
  (k ∈ d_used d \/ movable lock k = false \/ forall v, live (d_used d) v -> v <= k) ->
  trim_inv (k + 1) d.
Proof.
  intros Hk [Hlen Hsize Hkept Hlocked Hinj Hmoved Hahead Hcompact] Hskip. split; auto.
  - intros u w Hw. destruct (Hmoved u w Hw). split; [done | lia].
  - intros v Hv Hle. apply Hahead; [done | lia].
  - intros j v Hj Hm Hn Hv. destruct (decide (j = k)) as [->|]; [|apply Hcompact; auto; lia].
    destruct Hskip as [Hin|[Hl|Hall]]; [done | congruence|].
    specialize (Hall v Hv). destruct (decide (v = k)) as [->|]; [|lia].
    destruct Hv as (_ & Hv & _). done.
Qed.

(** A step that moves location [i] to the unused id [k]. *)
Lemma trim_inv_move k i d moved : 1 <= k < i -> trim_inv k d ->
  k ∉ d_used d -> movable lock k = true -> live (d_used d) i -> i < zlen L0 ->
  vget (d_locations d) i = Ret moved ->
  trim_inv (k + 1) (mkDefragment
    (<[Z.to_nat i := Some blankLocation]> (<[Z.to_nat k := moved]> (d_locations d)))
    ({[k]} ∪ (d_used d ∖ {[i]})) (<[i := k]> (d_remappings d))).
Proof.
  intros Hk [Hlen Hsize Hkept Hlocked Hinj Hmoved Hahead Hcompact] Hkn Hkm Hi HiL Hget.
  destruct (Hahead i Hi ltac:(lia)) as [Hi0 Hnone].
  assert (HkT : 1 <= k <= TotalLocations) by (destruct Hi as (? & _); lia).
  assert (Hlook : forall j, 0 <= j -> vget (<[Z.to_nat i := Some blankLocation]>
      (<[Z.to_nat k := moved]> (d_locations d))) j =
    if decide (j = i) then Ret (Some blankLocation)
    else if decide (j = k) then Ret moved else vget (d_locations d) j).
  { intros j Hj. rewrite vget_vset by (rewrite ?zlen_insert; lia).
    case_decide; [done|]. by rewrite vget_vset by lia. }
  assert (Hren_i : renamed (<[i:=k]> (d_remappings d)) i = k)
    by (unfold renamed; by rewrite lookup_insert_eq).
  assert (Hren_ne : forall u, u <> i -> renamed (<[i:=k]> (d_remappings d)) u = renamed (d_remappings d) u)
    by (intros u Hu; unfold renamed; by rewrite lookup_insert_ne).
  assert (Hold_i : renamed (d_remappings d) i = i) by (unfold renamed; by rewrite Hnone).
  assert (Hne_i : forall u, live U0 u -> u <> i -> renamed (d_remappings d) u <> i).
  { intros u Hu Hne E. apply Hne. apply Hinj; auto. congruence. }
  assert (Hne_k : forall u, live U0 u -> renamed (d_remappings d) u <> k).
  { intros u Hu E. destruct (Hkept u Hu) as [(_ & Hin & _) _]. by rewrite E in Hin. }
  split; cbn [d_locations d_used d_remappings].
  - by rewrite !zlen_insert.
  - assert (E : occupied ({[k]} ∪ d_used d ∖ {[i]}) = {[k]} ∪ occupied (d_used d) ∖ {[i]}).
    { apply set_eq. intros j. rewrite elem_of_union, elem_of_difference, !elem_of_occupied.
      rewrite elem_of_union, elem_of_difference, !elem_of_singleton.
      destruct Hi as (HiT & _ & Him).
      destruct (decide (j = k)) as [->|]; [tauto|]. destruct (decide (j = i)) as [->|]; [|tauto].
      rewrite Him. split; intros; destruct_and?; destruct_or?; try tauto; try done; congruence. }
    assert (Hk' : k ∉ occupied (d_used d)).
    { rewrite elem_of_occupied. intros [_ [?|?]]; [done | congruence]. }
    assert (Hi' : i ∈ occupied (d_used d)).
    { rewrite elem_of_occupied. destruct Hi as (? & ? & _). auto. }
    rewrite E, size_union by set_solver. rewrite size_singleton, size_difference by set_solver.
    rewrite size_singleton, <- Hsize.
    assert (size (occupied (d_used d)) <> 0%nat).
    { intros Hz%size_empty_inv. set_solver. }
    lia.
  - intros u Hu. destruct (decide (u = i)) as [->|Hne].
    + rewrite Hren_i. destruct (Hkept i Hu) as [_ Hg]. rewrite Hold_i in Hg. split.
      * split; [done|]. split; [set_solver | done].
      * rewrite Hlook by lia. rewrite decide_False, decide_True by lia. congruence.
    + rewrite Hren_ne by done. destruct (Hkept u Hu) as [(Hr & Hin & Hm) Hg].
      assert (Hni := Hne_i u Hu Hne). assert (Hnk := Hne_k u Hu).
      split; [split; [done | split; [set_solver | done]]|].
      rewrite Hlook by lia. by rewrite !decide_False.
  - intros j Hj. destruct (decide (0 <= j)) as [Hpos|Hneg].
    + rewrite Hlook by done. destruct Hi as (_ & _ & Him).
      rewrite !decide_False by congruence. auto.
    + unfold vget. by rewrite (proj2 (Z.ltb_lt j 0)) by lia.
  - intros u v Hu Hv E. destruct (decide (u = i)) as [->|Hne], (decide (v = i)) as [->|Hne']; auto.
    + rewrite Hren_i, Hren_ne in E by done. by destruct (Hne_k v Hv).
    + rewrite Hren_i, Hren_ne in E by done. by destruct (Hne_k u Hu).
    + rewrite !Hren_ne in E by done. auto.
  - intros u w. destruct (decide (u = i)) as [->|Hne].
    + rewrite lookup_insert_eq. intros [= <-]. split; [done | lia].
    + rewrite lookup_insert_ne by done. intros Hw. destruct (Hmoved u w Hw). split; [done | lia].
  - intros v (Hr & Hin & Hm) Hle.
    rewrite elem_of_union, elem_of_difference, !elem_of_singleton in Hin.
    destruct Hin as [->|[Hvin Hvi]]; [lia|]. rewrite lookup_insert_ne by done. apply Hahead; [by split | lia].
  - intros j v Hj Hjm Hjn (Hr & Hin & Hm).
    rewrite elem_of_union, elem_of_difference, !elem_of_singleton in Hjn.
    assert (Hjn' : j ∉ d_used d) by (intros Hj'; apply Hjn; right; split; [done | lia]).
    assert (j <> k) by tauto.
    specialize (Hcompact j i ltac:(lia) Hjm Hjn' Hi). lia.
Qed.

Context (live_in : forall u, live U0 u -> u < zlen L0).

Lemma fillUnused_step k d : 1 <= k <= TotalLocations -> trim_inv k d ->
  exists d', fillUnused lock k d = Ret d' /\ trim_inv (k + 1) d'.
Proof.
  intros Hk Hinv. unfold fillUnused.
  destruct (bool_decide_reflect (k ∈ d_used d)) as [Hin|Hn]; cbn [negb andb].
  { exists d. split; [done|]. apply trim_inv_skip; auto; lia. }
  destruct (movable lock k) eqn:Hm; [|exists d; split; [done|]; apply trim_inv_skip; auto; lia].
  destruct (first_such_pure (fun i => bool_decide (i ∈ d_used d) && movable lock i)
    (range (k + 1) (TotalLocations + 1))) as (o & Ho & Hs).
  cbn beta in Ho. rewrite Ho. cbn [obind]. destruct o as [i|].
  - destruct Hs as [Hr%elem_of_range [Hu%bool_decide_eq_true Him]%andb_true_iff].
    assert (Hi : live (d_used d) i) by (split; [lia | done]).
    destruct (ti_ahead k d Hinv i Hi ltac:(lia)) as [Hi0 Hnone].
    pose proof (live_in i Hi0) as HiL. pose proof (ti_len k d Hinv) as Hlen.
    destruct (vget_in (d_locations d) i) as (moved & _ & Hg); [lia|]. rewrite Hg. cbn [obind].
    rewrite vset_in by lia. cbn [obind]. rewrite vset_in by (rewrite zlen_insert; lia). cbn [obind].
    eexists. split; [done|]. rewrite Hnone. apply trim_inv_move; auto. lia.
  - exists d. split; [done|]. apply trim_inv_skip; auto; [lia|]. right; right.
    intros v (Hr & Hv & Hvm). destruct (decide (v <= k)); [done|].
    assert (Hf := Hs v). rewrite elem_of_range, bool_decide_eq_true_2, Hvm in Hf by done.
    discriminate Hf. lia.
Qed.

(** Compactness and the count bound every used id. *)
Lemma trim_inv_bound d : trim_inv (TotalLocations + 1) d ->
  zlen (usedOrCreated U0 lock) <= TotalOriginalLocations ->
  forall v, live (d_used d) v -> v <= TotalOriginalLocations.
Proof.
  intros Hinv Hcount v Hv. assert (Hsize := ti_size _ _ Hinv).
  assert (Hsub : list_to_set (range 1 (v + 1)) ⊆ occupied (d_used d)).
  { intros j Hj. rewrite elem_of_list_to_set, elem_of_range in Hj.
    rewrite elem_of_occupied. destruct Hv as (Hr & Hvu & Hvm). split; [lia|].
    destruct (decide (j ∈ d_used d)) as [|Hn]; [by left|]. right.
    destruct (movable lock j) eqn:Hm; [|done].
    assert (v < j) by (apply (ti_compact _ _ Hinv j v); auto; [lia | by split]). lia. }
  apply subseteq_size in Hsub. rewrite Hsize in Hsub.
  rewrite size_list_to_set in Hsub by (rewrite ?range_seqZ; apply NoDup_seqZ).
  rewrite ?range_seqZ in Hsub. rewrite length_seqZ in Hsub.
  assert (Hocc := occupied_size U0). lia.
Qed.

Lemma trim_loop : exists d,
  for_each (fillUnused lock) (range 1 (TotalLocations + 1)) (mkDefragment L0 U0 ∅) = Ret d /\
  trim_inv (TotalLocations + 1) d.
Proof.
  apply (for_each_range_inv trim_inv); [by vm_compute| |apply trim_inv_init].
  intros i d Hi Hinv. apply fillUnused_step; [lia | done].
Qed.
End trim.

Lemma vget_take {A} (l : list A) n i : 0 <= i < Z.of_nat n -> vget (take n l) i = vget l i.
Proof.
  intros Hi. unfold vget. rewrite (proj2 (Z.ltb_ge i 0)) by lia.
  by rewrite lookup_take_lt by lia.
Qed.

(** ** Marking the locations that are not blank *)

Lemma mark_nonzero_spec locations used : exists used',
  markNonZeroLocations locations used = Ret used' /\
  forall i, i ∈ used' <-> i ∈ used \/
    (1 <= i < Z.min TotalLocations (zlen locations) /\ isBlank locations i = Ret false).
Proof.
  unfold markNonZeroLocations. set (limit := Z.min TotalLocations (zlen locations)).
  destruct (Z.le_gt_cases limit 1) as [Hle|Hgt].
  { rewrite range_empty by done. exists used. split; [done|]. intros i. split; [by left|].
    intros [?|[? _]]; [done | lia]. }
  apply (for_each_range_inv (fun k bs => forall i, i ∈ bs <-> i ∈ used \/
    (1 <= i < k /\ isBlank locations i = Ret false))); [lia| |].
  - intros k bs Hk Hbs. destruct (vget_in locations k) as (p & _ & Hp); [lia|]. rewrite Hp. cbn [obind].
    assert (Hb : isBlank locations k = Ret (match p with None => true | Some l => location_isBlank l end)).
    { unfold isBlank. rewrite Z.gtb_ltb, !(proj2 (Z.ltb_lt _ _)) by lia. cbn [andb]. by rewrite Hp. }
    assert (Hskip : isBlank locations k <> Ret false -> forall i, i ∈ bs <-> i ∈ used \/
      (1 <= i < k + 1 /\ isBlank locations i = Ret false)).
    { intros Hne i. rewrite Hbs. split; intros [?|[? ?]]; auto; [right; split; [lia | done]|].
      destruct (decide (i = k)) as [->|]; [done | right; split; [lia | done]]. }
    destruct p as [l|]; [destruct (location_isBlank l)|].
    + exists bs. split; [done|]. apply Hskip. by rewrite Hb.
    + unfold bs_set. unfold limit, TotalLocations in *.
      rewrite (proj2 (Z.leb_le _ _)), (proj2 (Z.ltb_lt _ _)) by lia. cbn [andb].
      eexists. split; [done|]. intros i. rewrite elem_of_union, elem_of_singleton, Hbs. split.
      * intros [->|[?|[? ?]]]; auto; right; split; auto; lia.
      * intros [?|[? ?]]; auto. destruct (decide (i = k)) as [->|]; [by left|].
        right; right. split; [lia | done].
    + exists bs. split; [done|]. apply Hskip. by rewrite Hb.
  - intros i. split; [by left|]. intros [?|[? _]]; [done | lia].
Qed.

(** ** Trimming *)

(** C11: for a section of more than 64 locations, whose used ones are all within
    it: when the locations that are used or seen not to be blank fit the original
    number, [trimToOriginal] succeeds with exactly 65 slots: every such
    location is found under its remapped id, which is one of the first 64,
    no two of them share an id, and a locked Anywhere stays where it was.  Seen
    are the locations below 255 alone: the last one is kept if it is used. *)
Theorem trim_keeps_locations (markUsedLocations : gset Z -> outcome (gset Z))
    (locations : list (option Location.Location)) (lockAnywhere autoDefragment : bool) (used : gset Z) :
  (let* bs := markUsedLocations ∅ in markNonZeroLocations locations bs) = Ret used ->
  TotalOriginalLocations < zlen locations ->
  (forall u, live lockAnywhere used u -> u < zlen locations) ->
  zlen (usedOrCreated used lockAnywhere) <= TotalOriginalLocations ->
  (exists marked, markUsedLocations ∅ = Ret marked /\ forall i, i ∈ used <-> i ∈ marked \/
     (1 <= i < Z.min TotalLocations (zlen locations) /\ isBlank locations i = Ret false)) /\
  exists locations' remappings,
    trimToOriginal markUsedLocations locations lockAnywhere autoDefragment =
      Ret (locations', true, Some remappings) /\
    zlen locations' = TotalOriginalLocations + 1 /\
    (forall u, live lockAnywhere used u ->
      1 <= renamed remappings u <= TotalOriginalLocations /\
      getLocation locations' (renamed remappings u) = getLocation locations u) /\
    (forall u v, live lockAnywhere used u -> live lockAnywhere used v ->
      renamed remappings u = renamed remappings v -> u = v) /\
    (lockAnywhere = true ->
      getLocation locations' LocationId_Anywhere = getLocation locations LocationId_Anywhere).
Proof.
  intros Hmark Hlen Hin Hcount. split.
  { apply bind_inv in Hmark as (marked & Hb & Hm). exists marked. split; [done|].
    destruct (mark_nonzero_spec locations marked) as (u & Hu & Hspec). rewrite Hm in Hu. by injection Hu as <-. }
  unfold trimToOriginal.
  rewrite Z.gtb_ltb, (proj2 (Z.ltb_lt _ _)) by done.
  apply bind_inv in Hmark as (bs & Hb & Hm). rewrite Hb. cbn [obind]. rewrite Hm. cbn [obind].
  rewrite (proj2 (Z.leb_le _ _)) by done.
  destruct (trim_loop lockAnywhere locations used Hin) as (d & Hd & Hinv). rewrite Hd. cbn [obind].
  pose proof (ti_len _ _ _ _ _ Hinv) as Hl.
  unfold verase_range. rewrite Hl, (proj2 (Z.leb_le 0 _)), !(proj2 (Z.leb_le _ _)) by (unfold TotalOriginalLocations in *; lia).
  cbn [andb obind]. rewrite (drop_ge (d_locations d)), app_nil_r by (unfold zlen in *; lia).
  eexists _, _. split; [done|]. split.
  { unfold zlen in *. rewrite length_take. unfold TotalOriginalLocations in *. lia. }
  split; [|split; [exact (ti_inj _ _ _ _ _ Hinv)|]].
  - intros u Hu. destruct (ti_kept _ _ _ _ _ Hinv u Hu) as [Hlive Hg].
    pose proof (trim_inv_bound _ _ _ _ Hinv Hcount _ Hlive) as Hle. destruct Hlive as ((Hlo & _) & _ & _).
    split; [lia|]. unfold getLocation. rewrite vget_take by (unfold TotalOriginalLocations in *; lia). done.
  - intros ->. unfold getLocation. rewrite vget_take by (unfold TotalOriginalLocations, LocationId_Anywhere; lia).
    by apply (ti_locked _ _ _ _ _ Hinv).
Qed.

(** A default map whose location 200 is named by string 5. *)
Definition sampleLocations : list (option Location.Location) :=
  <[200%nat := Some (Location.mkLocation 0 0 32 32 5 0)]> (MrgnSection.GetDefault 64 64).

Lemma trim_keeps_locations_witness : exists locations' remappings,
  trimToOriginal (fun bs => Ret bs) sampleLocations true true = Ret (locations', true, Some remappings) /\
  getLocation locations' (renamed remappings 200) = Ret (Some (Location.mkLocation 0 0 32 32 5 0)).
Proof.
  destruct (trim_keeps_locations (fun bs => Ret bs) sampleLocations true true {[64; 200]})
    as (_ & l & m & Ht & _ & Hk & _ & _).
  - vm_compute. reflexivity.
  - by vm_compute.
  - intros u (_ & Hu & _). rewrite elem_of_union, !elem_of_singleton in Hu.
    destruct Hu as [->| ->]; by vm_compute.
  - by vm_compute.
  - exists l, m. split; [exact Ht|]. etransitivity; [apply Hk|]; [|by vm_compute].
    split; [unfold TotalLocations; lia|]. split; [set_solver | done].
Defined.

(** ** The last location *)

(** [markNonZeroLocations] marks exactly the locations from 1 to 254 that
    exist and are not blank: the last location of a full map, 255, is never
    marked, so trimming can drop it. *)
Theorem mark_nonzero_misses_last (locations : list (option Location.Location)) (used used' : gset Z) :
  markNonZeroLocations locations used = Ret used' ->
  (forall i, 1 <= i < TotalLocations -> i < zlen locations ->
     i ∈ used' <-> i ∈ used \/ isBlank locations i = Ret false) /\
  (TotalLocations ∈ used' <-> TotalLocations ∈ used).
Proof.
  intros H. destruct (mark_nonzero_spec locations used) as (u & Hu & Hspec).
  rewrite H in Hu. injection Hu as <-. split.
  - intros i Hi Hl. rewrite Hspec. split; intros [?|?]; auto; [by right; apply H0|].
    right. split; [lia | done].
  - rewrite Hspec. split; [|by left]. intros [?|[? _]]; [done | lia].
Qed.

Lemma mark_nonzero_misses_last_witness :
  let locations := <[255%nat := Some (Location.mkLocation 0 0 32 32 5 0)]> (MrgnSection.GetDefault 64 64) in
  isBlank locations 255 = Ret false /\ markNonZeroLocations locations ∅ = Ret {[64]} /\
  ~ (TotalLocations ∈ ({[64]} : gset Z)).
Proof.
  intros locations. split; [by vm_compute|].
  assert (H : markNonZeroLocations locations ∅ = Ret {[64]}) by (by vm_compute). split; [exact H|].
  rewrite (proj2 (mark_nonzero_misses_last locations ∅ {[64]} H)). apply not_elem_of_empty.
Defined.

(** ** Strings of locations *)

(** Index 0 is null and every other index holds a location. *)
Definition mrgn_wf (locations : list (option Location.Location)) : Prop :=
  exists ls, locations = None :: (Some <$> ls) /\ Forall (cwf Location.layout) ls.

Definition location_ids (locations : list (option Location.Location)) : list Z :=
  Location.stringId <$> omap id locations.

Definition mrgn_users (locations : list (option Location.Location)) : list (StringUser * Z) :=
  zip ((fun i => mkStringUser StringUserFlag.Location i 0) <$> range 1 (zlen locations))
    (location_ids locations).

Definition mrgn_ops : StringUserOps (list (option Location.Location)) := mkStringUserOps
  MrgnSection.stringUsed MrgnSection.appendUsage MrgnSection.markUsedStrings
  MrgnSection.remapStringIds MrgnSection.deleteString.

Section mrgn.
Context (ls : list Location.Location) (Hls : Forall (cwf Location.layout) ls).
Let locations : list (option Location.Location) := None :: (Some <$> ls).

Lemma mrgn_zlen : zlen locations = 1 + zlen ls.
Proof. unfold locations. rewrite zlen_cons. unfold zlen. by rewrite length_fmap. Qed.

Lemma mrgn_ids : location_ids locations = Location.stringId <$> ls.
Proof.
  unfold location_ids, locations. cbn. f_equal. induction ls as [|l k IH]; [done|]. cbn. f_equal.
  apply IH. by apply Forall_cons in Hls as [_ ?].
Qed.

Lemma mrgn_get i l : ls !! i = Some l -> vget locations (1 + Z.of_nat i) = Ret (Some l).
Proof.
  intros Hl. apply vget_Some; [lia|]. replace (Z.to_nat (1 + Z.of_nat i)) with (S i) by lia.
  unfold locations. change ((Some <$> ls) !! i = Some (Some l)). by rewrite list_lookup_fmap, Hl.
Qed.

(** The loops over the locations, element by element. *)
Lemma mrgn_for_each {S} (k : Z -> Location.Location -> S -> outcome S) s :
  for_each (fun i s => let* p := vget locations i in let* l := deref p in k i l s)
    (range 1 (zlen locations)) s =
  for_each (fun p s => k p.1 p.2 s) (zip (range 1 (zlen locations)) ls) s.
Proof.
  rewrite <- (for_each_read_at k ls 1 (zlen locations) s
    (fun i => let* p := vget locations i in deref p)).
  - apply for_each_ext. intros i s'. by destruct (vget locations i).
  - rewrite mrgn_zlen. lia.
  - intros i l Hl. by rewrite (mrgn_get i l Hl).
Qed.

Lemma mrgn_update (f : Location.Location -> Location.Location)
    (body : Z -> list (option Location.Location) -> outcome (list (option Location.Location))) :
  (forall i l v, 0 <= i -> l !! Z.to_nat i = Some (Some v) ->
     body i l = Ret (<[Z.to_nat i := Some (f v)]> l)) ->
  for_each body (range 1 (zlen locations)) locations = Ret (None :: (Some <$> (f <$> ls))).
Proof.
  intros Hbody.
  pose proof (for_each_update_from (fmap f) (fun p => exists v, p = Some v) body) as H.
  specialize (H ltac:(intros i l p Hi [v ->] Hp; by apply Hbody) (Some <$> ls) [None] (zlen locations)).
  etransitivity; [apply H|].
  - apply Forall_fmap, Forall_true. intros l. by exists l.
  - rewrite mrgn_zlen. unfold zlen. by rewrite length_fmap.
  - cbn. f_equal. f_equal. by rewrite <- !list_fmap_compose.
Qed.
End mrgn.

Lemma mrgn_users_ids locations : mrgn_wf locations -> (mrgn_users locations).*2 = location_ids locations.
Proof.
  intros (ls & -> & Hls). unfold mrgn_users. rewrite snd_zip; [done|].
  rewrite length_fmap. rewrite ?range_seqZ. rewrite length_seqZ, mrgn_ids, mrgn_zlen, length_fmap by done.
  unfold zlen. lia.
Qed.

Lemma mrgn_users_map (f : Location.Location -> Location.Location) (g : Z -> Z) ls :
  Forall (cwf Location.layout) ls -> Forall (cwf Location.layout) (f <$> ls) ->
  (forall l, Location.stringId (f l) = g (Location.stringId l)) ->
  mrgn_users (None :: (Some <$> (f <$> ls))) = prod_map id g <$> mrgn_users (None :: (Some <$> ls)).
Proof.
  intros Hls Hf Hg. unfold mrgn_users. rewrite !mrgn_ids, !mrgn_zlen by done.
  replace (zlen (f <$> ls)) with (zlen ls) by (unfold zlen; by rewrite length_fmap).
  replace (Location.stringId <$> (f <$> ls)) with (g <$> (Location.stringId <$> ls)).
  - generalize ((fun i => mkStringUser StringUserFlag.Location i 0) <$> range 1 (1 + zlen ls)).
    generalize (Location.stringId <$> ls). intros ids us. revert us.
    induction ids as [|v ids IH]; intros [|u us]; cbn; f_equal; auto.
  - rewrite <- !list_fmap_compose. apply list_fmap_ext. intros i l _. symmetry. apply Hg.
Qed.

Lemma set_stringId_wf l v : cwf Location.layout l -> is_u 16 v ->
  cwf Location.layout (l <| Location.stringId := v |>).
Proof. destruct l. cbn. intros; destruct_and?; split_and!; assumption. Qed.

Lemma location_id_wf l : cwf Location.layout l -> is_u 16 (Location.stringId l).
Proof. destruct l. cbn. intros; destruct_and?; assumption. Qed.

Lemma zip_ids_loop {S} (k : Z -> Z -> S -> outcome S) r (ls : list Location.Location) s :
  for_each (fun p s => k p.1 (Location.stringId p.2) s) (zip r ls) s =
  for_each (fun p s => k p.1 p.2 s) (zip r (Location.stringId <$> ls)) s.
Proof.
  revert r s. induction ls as [|l ls IH]; intros [|i r] s; cbn; try done.
  destruct (k i (Location.stringId l) s); cbn; [apply IH | done | done].
Qed.

Lemma mrgn_used s id : mrgn_wf s -> is_u 16 id ->
  MrgnSection.stringUsed s id = Ret (bool_decide (id ∈ (mrgn_users s).*2)).
Proof.
  intros Hs Hid. rewrite mrgn_users_ids by done. destruct Hs as (ls & -> & Hls).
  unfold MrgnSection.stringUsed. rewrite mrgn_ids, u16_id by done. unfold any_such.
  pose proof (first_such_vget (None :: (Some <$> ls)) (fun _ p => match p with
    | Some l => Location.stringId l =? id | None => false end) _ 1 eq_refl ltac:(lia)) as (o & Ho & Hs).
  rewrite Ho. cbn [obind]. f_equal. symmetry. destruct o as [i|].
  - destruct Hs as (Hi & (p & Hp & Hq) & _). apply bool_decide_eq_true.
    apply vget_elem in Hp. destruct p as [l|]; [|done]. apply Z.eqb_eq in Hq as <-.
    apply list_elem_of_fmap. exists l. split; [done|].
    apply elem_of_cons in Hp as [?|Hp]; [done|]. by apply list_elem_of_fmap in Hp as (l' & [= ->] & ?).
  - apply bool_decide_eq_false. intros (l & -> & [j Hj]%list_elem_of_lookup_1)%list_elem_of_fmap.
    pose proof (lookup_lt_Some _ _ _ Hj). rewrite mrgn_zlen in Hs.
    specialize (Hs (1 + Z.of_nat j) (Some l) ltac:(unfold zlen; lia) (mrgn_get ls j l Hj)).
    cbn beta iota in Hs. by rewrite Z.eqb_refl in Hs.
Qed.

Lemma mrgn_append s id us : mrgn_wf s -> is_u 16 id ->
  MrgnSection.appendUsage s id us = Ret (us ++ users_of id (mrgn_users s)).
Proof.
  intros (ls & -> & Hls) Hid. unfold MrgnSection.appendUsage, mrgn_users.
  rewrite range_cons by (rewrite mrgn_zlen; pose proof (zlen_nonneg ls); lia).
  cbn [for_each]. change (vget (None :: (Some <$> ls)) 0) with (Ret (@None Location.Location)).
  cbn [obind]. change (0 + 1) with 1.
  rewrite (for_each_read_at (fun i p us => match p with
    | Some l => if Location.stringId l =? id
                then Ret (us ++ [mkStringUser StringUserFlag.Location i 0]) else Ret us
    | None => Ret us end) (Some <$> ls)); [|rewrite mrgn_zlen; unfold zlen; rewrite length_fmap; lia|].
  2:{ intros i p. rewrite list_lookup_fmap. destruct (ls !! i) eqn:E; [|done]. intros [= <-].
      by apply mrgn_get. }
  rewrite mrgn_ids by done. generalize (range 1 (zlen (None :: (Some <$> ls)))) as r. clear Hls.
  revert us. induction ls as [|l ls IH]; intros us [|i r]; cbn;
    try (unfold users_of; simpl; by rewrite app_nil_r).
  rewrite users_of_cons. destruct (Location.stringId l =? id); cbn; rewrite IH;
    [by rewrite <- app_assoc | done].
Qed.

Lemma mrgn_mark s bs : mrgn_wf s ->
  MrgnSection.markUsedStrings s bs = Ret (ids_set (mrgn_users s).*2 ∪ bs).
Proof.
  intros Hs. rewrite mrgn_users_ids by done. destruct Hs as (ls & -> & Hls).
  unfold MrgnSection.markUsedStrings. rewrite mrgn_for_each, mrgn_ids by done.
  rewrite (zip_ids_loop (fun _ v bs => if v >? 0 then bs_set MaxStrings bs v else Ret bs)).
  assert (Hg : Forall (fun v => (v >? 0) = markable v) (Location.stringId <$> ls)).
  { apply Forall_fmap. eapply Forall_impl; [exact Hls|]. intros l Hl. cbn beta.
    by apply guard16, location_id_wf. }
  assert (Hlen : length (range 1 (zlen (None :: (Some <$> ls)))) = length (Location.stringId <$> ls)).
  { rewrite ?range_seqZ. rewrite length_seqZ, mrgn_zlen, length_fmap. unfold zlen. lia. }
  revert Hlen Hg. generalize (range 1 (zlen (None :: (Some <$> ls)))) as r.
  generalize (Location.stringId <$> ls) as ids. clear Hls.
  intros ids. revert bs. induction ids as [|v ids IH]; intros bs [|i r] Hlen Hg; try done; cbn.
  - change (ids_set []) with (∅ : gset Z). f_equal. set_solver.
  - apply Forall_cons in Hg as [Hv Hg]. rewrite mark_one by done. cbn [obind].
    rewrite IH by (try done; simpl in Hlen; lia). f_equal. rewrite (ids_set_cons v ids), ids_set_cons.
    change (ids_set []) with (∅ : gset Z). set_solver.
Qed.

Lemma mrgn_remap s m : mrgn_wf s -> map_Forall (fun _ w => is_u 16 w) m ->
  exists s', MrgnSection.remapStringIds s m = Ret s' /\ mrgn_wf s' /\
    mrgn_users s' = prod_map id (remap1 id m) <$> mrgn_users s.
Proof.
  intros (ls & -> & Hls) Hm. unfold MrgnSection.remapStringIds.
  set (f := fun l => l <| Location.stringId := remap1 id m (Location.stringId l) |>).
  assert (Hf : Forall (cwf Location.layout) (f <$> ls)).
  { apply Forall_fmap. eapply Forall_impl; [exact Hls|]. intros l Hl. apply set_stringId_wf; [done|].
    unfold remap1. destruct (m !! _) eqn:E; [by apply (Hm _ _ E) | by apply location_id_wf]. }
  rewrite (mrgn_update ls f).
  - eexists. split; [done|]. split; [by eexists|]. apply mrgn_users_map; auto.
  - intros i l v Hi Hv. rewrite (vget_Some _ _ (Some v)) by done. cbn [obind deref].
    assert (Hlt := lookup_lt_Some _ _ _ Hv). unfold f, remap1.
    destruct (m !! Location.stringId v) eqn:E.
    + rewrite u16_id by (by apply (Hm _ _ E)). apply vset_in. unfold zlen; lia.
    + rewrite list_insert_id; [done|]. rewrite Hv. by destruct v.
Qed.

Lemma mrgn_delete s id : mrgn_wf s ->
  exists s', MrgnSection.deleteString s id = Ret s' /\ mrgn_wf s' /\
    mrgn_users s' = prod_map Datatypes.id (clear1 id) <$> mrgn_users s.
Proof.
  intros (ls & -> & Hls). unfold MrgnSection.deleteString.
  set (f := fun l => l <| Location.stringId := clear1 id (Location.stringId l) |>).
  assert (Hf : Forall (cwf Location.layout) (f <$> ls)).
  { apply Forall_fmap. eapply Forall_impl; [exact Hls|]. intros l Hl. apply set_stringId_wf; [done|].
    pose proof (location_id_wf l Hl) as Hu. unfold clear1, is_u in *. destruct (_ =? id); lia. }
  rewrite (mrgn_update ls f).
  - eexists. split; [done|]. split; [by eexists|]. apply mrgn_users_map; auto.
  - intros i l v Hi Hv. rewrite (vget_Some _ _ (Some v)) by done. cbn [obind deref].
    assert (Hlt := lookup_lt_Some _ _ _ Hv). unfold f, clear1.
    destruct (Location.stringId v =? id) eqn:E; [apply vset_in; unfold zlen; lia|].
    rewrite list_insert_id; [done|]. rewrite Hv. by destruct v.
Qed.

#[export] Instance mrgn_laws : StringUserLaws mrgn_wf 16 mrgn_users (fun _ => True) mrgn_ops.
Proof.
  split; cbn [mrgn_ops op_stringUsed op_appendUsage op_markUsedStrings op_remapStringIds op_deleteString];
    auto using mrgn_used, mrgn_append, mrgn_mark, mrgn_remap, mrgn_delete.
Qed.

Lemma mrgn_users_bits s p : mrgn_wf s -> p ∈ mrgn_users s -> is_u 16 p.2.
Proof.
  intros Hs Hp. assert (Hin : p.2 ∈ (mrgn_users s).*2) by (apply list_elem_of_fmap; eauto).
  rewrite mrgn_users_ids in Hin by done. destruct Hs as (ls & -> & Hls). rewrite mrgn_ids in Hin by done.
  apply list_elem_of_fmap in Hin as (l & -> & Hl). rewrite Forall_forall in Hls.
  by apply location_id_wf, Hls.
Qed.

(** C26: the names of the locations obey the contract of the string users:
    deleting, marking, remapping and listing string ids, as for the other
    sections. *)
Theorem mrgn_string_contracts :
  DeleteContract mrgn_wf 16 mrgn_ops /\ MarkContract mrgn_wf 16 (fun _ => True) mrgn_ops /\
  RemapContract mrgn_wf 16 mrgn_ops /\ UsageContract mrgn_wf 16 mrgn_ops.
Proof.
  split_and!; [eapply delete_contract | eapply mark_contract | eapply remap_contract | eapply usage_contract];
    try apply _. apply mrgn_users_bits.
Qed.

(** ** Moving, adding and deleting *)

Section inserted.
Context {A : Type} (l : list A).

Lemma vget_delete i j : 0 <= i -> 0 <= j ->
  vget (delete (Z.to_nat i) l) j = if j <? i then vget l j else vget l (j + 1).
Proof.
  intros Hi Hj. unfold vget. rewrite !(proj2 (Z.ltb_ge _ 0)) by lia.
  destruct (Z.ltb_spec j i).
  - by rewrite list_lookup_delete_lt by lia.
  - rewrite list_lookup_delete_ge by lia. by replace (Z.to_nat (j + 1)) with (S (Z.to_nat j)) by lia.
Qed.

Lemma vget_inserted p x j : 0 <= p <= zlen l -> 0 <= j ->
  vget (take (Z.to_nat p) l ++ x :: drop (Z.to_nat p) l) j =
  if j <? p then vget l j else if j =? p then Ret x else vget l (j - 1).
Proof.
  intros Hp Hj. unfold vget. rewrite !(proj2 (Z.ltb_ge j 0)) by lia.
  assert (Hl : length (take (Z.to_nat p) l) = Z.to_nat p) by (rewrite length_take; unfold zlen in *; lia).
  destruct (Z.ltb_spec j p); [|destruct (Z.eqb_spec j p) as [->|]].
  - rewrite lookup_app_l by lia. by rewrite lookup_take_lt by lia.
  - by rewrite list_lookup_middle by done.
  - rewrite lookup_app_r, Hl by lia. rewrite (proj2 (Z.ltb_ge (j - 1) 0)) by lia.
    replace (Z.to_nat j - Z.to_nat p)%nat with (S (Z.to_nat (j - 1) - Z.to_nat p)) by lia.
    change ((x :: drop (Z.to_nat p) l) !! S (Z.to_nat (j - 1) - Z.to_nat p))
      with (drop (Z.to_nat p) l !! (Z.to_nat (j - 1) - Z.to_nat p)%nat).
    rewrite lookup_drop. by replace (Z.to_nat p + (Z.to_nat (j - 1) - Z.to_nat p))%nat with (Z.to_nat (j - 1)) by lia.
Qed.
End inserted.

Lemma vget_vswap {A} (l l' : list A) i j k : 0 <= i < zlen l -> 0 <= j < zlen l -> 0 <= k ->
  vswap l i j = Ret l' -> k <> i -> k <> j -> vget l' k = vget l k.
Proof.
  intros Hi Hj Hk Hs Hki Hkj. destruct (vswap_in l i j Hi Hj) as (a & b & _ & _ & E).
  rewrite E in Hs. injection Hs as <-.
  rewrite vget_vset by (rewrite ?zlen_insert; lia). rewrite decide_False by done.
  rewrite vget_vset by lia. by rewrite decide_False.
Qed.

(** A move that must keep Anywhere in place: from a higher id to a lower
    one it does not.  Moving a location from above Anywhere (and not from the
    next id) to an id below it, or to 65, leaves Anywhere at id 65; every
    other move keeps it at 64.  The result is true only for a swap of
    neighbours and for a move across Anywhere. *)
Theorem move_anywhere (locations : list (option Location.Location)) (from to_ : Z) :
  LocationId_Anywhere + 1 < zlen locations -> 0 < from < zlen locations -> 0 < to_ < zlen locations ->
  from <> to_ -> from <> LocationId_Anywhere -> to_ <> LocationId_Anywhere ->
  let far := negb (Z.abs (from - to_) =? 1) in
  let displaced := far && (LocationId_Anywhere <? from) && (to_ <=? LocationId_Anywhere + 1) in
  exists locations' result,
    moveLocation locations from to_ true = Ret (locations', result) /\
    getLocation locations' (if displaced then LocationId_Anywhere + 1 else LocationId_Anywhere) =
      getLocation locations LocationId_Anywhere /\
    result = (negb far || xorb (from <? LocationId_Anywhere) (to_ <? LocationId_Anywhere)).
Proof.
  intros Hlen Hf Ht Hne HfA HtA far displaced. change LocationId_Anywhere with 64 in *.
  assert (Hguard : (from >? 0) && (to_ >? 0) && (Z.max from to_ <? zlen locations) && negb (from =? to_) &&
    (negb true || (negb (Z.min from to_ =? 64) && negb (Z.max from to_ =? 64))) = true).
  { rewrite !Z.gtb_ltb, !(proj2 (Z.ltb_lt _ _)), !(proj2 (Z.eqb_neq _ _)) by lia. done. }
  unfold moveLocation, LocationId_Anywhere, getLocation. rewrite Hguard.
  destruct (Z.eqb_spec (Z.abs (from - to_)) 1) as [H1|H1].
  - rewrite (proj2 (Z.eqb_eq (Z.max from to_ - Z.min from to_) 1)),
      (proj2 (Z.ltb_lt (Z.max from to_) (zlen locations))) by lia. cbn [andb].
    destruct (vswap_in locations (Z.min from to_) (Z.max from to_)) as (a & b & _ & _ & E); [lia..|].
    rewrite E. cbn [obind]. eexists _, _. split; [done|].
    unfold displaced, far. cbn [negb andb orb]. split; [|done].
    refine (vget_vswap _ _ _ _ 64 _ _ _ E _ _); lia.
  - rewrite (proj2 (Z.eqb_neq (Z.max from to_ - Z.min from to_) 1)) by lia. cbn [andb].
    destruct (vget_in locations from) as (x & _ & ->); [lia|]. cbn [obind].
    rewrite verase_in by lia. cbn [obind].
    assert (Hdl : zlen (delete (Z.to_nat from) locations) = zlen locations - 1).
    { unfold zlen in *. rewrite length_delete; [lia|]. apply lookup_lt_is_Some_2. lia. }
    rewrite vinsert_in by lia. cbn [obind].
    set (l1 := take _ _ ++ x :: drop _ _).
    assert (Hl1 : zlen l1 = zlen locations).
    { unfold l1. rewrite zlen_app, zlen_cons. unfold zlen in *. rewrite length_take, length_drop. lia. }
    assert (Hl : forall j, 0 <= j -> vget l1 j = if j <? to_ - 1 then (if j <? from then vget locations j else vget locations (j + 1))
      else if j =? to_ - 1 then Ret x else (if j - 1 <? from then vget locations (j - 1) else vget locations (j - 1 + 1))).
    { intros j Hj. unfold l1. rewrite vget_inserted by lia.
      destruct (Z.ltb_spec j (to_ - 1)); [by rewrite vget_delete by lia|].
      destruct (Z.eqb_spec j (to_ - 1)); [done|]. by rewrite vget_delete by lia. }
    rewrite Z.gtb_ltb. unfold displaced, far. cbn [negb andb orb].
    destruct (Z.ltb_spec (Z.min from to_) 64), (Z.ltb_spec 64 (Z.max from to_)); cbn [andb].
    + destruct (vswap_in l1 (64 - 1) 64) as (a & b & Ha & Hb & E); [lia..|].
      rewrite E. cbn [obind]. eexists _, _. split; [done|]. split.
      * destruct (Z.ltb_spec 64 from), (Z.leb_spec to_ (64 + 1)); cbn [andb]; try lia.
        -- rewrite (vget_vswap l1 _ (64 - 1) 64 (64 + 1) ltac:(lia) ltac:(lia) ltac:(lia) E) by lia.
           rewrite Hl by lia. zb; f_equal; lia.
        -- rewrite vget_vset by (rewrite ?zlen_insert; lia). rewrite decide_True by done.
           rewrite <- Ha, Hl by lia. zb; f_equal; lia.
        -- rewrite vget_vset by (rewrite ?zlen_insert; lia). rewrite decide_True by done.
           rewrite <- Ha, Hl by lia. zb; f_equal; lia.
      * destruct (Z.ltb_spec from 64), (Z.ltb_spec to_ 64); done || lia.
    + eexists _, _. split; [done|]. split.
      * rewrite (proj2 (Z.ltb_ge 64 from)) by lia. cbn [andb]. rewrite Hl by lia. zb; f_equal; lia.
      * destruct (Z.ltb_spec from 64), (Z.ltb_spec to_ 64); done || lia.
    + eexists _, _. split; [done|]. split.
      * rewrite (proj2 (Z.ltb_lt 64 from)) by lia. cbn [andb].
        destruct (Z.leb_spec to_ (64 + 1)); rewrite Hl by lia; zb; f_equal; lia.
      * destruct (Z.ltb_spec from 64), (Z.ltb_spec to_ 64); done || lia.
    + lia.
Qed.

Lemma move_anywhere_witness : exists locations' result,
  moveLocation (MrgnSection.GetDefault 64 64) 70 10 true = Ret (locations', result) /\
  getLocation locations' 65 = getLocation (MrgnSection.GetDefault 64 64) 64.
Proof.
  destruct (move_anywhere (MrgnSection.GetDefault 64 64) 70 10) as (l & r & Hm & Hg & _);
    try (by vm_compute). exists l, r. split; [exact Hm | exact Hg].
Defined.

Lemma isBlank_ret locations i : is_ret (isBlank locations i).
Proof.
  unfold isBlank. rewrite Z.gtb_ltb. destruct (Z.ltb_spec 0 i); cbn [andb]; [|by eexists].
  destruct (Z.ltb_spec i (zlen locations)); [|by eexists].
  destruct (vget_in locations i) as (p & _ & ->); [lia|]. by eexists.
Qed.

Lemma first_blank locations : exists o,
  first_such (isBlank locations) (range 1 (zlen locations)) = Ret o /\
  match o with
  | Some i => 1 <= i < zlen locations /\ isBlank locations i = Ret true /\
      forall j, 1 <= j < i -> isBlank locations j = Ret false
  | None => forall j, 1 <= j < zlen locations -> isBlank locations j = Ret false
  end.
Proof.
  enough (H : forall n lo, exists o, first_such (isBlank locations) (range lo n) = Ret o /\
    match o with
    | Some i => lo <= i < n /\ isBlank locations i = Ret true /\
        forall j, lo <= j < i -> isBlank locations j = Ret false
    | None => forall j, lo <= j < n -> isBlank locations j = Ret false
    end) by apply H.
  intros n. apply (range_ind n).
  - intros lo Hlo. rewrite range_empty by done. exists None. split; [done|]. intros; lia.
  - intros lo Hlo (o & Ho & Hs). rewrite range_cons by done. cbn [first_such].
    destruct (isBlank_ret locations lo) as [b Hb]. rewrite Hb. cbn [obind].
    destruct b; [exists (Some lo); split; [done|]; split_and!; auto; lia|].
    exists o. split; [done|].
    assert (Hone : forall j, j = lo -> isBlank locations j = Ret false) by (by intros j ->).
    destruct o as [i|]; [destruct Hs as (? & ? & Hs); split; [lia|]; split; [done|]|];
      intros j Hj; (destruct (decide (j = lo)); [by apply Hone | apply Hs; lia]).
Qed.

(** [addLocation] puts the location in the first blank slot and returns
    its id, keeping every other location; without a blank slot it returns 0
    and changes nothing. *)
Theorem addLocation_first (locations : list (option Location.Location)) (location : option Location.Location) :
  exists locations' i, addLocation locations location = Ret (locations', i) /\
    zlen locations' = zlen locations /\
    ((i = LocationId_NoLocation /\ locations' = locations /\
        forall j, 1 <= j < zlen locations -> isBlank locations j = Ret false) \/
     (1 <= i < zlen locations /\ isBlank locations i = Ret true /\
        (forall j, 1 <= j < i -> isBlank locations j = Ret false) /\
        forall j, 0 <= j -> getLocation locations' j =
          if decide (j = i) then Ret location else getLocation locations j)).
Proof.
  unfold addLocation. destruct (first_blank locations) as (o & -> & Hs). cbn [obind].
  destruct o as [i|].
  - destruct Hs as (Hi & Hb & Hbefore). rewrite vset_in by lia. cbn [obind].
    eexists _, _. split; [done|]. rewrite zlen_insert. split; [done|]. right.
    split; [done|]. split; [done|]. split; [done|]. intros j Hj. unfold getLocation.
    by rewrite vget_vset by lia.
  - eexists _, _. split; [done|]. split; [done|]. by left.
Qed.

(** Deleting a location blanks it and keeps every other one; the deleted
    slot is again available to [addLocation] and [replaceLocation], which
    refuses a slot that is not blank. *)
Theorem deleteLocation_blanks (locations : list (option Location.Location)) (locationId : Z)
    (location : option Location.Location) :
  mrgn_wf locations -> 1 <= locationId < zlen locations ->
  exists locations', deleteLocation locations locationId = Ret locations' /\ mrgn_wf locations' /\
    isBlank locations' locationId = Ret true /\
    (forall j, 0 <= j -> j <> locationId -> getLocation locations' j = getLocation locations j) /\
    (isBlank locations locationId = Ret false ->
       replaceLocation locations locationId location = Ret locations) /\
    replaceLocation locations' locationId location =
      Ret (<[Z.to_nat locationId := location]> locations').
Proof.
  intros (ls & -> & Hls) Hi. set (locations := None :: (Some <$> ls)) in *.
  assert (Hg : (locationId >? 0) && (locationId <? zlen locations) = true)
    by (rewrite Z.gtb_ltb, !(proj2 (Z.ltb_lt _ _)) by lia; done).
  assert (Hlen := mrgn_zlen ls). fold locations in Hlen.
  destruct (lookup_lt_is_Some_2 ls (Z.to_nat (locationId - 1))) as [l Hl]; [unfold zlen in *; lia|].
  assert (Hget : vget locations locationId = Ret (Some l)).
  { replace locationId with (1 + Z.of_nat (Z.to_nat (locationId - 1))) by lia. by apply mrgn_get. }
  unfold deleteLocation. rewrite Hg, Hget. cbn [obind deref].
  set (l' := _ <| Location.elevationFlags := 0 |>).
  assert (Hl' : l' = blankLocation) by (unfold l'; by destruct l).
  rewrite vset_in by lia. eexists. split; [done|].
  assert (Hb : isBlank (<[Z.to_nat locationId:=Some l']> locations) locationId = Ret true).
  { unfold isBlank. rewrite zlen_insert, Hg, vget_vset by lia. rewrite decide_True by done.
    cbn [obind]. by rewrite Hl'. }
  split; [|split; [done|split; [|split]]].
  - exists (<[Z.to_nat (locationId - 1) := l']> ls). split.
    + unfold locations. replace (Z.to_nat locationId) with (S (Z.to_nat (locationId - 1))) by lia.
      cbn. f_equal. by rewrite list_fmap_insert.
    + apply Forall_insert; [done|]. rewrite Hl'. solve_default.
  - intros j Hj Hne. unfold getLocation. rewrite vget_vset by lia. by rewrite decide_False.
  - intros Hnb. unfold replaceLocation. rewrite Hg, Hnb. done.
  - unfold replaceLocation. rewrite zlen_insert, Hg, Hb. cbn [obind]. by rewrite vset_in by (rewrite zlen_insert; lia).
Qed.

Lemma mrgn_default_wf : mrgn_wf (MrgnSection.GetDefault 64 64).
Proof.
  exists (omap id (MrgnSection.GetDefault 64 64)). split; [by vm_compute|].
  refine (proj2 (cwf_check (array_codec 255 Location.layout) _ _)). by vm_compute.
Qed.

Lemma deleteLocation_blanks_witness : exists locations',
  deleteLocation sampleLocations 200 = Ret locations' /\ isBlank locations' 200 = Ret true.
Proof.
  destruct (deleteLocation_blanks sampleLocations 200 None) as (l & Hd & _ & Hb & _).
  - exists (omap id sampleLocations). split; [by vm_compute|].
    refine (proj2 (cwf_check (array_codec 255 Location.layout) _ _)). by vm_compute.
  - by vm_compute.
  - exists l. auto.
Defined.

(** The locations round trip through their section, whatever it held. *)
Theorem mrgn_roundtrip (locations prior : list (option Location.Location)) (rest : bytes) :
  mrgn_wf locations ->
  exists bs, MrgnSection.write locations = Ret bs /\ zlen bs = 20 * numLocations locations /\
    MrgnSection.read (20 * numLocations locations) (mkIstream (bs ++ rest) true) false prior =
      Ret (locations, 20 * numLocations locations, mkIstream rest true).
Proof.
  intros (ls & -> & Hls). unfold MrgnSection.write.
  assert (Hn : numLocations (None :: (Some <$> ls)) = zlen ls).
  { unfold numLocations. rewrite mrgn_zlen, Z.gtb_ltb, (proj2 (Z.ltb_lt _ _)); [lia|].
    pose proof (zlen_nonneg ls). lia. }
  assert (Hw : forall r acc, length r = length ls ->
    for_each (fun (p : Z * Location.Location) os => Ret (os ++ cenc Location.layout p.2)) (zip r ls) acc =
    Ret (acc ++ arr_enc Location.layout ls)).
  { clear Hls Hn. induction ls as [|l ls IH]; intros [|i r] acc Hr; try done; cbn [zip zip_with for_each snd arr_enc obind].
    - by rewrite app_nil_r.
    - rewrite IH by (simpl in Hr; lia). by rewrite <- app_assoc. }
  exists (arr_enc Location.layout ls). rewrite Hn.
  assert (Hz := arr_enc_zlen Location.layout ls Hls). change (elem_size Location.layout) with 20 in Hz.
  split; [|split; [done|]].
  - rewrite (mrgn_for_each ls (fun _ l os => Ret (os ++ cenc Location.layout l))). apply Hw.
    rewrite ?range_seqZ. rewrite length_seqZ, mrgn_zlen. unfold zlen. lia.
  - pose proof (read_objects_enc Location.layout ltac:(simpl; lia) false [] ls rest Hls) as E.
    change (elem_size Location.layout) with 20 in E. unfold read_objects, write_objects in E.
    unfold MrgnSection.read. destruct (20 * zlen ls <? 0); [discriminate E|].
    destruct (20 * zlen ls >? 0).
    + destruct (istream_read _ _) as [got ist']. apply bind_inv in E as (b & Hb & E).
      rewrite Hb. cbn [obind]. injection E as -> -> ->. done.
    + cbn [negb] in *. injection E as <- <- <-. done.
Qed.

Lemma mrgn_roundtrip_witness : exists bs,
  MrgnSection.write (MrgnSection.GetDefault 64 64) = Ret bs /\ zlen bs = 5100.
Proof.
  destruct (mrgn_roundtrip (MrgnSection.GetDefault 64 64) [] []) as (bs & Hw & Hz & _);
    [exact mrgn_default_wf | exists bs; auto].
Defined.
