(* ===== verification/TriggerTables.v ===== *)
(** The argument tables of trigger conditions and actions (Chk.cpp): which
    arguments each type takes, in the classic and the text order, the default
    flags, and the tables that say which types use a location, a string or a
    sound.  A row of an argument table that is shorter than the array is
    completed with value-initialized arguments, as the source does. *)
From S2P Require Import Prelude ChkTypes.
Open Scope Z_scope.

(** The tables of [bool] are initialized with 0 and 1. *)
Definition bools (l : list Z) : list bool := (fun b => negb (b =? 0)) <$> l.

Module ConditionArgs.
Inductive ArgType :=
  | T_NoType | T_Unit | T_Location | T_Player | T_Amount | T_NumericComparison
  | T_ResourceType | T_ScoreType | T_Switch | T_SwitchState | T_Comparison | T_ConditionType
  | T_TypeIndex | T_Flags | T_MaskFlag | T_MemoryOffset.
Inductive ArgField :=
  | F_LocationId | F_Player | F_Amount | F_UnitType | F_Comparison | F_ConditionType
  | F_TypeIndex | F_Flags | F_MaskFlag | F_NoField.
Record Argument := mkArgument { type : ArgType; field : ArgField }.

#[global] Instance ArgType_eq_dec : EqDecision ArgType.
Proof. solve_decision. Defined.
#[global] Instance ArgField_eq_dec : EqDecision ArgField.
Proof. solve_decision. Defined.
#[global] Instance Argument_eq_dec : EqDecision Argument.
Proof. solve_decision. Defined.

(** A value-initialized argument: both members are 0. *)
Definition blankArg : Argument := mkArgument T_NoType F_LocationId.
Definition NumConditionTypes : Z := 24.
Definition MaxArguments : Z := 9.

Definition noArg : Argument := mkArgument T_NoType F_NoField.
Definition amountCndArg : Argument := mkArgument T_Amount F_Amount.
Definition numericComparisonCndArg : Argument := mkArgument T_NumericComparison F_Comparison.
Definition switchStateCndArg : Argument := mkArgument T_SwitchState F_Comparison.
Definition resourceCndArg : Argument := mkArgument T_ResourceType F_TypeIndex.
Definition scoreCndArg : Argument := mkArgument T_ScoreType F_TypeIndex.
Definition switchCndArg : Argument := mkArgument T_Switch F_TypeIndex.
Definition playerCndArg : Argument := mkArgument T_Player F_Player.
Definition unitCndArg : Argument := mkArgument T_Unit F_UnitType.
Definition locationCndArg : Argument := mkArgument T_Location F_LocationId.
Definition comparisonCndArg : Argument := mkArgument T_Comparison F_Comparison.
Definition conditionTypeCndArg : Argument := mkArgument T_ConditionType F_ConditionType.
Definition typeIndexCndArg : Argument := mkArgument T_TypeIndex F_TypeIndex.
Definition flagsCndArg : Argument := mkArgument T_Flags F_Flags.
Definition maskFlagCndArg : Argument := mkArgument T_MaskFlag F_MaskFlag.
Definition memoryOffsetCndArg : Argument := mkArgument T_MemoryOffset F_Player.

(** A row of an argument table. *)
Definition row (l : list Argument) : list Argument :=
  l ++ replicate (Z.to_nat MaxArguments - length l) blankArg.

Definition classicArguments : list (list Argument) := row <$> [
  [];
  [numericComparisonCndArg; amountCndArg];
  [playerCndArg; numericComparisonCndArg; amountCndArg; unitCndArg];
  [playerCndArg; numericComparisonCndArg; amountCndArg; unitCndArg; locationCndArg];
  [playerCndArg; numericComparisonCndArg; amountCndArg; resourceCndArg];
  [playerCndArg; numericComparisonCndArg; amountCndArg; unitCndArg];
  [unitCndArg];
  [unitCndArg; locationCndArg];
  [unitCndArg];
  [scoreCndArg];
  [resourceCndArg];
  [switchCndArg; switchStateCndArg];
  [numericComparisonCndArg; amountCndArg];
  [];
  [playerCndArg; numericComparisonCndArg; amountCndArg];
  [playerCndArg; numericComparisonCndArg; amountCndArg; unitCndArg];
  [unitCndArg];
  [unitCndArg; locationCndArg];
  [unitCndArg];
  [scoreCndArg];
  [resourceCndArg];
  [playerCndArg; scoreCndArg; numericComparisonCndArg; amountCndArg];
  [];
  []].

Definition textArguments : list (list Argument) := row <$> [
  [];
  [numericComparisonCndArg; amountCndArg];
  [playerCndArg; unitCndArg; numericComparisonCndArg; amountCndArg];
  [playerCndArg; unitCndArg; locationCndArg; numericComparisonCndArg; amountCndArg];
  [playerCndArg; numericComparisonCndArg; amountCndArg; resourceCndArg];
  [playerCndArg; unitCndArg; numericComparisonCndArg; amountCndArg];
  [unitCndArg];
  [unitCndArg; locationCndArg];
  [unitCndArg];
  [scoreCndArg];
  [resourceCndArg];
  [switchCndArg; switchStateCndArg];
  [numericComparisonCndArg; amountCndArg];
  [];
  [playerCndArg; numericComparisonCndArg; amountCndArg];
  [playerCndArg; unitCndArg; numericComparisonCndArg; amountCndArg];
  [unitCndArg];
  [unitCndArg; locationCndArg];
  [unitCndArg];
  [scoreCndArg];
  [resourceCndArg];
  [playerCndArg; scoreCndArg; numericComparisonCndArg; amountCndArg];
  [];
  []].

Definition defaultFlags : list Z :=
  [0; 0; 16; 16; 0; 16; 16; 16; 16; 0; 0; 0; 0; 0; 0; 16; 16; 16; 16; 0;
   0; 0; 0; 0].

Definition conditionUsesLocationArg : list bool := bools
  [0; 0; 0; 1; 0; 0; 0; 1; 0; 0; 0; 0; 0; 0; 0; 0; 0; 1; 0; 0; 0; 0; 0; 0].

(** The extended types with the type they are stored as. *)
Definition virtualConditions : list (Z * (Z * list Argument)) := [
  (-1, (-2147483648, row [locationCndArg; playerCndArg; amountCndArg; unitCndArg; comparisonCndArg; conditionTypeCndArg; typeIndexCndArg; flagsCndArg; maskFlagCndArg]));
  (-2, (15, row [memoryOffsetCndArg; numericComparisonCndArg; amountCndArg]))].
End ConditionArgs.

Module ActionArgs.
Inductive ArgType :=
  | T_NoType | T_Location | T_String | T_Player | T_Unit | T_NumUnits
  | T_CUWP | T_TextFlags | T_Amount | T_ScoreType | T_ResourceType | T_StateMod
  | T_Percent | T_Order | T_Sound | T_Duration | T_Script | T_AllyState
  | T_NumericMod | T_Switch | T_SwitchMod | T_ActionType | T_Flags | T_Number
  | T_TypeIndex | T_SecondaryTypeIndex | T_Padding | T_MaskFlag | T_MemoryOffset.
Inductive ArgField :=
  | F_LocationId | F_StringId | F_SoundStringId | F_Time | F_Group | F_Number
  | F_Type | F_ActionType | F_Type2 | F_Flags | F_Padding | F_MaskFlag
  | F_NoField.
Record Argument := mkArgument { type : ArgType; field : ArgField }.

#[global] Instance ArgType_eq_dec : EqDecision ArgType.
Proof. solve_decision. Defined.
#[global] Instance ArgField_eq_dec : EqDecision ArgField.
Proof. solve_decision. Defined.
#[global] Instance Argument_eq_dec : EqDecision Argument.
Proof. solve_decision. Defined.

(** A value-initialized argument: both members are 0. *)
Definition blankArg : Argument := mkArgument T_NoType F_LocationId.
Definition NumActionTypes : Z := 60.
Definition NumBriefingActionTypes : Z := 10.
Definition MaxArguments : Z := 11.

Definition noArg : Argument := mkArgument T_NoType F_NoField.
Definition amountArg : Argument := mkArgument T_Amount F_Number.
Definition percentArg : Argument := mkArgument T_Percent F_Number.
Definition durationArg : Argument := mkArgument T_Duration F_Time.
Definition numUnitsArg : Argument := mkArgument T_NumUnits F_Type2.
Definition unitQuantityArg : Argument := mkArgument T_Amount F_Type2.
Definition numericModArg : Argument := mkArgument T_NumericMod F_Type2.
Definition switchModArg : Argument := mkArgument T_SwitchMod F_Type2.
Definition stateModArg : Argument := mkArgument T_StateMod F_Type2.
Definition allyStateArg : Argument := mkArgument T_AllyState F_Type.
Definition scoreArg : Argument := mkArgument T_ScoreType F_Type.
Definition resourceArg : Argument := mkArgument T_ResourceType F_Type.
Definition scriptArg : Argument := mkArgument T_Script F_Number.
Definition textFlagsArg : Argument := mkArgument T_TextFlags F_Flags.
Definition orderArg : Argument := mkArgument T_Order F_Type2.
Definition unitArg : Argument := mkArgument T_Unit F_Type.
Definition locationArg : Argument := mkArgument T_Location F_LocationId.
Definition playerArg : Argument := mkArgument T_Player F_Group.
Definition destPlayerArg : Argument := mkArgument T_Player F_Number.
Definition secondaryLocationArg : Argument := mkArgument T_Location F_Number.
Definition cuwpArg : Argument := mkArgument T_CUWP F_Number.
Definition switchArg : Argument := mkArgument T_Switch F_Number.
Definition stringArg : Argument := mkArgument T_String F_StringId.
Definition soundArg : Argument := mkArgument T_Sound F_SoundStringId.
Definition memoryOffsetArg : Argument := mkArgument T_MemoryOffset F_Group.
Definition numberArg : Argument := mkArgument T_Number F_Number.
Definition typeIndexArg : Argument := mkArgument T_TypeIndex F_Type.
Definition actionTypeArg : Argument := mkArgument T_ActionType F_ActionType.
Definition secondaryTypeIndexArg : Argument := mkArgument T_SecondaryTypeIndex F_Type2.
Definition flagsArg : Argument := mkArgument T_Flags F_Flags.
Definition paddingArg : Argument := mkArgument T_Padding F_Padding.
Definition maskFlagArg : Argument := mkArgument T_MaskFlag F_MaskFlag.
Definition briefingSlotArg : Argument := mkArgument T_Amount F_Group.

(** A row of an argument table. *)
Definition row (l : list Argument) : list Argument :=
  l ++ replicate (Z.to_nat MaxArguments - length l) blankArg.

Definition classicArguments : list (list Argument) := row <$> [
  [];
  [];
  [];
  [];
  [durationArg];
  [];
  [];
  [unitArg; locationArg; soundArg; numericModArg; amountArg; stringArg];
  [soundArg];
  [stringArg];
  [locationArg];
  [unitQuantityArg; unitArg; locationArg; playerArg; cuwpArg];
  [stringArg];
  [switchModArg; switchArg];
  [numericModArg; durationArg];
  [scriptArg];
  [scriptArg; locationArg];
  [unitArg; stringArg];
  [unitArg; locationArg; stringArg];
  [resourceArg; stringArg];
  [unitArg; stringArg];
  [scoreArg; stringArg];
  [unitArg; playerArg];
  [numUnitsArg; unitArg; playerArg; locationArg];
  [unitArg; playerArg];
  [numUnitsArg; unitArg; playerArg; locationArg];
  [playerArg; numericModArg; amountArg; resourceArg];
  [playerArg; numericModArg; amountArg; scoreArg];
  [locationArg];
  [unitArg; durationArg];
  [];
  [];
  [stateModArg];
  [amountArg; unitArg; stringArg];
  [amountArg; unitArg; locationArg; stringArg];
  [amountArg; resourceArg; stringArg];
  [amountArg; unitArg; stringArg];
  [amountArg; scoreArg; stringArg];
  [secondaryLocationArg; unitArg; playerArg; locationArg];
  [numUnitsArg; unitArg; playerArg; locationArg; secondaryLocationArg];
  [amountArg];
  [stringArg];
  [stateModArg; unitArg; playerArg; locationArg];
  [stateModArg; unitArg; playerArg; locationArg];
  [unitQuantityArg; unitArg; locationArg; playerArg];
  [playerArg; numericModArg; amountArg; unitArg];
  [unitArg; playerArg; locationArg; orderArg; secondaryLocationArg];
  [stringArg];
  [numUnitsArg; unitArg; playerArg; locationArg; destPlayerArg];
  [numUnitsArg; unitArg; playerArg; locationArg; percentArg];
  [numUnitsArg; unitArg; playerArg; locationArg; percentArg];
  [numUnitsArg; unitArg; playerArg; locationArg; percentArg];
  [numUnitsArg; playerArg; locationArg; amountArg];
  [amountArg; numUnitsArg; unitArg; locationArg; playerArg];
  [];
  [];
  [];
  [playerArg; allyStateArg];
  [];
  []].

Definition textArguments : list (list Argument) := row <$> [
  [];
  [];
  [];
  [];
  [durationArg];
  [];
  [];
  [textFlagsArg; stringArg; unitArg; locationArg; numericModArg; amountArg; soundArg; durationArg];
  [soundArg; durationArg];
  [textFlagsArg; stringArg];
  [locationArg];
  [playerArg; unitArg; unitQuantityArg; locationArg; cuwpArg];
  [stringArg];
  [switchArg; switchModArg];
  [numericModArg; durationArg];
  [scriptArg];
  [scriptArg; locationArg];
  [stringArg; unitArg];
  [stringArg; unitArg; locationArg];
  [stringArg; resourceArg];
  [stringArg; unitArg];
  [stringArg; scoreArg];
  [playerArg; unitArg];
  [playerArg; unitArg; numUnitsArg; locationArg];
  [playerArg; unitArg];
  [playerArg; unitArg; numUnitsArg; locationArg];
  [playerArg; numericModArg; amountArg; resourceArg];
  [playerArg; numericModArg; amountArg; scoreArg];
  [locationArg];
  [unitArg; durationArg];
  [];
  [];
  [stateModArg];
  [stringArg; unitArg; amountArg];
  [stringArg; unitArg; amountArg; locationArg];
  [stringArg; amountArg; resourceArg];
  [stringArg; unitArg; amountArg];
  [stringArg; scoreArg; amountArg];
  [playerArg; unitArg; locationArg; secondaryLocationArg];
  [playerArg; unitArg; numUnitsArg; locationArg; secondaryLocationArg];
  [amountArg];
  [stringArg];
  [playerArg; unitArg; locationArg; stateModArg];
  [playerArg; unitArg; locationArg; stateModArg];
  [playerArg; unitArg; unitQuantityArg; locationArg];
  [playerArg; unitArg; numericModArg; amountArg];
  [playerArg; unitArg; locationArg; secondaryLocationArg; orderArg];
  [stringArg];
  [playerArg; destPlayerArg; unitArg; numUnitsArg; locationArg];
  [playerArg; unitArg; percentArg; unitQuantityArg; locationArg];
  [playerArg; unitArg; percentArg; unitQuantityArg; locationArg];
  [playerArg; unitArg; percentArg; unitQuantityArg; locationArg];
  [playerArg; amountArg; unitQuantityArg; locationArg];
  [playerArg; unitArg; amountArg; unitQuantityArg; locationArg];
  [];
  [];
  [];
  [playerArg; allyStateArg];
  [];
  []].

Definition classicBriefingArguments : list (list Argument) := row <$> [
  [];
  [durationArg];
  [soundArg];
  [durationArg; stringArg];
  [stringArg];
  [unitArg; briefingSlotArg];
  [briefingSlotArg];
  [briefingSlotArg; durationArg];
  [briefingSlotArg; soundArg; numericModArg; amountArg; stringArg];
  []].

Definition briefingTextArguments : list (list Argument) := row <$> [
  [];
  [durationArg];
  [soundArg; durationArg];
  [stringArg; durationArg];
  [stringArg];
  [unitArg; briefingSlotArg];
  [briefingSlotArg];
  [briefingSlotArg; durationArg];
  [stringArg; briefingSlotArg; numericModArg; amountArg; soundArg; durationArg];
  []].

Definition defaultFlags : list Z :=
  [0; 4; 4; 4; 4; 4; 4; 20; 4; 4; 4; 28; 0; 4; 4; 4; 4; 16; 16; 0;
   16; 0; 20; 20; 20; 20; 4; 4; 4; 20; 4; 4; 4; 16; 16; 0; 16; 0; 20; 20;
   4; 4; 20; 20; 20; 20; 20; 0; 20; 20; 20; 20; 4; 20; 4; 4; 4; 4; 0; 0].

Definition briefingDefaultFlags : list Z :=
  [0; 0; 0; 0; 0; 16; 0; 0; 0; 0].

Definition actionUsesLocationArg : list bool := bools
  [0; 0; 0; 0; 0; 0; 0; 1; 0; 0; 1; 1; 0; 0; 0; 0; 1; 0; 1; 0; 0; 0; 0; 1;
   0; 1; 0; 0; 1; 0; 0; 0; 0; 0; 1; 0; 0; 0; 1; 1; 0; 0; 1; 1; 1; 0; 1; 0;
   1; 1; 1; 1; 1; 1; 0; 0; 0; 0; 0; 0].

Definition actionUsesSecondaryLocationArg : list bool := bools
  [0; 0; 0; 0; 0; 0; 0; 0; 0; 0; 0; 0; 0; 0; 0; 0; 0; 0; 0; 0; 0; 0; 0; 0;
   0; 0; 0; 0; 0; 0; 0; 0; 0; 0; 0; 0; 0; 0; 1; 1; 0; 0; 0; 0; 0; 0; 1; 0;
   0; 0; 0; 0; 0; 0; 0; 0; 0; 0; 0; 0].

Definition actionUsesStringArg : list bool := bools
  [0; 0; 0; 0; 0; 0; 0; 1; 0; 1; 0; 0; 1; 0; 0; 0; 0; 1; 1; 1; 1; 1; 0; 0;
   0; 0; 0; 0; 0; 0; 0; 0; 0; 1; 1; 1; 1; 1; 0; 0; 0; 1; 0; 0; 0; 0; 0; 1;
   0; 0; 0; 0; 0; 0; 0; 0; 0; 0; 0; 0].

Definition actionUsesGameStringArg : list bool := bools
  [0; 0; 0; 0; 0; 0; 0; 1; 0; 1; 0; 0; 1; 0; 0; 0; 0; 1; 1; 1; 1; 1; 0; 0;
   0; 0; 0; 0; 0; 0; 0; 0; 0; 1; 1; 1; 1; 1; 0; 0; 0; 1; 0; 0; 0; 0; 0; 0;
   0; 0; 0; 0; 0; 0; 0; 0; 0; 0; 0; 0].

Definition actionUsesSoundArg : list bool := bools
  [0; 0; 0; 0; 0; 0; 0; 1; 1; 0; 0; 0; 0; 0; 0; 0; 0; 0; 0; 0; 0; 0; 0; 0;
   0; 0; 0; 0; 0; 0; 0; 0; 0; 0; 0; 0; 0; 0; 0; 0; 0; 0; 0; 0; 0; 0; 0; 0;
   0; 0; 0; 0; 0; 0; 0; 0; 0; 0; 0; 0].

Definition briefingActionUsesStringArg : list bool := bools
  [0; 0; 0; 1; 1; 0; 0; 0; 1; 0].

Definition briefingActionUsesSoundArg : list bool := bools
  [0; 0; 1; 0; 0; 0; 0; 0; 1; 0].

(** The extended types with the type they are stored as. *)
Definition virtualActions : list (Z * (Z * list Argument)) := [
  (-1, (-2147483648, row [locationArg; textFlagsArg; soundArg; durationArg; playerArg; numberArg; actionTypeArg; secondaryTypeIndexArg; flagsArg; paddingArg; maskFlagArg]));
  (-2, (45, row [memoryOffsetArg; numericModArg; amountArg]))].
End ActionArgs.

