(* ===== verification/Triggers.v ===== *)
(** Trigger conditions, actions and triggers ([Chk::Condition], [Chk::Action],
    [Chk::Trigger] of Chk.cpp), the flags of create-unit slots and string
    properties, and the sections TRIG and MBRF (Sections.cpp), which are
    lists of triggers.  As in [Objects], a section is the sequence of the
    triggers its pointers point to. *)
From S2P Require Import Prelude Codec ChkTypes ChkSection Accessors StringUsers Terrain Objects TriggerTables.
Open Scope Z_scope.

(** An element of a static table; every access is guarded by its size. *)
Definition flag_at (table : list bool) (i : Z) : bool := nth (Z.to_nat i) table false.

(** ** Conditions *)

Module CND.
Import ConditionArgs.

Definition argAt (table : list (list Argument)) (i j : Z) : outcome Argument :=
  let* r := vget table i in vget r j.

Definition getClassicArg (conditionType argIndex : Z) : outcome Argument :=
  if (conditionType <? NumConditionTypes) && (argIndex <? MaxArguments)
  then argAt classicArguments conditionType argIndex else Ret noArg.

Definition getTextArg (conditionType argIndex : Z) : outcome Argument :=
  if (conditionType <? NumConditionTypes) && (argIndex <? MaxArguments)
  then argAt textArguments conditionType argIndex else Ret noArg.

(** The overload for the signed [VirtualType]. *)
Definition virtualArg (table : list (list Argument)) (conditionType argIndex : Z) : outcome Argument :=
  if argIndex <? MaxArguments then
    if u64 conditionType <? NumConditionTypes then argAt table conditionType argIndex
    else match list_find (fun p => p.1 = conditionType) virtualConditions with
         | Some (_, (_, (_, arguments))) => vget arguments argIndex
         | None => Ret noArg
         end
  else Ret noArg.

Definition getClassicArgVirtual : Z -> Z -> outcome Argument := virtualArg classicArguments.
Definition getTextArgVirtual : Z -> Z -> outcome Argument := virtualArg textArguments.

Definition getClassicArgType (conditionType argIndex : Z) : outcome ArgType :=
  if (conditionType <? NumConditionTypes) && (argIndex <? MaxArguments)
  then let* a := argAt classicArguments conditionType argIndex in Ret (type a) else Ret T_NoType.

Definition getTextArgType (conditionType argIndex : Z) : outcome ArgType :=
  if (conditionType <? NumConditionTypes) && (argIndex <? MaxArguments)
  then let* a := argAt textArguments conditionType argIndex in Ret (type a) else Ret T_NoType.

Definition virtualArgType (table : list (list Argument)) (conditionType argIndex : Z) : outcome ArgType :=
  if argIndex <? MaxArguments then
    if u64 conditionType <? NumConditionTypes
    then let* a := argAt table conditionType argIndex in Ret (type a)
    else match list_find (fun p => p.1 = conditionType) virtualConditions with
         | Some (_, (_, (_, arguments))) => let* a := vget arguments argIndex in Ret (type a)
         | None => Ret T_NoType
         end
  else Ret T_NoType.

Definition getClassicArgTypeVirtual : Z -> Z -> outcome ArgType := virtualArgType classicArguments.
Definition getTextArgTypeVirtual : Z -> Z -> outcome ArgType := virtualArgType textArguments.

Definition getDefaultFlags (conditionType : Z) : outcome Z :=
  if conditionType <? NumConditionTypes then vget defaultFlags conditionType else Ret 0.

Definition getDefaultFlagsVirtual (conditionType : Z) : outcome Z :=
  if conditionType <? 0 then
    if conditionType =? -2 then vget defaultFlags 15 else Ret 0
  else getDefaultFlags (u8 conditionType).

Definition Flags_Disabled : Z := 2.
Definition Flags_xDisabled : Z := 0xFD.

Definition toggleDisabled (c : Condition.Condition) : Condition.Condition :=
  if has_flag (Condition.flags c) Flags_Disabled
  then c <| Condition.flags := Z.land (Condition.flags c) Flags_xDisabled |>
  else c <| Condition.flags := Z.lor (Condition.flags c) Flags_Disabled |>.

Definition isDisabled (c : Condition.Condition) : bool := has_flag (Condition.flags c) Flags_Disabled.

(** [conditionType < NumConditionTypes && conditionUsesLocationArg[conditionType]] *)
Definition usesLocation (c : Condition.Condition) : bool :=
  (Condition.conditionType c <? NumConditionTypes) &&
  flag_at conditionUsesLocationArg (Condition.conditionType c).

Definition locationUsed (c : Condition.Condition) (locationId : Z) : bool :=
  usesLocation c && (Condition.locationId c =? locationId).

Definition markUsedLocations (c : Condition.Condition) (locationIdUsed : gset Z) : outcome (gset Z) :=
  if usesLocation c && negb (Condition.locationId c =? LocationId_NoLocation) &&
     (Condition.locationId c <=? TotalLocations)
  then bs_set (TotalLocations + 1) locationIdUsed (Condition.locationId c) else Ret locationIdUsed.

Definition remapLocationIds (remappings : gmap Z Z) (c : Condition.Condition) : Condition.Condition :=
  if usesLocation c then
    match remappings !! Condition.locationId c with
    | Some w => c <| Condition.locationId := w |>
    | None => c
    end
  else c.

Definition deleteLocation (locationId : Z) (c : Condition.Condition) : Condition.Condition :=
  if usesLocation c && (Condition.locationId c =? locationId)
  then c <| Condition.locationId := LocationId_NoLocation |> else c.
End CND.

(** ** Actions *)

Module ACT.
Import ActionArgs.

Definition argAt (table : list (list Argument)) (i j : Z) : outcome Argument :=
  let* r := vget table i in vget r j.

Definition getClassicArg (actionType argIndex : Z) : outcome Argument :=
  if (actionType <? NumActionTypes) && (argIndex <? MaxArguments)
  then argAt classicArguments actionType argIndex else Ret noArg.

Definition getTextArg (actionType argIndex : Z) : outcome Argument :=
  if (actionType <? NumActionTypes) && (argIndex <? MaxArguments)
  then argAt textArguments actionType argIndex else Ret noArg.

Definition virtualArg (table : list (list Argument)) (actionType argIndex : Z) : outcome Argument :=
  if argIndex <? MaxArguments then
    if u64 actionType <? NumActionTypes then argAt table actionType argIndex
    else match list_find (fun p => p.1 = actionType) virtualActions with
         | Some (_, (_, (_, arguments))) => vget arguments argIndex
         | None => Ret noArg
         end
  else Ret noArg.

Definition getClassicArgVirtual : Z -> Z -> outcome Argument := virtualArg classicArguments.
Definition getTextArgVirtual : Z -> Z -> outcome Argument := virtualArg textArguments.

Definition getClassicArgType (actionType argIndex : Z) : outcome ArgType :=
  if (actionType <? NumActionTypes) && (argIndex <? MaxArguments)
  then let* a := argAt classicArguments actionType argIndex in Ret (type a) else Ret T_NoType.

Definition getTextArgType (actionType argIndex : Z) : outcome ArgType :=
  if (actionType <? NumActionTypes) && (argIndex <? MaxArguments)
  then let* a := argAt textArguments actionType argIndex in Ret (type a) else Ret T_NoType.

Definition virtualArgType (table : list (list Argument)) (actionType argIndex : Z) : outcome ArgType :=
  if argIndex <? MaxArguments then
    if u64 actionType <? NumActionTypes
    then let* a := argAt table actionType argIndex in Ret (type a)
    else match list_find (fun p => p.1 = actionType) virtualActions with
         | Some (_, (_, (_, arguments))) => let* a := vget arguments argIndex in Ret (type a)
         | None => Ret T_NoType
         end
  else Ret T_NoType.

Definition getClassicArgTypeVirtual : Z -> Z -> outcome ArgType := virtualArgType classicArguments.
Definition getTextArgTypeVirtual : Z -> Z -> outcome ArgType := virtualArgType textArguments.

Definition getDefaultFlags (actionType : Z) : outcome Z :=
  if actionType <? NumActionTypes then vget defaultFlags actionType else Ret 0.

Definition getDefaultFlagsVirtual (actionType : Z) : outcome Z :=
  if actionType <? 0 then
    if actionType =? -2 then vget defaultFlags 45 else Ret 0
  else getDefaultFlags (u8 actionType).

Definition hasArgument (ty : ArgType) (a : Action.Action) : outcome bool :=
  any_such (fun i => let* t := getClassicArgType (Action.actionType a) i in Ret (bool_decide (t = ty)))
    (range 0 MaxArguments).

Definition hasStringArgument : Action.Action -> outcome bool := hasArgument T_String.
Definition hasSoundArgument : Action.Action -> outcome bool := hasArgument T_Sound.

Definition Type_Comment : Z := 47.
Definition Flags_Disabled : Z := 2.
Definition Flags_xDisabled : Z := 0xFD.

Definition isDisabled (a : Action.Action) : bool := has_flag (Action.flags a) Flags_Disabled.

Definition toggleDisabled (a : Action.Action) : Action.Action :=
  if has_flag (Action.flags a) Flags_Disabled
  then a <| Action.flags := Z.land (Action.flags a) Flags_xDisabled |>
  else a <| Action.flags := Z.lor (Action.flags a) Flags_Disabled |>.

(** [actionType < N && table[actionType]] *)
Definition uses (N : Z) (table : list bool) (a : Action.Action) : bool :=
  (Action.actionType a <? N) && flag_at table (Action.actionType a).

Definition locationUsed (a : Action.Action) (locationId : Z) : bool :=
  (uses NumActionTypes actionUsesLocationArg a && (Action.locationId a =? locationId)) ||
  (uses NumActionTypes actionUsesSecondaryLocationArg a && (Action.number a =? locationId)).

(** The shape of the three [stringUsed] tests. *)
Definition stringUsedIn (N : Z) (strings sounds : list bool) (stringFlag soundFlag : Z)
    (a : Action.Action) (stringId userMask : Z) : bool :=
  (has_flag userMask stringFlag && uses N strings a && (Action.stringId a =? stringId)) ||
  (has_flag userMask soundFlag && uses N sounds a && (Action.soundStringId a =? stringId)).

Definition stringUsed : Action.Action -> Z -> Z -> bool :=
  stringUsedIn NumActionTypes actionUsesStringArg actionUsesSoundArg
    StringUserFlag.TriggerAction StringUserFlag.TriggerActionSound.

Definition gameStringUsed : Action.Action -> Z -> Z -> bool :=
  stringUsedIn NumActionTypes actionUsesGameStringArg actionUsesSoundArg
    StringUserFlag.TriggerAction StringUserFlag.TriggerActionSound.

Definition commentStringUsed (a : Action.Action) (stringId : Z) : bool :=
  (Action.actionType a =? Type_Comment) && (Action.stringId a =? stringId).

Definition briefingStringUsed : Action.Action -> Z -> Z -> bool :=
  stringUsedIn NumBriefingActionTypes briefingActionUsesStringArg briefingActionUsesSoundArg
    StringUserFlag.BriefingTriggerAction StringUserFlag.BriefingTriggerActionSound.

Definition markUsedLocations (a : Action.Action) (locationIdUsed : gset Z) : outcome (gset Z) :=
  let* locationIdUsed :=
    if uses NumActionTypes actionUsesLocationArg a &&
       negb (Action.locationId a =? LocationId_NoLocation) && (Action.locationId a <=? TotalLocations)
    then bs_set (TotalLocations + 1) locationIdUsed (Action.locationId a) else Ret locationIdUsed in
  if uses NumActionTypes actionUsesSecondaryLocationArg a &&
     negb (Action.number a =? LocationId_NoLocation) && (Action.number a <=? TotalLocations)
  then bs_set (TotalLocations + 1) locationIdUsed (Action.number a) else Ret locationIdUsed.

(** The shape of the three [markUsed...Strings] functions. *)
Definition markStringsIn (N : Z) (strings sounds : list bool) (stringFlag soundFlag : Z)
    (a : Action.Action) (stringIdUsed : gset Z) (userMask : Z) : outcome (gset Z) :=
  let* stringIdUsed :=
    if has_flag userMask stringFlag && uses N strings a &&
       ((Action.stringId a >? 0) && (Action.stringId a <? MaxStrings))
    then bs_set MaxStrings stringIdUsed (Action.stringId a) else Ret stringIdUsed in
  if has_flag userMask soundFlag && uses N sounds a &&
     ((Action.soundStringId a >? 0) && (Action.soundStringId a <? MaxStrings))
  then bs_set MaxStrings stringIdUsed (Action.soundStringId a) else Ret stringIdUsed.

Definition markUsedStrings : Action.Action -> gset Z -> Z -> outcome (gset Z) :=
  markStringsIn NumActionTypes actionUsesStringArg actionUsesSoundArg
    StringUserFlag.TriggerAction StringUserFlag.TriggerActionSound.

Definition markUsedGameStrings : Action.Action -> gset Z -> Z -> outcome (gset Z) :=
  markStringsIn NumActionTypes actionUsesGameStringArg actionUsesSoundArg
    StringUserFlag.TriggerAction StringUserFlag.TriggerActionSound.

Definition markUsedCommentStrings (a : Action.Action) (stringIdUsed : gset Z) : outcome (gset Z) :=
  if (Action.actionType a =? Type_Comment) && (Action.stringId a >? 0) && (Action.stringId a <? MaxStrings)
  then bs_set MaxStrings stringIdUsed (Action.stringId a) else Ret stringIdUsed.

Definition markUsedBriefingStrings : Action.Action -> gset Z -> Z -> outcome (gset Z) :=
  markStringsIn NumBriefingActionTypes briefingActionUsesStringArg briefingActionUsesSoundArg
    StringUserFlag.BriefingTriggerAction StringUserFlag.BriefingTriggerActionSound.

(** Both branches look up and assign [locationId]. *)
Definition remapLocationIds (remappings : gmap Z Z) (a : Action.Action) : Action.Action :=
  let a := if uses NumActionTypes actionUsesLocationArg a then
             match remappings !! Action.locationId a with
             | Some w => a <| Action.locationId := w |>
             | None => a
             end else a in
  if uses NumActionTypes actionUsesSecondaryLocationArg a then
    match remappings !! Action.locationId a with
    | Some w => a <| Action.locationId := w |>
    | None => a
    end
  else a.

Definition remapStringsIn (N : Z) (strings sounds : list bool) (remappings : gmap Z Z)
    (a : Action.Action) : Action.Action :=
  let a := if uses N strings a then
             match remappings !! Action.stringId a with
             | Some w => a <| Action.stringId := w |>
             | None => a
             end else a in
  if uses N sounds a then
    match remappings !! Action.soundStringId a with
    | Some w => a <| Action.soundStringId := w |>
    | None => a
    end
  else a.

Definition remapStringIds : gmap Z Z -> Action.Action -> Action.Action :=
  remapStringsIn NumActionTypes actionUsesStringArg actionUsesSoundArg.

Definition remapBriefingStringIds : gmap Z Z -> Action.Action -> Action.Action :=
  remapStringsIn NumBriefingActionTypes briefingActionUsesStringArg briefingActionUsesSoundArg.

Definition deleteLocation (locationId : Z) (a : Action.Action) : Action.Action :=
  let a := if uses NumActionTypes actionUsesLocationArg a && (Action.locationId a =? locationId)
           then a <| Action.locationId := LocationId_NoLocation |> else a in
  if uses NumActionTypes actionUsesSecondaryLocationArg a && (Action.number a =? locationId)
  then a <| Action.number := LocationId_NoLocation |> else a.

Definition deleteStringIn (N : Z) (strings sounds : list bool) (stringId : Z) (a : Action.Action)
    : Action.Action :=
  let a := if uses N strings a && (Action.stringId a =? stringId)
           then a <| Action.stringId := 0 |> else a in
  if uses N sounds a && (Action.soundStringId a =? stringId)
  then a <| Action.soundStringId := 0 |> else a.

Definition deleteString : Z -> Action.Action -> Action.Action :=
  deleteStringIn NumActionTypes actionUsesStringArg actionUsesSoundArg.

Definition deleteBriefingString : Z -> Action.Action -> Action.Action :=
  deleteStringIn NumBriefingActionTypes briefingActionUsesStringArg briefingActionUsesSoundArg.
End ACT.

(** ** Triggers *)

(** [alignConditionsTop] and [alignActionsTop]: [N] slots, [no] says that a
    slot is unused. *)
Section align.
Context {A : Type} (no : A -> bool) (N : Z).

(** [for ( j=i; j<N; j++ ) v[j] = v[firstUsedAfter+(j-i)];] *)
Definition shiftUp (i firstUsedAfter : Z) (l : list A) : outcome (list A) :=
  for_each (fun j l => let* a := vget l (firstUsedAfter + (j - i)) in vset l j a) (range i N) l.

Fixpoint alignFrom (indices : list Z) (l : list A) : outcome (list A) :=
  match indices with
  | [] => Ret l
  | i :: indices =>
      let* a := vget l i in
      if no a then
        let* found := first_such (fun j => let* b := vget l j in Ret (negb (no b))) (range (i + 1) N) in
        match found with
        | Some firstUsedAfter => let* l := shiftUp i firstUsedAfter l in alignFrom indices l
        | None => Ret l
        end
      else alignFrom indices l
  end.

Definition alignTop (l : list A) : outcome (list A) := alignFrom (range 0 N) l.
End align.

Module TRG.
Definition Flags_IgnoreConditionsOnce : Z := 1.
Definition Flags_IgnoreDefeatDraw : Z := 2.
Definition Flags_PreserveTrigger : Z := 4.
Definition Flags_Disabled : Z := 8.
Definition Flags_IgnoreMiscActions : Z := 16.
Definition Flags_Paused : Z := 32.
Definition Flags_IgnoreWaitSkipOnce : Z := 64.

Definition noCondition (c : Condition.Condition) : bool := Condition.conditionType c =? 0.
Definition noAction (a : Action.Action) : bool := Action.actionType a =? 0.

Definition blankCondition : Condition.Condition := Condition.mkCondition 0 0 0 0 0 0 0 0 0.
Definition blankAction : Action.Action := Action.mkAction 0 0 0 0 0 0 0 0 0 0 0 0.

Definition condition (t : Trigger.Trigger) (conditionIndex : Z) : outcome Condition.Condition :=
  get_at MaxConditions (Trigger.conditions t) conditionIndex.

Definition action (t : Trigger.Trigger) (actionIndex : Z) : outcome Action.Action :=
  get_at MaxActions (Trigger.actions t) actionIndex.

Definition owned (t : Trigger.Trigger) (ownerIndex : Z) : outcome Z :=
  get_at MaxOwners (Trigger.owners t) ownerIndex.

Definition alignConditionsTop (t : Trigger.Trigger) : outcome Trigger.Trigger :=
  assign Trigger.conditions (alignTop noCondition MaxConditions (Trigger.conditions t)) t.

Definition alignActionsTop (t : Trigger.Trigger) : outcome Trigger.Trigger :=
  assign Trigger.actions (alignTop noAction MaxActions (Trigger.actions t)) t.

Definition deleteCondition (t : Trigger.Trigger) (conditionIndex : Z) (align : bool)
    : outcome Trigger.Trigger :=
  if conditionIndex <? MaxConditions then
    let* t := assign Trigger.conditions (vset (Trigger.conditions t) conditionIndex blankCondition) t in
    if align then alignConditionsTop t else Ret t
  else Ret t.

Definition deleteAction (t : Trigger.Trigger) (actionIndex : Z) (align : bool)
    : outcome Trigger.Trigger :=
  if actionIndex <? MaxActions then
    let* t := assign Trigger.actions (vset (Trigger.actions t) actionIndex blankAction) t in
    if align then alignActionsTop t else Ret t
  else Ret t.

(** [(flags & Flags::X) == Flags::X] and its assignment. *)
Definition getFlag (mask : Z) (t : Trigger.Trigger) : bool := has_flag (Trigger.flags t) mask.
Definition setFlag (mask : Z) (t : Trigger.Trigger) (on : bool) : Trigger.Trigger :=
  t <| Trigger.flags := if on then Z.lor (Trigger.flags t) mask else Z.ldiff (Trigger.flags t) mask |>.

Definition preserveTriggerFlagged := getFlag Flags_PreserveTrigger.
Definition disabled := getFlag Flags_Disabled.
Definition ignoreConditionsOnce := getFlag Flags_IgnoreConditionsOnce.
Definition ignoreWaitSkipOnce := getFlag Flags_IgnoreWaitSkipOnce.
Definition ignoreMiscActionsOnce := getFlag Flags_IgnoreMiscActions.
Definition ignoreDefeatDraw := getFlag Flags_IgnoreDefeatDraw.
Definition pauseFlagged := getFlag Flags_Paused.
Definition setPreserveTriggerFlagged := setFlag Flags_PreserveTrigger.
Definition setDisabled := setFlag Flags_Disabled.
Definition setIgnoreConditionsOnce := setFlag Flags_IgnoreConditionsOnce.
Definition setIgnoreWaitSkipOnce := setFlag Flags_IgnoreWaitSkipOnce.
Definition setIgnoreMiscActionsOnce := setFlag Flags_IgnoreMiscActions.
Definition setIgnoreDefeatDraw := setFlag Flags_IgnoreDefeatDraw.
Definition setPauseFlagged := setFlag Flags_Paused.

Definition ExtendedTrigDataIndex_None : Z := 0xFFFFFFFF.
Definition ExtendedTrigDataIndex_CheckExtended : Z := 0xFEFEFEFE.
Definition ExtendedTrigDataIndex_GetIndex : Z := 0x00FFFFFF.
Definition ExtendedTrigDataIndex_MaxIndex : Z := 0x00FEFEFE.

(** [(u32 &)owners[22]]: the owners 22 to 25 as one number. *)
Definition ownersWord (t : Trigger.Trigger) : Z := le_dec 4 (take 4 (drop 22 (Trigger.owners t))).
Definition setOwnersWord (w : Z) (t : Trigger.Trigger) : Trigger.Trigger :=
  t <| Trigger.owners := take 22 (Trigger.owners t) ++ le_enc 4 w ++ drop 26 (Trigger.owners t) |>.

Definition getExtendedDataIndex (t : Trigger.Trigger) : Z :=
  let possibleExtendedData := ownersWord t in
  if Z.land possibleExtendedData ExtendedTrigDataIndex_CheckExtended >? 0 then
    let extendedDataIndex := Z.land possibleExtendedData ExtendedTrigDataIndex_GetIndex in
    if extendedDataIndex >? 0 then extendedDataIndex else ExtendedTrigDataIndex_None
  else ExtendedTrigDataIndex_None.

Definition setExtendedDataIndex (t : Trigger.Trigger) (extendedDataIndex : Z) : outcome Trigger.Trigger :=
  let sized := u32 extendedDataIndex in
  if (sized =? 0) || (sized =? 1) || (sized =? 256) || (sized =? 257) || (sized =? 65536) ||
     (sized =? 65537) || (sized =? 65792) || (sized =? 65793) || (sized >? 0x00FFFFFF) ||
     (sized >? ExtendedTrigDataIndex_MaxIndex)
  then Throw InvalidArgument
  else Ret (setOwnersWord (Z.lor (Z.land (ownersWord t) 0x1010101) sized) t).

Definition clearExtendedDataIndex (t : Trigger.Trigger) : Trigger.Trigger := setOwnersWord 0 t.

(** [total++] over the slots that satisfy a test. *)
Definition count_in {A} (q : A -> bool) (N : Z) (l : list A) : outcome Z :=
  for_each (fun i total => let* a := vget l i in Ret (if q a then total + 1 else total)) (range 0 N) 0.

Definition numUsedConditions (t : Trigger.Trigger) : outcome Z :=
  count_in (fun c => negb (noCondition c)) MaxConditions (Trigger.conditions t).

Definition numUsedActions (t : Trigger.Trigger) : outcome Z :=
  count_in (fun a => negb (noAction a)) MaxActions (Trigger.actions t).

Definition getComment (t : Trigger.Trigger) : outcome Z :=
  let* found := first_such (fun i => let* a := vget (Trigger.actions t) i in
      Ret ((Action.actionType a =? ACT.Type_Comment) && negb (ACT.isDisabled a))) (range 0 MaxActions) in
  match found with
  | Some i => let* a := vget (Trigger.actions t) i in Ret (Action.stringId a)
  | None => Ret 0
  end.

(** Loops over the conditions and the actions. *)
Definition any_in {A} (N : Z) (l : list A) (q : A -> bool) : outcome bool :=
  any_such (fun i => let* a := vget l i in Ret (q a)) (range 0 N).
Definition mark_in {A} (N : Z) (l : list A) (mark : A -> gset Z -> outcome (gset Z)) (bs : gset Z)
    : outcome (gset Z) :=
  for_each (fun i bs => let* a := vget l i in mark a bs) (range 0 N) bs.
Definition update_in {A} (N : Z) (f : A -> A) (l : list A) : outcome (list A) :=
  for_each (fun i l => let* a := vget l i in vset l i (f a)) (range 0 N) l.

Definition locationUsed (t : Trigger.Trigger) (locationId : Z) : outcome bool :=
  oor (any_in MaxConditions (Trigger.conditions t) (fun c => CND.locationUsed c locationId))
      (any_in MaxActions (Trigger.actions t) (fun a => ACT.locationUsed a locationId)).

Definition stringUsed (t : Trigger.Trigger) (stringId userMask : Z) : outcome bool :=
  any_in MaxActions (Trigger.actions t) (fun a => ACT.stringUsed a stringId userMask).

Definition gameStringUsed (t : Trigger.Trigger) (stringId userMask : Z) : outcome bool :=
  any_in MaxActions (Trigger.actions t) (fun a => ACT.gameStringUsed a stringId userMask).

Definition commentStringUsed (t : Trigger.Trigger) (stringId : Z) : outcome bool :=
  any_in MaxActions (Trigger.actions t) (fun a => ACT.commentStringUsed a stringId).

Definition briefingStringUsed (t : Trigger.Trigger) (stringId userMask : Z) : outcome bool :=
  any_in MaxActions (Trigger.actions t) (fun a => ACT.briefingStringUsed a stringId userMask).

Definition markUsedLocations (t : Trigger.Trigger) (locationIdUsed : gset Z) : outcome (gset Z) :=
  let* locationIdUsed :=
    mark_in MaxConditions (Trigger.conditions t) CND.markUsedLocations locationIdUsed in
  mark_in MaxActions (Trigger.actions t) ACT.markUsedLocations locationIdUsed.

Definition markUsedStrings (t : Trigger.Trigger) (stringIdUsed : gset Z) (userMask : Z) : outcome (gset Z) :=
  mark_in MaxActions (Trigger.actions t) (fun a bs => ACT.markUsedStrings a bs userMask) stringIdUsed.

Definition markUsedGameStrings (t : Trigger.Trigger) (stringIdUsed : gset Z) (userMask : Z)
    : outcome (gset Z) :=
  mark_in MaxActions (Trigger.actions t) (fun a bs => ACT.markUsedGameStrings a bs userMask) stringIdUsed.

Definition markUsedCommentStrings (t : Trigger.Trigger) (stringIdUsed : gset Z) : outcome (gset Z) :=
  mark_in MaxActions (Trigger.actions t) ACT.markUsedCommentStrings stringIdUsed.

Definition markUsedBriefingStrings (t : Trigger.Trigger) (stringIdUsed : gset Z) (userMask : Z)
    : outcome (gset Z) :=
  mark_in MaxActions (Trigger.actions t) (fun a bs => ACT.markUsedBriefingStrings a bs userMask)
    stringIdUsed.

Definition onConditions (f : Condition.Condition -> Condition.Condition) (t : Trigger.Trigger)
    : outcome Trigger.Trigger :=
  assign Trigger.conditions (update_in MaxConditions f (Trigger.conditions t)) t.
Definition onActions (f : Action.Action -> Action.Action) (t : Trigger.Trigger) : outcome Trigger.Trigger :=
  assign Trigger.actions (update_in MaxActions f (Trigger.actions t)) t.

Definition remapLocationIds (remappings : gmap Z Z) (t : Trigger.Trigger) : outcome Trigger.Trigger :=
  let* t := onConditions (CND.remapLocationIds remappings) t in
  onActions (ACT.remapLocationIds remappings) t.

Definition remapStringIds (remappings : gmap Z Z) : Trigger.Trigger -> outcome Trigger.Trigger :=
  onActions (ACT.remapStringIds remappings).

Definition remapBriefingStringIds (remappings : gmap Z Z) : Trigger.Trigger -> outcome Trigger.Trigger :=
  onActions (ACT.remapBriefingStringIds remappings).

Definition deleteLocation (locationId : Z) (t : Trigger.Trigger) : outcome Trigger.Trigger :=
  let* t := onConditions (CND.deleteLocation locationId) t in
  onActions (ACT.deleteLocation locationId) t.

Definition deleteString (stringId : Z) : Trigger.Trigger -> outcome Trigger.Trigger :=
  onActions (ACT.deleteString stringId).

Definition deleteBriefingString (stringId : Z) : Trigger.Trigger -> outcome Trigger.Trigger :=
  onActions (ACT.deleteBriefingString stringId).
End TRG.

(** ** String properties *)

Module StringProperties.
Record StringProperties := mkStringProperties { red : Z; green : Z; blue : Z; flags : Z }.

Definition baseFontSize : Z := 8.
Definition fontStepSize : Z := 2.

(** A size step: [if ( size > step ) { flags |= bit; size -= step; }] *)
Definition sizeStep (step bit : Z) (p : Z * Z) : Z * Z :=
  let '(flags, size) := p in
  if size >? step then (Z.lor flags bit, size - step) else (flags, size).

Definition new (red green blue : Z) (isUsed hasPriority isBold isUnderlined isItalics : bool) (size : Z)
    : outcome StringProperties :=
  let bit (b : bool) v := if b then v else 0 in
  let flags := Z.lor (Z.lor (Z.lor (Z.lor (bit isUsed 1) (bit hasPriority 2)) (bit isBold 4))
                            (bit isUnderlined 8)) (bit isItalics 16) in
  let maxFontSize := baseFontSize + 7 * fontStepSize in
  if (size <? baseFontSize) || (size >? maxFontSize) then Throw InvalidSize
  else
    let '(flags, size) :=
      sizeStep fontStepSize 128
        (sizeStep (2 * fontStepSize) 64
          (sizeStep (4 * fontStepSize) 32 (flags, size - baseFontSize))) in
    if size >? 0 then Throw InvalidSize else Ret (mkStringProperties red green blue flags).
End StringProperties.

(** ** Create-unit properties *)

Module CUWP.
Definition getState (mask : Z) (c : Cuwp.Cuwp) : bool := has_flag (Cuwp.unitStateFlags c) mask.
Definition setState (mask xmask : Z) (c : Cuwp.Cuwp) (on : bool) : Cuwp.Cuwp :=
  c <| Cuwp.unitStateFlags := if on then Z.lor (Cuwp.unitStateFlags c) mask
                              else Z.land (Cuwp.unitStateFlags c) xmask |>.
Definition isCloaked := getState 1.
Definition isBurrowed := getState 2.
Definition isInTransit := getState 4.
Definition isHallucinated := getState 8.
Definition isInvincible := getState 16.
Definition setCloaked := setState 1 0xFFFE.
Definition setBurrowed := setState 2 0xFFFD.
Definition setInTransit := setState 4 0xFFFB.
Definition setHallucinated := setState 8 0xFFF7.
Definition setInvincible := setState 16 0xFFEF.
End CUWP.

(** ** The sections *)

(** [for ( auto trigger : triggers ) trigger->f(...)] for an [f] that changes
    the trigger. *)
Fixpoint update_all {A} (f : A -> outcome A) (l : list A) : outcome (list A) :=
  match l with
  | [] => Ret []
  | a :: l => let* a := f a in let* l := update_all f l in Ret (a :: l)
  end.

(** The two pushes of [appendUsage] for one action. *)
Definition append_action_users (used : Action.Action -> Z -> Z -> bool) (stringFlag soundFlag : Z)
    (stringId userMask trigIndex actionIndex : Z) (a : Action.Action) (users : list StringUser)
    : list StringUser :=
  let users := if has_flag userMask stringFlag && used a stringId stringFlag
               then users ++ [mkStringUser stringFlag trigIndex actionIndex] else users in
  if has_flag userMask soundFlag && used a stringId soundFlag
  then users ++ [mkStringUser soundFlag trigIndex actionIndex] else users.

Definition append_trigger_users (used : Action.Action -> Z -> Z -> bool) (stringFlag soundFlag : Z)
    (triggers : list Trigger.Trigger) (stringId : Z) (users : list StringUser) (userMask : Z)
    : outcome (list StringUser) :=
  for_each (fun trigIndex users =>
      let* t := vget triggers trigIndex in
      for_each (fun actionIndex users =>
          let* a := vget (Trigger.actions t) actionIndex in
          Ret (append_action_users used stringFlag soundFlag stringId userMask trigIndex actionIndex
                 a users))
        (range 0 MaxActions) users)
    (range 0 (zlen triggers)) users.

Module TrigSection.
Abbreviation t := (list Trigger.Trigger).

Definition GetDefault : t := [].
Definition numTriggers (triggers : t) : Z := num_objects triggers.
Definition getTrigger (triggers : t) (triggerIndex : Z) : outcome Trigger.Trigger :=
  get_object triggers triggerIndex.
Definition addTrigger (triggers : t) (trigger : Trigger.Trigger) : t * Z := add_object triggers trigger.
Definition insertTrigger (triggers : t) (triggerIndex : Z) (trigger : Trigger.Trigger) : outcome t :=
  insert_object triggers triggerIndex trigger.
Definition deleteTrigger (triggers : t) (triggerIndex : Z) : outcome t :=
  delete_object triggers triggerIndex.
Definition moveTrigger (triggers : t) (triggerIndexFrom triggerIndexTo : Z) : outcome t :=
  move_object triggers triggerIndexFrom triggerIndexTo.

(** The section's triggers and the argument afterwards. *)
Definition swap (this triggers : t) : t * t := (triggers, this).

(** [replaceRange]: the section's triggers, the argument and the result. *)
Definition replaceRange (this : t) (beginIndex endIndex : Z) (triggers : t) : outcome (t * t * t) :=
  if (beginIndex =? 0) && (endIndex =? zlen triggers) then
    let '(this, triggers) := swap this triggers in Ret (this, triggers, triggers)
  else if (beginIndex <? endIndex) && (endIndex <=? zlen this) then
    let replacedTriggers :=
      drop (Z.to_nat beginIndex) (take (Z.to_nat endIndex) this) in
    let* this := verase_range this beginIndex endIndex in
    Ret (take (Z.to_nat beginIndex) this ++ triggers ++ drop (Z.to_nat beginIndex) this,
         triggers, replacedTriggers)
  else Throw OutOfRange.

Definition locationUsed (triggers : t) (locationId : Z) : outcome bool :=
  any_such (fun trigger => TRG.locationUsed trigger locationId) triggers.

Definition appendUsage (triggers : t) (stringId : Z) (stringUsers : list StringUser) (userMask : Z)
    : outcome (list StringUser) :=
  append_trigger_users ACT.stringUsed StringUserFlag.TriggerAction StringUserFlag.TriggerActionSound
    triggers stringId stringUsers userMask.

Definition stringUsed (triggers : t) (stringId userMask : Z) : outcome bool :=
  any_such (fun trigger => TRG.stringUsed trigger stringId userMask) triggers.

Definition gameStringUsed (triggers : t) (stringId userMask : Z) : outcome bool :=
  any_such (fun trigger => TRG.gameStringUsed trigger stringId userMask) triggers.

Definition commentStringUsed (triggers : t) (stringId : Z) : outcome bool :=
  any_such (fun trigger => TRG.commentStringUsed trigger stringId) triggers.

Definition markUsedLocations (triggers : t) (locationIdUsed : gset Z) : outcome (gset Z) :=
  for_each TRG.markUsedLocations triggers locationIdUsed.

Definition markUsedStrings (triggers : t) (stringIdUsed : gset Z) (userMask : Z) : outcome (gset Z) :=
  for_each (fun trigger bs => TRG.markUsedStrings trigger bs userMask) triggers stringIdUsed.

Definition markUsedGameStrings (triggers : t) (stringIdUsed : gset Z) (userMask : Z) : outcome (gset Z) :=
  for_each (fun trigger bs => TRG.markUsedGameStrings trigger bs userMask) triggers stringIdUsed.

Definition markUsedCommentStrings (triggers : t) (stringIdUsed : gset Z) : outcome (gset Z) :=
  for_each TRG.markUsedCommentStrings triggers stringIdUsed.

Definition remapLocationIds (triggers : t) (remappings : gmap Z Z) : outcome t :=
  update_all (TRG.remapLocationIds remappings) triggers.

Definition remapStringIds (triggers : t) (remappings : gmap Z Z) : outcome t :=
  update_all (TRG.remapStringIds remappings) triggers.

Definition deleteLocation (triggers : t) (locationId : Z) : outcome t :=
  update_all (TRG.deleteLocation locationId) triggers.

Definition deleteString (triggers : t) (stringId : Z) : outcome t :=
  update_all (TRG.deleteString stringId) triggers.

Definition getSize (triggers : t) : Z := size_objects Trigger.layout triggers.
Definition read (sizeInBytes : Z) (ist : istream) (append : bool) (triggers : t)
    : outcome (t * Z * istream) := read_objects Trigger.layout sizeInBytes ist append triggers.
Definition write (triggers : t) : bytes := write_objects Trigger.layout triggers.
End TrigSection.

Module MbrfSection.
Abbreviation t := (list Trigger.Trigger).

Definition GetDefault : t := [].
Definition numBriefingTriggers (briefingTriggers : t) : Z := num_objects briefingTriggers.
Definition getBriefingTrigger (briefingTriggers : t) (i : Z) : outcome Trigger.Trigger :=
  get_object briefingTriggers i.
Definition addBriefingTrigger (briefingTriggers : t) (trigger : Trigger.Trigger) : t * Z :=
  add_object briefingTriggers trigger.
Definition insertBriefingTrigger (briefingTriggers : t) (i : Z) (trigger : Trigger.Trigger) : outcome t :=
  insert_object briefingTriggers i trigger.
Definition deleteBriefingTrigger (briefingTriggers : t) (i : Z) : outcome t :=
  delete_object briefingTriggers i.
Definition moveBriefingTrigger (briefingTriggers : t) (indexFrom indexTo : Z) : outcome t :=
  move_object briefingTriggers indexFrom indexTo.

Definition appendUsage (briefingTriggers : t) (stringId : Z) (stringUsers : list StringUser)
    (userMask : Z) : outcome (list StringUser) :=
  append_trigger_users ACT.briefingStringUsed StringUserFlag.BriefingTriggerAction
    StringUserFlag.BriefingTriggerActionSound briefingTriggers stringId stringUsers userMask.

Definition stringUsed (briefingTriggers : t) (stringId userMask : Z) : outcome bool :=
  any_such (fun trigger => TRG.briefingStringUsed trigger stringId userMask) briefingTriggers.

Definition markUsedStrings (briefingTriggers : t) (stringIdUsed : gset Z) (userMask : Z)
    : outcome (gset Z) :=
  for_each (fun trigger bs => TRG.markUsedBriefingStrings trigger bs userMask) briefingTriggers
    stringIdUsed.

Definition remapStringIds (briefingTriggers : t) (remappings : gmap Z Z) : outcome t :=
  update_all (TRG.remapBriefingStringIds remappings) briefingTriggers.

(** The source calls [deleteString], not [deleteBriefingString]. *)
Definition deleteString (briefingTriggers : t) (stringId : Z) : outcome t :=
  update_all (TRG.deleteString stringId) briefingTriggers.

Definition getSize (briefingTriggers : t) : Z := size_objects Trigger.layout briefingTriggers.
Definition read (sizeInBytes : Z) (ist : istream) (append : bool) (briefingTriggers : t)
    : outcome (t * Z * istream) := read_objects Trigger.layout sizeInBytes ist append briefingTriggers.
Definition write (briefingTriggers : t) : bytes := write_objects Trigger.layout briefingTriggers.
End MbrfSection.
