(* ===== verification/TriggerStrings.v ===== *)
(** The strings trigger actions use: TRIG obeys the string-user contract of
    [StringUsers]; MBRF obeys it except for deleting a string. *)
From S2P Require Import Prelude Codec ChkTypes ChkSection Accessors StringUsers Terrain Objects TriggerTables Triggers.
Open Scope Z_scope.

(** ** Loops *)

Lemma any_such_ret {A} (p : A -> outcome bool) (q : A -> bool) l :
  (forall a, a ∈ l -> p a = Ret (q a)) -> any_such p l = Ret (existsb q l).
Proof.
  unfold any_such. induction l as [|a l IH]; intros H; [done|]. cbn.
  rewrite H by (apply elem_of_cons; by left). cbn [obind].
  destruct (q a); [done|]. cbn. apply IH. intros b Hb. apply H. apply elem_of_cons. by right.
Qed.

Lemma any_such_ext {A} (p q : A -> outcome bool) l :
  (forall a, a ∈ l -> p a = q a) -> any_such p l = any_such q l.
Proof.
  intros H. unfold any_such. f_equal. induction l as [|a l IH]; [done|]. cbn.
  rewrite H by set_solver. destruct (q a) as [[]| |]; cbn; auto. apply IH. set_solver.
Qed.

Lemma update_all_ret {A} (f : A -> outcome A) (g : A -> A) l :
  (forall a, a ∈ l -> f a = Ret (g a)) -> update_all f l = Ret (g <$> l).
Proof.
  induction l as [|a l IH]; intros H; [done|]. cbn.
  rewrite H by (apply elem_of_cons; by left). cbn [obind].
  rewrite IH by (intros b Hb; apply H; apply elem_of_cons; by right). done.
Qed.

(** Marking element by element marks the ids of all of them; [F ids] is the
    set of those ids that are valid. *)
Section mark_loop.
Context {A : Type} (F : list Z -> gset Z).
Context (F_nil : F [] = ∅) (F_app : forall k l, F (k ++ l) = F k ∪ F l).

Lemma for_each_mark (body : A -> gset Z -> outcome (gset Z)) (ids : A -> list Z) l bs :
  (forall a bs, a ∈ l -> body a bs = Ret (F (ids a) ∪ bs)) ->
  for_each body l bs = Ret (F (concat (ids <$> l)) ∪ bs).
Proof.
  revert bs. induction l as [|a l IH]; intros bs H; cbn.
  - rewrite F_nil. f_equal. set_solver.
  - rewrite H by (apply elem_of_cons; by left). cbn [obind].
    rewrite IH by (intros b c Hb; apply H; apply elem_of_cons; by right).
    rewrite F_app. f_equal. set_solver.
Qed.
End mark_loop.

Lemma existsb_concat {A} (q : A -> bool) (ids : A -> list Z) id l :
  (forall a, a ∈ l -> q a = bool_decide (id ∈ ids a)) ->
  existsb q l = bool_decide (id ∈ concat (ids <$> l)).
Proof.
  induction l as [|a l IH]; intros H; [done|]. cbn [existsb fmap list_fmap concat].
  rewrite H by (apply elem_of_cons; by left).
  rewrite IH by (intros b Hb; apply H; apply elem_of_cons; by right).
  apply eq_true_iff_eq. rewrite orb_true_iff, !bool_decide_eq_true, elem_of_app. done.
Qed.

Section fixed_array.
Context {A : Type} (N : Z) (l : list A) (HN : zlen l = N).

Lemma any_in_spec q : TRG.any_in N l q = Ret (existsb q l).
Proof. by apply any_such_read. Qed.

Lemma mark_in_spec mark bs :
  TRG.mark_in N l mark bs = for_each mark l bs.
Proof.
  unfold TRG.mark_in. rewrite for_each_read by done.
  assert (Hlen : length (range 0 N) = length l)
    by (rewrite ?range_seqZ; rewrite length_seqZ; unfold zlen in HN; lia).
  revert Hlen. generalize (range 0 N) as r. clear HN. revert bs.
  induction l as [|a k IH]; intros bs [|i r] Hlen; try done. cbn.
  destruct (mark a bs); [cbn | done | done]. apply IH. simpl in Hlen; lia.
Qed.

Lemma update_in_spec f : TRG.update_in N f l = Ret (f <$> l).
Proof.
  unfold TRG.update_in. apply for_each_update; [|done]. intros i k v Hi Hv.
  rewrite (vget_Some _ _ v) by done. cbn [obind]. apply vset_in.
  apply lookup_lt_Some in Hv. unfold zlen. lia.
Qed.
End fixed_array.

#[export] Instance trigger_actions_member : Member Trigger.layout Trigger.actions Action.layout MaxActions.
Proof. solve_member. Qed.
#[export] Instance trigger_conditions_member :
  Member Trigger.layout Trigger.conditions Condition.layout MaxConditions.
Proof. solve_member. Qed.

Lemma trigger_actions_zlen t : cwf Trigger.layout t -> zlen (Trigger.actions t) = MaxActions.
Proof. intros H. exact (member_zlen Trigger.layout Trigger.actions Action.layout MaxActions t H). Qed.

(** ** Lists of triggers *)

Definition trig_wf (ts : list Trigger.Trigger) : Prop := Forall (cwf Trigger.layout) ts.

Lemma trig_action_wf ts t a : trig_wf ts -> t ∈ ts -> a ∈ Trigger.actions t -> cwf Action.layout a.
Proof.
  intros Hts Ht Ha.
  exact (proj1 (Forall_forall _ _) (proj2 (member_wf t (proj1 (Forall_forall _ _) Hts t Ht))) a Ha).
Qed.

(** A function applied to every action of every trigger. *)
Lemma trig_update f ts : (forall a, cwf Action.layout a -> cwf Action.layout (f a)) -> trig_wf ts ->
  let ts' := (fun t => t <| Trigger.actions := f <$> Trigger.actions t |>) <$> ts in
  update_all (TRG.onActions f) ts = Ret ts' /\ trig_wf ts'.
Proof.
  intros Hf Hts ts'. split.
  - apply update_all_ret. intros t Ht. unfold TRG.onActions, assign.
    rewrite update_in_spec by (apply trigger_actions_zlen; by apply (proj1 (Forall_forall _ _) Hts)). done.
  - apply Forall_fmap. eapply Forall_impl; [exact Hts|]. intros t Hw.
    destruct (member_wf (layout := Trigger.layout) (f := Trigger.actions) t Hw) as [Hl Ha].
    apply member_upd; [done | by rewrite length_fmap|].
    apply Forall_fmap. eapply Forall_impl; [exact Ha | exact Hf].
Qed.

(** ** The strings of an action, of a trigger and of a section *)

Section trig_strings.
Context (N : Z) (strings sounds : list bool) (stringFlag soundFlag : Z).
Context (flags_ok : has_flag StringUserFlag.All stringFlag = true /\
  has_flag StringUserFlag.All soundFlag = true /\
  has_flag stringFlag soundFlag = false /\ has_flag soundFlag stringFlag = false /\
  has_flag stringFlag stringFlag = true /\ has_flag soundFlag soundFlag = true).

Let used := ACT.stringUsedIn N strings sounds stringFlag soundFlag.

Definition action_ids (a : Action.Action) : list Z :=
  (if ACT.uses N strings a then [Action.stringId a] else []) ++
  (if ACT.uses N sounds a then [Action.soundStringId a] else []).

Definition trigger_ids (t : Trigger.Trigger) : list Z := concat (action_ids <$> Trigger.actions t).

Definition action_users (i j : Z) (a : Action.Action) : list (StringUser * Z) :=
  (if ACT.uses N strings a then [(mkStringUser stringFlag i j, Action.stringId a)] else []) ++
  (if ACT.uses N sounds a then [(mkStringUser soundFlag i j, Action.soundStringId a)] else []).

Definition trigger_users (i : Z) (t : Trigger.Trigger) : list (StringUser * Z) :=
  concat (zip_with (action_users i) (range 0 MaxActions) (Trigger.actions t)).

Definition trig_users (ts : list Trigger.Trigger) : list (StringUser * Z) :=
  concat (zip_with trigger_users (range 0 (zlen ts)) ts).

(** The ids of a list of users built index by index. *)
Lemma concat_zip_ids {A} (f : Z -> A -> list (StringUser * Z)) (g : A -> list Z) r l :
  length r = length l -> (forall i a, a ∈ l -> (f i a).*2 = g a) ->
  (concat (zip_with f r l)).*2 = concat (g <$> l).
Proof.
  revert r. induction l as [|a l IH]; intros [|i r] Hr H; try done. cbn.
  rewrite fmap_app, H by (apply elem_of_cons; by left). f_equal.
  apply IH; [simpl in Hr; lia|]. intros j b Hb. apply H. apply elem_of_cons. by right.
Qed.

Lemma range_length n : 0 <= n -> length (range 0 n) = Z.to_nat n.
Proof. intros. rewrite ?range_seqZ. rewrite length_seqZ. lia. Qed.

Lemma trig_users_ids ts : trig_wf ts -> (trig_users ts).*2 = concat (trigger_ids <$> ts).
Proof.
  intros Hts. apply concat_zip_ids.
  - rewrite range_length by apply zlen_nonneg. unfold zlen. lia.
  - intros i t Ht. apply concat_zip_ids.
    + assert (Hl := trigger_actions_zlen t (proj1 (Forall_forall _ _) Hts t Ht)).
      rewrite range_length by done. unfold zlen in Hl. lia.
    + intros j a _. unfold action_users, action_ids.
      by destruct (ACT.uses N strings a), (ACT.uses N sounds a).
Qed.

Lemma action_used a id : used a id StringUserFlag.All = bool_decide (id ∈ action_ids a).
Proof.
  destruct flags_ok as (H1 & H2 & _). unfold used, ACT.stringUsedIn, action_ids. rewrite H1, H2.
  apply eq_true_iff_eq. rewrite bool_decide_eq_true. cbn [andb].
  destruct (ACT.uses N strings a), (ACT.uses N sounds a); cbn [andb orb app];
    rewrite ?orb_false_r, ?orb_true_iff, ?Z.eqb_eq, ?elem_of_cons, ?elem_of_nil;
    rewrite ?(Z.eq_sym_iff id); intuition congruence.
Qed.

Lemma trigger_used t id : cwf Trigger.layout t ->
  TRG.any_in MaxActions (Trigger.actions t) (fun a => used a id StringUserFlag.All) =
  Ret (bool_decide (id ∈ trigger_ids t)).
Proof.
  intros Ht. rewrite any_in_spec by (by apply trigger_actions_zlen). f_equal.
  apply existsb_concat. intros a _. apply action_used.
Qed.

Lemma trig_used ts id : trig_wf ts ->
  any_such (fun t => TRG.any_in MaxActions (Trigger.actions t) (fun a => used a id StringUserFlag.All)) ts =
  Ret (bool_decide (id ∈ (trig_users ts).*2)).
Proof.
  intros Hts. rewrite (any_such_ret _ (fun t => bool_decide (id ∈ trigger_ids t))).
  - f_equal. rewrite trig_users_ids by done. apply existsb_concat. done.
  - intros t Ht. apply trigger_used. by apply (proj1 (Forall_forall _ _) Hts).
Qed.

Lemma action_mark a bs :
  ACT.markStringsIn N strings sounds stringFlag soundFlag a bs StringUserFlag.All =
  Ret (ids_set (action_ids a) ∪ bs).
Proof.
  destruct flags_ok as (H1 & H2 & _). unfold ACT.markStringsIn, action_ids. rewrite H1, H2.
  assert (Hm : forall v, (v >? 0) && (v <? MaxStrings) = markable v)
    by (intros v; unfold markable; by rewrite Z.gtb_ltb).
  destruct (ACT.uses N strings a), (ACT.uses N sounds a); cbn [andb app];
    rewrite ?mark_one by (apply Hm); cbn [obind]; rewrite ?mark_one by (apply Hm);
    rewrite ?(ids_set_cons (Action.stringId a)), ?(ids_set_cons (Action.soundStringId a));
    change (ids_set []) with (∅ : gset Z); f_equal; set_solver.
Qed.

Lemma trig_mark ts bs : trig_wf ts ->
  for_each (fun t bs => TRG.mark_in MaxActions (Trigger.actions t)
    (fun a bs => ACT.markStringsIn N strings sounds stringFlag soundFlag a bs StringUserFlag.All) bs) ts bs =
  Ret (ids_set (trig_users ts).*2 ∪ bs).
Proof.
  intros Hts. rewrite trig_users_ids by done. apply (for_each_mark ids_set); [done | apply ids_set_app|]. intros t bs' Ht.
  rewrite mark_in_spec by (apply trigger_actions_zlen; by apply (proj1 (Forall_forall _ _) Hts)).
  apply (for_each_mark ids_set); [done | apply ids_set_app|]. intros a bs'' _. apply action_mark.
Qed.

(** *** Appending users *)

Lemma action_append i j a id us :
  append_action_users used stringFlag soundFlag id StringUserFlag.All i j a us =
  us ++ users_of id (action_users i j a).
Proof.
  destruct flags_ok as (H1 & H2 & H3 & H4 & H5 & H6).
  unfold append_action_users, used, ACT.stringUsedIn, action_users. rewrite H1, H2, H3, H4, H5, H6.
  destruct (ACT.uses N strings a), (ACT.uses N sounds a); cbn [andb orb app];
    rewrite ?orb_false_r, ?users_of_cons; change (users_of id []) with (@nil StringUser);
    destruct (Action.stringId a =? id), (Action.soundStringId a =? id); cbn;
    by rewrite ?app_nil_r, <- ?app_assoc.
Qed.

Lemma for_each_append {A} (f : Z -> A -> list StringUser -> outcome (list StringUser))
    (g : Z -> A -> list (StringUser * Z)) id r l us :
  (forall i a us, a ∈ l -> f i a us = Ret (us ++ users_of id (g i a))) ->
  for_each (fun p us => f p.1 p.2 us) (zip r l) us = Ret (us ++ users_of id (concat (zip_with g r l))).
Proof.
  revert r us. induction l as [|a l IH]; intros [|i r] us H; cbn;
    try (change (users_of id []) with (@nil StringUser); by rewrite app_nil_r).
  rewrite H by (apply elem_of_cons; by left). cbn [obind].
  rewrite IH by (intros j b us' Hb; apply H; apply elem_of_cons; by right).
  by rewrite users_of_app, <- app_assoc.
Qed.

Lemma trig_append ts id us : trig_wf ts ->
  append_trigger_users used stringFlag soundFlag ts id us StringUserFlag.All =
  Ret (us ++ users_of id (trig_users ts)).
Proof.
  intros Hts. unfold append_trigger_users, trig_users.
  rewrite (for_each_read (fun i t us => for_each (fun j us => let* a := vget (Trigger.actions t) j in
    Ret (append_action_users used stringFlag soundFlag id StringUserFlag.All i j a us))
    (range 0 MaxActions) us)) by done.
  apply (for_each_append (fun i t us => for_each (fun j us => let* a := vget (Trigger.actions t) j in
    Ret (append_action_users used stringFlag soundFlag id StringUserFlag.All i j a us))
    (range 0 MaxActions) us) trigger_users).
  intros i t us' Ht. rewrite (for_each_read (fun j a us =>
    Ret (append_action_users used stringFlag soundFlag id StringUserFlag.All i j a us)))
    by (apply trigger_actions_zlen; by apply (proj1 (Forall_forall _ _) Hts)).
  apply (for_each_append (fun j a us =>
    Ret (append_action_users used stringFlag soundFlag id StringUserFlag.All i j a us)) (action_users i)).
  intros j a us'' _. by rewrite action_append.
Qed.

(** *** Rewriting the ids *)

(** [f] rewrites the string ids of an action with [g] and nothing else that
    matters to the strings. *)
Definition rewrites (f : Action.Action -> Action.Action) (g : Z -> Z) : Prop :=
  forall a, cwf Action.layout a -> cwf Action.layout (f a) /\
    ACT.uses N strings (f a) = ACT.uses N strings a /\ ACT.uses N sounds (f a) = ACT.uses N sounds a /\
    (ACT.uses N strings a = true -> Action.stringId (f a) = g (Action.stringId a)) /\
    (ACT.uses N sounds a = true -> Action.soundStringId (f a) = g (Action.soundStringId a)).

Lemma action_users_rewrite f g i j a : rewrites f g -> cwf Action.layout a ->
  action_users i j (f a) = prod_map id g <$> action_users i j a.
Proof.
  intros Hf Ha. destruct (Hf a Ha) as (_ & E1 & E2 & E3 & E4). unfold action_users. rewrite E1, E2.
  destruct (ACT.uses N strings a), (ACT.uses N sounds a); cbn;
    rewrite ?E3, ?E4 by done; done.
Qed.

Lemma concat_zip_map {A} (f : Z -> A -> list (StringUser * Z)) (h : A -> A) (g : Z -> Z) r l :
  (forall i a, a ∈ l -> f i (h a) = prod_map id g <$> f i a) ->
  concat (zip_with f r (h <$> l)) = prod_map id g <$> concat (zip_with f r l).
Proof.
  revert r. induction l as [|a l IH]; intros [|i r] H; try done. cbn.
  rewrite fmap_app, H by (apply elem_of_cons; by left). f_equal. apply IH.
  intros j b Hb. apply H. apply elem_of_cons. by right.
Qed.

Lemma trig_rewrite f g ts : rewrites f g -> trig_wf ts ->
  exists ts', update_all (TRG.onActions f) ts = Ret ts' /\ trig_wf ts' /\
    trig_users ts' = prod_map id g <$> trig_users ts.
Proof.
  intros Hf Hts. destruct (trig_update f ts) as [Hu Hw]; [intros a Ha; apply (Hf a Ha) | done|].
  eexists. split; [exact Hu|]. split; [exact Hw|]. unfold trig_users.
  replace (zlen (_ <$> ts)) with (zlen ts) by (unfold zlen; by rewrite length_fmap).
  apply concat_zip_map. intros i t Ht. unfold trigger_users. rewrite upd_get.
  apply concat_zip_map. intros j a Ha. apply action_users_rewrite; [done|].
  by apply (trig_action_wf ts t).
Qed.

Lemma set_string_wf v a : cwf Action.layout a -> is_u 32 v -> cwf Action.layout (a <| Action.stringId := v |>).
Proof. clear used flags_ok. destruct a. cbn. change (8 * Z.of_nat 4) with 32. tauto. Qed.
Lemma set_sound_wf v a : cwf Action.layout a -> is_u 32 v ->
  cwf Action.layout (a <| Action.soundStringId := v |>).
Proof. clear used flags_ok. destruct a. cbn. change (8 * Z.of_nat 4) with 32. tauto. Qed.

Lemma remap_rewrites m : map_Forall (fun _ w => is_u 32 w) m ->
  rewrites (ACT.remapStringsIn N strings sounds m) (remap1 id m).
Proof.
  clear used flags_ok. intros Hm a Ha. unfold ACT.remapStringsIn, remap1.
  destruct (ACT.uses N strings a) eqn:E1; [destruct (m !! Action.stringId a) as [w|] eqn:F1|];
    (match goal with |- context [if ACT.uses N sounds ?x then _ else _] =>
       change (ACT.uses N sounds x) with (ACT.uses N sounds a) end);
    destruct (ACT.uses N sounds a) eqn:E2;
    try (match goal with |- context [m !! Action.soundStringId ?x] =>
       change (Action.soundStringId x) with (Action.soundStringId a) end;
       destruct (m !! Action.soundStringId a) as [w'|] eqn:F2);
    (split; [eauto using set_string_wf, set_sound_wf|]);
    split_and!; intros; first [done | congruence].
Qed.

Lemma delete_rewrites id : rewrites (ACT.deleteStringIn N strings sounds id) (clear1 id).
Proof.
  clear used flags_ok. intros a Ha. assert (H0 : is_u 32 0) by (vm_compute; split; congruence).
  unfold ACT.deleteStringIn, clear1.
  destruct (ACT.uses N strings a) eqn:E1, (Action.stringId a =? id) eqn:F1; cbn [andb];
    (match goal with |- context [if ACT.uses N sounds ?x && _ then _ else _] =>
       change (ACT.uses N sounds x) with (ACT.uses N sounds a);
       change (Action.soundStringId x) with (Action.soundStringId a) end);
    destruct (ACT.uses N sounds a) eqn:E2, (Action.soundStringId a =? id) eqn:F2; cbn [andb];
    split_and!; auto using set_string_wf, set_sound_wf; done.
Qed.
End trig_strings.

(** ** TRIG *)

Import ActionArgs.

Definition trig_ops : StringUserOps (list Trigger.Trigger) := mkStringUserOps
  (fun ts id => TrigSection.stringUsed ts id StringUserFlag.All)
  (fun ts id us => TrigSection.appendUsage ts id us StringUserFlag.All)
  (fun ts bs => TrigSection.markUsedStrings ts bs StringUserFlag.All)
  TrigSection.remapStringIds TrigSection.deleteString.

Abbreviation trig_section_users := (trig_users NumActionTypes actionUsesStringArg actionUsesSoundArg
  StringUserFlag.TriggerAction StringUserFlag.TriggerActionSound).
Abbreviation mbrf_section_users := (trig_users NumBriefingActionTypes briefingActionUsesStringArg
  briefingActionUsesSoundArg StringUserFlag.BriefingTriggerAction
  StringUserFlag.BriefingTriggerActionSound).

#[export] Instance trig_laws :
  StringUserLaws trig_wf 32 trig_section_users (fun _ => True) trig_ops.
Proof.
  split; cbn [trig_ops op_stringUsed op_appendUsage op_markUsedStrings op_remapStringIds op_deleteString];
    intros.
  - by apply trig_used.
  - by apply trig_append.
  - by apply trig_mark.
  - by eapply trig_rewrite; [apply remap_rewrites|].
  - by eapply trig_rewrite; [apply delete_rewrites|].
Qed.

(** ** MBRF *)

(** MBRF with the [deleteBriefingString] of [Chk::Trigger] in place of the
    section's [deleteString]. *)
Definition mbrf_ops : StringUserOps (list Trigger.Trigger) := mkStringUserOps
  (fun ts id => MbrfSection.stringUsed ts id StringUserFlag.All)
  (fun ts id us => MbrfSection.appendUsage ts id us StringUserFlag.All)
  (fun ts bs => MbrfSection.markUsedStrings ts bs StringUserFlag.All)
  MbrfSection.remapStringIds
  (fun ts id => update_all (TRG.deleteBriefingString id) ts).

#[export] Instance mbrf_laws :
  StringUserLaws trig_wf 32 mbrf_section_users (fun _ => True) mbrf_ops.
Proof.
  split; cbn [mbrf_ops op_stringUsed op_appendUsage op_markUsedStrings op_remapStringIds op_deleteString];
    intros.
  - by apply trig_used.
  - by apply trig_append.
  - by apply trig_mark.
  - by eapply trig_rewrite; [apply remap_rewrites|].
  - by eapply trig_rewrite; [apply delete_rewrites|].
Qed.

Lemma trig_users_bits N strings sounds stringFlag soundFlag ts p :
  trig_wf ts -> p ∈ trig_users N strings sounds stringFlag soundFlag ts -> is_u 32 p.2.
Proof.
  intros Hts Hp. assert (Hin : p.2 ∈ (trig_users N strings sounds stringFlag soundFlag ts).*2)
    by (apply list_elem_of_fmap; eauto).
  rewrite trig_users_ids in Hin by done.
  apply list_elem_of_In, in_concat in Hin as (ids & Hids%list_elem_of_In & Hin%list_elem_of_In).
  apply list_elem_of_fmap in Hids as (t & -> & Ht).
  apply list_elem_of_In, in_concat in Hin as (ids & Hids%list_elem_of_In & Hin%list_elem_of_In).
  apply list_elem_of_fmap in Hids as (a & -> & Ha).
  assert (Hw := trig_action_wf ts t a Hts Ht Ha).
  destruct a. cbn in Hw. change (8 * Z.of_nat 4) with 32 in Hw.
  unfold action_ids in Hin. cbn in Hin.
  destruct (ACT.uses N strings _), (ACT.uses N sounds _); cbn in Hin; set_solver.
Qed.

(** C25: TRIG obeys the contract of the string users: deleting, marking,
    remapping and listing the string and sound ids of its actions. *)
Theorem trig_string_contracts :
  DeleteContract trig_wf 32 trig_ops /\ MarkContract trig_wf 32 (fun _ => True) trig_ops /\
  RemapContract trig_wf 32 trig_ops /\ UsageContract trig_wf 32 trig_ops.
Proof.
  split_and!.
  - exact (delete_contract _ _ _ _ _ (StringUserLaws0 := trig_laws)).
  - exact (mark_contract _ _ _ _ _ (StringUserLaws0 := trig_laws)).
  - apply (remap_contract _ _ _ _ _ (StringUserLaws0 := trig_laws)); intros s p; apply trig_users_bits.
  - exact (usage_contract _ _ _ _ _ (StringUserLaws0 := trig_laws)).
Qed.

(** MBRF marks, remaps and lists the strings of the briefing actions as
    the contract of the string users asks, and [Trigger::deleteBriefingString]
    on every briefing trigger would delete a string. *)
Theorem mbrf_string_contracts :
  MarkContract trig_wf 32 (fun _ => True) mbrf_ops /\ RemapContract trig_wf 32 mbrf_ops /\
  UsageContract trig_wf 32 mbrf_ops /\ DeleteContract trig_wf 32 mbrf_ops.
Proof.
  split_and!.
  - exact (mark_contract _ _ _ _ _ (StringUserLaws0 := mbrf_laws)).
  - apply (remap_contract _ _ _ _ _ (StringUserLaws0 := mbrf_laws)); intros s p; apply trig_users_bits.
  - exact (usage_contract _ _ _ _ _ (StringUserLaws0 := mbrf_laws)).
  - exact (delete_contract _ _ _ _ _ (StringUserLaws0 := mbrf_laws)).
Qed.

Lemma trig_any q ts : trig_wf ts ->
  any_such (fun t => TRG.any_in MaxActions (Trigger.actions t) q) ts =
  Ret (existsb (fun t => existsb q (Trigger.actions t)) ts).
Proof.
  intros Hts. apply any_such_ret. intros t Ht. apply any_in_spec, trigger_actions_zlen.
  by apply (proj1 (Forall_forall _ _) Hts).
Qed.

Lemma existsb_map {A} (q : A -> bool) (f : A -> A) l :
  (forall a, a ∈ l -> q (f a) = q a) -> existsb q (f <$> l) = existsb q l.
Proof.
  induction l as [|a l IH]; intros H; [done|]. cbn. rewrite H by set_solver.
  by rewrite IH by set_solver.
Qed.

(** No briefing action that shows a text has the type of a trigger action
    that shows one. *)
Lemma briefing_types_disjoint a : cwf Action.layout a ->
  ACT.uses NumBriefingActionTypes briefingActionUsesStringArg a = true ->
  ACT.uses NumActionTypes actionUsesStringArg a = false.
Proof.
  intros Ha. assert (Hu : is_u 8 (Action.actionType a)) by (destruct a; cbn in *; tauto).
  unfold ACT.uses. destruct (Z.ltb_spec (Action.actionType a) NumBriefingActionTypes); [|done].
  intros Hb. assert (Hd : implb (flag_at briefingActionUsesStringArg (Action.actionType a))
    (negb (flag_at actionUsesStringArg (Action.actionType a))) = true).
  { apply (eq_below (fun t => implb (flag_at briefingActionUsesStringArg t)
      (negb (flag_at actionUsesStringArg t))) (fun _ => true) NumBriefingActionTypes);
      [vm_compute; reflexivity | unfold is_u in Hu; lia]. }
  cbn [andb] in Hb. rewrite Hb in Hd. cbn [implb] in Hd. apply negb_true_iff in Hd. rewrite Hd. apply andb_false_r.
Qed.

Lemma deleteString_briefing_text id other a : cwf Action.layout a ->
  ACT.briefingStringUsed (ACT.deleteString id a) other StringUserFlag.BriefingTriggerAction =
  ACT.briefingStringUsed a other StringUserFlag.BriefingTriggerAction.
Proof.
  intros Ha. assert (Hdis := briefing_types_disjoint a Ha).
  unfold ACT.briefingStringUsed, ACT.stringUsedIn.
  change (has_flag StringUserFlag.BriefingTriggerAction StringUserFlag.BriefingTriggerActionSound) with false.
  change (has_flag StringUserFlag.BriefingTriggerAction StringUserFlag.BriefingTriggerAction) with true.
  cbn [andb]. rewrite !orb_false_r.
  destruct (delete_rewrites NumActionTypes actionUsesStringArg actionUsesSoundArg id a Ha)
    as (Hw & _).
  assert (Ht : Action.actionType (ACT.deleteString id a) = Action.actionType a).
  { unfold ACT.deleteString, ACT.deleteStringIn. by repeat case_match. }
  assert (Hu : forall N tb, ACT.uses N tb (ACT.deleteString id a) = ACT.uses N tb a)
    by (intros; unfold ACT.uses; by rewrite Ht).
  rewrite Hu. destruct (ACT.uses NumBriefingActionTypes _ a) eqn:E; [|done]. cbn [andb].
  f_equal. unfold ACT.deleteString, ACT.deleteStringIn. rewrite Hdis by done. cbn [andb].
  by repeat case_match.
Qed.

(** [MbrfSection::deleteString] calls [Trigger::deleteString], which goes
    by the types of trigger actions: whatever string it is asked to delete,
    every text of a briefing stays in use as it was. *)
Theorem mbrf_deleteString_keeps ts id : trig_wf ts ->
  exists ts', MbrfSection.deleteString ts id = Ret ts' /\ trig_wf ts' /\
    forall other, MbrfSection.stringUsed ts' other StringUserFlag.BriefingTriggerAction =
                  MbrfSection.stringUsed ts other StringUserFlag.BriefingTriggerAction.
Proof.
  intros Hts. unfold MbrfSection.deleteString, TRG.deleteString.
  destruct (trig_update (ACT.deleteString id) ts) as [Hu Hw]; [|done|].
  { intros a Ha. exact (proj1 (delete_rewrites NumActionTypes actionUsesStringArg actionUsesSoundArg id a Ha)). }
  eexists. split; [exact Hu|]. split; [exact Hw|]. intros other.
  unfold MbrfSection.stringUsed, TRG.briefingStringUsed.
  rewrite !trig_any by done. f_equal. apply existsb_map. intros t Ht. rewrite upd_get.
  apply existsb_map. intros a Ha. by apply deleteString_briefing_text, (trig_action_wf ts t).
Qed.

(** An otherwise blank trigger with one action. *)
Definition one_action (a : Action.Action) : Trigger.Trigger :=
  let blank := cdec Trigger.layout (replicate (csize Trigger.layout) 0) in
  blank <| Trigger.actions := <[0%nat := a]> (Trigger.actions blank) |>.

Lemma one_action_wf a : cwf Action.layout a -> trig_wf [one_action a].
Proof.
  intros Hw. constructor; [|done].
  assert (Hb : cwf Trigger.layout (cdec Trigger.layout (replicate (csize Trigger.layout) 0)))
    by (apply dec_wf; [by apply Forall_replicate | by rewrite length_replicate]).
  destruct (member_wf (layout := Trigger.layout) (f := Trigger.actions) _ Hb) as [Hl Ha].
  apply member_upd; [done | by rewrite length_insert|]. by apply Forall_insert.
Qed.

(** A briefing that shows string 5 in a text message. *)
Definition briefing_sample : Trigger.Trigger :=
  one_action (Action.mkAction 0 5 0 0 0 0 0 3 0 0 0 0).

Lemma briefing_sample_wf : trig_wf [briefing_sample].
Proof. apply one_action_wf. solve_default. Qed.

Lemma mbrf_deleteString_keeps_witness :
  trig_wf [briefing_sample] /\
  MbrfSection.stringUsed [briefing_sample] 5 StringUserFlag.BriefingTriggerAction = Ret true /\
  exists ts', MbrfSection.deleteString [briefing_sample] 5 = Ret ts' /\ trig_wf ts' /\
    forall other, MbrfSection.stringUsed ts' other StringUserFlag.BriefingTriggerAction =
                  MbrfSection.stringUsed [briefing_sample] other StringUserFlag.BriefingTriggerAction.
Proof.
  split; [exact briefing_sample_wf|]. split; [vm_compute; reflexivity|].
  exact (mbrf_deleteString_keeps [briefing_sample] 5 briefing_sample_wf).
Defined.
