(* ===== verification/TriggerProps.v ===== *)
(** Properties of conditions, actions and triggers: the argument tables, the
    locations triggers use, the flags, the extended data index, aligning the
    used slots, and the file format of TRIG and MBRF. *)
From S2P Require Import Prelude Codec ChkTypes ChkSection Accessors StringUsers Terrain Objects TriggerTables Triggers TriggerStrings.
Open Scope Z_scope.

(** ** The argument tables *)

Section rows.
Import ActionArgs.

(** Row [i] of an argument table has an argument of type [ty] (in field [f]). *)
Definition rowHas (table : list (list Argument)) (ty : ArgType) (i : Z) : bool :=
  existsb (fun a => bool_decide (type a = ty)) (nth (Z.to_nat i) table []).
Definition rowHasIn (table : list (list Argument)) (ty : ArgType) (f : ArgField) (i : Z) : bool :=
  existsb (fun a => bool_decide (type a = ty) && bool_decide (field a = f)) (nth (Z.to_nat i) table []).

Lemma hasArgument_uses table ty a : cwf Action.layout a ->
  (forall i, 0 <= i < NumActionTypes -> rowHas classicArguments ty i = flag_at table i) ->
  ty <> T_NoType ->
  ACT.hasArgument ty a = Ret (ACT.uses NumActionTypes table a).
Proof.
  intros Ha Ht Hne. assert (Hu : is_u 8 (Action.actionType a)) by (destruct a; cbn in *; tauto).
  unfold ACT.hasArgument, ACT.getClassicArgType, ACT.uses.
  destruct (Z.ltb_spec (Action.actionType a) NumActionTypes) as [Hlt|Hge]; cbn [andb].
  - unfold is_u in Hu. rewrite <- Ht by lia. unfold rowHas.
    destruct (vget_in classicArguments (Action.actionType a)) as (r & Hr & Hg);
      [change (zlen classicArguments) with NumActionTypes; lia|].
    assert (Hlen : zlen r = MaxArguments).
    { assert (Hall : forallb (fun r => zlen r =? MaxArguments) classicArguments = true)
        by (vm_compute; reflexivity).
      rewrite forallb_forall in Hall. apply Z.eqb_eq, Hall.
      apply list_elem_of_In, (list_elem_of_lookup_2 _ _ _ Hr). }
    rewrite (nth_lookup_Some _ _ _ _ Hr).
    rewrite <- (any_such_read (fun b => bool_decide (type b = ty)) r MaxArguments) by done.
    unfold ACT.argAt. rewrite Hg. cbn [obind].
    apply any_such_ext. intros j Hj. apply elem_of_range in Hj.
    rewrite (proj2 (Z.ltb_lt j _)) by lia. by destruct (vget r j).
  - change false with (existsb (fun _ : Z => false) (range 0 MaxArguments)).
    apply any_such_ret. intros j _. cbn [obind]. by rewrite bool_decide_eq_false_2 by done.
Qed.
End rows.

(** The tables agree. [hasStringArgument] and [hasSoundArgument], which
    search the argument table, answer what the tables of string and sound
    users say; an action or a condition is marked as using a location exactly
    when a classic and a text argument say so; and the text arguments of a
    condition are its classic arguments in another order. *)
Theorem argument_tables_agree (a : Action.Action) : cwf Action.layout a ->
  ACT.hasStringArgument a = Ret (ACT.uses ActionArgs.NumActionTypes ActionArgs.actionUsesStringArg a) /\
  ACT.hasSoundArgument a = Ret (ACT.uses ActionArgs.NumActionTypes ActionArgs.actionUsesSoundArg a) /\
  (forall i, 0 <= i < ActionArgs.NumActionTypes ->
    flag_at ActionArgs.actionUsesLocationArg i =
      rowHasIn ActionArgs.classicArguments ActionArgs.T_Location ActionArgs.F_LocationId i /\
    flag_at ActionArgs.actionUsesLocationArg i =
      rowHasIn ActionArgs.textArguments ActionArgs.T_Location ActionArgs.F_LocationId i /\
    flag_at ActionArgs.actionUsesSecondaryLocationArg i =
      rowHasIn ActionArgs.classicArguments ActionArgs.T_Location ActionArgs.F_Number i /\
    flag_at ActionArgs.actionUsesSecondaryLocationArg i =
      rowHasIn ActionArgs.textArguments ActionArgs.T_Location ActionArgs.F_Number i) /\
  (forall i, 0 <= i < ActionArgs.NumBriefingActionTypes ->
    flag_at ActionArgs.briefingActionUsesStringArg i =
      rowHas ActionArgs.classicBriefingArguments ActionArgs.T_String i /\
    flag_at ActionArgs.briefingActionUsesSoundArg i =
      rowHas ActionArgs.classicBriefingArguments ActionArgs.T_Sound i) /\
  (forall i, 0 <= i < ConditionArgs.NumConditionTypes ->
    nth (Z.to_nat i) ConditionArgs.textArguments [] ≡ₚ nth (Z.to_nat i) ConditionArgs.classicArguments [] /\
    flag_at ConditionArgs.conditionUsesLocationArg i =
      bool_decide (ConditionArgs.locationCndArg ∈ nth (Z.to_nat i) ConditionArgs.classicArguments [])).
Proof.
  intros Ha. split_and!.
  - apply hasArgument_uses; [done | | done]. apply eq_below. vm_compute. reflexivity.
  - apply hasArgument_uses; [done | | done]. apply eq_below. vm_compute. reflexivity.
  - intros i Hi. split_and!; revert i Hi; apply eq_below; vm_compute; reflexivity.
  - intros i Hi. split_and!; revert i Hi; apply eq_below; vm_compute; reflexivity.
  - intros i Hi. split.
    + apply (bool_decide_eq_true_1 _). revert i Hi.
      apply (eq_below (fun i => bool_decide (nth (Z.to_nat i) ConditionArgs.textArguments [] ≡ₚ
        nth (Z.to_nat i) ConditionArgs.classicArguments [])) (fun _ => true)). vm_compute. reflexivity.
    + revert i Hi. apply eq_below. vm_compute. reflexivity.
Qed.

Lemma argument_tables_agree_witness :
  cwf Action.layout TRG.blankAction /\ ACT.hasStringArgument TRG.blankAction = Ret false.
Proof.
  assert (H : cwf Action.layout TRG.blankAction) by solve_default.
  split; [exact H|]. exact (proj1 (argument_tables_agree TRG.blankAction H)).
Defined.

(** ** The locations triggers use *)

(** The type of an action does not depend on its other fields. *)
Ltac same_uses a :=
  repeat match goal with |- context [ACT.uses ?N ?tb ?x] =>
    progress change (ACT.uses N tb x) with (ACT.uses N tb a) end.

Section locations.
Import ActionArgs.

Definition condition_locs (c : Condition.Condition) : list Z :=
  if CND.usesLocation c then [Condition.locationId c] else [].
Definition action_locs (a : Action.Action) : list Z :=
  (if ACT.uses NumActionTypes actionUsesLocationArg a then [Action.locationId a] else []) ++
  (if ACT.uses NumActionTypes actionUsesSecondaryLocationArg a then [Action.number a] else []).
Definition trigger_locs (t : Trigger.Trigger) : list Z :=
  concat (condition_locs <$> Trigger.conditions t) ++ concat (action_locs <$> Trigger.actions t).
Definition trig_locs (ts : list Trigger.Trigger) : list Z := concat (trigger_locs <$> ts).

(** The ids that are marked: 1 to 255. *)
Definition valid_loc (v : Z) : bool := negb (v =? LocationId_NoLocation) && (v <=? TotalLocations).
Definition locs_set (ids : list Z) : gset Z := list_to_set (filter valid_loc ids).
Arguments locs_set : simpl never.

Lemma locs_set_app k l : locs_set (k ++ l) = locs_set k ∪ locs_set l.
Proof. unfold locs_set. by rewrite filter_app, list_to_set_app_L. Qed.

Lemma elem_of_locs_set id ids : 0 <= id ->
  id ∈ locs_set ids <-> 0 < id <= TotalLocations /\ id ∈ ids.
Proof.
  intros Hid. unfold locs_set. rewrite elem_of_list_to_set, list_elem_of_filter, Is_true_true.
  unfold valid_loc. rewrite andb_true_iff, negb_true_iff, Z.eqb_neq, Z.leb_le.
  unfold LocationId_NoLocation. intuition lia.
Qed.

Lemma mark_loc v bs : 0 <= v ->
  (if valid_loc v then bs_set (TotalLocations + 1) bs v else Ret bs) = Ret (locs_set [v] ∪ bs).
Proof.
  intros Hv. unfold locs_set, bs_set. rewrite filter_cons.
  destruct (valid_loc v) eqn:E; cbn; [|f_equal; set_solver].
  unfold valid_loc in E. apply andb_true_iff in E as [_ E%Z.leb_le].
  rewrite (proj2 (Z.leb_le _ _)), (proj2 (Z.ltb_lt _ _)) by lia. cbn. f_equal. set_solver.
Qed.

Lemma action_bits a : cwf Action.layout a ->
  is_u 32 (Action.locationId a) /\ is_u 32 (Action.number a).
Proof. destruct a. cbn. change (8 * Z.of_nat 4) with 32. tauto. Qed.
Lemma condition_bits c : cwf Condition.layout c -> is_u 32 (Condition.locationId c).
Proof. destruct c. cbn. change (8 * Z.of_nat 4) with 32. tauto. Qed.

Lemma condition_loc_used c id : CND.locationUsed c id = bool_decide (id ∈ condition_locs c).
Proof.
  unfold CND.locationUsed, condition_locs. apply eq_true_iff_eq. rewrite bool_decide_eq_true.
  destruct (CND.usesLocation c); cbn [andb]; rewrite ?Z.eqb_eq; set_solver.
Qed.

Lemma action_loc_used a id : ACT.locationUsed a id = bool_decide (id ∈ action_locs a).
Proof.
  unfold ACT.locationUsed, action_locs. apply eq_true_iff_eq.
  rewrite bool_decide_eq_true, elem_of_app, orb_true_iff.
  destruct (ACT.uses _ actionUsesLocationArg a), (ACT.uses _ actionUsesSecondaryLocationArg a);
    cbn [andb]; rewrite ?Z.eqb_eq; set_solver.
Qed.

Lemma condition_loc_mark c bs : cwf Condition.layout c ->
  CND.markUsedLocations c bs = Ret (locs_set (condition_locs c) ∪ bs).
Proof.
  intros Hc. destruct (condition_bits c Hc) as [H _]. unfold CND.markUsedLocations, condition_locs.
  rewrite <- andb_assoc. destruct (CND.usesLocation c); cbn [andb]; [by apply mark_loc|].
  f_equal. unfold locs_set. set_solver.
Qed.

Lemma action_loc_mark a bs : cwf Action.layout a ->
  ACT.markUsedLocations a bs = Ret (locs_set (action_locs a) ∪ bs).
Proof.
  intros Ha. destruct (action_bits a Ha) as [[H1 _] [H2 _]]. unfold ACT.markUsedLocations, action_locs.
  rewrite locs_set_app, <- !andb_assoc.
  change (negb (Action.locationId a =? LocationId_NoLocation) && (Action.locationId a <=? TotalLocations))
    with (valid_loc (Action.locationId a)).
  change (negb (Action.number a =? LocationId_NoLocation) && (Action.number a <=? TotalLocations))
    with (valid_loc (Action.number a)).
  assert (Hnil : locs_set [] = ∅) by done.
  destruct (ACT.uses _ actionUsesLocationArg a), (ACT.uses _ actionUsesSecondaryLocationArg a);
    cbn [andb]; rewrite ?mark_loc by done; cbn [obind]; rewrite ?mark_loc by done; f_equal; set_solver.
Qed.

Lemma trigger_conditions_zlen t : cwf Trigger.layout t -> zlen (Trigger.conditions t) = MaxConditions.
Proof. intros H. exact (member_zlen Trigger.layout Trigger.conditions Condition.layout MaxConditions t H). Qed.

Lemma trigger_condition_wf t c : cwf Trigger.layout t -> c ∈ Trigger.conditions t -> cwf Condition.layout c.
Proof. intros Ht. apply (proj1 (Forall_forall _ _) (proj2 (member_wf t Ht))). Qed.
Lemma trigger_action_wf t a : cwf Trigger.layout t -> a ∈ Trigger.actions t -> cwf Action.layout a.
Proof. intros Ht. apply (proj1 (Forall_forall _ _) (proj2 (member_wf t Ht))). Qed.

Lemma trigger_loc_used t id : cwf Trigger.layout t ->
  TRG.locationUsed t id = Ret (bool_decide (id ∈ trigger_locs t)).
Proof.
  intros Ht. unfold TRG.locationUsed.
  rewrite !any_in_spec by auto using trigger_conditions_zlen, trigger_actions_zlen.
  rewrite oor_ret, (existsb_concat _ condition_locs id) by (intros; apply condition_loc_used).
  rewrite (existsb_concat _ action_locs id) by (intros; apply action_loc_used).
  f_equal. apply eq_true_iff_eq. unfold trigger_locs.
  by rewrite orb_true_iff, !bool_decide_eq_true, elem_of_app.
Qed.

Lemma trig_loc_used ts id : trig_wf ts ->
  TrigSection.locationUsed ts id = Ret (bool_decide (id ∈ trig_locs ts)).
Proof.
  intros Hts. unfold TrigSection.locationUsed.
  rewrite (any_such_ret _ (fun t => bool_decide (id ∈ trigger_locs t))).
  - f_equal. by apply existsb_concat.
  - intros t Ht. apply trigger_loc_used. by apply (proj1 (Forall_forall _ _) Hts).
Qed.

Lemma trig_loc_mark ts bs : trig_wf ts ->
  TrigSection.markUsedLocations ts bs = Ret (locs_set (trig_locs ts) ∪ bs).
Proof.
  intros Hts. apply (for_each_mark locs_set); [done | apply locs_set_app|]. intros t bs' Ht.
  assert (Hw : cwf Trigger.layout t) by (by apply (proj1 (Forall_forall _ _) Hts)).
  unfold TRG.markUsedLocations.
  rewrite !mark_in_spec by (by apply trigger_conditions_zlen).
  rewrite (for_each_mark locs_set eq_refl locs_set_app _ condition_locs)
    by (intros c bs'' Hc; by apply condition_loc_mark, (trigger_condition_wf t)).
  cbn [obind]. rewrite mark_in_spec by (by apply trigger_actions_zlen).
  rewrite (for_each_mark locs_set eq_refl locs_set_app _ action_locs)
    by (intros a bs'' Ha; by apply action_loc_mark, (trigger_action_wf t)).
  unfold trigger_locs. rewrite locs_set_app. f_equal. set_solver.
Qed.

(** *** Deleting and remapping *)

Lemma trigger_update f g t : cwf Trigger.layout t ->
  (forall c, cwf Condition.layout c -> cwf Condition.layout (f c)) ->
  (forall a, cwf Action.layout a -> cwf Action.layout (g a)) ->
  exists t', (let* t := TRG.onConditions f t in TRG.onActions g t) = Ret t' /\ cwf Trigger.layout t' /\
    Trigger.conditions t' = f <$> Trigger.conditions t /\ Trigger.actions t' = g <$> Trigger.actions t.
Proof.
  intros Ht Hf Hg. unfold TRG.onConditions, TRG.onActions, assign.
  rewrite update_in_spec by (by apply trigger_conditions_zlen). cbn [obind].
  set (t1 := t <| Trigger.conditions := f <$> Trigger.conditions t |>).
  assert (H1 : cwf Trigger.layout t1).
  { destruct (member_wf (layout := Trigger.layout) (f := Trigger.conditions) t Ht) as [Hl Hc].
    apply member_upd; [done | by rewrite length_fmap|].
    apply Forall_fmap. eapply Forall_impl; [exact Hc | exact Hf]. }
  rewrite update_in_spec by (by apply trigger_actions_zlen).
  eexists. split; [done|]. split; [|by split].
  destruct (member_wf (layout := Trigger.layout) (f := Trigger.actions) t1 H1) as [Hl Ha].
  apply member_upd; [done | by rewrite length_fmap|].
  apply Forall_fmap. eapply Forall_impl; [exact Ha | exact Hg].
Qed.

(** An update of all the triggers whose effect on each is known. *)
Lemma update_all_rel {A} (f : A -> outcome A) (R : A -> A -> Prop) l :
  (forall a, a ∈ l -> exists a', f a = Ret a' /\ R a a') ->
  exists l', update_all f l = Ret l' /\ Forall2 R l l'.
Proof.
  induction l as [|a l IH]; intros H; [by exists []|].
  destruct (H a) as (a' & Ha & HR); [set_solver|].
  destruct IH as (l' & Hl & HF); [intros b Hb; apply H; set_solver|].
  exists (a' :: l'). cbn. rewrite Ha. cbn [obind]. rewrite Hl. by split; [|constructor].
Qed.

Lemma concat_map_comm {A B} (f : B -> B) (ids : A -> list B) (g : A -> A) l :
  (forall a, a ∈ l -> ids (g a) = f <$> ids a) ->
  concat (ids <$> (g <$> l)) = f <$> concat (ids <$> l).
Proof.
  induction l as [|a l IH]; intros H; [done|]. cbn. rewrite fmap_app, H by set_solver.
  by rewrite IH by set_solver.
Qed.

(** [f] on conditions and [g] on actions rewrite the location ids with [h]. *)
Lemma trig_locs_rewrite (ts : list Trigger.Trigger) f g h : trig_wf ts ->
  (forall c, cwf Condition.layout c -> cwf Condition.layout (f c)) ->
  (forall a, cwf Action.layout a -> cwf Action.layout (g a)) ->
  exists ts', update_all (fun t => let* t := TRG.onConditions f t in TRG.onActions g t) ts = Ret ts' /\
    trig_wf ts' /\
    Forall2 (fun t t' => Trigger.conditions t' = f <$> Trigger.conditions t /\
                         Trigger.actions t' = g <$> Trigger.actions t) ts ts' /\
    ((forall c, condition_locs (f c) = h <$> condition_locs c) ->
     (forall t a, t ∈ ts -> a ∈ Trigger.actions t -> action_locs (g a) = h <$> action_locs a) ->
     trig_locs ts' = h <$> trig_locs ts).
Proof.
  intros Hts Hf Hg.
  destruct (update_all_rel (fun t => let* t := TRG.onConditions f t in TRG.onActions g t)
    (fun t t' => cwf Trigger.layout t' /\ Trigger.conditions t' = f <$> Trigger.conditions t /\
       Trigger.actions t' = g <$> Trigger.actions t) ts) as (ts' & Hu & HF).
  { intros t Ht. apply trigger_update; [by apply (proj1 (Forall_forall _ _) Hts) | done | done]. }
  exists ts'. split; [exact Hu|]. split; [|split].
  - clear -HF. induction HF as [|t t' ts ts' (H & _) _ IH]; constructor; done.
  - eapply Forall2_impl; [exact HF|]. by intros t t' (_ & ? & ?).
  - intros Hc Ha. clear Hts Hu. unfold trig_locs.
    induction HF as [|t t' ts ts' (_ & H1 & H2) _ IH]; [done|]. cbn. rewrite fmap_app, IH; [|set_solver].
    f_equal. unfold trigger_locs. rewrite fmap_app, H1, H2. f_equal; apply concat_map_comm.
    + intros; apply Hc.
    + intros a Hin. apply (Ha t); set_solver.
Qed.

Lemma set_condition_loc_wf v c : cwf Condition.layout c -> is_u 32 v ->
  cwf Condition.layout (c <| Condition.locationId := v |>).
Proof. destruct c. cbn. change (8 * Z.of_nat 4) with 32. tauto. Qed.
Lemma set_action_loc_wf v a : cwf Action.layout a -> is_u 32 v ->
  cwf Action.layout (a <| Action.locationId := v |>).
Proof. destruct a. cbn. change (8 * Z.of_nat 4) with 32. tauto. Qed.
Lemma set_action_number_wf v a : cwf Action.layout a -> is_u 32 v ->
  cwf Action.layout (a <| Action.number := v |>).
Proof. destruct a. cbn. change (8 * Z.of_nat 4) with 32. tauto. Qed.

Lemma condition_delete_locs id c :
  condition_locs (CND.deleteLocation id c) = clear1 id <$> condition_locs c.
Proof.
  unfold condition_locs, CND.deleteLocation, clear1.
  destruct (CND.usesLocation c) eqn:E; cbn [andb fmap list_fmap]; [|by rewrite E].
  destruct (Condition.locationId c =? id) eqn:F; [|by rewrite E].
  change (CND.usesLocation (c <| Condition.locationId := LocationId_NoLocation |>))
    with (CND.usesLocation c). by rewrite E.
Qed.

Lemma action_delete_locs id a : action_locs (ACT.deleteLocation id a) = clear1 id <$> action_locs a.
Proof.
  unfold action_locs, ACT.deleteLocation, clear1. rewrite fmap_app.
  destruct (ACT.uses _ actionUsesLocationArg a) eqn:E1, (Action.locationId a =? id) eqn:F1;
    cbn [andb]; same_uses a;
    destruct (ACT.uses _ actionUsesSecondaryLocationArg a) eqn:E2; cbn [andb];
    try (match goal with |- context [Action.number ?x =? id] =>
      change (Action.number x) with (Action.number a) end; destruct (Action.number a =? id) eqn:F2);
    same_uses a; rewrite E1, E2; cbn; rewrite ?F1, ?F2; reflexivity.
Qed.

Lemma delete_locs_wf id :
  (forall c, cwf Condition.layout c -> cwf Condition.layout (CND.deleteLocation id c)) /\
  (forall a, cwf Action.layout a -> cwf Action.layout (ACT.deleteLocation id a)).
Proof.
  assert (H0 : is_u 32 LocationId_NoLocation) by (by vm_compute).
  split; intros x Hx; [unfold CND.deleteLocation | unfold ACT.deleteLocation]; repeat case_match;
    auto using set_condition_loc_wf, set_action_loc_wf, set_action_number_wf.
Qed.

Lemma elem_of_cleared id v (l : list Z) : v <> 0 -> v ∈ clear1 id <$> l <-> v <> id /\ v ∈ l.
Proof.
  intros Hv. rewrite list_elem_of_fmap. unfold clear1. split.
  - intros (y & Hy & Hin). destruct (Z.eqb_spec y id); subst; [congruence | done].
  - intros [Hvi Hin]. exists v. destruct (Z.eqb_spec v id); [congruence | done].
Qed.
End locations.

(** The locations of the triggers are tracked: marking marks exactly the
    valid ids that are used, and deleting a location removes every use of it,
    in conditions and actions, and no other use. *)
Theorem trig_locations (ts : list Trigger.Trigger) (bs : gset Z) (id : Z) :
  trig_wf ts -> 0 < id ->
  (exists bs', TrigSection.markUsedLocations ts bs = Ret bs' /\
    forall v, 0 <= v -> v ∈ bs' <->
      v ∈ bs \/ (0 < v <= TotalLocations /\ TrigSection.locationUsed ts v = Ret true)) /\
  (exists ts', TrigSection.deleteLocation ts id = Ret ts' /\ trig_wf ts' /\
    TrigSection.locationUsed ts' id = Ret false /\
    forall v, 0 < v -> v <> id -> TrigSection.locationUsed ts' v = TrigSection.locationUsed ts v).
Proof.
  intros Hts Hid. split.
  - eexists. split; [by apply trig_loc_mark|]. intros v Hv.
    rewrite trig_loc_used, elem_of_union, elem_of_locs_set by done.
    destruct (bool_decide_reflect (v ∈ trig_locs ts)); split; intros; destruct_or?; destruct_and?;
      try done; auto.
  - destruct (delete_locs_wf id) as [Hc Ha].
    destruct (trig_locs_rewrite ts _ _ (clear1 id) Hts Hc Ha) as (ts' & Hd & Hw & _ & Hl).
    exists ts'. split; [exact Hd|]. split; [exact Hw|].
    specialize (Hl (condition_delete_locs id) (fun _ a _ _ => action_delete_locs id a)).
    rewrite trig_loc_used, Hl by done. split.
    + f_equal. apply bool_decide_eq_false. rewrite elem_of_cleared by lia. tauto.
    + intros v Hv Hne. rewrite !trig_loc_used, Hl by done. f_equal. apply bool_decide_ext.
      rewrite elem_of_cleared by lia. tauto.
Qed.

(** A trigger that moves a unit from location 1 to location 2. *)
Definition move_sample : Trigger.Trigger :=
  one_action (Action.mkAction 1 0 0 0 0 2 0 39 0 0 0 0).

Lemma move_sample_wf : trig_wf [move_sample].
Proof. apply one_action_wf. solve_default. Qed.

Lemma trig_locations_witness :
  TrigSection.locationUsed [move_sample] 2 = Ret true /\
  exists ts', TrigSection.deleteLocation [move_sample] 2 = Ret ts' /\
    TrigSection.locationUsed ts' 2 = Ret false /\
    TrigSection.locationUsed ts' 1 = TrigSection.locationUsed [move_sample] 1.
Proof.
  split; [vm_compute; reflexivity|].
  destruct (trig_locations [move_sample] ∅ 2 move_sample_wf ltac:(lia)) as (_ & ts' & Hd & _ & Hu & Ho).
  exists ts'. split; [exact Hd|]. split; [exact Hu|]. apply Ho; lia.
Defined.

Section remap_locations.
Import ActionArgs.
Context (m : gmap Z Z) (Hm : map_Forall (fun _ w => is_u 32 w) m).

Lemma remap_locs_wf :
  (forall c, cwf Condition.layout c -> cwf Condition.layout (CND.remapLocationIds m c)) /\
  (forall a, cwf Action.layout a -> cwf Action.layout (ACT.remapLocationIds m a)).
Proof.
  split; intros x Hx; [unfold CND.remapLocationIds | unfold ACT.remapLocationIds]; repeat case_match;
    eauto using set_condition_loc_wf, set_action_loc_wf.
Qed.

Lemma condition_remap_locs c :
  condition_locs (CND.remapLocationIds m c) = remap1 id m <$> condition_locs c.
Proof.
  clear Hm. unfold condition_locs, CND.remapLocationIds, remap1.
  destruct (CND.usesLocation c) eqn:E; cbn [fmap list_fmap]; [|by rewrite E].
  destruct (m !! Condition.locationId c) as [w|] eqn:F; [|by rewrite E].
  change (CND.usesLocation (c <| Condition.locationId := w |>)) with (CND.usesLocation c). by rewrite E.
Qed.

Lemma action_remap_locs a : ACT.uses NumActionTypes actionUsesSecondaryLocationArg a = false ->
  action_locs (ACT.remapLocationIds m a) = remap1 id m <$> action_locs a.
Proof.
  clear Hm. intros E2. unfold action_locs, ACT.remapLocationIds, remap1. rewrite fmap_app.
  destruct (ACT.uses _ actionUsesLocationArg a) eqn:E1;
    [destruct (m !! Action.locationId a) as [w|] eqn:F|];
    same_uses a; rewrite ?E1, ?E2; same_uses a; rewrite ?E1, ?E2; cbn; rewrite ?F; reflexivity.
Qed.

Lemma action_remap_number a :
  Action.number (ACT.remapLocationIds m a) = Action.number a /\
  forall N tb, ACT.uses N tb (ACT.remapLocationIds m a) = ACT.uses N tb a.
Proof. unfold ACT.remapLocationIds. by repeat case_match. Qed.
End remap_locations.

(** Remapping location ids in triggers works for every trigger without an
    action that takes a second location: a location is used under its new id
    exactly when it was used. An action that takes a second location (Move
    Unit, Move Location, Order) is remapped in its first location only: the
    second one is still used under its old id, whatever the remapping. *)
Theorem trig_remap_locations (ts : list Trigger.Trigger) (m : gmap Z Z) :
  trig_wf ts -> map_Forall (fun _ w => is_u 32 w) m ->
  exists ts', TrigSection.remapLocationIds ts m = Ret ts' /\ trig_wf ts' /\
    ((forall t a, t ∈ ts -> a ∈ Trigger.actions t ->
        ACT.uses ActionArgs.NumActionTypes ActionArgs.actionUsesSecondaryLocationArg a = false) ->
     forall id, (forall v, remap1 Datatypes.id m v = remap1 Datatypes.id m id -> v = id) ->
       TrigSection.locationUsed ts' (remap1 Datatypes.id m id) = TrigSection.locationUsed ts id) /\
    (forall t a, t ∈ ts -> a ∈ Trigger.actions t ->
        ACT.uses ActionArgs.NumActionTypes ActionArgs.actionUsesSecondaryLocationArg a = true ->
        TrigSection.locationUsed ts' (Action.number a) = Ret true).
Proof.
  intros Hts Hm. destruct (remap_locs_wf m Hm) as [Hc Ha].
  destruct (trig_locs_rewrite ts _ _ (remap1 id m) Hts Hc Ha) as (ts' & Hd & Hw & HF & Hl).
  exists ts'. split; [exact Hd|]. split; [exact Hw|]. split.
  - intros Hno id Hinj. rewrite !trig_loc_used by done. f_equal. apply bool_decide_ext.
    rewrite Hl, list_elem_of_fmap.
    + split; [|by eauto]. intros (v & Hv & Hin). by rewrite <- (Hinj v).
    + intros c. apply condition_remap_locs.
    + intros t a Ht Hin. by apply action_remap_locs, (Hno t).
  - intros t a Ht Hin Hs. rewrite trig_loc_used by done. f_equal. apply bool_decide_eq_true.
    apply list_elem_of_lookup_1 in Ht as [i Hi].
    destruct (Forall2_lookup_l _ _ _ _ _ HF Hi) as (t' & Hi' & _ & Hacts).
    unfold trig_locs. apply list_elem_of_In, in_concat. exists (trigger_locs t').
    split; [by eapply list_elem_of_In, list_elem_of_fmap_2, list_elem_of_lookup_2|].
    unfold trigger_locs. apply list_elem_of_In, elem_of_app. right.
    apply list_elem_of_In, in_concat. exists (action_locs (ACT.remapLocationIds m a)).
    rewrite Hacts. split; [by apply list_elem_of_In, list_elem_of_fmap_2, list_elem_of_fmap_2|].
    destruct (action_remap_number m a) as [Hn Hu]. unfold action_locs. rewrite !Hu, Hs, Hn.
    apply list_elem_of_In. set_solver.
Qed.

Lemma trig_remap_locations_witness :
  exists ts', TrigSection.remapLocationIds [move_sample] {[1 := 7; 2 := 8]} = Ret ts' /\
    TrigSection.locationUsed ts' 2 = Ret true.
Proof.
  destruct (trig_remap_locations [move_sample] {[1 := 7; 2 := 8]}) as (ts' & Hr & _ & _ & Hs).
  - exact move_sample_wf.
  - intros i w [[_ <-]|[_ [_ <-]%lookup_singleton_Some]]%lookup_insert_Some; by vm_compute.
  - exists ts'. split; [exact Hr|].
    exact (Hs move_sample (Action.mkAction 1 0 0 0 0 2 0 39 0 0 0 0)
      ltac:(by apply list_elem_of_singleton) ltac:(apply elem_of_cons; by left) eq_refl).
Defined.

(** ** Aligning the used slots *)

Section packed.
Context {A : Type} (no : A -> bool) (N : Z).

(** The used slots come first. *)
Fixpoint packed (l : list A) : bool :=
  match l with
  | [] => true
  | a :: l => if no a then forallb no l else packed l
  end.

Lemma shiftUp_undef (l : list A) i k : 0 <= i -> i < k < N -> zlen l = N -> shiftUp N i k l = Undef.
Proof.
  intros Hi Hk. unfold shiftUp.
  enough (H : forall j l, i <= j < N -> zlen l = N ->
    for_each (fun j l => let* a := vget l (k + (j - i)) in vset l j a) (range j N) l = Undef)
    by (intros; apply H; [lia | done]).
  apply (range_ind N (fun j => forall l, i <= j < N -> zlen l = N -> _)); [intros; lia|].
  intros j Hj IH l' Hij Hl. rewrite range_cons by lia. cbn.
  destruct (Z.ltb_spec (k + (j - i)) N) as [Hin|Hout].
  - destruct (vget_in l' (k + (j - i))) as (a & _ & ->); [lia|]. cbn [obind].
    rewrite vset_in by lia. cbn [obind]. apply IH; [lia | by rewrite zlen_insert].
  - by rewrite vget_out by lia.
Qed.

Lemma vget_drop_cons (l : list A) i a : 0 <= i -> vget l i = Ret a ->
  drop (Z.to_nat i) l = a :: drop (Z.to_nat (i + 1)) l.
Proof.
  intros Hi Ha. unfold vget in Ha. rewrite (proj2 (Z.ltb_ge _ 0)) in Ha by lia.
  destruct (l !! Z.to_nat i) eqn:E; [|done]. injection Ha as ->.
  replace (Z.to_nat (i + 1)) with (S (Z.to_nat i)) by lia. by apply drop_S.
Qed.

Lemma alignFrom_packed (l : list A) i : 0 <= i -> zlen l = N ->
  alignFrom no N (range i N) l = if packed (drop (Z.to_nat i) l) then Ret l else Undef.
Proof.
  intros Hi Hl. revert i Hi. apply (range_ind N (fun i => 0 <= i -> _)).
  - intros i Hi _. rewrite range_empty by done. by rewrite drop_ge by (unfold zlen in Hl; lia).
  - intros i Hi IH Hpos. rewrite range_cons by done. cbn [alignFrom].
    destruct (vget_in l i) as (a & _ & Ha); [lia|]. rewrite Ha. cbn [obind].
    rewrite (vget_drop_cons l i a) by done. cbn [packed]. destruct (no a) eqn:Hno; [|apply IH; lia].
    destruct (first_such_vget l (fun _ b => negb (no b)) N (i + 1) Hl) as (o & Ho & Hs); [lia|].
    rewrite Ho. cbn [obind]. destruct o as [k|].
    + destruct Hs as (Hk & (v & Hv & Hq) & _). rewrite shiftUp_undef by (done || lia). cbn [obind].
      destruct (forallb no (drop (Z.to_nat (i + 1)) l)) eqn:E; [|done].
      rewrite forallb_forall in E. apply negb_true_iff in Hq. rewrite E in Hq; [done|].
      apply list_elem_of_In, (list_elem_of_lookup_2 _ (Z.to_nat k - Z.to_nat (i + 1))%nat).
      rewrite lookup_drop. replace (_ + _)%nat with (Z.to_nat k) by lia.
      unfold vget in Hv. rewrite (proj2 (Z.ltb_ge _ 0)) in Hv by lia.
      destruct (l !! Z.to_nat k) eqn:F; [|done]. by injection Hv as ->.
    + assert (E : forallb no (drop (Z.to_nat (i + 1)) l) = true); [|by rewrite E].
      apply forallb_forall. intros v (j & Hj)%list_elem_of_In%list_elem_of_lookup_1.
      rewrite lookup_drop in Hj. apply negb_false_iff.
      apply (Hs (Z.of_nat (Z.to_nat (i + 1) + j)) v).
      * apply lookup_lt_Some in Hj. unfold zlen in Hl. lia.
      * apply vget_Some; [lia | by rewrite Nat2Z.id].
Qed.

Lemma alignTop_packed (l : list A) : zlen l = N -> alignTop no N l = if packed l then Ret l else Undef.
Proof. intros Hl. unfold alignTop. by rewrite alignFrom_packed by (done || lia). Qed.
End packed.

Lemma upd_same_conditions t : t <| Trigger.conditions := Trigger.conditions t |> = t.
Proof. by destruct t. Qed.
Lemma upd_same_actions t : t <| Trigger.actions := Trigger.actions t |> = t.
Proof. by destruct t. Qed.

(** Aligning the conditions or the actions of a trigger changes nothing
    when the used slots already come first, and reads past the array
    otherwise; so does deleting a condition or an action with alignment. *)
Theorem align_packed (t : Trigger.Trigger) (i : Z) : cwf Trigger.layout t -> 0 <= i ->
  TRG.alignConditionsTop t =
    (if packed TRG.noCondition (Trigger.conditions t) then Ret t else Undef) /\
  TRG.alignActionsTop t = (if packed TRG.noAction (Trigger.actions t) then Ret t else Undef) /\
  (i < MaxConditions ->
    let conditions := <[Z.to_nat i := TRG.blankCondition]> (Trigger.conditions t) in
    TRG.deleteCondition t i true =
    if packed TRG.noCondition conditions then Ret (t <| Trigger.conditions := conditions |>) else Undef) /\
  (i < MaxActions ->
    let actions := <[Z.to_nat i := TRG.blankAction]> (Trigger.actions t) in
    TRG.deleteAction t i true =
    if packed TRG.noAction actions then Ret (t <| Trigger.actions := actions |>) else Undef).
Proof.
  intros Ht Hi. assert (Hc := trigger_conditions_zlen t Ht). assert (Ha := trigger_actions_zlen t Ht).
  unfold TRG.alignConditionsTop, TRG.alignActionsTop, TRG.deleteCondition, TRG.deleteAction, assign.
  rewrite !alignTop_packed by done. split_and!.
  - destruct (packed _ _); cbn [obind]; by rewrite ?upd_same_conditions.
  - destruct (packed _ _); cbn [obind]; by rewrite ?upd_same_actions.
  - intros Hlt. rewrite (proj2 (Z.ltb_lt _ _)), vset_in by lia. cbn [obind].
    unfold TRG.alignConditionsTop, assign. rewrite upd_get.
    rewrite (alignTop_packed _ MaxConditions) by (rewrite zlen_insert; exact Hc). by destruct (packed _ _).
  - intros Hlt. rewrite (proj2 (Z.ltb_lt _ _)), vset_in by lia. cbn [obind].
    unfold TRG.alignActionsTop, assign. rewrite upd_get.
    rewrite (alignTop_packed _ MaxActions) by (rewrite zlen_insert; exact Ha). by destruct (packed _ _).
Qed.

Lemma align_packed_witness :
  TRG.deleteAction move_sample 0 true = Ret (one_action TRG.blankAction) /\
  TRG.alignActionsTop move_sample = Ret move_sample.
Proof.
  assert (Hw : cwf Trigger.layout move_sample) by exact (Forall_inv move_sample_wf).
  destruct (align_packed move_sample 0 Hw ltac:(lia)) as (_ & Ha & _ & Hd). split.
  - rewrite (Hd ltac:(by vm_compute)). vm_compute. reflexivity.
  - rewrite Ha. vm_compute. reflexivity.
Defined.

(** ** Flags *)

Lemma has_flag_bit f k : 0 <= k -> has_flag f (2 ^ k) = Z.testbit f k.
Proof.
  intros Hk. unfold has_flag. apply eq_true_iff_eq. rewrite Z.eqb_eq. split; intros H.
  - assert (Hb : Z.testbit (Z.land f (2 ^ k)) k = Z.testbit (2 ^ k) k) by congruence.
    by rewrite Z.land_spec, Z.pow2_bits_true, andb_true_r in Hb.
  - apply Z.bits_inj'. intros n Hn. rewrite Z.land_spec, Z.pow2_bits_eqb by done.
    destruct (Z.eqb_spec k n) as [<-|]; [by rewrite H | apply andb_false_r].
Qed.

Lemma flag_set f (on : bool) a b : 0 <= a -> 0 <= b ->
  has_flag (if on then Z.lor f (2 ^ a) else Z.ldiff f (2 ^ a)) (2 ^ b) =
  if a =? b then on else has_flag f (2 ^ b).
Proof.
  intros Ha Hb. rewrite !has_flag_bit by done.
  destruct on; rewrite ?Z.lor_spec, ?Z.ldiff_spec, Z.pow2_bits_eqb by done;
    destruct (a =? b); by rewrite ?orb_true_r, ?orb_false_r, ?andb_false_r, ?andb_true_r.
Qed.

(** The execution flags of a trigger, lowest bit first. *)
Definition trigger_flags : list ((Trigger.Trigger -> bool) * (Trigger.Trigger -> bool -> Trigger.Trigger)) :=
  [(TRG.ignoreConditionsOnce, TRG.setIgnoreConditionsOnce);
   (TRG.ignoreDefeatDraw, TRG.setIgnoreDefeatDraw);
   (TRG.preserveTriggerFlagged, TRG.setPreserveTriggerFlagged);
   (TRG.disabled, TRG.setDisabled);
   (TRG.ignoreMiscActionsOnce, TRG.setIgnoreMiscActionsOnce);
   (TRG.pauseFlagged, TRG.setPauseFlagged);
   (TRG.ignoreWaitSkipOnce, TRG.setIgnoreWaitSkipOnce)].

(** The unit state flags of a create-unit slot, lowest bit first. *)
Definition cuwp_flags : list ((Cuwp.Cuwp -> bool) * (Cuwp.Cuwp -> bool -> Cuwp.Cuwp)) :=
  [(CUWP.isCloaked, CUWP.setCloaked); (CUWP.isBurrowed, CUWP.setBurrowed);
   (CUWP.isInTransit, CUWP.setInTransit); (CUWP.isHallucinated, CUWP.setHallucinated);
   (CUWP.isInvincible, CUWP.setInvincible)].

Lemma trigger_flags_nth : trigger_flags =
  (fun k => (TRG.getFlag (2 ^ Z.of_nat k), TRG.setFlag (2 ^ Z.of_nat k))) <$> seq 0 7.
Proof. reflexivity. Qed.

Lemma trigger_flag_at i get set : trigger_flags !! i = Some (get, set) ->
  (i < 7)%nat /\ get = TRG.getFlag (2 ^ Z.of_nat i) /\ set = TRG.setFlag (2 ^ Z.of_nat i).
Proof.
  rewrite trigger_flags_nth, list_lookup_fmap. intros (k & Hk & Heq)%fmap_Some.
  apply lookup_seq in Hk as [-> Hk]. injection Heq as -> ->. done.
Qed.

Lemma cuwp_flag_at i get set : cuwp_flags !! i = Some (get, set) ->
  (i < 5)%nat /\ get = CUWP.getState (2 ^ Z.of_nat i) /\
  set = CUWP.setState (2 ^ Z.of_nat i) (Z.ldiff 0xFFFF (2 ^ Z.of_nat i)).
Proof. intros H. do 5 (destruct i as [|i]; [injection H as <- <-; split; [lia | done]|]). done. Qed.

(** Each of the seven execution flags of a trigger and each of the five
    state flags of a create-unit slot reads back as set and leaves the other
    flags as they were. *)
Theorem flags_lawful (t : Trigger.Trigger) (c : Cuwp.Cuwp) (on : bool) (i j : nat) :
  (forall get set get' set', trigger_flags !! i = Some (get, set) -> trigger_flags !! j = Some (get', set') ->
    get' (set t on) = if decide (i = j) then on else get' t) /\
  (forall get set get' set', cuwp_flags !! i = Some (get, set) -> cuwp_flags !! j = Some (get', set') ->
    get' (set c on) = if decide (i = j) then on else get' c).
Proof.
  assert (Hd : forall A (x y : A), (if Z.of_nat i =? Z.of_nat j then x else y) = if decide (i = j) then x else y).
  { intros. destruct (Z.eqb_spec (Z.of_nat i) (Z.of_nat j)), (decide (i = j)); done || lia. }
  split; intros get set get' set' Hi Hj.
  - apply trigger_flag_at in Hi as (_ & -> & ->), Hj as (_ & -> & ->).
    unfold TRG.getFlag, TRG.setFlag. rewrite upd_get, flag_set by lia. apply Hd.
  - apply cuwp_flag_at in Hi as (Hi & -> & ->), Hj as (Hj & -> & ->).
    unfold CUWP.getState, CUWP.setState. rewrite upd_get.
    rewrite <- Hd, <- (flag_set _ on) by lia. destruct on; [done|]. rewrite !has_flag_bit by lia.
    rewrite Z.land_spec, !Z.ldiff_spec.
    assert (Hb : Z.testbit 0xFFFF (Z.of_nat j) = true).
    { do 5 (destruct j as [|j]; [done|]). lia. }
    by rewrite Hb.
Qed.

Lemma flags_lawful_witness :
  TRG.disabled (TRG.setDisabled move_sample true) = true /\
  TRG.pauseFlagged (TRG.setDisabled move_sample true) = TRG.pauseFlagged move_sample.
Proof.
  destruct (flags_lawful move_sample (Cuwp.mkCuwp 0 0 0 0 0 0 0 0 0 0) true 3 3) as [H _].
  destruct (flags_lawful move_sample (Cuwp.mkCuwp 0 0 0 0 0 0 0 0 0 0) true 3 5) as [H' _].
  split; [exact (H _ _ _ _ eq_refl eq_refl) | exact (H' _ _ _ _ eq_refl eq_refl)].
Defined.

(** ** The extended data index *)

Lemma land_pow2 a k : 0 <= k -> Z.land a (2 ^ k) = if Z.testbit a k then 2 ^ k else 0.
Proof.
  intros Hk. apply Z.bits_inj'. intros n Hn. rewrite Z.land_spec, Z.pow2_bits_eqb by done.
  destruct (Z.eqb_spec k n) as [<-|Hne]; destruct (Z.testbit a k);
    rewrite ?Z.pow2_bits_true, ?Z.bits_0, ?andb_false_r by done; try done.
  rewrite Z.pow2_bits_false by done. done.
Qed.

Lemma land_below a m : 0 <= m -> Z.land a m <= m.
Proof.
  intros Hm. apply (Z.ldiff_le (Z.land a m) m Hm).
  by rewrite Z.ldiff_land, <- Z.land_assoc, Z.land_lnot_diag, Z.land_0_r.
Qed.

(** A number below 2^24 with only the low bits of its bytes set is one of
    eight. *)
Lemma low_bits_only i : is_u 24 i -> Z.land i 0xFEFEFE = 0 ->
  i ∈ [0; 1; 256; 257; 65536; 65537; 65792; 65793].
Proof.
  intros Hi H0. assert (E : i = Z.land i 0x010101).
  { rewrite <- (Z.mod_small i (2 ^ 24)) at 1 by exact Hi. rewrite <- Z.land_ones by lia.
    change (Z.ones 24) with (Z.lor 0xFEFEFE 0x010101). by rewrite Z.land_lor_distr_r, H0. }
  change 0x010101 with (Z.lor (2 ^ 0) (Z.lor (2 ^ 8) (2 ^ 16))) in E.
  rewrite !Z.land_lor_distr_r, !land_pow2 in E by lia.
  destruct (Z.testbit i 0), (Z.testbit i 8), (Z.testbit i 16); rewrite E;
    apply (bool_decide_eq_true_1 _); vm_compute; reflexivity.
Qed.

(** The indices [setExtendedDataIndex] accepts. *)
Definition valid_index (i : Z) : Prop :=
  0 <= i <= TRG.ExtendedTrigDataIndex_MaxIndex /\
  i ∉ [0; 1; 256; 257; 65536; 65537; 65792; 65793].

Lemma ownersWord_set w t : cwf Trigger.layout t -> is_u 32 w ->
  TRG.ownersWord (TRG.setOwnersWord w t) = w.
Proof.
  intros Ht Hw. assert (Hl : length (Trigger.owners t) = 27%nat).
  { destruct t; cbn in Ht. destruct Ht as [[_ [H _]] _]. exact H. }
  unfold TRG.ownersWord, TRG.setOwnersWord. rewrite upd_get.
  rewrite drop_app_length' by (rewrite length_take; lia).
  rewrite take_app_length' by (by rewrite le_enc_length).
  rewrite <- (app_nil_r (le_enc 4 w)). apply le_dec_enc. exact Hw.
Qed.

Lemma index_word W i : valid_index i -> let w := Z.lor (Z.land W 0x1010101) i in
  is_u 32 w /\ Z.land w TRG.ExtendedTrigDataIndex_CheckExtended > 0 /\
  Z.land w TRG.ExtendedTrigDataIndex_GetIndex = Z.lor (Z.land W 0x010101) i /\
  Z.lor (Z.land W 0x010101) i > 0.
Proof.
  intros [Hi Hn] w. change TRG.ExtendedTrigDataIndex_MaxIndex with 0xFEFEFE in Hi.
  assert (Hpos : forall a b, 0 <= a -> b <> 0 -> 0 <= b -> Z.lor a b > 0).
  { intros a b Ha Hb Hb'. assert (0 <= Z.lor a b) by (by apply Z.lor_nonneg).
    assert (Z.lor a b <> 0) by (intros [_ ?]%Z.lor_eq_0_iff; done). lia. }
  assert (Hi0 : i <> 0) by (intros ->; set_solver).
  assert (Hland : forall m, 0 <= m -> 0 <= Z.land W m) by (intros; apply Z.land_nonneg; by right).
  split_and!.
  - split; [apply Z.lor_nonneg; split; [by apply Hland | lia]|].
    apply Z.log2_lt_pow2; [pose proof (Hpos (Z.land W 0x1010101) i); unfold w; specialize (Hland 0x1010101); lia|].
    unfold w. rewrite Z.log2_lor by (lia || by apply Hland). apply Z.max_lub_lt.
    + eapply Z.le_lt_trans; [apply Z.log2_le_mono, (land_below W 0x1010101); lia|]. done.
    + eapply Z.le_lt_trans; [apply Z.log2_le_mono, (proj2 Hi)|]. done.
  - unfold w. change TRG.ExtendedTrigDataIndex_CheckExtended with 0xFEFEFEFE.
    rewrite Z.land_lor_distr_l, <- Z.land_assoc. change (Z.land 0x1010101 0xFEFEFEFE) with 0.
    rewrite Z.land_0_r, Z.lor_0_l.
    assert (0 <= Z.land i 0xFEFEFEFE) by (apply Z.land_nonneg; by right).
    assert (Z.land i 0xFEFEFEFE <> 0); [|lia]. intros H0. apply Hn, low_bits_only; [split; lia|].
    change 0xFEFEFE with (Z.land 0xFEFEFEFE 0xFFFFFF). by rewrite Z.land_assoc, H0.
  - unfold w. change TRG.ExtendedTrigDataIndex_GetIndex with 0xFFFFFF.
    rewrite Z.land_lor_distr_l, <- Z.land_assoc. change (Z.land 0x1010101 0xFFFFFF) with 0x010101.
    f_equal. change 0xFFFFFF with (Z.ones 24). rewrite Z.land_ones by lia. apply Z.mod_small. lia.
  - apply Hpos; [by apply Hland | done | lia].
Qed.

(** The test of [setExtendedDataIndex]. *)
Lemma index_guard i : is_u 32 i -> (i =? 0) || (i =? 1) || (i =? 256) || (i =? 257) || (i =? 65536) ||
     (i =? 65537) || (i =? 65792) || (i =? 65793) || (i >? 0x00FFFFFF) ||
     (i >? TRG.ExtendedTrigDataIndex_MaxIndex) = true <-> ~ valid_index i.
Proof.
  intros Hi. unfold valid_index. change TRG.ExtendedTrigDataIndex_MaxIndex with 0xFEFEFE.
  rewrite !orb_true_iff, !Z.eqb_eq, !Z.gtb_lt, !not_elem_of_cons. unfold is_u in Hi.
  assert (Hnil : i ∉ [] <-> True) by (split; [done | intros _; apply not_elem_of_nil]).
  rewrite Hnil. lia.
Qed.

Lemma setExtendedDataIndex_valid (t : Trigger.Trigger) i : cwf Trigger.layout t -> valid_index i ->
  exists w, is_u 32 w /\ TRG.setExtendedDataIndex t i = Ret (TRG.setOwnersWord w t) /\
    TRG.getExtendedDataIndex (TRG.setOwnersWord w t) = Z.lor (Z.land (TRG.ownersWord t) 0x010101) i.
Proof.
  intros Ht Hv. assert (Hi : is_u 32 i).
  { destruct Hv as [Hv _]. change TRG.ExtendedTrigDataIndex_MaxIndex with 0xFEFEFE in Hv. unfold is_u. lia. }
  destruct (index_word (TRG.ownersWord t) i Hv) as (Hw & Hc & Hg & Hp).
  eexists. split; [exact Hw|]. unfold TRG.setExtendedDataIndex. rewrite u32_id by done. split.
  - destruct (_ || _) eqn:E; [|done]. by destruct (proj1 (index_guard i Hi) E).
  - unfold TRG.getExtendedDataIndex. rewrite ownersWord_set by done. by rewrite Hg, !(proj2 (Z.gtb_lt _ 0)) by lia.
Qed.

(** [setExtendedDataIndex] stores every index up to 0xFEFEFE that has a
    bit besides the lowest of each byte, and throws for the others; the index
    read back is the stored one joined with the owner bits that were set, so
    it is the same index when they were clear. [clearExtendedDataIndex]
    removes it. *)
Theorem extended_index (t : Trigger.Trigger) (i : Z) : cwf Trigger.layout t -> is_u 32 i ->
  (valid_index i -> exists t', TRG.setExtendedDataIndex t i = Ret t' /\
     TRG.getExtendedDataIndex t' = Z.lor (Z.land (TRG.ownersWord t) 0x010101) i /\
     (Z.land (TRG.ownersWord t) 0x010101 = 0 -> TRG.getExtendedDataIndex t' = i)) /\
  (~ valid_index i -> TRG.setExtendedDataIndex t i = Throw InvalidArgument) /\
  TRG.getExtendedDataIndex (TRG.clearExtendedDataIndex t) = TRG.ExtendedTrigDataIndex_None.
Proof.
  intros Ht Hi. split_and!.
  - intros Hv. destruct (setExtendedDataIndex_valid t i Ht Hv) as (w & _ & Hs & Hg).
    eexists. split; [exact Hs|]. split; [done|]. intros E. rewrite Hg, E. apply Z.lor_0_l.
  - intros Hv. unfold TRG.setExtendedDataIndex. by rewrite u32_id, (proj2 (index_guard i Hi) Hv).
  - unfold TRG.getExtendedDataIndex, TRG.clearExtendedDataIndex. by rewrite ownersWord_set.
Qed.

Lemma extended_index_witness :
  exists t', TRG.setExtendedDataIndex move_sample 1000 = Ret t' /\ TRG.getExtendedDataIndex t' = 1000.
Proof.
  assert (Hw : cwf Trigger.layout move_sample) by exact (Forall_inv move_sample_wf).
  destruct (extended_index move_sample 1000 Hw ltac:(by vm_compute)) as (Hs & _).
  destruct Hs as (t' & Ht & _ & Hg).
  - split; [by vm_compute|]. apply (bool_decide_eq_true_1 _). vm_compute. reflexivity.
  - exists t'. split; [exact Ht|]. apply Hg. vm_compute. reflexivity.
Defined.

(** ** The sections *)

(** [TrigSection::replaceRange] replaces the triggers of a range and
    returns them; an empty or invalid range throws. When the range starts at 0
    and is as long as the new list, the whole section is exchanged, also when
    it has triggers past the range. *)
Theorem replaceRange_spec (this triggers : list Trigger.Trigger) (beginIndex endIndex : Z) :
  0 <= beginIndex -> 0 <= endIndex ->
  TrigSection.replaceRange this beginIndex endIndex triggers =
  if (beginIndex =? 0) && (endIndex =? zlen triggers) then Ret (triggers, this, this)
  else if (beginIndex <? endIndex) && (endIndex <=? zlen this)
  then Ret (take (Z.to_nat beginIndex) this ++ triggers ++ drop (Z.to_nat endIndex) this, triggers,
            drop (Z.to_nat beginIndex) (take (Z.to_nat endIndex) this))
  else Throw OutOfRange.
Proof.
  intros Hb He. unfold TrigSection.replaceRange, TrigSection.swap.
  destruct (_ && _); [done|]. destruct (Z.ltb_spec beginIndex endIndex), (Z.leb_spec endIndex (zlen this));
    cbn [andb]; try done.
  unfold verase_range. rewrite !(proj2 (Z.leb_le _ _)) by lia. cbn [andb obind].
  assert (Hl : length (take (Z.to_nat beginIndex) this) = Z.to_nat beginIndex)
    by (rewrite length_take; unfold zlen in *; lia).
  by rewrite take_app_length', drop_app_length' by done.
Qed.

Lemma replaceRange_spec_witness :
  TrigSection.replaceRange [move_sample; briefing_sample] 0 1 [briefing_sample] =
    Ret ([briefing_sample], [move_sample; briefing_sample], [move_sample; briefing_sample]).
Proof. exact (replaceRange_spec [move_sample; briefing_sample] [briefing_sample] 0 1 ltac:(lia) ltac:(lia)). Defined.

(** TRIG and MBRF read back exactly the triggers they wrote; an appended
    section adds its triggers after the present ones. *)
Theorem triggers_roundtrip (append : bool) (ts ts' : list Trigger.Trigger) (rest : bytes) :
  trig_wf ts' ->
  TrigSection.read (2400 * zlen ts') (mkIstream (TrigSection.write ts' ++ rest) true) append ts =
    Ret (if append then ts ++ ts' else ts', 2400 * zlen ts', mkIstream rest true) /\
  MbrfSection.read (2400 * zlen ts') (mkIstream (MbrfSection.write ts' ++ rest) true) append ts =
    Ret (if append then ts ++ ts' else ts', 2400 * zlen ts', mkIstream rest true).
Proof.
  intros Hts. split;
    exact (read_objects_enc Trigger.layout ltac:(vm_compute; lia) append ts ts' rest Hts).
Qed.

Lemma triggers_roundtrip_witness :
  TrigSection.read 2400 (mkIstream (TrigSection.write [move_sample] ++ [1]) true) true [briefing_sample] =
    Ret ([briefing_sample; move_sample], 2400, mkIstream [1] true).
Proof. exact (proj1 (triggers_roundtrip true [briefing_sample] [move_sample] [1] move_sample_wf)). Defined.

(** The font size of a string's properties can only be the base size 8:
    the constructor throws for every larger size, the documented steps of 2
    included. *)
Theorem stringProperties_size (red green blue size : Z)
    (isUsed hasPriority isBold isUnderlined isItalics : bool) :
  0 <= size ->
  StringProperties.new red green blue isUsed hasPriority isBold isUnderlined isItalics size =
  if size =? 8
  then Ret (StringProperties.mkStringProperties red green blue
         (Z.b2z isUsed + 2 * Z.b2z hasPriority + 4 * Z.b2z isBold + 8 * Z.b2z isUnderlined +
          16 * Z.b2z isItalics))
  else Throw InvalidSize.
Proof.
  intros Hs. unfold StringProperties.new.
  change (StringProperties.baseFontSize + 7 * StringProperties.fontStepSize) with 22.
  change StringProperties.baseFontSize with 8.
  destruct (Z.ltb_spec size 8); cbn [orb]; [by rewrite (proj2 (Z.eqb_neq _ _)) by lia|].
  destruct (Z.gtb_spec size 22); cbn [orb]; [by rewrite (proj2 (Z.eqb_neq _ _)) by lia|].
  assert (Hin : size ∈ range 8 23) by (apply elem_of_range; lia).
  revert Hin. change (range 8 23) with [8;9;10;11;12;13;14;15;16;17;18;19;20;21;22].
  rewrite !elem_of_cons, elem_of_nil. intros Hin.
  destruct Hin as [->|Hin].
  - by destruct isUsed, hasPriority, isBold, isUnderlined, isItalics.
  - rewrite (proj2 (Z.eqb_neq _ _)) by lia.
    repeat (destruct Hin as [->|Hin]; [done|]). done.
Qed.

Lemma stringProperties_size_witness :
  StringProperties.new 1 2 3 true false false false false 10 = Throw InvalidSize.
Proof. exact (stringProperties_size 1 2 3 10 true false false false false ltac:(lia)). Defined.
