(* ===== verification/StringTable.v ===== *)
(** Strings and the string tables STR and KSTR (Sections.cpp).  No code makes
    a string the parent of another ([resolveParantage] has no caller), so a
    string is its own allocation.  The templates over the kind of string are
    modelled for [RawString], to which every other kind is converted first.

    A string table works with a [StrSynchronizer], the abstract class of
    Sections.h through which it learns which ids are used and renames them. *)
From S2P Require Import Prelude Codec ChkTypes ChkSection Accessors StringUsers Triggers.
Open Scope Z_scope.

(** ** Strings *)

Module StrProp.
Record StrProp := mkStrProp {
  red : Z; green : Z; blue : Z;
  isUsed : bool; hasPriority : bool; isBold : bool; isUnderlined : bool; isItalics : bool;
  size : Z
}.

Definition default : StrProp := mkStrProp 0 0 0 false false false false false StringProperties.baseFontSize.

(** The size is [base + four ? 8 : 0 + two ? 4 : 0 + one ? 2 : 0], as C++
    groups it: each [?] has all that stands before it as its condition. *)
Definition ofProperties (p : StringProperties.StringProperties) : StrProp :=
  let flag mask := has_flag (StringProperties.flags p) mask in
  mkStrProp (StringProperties.red p) (StringProperties.green p) (StringProperties.blue p)
    (flag 1) (flag 2) (flag 4) (flag 8) (flag 16)
    (if negb (StringProperties.baseFontSize + Z.b2z (flag 32) =? 0) then 4 * StringProperties.fontStepSize
     else if negb (0 + Z.b2z (flag 64) =? 0) then 2 * StringProperties.fontStepSize
     else if negb (0 + Z.b2z (flag 128) =? 0) then 1 * StringProperties.fontStepSize
     else 0).
End StrProp.

Module ScStr.
Record ScStr := mkScStr { allocation : bytes; strProp : StrProp.StrProp }.

Definition allocate (str : bytes) : bytes :=
  if match last str with None => true | Some c => negb (c =? 0) end then str ++ [0] else str.

Definition new (str : bytes) : ScStr := mkScStr (allocate str) StrProp.default.
Definition newWith (str : bytes) (strProp : StrProp.StrProp) : ScStr := mkScStr (allocate str) strProp.

Definition empty (s : ScStr) : bool := zlen (allocation s) <=? 1.

Definition length (s : ScStr) : Z := if zlen (allocation s) >? 0 then zlen (allocation s) - 1 else 0.

(** The characters before the first NUL: what [strcmp], [strlen] and the
    construction of a [std::string] from a pointer see. *)
Fixpoint cstr (bs : bytes) : bytes :=
  match bs with
  | [] => []
  | c :: bs => if c =? 0 then [] else c :: cstr bs
  end.

(** [compare(str) == 0] *)
Definition compareEq (s : ScStr) (str : bytes) : bool :=
  bool_decide (cstr (allocation s) = cstr (str ++ [0])).

Definition toString (s : ScStr) : bytes := cstr (allocation s).
End ScStr.

(** ** The synchronizer *)

Module Scope.
Definition None_ : Z := 0.
Definition Game : Z := 2.
Definition Editor : Z := 4.
Definition Both : Z := Z.lor Game Editor.
Definition Either : Z := Both.
End Scope.

Abbreviation table := (list (option ScStr.ScStr)).

(** [Σ] is everything the synchronizer reaches besides the string table that
    calls it; that table is passed where the synchronizer reads it. *)
Record StrSynchronizer (Σ : Type) := mkStrSynchronizer {
  sync_stringUsed : Σ -> Z -> Z -> Z -> Z -> outcome bool;
  sync_markUsedStrings : Σ -> Z -> Z -> gset Z -> outcome (gset Z);
  sync_markValidUsedStrings : Σ -> table -> Z -> Z -> gset Z -> outcome (gset Z);
  sync_remapStringIds : Σ -> gmap Z Z -> Z -> outcome Σ;
  sync_syncStringsToBytes : table -> bytes -> outcome bytes
}.
Arguments sync_stringUsed {Σ}.
Arguments sync_markUsedStrings {Σ}.
Arguments sync_markValidUsedStrings {Σ}.
Arguments sync_remapStringIds {Σ}.
Arguments sync_syncStringsToBytes {Σ}.

(** ** Operations on the strings, common to STR and KSTR *)

(** [stringIdUsed[i] = false] *)
Definition bs_clear (bs : gset Z) (i : Z) : gset Z := bs ∖ {[i]}.

(** [std::map::insert] keeps an entry that is already there. *)
Definition inserted (m : gmap Z Z) (k v : Z) : gmap Z Z :=
  if decide (is_Some (m !! k)) then m else <[k := v]> m.

Section table_ops.
Context {Σ : Type} (sync : StrSynchronizer Σ).
(** The section's storage scope and the mask its [deleteString] passes;
    [Chk::MaxKStrings] is [Chk::MaxStrings]. *)
Context (storageScope deleteMask : Z).

Definition stringStored (strings : table) (stringId : Z) : outcome bool :=
  if stringId <? zlen strings
  then let* s := vget strings stringId in Ret (bool_decide (is_Some s)) else Ret false.

Definition unmarkUnstoredStrings (strings : table) (stringIdUsed : gset Z) : outcome (gset Z) :=
  let limit := Z.min MaxStrings (zlen strings) in
  let* stringIdUsed := for_each (fun stringId used =>
      let* s := vget strings stringId in
      Ret (if bool_decide (stringId ∈ used) && bool_decide (s = None)
           then bs_clear used stringId else used)) (range 1 limit) stringIdUsed in
  for_each (fun stringId used =>
      Ret (if bool_decide (stringId ∈ used) then bs_clear used stringId else used))
    (range (Z.max 1 limit) MaxStrings) stringIdUsed.

Definition getString (strings : table) (stringId : Z) : outcome (option bytes) :=
  if stringId <? zlen strings
  then let* s := vget strings stringId in Ret (ScStr.toString <$> s) else Ret None.

Definition findString (strings : table) (str : bytes) : outcome Z :=
  let* found := first_such (fun stringId =>
      let* s := vget strings stringId in
      Ret (match s with Some s => ScStr.compareEq s str | None => false end))
    (range 1 (zlen strings)) in
  Ret (default 0 found).

(** [defragment]: the strings and the remappings. *)
Definition fillHole (numStrings i : Z) (st : table * gmap Z Z) : outcome (table * gmap Z Z) :=
  let '(strings, remappings) := st in
  let* s := vget strings i in
  match s with
  | Some _ => Ret (strings, remappings)
  | None =>
      let* found := first_such (fun j => let* s := vget strings j in Ret (bool_decide (is_Some s)))
        (range (Z.max (i + 1) 0) numStrings) in
      match found with
      | Some j =>
          let* s := vget strings j in
          let* strings := vset strings i s in
          Ret (strings, inserted remappings j i)
      | None => Ret (strings, remappings)
      end
  end.

Definition defragment (strings : table) (σ : Σ) : outcome (table * Σ * bool) :=
  let numStrings := zlen strings in
  let* st := for_each (fillHole numStrings) (range 0 numStrings) (strings, ∅) in
  let '(strings, remappings) := st in
  if decide (remappings = ∅) then Ret (strings, σ, false)
  else let* σ := sync_remapStringIds sync σ remappings storageScope in Ret (strings, σ, true).

(** The number of valid used ids and the highest. *)
Definition countUsed (stringIdUsed : gset Z) : outcome (Z * Z) :=
  for_each (fun stringId '(num, highest) =>
      Ret (if bool_decide (stringId ∈ stringIdUsed) then (num + 1, stringId) else (num, highest)))
    (range 1 MaxStrings) (0, 0).

(** [while ( strings.size() < n ) strings.push_back(nullptr);] *)
Definition pushUpTo (n : Z) (strings : table) : table :=
  strings ++ replicate (Z.to_nat (n - zlen strings)) None.
(** [while ( strings.size() > n ) strings.pop_back();] *)
Definition popDownTo (n : Z) (strings : table) : table := take (Z.to_nat n) strings.

(** [grow] is how far the first loop fills: one past the capacity in STR. *)
Definition setCapacity (grow : Z) (strings : table) (σ : Σ) (stringCapacity : Z) (autoDefragment : bool)
    : outcome (table * Σ) :=
  if stringCapacity >? MaxStrings then Throw MaximumStringsExceeded
  else
    let* stringIdUsed := sync_markValidUsedStrings sync σ strings Scope.Either storageScope ∅ in
    let* c := countUsed stringIdUsed in
    let '(numValidUsedStrings, highestValidUsedStringId) := c in
    if numValidUsedStrings >? stringCapacity then Throw InsufficientStringCapacity
    else
      let* st :=
        if highestValidUsedStringId >? stringCapacity then
          if autoDefragment && (numValidUsedStrings <=? stringCapacity) then
            let* r := defragment strings σ in let '(strings, σ, _) := r in Ret (strings, σ)
          else Throw InsufficientStringCapacity
        else Ret (strings, σ) in
      let '(strings, σ) := st in
      Ret (popDownTo stringCapacity (pushUpTo (stringCapacity + grow) strings), σ).

Definition getNextUnusedStringId (strings : table) (stringIdUsed : gset Z) (checkBeyondCapacity : bool)
    (firstChecked : Z) : outcome Z :=
  let limit := if checkBeyondCapacity then MaxStrings else zlen strings in
  let* found := first_such (fun i =>
      if i <? MaxStrings then Ret (negb (bool_decide (i ∈ stringIdUsed))) else Undef)
    (range firstChecked limit) in
  Ret (default 0 found).

(** The strings, the synchronizer's state and the id. *)
Definition addString (grow : Z) (strings : table) (σ : Σ) (str : bytes) (autoDefragment : bool)
    : outcome (table * Σ * Z) :=
  let* stringId := findString strings str in
  if negb (stringId =? 0) then Ret (strings, σ, stringId)
  else
    let* stringIdUsed := sync_markUsedStrings sync σ Scope.Either storageScope ∅ in
    let* nextUnusedStringId := getNextUnusedStringId strings stringIdUsed true 1 in
    let* st :=
      if nextUnusedStringId >=? zlen strings
      then setCapacity grow strings σ (nextUnusedStringId + 1) autoDefragment
      else if nextUnusedStringId =? 0 then Throw MaximumStringsExceeded
      else Ret (strings, σ) in
    let '(strings, σ) := st in
    let* strings := vset strings nextUnusedStringId (Some (ScStr.new str)) in
    Ret (strings, σ, nextUnusedStringId).

Definition replaceString (strings : table) (stringId : Z) (str : bytes) : outcome table :=
  if stringId <? zlen strings
  then vset strings stringId (Some (ScStr.newWith str StrProp.default)) else Ret strings.

Definition deleteUnusedStrings (strings : table) (σ : Σ) : outcome table :=
  let* stringIdUsed := sync_markUsedStrings sync σ Scope.Either storageScope ∅ in
  for_each (fun i strings =>
      if negb (i <? MaxStrings) then Undef
      else
        let* s := vget strings i in
        if negb (bool_decide (i ∈ stringIdUsed)) && bool_decide (is_Some s)
        then vset strings i None else Ret strings)
    (range 0 (zlen strings)) strings.

(** [σ] is [None] when no synchronizer is given. *)
Definition deleteString (strings : table) (stringId : Z) (deleteOnlyIfUnused : bool) (σ : option Σ)
    : outcome (table * bool) :=
  let* ok := if negb deleteOnlyIfUnused then Ret true
             else match σ with
                  | Some σ => let* used := sync_stringUsed sync σ stringId Scope.Either storageScope deleteMask in
                              Ret (negb used)
                  | None => Ret false
                  end in
  if ok && (stringId <? zlen strings)
  then let* strings := vset strings stringId None in Ret (strings, true)
  else Ret (strings, false).

(** *** Moving a string *)

(** The strings, the bits and the remappings while strings cascade. *)
Record Cascade := mkCascade { cstrings : table; cused : gset Z; cremap : gmap Z Z }.

(** The string at [source] moves to the free id [target]. *)
Definition cascadeInto (source target : Z) (c : Cascade) : outcome Cascade :=
  let* string := vget (cstrings c) source in
  let* strings := vset (cstrings c) source None in
  let used := bs_clear (cused c) source in
  let* strings := vset strings target string in
  Ret (mkCascade strings ({[target]} ∪ used) (inserted (cremap c) source target)).

(** One round of [while ( stringIdUsed[stringIdTo] )]; [candidates] are the
    ids of the [for] loop and [step] leads from a free id to the string that
    moves there. *)
Definition cascadeRound (candidates : list Z) (step : Z) (c : Cascade) : outcome Cascade :=
  let* found := first_such (fun i => Ret (negb (bool_decide (i ∈ cused c)))) candidates in
  match found with
  | Some i => cascadeInto (i + step) i c
  | None => Ret c
  end.

Fixpoint cascade (fuel : nat) (stringIdTo : Z) (candidates : list Z) (step : Z) (c : Cascade)
    : outcome Cascade :=
  if bool_decide (stringIdTo ∈ cused c) then
    match fuel with
    | O => Undef
    | S fuel => let* c := cascadeRound candidates step c in cascade fuel stringIdTo candidates step c
    end
  else Ret c.

Definition moveString (strings : table) (σ : Σ) (stringIdFrom stringIdTo : Z) : outcome (table * Σ) :=
  let stringIdMin := Z.min stringIdFrom stringIdTo in
  let stringIdMax := Z.max stringIdFrom stringIdTo in
  if (stringIdMin >? 0) && (stringIdMax <=? zlen strings) && negb (stringIdFrom =? stringIdTo) then
    let* stringIdUsed := sync_markUsedStrings sync σ storageScope Scope.Either ∅ in
    let* selected := vget strings stringIdFrom in
    if negb (stringIdMax <? MaxStrings) then Undef
    else
      let c := mkCascade strings (bs_clear stringIdUsed stringIdFrom) ∅ in
      let fuel := Z.to_nat (stringIdMax - stringIdMin) in
      let* c :=
        if stringIdTo <? stringIdFrom then
          let* c := cascade fuel stringIdTo (range (stringIdTo + 1) (stringIdFrom + 1)) (-1) c in
          Ret (mkCascade (cstrings c) (cused c) (inserted (cremap c) stringIdFrom stringIdTo))
        else cascade fuel stringIdTo (rev (range stringIdFrom stringIdTo)) 1 c in
      let* strings := vset (cstrings c) stringIdTo selected in
      let* σ := sync_remapStringIds sync σ (inserted (cremap c) stringIdFrom stringIdTo) storageScope in
      Ret (strings, σ)
  else Ret (strings, σ).
End table_ops.
