(* ===== verification/StrSection.v ===== *)
(** STR (Sections.cpp): the section around the string table of
    [StringTable], and the conversion between strings and the bytes of the
    file. *)
From S2P Require Import Prelude Codec ChkTypes ChkSection Accessors StringUsers Triggers StringTable.
Open Scope Z_scope.

(** [(u16 &)bytes[pos]] and its assignment; [w] is the width in bytes. *)
Definition read_word (w : nat) (bs : bytes) (pos : Z) : outcome Z :=
  if (0 <=? pos) && (pos + Z.of_nat w <=? zlen bs)
  then Ret (le_dec w (drop (Z.to_nat pos) bs)) else Undef.

Definition write_word (w : nat) (bs : bytes) (pos v : Z) : outcome bytes :=
  if (0 <=? pos) && (pos + Z.of_nat w <=? zlen bs)
  then Ret (take (Z.to_nat pos) bs ++ le_enc w v ++ drop (Z.to_nat pos + w) bs) else Undef.

(** [loadString]: the string pushed and the position of its last character. *)
Definition loadString (stringBytes : bytes) (stringOffset sectionSize : Z) : option ScStr.ScStr * Z :=
  if stringOffset <? sectionSize then
    let chars := drop (Z.to_nat stringOffset) stringBytes in
    match list_find (fun c => c = 0) chars with
    | Some (n, _) => (Some (ScStr.new (ScStr.cstr chars)), stringOffset + Z.of_nat n)
    | None => (Some (ScStr.new (take (Z.to_nat (sectionSize - stringOffset)) chars)), sectionSize - 1)
    end
  else (None, 0).

Module StrSection.
Record StrSection := mkStrSection {
  strings : table;
  stringBytes : bytes;
  bytePaddedTo : Z;
  initialTailDataOffset : Z;
  tailData : bytes
}.

Definition setStrings (s : StrSection) (strings : table) : StrSection :=
  mkStrSection strings (stringBytes s) (bytePaddedTo s) (initialTailDataOffset s) (tailData s).
Definition setBytes (s : StrSection) (stringBytes : bytes) : StrSection :=
  mkStrSection (strings s) stringBytes (bytePaddedTo s) (initialTailDataOffset s) (tailData s).

(** *** Strings to bytes *)

Definition numStringsOf (strings : table) : Z := if zlen strings >? 0 then zlen strings - 1 else 0.

Definition totalLength (strings : table) (numStrings sectionSize : Z) : outcome Z :=
  for_each (fun i sectionSize =>
      let* s := vget strings i in
      Ret (match s with Some s => sectionSize + ScStr.length s | None => sectionSize end))
    (range 1 (numStrings + 1)) sectionSize.

Definition layString (strings : table) (initialNulOffset i : Z) (stringBytes : bytes) : outcome bytes :=
  let* s := vget strings i in
  match s with
  | None => write_word 2 stringBytes (2 * i) initialNulOffset
  | Some s =>
      let* stringBytes := write_word 2 stringBytes (2 * i) (u16 (zlen stringBytes)) in
      Ret (stringBytes ++ ScStr.allocation s)
  end.

(** The standard layout, without a synchronizer; [Strings::syncStringsToBytes]
    is the same code. *)
Definition stringsToBytes (strings : table) : outcome bytes :=
  let maxStrings := (65535 - 2) / 2 in
  let numStrings := numStringsOf strings in
  if numStrings >? maxStrings then Throw MaximumStringsExceeded
  else
    let* sectionSize := totalLength strings numStrings (2 + 2 * numStrings + 1) in
    if sectionSize >? 65535 then Throw MaximumCharactersExceeded
    else
      let stringBytes := replicate (Z.to_nat (2 + 2 * numStrings)) 0 in
      let* stringBytes := write_word 2 stringBytes 0 (u16 numStrings) in
      let initialNulOffset := u16 (zlen stringBytes) in
      let stringBytes := stringBytes ++ [0] in
      for_each (layString strings initialNulOffset) (range 1 (numStrings + 1)) stringBytes.

Definition syncStringsToBytes {Σ} (sync : option (StrSynchronizer Σ)) (s : StrSection) : outcome StrSection :=
  let* bs := match sync with
             | Some sync => sync_syncStringsToBytes sync (strings s) (stringBytes s)
             | None => stringsToBytes (strings s)
             end in
  Ret (setBytes s bs).

(** *** Bytes to strings *)

Definition rawNumStringsOf (stringBytes : bytes) : outcome Z :=
  if zlen stringBytes >=? 2 then read_word 2 stringBytes 0
  else if zlen stringBytes =? 1 then vget stringBytes 0 else Ret 0.

(** The strings pushed so far and [sectionLastCharacter]. *)
Definition loadStringAt (stringBytes : bytes) (stringId : Z) (st : table * Z) : outcome (table * Z) :=
  let* stringOffset := read_word 2 stringBytes (2 * stringId) in
  let '(s, lastCharacter) := loadString stringBytes stringOffset (zlen stringBytes) in
  Ret (st.1 ++ [s], if lastCharacter >? st.2 then lastCharacter else st.2).

Definition syncBytesToStrings (s : StrSection) : outcome StrSection :=
  let numBytes := zlen (stringBytes s) in
  let* rawNumStrings := rawNumStringsOf (stringBytes s) in
  let highestStringWithValidOffset := Z.min rawNumStrings (if numBytes <? 4 then 0 else numBytes / 2 - 1) in
  let* st := for_each (loadStringAt (stringBytes s)) (range 1 (highestStringWithValidOffset + 1)) ([None], 0) in
  let '(strings, sectionLastCharacter) := st in
  let* strings :=
    if highestStringWithValidOffset <? rawNumStrings then
      let* st :=
        if numBytes mod 2 >? 0 then
          let* stringOffset := vget (stringBytes s) (numBytes - 1) in
          Ret (strings ++ [(loadString (stringBytes s) stringOffset numBytes).1],
               highestStringWithValidOffset + 2)
        else Ret (strings, highestStringWithValidOffset + 1) in
      let '(strings, stringId) := st in
      Ret (strings ++ replicate (Z.to_nat (rawNumStrings + 1 - stringId)) None)
    else Ret strings in
  let offsetsEnd := 2 + 2 * rawNumStrings in
  let charactersEnd := sectionLastCharacter + 1 in
  let regularStrSectionEnd := Z.max offsetsEnd charactersEnd in
  if regularStrSectionEnd <? numBytes
  then Ret (mkStrSection strings (take (Z.to_nat regularStrSectionEnd) (stringBytes s)) 0
              regularStrSectionEnd (drop (Z.to_nat regularStrSectionEnd) (stringBytes s)))
  else Ret (mkStrSection strings (stringBytes s) 4 0 []).

Definition stringsMatchBytes (s : StrSection) : outcome bool :=
  let numBytes := zlen (stringBytes s) in
  if numBytes =? 0 then Ret false
  else
    let* rawNumStrings := if numBytes >? 2 then read_word 2 (stringBytes s) 0
                          else if numBytes =? 1 then vget (stringBytes s) 0 else Ret 0 in
    if negb (rawNumStrings =? u64 (zlen (strings s) - 1)) then Ret false
    else
      let* mismatch := any_such (fun stringId =>
          let* str := vget (strings s) stringId in
          match str with
          | Some str =>
              if 2 * stringId + 1 <? numBytes then
                let* stringOffset := read_word 2 (stringBytes s) (2 * stringId) in
                Ret ((stringOffset + ScStr.length str >? numBytes) ||
                     negb (bool_decide (take (Z.to_nat (ScStr.length str)) (ScStr.allocation str) =
                        take (Z.to_nat (ScStr.length str)) (drop (Z.to_nat stringOffset) (stringBytes s)))))
              else Ret true
          | None => Ret false
          end) (range 1 (zlen (strings s))) in
      Ret (negb mismatch).

(** *** The section *)

(** The characters of the default strings, one per byte. *)
Definition defaultStrings : list bytes :=
  [ (* Untitled Scenario *) [85;110;116;105;116;108;101;100;32;83;99;101;110;97;114;105;111];
    (* Destroy all enemy buildings. *)
    [68;101;115;116;114;111;121;32;97;108;108;32;101;110;101;109;121;32;98;117;105;108;100;105;110;103;115;46];
    (* Anywhere *) [65;110;121;119;104;101;114;101];
    (* Force 1 *) [70;111;114;99;101;32;49]; (* Force 2 *) [70;111;114;99;101;32;50];
    (* Force 3 *) [70;111;114;99;101;32;51]; (* Force 4 *) [70;111;114;99;101;32;52] ].

Definition GetDefault (blank : bool) : StrSection :=
  mkStrSection (None :: (if blank then [] else (fun b => Some (ScStr.new b)) <$> defaultStrings)) [] 4 0 [].

Definition getCapacity (s : StrSection) : Z := zlen (strings s).

Definition getBytesUsed {Σ} (sync : option (StrSynchronizer Σ)) (s : StrSection)
    : outcome (StrSection * Z) :=
  let* s := syncStringsToBytes sync s in Ret (s, zlen (stringBytes s)).

Section ops.
Context {Σ : Type} (sync : StrSynchronizer Σ).

Definition setCapacity (s : StrSection) (σ : Σ) (stringCapacity : Z) (autoDefragment : bool)
    : outcome (StrSection * Σ) :=
  let* r := StringTable.setCapacity sync Scope.Game 1 (strings s) σ stringCapacity autoDefragment in
  Ret (setStrings s r.1, r.2).
Definition addString (s : StrSection) (σ : Σ) (str : bytes) (autoDefragment : bool)
    : outcome (StrSection * Σ * Z) :=
  let* r := StringTable.addString sync Scope.Game 1 (strings s) σ str autoDefragment in
  let '(strings, σ, stringId) := r in Ret (setStrings s strings, σ, stringId).
Definition replaceString (s : StrSection) (stringId : Z) (str : bytes) : outcome StrSection :=
  let* r := StringTable.replaceString (strings s) stringId str in Ret (setStrings s r).
Definition deleteUnusedStrings (s : StrSection) (σ : Σ) : outcome StrSection :=
  let* r := StringTable.deleteUnusedStrings sync Scope.Game (strings s) σ in Ret (setStrings s r).
(** The mask passed is [false]. *)
Definition deleteString (s : StrSection) (stringId : Z) (deleteOnlyIfUnused : bool) (σ : option Σ)
    : outcome (StrSection * bool) :=
  let* r := StringTable.deleteString sync Scope.Game 0 (strings s) stringId deleteOnlyIfUnused σ in
  Ret (setStrings s r.1, r.2).
Definition moveString (s : StrSection) (σ : Σ) (stringIdFrom stringIdTo : Z) : outcome (StrSection * Σ) :=
  let* r := StringTable.moveString sync Scope.Game (strings s) σ stringIdFrom stringIdTo in
  Ret (setStrings s r.1, r.2).
Definition defragment (s : StrSection) (σ : Σ) : outcome (StrSection * Σ * bool) :=
  let* r := StringTable.defragment sync Scope.Game (strings s) σ in
  let '(strings, σ, b) := r in Ret (setStrings s strings, σ, b).

(** The exceptions of the synchronizer are caught. *)
Definition checkFit (s : StrSection) : outcome (StrSection * bool) :=
  if zlen (strings s) >? MaxStrings then Ret (s, false)
  else match sync_syncStringsToBytes sync (strings s) (stringBytes s) with
       | Ret bs => Ret (setBytes s bs, true)
       | Throw _ => Ret (s, false)
       | Undef => Undef
       end.

Definition getTailDataOffset (s : StrSection) : outcome (StrSection * Z) :=
  let* bs := sync_syncStringsToBytes sync (strings s) (stringBytes s) in
  Ret (setBytes s bs, zlen bs).
End ops.

Definition stringStored (s : StrSection) (stringId : Z) : outcome bool :=
  StringTable.stringStored (strings s) stringId.
Definition unmarkUnstoredStrings (s : StrSection) (stringIdUsed : gset Z) : outcome (gset Z) :=
  StringTable.unmarkUnstoredStrings (strings s) stringIdUsed.
Definition getString (s : StrSection) (stringId : Z) : outcome (option bytes) :=
  StringTable.getString (strings s) stringId.
Definition findString (s : StrSection) (str : bytes) : outcome Z := StringTable.findString (strings s) str.
Definition setBytePaddedTo (s : StrSection) (bytePaddedTo : Z) : StrSection :=
  mkStrSection (strings s) (stringBytes s) bytePaddedTo (initialTailDataOffset s) (tailData s).

(** The section after [restore(backup)] and what is left in the backup. *)
Definition restore (s backup : StrSection) : StrSection * StrSection :=
  (backup, mkStrSection (strings s) (stringBytes s) (bytePaddedTo backup)
             (initialTailDataOffset backup) (tailData s)).

Definition padding (s : StrSection) (n : Z) : Z :=
  if ((bytePaddedTo s =? 2) || (bytePaddedTo s =? 4)) && negb (n mod bytePaddedTo s =? 0)
  then bytePaddedTo s - n mod bytePaddedTo s else 0.

Definition getSize {Σ} (sync : option (StrSynchronizer Σ)) (s : StrSection) : outcome (StrSection * Z) :=
  let* s := syncStringsToBytes sync s in
  let totalSize := zlen (stringBytes s) in
  let totalSize := if zlen (tailData s) >? 0
                   then totalSize + padding s totalSize + zlen (tailData s) else totalSize in
  if totalSize <=? 2 ^ 31 - 1 then Ret (s, totalSize) else Throw MaxSectionSizeExceeded.

Definition read (sizeInBytes : Z) (ist : istream) (overriding : bool) (s : StrSection)
    : outcome (StrSection * Z * istream) :=
  if sizeInBytes <? 0 then Throw NegativeSectionSize
  else
    let readSize := sizeInBytes in
    if readSize >? 0 then
      let s := if overriding && (zlen (tailData s) >? 0)
               then mkStrSection (strings s) (stringBytes s ++ tailData s) 4 0 [] else s in
      let bs := stringBytes s in
      let* bs := if readSize >? zlen bs then vinsertn bs (zlen bs) (readSize - zlen bs) 0
                 else if negb overriding && (readSize <? zlen bs) then verase_range bs readSize (zlen bs)
                 else Ret bs in
      let bs := replicate (Z.to_nat readSize) 0 ++ drop (Z.to_nat readSize) bs in
      let '(got, ist') := istream_read ist sizeInBytes in
      let* bs := store bs got in
      let* s := syncBytesToStrings (setBytes s bs) in
      Ret (s, zlen got, ist')
    else if negb overriding then Ret (mkStrSection [] [] 4 0 [], 0, ist)
    else Ret (s, 0, ist).

Definition write {Σ} (sync : option (StrSynchronizer Σ)) (s : StrSection) : outcome (StrSection * bytes) :=
  let* s := syncStringsToBytes sync s in
  let bs := stringBytes s in
  Ret (s, if zlen (tailData s) >? 0
          then bs ++ replicate (Z.to_nat (padding s (zlen bs))) 0 ++ tailData s else bs).
End StrSection.
