(* ===== verification/StrProps.v ===== *)
(** Properties of the string tables: the file format of STR, adding,
    deleting and finding strings, capacities, defragmenting and moving. *)
From S2P Require Import Prelude Codec ChkTypes ChkSection Accessors StringUsers Triggers StringTable StrSection.
Open Scope Z_scope.
Import StrSection.

(** ** The layout of STR *)

(** A string without NUL characters. *)
Definition nul_free (str : bytes) : Prop := 0 ∉ str.

Lemma allocate_plain str : nul_free str -> ScStr.allocate str = str ++ [0].
Proof.
  intros H. unfold ScStr.allocate. destruct (last str) as [c|] eqn:E; [|done].
  destruct (Z.eqb_spec c 0) as [->|]; [|done]. exfalso. apply H. by eapply last_Some_elem_of.
Qed.

Lemma cstr_plain str rest : nul_free str -> ScStr.cstr (str ++ 0 :: rest) = str.
Proof.
  unfold nul_free. induction str as [|c str IH]; intros H; [done|]. cbn.
  rewrite not_elem_of_cons in H. destruct H as [Hc H].
  destruct (Z.eqb_spec c 0); [congruence|]. by rewrite IH.
Qed.

Lemma find_nul str rest : nul_free str ->
  list_find (fun c => c = 0) (str ++ 0 :: rest) = Some (length str, 0).
Proof.
  intros H. apply list_find_Some. split_and!; [by rewrite list_lookup_middle | done|].
  intros j y Hj Hlt ->. apply H. rewrite lookup_app_l in Hj by done. by eapply list_elem_of_lookup_2.
Qed.

(** The word at a position. *)
Lemma write_word_at w a b c v : length b = w ->
  write_word w (a ++ b ++ c) (zlen a) v = Ret (a ++ le_enc w v ++ c).
Proof.
  intros Hb. unfold write_word. rewrite !zlen_app. unfold zlen.
  rewrite !(proj2 (Z.leb_le _ _)) by lia. cbn [andb]. rewrite Nat2Z.id.
  rewrite take_app_length. f_equal. f_equal. f_equal.
  rewrite app_assoc, drop_app_length' by (rewrite length_app; lia). done.
Qed.

Lemma read_word_at w a v c : is_u (8 * Z.of_nat w) v ->
  read_word w (a ++ le_enc w v ++ c) (zlen a) = Ret v.
Proof.
  intros Hv. unfold read_word. rewrite !zlen_app. unfold zlen. rewrite le_enc_length.
  rewrite !(proj2 (Z.leb_le _ _)) by lia. cbn [andb]. rewrite Nat2Z.id, drop_app_length.
  f_equal. by apply le_dec_enc.
Qed.

(** Offsets and characters of a list of strings laid out from [pos] on. *)
Fixpoint offsets (nul pos : Z) (ss : table) : list Z :=
  match ss with
  | [] => []
  | None :: ss => nul :: offsets nul pos ss
  | Some s :: ss => u16 pos :: offsets nul (pos + zlen (ScStr.allocation s)) ss
  end.
Definition chars (ss : table) : bytes :=
  concat ((fun s => match s with Some s => ScStr.allocation s | None => [] end) <$> ss).
Definition words (l : list Z) : bytes := concat (le_enc 2 <$> l).

Lemma words_length l : length (words l) = (2 * length l)%nat.
Proof.
  induction l as [|v l IH]; [done|]. change (words (v :: l)) with (le_enc 2 v ++ words l).
  rewrite length_app, IH, le_enc_length. cbn. lia.
Qed.
Lemma offsets_length nul pos ss : length (offsets nul pos ss) = length ss.
Proof. revert pos. induction ss as [|[s|] ss IH]; intros pos; cbn; by rewrite ?IH. Qed.

Lemma lay_strings strings nul n i rest hdr tl :
  0 <= i -> drop (Z.to_nat i) strings = rest -> zlen rest = n - i -> zlen hdr = 2 * i ->
  for_each (layString strings nul) (range i n) (hdr ++ replicate (2 * length rest) 0 ++ tl) =
  Ret (hdr ++ words (offsets nul (2 * n + zlen tl) rest) ++ tl ++ chars rest).
Proof.
  revert i hdr tl. induction rest as [|s rest IH]; intros i hdr tl Hi Hd Hr Hh.
  - change (zlen (@nil (option ScStr.ScStr))) with 0 in Hr. rewrite range_empty by lia. cbn.
    by rewrite app_nil_r.
  - rewrite zlen_cons in Hr. pose proof (zlen_nonneg rest). rewrite range_cons by lia. cbn [for_each].
    assert (Hs : vget strings i = Ret s).
    { apply vget_Some; [done|]. rewrite <- (Nat.add_0_r (Z.to_nat i)), <- lookup_drop. by rewrite Hd. }
    assert (Hd' : drop (Z.to_nat (i + 1)) strings = rest).
    { replace (Z.to_nat (i + 1)) with (Z.to_nat i + 1)%nat by lia. rewrite <- drop_drop. by rewrite Hd. }
    unfold layString at 1. rewrite Hs. cbn [obind].
    replace (2 * length (s :: rest))%nat with (2 + 2 * length rest)%nat by (cbn; lia).
    rewrite replicate_add, <- (app_assoc (replicate 2 0)). rewrite <- Hh.
    assert (Hlen : zlen (hdr ++ replicate 2 0 ++ replicate (2 * length rest) 0 ++ tl) = 2 * n + zlen tl).
    { rewrite !zlen_app. unfold zlen in *. rewrite !length_replicate. lia. }
    destruct s as [s|].
    + rewrite Hlen, write_word_at by done. cbn [obind].
      rewrite <- !app_assoc, (app_assoc hdr).
      rewrite IH; [| lia | done | lia | rewrite zlen_app; unfold zlen; rewrite le_enc_length; unfold zlen in Hh; lia].
      cbn [offsets]. unfold words, chars. cbn [fmap list_fmap concat].
      rewrite zlen_app, <- !app_assoc, Z.add_assoc. done.
    + rewrite write_word_at by done. cbn [obind]. rewrite (app_assoc hdr).
      rewrite IH; [| lia | done | lia | rewrite zlen_app; unfold zlen; rewrite le_enc_length; unfold zlen in Hh; lia].
      cbn [offsets]. unfold words, chars. cbn [fmap list_fmap concat]. by rewrite <- !app_assoc.
Qed.

(** The length of a table's strings, terminators not counted. *)
Definition lengths (ss : table) : Z :=
  foldr (fun s acc => match s with Some s => ScStr.length s + acc | None => acc end) 0 ss.

Lemma total_length strings n i rest z : 0 <= i -> drop (Z.to_nat i) strings = rest -> zlen rest = n - i ->
  for_each (fun i sectionSize => let* s := vget strings i in
      Ret (match s with Some s => sectionSize + ScStr.length s | None => sectionSize end)) (range i n) z =
  Ret (z + lengths rest).
Proof.
  revert i z. induction rest as [|s rest IH]; intros i z Hi Hd Hr.
  - change (zlen (@nil (option ScStr.ScStr))) with 0 in Hr. rewrite range_empty by lia. cbn. f_equal. lia.
  - rewrite zlen_cons in Hr. pose proof (zlen_nonneg rest). rewrite range_cons by lia. cbn [for_each].
    assert (Hs : vget strings i = Ret s).
    { apply vget_Some; [done|]. rewrite <- (Nat.add_0_r (Z.to_nat i)), <- lookup_drop. by rewrite Hd. }
    rewrite Hs. cbn [obind]. rewrite IH; [| lia | | lia].
    + f_equal. destruct s; unfold lengths; cbn [foldr]; lia.
    + replace (Z.to_nat (i + 1)) with (Z.to_nat i + 1)%nat by lia. rewrite <- drop_drop. by rewrite Hd.
Qed.

(** What [syncStringsToBytes] computes, on every branch. *)
Lemma stringsToBytes_spec s0 ss : let n := zlen ss in
  stringsToBytes (s0 :: ss) =
  if n >? 32766 then Throw MaximumStringsExceeded
  else if 2 + 2 * n + 1 + lengths ss >? 65535 then Throw MaximumCharactersExceeded
  else Ret (le_enc 2 n ++ words (offsets (2 + 2 * n) (2 + 2 * n + 1) ss) ++ [0] ++ chars ss).
Proof.
  intros n. unfold stringsToBytes, numStringsOf. rewrite zlen_cons.
  pose proof (zlen_nonneg ss). fold n in H |- *. rewrite (proj2 (Z.gtb_lt _ 0)) by lia.
  change ((65535 - 2) / 2) with 32766. replace (1 + n - 1) with n by lia.
  destruct (Z.gtb_spec n 32766) as [|Hn]; [done|]. unfold totalLength.
  rewrite (total_length _ _ _ ss) by (done || lia). cbn [obind].
  destruct (_ >? 65535); [done|].
  replace (Z.to_nat (2 + 2 * n)) with (2 + 2 * length ss)%nat by (unfold n, zlen; lia).
  rewrite replicate_add.
  assert (Hw : forall v, write_word 2 (replicate 2 0 ++ replicate (2 * length ss) 0) 0 v =
    Ret (le_enc 2 v ++ replicate (2 * length ss) 0)).
  { intros v. exact (write_word_at 2 [] (replicate 2 0) (replicate (2 * length ss) 0) v eq_refl). }
  rewrite Hw. cbn [obind].
  rewrite zlen_app. unfold zlen at 1 2. rewrite le_enc_length, length_replicate.
  rewrite !u16_id by (unfold is_u, n, zlen in *; lia).
  rewrite <- app_assoc. rewrite (lay_strings _ _ _ _ ss); [| lia | done | lia | done].
  change (zlen [0]) with 1. repeat f_equal; unfold n, zlen; lia.
Qed.

(** ** Reading STR back *)

(** Strings without NUL characters and without properties. *)
Definition plain (ss : list (option bytes)) : table := (fun o => option_map ScStr.new o) <$> ss.
(** What is read back: a string that was not stored becomes the empty one. *)
Definition loaded (ss : list (option bytes)) : table := (fun o => Some (ScStr.new (default [] o))) <$> ss.
Definition plain_ok (ss : list (option bytes)) : Prop := Forall (fun o => nul_free (default [] o)) ss.

Fixpoint lastChar (nul pos : Z) (ss : list (option bytes)) : Z :=
  match ss with
  | [] => 0
  | None :: ss => Z.max nul (lastChar nul pos ss)
  | Some s :: ss => Z.max (pos + zlen s) (lastChar nul (pos + zlen s + 1) ss)
  end.

Lemma chars_plain_cons s ss : nul_free s -> chars (plain (Some s :: ss)) = s ++ 0 :: chars (plain ss).
Proof.
  intros Hs. unfold chars. cbn. rewrite allocate_plain by done. by rewrite <- app_assoc.
Qed.

Lemma allocation_zlen s : nul_free s -> zlen (ScStr.allocation (ScStr.new s)) = zlen s + 1.
Proof. intros Hs. cbn. by rewrite allocate_plain, zlen_app. Qed.

Lemma load_found bs s rest pos : nul_free s -> 0 <= pos -> pos < zlen bs ->
  drop (Z.to_nat pos) bs = s ++ 0 :: rest ->
  loadString bs pos (zlen bs) = (Some (ScStr.new s), pos + zlen s).
Proof.
  intros Hs Hp Hlt Hd. unfold loadString. rewrite (proj2 (Z.ltb_lt _ _)) by done.
  by rewrite Hd, find_nul, cstr_plain.
Qed.

Lemma load_strings bs nul n i pos rest tl acc m :
  0 <= nul < 65536 -> 0 <= i -> 0 <= pos -> 0 <= m -> plain_ok rest -> zlen rest = n - i ->
  (forall k o, offsets nul pos (plain rest) !! k = Some o -> read_word 2 bs (2 * (i + Z.of_nat k)) = Ret o) ->
  (exists r, drop (Z.to_nat nul) bs = 0 :: r) ->
  drop (Z.to_nat pos) bs = chars (plain rest) ++ tl -> zlen bs = pos + zlen (chars (plain rest)) + zlen tl ->
  pos + zlen (chars (plain rest)) <= 65536 ->
  for_each (loadStringAt bs) (range i n) (acc, m) = Ret (acc ++ loaded rest, Z.max m (lastChar nul pos rest)).
Proof.
  intros Hnul Hi Hpos Hm Hok Hr Hos (r0 & Hd0) Hd Hl Hmax.
  revert i pos acc m Hi Hpos Hm Hok Hr Hos Hd Hl Hmax.
  assert (Hn0 : nul < zlen bs).
  { apply (f_equal length) in Hd0. rewrite length_drop in Hd0. cbn in Hd0. unfold zlen. lia. }
  assert (Hmaxif : forall m l, (if l >? m then l else m) = Z.max m l)
    by (intros m l; destruct (Z.gtb_spec l m); lia).
  induction rest as [|o rest IH]; intros i pos acc m Hi Hpos Hm Hok Hr Hos Hd Hl Hmax.
  - change (zlen (@nil (option bytes))) with 0 in Hr. rewrite range_empty by lia. cbn.
    rewrite app_nil_r. f_equal. f_equal. lia.
  - rewrite zlen_cons in Hr. pose proof (zlen_nonneg rest). rewrite range_cons by lia. cbn [for_each].
    apply Forall_cons in Hok as [Ho Hok].
    assert (Hstep : forall k v, offsets nul (match o with Some s => pos + zlen s + 1 | None => pos end)
        (plain rest) !! k = Some v -> read_word 2 bs (2 * (i + 1 + Z.of_nat k)) = Ret v).
    { intros k v Hk. replace (i + 1 + Z.of_nat k) with (i + Z.of_nat (S k)) by lia. apply Hos.
      destruct o as [s|]; [|done]. cbn [plain fmap list_fmap option_map offsets lookup].
      cbn [default] in Ho. rewrite allocation_zlen by done. by rewrite Z.add_assoc. }
    unfold loadStringAt at 1. destruct o as [s|]; cbn [default] in Ho.
    + rewrite chars_plain_cons in Hd, Hl, Hmax by done. rewrite zlen_app, zlen_cons in Hl, Hmax.
      rewrite <- app_assoc in Hd. cbn [app] in Hd.
      pose proof (zlen_nonneg s). pose proof (zlen_nonneg (chars (plain rest))). pose proof (zlen_nonneg tl).
      replace (2 * i) with (2 * (i + Z.of_nat 0)) by lia. rewrite (Hos 0%nat (u16 pos)) by done.
      cbn [obind]. rewrite u16_id by (unfold is_u; lia).
      rewrite (load_found bs s (chars (plain rest) ++ tl)) by (done || lia). cbn [fst snd].
      cbn [obind]. rewrite Hmaxif, (IH (i + 1) (pos + zlen s + 1)); [| lia | lia | lia | done | lia | done | | lia | lia].
      * cbn [loaded fmap list_fmap default lastChar]. rewrite <- app_assoc. cbn [app].
        f_equal. f_equal. lia.
      * replace (Z.to_nat (pos + zlen s + 1)) with (Z.to_nat pos + (length s + 1))%nat by (unfold zlen; lia).
        rewrite <- drop_drop, Hd, cons_middle, app_assoc, drop_app_length' by (rewrite length_app; cbn; lia).
        done.
    + replace (2 * i) with (2 * (i + Z.of_nat 0)) by lia. rewrite (Hos 0%nat nul) by done. cbn [obind].
      rewrite (load_found bs [] r0) by (done || lia || apply not_elem_of_nil). cbn [fst snd obind].
      change (zlen (@nil Z)) with 0. rewrite Z.add_0_r.
      rewrite Hmaxif, (IH (i + 1) pos) by (done || lia).
      cbn [loaded fmap list_fmap default lastChar]. rewrite <- app_assoc. cbn [app].
      f_equal. f_equal. lia.
Qed.

Lemma lastChar_spec nul pos rest : 0 <= nul < pos -> plain_ok rest ->
  lastChar nul pos rest =
  if decide (chars (plain rest) = []) then (if decide (rest = []) then 0 else nul)
  else pos + zlen (chars (plain rest)) - 1.
Proof.
  intros Hn Hok. revert pos Hn. induction rest as [|[s|] rest IH]; intros pos Hn; [done| |].
  - apply Forall_cons in Hok as [Hs Hok]. cbn [default] in Hs. rewrite chars_plain_cons by done.
    pose proof (zlen_nonneg s). rewrite decide_False by (by destruct s). cbn [lastChar].
    rewrite IH by (done || lia). rewrite zlen_app, zlen_cons.
    destruct (decide (chars (plain rest) = [])) as [->|]; [|pose proof (zlen_nonneg (chars (plain rest))); lia].
    change (zlen (@nil Z)) with 0. destruct (decide _); lia.
  - apply Forall_cons in Hok as [_ Hok]. cbn [lastChar]. rewrite IH by (done || lia).
    change (chars (plain (None :: rest))) with (chars (plain rest)).
    destruct (decide (chars (plain rest) = [])) as [|Hne];
      [rewrite (decide_False (P := None :: rest = [])) by done; destruct (decide (rest = [])); lia|].
    assert (0 < zlen (chars (plain rest))) 
      by (destruct (chars (plain rest)) as [|c cs]; [done | rewrite zlen_cons; pose proof (zlen_nonneg cs); lia]).
    lia.
Qed.

Lemma lengths_plain ss : plain_ok ss -> 0 <= lengths (plain ss) <= zlen (chars (plain ss)) /\
  (lengths (plain ss) = zlen (chars (plain ss)) -> chars (plain ss) = []).
Proof.
  induction ss as [|[s|] ss IH]; intros Hok; [split; [unfold lengths, zlen; cbn; lia | done]| |];
    apply Forall_cons in Hok as [Hs Hok]; destruct (IH Hok) as [H1 H2].
  - rewrite chars_plain_cons, zlen_app, zlen_cons by done.
    change (lengths (plain (Some s :: ss))) with (ScStr.length (ScStr.new s) + lengths (plain ss)).
    unfold ScStr.length. cbn [default] in Hs. rewrite allocation_zlen by done. pose proof (zlen_nonneg s).
    rewrite (proj2 (Z.gtb_lt _ 0)) by lia. split; lia.
  - exact (conj H1 H2).
Qed.

(** The bytes of a STR section: header, offsets, the initial NUL and the
    strings. *)
Definition str_size (ss : list (option bytes)) : Z := 2 + 2 * zlen ss + 1 + zlen (chars (plain ss)).

Lemma words_lookup hdr os tl k o : zlen hdr = 2 -> os !! k = Some o -> is_u 16 o ->
  read_word 2 (hdr ++ words os ++ tl) (2 * (1 + Z.of_nat k)) = Ret o.
Proof.
  intros Hh Hk Ho. rewrite <- (take_drop_middle os k o Hk).
  assert (Hw : words (take k os ++ o :: drop (S k) os) = words (take k os) ++ le_enc 2 o ++ words (drop (S k) os)).
  { unfold words. rewrite fmap_app, concat_app. done. }
  rewrite Hw, <- !app_assoc, (app_assoc hdr).
  replace (2 * (1 + Z.of_nat k)) with (zlen (hdr ++ words (take k os))); [by apply read_word_at|].
  apply lookup_lt_Some in Hk. rewrite zlen_app. unfold zlen in *.
  rewrite words_length, length_take. lia.
Qed.

Lemma offsets_u16 nul pos ss : is_u 16 nul -> Forall (is_u 16) (offsets nul pos ss).
Proof.
  intros Hn. revert pos. induction ss as [|[s|] ss IH]; intros pos; cbn; constructor; auto using u16_range.
Qed.

(** The bytes the strings are written to. *)
Definition str_bytes (ss : list (option bytes)) : bytes :=
  le_enc 2 (zlen ss) ++ words (offsets (2 + 2 * zlen ss) (2 + 2 * zlen ss + 1) (plain ss)) ++
  [0] ++ chars (plain ss).

Lemma str_bytes_zlen ss : zlen (str_bytes ss) = str_size ss.
Proof.
  unfold str_bytes, str_size. rewrite !zlen_app. change (zlen [0]) with 1. unfold zlen.
  rewrite le_enc_length, words_length, offsets_length. unfold plain. rewrite length_fmap. lia.
Qed.

Lemma str_bytes_written s0 ss : plain_ok ss -> str_size ss <= 65536 ->
  stringsToBytes (s0 :: plain ss) = Ret (str_bytes ss).
Proof.
  intros Hok Hsz. unfold str_size in *. assert (Hnn : zlen (plain ss) = zlen ss)
    by (unfold zlen, plain; by rewrite length_fmap).
  destruct (lengths_plain ss Hok) as [Hlen Heq]. pose proof (zlen_nonneg ss).
  rewrite stringsToBytes_spec, Hnn. destruct (Z.gtb_spec (zlen ss) 32766); [lia|].
  destruct (Z.gtb_spec (2 + 2 * zlen ss + 1 + lengths (plain ss)) 65535) as [Hgt|_]; [|done].
  destruct (decide (lengths (plain ss) = zlen (chars (plain ss)))) as [E|]; [|lia].
  specialize (Heq E). rewrite Heq in Hsz, E. change (zlen (@nil Z)) with 0 in *. lia.
Qed.

Lemma str_bytes_read ss tl s : plain_ok ss -> ss <> [] -> str_size ss <= 65536 ->
  syncBytesToStrings (setBytes s (str_bytes ss ++ tl)) =
  Ret (if decide (tl = []) then mkStrSection (None :: loaded ss) (str_bytes ss) 4 0 []
       else mkStrSection (None :: loaded ss) (str_bytes ss) 0 (str_size ss) tl).
Proof.
  intros Hok Hne Hsz. assert (Hl := str_bytes_zlen ss). pose proof (zlen_nonneg tl).
  assert (Hpos : 0 < zlen ss) by (destruct ss as [|o ss]; [done | rewrite zlen_cons; pose proof (zlen_nonneg ss); lia]).
  pose proof (zlen_nonneg (chars (plain ss))) as Hcn.
  assert (Hmin : zlen ss <= (str_size ss + zlen tl) / 2 - 1)
    by (unfold str_size; apply Z.le_add_le_sub_r, Z.div_le_lower_bound; lia).
  assert (Hl' : zlen (str_bytes ss ++ tl) = str_size ss + zlen tl) by (rewrite zlen_app; lia).
  set (os := offsets (2 + 2 * zlen ss) (2 + 2 * zlen ss + 1) (plain ss)).
  assert (Hos : length os = length ss) by (unfold os; rewrite offsets_length; unfold plain; apply length_fmap).
  assert (Hhdr : zlen (le_enc 2 (zlen ss)) = 2) by (unfold zlen; by rewrite le_enc_length).
  set (bs := str_bytes ss ++ tl).
  assert (Hbs : bs = le_enc 2 (zlen ss) ++ words os ++ [0] ++ chars (plain ss) ++ tl)
    by (unfold bs, str_bytes; by rewrite <- !app_assoc).
  unfold syncBytesToStrings. cbn [setBytes stringBytes]. unfold rawNumStringsOf. fold bs in Hl' |- *.
  rewrite Hl'. rewrite (proj2 (Z.geb_le _ 2)) by (unfold str_size in *; lia).
  assert (Hraw : read_word 2 bs 0 = Ret (zlen ss)).
  { rewrite Hbs. apply (read_word_at 2 [] (zlen ss)). change (8 * Z.of_nat 2) with 16.
    unfold is_u, str_size in *. lia. }
  rewrite Hraw. cbn [obind]. rewrite (proj2 (Z.ltb_ge _ 4)) by (unfold str_size in *; lia).
  rewrite Z.min_l by done.
  rewrite (load_strings bs (2 + 2 * zlen ss) _ 1 (2 + 2 * zlen ss + 1) ss tl);
    [| unfold str_size in *; lia .. | done | lia | | | | unfold str_size in *; lia | unfold str_size in *; lia].
  - cbn [obind]. rewrite Z.ltb_irrefl. cbn [obind].
    rewrite lastChar_spec by (done || lia). rewrite (decide_False (P := ss = [])) by done.
    assert (Hend : Z.max (2 + 2 * zlen ss) (Z.max 0 (if decide (chars (plain ss) = []) then 2 + 2 * zlen ss
      else 2 + 2 * zlen ss + 1 + zlen (chars (plain ss)) - 1) + 1) = str_size ss).
    { unfold str_size. destruct (decide (chars (plain ss) = [])) as [->|]; [change (zlen (@nil Z)) with 0|]; lia. }
    rewrite Hend. destruct (decide (tl = [])) as [->|Htl].
    + change (zlen (@nil Z)) with 0. rewrite Z.add_0_r, Z.ltb_irrefl. unfold bs. by rewrite app_nil_r.
    + rewrite (proj2 (Z.ltb_lt _ _)) by (destruct tl as [|c tl]; [done | rewrite zlen_cons; pose proof (zlen_nonneg tl); lia]).
      assert (Hn : Z.to_nat (str_size ss) = length (str_bytes ss)) by (unfold zlen in Hl; lia).
      unfold bs. by rewrite Hn, take_app_length, drop_app_length.
  - intros k o Hk. rewrite Hbs. apply words_lookup; [done..|].
    assert (Hu : Forall (is_u 16) os) by (apply offsets_u16; unfold is_u, str_size in *; lia).
    by apply (proj1 (Forall_lookup _ _) Hu k).
  - exists (chars (plain ss) ++ tl). rewrite Hbs, app_assoc, drop_app_length'; [done|].
    rewrite length_app, le_enc_length, words_length, Hos. unfold zlen. lia.
  - rewrite Hbs, !app_assoc. rewrite <- (app_assoc _ (chars (plain ss)) tl), drop_app_length'; [done|].
    rewrite !length_app, le_enc_length, words_length, Hos. cbn [length]. unfold zlen. lia.
Qed.

(** ** The section in the file *)

Lemma read_replaces n (t : StrSection) ist got ist' : 0 < n -> istream_read ist n = (got, ist') ->
  zlen got = n ->
  read n ist false t =
  let* s := syncBytesToStrings (setBytes t got) in Ret (s, n, ist').
Proof.
  intros Hn Hr Hg. unfold read. rewrite (proj2 (Z.ltb_ge n 0)), (proj2 (Z.gtb_lt n 0)) by lia. cbn [andb negb].
  set (bs0 := stringBytes t). pose proof (zlen_nonneg bs0).
  assert (Hsize : exists bs1, (if n >? zlen bs0 then vinsertn bs0 (zlen bs0) (n - zlen bs0) 0
    else if n <? zlen bs0 then verase_range bs0 n (zlen bs0) else Ret bs0) = Ret bs1 /\ zlen bs1 = n).
  { destruct (Z.gtb_spec n (zlen bs0)); [|destruct (Z.ltb_spec n (zlen bs0))].
    - unfold vinsertn. rewrite !(proj2 (Z.leb_le _ _)) by lia. cbn [andb].
      eexists. split; [done|]. rewrite !zlen_app. unfold zlen in *.
      rewrite length_take, length_drop, length_replicate. lia.
    - unfold verase_range. rewrite !(proj2 (Z.leb_le _ _)) by lia. cbn [andb].
      eexists. split; [done|]. rewrite zlen_app. unfold zlen in *. rewrite length_take, length_drop. lia.
    - eexists. split; [done | lia]. }
  destruct Hsize as (bs1 & -> & Hlen). cbn [obind]. rewrite Hr.
  rewrite (drop_ge bs1) by (unfold zlen in Hlen; lia). rewrite app_nil_r.
  unfold store. rewrite length_replicate. rewrite (proj2 (Nat.leb_le _ _)) by (unfold zlen in Hg; lia).
  rewrite drop_ge, app_nil_r by (rewrite length_replicate; unfold zlen in Hg; lia). cbn [obind]. by rewrite Hg.
Qed.

Lemma str_written {Σ} (s : StrSection) (s0 : option ScStr.ScStr) (ss : list (option bytes)) :
  strings s = s0 :: plain ss -> plain_ok ss -> str_size ss <= 65536 ->
  (tailData s <> [] -> bytePaddedTo s = 0) ->
  write (Σ := Σ) None s = Ret (setBytes s (str_bytes ss), str_bytes ss ++ tailData s).
Proof.
  intros Hs Hok Hsz Hpad.
  unfold write, syncStringsToBytes. rewrite Hs, str_bytes_written by done. cbn [obind setBytes stringBytes tailData].
  change (tailData (setBytes s (str_bytes ss))) with (tailData s).
  change (stringBytes (setBytes s (str_bytes ss))) with (str_bytes ss).
  destruct (decide (tailData s = [])) as [E|Hn].
  - rewrite E. change (zlen (@nil Z) >? 0) with false. by rewrite !app_nil_r.
  - rewrite (proj2 (Z.gtb_lt _ 0)) by (destruct (tailData s) as [|c l]; [done | rewrite zlen_cons; pose proof (zlen_nonneg l); lia]).
    unfold padding. change (bytePaddedTo (setBytes s (str_bytes ss))) with (bytePaddedTo s).
    by rewrite Hpad.
Qed.

Lemma str_read_back (t : StrSection) (ss : list (option bytes)) (tail rest : bytes) :
  plain_ok ss -> ss <> [] -> str_size ss <= 65536 ->
  let out := str_bytes ss ++ tail in
  read (zlen out) (mkIstream (out ++ rest) true) false t =
    Ret (mkStrSection (None :: loaded ss) (str_bytes ss) (if decide (tail = []) then 4 else 0)
           (if decide (tail = []) then 0 else str_size ss) tail,
         zlen out, mkIstream rest true).
Proof.
  intros Hok Hne Hsz out.
  assert (Hpos : 0 < zlen out).
  { unfold out. rewrite zlen_app, str_bytes_zlen. unfold str_size.
    pose proof (zlen_nonneg ss). pose proof (zlen_nonneg (chars (plain ss))). pose proof (zlen_nonneg tail). lia. }
  rewrite (read_replaces (zlen out) t _ out (mkIstream rest true))
    by (done || apply istream_read_app).
  unfold out. rewrite str_bytes_read by done. cbn [obind]. by destruct (decide (tail = [])) as [->|].
Qed.

(** C2: STR round trip.  A table with some id besides 0, whose strings hold no NUL
    character and whose section, the offsets and the terminators included, has at
    most 65536 bytes, so that each offset fits its two bytes, is written without
    an exception and read back: every string under its id, with the data that
    follows the strings; an id without a string reads back as the empty string.  A
    section with such data must not ask for padding. *)
Theorem str_roundtrip {Σ} (s t : StrSection) (s0 : option ScStr.ScStr) (ss : list (option bytes)) (rest : bytes) :
  strings s = s0 :: plain ss -> plain_ok ss -> ss <> [] -> str_size ss <= 65536 ->
  (tailData s <> [] -> bytePaddedTo s = 0) ->
  let out := str_bytes ss ++ tailData s in
  write (Σ := Σ) None s = Ret (setBytes s (str_bytes ss), out) /\
  read (zlen out) (mkIstream (out ++ rest) true) false t =
    Ret (mkStrSection (None :: loaded ss) (str_bytes ss) (if decide (tailData s = []) then 4 else 0)
           (if decide (tailData s = []) then 0 else str_size ss) (tailData s),
         zlen out, mkIstream rest true).
Proof.
  intros Hs Hok Hne Hsz Hpad out. split; [by apply (str_written s s0)|by apply str_read_back].
Qed.

Lemma str_roundtrip_witness :
  write (Σ := unit) None (mkStrSection [None; Some (ScStr.new [72;105]); None] [] 4 0 []) =
    Ret (mkStrSection [None; Some (ScStr.new [72;105]); None] [2;0;7;0;6;0;0;72;105;0] 4 0 [],
         [2;0;7;0;6;0;0;72;105;0]) /\
  read 10 (mkIstream [2;0;7;0;6;0;0;72;105;0;99] true) false (GetDefault false) =
    Ret (mkStrSection [None; Some (ScStr.new [72;105]); Some (ScStr.new [])] [2;0;7;0;6;0;0;72;105;0] 4 0 [],
         10, mkIstream [99] true).
Proof.
  refine (str_roundtrip (Σ := unit) (mkStrSection [None; Some (ScStr.new [72;105]); None] [] 4 0 [])
    (GetDefault false) None [Some [72;105]; None] [99] eq_refl _ _ _ _).
  - repeat constructor; apply (bool_decide_eq_true_1 _); reflexivity.
  - done.
  - by vm_compute.
  - done.
Defined.

(** *** The size check leaves out the terminators *)

Lemma empty_offsets nul pos n k : (k < n)%nat ->
  offsets nul pos (plain (replicate n (Some []))) !! k = Some (u16 (pos + Z.of_nat k)).
Proof.
  revert pos k. induction n as [|n IH]; intros pos k Hk; [lia|]. cbn [replicate plain fmap list_fmap option_map offsets].
  destruct k as [|k]; cbn [lookup list_lookup].
  - f_equal. f_equal. lia.
  - change (zlen (ScStr.allocation (ScStr.new []))) with 1. rewrite IH by lia. f_equal. f_equal. lia.
Qed.

Lemma empty_chars n : chars (plain (replicate n (Some []))) = replicate n 0 /\
  lengths (plain (replicate n (Some []))) = 0.
Proof.
  induction n as [|n [IH1 IH2]]; [done|]. split.
  - change (chars (plain (replicate (S n) (Some [])))) with ([0] ++ chars (plain (replicate n (Some [])))).
    by rewrite IH1.
  - change (lengths (plain (replicate n (Some []))) = 0). exact IH2.
Qed.

(** C29: the check against 65535 bytes counts neither the terminators nor what
    they do to the offsets: [n] empty strings pass it up to [n = 32766],
    where the section has 98301 bytes and the offset of string [k] is stored
    modulo 65536, which is not where the string is. *)
Theorem str_offsets_wrap (n k : Z) : 1 <= k <= n -> n <= 32766 ->
  exists bs, stringsToBytes (None :: plain (replicate (Z.to_nat n) (Some []))) = Ret bs /\
    zlen bs = 3 + 3 * n /\
    read_word 2 bs (2 * k) = Ret ((2 + 2 * n + k) mod 65536) /\
    bs !! Z.to_nat (2 + 2 * n + k) = Some 0.
Proof.
  intros Hk Hn. destruct (empty_chars (Z.to_nat n)) as [Hc Hlen].
  set (ss := replicate (Z.to_nat n) (Some [] : option bytes)) in *.
  assert (Hp : zlen (plain ss) = n)
    by (unfold plain, zlen; rewrite length_fmap; unfold ss; rewrite length_replicate; lia).
  rewrite stringsToBytes_spec, Hp, Hlen.
  destruct (Z.gtb_spec n 32766); [lia|]. destruct (Z.gtb_spec (2 + 2 * n + 1 + 0) 65535); [lia|].
  set (os := offsets _ _ _). eexists. split; [done|].
  assert (Hos : length os = Z.to_nat n) by (unfold os; rewrite offsets_length; unfold zlen in Hp; lia).
  assert (Hh : zlen (le_enc 2 n) = 2) by (unfold zlen; by rewrite le_enc_length).
  split; [|split].
  - rewrite Hc, !zlen_app. change (zlen [0]) with 1. unfold zlen.
    rewrite le_enc_length, words_length, Hos, length_replicate. lia.
  - replace (2 * k) with (2 * (1 + Z.of_nat (Z.to_nat (k - 1)))) by lia. apply words_lookup; [done | |].
    + unfold os, ss. rewrite empty_offsets by lia. f_equal. unfold u16. f_equal. lia.
    + apply (u16_range (2 + 2 * n + k)).
  - rewrite Hc. change ([0] ++ replicate (Z.to_nat n) 0) with (replicate (S (Z.to_nat n)) 0).
    rewrite app_assoc, lookup_app_r; rewrite length_app, le_enc_length, words_length, Hos; [|lia].
    apply lookup_replicate_2. lia.
Qed.

Lemma str_offsets_wrap_witness :
  exists bs, stringsToBytes (None :: plain (replicate (Z.to_nat 32766) (Some []))) = Ret bs /\
    read_word 2 bs 4 = Ret 0 /\ bs !! Z.to_nat 65536 = Some 0.
Proof.
  destruct (str_offsets_wrap 32766 2) as (bs & Hs & _ & Hr & Hb); [lia | lia |].
  exists bs. split; [exact Hs|]. split; [exact Hr | exact Hb].
Defined.
