(* ===== verification/TableProps.v ===== *)
(** Properties of the operations STR and KSTR share, proved against what a
    [StrSynchronizer] promises: finding, adding and deleting strings, the
    capacity, defragmenting and moving. *)
From S2P Require Import Prelude Codec ChkTypes ChkSection Accessors StringUsers Triggers StringTable StrSection.
Open Scope Z_scope.

(** ** What a synchronizer promises *)

(** [used σ] is the set of ids in use: marking yields it, and marking the
    valid ones leaves out the ids without a string. *)
Class StrSynchronizerLaws {Σ} (storage : Z) (sync : StrSynchronizer Σ) (wf : Σ -> Prop)
    (used : Σ -> gset Z) : Prop := {
  sync_ids : forall σ i, wf σ -> i ∈ used σ -> 0 < i < MaxStrings;
  sync_mark : forall σ, wf σ -> sync_markUsedStrings sync σ Scope.Either storage ∅ = Ret (used σ);
  sync_markValid : forall σ strings, wf σ ->
    sync_markValidUsedStrings sync σ strings Scope.Either storage ∅ =
    unmarkUnstoredStrings strings (used σ)
}.

(** A string under an id. *)
Definition stored (strings : table) (i : Z) : Prop := exists s, vget strings i = Ret (Some s).

Lemma stored_bounds strings i : stored strings i -> 0 <= i < zlen strings.
Proof.
  intros (s & Hs). unfold vget in Hs. destruct (Z.ltb_spec i 0); [done|].
  destruct (strings !! Z.to_nat i) eqn:E; [|done]. apply lookup_lt_Some in E. unfold zlen. lia.
Qed.

(** ** Unmarking *)

(** A loop that clears the bits that satisfy [q]. *)
Lemma clear_loop (body : Z -> gset Z -> outcome (gset Z)) (q : Z -> bool) lo hi U :
  (forall i used, lo <= i < hi ->
     body i used = Ret (if bool_decide (i ∈ used) && q i then bs_clear used i else used)) ->
  exists V, for_each body (range lo hi) U = Ret V /\
    forall x, x ∈ V <-> x ∈ U /\ ~ (lo <= x < hi /\ q x = true).
Proof.
  intros Hb. revert U. revert lo Hb. apply (range_ind hi (fun lo => _ -> forall U, _)).
  - intros lo Hlo _ U. rewrite range_empty by done. exists U. split; [done|]. intros x.
    split; [intros Hx; split; [done | intros [? _]; lia] | tauto].
  - intros lo Hlo IH Hb U. rewrite range_cons by done. cbn. rewrite Hb by lia. cbn [obind].
    destruct (IH ltac:(intros; apply Hb; lia) (if bool_decide (lo ∈ U) && q lo then bs_clear U lo else U))
      as (V & HV & Hs).
    exists V. split; [exact HV|]. intros x. rewrite Hs. unfold bs_clear.
    destruct (decide (x = lo)) as [->|Hne].
    + assert (lo + 1 <= lo < hi <-> False) as -> by lia. assert (lo <= lo < hi <-> True) as -> by lia.
      destruct (bool_decide_reflect (lo ∈ U)), (q lo) eqn:Hq; cbn [andb];
        rewrite ?elem_of_difference, ?elem_of_singleton; intuition congruence.
    + assert (lo + 1 <= x < hi <-> lo <= x < hi) as -> by lia.
      destruct (bool_decide (lo ∈ U) && q lo); rewrite ?elem_of_difference, ?elem_of_singleton; tauto.
Qed.

Lemma unmark_spec strings U : (forall i, i ∈ U -> 0 < i < MaxStrings) ->
  exists V, unmarkUnstoredStrings strings U = Ret V /\ forall i, i ∈ V <-> i ∈ U /\ stored strings i.
Proof.
  intros HU. unfold unmarkUnstoredStrings. set (limit := Z.min MaxStrings (zlen strings)).
  destruct (clear_loop (fun stringId used => let* s := vget strings stringId in
      Ret (if bool_decide (stringId ∈ used) && bool_decide (s = None) then bs_clear used stringId else used))
    (fun i => match vget strings i with Ret None => true | _ => false end) 1 limit U) as (V & HV & Hs).
  { intros i used Hi. destruct (vget_in strings i) as (s & _ & ->); [lia|]. cbn [obind]. by destruct s. }
  rewrite HV. cbn [obind].
  destruct (clear_loop (fun stringId used =>
      Ret (if bool_decide (stringId ∈ used) then bs_clear used stringId else used)) (fun _ => true)
    (Z.max 1 limit) MaxStrings V) as (W & HW & Hs').
  { intros i used _. by rewrite andb_true_r. }
  exists W. split; [exact HW|]. intros i. rewrite Hs', Hs. split.
  - intros [[Hi Hn] Hlim]. split; [done|]. specialize (HU i Hi).
    assert (Hlt : i < zlen strings) by lia.
    destruct (vget_in strings i) as (s & _ & Hg); [lia|]. destruct s as [s|]; [by exists s|].
    exfalso. apply Hn. rewrite Hg. split; [lia | done].
  - intros [Hi Hst]. specialize (HU i Hi). assert (Hb := stored_bounds _ _ Hst). destruct Hst as (s & Hg).
    split; [split; [done|]|]; [rewrite Hg; intros [_ ?]; done | lia].
Qed.

(** ** Characters *)

Lemma cstr_snoc str : ScStr.cstr (str ++ [0]) = ScStr.cstr str.
Proof. induction str as [|c str IH]; [done|]. cbn. by rewrite IH. Qed.

Lemma cstr_allocate str : ScStr.cstr (ScStr.allocate str) = ScStr.cstr str.
Proof. unfold ScStr.allocate. destruct (match last str with None => _ | Some _ => _ end); [apply cstr_snoc | done]. Qed.

Lemma compareEq_new str : ScStr.compareEq (ScStr.new str) str = true.
Proof. apply bool_decide_eq_true. cbn. by rewrite cstr_allocate, cstr_snoc. Qed.

(** ** Finding and adding *)

Lemma findString_spec strings str : exists id, findString strings str = Ret id /\
  ((id = 0 /\ forall i s, 1 <= i -> vget strings i = Ret (Some s) -> ScStr.compareEq s str = false) \/
   (1 <= id < zlen strings /\ (exists s, vget strings id = Ret (Some s) /\ ScStr.compareEq s str = true) /\
    forall i s, 1 <= i < id -> vget strings i = Ret (Some s) -> ScStr.compareEq s str = false)).
Proof.
  unfold findString.
  destruct (first_such_vget strings (fun _ s => match s with Some s => ScStr.compareEq s str | None => false end)
    (zlen strings) 1 eq_refl) as (o & Ho & Hs); [lia|].
  rewrite Ho. cbn [obind]. eexists. split; [done|]. destruct o as [i|]; cbn [default].
  - right. destruct Hs as (Hi & (v & Hv & Hq) & Hbefore). split; [done|]. split.
    + destruct v as [s|]; [by exists s | done].
    + intros j s Hj Hg. exact (Hbefore j (Some s) Hj Hg).
  - left. split; [done|]. intros j s Hj Hg. apply (Hs j (Some s)); [|done].
    assert (Hb : stored strings j) by (by exists s). apply stored_bounds in Hb. lia.
Qed.

Lemma countUsed_spec V : exists num highest, countUsed V = Ret (num, highest) /\
  0 <= num <= highest /\ (highest = 0 \/ (0 < highest < MaxStrings /\ highest ∈ V)) /\
  forall i, 0 < i < MaxStrings -> i ∈ V -> i <= highest.
Proof.
  unfold countUsed.
  enough (H : forall lo num highest, 1 <= lo -> lo <= MaxStrings ->
    0 <= num <= highest -> highest < lo -> (highest = 0 \/ (0 < highest < MaxStrings /\ highest ∈ V)) ->
    (forall i, 0 < i < lo -> i ∈ V -> i <= highest) ->
    exists num' highest', for_each (fun stringId '(num, highest) =>
      Ret (if bool_decide (stringId ∈ V) then (num + 1, stringId) else (num, highest)))
      (range lo MaxStrings) (num, highest) = Ret (num', highest') /\
      0 <= num' <= highest' /\ (highest' = 0 \/ (0 < highest' < MaxStrings /\ highest' ∈ V)) /\
      forall i, 0 < i < MaxStrings -> i ∈ V -> i <= highest').
  { apply H; [done | done | lia | lia | by left | intros; lia]. }
  refine (range_ind MaxStrings _ _ _).
  - intros lo Hlo num highest _ Hle Hn Hh Hv Hall. rewrite range_empty by done.
    exists num, highest. split; [done|]. split; [done|]. split; [done|]. intros. apply Hall; [lia | done].
  - intros lo Hlo IH num highest H1 Hle Hn Hh Hv Hall. rewrite range_cons by done. cbn [for_each obind].
    destruct (bool_decide_reflect (lo ∈ V)) as [Hin|Hout].
    + apply IH; [lia | lia | lia | lia | right; split; [lia | done] | intros; lia].
    + apply IH; [lia | lia | lia | lia | done|]. intros i Hi HiV.
      destruct (decide (i = lo)) as [->|]; [done|]. apply Hall; [lia | done].
Qed.

(** ** The capacity *)

Section capacity.
Context {Σ : Type} (storage : Z) (sync : StrSynchronizer Σ) (wf : Σ -> Prop) (used : Σ -> gset Z).
Context `{!StrSynchronizerLaws storage sync wf used}.
Context (grow : Z) (grow_ok : 0 <= grow).

(** The valid used ids. *)
Definition valid_used (strings : table) (σ : Σ) (i : Z) : Prop := i ∈ used σ /\ stored strings i.

Lemma resized_vget cap strings i : 0 <= i < cap ->
  vget (popDownTo cap (pushUpTo (cap + grow) strings)) i =
  if i <? zlen strings then vget strings i else Ret None.
Proof.
  intros Hi. unfold popDownTo, pushUpTo, vget. rewrite !(proj2 (Z.ltb_ge i 0)) by lia.
  rewrite lookup_take, decide_True by lia. destruct (Z.ltb_spec i (zlen strings)).
  - by rewrite lookup_app_l by (unfold zlen in *; lia).
  - rewrite lookup_app_r by (unfold zlen in *; lia). rewrite lookup_replicate_2; [done|].
    unfold zlen in *. lia.
Qed.

Lemma resized_zlen cap strings : 0 <= cap -> zlen (popDownTo cap (pushUpTo (cap + grow) strings)) = cap.
Proof.
  intros Hc. unfold popDownTo, pushUpTo, zlen. rewrite length_take, length_app, length_replicate. lia.
Qed.

Lemma resized_getString cap strings i : 0 <= i < cap ->
  getString (popDownTo cap (pushUpTo (cap + grow) strings)) i = getString strings i.
Proof.
  intros Hi. unfold getString. rewrite resized_zlen, resized_vget, (proj2 (Z.ltb_lt i cap)) by lia.
  by destruct (i <? zlen strings).
Qed.

Lemma setCapacity_fits strings σ cap auto : wf σ -> 0 <= cap <= MaxStrings ->
  (forall i, valid_used strings σ i -> i <= cap) ->
  setCapacity sync storage grow strings σ cap auto =
  Ret (popDownTo cap (pushUpTo (cap + grow) strings), σ).
Proof.
  intros Hw Hc Hfit. unfold setCapacity. destruct (Z.gtb_spec cap MaxStrings); [lia|].
  rewrite sync_markValid by done.
  destruct (unmark_spec strings (used σ)) as (V & -> & HV); [intros i; by apply sync_ids|]. cbn [obind].
  destruct (countUsed_spec V) as (num & highest & -> & Hn & Hh & _). cbn [obind].
  assert (Hle : highest <= cap).
  { destruct Hh as [->|[_ Hin]]; [lia|]. by apply Hfit, HV. }
  destruct (Z.gtb_spec num cap); [lia|]. destruct (Z.gtb_spec highest cap); [lia|]. done.
Qed.
End capacity.

(** A synchronizer whose state is the set of used ids. *)
Definition setSync : StrSynchronizer (gset Z) := mkStrSynchronizer _
  (fun U stringId _ _ _ => Ret (bool_decide (stringId ∈ U)))
  (fun U _ _ bs => Ret (U ∪ bs))
  (fun U strings _ _ bs => unmarkUnstoredStrings strings (U ∪ bs))
  (fun U m _ => Ret (set_map (remap1 id m) U))
  (fun strings _ => StrSection.stringsToBytes strings).

Definition set_wf (U : gset Z) : Prop := forall i, i ∈ U -> 0 < i < MaxStrings.

#[export] Instance setSync_laws storage : StrSynchronizerLaws storage setSync set_wf (fun U => U).
Proof.
  assert (He : forall U : gset Z, U ∪ ∅ = U) by set_solver.
  split; [intros U i HU; apply HU | intros U _ | intros U strings _]; cbn; by rewrite He.
Qed.

(** C27: [setCapacity], when every used string fits, leaves exactly
    [stringCapacity] slots and keeps every string below it. A used string
    whose id is the capacity itself passes the check and is dropped without
    an exception. *)
Theorem setCapacity_spec {Σ} (storage : Z) (sync : StrSynchronizer Σ) (wf : Σ -> Prop) (used : Σ -> gset Z)
    (Hlaws : StrSynchronizerLaws storage sync wf used) (grow : Z) (strings : table) (σ : Σ) (cap : Z)
    (auto : bool) :
  0 <= grow -> wf σ -> 0 <= cap <= MaxStrings ->
  (forall i, valid_used used strings σ i -> i <= cap) ->
  exists strings', setCapacity sync storage grow strings σ cap auto = Ret (strings', σ) /\
    zlen strings' = cap /\
    (forall i, 0 <= i < cap -> getString strings' i = getString strings i) /\
    (valid_used used strings σ cap -> stringStored strings cap = Ret true /\ stringStored strings' cap = Ret false).
Proof.
  intros Hg Hw Hc Hfit. eexists. split; [by apply (setCapacity_fits storage sync wf used grow)|].
  split; [apply resized_zlen; lia|]. split.
  - intros i Hi. by apply resized_getString.
  - intros [_ Hst]. split.
    + assert (Hb := stored_bounds _ _ Hst). destruct Hst as (s & Hs). unfold stringStored.
      rewrite (proj2 (Z.ltb_lt _ _)) by lia. by rewrite Hs.
    + unfold stringStored. rewrite resized_zlen by lia.
      by rewrite Z.ltb_irrefl.
Qed.

Lemma setCapacity_spec_witness :
  exists strings', setCapacity setSync Scope.Game 1 [None; Some (ScStr.new [65]); Some (ScStr.new [66])]
      {[1; 2]} 2 true = Ret (strings', {[1; 2]}) /\ stringStored strings' 2 = Ret false.
Proof.
  destruct (setCapacity_spec Scope.Game setSync set_wf (fun U => U) (setSync_laws _) 1
    [None; Some (ScStr.new [65]); Some (ScStr.new [66])] {[1; 2]} 2 true) as (s' & H1 & _ & _ & H2).
  - lia.
  - intros i Hi. assert (i = 1 \/ i = 2) as [-> | ->] by set_solver; by vm_compute.
  - by vm_compute.
  - intros i [_ Hs]. apply stored_bounds in Hs. change (zlen _) with 3 in Hs. lia.
  - exists s'. split; [exact H1|]. apply H2. split; [set_solver|]. exists (ScStr.new [66]). reflexivity.
Defined.

(** ** Adding a string *)

Lemma first_such_range (p : Z -> outcome bool) (q : Z -> bool) lo hi :
  (forall i, lo <= i < hi -> p i = Ret (q i)) ->
  exists o, first_such p (range lo hi) = Ret o /\
    match o with
    | Some i => lo <= i < hi /\ q i = true /\ forall j, lo <= j < i -> q j = false
    | None => forall j, lo <= j < hi -> q j = false
    end.
Proof.
  revert lo. refine (range_ind hi _ _ _).
  - intros lo Hlo _. rewrite range_empty by done. exists None. split; [done|]. intros; lia.
  - intros lo Hlo IH Hp. rewrite range_cons by done. cbn [first_such]. rewrite Hp by lia. cbn [obind].
    destruct (q lo) eqn:Hq.
    { exists (Some lo). split; [done|]. split; [lia|]. split; [done|]. intros; lia. }
    destruct (IH ltac:(intros; apply Hp; lia)) as (o & Ho & Hs). exists o. split; [done|].
    destruct o as [i|].
    + destruct Hs as (Hi & Hqi & Hb). split; [lia|]. split; [done|]. intros j Hj.
      destruct (decide (j = lo)) as [->|]; [done|]. apply Hb. lia.
    + intros j Hj. destruct (decide (j = lo)) as [->|]; [done|]. apply Hs. lia.
Qed.

Lemma nextUnused_spec strings U : exists id, getNextUnusedStringId strings U true 1 = Ret id /\
  ((id = 0 /\ forall i, 1 <= i < MaxStrings -> i ∈ U) \/
   (1 <= id < MaxStrings /\ (id ∉ U) /\ forall i, 1 <= i < id -> i ∈ U)).
Proof.
  unfold getNextUnusedStringId.
  destruct (first_such_range (fun i =>
      if i <? MaxStrings then Ret (negb (bool_decide (i ∈ U))) else Undef)
    (fun i => negb (bool_decide (i ∈ U))) 1 MaxStrings) as (o & -> & Hs).
  { intros i Hi. by rewrite (proj2 (Z.ltb_lt _ _)) by lia. }
  assert (Hneg : forall i, negb (bool_decide (i ∈ U)) = false -> i ∈ U)
    by (intros i H; apply negb_false_iff in H; by apply bool_decide_eq_true in H).
  cbn [obind]. eexists. split; [done|]. destruct o as [i|]; cbn [default].
  - right. destruct Hs as (Hi & Hq & Hb). split; [done|]. split.
    + apply negb_true_iff in Hq. by apply bool_decide_eq_false in Hq.
    + intros j Hj. by apply Hneg, Hb.
  - left. split; [done|]. intros j Hj. by apply Hneg, Hs.
Qed.

(** Storing a string that was not there under a new id. *)
Lemma stored_new strings id str : 0 < id < zlen strings ->
  (forall i s, 1 <= i -> vget strings i = Ret (Some s) -> ScStr.compareEq s str = false) ->
  exists strings', vset strings id (Some (ScStr.new str)) = Ret strings' /\
    getString strings' id = Ret (Some (ScStr.cstr str)) /\
    (forall i, 0 <= i -> i <> id -> getString strings' i = getString strings i) /\
    findString strings' str = Ret id /\ zlen strings' = zlen strings.
Proof.
  intros Hid Hnew. rewrite vset_in by lia. eexists. split; [done|].
  set (strings' := <[Z.to_nat id := Some (ScStr.new str)]> strings).
  assert (Hz : zlen strings' = zlen strings) by apply zlen_insert.
  assert (Hv : forall i, 0 <= i -> vget strings' i = if decide (i = id) then Ret (Some (ScStr.new str)) else vget strings i)
    by (intros i Hi; unfold strings'; by rewrite vget_vset by lia).
  split; [|split; [|split; [|done]]].
  - unfold getString. rewrite Hz, (proj2 (Z.ltb_lt _ _)), Hv, decide_True by (done || lia). cbn.
    by rewrite cstr_allocate.
  - intros i Hi Hne. unfold getString. by rewrite Hz, Hv, decide_False by done.
  - destruct (findString_spec strings' str) as (id' & -> & [[-> Hno]|(Hb & (s & Hs & Hc) & _)]).
    + specialize (Hno id (ScStr.new str) ltac:(lia)). rewrite Hv, decide_True in Hno by (done || lia).
      by rewrite compareEq_new in Hno; specialize (Hno eq_refl).
    + rewrite Hv in Hs by lia. destruct (decide (id' = id)) as [->|]; [done|].
      by rewrite (Hnew id' s) in Hc by (done || lia).
Qed.

(** An empty table is fine as long as an id is free. *)
Lemma addString_cases {Σ} (storage : Z) (sync : StrSynchronizer Σ) (wf : Σ -> Prop) (used : Σ -> gset Z)
    (Hlaws : StrSynchronizerLaws storage sync wf used) (grow : Z) (strings : table) (σ : Σ)
    (str : bytes) (auto : bool) :
  0 <= grow -> wf σ -> 0 < zlen strings \/ (exists i, 1 <= i < MaxStrings /\ i ∉ used σ) ->
  (exists id s, 0 < id /\ vget strings id = Ret (Some s) /\ ScStr.compareEq s str = true /\
     addString sync storage grow strings σ str auto = Ret (strings, σ, id)) \/
  ((forall i s, 1 <= i -> vget strings i = Ret (Some s) -> ScStr.compareEq s str = false) /\
   (((forall i, 1 <= i < MaxStrings -> i ∈ used σ) /\
      addString sync storage grow strings σ str auto = Throw MaximumStringsExceeded) \/
    (exists id strings', 1 <= id < MaxStrings /\ (id ∉ used σ) /\ (forall i, 1 <= i < id -> i ∈ used σ) /\
      addString sync storage grow strings σ str auto = Ret (strings', σ, id) /\
      getString strings' id = Ret (Some (ScStr.cstr str)) /\
      (forall i, 0 <= i -> i <> id -> getString strings' i = getString strings i) /\
      findString strings' str = Ret id /\ zlen strings' = Z.max (zlen strings) (id + 1)))).
Proof.
  intros Hg Hw Hpos. unfold addString.
  destruct (findString_spec strings str) as (id0 & -> & [[-> Hnew]|(Hb & (s & Hs & Hc) & _)]);
    cbn [obind].
  2:{ left. exists id0, s. rewrite (proj2 (Z.eqb_neq _ _)) by lia. cbn [negb].
      split; [lia|]. split; [done|]. split; done. }
  right. split; [done|]. cbn [Z.eqb negb]. rewrite sync_mark by done. cbn [obind].
  destruct (nextUnused_spec strings (used σ)) as (id & -> & [[-> Hall]|(Hid & Hfree & Hleast)]); cbn [obind].
  - destruct Hpos as [Hpos|(i & Hi & Hn)]; [|by specialize (Hall i Hi)].
    left. split; [done|]. rewrite Z.geb_leb, (proj2 (Z.leb_gt _ _)) by lia. done.
  - right. rewrite Z.geb_leb. destruct (Z.leb_spec (zlen strings) id) as [Hge|Hlt].
    + rewrite (setCapacity_fits storage sync wf used grow) by
        (done || lia || (intros i [_ Hst]; apply stored_bounds in Hst; lia)). cbn [obind].
      set (strings1 := popDownTo _ _). assert (Hz : zlen strings1 = id + 1) by (apply resized_zlen; lia).
      assert (Hv : forall i, 0 <= i < id + 1 -> vget strings1 i = if i <? zlen strings then vget strings i else Ret None)
        by (intros; by apply resized_vget).
      destruct (stored_new strings1 id str) as (strings' & Hset & Hget & Hoth & Hfind & Hlen); [lia| |].
      { intros i s Hi Hs. assert (Hsb : stored strings1 i) by (by exists s). apply stored_bounds in Hsb.
        rewrite Hv in Hs by lia. destruct (i <? zlen strings); [by apply (Hnew i) | done]. }
      exists id, strings'. rewrite Hset. cbn [obind].
      split; [done|]. split; [done|]. split; [done|]. split; [done|]. split; [done|]. split; [|split; [done | lia]].
      intros i Hi Hne. rewrite Hoth by done. destruct (decide (i < id + 1)) as [|Hbig].
      * by apply resized_getString.
      * unfold getString. by rewrite !(proj2 (Z.ltb_ge _ _)) by lia.
    + rewrite (proj2 (Z.eqb_neq _ _)) by lia. cbn [obind].
      destruct (stored_new strings id str) as (strings' & Hset & Hget & Hoth & Hfind & Hlen); [lia | done|].
      exists id, strings'. rewrite Hset. cbn [obind].
      split; [done|]. split; [done|]. split; [done|]. split; [done|]. split; [done|]. split; [done|]. split; [done | lia].
Qed.

(** C10: adding a string returns the id of an equal string when there is one.
    Otherwise it stores the string under the least id that nothing uses,
    under which it is found afterwards; every other id keeps its string, and
    only when all 65535 ids are used does it throw. *)
Theorem addString_spec {Σ} (storage : Z) (sync : StrSynchronizer Σ) (wf : Σ -> Prop) (used : Σ -> gset Z)
    (Hlaws : StrSynchronizerLaws storage sync wf used) (grow : Z) (strings : table) (σ : Σ)
    (str : bytes) (auto : bool) :
  0 <= grow -> wf σ -> 0 < zlen strings ->
  (exists id s, 0 < id /\ vget strings id = Ret (Some s) /\ ScStr.compareEq s str = true /\
     addString sync storage grow strings σ str auto = Ret (strings, σ, id)) \/
  ((forall i s, 1 <= i -> vget strings i = Ret (Some s) -> ScStr.compareEq s str = false) /\
   (((forall i, 1 <= i < MaxStrings -> i ∈ used σ) /\
      addString sync storage grow strings σ str auto = Throw MaximumStringsExceeded) \/
    (exists id strings', 1 <= id < MaxStrings /\ (id ∉ used σ) /\ (forall i, 1 <= i < id -> i ∈ used σ) /\
      addString sync storage grow strings σ str auto = Ret (strings', σ, id) /\
      getString strings' id = Ret (Some (ScStr.cstr str)) /\
      (forall i, 0 <= i -> i <> id -> getString strings' i = getString strings i) /\
      findString strings' str = Ret id /\ zlen strings' = Z.max (zlen strings) (id + 1)))).
Proof. intros Hg Hw Hpos. apply (addString_cases storage sync wf used Hlaws); auto. Qed.

Lemma addString_spec_witness :
  exists strings', addString setSync Scope.Game 1 [None; Some (ScStr.new [65])] {[1; 2]} [66] true =
    Ret (strings', {[1; 2]}, 3) /\ findString strings' [66] = Ret 3.
Proof.
  destruct (addString_spec Scope.Game setSync set_wf (fun U => U) (setSync_laws _) 1
    [None; Some (ScStr.new [65])] {[1; 2]} [66] true) as [(id & s & H0 & Hs & Hc & _)|[_ [[Hall _]|H]]].
  - lia.
  - intros i Hi. assert (i = 1 \/ i = 2) as [-> | ->] by set_solver; by vm_compute.
  - by vm_compute.
  - exfalso. assert (Hb : stored [None; Some (ScStr.new [65])] id) by (by exists s).
    apply stored_bounds in Hb. change (zlen _) with 2 in Hb. assert (id = 1) as -> by lia.
    injection Hs as <-. done.
  - exfalso. specialize (Hall 3 ltac:(by vm_compute)). clear -Hall. set_solver.
  - destruct H as (id & strings' & Hid & Hfree & Hleast & Ha & _ & _ & Hf & _).
    assert (id = 3) as ->.
    { destruct (decide (id < 3)); [exfalso; assert (id = 1 \/ id = 2) as [-> | ->] by lia; apply Hfree; clear; set_solver|].
      destruct (decide (3 < id)); [|lia]. specialize (Hleast 3 ltac:(lia)). clear -Hleast. set_solver. }
    exists strings'. split; [exact Ha | exact Hf].
Defined.

(** ** Deleting the unused strings *)

Lemma deleteUnused_table {Σ} (storage : Z) (sync : StrSynchronizer Σ) (wf : Σ -> Prop)
    (used : Σ -> gset Z) (Hlaws : StrSynchronizerLaws storage sync wf used) (strings : table) (σ : Σ) :
  wf σ -> zlen strings <= MaxStrings ->
  exists strings', deleteUnusedStrings sync storage strings σ = Ret strings' /\
    zlen strings' = zlen strings /\
    forall i, 0 <= i -> getString strings' i =
      if bool_decide (i ∈ used σ) then getString strings i else Ret None.
Proof.
  intros Hw Hz. unfold deleteUnusedStrings. rewrite sync_mark by done. cbn [obind].
  destruct (for_each_range_inv (fun k strings' => zlen strings' = zlen strings /\
    forall i, 0 <= i < zlen strings -> vget strings' i =
      if (i <? k) && negb (bool_decide (i ∈ used σ)) then Ret None else vget strings i)
    (fun i strings => if negb (i <? MaxStrings) then Undef else let* s := vget strings i in
        if negb (bool_decide (i ∈ used σ)) && bool_decide (is_Some s) then vset strings i None else Ret strings)
    0 (zlen strings) strings) as (strings' & -> & Hl & Hv).
  - apply zlen_nonneg.
  - intros i l Hi (Hl & Hv). rewrite (proj2 (Z.ltb_lt i MaxStrings)) by lia. cbn [negb].
    rewrite Hv, Z.ltb_irrefl by lia. cbn [andb].
    destruct (vget_in strings i) as (s & _ & Hs); [lia|]. rewrite Hs. cbn [obind].
    destruct (bool_decide_reflect (i ∈ used σ)) as [Hin|Hout]; cbn [negb andb].
    + exists l. split; [done|]. split; [done|]. intros j Hj. rewrite Hv by done.
      destruct (decide (j = i)) as [->|]; [|by replace (j <? i + 1) with (j <? i) by lia].
      by rewrite bool_decide_eq_true_2, !andb_false_r by done.
    + destruct s as [s|]; cbn.
      * rewrite vset_in by lia. eexists. split; [done|]. split; [by rewrite zlen_insert|].
        intros j Hj. rewrite vget_vset by lia. destruct (decide (j = i)) as [->|].
        -- rewrite bool_decide_eq_false_2 by done. by rewrite (proj2 (Z.ltb_lt _ _)) by lia.
        -- rewrite Hv by done. by replace (j <? i + 1) with (j <? i) by lia.
      * exists l. split; [done|]. split; [done|]. intros j Hj. rewrite Hv by done.
        destruct (decide (j = i)) as [->|]; [|by replace (j <? i + 1) with (j <? i) by lia].
        rewrite Hs. by destruct (_ && _), (_ && _).
  - split; [done|]. intros i Hi. by rewrite (proj2 (Z.ltb_ge _ _)) by lia.
  - eexists. split; [done|]. split; [done|]. intros i Hi. unfold getString. rewrite Hl.
    destruct (Z.ltb_spec i (zlen strings)); [|by destruct (bool_decide _)].
    rewrite Hv, (proj2 (Z.ltb_lt _ _)) by lia. cbn [andb]. by destruct (bool_decide (i ∈ used σ)).
Qed.

(** [deleteUnusedStrings] keeps every string whose id is used and removes
    every other one. *)
Theorem deleteUnusedStrings_spec {Σ} (storage : Z) (sync : StrSynchronizer Σ) (wf : Σ -> Prop)
    (used : Σ -> gset Z) (Hlaws : StrSynchronizerLaws storage sync wf used) (strings : table) (σ : Σ) :
  wf σ -> zlen strings <= MaxStrings ->
  exists strings', deleteUnusedStrings sync storage strings σ = Ret strings' /\
    zlen strings' = zlen strings /\
    forall i, 0 <= i -> getString strings' i =
      if bool_decide (i ∈ used σ) then getString strings i else Ret None.
Proof. by apply (deleteUnused_table storage sync wf used Hlaws). Qed.

Lemma deleteUnusedStrings_spec_witness :
  exists strings', deleteUnusedStrings setSync Scope.Game [None; Some (ScStr.new [65]); Some (ScStr.new [66])]
      {[2]} = Ret strings' /\ getString strings' 1 = Ret None /\ getString strings' 2 = Ret (Some [66]).
Proof.
  destruct (deleteUnusedStrings_spec Scope.Game setSync set_wf (fun U => U) (setSync_laws _)
    [None; Some (ScStr.new [65]); Some (ScStr.new [66])] {[2]}) as (s' & Hd & _ & Hg).
  - intros i ->%elem_of_singleton. by vm_compute.
  - by vm_compute.
  - exists s'. split; [exact Hd|]. split; rewrite Hg by lia; reflexivity.
Defined.

(** ** Defragmenting *)

Lemma inserted_keep m k v k' v' : m !! k = Some v -> inserted m k' v' !! k = Some v.
Proof.
  intros Hk. unfold inserted. destruct (decide (is_Some (m !! k'))) as [|Hn]; [done|].
  rewrite lookup_insert_ne; [done|]. intros ->. apply Hn. by exists v.
Qed.

(** One hole: the strings that were there stay. *)
Lemma fillHole_spec n strs m i : zlen strs = n -> 0 <= i < n ->
  exists strs' m', fillHole n i (strs, m) = Ret (strs', m') /\ zlen strs' = n /\
    (forall k s, vget strs k = Ret (Some s) -> vget strs' k = Ret (Some s)) /\
    (forall k v, m !! k = Some v -> m' !! k = Some v) /\
    (forall j s, i < j < n -> vget strs i = Ret None -> vget strs j = Ret (Some s) ->
       (forall k, i < k < j -> vget strs k = Ret None) ->
       vget strs' i = Ret (Some s) /\ m' = inserted m j i).
Proof.
  intros Hz Hi. unfold fillHole. destruct (vget_in strs i) as (o & _ & Ho); [lia|]. rewrite Ho. cbn [obind].
  destruct o as [s0|].
  { exists strs, m. split; [done|]. split; [done|]. split; [done|]. split; [done|]. intros; congruence. }
  rewrite Z.max_l by lia.
  destruct (first_such_vget strs (fun _ s => bool_decide (is_Some s)) n (i + 1) Hz) as (r & Hr & Hs); [lia|].
  rewrite Hr. cbn [obind]. destruct r as [j|].
  - destruct Hs as (Hj & (v & Hv & Hq) & Hb). destruct v as [s|]; [|done]. rewrite Hv. cbn [obind].
    rewrite vset_in by lia. cbn [obind]. eexists _, _. split; [done|]. split; [by rewrite zlen_insert|].
    split; [|split].
    + intros k s' Hk. assert (Hkb := stored_bounds strs k ltac:(by exists s')).
      rewrite vget_vset by lia. destruct (decide (k = i)) as [->|]; [congruence | done].
    + intros k w Hk. by apply inserted_keep.
    + intros j' s' Hj' _ Hg Hbetween. assert (j' = j) as ->.
      { destruct (decide (j' < j)) as [Hlt|].
        - specialize (Hb j' (Some s') ltac:(lia) Hg). done.
        - destruct (decide (j < j')); [|lia]. rewrite (Hbetween j) in Hv by lia. done. }
      rewrite vget_vset, decide_True by (done || lia). split; [congruence | done].
  - exists strs, m. split; [done|]. split; [done|]. split; [done|]. split; [done|].
    intros j s Hj _ Hg _. specialize (Hs j (Some s) ltac:(lia) Hg). done.
Qed.

(** [defragment] starts at id 0, which never has a string: it copies the
    first string there and tells every user of that string to use id 0, which
    means no string. Every string also stays where it was. *)
Theorem defragment_first_to_zero {Σ} (storage : Z) (sync : StrSynchronizer Σ) (strings : table) (σ : Σ)
    (j : Z) (s : ScStr.ScStr) :
  1 <= j -> vget strings j = Ret (Some s) -> (forall k, 0 <= k < j -> vget strings k = Ret None) ->
  exists strings' m, m !! j = Some 0 /\
    defragment sync storage strings σ =
      (let* σ' := sync_remapStringIds sync σ m storage in Ret (strings', σ', true)) /\
    zlen strings' = zlen strings /\ vget strings' 0 = Ret (Some s) /\
    forall k s', vget strings k = Ret (Some s') -> vget strings' k = Ret (Some s').
Proof.
  intros Hj Hs Hnone. assert (Hb := stored_bounds strings j ltac:(by exists s)). unfold defragment.
  destruct (for_each_range_inv (fun k '(strs, m) => zlen strs = zlen strings /\
      (forall i s', vget strings i = Ret (Some s') -> vget strs i = Ret (Some s')) /\
      (if k =? 0 then strs = strings /\ m = ∅ else m !! j = Some 0 /\ vget strs 0 = Ret (Some s)))
    (fillHole (zlen strings)) 0 (zlen strings) (strings, ∅)) as ([strings' m] & -> & Hz & Hkeep & Hm).
  - lia.
  - intros i [strs m] Hi (Hz & Hkeep & Hk).
    destruct (fillHole_spec (zlen strings) strs m i Hz Hi) as (strs' & m' & Hf & Hz' & Hk' & Hm' & Hfirst).
    exists (strs', m'). split; [exact Hf|]. split; [exact Hz'|].
    split; [intros k s' Hg; by apply Hk', Hkeep|].
    rewrite (proj2 (Z.eqb_neq (i + 1) 0)) by lia. destruct (Z.eqb_spec i 0) as [->|Hne].
    + destruct Hk as [-> ->]. destruct (Hfirst j s) as [Hv ->]; [lia | apply Hnone; lia | done | intros; apply Hnone; lia|].
      split; [|done]. unfold inserted. rewrite decide_False by (rewrite lookup_empty; by intros [? ?]).
      by rewrite lookup_insert_eq.
    + destruct Hk as [Hmj Hv]. split; [by apply Hm' | by apply Hk'].
  - done.
  - rewrite (proj2 (Z.eqb_neq _ 0)) in Hm by lia. destruct Hm as [Hmj Hv]. cbn [obind].
    exists strings', m. rewrite decide_False by (intros ->; by rewrite lookup_empty in Hmj).
    split; [done|]. split; [done|]. split; [done|]. by split.
Qed.

Lemma defragment_first_to_zero_witness :
  exists strings', defragment setSync Scope.Game [None; Some (ScStr.new [65])] {[1]} =
    Ret (strings', {[0]}, true) /\ vget strings' 0 = Ret (Some (ScStr.new [65])).
Proof.
  destruct (defragment_first_to_zero Scope.Game setSync [None; Some (ScStr.new [65])] {[1]} 1 (ScStr.new [65]))
    as (strings' & m & Hm & Hd & _ & Hv & _).
  - lia.
  - reflexivity.
  - intros k Hk. assert (k = 0) as -> by lia. reflexivity.
  - exists strings'. split; [|exact Hv]. rewrite Hd. cbn.
    assert (remap1 id m 1 = 0) as E by (unfold remap1; by rewrite Hm).
    by rewrite set_map_singleton_L, E.
Defined.

(** ** Moving a string to a lower id *)

Section cascade_down.
Context (strings : table) (U : gset Z) (stringIdTo stringIdFrom h : Z).
Context (Hbounds : 0 < stringIdTo /\ stringIdTo <= h <= stringIdFrom /\ stringIdFrom < zlen strings).
Context (Hblock : forall i, stringIdTo <= i < h -> i ∈ U) (Hfree : h ∉ U).

(** The state while the free id [p] travels from [h] down to [stringIdTo]. *)
Definition hole_at (p : Z) (c : Cascade) : Prop :=
  zlen (cstrings c) = zlen strings /\
  (forall x, x ∈ cused c <-> (x ∈ U \/ (x = h /\ p < h)) /\ ~ (x = p /\ p < h)) /\
  (forall i, 0 <= i < zlen strings -> vget (cstrings c) i =
     if (i =? p) && (p <? h) then Ret None
     else if (p <? i) && (i <=? h) then vget strings (i - 1) else vget strings i) /\
  (forall i, cremap c !! i = if (p <=? i) && (i <? h) then Some (i + 1) else None).

Lemma hole_start : hole_at h (mkCascade strings U ∅).
Proof.
  split; [done|]. split; [|split].
  - intros x. cbn [cused]. split; [intros; split; [by left | lia] | intros [[?|?] _]; [done | lia]].
  - intros i Hi. cbn [cstrings]. rewrite Z.ltb_irrefl, andb_false_r.
    destruct (Z.ltb_spec h i), (Z.leb_spec i h); cbn [andb]; done || lia.
  - intros i. cbn [cremap]. rewrite lookup_empty. destruct (Z.leb_spec h i), (Z.ltb_spec i h); cbn; done || lia.
Qed.

Lemma hole_round p c : stringIdTo < p <= h -> hole_at p c ->
  exists c', cascadeRound (range (stringIdTo + 1) (stringIdFrom + 1)) (-1) c = Ret c' /\ hole_at (p - 1) c'.
Proof.
  intros Hp (Hz & Hu & Hv & Hm). unfold cascadeRound.
  assert (Hpfree : p ∉ cused c) by (rewrite Hu; destruct (decide (p = h)) as [->|]; [tauto || (intros [[?|?] _]; [done | lia]) | lia]).
  assert (Hbelow : forall i, stringIdTo <= i < p -> i ∈ cused c).
  { intros i Hi. rewrite Hu. split; [left; apply Hblock; lia | lia]. }
  destruct (first_such_range (fun i => Ret (negb (bool_decide (i ∈ cused c))))
    (fun i => negb (bool_decide (i ∈ cused c))) (stringIdTo + 1) (stringIdFrom + 1)) as (o & -> & Hs); [done|].
  cbn [obind].
  assert (o = Some p) as ->.
  { destruct o as [i|].
    - destruct Hs as (Hi & Hq & Hb). f_equal. apply negb_true_iff, bool_decide_eq_false in Hq.
      destruct (decide (i < p)); [exfalso; apply Hq, Hbelow; lia|].
      destruct (decide (p < i)); [|lia]. specialize (Hb p ltac:(lia)).
      by rewrite bool_decide_eq_false_2 in Hb.
    - specialize (Hs p ltac:(lia)). by rewrite bool_decide_eq_false_2 in Hs. }
  unfold cascadeInto. replace (p + -1) with (p - 1) by lia.
  destruct (vget_in strings (p - 1)) as (o & _ & Ho); [lia|].
  assert (Hsrc : vget (cstrings c) (p - 1) = Ret o).
  { rewrite Hv by lia. by rewrite (proj2 (Z.eqb_neq (p - 1) p)), (proj2 (Z.ltb_ge p (p - 1))) by lia. }
  rewrite Hsrc. cbn [obind]. rewrite vset_in by lia. cbn [obind].
  rewrite vset_in by (rewrite zlen_insert; lia). cbn [obind].
  eexists. split; [done|]. split; [cbn [cstrings]; by rewrite !zlen_insert|]. split; [|split].
  - intros x. cbn [cused]. unfold bs_clear. rewrite elem_of_union, elem_of_singleton, elem_of_difference, elem_of_singleton, Hu.
    destruct (decide (p = h)) as [->|].
    + destruct (decide (x = h)) as [->|]; [intuition lia|]. intuition lia.
    + destruct (decide (x = p)) as [->|]; [|intuition lia].
      split; [intros _; split; [left; apply Hblock; lia | lia] | tauto].
  - intros i Hi. cbn [cstrings]. rewrite vget_vset by (rewrite ?zlen_insert; lia).
    destruct (decide (i = p)) as [->|].
    + rewrite (proj2 (Z.eqb_neq p (p - 1))), (proj2 (Z.ltb_lt (p - 1) p)), (proj2 (Z.leb_le p h)) by lia.
      by cbn.
    + rewrite vget_vset by lia. destruct (decide (i = p - 1)) as [->|].
      * rewrite Z.eqb_refl, (proj2 (Z.ltb_lt (p - 1) h)) by lia. done.
      * rewrite Hv by done. rewrite (proj2 (Z.eqb_neq i p)), (proj2 (Z.eqb_neq i (p - 1))) by lia. cbn [andb].
        by replace (p - 1 <? i) with (p <? i) by (destruct (Z.ltb_spec p i), (Z.ltb_spec (p - 1) i); done || lia).
  - intros i. cbn [cremap]. unfold inserted. rewrite (Hm (p - 1)).
    rewrite (proj2 (Z.leb_gt p (p - 1))) by lia. cbn [andb]. rewrite decide_False by (by intros [? ?]).
    destruct (decide (i = p - 1)) as [->|].
    + rewrite lookup_insert_eq, Z.leb_refl, (proj2 (Z.ltb_lt _ _)) by lia. cbn. f_equal. lia.
    + rewrite lookup_insert_ne, Hm by done.
      by replace (p - 1 <=? i) with (p <=? i) by (destruct (Z.leb_spec p i), (Z.leb_spec (p - 1) i); done || lia).
Qed.

Lemma cascade_done fuel p c : stringIdTo <= p <= h -> p - stringIdTo <= Z.of_nat fuel -> hole_at p c ->
  exists c', cascade fuel stringIdTo (range (stringIdTo + 1) (stringIdFrom + 1)) (-1) c = Ret c' /\
    hole_at stringIdTo c'.
Proof.
  revert p c. induction fuel as [|fuel IH]; intros p c Hp Hf Hc.
  - assert (p = stringIdTo) as -> by lia. exists c. cbn. assert (Hu := proj1 (proj2 Hc)).
    rewrite bool_decide_eq_false_2; [by split|]. rewrite Hu.
    destruct (decide (stringIdTo = h)) as [->|]; [intros [[?|?] _]; [done | lia] | intros [_ ?]; lia].
  - cbn. destruct (decide (p = stringIdTo)) as [->|Hne].
    + exists c. assert (Hu := proj1 (proj2 Hc)).
      rewrite bool_decide_eq_false_2; [by split|]. rewrite Hu.
      destruct (decide (stringIdTo = h)) as [->|]; [intros [[?|?] _]; [done | lia] | intros [_ ?]; lia].
    + rewrite bool_decide_eq_true_2.
      2:{ destruct Hc as (_ & Hu & _). rewrite Hu. split; [left; apply Hblock; lia | lia]. }
      destruct (hole_round p c) as (c1 & -> & H1); [lia | done|]. cbn [obind]. apply (IH (p - 1)); [lia | lia | done].
Qed.
End cascade_down.

(** Moving a string to a lower id, while the synchronizer reports the ids
    [U] as used: the strings from the target up to the first free id [h] move
    up by one, the string takes the target, every other string stays, and the
    users are told exactly these changes. The loop always ends. *)
Theorem moveString_down {Σ} (storage : Z) (sync : StrSynchronizer Σ) (strings : table) (σ : Σ) (U : gset Z)
    (stringIdFrom stringIdTo : Z) :
  sync_markUsedStrings sync σ storage Scope.Either ∅ = Ret U ->
  0 < stringIdTo < stringIdFrom -> stringIdFrom < zlen strings -> stringIdFrom < MaxStrings ->
  exists h strings' m, stringIdTo <= h <= stringIdFrom /\
    (forall i, stringIdTo <= i < h -> i ∈ U) /\ (h = stringIdFrom \/ h ∉ U) /\
    moveString sync storage strings σ stringIdFrom stringIdTo =
      (let* σ' := sync_remapStringIds sync σ m storage in Ret (strings', σ')) /\
    (forall i, 0 <= i < zlen strings -> vget strings' i =
       if i =? stringIdTo then vget strings stringIdFrom
       else if (stringIdTo <? i) && (i <=? h) then vget strings (i - 1) else vget strings i) /\
    (forall i, m !! i = if i =? stringIdFrom then Some stringIdTo
                        else if (stringIdTo <=? i) && (i <? h) then Some (i + 1) else None).
Proof.
  intros Hmark Hto Hfrom Hmax. set (U' := bs_clear U stringIdFrom).
  assert (HU' : forall x, x ∈ U' <-> x ∈ U /\ x <> stringIdFrom)
    by (intros x; unfold U', bs_clear; rewrite elem_of_difference, elem_of_singleton; done).
  destruct (first_such_range (fun i => Ret (negb (bool_decide (i ∈ U')))) (fun i => negb (bool_decide (i ∈ U')))
    stringIdTo (stringIdFrom + 1)) as (o & _ & Hs); [done|].
  destruct o as [h|].
  2:{ specialize (Hs stringIdFrom ltac:(lia)). rewrite bool_decide_eq_false_2 in Hs; [done|].
      rewrite HU'. tauto. }
  destruct Hs as (Hh & Hq & Hb). apply negb_true_iff, bool_decide_eq_false in Hq.
  assert (Hblock : forall i, stringIdTo <= i < h -> i ∈ U').
  { intros i Hi. specialize (Hb i Hi). by apply negb_false_iff, bool_decide_eq_true in Hb. }
  destruct (cascade_done strings U' stringIdTo stringIdFrom h ltac:(lia) Hblock Hq
    (Z.to_nat (stringIdFrom - stringIdTo)) h (mkCascade strings U' ∅)) as (c & Hc & Hz & _ & Hv & Hm);
    [lia | lia | apply hole_start |].
  destruct (vget_in strings stringIdFrom) as (selected & _ & Hsel); [lia|].
  set (m := inserted (cremap c) stringIdFrom stringIdTo).
  assert (Hm' : forall i, m !! i = if i =? stringIdFrom then Some stringIdTo
      else if (stringIdTo <=? i) && (i <? h) then Some (i + 1) else None).
  { intros i. unfold m, inserted. rewrite decide_False.
    2:{ rewrite Hm. rewrite (proj2 (Z.ltb_ge stringIdFrom h)), andb_false_r by lia. by intros [? ?]. }
    destruct (Z.eqb_spec i stringIdFrom) as [->|Hne]; [by rewrite lookup_insert_eq|].
    by rewrite lookup_insert_ne, Hm. }
  exists h, (<[Z.to_nat stringIdTo := selected]> (cstrings c)), m.
  split; [lia|]. split; [intros i Hi; by apply HU', Hblock|]. split.
  { destruct (decide (h = stringIdFrom)); [by left|]. right. rewrite HU' in Hq. tauto. }
  split; [|split; [|done]].
  - unfold moveString. rewrite Z.min_r, Z.max_l by lia.
    rewrite (proj2 (Z.gtb_lt _ _)), (proj2 (Z.leb_le _ _)), (proj2 (Z.eqb_neq _ _)) by lia. cbn [andb negb].
    rewrite Hmark. cbn [obind]. rewrite Hsel. cbn [obind].
    rewrite (proj2 (Z.ltb_lt stringIdFrom MaxStrings)) by lia. cbn [negb].
    rewrite (proj2 (Z.ltb_lt stringIdTo stringIdFrom)) by lia. fold U'. rewrite Hc. cbn [obind cstrings cremap].
    rewrite vset_in by lia. cbn [obind]. fold m.
    assert (inserted m stringIdFrom stringIdTo = m) as ->.
    { unfold inserted. rewrite decide_True; [done|]. rewrite Hm', Z.eqb_refl. eauto. }
    done.
  - intros i Hi. rewrite vget_vset by lia. destruct (Z.eqb_spec i stringIdTo) as [->|Hne].
    + by rewrite decide_True.
    + rewrite decide_False, Hv by done. by rewrite (proj2 (Z.eqb_neq _ _)) by done.
Qed.

Lemma moveString_down_witness :
  exists strings' σ', moveString setSync Scope.Game
      [None; Some (ScStr.new [65]); Some (ScStr.new [66]); Some (ScStr.new [67])] {[1; 2; 3]} 3 1 =
    Ret (strings', σ') /\ vget strings' 1 = Ret (Some (ScStr.new [67])) /\
    vget strings' 2 = Ret (Some (ScStr.new [65])) /\ vget strings' 3 = Ret (Some (ScStr.new [66])).
Proof.
  destruct (moveString_down Scope.Game setSync
    [None; Some (ScStr.new [65]); Some (ScStr.new [66]); Some (ScStr.new [67])] {[1; 2; 3]} {[1; 2; 3]} 3 1)
    as (h & strings' & m & Hh & _ & Hfree & Hmove & Hv & _).
  - reflexivity.
  - lia.
  - by vm_compute.
  - by vm_compute.
  - assert (h = 3) as ->.
    { destruct Hfree as [->|Hn]; [done|]. destruct (decide (h = 3)); [done|]. exfalso. apply Hn.
      assert (h = 1 \/ h = 2) as [-> | ->] by lia; clear; set_solver. }
    eexists strings', _. split; [rewrite Hmove; reflexivity|].
    split; [|split]; (rewrite Hv by (by vm_compute)); reflexivity.
Defined.
