(* ===== verification/Ktrg.v ===== *)
(** KTRG (Sections.cpp): the extended data of triggers, a list of records
    behind pointers that may be null.  As in [Objects] a pointer stands for
    its record. *)
From S2P Require Import Prelude Codec ChkTypes ChkSection Accessors StringUsers Terrain Objects Triggers.
Open Scope Z_scope.

Module KtrgSection.
Abbreviation t := (list (option ExtendedTrigData.ExtendedTrigData)).

Definition UnusedExtendedTrigDataIndexCheck : Z := 0xFEFEFEFE.

Definition blankData : ExtendedTrigData.ExtendedTrigData :=
  ExtendedTrigData.mkExtendedTrigData 0 0 0xFFFFFFFF 0xFFFFFFFF 0xFFFFFFFF.

Definition isBlank (d : ExtendedTrigData.ExtendedTrigData) : bool :=
  (ExtendedTrigData.commentStringId d =? 0) && (ExtendedTrigData.notesStringId d =? 0) &&
  (ExtendedTrigData.groupId d =? 0xFFFFFFFF) && (ExtendedTrigData.trigNum d =? 0xFFFFFFFF) &&
  (ExtendedTrigData.maskId d =? 0xFFFFFFFF).

Definition GetDefault : t := [].
Definition empty (l : t) : bool := zlen l <? 3.
Definition numExtendedTriggers (l : t) : Z := zlen l.

Definition getExtendedTrigger (l : t) (extendedTriggerIndex : Z)
    : outcome (option ExtendedTrigData.ExtendedTrigData) :=
  if extendedTriggerIndex <? zlen l then vget l extendedTriggerIndex else Ret None.

(** [(i & UnusedExtendedTrigDataIndexCheck) == 0] *)
Definition unusable (i : Z) : bool := Z.land i UnusedExtendedTrigDataIndexCheck =? 0.

(** [while ( unusable(size) ) push_back(nullptr);] *)
Fixpoint skipUnusable (fuel : nat) (l : t) : outcome t :=
  if unusable (zlen l) then
    match fuel with
    | O => Undef
    | S fuel => skipUnusable fuel (l ++ [None])
    end
  else Ret l.

Definition addExtendedTrigger (l : t) (extendedTrigger : option ExtendedTrigData.ExtendedTrigData)
    : outcome (t * Z) :=
  match extendedTrigger with
  | None => Ret (l, 0)
  | Some _ =>
      let* found := first_such (fun i => let* d := vget l i in
          Ret (bool_decide (d = None) && negb (unusable i))) (range 0 (zlen l)) in
      match found with
      | Some i => let* l := vset l i extendedTrigger in Ret (l, i)
      | None =>
          let* l := skipUnusable 2 l in
          let l := l ++ [extendedTrigger] in
          Ret (l, zlen l - 1)
      end
  end.

(** The number of entries [cleanTail] keeps. *)
Fixpoint keptEntries (l : t) (i : nat) : outcome nat :=
  match i with
  | O => Ret O
  | S k =>
      if unusable (Z.of_nat k) then keptEntries l k
      else let* d := vget l (Z.of_nat k) in
           if bool_decide (d = None) then keptEntries l k else Ret (S k)
  end.

Definition cleanTail (l : t) : outcome t :=
  let* i := keptEntries l (length l) in Ret (take i l).

Definition deleteExtendedTrigger (l : t) (extendedTriggerIndex : Z) : outcome t :=
  if extendedTriggerIndex <? zlen l then
    let* l := vset l extendedTriggerIndex None in cleanTail l
  else Ret l.

Definition appendUsage (l : t) (stringId : Z) (stringUsers : list StringUser) (userMask : Z)
    : list StringUser :=
  fold_left (fun users d =>
    match d with
    | None => users
    | Some d =>
        let users :=
          if has_flag userMask StringUserFlag.ExtendedTriggerComment &&
             (ExtendedTrigData.commentStringId d =? stringId)
          then users ++ [mkStringUser StringUserFlag.ExtendedTriggerComment (ExtendedTrigData.trigNum d) 0]
          else users in
        if has_flag userMask StringUserFlag.ExtendedTriggerNotes &&
           (ExtendedTrigData.notesStringId d =? stringId)
        then users ++ [mkStringUser StringUserFlag.ExtendedTriggerNotes (ExtendedTrigData.trigNum d) 0]
        else users
    end) l stringUsers.

Definition editorStringUsed (l : t) (stringId userMask : Z) : bool :=
  existsb (fun d =>
    match d with
    | None => false
    | Some d =>
        (has_flag userMask StringUserFlag.ExtendedTriggerComment &&
           (ExtendedTrigData.commentStringId d =? stringId)) ||
        (has_flag userMask StringUserFlag.ExtendedTriggerNotes &&
           (ExtendedTrigData.notesStringId d =? stringId))
    end) l.

(** The ids are used as indices of the bits without a check. *)
Definition markUsedEditorStrings (l : t) (stringIdUsed : gset Z) (userMask : Z) : outcome (gset Z) :=
  for_each (fun d used =>
    match d with
    | None => Ret used
    | Some d =>
        let* used :=
          if has_flag userMask StringUserFlag.ExtendedTriggerComment &&
             negb (ExtendedTrigData.commentStringId d =? 0)
          then bs_set MaxStrings used (ExtendedTrigData.commentStringId d) else Ret used in
        if has_flag userMask StringUserFlag.ExtendedTriggerNotes &&
           negb (ExtendedTrigData.notesStringId d =? 0)
        then bs_set MaxStrings used (ExtendedTrigData.notesStringId d) else Ret used
    end) l stringIdUsed.

Definition remapEditorStringIds (l : t) (remappings : gmap Z Z) : t :=
  (fun d => match d with
   | None => None
   | Some d =>
       let d := match remappings !! ExtendedTrigData.commentStringId d with
                | Some w => d <| ExtendedTrigData.commentStringId := w |> | None => d end in
       Some (match remappings !! ExtendedTrigData.notesStringId d with
             | Some w => d <| ExtendedTrigData.notesStringId := w |> | None => d end)
   end) <$> l.

Definition deleteEditorString (l : t) (stringId : Z) : t :=
  (fun d => match d with
   | None => None
   | Some d =>
       let d := if ExtendedTrigData.commentStringId d =? stringId
                then d <| ExtendedTrigData.commentStringId := 0 |> else d in
       Some (if ExtendedTrigData.notesStringId d =? stringId
             then d <| ExtendedTrigData.notesStringId := 0 |> else d)
   end) <$> l.

Definition getSize (l : t) : Z := s32 (u64 (4 + zlen l * 20)).

(** The second [read] asks for the size of the whole section, the version
    that was already read included. *)
Definition read (sizeInBytes : Z) (ist : istream) (l : t) : outcome (t * Z * istream) :=
  if sizeInBytes <? 0 then Throw NegativeSectionSize
  else if sizeInBytes >? 0 then
    let '(version, ist) := istream_read ist 4 in
    if zlen version =? 4 then
      if sizeInBytes <? 4 then Throw LengthError (* the number of records wraps around *)
      else
        let readNum := (sizeInBytes - 4) / 20 in
        let buffer := replicate (Z.to_nat readNum) blankData in
        let '(got, ist) := istream_read ist sizeInBytes in
        let* buffer := vec_store ExtendedTrigData.layout buffer got in
        let new := imap (fun i d => if unusable (Z.of_nat i) then None else Some d) buffer in
        Ret (l ++ new, 4 + zlen got, ist)
    else Ret (l, zlen version, ist)
  else Ret (l, 0, ist).

Definition write (l : t) : bytes :=
  le_enc 4 2 ++ concat ((fun d => cenc ExtendedTrigData.layout (default blankData d)) <$> l).
End KtrgSection.

(** ** Properties *)

Lemma unusable_mod i : KtrgSection.unusable i = true -> i mod 4 = 0 \/ i mod 4 = 1.
Proof.
  intros H%Z.eqb_eq. assert (Hb : Z.testbit (Z.land i KtrgSection.UnusedExtendedTrigDataIndexCheck) 1 = false)
    by (rewrite H; apply Z.bits_0).
  rewrite Z.land_spec in Hb. change (Z.testbit KtrgSection.UnusedExtendedTrigDataIndexCheck 1) with true in Hb.
  rewrite andb_true_r in Hb. apply Z.testbit_false in Hb; [|lia]. change (2 ^ 1) with 2 in Hb.
  pose proof (Z.mod_pos_bound i 4). assert (i mod 4 = i mod 2 + 2 * ((i / 2) mod 2))
    by (change 4 with (2 * 2); apply Z.rem_mul_r; lia).
  pose proof (Z.mod_pos_bound i 2). lia.
Qed.

(** At most two indices in a row are unusable, so the fuel suffices. *)
Lemma skipUnusable_spec (l : KtrgSection.t) : exists n, KtrgSection.skipUnusable 2 l = Ret (l ++ replicate n None) /\
  KtrgSection.unusable (zlen (l ++ replicate n None)) = false.
Proof.
  cbn [KtrgSection.skipUnusable]. destruct (KtrgSection.unusable (zlen l)) eqn:E0.
  2: { exists 0%nat. cbn. by rewrite app_nil_r. }
  destruct (KtrgSection.unusable (zlen (l ++ [None]))) eqn:E1; [|by exists 1%nat].
  destruct (KtrgSection.unusable (zlen ((l ++ [None]) ++ [None]))) eqn:E2; [|exists 2%nat].
  - apply unusable_mod in E0, E1, E2. rewrite !zlen_app in *. cbn in E1, E2.
    change (zlen [None]) with 1 in *. Z.to_euclidean_division_equations. lia.
  - cbn. by rewrite <- app_assoc in *.
Qed.

(** [getExtendedTrigger] as a total lookup. *)
Lemma getExtendedTrigger_lookup (l : KtrgSection.t) i : 0 <= i ->
  KtrgSection.getExtendedTrigger l i = Ret (default None (l !! Z.to_nat i)).
Proof.
  intros Hi. unfold KtrgSection.getExtendedTrigger. destruct (Z.ltb_spec i (zlen l)) as [H|H].
  - destruct (vget_in l i) as (d & Hd & ->); [lia|]. by rewrite Hd.
  - rewrite lookup_ge_None_2; [done|]. unfold zlen in H. lia.
Qed.

(** [addExtendedTrigger] puts the data at a usable index that had none,
    where [getExtendedTrigger] finds it, and leaves every other index as it
    was; it always returns. *)
Theorem ktrg_add (l : KtrgSection.t) (d : ExtendedTrigData.ExtendedTrigData) : exists l' i,
  KtrgSection.addExtendedTrigger l (Some d) = Ret (l', i) /\ 0 <= i < zlen l' /\
  KtrgSection.unusable i = false /\ KtrgSection.getExtendedTrigger l i = Ret None /\
  KtrgSection.getExtendedTrigger l' i = Ret (Some d) /\
  forall j, 0 <= j -> j <> i -> KtrgSection.getExtendedTrigger l' j = KtrgSection.getExtendedTrigger l j.
Proof.
  unfold KtrgSection.addExtendedTrigger.
  destruct (first_such_vget l (fun i d => bool_decide (d = None) && negb (KtrgSection.unusable i))
    (zlen l) 0 eq_refl) as (o & -> & Ho); [lia|]. cbn [obind]. destruct o as [i|].
  - destruct Ho as (Hi & (v & Hv & Hq) & _). apply andb_true_iff in Hq as [->%bool_decide_eq_true Hu%negb_true_iff].
    rewrite vset_in by lia. cbn [obind]. eexists _, i. split; [done|]. rewrite zlen_insert.
    split; [lia|]. split; [done|]. unfold KtrgSection.getExtendedTrigger. rewrite zlen_insert.
    rewrite (proj2 (Z.ltb_lt i _)) by lia. split; [done|]. split.
    + rewrite vget_vset by lia. by rewrite decide_True.
    + intros j Hj Hne. rewrite vget_vset by lia. by rewrite decide_False.
  - destruct (skipUnusable_spec l) as (n & -> & Hu). cbn [obind]. eexists _, _. split; [done|].
    rewrite zlen_app. change (zlen [Some d]) with 1. pose proof (zlen_nonneg (l ++ replicate n None)).
    replace (zlen (l ++ replicate n None) + 1 - 1) with (zlen (l ++ replicate n None)) by lia.
    split; [lia|]. split; [done|]. rewrite !getExtendedTrigger_lookup by lia. split_and!.
    + rewrite lookup_ge_None_2; [done|]. unfold zlen. rewrite length_app. lia.
    + rewrite lookup_app_r by (unfold zlen; lia). unfold zlen. by rewrite Nat2Z.id, Nat.sub_diag.
    + intros j Hj Hne. rewrite !getExtendedTrigger_lookup by lia. f_equal.
      assert (Z.to_nat j <> length (l ++ replicate n None)) by (unfold zlen in Hne; lia).
      destruct (decide (Z.to_nat j < length l)%nat); [by rewrite <- app_assoc, lookup_app_l|].
      rewrite (lookup_ge_None_2 l) by lia. cbn [default].
      destruct (decide (Z.to_nat j < length (l ++ replicate n None))%nat).
      * rewrite lookup_app_l by done. rewrite lookup_app_r by lia. rewrite length_app, length_replicate in *.
        by rewrite lookup_replicate_2 by lia.
      * rewrite lookup_ge_None_2; [done|]. rewrite length_app. cbn. lia.
Qed.

Lemma keptEntries_spec (l : KtrgSection.t) i : (i <= length l)%nat ->
  exists k, KtrgSection.keptEntries l i = Ret k /\ (k <= i)%nat /\
    forall j, (k <= j < i)%nat -> KtrgSection.unusable (Z.of_nat j) = true \/ l !! j = Some None.
Proof.
  induction i as [|i IH]; intros Hi; [exists 0%nat; split_and!; [done | lia | lia]|].
  destruct IH as (k & Hk & Hki & Hrest); [lia|]. cbn [KtrgSection.keptEntries].
  assert (Hstep : KtrgSection.unusable (Z.of_nat i) = true \/ l !! i = Some None ->
    forall j, (k <= j < S i)%nat -> KtrgSection.unusable (Z.of_nat j) = true \/ l !! j = Some None).
  { intros H j Hj. destruct (decide (j = i)) as [->|]; [done | apply Hrest; lia]. }
  destruct (KtrgSection.unusable (Z.of_nat i)) eqn:Hu; [exists k; split_and!; [done | lia | by apply Hstep; left]|].
  destruct (vget_in l (Z.of_nat i)) as (d & Hd & ->); [unfold zlen; lia|]. cbn [obind]. rewrite Nat2Z.id in Hd.
  destruct d as [d|]; cbn [bool_decide].
  - exists (S i). rewrite bool_decide_eq_false_2 by done. split_and!; [done | lia | lia].
  - exists k. rewrite bool_decide_eq_true_2 by done. split_and!; [done | lia|]. apply Hstep. by right.
Qed.

(** The entry of an index; out of range there is none. *)
Definition ext (l : KtrgSection.t) (i : Z) : option ExtendedTrigData.ExtendedTrigData := default None (l !! Z.to_nat i).

Lemma getExtendedTrigger_ext (l : KtrgSection.t) i : 0 <= i -> KtrgSection.getExtendedTrigger l i = Ret (ext l i).
Proof. apply getExtendedTrigger_lookup. Qed.

(** Deleting drops trailing entries at unusable indices, too. *)
Lemma delete_ext (l : KtrgSection.t) (i : Z) : 0 <= i -> exists l', KtrgSection.deleteExtendedTrigger l i = Ret l' /\
  ext l' i = None /\
  forall j, 0 <= j -> j <> i -> ext l' j = ext l j \/ (ext l' j = None /\ KtrgSection.unusable j = true).
Proof.
  intros Hi. unfold KtrgSection.deleteExtendedTrigger. destruct (Z.ltb_spec i (zlen l)) as [Hlt|Hge].
  2: { exists l. split; [done|]. split; [|auto]. unfold ext. rewrite lookup_ge_None_2; [done|]. unfold zlen in Hge. lia. }
  rewrite vset_in by lia. cbn [obind]. unfold KtrgSection.cleanTail.
  destruct (keptEntries_spec (<[Z.to_nat i := None]> l) _ (le_n _)) as (k & Hk & Hle & Hrest).
  rewrite Hk. cbn [obind]. eexists. split; [done|]. unfold ext. split.
  - destruct (decide (Z.to_nat i < k)%nat); [|by rewrite lookup_take_ge by lia].
    rewrite lookup_take_lt by done. by rewrite list_lookup_insert_eq by (unfold zlen in *; lia).
  - intros j Hj Hne. destruct (decide (Z.to_nat j < k)%nat) as [Hjk|Hjk].
    { left. rewrite lookup_take_lt by done. by rewrite list_lookup_insert_ne by lia. }
    rewrite lookup_take_ge by lia. cbn [default].
    destruct (decide (Z.to_nat j < length (<[Z.to_nat i := None]> l))%nat) as [Hjl|Hjl].
    + destruct (Hrest (Z.to_nat j)) as [Hun|Hnone]; [lia|by right; rewrite Z2Nat.id in Hun|].
      left. rewrite list_lookup_insert_ne in Hnone by lia. by rewrite Hnone.
    + left. rewrite length_insert in Hjl. by rewrite (lookup_ge_None_2 l) by lia.
Qed.

(** [deleteExtendedTrigger] removes the data at its index and, with the
    trailing entries [cleanTail] drops, no data at any other usable index. *)
Theorem ktrg_delete (l : KtrgSection.t) (i : Z) : 0 <= i -> exists l',
  KtrgSection.deleteExtendedTrigger l i = Ret l' /\ KtrgSection.getExtendedTrigger l' i = Ret None /\
  forall j, 0 <= j -> j <> i -> KtrgSection.unusable j = false ->
    KtrgSection.getExtendedTrigger l' j = KtrgSection.getExtendedTrigger l j.
Proof.
  intros Hi. destruct (delete_ext l i Hi) as (l' & Hd & Hi' & Hget). exists l'. split; [done|].
  rewrite getExtendedTrigger_ext, Hi' by done. split; [done|].
  intros j Hj Hne Hu. rewrite !getExtendedTrigger_ext by done. f_equal.
  destruct (Hget j Hj Hne) as [?|[_ ?]]; congruence.
Qed.

(** Data at the first usable index. *)
Definition ktrg_sample : KtrgSection.t :=
  [None; None; Some (ExtendedTrigData.mkExtendedTrigData 7 0 0 0 0); None].

Lemma ktrg_delete_witness : exists l',
  KtrgSection.deleteExtendedTrigger ktrg_sample 2 = Ret l' /\ KtrgSection.getExtendedTrigger l' 2 = Ret None.
Proof. destruct (ktrg_delete ktrg_sample 2) as (l' & Hd & Hg & _); [lia|]. by exists l'. Defined.

(** *** Reading back *)

Definition ktrg_wf (l : KtrgSection.t) : Prop :=
  Forall (fun d => cwf ExtendedTrigData.layout (default KtrgSection.blankData d)) l.

(** What the records of [l] are when read: null only at unusable indices. *)
Definition reread (l : KtrgSection.t) : KtrgSection.t :=
  imap (fun i d => if KtrgSection.unusable (Z.of_nat i) then None else Some (default KtrgSection.blankData d)) l.

Lemma ktrg_write_enc l :
  KtrgSection.write l = le_enc 4 2 ++ arr_enc ExtendedTrigData.layout (default KtrgSection.blankData <$> l).
Proof.
  unfold KtrgSection.write. f_equal. induction l as [|d l IH]; [done|]. rewrite !fmap_cons. cbn [concat arr_enc]. by rewrite IH.
Qed.

Lemma istream_read_short bs rest n : zlen bs <= n -> rest = [] ->
  istream_read (mkIstream (bs ++ rest) true) n = (bs, mkIstream [] (n <=? zlen bs)).
Proof.
  intros Hn ->. rewrite app_nil_r. unfold istream_read. cbn [igood ibytes]. unfold zlen in *.
  by rewrite take_ge, drop_ge by lia.
Qed.

(** KTRG that is written and read back yields its records, a missing one
    as a blank one, when nothing follows the section in the stream.  The
    second read asks for the four bytes of the version again: when anything
    follows, it is stored past the end of the buffer. *)
Theorem ktrg_read_written (l prior : KtrgSection.t) (rest : bytes) : ktrg_wf l -> 4 + zlen l * 20 < 2 ^ 31 ->
  KtrgSection.read (KtrgSection.getSize l) (mkIstream (KtrgSection.write l ++ rest) true) prior =
  match rest with
  | [] => Ret (prior ++ reread l, KtrgSection.getSize l, mkIstream [] false)
  | _ => Undef
  end.
Proof.
  intros Hl Hsize. pose proof (zlen_nonneg l). set (l' := default KtrgSection.blankData <$> l).
  assert (Hl' : Forall (cwf ExtendedTrigData.layout) l') by (by apply Forall_fmap).
  assert (Hlen : length l' = length l) by (by apply length_fmap).
  assert (Hg : KtrgSection.getSize l = 4 + zlen l * 20).
  { unfold KtrgSection.getSize, u64. rewrite Z.mod_small by lia. by rewrite s32_id by lia. }
  rewrite Hg. unfold KtrgSection.read. rewrite (proj2 (Z.ltb_ge _ 0)) by lia.
  rewrite Z.gtb_ltb, (proj2 (Z.ltb_lt 0 _)) by lia. rewrite ktrg_write_enc, <- app_assoc. fold l'.
  change 4 with (zlen (le_enc 4 2)) at 2. rewrite istream_read_app.
  change (zlen (le_enc 4 2) =? 4) with true. cbn iota. rewrite (proj2 (Z.ltb_ge _ 4)) by lia.
  replace ((4 + zlen l * 20 - 4) / 20) with (zlen l) by (rewrite Z.add_simpl_l, Z.div_mul; lia).
  set (buffer := replicate (Z.to_nat (zlen l)) KtrgSection.blankData).
  assert (Hb : Forall (cwf ExtendedTrigData.layout) buffer) by (apply Forall_replicate; solve_default).
  assert (Hbl : length buffer = length l) by (unfold buffer, zlen; rewrite length_replicate; lia).
  assert (He : zlen (arr_enc ExtendedTrigData.layout l') = 20 * zlen l).
  { rewrite arr_enc_zlen by (done || apply _). change (elem_size ExtendedTrigData.layout) with 20. unfold zlen. by rewrite Hlen. }
  destruct rest as [|b rest].
  - rewrite istream_read_short by (done || lia). rewrite He, (proj2 (Z.leb_gt _ _)) by lia.
    rewrite vec_store_enc by (done || apply _ || lia). cbn [obind].
    rewrite drop_ge, app_nil_r by lia. do 2 f_equal. f_equal; [f_equal | lia].
    unfold l', reread. by rewrite imap_fmap.
  - unfold istream_read. cbn [igood ibytes]. unfold vec_store, store.
    rewrite (proj2 (Nat.leb_gt _ _)); [done|].
    rewrite length_take, length_app, !arr_enc_length by (done || apply _). cbn [length].
    rewrite Hbl, Hlen. change (csize ExtendedTrigData.layout) with 20%nat. unfold zlen. lia.
Qed.

Lemma ktrg_read_written_witness :
  KtrgSection.read 84 (mkIstream (KtrgSection.write ktrg_sample) true) [] =
    Ret (reread ktrg_sample, 84, mkIstream [] false) /\
  KtrgSection.read 84 (mkIstream (KtrgSection.write ktrg_sample ++ [84]) true) [] = Undef.
Proof.
  assert (H : ktrg_wf ktrg_sample) by (unfold ktrg_wf, ktrg_sample; repeat (constructor; [cbn [default]; solve_default|]); constructor).
  split.
  - rewrite <- (app_nil_r (KtrgSection.write ktrg_sample)). by apply (ktrg_read_written ktrg_sample [] []).
  - by apply (ktrg_read_written ktrg_sample [] [84]).
Defined.
