(* ===== verification/ScenarioStrings.v ===== *)
(** The string ids of a whole scenario (Scenario.cpp): which sections use a
    string, through the classes [Players], [Properties], [Layers] and
    [Triggers], and the class [Strings], the [StrSynchronizer] the string
    tables work with. *)
From S2P Require Import Prelude Codec ChkTypes ChkSection Accessors StringUsers Terrain Objects Locations TriggerTables Triggers TriggerStrings StringTable StrSection TableProps Ktrg.
Open Scope Z_scope.

(** The sections that use strings. *)
Record Sections := mkSections {
  sprp : SPRP.SPRP;
  forc : FORC.FORC;
  unis : UNIS.UNIS;
  unix : UNIx.UNIx;
  mrgn : list (option Location.Location);
  wav : WAV.WAV;
  swnm : SWNM.SWNM;
  trig : list Trigger.Trigger;
  mbrf : list Trigger.Trigger;
  ostr : OSTR.OSTR;
  ktrg : list (option ExtendedTrigData.ExtendedTrigData)
}.

(** [(mask & flags) > 0] (and [!= None]), [condition && test()] and
    [if ( condition ) f();]. *)
Definition any_flag (mask flags : Z) : bool := Z.land mask flags >? 0.
Definition guarded (c : bool) (o : outcome bool) : outcome bool := if c then o else Ret false.
Definition when {A} (c : bool) (f : A -> outcome A) (a : A) : outcome A := if c then f a else Ret a.

Module Players.
Definition appendUsage (s : Sections) (stringId : Z) (users : list StringUser) (userMask : Z)
    : outcome (list StringUser) :=
  when (has_flag userMask StringUserFlag.Force) (ForcSection.appendUsage (forc s) stringId) users.
Definition stringUsed (s : Sections) (stringId userMask : Z) : outcome bool :=
  guarded (has_flag userMask StringUserFlag.Force) (ForcSection.stringUsed (forc s) stringId).
Definition markUsedStrings (s : Sections) (stringIdUsed : gset Z) (userMask : Z) : outcome (gset Z) :=
  when (has_flag userMask StringUserFlag.Force) (ForcSection.markUsedStrings (forc s)) stringIdUsed.
Definition remapStringIds (s : Sections) (remappings : gmap Z Z) : outcome FORC.FORC :=
  ForcSection.remapStringIds (forc s) remappings.
Definition deleteString (s : Sections) (stringId : Z) : outcome FORC.FORC :=
  ForcSection.deleteString (forc s) stringId.
End Players.

Module Properties.
Definition appendUsage (s : Sections) (stringId : Z) (users : list StringUser) (userMask : Z)
    : outcome (list StringUser) :=
  let* users := when (has_flag userMask StringUserFlag.OriginalUnitSettings)
                  (UnisNames.appendUsage (unis s) stringId) users in
  when (has_flag userMask StringUserFlag.ExpansionUnitSettings)
    (UnixNames.appendUsage (unix s) stringId) users.
Definition stringUsed (s : Sections) (stringId userMask : Z) : outcome bool :=
  oor (guarded (has_flag userMask StringUserFlag.OriginalUnitSettings) (UnisNames.stringUsed (unis s) stringId))
      (guarded (has_flag userMask StringUserFlag.ExpansionUnitSettings) (UnixNames.stringUsed (unix s) stringId)).
Definition markUsedStrings (s : Sections) (stringIdUsed : gset Z) (userMask : Z) : outcome (gset Z) :=
  let* stringIdUsed := when (has_flag userMask StringUserFlag.OriginalUnitSettings)
                         (UnisNames.markUsedStrings (unis s)) stringIdUsed in
  when (has_flag userMask StringUserFlag.ExpansionUnitSettings)
    (UnixNames.markUsedStrings (unix s)) stringIdUsed.
Definition remapStringIds (s : Sections) (remappings : gmap Z Z) : outcome (UNIS.UNIS * UNIx.UNIx) :=
  let* u := UnisNames.remapStringIds (unis s) remappings in
  let* x := UnixNames.remapStringIds (unix s) remappings in Ret (u, x).
Definition deleteString (s : Sections) (stringId : Z) : outcome (UNIS.UNIS * UNIx.UNIx) :=
  let* u := UnisNames.deleteString (unis s) stringId in
  let* x := UnixNames.deleteString (unix s) stringId in Ret (u, x).
End Properties.

Module Layers.
Definition GameOverEditor : Z := 8.
Definition EditorOverGame : Z := 16.
Definition appendUsage (s : Sections) (stringId : Z) (users : list StringUser) (userMask : Z)
    : outcome (list StringUser) :=
  when (has_flag userMask StringUserFlag.Location) (MrgnSection.appendUsage (mrgn s) stringId) users.
Definition stringUsed (s : Sections) (stringId storageScope userMask : Z) : outcome bool :=
  if has_flag userMask StringUserFlag.Location then
    if (storageScope =? Scope.Either) || (storageScope =? EditorOverGame) || (storageScope =? GameOverEditor)
    then oor (MrgnSection.stringUsed (mrgn s) stringId)
             (OstrSection.stringUsed (ostr s) stringId StringUserFlag.Location)
    else if storageScope =? Scope.Game then MrgnSection.stringUsed (mrgn s) stringId
    else if storageScope =? Scope.Editor
    then OstrSection.stringUsed (ostr s) stringId StringUserFlag.Location
    else Ret false
  else Ret false.
Definition markUsedStrings (s : Sections) (stringIdUsed : gset Z) (userMask : Z) : outcome (gset Z) :=
  when (has_flag userMask StringUserFlag.Location) (MrgnSection.markUsedStrings (mrgn s)) stringIdUsed.
Definition remapStringIds (s : Sections) (remappings : gmap Z Z)
    : outcome (list (option Location.Location)) := MrgnSection.remapStringIds (mrgn s) remappings.
Definition deleteString (s : Sections) (stringId : Z) : outcome (list (option Location.Location)) :=
  MrgnSection.deleteString (mrgn s) stringId.
End Layers.

(** The class [Triggers]. *)
Module TriggersClass.
Definition appendUsage (s : Sections) (stringId : Z) (users : list StringUser) (storageScope userMask : Z)
    : outcome (list StringUser) :=
  let* users :=
    if has_flag storageScope Scope.Game then
      let* users := when (any_flag userMask StringUserFlag.Sound)
                      (WavSection.appendUsage (wav s) stringId) users in
      let* users := when (any_flag userMask StringUserFlag.Switch)
                      (SwnmSection.appendUsage (swnm s) stringId) users in
      let* users := when (any_flag userMask StringUserFlag.AnyTrigger)
                      (fun users => TrigSection.appendUsage (trig s) stringId users userMask) users in
      when (any_flag userMask StringUserFlag.AnyBriefingTrigger)
        (fun users => MbrfSection.appendUsage (mbrf s) stringId users userMask) users
    else Ret users in
  Ret (if has_flag storageScope Scope.Editor && any_flag userMask StringUserFlag.AnyTriggerExtension
       then KtrgSection.appendUsage (ktrg s) stringId users userMask else users).

Definition stringUsed (s : Sections) (stringId storageScope userMask : Z) : outcome bool :=
  if storageScope =? Scope.Game then
    oor (guarded (has_flag userMask StringUserFlag.Sound) (WavSection.stringUsed (wav s) stringId))
      (oor (guarded (has_flag userMask StringUserFlag.Switch) (SwnmSection.stringUsed (swnm s) stringId))
        (oor (guarded (any_flag userMask StringUserFlag.AnyTrigger)
                (TrigSection.stringUsed (trig s) stringId userMask))
             (guarded (any_flag userMask StringUserFlag.AnyBriefingTrigger)
                (MbrfSection.stringUsed (mbrf s) stringId userMask))))
  else guarded ((storageScope =? Scope.Editor) && any_flag userMask StringUserFlag.AnyTriggerExtension)
         (Ret (KtrgSection.editorStringUsed (ktrg s) stringId userMask)).

Definition gameStringUsed (s : Sections) (stringId userMask : Z) : outcome bool :=
  oor (guarded (any_flag userMask StringUserFlag.AnyTrigger)
         (TrigSection.gameStringUsed (trig s) stringId userMask))
      (guarded (any_flag userMask StringUserFlag.AnyBriefingTrigger)
         (MbrfSection.stringUsed (mbrf s) stringId StringUserFlag.AnyBriefingTrigger)).

Definition editorStringUsed (s : Sections) (stringId storageScope userMask : Z) : outcome bool :=
  if storageScope =? Scope.Game then
    oor (guarded (has_flag userMask StringUserFlag.Sound) (WavSection.stringUsed (wav s) stringId))
      (oor (guarded (has_flag userMask StringUserFlag.Switch) (SwnmSection.stringUsed (swnm s) stringId))
        (oor (guarded (has_flag userMask StringUserFlag.TriggerAction)
                (TrigSection.commentStringUsed (trig s) stringId))
             (guarded (any_flag userMask StringUserFlag.AnyTriggerExtension)
                (Ret (KtrgSection.editorStringUsed (ktrg s) stringId userMask)))))
  else guarded ((storageScope =? Scope.Editor) && any_flag userMask StringUserFlag.AnyTriggerExtension)
         (Ret (KtrgSection.editorStringUsed (ktrg s) stringId userMask)).

Definition markUsedStrings (s : Sections) (stringIdUsed : gset Z) (storageScope userMask : Z)
    : outcome (gset Z) :=
  if storageScope =? Scope.Game then
    let* bs := when (has_flag userMask StringUserFlag.Sound) (WavSection.markUsedStrings (wav s)) stringIdUsed in
    let* bs := when (has_flag userMask StringUserFlag.Switch) (SwnmSection.markUsedStrings (swnm s)) bs in
    let* bs := when (any_flag userMask StringUserFlag.AnyTrigger)
                 (fun bs => TrigSection.markUsedStrings (trig s) bs userMask) bs in
    when (any_flag userMask StringUserFlag.AnyBriefingTrigger)
      (fun bs => MbrfSection.markUsedStrings (mbrf s) bs userMask) bs
  else when ((storageScope =? Scope.Editor) && any_flag userMask StringUserFlag.AnyTriggerExtension)
         (fun bs => KtrgSection.markUsedEditorStrings (ktrg s) bs userMask) stringIdUsed.

Definition markUsedGameStrings (s : Sections) (stringIdUsed : gset Z) (userMask : Z) : outcome (gset Z) :=
  let* bs := when (any_flag userMask StringUserFlag.AnyTrigger)
               (fun bs => TrigSection.markUsedGameStrings (trig s) bs StringUserFlag.AnyTrigger) stringIdUsed in
  when (any_flag userMask StringUserFlag.AnyBriefingTrigger)
    (fun bs => MbrfSection.markUsedStrings (mbrf s) bs StringUserFlag.AnyBriefingTrigger) bs.

Definition markUsedEditorStrings (s : Sections) (stringIdUsed : gset Z) (storageScope userMask : Z)
    : outcome (gset Z) :=
  if storageScope =? Scope.Game then
    let* bs := when (has_flag userMask StringUserFlag.Sound) (WavSection.markUsedStrings (wav s)) stringIdUsed in
    let* bs := when (has_flag userMask StringUserFlag.Switch) (SwnmSection.markUsedStrings (swnm s)) bs in
    when (has_flag userMask StringUserFlag.TriggerAction) (TrigSection.markUsedCommentStrings (trig s)) bs
  else when ((storageScope =? Scope.Editor) && any_flag userMask StringUserFlag.AnyTriggerExtension)
         (fun bs => KtrgSection.markUsedEditorStrings (ktrg s) bs userMask) stringIdUsed.

Definition remapStringIds (s : Sections) (remappings : gmap Z Z) (storageScope : Z) : outcome Sections :=
  if storageScope =? Scope.Game then
    let* w := WavSection.remapStringIds (wav s) remappings in
    let* n := SwnmSection.remapStringIds (swnm s) remappings in
    let* t := TrigSection.remapStringIds (trig s) remappings in
    let* b := MbrfSection.remapStringIds (mbrf s) remappings in
    Ret (mkSections (sprp s) (forc s) (unis s) (unix s) (mrgn s) w n t b (ostr s) (ktrg s))
  else if storageScope =? Scope.Editor then
    Ret (mkSections (sprp s) (forc s) (unis s) (unix s) (mrgn s) (wav s) (swnm s) (trig s) (mbrf s) (ostr s)
           (KtrgSection.remapEditorStringIds (ktrg s) remappings))
  else Ret s.

Definition deleteString (s : Sections) (stringId storageScope : Z) : outcome Sections :=
  if storageScope =? Scope.Game then
    let* w := WavSection.deleteString (wav s) stringId in
    let* n := SwnmSection.deleteString (swnm s) stringId in
    let* t := TrigSection.deleteString (trig s) stringId in
    let* b := MbrfSection.deleteString (mbrf s) stringId in
    Ret (mkSections (sprp s) (forc s) (unis s) (unix s) (mrgn s) w n t b (ostr s) (ktrg s))
  else if storageScope =? Scope.Editor then
    Ret (mkSections (sprp s) (forc s) (unis s) (unix s) (mrgn s) (wav s) (swnm s) (trig s) (mbrf s) (ostr s)
           (KtrgSection.deleteEditorString (ktrg s) stringId))
  else Ret s.
End TriggersClass.

Module Strings.
Definition appendUsage (s : Sections) (stringId : Z) (users : list StringUser) (storageScope userMask : Z)
    : outcome (list StringUser) :=
  if storageScope =? Scope.Game then
    if stringId <? MaxStrings then
      let users := if any_flag userMask StringUserFlag.ScenarioProperties
                   then SprpSection.appendUsage (sprp s) stringId users userMask else users in
      let* users := when (any_flag userMask StringUserFlag.Force)
                      (fun users => Players.appendUsage s stringId users userMask) users in
      let* users := when (any_flag userMask StringUserFlag.BothUnitSettings)
                      (fun users => Properties.appendUsage s stringId users userMask) users in
      let* users := when (any_flag userMask StringUserFlag.Location)
                      (fun users => Layers.appendUsage s stringId users userMask) users in
      when (any_flag userMask StringUserFlag.AnyTrigger)
        (fun users => TriggersClass.appendUsage s stringId users storageScope userMask) users
    else when (any_flag userMask StringUserFlag.AnyTrigger)
           (fun users => TriggersClass.appendUsage s stringId users storageScope userMask) users
  else if storageScope =? Scope.Editor
  then OstrSection.appendUsage (ostr s) stringId users userMask
  else Ret users.

(** [gameStored] and [editorStored] say whether STR and KSTR have a string
    under the id, which only matters with [ensureStored]. *)
Definition stringUsed (gameStored editorStored : bool) (s : Sections)
    (stringId usageScope storageScope userMask : Z) (ensureStored : bool) : outcome bool :=
  if (storageScope =? Scope.Game) && (gameStored || negb ensureStored) then
    if stringId <? MaxStrings then
      if usageScope =? Scope.Editor then
        oor (Layers.stringUsed s stringId storageScope userMask)
            (TriggersClass.editorStringUsed s stringId storageScope userMask)
      else if usageScope =? Scope.Game then
        oor (Ret (SprpSection.stringUsed (sprp s) stringId userMask))
          (oor (Players.stringUsed s stringId userMask)
            (oor (Properties.stringUsed s stringId userMask)
                 (TriggersClass.gameStringUsed s stringId userMask)))
      else
        oor (Ret (SprpSection.stringUsed (sprp s) stringId userMask))
          (oor (Players.stringUsed s stringId userMask)
            (oor (Properties.stringUsed s stringId userMask)
              (oor (Layers.stringUsed s stringId storageScope userMask)
                   (TriggersClass.stringUsed s stringId storageScope userMask))))
    else
      oor (guarded (usageScope =? Scope.Either) (TriggersClass.stringUsed s stringId storageScope userMask))
        (oor (guarded (usageScope =? Scope.Game) (TriggersClass.gameStringUsed s stringId userMask))
             (guarded (usageScope =? Scope.Editor)
                (TriggersClass.editorStringUsed s stringId storageScope userMask)))
  else if (storageScope =? Scope.Editor) && (editorStored || negb ensureStored)
  then OstrSection.stringUsed (ostr s) stringId userMask
  else Ret false.

Definition markUsedStrings (s : Sections) (stringIdUsed : gset Z) (usageScope storageScope userMask : Z)
    : outcome (gset Z) :=
  if storageScope =? Scope.Game then
    let markGameStrings := has_flag usageScope Scope.Game in
    let markEditorStrings := has_flag usageScope Scope.Editor in
    let* bs :=
      if markGameStrings then
        let* bs := SprpSection.markUsedStrings (sprp s) stringIdUsed userMask in
        let* bs := Players.markUsedStrings s bs userMask in
        let* bs := Properties.markUsedStrings s bs userMask in
        if markEditorStrings then TriggersClass.markUsedStrings s bs storageScope userMask
        else TriggersClass.markUsedGameStrings s bs userMask
      else Ret stringIdUsed in
    if markEditorStrings then
      let* bs := Layers.markUsedStrings s bs userMask in
      if negb markGameStrings then TriggersClass.markUsedEditorStrings s bs storageScope userMask else Ret bs
    else Ret bs
  else if storageScope =? Scope.Editor then
    let* bs := OstrSection.markUsedStrings (ostr s) stringIdUsed userMask in
    TriggersClass.markUsedStrings s bs storageScope userMask
  else Ret stringIdUsed.

Definition remapStringIds (s : Sections) (remappings : gmap Z Z) (storageScope : Z) : outcome Sections :=
  if storageScope =? Scope.Game then
    let p := SprpSection.remapStringIds (sprp s) remappings in
    let* f := Players.remapStringIds s remappings in
    let* ux := Properties.remapStringIds s remappings in
    let* l := Layers.remapStringIds s remappings in
    TriggersClass.remapStringIds
      (mkSections p f ux.1 ux.2 l (wav s) (swnm s) (trig s) (mbrf s) (ostr s) (ktrg s)) remappings storageScope
  else if storageScope =? Scope.Editor then
    let* o := OstrSection.remapStringIds (ostr s) remappings in
    TriggersClass.remapStringIds
      (mkSections (sprp s) (forc s) (unis s) (unix s) (mrgn s) (wav s) (swnm s) (trig s) (mbrf s) o (ktrg s))
      remappings storageScope
  else Ret s.

(** [Strings] as the synchronizer of STR and KSTR, each of which asks for its
    own storage scope and passes its own strings; the scope [Either], which
    compares both tables, is not asked for. *)
Definition markValidUsedStrings (s : Sections) (strings : table) (usageScope storageScope : Z)
    (stringIdUsed : gset Z) : outcome (gset Z) :=
  let* bs := markUsedStrings s stringIdUsed usageScope storageScope StringUserFlag.All in
  if (storageScope =? Scope.Game) || (storageScope =? Scope.Editor)
  then StringTable.unmarkUnstoredStrings strings bs else Undef.

Definition synchronizer : StrSynchronizer Sections := mkStrSynchronizer _
  (fun s stringId usageScope storageScope userMask =>
     stringUsed true true s stringId usageScope storageScope userMask false)
  (fun s usageScope storageScope bs => markUsedStrings s bs usageScope storageScope StringUserFlag.All)
  markValidUsedStrings
  remapStringIds
  (fun strings _ => StrSection.stringsToBytes strings).

(** [deleteString] for the storage scope [Game]. *)
Definition deleteGameString (str : StrSection.StrSection) (s : Sections) (stringId : Z)
    (deleteOnlyIfUnused : bool) : outcome (StrSection.StrSection * Sections) :=
  let* stored := StrSection.stringStored str stringId in
  let* used := if deleteOnlyIfUnused
               then stringUsed stored true s stringId Scope.Game Scope.Game StringUserFlag.All false
               else Ret false in
  if negb deleteOnlyIfUnused || negb used then
    let* r := StrSection.deleteString synchronizer str stringId deleteOnlyIfUnused (Some s) in
    let p := SprpSection.deleteString (sprp s) stringId in
    let* f := Players.deleteString s stringId in
    let* ux := Properties.deleteString s stringId in
    let* l := Layers.deleteString s stringId in
    let* s := TriggersClass.deleteString
      (mkSections p f ux.1 ux.2 l (wav s) (swnm s) (trig s) (mbrf s) (ostr s) (ktrg s)) stringId Scope.Game in
    Ret (r.1, s)
  else Ret (str, s).
End Strings.
