(* ===== verification/ScenarioProps.v ===== *)
(** Properties of the strings of a whole scenario: [Strings] is a lawful
    synchronizer for STR, its operations obey the contract of the string
    users over all the sections at once, and what happens when it deletes or
    moves a string. *)
From S2P Require Import Prelude Codec ChkTypes ChkSection Accessors StringUsers Terrain Objects Locations TriggerTables Triggers TriggerStrings StringTable StrSection TableProps Ktrg ScenarioStrings.
Open Scope Z_scope.

Record scenario_wf (s : Sections) : Prop := mkScenarioWf {
  wf_sprp : cwf SPRP.layout (sprp s);
  wf_forc : cwf FORC.layout (forc s);
  wf_unis : cwf UNIS.layout (unis s);
  wf_unix : cwf UNIx.layout (unix s);
  wf_mrgn : mrgn_wf (mrgn s);
  wf_wav : cwf WAV.layout (wav s);
  wf_swnm : cwf SWNM.layout (swnm s);
  wf_trig : trig_wf (trig s);
  wf_mbrf : trig_wf (mbrf s)
}.

(** Every use of a string of STR. *)
Definition game_users (s : Sections) : list (StringUser * Z) :=
  sprp_users (sprp s) ++ forc_users (forc s) ++ unis_users (unis s) ++ unix_users (unix s) ++
  mrgn_users (mrgn s) ++ wav_users (wav s) ++ swnm_users (swnm s) ++
  trig_section_users (trig s) ++ mbrf_section_users (mbrf s).

(** The laws of the sections, as rewrite rules. *)
Section laws.
Context (s : Sections) (Hs : scenario_wf s).

Lemma sprp_mark bs : SprpSection.markUsedStrings (sprp s) bs StringUserFlag.All =
  Ret (ids_set (sprp_users (sprp s)).*2 ∪ bs).
Proof. exact (law_markUsedStrings (ops := sprp_ops) _ bs (wf_sprp s Hs) I). Qed.
Lemma forc_mark bs : ForcSection.markUsedStrings (forc s) bs = Ret (ids_set (forc_users (forc s)).*2 ∪ bs).
Proof. exact (law_markUsedStrings (ops := forc_ops) _ bs (wf_forc s Hs) I). Qed.
Lemma unis_mark bs : UnisNames.markUsedStrings (unis s) bs = Ret (ids_set (unis_users (unis s)).*2 ∪ bs).
Proof. exact (law_markUsedStrings (ops := unis_ops) _ bs (wf_unis s Hs) I). Qed.
Lemma unix_mark bs : UnixNames.markUsedStrings (unix s) bs = Ret (ids_set (unix_users (unix s)).*2 ∪ bs).
Proof. exact (law_markUsedStrings (ops := unix_ops) _ bs (wf_unix s Hs) I). Qed.
Lemma mrgn_mark' bs : MrgnSection.markUsedStrings (mrgn s) bs = Ret (ids_set (mrgn_users (mrgn s)).*2 ∪ bs).
Proof. exact (law_markUsedStrings (ops := mrgn_ops) _ bs (wf_mrgn s Hs) I). Qed.
Lemma wav_mark bs : WavSection.markUsedStrings (wav s) bs = Ret (ids_set (wav_users (wav s)).*2 ∪ bs).
Proof. exact (law_markUsedStrings (ops := wav_ops) _ bs (wf_wav s Hs) I). Qed.
Lemma swnm_mark bs : SwnmSection.markUsedStrings (swnm s) bs = Ret (ids_set (swnm_users (swnm s)).*2 ∪ bs).
Proof. exact (law_markUsedStrings (ops := swnm_ops) _ bs (wf_swnm s Hs) I). Qed.
Lemma trig_mark' bs : TrigSection.markUsedStrings (trig s) bs StringUserFlag.All =
  Ret (ids_set (trig_section_users (trig s)).*2 ∪ bs).
Proof. exact (law_markUsedStrings (StringUserLaws := trig_laws) _ bs (wf_trig s Hs) I). Qed.
Lemma mbrf_mark bs : MbrfSection.markUsedStrings (mbrf s) bs StringUserFlag.All =
  Ret (ids_set (mbrf_section_users (mbrf s)).*2 ∪ bs).
Proof. exact (law_markUsedStrings (StringUserLaws := mbrf_laws) _ bs (wf_mbrf s Hs) I). Qed.

Lemma scenario_mark bs :
  Strings.markUsedStrings s bs Scope.Either Scope.Game StringUserFlag.All =
  Ret (ids_set (game_users s).*2 ∪ bs).
Proof.
  unfold Strings.markUsedStrings, Players.markUsedStrings, Properties.markUsedStrings,
    Layers.markUsedStrings, TriggersClass.markUsedStrings, when, any_flag.
  change (Scope.Game =? Scope.Game) with true.
  change (has_flag Scope.Either Scope.Game) with true. change (has_flag Scope.Either Scope.Editor) with true.
  change (has_flag StringUserFlag.All StringUserFlag.Force) with true.
  change (has_flag StringUserFlag.All StringUserFlag.OriginalUnitSettings) with true.
  change (has_flag StringUserFlag.All StringUserFlag.ExpansionUnitSettings) with true.
  change (has_flag StringUserFlag.All StringUserFlag.Location) with true.
  change (has_flag StringUserFlag.All StringUserFlag.Sound) with true.
  change (has_flag StringUserFlag.All StringUserFlag.Switch) with true.
  change (Z.land StringUserFlag.All StringUserFlag.AnyTrigger >? 0) with true.
  change (Z.land StringUserFlag.All StringUserFlag.AnyBriefingTrigger >? 0) with true.
  cbn [negb]. rewrite sprp_mark. cbn [obind]. rewrite forc_mark. cbn [obind].
  rewrite unis_mark. cbn [obind]. rewrite unix_mark. cbn [obind]. rewrite wav_mark. cbn [obind].
  rewrite swnm_mark. cbn [obind]. rewrite trig_mark'. cbn [obind]. rewrite mbrf_mark. cbn [obind].
  rewrite mrgn_mark'. cbn [obind]. f_equal. unfold game_users. rewrite !fmap_app, !ids_set_app. set_solver.
Qed.
End laws.

(** ** The synchronizer of STR *)

#[export] Instance strings_synchronizer_laws :
  StrSynchronizerLaws Scope.Game Strings.synchronizer scenario_wf (fun s => ids_set (game_users s).*2).
Proof.
  split; cbn [Strings.synchronizer sync_markUsedStrings sync_markValidUsedStrings].
  - intros s i _ Hi. apply elem_of_ids_set in Hi as [Hi _]. exact Hi.
  - intros s Hs. rewrite scenario_mark by done. f_equal. apply union_empty_r_L.
  - intros s strings Hs. unfold Strings.markValidUsedStrings. rewrite scenario_mark by done. cbn [obind]. by rewrite union_empty_r_L.
Qed.

(** ** The users of a scenario *)

Section users.
Context (s : Sections) (Hs : scenario_wf s) (id : Z) (Hid : is_u 16 id).

Lemma is_u_16_32 : is_u 32 id.
Proof. unfold is_u in *. lia. Qed.

Lemma used_app (l l' : list (StringUser * Z)) :
  bool_decide (id ∈ (l ++ l').*2) = bool_decide (id ∈ l.*2) || bool_decide (id ∈ l'.*2).
Proof.
  rewrite fmap_app. apply eq_true_iff_eq. rewrite orb_true_iff, !bool_decide_eq_true. apply elem_of_app.
Qed.

Lemma scenario_used stored stored' :
  Strings.stringUsed stored stored' s id Scope.Either Scope.Game StringUserFlag.All false =
  Ret (bool_decide (id ∈ (game_users s).*2)).
Proof.
  unfold Strings.stringUsed, Players.stringUsed, Properties.stringUsed, Layers.stringUsed,
    TriggersClass.stringUsed, guarded, any_flag.
  change (Scope.Game =? Scope.Game) with true. cbn [negb]. rewrite orb_true_r. cbn [andb].
  rewrite (proj2 (Z.ltb_lt id MaxStrings)) by (unfold is_u, MaxStrings in *; lia).
  change (Scope.Either =? Scope.Editor) with false. change (Scope.Either =? Scope.Game) with false.
  repeat match goal with |- context [has_flag StringUserFlag.All ?f] =>
    change (has_flag StringUserFlag.All f) with true end.
  change (Z.land StringUserFlag.All StringUserFlag.AnyTrigger >? 0) with true.
  change (Z.land StringUserFlag.All StringUserFlag.AnyBriefingTrigger >? 0) with true.
  change ((Scope.Game =? Scope.Either) || (Scope.Game =? Layers.EditorOverGame) ||
    (Scope.Game =? Layers.GameOverEditor)) with false. cbn iota.
  rewrite (law_stringUsed (ops := sprp_ops) _ id (wf_sprp s Hs) Hid
    : Ret (SprpSection.stringUsed (sprp s) id StringUserFlag.All) = _).
  rewrite (law_stringUsed (ops := forc_ops) _ id (wf_forc s Hs) Hid
    : ForcSection.stringUsed (forc s) id = _).
  rewrite (law_stringUsed (ops := unis_ops) _ id (wf_unis s Hs) Hid
    : UnisNames.stringUsed (unis s) id = _).
  rewrite (law_stringUsed (ops := unix_ops) _ id (wf_unix s Hs) Hid
    : UnixNames.stringUsed (unix s) id = _).
  rewrite (law_stringUsed (ops := mrgn_ops) _ id (wf_mrgn s Hs) Hid
    : MrgnSection.stringUsed (mrgn s) id = _).
  rewrite (law_stringUsed (ops := wav_ops) _ id (wf_wav s Hs) is_u_16_32
    : WavSection.stringUsed (wav s) id = _).
  rewrite (law_stringUsed (ops := swnm_ops) _ id (wf_swnm s Hs) is_u_16_32
    : SwnmSection.stringUsed (swnm s) id = _).
  rewrite (law_stringUsed (StringUserLaws := trig_laws) _ id (wf_trig s Hs) is_u_16_32
    : TrigSection.stringUsed (trig s) id StringUserFlag.All = _).
  rewrite (law_stringUsed (StringUserLaws := mbrf_laws) _ id (wf_mbrf s Hs) is_u_16_32
    : MbrfSection.stringUsed (mbrf s) id StringUserFlag.All = _).
  rewrite !oor_ret. unfold game_users. rewrite !used_app. f_equal. by rewrite <- !orb_assoc.
Qed.

Lemma scenario_append us :
  Strings.appendUsage s id us Scope.Game StringUserFlag.All = Ret (us ++ users_of id (game_users s)).
Proof.
  unfold Strings.appendUsage, Players.appendUsage, Properties.appendUsage, Layers.appendUsage,
    TriggersClass.appendUsage, when, any_flag.
  change (Scope.Game =? Scope.Game) with true. cbn iota.
  rewrite (proj2 (Z.ltb_lt id MaxStrings)) by (unfold is_u, MaxStrings in *; lia).
  change (has_flag Scope.Game Scope.Game) with true. change (has_flag Scope.Game Scope.Editor) with false.
  repeat match goal with |- context [has_flag StringUserFlag.All ?f] =>
    change (has_flag StringUserFlag.All f) with true end.
  repeat match goal with |- context [Z.land StringUserFlag.All ?f >? 0] =>
    change (Z.land StringUserFlag.All f >? 0) with true end.
  cbn [andb].
  assert (Hsprp := law_appendUsage (ops := sprp_ops) _ id us (wf_sprp s Hs) Hid).
  cbn [sprp_ops op_appendUsage] in Hsprp. injection Hsprp as ->.
  rewrite (fun us => (law_appendUsage (ops := forc_ops) _ id us (wf_forc s Hs) Hid
    : ForcSection.appendUsage (forc s) id us = _)). cbn [obind].
  rewrite (fun us => (law_appendUsage (ops := unis_ops) _ id us (wf_unis s Hs) Hid
    : UnisNames.appendUsage (unis s) id us = _)). cbn [obind].
  rewrite (fun us => (law_appendUsage (ops := unix_ops) _ id us (wf_unix s Hs) Hid
    : UnixNames.appendUsage (unix s) id us = _)). cbn [obind].
  rewrite (fun us => (law_appendUsage (ops := mrgn_ops) _ id us (wf_mrgn s Hs) Hid
    : MrgnSection.appendUsage (mrgn s) id us = _)). cbn [obind].
  rewrite (fun us => (law_appendUsage (ops := wav_ops) _ id us (wf_wav s Hs) is_u_16_32
    : WavSection.appendUsage (wav s) id us = _)). cbn [obind].
  rewrite (fun us => (law_appendUsage (ops := swnm_ops) _ id us (wf_swnm s Hs) is_u_16_32
    : SwnmSection.appendUsage (swnm s) id us = _)). cbn [obind].
  rewrite (fun us => (law_appendUsage (StringUserLaws := trig_laws) _ id us (wf_trig s Hs) is_u_16_32
    : TrigSection.appendUsage (trig s) id us StringUserFlag.All = _)). cbn [obind].
  rewrite (fun us => (law_appendUsage (StringUserLaws := mbrf_laws) _ id us (wf_mbrf s Hs) is_u_16_32
    : MbrfSection.appendUsage (mbrf s) id us StringUserFlag.All = _)). cbn [obind].
  unfold game_users. rewrite !users_of_app, !app_assoc. done.
Qed.
End users.

(** ** Remapping and deleting *)

Lemma scenario_remap s m : scenario_wf s -> map_Forall (fun _ w => is_u 16 w) m ->
  exists s', Strings.remapStringIds s m Scope.Game = Ret s' /\ scenario_wf s' /\
    game_users s' = prod_map id (remap1 id m) <$> game_users s.
Proof.
  intros Hs Hm. assert (Hm32 : map_Forall (fun _ w => is_u 32 w) m).
  { intros k w Hk. specialize (Hm k w Hk). by apply is_u_16_32. }
  destruct (law_remapStringIds (ops := sprp_ops) _ m (wf_sprp s Hs) Hm) as (sprp' & Rsprp & Wsprp & Usprp).
  destruct (law_remapStringIds (ops := forc_ops) _ m (wf_forc s Hs) Hm) as (forc' & Rforc & Wforc & Uforc).
  destruct (law_remapStringIds (ops := unis_ops) _ m (wf_unis s Hs) Hm) as (unis' & Runis & Wunis & Uunis).
  destruct (law_remapStringIds (ops := unix_ops) _ m (wf_unix s Hs) Hm) as (unix' & Runix & Wunix & Uunix).
  destruct (law_remapStringIds (ops := mrgn_ops) _ m (wf_mrgn s Hs) Hm) as (mrgn' & Rmrgn & Wmrgn & Umrgn).
  destruct (law_remapStringIds (ops := wav_ops) _ m (wf_wav s Hs) Hm32) as (wav' & Rwav & Wwav & Uwav).
  destruct (law_remapStringIds (ops := swnm_ops) _ m (wf_swnm s Hs) Hm32) as (swnm' & Rswnm & Wswnm & Uswnm).
  destruct (law_remapStringIds (StringUserLaws := trig_laws) _ m (wf_trig s Hs) Hm32) as (trig' & Rtrig & Wtrig & Utrig).
  destruct (law_remapStringIds (StringUserLaws := mbrf_laws) _ m (wf_mbrf s Hs) Hm32) as (mbrf' & Rmbrf & Wmbrf & Umbrf).
  cbn in Rsprp, Rforc, Runis, Runix, Rmrgn, Rwav, Rswnm, Rtrig, Rmbrf. injection Rsprp as <-.
  unfold Strings.remapStringIds, Players.remapStringIds, Properties.remapStringIds, Layers.remapStringIds,
    TriggersClass.remapStringIds. change (Scope.Game =? Scope.Game) with true. cbn [wav swnm trig mbrf].
  rewrite Rforc. cbn [obind]. rewrite Runis. cbn [obind]. rewrite Runix. cbn [obind].
  rewrite Rmrgn. cbn [obind]. rewrite Rwav. cbn [obind]. rewrite Rswnm. cbn [obind].
  rewrite Rtrig. cbn [obind]. rewrite Rmbrf. cbn [obind].
  eexists. split; [reflexivity|]. split; [by split|].
  unfold game_users. cbn [sprp forc unis unix mrgn wav swnm trig mbrf fst snd].
  rewrite !fmap_app. congruence.
Qed.

(** C13: over a whole scenario the class [Strings] acts on the list of all the
    users of game strings (the scenario's properties, forces, unit names,
    locations, sounds, switches, trigger and briefing actions): it marks
    exactly the ids they use, finds a string used exactly when one of them
    uses it, lists them all, and remapping changes the id of each of them and
    nothing else of the list. *)
Theorem scenario_string_contracts s : scenario_wf s ->
  (forall bs, Strings.markUsedStrings s bs Scope.Either Scope.Game StringUserFlag.All =
     Ret (ids_set (game_users s).*2 ∪ bs)) /\
  (forall id stored stored', is_u 16 id ->
     Strings.stringUsed stored stored' s id Scope.Either Scope.Game StringUserFlag.All false =
     Ret (bool_decide (id ∈ (game_users s).*2))) /\
  (forall id us, is_u 16 id -> Strings.appendUsage s id us Scope.Game StringUserFlag.All =
     Ret (us ++ users_of id (game_users s))) /\
  (forall m, map_Forall (fun _ w => is_u 16 w) m ->
     exists s', Strings.remapStringIds s m Scope.Game = Ret s' /\ scenario_wf s' /\
       game_users s' = prod_map id (remap1 id m) <$> game_users s).
Proof.
  intros Hs. split_and!.
  - by apply scenario_mark.
  - intros. by apply scenario_used.
  - intros. by apply scenario_append.
  - intros. by apply scenario_remap.
Qed.

(** A blank scenario whose one location has the name 3. *)
Definition blank {S} (layout : codec S) : S := cdec layout (replicate (csize layout) 0).

Definition scenario_sample : Sections := mkSections
  (SprpSection.GetDefault 1 2) ForcSection.GetDefault (blank UNIS.layout) (blank UNIx.layout)
  [None; Some (Location.mkLocation 0 0 64 64 3 0)] WavSection.GetDefault SwnmSection.GetDefault [] []
  (blank OSTR.layout) [None].

Lemma scenario_sample_wf : scenario_wf scenario_sample.
Proof.
  split; cbn [sprp forc unis unix mrgn wav swnm trig mbrf scenario_sample]; try solve_default; try by constructor.
  exists [Location.mkLocation 0 0 64 64 3 0]. split; [done|]. apply Forall_singleton. solve_default.
Qed.

Lemma scenario_string_contracts_witness :
  Strings.markUsedStrings scenario_sample ∅ Scope.Either Scope.Game StringUserFlag.All =
  Ret (ids_set (game_users scenario_sample).*2 ∪ ∅).
Proof. exact (proj1 (scenario_string_contracts scenario_sample scenario_sample_wf) ∅). Defined.

(** *** Moving *)

Lemma cascade_free fuel to_ l step c : to_ ∉ cused c -> cascade fuel to_ l step c = Ret c.
Proof. intros H. destruct fuel; cbn [cascade]; by rewrite bool_decide_eq_false_2. Qed.

Lemma inserted_one from to_ (m : gmap Z Z) : m = ∅ \/ m = {[from := to_]} ->
  inserted m from to_ = {[from := to_]}.
Proof.
  intros [->| ->]; unfold inserted.
  - by rewrite lookup_empty, decide_False by (by intros []).
  - by rewrite lookup_singleton_eq, decide_True by eauto.
Qed.

Lemma remap_one from to_ v : remap1 id {[from := to_]} v = if v =? from then to_ else v.
Proof.
  unfold remap1. destruct (Z.eqb_spec v from) as [->|Hv]; [by rewrite lookup_singleton_eq|].
  by rewrite lookup_singleton_ne by done.
Qed.

(** With nothing marked, the string is copied over the target. *)
Lemma moveString_unmarked {Σ} (sync : StrSynchronizer Σ) storage strings σ from to_ moved :
  sync_markUsedStrings sync σ storage Scope.Either ∅ = Ret ∅ ->
  0 < Z.min from to_ -> Z.max from to_ < zlen strings -> Z.max from to_ < MaxStrings -> from <> to_ ->
  vget strings from = Ret moved ->
  StringTable.moveString sync storage strings σ from to_ =
  let* σ := sync_remapStringIds sync σ {[from := to_]} storage in
  Ret (<[Z.to_nat to_ := moved]> strings, σ).
Proof.
  intros Hmark Hmin Hmax Hlim Hne Hmoved. unfold StringTable.moveString.
  rewrite (proj2 (Z.gtb_lt _ _)), (proj2 (Z.leb_le _ _)), (proj2 (Z.eqb_neq _ _)) by lia. cbn [andb negb].
  rewrite Hmark. cbn [obind]. rewrite Hmoved. cbn [obind]. rewrite (proj2 (Z.ltb_lt _ _)) by lia. cbn [negb].
  rewrite !cascade_free by (cbn; unfold bs_clear; set_solver).
  destruct (to_ <? from); cbn [obind cstrings cremap];
    rewrite ?(inserted_one from to_ ∅) by auto; rewrite vset_in by lia; cbn [obind];
    by rewrite ?inserted_one by auto.
Qed.

(** C28: [StrSection::moveString] passes its storage scope where [Strings]
    takes the usage scope, and [Strings] marks nothing for the default storage
    scope: with the scenario as synchronizer no string is in the way.  The
    string that was at the target is lost, the moved one also stays where it
    was, and the users of both ids all use the target. *)
Theorem scenario_moveString_overwrites str s from to_ : scenario_wf s ->
  0 < Z.min from to_ -> Z.max from to_ < zlen (StrSection.strings str) -> Z.max from to_ < MaxStrings ->
  from <> to_ ->
  exists strings' s' moved,
    StrSection.moveString Strings.synchronizer str s from to_ = Ret (StrSection.setStrings str strings', s') /\
    vget (StrSection.strings str) from = Ret moved /\ vget strings' to_ = Ret moved /\
    vget strings' from = Ret moved /\
    (forall i, 0 <= i -> i <> to_ -> vget strings' i = vget (StrSection.strings str) i) /\
    scenario_wf s' /\
    game_users s' = prod_map id (fun i => if i =? from then to_ else i) <$> game_users s.
Proof.
  intros Hs Hmin Hmax Hlim Hne.
  destruct (vget_in (StrSection.strings str) from) as (moved & _ & Hmoved); [lia|].
  assert (Hm : map_Forall (fun _ w => is_u 16 w) ({[from := to_]} : gmap Z Z)).
  { apply map_Forall_singleton. unfold is_u, MaxStrings in *. lia. }
  destruct (scenario_remap s _ Hs Hm) as (s' & Hr & Hs' & Hu).
  exists (<[Z.to_nat to_ := moved]> (StrSection.strings str)), s', moved.
  unfold StrSection.moveString. rewrite (moveString_unmarked _ _ _ _ _ _ moved) by done.
  cbn [Strings.synchronizer sync_remapStringIds]. rewrite Hr. cbn [obind fst snd].
  split; [done|]. split; [done|]. rewrite !vget_vset by lia. rewrite decide_True, decide_False by done.
  split_and!; [done | done | | done |].
  - intros i Hi Hn. rewrite vget_vset by lia. by rewrite decide_False.
  - rewrite Hu. apply list_fmap_ext. intros k [u v] _. cbn. f_equal. apply remap_one.
Qed.

Lemma scenario_moveString_overwrites_witness : exists strings' s' moved,
  StrSection.moveString Strings.synchronizer (StrSection.GetDefault false) scenario_sample 2 1 =
    Ret (StrSection.setStrings (StrSection.GetDefault false) strings', s') /\
  vget strings' 1 = Ret moved /\ vget strings' 2 = Ret moved.
Proof.
  destruct (scenario_moveString_overwrites (StrSection.GetDefault false) scenario_sample 2 1)
    as (strings' & s' & moved & H & _ & H1 & H2 & _);
    [exact scenario_sample_wf | vm_compute; reflexivity.. | discriminate|].
  exists strings', s', moved. auto.
Defined.

(** *** Deleting *)

(** The users outside of the briefings. *)
Definition plain_users (s : Sections) : list (StringUser * Z) :=
  sprp_users (sprp s) ++ forc_users (forc s) ++ unis_users (unis s) ++ unix_users (unix s) ++
  mrgn_users (mrgn s) ++ wav_users (wav s) ++ swnm_users (swnm s) ++ trig_section_users (trig s).

(** Asked with the mask 0, no section admits to using a string. *)
Lemma unused_without_mask s id : id < MaxStrings ->
  sync_stringUsed Strings.synchronizer s id Scope.Either Scope.Game 0 = Ret false.
Proof.
  intros Hid. cbn [Strings.synchronizer sync_stringUsed].
  unfold Strings.stringUsed. change (Scope.Game =? Scope.Game) with true. cbn [orb negb andb].
  by rewrite (proj2 (Z.ltb_lt _ _)) by done.
Qed.

Lemma str_delete_unchecked str s id only : 0 <= id < zlen (StrSection.strings str) -> id < MaxStrings ->
  StrSection.deleteString Strings.synchronizer str id only (Some s) =
  Ret (StrSection.setStrings str (<[Z.to_nat id := None]> (StrSection.strings str)), true).
Proof.
  intros Hid Hmax. unfold StrSection.deleteString, StringTable.deleteString.
  rewrite unused_without_mask by done.
  assert ((if negb only then Ret true else let* used := Ret false in Ret (negb used)) = Ret true) as ->
    by (by destruct only).
  cbn [obind]. rewrite (proj2 (Z.ltb_lt _ _)) by lia. cbn [andb]. by rewrite vset_in by lia.
Qed.

Lemma stringStored_in strings id : 0 <= id -> exists stored, StringTable.stringStored strings id = Ret stored.
Proof.
  intros Hid. unfold StringTable.stringStored. destruct (Z.ltb_spec id (zlen strings)); [|eauto].
  destruct (vget_in strings id) as (o & _ & ->); [lia|]. cbn [obind]. eauto.
Qed.

(** The first check of [Strings::deleteString]. *)
Lemma used_if_asked stored s id (only : bool) :
  (only = false \/
   Strings.stringUsed true true s id Scope.Game Scope.Game StringUserFlag.All false = Ret false) ->
  (if only then Strings.stringUsed stored true s id Scope.Game Scope.Game StringUserFlag.All false
   else Ret false) = Ret false.
Proof.
  intros [->|H]; [done|]. destruct only; [|done]. rewrite <- H. unfold Strings.stringUsed. cbn [negb].
  by rewrite !orb_true_r.
Qed.

(** [Strings::deleteString] of a game string deletes it unless it is asked
    to keep used strings and the string is used in the game itself.  The check
    of [StrSection::deleteString] that should also keep the names of locations
    and switches, sound paths and comments passes [false] for the mask of
    users and never finds one: such a string is deleted and its users outside
    of the briefings are cleared. *)
Theorem deleteGameString_spec str s id only : scenario_wf s ->
  0 < id < zlen (StrSection.strings str) -> id < MaxStrings ->
  (only = false \/
   Strings.stringUsed true true s id Scope.Game Scope.Game StringUserFlag.All false = Ret false) ->
  exists strings' s',
    Strings.deleteGameString str s id only = Ret (StrSection.setStrings str strings', s') /\
    vget strings' id = Ret None /\
    (forall i, 0 <= i -> i <> id -> vget strings' i = vget (StrSection.strings str) i) /\
    scenario_wf s' /\
    plain_users s' = prod_map Datatypes.id (clear1 id) <$> plain_users s.
Proof.
  intros Hs Hid Hmax Hcond.
  destruct (law_deleteString (ops := sprp_ops) _ id (wf_sprp s Hs)) as (sprp' & Rsprp & Wsprp & Usprp).
  destruct (law_deleteString (ops := forc_ops) _ id (wf_forc s Hs)) as (forc' & Rforc & Wforc & Uforc).
  destruct (law_deleteString (ops := unis_ops) _ id (wf_unis s Hs)) as (unis' & Runis & Wunis & Uunis).
  destruct (law_deleteString (ops := unix_ops) _ id (wf_unix s Hs)) as (unix' & Runix & Wunix & Uunix).
  destruct (law_deleteString (ops := mrgn_ops) _ id (wf_mrgn s Hs)) as (mrgn' & Rmrgn & Wmrgn & Umrgn).
  destruct (law_deleteString (ops := wav_ops) _ id (wf_wav s Hs)) as (wav' & Rwav & Wwav & Uwav).
  destruct (law_deleteString (ops := swnm_ops) _ id (wf_swnm s Hs)) as (swnm' & Rswnm & Wswnm & Uswnm).
  destruct (law_deleteString (StringUserLaws := trig_laws) _ id (wf_trig s Hs)) as (trig' & Rtrig & Wtrig & Utrig).
  destruct (law_deleteString (StringUserLaws := trig_laws) _ id (wf_mbrf s Hs)) as (mbrf' & Rmbrf & Wmbrf & _).
  cbn in Rsprp, Rforc, Runis, Runix, Rmrgn, Rwav, Rswnm, Rtrig, Rmbrf. injection Rsprp as <-.
  exists (<[Z.to_nat id := None]> (StrSection.strings str)),
    (mkSections (SprpSection.deleteString (sprp s) id) forc' unis' unix' mrgn' wav' swnm' trig' mbrf' (ostr s) (ktrg s)).
  split.
  { unfold Strings.deleteGameString. destruct (stringStored_in (StrSection.strings str) id) as (stored & Hst); [lia|].
    unfold StrSection.stringStored. rewrite Hst. cbn [obind].
    rewrite (used_if_asked stored s id only Hcond). cbn [obind negb]. rewrite orb_true_r.
    rewrite str_delete_unchecked by lia. cbn [obind].
    unfold Players.deleteString, Properties.deleteString, Layers.deleteString, TriggersClass.deleteString.
    change (Scope.Game =? Scope.Game) with true. cbn [wav swnm trig mbrf].
    rewrite Rforc. cbn [obind]. rewrite Runis. cbn [obind]. rewrite Runix. cbn [obind]. rewrite Rmrgn. cbn [obind].
    rewrite Rwav. cbn [obind]. rewrite Rswnm. cbn [obind]. rewrite Rtrig. cbn [obind].
    change (MbrfSection.deleteString (mbrf s) id) with (TrigSection.deleteString (mbrf s) id). by rewrite Rmbrf. }
  rewrite vget_vset by lia. rewrite decide_True by done. split_and!; [done | | by split |].
  - intros i Hi Hn. rewrite vget_vset by lia. by rewrite decide_False.
  - unfold plain_users. cbn [sprp forc unis unix mrgn wav swnm trig fst snd]. rewrite !fmap_app. congruence.
Qed.

Lemma deleteGameString_spec_witness :
  Strings.stringUsed true true scenario_sample 3 Scope.Either Scope.Game StringUserFlag.All false = Ret true /\
  exists strings' s',
    Strings.deleteGameString (StrSection.GetDefault false) scenario_sample 3 true =
      Ret (StrSection.setStrings (StrSection.GetDefault false) strings', s') /\
    vget strings' 3 = Ret None.
Proof.
  split; [vm_compute; reflexivity|].
  destruct (deleteGameString_spec (StrSection.GetDefault false) scenario_sample 3 true)
    as (strings' & s' & H & H5 & _);
    [exact scenario_sample_wf | vm_compute; auto | vm_compute; reflexivity |
     right; vm_compute; reflexivity |].
  exists strings', s'. auto.
Defined.
