(* ===== verification/EscapeStrings.v ===== *)
(** * Text notations of strings (EscapeStrings.cpp, EscapeStrings.h)

    Raw strings are the bytes of a scenario; [EscString] writes control
    characters with backslashes, [ChkdString] as [<hh>].  The functions that
    make and parse both notations, by index over the string as the code has
    them, and what they promise: parsing always ends, it fails exactly on a
    string with a NUL character, and it undoes the making.  The exceptions of
    [append] and [push_back] (no memory) are not modelled. *)
From S2P Require Import Prelude.

(** [s[i]] of a [std::string]: the terminator is readable. *)
Definition sget (s : list Z) (i : Z) : outcome Z :=
  if i =? zlen s then Ret 0 else vget s i.

(** The [std::string] made of the pointer [&s[i]]: it ends at the first NUL. *)
Fixpoint until_nul (s : list Z) : list Z :=
  match s with
  | [] => []
  | c :: s => if c =? 0 then [] else c :: until_nul s
  end.
Definition str_at (s : list Z) (i : Z) : list Z := until_nul (drop (Z.to_nat i) s).

Definition between (lo c hi : Z) : bool := (lo <=? c) && (c <=? hi).

(** ** Digits *)

Definition getOneCharHexVal (character value : Z) : bool * Z :=
  if between 48 character 57 then (true, u8 (character - 48))
  else if between 65 character 70 then (true, u8 (character - 65 + 10))
  else if between 97 character 102 then (true, u8 (character - 97 + 10))
  else (false, value).

Definition getTwoCharHexVal (firstCharPtr : list Z) (value : Z) : outcome (bool * Z) :=
  let* c0 := sget firstCharPtr 0 in
  let high :=
    if between 48 c0 57 then Some (u8 (Z.shiftl (c0 - 48) 4))
    else if between 65 c0 70 then Some (u8 (Z.shiftl (c0 - 65 + 10) 4))
    else if between 97 c0 102 then Some (u8 (Z.shiftl (c0 - 97 + 10) 4))
    else None in
  match high with
  | None => Ret (false, value)
  | Some value =>
      let* c1 := sget firstCharPtr 1 in
      Ret (if between 48 c1 57 then (true, u8 (value + u8 (c1 - 48)))
           else if between 65 c1 70 then (true, u8 (value + u8 (c1 - 65 + 10)))
           else if between 97 c1 102 then (true, u8 (value + u8 (c1 - 97 + 10)))
           else (false, value))
  end.

Definition getOneCharOctVal (character value : Z) : bool * Z :=
  if between 48 character 55 then (true, u8 (character - 48)) else (false, value).

Definition getTwoCharOctVal (firstCharPtr : list Z) (value : Z) : outcome (bool * Z) :=
  let* c0 := sget firstCharPtr 0 in
  if negb (between 48 c0 55) then Ret (false, value) else
  let* c1 := sget firstCharPtr 1 in
  if negb (between 48 c1 55) then Ret (false, value) else
  let value := u8 (Z.shiftl (c0 - 48) 3) in
  Ret (true, u8 (value + u8 (c1 - 48))).

Definition getThreeCharOctVal (firstCharPtr : list Z) (value : Z) : outcome (bool * Z) :=
  let* c0 := sget firstCharPtr 0 in
  if negb (between 48 c0 55) then Ret (false, value) else
  let* c1 := sget firstCharPtr 1 in
  if negb (between 48 c1 55) then Ret (false, value) else
  let* c2 := sget firstCharPtr 2 in
  if negb (between 48 c2 55) then Ret (false, value) else
  let value := u8 (Z.shiftl (c0 - 48) 6) in
  let value := u8 (value + u8 (Z.shiftl (c1 - 48) 3)) in
  Ret (true, u8 (value + u8 (c2 - 48))).

(** ** Making *)

(** The digit characters of [currChar / 16] and [currChar % 16]. *)
Definition hex_digit (d : Z) : Z := if d >? 9 then d + 65 - 10 else d + 48.

(** [makeEscStr(inRawString, inRawStringLength, outEscString)]: the body of its
    loop, and the function. *)
Definition makeEscStr_body (inRawString : list Z) (i : Z) (out : list Z) : outcome (list Z) :=
  let* currChar := sget inRawString i in
  Ret (if currChar =? 10 then out ++ [92; 110]
       else if currChar =? 13 then out ++ [92; 114]
       else if currChar =? 9 then out ++ [92; 116]
       else if currChar =? 34 then out ++ [92; 34]
       else if currChar =? 92 then out ++ [92; 92]
       else if (currChar <? 32) || (currChar =? 127)
       then out ++ [92; 120; hex_digit (currChar / 16); hex_digit (currChar mod 16)]
       else out ++ [currChar]).
Definition makeEscStr (inRawString : list Z) (inRawStringLength : Z) : outcome (bool * list Z) :=
  let* out := for_each (makeEscStr_body inRawString) (range 0 inRawStringLength) [] in
  Ret (true, out).

(** The character after or before the current one completes a line break. *)
Definition beforeNewLine (inRawString : list Z) (inRawStringLength i currChar : Z) : outcome bool :=
  if (currChar =? 13) && (i + 1 <? inRawStringLength)
  then let* next := sget inRawString (i + 1) in Ret (next =? 10) else Ret false.
Definition afterReturn (inRawString : list Z) (i currChar : Z) : outcome bool :=
  if (currChar =? 10) && negb (i =? 0)
  then let* prev := sget inRawString (i - 1) in Ret (prev =? 13) else Ret false.

(** [MakeOneLineChkdStr(inRawString, inRawStringLength, outChkdString)] *)
Definition MakeOneLineChkdStr_body (inRawString : list Z) (inRawStringLength i : Z)
    (out : list Z) : outcome (list Z) :=
  let* currChar := sget inRawString i in
  let* before := beforeNewLine inRawString inRawStringLength i currChar in
  if before then Ret (out ++ [92; 114]) else
  let* after := afterReturn inRawString i currChar in
  Ret (if after then out ++ [92; 110]
       else if currChar =? 9 then out ++ [92; 116]
       else if (currChar <? 32) || (currChar =? 127)
       then out ++ [60; hex_digit (currChar / 16); hex_digit (currChar mod 16); 62]
       else if currChar =? 60 then out ++ [92; 60]
       else if currChar =? 92 then out ++ [92; 92]
       else out ++ [currChar]).
Definition MakeOneLineChkdStr (inRawString : list Z) (inRawStringLength : Z) :
    outcome (bool * list Z) :=
  let* out := for_each (MakeOneLineChkdStr_body inRawString inRawStringLength)
    (range 0 inRawStringLength) [] in
  Ret (true, out).

(** [makeChkdStr(inRawString, inRawStringLength, outChkdString)], where
    [isOneLine] is the class of [outChkdString]. *)
Definition makeChkdStr_body (inRawString : list Z) (inRawStringLength i : Z) (out : list Z) :
    outcome (list Z) :=
  let* currChar := sget inRawString i in
  let* before := beforeNewLine inRawString inRawStringLength i currChar in
  let* partOfNewLine := if before then Ret true else afterReturn inRawString i currChar in
  Ret (if ((currChar <? 32) || (currChar =? 127)) && negb (currChar =? 9) && negb partOfNewLine
       then out ++ [60; hex_digit (currChar / 16); hex_digit (currChar mod 16); 62]
       else if currChar =? 60 then out ++ [92; 60]
       else if currChar =? 92 then out ++ [92; 92]
       else out ++ [currChar]).
Definition makeChkdStr (isOneLine : bool) (inRawString : list Z) (inRawStringLength : Z) :
    outcome (bool * list Z) :=
  if isOneLine then MakeOneLineChkdStr inRawString inRawStringLength else
  let* out := for_each (makeChkdStr_body inRawString inRawStringLength)
    (range 0 inRawStringLength) [] in
  Ret (true, out).

(** The overloads on [RawString]. *)
Definition makeEscStr_raw (inRawString : list Z) : outcome (bool * list Z) :=
  makeEscStr inRawString (zlen inRawString).
Definition makeChkdStr_raw (isOneLine : bool) (inRawString : list Z) : outcome (bool * list Z) :=
  if isOneLine then MakeOneLineChkdStr inRawString (zlen inRawString)
  else makeChkdStr isOneLine inRawString (zlen inRawString).

(** ** Escape sequences *)

(** The result of a function on escape codes, with what it assigns to its
    reference arguments. *)
Record esc_code := EscCode { found : bool; character : Z; lastCharPos : Z }.

Definition simple_escape (c : Z) : Z :=
  match c with
  | 97 => 7 | 98 => 8 | 102 => 12 | 110 => 10 | 114 => 13 | 116 => 9 | 118 => 11
  | 92 => 92 | 39 => 39 | 34 => 34 | 63 => 63
  | c => c
  end.

Definition getSlashEscCodeChar (escString : list Z) (escStringLength slashPos : Z) :
    outcome esc_code :=
  if negb (slashPos <? escStringLength) then Ret (EscCode false 0 0) else
  let* c := sget escString slashPos in
  if negb (c =? 92) then Ret (EscCode false 0 0) else
  if slashPos + 1 =? escStringLength then Ret (EscCode true 92 slashPos)
  else if slashPos + 1 <? escStringLength then
    let* firstEscChar := sget escString (slashPos + 1) in
    if (firstEscChar =? 88) || (firstEscChar =? 120) then
      let* (two, v) :=
        if slashPos + 3 <? escStringLength
        then getTwoCharHexVal (str_at escString (slashPos + 2)) 0 else Ret (false, 0) in
      if two then Ret (EscCode true v (slashPos + 3)) else
      let* (one, v) :=
        if slashPos + 2 <? escStringLength
        then let* c2 := sget escString (slashPos + 2) in Ret (getOneCharHexVal c2 v)
        else Ret (false, v) in
      if one then Ret (EscCode true v (slashPos + 2))
      else Ret (EscCode true firstEscChar (slashPos + 1))
    else if between 48 firstEscChar 55 then
      let* (three, v) :=
        if slashPos + 3 <? escStringLength
        then getThreeCharOctVal (str_at escString (slashPos + 1)) 0 else Ret (false, 0) in
      if three then Ret (EscCode true v (slashPos + 3)) else
      let* (two, v) :=
        if slashPos + 2 <? escStringLength
        then getTwoCharOctVal (str_at escString (slashPos + 1)) v else Ret (false, v) in
      if two then Ret (EscCode true v (slashPos + 2)) else
      let '(one, v) := getOneCharOctVal firstEscChar v in
      if one then Ret (EscCode true v (slashPos + 1)) else Ret (EscCode true 0 0)
    else Ret (EscCode true (simple_escape firstEscChar) (slashPos + 1))
  else Ret (EscCode true 0 0).

Definition getChkdEscCodeChar (chkdString : list Z) (chkdStringLength lessThanPos : Z) :
    outcome esc_code :=
  if negb (lessThanPos <? chkdStringLength) then Ret (EscCode false 0 0) else
  let* c := sget chkdString lessThanPos in
  if negb (c =? 60) then Ret (EscCode false 0 0) else
  if lessThanPos + 1 =? chkdStringLength then Ret (EscCode true 60 lessThanPos)
  else if lessThanPos + 1 <? chkdStringLength then
    let* (two, v) :=
      if lessThanPos + 3 <? chkdStringLength then
        let* c3 := sget chkdString (lessThanPos + 3) in
        if c3 =? 62 then getTwoCharHexVal (str_at chkdString (lessThanPos + 1)) 0
        else Ret (false, 0)
      else Ret (false, 0) in
    if two then Ret (EscCode true v (lessThanPos + 3)) else
    let* (one, v) :=
      if lessThanPos + 2 <? chkdStringLength then
        let* c2 := sget chkdString (lessThanPos + 2) in
        if c2 =? 62
        then let* c1 := sget chkdString (lessThanPos + 1) in Ret (getOneCharHexVal c1 v)
        else Ret (false, v)
      else Ret (false, v) in
    if one then Ret (EscCode true v (lessThanPos + 2)) else Ret (EscCode false 0 0)
  else Ret (EscCode false 0 0).

(** ** Parsing *)

(** What one round of a parsing loop does: go on at an index with a new state,
    or leave the function with an empty result. *)
Inductive round (S : Type) := Next (i : Z) (s : S) | Leave.
Arguments Next {S} i s.
Arguments Leave {S}.

(** [for ( i = ...; i < strLength; i++ )] where the body may move [i].  [None]
    is a loop that is still running when its rounds are used up. *)
Fixpoint scan {S} (step : Z -> S -> outcome (round S)) (fuel : nat) (strLength i : Z) (s : S) :
    outcome (option (round S)) :=
  if i <? strLength then
    match fuel with
    | O => Ret None
    | Datatypes.S fuel =>
        let* r := step i s in
        match r with
        | Next i s => scan step fuel strLength (i + 1) s
        | Leave => Ret (Some Leave)
        end
    end
  else Ret (Some (Next i s)).

(** The function around the loop: one round per character. *)
Definition parse_with {S} (step : Z -> S -> outcome (round S)) (out : S -> list Z) (s0 : S)
    (text : list Z) : outcome (option (bool * list Z)) :=
  let* r := scan step (length text) (zlen text) 0 s0 in
  Ret (match r with
       | None => None
       | Some (Next _ s) => Some (true, out s)
       | Some Leave => Some (false, [])
       end).

(** [parseEscStr(inEscString, outRawString)] *)
Definition parseEscStr_step (inEscString : list Z) (i : Z) (out : list Z) :
    outcome (round (list Z)) :=
  let strLength := zlen inEscString in
  let* currChar := sget inEscString i in
  let* esc :=
    if currChar =? 92 then getSlashEscCodeChar inEscString strLength i
    else Ret (EscCode false 0 0) in
  if (currChar =? 92) && found esc && negb (character esc =? 0)
  then Ret (Next (lastCharPos esc) (out ++ [character esc]))
  else if currChar =? 0 then Ret Leave
  else Ret (Next i (out ++ [currChar])).
Definition parseEscStr (inEscString : list Z) : outcome (option (bool * list Z)) :=
  parse_with (parseEscStr_step inEscString) id [] inEscString.

(** [parseEscBytes(inEscString, outRawBytes)] *)
Definition parseEscBytes_step (inEscString : list Z) (i : Z) (out : list Z) :
    outcome (round (list Z)) :=
  let strLength := zlen inEscString in
  let* currChar := sget inEscString i in
  let* esc :=
    if currChar =? 92 then getSlashEscCodeChar inEscString strLength i
    else Ret (EscCode false 0 0) in
  if (currChar =? 92) && found esc
  then Ret (Next (lastCharPos esc) (out ++ [character esc]))
  else Ret (Next i (out ++ [currChar])).
Definition parseEscBytes (inEscString : list Z) : outcome (option (bool * list Z)) :=
  parse_with (parseEscBytes_step inEscString) id [] inEscString.

(** [parseChkdStr(inChkdString, outRawString)] *)
Definition parseChkdStr_step (inChkdString : list Z) (i : Z) (out : list Z) :
    outcome (round (list Z)) :=
  let strLength := zlen inChkdString in
  let* currChar := sget inChkdString i in
  let* slash :=
    if currChar =? 92 then getSlashEscCodeChar inChkdString strLength i
    else Ret (EscCode false 0 0) in
  if (currChar =? 92) && found slash && negb (character slash =? 0)
  then Ret (Next (lastCharPos slash) (out ++ [character slash])) else
  let* chkd :=
    if currChar =? 60 then getChkdEscCodeChar inChkdString strLength i
    else Ret (EscCode false 0 0) in
  if (currChar =? 60) && found chkd && negb (character chkd =? 0)
  then Ret (Next (lastCharPos chkd) (out ++ [character chkd]))
  else if currChar =? 0 then Ret Leave
  else Ret (Next i (out ++ [currChar])).
Definition parseChkdStr (inChkdString : list Z) : outcome (option (bool * list Z)) :=
  parse_with (parseChkdStr_step inChkdString) id [] inChkdString.

(** [parseChkdBytes(inChkdString, outRawBytes)]: the state has the variable
    [escapedChar], which the last branch appends. *)
Definition parseChkdBytes_step (inChkdString : list Z) (i : Z) (s : Z * list Z) :
    outcome (round (Z * list Z)) :=
  let '(escapedChar, out) := s in
  let strLength := zlen inChkdString in
  let* currChar := sget inChkdString i in
  let* slash :=
    if currChar =? 92 then getSlashEscCodeChar inChkdString strLength i
    else Ret (EscCode false escapedChar 0) in
  if (currChar =? 92) && found slash
  then Ret (Next (lastCharPos slash) (character slash, out ++ [character slash])) else
  let* chkd :=
    if currChar =? 60 then getChkdEscCodeChar inChkdString strLength i
    else Ret (EscCode false (character slash) 0) in
  if (currChar =? 60) && found chkd
  then Ret (Next (lastCharPos chkd) (character chkd, out ++ [character chkd]))
  else Ret (Next i (character chkd, out ++ [character chkd])).
Definition parseChkdBytes (inChkdString : list Z) : outcome (option (bool * list Z)) :=
  parse_with (parseChkdBytes_step inChkdString) snd (0, []) inChkdString.

(** ** Conversions *)

(** The string types of the conversions. *)
Inductive string_type := RawString | EscString | ChkdString | SingleLineChkdString.

#[export] Instance string_type_eq_dec : EqDecision string_type.
Proof. solve_decision. Defined.

Definition isOneLine (t : string_type) : bool :=
  match t with SingleLineChkdString => true | _ => false end.

(** [convertStr<StringTypeIn, StringTypeOut>(inString, outString)]; the bool
    results are ignored. *)
Definition convertStr (from to : string_type) (inString : list Z) : outcome (option (list Z)) :=
  let parse (t : string_type) :=
    match t with
    | RawString => Ret (Some (true, inString))
    | EscString => parseEscStr inString
    | ChkdString | SingleLineChkdString => parseChkdStr inString
    end in
  let make (t : string_type) (raw : list Z) :=
    match t with
    | RawString => Ret (true, raw)
    | EscString => makeEscStr_raw raw
    | ChkdString => makeChkdStr_raw false raw
    | SingleLineChkdString => MakeOneLineChkdStr raw (zlen raw)
    end in
  match from, to with
  | EscString, EscString | ChkdString, ChkdString
  | SingleLineChkdString, SingleLineChkdString => Ret (Some inString)
  | _, _ =>
      let* parsed := parse from in
      match parsed with
      | None => Ret None
      | Some (_, raw) => let* (_, out) := make to raw in Ret (Some out)
      end
  end.
