(* ===== verification/EscapeProps.v ===== *)
(** * Properties of the text notations

    The index loops of [EscapeStrings] refine parsers on the rest of the text:
    [slash_ref] and [chkd_ref] say which character an escape sequence stands
    for and how much of the text it takes. *)
From S2P Require Import Prelude EscapeStrings.

(** ** Reference parsers *)

Definition hexval (c : Z) : option Z :=
  if between 48 c 57 then Some (c - 48)
  else if between 65 c 70 then Some (c - 55)
  else if between 97 c 102 then Some (c - 87)
  else None.

Definition octval (c : Z) : option Z := if between 48 c 55 then Some (c - 48) else None.

(** The character of the sequence that follows a backslash, and the length of
    that sequence. *)
Definition slash_ref (rest : list Z) : Z * nat :=
  match rest with
  | [] => (92, 0%nat)
  | x :: r =>
      if (x =? 88) || (x =? 120) then
        match r !! 0%nat ≫= hexval, r !! 1%nat ≫= hexval with
        | Some h, Some l => (16 * h + l, 3%nat)
        | Some h, None => (h, 2%nat)
        | None, _ => (x, 1%nat)
        end
      else
        match octval x, r !! 0%nat ≫= octval, r !! 1%nat ≫= octval with
        | Some a, Some b, Some c => (u8 (64 * a + 8 * b + c), 3%nat)
        | Some a, Some b, None => (8 * a + b, 2%nat)
        | Some a, None, _ => (a, 1%nat)
        | None, _, _ => (simple_escape x, 1%nat)
        end
  end.

(** The same for what follows a ['<'], if it is an escape code. *)
Definition chkd_ref (rest : list Z) : option (Z * nat) :=
  match rest with
  | [] => Some (60, 0%nat)
  | a :: r =>
      match hexval a, r !! 0%nat ≫= hexval with
      | Some h, Some l => if decide (r !! 1%nat = Some 62) then Some (16 * h + l, 3%nat) else None
      | Some h, None => if decide (r !! 0%nat = Some 62) then Some (h, 2%nat) else None
      | None, _ => None
      end
  end.

(** One round of a parser: the character it appends and how many characters it
    takes after the first; [None] is a failure. *)
Definition take_code (c : Z) (code : option (Z * nat)) : option (Z * nat) :=
  match code with
  | Some (e, n) => Some (if e =? 0 then (c, 0%nat) else (e, n))
  | None => Some (c, 0%nat)
  end.

Definition esc_ref (text : list Z) : option (Z * nat) :=
  match text with
  | [] => None
  | c :: rest =>
      if c =? 92 then take_code c (Some (slash_ref rest))
      else if c =? 0 then None else Some (c, 0%nat)
  end.

(** The parser of bytes takes every code, also one for a NUL. *)
Definition escbytes_ref (text : list Z) : option (Z * nat) :=
  match text with
  | [] => None
  | c :: rest => Some (if c =? 92 then slash_ref rest else (c, 0%nat))
  end.

Definition chkdstr_ref (text : list Z) : option (Z * nat) :=
  match text with
  | [] => None
  | c :: rest =>
      if c =? 92 then take_code c (Some (slash_ref rest))
      else if c =? 60 then take_code c (chkd_ref rest)
      else if c =? 0 then None else Some (c, 0%nat)
  end.

Fixpoint ref_parse (ref : list Z -> option (Z * nat)) (fuel : nat) (text : list Z) :
    option (list Z) :=
  match text, fuel with
  | [], _ => Some []
  | _, O => None
  | _, S fuel =>
      match ref text with
      | None => None
      | Some (c, n) => cons c <$> ref_parse ref fuel (drop (S n) text)
      end
  end.

(** ** Digits *)

Lemma between_spec lo c hi : between lo c hi = bool_decide (lo <= c <= hi).
Proof. unfold between. case_bool_decide; destruct (Z.leb_spec lo c), (Z.leb_spec c hi); simpl; lia. Qed.

Lemma hexval_range c d : hexval c = Some d -> 0 <= d < 16 /\ 48 <= c <= 102.
Proof.
  unfold hexval. rewrite !between_spec. repeat case_bool_decide; intros [= <-]; lia.
Qed.

Lemma octval_range c d : octval c = Some d -> 0 <= d < 8 /\ 48 <= c <= 55.
Proof. unfold octval. rewrite between_spec. case_bool_decide; intros [= <-]; lia. Qed.

Lemma octval_Some c : 48 <= c <= 55 -> octval c = Some (c - 48).
Proof. intros. unfold octval. rewrite between_spec. by case_bool_decide. Qed.

Lemma getOneCharHexVal_ref c v :
  getOneCharHexVal c v = match hexval c with Some d => (true, d) | None => (false, v) end.
Proof.
  unfold getOneCharHexVal, hexval. rewrite !between_spec.
  repeat case_bool_decide; try done; rewrite u8_id; unfold is_u; try lia; f_equal; lia.
Qed.

Lemma getOneCharOctVal_ref c v :
  getOneCharOctVal c v = match octval c with Some d => (true, d) | None => (false, v) end.
Proof.
  unfold getOneCharOctVal, octval. rewrite between_spec.
  case_bool_decide; [|done]. by rewrite u8_id by (unfold is_u; lia).
Qed.

(** Reading past the end of a text, or of the string made of a pointer into
    it, finds the terminator. *)
Definition nth0 (l : list Z) (k : nat) : Z := default 0 (l !! k).

Lemma nth0_hex l k : hexval (nth0 l k) = l !! k ≫= hexval.
Proof. unfold nth0. by destruct (l !! k). Qed.
Lemma nth0_oct l k : octval (nth0 l k) = l !! k ≫= octval.
Proof. unfold nth0. by destruct (l !! k). Qed.

Lemma sget_cons a l k : 0 <= k -> sget (a :: l) (1 + k) = sget l k.
Proof.
  intros Hk. unfold sget, vget. rewrite zlen_cons.
  destruct (Z.eqb_spec (1 + k) (1 + zlen l)), (Z.eqb_spec k (zlen l)); try lia; [done|].
  rewrite !(proj2 (Z.ltb_ge _ _)) by lia. by rewrite Z2Nat.inj_add by lia.
Qed.

Lemma sget_shift pre suf k : 0 <= k -> sget (pre ++ suf) (zlen pre + k) = sget suf k.
Proof.
  intros Hk. induction pre as [|a pre IH]; [done|]. cbn [app].
  rewrite zlen_cons, <- Z.add_assoc, sget_cons; [done|]. pose proof (zlen_nonneg pre). lia.
Qed.

Lemma sget_head l : sget l 0 = Ret (nth0 l 0).
Proof. by destruct l. Qed.

Lemma sget_nth0 l (k : nat) : (k <= length l)%nat -> sget l (Z.of_nat k) = Ret (nth0 l k).
Proof.
  revert l. induction k as [|k IH]; intros l Hk; [by rewrite sget_head|].
  destruct l as [|a l]; [simpl in Hk; lia|]. simpl in Hk.
  rewrite Nat2Z.inj_succ, <- Z.add_1_l, sget_cons by lia. apply IH. lia.
Qed.

Lemma until_nul_head l : nth0 (until_nul l) 0 = nth0 l 0.
Proof. destruct l as [|a l]; [done|]. simpl. by destruct (Z.eqb_spec a 0) as [->|]. Qed.

Lemma until_nul_tail l k : nth0 l 0 <> 0 -> 0 <= k ->
  sget (until_nul l) (1 + k) = sget (until_nul (tail l)) k.
Proof.
  intros H Hk. destruct l as [|a l]; [done|]. cbn in *.
  destruct (Z.eqb_spec a 0); [done|]. by rewrite sget_cons.
Qed.

Lemma nth0_tail l k : nth0 (tail l) k = nth0 l (S k).
Proof. by destruct l. Qed.

Lemma getTwoCharHexVal_ref l v :
  getTwoCharHexVal (until_nul l) v =
  Ret (match l !! 0%nat ≫= hexval, l !! 1%nat ≫= hexval with
       | Some h, Some d => (true, 16 * h + d)
       | Some h, None => (false, 16 * h)
       | None, _ => (false, v)
       end).
Proof.
  unfold getTwoCharHexVal. rewrite sget_head, until_nul_head. cbn [obind].
  rewrite <- !nth0_hex. set (c0 := nth0 l 0). set (c1 := nth0 l 1).
  match goal with |- context [match ?hi with _ => _ end] =>
    assert (Hhi : hi = (fun h => 16 * h) <$> hexval c0) end.
  { unfold hexval. rewrite !between_spec. repeat case_bool_decide; try done;
      cbn; f_equal; rewrite Z.shiftl_mul_pow2, u8_id by (unfold is_u; lia); lia. }
  rewrite Hhi. destruct (hexval c0) as [h|] eqn:Hh; [|done]. cbn.
  apply hexval_range in Hh.
  change 1 with (1 + 0) at 1. rewrite until_nul_tail by (fold c0; lia).
  rewrite sget_head, until_nul_head, nth0_tail. fold c1. cbn. f_equal.
  unfold hexval. rewrite !between_spec.
  repeat case_bool_decide; try done; f_equal; rewrite (u8_id (c1 - _)) || rewrite (u8_id (c1 - _ + _));
    try (unfold is_u; lia); rewrite u8_id; unfold is_u; lia.
Qed.

Lemma getTwoCharOctVal_ref l v :
  getTwoCharOctVal (until_nul l) v =
  Ret (match l !! 0%nat ≫= octval, l !! 1%nat ≫= octval with
       | Some a, Some b => (true, 8 * a + b)
       | _, _ => (false, v)
       end).
Proof.
  unfold getTwoCharOctVal. rewrite sget_head, until_nul_head. cbn [obind].
  rewrite <- !nth0_oct. set (c0 := nth0 l 0). set (c1 := nth0 l 1).
  unfold octval. rewrite !between_spec. case_bool_decide as H0; [cbn [negb]|done].
  change 1 with (1 + 0). rewrite until_nul_tail by (fold c0; lia).
  rewrite sget_head, until_nul_head, nth0_tail. fold c1. cbn [obind]. rewrite between_spec.
  case_bool_decide; [cbn|done]. rewrite Z.shiftl_mul_pow2 by lia.
  rewrite (u8_id (c1 - 48)), (u8_id ((c0 - 48) * 2 ^ 3)) by (unfold is_u; lia).
  rewrite u8_id by (unfold is_u; lia). do 2 f_equal. lia.
Qed.

Lemma getThreeCharOctVal_ref l v :
  getThreeCharOctVal (until_nul l) v =
  Ret (match l !! 0%nat ≫= octval, l !! 1%nat ≫= octval, l !! 2%nat ≫= octval with
       | Some a, Some b, Some c => (true, u8 (64 * a + 8 * b + c))
       | _, _, _ => (false, v)
       end).
Proof.
  unfold getThreeCharOctVal. rewrite sget_head, until_nul_head. cbn [obind].
  rewrite <- !nth0_oct. set (c0 := nth0 l 0). set (c1 := nth0 l 1). set (c2 := nth0 l 2).
  unfold octval. rewrite !between_spec. case_bool_decide as H0; [cbn [negb]|done].
  change 1 with (1 + 0). rewrite until_nul_tail by (fold c0; lia).
  rewrite sget_head, until_nul_head, nth0_tail. fold c1. cbn [obind]. rewrite between_spec.
  case_bool_decide as H1; [cbn [negb]|done].
  change 2 with (1 + (1 + 0)). rewrite !until_nul_tail by (rewrite ?nth0_tail; fold c0 c1; lia).
  rewrite sget_head, until_nul_head, !nth0_tail. fold c2. cbn [obind]. rewrite between_spec.
  case_bool_decide; [cbn|done]. rewrite !Z.shiftl_mul_pow2 by lia. do 2 f_equal.
  unfold u8. rewrite !Z.add_mod_idemp_l, !Z.add_mod_idemp_r by lia.
  rewrite (Z.mod_small ((c1 - 48) * 2 ^ 3)), <- Z.add_assoc, Z.add_mod_idemp_l by lia. f_equal. lia.
Qed.

(** ** Escape codes *)

#[local] Arguments until_nul : simpl never.

Lemma sget_at pre suf (k : nat) : (k <= length suf)%nat ->
  sget (pre ++ suf) (zlen pre + Z.of_nat k) = Ret (nth0 suf k).
Proof. intros. rewrite sget_shift by lia. by apply sget_nth0. Qed.

Lemma str_at_shift pre suf (k : nat) :
  str_at (pre ++ suf) (zlen pre + Z.of_nat k) = until_nul (drop k suf).
Proof.
  unfold str_at, zlen. rewrite <- Nat2Z.inj_add, Nat2Z.id, drop_app_add'; done.
Qed.

Lemma in_text (pre suf : list Z) (k : nat) :
  (zlen pre + Z.of_nat k <? zlen (pre ++ suf)) = bool_decide (k < length suf)%nat.
Proof.
  rewrite zlen_app. unfold zlen.
  case_bool_decide; destruct (Z.ltb_spec (Z.of_nat (length pre) + Z.of_nat k)
    (Z.of_nat (length pre) + Z.of_nat (length suf))); try lia; done.
Qed.

Lemma at_end (pre suf : list Z) (k : nat) :
  (zlen pre + Z.of_nat k =? zlen (pre ++ suf)) = bool_decide (k = length suf).
Proof.
  rewrite zlen_app. unfold zlen.
  case_bool_decide; destruct (Z.eqb_spec (Z.of_nat (length pre) + Z.of_nat k)
    (Z.of_nat (length pre) + Z.of_nat (length suf))); try lia; done.
Qed.

(** The first position after the prefix, and the ones after it as naturals. *)
Lemma in_text0 (pre suf : list Z) c : (zlen pre <? zlen (pre ++ c :: suf)) = true.
Proof. rewrite zlen_app, zlen_cons. pose proof (zlen_nonneg suf). apply Z.ltb_lt. lia. Qed.

Lemma sget_at0 pre suf c : sget (pre ++ c :: suf) (zlen pre) = Ret c.
Proof. rewrite <- (Z.add_0_r (zlen pre)), sget_shift by lia. apply sget_head. Qed.

Ltac at_prefix pre :=
  rewrite ?in_text0, ?sget_at0; cbn [negb obind];
  change (zlen pre + 1) with (zlen pre + Z.of_nat 1);
  change (zlen pre + 2) with (zlen pre + Z.of_nat 2);
  change (zlen pre + 3) with (zlen pre + Z.of_nat 3);
  rewrite ?in_text, ?at_end, ?str_at_shift; cbn [length drop].

(** Decides the guards on the length of the text. *)
Ltac guards :=
  repeat first
    [ rewrite bool_decide_true by (simpl; lia)
    | rewrite bool_decide_false by (simpl; lia)
    | rewrite sget_at by (simpl; lia) ];
  cbn [obind lookup list_lookup nth0 default from_option id].

Lemma getSlashEscCodeChar_ref pre rest :
  getSlashEscCodeChar (pre ++ 92 :: rest) (zlen (pre ++ 92 :: rest)) (zlen pre) =
  Ret (EscCode true (slash_ref rest).1 (zlen pre + Z.of_nat (slash_ref rest).2)).
Proof.
  unfold getSlashEscCodeChar. at_prefix pre. cbn [Z.eqb Pos.eqb negb].
  destruct rest as [|x r]; [cbn; by rewrite Z.add_0_r|]. guards. cbn.
  destruct ((x =? 88) || (x =? 120)) eqn:Hx.
  - rewrite getTwoCharHexVal_ref. destruct r as [|a [|b r]]; guards; [done|..]; cbn.
    + rewrite getOneCharHexVal_ref. by destruct (hexval a).
    + destruct (hexval a) as [h|] eqn:Ha, (hexval b) as [l|] eqn:Hb; cbn;
        rewrite ?getOneCharHexVal_ref, ?Ha; done.
  - rewrite between_spec.
    case_bool_decide as Ho; [|by destruct (octval x) eqn:E; [apply octval_range in E; lia|]].
    rewrite (octval_Some x) by done.
    destruct r as [|a [|b r]]; guards; rewrite ?getThreeCharOctVal_ref; cbn;
      rewrite ?(octval_Some x) by done; cbn;
      [|destruct (octval a) eqn:Ha|destruct (octval a) eqn:Ha, (octval b) eqn:Hb]; cbn;
      rewrite ?getTwoCharOctVal_ref; cbn; rewrite ?(octval_Some x), ?Ha by done; cbn;
      rewrite ?getOneCharOctVal_ref, ?(octval_Some x) by done; done.
Qed.

Lemma hexval_gt : hexval 62 = None.
Proof. reflexivity. Qed.

Lemma getChkdEscCodeChar_ref pre rest :
  getChkdEscCodeChar (pre ++ 60 :: rest) (zlen (pre ++ 60 :: rest)) (zlen pre) =
  Ret (match chkd_ref rest with
       | Some (c, n) => EscCode true c (zlen pre + Z.of_nat n)
       | None => EscCode false 0 0
       end).
Proof.
  unfold getChkdEscCodeChar. at_prefix pre. cbn [Z.eqb Pos.eqb negb].
  destruct rest as [|a [|b [|d r]]]; [cbn; by rewrite Z.add_0_r|..]; guards; cbn.
  - by destruct (hexval a).
  - destruct (Z.eqb_spec b 62) as [->|Hb]; cbn.
    + rewrite getOneCharHexVal_ref. by destruct (hexval a).
    + destruct (hexval a), (hexval b); try done; by rewrite decide_False by congruence.
  - rewrite getTwoCharHexVal_ref. cbn.
    destruct (Z.eqb_spec d 62) as [->|Hd]; cbn;
      (destruct (Z.eqb_spec b 62) as [->|Hb]; cbn;
       [rewrite ?hexval_gt|destruct (hexval b)]; destruct (hexval a) eqn:Ha; cbn;
       rewrite ?getOneCharHexVal_ref, ?Ha, ?decide_False by congruence; done).
Qed.

(** ** The parsing loops *)

(** A step that refines [ref] makes the loop refine [ref_parse]. *)
Section scan_ref.
Context (step : list Z -> Z -> list Z -> outcome (round (list Z))).
Context (ref : list Z -> option (Z * nat)).
Context (Hstep : forall pre c rest out,
  step (pre ++ c :: rest) (zlen pre) out =
  Ret (match ref (c :: rest) with
       | Some (e, n) => Next (zlen pre + Z.of_nat n) (out ++ [e])
       | None => Leave
       end)).
Context (Hn : forall c rest e n, ref (c :: rest) = Some (e, n) -> (n <= length rest)%nat).

Lemma scan_ref fuel : forall pre suf out, (length suf <= fuel)%nat ->
  scan (step (pre ++ suf)) fuel (zlen (pre ++ suf)) (zlen pre) out =
  Ret (Some (match ref_parse ref fuel suf with
             | Some raw => Next (zlen (pre ++ suf)) (out ++ raw)
             | None => Leave
             end)).
Proof.
  induction fuel as [|fuel IH]; intros pre suf out Hf; (destruct suf as [|c rest]; [
    rewrite app_nil_r; cbn; rewrite Z.ltb_irrefl, app_nil_r; done | ]).
  { simpl in Hf; lia. }
  cbn [scan ref_parse]. rewrite in_text0, Hstep. cbn [obind].
  destruct (ref (c :: rest)) as [[e n]|] eqn:Href; [|done].
  apply Hn in Href. cbn [drop].
  rewrite <- (take_drop n rest) at 1 2. set (pre' := pre ++ c :: take n rest).
  replace (pre ++ c :: take n rest ++ drop n rest) with (pre' ++ drop n rest)
    by (unfold pre'; by rewrite <- app_assoc).
  replace (zlen pre + Z.of_nat n + 1) with (zlen pre').
  2:{ unfold pre', zlen. rewrite length_app. simpl. rewrite length_take. lia. }
  rewrite IH by (rewrite length_drop; simpl in Hf; lia). do 2 f_equal.
  destruct (ref_parse ref fuel (drop n rest)); [cbn|done].
  rewrite <- app_assoc. f_equal. unfold pre'. by rewrite <- app_assoc, <- app_comm_cons, take_drop.
Qed.

Lemma parse_ref text :
  parse_with (step text) id [] text =
  Ret (Some (match ref_parse ref (length text) text with
             | Some raw => (true, raw)
             | None => (false, [])
             end)).
Proof.
  unfold parse_with. rewrite (scan_ref _ [] text []) by done. cbn [obind].
  by destruct (ref_parse ref (length text) text).
Qed.
End scan_ref.

Lemma slash_ref_length rest : ((slash_ref rest).2 <= length rest)%nat.
Proof.
  destruct rest as [|x [|a [|b r]]]; cbn; [done|..];
    destruct ((x =? 88) || (x =? 120)); cbn; repeat case_match; cbn; lia.
Qed.

Lemma chkd_ref_length rest c n : chkd_ref rest = Some (c, n) -> (n <= length rest)%nat.
Proof.
  destruct rest as [|x [|a [|b r]]]; cbn; [by intros [= _ <-]|..];
    destruct (hexval x); cbn; repeat case_match; intros; simplify_eq/=; lia.
Qed.

Lemma esc_ref_length c rest e n : esc_ref (c :: rest) = Some (e, n) -> (n <= length rest)%nat.
Proof.
  pose proof (slash_ref_length rest) as Hs. cbn. destruct (slash_ref rest).
  repeat case_match; intros; simplify_eq/=; lia.
Qed.

Lemma chkdstr_ref_length c rest e n :
  chkdstr_ref (c :: rest) = Some (e, n) -> (n <= length rest)%nat.
Proof.
  pose proof (slash_ref_length rest) as Hs. pose proof (chkd_ref_length rest) as Hc. cbn.
  destruct (slash_ref rest), (chkd_ref rest) as [[d k]|]; try specialize (Hc _ _ eq_refl); cbn;
  repeat case_match; intros; simplify_eq/=; lia.
Qed.

Lemma parseEscStr_step_ref pre c rest out :
  parseEscStr_step (pre ++ c :: rest) (zlen pre) out =
  Ret (match esc_ref (c :: rest) with
       | Some (e, n) => Next (zlen pre + Z.of_nat n) (out ++ [e])
       | None => Leave
       end).
Proof.
  unfold parseEscStr_step, esc_ref. rewrite sget_at0. cbn [obind].
  destruct (Z.eqb_spec c 92) as [->|Hc].
  - rewrite getSlashEscCodeChar_ref. destruct (slash_ref rest) as [e n]. cbn.
    destruct (e =? 0); cbn; [by rewrite Z.add_0_r | done].
  - cbn. destruct (c =? 0); [done|]. by rewrite Z.add_0_r.
Qed.

Lemma parseChkdStr_step_ref pre c rest out :
  parseChkdStr_step (pre ++ c :: rest) (zlen pre) out =
  Ret (match chkdstr_ref (c :: rest) with
       | Some (e, n) => Next (zlen pre + Z.of_nat n) (out ++ [e])
       | None => Leave
       end).
Proof.
  unfold parseChkdStr_step, chkdstr_ref. rewrite sget_at0. cbn [obind].
  destruct (Z.eqb_spec c 92) as [->|Hc].
  - rewrite getSlashEscCodeChar_ref. destruct (slash_ref rest) as [e n]. cbn.
    destruct (e =? 0); cbn; [by rewrite Z.add_0_r | done].
  - cbn. destruct (Z.eqb_spec c 60) as [->|Hc'].
    + rewrite getChkdEscCodeChar_ref. destruct (chkd_ref rest) as [[e n]|]; cbn;
        [destruct (e =? 0); cbn|]; rewrite ?Z.add_0_r; done.
    + cbn. destruct (c =? 0); [done|]. by rewrite Z.add_0_r.
Qed.

Definition parseEscStr_ref := parse_ref _ _ parseEscStr_step_ref esc_ref_length.
Definition parseChkdStr_ref := parse_ref _ _ parseChkdStr_step_ref chkdstr_ref_length.

(** ** Success and failure *)

Ltac not_nul := rewrite ?list_elem_of_In; cbn; intuition lia.

Lemma simple_escape_spec x : is_u 8 x -> is_u 8 (simple_escape x) /\ (x = 0 -> simple_escape x = 0).
Proof.
  intros Hx. unfold simple_escape. split; [|by intros ->]. unfold is_u in *.
  repeat case_match; lia.
Qed.

Lemma simple_escape_nul x : simple_escape x <> 0 -> x <> 0.
Proof. by intros H ->. Qed.

(** The characters of an escape code are no NUL, unless it stands for one. *)
Lemma slash_ref_nul rest : (slash_ref rest).1 <> 0 -> 0 ∉ take (slash_ref rest).2 rest.
Proof.
  unfold slash_ref. destruct rest as [|x r]; [not_nul|].
  destruct ((x =? 88) || (x =? 120)) eqn:Hx.
  - apply orb_true_iff in Hx. rewrite !Z.eqb_eq in Hx.
    destruct r as [|a [|b r]]; cbn; [not_nul|..];
      (destruct (hexval a) eqn:Ha; [apply hexval_range in Ha | not_nul]);
      [not_nul|]. destruct (hexval b) eqn:Hb; [apply hexval_range in Hb|]; not_nul.
  - destruct (octval x) eqn:Ho; [apply octval_range in Ho|].
    + destruct r as [|a [|b r]]; cbn; [not_nul|..];
        (destruct (octval a) eqn:Ha; [apply octval_range in Ha | not_nul]);
        [not_nul|]. destruct (octval b) eqn:Hb; [apply octval_range in Hb|]; not_nul.
    + cbn. intros Hs%simple_escape_nul. not_nul.
Qed.

Lemma slash_ref_u8 rest : Forall (is_u 8) rest -> is_u 8 (slash_ref rest).1.
Proof.
  intros Hr. unfold slash_ref. destruct rest as [|x r]; [unfold is_u; simpl; lia|].
  apply Forall_cons in Hr as [Hx _].
  destruct (_ || _).
  - destruct (r !! 0%nat ≫= hexval) as [h|] eqn:Ha; [|done].
    apply bind_Some in Ha as (? & _ & Ha%hexval_range).
    destruct (r !! 1%nat ≫= hexval) as [l|] eqn:Hb; [|unfold is_u; simpl; lia].
    apply bind_Some in Hb as (? & _ & Hb%hexval_range). unfold is_u; simpl; lia.
  - destruct (octval x) as [o|] eqn:Ho; [|apply (simple_escape_spec x Hx)].
    apply octval_range in Ho.
    destruct (r !! 0%nat ≫= octval) as [h|] eqn:Ha; [|unfold is_u; simpl; lia].
    apply bind_Some in Ha as (? & _ & Ha%octval_range).
    destruct (r !! 1%nat ≫= octval) as [l|] eqn:Hb; [apply u8_range|unfold is_u; simpl; lia].
Qed.

Lemma chkd_ref_spec rest c n : chkd_ref rest = Some (c, n) -> is_u 8 c /\ 0 ∉ take n rest.
Proof.
  destruct rest as [|x [|a r]]; cbn.
  - intros [= <- <-]. unfold is_u. split; [lia | not_nul].
  - by destruct (hexval x).
  - destruct (hexval x) as [h|] eqn:Hx; [apply hexval_range in Hx|done].
    destruct (hexval a) as [l|] eqn:Ha; [apply hexval_range in Ha|].
    + case_decide as Hd; [|done]. intros [= <- <-]. destruct r; [done|].
      injection Hd as ->. unfold is_u. split; [lia|]. not_nul.
    + case_decide as Hd; [|done]. injection Hd as ->. intros [= <- <-]. unfold is_u.
      split; [lia|]. not_nul.
Qed.

(** What a parser's rounds promise: only a NUL fails, and the codes taken hold
    none and stand for none. *)
Definition sound_code (c : Z) (rest : list Z) (code : option (Z * nat)) : Prop :=
  match code with
  | None => c = 0
  | Some (e, n) => c <> 0 /\ e <> 0 /\ (0 ∉ take n rest) /\ (n <= length rest)%nat /\
      (Forall (is_u 8) (c :: rest) -> is_u 8 e)
  end.

Definition sound_ref (ref : list Z -> option (Z * nat)) : Prop :=
  forall c rest, sound_code c rest (ref (c :: rest)).

Lemma char_sound c rest : c <> 0 -> sound_code c rest (Some (c, 0%nat)).
Proof. intros. split_and!; [done|done|not_nul|lia|]. by intros [? ?]%Forall_cons. Qed.

Lemma plain_sound c rest : sound_code c rest (if c =? 0 then None else Some (c, 0%nat)).
Proof. destruct (Z.eqb_spec c 0); [done|]. by apply char_sound. Qed.

Lemma take_code_sound c rest code :
  c <> 0 ->
  (forall e n, code = Some (e, n) -> (e <> 0 -> 0 ∉ take n rest) /\ (n <= length rest)%nat /\
     (Forall (is_u 8) rest -> is_u 8 e)) ->
  sound_code c rest (take_code c code).
Proof.
  intros Hc Hcode. destruct code as [[e n]|]; cbn [take_code]; [|by apply char_sound].
  destruct (Hcode e n eq_refl) as (Hnul & Hlen & Hu).
  destruct (Z.eqb_spec e 0) as [->|He]; [by apply char_sound|].
  split_and!; [done|done|by apply Hnul|done|]. intros [? ?]%Forall_cons. auto.
Qed.

Lemma slash_sound rest e n : Some (slash_ref rest) = Some (e, n) ->
  (e <> 0 -> 0 ∉ take n rest) /\ (n <= length rest)%nat /\ (Forall (is_u 8) rest -> is_u 8 e).
Proof.
  pose proof (slash_ref_nul rest). pose proof (slash_ref_length rest).
  pose proof (slash_ref_u8 rest). destruct (slash_ref rest) as [x k]. by intros [= <- <-].
Qed.

Lemma esc_ref_sound : sound_ref esc_ref.
Proof.
  intros c rest. unfold esc_ref. destruct (Z.eqb_spec c 92) as [->|]; [|apply plain_sound].
  apply take_code_sound; [done|]. intros e n. apply slash_sound.
Qed.

Lemma chkdstr_ref_sound : sound_ref chkdstr_ref.
Proof.
  intros c rest. unfold chkdstr_ref. destruct (Z.eqb_spec c 92) as [->|].
  { apply take_code_sound; [done|]. intros e n. apply slash_sound. }
  destruct (Z.eqb_spec c 60) as [->|]; [|apply plain_sound].
  apply take_code_sound; [done|]. intros e k Hc. pose proof (chkd_ref_length _ _ _ Hc).
  apply chkd_ref_spec in Hc as [? ?]. auto.
Qed.

Lemma ref_parse_spec ref fuel : sound_ref ref -> forall text, (length text <= fuel)%nat ->
  (0 ∈ text -> ref_parse ref fuel text = None) /\
  (0 ∉ text -> exists raw, ref_parse ref fuel text = Some raw /\ (0 ∉ raw) /\
     (length raw <= length text)%nat /\ (Forall (is_u 8) text -> Forall (is_u 8) raw)).
Proof.
  intros Href. induction fuel as [|fuel IH]; intros text Hf; (destruct text as [|c rest]; [
    split; [not_nul|]; intros _; exists []; cbn; split_and!; auto; not_nul | ]).
  { simpl in Hf; lia. }
  specialize (Href c rest). cbn [ref_parse]. simpl in Hf.
  destruct (ref (c :: rest)) as [[e n]|]; [|cbn in Href; subst c; split; [done|set_solver]].
  destruct Href as (Hc & He & Hnul & Hlen & Hu). cbn [drop].
  destruct (IH (drop n rest)) as [IHf IHs]; [rewrite length_drop; lia|].
  assert (Hin : 0 ∈ c :: rest <-> 0 ∈ drop n rest).
  { rewrite elem_of_cons, <- (take_drop n rest) at 1. rewrite elem_of_app. intuition congruence. }
  rewrite Hin. split; [intros H; by rewrite (IHf H)|]. intros H.
  destruct (IHs H) as (raw & Hraw & Hr0 & Hrlen & Hru). rewrite Hraw. exists (e :: raw).
  rewrite length_drop in Hrlen. split_and!; [done| |simpl; lia|].
  - rewrite elem_of_cons. intros [?|?]; [congruence|done].
  - intros Hall. constructor; [by apply Hu|]. apply Hru, Forall_drop. by apply Forall_cons in Hall as [_ ?].
Qed.

(** ** Round trips *)

Lemma hexval_digit d : 0 <= d < 16 -> hexval (hex_digit d) = Some d.
Proof.
  intros Hd. unfold hex_digit, hexval. rewrite !between_spec.
  destruct (Z.gtb_spec d 9); repeat case_bool_decide; try lia; f_equal; lia.
Qed.

Lemma hex_pair c : is_u 8 c ->
  hexval (hex_digit (c / 16)) = Some (c / 16) /\ hexval (hex_digit (c mod 16)) = Some (c mod 16) /\
  16 * (c / 16) + c mod 16 = c.
Proof.
  intros Hc. unfold is_u in Hc. pose proof (Z.mod_pos_bound c 16 ltac:(lia)).
  rewrite (hexval_digit (c / 16)), (hexval_digit (c mod 16));
    [|done|split; [apply Z.div_pos | apply Z.div_lt_upper_bound]; lia].
  split_and!; [done|done|]. symmetry. apply Z.div_mod. lia.
Qed.

(** The text a loop makes: one chunk per character, which may look at the
    characters around. *)
Fixpoint encode (chunk : list Z -> Z -> list Z -> list Z) (pre raw : list Z) : list Z :=
  match raw with
  | [] => []
  | c :: rest => chunk pre c rest ++ encode chunk (pre ++ [c]) rest
  end.

Lemma make_encode (body : list Z -> Z -> list Z -> outcome (list Z)) chunk :
  (forall pre c rest out,
     body (pre ++ c :: rest) (zlen pre) out = Ret (out ++ chunk pre c rest)) ->
  forall raw pre out,
    for_each (body (pre ++ raw)) (range (zlen pre) (zlen (pre ++ raw))) out =
    Ret (out ++ encode chunk pre raw).
Proof.
  intros Hbody raw. induction raw as [|c rest IH]; intros pre out.
  - rewrite app_nil_r, range_empty by done. cbn. by rewrite app_nil_r.
  - pose proof (in_text0 pre rest c) as Hlt%Z.ltb_lt.
    rewrite range_cons by done. cbn [for_each encode]. rewrite Hbody. cbn [obind].
    specialize (IH (pre ++ [c]) (out ++ chunk pre c rest)).
    rewrite <- app_assoc, zlen_app in IH. change (zlen [c]) with 1 in IH. cbn [app] in IH.
    by rewrite IH, <- app_assoc.
Qed.

(** A chunk a parser's round takes as a whole, for the character it stands for. *)
Definition decodes (ref : list Z -> option (Z * nat)) (c : Z) (chunk : list Z) : Prop :=
  exists x t, chunk = x :: t /\ forall suf, ref (x :: t ++ suf) = Some (c, length t).

Lemma ref_parse_encode ref chunk (ok : Z -> Prop) :
  (forall pre c rest, ok c -> decodes ref c (chunk pre c rest)) ->
  forall raw pre fuel, Forall ok raw -> (length (encode chunk pre raw) <= fuel)%nat ->
    ref_parse ref fuel (encode chunk pre raw) = Some raw.
Proof.
  intros Hchunk raw. induction raw as [|c rest IH]; intros pre fuel Hok Hf; [by destruct fuel|].
  apply Forall_cons in Hok as [Hc Hok].
  destruct (Hchunk pre c rest Hc) as (x & t & Ht & Href).
  cbn [encode] in *. rewrite Ht in *. destruct fuel as [|fuel]; [simpl in Hf; lia|].
  cbn [app ref_parse]. rewrite Href. cbn [drop]. rewrite drop_app_length, IH; [done|done|].
  simpl in Hf. rewrite length_app in Hf. lia.
Qed.

(** The characters of raw strings. *)
Definition raw_char (c : Z) : Prop := is_u 8 c /\ c <> 0.

Lemma raw_chars raw : Forall (is_u 8) raw -> (0 ∉ raw) -> Forall raw_char raw.
Proof.
  intros Hu H0. apply Forall_forall. intros c Hc. split; [by eapply Forall_forall in Hu|].
  by intros ->.
Qed.

Definition needs_hex (c : Z) : bool := (c <? 32) || (c =? 127).

Definition esc_chunk (pre : list Z) (c : Z) (rest : list Z) : list Z :=
  if c =? 10 then [92; 110]
  else if c =? 13 then [92; 114]
  else if c =? 9 then [92; 116]
  else if c =? 34 then [92; 34]
  else if c =? 92 then [92; 92]
  else if needs_hex c then [92; 120; hex_digit (c / 16); hex_digit (c mod 16)]
  else [c].

(** The part of the two makers of Chkd strings they share. *)
Definition chkd_tail (c : Z) : list Z :=
  if c =? 60 then [92; 60] else if c =? 92 then [92; 92] else [c].
Definition chkd_hex (c : Z) : list Z := [60; hex_digit (c / 16); hex_digit (c mod 16); 62].

Definition before_newline (c : Z) (rest : list Z) : bool := (c =? 13) && (nth0 rest 0 =? 10).
Definition after_return (pre : list Z) (c : Z) : bool :=
  (c =? 10) && (default 0 (last pre) =? 13).

Definition chkd_chunk (pre : list Z) (c : Z) (rest : list Z) : list Z :=
  if needs_hex c && negb (c =? 9) && negb (before_newline c rest || after_return pre c)
  then chkd_hex c else chkd_tail c.

Definition line_chunk (pre : list Z) (c : Z) (rest : list Z) : list Z :=
  if before_newline c rest then [92; 114]
  else if after_return pre c then [92; 110]
  else if c =? 9 then [92; 116]
  else if needs_hex c then chkd_hex c
  else chkd_tail c.

Lemma decodes_pair ref x t c : (forall suf, ref (x :: t ++ suf) = Some (c, length t)) ->
  decodes ref c (x :: t).
Proof. intros H. by exists x, t. Qed.

Lemma slash_ref_hex a b suf h l : hexval a = Some h -> hexval b = Some l ->
  slash_ref (120 :: a :: b :: suf) = (16 * h + l, 3%nat).
Proof. intros Ha Hb. cbn. by rewrite Ha, Hb. Qed.

Lemma chkd_ref_hex a b suf h l : hexval a = Some h -> hexval b = Some l ->
  chkd_ref (a :: b :: 62 :: suf) = Some (16 * h + l, 3%nat).
Proof. intros Ha Hb. cbn. by rewrite Ha, Hb. Qed.

Lemma escbytes_decodes pre c rest : is_u 8 c -> decodes escbytes_ref c (esc_chunk pre c rest).
Proof.
  intros Hc. unfold esc_chunk.
  destruct (Z.eqb_spec c 10) as [->|]; [by apply decodes_pair|].
  destruct (Z.eqb_spec c 13) as [->|]; [by apply decodes_pair|].
  destruct (Z.eqb_spec c 9) as [->|]; [by apply decodes_pair|].
  destruct (Z.eqb_spec c 34) as [->|]; [by apply decodes_pair|].
  destruct (Z.eqb_spec c 92) as [->|]; [by apply decodes_pair|].
  destruct (needs_hex c); apply decodes_pair; intros suf; cbn [app].
  - destruct (hex_pair c Hc) as (Hh & Hl & Hsum).
    change (Some (slash_ref (120 :: hex_digit (c / 16) :: hex_digit (c mod 16) :: suf)) = Some (c, 3%nat)).
    by rewrite (slash_ref_hex _ _ _ _ _ Hh Hl), Hsum.
  - cbn. by rewrite (proj2 (Z.eqb_neq c 92)).
Qed.

Lemma esc_decodes pre c rest : raw_char c -> decodes esc_ref c (esc_chunk pre c rest).
Proof.
  intros [Hc H0]. destruct (escbytes_decodes pre c rest Hc) as (x & t & -> & Href).
  apply decodes_pair. intros suf. specialize (Href suf). revert Href. cbn.
  destruct (Z.eqb_spec x 92) as [->|]; cbn.
  - intros [= ->]. by rewrite (proj2 (Z.eqb_neq c 0)).
  - intros [= -> <-]. by rewrite (proj2 (Z.eqb_neq c 0)).
Qed.

Lemma chkd_tail_decodes c : raw_char c -> decodes chkdstr_ref c (chkd_tail c).
Proof.
  intros [_ H0]. unfold chkd_tail.
  destruct (Z.eqb_spec c 60) as [->|]; [by apply decodes_pair|].
  destruct (Z.eqb_spec c 92) as [->|]; apply decodes_pair; [done|]. intros suf. cbn.
  by rewrite (proj2 (Z.eqb_neq c 92)), (proj2 (Z.eqb_neq c 60)), (proj2 (Z.eqb_neq c 0)).
Qed.

Lemma chkd_hex_decodes c : raw_char c -> decodes chkdstr_ref c (chkd_hex c).
Proof.
  intros [Hc H0]. apply decodes_pair. intros suf. cbn [app].
  destruct (hex_pair c Hc) as (Hh & Hl & Hsum).
  unfold chkdstr_ref. rewrite (chkd_ref_hex _ _ _ _ _ Hh Hl), Hsum. cbn.
  by rewrite (proj2 (Z.eqb_neq c 0)).
Qed.

Lemma chkd_decodes pre c rest : raw_char c -> decodes chkdstr_ref c (chkd_chunk pre c rest).
Proof.
  intros. unfold chkd_chunk.
  destruct (_ && _); [by apply chkd_hex_decodes | by apply chkd_tail_decodes].
Qed.

Lemma line_decodes pre c rest : raw_char c -> decodes chkdstr_ref c (line_chunk pre c rest).
Proof.
  intros. unfold line_chunk, before_newline, after_return.
  destruct ((c =? 13) && _) eqn:Hr.
  { destruct (Z.eqb_spec c 13) as [->|]; [by apply decodes_pair|done]. }
  destruct ((c =? 10) && _) eqn:Hn.
  { destruct (Z.eqb_spec c 10) as [->|]; [by apply decodes_pair|done]. }
  destruct (Z.eqb_spec c 9) as [->|]; [by apply decodes_pair|].
  destruct (needs_hex c); [by apply chkd_hex_decodes | by apply chkd_tail_decodes].
Qed.

(** The makers build the encodings. *)
Lemma for_encode (body : list Z -> Z -> list Z -> outcome (list Z)) chunk raw :
  (forall pre c rest out,
     body (pre ++ c :: rest) (zlen pre) out = Ret (out ++ chunk pre c rest)) ->
  for_each (body raw) (range 0 (zlen raw)) [] = Ret (encode chunk [] raw).
Proof. intros H. exact (make_encode body chunk H raw [] []). Qed.

Lemma makeEscStr_encode raw : makeEscStr_raw raw = Ret (true, encode esc_chunk [] raw).
Proof.
  unfold makeEscStr_raw, makeEscStr. erewrite for_encode; [done|].
  intros pre c rest out. unfold makeEscStr_body. rewrite sget_at0. cbn. f_equal.
  unfold esc_chunk, needs_hex. repeat case_match; done.
Qed.

Lemma beforeNewLine_ref pre c rest :
  beforeNewLine (pre ++ c :: rest) (zlen (pre ++ c :: rest)) (zlen pre) c =
  Ret (before_newline c rest).
Proof.
  unfold beforeNewLine, before_newline. destruct (c =? 13); [cbn [andb]|done]. at_prefix pre.
  destruct rest as [|d rest]; [done|]. by guards.
Qed.

Lemma afterReturn_ref pre c rest :
  afterReturn (pre ++ c :: rest) (zlen pre) c = Ret (after_return pre c).
Proof.
  unfold afterReturn, after_return. destruct (c =? 10); [cbn [andb]|done].
  destruct pre as [|d pre _] using rev_ind; [done|].
  rewrite last_snoc, zlen_app. change (zlen [d]) with 1. pose proof (zlen_nonneg pre).
  destruct (Z.eqb_spec (zlen pre + 1) 0); [lia|]. cbn [negb].
  replace (zlen pre + 1 - 1) with (zlen pre) by lia.
  rewrite <- app_assoc. cbn [app]. by rewrite sget_at0.
Qed.

Lemma makeChkdStr_encode raw : makeChkdStr_raw false raw = Ret (true, encode chkd_chunk [] raw).
Proof.
  unfold makeChkdStr_raw, makeChkdStr.
  erewrite (for_encode (fun raw => makeChkdStr_body raw (zlen raw))); [done|].
  intros pre c rest out. unfold makeChkdStr_body.
  rewrite sget_at0. cbn [obind]. rewrite beforeNewLine_ref. cbn [obind]. rewrite afterReturn_ref.
  unfold chkd_chunk, needs_hex, chkd_tail, chkd_hex.
  destruct (before_newline c rest), (after_return pre c); cbn; f_equal; repeat case_match; done.
Qed.

Lemma MakeOneLineChkdStr_encode raw :
  MakeOneLineChkdStr raw (zlen raw) = Ret (true, encode line_chunk [] raw).
Proof.
  unfold MakeOneLineChkdStr.
  erewrite (for_encode (fun raw => MakeOneLineChkdStr_body raw (zlen raw))); [done|].
  intros pre c rest out. unfold MakeOneLineChkdStr_body.
  rewrite sget_at0. cbn [obind]. rewrite beforeNewLine_ref. cbn [obind]. rewrite afterReturn_ref.
  unfold line_chunk, needs_hex, chkd_tail, chkd_hex.
  destruct (before_newline c rest), (after_return pre c); cbn; f_equal; repeat case_match; done.
Qed.

(** The parser of a notation. *)
Definition parse_type (t : string_type) (text : list Z) : outcome (option (bool * list Z)) :=
  match t with
  | RawString => Ret (Some (true, text))
  | EscString => parseEscStr text
  | ChkdString | SingleLineChkdString => parseChkdStr text
  end.

Lemma ref_result ref text : sound_ref ref ->
  let r := Ret (Some (match ref_parse ref (length text) text with
                      | Some raw => (true, raw)
                      | None => (false, [])
                      end)) in
  (0 ∈ text -> r = Ret (Some (false, []))) /\
  (0 ∉ text -> exists raw, r = Ret (Some (true, raw)) /\ (0 ∉ raw) /\
     (length raw <= length text)%nat /\ (Forall (is_u 8) text -> Forall (is_u 8) raw)).
Proof.
  intros Href. destruct (ref_parse_spec ref (length text) Href text (le_n _)) as [Hf Hs]. cbn. split.
  - intros H. by rewrite (Hf H).
  - intros H. destruct (Hs H) as (raw & -> & ?). eauto.
Qed.

(** The text of an escape code for NUL. *)
Definition escapedNul (chkd : bool) : list Z := if chkd then [60; 48; 48; 62] else [92; 120; 48; 48].

(** C21: Parsing a text in either notation ends within one round per character,
    reads nothing outside of the text, and fails exactly when the text holds a
    NUL character itself; otherwise it gives a raw string without NUL characters
    that is no longer than the text.  An escape code for NUL is no failure,
    although the comment of [parseChkdStr] says so: its characters are kept as
    they are and the rest of the text is parsed as it is without them. *)
Theorem parse_result (text : list Z) (chkd : bool) :
  let parse := if chkd then parseChkdStr else parseEscStr in
  (0 ∈ text -> parse text = Ret (Some (false, []))) /\
  (0 ∉ text -> exists raw, parse text = Ret (Some (true, raw)) /\ (0 ∉ raw) /\
     (length raw <= length text)%nat /\ (Forall (is_u 8) text -> Forall (is_u 8) raw) /\
     parse (escapedNul chkd ++ text) = Ret (Some (true, escapedNul chkd ++ raw))).
Proof.
  destruct chkd; cbn [escapedNul]; unfold parseChkdStr, parseEscStr.
  - rewrite !parseChkdStr_ref. destruct (ref_result chkdstr_ref text chkdstr_ref_sound) as [Hf Hs].
    split; [exact Hf|]. intros H0. destruct (Hs H0) as (raw & E & ? & ? & ?). exists raw. split_and!; [done..|].
    injection E as E. destruct (ref_parse chkdstr_ref (length text) text) eqn:Er; [|done]. injection E as ->.
    change (ref_parse chkdstr_ref (length (_ ++ text)) _) with (cons 60 <$> (cons 48 <$> (cons 48 <$> (cons 62 <$> ref_parse chkdstr_ref (length text) text)))).
    by rewrite Er.
  - rewrite !parseEscStr_ref. destruct (ref_result esc_ref text esc_ref_sound) as [Hf Hs].
    split; [exact Hf|]. intros H0. destruct (Hs H0) as (raw & E & ? & ? & ?). exists raw. split_and!; [done..|].
    injection E as E. destruct (ref_parse esc_ref (length text) text) eqn:Er; [|done]. injection E as ->.
    change (ref_parse esc_ref (length (_ ++ text)) _) with (cons 92 <$> (cons 120 <$> (cons 48 <$> (cons 48 <$> ref_parse esc_ref (length text) text)))).
    by rewrite Er.
Qed.

Lemma parse_encoded step ref chunk ok raw :
  (forall text, parse_with (step text) id [] text =
    Ret (Some (match ref_parse ref (length text) text with
               | Some raw => (true, raw) | None => (false, []) end))) ->
  (forall pre c rest, ok c -> decodes ref c (chunk pre c rest)) -> Forall ok raw ->
  parse_with (step (encode chunk [] raw)) id [] (encode chunk [] raw) = Ret (Some (true, raw)).
Proof. intros Hp Hc Hok. rewrite Hp. by rewrite (ref_parse_encode _ _ _ Hc). Qed.

Lemma convertStr_from_raw t raw : Forall (is_u 8) raw -> (0 ∉ raw) ->
  exists text, convertStr RawString t raw = Ret (Some text) /\
    convertStr t RawString text = Ret (Some raw).
Proof.
  intros Hu H0. pose proof (raw_chars raw Hu H0) as Hraw. destruct t; cbn [convertStr obind].
  - eauto.
  - rewrite makeEscStr_encode. cbn. eexists; split; [done|].
    unfold parseEscStr.
    by rewrite (parse_encoded _ _ _ _ raw parseEscStr_ref esc_decodes Hraw).
  - rewrite makeChkdStr_encode. cbn. eexists; split; [done|].
    unfold parseChkdStr.
    by rewrite (parse_encoded _ _ _ _ raw parseChkdStr_ref chkd_decodes Hraw).
  - rewrite MakeOneLineChkdStr_encode. cbn. eexists; split; [done|].
    unfold parseChkdStr.
    by rewrite (parse_encoded _ _ _ _ raw parseChkdStr_ref line_decodes Hraw).
Qed.

Lemma parse_type_result t text : (0 ∉ text) -> Forall (is_u 8) text ->
  exists raw, parse_type t text = Ret (Some (true, raw)) /\ (0 ∉ raw) /\ Forall (is_u 8) raw.
Proof.
  intros H0 Hu.
  assert (Hesc := proj2 (ref_result _ text esc_ref_sound) H0).
  assert (Hchkd := proj2 (ref_result _ text chkdstr_ref_sound) H0).
  rewrite <- parseEscStr_ref in Hesc. rewrite <- parseChkdStr_ref in Hchkd.
  destruct Hesc as (r1 & ? & ? & _ & ?), Hchkd as (r2 & ? & ? & _ & ?).
  destruct t; cbn; eauto.
Qed.

(** C20: Converting a text to another notation keeps the string it denotes: a text
    without NUL characters denotes a raw string, and the converted text denotes
    the same one, for any two notations (raw, escaped, Chkd, one-line Chkd). *)
Theorem convertStr_keeps_raw (from to : string_type) (text : list Z)
    (Hu : Forall (is_u 8) text) (H0 : 0 ∉ text) :
  exists raw out,
    convertStr from RawString text = Ret (Some raw) /\
    convertStr from to text = Ret (Some out) /\
    convertStr to RawString out = Ret (Some raw).
Proof.
  destruct (parse_type_result from text H0 Hu) as (raw & Hraw & Hr0 & Hru).
  destruct (convertStr_from_raw to raw Hru Hr0) as (out & Hout & Hback).
  assert (Hfrom : convertStr from RawString text = Ret (Some raw)).
  { destruct from; cbn in *; by rewrite ?Hraw; simplify_eq. }
  exists raw.
  destruct (decide (from = to)) as [<-|Hne].
  { exists text. split; [done|]. split; [|done].
    destruct from; cbn; [|done|done|done]. by cbn in Hraw; simplify_eq. }
  exists out. split; [done|]. split; [|done]. clear Hfrom Hback.
  destruct from, to; try done; cbn in *; rewrite ?Hraw; cbn; simplify_eq; done.
Qed.

Lemma convertStr_keeps_raw_witness :
  exists raw out,
    convertStr EscString RawString [92; 120; 55; 102; 60; 10] = Ret (Some raw) /\
    convertStr EscString ChkdString [92; 120; 55; 102; 60; 10] = Ret (Some out) /\
    convertStr ChkdString RawString out = Ret (Some raw).
Proof.
  apply (convertStr_keeps_raw EscString ChkdString [92; 120; 55; 102; 60; 10]).
  - repeat constructor; vm_compute; congruence.
  - by apply (bool_decide_eq_true_1 _).
Defined.

Lemma parse_result_witness :
  0 ∈ [92; 120; 52; 49; 0; 98] /\ parseEscStr [92; 120; 52; 49; 0; 98] = Ret (Some (false, [])).
Proof.
  assert (H : 0 ∈ [92; 120; 52; 49; 0; 98]) by (by apply (bool_decide_eq_true_1 _)).
  split; [exact H|]. exact (proj1 (parse_result [92; 120; 52; 49; 0; 98] false) H).
Defined.

(** ** Bytes *)

Lemma parseEscBytes_step_ref pre c rest out :
  parseEscBytes_step (pre ++ c :: rest) (zlen pre) out =
  Ret (match escbytes_ref (c :: rest) with
       | Some (e, n) => Next (zlen pre + Z.of_nat n) (out ++ [e])
       | None => Leave
       end).
Proof.
  unfold parseEscBytes_step, escbytes_ref. rewrite sget_at0. cbn [obind].
  destruct (Z.eqb_spec c 92) as [->|Hc]; cbn [andb].
  - rewrite getSlashEscCodeChar_ref. by destruct (slash_ref rest) as [e n].
  - by rewrite Z.add_0_r.
Qed.

Lemma escbytes_ref_length c rest e n :
  escbytes_ref (c :: rest) = Some (e, n) -> (n <= length rest)%nat.
Proof.
  pose proof (slash_ref_length rest) as Hs. cbn. destruct (slash_ref rest).
  destruct (c =? 92); intros; simplify_eq/=; lia.
Qed.

Definition parseEscBytes_ref := parse_ref _ escbytes_ref parseEscBytes_step_ref escbytes_ref_length.

(** Any bytes, NUL characters included, survive escaping and parsing to bytes. *)
Theorem escaped_bytes_roundtrip (bytes : list Z) (Hb : Forall (is_u 8) bytes) :
  exists text, makeEscStr_raw bytes = Ret (true, text) /\
    parseEscBytes text = Ret (Some (true, bytes)).
Proof.
  rewrite makeEscStr_encode. eexists; split; [done|].
  unfold parseEscBytes.
  by rewrite (parse_encoded _ _ _ _ bytes parseEscBytes_ref escbytes_decodes Hb).
Qed.

Lemma escaped_bytes_roundtrip_witness :
  exists text, makeEscStr_raw [0; 65; 92; 10; 255] = Ret (true, text) /\
    parseEscBytes text = Ret (Some (true, [0; 65; 92; 10; 255])).
Proof.
  apply escaped_bytes_roundtrip. repeat constructor; vm_compute; congruence.
Defined.

Lemma scan_chkdbytes_plain text :
  Forall (fun c => c <> 92 /\ c <> 60) text ->
  forall suf pre out e fuel, text = pre ++ suf -> (length suf <= fuel)%nat ->
    scan (parseChkdBytes_step text) fuel (zlen text) (zlen pre) (e, out) =
    Ret (Some (Next (zlen text) (e, out ++ replicate (length suf) e))).
Proof.
  intros Hplain suf. induction suf as [|c suf IH]; intros pre out e fuel -> Hf.
  - rewrite app_nil_r. destruct fuel; cbn; by rewrite Z.ltb_irrefl, app_nil_r.
  - destruct fuel as [|fuel]; [simpl in Hf; lia|]. cbn [scan]. rewrite in_text0.
    apply Forall_app in Hplain as Hc. destruct Hc as [_ [[H1 H2] _]%Forall_cons].
    unfold parseChkdBytes_step at 1. rewrite sget_at0. cbn [obind].
    rewrite (proj2 (Z.eqb_neq c 92) H1), (proj2 (Z.eqb_neq c 60) H2). cbn [obind andb character].
    specialize (IH (pre ++ [c]) (out ++ [e]) e fuel).
    replace (zlen pre + 1) with (zlen (pre ++ [c])) by by rewrite zlen_app.
    rewrite IH; [|by rewrite <- app_assoc|simpl in Hf; lia].
    do 4 f_equal. rewrite <- app_assoc. done.
Qed.

(** Parsing a Chkd text to bytes loses the text: the last branch appends the
    last escaped character in place of the current one, so that a text without
    escapes becomes NUL characters. *)
Theorem parseChkdBytes_plain (text : list Z) (Hp : Forall (fun c => c <> 92 /\ c <> 60) text) :
  parseChkdBytes text = Ret (Some (true, replicate (length text) 0)).
Proof.
  unfold parseChkdBytes, parse_with.
  by rewrite (scan_chkdbytes_plain text Hp text [] [] 0).
Qed.

Lemma parseChkdBytes_plain_witness :
  parseChkdBytes [72; 105] = Ret (Some (true, [0; 0])).
Proof. apply (parseChkdBytes_plain [72; 105]). repeat constructor; congruence. Defined.
