(* ===== verification/Sha256.v ===== *)
(** * SHA-256 (sha256.cpp, sha256.h)

    The hash that map passwords are checked with: a state with eight words, a
    buffer for an incomplete block and the number of bytes processed; bytes are
    added in pieces of any size and the hash can be asked for at any time.  The
    block function is the unrolled code: eight lines per group of rounds, the
    roles of the variables rotating, the words of the schedule computed eight
    at a time. *)
From S2P Require Import Prelude Codec.

Definition BlockSize : Z := 64.
Definition HashBytes : Z := 32.

(** The members of the class. *)
Record SHA256 := mkSHA256 {
  m_numBytes : Z;
  m_bufferSize : Z;
  m_buffer : list Z;
  m_hash : list Z
}.

(** [reset()]; the contents of the buffer stay as they are. *)
Definition reset (s : SHA256) : SHA256 :=
  mkSHA256 0 0 (m_buffer s)
    [0x6a09e667; 0xbb67ae85; 0x3c6ef372; 0xa54ff53a;
     0x510e527f; 0x9b05688c; 0x1f83d9ab; 0x5be0cd19].

(** ** Mix functions *)

(** [uint32_t] additions. *)
Definition add32 (a b : Z) : Z := u32 (a + b).

Definition rotate (a c : Z) : Z := Z.lor (Z.shiftr a c) (u32 (Z.shiftl a (32 - c))).

Definition swap (x : Z) : Z :=
  Z.lor (Z.lor (Z.lor (Z.shiftr x 24)
    (Z.land (Z.shiftr x 8) 0x0000ff00))
    (Z.land (u32 (Z.shiftl x 8)) 0x00ff0000))
    (u32 (Z.shiftl x 24)).

Definition f1 (e f g : Z) : Z :=
  let term1 := Z.lxor (Z.lxor (rotate e 6) (rotate e 11)) (rotate e 25) in
  let term2 := Z.lxor (Z.land e f) (Z.land (u32 (Z.lnot e)) g) in
  add32 term1 term2.

Definition f2 (a b c : Z) : Z :=
  let term1 := Z.lxor (Z.lxor (rotate a 2) (rotate a 13)) (rotate a 22) in
  let term2 := Z.lor (Z.land (Z.lor a b) c) (Z.land a b) in
  add32 term1 term2.

(** ** processBlock *)

(** The local variables [a] to [h]. *)
Record vars := Vars { va : Z; vb : Z; vc : Z; vd : Z; ve : Z; vf : Z; vg : Z; vh : Z }.

(** A line [x = h + f1(e,f,g) + k + w; y = f2(a,b,c); d += x; h = x + y;] with
    the variables in these roles: the new [d] and [h]. *)
Definition line (a b c d e f g h k w : Z) : Z * Z :=
  let x := add32 (add32 (add32 h (f1 e f g)) k) w in
  let y := f2 a b c in
  (add32 d x, add32 x y).

(** The eight lines of a group of rounds, with their constants and words. *)
Definition group (k w : list Z) (v : vars) : vars :=
  let '(Vars a b c d e f g h) := v in
  let '(d, h) := line a b c d e f g h (k !!! 0%nat) (w !!! 0%nat) in
  let '(c, g) := line h a b c d e f g (k !!! 1%nat) (w !!! 1%nat) in
  let '(b, f) := line g h a b c d e f (k !!! 2%nat) (w !!! 2%nat) in
  let '(a, e) := line f g h a b c d e (k !!! 3%nat) (w !!! 3%nat) in
  let '(h, d) := line e f g h a b c d (k !!! 4%nat) (w !!! 4%nat) in
  let '(g, c) := line d e f g h a b c (k !!! 5%nat) (w !!! 5%nat) in
  let '(f, b) := line c d e f g h a b (k !!! 6%nat) (w !!! 6%nat) in
  let '(e, a) := line b c d e f g h a (k !!! 7%nat) (w !!! 7%nat) in
  Vars a b c d e f g h.

(** [words[i]] from the words before it. *)
Definition next_word (words : list Z) (i : nat) : Z :=
  add32 (add32 (add32 (words !!! (i - 16)%nat)
    (Z.lxor (Z.lxor (rotate (words !!! (i - 15)%nat) 7) (rotate (words !!! (i - 15)%nat) 18))
       (Z.shiftr (words !!! (i - 15)%nat) 3)))
    (words !!! (i - 7)%nat))
    (Z.lxor (Z.lxor (rotate (words !!! (i - 2)%nat) 17) (rotate (words !!! (i - 2)%nat) 19))
       (Z.shiftr (words !!! (i - 2)%nat) 10)).

(** [for (; i < n; i++) words[i] = ...] of the words so far, [n] words more. *)
Fixpoint extend (n : nat) (words : list Z) : list Z :=
  match n with
  | O => words
  | S n => extend n (words ++ [next_word words (length words)])
  end.

(** [words[i] = swap(input[i])] for the sixteen words of the data. *)
Definition input_words (data : list Z) : list Z :=
  (fun i => swap (le_dec 4 (drop (4 * i) data))) <$> seq 0 16.

(** The eight groups of rounds of [processBlock], with the extensions of the
    words between them. *)
Definition rounds (words : list Z) (v : vars) : vars :=
  let v := group
    [0x428a2f98; 0x71374491; 0xb5c0fbcf; 0xe9b5dba5;
     0x3956c25b; 0x59f111f1; 0x923f82a4; 0xab1c5ed5]
    (drop 0 words) v in
  let v := group
    [0xd807aa98; 0x12835b01; 0x243185be; 0x550c7dc3;
     0x72be5d74; 0x80deb1fe; 0x9bdc06a7; 0xc19bf174]
    (drop 8 words) v in
  let words := extend 8 words in
  let v := group
    [0xe49b69c1; 0xefbe4786; 0x0fc19dc6; 0x240ca1cc;
     0x2de92c6f; 0x4a7484aa; 0x5cb0a9dc; 0x76f988da]
    (drop 16 words) v in
  let words := extend 8 words in
  let v := group
    [0x983e5152; 0xa831c66d; 0xb00327c8; 0xbf597fc7;
     0xc6e00bf3; 0xd5a79147; 0x06ca6351; 0x14292967]
    (drop 24 words) v in
  let words := extend 8 words in
  let v := group
    [0x27b70a85; 0x2e1b2138; 0x4d2c6dfc; 0x53380d13;
     0x650a7354; 0x766a0abb; 0x81c2c92e; 0x92722c85]
    (drop 32 words) v in
  let words := extend 8 words in
  let v := group
    [0xa2bfe8a1; 0xa81a664b; 0xc24b8b70; 0xc76c51a3;
     0xd192e819; 0xd6990624; 0xf40e3585; 0x106aa070]
    (drop 40 words) v in
  let words := extend 8 words in
  let v := group
    [0x19a4c116; 0x1e376c08; 0x2748774c; 0x34b0bcb5;
     0x391c0cb3; 0x4ed8aa4a; 0x5b9cca4f; 0x682e6ff3]
    (drop 48 words) v in
  let words := extend 8 words in
  let v := group
    [0x748f82ee; 0x78a5636f; 0x84c87814; 0x8cc70208;
     0x90befffa; 0xa4506ceb; 0xbef9a3f7; 0xc67178f2]
    (drop 56 words) v in
  v.

(** [processBlock(data)] on the words of the hash. *)
Definition processBlock (hash data : list Z) : list Z :=
  let v := Vars (hash !!! 0%nat) (hash !!! 1%nat) (hash !!! 2%nat) (hash !!! 3%nat)
    (hash !!! 4%nat) (hash !!! 5%nat) (hash !!! 6%nat) (hash !!! 7%nat) in
  let words := input_words data in
  let v := rounds words v in
  [add32 (hash !!! 0%nat) (va v); add32 (hash !!! 1%nat) (vb v);
   add32 (hash !!! 2%nat) (vc v); add32 (hash !!! 3%nat) (vd v);
   add32 (hash !!! 4%nat) (ve v); add32 (hash !!! 5%nat) (vf v);
   add32 (hash !!! 6%nat) (vg v); add32 (hash !!! 7%nat) (vh v)].

(** ** Adding bytes *)

Definition with_hash (hash : list Z) (s : SHA256) : SHA256 :=
  mkSHA256 (m_numBytes s) (m_bufferSize s) (m_buffer s) hash.

(** [m_buffer[m_bufferSize++] = byte] *)
Definition push_byte (byte : Z) (s : SHA256) : outcome SHA256 :=
  let* buffer := vset (m_buffer s) (m_bufferSize s) byte in
  Ret (mkSHA256 (m_numBytes s) (m_bufferSize s + 1) buffer (m_hash s)).

(** The loop that fills up a buffer in use; with the bytes left. *)
Fixpoint fill_buffer (data : list Z) (s : SHA256) : outcome (SHA256 * list Z) :=
  match data with
  | [] => Ret (s, [])
  | byte :: data' =>
      if m_bufferSize s <? BlockSize
      then let* s := push_byte byte s in fill_buffer data' s
      else Ret (s, data)
  end.

(** [while (numBytes >= BlockSize)] *)
Fixpoint full_blocks (fuel : nat) (data : list Z) (s : SHA256) : outcome (SHA256 * list Z) :=
  if BlockSize <=? zlen data then
    match fuel with
    | O => Undef
    | S fuel =>
        full_blocks fuel (drop 64 data)
          (mkSHA256 (u64 (m_numBytes s + BlockSize)) (m_bufferSize s) (m_buffer s)
             (processBlock (m_hash s) (take 64 data)))
    end
  else Ret (s, data).

(** [add(data, numBytes)] *)
Definition add (data : list Z) (s : SHA256) : outcome SHA256 :=
  let* (s, data) := if m_bufferSize s >? 0 then fill_buffer data s else Ret (s, data) in
  let s :=
    if m_bufferSize s =? BlockSize
    then mkSHA256 (u64 (m_numBytes s + BlockSize)) 0 (m_buffer s)
           (processBlock (m_hash s) (m_buffer s))
    else s in
  if zlen data =? 0 then Ret s else
  let* (s, data) := full_blocks (length data) data s in
  for_each push_byte data s.

(** ** The hash *)

(** [processBuffer()]; [uninit] is what the local array [extra] happens to
    hold. *)
Definition processBuffer (uninit : list Z) (s : SHA256) : outcome SHA256 :=
  let paddedLength := m_bufferSize s * 8 + 1 in
  let lower11Bits := Z.land paddedLength 511 in
  let paddedLength :=
    if lower11Bits <=? 448 then paddedLength + (448 - lower11Bits)
    else paddedLength + (512 + 448 - lower11Bits) in
  let paddedLength := paddedLength / 8 in
  let extra := uninit in
  let* (buffer, extra) :=
    if m_bufferSize s <? BlockSize
    then let* buffer := vset (m_buffer s) (m_bufferSize s) 128 in Ret (buffer, extra)
    else let* extra := vset extra 0 128 in Ret (m_buffer s, extra) in
  let* buffer := for_each (fun i buffer => vset buffer i 0)
    (range (m_bufferSize s + 1) BlockSize) buffer in
  let* extra := for_each (fun i extra => vset extra (i - BlockSize) 0)
    (range (Z.max (m_bufferSize s + 1) BlockSize) paddedLength) extra in
  let msgBits := u64 (8 * u64 (m_numBytes s + m_bufferSize s)) in
  let length_byte (k : Z) := Z.land (Z.shiftr msgBits (56 - 8 * k)) 255 in
  let* (buffer, extra) :=
    if paddedLength <? BlockSize
    then let* buffer := for_each (fun k buffer => vset buffer (paddedLength + k) (length_byte k))
           (range 0 8) buffer in Ret (buffer, extra)
    else let* extra := for_each
           (fun k extra => vset extra (paddedLength - BlockSize + k) (length_byte k))
           (range 0 8) extra in Ret (buffer, extra) in
  let hash := processBlock (m_hash s) buffer in
  let hash := if paddedLength >? BlockSize then processBlock hash extra else hash in
  Ret (mkSHA256 (m_numBytes s) (m_bufferSize s) buffer hash).

Definition word_bytes (w : Z) : list Z :=
  [Z.land (Z.shiftr w 24) 255; Z.land (Z.shiftr w 16) 255; Z.land (Z.shiftr w 8) 255; Z.land w 255].

(** [getHash(buffer)]: the bytes of the hash, and the object with its words
    restored. *)
Definition getHashBytes (uninit : list Z) (s : SHA256) : outcome (list Z * SHA256) :=
  let oldHash := m_hash s in
  let* s := processBuffer uninit s in
  Ret (m_hash s ≫= word_bytes, with_hash oldHash s).

Definition dec2hex (d : Z) : Z := if d <? 10 then 48 + d else 87 + d.

(** [getHash()]: as hexadecimal characters. *)
Definition getHash (uninit : list Z) (s : SHA256) : outcome (list Z * SHA256) :=
  let* (rawHash, s) := getHashBytes uninit s in
  Ret (rawHash ≫= (fun b => [dec2hex (Z.land (Z.shiftr b 4) 15); dec2hex (Z.land b 15)]), s).

(** [operator()(data, numBytes)] and [operator()(text)] *)
Definition hash_data (uninit data : list Z) (s : SHA256) : outcome (list Z * SHA256) :=
  let* s := add data (reset s) in getHash uninit s.
