(* ===== verification/ShaProps.v ===== *)
(** * SHA-256 against its definition

    The reference is the definition of the standard: constants from the roots
    of primes, the padding of the whole message, the schedule of each block and
    its 64 rounds.  The unrolled, streaming code computes the same. *)
From S2P Require Import Prelude Codec Sha256.

(** ** Reference *)

Definition is_prime (n : Z) : bool := forallb (fun d => negb (n mod d =? 0)) (range 2 n).
Definition primes : list Z := filter (fun n => is_prime n = true) (range 2 312).

(** Integer cube root, one bit at a time. *)
Definition cbrt (n : Z) : Z :=
  foldl (fun r i => let r' := r + 2 ^ i in if r' ^ 3 <=? n then r' else r) 0
    (reverse (range 0 40)).

(** The first 32 bits of the fractional parts of roots. *)
Definition initial_hash : list Z := (fun p => Z.sqrt (p * 2 ^ 64) mod 2 ^ 32) <$> take 8 primes.
Definition round_constants : list Z := (fun p => cbrt (p * 2 ^ 96) mod 2 ^ 32) <$> primes.

Definition rotr (c a : Z) : Z := a / 2 ^ c + (a mod 2 ^ c) * 2 ^ (32 - c).
Definition choose (e f g : Z) : Z := Z.lxor g (Z.land e (Z.lxor f g)).
Definition majority (a b c : Z) : Z := Z.lxor (Z.lxor (Z.land a b) (Z.land a c)) (Z.land b c).
Definition big0 (a : Z) : Z := Z.lxor (Z.lxor (rotr 2 a) (rotr 13 a)) (rotr 22 a).
Definition big1 (e : Z) : Z := Z.lxor (Z.lxor (rotr 6 e) (rotr 11 e)) (rotr 25 e).
Definition small0 (x : Z) : Z := Z.lxor (Z.lxor (rotr 7 x) (rotr 18 x)) (x / 2 ^ 3).
Definition small1 (x : Z) : Z := Z.lxor (Z.lxor (rotr 17 x) (rotr 19 x)) (x / 2 ^ 10).

Definition word_at (w : list Z) (t : nat) : Z := w !!! t.

(** The schedule: sixteen words of the block, then 48 computed ones. *)
Definition schedule_word (w : list Z) : Z :=
  let t := length w in
  (small1 (word_at w (t - 2)) + word_at w (t - 7) + small0 (word_at w (t - 15))
   + word_at w (t - 16)) mod 2 ^ 32.
Fixpoint schedule (n : nat) (w : list Z) : list Z :=
  match n with O => w | S n => schedule n (w ++ [schedule_word w]) end.

Definition be_dec (bs : list Z) : Z := foldl (fun w b => w * 256 + b) 0 bs.
Definition block_words (block : list Z) : list Z :=
  (fun i => be_dec (take 4 (drop (4 * i) block))) <$> seq 0 16.

Definition sha_round (v : vars) (k w : Z) : vars :=
  let '(Vars a b c d e f g h) := v in
  let t1 := h + big1 e + choose e f g + k + w in
  let t2 := big0 a + majority a b c in
  Vars ((t1 + t2) mod 2 ^ 32) a b c ((d + t1) mod 2 ^ 32) e f g.

Definition to_vars (h : list Z) : vars :=
  Vars (word_at h 0) (word_at h 1) (word_at h 2) (word_at h 3)
    (word_at h 4) (word_at h 5) (word_at h 6) (word_at h 7).
Definition of_vars (v : vars) : list Z := [va v; vb v; vc v; vd v; ve v; vf v; vg v; vh v].

Definition compress (hash block : list Z) : list Z :=
  let w := schedule 48 (block_words block) in
  let v := foldl (fun v t => sha_round v (word_at round_constants t) (word_at w t))
    (to_vars hash) (seq 0 64) in
  zip_with (fun x y => (x + y) mod 2 ^ 32) hash (of_vars v).

Fixpoint be_enc (n : nat) (z : Z) : list Z :=
  match n with O => [] | S n => be_enc n (z / 256) ++ [z mod 256] end.

Definition pad (msg : list Z) : list Z :=
  msg ++ [128] ++ replicate (Z.to_nat ((55 - zlen msg) mod 64)) 0 ++ be_enc 8 (8 * zlen msg).

Definition blocks_of (l : list Z) : list (list Z) :=
  (fun i => take 64 (drop (64 * i) l)) <$> seq 0 (length l / 64).

Definition sha256 (msg : list Z) : list Z :=
  foldl compress initial_hash (blocks_of (pad msg)) ≫= be_enc 4.

(** ** Words *)

Abbreviation word := (is_u 32).

Lemma word_bits_high a i : word a -> 32 <= i -> Z.testbit a i = false.
Proof.
  intros Ha Hi. rewrite <- (Z.mod_small a (2 ^ 32)) by done. apply Z.mod_pow2_bits_high. lia.
Qed.

Lemma bits_word a : 0 <= a -> (forall i, 32 <= i -> Z.testbit a i = false) -> word a.
Proof.
  intros Ha H. assert (E : a mod 2 ^ 32 = a).
  { apply Z.bits_inj'. intros n Hn. destruct (decide (n < 32)).
    - by rewrite Z.mod_pow2_bits_low by lia.
    - by rewrite Z.mod_pow2_bits_high, H by lia. }
  rewrite <- E. apply Z.mod_pos_bound. lia.
Qed.

Lemma word_lxor a b : word a -> word b -> word (Z.lxor a b).
Proof.
  intros Ha Hb. apply bits_word; [apply Z.lxor_nonneg; unfold is_u in *; lia|].
  intros i Hi. by rewrite Z.lxor_spec, !word_bits_high.
Qed.

Lemma disjoint_lor a b : Z.land a b = 0 -> Z.lor a b = a + b.
Proof. intros H. by rewrite <- Z.lxor_lor, Z.add_nocarry_lxor. Qed.

Lemma rotate_rotr a c : word a -> 0 < c < 32 -> rotate a c = rotr c a.
Proof.
  intros Ha Hc. unfold rotate, rotr, u32.
  rewrite Z.shiftr_div_pow2, Z.shiftl_mul_pow2 by lia.
  assert (H : (a * 2 ^ (32 - c)) mod 2 ^ 32 = a mod 2 ^ c * 2 ^ (32 - c)).
  { replace (2 ^ 32) with (2 ^ c * 2 ^ (32 - c)) by (rewrite <- Z.pow_add_r by lia; f_equal; lia).
    apply Z.mul_mod_distr_r; apply Z.pow_nonzero; lia. }
  rewrite H. apply disjoint_lor. apply Z.bits_inj'. intros n Hn.
  rewrite Z.land_spec, Z.bits_0, <- Z.shiftr_div_pow2 by lia.
  destruct (decide (n < 32 - c)).
  - rewrite Z.mul_pow2_bits_low by lia. apply andb_false_r.
  - by rewrite Z.shiftr_spec, word_bits_high by (try lia; done).
Qed.

Lemma rotr_word a c : word a -> 0 < c < 32 -> word (rotr c a).
Proof.
  intros Ha Hc. rewrite <- rotate_rotr by done. unfold rotate. apply bits_word.
  - apply Z.lor_nonneg. split; [apply Z.shiftr_nonneg; unfold is_u in Ha; lia | apply u32_range].
  - intros i Hi. rewrite Z.lor_spec, Z.shiftr_spec, !word_bits_high;
      [done|apply u32_range|lia|done|lia|lia].
Qed.

Lemma choose_code e f g : word g ->
  Z.lxor (Z.land e f) (Z.land (u32 (Z.lnot e)) g) = choose e f g.
Proof.
  intros Hg. apply Z.bits_inj'. intros n Hn. unfold choose, u32.
  rewrite !Z.lxor_spec, !Z.land_spec, Z.lxor_spec.
  destruct (decide (n < 32)).
  - rewrite Z.mod_pow2_bits_low, Z.lnot_spec by lia.
    by destruct (Z.testbit e n), (Z.testbit f n), (Z.testbit g n).
  - rewrite (word_bits_high g n Hg) by lia. by destruct (Z.testbit e n), (Z.testbit f n), (Z.testbit _ n).
Qed.

Lemma majority_code a b c :
  Z.lor (Z.land (Z.lor a b) c) (Z.land a b) = majority a b c.
Proof.
  apply Z.bits_inj'. intros n Hn. unfold majority.
  rewrite Z.lor_spec, !Z.lxor_spec, !Z.land_spec, Z.lor_spec.
  by destruct (Z.testbit a n), (Z.testbit b n), (Z.testbit c n).
Qed.

(** Sums wrap once. *)
Lemma u32_l a b : u32 (u32 a + b) = u32 (a + b).
Proof. unfold u32. by rewrite Z.add_mod_idemp_l. Qed.
Lemma u32_r a b : u32 (a + u32 b) = u32 (a + b).
Proof. unfold u32. by rewrite Z.add_mod_idemp_r. Qed.
Lemma add32_assoc a b c : add32 (add32 a b) c = add32 a (b + c).
Proof. unfold add32. rewrite u32_l. f_equal. lia. Qed.
Lemma add32_l a b : add32 (u32 a) b = add32 a b.
Proof. apply u32_l. Qed.
Lemma add32_r a b : add32 a (u32 b) = add32 a b.
Proof. apply u32_r. Qed.
Lemma add32_m a b c : add32 a (u32 b + c) = add32 a (b + c).
Proof. rewrite <- add32_r, u32_l. apply add32_r. Qed.
Ltac sums := rewrite ?add32_r, ?add32_assoc, ?add32_r, ?add32_m; unfold add32.

Lemma f1_ref e f g : word e -> word g -> f1 e f g = u32 (big1 e + choose e f g).
Proof.
  intros He Hg. unfold f1, add32, big1. by rewrite !rotate_rotr, choose_code by (try lia; done).
Qed.

Lemma f2_ref a b c : word a -> f2 a b c = u32 (big0 a + majority a b c).
Proof. intros Ha. unfold f2, add32, big0. by rewrite !rotate_rotr, majority_code by (try lia; done). Qed.

Lemma lor_high a b k : 0 <= k -> 0 <= a < 2 ^ k -> Z.lor a (b * 2 ^ k) = a + b * 2 ^ k.
Proof.
  intros Hk Ha. apply disjoint_lor. apply Z.bits_inj'. intros n Hn.
  rewrite Z.land_spec, Z.bits_0. destruct (decide (n < k)).
  - rewrite Z.mul_pow2_bits_low by lia. apply andb_false_r.
  - by rewrite <- (Z.mod_small a (2 ^ k)), Z.mod_pow2_bits_high by lia.
Qed.

Lemma land_byte_mask y k : 0 <= k -> Z.land y (255 * 2 ^ k) = (y / 2 ^ k) mod 2 ^ 8 * 2 ^ k.
Proof.
  intros Hk. apply Z.bits_inj'. intros n Hn. rewrite Z.land_spec.
  destruct (decide (n < k)).
  - by rewrite !Z.mul_pow2_bits_low, andb_false_r by lia.
  - rewrite !Z.mul_pow2_bits by lia. rewrite <- Z.shiftr_div_pow2 by lia.
    change 255 with (Z.ones 8). destruct (decide (n - k < 8)).
    + rewrite Z.ones_spec_low, Z.mod_pow2_bits_low, Z.shiftr_spec, andb_true_r by lia. f_equal. lia.
    + by rewrite Z.ones_spec_high, Z.mod_pow2_bits_high, andb_false_r by lia.
Qed.

Lemma swap_be b0 b1 b2 b3 rest : Forall (is_u 8) [b0; b1; b2; b3] ->
  swap (le_dec 4 (b0 :: b1 :: b2 :: b3 :: rest)) = be_dec [b0; b1; b2; b3].
Proof.
  intros Hb. rewrite !Forall_cons in Hb. destruct Hb as (H0 & H1 & H2 & H3 & _).
  unfold is_u in *. unfold swap, u32.
  change 0x0000ff00 with (255 * 2 ^ 8). change 0x00ff0000 with (255 * 2 ^ 16).
  rewrite !land_byte_mask, !Z.shiftr_div_pow2, !Z.shiftl_mul_pow2 by lia.
  set (x := le_dec 4 _). assert (Hx : x = b0 + 256 * b1 + 65536 * b2 + 16777216 * b3) by (cbn; lia).
  replace (x / 2 ^ 24) with b3 by (Z.to_euclidean_division_equations; lia).
  replace ((x / 2 ^ 8 / 2 ^ 8) mod 2 ^ 8) with b2 by (Z.to_euclidean_division_equations; lia).
  replace (((x * 2 ^ 8) mod 2 ^ 32 / 2 ^ 16) mod 2 ^ 8) with b1 by (Z.to_euclidean_division_equations; lia).
  replace ((x * 2 ^ 24) mod 2 ^ 32) with (b0 * 2 ^ 24) by (Z.to_euclidean_division_equations; lia).
  rewrite (lor_high b3 b2 8), (lor_high _ b1 16), (lor_high _ b0 24) by lia. cbn. lia.
Qed.

(** ** The schedule *)

Lemma be_dec_word bs : Forall (is_u 8) bs -> (length bs <= 4)%nat -> word (be_dec bs).
Proof.
  intros Hb Hl. destruct bs as [|b0 [|b1 [|b2 [|b3 [|]]]]]; try (simpl in Hl; lia);
    rewrite ?Forall_cons in Hb; unfold is_u in *; cbn; lia.
Qed.

Lemma take4_drop (l : list Z) i : (4 * i + 4 <= length l)%nat ->
  exists b0 b1 b2 b3, drop (4 * i) l = b0 :: b1 :: b2 :: b3 :: drop (4 * i + 4) l.
Proof.
  intros Hl. rewrite <- drop_drop. assert (Hd := length_drop l (4 * i)).
  destruct (drop (4 * i) l) as [|b0 [|b1 [|b2 [|b3 r]]]]; simpl in Hd; try lia. by exists b0, b1, b2, b3.
Qed.

Lemma input_words_be data : Forall (is_u 8) data -> length data = 64%nat ->
  input_words data = block_words data /\ Forall word (block_words data).
Proof.
  intros Hb Hl. unfold input_words, block_words. split.
  - apply list_fmap_ext. intros j i Hi. apply lookup_seq in Hi as [-> Hi].
    destruct (take4_drop data (0 + j)) as (b0 & b1 & b2 & b3 & E); [lia|].
    rewrite E. apply swap_be. apply (Forall_drop _ (4 * (0 + j))) in Hb. rewrite E in Hb.
    apply (Forall_take _ 4) in Hb. exact Hb.
  - apply Forall_fmap, Forall_forall. intros i _. apply be_dec_word.
    + by apply Forall_take, Forall_drop.
    + rewrite length_take. lia.
Qed.

Lemma lookup_total_word (w : list Z) t : Forall word w -> word (w !!! t).
Proof.
  intros Hw. rewrite list_lookup_total_alt. destruct (w !! t) as [x|] eqn:E; simpl.
  - by eapply Forall_lookup in Hw.
  - by vm_compute.
Qed.

Lemma next_word_ref w : Forall word w -> next_word w (length w) = schedule_word w.
Proof.
  intros Hw. unfold next_word, schedule_word, small0, small1, word_at.
  rewrite !rotate_rotr by (try lia; by apply lookup_total_word).
  rewrite !Z.shiftr_div_pow2 by lia. sums. unfold u32. f_equal. lia.
Qed.

Lemma schedule_word_word w : word (schedule_word w).
Proof. apply Z.mod_pos_bound. lia. Qed.

Lemma extend_schedule n w : Forall word w -> extend n w = schedule n w /\ Forall word (schedule n w).
Proof.
  revert w. induction n as [|n IH]; intros w Hw; [done|]. cbn.
  rewrite next_word_ref by done. apply IH. apply Forall_app. split; [done|].
  apply Forall_singleton, schedule_word_word.
Qed.

Lemma schedule_add n m w : schedule (n + m) w = schedule m (schedule n w).
Proof. revert w. induction n as [|n IH]; intros w; [done|]. cbn. apply IH. Qed.

Lemma schedule_prefix n w : exists t, schedule n w = w ++ t /\ length t = n.
Proof.
  revert w. induction n as [|n IH]; intros w; [exists []; by rewrite app_nil_r|]. cbn.
  destruct (IH (w ++ [schedule_word w])) as (t & -> & Ht).
  exists (schedule_word w :: t). rewrite <- app_assoc. split; [done|]. simpl. lia.
Qed.

(** ** The rounds *)

Definition words_ok (v : vars) : Prop := Forall word (of_vars v).

Lemma line_round a b c d e f g h k w d' h' :
  word a -> word e -> word g -> line a b c d e f g h k w = (d', h') ->
  sha_round (Vars a b c d e f g h) k w = Vars h' a b c d' e f g /\ word d' /\ word h'.
Proof.
  intros Ha He Hg. unfold line. rewrite f1_ref, f2_ref by done. intros [= <- <-].
  split; [|split; apply u32_range]. cbn. f_equal.
  - sums. unfold u32. f_equal. lia.
  - sums. rewrite u32_r. unfold u32. f_equal. lia.
Qed.

Lemma group_rounds k w v : words_ok v ->
  group k w v = foldl (fun v t => sha_round v (k !!! t) (w !!! t)) v (seq 0 8) /\ words_ok (group k w v).
Proof.
  destruct v as [a b c d e f g h]. unfold words_ok, of_vars. cbn [va vb vc vd ve vf vg vh].
  rewrite !Forall_cons. intros (Ha & Hb & Hc & Hd & He & Hf & Hg & Hh & _).
  cbn [seq foldl]. unfold group.
  repeat match goal with
  | |- context [line ?a ?b ?c ?d ?e ?f ?g ?h ?k ?w] =>
      let dd := fresh "d" in let hh := fresh "h" in let E := fresh "E" in
      destruct (line a b c d e f g h k w) as [dd hh] eqn:E;
      apply line_round in E as (-> & ? & ?); [|assumption..]
  end.
  split; [done|]. cbn [va vb vc vd ve vf vg vh].
  repeat (split; [assumption|]). by apply Forall_nil.
Qed.

(** Words of a schedule that are there already stay. *)
Lemma group_words k (w w' : list Z) i v : (i + 8 <= length w)%nat -> take (i + 8) w' = take (i + 8) w ->
  group k (drop i w) v = group k (drop i w') v.
Proof.
  intros Hl Ht.
  assert (H : forall j, (j < 8)%nat -> drop i w !!! j = drop i w' !!! j).
  { intros j Hj. rewrite !list_lookup_total_alt, !lookup_drop.
    by rewrite <- (lookup_take_lt w (i + 8)), <- (lookup_take_lt w' (i + 8)), Ht by lia. }
  unfold group. destruct v. by rewrite !H by lia.
Qed.

Lemma constants_ok : length round_constants = 64%nat.
Proof. vm_compute. reflexivity. Qed.

Lemma foldl_ext_seq {A} (f g : A -> nat -> A) n : forall i v,
  (forall v t, (i <= t < i + n)%nat -> f v t = g v t) -> foldl f v (seq i n) = foldl g v (seq i n).
Proof.
  induction n as [|n IH]; intros i v H; [done|]. cbn. rewrite H by lia. apply IH.
  intros. apply H. lia.
Qed.

Definition ref_rounds (w : list Z) (i : nat) (v : vars) : vars :=
  foldl (fun v t => sha_round v (word_at round_constants t) (word_at w t)) v (seq i 8).

Lemma group_ref k w W i v : words_ok v -> k = take 8 (drop i round_constants) ->
  (i + 8 <= length w)%nat -> take (i + 8) W = take (i + 8) w ->
  group k (drop i w) v = ref_rounds W i v /\ words_ok (ref_rounds W i v).
Proof.
  intros Hv -> Hl Ht. rewrite (group_words _ _ W) by done.
  destruct (group_rounds (take 8 (drop i round_constants)) (drop i W) v Hv) as [E Hok].
  assert (Hr : group (take 8 (drop i round_constants)) (drop i W) v = ref_rounds W i v).
  { rewrite E. unfold ref_rounds. 
    replace (seq i 8) with (Nat.add i <$> seq 0 8) by (rewrite fmap_add_seq; f_equal; lia).
    rewrite foldl_fmap. apply foldl_ext_seq. intros v' t Ht'. unfold word_at.
    by rewrite !list_lookup_total_alt, lookup_take_lt, !lookup_drop by lia. }
  rewrite <- Hr. done.
Qed.

Lemma take_schedule n m w : (n <= m)%nat ->
  take (length w + n) (schedule m w) = take (length w + n) (schedule n w).
Proof.
  intros Hnm. replace m with (n + (m - n))%nat by lia. rewrite schedule_add.
  destruct (schedule_prefix (m - n) (schedule n w)) as (t & -> & _).
  destruct (schedule_prefix n w) as (t' & E & Ht'). apply take_app_le.
  rewrite E, length_app. lia.
Qed.

Lemma schedule_length n w : length (schedule n w) = (length w + n)%nat.
Proof. destruct (schedule_prefix n w) as (t & -> & Ht). by rewrite length_app, Ht. Qed.

Lemma rounds64 w v : foldl (fun v t => sha_round v (word_at round_constants t) (word_at w t)) v (seq 0 64) =
  ref_rounds w 56 (ref_rounds w 48 (ref_rounds w 40 (ref_rounds w 32
    (ref_rounds w 24 (ref_rounds w 16 (ref_rounds w 8 (ref_rounds w 0 v))))))).
Proof.
  unfold ref_rounds. rewrite <- !foldl_app. f_equal.
Qed.

Lemma to_vars_ok hash : Forall word hash -> words_ok (to_vars hash).
Proof.
  intros Hh. unfold words_ok, to_vars, of_vars, word_at. cbn [va vb vc vd ve vf vg vh].
  repeat (apply Forall_cons; split; [by apply lookup_total_word|]). by apply Forall_nil.
Qed.

Lemma extend_at w n : Forall word w -> extend 8 (schedule n w) = schedule (n + 8) w.
Proof. intros Hw. rewrite schedule_add. by apply extend_schedule, extend_schedule. Qed.

(** Replaces the next group of rounds by the rounds of the reference. *)
Ltac round_group HS i n :=
  match goal with
  | Hv : words_ok ?v |- context [group ?k (drop i _) ?v] =>
      let E := fresh "E" in
      destruct (HS k i n v Hv) as [E ?]; [vm_compute; reflexivity|lia|lia|]; rewrite E
  end.

Lemma rounds_ref w v : length w = 16%nat -> Forall word w -> words_ok v ->
  rounds w v = foldl (fun v t => sha_round v (word_at round_constants t)
                        (word_at (schedule 48 w) t)) v (seq 0 64).
Proof.
  intros Hlw Hw Hv. rewrite rounds64. set (W := schedule 48 w).
  assert (HS : forall k i n v, words_ok v -> k = take 8 (drop i round_constants) ->
    (i + 8 <= 16 + n)%nat -> (n <= 48)%nat ->
    group k (drop i (schedule n w)) v = ref_rounds W i v /\ words_ok (ref_rounds W i v)).
  { intros k i n v' Hv' Hk Hi Hn. apply group_ref; [done|done|by rewrite schedule_length, Hlw|].
    replace (i + 8)%nat with ((i + 8) `min` (length w + n))%nat by lia.
    rewrite <- (take_take W), <- (take_take (schedule n w)). unfold W.
    by rewrite (take_schedule n). }
  unfold rounds. change (extend 8 w) with (extend 8 (schedule 0 w)).
  rewrite !extend_at by done. cbn [Nat.add].
  change (drop 0 w) with (drop 0 (schedule 0 w)). change (drop 8 w) with (drop 8 (schedule 0 w)).
  round_group HS 0%nat 0%nat. round_group HS 8%nat 0%nat. round_group HS 16%nat 8%nat.
  round_group HS 24%nat 16%nat. round_group HS 32%nat 24%nat. round_group HS 40%nat 32%nat.
  round_group HS 48%nat 40%nat. round_group HS 56%nat 48%nat. done.
Qed.

(** The unrolled block function is the compression function. *)
Lemma processBlock_compress hash data :
  length hash = 8%nat -> Forall word hash -> length data = 64%nat -> Forall (is_u 8) data ->
  processBlock hash data = compress hash data.
Proof.
  intros Hlh Hh Hld Hd. unfold processBlock, compress.
  destruct (input_words_be data Hd Hld) as [-> Hw].
  change (Vars _ _ _ _ _ _ _ _) with (to_vars hash).
  rewrite rounds_ref by (try done; by apply to_vars_ok). cbv zeta.
  generalize (foldl (fun v t => sha_round v (word_at round_constants t)
    (word_at (schedule 48 (block_words data)) t)) (to_vars hash) (seq 0 64)). intros v.
  destruct hash as [|h0 [|h1 [|h2 [|h3 [|h4 [|h5 [|h6 [|h7 [|]]]]]]]]]; try done.
Qed.

Lemma compress_ok hash data : length hash = 8%nat ->
  length (compress hash data) = 8%nat /\ Forall word (compress hash data).
Proof.
  intros Hl. unfold compress. split.
  - rewrite length_zip_with, Hl. done.
  - apply Forall_forall. intros x Hx. apply list_elem_of_lookup_1 in Hx as [i Hi].
    apply lookup_zip_with_Some in Hi as (? & ? & -> & _). apply Z.mod_pos_bound. lia.
Qed.

(** ** Streaming *)

Lemma initial_hash_ok : length initial_hash = 8%nat /\ Forall word initial_hash.
Proof.
  assert (E : initial_hash = m_hash (reset (mkSHA256 0 0 [] []))) by (vm_compute; reflexivity).
  rewrite E. split; [done|]. repeat constructor; vm_compute; congruence.
Qed.

Lemma reset_hash s : m_hash (reset s) = initial_hash.
Proof. vm_compute. reflexivity. Qed.

(** The object has taken the bytes [msg]: whole blocks are in the hash, the rest
    is in the buffer. *)
Definition absorbed (s : SHA256) (msg : list Z) : Prop :=
  exists blocks rest,
    msg = concat blocks ++ rest /\ Forall (fun b => length b = 64%nat) blocks /\
    (length rest < 64)%nat /\ length (m_buffer s) = 64%nat /\
    m_bufferSize s = zlen rest /\ take (length rest) (m_buffer s) = rest /\
    m_numBytes s = u64 (64 * zlen blocks) /\ m_hash s = foldl processBlock initial_hash blocks.

Lemma push_byte_in b s : length (m_buffer s) = 64%nat -> 0 <= m_bufferSize s < 64 ->
  push_byte b s = Ret (mkSHA256 (m_numBytes s) (m_bufferSize s + 1)
    (<[Z.to_nat (m_bufferSize s) := b]> (m_buffer s)) (m_hash s)).
Proof. intros. unfold push_byte. by rewrite vset_in by (unfold zlen; lia). Qed.

Lemma push_bytes data : forall s, length (m_buffer s) = 64%nat -> 0 <= m_bufferSize s ->
  m_bufferSize s + zlen data <= 64 ->
  exists buffer,
    for_each push_byte data s =
      Ret (mkSHA256 (m_numBytes s) (m_bufferSize s + zlen data) buffer (m_hash s)) /\
    length buffer = 64%nat /\
    take (Z.to_nat (m_bufferSize s) + length data) buffer =
      take (Z.to_nat (m_bufferSize s)) (m_buffer s) ++ data.
Proof.
  induction data as [|b data IH]; intros s Hl H0 Hle.
  - exists (m_buffer s). cbn. rewrite Nat.add_0_r, app_nil_r, Z.add_0_r. by destruct s.
  - rewrite zlen_cons in *. pose proof (zlen_nonneg data). cbn [for_each].
    rewrite push_byte_in by (try done; lia). cbn [obind].
    edestruct IH as (buffer & -> & Hlb & Ht); cbn [m_buffer m_bufferSize m_numBytes m_hash] in *;
      [by rewrite length_insert|lia|lia|].
    exists buffer. split; [do 2 f_equal; lia|]. split; [done|].
    replace (Z.to_nat (m_bufferSize s) + length (b :: data))%nat
      with (Z.to_nat (m_bufferSize s + 1) + length data)%nat by (simpl; lia).
    rewrite Ht. replace (Z.to_nat (m_bufferSize s + 1)) with (S (Z.to_nat (m_bufferSize s))) by lia.
    erewrite take_S_r by (apply list_lookup_insert_eq; lia).
    by rewrite take_insert_ge, <- app_assoc by lia.
Qed.

Lemma fill_buffer_push data : forall s, length (m_buffer s) = 64%nat -> 0 <= m_bufferSize s <= 64 ->
  let n := Z.to_nat (64 - m_bufferSize s) in
  fill_buffer data s = let* s' := for_each push_byte (take n data) s in Ret (s', drop n data).
Proof.
  induction data as [|b data IH]; intros s Hl Hb; cbn [fill_buffer].
  - by rewrite take_nil, drop_nil.
  - unfold BlockSize. destruct (Z.ltb_spec (m_bufferSize s) 64) as [Hlt|Hge].
    + replace (Z.to_nat (64 - m_bufferSize s)) with (S (Z.to_nat (64 - (m_bufferSize s + 1)))) by lia.
      cbn [take drop for_each]. rewrite push_byte_in by (try done; lia). cbn [obind].
      apply IH; cbn [m_buffer m_bufferSize]; [by rewrite length_insert|lia].
    + by replace (Z.to_nat (64 - m_bufferSize s)) with 0%nat by lia.
Qed.

Lemma u64_l a b : u64 (u64 a + b) = u64 (a + b).
Proof. unfold u64. by rewrite Z.add_mod_idemp_l. Qed.

Lemma full_blocks_spec fuel : forall data s n, (length data <= fuel)%nat -> m_numBytes s = u64 n ->
  exists blocks rest,
    data = concat blocks ++ rest /\ Forall (fun b => length b = 64%nat) blocks /\
    (length rest < 64)%nat /\
    full_blocks fuel data s =
      Ret (mkSHA256 (u64 (n + 64 * zlen blocks)) (m_bufferSize s) (m_buffer s)
             (foldl processBlock (m_hash s) blocks), rest).
Proof.
  induction fuel as [|fuel IH]; intros data s n Hf Hn; cbn [full_blocks]; unfold BlockSize.
  - exists [], []. destruct data; [|simpl in Hf; lia]. cbn. rewrite Z.add_0_r, <- Hn.
    destruct s; split_and!; auto. lia.
  - destruct (Z.leb_spec 64 (zlen data)) as [Hge|Hlt].
    + unfold zlen in Hge.
      edestruct (IH (drop 64 data)) as (blocks & rest & Hd & Hb & Hr & ->);
        [rewrite length_drop; lia|cbn [m_numBytes]; by rewrite Hn, u64_l|].
      exists (take 64 data :: blocks), rest. cbn [m_bufferSize m_buffer m_hash foldl concat].
      split_and!; [by rewrite <- app_assoc, <- Hd, take_drop| |done|].
      * constructor; [rewrite length_take; lia|done].
      * rewrite zlen_cons. do 3 f_equal. f_equal. lia.
    + exists [], data. cbn. rewrite Z.add_0_r, <- Hn. unfold zlen in Hlt. destruct s.
      split_and!; auto. lia.
Qed.

Lemma add_empty_buffer s data blocks : length (m_buffer s) = 64%nat -> m_bufferSize s = 0 ->
  m_numBytes s = u64 (64 * zlen blocks) -> m_hash s = foldl processBlock initial_hash blocks ->
  Forall (fun b => length b = 64%nat) blocks ->
  exists s', (let* (s, data) := full_blocks (length data) data s in for_each push_byte data s) = Ret s' /\
    absorbed s' (concat blocks ++ data).
Proof.
  intros Hl Hb Hn Hh Hall.
  destruct (full_blocks_spec (length data) data s _ (le_n _) Hn) as (bs & rest & -> & Hbs & Hr & ->).
  cbn [obind].
  destruct (push_bytes rest (mkSHA256 (u64 (64 * zlen blocks + 64 * zlen bs)) (m_bufferSize s)
    (m_buffer s) (foldl processBlock (m_hash s) bs))) as (buffer & -> & Hlb & Ht);
    cbn [m_buffer m_bufferSize m_numBytes m_hash] in *; [done|lia|unfold zlen; lia|].
  eexists; split; [done|]. exists (blocks ++ bs), rest.
  cbn [m_buffer m_bufferSize m_numBytes m_hash].
  rewrite concat_app, <- app_assoc, zlen_app, foldl_app, Hh, Hb in *.
  split_and!; auto; [by apply Forall_app|f_equal; lia].
Qed.

Lemma add_rest data s :
  (if zlen data =? 0 then Ret s else
   let* (s, data) := full_blocks (length data) data s in for_each push_byte data s) =
  let* (s, data) := full_blocks (length data) data s in for_each push_byte data s.
Proof. by destruct data. Qed.

Lemma add_absorbs data s msg : absorbed s msg ->
  exists s', add data s = Ret s' /\ absorbed s' (msg ++ data).
Proof.
  intros (blocks & rest & -> & Hb & Hr & Hl & Hs & Ht & Hn & Hh). rewrite <- app_assoc.
  unfold add. destruct rest as [|r rest'].
  { rewrite Hs. change (zlen [] >? 0) with false. cbn [obind].
    rewrite Hs. change (zlen [] =? BlockSize) with false. cbv iota. rewrite add_rest.
    by apply add_empty_buffer. }
  set (rest := r :: rest') in *. assert (Hpos : 0 < zlen rest) by (unfold rest, zlen; simpl; lia).
  rewrite Hs, (proj2 (Z.gtb_lt (zlen rest) 0)) by done.
  rewrite fill_buffer_push by (try done; unfold zlen in *; lia). rewrite Hs.
  set (n := Z.to_nat (64 - zlen rest)).
  destruct (push_bytes (take n data) s) as (buffer & -> & Hlb & Htb);
    [done|lia|rewrite Hs; unfold n, zlen in *; rewrite length_take; lia|].
  cbn [obind m_bufferSize m_buffer m_hash m_numBytes]. rewrite Hs in *.
  replace (Z.to_nat (zlen rest)) with (length rest) in Htb by (unfold zlen; lia). rewrite Ht in Htb.
  destruct (decide (length data < n)%nat) as [Hlt|Hge].
  - rewrite (take_ge data n) in * by lia. rewrite (drop_ge data n) by lia. unfold BlockSize.
    rewrite (proj2 (Z.eqb_neq (zlen rest + zlen data) 64)) by (unfold n, zlen in *; lia).
    cbn [zlen length Z.of_nat Z.eqb]. eexists; split; [done|].
    exists blocks, (rest ++ data). cbn [m_buffer m_bufferSize m_numBytes m_hash].
    rewrite length_app, zlen_app. split_and!; auto. unfold n, zlen in *; lia.
  - assert (Hlt : length (take n data) = n) by (rewrite length_take; lia).
    assert (Hfull : zlen rest + zlen (take n data) = 64) by (unfold n, zlen in *; lia).
    rewrite Hfull. cbn [Z.eqb Pos.eqb BlockSize]. rewrite add_rest.
    rewrite take_ge in Htb by (unfold n, zlen in *; lia).
    destruct (add_empty_buffer (mkSHA256 (u64 (m_numBytes s + 64)) 0 buffer
      (processBlock (m_hash s) buffer)) (drop n data) (blocks ++ [rest ++ take n data]))
      as (s' & Hs' & Habs); cbn [m_buffer m_bufferSize m_numBytes m_hash]; [done|done|..].
    + rewrite Hn, u64_l, zlen_app. f_equal. change (zlen [_]) with 1. lia.
    + by rewrite foldl_app, Hh, Htb.
    + apply Forall_app. split; [done|]. apply Forall_singleton. rewrite <- Htb. done.
    + exists s'. split; [exact Hs'|]. rewrite concat_app in Habs. cbn [concat] in Habs.
      by rewrite app_nil_r, <- !app_assoc, take_drop in Habs.
Qed.

(** ** Padding *)

(** What [processBuffer] writes into: a prefix that stays, then single bytes. *)
Lemma zeros_from (base : Z) (l : list Z) (lo hi : Z) : 0 <= lo - base -> lo <= hi -> hi - base <= zlen l ->
  for_each (fun i buf => vset buf (i - base) 0) (range lo hi) l =
  Ret (take (Z.to_nat (lo - base)) l ++ replicate (Z.to_nat (hi - lo)) 0 ++
       drop (Z.to_nat (hi - base)) l).
Proof.
  intros H0 Hlh. revert lo l H0 Hlh. refine (range_ind hi _ _ _).
  - intros lo Hhi l H0 Hle Hl. rewrite range_empty by done. cbn.
    replace (Z.to_nat (hi - lo)) with 0%nat by lia. replace hi with lo by lia.
    cbn [replicate app]. by rewrite take_drop.
  - intros lo Hlt IH l H0 Hle Hl. rewrite range_cons by done. cbn [for_each].
    rewrite vset_in by lia. cbn [obind]. rewrite IH by (rewrite ?zlen_insert; lia).
    f_equal. unfold zlen in Hl.
    replace (Z.to_nat (lo + 1 - base)) with (S (Z.to_nat (lo - base))) by lia.
    replace (Z.to_nat (hi - lo)) with (S (Z.to_nat (hi - (lo + 1)))) by lia.
    erewrite take_S_r by (apply list_lookup_insert_eq; lia).
    rewrite take_insert_ge, drop_insert_lt by lia. by rewrite <- app_assoc.
Qed.

Lemma write_bytes (bs : list Z) : forall (f : Z -> Z) (k pos : Z) (l : list Z),
  0 <= pos + k -> pos + k + zlen bs <= zlen l ->
  (forall i b, bs !! i = Some b -> f (k + Z.of_nat i) = b) ->
  for_each (fun k buf => vset buf (pos + k) (f k)) (range k (k + zlen bs)) l =
  Ret (take (Z.to_nat (pos + k)) l ++ bs ++ drop (Z.to_nat (pos + k + zlen bs)) l).
Proof.
  induction bs as [|b bs IH]; intros f k pos l H0 Hl Hf.
  - rewrite range_empty by (unfold zlen; simpl; lia). cbn. change (zlen []) with 0.
    by rewrite Z.add_0_r, take_drop.
  - rewrite zlen_cons in *. pose proof (zlen_nonneg bs). rewrite range_cons by lia. cbn [for_each].
    rewrite vset_in by lia. cbn [obind].
    replace (k + (1 + zlen bs)) with ((k + 1) + zlen bs) by lia.
    rewrite IH; [|lia|rewrite zlen_insert; lia|].
    2:{ intros i c Hi. rewrite <- (Hf (S i) c Hi). f_equal. lia. }
    assert (Hb := Hf 0%nat b eq_refl). rewrite Z.add_0_r in Hb. rewrite Hb. f_equal.
    unfold zlen in Hl.
    replace (Z.to_nat (pos + (k + 1))) with (S (Z.to_nat (pos + k))) by lia.
    erewrite take_S_r by (apply list_lookup_insert_eq; lia).
    rewrite take_insert_ge, drop_insert_lt by lia. rewrite <- app_assoc. cbn.
    do 3 f_equal. f_equal. lia.
Qed.

Lemma padded_length r : 0 <= r < 64 ->
  (if Z.land (r * 8 + 1) 511 <=? 448 then r * 8 + 1 + (448 - Z.land (r * 8 + 1) 511)
   else r * 8 + 1 + (512 + 448 - Z.land (r * 8 + 1) 511)) / 8 = if r <? 56 then 56 else 120.
Proof.
  intros Hr. change 511 with (Z.ones 9). rewrite Z.land_ones, Z.mod_small by lia.
  destruct (Z.leb_spec (r * 8 + 1) 448), (Z.ltb_spec r 56); try lia.
  - replace (r * 8 + 1 + (448 - (r * 8 + 1))) with 448 by lia. done.
  - replace (r * 8 + 1 + (512 + 448 - (r * 8 + 1))) with 960 by lia. done.
Qed.

Lemma length_bytes z i b : be_enc 8 z !! i = Some b ->
  Z.land (Z.shiftr (u64 z) (56 - 8 * (0 + Z.of_nat i))) 255 = b.
Proof.
  intros Hi. change 255 with (Z.ones 8). rewrite Z.land_ones by lia. unfold u64.
  do 8 (destruct i as [|i]; [cbn in Hi; injection Hi as <-;
    rewrite Z.shiftr_div_pow2 by lia;
    rewrite <- ?Z.div_div by lia; cbn;
    Z.to_euclidean_division_equations; lia|]).
  done.
Qed.

Lemma be_enc_length n z : length (be_enc n z) = n.
Proof. revert z. induction n as [|n IH]; intros z; [done|]. cbn. rewrite length_app, IH. simpl. lia. Qed.

(** The buffer with the mark and the zeros after the bytes in use. *)
Lemma mark_buffer (buffer rest : list Z) : length buffer = 64%nat -> (length rest < 64)%nat ->
  take (length rest) buffer = rest ->
  (let* b := vset buffer (zlen rest) 128 in
   for_each (fun i b => vset b i 0) (range (zlen rest + 1) 64) b) =
  Ret (rest ++ [128] ++ replicate (63 - length rest) 0).
Proof.
  intros Hl Hr Ht. rewrite vset_in by (unfold zlen; lia). cbn [obind].
  rewrite (for_each_ext _ (fun i b => vset b (i - 0) 0)) by (intros; by rewrite Z.sub_0_r).
  rewrite zeros_from by (rewrite ?zlen_insert; unfold zlen; lia). f_equal.
  rewrite Z.sub_0_r, drop_ge by (rewrite length_insert; lia). rewrite app_nil_r.
  replace (Z.to_nat (zlen rest + 1)) with (S (length rest)) by (unfold zlen; lia).
  replace (Z.to_nat (zlen rest)) with (length rest) by (unfold zlen; lia).
  erewrite take_S_r by (apply list_lookup_insert_eq; lia).
  rewrite take_insert_ge, Ht, <- app_assoc by lia. do 3 f_equal. unfold zlen. lia.
Qed.

Lemma write_length (l : list Z) z : length l = 64%nat ->
  for_each (fun k buf => vset buf (56 + k) (Z.land (Z.shiftr (u64 z) (56 - 8 * k)) 255)) (range 0 8) l =
  Ret (take 56 l ++ be_enc 8 z).
Proof.
  intros Hl. pose proof (be_enc_length 8 z) as Hbe.
  replace (range 0 8) with (range 0 (0 + zlen (be_enc 8 z))) by (unfold zlen; by rewrite Hbe).
  rewrite (write_bytes (be_enc 8 z)
    (fun k => Z.land (Z.shiftr (u64 z) (56 - 8 * k)) 255) 0 56);
    [|lia|unfold zlen; lia|apply length_bytes].
  rewrite (drop_ge l) by (unfold zlen; lia). by rewrite app_nil_r.
Qed.

(** The blocks that finish a message whose last, incomplete block is [rest]. *)
Definition last_blocks (rest : list Z) (bits : Z) : list (list Z) :=
  if zlen rest <? 56
  then [rest ++ [128] ++ replicate (55 - length rest) 0 ++ be_enc 8 bits]
  else [rest ++ [128] ++ replicate (63 - length rest) 0; replicate 56 0 ++ be_enc 8 bits].

Lemma take_marked (rest : list Z) : (length rest < 56)%nat ->
  take 56 (rest ++ [128] ++ replicate (63 - length rest) 0) = rest ++ [128] ++ replicate (55 - length rest) 0.
Proof.
  intros Hr. rewrite take_app_ge by lia. f_equal.
  replace (56 - length rest)%nat with (S (55 - length rest)) by lia. cbn.
  f_equal. rewrite take_replicate. f_equal. lia.
Qed.

Lemma zlen_blocks (blocks : list (list Z)) : Forall (fun b => length b = 64%nat) blocks ->
  zlen (concat blocks) = 64 * zlen blocks.
Proof.
  induction 1 as [|b blocks Hb _ IH]; [done|]. cbn [concat]. rewrite zlen_app, zlen_cons, IH.
  unfold zlen. lia.
Qed.

Lemma processBuffer_spec uninit s msg blocks rest :
  length uninit = 64%nat -> msg = concat blocks ++ rest -> (length rest < 64)%nat ->
  Forall (fun b => length b = 64%nat) blocks ->
  length (m_buffer s) = 64%nat -> m_bufferSize s = zlen rest ->
  take (length rest) (m_buffer s) = rest -> m_numBytes s = u64 (64 * zlen blocks) ->
  exists buffer,
    processBuffer uninit s =
      Ret (mkSHA256 (m_numBytes s) (zlen rest) buffer
        (foldl processBlock (m_hash s) (last_blocks rest (8 * zlen msg)))) /\
    length buffer = 64%nat /\ take (length rest) buffer = rest.
Proof.
  intros Hu Hmsg Hr Hall Hl Hs Ht Hn. unfold processBuffer.
  assert (Hbits : u64 (8 * u64 (m_numBytes s + zlen rest)) = u64 (8 * zlen msg)).
  { rewrite Hn, u64_l, Hmsg, zlen_app, zlen_blocks by done. unfold u64.
    by rewrite Z.mul_mod_idemp_r. }
  rewrite Hs, padded_length, Hbits by (unfold zlen; lia). unfold BlockSize.
  rewrite (proj2 (Z.ltb_lt (zlen rest) 64)) by (unfold zlen; lia).
  pose proof (mark_buffer _ _ Hl Hr Ht) as Hmark.
  destruct (vset (m_buffer s) (zlen rest) 128) as [b|e|] eqn:Hv; cbn [obind] in *; [|done|done].
  rewrite Hmark. cbn [obind]. set (marked := rest ++ [128] ++ replicate (63 - length rest) 0).
  assert (Hlm : length marked = 64%nat) by (unfold marked; rewrite !length_app, length_replicate; simpl; lia).
  unfold last_blocks. destruct (Z.ltb_spec (zlen rest) 56) as [Hlt|Hge].
  - rewrite range_empty by lia. cbn [for_each obind Z.ltb Z.compare Pos.compare Pos.compare_cont].
    rewrite write_length by done. cbn [obind Z.gtb Z.compare Pos.compare Pos.compare_cont foldl].
    unfold marked. rewrite take_marked, <- !app_assoc by (unfold zlen in Hlt; lia).
    eexists; split; [done|]. rewrite take_app_length. split; [|done].
    rewrite !length_app, length_replicate, be_enc_length. unfold zlen in Hlt. simpl. lia.
  - replace (Z.max (zlen rest + 1) 64) with 64 by (unfold zlen in *; lia).
    rewrite zeros_from by (unfold zlen; lia).
    cbn [obind Z.ltb Z.compare Pos.compare Pos.compare_cont].
    change (120 - 64) with 56. rewrite write_length by (
      rewrite !length_app, length_take, length_replicate, length_drop; simpl; lia).
    cbn [obind Z.gtb Z.compare Pos.compare Pos.compare_cont foldl].
    change (Z.to_nat (64 - 64)) with 0%nat. rewrite take_0. cbn [app].
    change (Z.to_nat 56) with 56%nat. rewrite take_app_le by (rewrite length_replicate; lia).
    rewrite take_replicate.
    eexists; split; [done|]. split; [done|]. unfold marked. by rewrite take_app_length.
Qed.

(** The finished blocks are the padded message. *)
Lemma last_blocks_pad msg blocks rest :
  msg = concat blocks ++ rest -> (length rest < 64)%nat -> Forall (fun b => length b = 64%nat) blocks ->
  pad msg = concat (blocks ++ last_blocks rest (8 * zlen msg)) /\
  Forall (fun b => length b = 64%nat) (blocks ++ last_blocks rest (8 * zlen msg)).
Proof.
  intros Hmsg Hr Hall. assert (Hz : zlen msg = 64 * zlen blocks + zlen rest).
  { by rewrite Hmsg, zlen_app, zlen_blocks. }
  assert (Hmod : (55 - zlen msg) mod 64 = (55 - zlen rest) mod 64).
  { rewrite Hz. replace (55 - (64 * zlen blocks + zlen rest)) with (55 - zlen rest + (- zlen blocks) * 64) by lia.
    apply Z.mod_add. lia. }
  unfold pad. rewrite Hmod, concat_app. generalize (8 * zlen msg). intros bits. rewrite Hmsg.
  rewrite <- app_assoc. unfold last_blocks. pose proof (be_enc_length 8 bits) as Hbe.
  destruct (Z.ltb_spec (zlen rest) 56) as [Hlt|Hge]; unfold zlen in *.
  - rewrite Z.mod_small by lia. cbn [concat]. rewrite app_nil_r.
    replace (Z.to_nat (55 - Z.of_nat (length rest))) with (55 - length rest)%nat by lia.
    split; [done|]. apply Forall_app. split; [done|]. apply Forall_singleton.
    rewrite !length_app, length_replicate, Hbe. simpl. lia.
  - replace ((55 - Z.of_nat (length rest)) mod 64) with (119 - Z.of_nat (length rest))
      by (Z.to_euclidean_division_equations; lia).
    replace (Z.to_nat (119 - Z.of_nat (length rest))) with ((63 - length rest) + 56)%nat by lia.
    rewrite replicate_add. cbn [concat]. rewrite app_nil_r, <- !app_assoc. split; [done|].
    apply Forall_app. split; [done|]. repeat constructor;
      rewrite !length_app, ?length_replicate, ?Hbe; simpl; lia.
Qed.

Lemma be_enc_bytes n z : Forall (is_u 8) (be_enc n z).
Proof.
  revert z. induction n as [|n IH]; intros z; [done|]. cbn. apply Forall_app. split; [done|].
  apply Forall_singleton, Z.mod_pos_bound. lia.
Qed.

Lemma pad_bytes msg : Forall (is_u 8) msg -> Forall (is_u 8) (pad msg).
Proof.
  intros Hm. unfold pad. rewrite !Forall_app. split_and!; [done|..|apply be_enc_bytes].
  - apply Forall_singleton. by vm_compute.
  - apply Forall_replicate. by vm_compute.
Qed.

Lemma foldl_compress blocks : forall hash, length hash = 8%nat -> Forall word hash ->
  Forall (fun b => length b = 64%nat) blocks -> Forall (is_u 8) (concat blocks) ->
  foldl processBlock hash blocks = foldl compress hash blocks /\
  Forall word (foldl compress hash blocks).
Proof.
  induction blocks as [|b blocks IH]; intros hash Hl Hh Hb Hu; [done|].
  apply Forall_cons in Hb as [Hb Hbs]. cbn [concat] in Hu. apply Forall_app in Hu as [Hu Hus].
  cbn [foldl]. rewrite processBlock_compress by done.
  destruct (compress_ok hash b Hl). by apply IH.
Qed.

Lemma blocks_of_concat blocks : Forall (fun b => length b = 64%nat) blocks ->
  blocks_of (concat blocks) = blocks.
Proof.
  intros Hb. assert (Hl := zlen_blocks blocks Hb). unfold blocks_of, zlen in *.
  replace (length (concat blocks)) with (length blocks * 64)%nat by lia. rewrite Nat.div_mul by lia.
  clear Hl. induction Hb as [|b blocks Hlb Hbs IH]; [done|].
  cbn [length seq fmap list_fmap concat]. f_equal.
  - change (drop (64 * 0) (b ++ concat blocks)) with (b ++ concat blocks).
    by rewrite take_app_le, take_ge by lia.
  - rewrite <- fmap_S_seq, <- list_fmap_compose. rewrite <- IH at 2. apply list_fmap_ext.
    intros i j _. unfold compose. f_equal. rewrite drop_app_ge by lia. f_equal. lia.
Qed.

Lemma word_bytes_be w : word w -> word_bytes w = be_enc 4 w.
Proof.
  intros Hw. unfold is_u in Hw. unfold word_bytes. change 255 with (Z.ones 8).
  rewrite !Z.land_ones, !Z.shiftr_div_pow2 by lia. cbn.
  repeat (apply f_equal2; [Z.to_euclidean_division_equations; lia|]). done.
Qed.

(** Asking for the hash gives the hash of the bytes taken, and leaves the object
    as it was for more. *)
Lemma getHashBytes_spec uninit s msg : length uninit = 64%nat -> Forall (is_u 8) msg ->
  absorbed s msg ->
  exists s', getHashBytes uninit s = Ret (sha256 msg, s') /\ absorbed s' msg.
Proof.
  intros Hu Hm (blocks & rest & Hmsg & Hb & Hr & Hl & Hs & Ht & Hn & Hh).
  destruct (processBuffer_spec uninit s msg blocks rest) as (buffer & Hp & Hlb & Htb); [done..|].
  destruct (last_blocks_pad msg blocks rest Hmsg Hr Hb) as [Hpad Hall].
  destruct initial_hash_ok as [Hil Hiw].
  unfold getHashBytes. rewrite Hp. cbn [obind m_hash]. unfold with_hash.
  cbn [m_numBytes m_bufferSize m_buffer]. eexists; split.
  - do 2 f_equal. rewrite Hh, <- foldl_app. unfold sha256. rewrite Hpad, blocks_of_concat by done.
    destruct (foldl_compress (blocks ++ last_blocks rest (8 * zlen msg)) initial_hash) as [-> Hw];
      [done|done|done|rewrite <- Hpad; by apply pad_bytes|].
    clear - Hw. induction Hw as [|w ws Hw _ IH]; [done|]. by rewrite !bind_cons, IH, word_bytes_be.
  - exists blocks, rest. split_and!; done.
Qed.

Definition hex_of (bs : list Z) : list Z :=
  bs ≫= (fun b => [dec2hex (b / 16); dec2hex (b mod 16)]).

Lemma getHash_spec uninit s msg : length uninit = 64%nat -> Forall (is_u 8) msg -> absorbed s msg ->
  exists s', getHash uninit s = Ret (hex_of (sha256 msg), s') /\ absorbed s' msg.
Proof.
  intros Hu Hm Ha. destruct (getHashBytes_spec uninit s msg Hu Hm Ha) as (s' & E & Ha').
  exists s'. split; [|done]. unfold getHash. rewrite E. cbn [obind]. do 2 f_equal. unfold hex_of.
  assert (Hb : Forall (is_u 8) (sha256 msg)).
  { unfold sha256. apply Forall_bind. apply Forall_forall. intros w _. apply be_enc_bytes. }
  clear - Hb. induction Hb as [|b bs Hb _ IH]; [done|]. cbn. rewrite IH.
  change 15 with (Z.ones 4). rewrite !Z.land_ones, Z.shiftr_div_pow2, (Z.mod_small (b / 2 ^ 4)); [done|..]; try lia.
  unfold is_u in Hb. split; [apply Z.div_pos|apply Z.div_lt_upper_bound]; lia.
Qed.

Lemma reset_absorbed s : length (m_buffer s) = 64%nat -> absorbed (reset s) [].
Proof.
  intros Hl. exists [], []. cbn. rewrite <- reset_hash with (s := s). split_and!; auto. lia.
Qed.

(** ** Sequences of calls *)

Inductive call := Add (data : list Z) | GetHash.

(** The calls in order; the hash each [GetHash] returns. *)
Fixpoint run_calls (uninit : list Z) (calls : list call) (s : SHA256) :
    outcome (list (list Z) * SHA256) :=
  match calls with
  | [] => Ret ([], s)
  | Add data :: calls => let* s := add data s in run_calls uninit calls s
  | GetHash :: calls =>
      let* (h, s) := getHash uninit s in
      let* (hs, s) := run_calls uninit calls s in Ret (h :: hs, s)
  end.

(** The hashes the calls should return, after [msg]. *)
Fixpoint expected (calls : list call) (msg : list Z) : list (list Z) :=
  match calls with
  | [] => []
  | Add data :: calls => expected calls (msg ++ data)
  | GetHash :: calls => hex_of (sha256 msg) :: expected calls msg
  end.

Definition call_ok (c : call) : Prop :=
  match c with Add data => Forall (is_u 8) data | GetHash => True end.

Lemma run_calls_spec uninit calls : length uninit = 64%nat -> Forall call_ok calls ->
  forall s msg, Forall (is_u 8) msg -> absorbed s msg ->
  exists s', run_calls uninit calls s = Ret (expected calls msg, s').
Proof.
  intros Hu Hc. induction Hc as [|[data|] calls Hok _ IH]; intros s msg Hm Ha; cbn.
  - eauto.
  - destruct (add_absorbs data s msg Ha) as (s1 & -> & Ha1). cbn.
    apply IH; [by apply Forall_app|done].
  - destruct (getHash_spec uninit s msg Hu Hm Ha) as (s1 & -> & Ha1). cbn.
    destruct (IH s1 msg Hm Ha1) as (s2 & ->). cbn. eauto.
Qed.

(** C19: A fresh object that is given bytes in pieces of any sizes returns, at every
    point where the hash is asked for, the SHA-256 of all bytes given so far,
    computed by the definition of the standard; nothing is read or written
    outside of the arrays, whatever they held before. *)
Theorem sha256_streaming (uninit : list Z) (calls : list call) (s : SHA256)
    (Hu : length uninit = 64%nat) (Hs : length (m_buffer s) = 64%nat) (Hc : Forall call_ok calls) :
  exists s', run_calls uninit calls (reset s) = Ret (expected calls [], s').
Proof. apply run_calls_spec; [done|done|done|by apply reset_absorbed]. Qed.

(** The unrolled block function, with its literal constants and rotating
    variables, is the compression function of the standard, whose constants are
    taken from the roots of the first primes. *)
Theorem processBlock_is_compress (hash data : list Z)
    (Hlh : length hash = 8%nat) (Hh : Forall (is_u 32) hash)
    (Hld : length data = 64%nat) (Hd : Forall (is_u 8) data) :
  processBlock hash data = compress hash data.
Proof. by apply processBlock_compress. Qed.

Lemma hash_data_spec uninit data s : length uninit = 64%nat -> length (m_buffer s) = 64%nat ->
  Forall (is_u 8) data ->
  exists s', hash_data uninit data s = Ret (hex_of (sha256 data), s').
Proof.
  intros Hu Hs Hd. unfold hash_data.
  destruct (add_absorbs data (reset s) [] (reset_absorbed s Hs)) as (s1 & -> & Ha). cbn.
  destruct (getHash_spec uninit s1 data Hu Hd Ha) as (s2 & -> & _). eauto.
Qed.

Lemma sha256_streaming_witness :
  exists s', run_calls (replicate 64 7) [Add [97]; GetHash; Add [98; 99]; GetHash]
      (reset (mkSHA256 5 9 (replicate 64 1) [])) =
    Ret (expected [Add [97]; GetHash; Add [98; 99]; GetHash] [], s').
Proof.
  apply (sha256_streaming (replicate 64 7) [Add [97]; GetHash; Add [98; 99]; GetHash]
    (mkSHA256 5 9 (replicate 64 1) [])); [done|done|].
  repeat constructor; vm_compute; congruence.
Defined.

Lemma processBlock_is_compress_witness :
  processBlock (replicate 8 1) (replicate 64 200) = compress (replicate 8 1) (replicate 64 200).
Proof.
  apply (processBlock_is_compress (replicate 8 1) (replicate 64 200)); [done| |done|];
    apply Forall_replicate; vm_compute; split; congruence.
Defined.
