(* ===== verification/Kstr.v ===== *)
(** KSTR (Sections.cpp): the strings only the editor uses, with their display
    properties, and the conversion between strings and the bytes of the file.
    The operations on the strings are those of [StringTable] with the storage
    scope [Editor]. *)
From S2P Require Import Prelude Codec ChkTypes ChkSection Accessors StringUsers Triggers StringTable StrSection.
Open Scope Z_scope.

Module KstrSection.
Record KstrSection := mkKstrSection {
  strings : table;
  stringBytes : bytes;
  version : Z
}.

Definition CurrentVersion : Z := 3.
Definition s32_max : Z := 2 ^ 31 - 1.

Definition setStrings (s : KstrSection) (strings : table) : KstrSection :=
  mkKstrSection strings (stringBytes s) (version s).
Definition setBytes (s : KstrSection) (stringBytes : bytes) : KstrSection :=
  mkKstrSection (strings s) stringBytes (version s).

(** *** Strings to bytes *)

(** [(u32 &)Chk::StringProperties(...)] of a string; the constructor throws on
    a font size it cannot store. *)
Definition propertiesWord (p : StrProp.StrProp) : outcome Z :=
  let* p := StringProperties.new (StrProp.red p) (StrProp.green p) (StrProp.blue p)
    (StrProp.isUsed p) (StrProp.hasPriority p) (StrProp.isBold p) (StrProp.isUnderlined p)
    (StrProp.isItalics p) (StrProp.size p) in
  Ret (le_dec 4 [StringProperties.red p; StringProperties.green p; StringProperties.blue p;
                 StringProperties.flags p]).

(** One round of the loop that lays out the strings; [nullOffsetPos] is where
    the offset of a missing string is written. *)
Definition layString (strings : table) (stringPropertiesStart initialNulOffset : Z)
    (nullOffsetPos : Z -> Z) (i : Z) (stringBytes : bytes) : outcome bytes :=
  let* s := vget strings i in
  match s with
  | None => write_word 4 stringBytes (nullOffsetPos i) initialNulOffset
  | Some s =>
      let* prop := propertiesWord (ScStr.strProp s) in
      let* stringBytes := write_word 4 stringBytes (stringPropertiesStart + 4 * i) prop in
      let* stringBytes := write_word 4 stringBytes (4 + 4 * i) (u32 (zlen stringBytes)) in
      Ret (stringBytes ++ ScStr.allocation s)
  end.

Definition layOut (nullOffsetPos : Z -> Z) (strings : table) : outcome bytes :=
  let maxStrings := (s32_max - 2 * 4) / 4 in
  let numStrings := StrSection.numStringsOf strings in
  if numStrings >? maxStrings then Throw MaximumStringsExceeded
  else
    let stringPropertiesStart := 2 * 4 + 2 * numStrings in
    let* sectionSize := StrSection.totalLength strings numStrings (2 * 4 + 2 * 4 * numStrings + 1) in
    if sectionSize >? s32_max then Throw MaximumCharactersExceeded
    else
      let stringBytes := replicate (Z.to_nat (2 * 4 + 2 * 4 * numStrings)) 0 in
      let* stringBytes := write_word 4 stringBytes 0 CurrentVersion in
      let* stringBytes := write_word 4 stringBytes 4 (u32 numStrings) in
      let initialNulOffset := u32 (zlen stringBytes) in
      let stringBytes := stringBytes ++ [0] in
      for_each (layString strings stringPropertiesStart initialNulOffset nullOffsetPos)
        (range 1 (numStrings + 1)) stringBytes.

(** [Strings::syncKstringsToBytes], and the section's own code for when there
    is no synchronizer: they differ in the position of a missing string. *)
Definition syncKstringsToBytes (strings : table) : outcome bytes := layOut (fun i => 4 + 4 * i) strings.
Definition ownStringsToBytes (strings : table) : outcome bytes := layOut (fun i => 4 * i) strings.

Definition syncStringsToBytes (hasSynchronizer : bool) (s : KstrSection) : outcome KstrSection :=
  let* bs := if hasSynchronizer then syncKstringsToBytes (strings s) else ownStringsToBytes (strings s) in
  Ret (setBytes s bs).

(** *** Bytes to strings *)

(** A value of four bytes of which some are missing. *)
Definition rawNumStringsOf (bs : bytes) : outcome Z :=
  let numBytes := zlen bs in
  if numBytes >=? 8 then read_word 4 bs 4
  else if numBytes =? 7 then read_word 3 bs 4
  else if numBytes =? 6 then read_word 2 bs 4
  else if numBytes =? 5 then vget bs 4
  else Ret 0.

Definition propertiesAt (bs : bytes) (pos : Z) : outcome StrProp.StrProp :=
  let* w := read_word 4 bs pos in
  match le_enc 4 w with
  | [red; green; blue; flags] =>
      Ret (StrProp.ofProperties (StringProperties.mkStringProperties red green blue flags))
  | _ => Undef
  end.

(** The string of an id whose offset is in the section. *)
Definition loadStringAt (bs : bytes) (propertiesStartMinusFour highestStringWithValidProperties : Z)
    (stringId : Z) (strings : table) : outcome table :=
  let* stringOffset := read_word 4 bs (4 + 4 * stringId) in
  let s := (loadString bs stringOffset (zlen bs)).1 in
  match s with
  | Some str =>
      if stringId <=? highestStringWithValidProperties then
        let* properties := propertiesAt bs (propertiesStartMinusFour + 4 * stringId) in
        Ret (strings ++ [Some (ScStr.mkScStr (ScStr.allocation str) properties)])
      else Ret (strings ++ [s])
  | None => Ret (strings ++ [s])
  end.

(** The check of the version looks at a local variable that is still 0. *)
Definition syncBytesToStrings (s : KstrSection) : outcome KstrSection :=
  let bs := stringBytes s in
  let numBytes := zlen bs in
  let localVersion := 0 in
  let* version := if numBytes >=? 4 then read_word 4 bs 0 else Ret 0 in
  if localVersion >? CurrentVersion then Throw SectionValidationException else
  let* rawNumStrings := rawNumStringsOf bs in
  let highestStringWithValidOffset :=
    Z.min rawNumStrings (if numBytes <? 12 then 0 else (numBytes - 8) / 4) in
  let highestStringWithValidProperties :=
    Z.min rawNumStrings (if numBytes <? 12 then 0 else (numBytes - 8) / 8) in
  let propertiesStartMinusFour := 4 + u64 (4 * rawNumStrings) in
  let* strings := for_each (loadStringAt bs propertiesStartMinusFour highestStringWithValidProperties)
    (range 1 (highestStringWithValidOffset + 1)) [None] in
  let stringId := highestStringWithValidOffset + 1 in
  if highestStringWithValidOffset <? rawNumStrings then
    let* (strings, stringId) :=
      if numBytes mod 4 =? 3 then
        let* stringOffset := read_word 3 bs (numBytes - 3) in
        Ret (strings ++ [(loadString bs stringOffset numBytes).1], stringId + 1)
      else if numBytes mod 4 =? 2 then
        let* stringOffset := read_word 2 bs numBytes in
        Ret (strings ++ [(loadString bs stringOffset numBytes).1], stringId + 1)
      else if numBytes mod 4 =? 1 then
        let* stringOffset := vget bs (4 * highestStringWithValidOffset) in
        Ret (strings ++ [(loadString bs stringOffset numBytes).1], stringId + 1)
      else Ret (strings, stringId) in
    Ret (mkKstrSection (strings ++ replicate (Z.to_nat (rawNumStrings + 1 - stringId)) None) bs version)
  else Ret (mkKstrSection strings bs version).

(** The count is looked for in the place of the version, the offsets one word
    early. *)
Definition stringsMatchBytes (s : KstrSection) : outcome bool :=
  let bs := stringBytes s in
  let numBytes := zlen bs in
  if numBytes =? 0 then Ret false
  else
    let* rawNumStrings :=
      if numBytes >=? 4 then read_word 4 bs 0
      else if numBytes =? 3 then read_word 3 bs 0
      else if numBytes =? 2 then read_word 2 bs 0
      else vget bs 0 in
    if negb (rawNumStrings =? u64 (zlen (strings s) - 1)) then Ret false
    else
      let* mismatch := any_such (fun stringId =>
          let* str := vget (strings s) stringId in
          match str with
          | Some str =>
              if 4 * stringId + 1 <? numBytes then
                let* stringOffset := read_word 4 bs (4 * stringId) in
                Ret ((stringOffset + ScStr.length str >? numBytes) ||
                     negb (bool_decide (take (Z.to_nat (ScStr.length str)) (ScStr.allocation str) =
                        take (Z.to_nat (ScStr.length str)) (drop (Z.to_nat stringOffset) bs))))
              else Ret true
          | None => Ret false
          end) (range 1 (zlen (strings s))) in
      Ret (negb mismatch).

(** *** The section *)

Definition GetDefault : KstrSection := mkKstrSection [] [] CurrentVersion.

Definition empty (s : KstrSection) : bool := forallb (fun o => bool_decide (o = None)) (strings s).

Definition getCapacity (s : KstrSection) : Z := zlen (strings s).

Definition getBytesUsed (hasSynchronizer : bool) (s : KstrSection) : outcome (KstrSection * Z) :=
  let* s := syncStringsToBytes hasSynchronizer s in Ret (s, zlen (stringBytes s)).

Definition getProperties (s : KstrSection) (stringId : Z) : outcome StrProp.StrProp :=
  if stringId <? zlen (strings s)
  then let* o := vget (strings s) stringId in
       Ret (match o with Some str => ScStr.strProp str | None => StrProp.default end)
  else Ret StrProp.default.

Definition setProperties (s : KstrSection) (stringId : Z) (strProp : StrProp.StrProp) : outcome KstrSection :=
  if stringId <? zlen (strings s)
  then let* o := vget (strings s) stringId in
       match o with
       | Some str =>
           let* strings := vset (strings s) stringId
             (Some (ScStr.mkScStr (ScStr.allocation str) strProp)) in
           Ret (setStrings s strings)
       | None => Ret s
       end
  else Ret s.

Definition stringStored (s : KstrSection) (stringId : Z) : outcome bool :=
  StringTable.stringStored (strings s) stringId.
Definition unmarkUnstoredStrings (s : KstrSection) (stringIdUsed : gset Z) : outcome (gset Z) :=
  StringTable.unmarkUnstoredStrings (strings s) stringIdUsed.
Definition getString (s : KstrSection) (stringId : Z) : outcome (option bytes) :=
  StringTable.getString (strings s) stringId.
Definition findString (s : KstrSection) (str : bytes) : outcome Z := StringTable.findString (strings s) str.

Section ops.
Context {Σ : Type} (sync : StrSynchronizer Σ).

Definition setCapacity (s : KstrSection) (σ : Σ) (stringCapacity : Z) (autoDefragment : bool)
    : outcome (KstrSection * Σ) :=
  let* r := StringTable.setCapacity sync Scope.Editor 0 (strings s) σ stringCapacity autoDefragment in
  Ret (setStrings s r.1, r.2).
Definition addString (s : KstrSection) (σ : Σ) (str : bytes) (autoDefragment : bool)
    : outcome (KstrSection * Σ * Z) :=
  let* r := StringTable.addString sync Scope.Editor 0 (strings s) σ str autoDefragment in
  let '(strings, σ, stringId) := r in Ret (setStrings s strings, σ, stringId).
Definition replaceString (s : KstrSection) (stringId : Z) (str : bytes) : outcome KstrSection :=
  let* r := StringTable.replaceString (strings s) stringId str in Ret (setStrings s r).
Definition deleteUnusedStrings (s : KstrSection) (σ : Σ) : outcome KstrSection :=
  let* r := StringTable.deleteUnusedStrings sync Scope.Editor (strings s) σ in Ret (setStrings s r).
(** The mask passed is [StringUserFlag::All]. *)
Definition deleteString (s : KstrSection) (stringId : Z) (deleteOnlyIfUnused : bool) (σ : option Σ)
    : outcome (KstrSection * bool) :=
  let* r := StringTable.deleteString sync Scope.Editor (2 ^ 32 - 1) (strings s) stringId deleteOnlyIfUnused σ in
  Ret (setStrings s r.1, r.2).
Definition moveString (s : KstrSection) (σ : Σ) (stringIdFrom stringIdTo : Z) : outcome (KstrSection * Σ) :=
  let* r := StringTable.moveString sync Scope.Editor (strings s) σ stringIdFrom stringIdTo in
  Ret (setStrings s r.1, r.2).
Definition defragment (s : KstrSection) (σ : Σ) : outcome (KstrSection * Σ * bool) :=
  let* r := StringTable.defragment sync Scope.Editor (strings s) σ in
  let '(strings, σ, b) := r in Ret (setStrings s strings, σ, b).
End ops.

Definition checkFit (s : KstrSection) : outcome (KstrSection * bool) :=
  if zlen (strings s) >? MaxStrings then Ret (s, false)
  else match syncKstringsToBytes (strings s) with
       | Ret bs => Ret (setBytes s bs, true)
       | Throw _ => Ret (s, false)
       | Undef => Undef
       end.

Definition getVersion (s : KstrSection) : Z := version s.
Definition setVersion (v : Z) (s : KstrSection) : outcome KstrSection :=
  if (v <? 2) || (v >? CurrentVersion) then Throw InvalidArgument
  else Ret (mkKstrSection (strings s) (stringBytes s) v).

Definition getSize (hasSynchronizer : bool) (s : KstrSection) : outcome (KstrSection * Z) :=
  let* s := syncStringsToBytes hasSynchronizer s in
  if zlen (stringBytes s) <=? s32_max then Ret (s, zlen (stringBytes s)) else Throw MaxSectionSizeExceeded.

Definition read (sizeInBytes : Z) (ist : istream) (s : KstrSection)
    : outcome (KstrSection * Z * istream) :=
  if sizeInBytes <? 0 then Throw NegativeSectionSize
  else if sizeInBytes >? 0 then
    let '(got, ist') := istream_read ist sizeInBytes in
    let* bs := store (replicate (Z.to_nat sizeInBytes) 0) got in
    let* s := syncBytesToStrings (setBytes s bs) in
    Ret (s, zlen got, ist')
  else Ret (mkKstrSection [] [] (version s), 0, ist).

Definition write (hasSynchronizer : bool) (s : KstrSection) : outcome (KstrSection * bytes) :=
  let* s := syncStringsToBytes hasSynchronizer s in Ret (s, stringBytes s).
End KstrSection.
