(* ===== verification/KstrProps.v ===== *)
(** Properties of KSTR: what is written, and that the strings are read back;
    where the properties of the strings go. *)
From S2P Require Import Prelude Codec ChkTypes ChkSection Accessors StringUsers Triggers StringTable StrSection StrProps Kstr.
Open Scope Z_scope.
Import KstrSection.

(** ** The layout *)

(** Writing a word inside a part of the bytes changes that part only. *)
Lemma write_word_inside w a m c pos v : zlen a <= pos -> pos + Z.of_nat w <= zlen a + zlen m ->
  exists m', write_word w (a ++ m ++ c) pos v = Ret (a ++ m' ++ c) /\ length m' = length m.
Proof.
  intros Ha Hm. pose proof (zlen_nonneg a).
  set (k := Z.to_nat (pos - zlen a)).
  assert (Hk : (k + w <= length m)%nat) by (unfold k, zlen in *; lia).
  assert (Hw : length (take w (drop k m)) = w) by (rewrite length_take, length_drop; lia).
  exists (take k m ++ le_enc w v ++ drop (k + w) m).
  rewrite <- (take_drop k m) at 1. rewrite <- (take_drop w (drop k m)), drop_drop.
  rewrite <- !app_assoc, (app_assoc a).
  replace pos with (zlen (a ++ take k m))
    by (rewrite zlen_app; unfold zlen at 2; rewrite length_take; unfold k, zlen in *; lia).
  rewrite write_word_at by done. rewrite <- !app_assoc. split; [done|].
  rewrite !length_app, length_take, le_enc_length, length_drop. lia.
Qed.

(** Offsets of the strings laid out from [pos] on, as they are stored. *)
Fixpoint offsets (nul pos : Z) (ss : table) : list Z :=
  match ss with
  | [] => []
  | None :: ss => nul :: offsets nul pos ss
  | Some s :: ss => u32 pos :: offsets nul (pos + zlen (ScStr.allocation s)) ss
  end.
Definition words (l : list Z) : bytes := concat (le_enc 4 <$> l).

Lemma kwords_length l : length (words l) = (4 * length l)%nat.
Proof.
  induction l as [|v l IH]; [done|]. change (words (v :: l)) with (le_enc 4 v ++ words l).
  rewrite length_app, IH, le_enc_length. cbn. lia.
Qed.
Lemma koffsets_length nul pos ss : length (offsets nul pos ss) = length ss.
Proof. revert pos. induction ss as [|[s|] ss IH]; intros pos; cbn; by rewrite ?IH. Qed.

Definition storable (s : option ScStr.ScStr) : Prop :=
  match s with Some s => is_ret (propertiesWord (ScStr.strProp s)) | None => True end.

Lemma vget_drop {A} (l : list A) i x rest : 0 <= i -> drop (Z.to_nat i) l = x :: rest ->
  vget l i = Ret x /\ drop (Z.to_nat (i + 1)) l = rest.
Proof.
  intros Hi Hd. split.
  - apply vget_Some; [done|]. rewrite <- (Nat.add_0_r (Z.to_nat i)), <- lookup_drop. by rewrite Hd.
  - replace (Z.to_nat (i + 1)) with (Z.to_nat i + 1)%nat by lia. rewrite <- drop_drop. by rewrite Hd.
Qed.

(** The loop writes the offsets one after the other; the properties land in
    what is still to come. *)
Lemma klay_strings strings n i rest hdr mid tl :
  2 <= n -> 1 <= i -> drop (Z.to_nat i) strings = rest -> zlen rest = n + 1 - i ->
  Forall storable rest -> zlen hdr = 4 + 4 * i -> zlen mid = 4 * (n + 1 - i) + 4 * n ->
  exists props,
    for_each (layString strings (8 + 2 * n) (8 + 8 * n) (fun i => 4 + 4 * i)) (range i (n + 1))
      (hdr ++ mid ++ tl) =
    Ret (hdr ++ words (offsets (8 + 8 * n) (8 + 8 * n + zlen tl) rest) ++ props ++ tl ++ chars rest) /\
    zlen props = 4 * n.
Proof.
  intros Hn. revert i hdr mid tl.
  induction rest as [|s rest IH]; intros i hdr mid tl Hi Hd Hr Hst Hh Hm.
  - change (zlen (@nil (option ScStr.ScStr))) with 0 in Hr. rewrite range_empty by lia. cbn.
    exists mid. rewrite app_nil_r. split; [done | lia].
  - rewrite zlen_cons in Hr. pose proof (zlen_nonneg rest). rewrite range_cons by lia. cbn [for_each].
    destruct (vget_drop strings i s rest ltac:(lia) Hd) as [Hs Hd'].
    apply Forall_cons in Hst as [Hst Hsts].
    unfold layString at 1. rewrite Hs. cbn [obind].
    assert (Hsplit : forall m : bytes, zlen m = zlen mid -> exists m2, m = take 4 m ++ m2 /\ length (take 4 m) = 4%nat /\
      zlen m2 = zlen mid - 4).
    { intros m Hml. exists (drop 4 m). rewrite take_drop. unfold zlen in *. rewrite length_take, length_drop.
      split_and!; [done|lia|lia]. }
    destruct s as [s|].
    + destruct Hst as [w Hw]. rewrite Hw. cbn [obind].
      destruct (write_word_inside 4 hdr mid tl (8 + 2 * n + 4 * i) w) as (m' & -> & Hlm); [lia|lia|].
      cbn [obind]. destruct (Hsplit m') as (m2 & Hm2 & Hl4 & Hz2); [unfold zlen; lia|].
      rewrite Hm2. rewrite <- (app_assoc (take 4 m')), <- Hh, write_word_at by done. cbn [obind].
      rewrite <- !app_assoc, (app_assoc hdr).
      destruct (IH (i + 1) (hdr ++ le_enc 4 (u32 (zlen (hdr ++ take 4 m' ++ m2 ++ tl)))) m2
        (tl ++ ScStr.allocation s)) as (props & Heq & Hp);
        [lia|done|lia|done|rewrite zlen_app; unfold zlen at 2; rewrite le_enc_length; lia|lia|].
      exists props. split; [|done]. rewrite Heq. f_equal.
      assert (Hpos : zlen (hdr ++ take 4 m' ++ m2 ++ tl) = 8 + 8 * n + zlen tl).
      { rewrite !zlen_app. unfold zlen at 2. rewrite Hl4. lia. }
      rewrite Hpos. cbn [offsets]. unfold words, chars. cbn [fmap list_fmap concat].
      by rewrite zlen_app, <- !app_assoc, Z.add_assoc.
    + destruct (Hsplit mid eq_refl) as (m2 & Hm2 & Hl4 & Hz2).
      rewrite Hm2. rewrite <- (app_assoc (take 4 mid)), <- Hh, write_word_at by done. cbn [obind].
      rewrite (app_assoc hdr).
      destruct (IH (i + 1) (hdr ++ le_enc 4 (8 + 8 * n)) m2 tl) as (props & Heq & Hp);
        [lia|done|lia|done|rewrite zlen_app; unfold zlen at 2; rewrite le_enc_length; lia|lia|].
      exists props. split; [|done]. rewrite Heq. f_equal.
      cbn [offsets]. unfold words, chars. cbn [fmap list_fmap concat]. by rewrite <- !app_assoc.
Qed.

(** The bytes of a table of [n] strings, with [props] where the properties are
    looked for. *)
Definition kstr_bytes (ss : table) (props : bytes) : bytes :=
  let n := zlen ss in
  le_enc 4 3 ++ le_enc 4 n ++ words (offsets (8 + 8 * n) (8 + 8 * n + 1) ss) ++ props ++ [0] ++ chars ss.

Definition kstr_size (ss : table) : Z := 8 + 8 * zlen ss + 1 + zlen (chars ss).

Lemma kstr_bytes_zlen ss props : zlen props = 4 * zlen ss -> zlen (kstr_bytes ss props) = kstr_size ss.
Proof.
  intros Hp. unfold kstr_bytes, kstr_size. rewrite !zlen_app, Hp. change (zlen [0]) with 1.
  unfold zlen. rewrite !le_enc_length, kwords_length, koffsets_length. lia.
Qed.

Lemma lengths_chars ss : lengths ss <= zlen (chars ss).
Proof.
  induction ss as [|[s|] ss IH]; [done| |exact IH].
  change (ScStr.length s + lengths ss <= zlen (ScStr.allocation s ++ chars ss)).
  rewrite zlen_app. unfold ScStr.length. pose proof (zlen_nonneg (ScStr.allocation s)).
  destruct (_ >? 0); lia.
Qed.

Lemma kstr_written s0 ss : 2 <= zlen ss -> kstr_size ss <= s32_max -> Forall storable ss ->
  exists props, syncKstringsToBytes (s0 :: ss) = Ret (kstr_bytes ss props) /\ zlen props = 4 * zlen ss.
Proof.
  intros Hn Hsz Hst. set (n := zlen ss) in *. pose proof (lengths_chars ss).
  pose proof (zlen_nonneg (chars ss)).
  unfold syncKstringsToBytes, layOut, StrSection.numStringsOf. rewrite zlen_cons. fold n.
  rewrite (proj2 (Z.gtb_lt _ 0)) by lia. replace (1 + n - 1) with n by lia.
  change ((s32_max - 2 * 4) / 4) with 536870909.
  unfold kstr_size in Hsz. fold n in Hsz. change s32_max with 2147483647 in *.
  destruct (Z.gtb_spec n 536870909); [lia|]. unfold StrSection.totalLength.
  rewrite (total_length _ _ _ ss) by (done || lia). cbn [obind].
  destruct (Z.gtb_spec (2 * 4 + 2 * 4 * n + 1 + lengths ss) 2147483647); [lia|].
  replace (Z.to_nat (2 * 4 + 2 * 4 * n)) with (4 + (4 + 8 * length ss))%nat by (unfold n, zlen; lia).
  rewrite !replicate_add.
  assert (Hw0 : forall c v, write_word 4 (replicate 4 0 ++ c) 0 v = Ret (le_enc 4 v ++ c))
    by (intros c v; exact (write_word_at 4 [] (replicate 4 0) c v eq_refl)).
  assert (Hw1 : forall c v, write_word 4 (le_enc 4 CurrentVersion ++ replicate 4 0 ++ c) 4 v =
    Ret (le_enc 4 CurrentVersion ++ le_enc 4 v ++ c))
    by (intros c v; exact (write_word_at 4 (le_enc 4 CurrentVersion) (replicate 4 0) c v eq_refl)).
  rewrite Hw0. cbn [obind]. rewrite Hw1. cbn [obind].
  assert (Hlen : zlen (le_enc 4 CurrentVersion ++ le_enc 4 (u32 n) ++ replicate (8 * length ss) 0) = 8 + 8 * n).
  { rewrite !zlen_app. unfold zlen. rewrite !le_enc_length, length_replicate. unfold n, zlen. lia. }
  rewrite Hlen. rewrite !u32_id by (unfold is_u; lia).
  rewrite <- !app_assoc, (app_assoc (le_enc 4 CurrentVersion)).
  destruct (klay_strings (s0 :: ss) n 1 ss (le_enc 4 CurrentVersion ++ le_enc 4 n)
    (replicate (8 * length ss) 0) [0]) as (props & Heq & Hp); [done|lia|done|lia|done|..].
  - rewrite zlen_app. unfold zlen. by rewrite !le_enc_length.
  - unfold zlen. rewrite length_replicate. unfold n, zlen. lia.
  - exists props. split; [|done].
    change (2 * 4 + 2 * n) with (8 + 2 * n). rewrite Heq. unfold kstr_bytes. fold n.
    by rewrite <- !app_assoc.
Qed.

(** ** Reading back *)

(** The characters of a table's strings, without their properties. *)
Definition texts : table -> list (option bytes) := fmap (option_map ScStr.allocation).
Definition loaded_texts (ss : list (option bytes)) : list (option bytes) :=
  (fun o => Some (ScStr.allocate (default [] o))) <$> ss.

Lemma read_word_in w bs pos : 0 <= pos -> pos + Z.of_nat w <= zlen bs -> is_ret (read_word w bs pos).
Proof.
  intros H0 Hl. unfold read_word. rewrite !(proj2 (Z.leb_le _ _)) by lia. by eexists.
Qed.

Lemma propertiesAt_in bs pos : 0 <= pos -> pos + 4 <= zlen bs -> is_ret (propertiesAt bs pos).
Proof.
  intros H0 Hl. destruct (read_word_in 4 bs pos H0 Hl) as [w Hw].
  unfold propertiesAt. rewrite Hw. by eexists.
Qed.

Lemma load_one bs pstart hvp i off o rest acc :
  read_word 4 bs (4 + 4 * i) = Ret off -> 0 <= off < zlen bs -> nul_free o ->
  drop (Z.to_nat off) bs = o ++ 0 :: rest -> 0 <= pstart + 4 * i -> pstart + 4 * i + 4 <= zlen bs ->
  exists s, loadStringAt bs pstart hvp i acc = Ret (acc ++ [Some s]) /\
    ScStr.allocation s = ScStr.allocate o.
Proof.
  intros Hr Ho Hf Hd Hp0 Hp. unfold loadStringAt. rewrite Hr. cbn [obind].
  rewrite (load_found bs o rest) by (done || lia). cbn [fst].
  destruct (i <=? hvp); [|by eexists].
  destruct (propertiesAt_in bs (pstart + 4 * i) Hp0 Hp) as [p ->]. by eexists.
Qed.

Lemma kload_strings bs nul pstart hvp n i pos rest acc :
  1 <= i -> 0 <= pos -> 0 <= nul -> plain_ok rest -> zlen rest = n + 1 - i ->
  (forall k o, offsets nul pos (plain rest) !! k = Some o -> read_word 4 bs (4 + 4 * (i + Z.of_nat k)) = Ret o) ->
  (exists r, drop (Z.to_nat nul) bs = 0 :: r) ->
  drop (Z.to_nat pos) bs = chars (plain rest) -> zlen bs = pos + zlen (chars (plain rest)) ->
  zlen bs <= 2 ^ 32 -> 0 <= pstart -> pstart + 4 * n + 4 <= zlen bs ->
  exists t, for_each (loadStringAt bs pstart hvp) (range i (n + 1)) acc = Ret (acc ++ t) /\
    texts t = loaded_texts rest.
Proof.
  intros Hi Hpos Hnul Hok Hr Hos (r0 & Hd0) Hd Hl Hmax Hp0 Hp.
  assert (Hn0 : nul < zlen bs).
  { apply (f_equal length) in Hd0. rewrite length_drop in Hd0. cbn in Hd0. unfold zlen. lia. }
  revert i pos acc Hi Hpos Hok Hr Hos Hd Hl.
  induction rest as [|o rest IH]; intros i pos acc Hi Hpos Hok Hr Hos Hd Hl.
  - change (zlen (@nil (option bytes))) with 0 in Hr. rewrite range_empty by lia.
    exists []. cbn. by rewrite app_nil_r.
  - rewrite zlen_cons in Hr. pose proof (zlen_nonneg rest). rewrite range_cons by lia. cbn [for_each].
    apply Forall_cons in Hok as [Ho Hok].
    assert (Hhead := Hos 0%nat). rewrite Z.add_0_r in Hhead.
    assert (Htail : forall k v, offsets nul (match o with Some s => pos + zlen s + 1 | None => pos end)
        (plain rest) !! k = Some v -> read_word 4 bs (4 + 4 * (i + 1 + Z.of_nat k)) = Ret v).
    { intros k v Hk. replace (i + 1 + Z.of_nat k) with (i + Z.of_nat (S k)) by lia. apply Hos.
      destruct o as [s|]; [|done]. cbn [plain fmap list_fmap option_map offsets lookup].
      cbn [default] in Ho. rewrite allocation_zlen by done. by rewrite Z.add_assoc. }
    assert (Hcont : forall s off tl, read_word 4 bs (4 + 4 * i) = Ret off -> 0 <= off < zlen bs ->
      nul_free s -> drop (Z.to_nat off) bs = s ++ 0 :: tl ->
      forall pos', 0 <= pos' -> (forall k v, offsets nul pos' (plain rest) !! k = Some v ->
        read_word 4 bs (4 + 4 * (i + 1 + Z.of_nat k)) = Ret v) ->
      drop (Z.to_nat pos') bs = chars (plain rest) -> zlen bs = pos' + zlen (chars (plain rest)) ->
      exists t, (let* acc := loadStringAt bs pstart hvp i acc in
        for_each (loadStringAt bs pstart hvp) (range (i + 1) (n + 1)) acc) = Ret (acc ++ t) /\
        texts t = Some (ScStr.allocate s) :: loaded_texts rest).
    { intros s off tl Hro Hoff Hs Hdo pos' Hpos' Hos' Hd' Hl'.
      destruct (load_one bs pstart hvp i off s tl acc) as (sc & -> & Hsc); [done|done|done|done|lia|lia|].
      cbn [obind]. destruct (IH (i + 1) pos' (acc ++ [Some sc])) as (t & -> & Ht);
        [lia|done|done|lia|done|done|done|].
      exists (Some sc :: t). rewrite <- app_assoc. split; [done|]. cbn. by rewrite Hsc, <- Ht. }
    destruct o as [s|]; cbn [default] in Ho.
    + rewrite chars_plain_cons in Hd, Hl by done. rewrite zlen_app, zlen_cons in Hl.
      pose proof (zlen_nonneg s). pose proof (zlen_nonneg (chars (plain rest))).
      apply (Hcont s pos (chars (plain rest))) with (pos' := pos + zlen s + 1); try done; try lia.
      * rewrite (Hhead (u32 pos)) by done. by rewrite u32_id by (unfold is_u; lia).
      * replace (Z.to_nat (pos + zlen s + 1)) with (Z.to_nat pos + (length s + 1))%nat by (unfold zlen; lia).
        rewrite <- drop_drop, Hd, cons_middle, app_assoc, drop_app_length' by (rewrite length_app; cbn; lia).
        done.
    + apply (Hcont [] nul r0) with (pos' := pos); try done; [by apply Hhead].
Qed.

Lemma kwords_lookup hdr os tl k o : zlen hdr = 8 -> os !! k = Some o -> is_u 32 o ->
  read_word 4 (hdr ++ words os ++ tl) (4 + 4 * (1 + Z.of_nat k)) = Ret o.
Proof.
  intros Hh Hk Ho. rewrite <- (take_drop_middle os k o Hk).
  assert (Hw : words (take k os ++ o :: drop (S k) os) = words (take k os) ++ le_enc 4 o ++ words (drop (S k) os)).
  { unfold words. rewrite fmap_app, concat_app. done. }
  rewrite Hw, <- !app_assoc, (app_assoc hdr).
  replace (4 + 4 * (1 + Z.of_nat k)) with (zlen (hdr ++ words (take k os))); [by apply read_word_at|].
  apply lookup_lt_Some in Hk. rewrite zlen_app. unfold zlen in *.
  rewrite kwords_length, length_take. lia.
Qed.

Lemma offsets_u32 nul pos ss : is_u 32 nul -> Forall (is_u 32) (offsets nul pos ss).
Proof.
  intros Hn. revert pos. induction ss as [|[s|] ss IH]; intros pos; cbn; constructor; auto using u32_range.
Qed.

Lemma plain_zlen ss : zlen (plain ss) = zlen ss.
Proof. unfold zlen, plain. by rewrite length_fmap. Qed.

Lemma kstr_bytes_read s ss props : plain_ok ss -> 2 <= zlen ss -> kstr_size (plain ss) <= s32_max ->
  zlen props = 4 * zlen ss ->
  exists t, syncBytesToStrings (setBytes s (kstr_bytes (plain ss) props)) =
    Ret (mkKstrSection (None :: t) (kstr_bytes (plain ss) props) 3) /\ texts t = loaded_texts ss.
Proof.
  intros Hok Hn Hsz Hp. set (bs := kstr_bytes (plain ss) props).
  assert (Hl : zlen bs = kstr_size (plain ss)) by (apply kstr_bytes_zlen; by rewrite plain_zlen).
  pose proof (zlen_nonneg (chars (plain ss))).
  unfold kstr_size in Hsz, Hl. rewrite plain_zlen in Hsz, Hl. change s32_max with 2147483647 in Hsz.
  set (n := zlen ss) in *.
  set (os := offsets (8 + 8 * n) (8 + 8 * n + 1) (plain ss)).
  assert (Hbs : bs = le_enc 4 3 ++ le_enc 4 n ++ words os ++ props ++ [0] ++ chars (plain ss)).
  { unfold bs, kstr_bytes. by rewrite plain_zlen. }
  assert (Hlo : length os = length ss) by (unfold os; rewrite koffsets_length; unfold plain; apply length_fmap).
  assert (Hver : read_word 4 bs 0 = Ret 3).
  { rewrite Hbs. exact (read_word_at 4 [] 3 _ ltac:(by vm_compute)). }
  assert (Hraw : read_word 4 bs 4 = Ret n).
  { rewrite Hbs. refine (read_word_at 4 (le_enc 4 3) n _ _). change (8 * Z.of_nat 4) with 32. unfold is_u. lia. }
  unfold syncBytesToStrings. cbn [setBytes stringBytes].
  rewrite (proj2 (Z.geb_le (zlen bs) 4)), Hver by lia. cbn [obind].
  change (0 >? CurrentVersion) with false. unfold rawNumStringsOf.
  rewrite (proj2 (Z.geb_le (zlen bs) 8)), Hraw by lia. cbn [obind].
  rewrite (proj2 (Z.ltb_ge (zlen bs) 12)) by lia.
  assert (Hmin : n <= (zlen bs - 8) / 4) by (apply Z.div_le_lower_bound; lia).
  rewrite (Z.min_l n ((zlen bs - 8) / 4)) by done.
  assert (Hhdr : zlen (le_enc 4 3 ++ le_enc 4 n) = 8) by (rewrite zlen_app; unfold zlen; by rewrite !le_enc_length).
  destruct (kload_strings bs (8 + 8 * n) (4 + u64 (4 * n)) (Z.min n ((zlen bs - 8) / 8)) n 1
    (8 + 8 * n + 1) ss [None]) as (t & Ht & Htx);
    [lia|lia|lia|done|unfold n; lia| | | |lia|lia| | |].
  - intros k o Hk. rewrite Hbs, (app_assoc (le_enc 4 3)). apply kwords_lookup; [done..|].
    assert (Hu : Forall (is_u 32) os) by (apply offsets_u32; unfold is_u; lia).
    by apply (proj1 (Forall_lookup _ _) Hu k).
  - exists (chars (plain ss)).
    assert (Hbs2 : bs = (le_enc 4 3 ++ le_enc 4 n ++ words os ++ props) ++ [0] ++ chars (plain ss))
      by (rewrite Hbs, <- !app_assoc; done).
    rewrite Hbs2, drop_app_length'; [done|].
    rewrite !length_app, !le_enc_length, kwords_length, Hlo. unfold n, zlen in *. lia.
  - rewrite Hbs, !app_assoc, drop_app_length'; [done|].
    rewrite !length_app, !le_enc_length, kwords_length, Hlo. cbn [length]. unfold n, zlen in *. lia.
  - unfold u64. pose proof (Z.mod_pos_bound (4 * n) (2 ^ 64) ltac:(lia)). lia.
  - unfold u64. rewrite Z.mod_small by lia. lia.
  - rewrite Ht. cbn [obind]. rewrite Z.ltb_irrefl. by exists t.
Qed.

Lemma getString_texts t ss i o : texts t = loaded_texts ss -> plain_ok ss -> ss !! i = Some o ->
  StringTable.getString (None :: t) (1 + Z.of_nat i) = Ret (Some (default [] o)).
Proof.
  intros Ht Hok Hi.
  assert (Hti : texts t !! i = Some (Some (ScStr.allocate (default [] o)))).
  { rewrite Ht. unfold loaded_texts. by rewrite list_lookup_fmap, Hi. }
  unfold texts in Hti. rewrite list_lookup_fmap in Hti.
  destruct (t !! i) as [[s|]|] eqn:E; [|done|done]. cbn in Hti. injection Hti as Hs.
  assert (Hlt := lookup_lt_Some _ _ _ E).
  unfold StringTable.getString. rewrite (proj2 (Z.ltb_lt _ _)) by (rewrite zlen_cons; unfold zlen; lia).
  rewrite (vget_Some _ _ (Some s)); [|lia|by replace (Z.to_nat (1 + Z.of_nat i)) with (S i) by lia].
  cbn. unfold ScStr.toString. rewrite Hs.
  apply (proj1 (Forall_lookup _ _) Hok) in Hi.
  rewrite allocate_plain by done. by rewrite cstr_plain.
Qed.

Lemma plain_storable ss : Forall storable (plain ss).
Proof.
  apply Forall_fmap, Forall_forall. intros [s|] _; [|done]. cbn. eexists. by vm_compute.
Qed.

(** KSTR round trip. Two or more editor strings without NUL characters that fit
    into a section are written, by the code that saves a scenario, without an
    exception, and read back under the same ids; an id without a string reads
    back as the empty string. *)
Theorem kstr_roundtrip (s t : KstrSection) (s0 : option ScStr.ScStr) (ss : list (option bytes)) (rest : bytes)
    (Hs : strings s = s0 :: plain ss) (Hok : plain_ok ss) (Hn : 2 <= zlen ss)
    (Hsz : kstr_size (plain ss) <= s32_max) :
  exists out t',
    write true s = Ret (setBytes s out, out) /\ zlen out = kstr_size (plain ss) /\
    read (zlen out) (mkIstream (out ++ rest) true) t = Ret (t', zlen out, mkIstream rest true) /\
    version t' = CurrentVersion /\ getCapacity t' = 1 + zlen ss /\
    forall i o, ss !! i = Some o -> getString t' (1 + Z.of_nat i) = Ret (Some (default [] o)).
Proof.
  destruct (kstr_written s0 (plain ss)) as (props & Hw & Hp);
    [by rewrite plain_zlen|done|apply plain_storable|]. rewrite plain_zlen in Hp.
  destruct (kstr_bytes_read t ss props Hok Hn Hsz Hp) as (tt & Hr & Htt).
  set (out := kstr_bytes (plain ss) props) in *.
  assert (Hlo : zlen out = kstr_size (plain ss)) by (apply kstr_bytes_zlen; by rewrite plain_zlen).
  assert (Hpos : 0 < zlen out).
  { rewrite Hlo. unfold kstr_size. rewrite plain_zlen. pose proof (zlen_nonneg (chars (plain ss))). lia. }
  exists out, (mkKstrSection (None :: tt) out 3). split_and!.
  - unfold write, syncStringsToBytes. by rewrite Hs, Hw.
  - done.
  - unfold read. rewrite (proj2 (Z.ltb_ge _ 0)), (proj2 (Z.gtb_lt _ 0)) by lia.
    rewrite istream_read_app. unfold store. rewrite length_replicate.
    rewrite (proj2 (Nat.leb_le _ _)) by (unfold zlen; lia).
    rewrite drop_ge, app_nil_r by (rewrite length_replicate; unfold zlen; lia). cbn [obind].
    by rewrite Hr.
  - done.
  - unfold getCapacity. cbn [strings]. rewrite zlen_cons. f_equal.
    apply (f_equal length) in Htt. unfold texts, loaded_texts in Htt.
    rewrite !length_fmap in Htt. unfold zlen. lia.
  - intros i o Hi. by apply (getString_texts tt ss).
Qed.

Lemma kstr_roundtrip_witness :
  exists out t',
    write true (mkKstrSection [None; Some (ScStr.new [72; 105]); None] [] 3) =
      Ret (mkKstrSection [None; Some (ScStr.new [72; 105]); None] out 3, out) /\
    read 28 (mkIstream (out ++ [7]) true) GetDefault = Ret (t', 28, mkIstream [7] true) /\
    getString t' 1 = Ret (Some [72; 105]) /\ getString t' 2 = Ret (Some []).
Proof.
  destruct (kstr_roundtrip (mkKstrSection [None; Some (ScStr.new [72; 105]); None] [] 3) GetDefault
    None [Some [72; 105]; None] [7] eq_refl) as (out & t' & Hw & Hz & Hr & _ & _ & Hg).
  - repeat constructor; apply (bool_decide_eq_true_1 _); reflexivity.
  - by vm_compute.
  - by vm_compute.
  - change (kstr_size (plain [Some [72; 105]; None])) with 28 in Hz.
    exists out, t'. rewrite Hz in Hr. split; [exact Hw|]. split; [exact Hr|].
    split; [exact (Hg 0%nat _ eq_refl) | exact (Hg 1%nat _ eq_refl)].
Defined.

(** The word of the properties of string [i] of [n] is put at [8 + 2n + 4i]
    where there is room for [8 + 8n] bytes and a NUL: with one string it does
    not fit, so that saving a scenario with one editor string writes outside
    of the vector. *)
Theorem kstr_single_overruns (s : KstrSection) (s0 : option ScStr.ScStr) (str : ScStr.ScStr) (sync : bool)
    (Hs : strings s = [s0; Some str]) (Hp : is_ret (propertiesWord (ScStr.strProp str)))
    (Hl : 17 + ScStr.length str <= s32_max) :
  write sync s = Undef.
Proof.
  destruct Hp as [w Hw].
  assert (H : forall pos, layOut pos [s0; Some str] = Undef).
  { intros pos. unfold layOut. change (StrSection.numStringsOf [s0; Some str]) with 1.
    change (1 >? (s32_max - 2 * 4) / 4) with false. unfold StrSection.totalLength.
    rewrite (total_length _ _ _ [Some str]) by (done || lia). cbn [obind].
    change (lengths [Some str]) with (ScStr.length str + 0).
    destruct (Z.gtb_spec (2 * 4 + 2 * 4 * 1 + 1 + (ScStr.length str + 0)) s32_max); [lia|].
    change (write_word 4 (replicate (Z.to_nat (2 * 4 + 2 * 4 * 1)) 0) 0 CurrentVersion)
      with (Ret (le_enc 4 3 ++ replicate 12 0)). cbn [obind].
    change (write_word 4 (le_enc 4 3 ++ replicate 12 0) 4 (u32 1))
      with (Ret (le_enc 4 3 ++ le_enc 4 1 ++ replicate 8 0)). cbn [obind].
    change (range 1 (1 + 1)) with [1]. cbn [for_each]. unfold layString at 1.
    change (vget [s0; Some str] 1) with (Ret (Some str)). cbn [obind]. by rewrite Hw. }
  unfold write, syncStringsToBytes, syncKstringsToBytes, ownStringsToBytes. rewrite Hs, !H. by destruct sync.
Qed.

Lemma kstr_single_overruns_witness :
  write true (mkKstrSection [None; Some (ScStr.new [72; 105])] [] 3) = Undef.
Proof.
  apply (kstr_single_overruns _ None (ScStr.new [72; 105])); [done| |by vm_compute].
  eexists. by vm_compute.
Defined.

(** The properties of a string are read from the word after its offset's array,
    which is where those of another string, or of none, were written. *)
Definition red_string (c : Z) : ScStr.ScStr :=
  ScStr.newWith [65] (StrProp.mkStrProp c 0 0 false false false false false 8).

Lemma kstr_properties_misplaced :
  (let* (_, out) := write true (mkKstrSection [None; Some (red_string 1); Some (red_string 2);
      Some (red_string 3); Some (red_string 4)] [] 3) in
   let* (t, _, _) := read (zlen out) (mkIstream out true) GetDefault in
   Ret ((fun s => StrProp.red (ScStr.strProp s)) <$> omap id (strings t))) = Ret [2; 3; 4; 0].
Proof. by vm_compute. Qed.

(** Without a synchronizer the offset of a missing string is written one word
    early: in the place of the number of strings. *)
Lemma kstr_own_null :
  ownStringsToBytes [None; None; None] = Ret (le_enc 4 3 ++ le_enc 4 24 ++ le_enc 4 24 ++ replicate 13 0).
Proof. by vm_compute. Qed.
