(* ===== verification/Ktgp.v ===== *)
(** KTGP (Sections.cpp): the groups of triggers of the editor.  What is written
    is neither as long as the section says nor what is read: the headers are
    missing. *)
From S2P Require Import Prelude Codec ChkTypes ChkSection Accessors StringUsers Triggers StringTable StrSection.
Open Scope Z_scope.

Module KtgpSection.
Record TriggerGroup := mkTriggerGroup {
  groupExpanded : bool;
  groupHidden : bool;
  templateInstanceId : Z;
  commentStringId : Z;
  notesStringId : Z;
  parentGroupId : Z;
  extendedTrigDataIndexes : list Z;
  groupIndexes : list Z
}.
Abbreviation t := (list TriggerGroup).

(** [sizeof(TriggerGroupHeader)]: eight words. *)
Definition headerSize : Z := 32.
Definition Flag_groupExpanded : Z := 2 ^ 27.
Definition Flag_groupHidden : Z := 2 ^ 28.

Definition GetDefault : t := [].
Definition empty (l : t) : bool := match l with [] => true | _ => false end.

Definition bodyWords (g : TriggerGroup) : Z :=
  zlen (extendedTrigDataIndexes g) + zlen (groupIndexes g).

Definition getSize (l : t) : Z :=
  fold_left (fun totalSize g => s32 (totalSize + s32 (4 * bodyWords g))) l
    (s32 (zlen l * headerSize)).

(** [groupBytes] filled up with zeros to [n] bytes. *)
Definition padTo (n : Z) (bs : bytes) : bytes := bs ++ replicate (Z.to_nat (n - zlen bs)) 0.

(** The [k]-th word of the header at [headerStart]. *)
Definition headerWord (bs : bytes) (headerStart k : Z) : outcome Z := read_word 4 bs (headerStart + 4 * k).

Definition readWords (bs : bytes) (start lo hi : Z) : outcome (list Z) :=
  for_each (fun i l => let* w := read_word 4 bs (start + 4 * i) in Ret (l ++ [w])) (range lo hi) [].

(** One group.  [header] refers into the vector: when the body makes the vector
    grow, the later uses of [header] are of a reference that is gone. *)
Definition readGroup (i : Z) (st : bytes * t) : outcome (bytes * t) :=
  let '(bs, groups) := st in
  let headerStart := 8 + i * headerSize in
  let bs := padTo (headerStart + headerSize) bs in
  let* flags := headerWord bs headerStart 0 in
  let* templateInstanceId := headerWord bs headerStart 1 in
  let* numTriggers := headerWord bs headerStart 2 in
  let* numGroups := headerWord bs headerStart 3 in
  let* commentStringId := headerWord bs headerStart 4 in
  let* notesStringId := headerWord bs headerStart 5 in
  let* parentGroupId := headerWord bs headerStart 6 in
  let* bodyOffset := headerWord bs headerStart 7 in
  let* (trigs, groupIds) :=
    if (numTriggers >? 0) && (numGroups >? 0) && (bodyOffset >? 0) then
      let sizeRequired := bodyOffset + u32 (4 * numTriggers) + u32 (4 * numGroups) in
      if zlen bs <? sizeRequired then Undef else
      let* trigs := readWords bs bodyOffset 0 numTriggers in
      let* groupIds := readWords bs bodyOffset numTriggers (numTriggers + numGroups) in
      Ret (trigs, groupIds)
    else Ret ([], []) in
  Ret (bs, groups ++ [mkTriggerGroup (has_flag flags Flag_groupExpanded) (has_flag flags Flag_groupHidden)
    templateInstanceId commentStringId notesStringId parentGroupId trigs groupIds]).

Definition read (sizeInBytes : Z) (ist : istream) (l : t) : outcome (t * Z * istream) :=
  if sizeInBytes <? 0 then Throw NegativeSectionSize
  else if sizeInBytes >? 0 then
    let '(got, ist') := istream_read ist sizeInBytes in
    let* bs := store (replicate (Z.to_nat sizeInBytes) 0) got in
    let bs := padTo 4 bs in
    let* version := read_word 4 bs 0 in
    if negb (version =? 1) then Throw SectionValidationException else
    let bs := padTo 8 bs in
    let* numGroups := read_word 4 bs 4 in
    let* (_, l) := for_each readGroup (range 0 numGroups) (bs, l) in
    Ret (l, zlen got, ist')
  else Ret (l, 0, ist).

(** The headers are computed, and never appended to the vector that is written. *)
Definition write (l : t) : bytes :=
  let version := 1 in
  let numGroups := u32 (zlen l) in
  let headers : list Z := [] in
  let bodyData := concat ((fun g => extendedTrigDataIndexes g ++ groupIndexes g) <$> take (Z.to_nat numGroups) l) in
  le_enc 4 version ++ le_enc 4 numGroups ++ concat (le_enc 4 <$> headers) ++ concat (le_enc 4 <$> bodyData).
End KtgpSection.
Import KtgpSection.

Fixpoint bodyTotal (l : t) : Z :=
  match l with [] => 0 | g :: l => bodyWords g + bodyTotal l end.

Lemma le_words_zlen (ws : list Z) : zlen (concat (le_enc 4 <$> ws)) = 4 * zlen ws.
Proof.
  induction ws as [|w ws IH]; [done|]. change (concat (le_enc 4 <$> (w :: ws))) with
    (le_enc 4 w ++ concat (le_enc 4 <$> ws)).
  rewrite zlen_app, IH, zlen_cons. unfold zlen at 1. rewrite le_enc_length. lia.
Qed.

Lemma bodies_zlen l :
  zlen (concat ((fun g => extendedTrigDataIndexes g ++ groupIndexes g) <$> l)) = bodyTotal l.
Proof.
  induction l as [|g l IH]; [done|]. cbn [fmap list_fmap concat bodyTotal].
  rewrite !zlen_app, IH. unfold bodyWords. done.
Qed.

Lemma bodyTotal_nonneg l : 0 <= bodyTotal l.
Proof.
  induction l as [|g l IH]; cbn [bodyTotal]; [done|]. unfold bodyWords.
  pose proof (zlen_nonneg (extendedTrigDataIndexes g)). pose proof (zlen_nonneg (groupIndexes g)). lia.
Qed.

Lemma getSize_fold l acc : 0 <= acc -> acc + 4 * bodyTotal l < 2 ^ 31 ->
  fold_left (fun totalSize g => s32 (totalSize + s32 (4 * bodyWords g))) l acc = acc + 4 * bodyTotal l.
Proof.
  revert acc. induction l as [|g l IH]; intros acc Ha Hb; [cbn; lia|].
  cbn [fold_left bodyTotal] in *.
  pose proof (bodyTotal_nonneg l).
  assert (0 <= bodyWords g) by (unfold bodyWords; pose proof (zlen_nonneg (extendedTrigDataIndexes g));
    pose proof (zlen_nonneg (groupIndexes g)); lia).
  rewrite (s32_id (4 * bodyWords g)) by lia. rewrite s32_id by lia. rewrite IH by lia. lia.
Qed.

(** The size announced for a KTGP section is never the number of bytes written:
    it counts 32 bytes of header per group, which are not written, and not the
    eight bytes at the start, which are. *)
Theorem ktgp_size_wrong (l : t) (Hl : 32 * zlen l + 4 * bodyTotal l < 2 ^ 31) :
  getSize l = 32 * zlen l + 4 * bodyTotal l /\
  zlen (write l) = 8 + 4 * bodyTotal l /\ getSize l <> zlen (write l).
Proof.
  pose proof (bodyTotal_nonneg l). pose proof (zlen_nonneg l).
  assert (Hg : getSize l = 32 * zlen l + 4 * bodyTotal l).
  { unfold getSize, headerSize. rewrite s32_id by lia. rewrite getSize_fold by lia. lia. }
  assert (Hw : zlen (write l) = 8 + 4 * bodyTotal l).
  { unfold write. rewrite u32_id by (unfold is_u; lia). unfold zlen at 3. rewrite Nat2Z.id, take_ge by done.
    rewrite !zlen_app, !le_words_zlen, bodies_zlen. change (zlen []) with 0.
    unfold zlen at 1 2. rewrite !le_enc_length. lia. }
  split; [done|]. split; [done|]. lia.
Qed.

Lemma ktgp_size_wrong_witness :
  let l := [mkTriggerGroup true false 0 0 0 0 [5; 6] [1]] in
  getSize l = 44 /\ zlen (write l) = 20 /\ getSize l <> zlen (write l).
Proof. apply (ktgp_size_wrong [mkTriggerGroup true false 0 0 0 0 [5; 6] [1]]). by vm_compute. Defined.
