(* ===== verification/ScenarioFile.v ===== *)
(** The scenario file (Scenario.cpp, and [allocate], [ChkSection::read] and
    [ChkSection::writeWithHeader] of Sections.cpp): which section a chunk is
    read into, the loop over the chunks with jumps and protection, the choice
    between several sections of one name, saving, and the password in the tail
    of the file.

    Sections are shared: the list of all sections and the multimap of parsed
    sections hold pointers, so that a section that is extended by a later chunk
    is in the list twice.  [heap] has the objects, a pointer is an index. *)
From S2P Require Import Prelude Codec ChkTypes ChkSection Accessors StringUsers Terrain Objects Locations Triggers StringTable StrSection Ktrg Kstr Ktgp Sha256.
Open Scope Z_scope.

(** ** Sections of any kind *)

(** The data of a section object by its class; a [StructSection] keeps raw bytes
    and the size of its structure. *)
Inductive contents :=
  | CStruct (size : nat) (s : StructSection)
  | CMtxm (tiles : list Z)
  | CTile (tiles : list Z)
  | CMask (fogTiles : list Z)
  | CIsom (isomEntries : list IsomEntry.IsomEntry)
  | CUnit (units : list Unit.Unit)
  | CDd2 (doodads : list Doodad.Doodad)
  | CThg2 (sprites : list Sprite.Sprite)
  | CMrgn (locations : MrgnSection.t)
  | CTrig (triggers : TrigSection.t)
  | CMbrf (briefingTriggers : MbrfSection.t)
  | CStr (s : StrSection.StrSection)
  | CKstr (s : KstrSection.KstrSection)
  | CKtrg (extendedTrigData : KtrgSection.t)
  | CKtgp (triggerGroups : KtgpSection.t)
  | CData (data : bytes).

Record section := mkSection { getName : Z; data : contents }.

(** The structure sections: size of the structure, virtualizable. *)
Definition structSections : list (Z * (nat * bool)) :=
  [(SectionName.TYPE, (csize TYPE.layout, true)); (SectionName.VER, (csize VER.layout, false));
   (SectionName.IVER, (csize IVER.layout, true)); (SectionName.IVE2, (csize IVE2.layout, true));
   (SectionName.VCOD, (csize VCOD.layout, false)); (SectionName.IOWN, (csize IOWN.layout, true));
   (SectionName.OWNR, (csize OWNR.layout, false)); (SectionName.ERA, (csize ERA.layout, false));
   (SectionName.DIM, (csize DIM.layout, false)); (SectionName.SIDE, (csize SIDE.layout, false));
   (SectionName.PUNI, (csize PUNI.layout, false)); (SectionName.UPGR, (csize UPGR.layout, false));
   (SectionName.PTEC, (csize PTEC.layout, false)); (SectionName.UPRP, (csize UPRP.layout, false));
   (SectionName.UPUS, (csize UPUS.layout, true)); (SectionName.SPRP, (csize SPRP.layout, false));
   (SectionName.FORC, (csize FORC.layout, false)); (SectionName.WAV, (csize WAV.layout, true));
   (SectionName.UNIS, (csize UNIS.layout, false)); (SectionName.UPGS, (csize UPGS.layout, false));
   (SectionName.TECS, (csize TECS.layout, false)); (SectionName.SWNM, (csize SWNM.layout, true));
   (SectionName.COLR, (csize COLR.layout, false)); (SectionName.PUPx, (csize PUPx.layout, false));
   (SectionName.PTEx, (csize PTEx.layout, false)); (SectionName.UNIx, (csize UNIx.layout, false));
   (SectionName.UPGx, (csize UPGx.layout, false)); (SectionName.TECx, (csize TECx.layout, false));
   (SectionName.OSTR, (csize OSTR.layout, true))].

Definition dynamicSections : list (Z * contents) :=
  [(SectionName.MTXM, CMtxm []); (SectionName.UNIT, CUnit []); (SectionName.ISOM, CIsom []);
   (SectionName.TILE, CTile []); (SectionName.DD2, CDd2 []); (SectionName.THG2, CThg2 []);
   (SectionName.MASK, CMask []); (SectionName.STR, CStr (StrSection.mkStrSection [] [] 4 0 []));
   (SectionName.MRGN, CMrgn []); (SectionName.TRIG, CTrig []); (SectionName.MBRF, CMbrf []);
   (SectionName.KSTR, CKstr KstrSection.GetDefault); (SectionName.KTRG, CKtrg []);
   (SectionName.KTGP, CKtgp [])].

(** The raw bytes of a structure: what the generic code of [StructSection] knows
    of it. *)
Definition raw_codec (n : nat) : codec bytes :=
  Codec n (fun bs => length bs = n /\ is_bytes bs) (fun bs => bs) (take n).

Section file.
(** The capacity vectors grow to, as in [StructSection]. *)
Context (grow : Z -> Z -> Z).

(** [allocate(sectionName)] *)
Definition allocate (sectionName : Z) : section :=
  mkSection sectionName
    (match table_find structSections sectionName with
     | Some (size, virt) => CStruct size (newStructSection (raw_codec size) grow sectionName virt)
     | None =>
         match table_find dynamicSections sectionName with
         | Some c => c
         | None => CData []
         end
     end).

(** The virtual [read], [getSize] and [write] of a section. *)
Definition rewrap {A} (f : A -> contents) (o : outcome (A * Z * istream)) : outcome (contents * Z * istream) :=
  let* (a, sizeRead, ist) := o in Ret (f a, sizeRead, ist).

Definition read_contents (sizeInBytes : Z) (ist : istream) (overrideOrAppend : bool) (c : contents)
    : outcome (contents * Z * istream) :=
  match c with
  | CStruct size s => rewrap (CStruct size) (readStruct (raw_codec size) grow sizeInBytes ist s)
  | CMtxm tiles => rewrap CMtxm (MtxmSection.read sizeInBytes ist overrideOrAppend tiles)
  | CTile tiles => rewrap CTile (TileSection.read sizeInBytes ist overrideOrAppend tiles)
  | CMask tiles => rewrap CMask (MaskSection.read sizeInBytes ist overrideOrAppend tiles)
  | CIsom entries => rewrap CIsom (IsomSection.read sizeInBytes ist entries)
  | CUnit units => rewrap CUnit (UnitSection.read sizeInBytes ist overrideOrAppend units)
  | CDd2 doodads => rewrap CDd2 (Dd2Section.read sizeInBytes ist overrideOrAppend doodads)
  | CThg2 sprites => rewrap CThg2 (Thg2Section.read sizeInBytes ist overrideOrAppend sprites)
  | CMrgn locations => rewrap CMrgn (MrgnSection.read sizeInBytes ist overrideOrAppend locations)
  | CTrig triggers => rewrap CTrig (TrigSection.read sizeInBytes ist overrideOrAppend triggers)
  | CMbrf triggers => rewrap CMbrf (MbrfSection.read sizeInBytes ist overrideOrAppend triggers)
  | CStr s => rewrap CStr (StrSection.read sizeInBytes ist overrideOrAppend s)
  | CKstr s => rewrap CKstr (KstrSection.read sizeInBytes ist s)
  | CKtrg l => rewrap CKtrg (KtrgSection.read sizeInBytes ist l)
  | CKtgp l => rewrap CKtgp (KtgpSection.read sizeInBytes ist l)
  | CData d => rewrap CData (DataSection.read sizeInBytes ist)
  end.

(** [getSize(scenarioSaver)] and [write(os, scenarioSaver)] with the scenario as
    the saver, whose synchronizer lays out STR as the section itself does; the
    strings sections keep the bytes. *)
Definition size_contents (c : contents) : outcome (contents * Z) :=
  match c with
  | CStruct _ s => Ret (c, ChkSection.getSize s)
  | CMtxm tiles => Ret (c, MtxmSection.getSize tiles)
  | CTile tiles => Ret (c, TileSection.getSize tiles)
  | CMask tiles => Ret (c, MaskSection.getSize tiles)
  | CIsom entries => Ret (c, IsomSection.getSize entries)
  | CUnit units => Ret (c, UnitSection.getSize units)
  | CDd2 doodads => Ret (c, Dd2Section.getSize doodads)
  | CThg2 sprites => Ret (c, Thg2Section.getSize sprites)
  | CMrgn locations => Ret (c, MrgnSection.getSize locations)
  | CTrig triggers => Ret (c, TrigSection.getSize triggers)
  | CMbrf triggers => Ret (c, MbrfSection.getSize triggers)
  | CStr s => let* (s, n) := StrSection.getSize (Σ := unit) None s in Ret (CStr s, n)
  | CKstr s => let* (s, n) := KstrSection.getSize true s in Ret (CKstr s, n)
  | CKtrg l => Ret (c, KtrgSection.getSize l)
  | CKtgp l => Ret (c, KtgpSection.getSize l)
  | CData d => Ret (c, DataSection.getSize d)
  end.

Definition write_contents (c : contents) : outcome (contents * bytes) :=
  match c with
  | CStruct _ s => let* bs := writeStruct s in Ret (c, bs)
  | CMtxm tiles => Ret (c, MtxmSection.write tiles)
  | CTile tiles => Ret (c, TileSection.write tiles)
  | CMask tiles => Ret (c, MaskSection.write tiles)
  | CIsom entries => Ret (c, IsomSection.write entries)
  | CUnit units => Ret (c, UnitSection.write units)
  | CDd2 doodads => Ret (c, Dd2Section.write doodads)
  | CThg2 sprites => Ret (c, Thg2Section.write sprites)
  | CMrgn locations => let* bs := MrgnSection.write locations in Ret (c, bs)
  | CTrig triggers => Ret (c, TrigSection.write triggers)
  | CMbrf triggers => Ret (c, MbrfSection.write triggers)
  | CStr s => let* (s, bs) := StrSection.write (Σ := unit) None s in Ret (CStr s, bs)
  | CKstr s => let* (s, bs) := KstrSection.write true s in Ret (CKstr s, bs)
  | CKtrg l => Ret (c, KtrgSection.write l)
  | CKtgp l => Ret (c, KtgpSection.write l)
  | CData d => Ret (c, DataSection.write d)
  end.

(** [writeWithHeader(os, scenarioSaver)]: the section and the bytes. *)
Definition writeWithHeader (s : section) : outcome (section * bytes) :=
  let* (c, size) := size_contents (data s) in
  let* (c, bs) := write_contents c in
  Ret (mkSection (getName s) c, le_enc 4 (getName s) ++ le_enc 4 (u32 size) ++ bs).

(** ** Reading the file *)

(** The parser: the objects, the multimap of parsed sections in the order of
    insertion, and the members of [Scenario]. *)
Record parser := mkParser {
  heap : list section;
  parsedSections : list (Z * nat);
  allSections : list nat;
  tailData : list Z;
  tailLength : Z;
  mapIsProtected : bool;
  jumpCompress : bool
}.

(** The state [clear()] leaves. *)
Definition cleared : parser := mkParser [] [] [] (replicate 7 0) 0 false false.

(** [parsedSections.equal_range(sectionName)] *)
Definition instances (p : parser) (sectionName : Z) : list nat :=
  snd <$> filter (fun e => e.1 = sectionName) (parsedSections p).

(** [ChkSection::read(parsedSections, sectionHeader, is, sizeRead)]: the objects,
    the pointer, the size read and the stream. *)
Definition read_section (p : parser) (sectionName sizeInBytes : Z) (ist : istream)
    : outcome (list section * nat * Z * istream) :=
  if sizeInBytes <? 0 then Throw NegativeSectionSize else
  let found :=
    match getLoadBehavior sectionName with
    | Standard => None
    | Override | Append => head (instances p sectionName)
    end in
  match found with
  | Some ptr =>
      match heap p !! ptr with
      | Some s =>
          let* (c, sizeRead, ist) := read_contents sizeInBytes ist true (data s) in
          Ret (<[ptr := mkSection (getName s) c]> (heap p), ptr, sizeRead, ist)
      | None => Undef
      end
  | None =>
      let s := allocate sectionName in
      let* (c, sizeRead, ist) := read_contents sizeInBytes ist false (data s) in
      Ret (heap p ++ [mkSection (getName s) c], length (heap p), sizeRead, ist)
  end.

(** What a round of the loop leads to. *)
Inductive round :=
  | Continue (pos : Z) (p : parser)
  | Finished (p : parser)
  | ParsingFailed.

(** A round of [do ... while ( chk.good() )] with the stream at [pos].  A stream
    that is not good any more has reached the end of the file. *)
Definition parse_round (chk : bytes) (pos : Z) (p : parser) : outcome round :=
  let '(header, ist) := istream_read (mkIstream (drop (Z.to_nat pos) chk) true) 8 in
  let headerBytesRead := zlen header in
  if headerBytesRead =? 0 then Ret (Finished p)
  else if headerBytesRead =? 8 then
    let name := le_dec 4 header in
    let sizeInBytes := s32 (le_dec 4 (drop 4 header)) in
    if sizeInBytes >=? 0 then
      match read_section p name sizeInBytes ist with
      | Ret (heap, ptr, sizeRead, ist) =>
          let p := mkParser heap (parsedSections p ++ [(name, ptr)]) (allSections p ++ [ptr])
            (tailData p) (tailLength p)
            (if negb (s32 sizeRead =? sizeInBytes) then true else mapIsProtected p) (jumpCompress p) in
          Ret (if igood ist then Continue (zlen chk - zlen (ibytes ist)) p else Finished p)
      | Throw _ => Ret ParsingFailed
      | Undef => Undef
      end
    else
      let pos := pos + 8 + sizeInBytes in
      if pos <? 0 then Ret ParsingFailed
      else Ret (Continue pos (mkParser (heap p) (parsedSections p) (allSections p) (tailData p)
                  (tailLength p) (mapIsProtected p) true))
  else
    Ret (Finished (mkParser (heap p) (parsedSections p) (allSections p)
      (header ++ replicate (7 - length header) 0) headerBytesRead true (jumpCompress p))).

(** The loop; [None] when it is still running after [fuel] rounds. *)
Fixpoint parse (fuel : nat) (chk : bytes) (pos : Z) (p : parser) : outcome (option round) :=
  match fuel with
  | O => Ret None
  | S fuel =>
      let* r := parse_round chk pos p in
      match r with
      | Continue pos p => parse fuel chk pos p
      | r => Ret (Some r)
      end
  end.

(** [parsedSections.lower_bound(sectionName)], the start of [equal_range]: the
    first entry of the least name that is not below [sectionName]. *)
Fixpoint lower_bound (entries : list (Z * nat)) (sectionName : Z) : option (Z * nat) :=
  match entries with
  | [] => None
  | (name, ptr) :: entries =>
      let later := lower_bound entries sectionName in
      if name <? sectionName then later
      else match later with
           | Some (name', ptr') => Some (if name' <? name then (name', ptr') else (name, ptr))
           | None => Some (name, ptr)
           end
  end.

(** The entry of [finalSections]: the last instance, or what the range starts
    with, which for an empty range is a section of another name. *)
Definition finalSections (p : parser) (sectionName : Z) : option nat :=
  match lower_bound (parsedSections p) sectionName with
  | None => None
  | Some (_, first) =>
      match getLoadBehavior sectionName with
      | Standard => last (instances p sectionName)
      | Override | Append => Some first
      end
  end.

Definition named (objects : list section) (sectionName : Z) (ptr : nat) : bool :=
  match objects !! ptr with Some s => getName s =? sectionName | None => false end.

(** [GetSection<SectionType>(finalSections, sectionName)]: the class of a section
    is that of its name, so that the dynamic cast is a test of the name. *)
Definition GetSection (p : parser) (sectionName : Z) : option nat :=
  match finalSections p sectionName with
  | Some ptr => if named (heap p) sectionName ptr then Some ptr else None
  | None => None
  end.

(** [read(is)] up to the sections that are used.  Missing sections other than
    VER get defaults, which are not in the list of all sections. *)
Inductive file_result := Loaded (p : parser) | LoadFailed.

Definition read_file (fuel : nat) (chk : bytes) : outcome (option file_result) :=
  let* r := parse fuel chk 0 cleared in
  Ret (match r with
       | None => None
       | Some (Finished p) | Some (Continue _ p) =>
           Some (match GetSection p SectionName.VER with Some _ => Loaded p | None => LoadFailed end)
       | Some ParsingFailed => Some LoadFailed
       end).

(** ** Saving *)

(** [write(os)]: the objects, the bytes, and whether no exception was thrown. *)
Fixpoint write_sections (ptrs : list nat) (objects : list section) : outcome (list section * bytes * bool) :=
  match ptrs with
  | [] => Ret (objects, [], true)
  | ptr :: ptrs =>
      match objects !! ptr with
      | None => Undef
      | Some s =>
          match writeWithHeader s with
          | Ret (s, bs) =>
              let* (objects, rest, ok) := write_sections ptrs (<[ptr := s]> objects) in
              Ret (objects, bs ++ rest, ok)
          | Throw _ => Ret (objects, [], false)
          | Undef => Undef
          end
      end
  end.

Definition write_file (p : parser) : outcome (list section * bytes * bool) :=
  write_sections (allSections p) (heap p).

(** [serialize()]: the bytes with the header of the file in front.  After a
    failed write nothing is read back from the stream, and the size is stored
    in an empty vector. *)
Definition CHK : Z := 541804611.
Definition serialize (p : parser) : outcome bytes :=
  let* (_, bs, ok) := write_file p in
  if ok then Ret (le_enc 4 CHK ++ le_enc 8 (zlen bs) ++ bs) else Undef.

(** ** The list of sections *)

Definition addSection (ptr : option nat) (p : parser) : parser :=
  match ptr with
  | Some ptr =>
      if bool_decide (ptr ∈ allSections p) then p
      else mkParser (heap p) (parsedSections p) (allSections p ++ [ptr]) (tailData p) (tailLength p)
             (mapIsProtected p) (jumpCompress p)
  | None => p
  end.

(** The first section of the name is erased until there is none left. *)
Fixpoint remove_first (objects : list section) (sectionName : Z) (l : list nat) : option (list nat) :=
  match l with
  | [] => None
  | ptr :: l => if named objects sectionName ptr then Some l else cons ptr <$> remove_first objects sectionName l
  end.
Fixpoint remove_loop (fuel : nat) (objects : list section) (sectionName : Z) (l : list nat) : option (list nat) :=
  match remove_first objects sectionName l with
  | None => Some l
  | Some l' => match fuel with O => None | S fuel => remove_loop fuel objects sectionName l' end
  end.
Definition removeSection (sectionName : Z) (p : parser) : option parser :=
  (fun l => mkParser (heap p) (parsedSections p) l (tailData p) (tailLength p)
     (mapIsProtected p) (jumpCompress p)) <$>
  remove_loop (length (allSections p)) (heap p) sectionName (allSections p).
End file.

(** ** The password *)

(** [std::stoull(str, nullptr, 16)] of digits: what precedes the first character
    that is no digit. *)
Definition hex_char (c : Z) : option Z :=
  if (48 <=? c) && (c <=? 57) then Some (c - 48)
  else if (97 <=? c) && (c <=? 102) then Some (c - 87)
  else if (65 <=? c) && (c <=? 70) then Some (c - 55)
  else None.
Fixpoint stoull16 (v : Z) (str : bytes) : Z :=
  match str with
  | [] => v
  | c :: str => match hex_char c with Some d => stoull16 (v * 16 + d) str | None => v end
  end.

Section password.
(** What the arrays of the hash happen to hold. *)
Context (uninit buffer : list Z).

(** The bytes of [eightHashBytes]: [stoull(sha256(password).substr(0, 8), nullptr, 16)]. *)
Definition hashBytes (password : bytes) : outcome bytes :=
  let* (hashStr, _) := hash_data uninit password (mkSHA256 0 0 buffer []) in
  Ret (le_enc 8 (stoull16 0 (take 8 hashStr))).

Definition hasPassword (p : parser) : bool := tailLength p =? 7.

Definition isPassword (password : bytes) (p : parser) : outcome bool :=
  if hasPassword p then
    let* hash := hashBytes password in
    let* differs := any_such (fun i =>
      let* a := vget (tailData p) i in let* b := vget hash i in Ret (negb (a =? b)))
      (range 0 (tailLength p)) in
    Ret (negb differs)
  else Ret false.

Definition with_tail (tail : list Z) (n : Z) (p : parser) : parser :=
  mkParser (heap p) (parsedSections p) (allSections p) tail n (mapIsProtected p) (jumpCompress p).

Definition setPassword (oldPass newPass : bytes) (p : parser) : outcome (parser * bool) :=
  let* ok := isPassword oldPass p in
  if ok then
    if bool_decide (newPass = []) then
      let* tail := for_each (fun i tail => vset tail i 0) (range 0 (tailLength p)) (tailData p) in
      Ret (with_tail tail 0 p, true)
    else
      let* hash := hashBytes newPass in
      let* tail := for_each (fun i tail => let* b := vget hash i in vset tail i b) (range 0 7) (tailData p) in
      Ret (with_tail tail 7 p, true)
  else Ret (p, false).

Definition login (password : bytes) (p : parser) : outcome (parser * bool) :=
  let* ok := isPassword password p in
  Ret (if ok then (mkParser (heap p) (parsedSections p) (allSections p) (tailData p) (tailLength p) false
         (jumpCompress p), true)
       else (p, false)).
End password.
