(* ===== verification/ScenarioFileProps.v ===== *)
(** Properties of the scenario file: reading takes the chunks one after the
    other, which section is used in the end, where reading does not end, saving,
    and passwords. *)
From S2P Require Import Prelude Codec ChkTypes ChkSection Accessors StringUsers Terrain Objects Locations Triggers StringTable StrSection Ktrg Kstr Ktgp Sha256 ShaProps ScenarioFile.
Open Scope Z_scope.

(** ** Sections read what is theirs *)

(** What a section promises to the loop over the chunks: a read of the whole body
    of a chunk does not depend on what follows it and leaves the stream there. *)
Definition frames {A} (rd : Z -> istream -> outcome (A * Z * istream)) : Prop :=
  forall body rest,
    rd (zlen body) (mkIstream (body ++ rest) true) =
    let* (a, _, _) := rd (zlen body) (mkIstream body true) in Ret (a, zlen body, mkIstream rest true).

Lemma istream_read_whole body : istream_read (mkIstream body true) (zlen body) = (body, mkIstream [] true).
Proof. rewrite <- (app_nil_r body) at 1. apply istream_read_app. Qed.

(** An empty body is not read; otherwise there is one read of the stream. *)
Ltac frame :=
  let body := fresh "body" in let rest := fresh "rest" in
  intros body rest; cbn beta;
  pose proof (zlen_nonneg body);
  rewrite ?(proj2 (Z.ltb_ge (zlen body) 0)) by lia;
  destruct (Z.gtb_spec (zlen body) 0) as [Hpos|Hnil];
  [ rewrite ?istream_read_app, ?istream_read_whole;
    repeat (match goal with
            | |- context [obind ?o _] => lazymatch o with
                | obind _ _ => fail
                | Ret _ => fail
                | _ => destruct o
                end
            end; cbn [obind]; rewrite ?istream_read_app, ?istream_read_whole; cbn [obind])
  | assert (body = []) as -> by (destruct body; [done | unfold zlen in Hnil; simpl in Hnil; lia]) ];
  try reflexivity.

Lemma objects_frame {A} (c : codec A) append l :
  frames (fun n ist => read_objects c n ist append l).
Proof. unfold read_objects. destruct append; frame. Qed.

Lemma tiles_frame c clears overriding l :
  frames (fun n ist => read_tiles c clears n ist overriding l).
Proof. unfold read_tiles, fill_from. destruct clears; frame. Qed.

Lemma isom_frame l : frames (fun n ist => IsomSection.read n ist l).
Proof. unfold IsomSection.read. frame. Qed.

Lemma mrgn_frame append l : frames (fun n ist => MrgnSection.read n ist append l).
Proof. unfold MrgnSection.read. destruct append; frame. Qed.

Lemma kstr_frame s : frames (fun n ist => KstrSection.read n ist s).
Proof. unfold KstrSection.read. frame. Qed.

Lemma ktgp_frame l : frames (fun n ist => KtgpSection.read n ist l).
Proof.
  unfold KtgpSection.read. intros body rest.
  pose proof (zlen_nonneg body). rewrite (proj2 (Z.ltb_ge (zlen body) 0)) by lia.
  destruct (Z.gtb_spec (zlen body) 0) as [Hpos|Hnil].
  - rewrite istream_read_app, istream_read_whole. destruct (store _ _) as [bs| |]; [cbn [obind]|done..].
    destruct (read_word 4 (KtgpSection.padTo 4 bs) 0) as [v| |]; [cbn [obind]|done..].
    destruct (negb (v =? 1)); [done|].
    destruct (read_word 4 _ 4) as [n| |]; [cbn [obind]|done..].
    by destruct (for_each _ _ _) as [[? ?]| |].
  - assert (body = []) as -> by (destruct body; [done | unfold zlen in Hnil; simpl in Hnil; lia]). done.
Qed.

Lemma data_frame : frames (fun n ist => DataSection.read n ist).
Proof.
  unfold DataSection.read. intros body rest.
  pose proof (zlen_nonneg body). rewrite (proj2 (Z.ltb_ge (zlen body) 0)) by lia.
  destruct (Z.ltb_spec 0 (zlen body)) as [Hpos|Hnil].
  - rewrite istream_read_app, istream_read_whole. by destruct (store _ _).
  - assert (body = []) as -> by (destruct body; [done | unfold zlen in Hnil; simpl in Hnil; lia]). done.
Qed.

Lemma struct_frame {T} (c : codec T) grow s : frames (fun n ist => readStruct c grow n ist s).
Proof.
  unfold readStruct. intros body rest.
  pose proof (zlen_nonneg body). rewrite (proj2 (Z.ltb_ge (zlen body) 0)) by lia.
  rewrite istream_read_app, istream_read_whole. by destruct (store _ _).
Qed.

Lemma str_frame overriding s : frames (fun n ist => StrSection.read n ist overriding s).
Proof.
  unfold StrSection.read. destruct overriding; frame.
Qed.

Definition is_ktrg (c : contents) : bool := match c with CKtrg _ => true | _ => false end.

Lemma rewrap_frame {A} (rd : Z -> istream -> outcome (A * Z * istream)) (f : A -> contents) :
  frames rd -> frames (fun n ist => rewrap f (rd n ist)).
Proof.
  intros H body rest. rewrite H. unfold rewrap. by destruct (rd _ _) as [[[a n] ist]| |].
Qed.

(** Every section but KTRG, whose read asks for four bytes too many, frames. *)
Lemma contents_frame grow append c : is_ktrg c = false ->
  frames (fun n ist => read_contents grow n ist append c).
Proof.
  intros Hk body rest.
  destruct c; try discriminate; cbn [read_contents];
    match goal with |- rewrap ?f ?rd = _ => idtac end;
    first
    [ apply (rewrap_frame (fun n ist => readStruct _ _ n ist _) _ (struct_frame _ _ _))
    | apply (rewrap_frame (fun n ist => MtxmSection.read n ist _ _) _ (tiles_frame _ _ _ _))
    | apply (rewrap_frame (fun n ist => TileSection.read n ist _ _) _ (tiles_frame _ _ _ _))
    | apply (rewrap_frame (fun n ist => MaskSection.read n ist _ _) _ (tiles_frame _ _ _ _))
    | apply (rewrap_frame (fun n ist => IsomSection.read n ist _) _ (isom_frame _))
    | apply (rewrap_frame (fun n ist => UnitSection.read n ist _ _) _ (objects_frame _ _ _))
    | apply (rewrap_frame (fun n ist => Dd2Section.read n ist _ _) _ (objects_frame _ _ _))
    | apply (rewrap_frame (fun n ist => Thg2Section.read n ist _ _) _ (objects_frame _ _ _))
    | apply (rewrap_frame (fun n ist => MrgnSection.read n ist _ _) _ (mrgn_frame _ _))
    | apply (rewrap_frame (fun n ist => TrigSection.read n ist _ _) _ (objects_frame _ _ _))
    | apply (rewrap_frame (fun n ist => MbrfSection.read n ist _ _) _ (objects_frame _ _ _))
    | apply (rewrap_frame (fun n ist => StrSection.read n ist _ _) _ (str_frame _ _))
    | apply (rewrap_frame (fun n ist => KstrSection.read n ist _) _ (kstr_frame _))
    | apply (rewrap_frame (fun n ist => KtgpSection.read n ist _) _ (ktgp_frame _))
    | apply (rewrap_frame (fun n ist => DataSection.read n ist) _ data_frame) ].
Qed.

(** ** A file as a sequence of chunks *)

Abbreviation chunk := (Z * bytes)%type.

Definition chunk_ok (c : chunk) : Prop := is_u 32 c.1 /\ c.1 <> SectionName.KTRG /\ zlen c.2 < 2 ^ 31.
Definition chunk_bytes (c : chunk) : bytes := le_enc 4 c.1 ++ le_enc 4 (zlen c.2) ++ c.2.
Definition file_bytes (cs : list chunk) : bytes := concat (chunk_bytes <$> cs).

(** What a chunk does to the parser: its section is read from its body. *)
Definition load_chunk (grow : Z -> Z -> Z) (p : parser) (c : chunk) : outcome parser :=
  let* (objects, ptr, _, _) := read_section grow p c.1 (zlen c.2) (mkIstream c.2 true) in
  Ret (mkParser objects (parsedSections p ++ [(c.1, ptr)]) (allSections p ++ [ptr])
         (tailData p) (tailLength p) (mapIsProtected p) (jumpCompress p)).

Fixpoint load_chunks (grow : Z -> Z -> Z) (cs : list chunk) (p : parser) : outcome parser :=
  match cs with
  | [] => Ret p
  | c :: cs => let* p := load_chunk grow p c in load_chunks grow cs p
  end.

(** Up to seven bytes after the last chunk. *)
Definition with_file_tail (tail : bytes) (p : parser) : parser :=
  if decide (tail = []) then p
  else mkParser (heap p) (parsedSections p) (allSections p) (tail ++ replicate (7 - length tail) 0)
         (zlen tail) true (jumpCompress p).

Definition ktrg_free (p : parser) : Prop := Forall (fun s => is_ktrg (data s) = false) (heap p).

Section parsing.
Context (grow : Z -> Z -> Z).

Lemma read_kind n ist append c c' m ist' :
  read_contents grow n ist append c = Ret (c', m, ist') -> is_ktrg c' = is_ktrg c.
Proof.
  destruct c; cbn [read_contents]; unfold rewrap;
    match goal with |- obind ?o _ = _ -> _ => destruct o as [[[? ?] ?]| |] end;
    cbn [obind]; intros [= <- _ _]; reflexivity.
Qed.

Lemma table_find_elem {V} (t : list (Z * V)) k v : table_find t k = Some v -> (k, v) ∈ t.
Proof.
  induction t as [|[k' v'] t IH]; [done|]. cbn. destruct (Z.eqb_spec k' k) as [->|].
  - intros [= ->]. apply list_elem_of_here.
  - intros H. by apply list_elem_of_further, IH.
Qed.

Lemma allocate_kind name : name <> SectionName.KTRG -> is_ktrg (data (allocate grow name)) = false.
Proof.
  intros Hn. unfold allocate. cbn [data].
  destruct (table_find structSections name) as [[size virt]|]; [done|].
  destruct (table_find dynamicSections name) as [c|] eqn:E; [|done].
  apply table_find_elem in E. unfold dynamicSections in E.
  rewrite !elem_of_cons, elem_of_nil in E.
  repeat (destruct E as [E|E]; [injection E; intros; subst; done|]). done.
Qed.

Lemma read_section_frame p name body rest : ktrg_free p -> name <> SectionName.KTRG ->
  read_section grow p name (zlen body) (mkIstream (body ++ rest) true) =
  let* (objects, ptr, _, _) := read_section grow p name (zlen body) (mkIstream body true) in
  Ret (objects, ptr, zlen body, mkIstream rest true).
Proof.
  intros Hp Hn. unfold read_section. pose proof (zlen_nonneg body).
  rewrite (proj2 (Z.ltb_ge (zlen body) 0)) by lia.
  destruct (match getLoadBehavior name with Standard => _ | _ => _ end) as [ptr|].
  - destruct (heap p !! ptr) as [s|] eqn:Hs; [|done].
    assert (Hk : is_ktrg (data s) = false) by (by apply (proj1 (Forall_lookup _ _) Hp ptr)).
    rewrite (contents_frame grow true (data s) Hk).
    by destruct (read_contents _ _ _ _ _) as [[[? ?] ?]| |].
  - assert (Hk := allocate_kind name Hn).
    rewrite (contents_frame grow false _ Hk).
    by destruct (read_contents _ _ _ _ _) as [[[? ?] ?]| |].
Qed.

Lemma load_chunk_free p c p' : ktrg_free p -> c.1 <> SectionName.KTRG ->
  load_chunk grow p c = Ret p' -> ktrg_free p'.
Proof.
  intros Hp Hn. unfold load_chunk, read_section. destruct (zlen c.2 <? 0); [done|].
  destruct (match getLoadBehavior c.1 with Standard => _ | _ => _ end) as [ptr|].
  - destruct (heap p !! ptr) as [s|] eqn:Hs; [|done].
    destruct (read_contents _ _ _ _ _) as [[[c' n] ist]| |] eqn:Hr; [cbn [obind]|done..].
    intros [= <-]. unfold ktrg_free. cbn [heap]. apply Forall_insert; [done|]. cbn.
    rewrite (read_kind _ _ _ _ _ _ _ Hr). by apply (proj1 (Forall_lookup _ _) Hp ptr).
  - destruct (read_contents _ _ _ _ _) as [[[c' n] ist]| |] eqn:Hr; [cbn [obind]|done..].
    intros [= <-]. unfold ktrg_free. cbn [heap]. apply Forall_app. split; [done|].
    apply Forall_singleton. cbn [data]. rewrite (read_kind _ _ _ _ _ _ _ Hr). by apply allocate_kind.
Qed.

(** The header of a chunk. *)
Lemma read_header name size rest :
  istream_read (mkIstream (le_enc 4 name ++ le_enc 4 size ++ rest) true) 8 =
  (le_enc 4 name ++ le_enc 4 size, mkIstream rest true).
Proof. rewrite app_assoc. exact (istream_read_app (le_enc 4 name ++ le_enc 4 size) rest). Qed.

Lemma header_words name size : is_u 32 name -> is_u 32 size ->
  zlen (le_enc 4 name ++ le_enc 4 size) = 8 /\
  le_dec 4 (le_enc 4 name ++ le_enc 4 size) = name /\
  le_dec 4 (drop 4 (le_enc 4 name ++ le_enc 4 size)) = size.
Proof.
  intros Hn Hs. split_and!; [done|by apply le_dec_enc|].
  rewrite drop_app_length' by (by rewrite le_enc_length).
  rewrite <- (app_nil_r (le_enc 4 size)). by apply le_dec_enc.
Qed.

Lemma round_chunk pre c post p : ktrg_free p -> chunk_ok c ->
  parse_round grow (pre ++ chunk_bytes c ++ post) (zlen pre) p =
  match load_chunk grow p c with
  | Ret p' => Ret (Continue (zlen (pre ++ chunk_bytes c)) p')
  | Throw _ => Ret ParsingFailed
  | Undef => Undef
  end.
Proof.
  intros Hp (Hname & Hk & Hsize). destruct c as [name body]. cbn [fst snd] in *.
  pose proof (zlen_nonneg body). unfold parse_round.
  replace (Z.to_nat (zlen pre)) with (length pre) by (unfold zlen; lia).
  rewrite drop_app_length. unfold chunk_bytes. cbn [fst snd]. rewrite <- !app_assoc, read_header.
  destruct (header_words name (zlen body)) as (Hz & Hn & Hs); [done|unfold is_u; lia|].
  rewrite Hz, Hn, Hs. cbn [Z.eqb Pos.eqb]. rewrite s32_id by lia.
  rewrite (proj2 (Z.geb_le (zlen body) 0)) by lia.
  rewrite read_section_frame by done. unfold load_chunk. cbn [fst snd].
  destruct (read_section _ _ _ _ _) as [[[[objects ptr] n] ist]| |]; [cbn [obind igood ibytes]|done..].
  rewrite s32_id, Z.eqb_refl by lia. cbn [negb]. do 2 f_equal.
  rewrite !zlen_app. lia.
Qed.

Lemma round_tail pre tail p : (length tail < 8)%nat ->
  parse_round grow (pre ++ tail) (zlen pre) p = Ret (Finished (with_file_tail tail p)).
Proof.
  intros Hl. unfold parse_round.
  replace (Z.to_nat (zlen pre)) with (length pre) by (unfold zlen; lia).
  rewrite drop_app_length. unfold istream_read. cbn [igood ibytes].
  rewrite (take_ge tail) by lia. unfold with_file_tail.
  destruct tail as [|b tail]; [done|]. rewrite decide_False by done.
  rewrite (proj2 (Z.eqb_neq (zlen (b :: tail)) 0)) by (unfold zlen; simpl; lia).
  rewrite (proj2 (Z.eqb_neq (zlen (b :: tail)) 8)) by (unfold zlen; lia). done.
Qed.

(** The loop over a file of chunks with at most seven more bytes. *)
Lemma parse_chunks cs : forall pre tail p fuel, ktrg_free p -> Forall chunk_ok cs -> (length tail < 8)%nat ->
  (length cs < fuel)%nat ->
  parse grow fuel (pre ++ file_bytes cs ++ tail) (zlen pre) p =
  match load_chunks grow cs p with
  | Ret p' => Ret (Some (Finished (with_file_tail tail p')))
  | Throw _ => Ret (Some ParsingFailed)
  | Undef => Undef
  end.
Proof.
  induction cs as [|c cs IH]; intros pre tail p fuel Hp Hcs Ht Hf; (destruct fuel as [|fuel]; [simpl in Hf; lia|]);
    cbn [parse load_chunks].
  - cbn [file_bytes fmap list_fmap concat app]. by rewrite round_tail.
  - apply Forall_cons in Hcs as [Hc Hcs].
    change (file_bytes (c :: cs)) with (chunk_bytes c ++ file_bytes cs). rewrite <- app_assoc.
    rewrite round_chunk by done.
    destruct (load_chunk grow p c) as [p'| |] eqn:Hl; [cbn [obind]|done..].
    rewrite (app_assoc pre). apply IH; [|done|done|simpl in Hf; lia].
    eapply load_chunk_free; [done| |done]. apply Hc.
Qed.
End parsing.

(** C14: Reading a file that is a sequence of chunks, none of them KTRG and each
    shorter than 2^31 bytes, with up to seven bytes after them, takes one round per
    chunk and one more: the chunks are read in order, each into its section from
    its own bytes; the bytes left over become the tail and mark the map as
    protected; an exception of a section fails the whole read.  KTRG is excluded
    because it reads past its chunk. *)
Theorem parse_reads_chunks (grow : Z -> Z -> Z) (cs : list chunk) (tail : bytes) (fuel : nat)
    (Hcs : Forall chunk_ok cs) (Ht : (length tail < 8)%nat) (Hf : (length cs < fuel)%nat) :
  parse grow fuel (file_bytes cs ++ tail) 0 cleared =
  match load_chunks grow cs cleared with
  | Ret p => Ret (Some (Finished (with_file_tail tail p)))
  | Throw _ => Ret (Some ParsingFailed)
  | Undef => Undef
  end.
Proof. apply (parse_chunks grow cs [] tail cleared fuel); [by apply Forall_nil|done|done|done]. Qed.

Lemma parse_reads_chunks_witness :
  let cs := [(SectionName.VER, [63; 0]); (SectionName.DIM, [64; 0; 96; 0])] in
  parse (fun _ n => n) 3 (file_bytes cs ++ [1; 2; 3]) 0 cleared =
  match load_chunks (fun _ n => n) cs cleared with
  | Ret p => Ret (Some (Finished (with_file_tail [1; 2; 3] p)))
  | Throw _ => Ret (Some ParsingFailed)
  | Undef => Undef
  end.
Proof.
  apply parse_reads_chunks; [|simpl; lia|simpl; lia].
  repeat constructor; vm_compute; congruence.
Defined.

(** ** Jumps that do not end *)

Definition jump_bytes (name : Z) : bytes := le_enc 4 name ++ le_enc 4 (2 ^ 32 - 8).

Definition jumped (p : parser) : parser :=
  mkParser (heap p) (parsedSections p) (allSections p) (tailData p) (tailLength p) (mapIsProtected p) true.

Lemma round_jump grow pre name post p : is_u 32 name ->
  parse_round grow (pre ++ jump_bytes name ++ post) (zlen pre) p = Ret (Continue (zlen pre) (jumped p)).
Proof.
  intros Hname. unfold parse_round, jump_bytes. pose proof (zlen_nonneg pre).
  replace (Z.to_nat (zlen pre)) with (length pre) by (unfold zlen; lia).
  rewrite drop_app_length, <- app_assoc, read_header.
  destruct (header_words name (2 ^ 32 - 8)) as (Hz & Hn & Hs); [done|by vm_compute|].
  rewrite Hz, Hn, Hs. cbn [Z.eqb Pos.eqb]. change (s32 (2 ^ 32 - 8)) with (-8).
  change (-8 >=? 0) with false. cbv iota. rewrite (proj2 (Z.ltb_ge _ 0)) by lia.
  do 2 f_equal. lia.
Qed.

Lemma parse_jump grow name pre post fuel p : is_u 32 name ->
  parse grow fuel (pre ++ jump_bytes name ++ post) (zlen pre) p = Ret None.
Proof.
  intros Hname. revert p. induction fuel as [|fuel IH]; intros p; [done|]. cbn [parse].
  rewrite round_jump by done. cbn [obind]. apply IH.
Qed.

Lemma parse_chunks_jump grow name cs : is_u 32 name -> forall pre post p fuel,
  ktrg_free p -> Forall chunk_ok cs -> is_ret (load_chunks grow cs p) ->
  parse grow fuel (pre ++ file_bytes cs ++ jump_bytes name ++ post) (zlen pre) p = Ret None.
Proof.
  intros Hname. induction cs as [|c cs IH]; intros pre post p fuel Hp Hcs [p' Hl].
  - cbn [file_bytes fmap list_fmap concat app]. by apply parse_jump.
  - destruct fuel as [|fuel]; [done|]. apply Forall_cons in Hcs as [Hc Hcs]. cbn [parse load_chunks] in *.
    change (file_bytes (c :: cs)) with (chunk_bytes c ++ file_bytes cs). rewrite <- app_assoc.
    rewrite round_chunk by done.
    destruct (load_chunk grow p c) as [p1| |] eqn:Hl1; [cbn [obind] in *|done..].
    rewrite (app_assoc pre). apply IH; [|done|by eexists].
    eapply load_chunk_free; [done| |done]. apply Hc.
Qed.

(** C30: A jump section of size -8 leads back to its own header: reading a file with
    such a section after readable chunks does not end, whatever number of rounds
    is allowed. *)
Theorem read_jump_diverges (grow : Z -> Z -> Z) (cs : list chunk) (name : Z) (post : bytes) (fuel : nat)
    (Hname : is_u 32 name) (Hcs : Forall chunk_ok cs) (Hl : is_ret (load_chunks grow cs cleared)) :
  read_file grow fuel (file_bytes cs ++ jump_bytes name ++ post) = Ret None.
Proof.
  unfold read_file.
  assert (Hp := parse_chunks_jump grow name cs Hname [] post cleared fuel).
  cbn [app] in Hp. change (zlen []) with 0 in Hp. rewrite Hp; [done|by apply Forall_nil|done|done].
Qed.

Lemma read_jump_diverges_witness :
  read_file (fun _ n => n) 1000 (file_bytes [(SectionName.VER, [63; 0])] ++ jump_bytes 0 ++ [9]) = Ret None.
Proof.
  apply read_jump_diverges.
  - by vm_compute.
  - repeat constructor; vm_compute; congruence.
  - eexists. vm_compute. reflexivity.
Defined.

(** ** The section that is used *)

Definition bodies_of (name : Z) (cs : list chunk) : list bytes := snd <$> filter (fun c => c.1 = name) cs.

Definition read_body (grow : Z -> Z -> Z) (append : bool) (c : contents) (body : bytes) : outcome contents :=
  let* (c, _, _) := read_contents grow (zlen body) (mkIstream body true) append c in Ret c.

(** What the chunks of one name amount to: the last one alone, or the first one
    with the others read over it. *)
Definition merged (grow : Z -> Z -> Z) (name : Z) (bodies : list bytes) : outcome contents :=
  let fresh := data (allocate grow name) in
  match getLoadBehavior name with
  | Standard => match last bodies with Some body => read_body grow false fresh body | None => Undef end
  | Override | Append =>
      match bodies with
      | body :: bodies =>
          let* c := read_body grow false fresh body in
          for_each (fun body c => read_body grow true c body) bodies c
      | [] => Undef
      end
  end.

Lemma for_each_app {A S} (f : A -> S -> outcome S) l k s :
  for_each f (l ++ k) s = let* s := for_each f l s in for_each f k s.
Proof.
  revert s. induction l as [|a l IH]; intros s; [done|]. cbn. destruct (f a s); [apply IH|done|done].
Qed.

(** The instance that is meant: the last one, or the first one that the others
    were read into. *)
Definition finalSection (p : parser) (name : Z) : option nat :=
  match getLoadBehavior name with
  | Standard => last (instances p name)
  | Override | Append => head (instances p name)
  end.

Record load_inv (grow : Z -> Z -> Z) (p : parser) (cs : list chunk) : Prop := {
  inv_named : forall name ptr, (name, ptr) ∈ parsedSections p ->
    exists c, heap p !! ptr = Some (mkSection name c);
  inv_none : forall name, bodies_of name cs = [] -> instances p name = [];
  inv_some : forall name, bodies_of name cs <> [] ->
    exists ptr c, finalSection p name = Some ptr /\ heap p !! ptr = Some (mkSection name c) /\
      merged grow name (bodies_of name cs) = Ret c
}.

Lemma bodies_snoc name cs c :
  bodies_of name (cs ++ [c]) = bodies_of name cs ++ (if decide (c.1 = name) then [c.2] else []).
Proof.
  unfold bodies_of. rewrite filter_app, fmap_app. f_equal. cbn. by destruct (decide (c.1 = name)).
Qed.

Lemma instances_snoc objects p name name' ptr tail n prot jump all :
  instances (mkParser objects (parsedSections p ++ [(name', ptr)]) all tail n prot jump) name =
  instances p name ++ (if decide (name' = name) then [ptr] else []).
Proof.
  unfold instances. cbn [parsedSections]. rewrite filter_app, fmap_app. f_equal. cbn.
  by destruct (decide (name' = name)).
Qed.

Lemma final_instance grow p cs name ptr : load_inv grow p cs -> finalSection p name = Some ptr ->
  ptr ∈ instances p name.
Proof.
  intros _. unfold finalSection. destruct (getLoadBehavior name).
  - intros H. by apply last_Some_elem_of.
  - intros H. by apply head_Some_elem_of.
  - intros H. by apply head_Some_elem_of.
Qed.

Lemma instance_named grow p cs name ptr : load_inv grow p cs -> ptr ∈ instances p name ->
  exists c, heap p !! ptr = Some (mkSection name c).
Proof.
  intros Hinv H. unfold instances in H. apply list_elem_of_fmap in H as ([n q] & -> & H).
  apply list_elem_of_filter in H as [<- H]. by apply (inv_named _ _ _ Hinv).
Qed.

Section load_inv.
Context (grow : Z -> Z -> Z) (p : parser) (cs : list chunk) (Hinv : load_inv grow p cs).

(** The heap changes only at the section of the chunk's name or beyond. *)
Lemma inv_step (name : Z) (body : bytes) objects ptr c p' :
  p' = mkParser objects (parsedSections p ++ [(name, ptr)]) (allSections p ++ [ptr]) (tailData p)
    (tailLength p) (mapIsProtected p) (jumpCompress p) ->
  objects !! ptr = Some (mkSection name c) ->
  (forall other q s, other <> name -> heap p !! q = Some (mkSection other s) ->
     objects !! q = Some (mkSection other s)) ->
  (forall q s, heap p !! q = Some (mkSection name s) -> exists s', objects !! q = Some (mkSection name s')) ->
  finalSection p' name = Some ptr -> merged grow name (bodies_of name cs ++ [body]) = Ret c ->
  load_inv grow p' (cs ++ [(name, body)]).
Proof.
  intros -> Hptr Hother Hsame Hfinal Hmerged. split.
  - intros n q. cbn [parsedSections heap]. rewrite elem_of_app, list_elem_of_singleton.
    intros [H|[= -> ->]]; [|eauto].
    destruct (inv_named _ _ _ Hinv n q H) as [s Hs].
    destruct (decide (n = name)) as [->|Hne]; eauto.
  - intros n. rewrite bodies_snoc, instances_snoc. cbn [fst snd].
    destruct (decide (name = n)) as [->|Hne]; [by intros [_ ?]%app_eq_nil|].
    rewrite !app_nil_r. apply (inv_none _ _ _ Hinv).
  - intros n Hb. rewrite bodies_snoc in *. cbn [fst snd] in *.
    destruct (decide (name = n)) as [->|Hne]; [eauto|]. rewrite app_nil_r in *.
    destruct (inv_some _ _ _ Hinv n Hb) as (q & s & Hf & Hq & Hm).
    exists q, s. split_and!; [|by apply Hother|done].
    rewrite <- Hf. unfold finalSection. rewrite !instances_snoc, decide_False, app_nil_r by done. done.
Qed.

Lemma load_inv_chunk c p' : load_chunk grow p c = Ret p' -> load_inv grow p' (cs ++ [c]).
Proof.
  destruct c as [name body]. unfold load_chunk, read_section. cbn [fst snd].
  destruct (zlen body <? 0); [done|].
  destruct (match getLoadBehavior name with Standard => None | _ => head (instances p name) end)
    as [ptr|] eqn:Hfound.
  - destruct (heap p !! ptr) as [[n s]|] eqn:Hs; [|done]. cbn [data getName].
    destruct (read_contents _ _ _ _ _) as [[[c' m] ist]| |] eqn:Hr; [cbn [obind]|done..].
    intros [= <-].
    assert (Hhead : head (instances p name) = Some ptr /\ getLoadBehavior name <> Standard)
      by (by destruct (getLoadBehavior name)). destruct Hhead as [Hhead Hload].
    destruct (instance_named grow p cs name ptr Hinv) as [s1 Hs1]; [by apply head_Some_elem_of|].
    rewrite Hs in Hs1. injection Hs1 as -> ->.
    assert (Hb : bodies_of name cs <> []).
    { intros E%(inv_none _ _ _ Hinv). by rewrite E in Hhead. }
    destruct (inv_some _ _ _ Hinv name Hb) as (q & s2 & Hf & Hq & Hm).
    assert (q = ptr) as ->.
    { unfold finalSection in Hf. destruct (getLoadBehavior name); [done|congruence|congruence]. }
    rewrite Hs in Hq. injection Hq as ->.
    eapply (inv_step name body _ ptr c'); [done| | | | |].
    + apply list_lookup_insert_eq. by eapply lookup_lt_Some.
    + intros other q t Hne Hq. rewrite list_lookup_insert_ne; [done|]. intros <-. congruence.
    + intros q t Hq. destruct (decide (ptr = q)) as [<-|]; [|rewrite list_lookup_insert_ne by done; eauto].
      rewrite list_lookup_insert_eq by (by eapply lookup_lt_Some). eauto.
    + unfold finalSection. rewrite instances_snoc, decide_True by done.
      destruct (getLoadBehavior name); [done| |]; destruct (instances p name); by cbn in *.
    + unfold merged in *. destruct (getLoadBehavior name); [done| |];
        (destruct (bodies_of name cs) as [|b0 bs]; [done|]); cbn [app];
        destruct (read_body grow false _ b0) as [c0| |]; try done; cbn [obind] in *;
        rewrite for_each_app, Hm; cbn [obind for_each]; unfold read_body; by rewrite Hr.
  - destruct (read_contents _ _ _ _ _) as [[[c' m] ist]| |] eqn:Hr; [cbn [obind]|done..].
    intros [= <-]. cbn [getName allocate].
    eapply (inv_step name body _ (length (heap p)) c'); [done| | | | |].
    + by rewrite list_lookup_middle.
    + intros other q t _ Hq. rewrite lookup_app_l; [done|]. by eapply lookup_lt_Some.
    + intros q t Hq. exists t. rewrite lookup_app_l; [done|]. by eapply lookup_lt_Some.
    + unfold finalSection. rewrite instances_snoc, decide_True by done.
      destruct (getLoadBehavior name); [by rewrite last_snoc| |];
        (destruct (instances p name); [done|by cbn in Hfound]).
    + unfold merged. destruct (getLoadBehavior name) eqn:Hload.
      * rewrite last_snoc. unfold read_body. by rewrite Hr.
      * destruct (bodies_of name cs) as [|b0 bs] eqn:Eb.
        { cbn [app]. unfold read_body at 1. by rewrite Hr. }
        destruct (inv_some _ _ _ Hinv name) as (q & s2 & Hf & _); [by rewrite Eb|].
        unfold finalSection in Hf. rewrite Hload in Hf. congruence.
      * destruct (bodies_of name cs) as [|b0 bs] eqn:Eb.
        { cbn [app]. unfold read_body at 1. by rewrite Hr. }
        destruct (inv_some _ _ _ Hinv name) as (q & s2 & Hf & _); [by rewrite Eb|].
        unfold finalSection in Hf. rewrite Hload in Hf. congruence.
Qed.
End load_inv.

Lemma load_chunks_inv grow cs : forall pre p p', load_inv grow p pre -> load_chunks grow cs p = Ret p' ->
  load_inv grow p' (pre ++ cs).
Proof.
  induction cs as [|c cs IH]; intros pre p p' Hinv; cbn [load_chunks].
  - intros [= <-]. by rewrite app_nil_r.
  - intros (p1 & H1 & H2)%bind_inv. rewrite cons_middle, app_assoc. eapply IH; [|done].
    by eapply load_inv_chunk.
Qed.

Lemma cleared_inv grow : load_inv grow cleared [].
Proof.
  split.
  - intros name ptr H. by apply elem_of_nil in H.
  - done.
  - done.
Qed.

(** The search of the multimap finds the first instance when there is one. *)
Lemma lower_bound_elem entries name e : lower_bound entries name = Some e -> e ∈ entries /\ name <= e.1.
Proof.
  revert e. induction entries as [|[n q] entries IH]; intros e; [done|]. cbn [lower_bound].
  destruct (Z.ltb_spec n name) as [Hlt|Hge].
  - intros H. destruct (IH e H). split; [by apply list_elem_of_further|done].
  - destruct (lower_bound entries name) as [[n' q']|] eqn:E; [destruct (Z.ltb_spec n' n)|];
      intros [= <-]; try (split; [apply list_elem_of_here|done]).
    destruct (IH _ eq_refl). split; [by apply list_elem_of_further|done].
Qed.

Lemma lower_bound_head entries name q :
  head (snd <$> filter (fun e => e.1 = name) entries) = Some q ->
  lower_bound entries name = Some (name, q).
Proof.
  induction entries as [|[n r] entries IH]; [done|].
  destruct (decide (n = name)) as [->|Hne].
  - rewrite filter_cons_True by done. intros [= <-]. cbn [lower_bound]. rewrite Z.ltb_irrefl.
    destruct (lower_bound entries name) as [[n' q']|] eqn:E; [|done].
    apply lower_bound_elem in E as [_ E]. cbn [fst] in E.
    by rewrite (proj2 (Z.ltb_ge n' name)) by lia.
  - rewrite filter_cons_False by done. intros H. cbn [lower_bound]. rewrite (IH H).
    destruct (Z.ltb_spec n name); [done|]. by rewrite (proj2 (Z.ltb_lt name n)) by lia.
Qed.

(** The test of the name undoes what the search does without an instance. *)
Lemma GetSection_final grow p cs name : load_inv grow p cs -> GetSection p name = finalSection p name.
Proof.
  intros Hinv. unfold GetSection, finalSections.
  assert (Hnamed : forall q, q ∈ instances p name -> named (heap p) name q = true).
  { intros q Hq. destruct (instance_named grow p cs name q Hinv Hq) as [c Hc].
    unfold named. rewrite Hc. apply Z.eqb_refl. }
  assert (Hhead := lower_bound_head (parsedSections p) name). fold (instances p name) in Hhead.
  unfold finalSection.
  destruct (instances p name) as [|q qs] eqn:Ei; cbn [head last] in *.
  - destruct (lower_bound (parsedSections p) name) as [[n q]|] eqn:E; [|by destruct (getLoadBehavior name)].
    apply lower_bound_elem in E as [E _]. destruct (inv_named _ _ _ Hinv n q E) as [c Hc].
    destruct (getLoadBehavior name); [done| |];
      (unfold named; rewrite Hc; cbn [getName]; destruct (Z.eqb_spec n name) as [->|]; [|done];
       exfalso; assert (Hq : q ∈ instances p name);
       [unfold instances; apply list_elem_of_fmap; exists (name, q); split; [done|by apply list_elem_of_filter]
       |rewrite Ei in Hq; by apply elem_of_nil in Hq]).
  - rewrite (Hhead q eq_refl). destruct (getLoadBehavior name).
    + destruct (last (q :: qs)) as [r|] eqn:El; [|done]. rewrite Hnamed; [done|].
      by apply last_Some_elem_of.
    + by rewrite Hnamed by apply list_elem_of_here.
    + by rewrite Hnamed by apply list_elem_of_here.
Qed.

(** C15: Of the chunks of one name, the scenario uses: for most sections the last one
    alone; for MTXM, STR, UNIT, THG2, TRIG and MBRF the first one, with the
    later ones read over it or appended to it in the order of the file; and
    nothing for a name the file does not have. *)
Theorem final_section_merged (grow : Z -> Z -> Z) (cs : list chunk) (p : parser) (name : Z)
    (Hl : load_chunks grow cs cleared = Ret p) :
  match bodies_of name cs with
  | [] => GetSection p name = None
  | bodies =>
      exists ptr c, GetSection p name = Some ptr /\ heap p !! ptr = Some (mkSection name c) /\
        merged grow name bodies = Ret c
  end.
Proof.
  assert (Hinv := load_chunks_inv grow cs [] cleared p (cleared_inv grow) Hl). cbn [app] in Hinv.
  rewrite (GetSection_final grow p cs name Hinv).
  destruct (bodies_of name cs) as [|b bs] eqn:Eb.
  - unfold finalSection. rewrite (inv_none _ _ _ Hinv name Eb). by destruct (getLoadBehavior name).
  - rewrite <- Eb. apply (inv_some _ _ _ Hinv). by rewrite Eb.
Qed.

(** Two chunks of units, with a version between them. *)
Definition unit_chunk (first : Z) : chunk := (SectionName.UNIT, first :: replicate 35 0).

Lemma final_section_merged_witness :
  exists p, load_chunks (fun _ n => n) [unit_chunk 1; (SectionName.VER, [63; 0]); unit_chunk 2] cleared = Ret p /\
    GetSection p SectionName.DIM = None /\
    exists ptr c, GetSection p SectionName.UNIT = Some ptr /\ heap p !! ptr = Some (mkSection SectionName.UNIT c) /\
      merged (fun _ n => n) SectionName.UNIT [(unit_chunk 1).2; (unit_chunk 2).2] = Ret c.
Proof.
  eexists. split; [vm_compute; reflexivity|]. split.
  - apply (final_section_merged (fun _ n => n) [unit_chunk 1; (SectionName.VER, [63; 0]); unit_chunk 2]
      _ SectionName.DIM). vm_compute. reflexivity.
  - apply (final_section_merged (fun _ n => n) [unit_chunk 1; (SectionName.VER, [63; 0]); unit_chunk 2]
      _ SectionName.UNIT). vm_compute. reflexivity.
Defined.
