(* ===== verification/ScenarioSave.v ===== *)
(** Saving a scenario and reading it again: every section that is kept comes
    back, in the order of the file.  Where the same section is listed twice,
    because a later chunk was appended to it, the file grows with every save. *)
From S2P Require Import Prelude Codec ChkTypes ChkSection Accessors StringUsers Terrain Objects Locations Triggers TriggerStrings TriggerProps StringTable StrSection StrProps Ktrg Kstr KstrProps Ktgp Sha256 ScenarioFile ScenarioFileProps.
Open Scope Z_scope.

(** ** Sections that can be saved *)

(** Texts by id: the strings of a table without its first entry. *)
Definition table_ok (strings : table) (ss : list (option bytes)) : Prop :=
  exists s0, strings = s0 :: plain ss /\ plain_ok ss.

Definition fits (body : bytes) : Prop := zlen body < 2 ^ 31.

(** What a section of a name must be to be saved without loss: the class of the
    name, values of the width of their fields, a size the header can hold; the
    strings within the limits of their sections. *)
Definition well_formed (name : Z) (c : contents) : Prop :=
  match c with
  | CStruct size s =>
      (exists virt, table_find structSections name = Some (size, virt)) /\
      writeSize s = Z.of_nat size /\ (size <= length (rawData s))%nat
  | CMtxm tiles => name = SectionName.MTXM /\ Forall (is_u 16) tiles /\ fits (MtxmSection.write tiles)
  | CTile tiles => name = SectionName.TILE /\ Forall (is_u 16) tiles /\ fits (TileSection.write tiles)
  | CMask fog => name = SectionName.MASK /\ Forall (is_u 8) fog /\ fits (MaskSection.write fog)
  | CIsom isom => name = SectionName.ISOM /\ Forall (cwf IsomEntry.layout) isom /\ fits (IsomSection.write isom)
  | CUnit units => name = SectionName.UNIT /\ Forall (cwf Unit.layout) units /\ fits (UnitSection.write units)
  | CDd2 doodads => name = SectionName.DD2 /\ Forall (cwf Doodad.layout) doodads /\ fits (Dd2Section.write doodads)
  | CThg2 sprites => name = SectionName.THG2 /\ Forall (cwf Sprite.layout) sprites /\ fits (Thg2Section.write sprites)
  | CMrgn locations => name = SectionName.MRGN /\ mrgn_wf locations /\ 20 * (zlen locations - 1) < 2 ^ 31
  | CTrig triggers => name = SectionName.TRIG /\ trig_wf triggers /\ fits (TrigSection.write triggers)
  | CMbrf triggers => name = SectionName.MBRF /\ trig_wf triggers /\ fits (MbrfSection.write triggers)
  | CStr s =>
      name = SectionName.STR /\ (StrSection.tailData s <> [] -> StrSection.bytePaddedTo s = 0) /\
      exists ss, table_ok (StrSection.strings s) ss /\ ss <> [] /\ str_size ss <= 65536 /\
        str_size ss + zlen (StrSection.tailData s) < 2 ^ 31
  | CKstr s =>
      name = SectionName.KSTR /\
      exists ss, table_ok (KstrSection.strings s) ss /\ 2 <= zlen ss /\ kstr_size (plain ss) < 2 ^ 31
  | CKtrg _ | CKtgp _ => False
  | CData d =>
      is_u 32 name /\ table_find structSections name = None /\ table_find dynamicSections name = None /\ fits d
  end.

(** The contents after saving and reading again: the same data; an id without a
    string has the empty string. *)
Definition text_back (o : option bytes) : option bytes := Some (default [] o).

Definition same_texts (capacity capacity' : Z) (get get' : Z -> outcome (option bytes)) : Prop :=
  capacity' = capacity /\
  forall id, 0 < id < capacity -> exists o, get id = Ret o /\ get' id = Ret (text_back o).

Definition same_contents (c c' : contents) : Prop :=
  match c, c' with
  | CStruct size s, CStruct size' s' => size' = size /\ writeStruct s' = writeStruct s
  | CStr s, CStr s' =>
      StrSection.tailData s' = StrSection.tailData s /\
      same_texts (StrSection.getCapacity s) (StrSection.getCapacity s') (StrSection.getString s) (StrSection.getString s')
  | CKstr s, CKstr s' =>
      same_texts (KstrSection.getCapacity s) (KstrSection.getCapacity s') (KstrSection.getString s) (KstrSection.getString s')
  | _, _ => c' = c
  end.

(** A section, the body of its chunk and what is read from that. *)
Definition saves (grow : Z -> Z -> Z) (name : Z) (c : contents) (body : bytes) (c' : contents) : Prop :=
  chunk_ok (name, body) /\
  (exists c1, writeWithHeader (mkSection name c) = Ret (mkSection name c1, chunk_bytes (name, body))) /\
  read_body grow false (data (allocate grow name)) body = Ret c' /\ same_contents c c'.

Section saves.
Context (grow : Z -> Z -> Z).

Lemma written_chunk name c c1 c2 body :
  size_contents c = Ret (c1, zlen body) -> write_contents c1 = Ret (c2, body) -> fits body ->
  exists c3, writeWithHeader (mkSection name c) = Ret (mkSection name c3, chunk_bytes (name, body)).
Proof.
  intros Hs Hw Hf. exists c2. unfold writeWithHeader. cbn [data getName]. rewrite Hs. cbn [obind].
  rewrite Hw. cbn [obind]. unfold chunk_bytes. cbn [fst snd].
  rewrite u32_id; [done|]. unfold fits, is_u in *. pose proof (zlen_nonneg body). lia.
Qed.

(** A section whose size and bytes do not change it. *)
Lemma saves_plain name c body c' :
  is_u 32 name -> name <> SectionName.KTRG -> fits body ->
  size_contents c = Ret (c, zlen body) -> write_contents c = Ret (c, body) ->
  read_contents grow (zlen body) (mkIstream body true) false (data (allocate grow name)) =
    Ret (c', zlen body, mkIstream [] true) ->
  same_contents c c' -> saves grow name c body c'.
Proof.
  intros Hn Hk Hf Hs Hw Hr Hc. split_and!; [done|by eapply written_chunk| |done].
  unfold read_body. by rewrite Hr.
Qed.

Lemma array_size {A} (c : codec A) {ok : CodecOk c} (l : list A) : Forall (cwf c) l -> fits (arr_enc c l) ->
  s32 (u64 (elem_size c * zlen l)) = zlen (arr_enc c l).
Proof.
  intros Hl Hf. rewrite <- (arr_enc_zlen c l Hl). unfold fits in Hf.
  pose proof (zlen_nonneg (arr_enc c l)). unfold u64. rewrite Z.mod_small by lia. apply s32_id. lia.
Qed.

(** The sections of objects and of tiles. *)
Lemma saves_array {A} (c : codec A) {ok : CodecOk c} (wrap : list A -> contents) name l :
  is_u 32 name -> name <> SectionName.KTRG -> Forall (cwf c) l -> fits (arr_enc c l) ->
  size_contents (wrap l) = Ret (wrap l, s32 (u64 (elem_size c * zlen l))) ->
  write_contents (wrap l) = Ret (wrap l, arr_enc c l) ->
  (forall rest, read_contents grow (elem_size c * zlen l) (mkIstream (arr_enc c l ++ rest) true) false
      (data (allocate grow name)) = Ret (wrap l, elem_size c * zlen l, mkIstream rest true)) ->
  same_contents (wrap l) (wrap l) -> saves grow name (wrap l) (arr_enc c l) (wrap l).
Proof.
  intros Hn Hk Hl Hf Hs Hw Hr Hc. specialize (Hr []). rewrite app_nil_r in Hr.
  rewrite <- (arr_enc_zlen c l Hl) in Hr.
  apply saves_plain; try done. rewrite Hs. by rewrite array_size.
Qed.

Lemma rewrapped {A} (f : A -> contents) rd a n ist :
  rd = Ret (a, n, ist) -> rewrap f rd = Ret (f a, n, ist).
Proof. by intros ->. Qed.

Ltac array_section c wrap :=
  intros (-> & Hl & Hf); eexists; refine (saves_array c wrap _ _ _ _ _ _ _ _ _ _);
  [ by vm_compute | by vm_compute | exact Hl | exact Hf | reflexivity | reflexivity
  | intros rest; apply (rewrapped wrap) | reflexivity ].

Lemma saves_arrays name c : well_formed name c ->
  match c with
  | CMtxm _ | CTile _ | CMask _ | CIsom _ | CUnit _ | CDd2 _ | CThg2 _ | CTrig _ | CMbrf _ =>
      exists body, saves grow name c body c
  | _ => True
  end.
Proof.
  destruct c; try done; cbn [well_formed].
  - array_section constr:(u16c) CMtxm. exact (read_tiles_roundtrip u16c ltac:(simpl; lia) ltac:(done) tiles [] rest Hl (Forall_nil_2 _)).
  - array_section constr:(u16c) CTile. exact (read_tiles_roundtrip u16c ltac:(simpl; lia) ltac:(done) tiles [] rest Hl (Forall_nil_2 _)).
  - array_section constr:(u8c) CMask. exact (read_tiles_roundtrip u8c ltac:(simpl; lia) ltac:(done) fogTiles [] rest Hl (Forall_nil_2 _)).
  - array_section constr:(IsomEntry.layout) CIsom. exact (proj2 (proj2 (proj2 (terrain_roundtrip [] [] [] [] isomEntries [] rest (Forall_nil_2 _) (Forall_nil_2 _) (Forall_nil_2 _) (Forall_nil_2 _) Hl)))).
  - array_section constr:(Unit.layout) CUnit. exact (read_objects_enc Unit.layout ltac:(simpl; lia) false [] units rest Hl).
  - array_section constr:(Doodad.layout) CDd2. exact (read_objects_enc Doodad.layout ltac:(simpl; lia) false [] doodads rest Hl).
  - array_section constr:(Sprite.layout) CThg2. exact (read_objects_enc Sprite.layout ltac:(simpl; lia) false [] sprites rest Hl).
  - array_section constr:(Trigger.layout) CTrig. exact (read_objects_enc Trigger.layout ltac:(vm_compute; lia) false [] triggers rest Hl).
  - array_section constr:(Trigger.layout) CMbrf. exact (read_objects_enc Trigger.layout ltac:(vm_compute; lia) false [] briefingTriggers rest Hl).
Qed.

Lemma store_whole (n : nat) body : length body = n -> store (replicate n 0) body = Ret body.
Proof.
  intros <-. unfold store. rewrite length_replicate, Nat.leb_refl.
  by rewrite drop_ge, app_nil_r by (by rewrite length_replicate).
Qed.

Lemma struct_name name size virt : table_find structSections name = Some (size, virt) ->
  is_u 32 name /\ name <> SectionName.KTRG /\ Z.of_nat size < 2 ^ 31.
Proof.
  intros H. apply table_find_elem in H.
  assert (Hall : Forall (fun e => is_u 32 e.1 /\ e.1 <> SectionName.KTRG /\ Z.of_nat e.2.1 < 2 ^ 31) structSections)
    by (repeat constructor; vm_compute; congruence).
  exact (proj1 (Forall_forall _ _) Hall _ H).
Qed.

Lemma saves_struct name size s : well_formed name (CStruct size s) ->
  exists body c', saves grow name (CStruct size s) body c'.
Proof.
  intros ([virt Hname] & Hw & Hraw). destruct (struct_name _ _ _ Hname) as (Hn & Hk & Hsize).
  set (body := take size (rawData s)).
  assert (Hl : length body = size) by (unfold body; rewrite length_take; lia).
  assert (Hz : zlen body = Z.of_nat size) by (unfold zlen; lia).
  assert (Hws : writeStruct s = Ret body).
  { unfold writeStruct. rewrite Hw, (proj2 (Z.leb_le _ _)), Nat2Z.id by (unfold zlen; lia). done. }
  assert (Hread : istream_read (mkIstream body true) (Z.of_nat size) = (body, mkIstream [] true))
    by (rewrite <- Hz; apply istream_read_whole).
  exists body. eexists. apply saves_plain; [done|done|unfold fits; lia| | | |].
  - cbn [size_contents]. unfold ChkSection.getSize. by rewrite Hw, Hz, s32_id by lia.
  - cbn [write_contents]. by rewrite Hws.
  - unfold allocate. cbn [data]. rewrite Hname. cbn [read_contents]. apply rewrapped. unfold readStruct.
    rewrite Hz, (proj2 (Z.ltb_ge _ 0)), Hread by lia.
    unfold assignRaw, sizeof. cbn [csize raw_codec]. rewrite Z.ltb_irrefl, Nat2Z.id.
    cbn [rawData]. rewrite store_whole by done. cbn [obind]. rewrite Hz. reflexivity.
  - split; [done|]. rewrite Hws. unfold writeStruct. cbn [writeSize rawData newStructSection].
    unfold sizeof. cbn [csize raw_codec]. rewrite Hz, Z.leb_refl, Nat2Z.id, take_ge by lia. done.
Qed.

Lemma saves_data name d : well_formed name (CData d) -> saves grow name (CData d) d (CData d).
Proof.
  intros (Hn & Hstruct & Hdyn & Hf). apply saves_plain; [done| |done| |done| |done].
  - intros ->. vm_compute in Hdyn. done.
  - cbn [size_contents]. unfold DataSection.getSize. do 2 f_equal. apply s32_id.
    unfold fits in Hf. pose proof (zlen_nonneg d). lia.
  - unfold allocate. cbn [data]. rewrite Hstruct, Hdyn. cbn [read_contents]. apply rewrapped.
    unfold DataSection.read. pose proof (zlen_nonneg d). rewrite (proj2 (Z.ltb_ge _ 0)) by lia.
    destruct (Z.ltb_spec 0 (zlen d)) as [Hpos|Hnil].
    + rewrite istream_read_whole, store_whole by (unfold zlen; lia). done.
    + assert (d = []) as -> by (destruct d; [done | unfold zlen in Hnil; simpl in Hnil; lia]). done.
Qed.

Lemma saves_mrgn name l : well_formed name (CMrgn l) -> exists body, saves grow name (CMrgn l) body (CMrgn l).
Proof.
  intros (-> & Hl & Hf). destruct (mrgn_roundtrip l [] [] Hl) as (body & Hw & Hz & Hr).
  rewrite app_nil_r in Hr.
  assert (Hn : MrgnSection.numLocations l = zlen l - 1).
  { destruct Hl as (ls & -> & _). unfold MrgnSection.numLocations. rewrite zlen_cons. pose proof (zlen_nonneg (Some <$> ls)).
    rewrite Z.gtb_ltb, (proj2 (Z.ltb_lt _ _)) by lia. lia. }
  exists body. apply saves_plain; [by vm_compute|by vm_compute|unfold fits; lia| | | |done].
  - cbn [size_contents]. unfold MrgnSection.getSize. do 2 f_equal. change (elem_size Location.layout) with 20.
    assert (0 <= zlen l - 1) by (destruct Hl as (ls & -> & _); rewrite zlen_cons; pose proof (zlen_nonneg (Some <$> ls)); lia).
    unfold u64. rewrite (Z.mod_small (zlen l - 1)), Z.mod_small by lia. rewrite s32_id by lia. lia.
  - cbn [write_contents]. by rewrite Hw.
  - change (data (allocate grow SectionName.MRGN)) with (CMrgn []). cbn [read_contents]. apply rewrapped.
    by rewrite Hz.
Qed.

(** *** Strings *)

Lemma getString_plain s0 ss i o : plain_ok ss -> ss !! i = Some o ->
  StringTable.getString (s0 :: plain ss) (1 + Z.of_nat i) = Ret o.
Proof.
  intros Hok Hi. assert (Hlt := lookup_lt_Some _ _ _ Hi). apply (proj1 (Forall_lookup _ _) Hok) in Hi as Hnul.
  unfold StringTable.getString, plain.
  rewrite (proj2 (Z.ltb_lt _ _)) by (rewrite zlen_cons; unfold zlen; rewrite length_fmap; lia).
  rewrite (vget_Some _ _ (option_map ScStr.new o));
    [|lia|replace (Z.to_nat (1 + Z.of_nat i)) with (S i) by lia; by rewrite lookup_cons, list_lookup_fmap, Hi].
  destruct o as [str|]; [|done]. cbn. unfold ScStr.toString. cbn. cbn in Hnul.
  rewrite allocate_plain by done. by rewrite cstr_plain.
Qed.

Lemma same_texts_intro s0 ss (strings' : table) : plain_ok ss -> zlen strings' = 1 + zlen ss ->
  (forall i o, ss !! i = Some o -> StringTable.getString strings' (1 + Z.of_nat i) = Ret (Some (default [] o))) ->
  same_texts (zlen (s0 :: plain ss)) (zlen strings') (StringTable.getString (s0 :: plain ss)) (StringTable.getString strings').
Proof.
  intros Hok Hz Hget. assert (Hc : zlen (s0 :: plain ss) = 1 + zlen ss)
    by (rewrite zlen_cons; unfold plain, zlen; rewrite length_fmap; lia).
  rewrite Hc. split; [done|]. intros id Hid.
  destruct (lookup_lt_is_Some_2 ss (Z.to_nat (id - 1))) as [o Ho]; [unfold zlen in *; lia|].
  exists o. replace id with (1 + Z.of_nat (Z.to_nat (id - 1))) by lia.
  split; [by apply getString_plain|by apply Hget].
Qed.

Lemma getString_loaded s0 ss i o : plain_ok ss -> ss !! i = Some o ->
  StringTable.getString (s0 :: loaded ss) (1 + Z.of_nat i) = Ret (Some (default [] o)).
Proof.
  intros Hok Hi.
  assert (E : loaded ss = plain ((fun o => Some (default [] o)) <$> ss))
    by (unfold loaded, plain; by rewrite <- list_fmap_compose).
  rewrite E. apply getString_plain; [|by rewrite list_lookup_fmap, Hi].
  apply Forall_fmap. exact Hok.
Qed.

Lemma saves_str name s : well_formed name (CStr s) -> exists body c', saves grow name (CStr s) body c'.
Proof.
  intros (-> & Hpad & ss & (s0 & Hs & Hok) & Hne & Hsz & Hf).
  set (body := str_bytes ss ++ StrSection.tailData s).
  assert (Hz : zlen body = str_size ss + zlen (StrSection.tailData s)) by (unfold body; by rewrite zlen_app, str_bytes_zlen).
  assert (Hw : forall t, StrSection.strings t = s0 :: plain ss -> StrSection.tailData t = StrSection.tailData s ->
    StrSection.bytePaddedTo t = StrSection.bytePaddedTo s ->
    StrSection.write (Σ := unit) None t = Ret (StrSection.setBytes t (str_bytes ss), body)).
  { intros t Ht Htail Hp. unfold body. rewrite <- Htail. apply (str_written t s0); [done|done|done|].
    by rewrite Htail, Hp. }
  assert (Hr := str_read_back (StrSection.mkStrSection [] [] 4 0 []) ss (StrSection.tailData s) [] Hok Hne Hsz).
  cbn zeta in Hr. fold body in Hr. rewrite app_nil_r in Hr.
  exists body. eexists. split; [split; [by vm_compute|split; [by vm_compute|cbn [snd]; lia]]|split; [|split]].
  - eapply (written_chunk _ _ (CStr (StrSection.setBytes s (str_bytes ss))) (CStr (StrSection.setBytes s (str_bytes ss)))); [| |unfold fits; lia].
    + cbn [size_contents]. unfold StrSection.getSize. unfold StrSection.syncStringsToBytes. rewrite Hs.
      rewrite str_bytes_written by done. cbn [obind].
      change (StrSection.tailData (StrSection.setBytes s (str_bytes ss))) with (StrSection.tailData s).
      change (StrSection.stringBytes (StrSection.setBytes s (str_bytes ss))) with (str_bytes ss).
      rewrite str_bytes_zlen. rewrite Hz.
      assert (Htotal : (if zlen (StrSection.tailData s) >? 0
        then str_size ss + StrSection.padding (StrSection.setBytes s (str_bytes ss)) (str_size ss) + zlen (StrSection.tailData s)
        else str_size ss) = str_size ss + zlen (StrSection.tailData s)).
      { destruct (Z.gtb_spec (zlen (StrSection.tailData s)) 0) as [Hpos|Hnil].
        - unfold StrSection.padding. change (StrSection.bytePaddedTo (StrSection.setBytes s (str_bytes ss))) with (StrSection.bytePaddedTo s).
          rewrite Hpad by (intros E; rewrite E in Hpos; by vm_compute in Hpos).
          change ((0 =? 2) || (0 =? 4)) with false. rewrite andb_false_l. lia.
        - pose proof (zlen_nonneg (StrSection.tailData s)). lia. }
      rewrite Htotal. rewrite (proj2 (Z.leb_le _ (2 ^ 31 - 1))) by lia. reflexivity.
    + cbn [write_contents]. rewrite Hw by done. done.
  - change (data (allocate grow SectionName.STR)) with (CStr (StrSection.mkStrSection [] [] 4 0 [])).
    unfold read_body. cbn [read_contents]. rewrite Hr. reflexivity.
  - cbn [same_contents StrSection.tailData]. split; [done|].
    unfold StrSection.getCapacity, StrSection.getString. cbn [StrSection.strings]. rewrite Hs.
    apply same_texts_intro; [done| |intros; by apply getString_loaded].
    rewrite zlen_cons. unfold loaded, zlen. rewrite length_fmap. lia.
Qed.

Lemma saves_kstr name s : well_formed name (CKstr s) -> exists body c', saves grow name (CKstr s) body c'.
Proof.
  intros (-> & ss & (s0 & Hs & Hok) & Hn & Hf).
  destruct (kstr_roundtrip s KstrSection.GetDefault s0 ss [] Hs Hok Hn) as (body & t' & Hw & Hz & Hr & _ & Hcap & Hget);
    [unfold KstrSection.s32_max; lia|]. rewrite app_nil_r in Hr.
  assert (Hsync : forall t, KstrSection.strings t = KstrSection.strings s ->
    KstrSection.syncStringsToBytes true t = Ret (KstrSection.setBytes t body)).
  { intros t Ht. unfold KstrSection.write, KstrSection.syncStringsToBytes in *. rewrite Ht.
    destruct (KstrSection.syncKstringsToBytes (KstrSection.strings s)) as [bs| |]; try done.
    cbn [obind] in *. injection Hw as _ <-. done. }
  exists body, (CKstr t'). split; [split; [by vm_compute|split; [by vm_compute|cbn [snd]; lia]]|split; [|split]].
  - eapply (written_chunk _ _ (CKstr (KstrSection.setBytes s body)) (CKstr (KstrSection.setBytes s body))); [| |unfold fits; lia].
    + cbn [size_contents]. unfold KstrSection.getSize. rewrite Hsync by done. cbn [obind].
      change (KstrSection.stringBytes (KstrSection.setBytes s body)) with body.
      rewrite (proj2 (Z.leb_le _ _)) by (unfold KstrSection.s32_max; lia). done.
    + cbn [write_contents]. unfold KstrSection.write. by rewrite Hsync.
  - change (data (allocate grow SectionName.KSTR)) with (CKstr KstrSection.GetDefault).
    unfold read_body. cbn [read_contents]. by rewrite Hr.
  - cbn [same_contents]. unfold KstrSection.getCapacity, KstrSection.getString in *. rewrite Hs.
    by apply same_texts_intro.
Qed.

Lemma well_formed_saves name c : well_formed name c -> exists body c', saves grow name c body c'.
Proof.
  intros H. assert (Harr := saves_arrays name c H). destruct c;
    lazymatch type of Harr with ex _ => destruct Harr as [b ?]; by eauto | _ => clear Harr end.
  - by apply saves_struct.
  - destruct (saves_mrgn _ _ H) as [body ?]. eauto.
  - by apply saves_str.
  - by apply saves_kstr.
  - destruct H.
  - destruct H.
  - exists data, (CData data). by apply saves_data.
Qed.
End saves.

(** ** The whole file *)

Section file_roundtrip.
Context (grow : Z -> Z -> Z).

(** Writing distinct sections one after the other. *)
Lemma lookups_insert (ptr : nat) (s : section) (objects : list section) ptrs ss : ptr ∉ ptrs ->
  Forall2 (fun q t => objects !! q = Some t) ptrs ss ->
  Forall2 (fun q t => <[ptr := s]> objects !! q = Some t) ptrs ss.
Proof.
  intros Hni H. induction H as [|q t ptrs ss Hq _ IH]; [done|].
  apply not_elem_of_cons in Hni as [Hne Hni]. constructor; [|auto].
  by rewrite list_lookup_insert_ne.
Qed.

Definition writes_chunk (s : section) (c : chunk) : Prop :=
  exists c1, writeWithHeader s = Ret (mkSection (getName s) c1, chunk_bytes c).

Lemma write_sections_chunks ptrs : forall ss chunks objects, NoDup ptrs ->
  Forall2 (fun ptr s => objects !! ptr = Some s) ptrs ss -> Forall2 writes_chunk ss chunks ->
  exists objects', write_sections ptrs objects = Ret (objects', file_bytes chunks, true).
Proof.
  induction ptrs as [|ptr ptrs IH]; intros ss chunks objects Hnd Hp Hc.
  - inversion Hp; subst. inversion Hc; subst. by eexists.
  - inversion Hp as [|? s ? ss' Hs Hss]; subst. inversion Hc as [|? c ? cs [c1 Hw] Hcs]; subst.
    apply NoDup_cons in Hnd as [Hni Hnd]. cbn [write_sections]. rewrite Hs, Hw.
    destruct (IH ss' cs (<[ptr:=mkSection (getName s) c1]> objects) Hnd) as [objects' ->];
      [by apply lookups_insert|done|by eexists].
Qed.

(** Reading chunks of different names: every one makes a section of its own. *)
Definition reads_chunk (c : chunk) (s : section) : Prop :=
  getName s = c.1 /\ read_body grow false (data (allocate grow c.1)) c.2 = Ret (data s).

Lemma instances_none p name : name ∉ (parsedSections p).*1 -> instances p name = [].
Proof.
  intros H. destruct (instances p name) as [|q qs] eqn:E; [done|]. exfalso. apply H.
  assert (Hq : q ∈ instances p name) by (rewrite E; apply list_elem_of_here).
  unfold instances in Hq. apply list_elem_of_fmap in Hq as (e & -> & He).
  apply list_elem_of_filter in He as [<- He]. apply list_elem_of_fmap. eauto.
Qed.

Lemma load_fresh_chunk p c s : c.1 ∉ (parsedSections p).*1 -> reads_chunk c s ->
  load_chunk grow p c = Ret (mkParser (heap p ++ [s]) (parsedSections p ++ [(c.1, length (heap p))])
    (allSections p ++ [length (heap p)]) (tailData p) (tailLength p) (mapIsProtected p) (jumpCompress p)).
Proof.
  intros Hn [Hname Hr]. unfold load_chunk, read_section. pose proof (zlen_nonneg c.2).
  rewrite (proj2 (Z.ltb_ge _ 0)), instances_none by (done || lia).
  replace (match getLoadBehavior c.1 with Standard => None | _ => head [] end) with (@None nat)
    by (by destruct (getLoadBehavior c.1)).
  unfold read_body in Hr. apply bind_inv in Hr as ([[c' n] ist] & Hr & Hd). rewrite Hr. cbn [obind].
  injection Hd as ->. rewrite <- Hname. by destruct s.
Qed.

Lemma load_fresh_chunks cs ss : Forall2 reads_chunk cs ss -> forall p,
  NoDup cs.*1 -> (forall name, name ∈ cs.*1 -> name ∉ (parsedSections p).*1) ->
  exists parsed, load_chunks grow cs p = Ret (mkParser (heap p ++ ss) parsed
    (allSections p ++ seq (length (heap p)) (length ss))
    (tailData p) (tailLength p) (mapIsProtected p) (jumpCompress p)).
Proof.
  induction 1 as [|c s cs ss Hc _ IH]; intros p Hnd Hfresh.
  - exists (parsedSections p). cbn. rewrite !app_nil_r. by destruct p.
  - cbn [load_chunks]. apply NoDup_cons in Hnd as [Hni Hnd].
    rewrite (load_fresh_chunk p c s) by (try done; apply Hfresh, list_elem_of_here). cbn [obind].
    match goal with |- context [load_chunks grow cs ?p'] => destruct (IH p' Hnd) as [parsed ->] end.
    + intros name Hname. cbn [parsedSections]. rewrite fmap_app, not_elem_of_app. split.
      * apply Hfresh. by apply list_elem_of_further.
      * cbn. rewrite list_elem_of_singleton. by intros ->.
    + exists parsed. cbn [heap allSections tailData tailLength mapIsProtected jumpCompress].
      rewrite <- !app_assoc, length_app. cbn. by rewrite Nat.add_1_r.
Qed.
End file_roundtrip.

(** C3: Saving a scenario whose sections are well formed, of different names and
    none of them KTRG or KTGP, and reading the file: the file is read to its end,
    without a jump, a tail or a mark of protection, and its sections are those of
    the scenario in the same order, with the same data and the same strings. *)
Theorem file_roundtrip (grow : Z -> Z -> Z) (p : parser) (ss : list section)
    (Hp : Forall2 (fun ptr s => heap p !! ptr = Some s) (allSections p) ss)
    (Hnd : NoDup (getName <$> ss))
    (Hwf : Forall (fun s => well_formed (getName s) (data s)) ss) :
  exists objects bs, write_file p = Ret (objects, bs, true) /\
    exists q, (forall fuel, (length ss < fuel)%nat -> parse grow fuel bs 0 cleared = Ret (Some (Finished q))) /\
      allSections q = seq 0 (length ss) /\
      Forall2 (fun s s' => getName s' = getName s /\ same_contents (data s) (data s')) ss (heap q) /\
      tailLength q = 0 /\ mapIsProtected q = false /\ jumpCompress q = false.
Proof.
  assert (Hsaves : exists cs ss', Forall2 writes_chunk ss cs /\ Forall2 (reads_chunk grow) cs ss' /\
    Forall chunk_ok cs /\ cs.*1 = getName <$> ss /\
    Forall2 (fun s s' => getName s' = getName s /\ same_contents (data s) (data s')) ss ss').
  { clear Hp Hnd. induction Hwf as [|[name c] ss Hs _ (cs & ss' & H1 & H2 & H3 & H4 & H5)].
    - exists [], []. by repeat constructor.
    - destruct (well_formed_saves grow name c Hs) as (body & c' & Hok & Hw & Hr & Hc).
      exists ((name, body) :: cs), (mkSection name c' :: ss'). split_and!; try constructor; try done.
      cbn. by rewrite H4. }
  destruct Hsaves as (cs & ss' & Hw & Hr & Hok & Hnames & Hsame).
  destruct (write_sections_chunks (allSections p) ss cs (heap p)) as [objects Hwrite]; [|done|done|].
  { apply (NoDup_fmap_1 (fun ptr => getName <$> (heap p !! ptr))).
    assert (E : (fun ptr => getName <$> (heap p !! ptr)) <$> allSections p = Some <$> (getName <$> ss)).
    { clear - Hp. induction Hp as [|ptr s ptrs ss Hs _ IH]; [done|]. cbn. by rewrite Hs, IH. }
    rewrite E. by apply NoDup_fmap_2; [intros ? ? [=]|]. }
  exists objects, (file_bytes cs). split; [done|].
  destruct (load_fresh_chunks grow cs ss' Hr cleared) as [parsed Hload]; [by rewrite Hnames|by intros; apply not_elem_of_nil|].
  exists (mkParser ss' parsed (seq 0 (length ss')) (tailData cleared) 0 false false).
  split; [|split; [|split; [exact Hsame|done]]].
  - intros fuel Hfuel.
    assert (Hparse := parse_chunks grow cs [] [] cleared fuel (Forall_nil_2 _) Hok).
    rewrite Hload in Hparse. cbn [app] in Hparse. rewrite app_nil_r in Hparse. apply Hparse; [simpl; lia|].
    by rewrite (Forall2_length _ _ _ Hw) in Hfuel.
  - cbn. by rewrite (Forall2_length _ _ _ Hsame).
Qed.

(** A map of a version, a terrain, two units, some text and an unknown section. *)
Definition sample_sections : list section :=
  [mkSection SectionName.VER (CStruct 2 (mkStructSection (newChkSection SectionName.VER false false) [59; 0] 2 2 true));
   mkSection SectionName.MTXM (CMtxm [1; 513]);
   mkSection SectionName.UNIT (CUnit (replicate 2 (cdec Unit.layout (replicate 36 1))));
   mkSection SectionName.STR (CStr (StrSection.mkStrSection [None; Some (ScStr.new [72; 105]); None] [] 4 0 []));
   mkSection 7 (CData [1; 2; 3])].

Lemma sample_sections_ok : Forall (fun s => well_formed (getName s) (data s)) sample_sections.
Proof.
  repeat apply Forall_cons_2; cbn [getName data well_formed sample_sections].
  - split_and!; [by eexists|done|simpl; lia].
  - split_and!; [done| |by vm_compute]. repeat constructor; vm_compute; congruence.
  - split_and!; [done| |by vm_compute]. refine (proj2 (cwf_check (array_codec 2 Unit.layout) _ _)). by vm_compute.
  - split_and!; [done|done|]. exists [Some [72; 105]; None]. split_and!; [|done|by vm_compute|by vm_compute].
    exists None. split; [done|]. repeat constructor; apply (bool_decide_eq_true_1 _); reflexivity.
  - split_and!; by vm_compute.
  - apply Forall_nil_2.
Qed.

Lemma file_roundtrip_witness :
  exists objects bs, write_file (mkParser sample_sections [] [4; 0; 1; 2; 3]%nat (replicate 7 0) 0 false false) =
      Ret (objects, bs, true) /\
    exists q, parse (fun _ n => n) 6 bs 0 cleared = Ret (Some (Finished q)) /\ allSections q = seq 0 5.
Proof.
  destruct (file_roundtrip (fun _ n => n) (mkParser sample_sections [] [4; 0; 1; 2; 3]%nat (replicate 7 0) 0 false false)
    (mkSection 7 (CData [1; 2; 3]) :: take 4 sample_sections)) as (objects & bs & Hw & q & Hq & Ha & _).
  - repeat constructor.
  - by apply (bool_decide_eq_true_1 (NoDup _)).
  - constructor; [|by apply Forall_take, sample_sections_ok].
    exact (proj1 (Forall_lookup _ _) sample_sections_ok 4%nat _ eq_refl).
  - exists objects, bs. split; [exact Hw|]. exists q. split; [apply Hq; simpl; lia|exact Ha].
Defined.

(** ** Sections that a later chunk was appended to *)

Definition units_of (p : parser) : option (list Unit.Unit) :=
  match GetSection p SectionName.UNIT with
  | Some ptr => match heap p !! ptr with Some (mkSection _ (CUnit units)) => Some units | _ => None end
  | None => None
  end.

Lemma load_units grow (units units' : list Unit.Unit) :
  Forall (cwf Unit.layout) units -> Forall (cwf Unit.layout) units' ->
  load_chunks grow [(SectionName.UNIT, UnitSection.write units); (SectionName.UNIT, UnitSection.write units')] cleared =
  Ret (mkParser [mkSection SectionName.UNIT (CUnit (units ++ units'))]
         [(SectionName.UNIT, 0%nat); (SectionName.UNIT, 0%nat)] [0; 0]%nat (replicate 7 0) 0 false false).
Proof.
  intros Hu Hu'.
  assert (Hr : forall append l us, Forall (cwf Unit.layout) us ->
    read_contents grow (zlen (UnitSection.write us)) (mkIstream (UnitSection.write us) true) append (CUnit l) =
    Ret (CUnit (if append then l ++ us else us), zlen (UnitSection.write us), mkIstream [] true)).
  { intros append l us Hus.
    assert (E := read_objects_enc Unit.layout ltac:(simpl; lia) append l us [] Hus). rewrite app_nil_r in E.
    cbn [read_contents]. unfold UnitSection.read, UnitSection.write, write_objects in *.
    rewrite (arr_enc_zlen Unit.layout us Hus). by rewrite E. }
  cbn [load_chunks]. unfold load_chunk, read_section.
  pose proof (zlen_nonneg (UnitSection.write units)). pose proof (zlen_nonneg (UnitSection.write units')).
  cbn [fst snd]. rewrite (proj2 (Z.ltb_ge _ 0)) by lia.
  change (getLoadBehavior SectionName.UNIT) with Append. cbv iota.
  change (data (allocate grow SectionName.UNIT)) with (CUnit []).
  change (head (instances cleared SectionName.UNIT)) with (@None nat). cbv iota.
  rewrite (Hr false) by done. cbn [obind heap parsedSections allSections cleared app tailData tailLength mapIsProtected jumpCompress length].
  rewrite (proj2 (Z.ltb_ge _ 0)) by lia.
  match goal with |- context [head (instances ?p ?n)] => change (head (instances p n)) with (Some 0%nat) end.
  cbn [lookup list_lookup heap data]. rewrite (Hr true) by done. reflexivity.
Qed.

(** A map whose units are in two chunks: saving and reading it again doubles
    every unit, because the section that has them all is saved once for each of
    the chunks. *)
Theorem resave_doubles (grow : Z -> Z -> Z) (units units' : list Unit.Unit)
    (Hu : Forall (cwf Unit.layout) units) (Hu' : Forall (cwf Unit.layout) units')
    (Hf : fits (UnitSection.write (units ++ units'))) :
  exists p objects bs q,
    load_chunks grow [(SectionName.UNIT, UnitSection.write units); (SectionName.UNIT, UnitSection.write units')] cleared
      = Ret p /\ units_of p = Some (units ++ units') /\
    write_file p = Ret (objects, bs, true) /\
    (forall fuel, (2 < fuel)%nat -> parse grow fuel bs 0 cleared = Ret (Some (Finished q))) /\
    units_of q = Some ((units ++ units') ++ (units ++ units')).
Proof.
  rewrite load_units by done.
  assert (Ha : Forall (cwf Unit.layout) (units ++ units')) by (by apply Forall_app).
  set (all := units ++ units') in *.
  assert (Hw : writeWithHeader (mkSection SectionName.UNIT (CUnit all)) =
    Ret (mkSection SectionName.UNIT (CUnit all), chunk_bytes (SectionName.UNIT, UnitSection.write all))).
  { unfold writeWithHeader. cbn [data size_contents getName obind write_contents].
    unfold UnitSection.getSize, size_objects. rewrite (array_size Unit.layout all Ha Hf).
    unfold chunk_bytes. cbn [fst snd]. rewrite u32_id; [done|]. unfold fits, is_u in *.
    pose proof (zlen_nonneg (arr_enc Unit.layout all)). unfold UnitSection.write, write_objects in Hf. lia. }
  do 2 eexists. exists (file_bytes (replicate 2 (SectionName.UNIT, UnitSection.write all))). eexists.
  split; [done|]. split; [done|]. split; [|split].
  - unfold write_file. cbn [allSections heap write_sections lookup list_lookup]. rewrite Hw.
    cbn [insert list_insert write_sections lookup list_lookup]. rewrite Hw. cbn [obind].
    unfold file_bytes. cbn. by rewrite app_nil_r.
  - intros fuel Hfuel.
    assert (Hparse := parse_chunks grow (replicate 2 (SectionName.UNIT, UnitSection.write all)) [] [] cleared fuel).
    cbn [replicate] in Hparse. rewrite load_units, app_nil_r in Hparse by done. apply Hparse.
    + by apply Forall_nil.
    + apply (Forall_replicate _ 2). split; [by vm_compute|split; [by vm_compute|exact Hf]].
    + simpl; lia.
    + done.
  - done.
Qed.

Lemma resave_doubles_witness :
  let u := cdec Unit.layout (replicate 36 1) in
  exists p objects bs q,
    load_chunks (fun _ n => n) [(SectionName.UNIT, UnitSection.write [u]); (SectionName.UNIT, UnitSection.write [u])]
      cleared = Ret p /\ units_of p = Some [u; u] /\ write_file p = Ret (objects, bs, true) /\
    (forall fuel, (2 < fuel)%nat -> parse (fun _ n => n) fuel bs 0 cleared = Ret (Some (Finished q))) /\
    units_of q = Some [u; u; u; u].
Proof.
  apply (resave_doubles (fun _ n => n) [cdec Unit.layout (replicate 36 1)] [cdec Unit.layout (replicate 36 1)]);
    [apply Forall_singleton; solve_default..|by vm_compute].
Defined.
