(* ===== verification/Passwords.v ===== *)
(** Passwords of a scenario: the tail of the file has the first four bytes of the
    SHA-256 hash of the password, in reverse order, and three zero bytes. *)
From S2P Require Import Prelude Codec ChkTypes ChkSection Sha256 ShaProps ScenarioFile.
Open Scope Z_scope.

(** ** The tail of a password *)

Definition password_tail (password : bytes) : bytes := reverse (take 4 (sha256 password)) ++ [0; 0; 0].

Lemma sha256_bytes msg : Forall (is_u 8) (sha256 msg).
Proof. unfold sha256. apply Forall_bind. apply Forall_forall. intros w _. apply be_enc_bytes. Qed.

Lemma sha256_four msg : exists a b c d rest, sha256 msg = a :: b :: c :: d :: rest.
Proof.
  unfold sha256. assert (Hl : length (foldl compress initial_hash (blocks_of (pad msg))) = 8%nat).
  { assert (H : forall blocks h, length h = 8%nat -> length (foldl compress h blocks) = 8%nat); [|by apply H].
    induction blocks as [|b blocks IH]; intros h Hh; [done|]. cbn [foldl]. apply IH.
    unfold compress. rewrite length_zip_with, Hh. done. }
  destruct (foldl _ _ _) as [|w ws]; [done|]. by repeat eexists.
Qed.

Lemma hex_char_dec2hex d : 0 <= d < 16 -> hex_char (dec2hex d) = Some d.
Proof.
  intros Hd. assert (H : Forall (fun d => hex_char (dec2hex d) = Some d) (seqZ 0 16)) by (by repeat constructor).
  apply (proj1 (Forall_forall _ _) H). apply elem_of_seqZ. lia.
Qed.

Lemma stoull16_byte v b rest : is_u 8 b ->
  stoull16 v (dec2hex (b / 16) :: dec2hex (b mod 16) :: rest) = stoull16 (v * 256 + b) rest.
Proof.
  intros Hb. unfold is_u in Hb. cbn [stoull16].
  rewrite hex_char_dec2hex by (split; [apply Z.div_pos|apply Z.div_lt_upper_bound]; lia).
  rewrite hex_char_dec2hex by (apply Z.mod_pos_bound; lia).
  f_equal. pose proof (Z.div_mod b 16 ltac:(lia)). lia.
Qed.

Section passwords.
Context (uninit buffer : list Z) (Huninit : length uninit = 64%nat) (Hbuffer : length buffer = 64%nat).

Lemma hashBytes_spec password : Forall (is_u 8) password ->
  hashBytes uninit buffer password = Ret (password_tail password ++ [0]).
Proof.
  intros Hp. unfold hashBytes.
  destruct (hash_data_spec uninit password (mkSHA256 0 0 buffer []) Huninit Hbuffer Hp) as [s' ->]. cbn [obind].
  unfold password_tail. assert (Hb := sha256_bytes password).
  destruct (sha256_four password) as (a & b & c & d & rest & E). rewrite E in *.
  do 3 (apply Forall_cons in Hb as [? Hb]). apply Forall_cons in Hb as [? _].
  unfold hex_of. cbn [mbind list_bind app take]. rewrite !stoull16_byte by done. rewrite take_0. cbn [stoull16].
  transitivity (Ret (le_enc 8 (le_dec 8 [d; c; b; a; 0; 0; 0; 0]))).
  - do 2 f_equal. cbn. lia.
  - rewrite le_enc_dec; [done| |done]. repeat (apply Forall_cons_2; [done|]). by repeat constructor.
Qed.

Lemma password_tail_length password : length (password_tail password) = 7%nat.
Proof.
  unfold password_tail. destruct (sha256_four password) as (a & b & c & d & rest & ->). done.
Qed.

Lemma seven {A} (l : list A) : length l = 7%nat -> exists a b c d e f g, l = [a; b; c; d; e; f; g].
Proof. intros H. do 8 (destruct l as [|? l]; try discriminate H). by repeat eexists. Qed.

Lemma isPassword_spec password p : Forall (is_u 8) password -> length (tailData p) = 7%nat ->
  isPassword uninit buffer password p =
  Ret (hasPassword p && bool_decide (tailData p = password_tail password)).
Proof.
  intros Hp Hl. unfold isPassword. destruct (hasPassword p) eqn:Hh; [|done].
  unfold hasPassword in Hh. apply Z.eqb_eq in Hh. rewrite hashBytes_spec, Hh by done. cbn [obind andb].
  destruct (seven (password_tail password) (password_tail_length password)) as (a & b & c & d & e & f & g & ->).
  destruct (seven (tailData p) Hl) as (a' & b' & c' & d' & e' & f' & g' & ->).
  change (range 0 7) with [0; 1; 2; 3; 4; 5; 6].
  destruct (decide ([a'; b'; c'; d'; e'; f'; g'] = [a; b; c; d; e; f; g])) as [E|E].
  - rewrite bool_decide_eq_true_2 by done. injection E as -> -> -> -> -> -> ->.
    cbv -[Z.eqb]. by rewrite !Z.eqb_refl.
  - rewrite bool_decide_eq_false_2 by done. cbv -[Z.eqb].
    repeat (match goal with |- context [Z.eqb ?x ?y] => destruct (Z.eqb_spec x y) as [<-|?] end; [|done]).
    congruence.
Qed.

Lemma setPassword_set old new p : new <> [] -> Forall (is_u 8) new -> length (tailData p) = 7%nat ->
  isPassword uninit buffer old p = Ret true ->
  setPassword uninit buffer old new p = Ret (with_tail (password_tail new) 7 p, true).
Proof.
  intros Hne Hn Hl Hok. unfold setPassword. rewrite Hok, hashBytes_spec by done. cbn [obind].
  rewrite bool_decide_eq_false_2 by done.
  destruct (seven (password_tail new) (password_tail_length new)) as (a & b & c & d & e & f & g & ->).
  by destruct (seven (tailData p) Hl) as (a' & b' & c' & d' & e' & f' & g' & ->).
Qed.

Lemma setPassword_removed old p : length (tailData p) = 7%nat -> isPassword uninit buffer old p = Ret true ->
  setPassword uninit buffer old [] p = Ret (with_tail (replicate 7 0) 0 p, true).
Proof.
  intros Hl Hok. unfold setPassword. rewrite Hok. cbn [obind]. rewrite bool_decide_eq_true_2 by done.
  assert (Hh : hasPassword p = true) by (unfold isPassword in Hok; by destruct (hasPassword p)).
  unfold hasPassword in Hh. apply Z.eqb_eq in Hh. rewrite Hh.
  by destruct (seven (tailData p) Hl) as (a' & b' & c' & d' & e' & f' & g' & ->).
Qed.
End passwords.

(** Passwords are bytes. *)
Definition two_lists (uninit buffer : list Z) : Prop := length uninit = 64%nat /\ length buffer = 64%nat.

(** C22: Changing the password: with the right old one the new one, if it is not
    empty, is accepted afterwards, and another password is accepted exactly when
    the first four bytes of its SHA-256 hash are the same; an empty new password
    removes the protection; with a wrong old one, and on every map that has no
    password yet, nothing changes and the call fails. *)
Theorem setPassword_spec (uninit buffer : list Z) (old new other : bytes) (p : parser)
    (Ha : two_lists uninit buffer) (Hl : length (tailData p) = 7%nat)
    (Hold : Forall (is_u 8) old) (Hnew : Forall (is_u 8) new) (Hother : Forall (is_u 8) other) :
  if hasPassword p && bool_decide (tailData p = password_tail old) then
    exists p', setPassword uninit buffer old new p = Ret (p', true) /\
      hasPassword p' = negb (bool_decide (new = [])) /\
      isPassword uninit buffer other p' =
        Ret (hasPassword p' && bool_decide (take 4 (sha256 other) = take 4 (sha256 new)))
  else setPassword uninit buffer old new p = Ret (p, false).
Proof.
  destruct Ha as [Hu Hb]. assert (Hok := isPassword_spec uninit buffer Hu Hb old p Hold Hl).
  destruct (hasPassword p && _) eqn:Hright; [|unfold setPassword; by rewrite Hok].
  destruct (decide (new = [])) as [->|Hne].
  - rewrite setPassword_removed by done. eexists. split; [done|]. split; [done|].
    by rewrite isPassword_spec.
  - rewrite setPassword_set by done. eexists. split; [done|].
    split; [by rewrite bool_decide_eq_false_2|].
    rewrite isPassword_spec by (try done; apply password_tail_length).
    change (hasPassword (with_tail (password_tail new) 7 p)) with true. cbn [andb tailData with_tail].
    f_equal. apply bool_decide_ext. unfold password_tail.
    split; [intros H; apply app_inv_tail, (inj reverse) in H; done|by intros ->].
Qed.

Definition abc_tail : list Z := [191; 22; 120; 186; 0; 0; 0].
Definition zeros : list Z := replicate 64 0.

Lemma setPassword_spec_witness :
  let p := mkParser [] [] [] abc_tail 7 true false in
  exists p', setPassword zeros zeros [97; 98; 99] [120] p = Ret (p', true) /\ hasPassword p' = true.
Proof.
  intros p. pose proof (setPassword_spec zeros zeros [97; 98; 99] [120] [121] p) as H.
  assert (E : hasPassword p && bool_decide (tailData p = password_tail [97; 98; 99]) = true) by (by vm_compute).
  rewrite E in H. destruct H as (p' & Hset & Hp & _); [by split|done|by repeat constructor..|].
  exists p'. split; [exact Hset|exact Hp].
Defined.
