(* ===== verification/ScenarioTriggers.v ===== *)
(** The triggers of a scenario (class Triggers of Scenario.cpp): the slots of
    CUWPs that triggers use, and the extended data that belongs to triggers,
    which triggers refer to by an index and which refers to its trigger by a
    number.  A pointer to extended data is its index in KTRG. *)
From S2P Require Import Prelude Codec ChkTypes ChkSection Accessors StructSections StringUsers Terrain Objects Triggers Ktrg.
Open Scope Z_scope.

(** ** Create-unit-with-properties slots *)

Definition getCuwp (uprp : UPRP.UPRP) (cuwpIndex : Z) : outcome Cuwp.Cuwp := UprpSection.getCuwp uprp cuwpIndex.
Definition setCuwp (uprp : UPRP.UPRP) (cuwpIndex : Z) (cuwp : Cuwp.Cuwp) : outcome UPRP.UPRP :=
  UprpSection.setCuwp uprp cuwpIndex cuwp.

Definition Type_CreateUnitWithProperties : Z := 11.

(** The slot an action marks as used. *)
Definition marksCuwp (action : Action.Action) : bool :=
  (Action.actionType action =? Type_CreateUnitWithProperties) && (Action.number action <? MaxCuwps).

Definition fixCuwpUsage (triggers : list Trigger.Trigger) (excludedTriggerIndex excludedTriggerActionIndex : Z)
    (upus : UPUS.UPUS) : outcome UPUS.UPUS :=
  let* upus := for_each (fun i upus => UpusSection.setCuwpUsed upus i false) (range 0 MaxCuwps) upus in
  for_each (fun triggerIndex upus =>
    let* trigger := TrigSection.getTrigger triggers triggerIndex in
    for_each (fun actionIndex upus =>
      let* action := TRG.action trigger actionIndex in
      if marksCuwp action &&
         negb ((triggerIndex =? excludedTriggerIndex) && (actionIndex =? excludedTriggerActionIndex))
      then UpusSection.setCuwpUsed upus (Action.number action) true else Ret upus)
      (range 0 MaxActions) upus)
    (range 0 (TrigSection.numTriggers triggers)) upus.

(** The sections and the index. *)
Definition addCuwp (uprp : UPRP.UPRP) (upus : UPUS.UPUS) (triggers : list Trigger.Trigger) (cuwp : Cuwp.Cuwp)
    (fixUsageBeforeAdding : bool) (excludedTriggerIndex excludedTriggerActionIndex : Z)
    : outcome (UPRP.UPRP * UPUS.UPUS * Z) :=
  let* found := UprpSection.findCuwp uprp cuwp in
  if found <? MaxCuwps then Ret (uprp, upus, found)
  else
    let* upus := if fixUsageBeforeAdding
                 then fixCuwpUsage triggers excludedTriggerIndex excludedTriggerActionIndex upus
                 else Ret upus in
    let* nextUnused := UpusSection.getNextUnusedCuwpIndex upus in
    let* uprp := if nextUnused <? MaxCuwps then UprpSection.setCuwp uprp nextUnused cuwp else Ret uprp in
    Ret (uprp, upus, nextUnused).

(** ** Extended data *)

Record Extensions := mkExtensions { trig : list Trigger.Trigger; ktrg : KtrgSection.t }.

Definition TrigNum_None : Z := 0xFFFFFFFF.

(** A round of the first loop of [fixTriggerExtensions]: the state and the
    indices in use.  The list of triggers has no null pointers. *)
Definition claimExtension (i : Z) (s : Extensions * gset Z) : outcome (Extensions * gset Z) :=
  let '(st, usedExtendedTrigDataIndexes) := s in
  let* trigger := TrigSection.getTrigger (trig st) i in
  let extendedDataIndex := TRG.getExtendedDataIndex trigger in
  if extendedDataIndex =? TRG.ExtendedTrigDataIndex_None then Ret s
  else
    let* extension := KtrgSection.getExtendedTrigger (ktrg st) extendedDataIndex in
    match extension with
    | Some d =>
        if bool_decide (extendedDataIndex ∈ usedExtendedTrigDataIndexes) then
          let* l := vset (trig st) i (TRG.clearExtendedDataIndex trigger) in
          Ret (mkExtensions l (ktrg st), usedExtendedTrigDataIndexes)
        else
          let* k := vset (ktrg st) extendedDataIndex (Some (d <| ExtendedTrigData.trigNum := u32 i |>)) in
          Ret (mkExtensions (trig st) k, {[extendedDataIndex]} ∪ usedExtendedTrigDataIndexes)
    | None =>
        let* l := vset (trig st) i (TRG.clearExtendedDataIndex trigger) in
        Ret (mkExtensions l (ktrg st), usedExtendedTrigDataIndexes)
    end.

(** A round of the second loop. *)
Definition adoptExtension (usedExtendedTrigDataIndexes : gset Z) (i : Z) (st : Extensions) : outcome Extensions :=
  let* extension := KtrgSection.getExtendedTrigger (ktrg st) i in
  match extension with
  | Some d =>
      if bool_decide (i ∈ usedExtendedTrigDataIndexes) then Ret st
      else if negb (ExtendedTrigData.trigNum d =? TrigNum_None) then
        let* trigger := TrigSection.getTrigger (trig st) (ExtendedTrigData.trigNum d) in
        if TRG.getExtendedDataIndex trigger =? TRG.ExtendedTrigDataIndex_None then
          let* trigger := TRG.setExtendedDataIndex trigger i in
          let* l := vset (trig st) (ExtendedTrigData.trigNum d) trigger in
          Ret (mkExtensions l (ktrg st))
        else Ret st
      else
        let* k := KtrgSection.deleteExtendedTrigger (ktrg st) i in
        Ret (mkExtensions (trig st) k)
  | None => Ret st
  end.

Definition fixTriggerExtensions (st : Extensions) : outcome Extensions :=
  let* (st, used) := for_each claimExtension (range 0 (TrigSection.numTriggers (trig st))) (st, ∅) in
  for_each (adoptExtension used) (range 0 (KtrgSection.numExtendedTriggers (ktrg st))) st.

(** [addTrigger] does not look at the extensions; neither does [replaceRange],
    which returns before it would. *)
Definition addTrigger (st : Extensions) (trigger : Trigger.Trigger) : Extensions * Z :=
  let '(l, i) := TrigSection.addTrigger (trig st) trigger in (mkExtensions l (ktrg st), i).
Definition insertTrigger (st : Extensions) (triggerIndex : Z) (trigger : Trigger.Trigger) : outcome Extensions :=
  let* l := TrigSection.insertTrigger (trig st) triggerIndex trigger in
  fixTriggerExtensions (mkExtensions l (ktrg st)).
Definition deleteTrigger (st : Extensions) (triggerIndex : Z) : outcome Extensions :=
  let* l := TrigSection.deleteTrigger (trig st) triggerIndex in
  fixTriggerExtensions (mkExtensions l (ktrg st)).
Definition moveTrigger (st : Extensions) (triggerIndexFrom triggerIndexTo : Z) : outcome Extensions :=
  let* l := TrigSection.moveTrigger (trig st) triggerIndexFrom triggerIndexTo in
  fixTriggerExtensions (mkExtensions l (ktrg st)).
Definition replaceRange (st : Extensions) (beginIndex endIndex : Z) (triggers : list Trigger.Trigger)
    : outcome (Extensions * list Trigger.Trigger * list Trigger.Trigger) :=
  let* (l, triggers, result) := TrigSection.replaceRange (trig st) beginIndex endIndex triggers in
  Ret (mkExtensions l (ktrg st), triggers, result).

(** [getTriggerExtension(triggerIndex) const] *)
Definition findTriggerExtension (st : Extensions) (triggerIndex : Z) : outcome (option Z) :=
  let* trigger := TrigSection.getTrigger (trig st) triggerIndex in
  let extendedTrigDataIndex := TRG.getExtendedDataIndex trigger in
  let* extension := KtrgSection.getExtendedTrigger (ktrg st) extendedTrigDataIndex in
  Ret (match extension with Some _ => Some extendedTrigDataIndex | None => None end).

(** [getTriggerExtension(triggerIndex, addIfNotFound)] *)
Definition getTriggerExtension (st : Extensions) (triggerIndex : Z) (addIfNotFound : bool)
    : outcome (Extensions * option Z) :=
  let* found := findTriggerExtension st triggerIndex in
  match found with
  | Some i => Ret (st, Some i)
  | None =>
      if addIfNotFound then
        let* (k, i) := KtrgSection.addExtendedTrigger (ktrg st) (Some KtrgSection.blankData) in
        if negb (i =? 0) then
          let* trigger := TrigSection.getTrigger (trig st) triggerIndex in
          let* trigger := TRG.setExtendedDataIndex trigger i in
          let* l := vset (trig st) triggerIndex trigger in
          Ret (mkExtensions l k, Some i)
        else Ret (mkExtensions (trig st) k, None)
      else Ret (st, None)
  end.

Definition deleteTriggerExtension (st : Extensions) (triggerIndex : Z) : outcome Extensions :=
  let* trigger := TrigSection.getTrigger (trig st) triggerIndex in
  let extendedTrigDataIndex := TRG.getExtendedDataIndex trigger in
  if negb (extendedTrigDataIndex =? 0) then
    let* l := vset (trig st) triggerIndex (TRG.clearExtendedDataIndex trigger) in
    let* k := KtrgSection.deleteExtendedTrigger (ktrg st) extendedTrigDataIndex in
    Ret (mkExtensions l k)
  else Ret st.

Definition getCommentStringId (st : Extensions) (triggerIndex : Z) : outcome Z :=
  let* trigger := TrigSection.getTrigger (trig st) triggerIndex in TRG.getComment trigger.

(** A string id of the extended data of a trigger. *)
Definition extension_id (field : ExtendedTrigData.ExtendedTrigData -> Z) (st : Extensions) (triggerIndex : Z)
    : outcome Z :=
  let* found := findTriggerExtension st triggerIndex in
  match found with
  | Some i =>
      let* extension := KtrgSection.getExtendedTrigger (ktrg st) i in
      Ret (match extension with Some d => field d | None => 0 end)
  | None => Ret 0
  end.
Definition getExtendedCommentStringId := extension_id ExtendedTrigData.commentStringId.
Definition getExtendedNotesStringId := extension_id ExtendedTrigData.notesStringId.

Definition set_extension_id
    (set : Z -> ExtendedTrigData.ExtendedTrigData -> ExtendedTrigData.ExtendedTrigData)
    (st : Extensions) (triggerIndex stringId : Z) : outcome Extensions :=
  let* (st, found) := getTriggerExtension st triggerIndex (negb (stringId =? 0)) in
  match found with
  | Some i =>
      let* extension := KtrgSection.getExtendedTrigger (ktrg st) i in
      match extension with
      | Some d =>
          let d := set (u32 stringId) d in
          let* k := vset (ktrg st) i (Some d) in
          let st := mkExtensions (trig st) k in
          if (stringId =? 0) && KtrgSection.isBlank d then deleteTriggerExtension st triggerIndex else Ret st
      | None => Ret st
      end
  | None => Ret st
  end.
Definition setExtendedCommentStringId :=
  set_extension_id (fun id d => d <| ExtendedTrigData.commentStringId := id |>).
Definition setExtendedNotesStringId :=
  set_extension_id (fun id d => d <| ExtendedTrigData.notesStringId := id |>).
