(* ===== verification/ScenarioTriggersProps.v ===== *)
(** Properties of the triggers of a scenario: triggers and extended data refer
    to each other after [fixTriggerExtensions]; CUWP slots that triggers use are
    not given away. *)
From S2P Require Import Prelude Codec ChkTypes ChkSection Accessors StructSections StringUsers Terrain Objects Triggers TriggerStrings TriggerProps Ktrg ScenarioTriggers.
Open Scope Z_scope.

(** ** Extended data *)

Abbreviation idx := TRG.getExtendedDataIndex.
Abbreviation no_index := TRG.ExtendedTrigDataIndex_None.

(** The owner bits that would be joined with an index are clear. *)
Definition clear_owners (t : Trigger.Trigger) : Prop := Z.land (TRG.ownersWord t) 0x010101 = 0.

(** Triggers and extended data belong together: the data of a trigger has its
    number, and data belongs to a trigger that has data. *)
Record linked (st : Extensions) : Prop := {
  linked_trigger : forall j t, vget (trig st) j = Ret t -> idx t <> no_index ->
    exists d, ext (ktrg st) (idx t) = Some d /\ ExtendedTrigData.trigNum d = j;
  linked_data : forall e d, 0 <= e -> ext (ktrg st) e = Some d ->
    exists t, vget (trig st) (ExtendedTrigData.trigNum d) = Ret t /\ idx t <> no_index
}.

(** Triggers that can refer to the extended data there is. *)
Record indexable (st : Extensions) : Prop := {
  fix_triggers : Forall (cwf Trigger.layout) (trig st);
  fix_count : zlen (trig st) < 2 ^ 32;
  fix_owners : Forall (fun t => idx t = no_index -> clear_owners t) (trig st);
  fix_index : forall e d, 0 <= e -> ext (ktrg st) e = Some d -> valid_index e
}.

(** The number of the data at [e] is none or that of a trigger, unless a trigger
    refers to it. *)
Definition numbered (st : Extensions) (e : Z) : Prop := forall d, ext (ktrg st) e = Some d ->
  ExtendedTrigData.trigNum d = TrigNum_None \/ 0 <= ExtendedTrigData.trigNum d < zlen (trig st) \/
  exists j t, vget (trig st) j = Ret t /\ idx t = e.

(** The data at [e] has the number of a trigger that does not exist, and no
    trigger refers to it. *)
Definition dangling (st : Extensions) (e : Z) : Prop := exists d, ext (ktrg st) e = Some d /\
  ExtendedTrigData.trigNum d <> TrigNum_None /\ ~ (0 <= ExtendedTrigData.trigNum d < zlen (trig st)) /\
  forall j t, vget (trig st) j = Ret t -> idx t <> e.

Lemma numbered_or_dangling st e : numbered st e \/ dangling st e.
Proof.
  destruct (ext (ktrg st) e) as [d|] eqn:E; [|left; intros d Hd; congruence].
  destruct (decide (ExtendedTrigData.trigNum d = TrigNum_None)); [left; intros d' Hd'; left; congruence|].
  destruct (decide (0 <= ExtendedTrigData.trigNum d < zlen (trig st))) as [Hr|Hr].
  { left. intros d' Hd'. right. left. by assert (d' = d) as -> by congruence. }
  destruct (decide (Exists (fun t => idx t = e) (trig st))) as [(t & Ht & Hidx)%Exists_exists|Hno].
  - left. intros d' _. right. right. apply list_elem_of_lookup in Ht as [i Hi]. exists (Z.of_nat i), t.
    split; [|done]. apply vget_Some; [lia|]. by rewrite Nat2Z.id.
  - right. exists d. split_and!; [done..|]. intros j t Ht Hidx. apply Hno, Exists_exists. exists t. split; [by eapply vget_elem | done].
Qed.

Lemma vget_Forall {A} (P : A -> Prop) l i a : Forall P l -> vget l i = Ret a -> P a.
Proof. intros H [_ Hi]%vget_inv. exact (proj1 (Forall_lookup _ _) H _ _ Hi). Qed.

Lemma ext_insert (l : KtrgSection.t) i v j : 0 <= i < zlen l -> 0 <= j ->
  ext (<[Z.to_nat i := v]> l) j = if decide (j = i) then v else ext l j.
Proof.
  intros Hi Hj. unfold ext, zlen in *. case_decide as E.
  - subst. by rewrite list_lookup_insert_eq by lia.
  - by rewrite list_lookup_insert_ne by lia.
Qed.

Lemma ext_bound (l : KtrgSection.t) i d : 0 <= i -> ext l i = Some d -> i < zlen l.
Proof.
  intros Hi. unfold ext. destruct (l !! Z.to_nat i) as [o|] eqn:E; [|done].
  apply lookup_lt_Some in E. unfold zlen. lia.
Qed.

Lemma idx_nonneg t : 0 <= idx t.
Proof.
  unfold TRG.getExtendedDataIndex. destruct (_ >? 0); [|by vm_compute].
  destruct (Z.gtb_spec (Z.land (TRG.ownersWord t) TRG.ExtendedTrigDataIndex_GetIndex) 0); [lia|by vm_compute].
Qed.

Lemma cwf_setOwners w t : cwf Trigger.layout t -> cwf Trigger.layout (TRG.setOwnersWord w t).
Proof.
  intros Ht. destruct t as [c a f o n]. unfold TRG.setOwnersWord.
  destruct Ht as [[Hc [Hl Ho]] Hn]. split; [|exact Hn]. split; [exact Hc|].
  refine (conj (_ : length (take 22 o ++ le_enc 4 w ++ drop 26 o) = 27%nat)
    (_ : Forall (is_u 8) (take 22 o ++ le_enc 4 w ++ drop 26 o))); change (length o = 27%nat) in Hl.
  - rewrite !length_app, length_take, length_drop, le_enc_length. lia.
  - rewrite !Forall_app. split_and!; [by apply Forall_take|apply le_enc_bytes|by apply Forall_drop].
Qed.

Lemma clear_index t : cwf Trigger.layout t ->
  idx (TRG.clearExtendedDataIndex t) = no_index /\ clear_owners (TRG.clearExtendedDataIndex t) /\
  cwf Trigger.layout (TRG.clearExtendedDataIndex t).
Proof.
  intros Ht. unfold TRG.clearExtendedDataIndex, TRG.getExtendedDataIndex, clear_owners.
  rewrite ownersWord_set by done. split_and!; [done|done|by apply cwf_setOwners].
Qed.

Lemma set_index t e : cwf Trigger.layout t -> valid_index e -> clear_owners t ->
  exists t', TRG.setExtendedDataIndex t e = Ret t' /\ idx t' = e /\ cwf Trigger.layout t'.
Proof.
  intros Ht He Hc. destruct (setExtendedDataIndex_valid t e Ht He) as (w & Hw & Hs & Hg).
  eexists. split; [exact Hs|]. split; [|by apply cwf_setOwners]. rewrite Hg, Hc. apply Z.lor_0_l.
Qed.

(** An unusable index has no bit but the lowest of each byte. *)
Lemma low_bits k e : KtrgSection.unusable e = true -> 0 <= k -> Z.land 254 (Z.shiftr KtrgSection.UnusedExtendedTrigDataIndexCheck (8 * k)) = 254 ->
  Z.shiftr e (8 * k) mod 256 = 0 \/ Z.shiftr e (8 * k) mod 256 = 1.
Proof.
  intros H%Z.eqb_eq Hk Hm. set (b := Z.shiftr e (8 * k) mod 256).
  assert (Hb : Z.land b 254 = 0).
  { unfold b. change 256 with (2 ^ 8). rewrite <- Z.land_ones by lia.
    rewrite <- Hm, <- Z.land_assoc, (Z.land_comm (Z.ones 8)), (Z.land_comm 254).
    rewrite !Z.land_assoc, <- Z.shiftr_land, H. by rewrite Z.shiftr_0_l, !Z.land_0_l. }
  assert (Hall : Forall (fun b => Z.land b 254 = 0 -> b = 0 \/ b = 1) (seqZ 0 256)).
  { apply (bool_decide_eq_true_1 _). vm_compute. reflexivity. }
  refine (proj1 (Forall_forall _ _) Hall b _ Hb). apply elem_of_seqZ.
  pose proof (Z.mod_pos_bound (Z.shiftr e (8 * k)) 256). fold b in H0. lia.
Qed.

Lemma valid_usable e : valid_index e -> KtrgSection.unusable e = false /\ e <> no_index.
Proof.
  intros [Hr Hn]. change TRG.ExtendedTrigDataIndex_MaxIndex with 0xFEFEFE in Hr.
  split; [|unfold TRG.ExtendedTrigDataIndex_None; lia].
  destruct (KtrgSection.unusable e) eqn:E; [|done]. exfalso. apply Hn.
  pose proof (low_bits 0 e E ltac:(lia) eq_refl) as H0. pose proof (low_bits 1 e E ltac:(lia) eq_refl) as H1.
  pose proof (low_bits 2 e E ltac:(lia) eq_refl) as H2. rewrite !Z.shiftr_div_pow2 in * by lia.
  change (2 ^ (8 * 0)) with 1 in *. change (2 ^ (8 * 1)) with 256 in *. change (2 ^ (8 * 2)) with 65536 in *.
  rewrite Z.div_1_r in *. rewrite !elem_of_cons. Z.to_euclidean_division_equations. lia.
Qed.

Lemma vget_insert_inv {A} (l : list A) i x j a : 0 <= i < zlen l -> vget (<[Z.to_nat i := x]> l) j = Ret a ->
  (j = i /\ a = x) \/ (j <> i /\ vget l j = Ret a).
Proof.
  intros Hi H. destruct (vget_inv _ _ _ H) as [Hj _]. rewrite vget_vset in H by lia.
  case_decide; [left|right; done]. by injection H as ->.
Qed.

(** Extended data that differs in the number of its trigger at most. *)
Definition same_data (o o' : option ExtendedTrigData.ExtendedTrigData) : Prop :=
  match o, o' with
  | None, None => True
  | Some d, Some d' => d' = d <| ExtendedTrigData.trigNum := ExtendedTrigData.trigNum d' |>
  | _, _ => False
  end.

Lemma same_data_refl o : same_data o o.
Proof. destruct o as [[]|]; done. Qed.

(** A loop that fails at some index of its range. *)
Lemma for_each_range_undef {S} (P : Z -> S -> Prop) (bad : Z -> Prop) (body : Z -> S -> outcome S) hi lo s :
  (forall i, Decision (bad i)) -> (exists k, lo <= k < hi /\ bad k) ->
  (forall i s, lo <= i < hi -> P i s -> ~ bad i -> exists s', body i s = Ret s' /\ P (i + 1) s') ->
  (forall i s, lo <= i < hi -> P i s -> bad i -> body i s = Undef) ->
  P lo s -> for_each body (range lo hi) s = Undef.
Proof.
  intros Hdec. revert lo s. apply (range_ind hi (fun lo => forall s, _ -> _ -> _ -> P lo s -> _)).
  - intros i Hi s (k & Hk & _). lia.
  - intros i Hi IH s (k & Hk & Hbad) Hgood Hfail Hs. rewrite range_cons by lia. cbn [for_each].
    destruct (Hdec i) as [Hb|Hb]; [by rewrite Hfail by (done || lia)|].
    destruct (Hgood i s) as (s' & -> & Hs'); [lia|done|done|]. cbn [obind].
    apply IH; [|intros; apply Hgood; (done || lia)|intros; apply Hfail; (done || lia)|done].
    exists k. split; [|done]. destruct (decide (k = i)) as [->|]; [done|lia].
Qed.

Section fixing.
Context (st0 : Extensions) (Hfix : indexable st0).

(** The first trigger that refers to existing data. *)
Definition first_user (j : Z) (t : Trigger.Trigger) : Prop :=
  vget (trig st0) j = Ret t /\ idx t <> no_index /\ ext (ktrg st0) (idx t) <> None /\
  forall j' t', j' < j -> vget (trig st0) j' = Ret t' -> idx t' <> idx t.

(** After the triggers below [i]. *)
Record claimed (i : Z) (s : Extensions * gset Z) : Prop := {
  c_len : zlen (trig s.1) = zlen (trig st0);
  c_klen : zlen (ktrg s.1) = zlen (ktrg st0);
  c_wf : Forall (cwf Trigger.layout) (trig s.1);
  c_owners : Forall (fun t => idx t = no_index -> clear_owners t) (trig s.1);
  c_later : forall j, i <= j -> vget (trig s.1) j = vget (trig st0) j;
  c_done : forall j t, j < i -> vget (trig s.1) j = Ret t -> idx t <> no_index ->
    idx t ∈ s.2 /\ exists d, ext (ktrg s.1) (idx t) = Some d /\ ExtendedTrigData.trigNum d = j;
  c_used : forall e, e ∈ s.2 -> 0 <= e /\ exists j t, j < i /\ vget (trig s.1) j = Ret t /\ idx t = e /\ e <> no_index;
  c_orig : forall e, e ∈ s.2 -> exists j t, j < i /\ vget (trig st0) j = Ret t /\ idx t = e;
  c_cover : forall j t, j < i -> vget (trig st0) j = Ret t -> idx t <> no_index ->
    ext (ktrg st0) (idx t) <> None -> idx t ∈ s.2;
  c_data : forall e, 0 <= e -> same_data (ext (ktrg st0) e) (ext (ktrg s.1) e) /\
    (e ∉ s.2 -> ext (ktrg s.1) e = ext (ktrg st0) e);
  c_keep : forall j t, j < i -> first_user j t -> vget (trig s.1) j = Ret t
}.

Lemma claimed_start : claimed 0 (st0, ∅).
Proof.
  destruct Hfix. split; try done.
  - intros j t Hj [Hr _]%vget_inv. lia.
  - intros j t Hj [Hr _]%vget_inv. lia.
  - intros e He. split; [apply same_data_refl|done].
  - by intros j t Hj [H _].
Qed.

(** A trigger that loses its index. *)
Lemma claimed_clear i s t : 0 <= i -> claimed i s -> vget (trig s.1) i = Ret t ->
  (ext (ktrg st0) (idx t) = None \/ idx t ∈ s.2) ->
  claimed (i + 1) (mkExtensions (<[Z.to_nat i := TRG.clearExtendedDataIndex t]> (trig s.1)) (ktrg s.1), s.2).
Proof.
  intros Hi [Hlen Hklen Hwf Hown Hlater Hdone Hused Horig Hcover Hdata Hkeep] Ht Hcase.
  assert (Hr : 0 <= i < zlen (trig s.1)) by (apply vget_inv in Ht; tauto).
  destruct (clear_index t) as (Hc1 & Hc2 & Hc3); [by eapply vget_Forall|].
  assert (Ht0 : vget (trig st0) i = Ret t) by (by rewrite <- Hlater by lia).
  split; cbn [trig ktrg fst snd].
  - by rewrite zlen_insert.
  - done.
  - by apply Forall_insert.
  - by apply Forall_insert.
  - intros j Hj. rewrite vget_vset by lia. rewrite decide_False by lia. apply Hlater. lia.
  - intros j u Hj Hu Hne. apply vget_insert_inv in Hu as [[-> ->]|[Hji Hu]]; [done| |done].
    apply Hdone; [lia|done|done].
  - intros e He. destruct (Hused e He) as (H0 & j & u & Hj & Hu & Hidx). split; [done|].
    exists j, u. split; [lia|]. split; [|done]. destruct (vget_inv _ _ _ Hu) as [Hju _].
    rewrite vget_vset by lia. by rewrite decide_False by lia.
  - intros e He. destruct (Horig e He) as (j & u & Hj & Hu). exists j, u. split; [lia|done].
  - intros j u Hj Hu Hne Hext. destruct (decide (j = i)) as [->|]; [|apply (Hcover j u); [lia|done..]].
    rewrite Ht0 in Hu. injection Hu as <-. tauto.
  - done.
  - intros j u Hj Hu. destruct (vget_inv _ _ _ (proj1 Hu)) as [Hju _]. destruct (decide (j = i)) as [->|].
    + exfalso. destruct Hu as (Hu & _ & Hext & Hfirst). rewrite Ht0 in Hu. injection Hu as <-.
      destruct Hcase as [Hn|Hin]; [done|]. destruct (Horig _ Hin) as (j' & t' & Hj' & Ht' & E).
      by apply (Hfirst j' t').
    + rewrite vget_vset by lia. rewrite decide_False by lia. apply Hkeep; [lia|done].
Qed.

(** A trigger that keeps its index. *)
Lemma claimed_claim i s t d : 0 <= i -> claimed i s -> vget (trig s.1) i = Ret t ->
  idx t <> no_index -> ext (ktrg s.1) (idx t) = Some d -> idx t ∉ s.2 ->
  claimed (i + 1) (mkExtensions (trig s.1)
    (<[Z.to_nat (idx t) := Some (d <| ExtendedTrigData.trigNum := i |>)]> (ktrg s.1)), {[idx t]} ∪ s.2).
Proof.
  intros Hi [Hlen Hklen Hwf Hown Hlater Hdone Hused Horig Hcover Hdata Hkeep] Ht Hne Hd Hnot.
  assert (He := idx_nonneg t). assert (Hb := ext_bound _ _ _ He Hd).
  assert (Ht0 : vget (trig st0) i = Ret t) by (by rewrite <- Hlater by lia).
  split; cbn [trig ktrg fst snd].
  - done.
  - by rewrite zlen_insert.
  - done.
  - done.
  - intros j Hj. apply Hlater. lia.
  - intros j u Hj Hu Hun. destruct (decide (j = i)) as [->|].
    + rewrite Ht in Hu. injection Hu as <-. split; [set_solver|].
      rewrite ext_insert, decide_True by done. eexists. split; [done|]. apply upd_get.
    + destruct (Hdone j u) as [Hin (d' & Hd' & Hn)]; [lia|done|done|].
      split; [set_solver|]. rewrite ext_insert, decide_False by (done || lia || apply idx_nonneg || congruence). eauto.
  - intros e [->%elem_of_singleton|Hin]%elem_of_union.
    + split; [done|]. exists i, t. split; [lia|done].
    + destruct (Hused e Hin) as (H0 & j & u & Hj & Hu). split; [done|]. exists j, u. split; [lia|done].
  - intros e [->%elem_of_singleton|Hin]%elem_of_union.
    + exists i, t. split; [lia|done].
    + destruct (Horig e Hin) as (j & u & Hj & Hu). exists j, u. split; [lia|done].
  - intros j u Hj Hu Hun Hext. destruct (decide (j = i)) as [->|].
    + rewrite Ht0 in Hu. injection Hu as <-. set_solver.
    + apply elem_of_union_r, (Hcover j u); [lia|done..].
  - intros e He'. rewrite ext_insert by done. destruct (Hdata e He') as [Hsame Hout]. case_decide as E.
    + subst e. split; [|set_solver]. rewrite (Hout Hnot) in Hd. rewrite Hd. cbn [same_data].
      by rewrite upd_get.
    + split; [done|]. intros Hn. apply Hout. set_solver.
  - intros j u Hj Hu. destruct (decide (j = i)) as [->|]; [|apply Hkeep; [lia|done]].
    destruct Hu as [Hu _]. by rewrite Ht0 in Hu; injection Hu as <-.
Qed.

(** A trigger without an index. *)
Lemma claimed_skip i s t : 0 <= i -> claimed i s -> vget (trig s.1) i = Ret t -> idx t = no_index -> claimed (i + 1) s.
Proof.
  intros Hi [Hlen Hklen Hwf Hown Hlater Hdone Hused Horig Hcover Hdata Hkeep] Ht Hno.
  assert (Ht0 : vget (trig st0) i = Ret t) by (by rewrite <- Hlater by lia).
  split; try done.
  - intros j Hj. apply Hlater. lia.
  - intros j u Hj Hu Hun. apply Hdone; [|done|done]. destruct (decide (j = i)); [congruence|lia].
  - intros e He. destruct (Hused e He) as (H0 & j & u & Hj & Hu). split; [done|]. exists j, u. split; [lia|done].
  - intros e He. destruct (Horig e He) as (j & u & Hj & Hu). exists j, u. split; [lia|done].
  - intros j u Hj Hu Hun Hext. apply (Hcover j u); [|done..]. destruct (decide (j = i)); [congruence|lia].
  - intros j u Hj Hu. apply Hkeep; [|done]. destruct (decide (j = i)) as [->|]; [|lia].
    destruct Hu as (Hu & Hun & _). congruence.
Qed.

Lemma claims_all : exists s,
  for_each claimExtension (range 0 (TrigSection.numTriggers (trig st0))) (st0, ∅) = Ret s /\ claimed (zlen (trig st0)) s.
Proof.
  pose proof (zlen_nonneg (trig st0)). change (TrigSection.numTriggers (trig st0)) with (zlen (trig st0)).
  apply (for_each_range_inv claimed); [done| |apply claimed_start].
  intros i s Hi Hs. destruct (vget_in (trig s.1) i) as (t & _ & Ht); [rewrite (c_len i s Hs); lia|].
  unfold claimExtension. destruct s as [st used]. cbn [fst snd] in *.
  change (TrigSection.getTrigger (trig st) i) with (vget (trig st) i). rewrite Ht. cbn [obind].
  assert (Ht0 : vget (trig st0) i = Ret t) by (by rewrite <- (c_later _ _ Hs) by lia).
  destruct (Z.eqb_spec (idx t) no_index) as [Hno|Hne].
  - eexists. split; [done|]. by apply (claimed_skip i (st, used) t); [lia|..].
  - rewrite getExtendedTrigger_ext by apply idx_nonneg. cbn [obind].
    assert (Hr : 0 <= i < zlen (trig st)) by (apply vget_inv in Ht; tauto).
    destruct (ext (ktrg st) (idx t)) as [d|] eqn:Hd.
    + case_bool_decide as Hin.
      * rewrite vset_in by done. cbn [obind]. eexists. split; [done|].
        apply (claimed_clear i (st, used) t); [lia|done|done|by right].
      * assert (Hb := ext_bound _ _ _ (idx_nonneg t) Hd). pose proof (idx_nonneg t).
        rewrite vset_in by lia. cbn [obind]. eexists. split; [done|].
        rewrite u32_id by (pose proof (fix_count _ Hfix); unfold is_u; lia).
        apply (claimed_claim i (st, used) t d); [lia|done..].
    + rewrite vset_in by done. cbn [obind]. eexists. split; [done|].
      apply (claimed_clear i (st, used) t); [lia|done|done|left].
      destruct (c_data _ _ Hs (idx t) (idx_nonneg t)) as [Hsame _]. cbn [fst] in Hsame. rewrite Hd in Hsame.
      by destruct (ext (ktrg st0) (idx t)).
Qed.

(** After the extended data below [k], with the state [s1] and the indices in use
    that the first loop left. *)
Record adopted (s1 : Extensions) (used : gset Z) (k : Z) (st : Extensions) : Prop := {
  a_len : zlen (trig st) = zlen (trig st0);
  a_wf : Forall (cwf Trigger.layout) (trig st);
  a_owners : Forall (fun t => idx t = no_index -> clear_owners t) (trig st);
  a_trigger : forall j t, vget (trig st) j = Ret t -> idx t <> no_index ->
    (idx t ∈ used \/ idx t < k) /\ exists d, ext (ktrg st) (idx t) = Some d /\ ExtendedTrigData.trigNum d = j;
  a_data : forall e d, 0 <= e -> ext (ktrg st) e = Some d -> e ∈ used \/ e < k ->
    exists t, vget (trig st) (ExtendedTrigData.trigNum d) = Ret t /\ idx t <> no_index;
  a_later : forall e, 0 <= e -> k <= e -> ext (ktrg st) e = ext (ktrg s1) e;
  a_sub : forall e d, 0 <= e -> ext (ktrg st) e = Some d -> ext (ktrg s1) e = Some d;
  a_keep : forall j t, vget (trig s1) j = Ret t -> idx t <> no_index -> vget (trig st) j = Ret t
}.

Lemma adopted_start s1 used : claimed (zlen (trig st0)) (s1, used) -> adopted s1 used 0 s1.
Proof.
  intros [Hlen Hklen Hwf Hown Hlater Hdone Hused Horig Hcover Hdata Hkeep]. cbn [fst snd] in *. split; try done.
  - intros j t Ht Hne. destruct (vget_inv _ _ _ Ht) as [Hj _].
    destruct (Hdone j t) as [Hin Hd]; [lia|done|done|]. auto.
  - intros e d He Hd [Hin|Hlt]; [|lia]. destruct (Hused e Hin) as (_ & j & t & Hj & Ht & <- & Hne).
    destruct (Hdone j t Hj Ht Hne) as [_ (d' & Hd' & <-)]. rewrite Hd in Hd'. injection Hd' as <-. eauto.
Qed.

Section adopting.
Context (s1 : Extensions) (used : gset Z) (k : Z) (st : Extensions) (Hc : claimed (zlen (trig st0)) (s1, used))
  (Hk : 0 <= k) (Ha : adopted s1 used k st).

Lemma adopted_idle :
  (forall d, ext (ktrg st) k = Some d -> exists t, vget (trig st) (ExtendedTrigData.trigNum d) = Ret t /\ idx t <> no_index) ->
  adopted s1 used (k + 1) st.
Proof.
  intros Hown. destruct Ha as [Hlen Hwf Ho Htr Hda Hla Hsub Hke]. split; try done.
  - intros j t Ht Hne. destruct (Htr j t Ht Hne) as [[?|?] ?]; (split; [|done]); [by left|right; lia].
  - intros e d He Hd Hor. destruct (decide (e = k)) as [->|]; [by apply Hown|]. apply (Hda e d He Hd).
    destruct Hor; [by left|right; lia].
  - intros e He Hle. apply Hla; lia.
Qed.

(** Data is where a trigger can refer to it. *)
Lemma adopted_valid e d : 0 <= e -> ext (ktrg st) e = Some d -> valid_index e.
Proof.
  intros He Hd. apply (a_sub _ _ _ _ Ha) in Hd; [|done]. destruct (c_data _ _ Hc e He) as [Hsame _].
  cbn [fst] in Hsame. rewrite Hd in Hsame. destruct (ext (ktrg st0) e) as [d0|] eqn:E0; [|done].
  by apply (fix_index _ Hfix e d0).
Qed.

Lemma adopted_delete l' : k ∉ used -> ext l' k = None ->
  (forall e, 0 <= e -> e <> k -> ext l' e = ext (ktrg st) e \/ (ext l' e = None /\ KtrgSection.unusable e = true)) ->
  adopted s1 used (k + 1) (mkExtensions (trig st) l').
Proof.
  intros Hin Hk' Hl'.
  assert (Hl : forall e, 0 <= e -> ext l' e = if decide (e = k) then None else ext (ktrg st) e).
  { intros e He. case_decide as E; [by subst|]. destruct (Hl' e He E) as [?|[E1 Hu]]; [done|].
    destruct (ext (ktrg st) e) as [d|] eqn:E2; [|done].
    destruct (valid_usable e (adopted_valid e d He E2)). congruence. }
  destruct Ha as [Hlen Hwf Ho Htr Hda Hla Hsub Hke]. split; cbn [trig ktrg]; try done.
  - intros j t Ht Hne. destruct (Htr j t Ht Hne) as [Hor (d & Hd & Hn)].
    assert (idx t <> k) by (intros E; rewrite E in Hor; destruct Hor; [done|lia]).
    split; [destruct Hor; [by left|right; lia]|]. exists d. by rewrite Hl, decide_False by (done || apply idx_nonneg).
  - intros e d He Hd Hor. rewrite Hl in Hd by done. case_decide; [done|]. apply (Hda e d He Hd).
    destruct Hor; [by left|right; lia].
  - intros e He Hle. rewrite Hl, decide_False by lia. apply Hla; lia.
  - intros e d He Hd. rewrite Hl in Hd by done. case_decide; [done|]. by apply Hsub.
Qed.

Lemma adopted_link d t t' : ext (ktrg st) k = Some d -> vget (trig st) (ExtendedTrigData.trigNum d) = Ret t ->
  idx t = no_index -> idx t' = k -> cwf Trigger.layout t' ->
  adopted s1 used (k + 1) (mkExtensions (<[Z.to_nat (ExtendedTrigData.trigNum d) := t']> (trig st)) (ktrg st)).
Proof.
  intros Hd Ht Hno Hidx Hwf'. assert (Hkn : k <> no_index) by (by eapply valid_usable, adopted_valid).
  destruct (vget_inv _ _ _ Ht) as [Hr _].
  destruct Ha as [Hlen Hwf Ho Htr Hda Hla Hsub Hke]. split; cbn [trig ktrg]; try done.
  - by rewrite zlen_insert.
  - by apply Forall_insert.
  - apply Forall_insert; [done|]. congruence.
  - intros j u Hu Hne. apply vget_insert_inv in Hu as [[-> ->]|[Hj Hu]]; [|  |done].
    + rewrite Hidx. split; [right; lia|]. eauto.
    + destruct (Htr j u Hu Hne) as [[?|?] ?]; (split; [|done]); [by left|right; lia].
  - intros e d' He He' Hor. destruct (decide (ExtendedTrigData.trigNum d' = ExtendedTrigData.trigNum d)) as [E|E].
    + exists t'. rewrite E, vget_vset, decide_True by lia. split; [done|]. congruence.
    + assert (Hor' : e ∈ used \/ e < k).
      { destruct Hor; [by left|]. right. destruct (decide (e = k)) as [->|]; [congruence|lia]. }
      destruct (Hda e d' He He' Hor') as (u & Hu & Hun). destruct (vget_inv _ _ _ Hu) as [Hj _].
      exists u. rewrite vget_vset, decide_False by (done || lia). done.
  - intros e He Hle. apply Hla; lia.
  - intros j u Hu Hne. assert (Hu' := Hke j u Hu Hne). destruct (vget_inv _ _ _ Hu') as [Hj _].
    rewrite vget_vset by lia. case_decide as E; [|done]. exfalso. rewrite E in Hu'. congruence.
Qed.

(** Data that no trigger refers to has the number of a trigger, or none. *)
Lemma adopted_number d : numbered st0 k -> k ∉ used -> ext (ktrg st) k = Some d -> ExtendedTrigData.trigNum d <> TrigNum_None ->
  0 <= ExtendedTrigData.trigNum d < zlen (trig st).
Proof.
  intros Hnum Hin Hd Hsome.
  assert (Hd0 : ext (ktrg st0) k = Some d).
  { rewrite <- (proj2 (c_data _ _ Hc k Hk) Hin). cbn [fst]. by rewrite <- (a_later _ _ _ _ Ha k) by lia. }
  rewrite (a_len _ _ _ _ Ha).
  destruct (Hnum d Hd0) as [?|[?|(j & t & Ht & Hidx)]]; [done|lia|exfalso].
  apply Hin. rewrite <- Hidx. destruct (vget_inv _ _ _ Ht) as [Hj _].
  apply (c_cover _ _ Hc j t); [lia|done| |].
  - rewrite Hidx. by apply valid_usable, (fix_index _ Hfix k d).
  - by rewrite Hidx, Hd0.
Qed.

Lemma adopted_step : numbered st0 k -> exists st', adoptExtension used k st = Ret st' /\ adopted s1 used (k + 1) st'.
Proof.
  intros Hnum. unfold adoptExtension. rewrite getExtendedTrigger_ext by done. cbn [obind].
  assert (Hidle := adopted_idle).
  destruct (ext (ktrg st) k) as [d|] eqn:Hd; [|eexists; split; [done|by apply Hidle]].
  case_bool_decide as Hin.
  { eexists. split; [done|]. apply Hidle. intros d' [= <-]. apply (a_data _ _ _ _ Ha k d Hk Hd). by left. }
  destruct (Z.eqb_spec (ExtendedTrigData.trigNum d) TrigNum_None) as [Hnone|Hsome]; cbn [negb].
  - destruct (delete_ext (ktrg st) k Hk) as (l' & -> & Hk' & Hl'). eexists. split; [done|]. by apply adopted_delete.
  - assert (Hr := adopted_number d Hnum Hin Hd Hsome).
    destruct (vget_in (trig st) (ExtendedTrigData.trigNum d) Hr) as (t & _ & Ht).
    unfold TrigSection.getTrigger, get_object. rewrite Ht. cbn [obind].
    destruct (Z.eqb_spec (idx t) no_index) as [Hno|Hyes]; [|eexists; split; [done|apply Hidle; intros d' [= <-]; eauto]].
    destruct (set_index t k) as (t' & -> & Hidx & Hwf');
      [exact (vget_Forall _ _ _ _ (a_wf _ _ _ _ Ha) Ht)|by eapply adopted_valid
      |exact (vget_Forall _ _ _ _ (a_owners _ _ _ _ Ha) Ht Hno)|].
    cbn [obind]. rewrite vset_in by done. eexists. split; [done|]. by apply (adopted_link d t t').
Qed.

(** Without such a number a trigger is read that does not exist. *)
Lemma adopt_dangling d : k ∉ used -> ext (ktrg s1) k = Some d -> ExtendedTrigData.trigNum d <> TrigNum_None ->
  ~ (0 <= ExtendedTrigData.trigNum d < zlen (trig st0)) -> adoptExtension used k st = Undef.
Proof.
  intros Hin Hd Hsome Hout. unfold adoptExtension. rewrite getExtendedTrigger_ext by done. cbn [obind].
  rewrite (a_later _ _ _ _ Ha) by lia. rewrite Hd, bool_decide_eq_false_2 by done.
  rewrite (proj2 (Z.eqb_neq _ _)) by done. cbn [negb]. unfold TrigSection.getTrigger, get_object.
  destruct (vget (trig st) (ExtendedTrigData.trigNum d)) as [t| |] eqn:Et; [|by unfold vget in Et; repeat case_match|done].
  apply vget_inv in Et as [Et _]. by rewrite (a_len _ _ _ _ Ha) in Et.
Qed.
End adopting.

Lemma adopts_all s1 used : claimed (zlen (trig st0)) (s1, used) -> (forall e, 0 <= e -> numbered st0 e) -> exists st',
  for_each (adoptExtension used) (range 0 (KtrgSection.numExtendedTriggers (ktrg s1))) s1 = Ret st' /\
  adopted s1 used (zlen (ktrg s1)) st'.
Proof.
  intros Hc Hnum. apply (for_each_range_inv (adopted s1 used)); [apply zlen_nonneg| |by apply adopted_start].
  intros k st Hk Ha. apply adopted_step; [done|lia|done|]. apply Hnum. lia.
Qed.

(** Data that dangles makes the second loop read a trigger that does not exist. *)
Lemma fix_dangles e : 0 <= e -> dangling st0 e -> fixTriggerExtensions st0 = Undef.
Proof.
  intros He (d & Hd & Hsome & Hout & Hno). destruct claims_all as ([s1 used] & Hclaim & Hc).
  unfold fixTriggerExtensions. rewrite Hclaim. cbn [obind].
  pose (bad := fun k => (k ∉ used) /\ match ext (ktrg s1) k with
    | Some d => ExtendedTrigData.trigNum d <> TrigNum_None /\ ~ (0 <= ExtendedTrigData.trigNum d < zlen (trig st0))
    | None => False end).
  assert (Hbad : bad e).
  { assert (Hfree : e ∉ used) by (intros (j & t & _ & Ht & E)%(c_orig _ _ Hc); by apply (Hno j t)).
    split; [done|]. pose proof (proj2 (c_data _ _ Hc e He) Hfree) as E. cbn [fst] in E. by rewrite E, Hd. }
  apply (for_each_range_undef (adopted s1 used) bad).
  - intros k. unfold bad. destruct (ext (ktrg s1) k); apply _.
  - exists e. split; [|done]. destruct Hbad as [_ Hb]. destruct (ext (ktrg s1) e) as [d'|] eqn:E; [|done].
    split; [done|]. by apply (ext_bound _ _ d').
  - intros k s Hk Ha Hgood. apply (adopted_step s1 used); [done|lia|done|].
    destruct (numbered_or_dangling st0 k) as [|(d' & Hd' & Hs' & Ho' & Hn')]; [done|]. exfalso. apply Hgood.
    assert (Hfree : k ∉ used) by (intros (j & t & _ & Ht & E)%(c_orig _ _ Hc); by apply (Hn' j t)).
    split; [done|]. pose proof (proj2 (c_data _ _ Hc k ltac:(lia)) Hfree) as E. cbn [fst] in E. by rewrite E, Hd'.
  - intros k s Hk Ha [Hin Hb]. destruct (ext (ktrg s1) k) as [d'|] eqn:E; [|done].
    destruct Hb as [Hb1 Hb2]. exact (adopt_dangling s1 used k s ltac:(lia) Ha d' Hin E Hb1 Hb2).
  - by apply adopted_start.
Qed.
End fixing.

(** C12: [fixTriggerExtensions] for triggers and extended data whose indices can be
    stored.  When no extended data dangles, that is, has the number of a trigger
    that does not exist while no trigger refers to it, triggers and extended data
    belong together afterwards: the extended data of every trigger exists and has
    the number of the trigger (so no two triggers share any), and all extended
    data is that of a trigger, or of a trigger that has other data.  No trigger is
    lost; the first trigger that refers to existing data keeps it unchanged; data
    that stays changes in its number at most.  When some data dangles, its
    behaviour is undefined: the trigger of that number is read. *)
Theorem fixTriggerExtensions_links (st : Extensions) (H : indexable st) :
  ((forall e, 0 <= e -> ~ dangling st e) ->
    exists st', fixTriggerExtensions st = Ret st' /\ linked st' /\ zlen (trig st') = zlen (trig st) /\
      (forall j t, first_user st j t -> vget (trig st') j = Ret t) /\
      (forall e, 0 <= e -> ext (ktrg st') e <> None -> same_data (ext (ktrg st) e) (ext (ktrg st') e))) /\
  (forall e, 0 <= e -> dangling st e -> fixTriggerExtensions st = Undef).
Proof.
  split; [|exact (fix_dangles st H)]. intros Hnone.
  assert (Hnum : forall e, 0 <= e -> numbered st e).
  { intros e He. destruct (numbered_or_dangling st e) as [|Hd]; [done|]. by destruct (Hnone e He). }
  destruct (claims_all st H) as ([s1 used] & Hclaim & Hc). destruct (adopts_all st H s1 used Hc Hnum) as (st' & Hadopt & Ha).
  exists st'. split; [unfold fixTriggerExtensions; rewrite Hclaim; exact Hadopt|].
  split; [|split; [apply (a_len _ _ _ _ _ Ha)|split]].
  - split.
    + intros j t Ht Hne. apply (a_trigger _ _ _ _ _ Ha j t Ht Hne).
    + intros e d He Hd. apply (a_data _ _ _ _ _ Ha e d He Hd). right.
      apply (ext_bound _ _ d He). by apply (a_sub _ _ _ _ _ Ha).
  - intros j t Hu. assert (Hu' := Hu). destruct Hu' as (Ht & Hne & _). destruct (vget_inv _ _ _ Ht) as [Hj _].
    apply (a_keep _ _ _ _ _ Ha); [|done]. apply (c_keep _ _ _ Hc j t); [lia|done].
  - intros e He Hn. destruct (ext (ktrg st') e) as [d|] eqn:E; [|done].
    apply (a_sub _ _ _ _ _ Ha) in E; [|done]. rewrite <- E. apply (c_data _ _ _ Hc e He).
Qed.

(** One trigger has extended data twice, one has none that exists. *)
Definition extended_sample (i : Z) : Trigger.Trigger := TRG.setOwnersWord i move_sample.
Definition shared_sample : Extensions :=
  mkExtensions [extended_sample 2; extended_sample 2; extended_sample 6] ktrg_sample.

Lemma sample_ext e d : 0 <= e -> ext ktrg_sample e = Some d ->
  e = 2 /\ d = ExtendedTrigData.mkExtendedTrigData 7 0 0 0 0.
Proof.
  intros He Hd. assert (Hb := ext_bound _ _ _ He Hd). change (zlen ktrg_sample) with 4 in Hb.
  assert (E : e = 0 \/ e = 1 \/ e = 2 \/ e = 3) by lia.
  destruct E as [ -> | [ -> | [ -> | -> ] ] ]; vm_compute in Hd; try done. split; [done|]. by injection Hd as <-.
Qed.

Lemma shared_sample_ok : indexable shared_sample /\ forall e, 0 <= e -> numbered shared_sample e.
Proof.
  assert (Hw : cwf Trigger.layout move_sample) by exact (Forall_inv move_sample_wf).
  split; [split|].
  - repeat (apply Forall_cons_2; [by apply cwf_setOwners|]). by apply Forall_nil_2.
  - by vm_compute.
  - repeat (apply Forall_cons_2; [intros E; by vm_compute in E|]). by apply Forall_nil_2.
  - intros e d He Hd. destruct (sample_ext e d He Hd) as [-> _]. split; [by vm_compute|].
    apply (bool_decide_eq_true_1 _). by vm_compute.
  - intros e He d Hd. destruct (sample_ext e d He Hd) as [-> ->]. right. left. by vm_compute.
Qed.

Lemma fixTriggerExtensions_links_witness :
  exists st', fixTriggerExtensions shared_sample = Ret st' /\ linked st' /\
    vget (trig st') 0 = Ret (extended_sample 2).
Proof.
  destruct (proj1 (fixTriggerExtensions_links shared_sample (proj1 shared_sample_ok)))
    as (st' & Hf & Hl & _ & Hk & _).
  { intros e He (d & Hd & Hn & Hr & Ho). destruct (proj2 shared_sample_ok e He d Hd) as [?|[?|(j & t & Ht & E)]]; [done..|].
    by apply (Ho j t). }
  exists st'. split; [exact Hf|]. split; [exact Hl|]. apply Hk. split; [done|].
  split; [by vm_compute|]. split; [by vm_compute|]. intros j' t' Hj [Hr _]%vget_inv. lia.
Defined.

Lemma delete_last {A} (l : list A) a : vget l (zlen l - 1) = Ret a ->
  verase l (zlen l - 1) = Ret (take (length l - 1) l) /\
  forall j b, vget (take (length l - 1) l) j = Ret b <-> j < zlen l - 1 /\ vget l j = Ret b.
Proof.
  intros [Hr _]%vget_inv. unfold verase. rewrite (proj2 (Z.leb_le _ _)), (proj2 (Z.ltb_lt _ _)) by lia. cbn [andb].
  split.
  - f_equal. rewrite delete_take_drop, drop_ge by (unfold zlen in *; lia).
    rewrite app_nil_r. f_equal. unfold zlen. lia.
  - intros j b. split.
    + intros [Hj E]%vget_inv. unfold zlen in Hj. rewrite length_take in Hj. unfold zlen.
      rewrite lookup_take_lt in E by lia. split; [lia|]. apply vget_Some; [lia|done].
    + intros [Hj [Hj' E]%vget_inv]. apply vget_Some; [lia|]. unfold zlen in *. by rewrite lookup_take_lt by lia.
Qed.

(** Deleting the last trigger while it has extended data: the data still has the
    number of that trigger when the extensions are fixed, and the trigger of that
    number, which does not exist any more, is read. *)
Theorem deleteTrigger_last_undef (st : Extensions) (t : Trigger.Trigger) (H : indexable st) (Hl : linked st)
    (Ht : vget (trig st) (zlen (trig st) - 1) = Ret t) (Hidx : idx t <> no_index) :
  deleteTrigger st (zlen (trig st) - 1) = Undef.
Proof.
  destruct (delete_last (trig st) t Ht) as [Herase Hsub]. destruct (vget_inv _ _ _ Ht) as [Hr _].
  set (st1 := mkExtensions (take (length (trig st) - 1) (trig st)) (ktrg st)).
  assert (Hlen : zlen (trig st1) = zlen (trig st) - 1) by (cbn; unfold zlen in *; rewrite length_take; lia).
  assert (H1 : indexable st1).
  { destruct H. split; [by apply Forall_take| |by apply Forall_take|done]. cbn. unfold zlen in *. rewrite length_take. lia. }
  destruct (linked_trigger _ Hl _ t Ht Hidx) as (d & Hd & Hn).
  unfold deleteTrigger, TrigSection.deleteTrigger, delete_object. rewrite (proj2 (Z.ltb_lt _ _)), Herase by lia.
  cbn [obind]. apply (fix_dangles st1 H1 (idx t) (idx_nonneg t)). exists d. split; [done|].
  pose proof (fix_count _ H). split; [unfold TrigNum_None; lia|]. split; [lia|].
  intros j u [Hj Hu]%Hsub E. destruct (linked_trigger _ Hl j u Hu) as (d' & Hd' & Hn'); [by rewrite E|].
  rewrite E, Hd in Hd'. injection Hd' as <-. lia.
Qed.

(** The only trigger of a map has extended data. *)
Definition single_sample : Extensions := mkExtensions [extended_sample 2] ktrg_sample.

Lemma deleteTrigger_last_undef_witness : deleteTrigger single_sample 0 = Undef.
Proof.
  apply (deleteTrigger_last_undef single_sample (extended_sample 2)).
  - destruct shared_sample_ok as [[Ht _ Ho Hi] _]. split; [|by vm_compute| |done].
    + apply Forall_cons in Ht as [Ht _]. by apply Forall_singleton.
    + apply Forall_cons in Ho as [Ho _]. by apply Forall_singleton.
  - split.
    + intros j t Ht _. destruct (vget_inv _ _ _ Ht) as [Hj Hl]. change (zlen (trig single_sample)) with 1 in Hj.
      assert (j = 0) as -> by lia. injection Hl as <-.
      exists (ExtendedTrigData.mkExtendedTrigData 7 0 0 0 0). by vm_compute.
    + intros e d He Hd. destruct (sample_ext e d He Hd) as [-> ->]. exists (extended_sample 2).
      split; [done|]. by vm_compute.
  - done.
  - by vm_compute.
Defined.

(** ** Create-unit-with-properties slots *)

(** An action before action [ai] of trigger [ti], other than the excluded one,
    creates units with the properties of slot [j]. *)
Definition uses_before (triggers : list Trigger.Trigger) (exT exA ti ai j : Z) : Prop :=
  exists ti' ai' t a, (ti' < ti \/ (ti' = ti /\ ai' < ai)) /\
    vget triggers ti' = Ret t /\ vget (Trigger.actions t) ai' = Ret a /\
    marksCuwp a = true /\ Action.number a = j /\ ~ (ti' = exT /\ ai' = exA).

Definition usage_is (upus : UPUS.UPUS) (used : Z -> Prop) : Prop :=
  cwf UPUS.layout upus /\
  forall j, 0 <= j < MaxCuwps -> exists b, UpusSection.cuwpUsed upus j = Ret b /\ (b = true <-> used j).

Lemma usage_ext upus P Q : usage_is upus P -> (forall j, P j <-> Q j) -> usage_is upus Q.
Proof. intros [Hw H] E. split; [done|]. intros j Hj. destruct (H j Hj) as (b & Hb & Hiff). exists b. by rewrite <- E. Qed.

Lemma usage_set upus P i used : usage_is upus P -> 0 <= i < MaxCuwps ->
  exists upus', UpusSection.setCuwpUsed upus i used = Ret upus' /\
    usage_is upus' (fun j => if decide (j = i) then used = true else P j).
Proof.
  intros [Hw H] Hi. destruct (setCuwpUsed_spec upus i used Hw Hi) as (upus' & -> & Hw' & Hget).
  exists upus'. split; [done|]. split; [done|]. intros j Hj. rewrite Hget by lia. case_decide; [by exists used|by apply H].
Qed.

Lemma action_get t i : cwf Trigger.layout t -> 0 <= i < MaxActions ->
  exists a, TRG.action t i = Ret a /\ vget (Trigger.actions t) i = Ret a /\ 0 <= Action.number a.
Proof.
  intros Ht Hi. destruct t as [c acts f o n]. destruct Ht as [[[[_ [Hl Ha]] _] _] _].
  change (length acts = Z.to_nat MaxActions) in Hl. change (Forall (cwf Action.layout) acts) in Ha.
  destruct (vget_in acts i) as (a & _ & Hg); [unfold zlen; lia|]. exists a.
  unfold TRG.action, get_at. cbn [Trigger.actions]. rewrite (proj2 (Z.ltb_lt _ _)) by lia.
  split; [done|]. split; [done|]. apply (vget_Forall _ _ _ _ Ha) in Hg. destruct a. cbn in Hg. unfold is_u in Hg. tauto.
Qed.

Section usage.
Context (triggers : list Trigger.Trigger) (exT exA : Z) (Ht : Forall (cwf Trigger.layout) triggers).
Abbreviation before := (uses_before triggers exT exA).

Lemma before_start j : before 0 0 j <-> False.
Proof.
  split; [|done]. intros (ti & ai & t & a & Hlt & [Ht' _]%vget_inv & [Ha _]%vget_inv & _). lia.
Qed.

Lemma before_step ti ai t a j : vget triggers ti = Ret t -> vget (Trigger.actions t) ai = Ret a ->
  before ti (ai + 1) j <->
  before ti ai j \/ (marksCuwp a = true /\ Action.number a = j /\ ~ (ti = exT /\ ai = exA)).
Proof.
  intros Hg Ha. split.
  - intros (ti' & ai' & t' & a' & Hlt & Ht' & Ha' & H).
    destruct (decide (ti' = ti /\ ai' = ai)) as [[-> ->]|Hne].
    + right. rewrite Hg in Ht'. injection Ht' as <-. rewrite Ha in Ha'. by injection Ha' as <-.
    + left. exists ti', ai', t', a'. split; [lia|done].
  - intros [(ti' & ai' & t' & a' & Hlt & H)|H].
    + exists ti', ai', t', a'. split; [lia|done].
    + exists ti, ai, t, a. split; [lia|done].
Qed.

Lemma before_row ti j : 0 <= ti < zlen triggers -> before ti MaxActions j <-> before (ti + 1) 0 j.
Proof.
  intros Hti. unfold uses_before. split; intros (ti' & ai & t & a & Hlt & Hg & Ha & H);
    exists ti', ai, t, a; (split; [|done]); destruct (vget_inv _ _ _ Ha) as [Hr _]; [lia|].
  assert (Hw := vget_Forall _ _ _ _ Ht Hg). destruct t as [c acts f o n]. destruct Hw as [[[[_ [Hl _]] _] _] _].
  change (length acts = Z.to_nat MaxActions) in Hl. cbn [Trigger.actions] in Hr. unfold zlen in Hr. rewrite Hl in Hr.
  unfold MaxActions in *. lia.
Qed.

Lemma cleared_usage upus : cwf UPUS.layout upus -> exists u,
  for_each (fun i upus => UpusSection.setCuwpUsed upus i false) (range 0 MaxCuwps) upus = Ret u /\
  usage_is u (fun _ => False).
Proof.
  intros Hw.
  destruct (for_each_range_inv (fun i u => cwf UPUS.layout u /\ forall j, 0 <= j < i -> UpusSection.cuwpUsed u j = Ret false)
    (fun i upus => UpusSection.setCuwpUsed upus i false) 0 MaxCuwps upus) as (u & -> & Hu & Hf).
  - by vm_compute.
  - intros i u Hi [Hu Hf]. destruct (setCuwpUsed_spec u i false Hu Hi) as (u' & -> & Hw' & Hget).
    exists u'. split; [done|]. split; [done|]. intros j Hj. rewrite Hget by lia. case_decide; [done|]. apply Hf. lia.
  - split; [done|]. lia.
  - exists u. split; [done|]. split; [done|]. intros j Hj. exists false. split; [by apply Hf|done].
Qed.

Lemma fixCuwpUsage_spec upus : cwf UPUS.layout upus ->
  exists upus', fixCuwpUsage triggers exT exA upus = Ret upus' /\ usage_is upus' (before (zlen triggers) 0).
Proof.
  intros Hw. unfold fixCuwpUsage. destruct (cleared_usage upus Hw) as (u & -> & Hu). cbn [obind].
  apply (for_each_range_inv (fun ti u => usage_is u (before ti 0)));
    [apply zlen_nonneg| |eapply usage_ext; [exact Hu|]; intros j; by rewrite before_start].
  intros ti u1 Hti Hu1. destruct (vget_in triggers ti Hti) as (t & _ & Hg).
  unfold TrigSection.getTrigger, get_object. rewrite Hg. cbn [obind].
  edestruct (for_each_range_inv (fun ai u => usage_is u (before ti ai))) as (u2 & Hu2 & Hfin);
    [| |exact Hu1|exists u2; split; [exact Hu2|]; eapply usage_ext; [exact Hfin|]; intros j; by apply before_row].
  { by vm_compute. }
  intros ai u2 Hai Hu2. cbn beta.
  destruct (action_get t ai (vget_Forall _ _ _ _ Ht Hg) Hai) as (a & -> & Ha & Hn). cbn [obind].
  assert (Hstep := fun j => before_step ti ai t a j Hg Ha).
  destruct (marksCuwp a) eqn:Hm; cbn [andb].
  2: { exists u2. split; [done|]. eapply usage_ext; [exact Hu2|]. intros j. rewrite Hstep. split; [by left|by intros [?|[? _]]]. }
  destruct (Z.eqb_spec ti exT), (Z.eqb_spec ai exA); cbn [andb negb].
  1: { exists u2. split; [done|]. eapply usage_ext; [exact Hu2|]. intros j. rewrite Hstep. split; [by left|intros [?|(_ & _ & ?)]; [done|tauto]]. }
  all: unfold marksCuwp in Hm; apply andb_true_iff in Hm as [_ Hm%Z.ltb_lt];
    destruct (usage_set u2 _ (Action.number a) true Hu2) as (u3 & -> & Hu3); [lia|];
    exists u3; (split; [done|]); eapply usage_ext; [exact Hu3|]; intros j; rewrite Hstep; cbn beta;
    case_decide; [split; [intros _; right|done]; split_and!; [done|done|tauto]|split; [by left|intros [?|(_ & ? & _)]; [done|congruence]]].
Qed.
End usage.

(** The slots [addCuwp] takes for used: with the usage recomputed first those that
    an action other than the excluded one has, and otherwise those that UPUS
    says are used. *)
Definition taken (fixUsageBeforeAdding : bool) (upus : UPUS.UPUS) (triggers : list Trigger.Trigger) (exT exA j : Z) : Prop :=
  if fixUsageBeforeAdding then uses_before triggers exT exA (zlen triggers) 0 j else UpusSection.cuwpUsed upus j = Ret true.

(** C23: Adding the properties of a create-unit action: the index returned has the
    properties afterwards, unless it is 64; every other slot is as it was.  A slot
    that is overwritten is one that is not taken, and 64 is returned only when all
    are taken.  Taken are, with the usage recomputed first, the slots that an action
    of some trigger uses, the excluded action apart; without that, the slots that
    are marked in UPUS, whatever the triggers use. *)
Theorem addCuwp_spec (uprp : UPRP.UPRP) (upus : UPUS.UPUS) (triggers : list Trigger.Trigger) (cuwp : Cuwp.Cuwp)
    (fixUsageBeforeAdding : bool) (exT exA : Z) (Hp : cwf UPRP.layout uprp) (Hu : cwf UPUS.layout upus)
    (Ht : Forall (cwf Trigger.layout) triggers) (Hc : cwf Cuwp.layout cuwp) :
  exists uprp' upus' i, addCuwp uprp upus triggers cuwp fixUsageBeforeAdding exT exA = Ret (uprp', upus', i) /\
    0 <= i <= MaxCuwps /\ (i < MaxCuwps -> getCuwp uprp' i = Ret cuwp) /\
    (forall j, 0 <= j -> j <> i -> getCuwp uprp' j = getCuwp uprp j) /\
    (i < MaxCuwps -> getCuwp uprp i <> Ret cuwp -> ~ taken fixUsageBeforeAdding upus triggers exT exA i) /\
    (i = MaxCuwps -> forall j, 0 <= j < MaxCuwps -> taken fixUsageBeforeAdding upus triggers exT exA j).
Proof.
  unfold addCuwp. destruct (findCuwp_first uprp cuwp Hp Hc) as (i & -> & Hi & Hfound & _). cbn [obind].
  destruct (Z.ltb_spec i MaxCuwps) as [Hlt|Hge].
  { exists uprp, upus, i. split_and!; [done|lia|lia|exact Hfound|done| |lia]. intros _ H. by destruct H; apply Hfound. }
  assert (Hfix : exists upus', (if fixUsageBeforeAdding then fixCuwpUsage triggers exT exA upus else Ret upus) = Ret upus' /\
    cwf UPUS.layout upus' /\ forall j, 0 <= j < MaxCuwps ->
      UpusSection.cuwpUsed upus' j = Ret true <-> taken fixUsageBeforeAdding upus triggers exT exA j).
  { destruct fixUsageBeforeAdding; [|by exists upus].
    destruct (fixCuwpUsage_spec triggers exT exA Ht upus Hu) as (upus' & E & Hw & Huse). exists upus'. split; [done|]. split; [done|].
    intros j Hj. destruct (Huse j Hj) as (b & Hb & Hiff). rewrite Hb. cbn. rewrite <- Hiff. split; [by intros [= ->] | by intros ->]. }
  destruct Hfix as (upus' & -> & Hw & Huse). cbn [obind].
  destruct (next_unused_spec upus' Hw) as (n & -> & Hn & Hfree & Htaken). cbn [obind].
  destruct (Z.ltb_spec n MaxCuwps) as [Hlt|Hfull].
  - assert (Hz : zlen (UPRP.createUnitProperties uprp) = MaxCuwps) by (by apply (member_zlen UPRP.layout _ Cuwp.layout)).
    unfold UprpSection.setCuwp. rewrite (proj2 (Z.ltb_lt _ _)) by lia. rewrite vset_in by lia. cbn [assign obind].
    eexists _, upus', n. split; [done|]. unfold getCuwp, UprpSection.getCuwp. rewrite upd_get.
    split_and!; [lia|lia| | | |lia].
    + intros _. by rewrite vget_vset, decide_True by lia.
    + intros j Hj Hne. by rewrite vget_vset, decide_False by lia.
    + intros _ _ Hb. apply Huse in Hb; [|lia]. congruence.
  - exists uprp, upus', n. split_and!; [done|lia|lia|lia|done|lia|]. intros _ j Hj. apply Huse; [done|]. apply Htaken. lia.
Qed.

Lemma addCuwp_spec_witness :
  exists uprp' upus', addCuwp UprpSection.GetDefault UpusSection.GetDefault [move_sample]
      (Cuwp.mkCuwp 1 0 0 0 0 0 0 0 0 0) true 0 0 = Ret (uprp', upus', 0) /\
    getCuwp uprp' 0 = Ret (Cuwp.mkCuwp 1 0 0 0 0 0 0 0 0 0).
Proof.
  destruct (addCuwp_spec UprpSection.GetDefault UpusSection.GetDefault [move_sample]
    (Cuwp.mkCuwp 1 0 0 0 0 0 0 0 0 0) true 0 0) as (uprp' & upus' & i & Ha & _ & Hg & _).
  - solve_default.
  - solve_default.
  - exact move_sample_wf.
  - solve_default.
  - assert (E : i = 0) by (vm_compute in Ha; by injection Ha as _ _ <-). subst i.
    exists uprp', upus'. split; [exact Ha|]. by apply Hg.
Defined.
