(* ===== verification/ScenarioSettings.v ===== *)
(** The class [Properties] of Scenario.cpp: unit, weapon, upgrade and
    technology settings of a scenario.

    Most settings are kept twice, in a section of the original game and in one
    of the expansion; [UseExpSection] says which of the two a call is about.
    A section is a pointer that may be null to a [StructSection], reached
    through its [data] pointer.  [get_pair], [set_pair] and [set_pair_guarded]
    are the three bodies the members of the class share: the getters, the
    setters of unit settings, and the setters whose original section has fewer
    entries.  [assign_section] is the implicit copy assignment of a section. *)
From S2P Require Import Prelude Codec ChkTypes ChkSection Accessors UnitTechSections StructSections Locations.
Open Scope Z_scope.

(** [Chk::UseExpSection] *)
Inductive UseExpSection :=
  | Auto
  | Yes
  | No
  | Both
  | YesIfAvailable
  | NoIfOrigAvailable.

#[export] Instance UseExpSection_eq_dec : EqDecision UseExpSection.
Proof. solve_decision. Defined.

(** A [shared_ptr] to a structure section. *)
Abbreviation SectionPtr := (option StructSection).

Definition notNull {A} (p : option A) : bool := match p with Some _ => true | None => false end.

(** [p->get(...)] and [p->set(...)] *)
Definition read_through {T V} (layout : codec T) (get : T -> outcome V) (p : SectionPtr) : outcome V :=
  let* s := deref p in
  let* d := getData layout s in
  get d.

Definition write_through {T} (layout : codec T) (set : T -> outcome T) (p : SectionPtr) : outcome SectionPtr :=
  let* s := deref p in
  let* s := viaData layout set s in
  Ret (Some s).

(** ** Original and expansion sections *)

Section pair.
Context {O E : Type} (original : codec O) (expansion : codec E).

(** The switch of the [useExpansion...] functions.  The cases [Yes] and [No]
    only name a value, without returning it, and fall through to
    [NoIfOrigAvailable]; [Both] is left to the default. *)
Definition useExpansion (ver orig exp : SectionPtr) (useExp : UseExpSection) : outcome bool :=
  match useExp with
  | Auto => read_through VER.layout (fun d => Ret (VerSection.isHybridOrAbove d)) ver
  | Yes | No | NoIfOrigAvailable => Ret (negb (notNull orig))
  | YesIfAvailable | Both => Ret (notNull exp)
  end.

(** [useExpansion(useExp) ? exp->get(...) : orig->get(...)] *)
Definition get_pair {V} (ver orig exp : SectionPtr) (getOrig : O -> outcome V) (getExp : E -> outcome V)
    (useExp : UseExpSection) : outcome V :=
  let* useExpansionSection := useExpansion ver orig exp useExp in
  if useExpansionSection then read_through expansion getExp exp
  else read_through original getOrig orig.

(** The setters: [Auto] and [Both] write both sections. *)
Definition set_pair (setOrig : O -> outcome O) (setExp : E -> outcome E) (useExp : UseExpSection)
    (orig exp : SectionPtr) : outcome (SectionPtr * SectionPtr) :=
  let onOrig := let* orig := write_through original setOrig orig in Ret (orig, exp) in
  let onExp := let* exp := write_through expansion setExp exp in Ret (orig, exp) in
  match useExp with
  | Auto | Both =>
      let* orig := write_through original setOrig orig in
      let* exp := write_through expansion setExp exp in
      Ret (orig, exp)
  | Yes => onExp
  | No => onOrig
  | YesIfAvailable => if notNull exp then onExp else onOrig
  | NoIfOrigAvailable => if notNull orig then onOrig else onExp
  end.

(** The setters of weapons, upgrades and technologies: [Auto] writes the
    sections that there are, the original one only for a type it has. *)
Definition set_pair_guarded (inOriginal : bool) (setOrig : O -> outcome O) (setExp : E -> outcome E)
    (useExp : UseExpSection) (orig exp : SectionPtr) : outcome (SectionPtr * SectionPtr) :=
  match useExp with
  | Auto =>
      let* orig := if inOriginal && notNull orig then write_through original setOrig orig else Ret orig in
      let* exp := if notNull exp then write_through expansion setExp exp else Ret exp in
      Ret (orig, exp)
  | _ => set_pair setOrig setExp useExp orig exp
  end.
End pair.

(** [*p = *GetDefault()]: the implicit assignment copies the bytes, and copies
    the [data] pointer of the temporary section, which is gone after the
    statement. *)
Definition assign_section {T} (layout : codec T) (grow : Z -> Z -> Z) (name : Z) (structData : T)
    (p : SectionPtr) : outcome SectionPtr :=
  let* s := deref p in
  let src := newStructSectionFrom layout grow name false structData in
  Ret (Some (mkStructSection (base src) (rawData src)
               (if rawCapacity s <? zlen (rawData src) then grow (rawCapacity s) (zlen (rawData src))
                else rawCapacity s)
               (writeSize src) false)).

Module Properties.

(** The sections of the class; [ver] is the one of its [versions]. *)
Record Properties := mkProperties {
  ver : SectionPtr;
  unis : SectionPtr;
  unix : SectionPtr;
  puni : SectionPtr;
  upgs : SectionPtr;
  upgx : SectionPtr;
  upgr : SectionPtr;
  pupx : SectionPtr;
  tecs : SectionPtr;
  tecx : SectionPtr;
  ptec : SectionPtr;
  ptex : SectionPtr
}.

#[export] Instance unis_upd : Updater unis.
Proof. refine (Build_Updater _ _ unis (fun v p => mkProperties (ver p) v (unix p) (puni p) (upgs p) (upgx p) (upgr p) (pupx p) (tecs p) (tecx p) (ptec p) (ptex p)) _ _); by intros []. Defined.
#[export] Instance unix_upd : Updater unix.
Proof. refine (Build_Updater _ _ unix (fun v p => mkProperties (ver p) (unis p) v (puni p) (upgs p) (upgx p) (upgr p) (pupx p) (tecs p) (tecx p) (ptec p) (ptex p)) _ _); by intros []. Defined.
#[export] Instance puni_upd : Updater puni.
Proof. refine (Build_Updater _ _ puni (fun v p => mkProperties (ver p) (unis p) (unix p) v (upgs p) (upgx p) (upgr p) (pupx p) (tecs p) (tecx p) (ptec p) (ptex p)) _ _); by intros []. Defined.
#[export] Instance upgs_upd : Updater upgs.
Proof. refine (Build_Updater _ _ upgs (fun v p => mkProperties (ver p) (unis p) (unix p) (puni p) v (upgx p) (upgr p) (pupx p) (tecs p) (tecx p) (ptec p) (ptex p)) _ _); by intros []. Defined.
#[export] Instance upgx_upd : Updater upgx.
Proof. refine (Build_Updater _ _ upgx (fun v p => mkProperties (ver p) (unis p) (unix p) (puni p) (upgs p) v (upgr p) (pupx p) (tecs p) (tecx p) (ptec p) (ptex p)) _ _); by intros []. Defined.
#[export] Instance upgr_upd : Updater upgr.
Proof. refine (Build_Updater _ _ upgr (fun v p => mkProperties (ver p) (unis p) (unix p) (puni p) (upgs p) (upgx p) v (pupx p) (tecs p) (tecx p) (ptec p) (ptex p)) _ _); by intros []. Defined.
#[export] Instance pupx_upd : Updater pupx.
Proof. refine (Build_Updater _ _ pupx (fun v p => mkProperties (ver p) (unis p) (unix p) (puni p) (upgs p) (upgx p) (upgr p) v (tecs p) (tecx p) (ptec p) (ptex p)) _ _); by intros []. Defined.
#[export] Instance tecs_upd : Updater tecs.
Proof. refine (Build_Updater _ _ tecs (fun v p => mkProperties (ver p) (unis p) (unix p) (puni p) (upgs p) (upgx p) (upgr p) (pupx p) v (tecx p) (ptec p) (ptex p)) _ _); by intros []. Defined.
#[export] Instance tecx_upd : Updater tecx.
Proof. refine (Build_Updater _ _ tecx (fun v p => mkProperties (ver p) (unis p) (unix p) (puni p) (upgs p) (upgx p) (upgr p) (pupx p) (tecs p) v (ptec p) (ptex p)) _ _); by intros []. Defined.
#[export] Instance ptec_upd : Updater ptec.
Proof. refine (Build_Updater _ _ ptec (fun v p => mkProperties (ver p) (unis p) (unix p) (puni p) (upgs p) (upgx p) (upgr p) (pupx p) (tecs p) (tecx p) v (ptex p)) _ _); by intros []. Defined.
#[export] Instance ptex_upd : Updater ptex.
Proof. refine (Build_Updater _ _ ptex (fun v p => mkProperties (ver p) (unis p) (unix p) (puni p) (upgs p) (upgx p) (upgr p) (pupx p) (tecs p) (tecx p) (ptec p) v) _ _); by intros []. Defined.

Definition empty (p : Properties) : bool :=
  negb (notNull (unis p)) && negb (notNull (unix p)) && negb (notNull (puni p)) &&
  negb (notNull (upgs p)) && negb (notNull (upgx p)) && negb (notNull (upgr p)) &&
  negb (notNull (pupx p)) && negb (notNull (tecs p)) && negb (notNull (tecx p)) &&
  negb (notNull (ptec p)) && negb (notNull (ptex p)).

(** ** Which section is read *)

Definition useExpansionUnitSettings (p : Properties) (useExp : UseExpSection) : outcome bool :=
  useExpansion (ver p) (unis p) (unix p) useExp.
Definition useExpansionUpgradeCosts (p : Properties) (useExp : UseExpSection) : outcome bool :=
  useExpansion (ver p) (upgs p) (upgx p) useExp.
Definition useExpansionUpgradeLeveling (p : Properties) (useExp : UseExpSection) : outcome bool :=
  useExpansion (ver p) (upgr p) (pupx p) useExp.
Definition useExpansionTechCosts (p : Properties) (useExp : UseExpSection) : outcome bool :=
  useExpansion (ver p) (tecs p) (tecx p) useExp.
Definition useExpansionTechAvailability (p : Properties) (useExp : UseExpSection) : outcome bool :=
  useExpansion (ver p) (ptec p) (ptex p) useExp.

(** Reading and writing UnitSettings. *)
Definition getUnitSettings {V} (getOrig : UNIS.UNIS -> outcome V) (getExp : UNIx.UNIx -> outcome V)
    (useExp : UseExpSection) (p : Properties) : outcome V :=
  get_pair UNIS.layout UNIx.layout (ver p) (unis p) (unix p) getOrig getExp useExp.
Definition setUnitSettings (set : SectionPtr -> SectionPtr -> outcome (SectionPtr * SectionPtr))
    (p : Properties) : outcome Properties :=
  let* (orig', exp') := set (unis p) (unix p) in
  Ret (p <| unis := orig' |> <| unix := exp' |>).

(** Reading and writing UpgradeCosts. *)
Definition getUpgradeCosts {V} (getOrig : UPGS.UPGS -> outcome V) (getExp : UPGx.UPGx -> outcome V)
    (useExp : UseExpSection) (p : Properties) : outcome V :=
  get_pair UPGS.layout UPGx.layout (ver p) (upgs p) (upgx p) getOrig getExp useExp.
Definition setUpgradeCosts (set : SectionPtr -> SectionPtr -> outcome (SectionPtr * SectionPtr))
    (p : Properties) : outcome Properties :=
  let* (orig', exp') := set (upgs p) (upgx p) in
  Ret (p <| upgs := orig' |> <| upgx := exp' |>).

(** Reading and writing UpgradeLeveling. *)
Definition getUpgradeLeveling {V} (getOrig : UPGR.UPGR -> outcome V) (getExp : PUPx.PUPx -> outcome V)
    (useExp : UseExpSection) (p : Properties) : outcome V :=
  get_pair UPGR.layout PUPx.layout (ver p) (upgr p) (pupx p) getOrig getExp useExp.
Definition setUpgradeLeveling (set : SectionPtr -> SectionPtr -> outcome (SectionPtr * SectionPtr))
    (p : Properties) : outcome Properties :=
  let* (orig', exp') := set (upgr p) (pupx p) in
  Ret (p <| upgr := orig' |> <| pupx := exp' |>).

(** Reading and writing TechCosts. *)
Definition getTechCosts {V} (getOrig : TECS.TECS -> outcome V) (getExp : TECx.TECx -> outcome V)
    (useExp : UseExpSection) (p : Properties) : outcome V :=
  get_pair TECS.layout TECx.layout (ver p) (tecs p) (tecx p) getOrig getExp useExp.
Definition setTechCosts (set : SectionPtr -> SectionPtr -> outcome (SectionPtr * SectionPtr))
    (p : Properties) : outcome Properties :=
  let* (orig', exp') := set (tecs p) (tecx p) in
  Ret (p <| tecs := orig' |> <| tecx := exp' |>).

(** Reading and writing TechAvailability. *)
Definition getTechAvailability {V} (getOrig : PTEC.PTEC -> outcome V) (getExp : PTEx.PTEx -> outcome V)
    (useExp : UseExpSection) (p : Properties) : outcome V :=
  get_pair PTEC.layout PTEx.layout (ver p) (ptec p) (ptex p) getOrig getExp useExp.
Definition setTechAvailability (set : SectionPtr -> SectionPtr -> outcome (SectionPtr * SectionPtr))
    (p : Properties) : outcome Properties :=
  let* (orig', exp') := set (ptec p) (ptex p) in
  Ret (p <| ptec := orig' |> <| ptex := exp' |>).

(** ** Units and weapons *)

Definition unitUsesDefaultSettings (p : Properties) (unitType : Z) (useExp : UseExpSection) : outcome bool :=
  getUnitSettings (fun d => UnisSection.unitUsesDefaultSettings d unitType) (fun d => UnixSection.unitUsesDefaultSettings d unitType) useExp p.
Definition getUnitHitpoints (p : Properties) (unitType : Z) (useExp : UseExpSection) : outcome Z :=
  getUnitSettings (fun d => UnisSection.getUnitHitpoints d unitType) (fun d => UnixSection.getUnitHitpoints d unitType) useExp p.
Definition getUnitShieldPoints (p : Properties) (unitType : Z) (useExp : UseExpSection) : outcome Z :=
  getUnitSettings (fun d => UnisSection.getUnitShieldPoints d unitType) (fun d => UnixSection.getUnitShieldPoints d unitType) useExp p.
Definition getUnitArmorLevel (p : Properties) (unitType : Z) (useExp : UseExpSection) : outcome Z :=
  getUnitSettings (fun d => UnisSection.getUnitArmorLevel d unitType) (fun d => UnixSection.getUnitArmorLevel d unitType) useExp p.
Definition getUnitBuildTime (p : Properties) (unitType : Z) (useExp : UseExpSection) : outcome Z :=
  getUnitSettings (fun d => UnisSection.getUnitBuildTime d unitType) (fun d => UnixSection.getUnitBuildTime d unitType) useExp p.
Definition getUnitMineralCost (p : Properties) (unitType : Z) (useExp : UseExpSection) : outcome Z :=
  getUnitSettings (fun d => UnisSection.getUnitMineralCost d unitType) (fun d => UnixSection.getUnitMineralCost d unitType) useExp p.
Definition getUnitGasCost (p : Properties) (unitType : Z) (useExp : UseExpSection) : outcome Z :=
  getUnitSettings (fun d => UnisSection.getUnitGasCost d unitType) (fun d => UnixSection.getUnitGasCost d unitType) useExp p.
Definition getUnitNameStringId (p : Properties) (unitType : Z) (useExp : UseExpSection) : outcome Z :=
  getUnitSettings (fun d => UnisSection.getUnitNameStringId d unitType) (fun d => UnixSection.getUnitNameStringId d unitType) useExp p.
Definition getWeaponBaseDamage (p : Properties) (weaponType : Z) (useExp : UseExpSection) : outcome Z :=
  getUnitSettings (fun d => UnisSection.getWeaponBaseDamage d weaponType) (fun d => UnixSection.getWeaponBaseDamage d weaponType) useExp p.
Definition getWeaponUpgradeDamage (p : Properties) (weaponType : Z) (useExp : UseExpSection) : outcome Z :=
  getUnitSettings (fun d => UnisSection.getWeaponUpgradeDamage d weaponType) (fun d => UnixSection.getWeaponUpgradeDamage d weaponType) useExp p.

Definition setUnitUsesDefaultSettings (p : Properties) (unitType : Z) (useDefault : bool) (useExp : UseExpSection) : outcome Properties :=
  setUnitSettings (set_pair UNIS.layout UNIx.layout
    (fun d => UnisSection.setUnitUsesDefaultSettings d unitType useDefault) (fun d => UnixSection.setUnitUsesDefaultSettings d unitType useDefault) useExp) p.
Definition setUnitHitpoints (p : Properties) (unitType hitpoints : Z) (useExp : UseExpSection) : outcome Properties :=
  setUnitSettings (set_pair UNIS.layout UNIx.layout
    (fun d => UnisSection.setUnitHitpoints d unitType hitpoints) (fun d => UnixSection.setUnitHitpoints d unitType hitpoints) useExp) p.
Definition setUnitShieldPoints (p : Properties) (unitType shieldPoints : Z) (useExp : UseExpSection) : outcome Properties :=
  setUnitSettings (set_pair UNIS.layout UNIx.layout
    (fun d => UnisSection.setUnitShieldPoints d unitType shieldPoints) (fun d => UnixSection.setUnitShieldPoints d unitType shieldPoints) useExp) p.
Definition setUnitArmorLevel (p : Properties) (unitType armorLevel : Z) (useExp : UseExpSection) : outcome Properties :=
  setUnitSettings (set_pair UNIS.layout UNIx.layout
    (fun d => UnisSection.setUnitArmorLevel d unitType armorLevel) (fun d => UnixSection.setUnitArmorLevel d unitType armorLevel) useExp) p.
Definition setUnitBuildTime (p : Properties) (unitType buildTime : Z) (useExp : UseExpSection) : outcome Properties :=
  setUnitSettings (set_pair UNIS.layout UNIx.layout
    (fun d => UnisSection.setUnitBuildTime d unitType buildTime) (fun d => UnixSection.setUnitBuildTime d unitType buildTime) useExp) p.
Definition setUnitMineralCost (p : Properties) (unitType mineralCost : Z) (useExp : UseExpSection) : outcome Properties :=
  setUnitSettings (set_pair UNIS.layout UNIx.layout
    (fun d => UnisSection.setUnitMineralCost d unitType mineralCost) (fun d => UnixSection.setUnitMineralCost d unitType mineralCost) useExp) p.
Definition setUnitGasCost (p : Properties) (unitType gasCost : Z) (useExp : UseExpSection) : outcome Properties :=
  setUnitSettings (set_pair UNIS.layout UNIx.layout
    (fun d => UnisSection.setUnitGasCost d unitType gasCost) (fun d => UnixSection.setUnitGasCost d unitType gasCost) useExp) p.
Definition setUnitNameStringId (p : Properties) (unitType nameStringId : Z) (useExp : UseExpSection) : outcome Properties :=
  setUnitSettings (set_pair UNIS.layout UNIx.layout
    (fun d => UnisSection.setUnitNameStringId d unitType (u16 nameStringId)) (fun d => UnixSection.setUnitNameStringId d unitType (u16 nameStringId)) useExp) p.
Definition setWeaponBaseDamage (p : Properties) (weaponType baseDamage : Z) (useExp : UseExpSection) : outcome Properties :=
  setUnitSettings (set_pair_guarded UNIS.layout UNIx.layout (weaponType <? Weapon_TotalOriginal)
    (fun d => UnisSection.setWeaponBaseDamage d weaponType baseDamage) (fun d => UnixSection.setWeaponBaseDamage d weaponType baseDamage) useExp) p.
Definition setWeaponUpgradeDamage (p : Properties) (weaponType upgradeDamage : Z) (useExp : UseExpSection) : outcome Properties :=
  setUnitSettings (set_pair_guarded UNIS.layout UNIx.layout (weaponType <? Weapon_TotalOriginal)
    (fun d => UnisSection.setWeaponUpgradeDamage d weaponType upgradeDamage) (fun d => UnixSection.setWeaponUpgradeDamage d weaponType upgradeDamage) useExp) p.

(** Buildability has one section. *)
Definition isUnitBuildable (p : Properties) (unitType playerIndex : Z) : outcome bool :=
  read_through PUNI.layout (fun d => PuniSection.isUnitBuildable d unitType playerIndex) (puni p).
Definition isUnitDefaultBuildable (p : Properties) (unitType : Z) : outcome bool :=
  read_through PUNI.layout (fun d => PuniSection.isUnitDefaultBuildable d unitType) (puni p).
Definition playerUsesDefaultUnitBuildability (p : Properties) (unitType playerIndex : Z) : outcome bool :=
  read_through PUNI.layout (fun d => PuniSection.playerUsesDefault d unitType playerIndex) (puni p).
Definition setUnitBuildable (p : Properties) (unitType playerIndex : Z) (buildable : bool) : outcome Properties :=
  let* puni' := write_through PUNI.layout (fun d => PuniSection.setUnitBuildable d unitType playerIndex buildable) (puni p) in
  Ret (p <| puni := puni' |>).
Definition setUnitDefaultBuildable (p : Properties) (unitType : Z) (buildable : bool) : outcome Properties :=
  let* puni' := write_through PUNI.layout (fun d => PuniSection.setUnitDefaultBuildable d unitType buildable) (puni p) in
  Ret (p <| puni := puni' |>).
Definition setPlayerUsesDefaultUnitBuildability (p : Properties) (unitType playerIndex : Z) (useDefault : bool) : outcome Properties :=
  let* puni' := write_through PUNI.layout (fun d => PuniSection.setPlayerUsesDefault d unitType playerIndex useDefault) (puni p) in
  Ret (p <| puni := puni' |>).

(** ** Upgrades *)

Definition upgradeUsesDefaultCosts (p : Properties) (upgradeType : Z) (useExp : UseExpSection) : outcome bool :=
  getUpgradeCosts (fun d => UpgsSection.upgradeUsesDefaultCosts d upgradeType) (fun d => UpgxSection.upgradeUsesDefaultCosts d upgradeType) useExp p.
Definition getUpgradeBaseMineralCost (p : Properties) (upgradeType : Z) (useExp : UseExpSection) : outcome Z :=
  getUpgradeCosts (fun d => UpgsSection.getBaseMineralCost d upgradeType) (fun d => UpgxSection.getBaseMineralCost d upgradeType) useExp p.
Definition getUpgradeMineralCostFactor (p : Properties) (upgradeType : Z) (useExp : UseExpSection) : outcome Z :=
  getUpgradeCosts (fun d => UpgsSection.getMineralCostFactor d upgradeType) (fun d => UpgxSection.getMineralCostFactor d upgradeType) useExp p.
Definition getUpgradeBaseGasCost (p : Properties) (upgradeType : Z) (useExp : UseExpSection) : outcome Z :=
  getUpgradeCosts (fun d => UpgsSection.getBaseGasCost d upgradeType) (fun d => UpgxSection.getBaseGasCost d upgradeType) useExp p.
Definition getUpgradeGasCostFactor (p : Properties) (upgradeType : Z) (useExp : UseExpSection) : outcome Z :=
  getUpgradeCosts (fun d => UpgsSection.getGasCostFactor d upgradeType) (fun d => UpgxSection.getGasCostFactor d upgradeType) useExp p.
Definition getUpgradeBaseResearchTime (p : Properties) (upgradeType : Z) (useExp : UseExpSection) : outcome Z :=
  getUpgradeCosts (fun d => UpgsSection.getBaseResearchTime d upgradeType) (fun d => UpgxSection.getBaseResearchTime d upgradeType) useExp p.
Definition getUpgradeResearchTimeFactor (p : Properties) (upgradeType : Z) (useExp : UseExpSection) : outcome Z :=
  getUpgradeCosts (fun d => UpgsSection.getResearchTimeFactor d upgradeType) (fun d => UpgxSection.getResearchTimeFactor d upgradeType) useExp p.
Definition setUpgradeUsesDefaultCosts (p : Properties) (upgradeType : Z) (useDefault : bool) (useExp : UseExpSection) : outcome Properties :=
  setUpgradeCosts (set_pair_guarded UPGS.layout UPGx.layout (upgradeType <? Upgrade_TotalOriginalTypes)
    (fun d => UpgsSection.setUpgradeUsesDefaultCosts d upgradeType useDefault) (fun d => UpgxSection.setUpgradeUsesDefaultCosts d upgradeType useDefault) useExp) p.
Definition setUpgradeBaseMineralCost (p : Properties) (upgradeType baseMineralCost : Z) (useExp : UseExpSection) : outcome Properties :=
  setUpgradeCosts (set_pair_guarded UPGS.layout UPGx.layout (upgradeType <? Upgrade_TotalOriginalTypes)
    (fun d => UpgsSection.setBaseMineralCost d upgradeType baseMineralCost) (fun d => UpgxSection.setBaseMineralCost d upgradeType baseMineralCost) useExp) p.
Definition setUpgradeMineralCostFactor (p : Properties) (upgradeType mineralCostFactor : Z) (useExp : UseExpSection) : outcome Properties :=
  setUpgradeCosts (set_pair_guarded UPGS.layout UPGx.layout (upgradeType <? Upgrade_TotalOriginalTypes)
    (fun d => UpgsSection.setMineralCostFactor d upgradeType mineralCostFactor) (fun d => UpgxSection.setMineralCostFactor d upgradeType mineralCostFactor) useExp) p.
Definition setUpgradeBaseGasCost (p : Properties) (upgradeType baseGasCost : Z) (useExp : UseExpSection) : outcome Properties :=
  setUpgradeCosts (set_pair_guarded UPGS.layout UPGx.layout (upgradeType <? Upgrade_TotalOriginalTypes)
    (fun d => UpgsSection.setBaseGasCost d upgradeType baseGasCost) (fun d => UpgxSection.setBaseGasCost d upgradeType baseGasCost) useExp) p.
Definition setUpgradeGasCostFactor (p : Properties) (upgradeType gasCostFactor : Z) (useExp : UseExpSection) : outcome Properties :=
  setUpgradeCosts (set_pair_guarded UPGS.layout UPGx.layout (upgradeType <? Upgrade_TotalOriginalTypes)
    (fun d => UpgsSection.setGasCostFactor d upgradeType gasCostFactor) (fun d => UpgxSection.setGasCostFactor d upgradeType gasCostFactor) useExp) p.
Definition setUpgradeBaseResearchTime (p : Properties) (upgradeType baseResearchTime : Z) (useExp : UseExpSection) : outcome Properties :=
  setUpgradeCosts (set_pair_guarded UPGS.layout UPGx.layout (upgradeType <? Upgrade_TotalOriginalTypes)
    (fun d => UpgsSection.setBaseResearchTime d upgradeType baseResearchTime) (fun d => UpgxSection.setBaseResearchTime d upgradeType baseResearchTime) useExp) p.
Definition setUpgradeResearchTimeFactor (p : Properties) (upgradeType researchTimeFactor : Z) (useExp : UseExpSection) : outcome Properties :=
  setUpgradeCosts (set_pair_guarded UPGS.layout UPGx.layout (upgradeType <? Upgrade_TotalOriginalTypes)
    (fun d => UpgsSection.setResearchTimeFactor d upgradeType researchTimeFactor) (fun d => UpgxSection.setResearchTimeFactor d upgradeType researchTimeFactor) useExp) p.

Definition getMaxUpgradeLevel (p : Properties) (upgradeType playerIndex : Z) (useExp : UseExpSection) : outcome Z :=
  getUpgradeLeveling (fun d => UpgrSection.getMaxUpgradeLevel d upgradeType playerIndex) (fun d => PupxSection.getMaxUpgradeLevel d upgradeType playerIndex) useExp p.
Definition getStartUpgradeLevel (p : Properties) (upgradeType playerIndex : Z) (useExp : UseExpSection) : outcome Z :=
  getUpgradeLeveling (fun d => UpgrSection.getStartUpgradeLevel d upgradeType playerIndex) (fun d => PupxSection.getStartUpgradeLevel d upgradeType playerIndex) useExp p.
Definition getDefaultMaxUpgradeLevel (p : Properties) (upgradeType : Z) (useExp : UseExpSection) : outcome Z :=
  getUpgradeLeveling (fun d => UpgrSection.getDefaultMaxUpgradeLevel d upgradeType) (fun d => PupxSection.getDefaultMaxUpgradeLevel d upgradeType) useExp p.
Definition getDefaultStartUpgradeLevel (p : Properties) (upgradeType : Z) (useExp : UseExpSection) : outcome Z :=
  getUpgradeLeveling (fun d => UpgrSection.getDefaultStartUpgradeLevel d upgradeType) (fun d => PupxSection.getDefaultStartUpgradeLevel d upgradeType) useExp p.
Definition playerUsesDefaultUpgradeLeveling (p : Properties) (upgradeType playerIndex : Z) (useExp : UseExpSection) : outcome bool :=
  getUpgradeLeveling (fun d => UpgrSection.playerUsesDefault d upgradeType playerIndex) (fun d => PupxSection.playerUsesDefault d upgradeType playerIndex) useExp p.
Definition setMaxUpgradeLevel (p : Properties) (upgradeType playerIndex maxUpgradeLevel : Z) (useExp : UseExpSection) : outcome Properties :=
  setUpgradeLeveling (set_pair_guarded UPGR.layout PUPx.layout (upgradeType <? Upgrade_TotalOriginalTypes)
    (fun d => UpgrSection.setMaxUpgradeLevel d upgradeType playerIndex maxUpgradeLevel) (fun d => PupxSection.setMaxUpgradeLevel d upgradeType playerIndex maxUpgradeLevel) useExp) p.
Definition setStartUpgradeLevel (p : Properties) (upgradeType playerIndex startUpgradeLevel : Z) (useExp : UseExpSection) : outcome Properties :=
  setUpgradeLeveling (set_pair_guarded UPGR.layout PUPx.layout (upgradeType <? Upgrade_TotalOriginalTypes)
    (fun d => UpgrSection.setStartUpgradeLevel d upgradeType playerIndex startUpgradeLevel) (fun d => PupxSection.setStartUpgradeLevel d upgradeType playerIndex startUpgradeLevel) useExp) p.
Definition setDefaultMaxUpgradeLevel (p : Properties) (upgradeType maxUpgradeLevel : Z) (useExp : UseExpSection) : outcome Properties :=
  setUpgradeLeveling (set_pair_guarded UPGR.layout PUPx.layout (upgradeType <? Upgrade_TotalOriginalTypes)
    (fun d => UpgrSection.setDefaultMaxUpgradeLevel d upgradeType maxUpgradeLevel) (fun d => PupxSection.setDefaultMaxUpgradeLevel d upgradeType maxUpgradeLevel) useExp) p.
Definition setDefaultStartUpgradeLevel (p : Properties) (upgradeType startUpgradeLevel : Z) (useExp : UseExpSection) : outcome Properties :=
  setUpgradeLeveling (set_pair_guarded UPGR.layout PUPx.layout (upgradeType <? Upgrade_TotalOriginalTypes)
    (fun d => UpgrSection.setDefaultStartUpgradeLevel d upgradeType startUpgradeLevel) (fun d => PupxSection.setDefaultStartUpgradeLevel d upgradeType startUpgradeLevel) useExp) p.
Definition setPlayerUsesDefaultUpgradeLeveling (p : Properties) (upgradeType playerIndex : Z) (useDefault : bool) (useExp : UseExpSection) : outcome Properties :=
  setUpgradeLeveling (set_pair_guarded UPGR.layout PUPx.layout (upgradeType <? Upgrade_TotalOriginalTypes)
    (fun d => UpgrSection.setPlayerUsesDefault d upgradeType playerIndex useDefault) (fun d => PupxSection.setPlayerUsesDefault d upgradeType playerIndex useDefault) useExp) p.

(** ** Technologies *)

Definition techUsesDefaultSettings (p : Properties) (techType : Z) (useExp : UseExpSection) : outcome bool :=
  getTechCosts (fun d => TecsSection.techUsesDefaultSettings d techType) (fun d => TecxSection.techUsesDefaultSettings d techType) useExp p.
Definition getTechMineralCost (p : Properties) (techType : Z) (useExp : UseExpSection) : outcome Z :=
  getTechCosts (fun d => TecsSection.getTechMineralCost d techType) (fun d => TecxSection.getTechMineralCost d techType) useExp p.
Definition getTechGasCost (p : Properties) (techType : Z) (useExp : UseExpSection) : outcome Z :=
  getTechCosts (fun d => TecsSection.getTechGasCost d techType) (fun d => TecxSection.getTechGasCost d techType) useExp p.
Definition getTechResearchTime (p : Properties) (techType : Z) (useExp : UseExpSection) : outcome Z :=
  getTechCosts (fun d => TecsSection.getTechResearchTime d techType) (fun d => TecxSection.getTechResearchTime d techType) useExp p.
Definition getTechEnergyCost (p : Properties) (techType : Z) (useExp : UseExpSection) : outcome Z :=
  getTechCosts (fun d => TecsSection.getTechEnergyCost d techType) (fun d => TecxSection.getTechEnergyCost d techType) useExp p.
Definition setTechUsesDefaultSettings (p : Properties) (techType : Z) (useDefault : bool) (useExp : UseExpSection) : outcome Properties :=
  setTechCosts (set_pair_guarded TECS.layout TECx.layout (techType <? Tech_TotalOriginalTypes)
    (fun d => TecsSection.setTechUsesDefaultSettings d techType useDefault) (fun d => TecxSection.setTechUsesDefaultSettings d techType useDefault) useExp) p.
Definition setTechMineralCost (p : Properties) (techType mineralCost : Z) (useExp : UseExpSection) : outcome Properties :=
  setTechCosts (set_pair_guarded TECS.layout TECx.layout (techType <? Tech_TotalOriginalTypes)
    (fun d => TecsSection.setTechMineralCost d techType mineralCost) (fun d => TecxSection.setTechMineralCost d techType mineralCost) useExp) p.
Definition setTechGasCost (p : Properties) (techType gasCost : Z) (useExp : UseExpSection) : outcome Properties :=
  setTechCosts (set_pair_guarded TECS.layout TECx.layout (techType <? Tech_TotalOriginalTypes)
    (fun d => TecsSection.setTechGasCost d techType gasCost) (fun d => TecxSection.setTechGasCost d techType gasCost) useExp) p.
Definition setTechResearchTime (p : Properties) (techType researchTime : Z) (useExp : UseExpSection) : outcome Properties :=
  setTechCosts (set_pair_guarded TECS.layout TECx.layout (techType <? Tech_TotalOriginalTypes)
    (fun d => TecsSection.setTechResearchTime d techType researchTime) (fun d => TecxSection.setTechResearchTime d techType researchTime) useExp) p.
Definition setTechEnergyCost (p : Properties) (techType energyCost : Z) (useExp : UseExpSection) : outcome Properties :=
  setTechCosts (set_pair_guarded TECS.layout TECx.layout (techType <? Tech_TotalOriginalTypes)
    (fun d => TecsSection.setTechEnergyCost d techType energyCost) (fun d => TecxSection.setTechEnergyCost d techType energyCost) useExp) p.

Definition techAvailable (p : Properties) (techType playerIndex : Z) (useExp : UseExpSection) : outcome bool :=
  getTechAvailability (fun d => PtecSection.techAvailable d techType playerIndex) (fun d => PtexSection.techAvailable d techType playerIndex) useExp p.
Definition techResearched (p : Properties) (techType playerIndex : Z) (useExp : UseExpSection) : outcome bool :=
  getTechAvailability (fun d => PtecSection.techResearched d techType playerIndex) (fun d => PtexSection.techResearched d techType playerIndex) useExp p.
Definition techDefaultAvailable (p : Properties) (techType : Z) (useExp : UseExpSection) : outcome bool :=
  getTechAvailability (fun d => PtecSection.techDefaultAvailable d techType) (fun d => PtexSection.techDefaultAvailable d techType) useExp p.
Definition techDefaultResearched (p : Properties) (techType : Z) (useExp : UseExpSection) : outcome bool :=
  getTechAvailability (fun d => PtecSection.techDefaultResearched d techType) (fun d => PtexSection.techDefaultResearched d techType) useExp p.
Definition playerUsesDefaultTechSettings (p : Properties) (techType playerIndex : Z) (useExp : UseExpSection) : outcome bool :=
  getTechAvailability (fun d => PtecSection.playerUsesDefault d techType playerIndex) (fun d => PtexSection.playerUsesDefault d techType playerIndex) useExp p.
Definition setTechAvailable (p : Properties) (techType playerIndex : Z) (available : bool) (useExp : UseExpSection) : outcome Properties :=
  setTechAvailability (set_pair_guarded PTEC.layout PTEx.layout (techType <? Tech_TotalOriginalTypes)
    (fun d => PtecSection.setTechAvailable d techType playerIndex available) (fun d => PtexSection.setTechAvailable d techType playerIndex available) useExp) p.
Definition setTechResearched (p : Properties) (techType playerIndex : Z) (researched : bool) (useExp : UseExpSection) : outcome Properties :=
  setTechAvailability (set_pair_guarded PTEC.layout PTEx.layout (techType <? Tech_TotalOriginalTypes)
    (fun d => PtecSection.setTechResearched d techType playerIndex researched) (fun d => PtexSection.setTechResearched d techType playerIndex researched) useExp) p.
Definition setDefaultTechAvailable (p : Properties) (techType : Z) (available : bool) (useExp : UseExpSection) : outcome Properties :=
  setTechAvailability (set_pair_guarded PTEC.layout PTEx.layout (techType <? Tech_TotalOriginalTypes)
    (fun d => PtecSection.setDefaultTechAvailable d techType available) (fun d => PtexSection.setDefaultTechAvailable d techType available) useExp) p.
Definition setDefaultTechResearched (p : Properties) (techType : Z) (researched : bool) (useExp : UseExpSection) : outcome Properties :=
  setTechAvailability (set_pair_guarded PTEC.layout PTEx.layout (techType <? Tech_TotalOriginalTypes)
    (fun d => PtecSection.setDefaultTechResearched d techType researched) (fun d => PtexSection.setDefaultTechResearched d techType researched) useExp) p.
Definition setPlayerUsesDefaultTechSettings (p : Properties) (techType playerIndex : Z) (useDefault : bool) (useExp : UseExpSection) : outcome Properties :=
  setTechAvailability (set_pair_guarded PTEC.layout PTEx.layout (techType <? Tech_TotalOriginalTypes)
    (fun d => PtecSection.setPlayerUsesDefault d techType playerIndex useDefault) (fun d => PtexSection.setPlayerUsesDefault d techType playerIndex useDefault) useExp) p.

(** ** Resetting to the defaults *)

Section defaults.
(** The capacity a vector grows to. *)
Variable grow : Z -> Z -> Z.

(** [Section::GetDefault()] *)
Definition defaultSection {T} (layout : codec T) (name : Z) (structData : T) : SectionPtr :=
  Some (newStructSectionFrom layout grow name false structData).

(** [Properties(useDefault)]; the versions are attached by the scenario. *)
Definition newProperties (useDefault : bool) : Properties :=
  if useDefault then mkProperties None
    (defaultSection UNIS.layout SectionName.UNIS UnisSection.GetDefault)
    (defaultSection UNIx.layout SectionName.UNIx UnixSection.GetDefault)
    (defaultSection PUNI.layout SectionName.PUNI PuniSection.GetDefault)
    (defaultSection UPGS.layout SectionName.UPGS UpgsSection.GetDefault)
    (defaultSection UPGx.layout SectionName.UPGx UpgxSection.GetDefault)
    (defaultSection UPGR.layout SectionName.UPGR UpgrSection.GetDefault)
    (defaultSection PUPx.layout SectionName.PUPx PupxSection.GetDefault)
    (defaultSection TECS.layout SectionName.TECS TecsSection.GetDefault)
    (defaultSection TECx.layout SectionName.TECx TecxSection.GetDefault)
    (defaultSection PTEC.layout SectionName.PTEC PtecSection.GetDefault)
    (defaultSection PTEx.layout SectionName.PTEx PtexSection.GetDefault)
  else mkProperties None None None None None None None None None None None None.

(** [p = GetSection(sections, name); if ( p == nullptr ) p = GetDefault();] *)
Definition loaded (found default : SectionPtr) : SectionPtr := if notNull found then found else default.

(** [GetSection] on the final sections is the argument [getSection]. *)
Definition set (getSection : Z -> SectionPtr) (p : Properties) : Properties :=
  mkProperties (ver p)
    (loaded (getSection SectionName.UNIS) (defaultSection UNIS.layout SectionName.UNIS UnisSection.GetDefault))
    (loaded (getSection SectionName.UNIx) (defaultSection UNIx.layout SectionName.UNIx UnixSection.GetDefault))
    (loaded (getSection SectionName.PUNI) (defaultSection PUNI.layout SectionName.PUNI PuniSection.GetDefault))
    (loaded (getSection SectionName.UPGS) (defaultSection UPGS.layout SectionName.UPGS UpgsSection.GetDefault))
    (loaded (getSection SectionName.UPGx) (defaultSection UPGx.layout SectionName.UPGx UpgxSection.GetDefault))
    (loaded (getSection SectionName.UPGR) (defaultSection UPGR.layout SectionName.UPGR UpgrSection.GetDefault))
    (loaded (getSection SectionName.PUPx) (defaultSection PUPx.layout SectionName.PUPx PupxSection.GetDefault))
    (loaded (getSection SectionName.TECS) (defaultSection TECS.layout SectionName.TECS TecsSection.GetDefault))
    (loaded (getSection SectionName.TECx) (defaultSection TECx.layout SectionName.TECx TecxSection.GetDefault))
    (loaded (getSection SectionName.PTEC) (defaultSection PTEC.layout SectionName.PTEC PtecSection.GetDefault))
    (loaded (getSection SectionName.PTEx) (defaultSection PTEx.layout SectionName.PTEx PtexSection.GetDefault)).

Definition clear (p : Properties) : Properties :=
  mkProperties (ver p) None None None None None None None None None None None.

(** [orig] and [exp] get their defaults the way [useExp] says. *)
Definition defaultPair (origDefault expDefault : SectionPtr -> outcome SectionPtr) (useExp : UseExpSection)
    (orig exp : SectionPtr) : outcome (SectionPtr * SectionPtr) :=
  let onOrig := let* orig := origDefault orig in Ret (orig, exp) in
  let onExp := let* exp := expDefault exp in Ret (orig, exp) in
  match useExp with
  | Auto | Both => let* orig := origDefault orig in let* exp := expDefault exp in Ret (orig, exp)
  | Yes => onExp
  | No => onOrig
  | YesIfAvailable => if notNull exp then onExp else onOrig
  | NoIfOrigAvailable => if notNull orig then onOrig else onExp
  end.

Definition setUnitsToDefault (useExp : UseExpSection) (p : Properties) : outcome Properties :=
  let* (unis', unix') := defaultPair
    (assign_section UNIS.layout grow SectionName.UNIS UnisSection.GetDefault)
    (assign_section UNIx.layout grow SectionName.UNIx UnixSection.GetDefault) useExp (unis p) (unix p) in
  let* puni' := assign_section PUNI.layout grow SectionName.PUNI PuniSection.GetDefault (puni p) in
  Ret (p <| unis := unis' |> <| unix := unix' |> <| puni := puni' |>).

Definition setUpgradesToDefault (useExp : UseExpSection) (p : Properties) : outcome Properties :=
  let* (upgs', upgx') := defaultPair
    (assign_section UPGS.layout grow SectionName.UPGS UpgsSection.GetDefault)
    (assign_section UPGx.layout grow SectionName.UPGx UpgxSection.GetDefault) useExp (upgs p) (upgx p) in
  let* (upgr', pupx') := defaultPair
    (assign_section UPGR.layout grow SectionName.UPGR UpgrSection.GetDefault)
    (assign_section PUPx.layout grow SectionName.PUPx PupxSection.GetDefault) useExp (upgr p) (pupx p) in
  Ret (p <| upgs := upgs' |> <| upgx := upgx' |> <| upgr := upgr' |> <| pupx := pupx' |>).

Definition setTechsToDefault (useExp : UseExpSection) (p : Properties) : outcome Properties :=
  let* (tecs', tecx') := defaultPair
    (assign_section TECS.layout grow SectionName.TECS TecsSection.GetDefault)
    (assign_section TECx.layout grow SectionName.TECx TecxSection.GetDefault) useExp (tecs p) (tecx p) in
  let* (ptec', ptex') := defaultPair
    (assign_section PTEC.layout grow SectionName.PTEC PtecSection.GetDefault)
    (assign_section PTEx.layout grow SectionName.PTEx PtexSection.GetDefault) useExp (ptec p) (ptex p) in
  Ret (p <| tecs := tecs' |> <| tecx := tecx' |> <| ptec := ptec' |> <| ptex := ptex' |>).
End defaults.
End Properties.
