(* ===== verification/ScenarioSettingsProps.v ===== *)
(** What the settings of a scenario promise: which of its two sections a
    member of [Properties] writes and reads under every [UseExpSection], and
    what is left of a section that was reset to its default.

    [CellLaw] is what a section promises of one setting, [SettingLaw] what the
    class promises of it over both sections; [setting_law] derives the second
    from two of the first, for guarded and unguarded setters alike. *)
From S2P Require Import Prelude Codec ChkTypes ChkSection Accessors UnitTechSections StructSections Locations ScenarioSettings.
Open Scope Z_scope.

(** ** Live sections *)

(** The pointer is not null, its [data] is live and denotes [d]. *)
Definition denotes {T} (layout : codec T) (p : SectionPtr) (d : T) : Prop :=
  exists s, p = Some s /\ struct_ok layout s /\ dataLive s = true /\ getData layout s = Ret d /\ cwf layout d.

Definition live {T} (layout : codec T) (p : SectionPtr) : Prop := exists d, denotes layout p d.

Section through.
Context {T : Type} (layout : codec T) `{!CodecOk layout}.

Lemma denotes_notNull p d : denotes layout p d -> notNull p = true.
Proof. by intros (s & -> & _). Qed.

Lemma denotes_read {V} p d (get : T -> outcome V) : denotes layout p d -> read_through layout get p = get d.
Proof. intros (s & -> & _ & _ & Hd & _). unfold read_through; cbn [deref obind]. by rewrite Hd. Qed.

Lemma denotes_write p d d' (set : T -> outcome T) :
  denotes layout p d -> set d = Ret d' -> cwf layout d' ->
  exists p', write_through layout set p = Ret p' /\ denotes layout p' d'.
Proof.
  intros (s & -> & Hok & Hl & Hd & _) Hs Hwf. unfold write_through; cbn [deref obind].
  destruct (viaData_ret layout s d d' set) as (s' & -> & ? & ? & ? & _); auto.
  exists (Some s'); split; [done|]. by exists s'.
Qed.

(** A section made from a well-formed structure is live. *)
Lemma newSection_denotes (grow : Z -> Z -> Z) name virt d :
  (forall cap n, n <= grow cap n) -> cwf layout d ->
  denotes layout (Some (newStructSectionFrom layout grow name virt d)) d.
Proof.
  intros Hg Hd. eexists; split; [done|]. unfold newStructSectionFrom, struct_ok, getData; cbn.
  rewrite drop_replicate, enc_length, Nat.sub_diag by done. cbn [replicate]. rewrite app_nil_r.
  unfold zlen, sizeof. rewrite enc_length by done. pose proof (Hg 0 (Z.of_nat (csize layout))).
  split_and!; auto using enc_bytes; try lia. by rewrite dec_enc'.
Qed.
End through.

(** ** One setting in one section *)

(** In its domain, [set] stores [norm v] in its own cell and keeps the others. *)
Record CellLaw {S I V} `{EqDecision I} (layout : codec S) (ok : V -> Prop) (norm : V -> V) (dom : I -> Prop)
    (get : S -> I -> outcome V) (set : S -> I -> V -> outcome S) : Prop := {
  cell_set : forall s i v, cwf layout s -> ok v -> dom i ->
    exists s', set s i v = Ret s' /\ cwf layout s' /\
      forall j, dom j -> get s' j = if decide (j = i) then Ret (norm v) else get s j
}.

Definition below (N i : Z) : Prop := 0 <= i < N.
Definition below2 (N M : Z) (i : Z * Z) : Prop := 0 <= i.1 < N /\ 0 <= i.2 < M.

Section cells.
Context {S : Type} (layout : codec S).

Lemma cell_lawful {V} erase (ok : V -> Prop) norm N (get : S -> Z -> outcome V) set :
  Lawful (cwf layout) erase ok norm N get set -> CellLaw layout ok norm (below N) get set.
Proof.
  intros [_ _ _ H]. split. intros s i v Hs Hv Hi.
  destruct (H s i v) as (s' & ? & ? & _ & Hg); auto. exists s'. split_and!; auto.
  intros j [Hj _]. by apply Hg.
Qed.

Lemma cell_lawful2 {V} erase (ok : V -> Prop) norm N M (get : S -> Z -> Z -> outcome V) set :
  Lawful2 (cwf layout) erase ok norm N M get set ->
  CellLaw layout ok norm (below2 N M) (fun s i => get s i.1 i.2) (fun s i v => set s i.1 i.2 v).
Proof.
  intros [_ _ _ H]. split. intros s [i j] v Hs Hv [Hi Hj].
  destruct (H s i j v) as (s' & ? & ? & _ & Hg); auto. exists s'. split_and!; auto.
  intros [i' j'] [[Hi' _] [Hj' _]]; cbn in *. rewrite Hg by done.
  repeat case_decide; naive_solver.
Qed.

(** A setter that converts its argument first. *)
Lemma cell_convert {I V} `{EqDecision I} (f : V -> V) (ok : V -> Prop) norm dom (get : S -> I -> outcome V) set :
  (forall v, ok (f v)) -> CellLaw layout ok norm dom get set ->
  CellLaw layout (fun _ => True) (fun v => norm (f v)) dom get (fun s i v => set s i (f v)).
Proof. intros Hf [H]. split. intros s i v Hs _ Hi. by apply H. Qed.

(** Inside of the row, the unchecked setter is the checked one. *)
Lemma cell_unchecked (f : S -> list (list Z)) `{!Updater f} N M
    `{!Member layout f (array_codec (Z.to_nat M) u8c) N} :
  CellLaw layout (fun _ => True) id (below2 N M)
    (fun s i => get_yes (get_at2 N M (f s) i.1 i.2))
    (fun s i b => assign f (set_at2_unchecked N (f s) i.1 i.2 (yes_no b)) s).
Proof.
  destruct (cell_lawful2 _ _ _ _ _ _ _ (lawful2_yes layout f N M)) as [H]. split.
  intros s i v Hs Hv Hi. destruct (H s i v) as (s' & Hs' & ? & ?); auto.
  exists s'. split_and!; auto. rewrite <- Hs'. destruct Hi as [_ Hj]. unfold set_at2, set_at2_unchecked.
  by rewrite (proj2 (Z.ltb_lt i.2 M)) by lia.
Qed.
End cells.

(** ** Both sections *)

(** Which sections a setter writes. *)
Definition writesOriginal (useExp : UseExpSection) : bool :=
  match useExp with Yes | YesIfAvailable => false | _ => true end.
Definition writesExpansion (useExp : UseExpSection) : bool :=
  match useExp with No | NoIfOrigAvailable => false | _ => true end.

(** Which section a getter reads when there are both. *)
Definition readsExpansion (hybridOrAbove : bool) (useExp : UseExpSection) : bool :=
  match useExp with
  | Auto => hybridOrAbove
  | Yes | No | NoIfOrigAvailable => false
  | Both | YesIfAvailable => true
  end.

Section pair.
Context {O E I V : Type} `{EqDecision I} (original : codec O) (expansion : codec E).
Context `{!CodecOk original, !CodecOk expansion}.

Lemma get_pair_denotes ver orig exp dv dO dE (getO : O -> outcome V) (getE : E -> outcome V) useExp :
  denotes VER.layout ver dv -> denotes original orig dO -> denotes expansion exp dE ->
  get_pair original expansion ver orig exp getO getE useExp =
  if readsExpansion (VerSection.isHybridOrAbove dv) useExp then getE dE else getO dO.
Proof.
  intros Hv HO HE. unfold get_pair, useExpansion.
  rewrite (denotes_read VER.layout _ _ _ Hv), (denotes_notNull _ _ _ HO), (denotes_notNull _ _ _ HE).
  rewrite <- (denotes_read _ _ _ getE HE), <- (denotes_read _ _ _ getO HO). by destruct useExp.
Qed.

(** What a setter leaves of the two structures. *)
Lemma set_pair_denotes orig exp dO dE dO' dE' (setO : O -> outcome O) (setE : E -> outcome E) useExp :
  denotes original orig dO -> denotes expansion exp dE ->
  (writesOriginal useExp = true -> setO dO = Ret dO' /\ cwf original dO') ->
  (writesExpansion useExp = true -> setE dE = Ret dE' /\ cwf expansion dE') ->
  exists orig' exp', set_pair original expansion setO setE useExp orig exp = Ret (orig', exp') /\
    denotes original orig' (if writesOriginal useExp then dO' else dO) /\
    denotes expansion exp' (if writesExpansion useExp then dE' else dE).
Proof.
  intros HO HE WO WE. unfold set_pair.
  rewrite (denotes_notNull _ _ _ HO), (denotes_notNull _ _ _ HE).
  destruct useExp; cbn in WO, WE |- *;
    try (destruct WO as [WO1 WO2]; [done|]; destruct (denotes_write _ _ _ _ _ HO WO1 WO2) as (o' & -> & ?));
    try (destruct WE as [WE1 WE2]; [done|]; destruct (denotes_write _ _ _ _ _ HE WE1 WE2) as (e' & -> & ?));
    cbn [obind]; eauto.
Qed.

Lemma set_pair_guarded_denotes inOriginal orig exp dO dE dO' dE' (setO : O -> outcome O) (setE : E -> outcome E) useExp :
  denotes original orig dO -> denotes expansion exp dE ->
  (inOriginal = false -> useExp = Auto \/ writesOriginal useExp = false) ->
  (writesOriginal useExp && inOriginal = true -> setO dO = Ret dO' /\ cwf original dO') ->
  (writesExpansion useExp = true -> setE dE = Ret dE' /\ cwf expansion dE') ->
  exists orig' exp', set_pair_guarded original expansion inOriginal setO setE useExp orig exp = Ret (orig', exp') /\
    denotes original orig' (if writesOriginal useExp && inOriginal then dO' else dO) /\
    denotes expansion exp' (if writesExpansion useExp then dE' else dE).
Proof.
  intros HO HE Hin WO WE. destruct (decide (useExp = Auto)) as [->|Hm].
  - cbn in *. rewrite (denotes_notNull _ _ _ HO), (denotes_notNull _ _ _ HE), andb_true_r.
    destruct WE as [WE1 WE2]; [done|]. destruct (denotes_write _ _ _ _ _ HE WE1 WE2) as (e' & -> & ?).
    destruct inOriginal; [|by eauto].
    destruct WO as [WO1 WO2]; [done|]. destruct (denotes_write _ _ _ _ _ HO WO1 WO2) as (o' & -> & ?). by eauto.
  - replace (set_pair_guarded _ _ _ _ _ _ _ _) with (set_pair original expansion setO setE useExp orig exp)
      by (by destruct useExp).
    destruct inOriginal; [rewrite andb_true_r in *; by apply set_pair_denotes|].
    destruct Hin as [?|Hw]; [done..|]. rewrite Hw in *; cbn.
    destruct (set_pair_denotes orig exp dO dE dO dE' setO setE useExp) as (o' & e' & ? & Ho & ?);
      [done| |intros Hw'; by rewrite Hw in Hw'|done|]; [done|].
    rewrite Hw in Ho. by eauto.
Qed.
End pair.

(** ** Settings of a scenario *)

Import Properties.

(** Every section is there and live, as after loading a complete map. *)
Record settings_ok (p : Properties) : Prop := {
  ver_ok : live VER.layout (ver p);
  unis_ok : live UNIS.layout (unis p);
  unix_ok : live UNIx.layout (unix p);
  puni_ok : live PUNI.layout (puni p);
  upgs_ok : live UPGS.layout (upgs p);
  upgx_ok : live UPGx.layout (upgx p);
  upgr_ok : live UPGR.layout (upgr p);
  pupx_ok : live PUPx.layout (pupx p);
  tecs_ok : live TECS.layout (tecs p);
  tecx_ok : live TECx.layout (tecx p);
  ptec_ok : live PTEC.layout (ptec p);
  ptex_ok : live PTEx.layout (ptex p)
}.

(** What the class promises of one setting.  [domO] and [domE] are the entries
    of the original and of the expansion section. *)
Record SettingLaw {I V} `{EqDecision I} (ok : V -> Prop) (norm : V -> V) (domO domE : I -> Prop)
    (get : Properties -> I -> UseExpSection -> outcome V)
    (set : Properties -> I -> V -> UseExpSection -> outcome Properties) : Prop := {
  setting_get : forall p i, settings_ok p ->
    get p i Yes = get p i No /\ get p i NoIfOrigAvailable = get p i No /\
    get p i Both = get p i YesIfAvailable /\
    exists hybridOrAbove,
      read_through VER.layout (fun d => Ret (VerSection.isHybridOrAbove d)) (ver p) = Ret hybridOrAbove /\
      get p i Auto = get p i (if hybridOrAbove then YesIfAvailable else No);
  setting_set : forall p i v useExp, settings_ok p -> ok v -> domE i ->
    domO i \/ writesOriginal useExp = false \/ useExp = Auto ->
    exists p', set p i v useExp = Ret p' /\ settings_ok p' /\ ver p' = ver p /\
      (forall j, domO j -> get p' j No =
        if writesOriginal useExp && bool_decide (j = i) then Ret (norm v) else get p j No) /\
      (forall j, domE j -> get p' j YesIfAvailable =
        if writesExpansion useExp && bool_decide (j = i) then Ret (norm v) else get p j YesIfAvailable)
}.

Section setting.
Context {O E I V : Type} `{EqDecision I} (original : codec O) (expansion : codec E).
Context `{!CodecOk original, !CodecOk expansion}.
(** The two sections of the setting in the scenario. *)
Variables (fieldO fieldE : Properties -> SectionPtr).
Variable put : SectionPtr -> SectionPtr -> Properties -> Properties.
Hypothesis put_get : forall o e p, fieldO (put o e p) = o /\ fieldE (put o e p) = e /\ ver (put o e p) = ver p.
Hypothesis field_ok : forall p, settings_ok p -> live original (fieldO p) /\ live expansion (fieldE p).
Hypothesis put_ok : forall o e p, settings_ok p -> live original o -> live expansion e -> settings_ok (put o e p).
(** The setting in each section. *)
Variables (ok : V -> Prop) (norm : V -> V) (domO domE : I -> Prop).
Variables (getO : O -> I -> outcome V) (setO : O -> I -> V -> outcome O).
Variables (getE : E -> I -> outcome V) (setE : E -> I -> V -> outcome E).
Hypothesis cellO : CellLaw original ok norm domO getO setO.
Hypothesis cellE : CellLaw expansion ok norm domE getE setE.

Let get p i m := get_pair original expansion (ver p) (fieldO p) (fieldE p) (fun d => getO d i) (fun d => getE d i) m.

Lemma get_read p dv dO dE i m : denotes VER.layout (ver p) dv ->
  denotes original (fieldO p) dO -> denotes expansion (fieldE p) dE ->
  get p i m = if readsExpansion (VerSection.isHybridOrAbove dv) m then getE dE i else getO dO i.
Proof. exact (get_pair_denotes original expansion _ _ _ dv dO dE (fun d => getO d i) (fun d => getE d i) m). Qed.

(** The law from what the setter leaves of the two structures. *)
Lemma setting_law (inO : I -> bool)
    (set : I -> V -> UseExpSection -> SectionPtr -> SectionPtr -> outcome (SectionPtr * SectionPtr)) :
  (forall i, domE i -> inO i = true <-> domO i) ->
  (forall i v m o e dO dE dO' dE', denotes original o dO -> denotes expansion e dE ->
    (inO i = false -> m = Auto \/ writesOriginal m = false) ->
    (writesOriginal m && inO i = true -> setO dO i v = Ret dO' /\ cwf original dO') ->
    (writesExpansion m = true -> setE dE i v = Ret dE' /\ cwf expansion dE') ->
    exists o' e', set i v m o e = Ret (o', e') /\
      denotes original o' (if writesOriginal m && inO i then dO' else dO) /\
      denotes expansion e' (if writesExpansion m then dE' else dE)) ->
  SettingLaw ok norm domO domE get
    (fun p i v m => let* (o, e) := set i v m (fieldO p) (fieldE p) in Ret (put o e p)).
Proof.
  intros Hin Hset. split.
  - intros p i Hp. destruct (field_ok p Hp) as [[dO HO] [dE HE]]. destruct (ver_ok p Hp) as [dv Hv].
    rewrite !(get_read p dv dO dE) by done. split_and!; try done.
    exists (VerSection.isHybridOrAbove dv). rewrite (denotes_read VER.layout _ _ _ Hv). split; [done|].
    rewrite (get_read p dv dO dE) by done. by destruct (VerSection.isHybridOrAbove dv).
  - intros p i v m Hp Hv Hi Hm. destruct (field_ok p Hp) as [[dO HO] [dE HE]]. destruct (ver_ok p Hp) as [dv Hver].
    destruct (cell_set _ _ _ _ _ _ cellE dE i v) as (dE' & HsE & HwE & HgE); [by destruct HE as (? & ? & ? & ? & ? & ?)|done..|].
    assert (exists dO', (inO i = true -> setO dO i v = Ret dO' /\ cwf original dO' /\
        forall j, domO j -> getO dO' j = if decide (j = i) then Ret (norm v) else getO dO j)) as (dO' & HdO).
    { destruct (inO i) eqn:E'; [|by exists dO].
      destruct (cell_set _ _ _ _ _ _ cellO dO i v) as (dO' & ? & ? & ?);
        [by destruct HO as (? & ? & ? & ? & ? & ?) | done | by apply Hin | by exists dO']. }
    destruct (Hset i v m (fieldO p) (fieldE p) dO dE dO' dE' HO HE) as (o' & e' & Hs & HO' & HE').
    { intros Hf. destruct Hm as [Hd|[?|?]]; auto. apply Hin in Hd; [congruence|done]. }
    { intros Hw. apply andb_true_iff in Hw as [_ Hw]. by destruct (HdO Hw) as (? & ? & _). }
    { done. }
    rewrite Hs; cbn [obind]. destruct (put_get o' e' p) as (PO & PE & PV).
    eexists; split; [reflexivity|]. split; [apply put_ok; [done | by eexists | by eexists]|]. split; [done|].
    rewrite <- PO in HO'; rewrite <- PE in HE'. rewrite <- PV in Hver.
    split; intros j Hj; rewrite (get_read _ _ _ _ j _ Hver HO' HE'); rewrite PV in Hver;
      rewrite (get_read _ _ _ _ j _ Hver HO HE); cbn [readsExpansion].
    + destruct (writesOriginal m) eqn:Ew; cbn; [|done]. destruct (inO i) eqn:Ei.
      * destruct (HdO eq_refl) as (_ & _ & ->); [|done]. by repeat case_decide; case_bool_decide.
      * case_bool_decide; [|done]. subst j. apply Hin in Hj; [congruence|done].
    + destruct (writesExpansion m); cbn; [|done]. rewrite HgE by done. by repeat case_decide; case_bool_decide.
Qed.

Lemma guarded_law (inO : I -> bool) : (forall i, domE i -> inO i = true <-> domO i) ->
  SettingLaw ok norm domO domE get
    (fun p i v m => let* (o, e) := set_pair_guarded original expansion (inO i) (fun d => setO d i v)
                                     (fun d => setE d i v) m (fieldO p) (fieldE p) in Ret (put o e p)).
Proof.
  intros Hin. apply (setting_law inO (fun i v m => set_pair_guarded original expansion (inO i)
    (fun d => setO d i v) (fun d => setE d i v) m)); [done|].
  intros i v m o e dO dE dO' dE' HO HE.
  exact (set_pair_guarded_denotes original expansion (inO i) o e dO dE dO' dE' (fun d => setO d i v)
    (fun d => setE d i v) m HO HE).
Qed.

Lemma unguarded_law : (forall i, domE i -> domO i) ->
  SettingLaw ok norm domO domE get
    (fun p i v m => let* (o, e) := set_pair original expansion (fun d => setO d i v)
                                     (fun d => setE d i v) m (fieldO p) (fieldE p) in Ret (put o e p)).
Proof.
  intros Hin. apply (setting_law (fun _ => true) (fun i v m => set_pair original expansion
    (fun d => setO d i v) (fun d => setE d i v) m)); [naive_solver|].
  intros i v m o e dO dE dO' dE' HO HE _. rewrite andb_true_r.
  exact (set_pair_denotes original expansion o e dO dE dO' dE' (fun d => setO d i v) (fun d => setE d i v) m HO HE).
Qed.
End setting.

(** The pairs of sections of a scenario. *)
Ltac solve_put := intros o e []; cbn; split_and!; reflexivity.
Ltac solve_put_ok := intros o e [] []; cbn in *; split; assumption.
Ltac solve_field_ok := intros p []; split; assumption.

Definition put_unit (o e : SectionPtr) (p : Properties) : Properties := p <| unis := o |> <| unix := e |>.
Lemma put_unit_get o e p : unis (put_unit o e p) = o /\ unix (put_unit o e p) = e /\ ver (put_unit o e p) = ver p.
Proof. revert o e p; solve_put. Qed.
Lemma unit_field_ok p : settings_ok p -> live UNIS.layout (unis p) /\ live UNIx.layout (unix p).
Proof. revert p; solve_field_ok. Qed.
Lemma put_unit_ok o e p : settings_ok p -> live UNIS.layout o -> live UNIx.layout e -> settings_ok (put_unit o e p).
Proof. revert o e p; solve_put_ok. Qed.
Definition put_cost (o e : SectionPtr) (p : Properties) : Properties := p <| upgs := o |> <| upgx := e |>.
Lemma put_cost_get o e p : upgs (put_cost o e p) = o /\ upgx (put_cost o e p) = e /\ ver (put_cost o e p) = ver p.
Proof. revert o e p; solve_put. Qed.
Lemma cost_field_ok p : settings_ok p -> live UPGS.layout (upgs p) /\ live UPGx.layout (upgx p).
Proof. revert p; solve_field_ok. Qed.
Lemma put_cost_ok o e p : settings_ok p -> live UPGS.layout o -> live UPGx.layout e -> settings_ok (put_cost o e p).
Proof. revert o e p; solve_put_ok. Qed.
Definition put_level (o e : SectionPtr) (p : Properties) : Properties := p <| upgr := o |> <| pupx := e |>.
Lemma put_level_get o e p : upgr (put_level o e p) = o /\ pupx (put_level o e p) = e /\ ver (put_level o e p) = ver p.
Proof. revert o e p; solve_put. Qed.
Lemma level_field_ok p : settings_ok p -> live UPGR.layout (upgr p) /\ live PUPx.layout (pupx p).
Proof. revert p; solve_field_ok. Qed.
Lemma put_level_ok o e p : settings_ok p -> live UPGR.layout o -> live PUPx.layout e -> settings_ok (put_level o e p).
Proof. revert o e p; solve_put_ok. Qed.
Definition put_tech (o e : SectionPtr) (p : Properties) : Properties := p <| tecs := o |> <| tecx := e |>.
Lemma put_tech_get o e p : tecs (put_tech o e p) = o /\ tecx (put_tech o e p) = e /\ ver (put_tech o e p) = ver p.
Proof. revert o e p; solve_put. Qed.
Lemma tech_field_ok p : settings_ok p -> live TECS.layout (tecs p) /\ live TECx.layout (tecx p).
Proof. revert p; solve_field_ok. Qed.
Lemma put_tech_ok o e p : settings_ok p -> live TECS.layout o -> live TECx.layout e -> settings_ok (put_tech o e p).
Proof. revert o e p; solve_put_ok. Qed.
Definition put_avail (o e : SectionPtr) (p : Properties) : Properties := p <| ptec := o |> <| ptex := e |>.
Lemma put_avail_get o e p : ptec (put_avail o e p) = o /\ ptex (put_avail o e p) = e /\ ver (put_avail o e p) = ver p.
Proof. revert o e p; solve_put. Qed.
Lemma avail_field_ok p : settings_ok p -> live PTEC.layout (ptec p) /\ live PTEx.layout (ptex p).
Proof. revert p; solve_field_ok. Qed.
Lemma put_avail_ok o e p : settings_ok p -> live PTEC.layout o -> live PTEx.layout e -> settings_ok (put_avail o e p).
Proof. revert o e p; solve_put_ok. Qed.

(** The entries of the original section are the first ones. *)
Lemma below_first N M i : N <= M -> below M i -> (i <? N) = true <-> below N i.
Proof. unfold below. rewrite Z.ltb_lt. lia. Qed.

Lemma below2_first N M K i : N <= M -> below2 M K i -> (i.1 <? N) = true <-> below2 N K i.
Proof. unfold below2. rewrite Z.ltb_lt. lia. Qed.

(** One setting of a pair of sections, from what the two sections promise. *)
Ltac unguarded_setting cO cE :=
  exact (unguarded_law UNIS.layout UNIx.layout unis unix put_unit put_unit_get unit_field_ok
           put_unit_ok _ _ _ _ _ _ _ _ cO cE (fun i H => H)).
Ltac guarded_setting original expansion orig exp put put_get field_ok put_ok N M cO cE :=
  first [ exact (guarded_law original expansion orig exp put put_get field_ok put_ok
                   _ _ _ _ _ _ _ _ (cell_lawful original _ _ _ _ _ _ cO) (cell_lawful expansion _ _ _ _ _ _ cE)
                   (fun i => i <? N) (fun i => below_first N M i ltac:(done)))
        | exact (guarded_law original expansion orig exp put put_get field_ok put_ok
                   _ _ _ _ _ _ _ _ (cell_lawful2 original _ _ _ _ _ _ _ cO) (cell_lawful2 expansion _ _ _ _ _ _ _ cE)
                   (fun i => i.1 <? N) (fun i => below2_first N M Player_Total i ltac:(done))) ].
Ltac weapon_setting := guarded_setting UNIS.layout UNIx.layout unis unix put_unit put_unit_get unit_field_ok
  put_unit_ok Weapon_TotalOriginal Weapon_Total.
Ltac cost_setting := guarded_setting UPGS.layout UPGx.layout upgs upgx put_cost put_cost_get cost_field_ok
  put_cost_ok Upgrade_TotalOriginalTypes Upgrade_TotalTypes.
Ltac level_setting := guarded_setting UPGR.layout PUPx.layout upgr pupx put_level put_level_get level_field_ok
  put_level_ok Upgrade_TotalOriginalTypes Upgrade_TotalTypes.
Ltac tech_setting := guarded_setting TECS.layout TECx.layout tecs tecx put_tech put_tech_get tech_field_ok
  put_tech_ok Tech_TotalOriginalTypes Tech_TotalTypes.
Ltac avail_setting := guarded_setting PTEC.layout PTEx.layout ptec ptex put_avail put_avail_get avail_field_ok
  put_avail_ok Tech_TotalOriginalTypes Tech_TotalTypes.

(** C18: Units and weapons: a setter writes the sections its [UseExpSection] names
    and keeps every other entry of both, also for a weapon only the expansion
    has under [Auto]; a getter reads the expansion for [Both] and
    [YesIfAvailable], the section of the version for [Auto], and the original
    section for all others: for [Yes] too, so what was set with [Yes] is not
    read back with it. *)
Theorem unit_settings_laws :
  SettingLaw (fun _ => True) id (below Unit_TotalTypes) (below Unit_TotalTypes)
    unitUsesDefaultSettings setUnitUsesDefaultSettings /\
  SettingLaw (is_u 32) id (below Unit_TotalTypes) (below Unit_TotalTypes)
    getUnitHitpoints setUnitHitpoints /\
  SettingLaw (is_u 16) id (below Unit_TotalTypes) (below Unit_TotalTypes)
    getUnitShieldPoints setUnitShieldPoints /\
  SettingLaw (is_u 8) id (below Unit_TotalTypes) (below Unit_TotalTypes)
    getUnitArmorLevel setUnitArmorLevel /\
  SettingLaw (is_u 16) id (below Unit_TotalTypes) (below Unit_TotalTypes)
    getUnitBuildTime setUnitBuildTime /\
  SettingLaw (is_u 16) id (below Unit_TotalTypes) (below Unit_TotalTypes)
    getUnitMineralCost setUnitMineralCost /\
  SettingLaw (is_u 16) id (below Unit_TotalTypes) (below Unit_TotalTypes)
    getUnitGasCost setUnitGasCost /\
  SettingLaw (fun _ => True) u16 (below Unit_TotalTypes) (below Unit_TotalTypes)
    getUnitNameStringId setUnitNameStringId /\
  SettingLaw (is_u 16) id (below Weapon_TotalOriginal) (below Weapon_Total)
    getWeaponBaseDamage setWeaponBaseDamage /\
  SettingLaw (is_u 16) id (below Weapon_TotalOriginal) (below Weapon_Total)
    getWeaponUpgradeDamage setWeaponUpgradeDamage.
Proof.
  destruct unit_settings_accessors_lawful as (A1 & A2 & A3 & A4 & A5 & A6 & A7 & A8 & A9 & A10 & B1 & B2 & B3 & B4 & B5 & B6 & B7 & B8 & B9 & B10).
  split; [unguarded_setting (cell_lawful UNIS.layout _ _ _ _ _ _ A1) (cell_lawful UNIx.layout _ _ _ _ _ _ B1)|].
  split; [unguarded_setting (cell_lawful UNIS.layout _ _ _ _ _ _ A2) (cell_lawful UNIx.layout _ _ _ _ _ _ B2)|].
  split; [unguarded_setting (cell_lawful UNIS.layout _ _ _ _ _ _ A3) (cell_lawful UNIx.layout _ _ _ _ _ _ B3)|].
  split; [unguarded_setting (cell_lawful UNIS.layout _ _ _ _ _ _ A4) (cell_lawful UNIx.layout _ _ _ _ _ _ B4)|].
  split; [unguarded_setting (cell_lawful UNIS.layout _ _ _ _ _ _ A5) (cell_lawful UNIx.layout _ _ _ _ _ _ B5)|].
  split; [unguarded_setting (cell_lawful UNIS.layout _ _ _ _ _ _ A6) (cell_lawful UNIx.layout _ _ _ _ _ _ B6)|].
  split; [unguarded_setting (cell_lawful UNIS.layout _ _ _ _ _ _ A7) (cell_lawful UNIx.layout _ _ _ _ _ _ B7)|].
  split; [unguarded_setting (cell_convert UNIS.layout u16 _ _ _ _ _ u16_range (cell_lawful UNIS.layout _ _ _ _ _ _ A8))
            (cell_convert UNIx.layout u16 _ _ _ _ _ u16_range (cell_lawful UNIx.layout _ _ _ _ _ _ B8))|].
  split; [weapon_setting A9 B9 | weapon_setting A10 B10].
Qed.

(** Upgrade costs and levels: the same contract. *)
Theorem upgrade_settings_laws :
  SettingLaw (fun _ => True) id (below Upgrade_TotalOriginalTypes) (below Upgrade_TotalTypes)
    upgradeUsesDefaultCosts setUpgradeUsesDefaultCosts /\
  SettingLaw (is_u 16) id (below Upgrade_TotalOriginalTypes) (below Upgrade_TotalTypes)
    getUpgradeBaseMineralCost setUpgradeBaseMineralCost /\
  SettingLaw (is_u 16) id (below Upgrade_TotalOriginalTypes) (below Upgrade_TotalTypes)
    getUpgradeMineralCostFactor setUpgradeMineralCostFactor /\
  SettingLaw (is_u 16) id (below Upgrade_TotalOriginalTypes) (below Upgrade_TotalTypes)
    getUpgradeBaseGasCost setUpgradeBaseGasCost /\
  SettingLaw (is_u 16) id (below Upgrade_TotalOriginalTypes) (below Upgrade_TotalTypes)
    getUpgradeGasCostFactor setUpgradeGasCostFactor /\
  SettingLaw (is_u 16) id (below Upgrade_TotalOriginalTypes) (below Upgrade_TotalTypes)
    getUpgradeBaseResearchTime setUpgradeBaseResearchTime /\
  SettingLaw (is_u 16) id (below Upgrade_TotalOriginalTypes) (below Upgrade_TotalTypes)
    getUpgradeResearchTimeFactor setUpgradeResearchTimeFactor /\
  SettingLaw (fun _ => True) u8 (below2 Upgrade_TotalOriginalTypes Player_Total) (below2 Upgrade_TotalTypes Player_Total)
    (fun p i m => getMaxUpgradeLevel p i.1 i.2 m) (fun p i v m => setMaxUpgradeLevel p i.1 i.2 v m) /\
  SettingLaw (fun _ => True) u8 (below2 Upgrade_TotalOriginalTypes Player_Total) (below2 Upgrade_TotalTypes Player_Total)
    (fun p i m => getStartUpgradeLevel p i.1 i.2 m) (fun p i v m => setStartUpgradeLevel p i.1 i.2 v m) /\
  SettingLaw (fun _ => True) u8 (below Upgrade_TotalOriginalTypes) (below Upgrade_TotalTypes)
    getDefaultMaxUpgradeLevel setDefaultMaxUpgradeLevel /\
  SettingLaw (fun _ => True) u8 (below Upgrade_TotalOriginalTypes) (below Upgrade_TotalTypes)
    getDefaultStartUpgradeLevel setDefaultStartUpgradeLevel /\
  SettingLaw (fun _ => True) id (below2 Upgrade_TotalOriginalTypes Player_Total) (below2 Upgrade_TotalTypes Player_Total)
    (fun p i m => playerUsesDefaultUpgradeLeveling p i.1 i.2 m) (fun p i v m => setPlayerUsesDefaultUpgradeLeveling p i.1 i.2 v m).
Proof.
  destruct upgrade_tech_cost_accessors_lawful as (A1 & A2 & A3 & A4 & A5 & A6 & A7 & B1 & B2 & B3 & B4 & B5 & B6 & B7 & _).
  destruct upgrade_level_accessors_lawful as (C1 & C2 & C3 & C4 & C5 & D1 & D2 & D3 & D4 & D5).
  split; [cost_setting A1 B1|].
  split; [cost_setting A2 B2|].
  split; [cost_setting A3 B3|].
  split; [cost_setting A4 B4|].
  split; [cost_setting A5 B5|].
  split; [cost_setting A6 B6|].
  split; [cost_setting A7 B7|].
  split; [level_setting C1 D1|].
  split; [level_setting C2 D2|].
  split; [level_setting C3 D3|].
  split; [level_setting C4 D4|].
  level_setting C5 D5.
Qed.

(** Technologies: the same contract. *)
Theorem tech_settings_laws :
  SettingLaw (fun _ => True) id (below Tech_TotalOriginalTypes) (below Tech_TotalTypes)
    techUsesDefaultSettings setTechUsesDefaultSettings /\
  SettingLaw (is_u 16) id (below Tech_TotalOriginalTypes) (below Tech_TotalTypes)
    getTechMineralCost setTechMineralCost /\
  SettingLaw (is_u 16) id (below Tech_TotalOriginalTypes) (below Tech_TotalTypes)
    getTechGasCost setTechGasCost /\
  SettingLaw (is_u 16) id (below Tech_TotalOriginalTypes) (below Tech_TotalTypes)
    getTechResearchTime setTechResearchTime /\
  SettingLaw (is_u 16) id (below Tech_TotalOriginalTypes) (below Tech_TotalTypes)
    getTechEnergyCost setTechEnergyCost /\
  SettingLaw (fun _ => True) id (below2 Tech_TotalOriginalTypes Player_Total) (below2 Tech_TotalTypes Player_Total)
    (fun p i m => techAvailable p i.1 i.2 m) (fun p i v m => setTechAvailable p i.1 i.2 v m) /\
  SettingLaw (fun _ => True) id (below2 Tech_TotalOriginalTypes Player_Total) (below2 Tech_TotalTypes Player_Total)
    (fun p i m => techResearched p i.1 i.2 m) (fun p i v m => setTechResearched p i.1 i.2 v m) /\
  SettingLaw (fun _ => True) id (below Tech_TotalOriginalTypes) (below Tech_TotalTypes)
    techDefaultAvailable setDefaultTechAvailable /\
  SettingLaw (fun _ => True) id (below Tech_TotalOriginalTypes) (below Tech_TotalTypes)
    techDefaultResearched setDefaultTechResearched /\
  SettingLaw (fun _ => True) id (below2 Tech_TotalOriginalTypes Player_Total) (below2 Tech_TotalTypes Player_Total)
    (fun p i m => playerUsesDefaultTechSettings p i.1 i.2 m) (fun p i v m => setPlayerUsesDefaultTechSettings p i.1 i.2 v m).
Proof.
  destruct upgrade_tech_cost_accessors_lawful as (_ & _ & _ & _ & _ & _ & _ & _ & _ & _ & _ & _ & _ & _ &
    A1 & A2 & A3 & A4 & A5 & B1 & B2 & B3 & B4 & B5).
  destruct tech_availability_accessors_lawful as (C1 & C2 & C3 & C4 & D1 & D2 & D3 & D4).
  split; [tech_setting A1 B1|].
  split; [tech_setting A2 B2|].
  split; [tech_setting A3 B3|].
  split; [tech_setting A4 B4|].
  split; [tech_setting A5 B5|].
  split; [avail_setting C1 D1|].
  split; [avail_setting C2 D2|].
  split; [avail_setting C3 D3|].
  split; [avail_setting C4 D4|].
  exact (guarded_law PTEC.layout PTEx.layout ptec ptex put_avail put_avail_get avail_field_ok put_avail_ok
           _ _ _ _ _ _ _ _ (cell_unchecked PTEC.layout PTEC.playerUsesDefaultsForTech Tech_TotalOriginalTypes Player_Total)
           (cell_unchecked PTEx.layout PTEx.playerUsesDefaultsForTech Tech_TotalTypes Player_Total)
           (fun i => i.1 <? Tech_TotalOriginalTypes)
           (fun i => below2_first Tech_TotalOriginalTypes Tech_TotalTypes Player_Total i ltac:(done))).
Qed.

(** ** Loading and resetting *)

Section loading.
Variable grow : Z -> Z -> Z.
Hypothesis grow_ge : forall cap n, n <= grow cap n.

Lemma defaultSection_live {T} (layout : codec T) `{!CodecOk layout} name d :
  cwf layout d -> live layout (defaultSection grow layout name d).
Proof. intros Hd. exists d. by apply newSection_denotes. Qed.

Lemma loaded_live {T} (layout : codec T) found default :
  found = None \/ live layout found -> live layout default -> live layout (loaded found default).
Proof. intros [->|Hf] Hd; [done|]. destruct Hf as [d Hf]. unfold loaded. rewrite (denotes_notNull _ _ _ Hf). by exists d. Qed.

(** Every section that was found is live. *)
Definition found_ok (getSection : Z -> SectionPtr) : Prop :=
  let ok {T} (layout : codec T) name := getSection name = None \/ live layout (getSection name) in
  ok UNIS.layout SectionName.UNIS /\ ok UNIx.layout SectionName.UNIx /\ ok PUNI.layout SectionName.PUNI /\
  ok UPGS.layout SectionName.UPGS /\ ok UPGx.layout SectionName.UPGx /\ ok UPGR.layout SectionName.UPGR /\
  ok PUPx.layout SectionName.PUPx /\ ok TECS.layout SectionName.TECS /\ ok TECx.layout SectionName.TECx /\
  ok PTEC.layout SectionName.PTEC /\ ok PTEx.layout SectionName.PTEx.

(** After loading, the settings of a scenario are complete whichever of the
    eleven sections its file has: every one that was not found is made, live,
    from the defaults. *)
Theorem set_completes (getSection : Z -> SectionPtr) p :
  live VER.layout (ver p) -> found_ok getSection -> settings_ok (set grow getSection p).
Proof.
  intros Hv (H1 & H2 & H3 & H4 & H5 & H6 & H7 & H8 & H9 & H10 & H11).
  destruct p; split; cbn in *;
    first [done | apply loaded_live; [assumption | apply defaultSection_live; [apply _ | solve_default]]].
Qed.

(** Assigning a default section to a section: the bytes are those of the
    default, but [data] dangles. *)
Lemma assign_section_spec {T} (layout : codec T) `{!CodecOk layout} name d p :
  cwf layout d -> live layout p ->
  exists s, assign_section layout grow name d p = Ret (Some s) /\
    writeStruct s = Ret (cenc layout d) /\ getData layout s = Undef.
Proof.
  intros Hd [d0 (s & -> & _)]. unfold assign_section; cbn [deref obind]. eexists; split; [reflexivity|].
  unfold writeStruct, getData; cbn. rewrite drop_replicate, enc_length, Nat.sub_diag, app_nil_r by done.
  split; [|done]. unfold zlen, sizeof. rewrite enc_length, Z.leb_refl, Nat2Z.id by done.
  by rewrite <- (enc_length d Hd), firstn_all.
Qed.

Lemma dangling_read {T V} (layout : codec T) (get : T -> outcome V) s :
  getData layout s = Undef -> read_through layout get (Some s) = Undef.
Proof. intros H. unfold read_through; cbn [deref obind]. by rewrite H. Qed.

(** The two sections after a reset. *)
Definition reset {T} (layout : codec T) (d : T) (written : bool) (before after : SectionPtr) : Prop :=
  if written then exists s, after = Some s /\ writeStruct s = Ret (cenc layout d) /\ getData layout s = Undef
  else after = before.

Lemma defaultPair_spec {O E} (original : codec O) (expansion : codec E) `{!CodecOk original, !CodecOk expansion}
    nO nE dO dE useExp orig exp :
  cwf original dO -> cwf expansion dE -> live original orig -> live expansion exp ->
  exists orig' exp', defaultPair (assign_section original grow nO dO) (assign_section expansion grow nE dE)
      useExp orig exp = Ret (orig', exp') /\
    reset original dO (writesOriginal useExp) orig orig' /\
    reset expansion dE (writesExpansion useExp) exp exp'.
Proof.
  intros HdO HdE HO HE.
  destruct (assign_section_spec original nO dO orig) as (sO & AO & ?); auto.
  destruct (assign_section_spec expansion nE dE exp) as (sE & AE & ?); auto.
  destruct HO as [? HO], HE as [? HE]. unfold defaultPair.
  rewrite AO, AE, (denotes_notNull _ _ _ HO), (denotes_notNull _ _ _ HE).
  destruct useExp; cbn; do 2 eexists; (split; [reflexivity|]); split; cbn; eauto.
Qed.

(** Resetting units, upgrades or technologies gives the sections that
    [useExp] names the bytes of their defaults, which a save right after it
    writes; but each of them is left with the [data] pointer of a section that
    is destroyed, so that every access to it is undefined: the buildability of
    any unit, and the settings read from a section that was reset. *)
Theorem reset_dangles p useExp :
  settings_ok p ->
  (exists p', setUnitsToDefault grow useExp p = Ret p' /\
    reset UNIS.layout UnisSection.GetDefault (writesOriginal useExp) (unis p) (unis p') /\
    reset UNIx.layout UnixSection.GetDefault (writesExpansion useExp) (unix p) (unix p') /\
    reset PUNI.layout PuniSection.GetDefault true (puni p) (puni p') /\
    (forall unitType player, isUnitBuildable p' unitType player = Undef)) /\
  (exists p', setUpgradesToDefault grow useExp p = Ret p' /\
    reset UPGS.layout UpgsSection.GetDefault (writesOriginal useExp) (upgs p) (upgs p') /\
    reset UPGx.layout UpgxSection.GetDefault (writesExpansion useExp) (upgx p) (upgx p') /\
    reset UPGR.layout UpgrSection.GetDefault (writesOriginal useExp) (upgr p) (upgr p') /\
    reset PUPx.layout PupxSection.GetDefault (writesExpansion useExp) (pupx p) (pupx p')) /\
  (exists p', setTechsToDefault grow useExp p = Ret p' /\
    reset TECS.layout TecsSection.GetDefault (writesOriginal useExp) (tecs p) (tecs p') /\
    reset TECx.layout TecxSection.GetDefault (writesExpansion useExp) (tecx p) (tecx p') /\
    reset PTEC.layout PtecSection.GetDefault (writesOriginal useExp) (ptec p) (ptec p') /\
    reset PTEx.layout PtexSection.GetDefault (writesExpansion useExp) (ptex p) (ptex p')).
Proof.
  intros [Hv H1 H2 H3 H4 H5 H6 H7 H8 H9 H10 H11]. split_and!.
  - destruct (defaultPair_spec UNIS.layout UNIx.layout SectionName.UNIS SectionName.UNIx UnisSection.GetDefault
      UnixSection.GetDefault useExp (unis p) (unix p)) as (o & e & HA & ? & ?); [solve_default..|done|done|].
    destruct (assign_section_spec PUNI.layout SectionName.PUNI PuniSection.GetDefault (puni p)) as (s & HB & ? & Hd);
      [solve_default | done|].
    unfold setUnitsToDefault. rewrite HA; cbn [obind]. rewrite HB; cbn [obind].
    eexists; split; [reflexivity|]. destruct p; cbn in *. split_and!; eauto.
    intros u pl. unfold isUnitBuildable; cbn. by apply dangling_read.
  - destruct (defaultPair_spec UPGS.layout UPGx.layout SectionName.UPGS SectionName.UPGx UpgsSection.GetDefault
      UpgxSection.GetDefault useExp (upgs p) (upgx p)) as (o & e & HA & ? & ?); [solve_default..|done|done|].
    destruct (defaultPair_spec UPGR.layout PUPx.layout SectionName.UPGR SectionName.PUPx UpgrSection.GetDefault
      PupxSection.GetDefault useExp (upgr p) (pupx p)) as (o' & e' & HB & ? & ?); [solve_default..|done|done|].
    unfold setUpgradesToDefault. rewrite HA; cbn [obind]. rewrite HB; cbn [obind].
    eexists; split; [reflexivity|]. by destruct p.
  - destruct (defaultPair_spec TECS.layout TECx.layout SectionName.TECS SectionName.TECx TecsSection.GetDefault
      TecxSection.GetDefault useExp (tecs p) (tecx p)) as (o & e & HA & ? & ?); [solve_default..|done|done|].
    destruct (defaultPair_spec PTEC.layout PTEx.layout SectionName.PTEC SectionName.PTEx PtecSection.GetDefault
      PtexSection.GetDefault useExp (ptec p) (ptex p)) as (o' & e' & HB & ? & ?); [solve_default..|done|done|].
    unfold setTechsToDefault. rewrite HA; cbn [obind]. rewrite HB; cbn [obind].
    eexists; split; [reflexivity|]. by destruct p.
Qed.
End loading.

(** ** Witnesses *)

(** The settings of a new scenario. *)
Definition exactly (_ n : Z) : Z := n.
Definition newVer : SectionPtr :=
  Some (newStructSectionFrom VER.layout exactly SectionName.VER false VerSection.GetDefault).
Definition fresh_settings : Properties :=
  set exactly (fun _ => None) (mkProperties newVer None None None None None None None None None None None).

Lemma newVer_live : live VER.layout newVer.
Proof. eexists. apply newSection_denotes; [apply _ | done | solve_default]. Qed.

Lemma fresh_settings_ok : settings_ok fresh_settings.
Proof.
  apply (set_completes exactly); [done | apply newVer_live|].
  unfold found_ok. split_and!; by left.
Qed.

Lemma reset_dangles_witness :
  exists p', setUnitsToDefault exactly Both fresh_settings = Ret p' /\ isUnitBuildable p' 0 0 = Undef.
Proof.
  destruct (reset_dangles exactly fresh_settings Both fresh_settings_ok) as ((p' & Hp & _ & _ & _ & Hu) & _).
  exists p'. exact (conj Hp (Hu 0 0)).
Defined.
