(* ===== verification/ScenarioLayers.v ===== *)
(** The classes [Terrain] and [Layers] of Scenario.cpp: the map itself, its
    tiles, fog of war, placed objects and locations, and what a change of its
    dimensions does to them.

    The members are pointers to sections that may be null; a section is the
    value its file models, the structure sections their structure.  [layer]
    calls a member function of a section through its pointer.  [trig] is the
    section that [triggers] reaches. *)
From S2P Require Import Prelude Codec ChkTypes ChkSection Accessors StructSections Terrain Objects Locations Triggers StringTable.
Open Scope Z_scope.

(** [Chk::Scope]: the scopes that only prefer one storage. *)
Definition Scope_EditorOverGame : Z := 16.

Record Layers := mkLayers {
  era : option (ERA.ERA);
  dim : option (DIM.DIM);
  mtxm : option (list Z);
  tile : option (list Z);
  isom : option (list IsomEntry.IsomEntry);
  mask : option (list Z);
  thg2 : option (list Sprite.Sprite);
  dd2 : option (list Doodad.Doodad);
  unit : option (list Unit.Unit);
  mrgn : option (MrgnSection.t)
}.

#[export] Instance era_updater : Updater era :=
  {| upd v l := mkLayers v (dim l) (mtxm l) (tile l) (isom l) (mask l) (thg2 l) (dd2 l) (unit l) (mrgn l); upd_get v l := eq_refl; upd_upd v w l := eq_refl |}.
#[export] Instance dim_updater : Updater dim :=
  {| upd v l := mkLayers (era l) v (mtxm l) (tile l) (isom l) (mask l) (thg2 l) (dd2 l) (unit l) (mrgn l); upd_get v l := eq_refl; upd_upd v w l := eq_refl |}.
#[export] Instance mtxm_updater : Updater mtxm :=
  {| upd v l := mkLayers (era l) (dim l) v (tile l) (isom l) (mask l) (thg2 l) (dd2 l) (unit l) (mrgn l); upd_get v l := eq_refl; upd_upd v w l := eq_refl |}.
#[export] Instance tile_updater : Updater tile :=
  {| upd v l := mkLayers (era l) (dim l) (mtxm l) v (isom l) (mask l) (thg2 l) (dd2 l) (unit l) (mrgn l); upd_get v l := eq_refl; upd_upd v w l := eq_refl |}.
#[export] Instance isom_updater : Updater isom :=
  {| upd v l := mkLayers (era l) (dim l) (mtxm l) (tile l) v (mask l) (thg2 l) (dd2 l) (unit l) (mrgn l); upd_get v l := eq_refl; upd_upd v w l := eq_refl |}.
#[export] Instance mask_updater : Updater mask :=
  {| upd v l := mkLayers (era l) (dim l) (mtxm l) (tile l) (isom l) v (thg2 l) (dd2 l) (unit l) (mrgn l); upd_get v l := eq_refl; upd_upd v w l := eq_refl |}.
#[export] Instance thg2_updater : Updater thg2 :=
  {| upd v l := mkLayers (era l) (dim l) (mtxm l) (tile l) (isom l) (mask l) v (dd2 l) (unit l) (mrgn l); upd_get v l := eq_refl; upd_upd v w l := eq_refl |}.
#[export] Instance dd2_updater : Updater dd2 :=
  {| upd v l := mkLayers (era l) (dim l) (mtxm l) (tile l) (isom l) (mask l) (thg2 l) v (unit l) (mrgn l); upd_get v l := eq_refl; upd_upd v w l := eq_refl |}.
#[export] Instance unit_updater : Updater unit :=
  {| upd v l := mkLayers (era l) (dim l) (mtxm l) (tile l) (isom l) (mask l) (thg2 l) (dd2 l) v (mrgn l); upd_get v l := eq_refl; upd_upd v w l := eq_refl |}.
#[export] Instance mrgn_updater : Updater mrgn :=
  {| upd v l := mkLayers (era l) (dim l) (mtxm l) (tile l) (isom l) (mask l) (thg2 l) (dd2 l) (unit l) v; upd_get v l := eq_refl; upd_upd v w l := eq_refl |}.

(** [section->f(...)] for a call that returns a value, and for one that changes
    the section. *)
Definition ask {A V} (section : Layers -> option A) (f : A -> outcome V) (l : Layers) : outcome V :=
  let* s := deref (section l) in f s.
Definition layer {A} (section : Layers -> option A) `{!Updater section} (f : A -> outcome A) (l : Layers)
    : outcome Layers :=
  let* s := deref (section l) in
  let* s := f s in
  Ret (l <| section := Some s |>).

Definition isNull {A} (p : option A) : bool := match p with Some _ => false | None => true end.

(** ** Terrain *)

Module TerrainClass.

(** [Terrain(tileset, width, height)]: the members of [Layers] are null. *)
Definition newTerrain (tileset width height : Z) : Layers :=
  mkLayers (Some (EraSection.GetDefault tileset)) (Some (DimSection.GetDefault width height))
    (Some (MtxmSection.GetDefault width height)) (Some (TileSection.GetDefault width height))
    (Some (IsomSection.GetDefault width height)) None None None None None.

Definition empty (l : Layers) : bool :=
  isNull (era l) && isNull (dim l) && isNull (mtxm l) && isNull (tile l) && isNull (isom l).

Definition getTileset (l : Layers) : outcome Z := ask era (fun d => Ret (EraSection.getTileset d)) l.
Definition setTileset (tileset : Z) (l : Layers) : outcome Layers :=
  layer era (fun d => Ret (EraSection.setTileset d tileset)) l.
Definition getTileWidth (l : Layers) : outcome Z := ask dim (fun d => Ret (DimSection.getTileWidth d)) l.
Definition getTileHeight (l : Layers) : outcome Z := ask dim (fun d => Ret (DimSection.getTileHeight d)) l.
Definition getPixelWidth (l : Layers) : outcome Z := ask dim (fun d => Ret (DimSection.getPixelWidth d)) l.
Definition getPixelHeight (l : Layers) : outcome Z := ask dim (fun d => Ret (DimSection.getPixelHeight d)) l.

(** The calls the three functions below share. *)
Definition resizeTerrain (newTileWidth newTileHeight tileWidth tileHeight leftEdge topEdge : Z) (l : Layers)
    : outcome Layers :=
  let* l := layer isom (fun s => IsomSection.setDimensions s newTileWidth newTileHeight tileWidth tileHeight
                                   leftEdge topEdge) l in
  let* l := layer tile (fun s => TileSection.setDimensions s newTileWidth newTileHeight tileWidth tileHeight
                                   leftEdge topEdge) l in
  layer mtxm (fun s => MtxmSection.setDimensions s newTileWidth newTileHeight tileWidth tileHeight
                         leftEdge topEdge) l.

(** The width that is stored is the old one. *)
Definition setTileWidth (newTileWidth leftEdge : Z) (l : Layers) : outcome Layers :=
  let* tileWidth := getTileWidth l in
  let* tileHeight := getTileHeight l in
  let* l := resizeTerrain newTileWidth tileHeight tileWidth tileHeight leftEdge 0 l in
  layer dim (fun d => Ret (DimSection.setTileWidth d tileWidth)) l.

(** The height that is stored is the old one. *)
Definition setTileHeight (newTileHeight topEdge : Z) (l : Layers) : outcome Layers :=
  let* tileWidth := getTileWidth l in
  let* tileHeight := getTileHeight l in
  let* l := resizeTerrain tileWidth newTileHeight tileWidth tileHeight 0 topEdge l in
  layer dim (fun d => Ret (DimSection.setTileHeight d tileHeight)) l.

Definition setDimensions (newTileWidth newTileHeight leftEdge topEdge : Z) (l : Layers) : outcome Layers :=
  let* tileWidth := getTileWidth l in
  let* tileHeight := getTileHeight l in
  let* l := resizeTerrain newTileWidth newTileHeight tileWidth tileHeight leftEdge topEdge l in
  layer dim (fun d => Ret (DimSection.setDimensions d newTileWidth newTileHeight)) l.

(** [tileYc*tileWidth + tileXc] *)
Definition tileIndex (tileXc tileYc : Z) (l : Layers) : outcome Z :=
  let* tileWidth := getTileWidth l in Ret (u64 (tileYc * tileWidth + tileXc)).

Definition getTile (tileXc tileYc scope : Z) (l : Layers) : outcome Z :=
  let* i := tileIndex tileXc tileYc l in
  let game := ask mtxm (fun s => MtxmSection.getTile s i) l in
  let editor := ask tile (fun s => TileSection.getTile s i) l in
  if scope =? Scope.Game then game
  else if scope =? Scope.Editor then editor
  else if scope =? Scope_EditorOverGame then (if isNull (tile l) then game else editor)
  else if isNull (mtxm l) then editor else game.

Definition getTilePx (pixelXc pixelYc scope : Z) (l : Layers) : outcome Z :=
  getTile (pixelXc / DimSection.PixelsPerTile) (pixelYc / DimSection.PixelsPerTile) scope l.

Definition setTile (tileXc tileYc tileValue scope : Z) (l : Layers) : outcome Layers :=
  let* i := tileIndex tileXc tileYc l in
  let game := layer mtxm (fun s => MtxmSection.setTile s i tileValue) in
  let editor := layer tile (fun s => TileSection.setTile s i tileValue) in
  if scope =? Scope.Game then game l
  else if scope =? Scope.Editor then editor l
  else let* l := game l in editor l.

Definition setTilePx (pixelXc pixelYc tileValue scope : Z) (l : Layers) : outcome Layers :=
  setTile (pixelXc / DimSection.PixelsPerTile) (pixelYc / DimSection.PixelsPerTile) tileValue scope l.

Definition getIsomEntry (isomIndex : Z) (l : Layers) : outcome IsomEntry.IsomEntry :=
  ask isom (fun s => IsomSection.getIsomEntry s isomIndex) l.

(** [found] are the sections [GetSection] finds. *)
Definition set (found l : Layers) : Layers :=
  let sizes := match dim found with
               | Some d => Some (u16 (DimSection.getTileWidth d), u16 (DimSection.getTileHeight d))
               | None => None
               end in
  mkLayers (era found) (dim found) (mtxm found)
    (match tile found, sizes with None, Some (tw, th) => Some (TileSection.GetDefault tw th) | t, _ => t end)
    (match isom found, sizes with None, Some (tw, th) => Some (IsomSection.GetDefault tw th) | t, _ => t end)
    (mask l) (thg2 l) (dd2 l) (unit l) (mrgn l).

Definition clear (l : Layers) : Layers :=
  mkLayers None None None None None (mask l) (thg2 l) (dd2 l) (unit l) (mrgn l).
End TerrainClass.

(** ** Layers *)

Module SizeValidationFlag.
Definition UpdateAnywhere : Z := 1.
Definition UpdateAnywhereIfAlreadyStandard : Z := 2.
Definition UpdateOutOfBoundsLocations : Z := 4.
Definition RemoveOutOfBoundsDoodads : Z := 8.
Definition UpdateOutOfBoundsUnits : Z := 16.
Definition RemoveOutOfBoundsUnits : Z := 32.
Definition UpdateOutOfBoundsSprites : Z := 64.
Definition RemoveOutOfBoundsSprites : Z := 128.
Definition Default : Z :=
  Z.lor (Z.lor (Z.lor UpdateAnywhereIfAlreadyStandard RemoveOutOfBoundsDoodads) UpdateOutOfBoundsUnits)
    UpdateOutOfBoundsSprites.
End SizeValidationFlag.

(** [for ( i = n-1; i < n; i-- )] with an unsigned index. *)
Definition downFrom (n : Z) : list Z := reverse (range 0 n).

Module LayersClass.
Import TerrainClass.

(** [Layers(tileset, width, height)] *)
Definition newLayers (tileset width height : Z) : Layers :=
  let l := newTerrain tileset width height in
  mkLayers (era l) (dim l) (mtxm l) (tile l) (isom l) (Some (MaskSection.GetDefault width height))
    (Some Thg2Section.GetDefault) (Some Dd2Section.GetDefault) (Some UnitSection.GetDefault)
    (Some (MrgnSection.GetDefault width height)).

Definition empty (l : Layers) : bool :=
  TerrainClass.empty l && isNull (mask l) && isNull (thg2 l) && isNull (dd2 l) && (isNull (unit l) && isNull (mrgn l)).

Definition getFog (tileXc tileYc : Z) (l : Layers) : outcome Z :=
  let* i := tileIndex tileXc tileYc l in ask mask (fun s => MaskSection.getFog s i) l.
Definition getFogPx (pixelXc pixelYc : Z) (l : Layers) : outcome Z :=
  getFog (pixelXc / DimSection.PixelsPerTile) (pixelYc / DimSection.PixelsPerTile) l.
Definition setFog (tileXc tileYc fogOfWarPlayers : Z) (l : Layers) : outcome Layers :=
  let* i := tileIndex tileXc tileYc l in layer mask (fun s => MaskSection.setFog s i fogOfWarPlayers) l.
Definition setFogPx (pixelXc pixelYc fogOfWarPlayers : Z) (l : Layers) : outcome Layers :=
  setFog (pixelXc / DimSection.PixelsPerTile) (pixelYc / DimSection.PixelsPerTile) fogOfWarPlayers l.

(** *** Placed objects *)

Definition numSprites (l : Layers) : outcome Z := ask thg2 (fun s => Ret (Thg2Section.numSprites s)) l.
Definition getSprite (spriteIndex : Z) (l : Layers) : outcome Sprite.Sprite := ask thg2 (fun s => Thg2Section.getSprite s spriteIndex) l.
Definition addSprite (sprite : Sprite.Sprite) (l : Layers) : outcome (Layers * Z) :=
  let* s := deref (thg2 l) in
  let '(s, spriteIndex) := Thg2Section.addSprite s sprite in
  Ret (l <| thg2 := Some s |>, spriteIndex).
Definition insertSprite (spriteIndex : Z) (sprite : Sprite.Sprite) (l : Layers) : outcome Layers :=
  layer thg2 (fun s => Thg2Section.insertSprite s spriteIndex sprite) l.
Definition deleteSprite (spriteIndex : Z) (l : Layers) : outcome Layers := layer thg2 (fun s => Thg2Section.deleteSprite s spriteIndex) l.
Definition moveSprite (spriteIndexFrom spriteIndexTo : Z) (l : Layers) : outcome Layers :=
  layer thg2 (fun s => Thg2Section.moveSprite s spriteIndexFrom spriteIndexTo) l.

Definition numDoodads (l : Layers) : outcome Z := ask dd2 (fun s => Ret (Dd2Section.numDoodads s)) l.
Definition getDoodad (doodadIndex : Z) (l : Layers) : outcome Doodad.Doodad := ask dd2 (fun s => Dd2Section.getDoodad s doodadIndex) l.
Definition addDoodad (doodad : Doodad.Doodad) (l : Layers) : outcome (Layers * Z) :=
  let* s := deref (dd2 l) in
  let '(s, doodadIndex) := Dd2Section.addDoodad s doodad in
  Ret (l <| dd2 := Some s |>, doodadIndex).
Definition insertDoodad (doodadIndex : Z) (doodad : Doodad.Doodad) (l : Layers) : outcome Layers :=
  layer dd2 (fun s => Dd2Section.insertDoodad s doodadIndex doodad) l.
Definition deleteDoodad (doodadIndex : Z) (l : Layers) : outcome Layers := layer dd2 (fun s => Dd2Section.deleteDoodad s doodadIndex) l.
Definition moveDoodad (doodadIndexFrom doodadIndexTo : Z) (l : Layers) : outcome Layers :=
  layer dd2 (fun s => Dd2Section.moveDoodad s doodadIndexFrom doodadIndexTo) l.

Definition numUnits (l : Layers) : outcome Z := ask unit (fun s => Ret (UnitSection.numUnits s)) l.
Definition getUnit (unitIndex : Z) (l : Layers) : outcome Unit.Unit := ask unit (fun s => UnitSection.getUnit s unitIndex) l.
Definition addUnit (placedUnit : Unit.Unit) (l : Layers) : outcome (Layers * Z) :=
  let* s := deref (unit l) in
  let '(s, unitIndex) := UnitSection.addUnit s placedUnit in
  Ret (l <| unit := Some s |>, unitIndex).
Definition insertUnit (unitIndex : Z) (placedUnit : Unit.Unit) (l : Layers) : outcome Layers :=
  layer unit (fun s => UnitSection.insertUnit s unitIndex placedUnit) l.
Definition deleteUnit (unitIndex : Z) (l : Layers) : outcome Layers := layer unit (fun s => UnitSection.deleteUnit s unitIndex) l.
Definition moveUnit (unitIndexFrom unitIndexTo : Z) (l : Layers) : outcome Layers :=
  layer unit (fun s => UnitSection.moveUnit s unitIndexFrom unitIndexTo) l.

Definition updateOutOfBoundsSprites (l : Layers) : outcome Layers :=
  let* pixelWidth := getPixelWidth l in
  let* pixelHeight := getPixelHeight l in
  layer thg2 (fun s => for_each (fun i s =>
      let* sprite := Thg2Section.getSprite s i in
      let sprite := if Sprite.xc sprite >=? pixelWidth then sprite <| Sprite.xc := u16 (pixelWidth - 1) |> else sprite in
      let sprite := if Sprite.yc sprite >=? pixelHeight then sprite <| Sprite.yc := u16 (pixelHeight - 1) |> else sprite in
      vset s i sprite)
    (range 0 (Thg2Section.numSprites s)) s) l.

Definition removeOutOfBoundsSprites (l : Layers) : outcome Layers :=
  let* pixelWidth := getPixelWidth l in
  let* pixelHeight := getPixelHeight l in
  layer thg2 (fun s => for_each (fun i s =>
      let* sprite := Thg2Section.getSprite s i in
      if (Sprite.xc sprite >=? pixelWidth) || (Sprite.yc sprite >=? pixelHeight) then Thg2Section.deleteSprite s i else Ret s)
    (downFrom (Thg2Section.numSprites s)) s) l.

Definition removeOutOfBoundsDoodads (l : Layers) : outcome Layers :=
  let* pixelWidth := getPixelWidth l in
  let* pixelHeight := getPixelHeight l in
  layer dd2 (fun s => for_each (fun i s =>
      let* doodad := Dd2Section.getDoodad s i in
      if (Doodad.xc doodad >=? pixelWidth) || (Doodad.yc doodad >=? pixelHeight) then Dd2Section.deleteDoodad s i else Ret s)
    (downFrom (Dd2Section.numDoodads s)) s) l.

Definition updateOutOfBoundsUnits (l : Layers) : outcome Layers :=
  let* pixelWidth := getPixelWidth l in
  let* pixelHeight := getPixelHeight l in
  layer unit (fun s => for_each (fun i s =>
      let* currUnit := UnitSection.getUnit s i in
      let currUnit := if Unit.xc currUnit >=? pixelWidth then currUnit <| Unit.xc := u16 (pixelWidth - 1) |> else currUnit in
      let currUnit := if Unit.yc currUnit >=? pixelHeight then currUnit <| Unit.yc := u16 (pixelHeight - 1) |> else currUnit in
      vset s i currUnit)
    (range 0 (UnitSection.numUnits s)) s) l.

Definition removeOutOfBoundsUnits (l : Layers) : outcome Layers :=
  let* pixelWidth := getPixelWidth l in
  let* pixelHeight := getPixelHeight l in
  layer unit (fun s => for_each (fun i s =>
      let* currUnit := UnitSection.getUnit s i in
      if (Unit.xc currUnit >=? pixelWidth) || (Unit.yc currUnit >=? pixelHeight) then UnitSection.deleteUnit s i else Ret s)
    (downFrom (UnitSection.numUnits s)) s) l.

(** *** Locations *)

Definition numLocations (l : Layers) : outcome Z := ask mrgn (fun s => Ret (MrgnSection.numLocations s)) l.
Definition getLocation (locationId : Z) (l : Layers) : outcome (option Location.Location) :=
  ask mrgn (fun s => MrgnSection.getLocation s locationId) l.
Definition addLocation (location : option Location.Location) (l : Layers) : outcome (Layers * Z) :=
  let* s := deref (mrgn l) in
  let* (s, locationId) := MrgnSection.addLocation s location in
  Ret (l <| mrgn := Some s |>, locationId).
Definition replaceLocation (locationId : Z) (location : option Location.Location) (l : Layers) : outcome Layers :=
  layer mrgn (fun s => MrgnSection.replaceLocation s locationId location) l.
Definition deleteLocation (trig : TrigSection.t) (locationId : Z) (deleteOnlyIfUnused : bool) (l : Layers)
    : outcome Layers :=
  let* used := if deleteOnlyIfUnused then TrigSection.locationUsed trig locationId else Ret false in
  if used then Ret l else layer mrgn (fun s => MrgnSection.deleteLocation s locationId) l.
Definition moveLocation (locationIdFrom locationIdTo : Z) (lockAnywhere : bool) (l : Layers)
    : outcome (Layers * bool) :=
  let* s := deref (mrgn l) in
  let* (s, moved) := MrgnSection.moveLocation s locationIdFrom locationIdTo lockAnywhere in
  Ret (l <| mrgn := Some s |>, moved).
Definition isBlank (locationId : Z) (l : Layers) : outcome bool :=
  ask mrgn (fun s => MrgnSection.isBlank s locationId) l.

Definition downsizeOutOfBoundsLocations (l : Layers) : outcome Layers :=
  let* pixelWidth := getPixelWidth l in
  let* pixelHeight := getPixelHeight l in
  layer mrgn (fun s => for_each (fun i s =>
      let* p := MrgnSection.getLocation s i in
      let* location := deref p in
      let location := if Location.left location >=? pixelWidth
                      then location <| Location.left := u32 (pixelWidth - 1) |> else location in
      let location := if Location.right location >=? pixelWidth
                      then location <| Location.right := u32 (pixelWidth - 1) |> else location in
      let location := if Location.top location >=? pixelHeight
                      then location <| Location.top := u32 (pixelHeight - 1) |> else location in
      let location := if Location.bottom location >=? pixelHeight
                      then location <| Location.bottom := u32 (pixelHeight - 1) |> else location in
      vset s i (Some location))
    (range 1 (MrgnSection.numLocations s + 1)) s) l.

Definition locationsFitOriginal (trig : TrigSection.t) (lockAnywhere autoDefragment : bool) (l : Layers)
    : outcome bool :=
  ask mrgn (fun s => MrgnSection.locationsFitOriginal (TrigSection.markUsedLocations trig) s lockAnywhere
                       autoDefragment) l.

(** The synchronizer is [triggers]: its TRIG section is marked and remapped. *)
Definition trimLocationsToOriginal (lockAnywhere autoDefragment : bool) (trig : TrigSection.t) (l : Layers)
    : outcome (Layers * TrigSection.t * bool) :=
  let* s := deref (mrgn l) in
  let* (s, trimmed, remappings) :=
    MrgnSection.trimToOriginal (TrigSection.markUsedLocations trig) s lockAnywhere autoDefragment in
  let* trig := match remappings with
               | Some m => TrigSection.remapLocationIds trig m
               | None => Ret trig
               end in
  Ret (l <| mrgn := Some s |>, trig, trimmed).

Definition expandToScHybridOrExpansion (l : Layers) : outcome Layers :=
  layer mrgn (fun s => Ret (MrgnSection.expandToScHybridOrExpansion s)) l.

Definition anywhereIsStandardDimensions (l : Layers) : outcome bool :=
  let* p := getLocation LocationId_Anywhere l in
  match p with
  | None => Ret false
  | Some anywhere =>
      let* pixelWidth := getPixelWidth l in
      let* pixelHeight := getPixelHeight l in
      Ret ((Location.left anywhere =? 0) && (Location.top anywhere =? 0) &&
           (Location.right anywhere =? pixelWidth) && (Location.bottom anywhere =? pixelHeight))
  end.

Definition matchAnywhereToDimensions (l : Layers) : outcome Layers :=
  let* p := getLocation LocationId_Anywhere l in
  match p with
  | None => Ret l
  | Some anywhere =>
      let* pixelWidth := getPixelWidth l in
      let* pixelHeight := getPixelHeight l in
      layer mrgn (fun s => vset s LocationId_Anywhere (Some (anywhere
        <| Location.left := 0 |> <| Location.top := 0 |>
        <| Location.right := u32 pixelWidth |> <| Location.bottom := u32 pixelHeight |>))) l
  end.

(** *** Dimensions *)

Definition onFlag (flags flag : Z) (f : Layers -> outcome Layers) (l : Layers) : outcome Layers :=
  if has_flag flags flag then f l else Ret l.

Definition validateSizes (sizeValidationFlags : Z) (l : Layers) : outcome Layers :=
  let updateAnywhereIfAlreadyStandard :=
    has_flag sizeValidationFlags SizeValidationFlag.UpdateAnywhereIfAlreadyStandard in
  let updateAnywhere := has_flag sizeValidationFlags SizeValidationFlag.UpdateAnywhere in
  let* anywhere :=
    if negb updateAnywhereIfAlreadyStandard && updateAnywhere then Ret true
    else if updateAnywhereIfAlreadyStandard then anywhereIsStandardDimensions l
    else Ret false in
  let* l := if anywhere then matchAnywhereToDimensions l else Ret l in
  let* l := onFlag sizeValidationFlags SizeValidationFlag.UpdateOutOfBoundsLocations downsizeOutOfBoundsLocations l in
  let* l := onFlag sizeValidationFlags SizeValidationFlag.RemoveOutOfBoundsDoodads removeOutOfBoundsDoodads l in
  let* l := if has_flag sizeValidationFlags SizeValidationFlag.UpdateOutOfBoundsUnits
            then updateOutOfBoundsUnits l
            else onFlag sizeValidationFlags SizeValidationFlag.RemoveOutOfBoundsUnits removeOutOfBoundsUnits l in
  if has_flag sizeValidationFlags SizeValidationFlag.UpdateOutOfBoundsSprites
  then updateOutOfBoundsSprites l
  else onFlag sizeValidationFlags SizeValidationFlag.RemoveOutOfBoundsSprites removeOutOfBoundsSprites l.

Definition setTileWidth (tileWidth sizeValidationFlags leftEdge : Z) (l : Layers) : outcome Layers :=
  let* l := TerrainClass.setTileWidth tileWidth leftEdge l in validateSizes sizeValidationFlags l.
Definition setTileHeight (tileHeight sizeValidationFlags topEdge : Z) (l : Layers) : outcome Layers :=
  let* l := TerrainClass.setTileHeight tileHeight topEdge l in validateSizes sizeValidationFlags l.
Definition setDimensions (tileWidth tileHeight sizeValidationFlags leftEdge topEdge : Z) (l : Layers) : outcome Layers :=
  let* l := TerrainClass.setDimensions tileWidth tileHeight leftEdge topEdge l in validateSizes sizeValidationFlags l.

(** *** Loading *)

Definition set (found l : Layers) : Layers :=
  let l := TerrainClass.set found l in
  let sizes := match dim l with
               | Some d => Some (u16 (DimSection.getTileWidth d), u16 (DimSection.getTileHeight d))
               | None => None
               end in
  mkLayers (era l) (dim l) (mtxm l) (tile l) (isom l)
    (match mask found, sizes with None, Some (tw, th) => Some (MaskSection.GetDefault tw th) | t, _ => t end)
    (thg2 found)
    (match dd2 found with None => Some Dd2Section.GetDefault | t => t end)
    (unit found)
    (match mrgn found, sizes with None, Some (tw, th) => Some (MrgnSection.GetDefault tw th) | t, _ => t end).

Definition clear (l : Layers) : Layers := mkLayers None None None None None None None None None None.
End LayersClass.
