(* ===== verification/ScenarioLayersProps.v ===== *)
(** What the layers of a scenario promise: validating sizes is clamping or
    filtering the placed objects, and a change of the dimensions leaves the
    tiles, the fog of war and the location Anywhere behind. *)
From S2P Require Import Prelude Codec ChkTypes ChkSection Accessors StructSections Terrain Objects Locations Triggers StringTable ScenarioLayers.
Open Scope Z_scope.
Import TerrainClass LayersClass.

(** ** Loops over placed objects *)

Section loops.
Context {A : Type}.

(** Deleting downwards what is not good keeps what is. *)
Lemma for_each_remove (bad : A -> bool) (body : Z -> list A -> outcome (list A)) (l : list A) :
  (forall i k, body i k = let* a := vget k i in if bad a then delete_object k i else Ret k) ->
  for_each body (downFrom (zlen l)) l = Ret (filter (fun a => bad a = false) l).
Proof.
  intros Hb. unfold downFrom, zlen.
  assert (H : forall kept todo, for_each body (reverse (range 0 (Z.of_nat (length todo)))) (todo ++ kept) =
    Ret (filter (fun a => bad a = false) todo ++ kept)).
  { intros kept todo. revert kept. induction todo as [|a todo IH] using rev_ind; intros kept; [done|].
    rewrite length_app. cbn [length]. rewrite ?range_seqZ.
    replace (Z.of_nat (length todo + 1) - 0) with (Z.of_nat (S (length todo))) by lia.
    rewrite seqZ_S, reverse_snoc. cbn [for_each]. rewrite Z.add_0_l, Hb.
    rewrite <- app_assoc. cbn [app].
    rewrite (vget_Some _ _ a); [|lia|rewrite Nat2Z.id; by rewrite list_lookup_middle].
    cbn [obind]. rewrite filter_app. cbn [filter list_filter]. rewrite ?range_seqZ in IH; rewrite Z.sub_0_r in IH.
    destruct (bad a) eqn:E.
    - unfold delete_object. rewrite (proj2 (Z.ltb_lt _ _)) by (unfold zlen; rewrite length_app; cbn; lia).
      rewrite verase_in by (unfold zlen; rewrite length_app; cbn; lia). cbn [obind].
      rewrite Nat2Z.id, delete_middle, IH. rewrite decide_False by done. by rewrite app_nil_r.
    - cbn [obind]. rewrite IH. rewrite decide_True by done. by rewrite <- app_assoc. }
  specialize (H [] l). by rewrite !app_nil_r in H.
Qed.
End loops.

(** ** Reference definitions *)

(** The map in pixels. *)
Definition width (d : DIM.DIM) : Z := DIM.tileWidth d * 32.
Definition height (d : DIM.DIM) : Z := DIM.tileHeight d * 32.

Definition inside (d : DIM.DIM) (xc yc : Z) : Prop := xc < width d /\ yc < height d.
#[export] Instance inside_dec d xc yc : Decision (inside d xc yc).
Proof. unfold inside. apply _. Defined.

(** An object moved to the nearest pixel of the map, a location cut to it. *)
Definition clampUnit (d : DIM.DIM) (u : Unit.Unit) : Unit.Unit :=
  u <| Unit.xc := Z.min (Unit.xc u) (width d - 1) |> <| Unit.yc := Z.min (Unit.yc u) (height d - 1) |>.
Definition clampSprite (d : DIM.DIM) (s : Sprite.Sprite) : Sprite.Sprite :=
  s <| Sprite.xc := Z.min (Sprite.xc s) (width d - 1) |> <| Sprite.yc := Z.min (Sprite.yc s) (height d - 1) |>.
Definition clampLocation (d : DIM.DIM) (l : Location.Location) : Location.Location :=
  l <| Location.left := Z.min (Location.left l) (width d - 1) |>
    <| Location.right := Z.min (Location.right l) (width d - 1) |>
    <| Location.top := Z.min (Location.top l) (height d - 1) |>
    <| Location.bottom := Z.min (Location.bottom l) (height d - 1) |>.

(** Anywhere covers exactly the map. *)
Definition coversMap (d : DIM.DIM) (l : Location.Location) : bool :=
  (Location.left l =? 0) && (Location.top l =? 0) && (Location.right l =? width d) && (Location.bottom l =? height d).
Definition coverMap (d : DIM.DIM) (l : Location.Location) : Location.Location :=
  l <| Location.left := 0 |> <| Location.top := 0 |> <| Location.right := width d |> <| Location.bottom := height d |>.

(** The layers of a loaded map: dimensions, objects, and the locations from 1
    on, Anywhere among them. *)
Record layers_ok (l : Layers) (d : DIM.DIM) (sprites : list Sprite.Sprite) (doodads : list Doodad.Doodad)
    (units : list Unit.Unit) (p : option Location.Location) (locations : list Location.Location) : Prop := {
  dim_ok : dim l = Some d;
  width_ok : 0 < DIM.tileWidth d < 2 ^ 16;
  height_ok : 0 < DIM.tileHeight d < 2 ^ 16;
  thg2_ok : thg2 l = Some sprites /\ Forall (cwf Sprite.layout) sprites;
  dd2_ok : dd2 l = Some doodads;
  unit_ok : unit l = Some units /\ Forall (cwf Unit.layout) units;
  mrgn_ok : mrgn l = Some (p :: (Some <$> locations)) /\ Forall (cwf Location.layout) locations /\
    LocationId_Anywhere <= zlen locations
}.

Definition anywhereOf (locations : list Location.Location) : Location.Location :=
  default blankLocation (locations !! Z.to_nat (LocationId_Anywhere - 1)).

(** What [validateSizes] should leave of each list. *)
Definition validUnits (flags : Z) (d : DIM.DIM) (units : list Unit.Unit) : list Unit.Unit :=
  if has_flag flags SizeValidationFlag.UpdateOutOfBoundsUnits then clampUnit d <$> units
  else if has_flag flags SizeValidationFlag.RemoveOutOfBoundsUnits
  then filter (fun u => inside d (Unit.xc u) (Unit.yc u)) units else units.
Definition validSprites (flags : Z) (d : DIM.DIM) (sprites : list Sprite.Sprite) : list Sprite.Sprite :=
  if has_flag flags SizeValidationFlag.UpdateOutOfBoundsSprites then clampSprite d <$> sprites
  else if has_flag flags SizeValidationFlag.RemoveOutOfBoundsSprites
  then filter (fun s => inside d (Sprite.xc s) (Sprite.yc s)) sprites else sprites.
Definition validDoodads (flags : Z) (d : DIM.DIM) (doodads : list Doodad.Doodad) : list Doodad.Doodad :=
  if has_flag flags SizeValidationFlag.RemoveOutOfBoundsDoodads
  then filter (fun o => inside d (Doodad.xc o) (Doodad.yc o)) doodads else doodads.
Definition fitsAnywhere (flags : Z) (d : DIM.DIM) (locations : list Location.Location) : bool :=
  if has_flag flags SizeValidationFlag.UpdateAnywhereIfAlreadyStandard then coversMap d (anywhereOf locations)
  else has_flag flags SizeValidationFlag.UpdateAnywhere.
Definition validLocations (flags : Z) (d : DIM.DIM) (locations : list Location.Location)
    : list Location.Location :=
  let locations := if fitsAnywhere flags d locations
                   then <[Z.to_nat (LocationId_Anywhere - 1) := coverMap d (anywhereOf locations)]> locations
                   else locations in
  if has_flag flags SizeValidationFlag.UpdateOutOfBoundsLocations then clampLocation d <$> locations else locations.

(** ** Each validation *)

Lemma clamp_low x w : (x >=? w) = false -> x = Z.min x (w - 1).
Proof. rewrite Z.geb_leb, Z.leb_gt. lia. Qed.
Lemma clamp_high16 x w : 0 < w -> is_u 16 x -> (x >=? w) = true -> u16 (w - 1) = Z.min x (w - 1).
Proof. rewrite Z.geb_le. unfold is_u. intros. rewrite u16_id by (unfold is_u; lia). lia. Qed.
Lemma clamp_high32 x w : 0 < w -> is_u 32 x -> (x >=? w) = true -> u32 (w - 1) = Z.min x (w - 1).
Proof. rewrite Z.geb_le. unfold is_u. intros. rewrite u32_id by (unfold is_u; lia). lia. Qed.

(** Case analysis on the comparisons of a clamp. *)
Ltac clamp_cases :=
  repeat (match goal with |- context [?x >=? ?w] => is_var x; destruct (x >=? w) eqn:? end; cbn);
  f_equal; auto using clamp_low, clamp_high16, clamp_high32.

Section validation.
Context (d : DIM.DIM) (width_ok : 0 < DIM.tileWidth d < 2 ^ 16) (height_ok : 0 < DIM.tileHeight d < 2 ^ 16).
Implicit Types l : Layers.

Lemma width_pos : 0 < width d.
Proof. unfold width; lia. Qed.
Lemma height_pos : 0 < height d.
Proof. unfold height; lia. Qed.

Lemma pixelWidth_dim l : dim l = Some d -> getPixelWidth l = Ret (width d).
Proof.
  intros E. unfold getPixelWidth, ask. rewrite E; cbn. unfold DimSection.getPixelWidth, u64, DimSection.PixelsPerTile.
  rewrite Z.mod_small by lia. done.
Qed.
Lemma pixelHeight_dim l : dim l = Some d -> getPixelHeight l = Ret (height d).
Proof.
  intros E. unfold getPixelHeight, ask. rewrite E; cbn. unfold DimSection.getPixelHeight, u64, DimSection.PixelsPerTile.
  rewrite Z.mod_small by lia. done.
Qed.

(** A loop that stores a changed object at its own index. *)
Lemma clamp_loop {A} (c : codec A) (f g : A -> A) (s : list A) :
  (forall a, cwf c a -> f a = g a) -> Forall (cwf c) s ->
  for_each (fun i s => let* a := vget s i in vset s i (f a)) (range 0 (zlen s)) s = Ret (g <$> s).
Proof.
  intros Hfg Hs. refine (for_each_update_from g (cwf c) _ _ s [] _ Hs _); [|done].
  intros i l v Hi Hv Hl. rewrite (vget_Some _ _ v) by done. cbn [obind]. rewrite <- Hfg by done.
  apply vset_in. apply lookup_lt_Some in Hl. unfold zlen. lia.
Qed.

Lemma outside_filter xc yc : ((xc >=? width d) || (yc >=? height d)) = false <-> inside d xc yc.
Proof.
  unfold inside. rewrite orb_false_iff, !Z.geb_leb, !Z.leb_gt. done.
Qed.

Lemma unit_coords u : cwf Unit.layout u -> is_u 16 (Unit.xc u) /\ is_u 16 (Unit.yc u).
Proof. destruct u; cbn; tauto. Qed.
Lemma sprite_coords s : cwf Sprite.layout s -> is_u 16 (Sprite.xc s) /\ is_u 16 (Sprite.yc s).
Proof. destruct s; cbn; tauto. Qed.
Lemma location_coords (l : Location.Location) : cwf Location.layout l ->
  is_u 32 (Location.left l) /\ is_u 32 (Location.top l) /\ is_u 32 (Location.right l) /\ is_u 32 (Location.bottom l).
Proof. destruct l; cbn; tauto. Qed.

Lemma updateUnits_spec l units : dim l = Some d -> unit l = Some units -> Forall (cwf Unit.layout) units ->
  updateOutOfBoundsUnits l = Ret (l <| unit := Some (clampUnit d <$> units) |>).
Proof.
  intros Hd Hu Hw. unfold updateOutOfBoundsUnits. rewrite pixelWidth_dim, pixelHeight_dim by done. cbn [obind].
  unfold layer. rewrite Hu. cbn [deref obind].
  rewrite (clamp_loop Unit.layout _ (clampUnit d)); [done| |done].
  intros u [Hx Hy]%unit_coords. destruct u; cbn in Hx, Hy |- *. pose proof width_pos. pose proof height_pos.
  unfold clampUnit; cbn. clamp_cases.
Qed.

Lemma updateSprites_spec l sprites : dim l = Some d -> thg2 l = Some sprites -> Forall (cwf Sprite.layout) sprites ->
  updateOutOfBoundsSprites l = Ret (l <| thg2 := Some (clampSprite d <$> sprites) |>).
Proof.
  intros Hd Hu Hw. unfold updateOutOfBoundsSprites. rewrite pixelWidth_dim, pixelHeight_dim by done. cbn [obind].
  unfold layer. rewrite Hu. cbn [deref obind].
  rewrite (clamp_loop Sprite.layout _ (clampSprite d)); [done| |done].
  intros u [Hx Hy]%sprite_coords. destruct u; cbn in Hx, Hy |- *. pose proof width_pos. pose proof height_pos.
  unfold clampSprite; cbn. clamp_cases.
Qed.

(** The three removals are one loop. *)
Lemma remove_spec {A} (section : Layers -> option (list A)) `{!Updater section} (xc yc : A -> Z) l s :
  dim l = Some d -> section l = Some s ->
  (let* pixelWidth := getPixelWidth l in
   let* pixelHeight := getPixelHeight l in
   layer section (fun s => for_each (fun i s =>
       let* a := get_object s i in
       if (xc a >=? pixelWidth) || (yc a >=? pixelHeight) then delete_object s i else Ret s)
     (downFrom (num_objects s)) s) l) =
  Ret (l <| section := Some (filter (fun a => inside d (xc a) (yc a)) s) |>).
Proof.
  intros Hd Hs. rewrite pixelWidth_dim, pixelHeight_dim by done. cbn [obind]. unfold layer. rewrite Hs. cbn [deref obind].
  unfold num_objects. rewrite (for_each_remove (fun a => (xc a >=? width d) || (yc a >=? height d))) by done. cbn [obind].
  do 3 f_equal. apply list_filter_iff. intros a. apply outside_filter.
Qed.

Lemma removeUnits_spec l units : dim l = Some d -> unit l = Some units ->
  removeOutOfBoundsUnits l = Ret (l <| unit := Some (filter (fun u => inside d (Unit.xc u) (Unit.yc u)) units) |>).
Proof. apply (remove_spec unit Unit.xc Unit.yc). Qed.
Lemma removeSprites_spec l sprites : dim l = Some d -> thg2 l = Some sprites ->
  removeOutOfBoundsSprites l =
  Ret (l <| thg2 := Some (filter (fun s => inside d (Sprite.xc s) (Sprite.yc s)) sprites) |>).
Proof. apply (remove_spec thg2 Sprite.xc Sprite.yc). Qed.
Lemma removeDoodads_spec l doodads : dim l = Some d -> dd2 l = Some doodads ->
  removeOutOfBoundsDoodads l =
  Ret (l <| dd2 := Some (filter (fun o => inside d (Doodad.xc o) (Doodad.yc o)) doodads) |>).
Proof. apply (remove_spec dd2 Doodad.xc Doodad.yc). Qed.

Lemma downsize_spec l p locations : dim l = Some d -> mrgn l = Some (p :: (Some <$> locations)) ->
  Forall (cwf Location.layout) locations ->
  downsizeOutOfBoundsLocations l = Ret (l <| mrgn := Some (p :: (Some <$> (clampLocation d <$> locations))) |>).
Proof.
  intros Hd Hm Hw. unfold downsizeOutOfBoundsLocations. rewrite pixelWidth_dim, pixelHeight_dim by done. cbn [obind].
  unfold layer. rewrite Hm. cbn [deref obind].
  assert (Hn : MrgnSection.numLocations (p :: (Some <$> locations)) + 1 = zlen [p] + zlen (Some <$> locations)).
  { unfold MrgnSection.numLocations. rewrite zlen_cons. pose proof (zlen_nonneg (Some <$> locations)).
    rewrite Z.gtb_ltb, (proj2 (Z.ltb_lt _ _)) by lia. change (zlen [p]) with 1. lia. }
  rewrite Hn. match goal with |- context [for_each ?b ?r ?k] =>
    replace (for_each b r k) with (Ret ([p] ++ (fmap (clampLocation d) <$> (Some <$> locations)))) end.
  { cbn. do 4 f_equal. by rewrite <- !list_fmap_compose. }
  symmetry. refine (for_each_update_from (fmap (clampLocation d))
    (fun o => exists x, o = Some x /\ cwf Location.layout x) _ _ (Some <$> locations) [p] _ _ _).
  - intros i k o Hi (x & -> & Hx) Hk. unfold MrgnSection.getLocation. rewrite (vget_Some _ _ (Some x)) by done.
    cbn [deref obind]. apply location_coords in Hx as (? & ? & ? & ?).
    rewrite vset_in by (apply lookup_lt_Some in Hk; unfold zlen; lia). do 2 f_equal. cbn [fmap option_fmap option_map].
    f_equal. destruct x; cbn in *. pose proof width_pos. pose proof height_pos. unfold clampLocation; cbn. clamp_cases.
  - apply Forall_fmap. eapply Forall_impl; [done|]. intros x Hx. by exists x.
  - done.
Qed.

(** Anywhere among the locations. *)
Lemma anywhere_get l p locations : mrgn l = Some (p :: (Some <$> locations)) -> LocationId_Anywhere <= zlen locations ->
  getLocation LocationId_Anywhere l = Ret (Some (anywhereOf locations)).
Proof.
  intros Hm Hz. unfold getLocation, ask. rewrite Hm. cbn [deref obind]. unfold MrgnSection.getLocation.
  apply vget_Some; [done|]. change (Z.to_nat LocationId_Anywhere) with (S (Z.to_nat (LocationId_Anywhere - 1))).
  rewrite lookup_cons, list_lookup_fmap. unfold anywhereOf.
  destruct (lookup_lt_is_Some_2 locations (Z.to_nat (LocationId_Anywhere - 1))) as [x ->]; [|done].
  unfold zlen in Hz. change LocationId_Anywhere with 64 in *. lia.
Qed.

Lemma anywhere_standard l p locations : dim l = Some d -> mrgn l = Some (p :: (Some <$> locations)) ->
  LocationId_Anywhere <= zlen locations ->
  anywhereIsStandardDimensions l = Ret (coversMap d (anywhereOf locations)).
Proof.
  intros Hd Hm Hz. unfold anywhereIsStandardDimensions. rewrite (anywhere_get _ _ _ Hm Hz). cbn [obind].
  by rewrite pixelWidth_dim, pixelHeight_dim.
Qed.

Lemma match_spec l p locations : dim l = Some d -> mrgn l = Some (p :: (Some <$> locations)) ->
  LocationId_Anywhere <= zlen locations ->
  matchAnywhereToDimensions l = Ret (l <| mrgn := Some (p :: (Some <$>
    <[Z.to_nat (LocationId_Anywhere - 1) := coverMap d (anywhereOf locations)]> locations)) |>).
Proof.
  intros Hd Hm Hz. unfold matchAnywhereToDimensions. rewrite (anywhere_get _ _ _ Hm Hz). cbn [obind].
  rewrite pixelWidth_dim, pixelHeight_dim by done. cbn [obind]. unfold layer. rewrite Hm. cbn [deref obind].
  rewrite vset_in by (rewrite zlen_cons; unfold zlen in *; rewrite length_fmap; change LocationId_Anywhere with 64 in *; lia).
  cbn [obind]. do 3 f_equal. change (Z.to_nat LocationId_Anywhere) with (S (Z.to_nat (LocationId_Anywhere - 1))).
  rewrite list_fmap_insert.
  match goal with |- <[S ?n := ?v]> (_ :: ?k) = _ => change (p :: <[n := v]> k = p :: <[n := Some (coverMap d (anywhereOf locations))]> k) end.
  do 3 f_equal. unfold coverMap.
  rewrite !u32_id; [done| |]; unfold is_u, width, height; lia.
Qed.

Lemma coverMap_wf x : cwf Location.layout x -> cwf Location.layout (coverMap d x).
Proof.
  assert (is_u 32 (width d)) by (unfold is_u, width; lia). assert (is_u 32 (height d)) by (unfold is_u, height; lia).
  assert (is_u 32 0) by (unfold is_u; lia). destruct x; cbn; tauto.
Qed.
End validation.

(** Storing what a member already holds. *)
Lemma mrgn_self l s : mrgn l = Some s -> l <| mrgn := Some s |> = l.
Proof. destruct l; cbn; by intros ->. Qed.
Lemma dd2_self l s : dd2 l = Some s -> l <| dd2 := Some s |> = l.
Proof. destruct l; cbn; by intros ->. Qed.
Lemma unit_self l s : unit l = Some s -> l <| unit := Some s |> = l.
Proof. destruct l; cbn; by intros ->. Qed.
Lemma thg2_self l s : thg2 l = Some s -> l <| thg2 := Some s |> = l.
Proof. destruct l; cbn; by intros ->. Qed.

Section validate.
Context (d : DIM.DIM) (width_ok : 0 < DIM.tileWidth d < 2 ^ 16) (height_ok : 0 < DIM.tileHeight d < 2 ^ 16).
Context (flags : Z) (l : Layers) (dim_ok : dim l = Some d).

Lemma validate_anywhere {V} (k : Layers -> outcome V) p locations :
  mrgn l = Some (p :: (Some <$> locations)) -> LocationId_Anywhere <= zlen locations ->
  (let* anywhere :=
     if negb (has_flag flags SizeValidationFlag.UpdateAnywhereIfAlreadyStandard) &&
        has_flag flags SizeValidationFlag.UpdateAnywhere then Ret true
     else if has_flag flags SizeValidationFlag.UpdateAnywhereIfAlreadyStandard
          then anywhereIsStandardDimensions l else Ret false in
   let* l := if anywhere then matchAnywhereToDimensions l else Ret l in k l) =
  k (l <| mrgn := Some (p :: (Some <$> if fitsAnywhere flags d locations
       then <[Z.to_nat (LocationId_Anywhere - 1) := coverMap d (anywhereOf locations)]> locations else locations)) |>).
Proof.
  intros Hm Hz. rewrite (anywhere_standard d width_ok height_ok l p locations) by done.
  rewrite (match_spec d width_ok height_ok l p locations) by done. unfold fitsAnywhere.
  destruct (has_flag flags SizeValidationFlag.UpdateAnywhereIfAlreadyStandard); cbn [negb andb obind];
    [destruct (coversMap d (anywhereOf locations)) | destruct (has_flag flags SizeValidationFlag.UpdateAnywhere)];
    cbn [obind]; first [done | by rewrite mrgn_self].
Qed.

Lemma validate_locations p locations :
  mrgn l = Some (p :: (Some <$> locations)) -> Forall (cwf Location.layout) locations ->
  onFlag flags SizeValidationFlag.UpdateOutOfBoundsLocations downsizeOutOfBoundsLocations l =
  Ret (l <| mrgn := Some (p :: (Some <$> if has_flag flags SizeValidationFlag.UpdateOutOfBoundsLocations
                                         then clampLocation d <$> locations else locations)) |>).
Proof.
  intros Hm Hw. unfold onFlag. destruct (has_flag _ _); [by apply downsize_spec | by rewrite mrgn_self].
Qed.

Lemma validate_doodads doodads : dd2 l = Some doodads ->
  onFlag flags SizeValidationFlag.RemoveOutOfBoundsDoodads removeOutOfBoundsDoodads l =
  Ret (l <| dd2 := Some (validDoodads flags d doodads) |>).
Proof.
  intros Ho. unfold onFlag, validDoodads. destruct (has_flag _ _); [by apply removeDoodads_spec | by rewrite dd2_self].
Qed.

Lemma validate_units units : unit l = Some units -> Forall (cwf Unit.layout) units ->
  (if has_flag flags SizeValidationFlag.UpdateOutOfBoundsUnits then updateOutOfBoundsUnits l
   else onFlag flags SizeValidationFlag.RemoveOutOfBoundsUnits removeOutOfBoundsUnits l) =
  Ret (l <| unit := Some (validUnits flags d units) |>).
Proof.
  intros Hu Hw. unfold onFlag, validUnits. destruct (has_flag _ _); [by apply updateUnits_spec|].
  destruct (has_flag _ _); [by apply removeUnits_spec | by rewrite unit_self].
Qed.

Lemma validate_sprites sprites : thg2 l = Some sprites -> Forall (cwf Sprite.layout) sprites ->
  (if has_flag flags SizeValidationFlag.UpdateOutOfBoundsSprites then updateOutOfBoundsSprites l
   else onFlag flags SizeValidationFlag.RemoveOutOfBoundsSprites removeOutOfBoundsSprites l) =
  Ret (l <| thg2 := Some (validSprites flags d sprites) |>).
Proof.
  intros Hs Hw. unfold onFlag, validSprites. destruct (has_flag _ _); [by apply updateSprites_spec|].
  destruct (has_flag _ _); [by apply removeSprites_spec | by rewrite thg2_self].
Qed.
End validate.

Lemma anywhereOf_wf locations : Forall (cwf Location.layout) locations -> LocationId_Anywhere <= zlen locations ->
  cwf Location.layout (anywhereOf locations).
Proof.
  intros Hw Hz. unfold anywhereOf.
  destruct (lookup_lt_is_Some_2 locations (Z.to_nat (LocationId_Anywhere - 1))) as [x Hx].
  { unfold zlen in Hz. change LocationId_Anywhere with 64 in *. lia. }
  rewrite Hx. cbn. by apply (Forall_lookup_1 _ _ _ _ Hw Hx).
Qed.

Lemma validateSizes_eq flags l d sprites doodads units p locations :
  layers_ok l d sprites doodads units p locations ->
  validateSizes flags l = Ret (l <| mrgn := Some (p :: (Some <$> validLocations flags d locations)) |>
    <| dd2 := Some (validDoodads flags d doodads) |> <| unit := Some (validUnits flags d units) |>
    <| thg2 := Some (validSprites flags d sprites) |>).
Proof.
  intros [Hd Hw Hh [Hs Hsw] Ho [Hu Huw] (Hm & Hmw & Hz)]. unfold validateSizes.
  rewrite (validate_anywhere d Hw Hh flags l Hd _ p locations) by done.
  erewrite (validate_locations d Hw Hh flags); [|exact Hd|reflexivity|].
  2: { destruct (fitsAnywhere _ _ _); [|done]. apply Forall_insert; [done|].
       apply coverMap_wf; [done..|]. by apply anywhereOf_wf. }
  cbn [obind]. erewrite (validate_doodads d Hw Hh flags); [|exact Hd|exact Ho].
  cbn [obind]. erewrite (validate_units d Hw Hh flags); [|exact Hd|exact Hu|exact Huw].
  cbn [obind]. by erewrite (validate_sprites d Hw Hh flags); [|exact Hd|exact Hs|exact Hsw].
Qed.

(** C17: Validating the sizes after a change of the dimensions: for every set of
    flags it returns, units and sprites that are out of the map are moved to
    its edge or removed, doodads that are out of it removed, locations cut to
    it, and Anywhere is made to cover it when it is asked to, or already did;
    everything else is kept. *)
Theorem validateSizes_spec flags l d sprites doodads units p locations :
  layers_ok l d sprites doodads units p locations ->
  validateSizes flags l = Ret (l <| mrgn := Some (p :: (Some <$> validLocations flags d locations)) |>
    <| dd2 := Some (validDoodads flags d doodads) |> <| unit := Some (validUnits flags d units) |>
    <| thg2 := Some (validSprites flags d sprites) |>).
Proof. apply validateSizes_eq. Qed.

(** ** Changing the dimensions *)

(** The terrain is resized in copies. *)
Lemma resizeTerrain_keeps nw nh w h le te l l' : resizeTerrain nw nh w h le te l = Ret l' ->
  exists entries, l' = l <| isom := Some entries |>.
Proof.
  unfold resizeTerrain, layer. intros H. destruct l as [e0 d0 m0 t0 i0 k0 s0 o0 u0 r0]; cbn in *.
  destruct i0 as [i0|]; [|done]; cbn [deref obind] in H.
  apply bind_inv in H as (l1 & Hi & H). apply bind_inv in Hi as (entries & _ & [= <-]). cbn in H.
  destruct t0 as [t0|]; [|done]; cbn [deref obind] in H.
  apply bind_inv in H as (l1 & Ht & H). apply bind_inv in Ht as (t1 & Ht & [= <-]). cbn in H.
  destruct m0 as [m0|]; [|done]; cbn [deref obind] in H.
  apply bind_inv in H as (m1 & Hm & [= <-]). cbn.
  unfold TileSection.setDimensions in Ht. apply bind_inv in Ht as (_ & _ & [= <-]).
  unfold MtxmSection.setDimensions in Hm. apply bind_inv in Hm as (_ & _ & [= <-]). by exists entries.
Qed.

Lemma setDimensions_resized w h le te l l' d : dim l = Some d -> TerrainClass.setDimensions w h le te l = Ret l' ->
  exists entries, l' = l <| isom := Some entries |> <| dim := Some (DIM.mkDIM w h) |>.
Proof.
  intros Hd. unfold TerrainClass.setDimensions, getTileWidth, getTileHeight, ask. rewrite Hd. cbn [deref obind].
  intros H. apply bind_inv in H as (l1 & [entries ->]%resizeTerrain_keeps & H). exists entries.
  unfold layer in H. change (dim (l <| isom := Some entries |>)) with (dim l) in H. rewrite Hd in H. cbn [deref obind] in H.
  injection H as <-. by destruct d.
Qed.

(** Changing the dimensions of a map changes only what it says about itself:
    the tiles and the fog of war stay those of the old dimensions, so that the
    last tile of a larger map cannot be read, and Anywhere, when it covered the
    old map and is to be kept so, does not cover the new one, because it is
    compared to the new dimensions. *)
Theorem setDimensions_stale w h flags le te l l' d sprites doodads units p locations tiles :
  layers_ok l d sprites doodads units p locations -> mtxm l = Some tiles ->
  0 < w < 2 ^ 16 -> 0 < h < 2 ^ 16 ->
  setDimensions w h flags le te l = Ret l' ->
  dim l' = Some (DIM.mkDIM w h) /\ mtxm l' = mtxm l /\ tile l' = tile l /\ mask l' = mask l /\
  (zlen tiles < w * h -> getTile (w - 1) (h - 1) Scope.Game l' = Throw OutOfRange) /\
  (has_flag flags SizeValidationFlag.UpdateAnywhereIfAlreadyStandard = true ->
   has_flag flags SizeValidationFlag.UpdateOutOfBoundsLocations = false ->
   coversMap d (anywhereOf locations) = true -> (w, h) <> (DIM.tileWidth d, DIM.tileHeight d) ->
   getLocation LocationId_Anywhere l' = Ret (Some (anywhereOf locations))).
Proof.
  intros [Hd Hw Hh Hs Ho Hu Hm] Ht Hw' Hh' H. unfold setDimensions in H.
  apply bind_inv in H as (l1 & (entries & ->)%(setDimensions_resized _ _ _ _ _ _ d) & H); [|done].
  erewrite (validateSizes_eq flags _ (DIM.mkDIM w h) sprites doodads units p locations) in H; [|by split].
  injection H as <-. split_and!; try done.
  - intros Hz. unfold getTile, tileIndex, getTileWidth, ask. cbn.
    change (mtxm _) with (mtxm l). rewrite Ht; cbn. unfold MtxmSection.getTile, get_tile, get_at.
    rewrite (proj2 (Z.ltb_ge _ _)); [done|]. unfold u64. rewrite Z.mod_small by nia. nia.
  - intros Hf1 Hf2 Hc Hne. erewrite anywhere_get; [| |]; cbn.
    3: { destruct Hm as (_ & _ & Hz). exact Hz. } 1: done.
    cbn. unfold validLocations, fitsAnywhere. rewrite Hf1, Hf2.
    replace (coversMap (DIM.mkDIM w h) (anywhereOf locations)) with false; [done|].
    symmetry. unfold coversMap, width, height in *; cbn. rewrite !andb_true_iff, !Z.eqb_eq in Hc.
    destruct Hc as [[_ Hr] Hb]. rewrite Hr, Hb. apply andb_false_iff.
    destruct (decide (w = DIM.tileWidth d)) as [->|]; [right|left; apply andb_false_iff; right]; apply Z.eqb_neq.
    + intros E. apply Hne. f_equal. lia.
    + lia.
Qed.

(** Changing only the width or only the height keeps both: the old value is
    stored again, while the isometric values are resized. *)
Theorem setTileWidth_ignored w flags edge l l' d sprites doodads units p locations :
  layers_ok l d sprites doodads units p locations ->
  setTileWidth w flags edge l = Ret l' \/ setTileHeight w flags edge l = Ret l' ->
  dim l' = dim l.
Proof.
  intros [Hd Hw Hh Hs Ho Hu Hm] [H|H].
  - unfold setTileWidth, TerrainClass.setTileWidth, getTileWidth, getTileHeight, ask in H. rewrite Hd in H. cbn [deref obind] in H.
    apply bind_inv in H as (l1 & H1 & H). apply bind_inv in H1 as (l2 & [entries ->]%resizeTerrain_keeps & H1).
    unfold layer in H1. change (dim (l <| isom := Some entries |>)) with (dim l) in H1. rewrite Hd in H1.
    injection H1 as <-. rewrite (validateSizes_eq flags _ d sprites doodads units p locations) in H; [by injection H as <-; destruct d|].
    by destruct d; split.
  - unfold setTileHeight, TerrainClass.setTileHeight, getTileWidth, getTileHeight, ask in H. rewrite Hd in H. cbn [deref obind] in H.
    apply bind_inv in H as (l1 & H1 & H). apply bind_inv in H1 as (l2 & [entries ->]%resizeTerrain_keeps & H1).
    unfold layer in H1. change (dim (l <| isom := Some entries |>)) with (dim l) in H1. rewrite Hd in H1.
    injection H1 as <-. rewrite (validateSizes_eq flags _ d sprites doodads units p locations) in H; [by injection H as <-; destruct d|].
    by destruct d; split.
Qed.

(** ** Witnesses *)

Definition sampleLocationsOf (w h : Z) : list Location.Location :=
  replicate 63 blankLocation ++ [Location.mkLocation 0 0 (w * 32) (h * 32) 3 0] ++ replicate 191 blankLocation.

Lemma sample_ok : layers_ok (newLayers 0 4 4) (DIM.mkDIM 4 4) [] [] [] None (sampleLocationsOf 4 4).
Proof.
  split; [reflexivity | cbn; lia | cbn; lia | by split | reflexivity | by split|].
  split; [vm_compute; reflexivity|]. split; [|vm_compute; congruence].
  apply Forall_app; split; [apply Forall_replicate; solve_default|].
  apply Forall_app; split; [apply Forall_singleton; solve_default | apply Forall_replicate; solve_default].
Qed.

(** A unit out of a map of 4 by 4 tiles is moved to its last pixel. *)
Definition farUnit : Unit.Unit := (sampleUnit 7) <| Unit.xc := 500 |> <| Unit.yc := 128 |>.

Lemma validateSizes_spec_witness :
  exists l', validateSizes SizeValidationFlag.Default ((newLayers 0 4 4) <| unit := Some [farUnit] |>) = Ret l' /\
    unit l' = Some [(sampleUnit 7) <| Unit.xc := 127 |> <| Unit.yc := 127 |>].
Proof.
  eexists. split.
  - apply (validateSizes_spec SizeValidationFlag.Default _ (DIM.mkDIM 4 4) [] [] [farUnit] None (sampleLocationsOf 4 4)).
    destruct sample_ok as [H1 H2 H3 H4 H5 _ H7].
    split; [exact H1 | exact H2 | exact H3 | exact H4 | exact H5 | | exact H7].
    split; [reflexivity|]. apply Forall_singleton. solve_default.
  - vm_compute. reflexivity.
Defined.

Lemma setDimensions_stale_witness :
  exists l', setDimensions 6 6 SizeValidationFlag.Default 0 0 (newLayers 0 4 4) = Ret l' /\
    getTile 5 5 Scope.Game l' = Throw OutOfRange /\
    getLocation LocationId_Anywhere l' = Ret (Some (Location.mkLocation 0 0 128 128 3 0)).
Proof.
  destruct (setDimensions 6 6 SizeValidationFlag.Default 0 0 (newLayers 0 4 4)) as [l'| |] eqn:E;
    [|vm_compute in E; discriminate..].
  exists l'. split; [reflexivity|].
  destruct (setDimensions_stale 6 6 SizeValidationFlag.Default 0 0 _ l' _ _ _ _ _ _ (replicate 16 0) sample_ok)
    as (_ & _ & _ & _ & H1 & H2); [reflexivity | lia | lia | exact E|].
  split; [apply H1; vm_compute; reflexivity|]. apply H2; [reflexivity..|]. intros [=].
Defined.

Lemma setTileWidth_ignored_witness :
  exists l', setTileWidth 6 SizeValidationFlag.Default 0 (newLayers 0 4 4) = Ret l' /\
    dim l' = Some (DIM.mkDIM 4 4).
Proof.
  destruct (setTileWidth 6 SizeValidationFlag.Default 0 (newLayers 0 4 4)) as [l'| |] eqn:E;
    [|vm_compute in E; discriminate..].
  exists l'. split; [reflexivity|].
  exact (setTileWidth_ignored 6 SizeValidationFlag.Default 0 _ l' _ _ _ _ _ _ sample_ok (or_introl E)).
Defined.
