(* ===== verification/ScenarioTriggerSections.v ===== *)
(** The class [Triggers] of Scenario.cpp with its section pointers: making,
    loading and clearing it, and the members that pass their arguments to one
    section.  The slots of created units and the extended data of triggers are in
    [ScenarioTriggers], the string operations in [ScenarioStrings]. *)
From S2P Require Import Prelude Codec ChkTypes ChkSection Accessors StructSections StringUsers Terrain Objects Locations Triggers Ktrg Ktgp ScenarioTriggers ScenarioLayers.
Open Scope Z_scope.

Module TriggerSections.
Record Triggers := mkTriggers {
  uprp : option UPRP.UPRP;
  upus : option UPUS.UPUS;
  trig : option TrigSection.t;
  mbrf : option MbrfSection.t;
  swnm : option SWNM.SWNM;
  wav : option WAV.WAV;
  ktrg : option KtrgSection.t;
  ktgp : option KtgpSection.t
}.

(** [Triggers(useDefault)] *)
Definition newTriggers (useDefault : bool) : Triggers :=
  if useDefault
  then mkTriggers (Some UprpSection.GetDefault) (Some UpusSection.GetDefault) (Some TrigSection.GetDefault)
         (Some MbrfSection.GetDefault) (Some SwnmSection.GetDefault) (Some WavSection.GetDefault)
         (Some KtrgSection.GetDefault) (Some KtgpSection.GetDefault)
  else mkTriggers None None None None None None None None.

Definition empty (t : Triggers) : bool :=
  isNull (uprp t) && isNull (upus t) && isNull (trig t) && isNull (mbrf t) && isNull (swnm t) && isNull (wav t) &&
  isNull (ktrg t) && isNull (ktgp t).

Definition orDefault {A} (p : option A) (d : A) : option A := match p with None => Some d | _ => p end.

(** [found] are the sections [GetSection] finds. *)
Definition set (found : Triggers) : Triggers :=
  mkTriggers (orDefault (uprp found) UprpSection.GetDefault) (orDefault (upus found) UpusSection.GetDefault)
    (orDefault (trig found) TrigSection.GetDefault) (orDefault (mbrf found) MbrfSection.GetDefault)
    (orDefault (swnm found) SwnmSection.GetDefault) (orDefault (wav found) WavSection.GetDefault)
    (orDefault (ktrg found) KtrgSection.GetDefault) (orDefault (ktgp found) KtgpSection.GetDefault).

Definition clear (t : Triggers) : Triggers := mkTriggers None None None None None None None None.

(** A change of one section through its pointer. *)
Definition onUprp (f : UPRP.UPRP -> outcome UPRP.UPRP) (t : Triggers) : outcome Triggers :=
  let* d := deref (uprp t) in let* d := f d in
  Ret (mkTriggers (Some d) (upus t) (trig t) (mbrf t) (swnm t) (wav t) (ktrg t) (ktgp t)).
Definition onUpus (f : UPUS.UPUS -> outcome UPUS.UPUS) (t : Triggers) : outcome Triggers :=
  let* d := deref (upus t) in let* d := f d in
  Ret (mkTriggers (uprp t) (Some d) (trig t) (mbrf t) (swnm t) (wav t) (ktrg t) (ktgp t)).
Definition onTrig (f : TrigSection.t -> outcome TrigSection.t) (t : Triggers) : outcome Triggers :=
  let* d := deref (trig t) in let* d := f d in
  Ret (mkTriggers (uprp t) (upus t) (Some d) (mbrf t) (swnm t) (wav t) (ktrg t) (ktgp t)).
Definition onMbrf (f : MbrfSection.t -> outcome MbrfSection.t) (t : Triggers) : outcome Triggers :=
  let* d := deref (mbrf t) in let* d := f d in
  Ret (mkTriggers (uprp t) (upus t) (trig t) (Some d) (swnm t) (wav t) (ktrg t) (ktgp t)).
Definition onSwnm (f : SWNM.SWNM -> outcome SWNM.SWNM) (t : Triggers) : outcome Triggers :=
  let* d := deref (swnm t) in let* d := f d in
  Ret (mkTriggers (uprp t) (upus t) (trig t) (mbrf t) (Some d) (wav t) (ktrg t) (ktgp t)).
Definition onWav (f : WAV.WAV -> outcome WAV.WAV) (t : Triggers) : outcome Triggers :=
  let* d := deref (wav t) in let* d := f d in
  Ret (mkTriggers (uprp t) (upus t) (trig t) (mbrf t) (swnm t) (Some d) (ktrg t) (ktgp t)).

Definition getCuwp (cuwpIndex : Z) (t : Triggers) : outcome Cuwp.Cuwp :=
  let* d := deref (uprp t) in ScenarioTriggers.getCuwp d cuwpIndex.
Definition setCuwp (cuwpIndex : Z) (cuwp : Cuwp.Cuwp) : Triggers -> outcome Triggers :=
  onUprp (fun d => ScenarioTriggers.setCuwp d cuwpIndex cuwp).
Definition cuwpUsed (cuwpIndex : Z) (t : Triggers) : outcome bool :=
  let* d := deref (upus t) in UpusSection.cuwpUsed d cuwpIndex.
Definition setCuwpUsed (cuwpIndex : Z) (used : bool) : Triggers -> outcome Triggers :=
  onUpus (fun d => UpusSection.setCuwpUsed d cuwpIndex used).

Definition numTriggers (t : Triggers) : outcome Z :=
  let* d := deref (trig t) in Ret (TrigSection.numTriggers d).
Definition getTrigger (triggerIndex : Z) (t : Triggers) : outcome Trigger.Trigger :=
  let* d := deref (trig t) in TrigSection.getTrigger d triggerIndex.

Definition numBriefingTriggers (t : Triggers) : outcome Z :=
  let* d := deref (mbrf t) in Ret (MbrfSection.numBriefingTriggers d).
Definition getBriefingTrigger (briefingTriggerIndex : Z) (t : Triggers) : outcome Trigger.Trigger :=
  let* d := deref (mbrf t) in MbrfSection.getBriefingTrigger d briefingTriggerIndex.
Definition addBriefingTrigger (briefingTrigger : Trigger.Trigger) (t : Triggers) : outcome (Triggers * Z) :=
  let* d := deref (mbrf t) in
  let '(d, index) := MbrfSection.addBriefingTrigger d briefingTrigger in
  let* t := onMbrf (fun _ => Ret d) t in Ret (t, index).
Definition insertBriefingTrigger (briefingTriggerIndex : Z) (briefingTrigger : Trigger.Trigger)
    : Triggers -> outcome Triggers :=
  onMbrf (fun d => MbrfSection.insertBriefingTrigger d briefingTriggerIndex briefingTrigger).
Definition deleteBriefingTrigger (briefingTriggerIndex : Z) : Triggers -> outcome Triggers :=
  onMbrf (fun d => MbrfSection.deleteBriefingTrigger d briefingTriggerIndex).
Definition moveBriefingTrigger (briefingTriggerIndexFrom briefingTriggerIndexTo : Z) : Triggers -> outcome Triggers :=
  onMbrf (fun d => MbrfSection.moveBriefingTrigger d briefingTriggerIndexFrom briefingTriggerIndexTo).

Definition getSwitchNameStringId (switchIndex : Z) (t : Triggers) : outcome Z :=
  let* d := deref (swnm t) in SwnmSection.getSwitchNameStringId d switchIndex.
Definition setSwitchNameStringId (switchIndex stringId : Z) : Triggers -> outcome Triggers :=
  onSwnm (fun d => SwnmSection.setSwitchNameStringId d switchIndex stringId).
Definition addSound (stringId : Z) (t : Triggers) : outcome (Triggers * Z) :=
  let* d := deref (wav t) in
  let* (d, index) := WavSection.addSound d stringId in
  let* t := onWav (fun _ => Ret d) t in Ret (t, index).
Definition stringIsSound (stringId : Z) (t : Triggers) : outcome bool :=
  let* d := deref (wav t) in WavSection.stringIsSound d stringId.
Definition getSoundStringId (soundIndex : Z) (t : Triggers) : outcome Z :=
  let* d := deref (wav t) in WavSection.getSoundStringId d soundIndex.
Definition setSoundStringId (soundIndex soundStringId : Z) : Triggers -> outcome Triggers :=
  onWav (fun d => WavSection.setSoundStringId d soundIndex soundStringId).

(** The class as a [LocationSynchronizer]. *)
Definition locationUsed (locationId : Z) (t : Triggers) : outcome bool :=
  let* d := deref (trig t) in TrigSection.locationUsed d locationId.
Definition markUsedLocations (locationIdUsed : gset Z) (t : Triggers) : outcome (gset Z) :=
  let* d := deref (trig t) in TrigSection.markUsedLocations d locationIdUsed.
Definition remapLocationIds (locationIdRemappings : gmap Z Z) : Triggers -> outcome Triggers :=
  onTrig (fun d => TrigSection.remapLocationIds d locationIdRemappings).
Definition deleteLocation (locationId : Z) : Triggers -> outcome Triggers :=
  onTrig (fun d => TrigSection.deleteLocation d locationId).
End TriggerSections.

(** A class that was loaded has every section, whatever the file has, so that no
    member dereferences a null pointer; one that was cleared is empty. *)
Lemma loaded_sections found :
  let t := TriggerSections.set found in
  is_Some (TriggerSections.uprp t) /\ is_Some (TriggerSections.upus t) /\ is_Some (TriggerSections.trig t) /\
  is_Some (TriggerSections.mbrf t) /\ is_Some (TriggerSections.swnm t) /\ is_Some (TriggerSections.wav t) /\
  is_Some (TriggerSections.ktrg t) /\ is_Some (TriggerSections.ktgp t) /\
  TriggerSections.empty (TriggerSections.clear t) = true.
Proof. destruct found as [[] [] [] [] [] [] [] []]; cbn; split_and!; done. Qed.
