(* ===== verification/ScenarioPlayers.v ===== *)
(** The class [Players] of Scenario.cpp: owners, races, colours and forces of
    the players.  The owner of a slot is kept twice, for the game (OWNR) and
    for the editor (IOWN). *)
From S2P Require Import Prelude Codec ChkTypes ChkSection Accessors StructSections StringUsers Locations StringTable ScenarioLayers.
Open Scope Z_scope.

Module PlayersClass.
Record Players := mkPlayers {
  side : option SIDE.SIDE;
  colr : option COLR.COLR;
  forc : option FORC.FORC;
  ownr : option OWNR.OWNR;
  iown : option IOWN.IOWN
}.

(** [Players(useDefault)] *)
Definition newPlayers (useDefault : bool) : Players :=
  if useDefault
  then mkPlayers (Some SideSection.GetDefault) (Some ColrSection.GetDefault) (Some ForcSection.GetDefault)
         (Some OwnrSection.GetDefault) (Some IownSection.GetDefault)
  else mkPlayers None None None None None.

Definition empty (p : Players) : bool :=
  isNull (side p) && isNull (colr p) && isNull (forc p) && isNull (ownr p) && isNull (iown p).

(** [found] are the sections [GetSection] finds. *)
Definition set (found : Players) : Players :=
  mkPlayers (side found)
    (match colr found with None => Some ColrSection.GetDefault | c => c end)
    (forc found) (ownr found)
    (match iown found with None => Some IownSection.GetDefault | i => i end).

Definition clear (p : Players) : Players := mkPlayers None None None None None.

(** ** Owners *)

Definition onOwnr (f : OWNR.OWNR -> outcome OWNR.OWNR) (p : Players) : outcome Players :=
  let* d := deref (ownr p) in let* d := f d in Ret (mkPlayers (side p) (colr p) (forc p) (Some d) (iown p)).
Definition onIown (f : IOWN.IOWN -> outcome IOWN.IOWN) (p : Players) : outcome Players :=
  let* d := deref (iown p) in let* d := f d in Ret (mkPlayers (side p) (colr p) (forc p) (ownr p) (Some d)).

Definition getSlotType (slotIndex scope : Z) (p : Players) : outcome Z :=
  let game := let* d := deref (ownr p) in OwnrSection.getSlotType d slotIndex in
  let editor := let* d := deref (iown p) in IownSection.getSlotType d slotIndex in
  if scope =? Scope.Game then game
  else if scope =? Scope.Editor then editor
  else if scope =? Scope_EditorOverGame then (if isNull (iown p) then game else editor)
  else if isNull (ownr p) then editor else game.

Definition setSlotType (slotIndex slotType scope : Z) (p : Players) : outcome Players :=
  let game := onOwnr (fun d => OwnrSection.setSlotType d slotIndex slotType) in
  let editor := onIown (fun d => IownSection.setSlotType d slotIndex slotType) in
  if scope =? Scope.Game then game p
  else if scope =? Scope.Editor then editor p
  else let* p := game p in editor p.

(** ** Races and colours *)

Definition getPlayerRace (playerIndex : Z) (p : Players) : outcome Z :=
  let* d := deref (side p) in SideSection.getPlayerRace d playerIndex.
Definition setPlayerRace (playerIndex race : Z) (p : Players) : outcome Players :=
  let* d := deref (side p) in
  let* d := SideSection.setPlayerRace d playerIndex race in
  Ret (mkPlayers (Some d) (colr p) (forc p) (ownr p) (iown p)).
Definition getPlayerColor (slotIndex : Z) (p : Players) : outcome Z :=
  let* d := deref (colr p) in ColrSection.getPlayerColor d slotIndex.
Definition setPlayerColor (slotIndex color : Z) (p : Players) : outcome Players :=
  let* d := deref (colr p) in
  let* d := ColrSection.setPlayerColor d slotIndex color in
  Ret (mkPlayers (side p) (Some d) (forc p) (ownr p) (iown p)).

(** ** Forces *)

Definition onForc (f : FORC.FORC -> outcome FORC.FORC) (p : Players) : outcome Players :=
  let* d := deref (forc p) in let* d := f d in Ret (mkPlayers (side p) (colr p) (Some d) (ownr p) (iown p)).
Definition getPlayerForce (slotIndex : Z) (p : Players) : outcome Z :=
  let* d := deref (forc p) in ForcSection.getPlayerForce d slotIndex.
Definition getForceStringId (force : Z) (p : Players) : outcome Z :=
  let* d := deref (forc p) in ForcSection.getForceStringId d force.
Definition getForceFlags (force : Z) (p : Players) : outcome Z :=
  let* d := deref (forc p) in ForcSection.getForceFlags d force.
Definition setPlayerForce (slotIndex force : Z) (p : Players) : outcome Players :=
  onForc (fun d => ForcSection.setPlayerForce d slotIndex force) p.
Definition setForceStringId (force forceStringId : Z) (p : Players) : outcome Players :=
  onForc (fun d => ForcSection.setForceStringId d force forceStringId) p.
Definition setForceFlags (force forceFlags : Z) (p : Players) : outcome Players :=
  onForc (fun d => ForcSection.setForceFlags d force forceFlags) p.
End PlayersClass.

Import PlayersClass.

Definition players_ok (p : Players) : Prop :=
  exists o i, ownr p = Some o /\ iown p = Some i /\ cwf OWNR.layout o /\ cwf IOWN.layout i.

(** The owner of a slot that is set for the game, the editor or both is read
    back from exactly the storage it was set in, every other slot keeps its
    owner; a slot past the twelve players throws. *)
Theorem slot_types p slot slotType scope :
  players_ok p -> is_u 8 slotType -> 0 <= slot ->
  (Player_Total <= slot -> getSlotType slot scope p = Throw OutOfRange /\
     setSlotType slot slotType scope p = Throw OutOfRange) /\
  (slot < Player_Total -> exists p', setSlotType slot slotType scope p = Ret p' /\ players_ok p' /\
     (forall j, 0 <= j -> getSlotType j Scope.Game p' =
        if decide (j = slot /\ scope <> Scope.Editor) then Ret slotType else getSlotType j Scope.Game p) /\
     (forall j, 0 <= j -> getSlotType j Scope.Editor p' =
        if decide (j = slot /\ scope <> Scope.Game) then Ret slotType else getSlotType j Scope.Editor p)).
Proof.
  intros (o & i & Ho & Hi & Wo & Wi) Hs H0.
  pose proof (lawful_plain OWNR.layout OWNR.slotType u8c Player_Total) as LO.
  pose proof (lawful_plain IOWN.layout IOWN.slotType u8c Player_Total) as LI.
  unfold getSlotType, setSlotType, onOwnr, onIown. rewrite Ho, Hi. cbn [deref obind isNull ownr iown]. split.
  - intros Hout. pose proof (law_get_out _ _ _ _ _ _ _ LO o slot Hout) as EO.
    pose proof (law_get_out _ _ _ _ _ _ _ LI i slot Hout) as EI.
    pose proof (law_set_out _ _ _ _ _ _ _ LO o slot slotType Hout) as SO.
    pose proof (law_set_out _ _ _ _ _ _ _ LI i slot slotType Hout) as SI. cbn in EO, EI, SO, SI.
    unfold OwnrSection.getSlotType, IownSection.getSlotType, OwnrSection.setSlotType, IownSection.setSlotType.
    rewrite EO, EI, SO, SI. by repeat case_match.
  - intros Hin.
    destruct (law_set_in _ _ _ _ _ _ _ LO o slot slotType Wo Hs (conj H0 Hin)) as (o' & SO & Wo' & _ & GO).
    destruct (law_set_in _ _ _ _ _ _ _ LI i slot slotType Wi Hs (conj H0 Hin)) as (i' & SI & Wi' & _ & GI).
    cbn in SO, SI, GO, GI.
    unfold OwnrSection.getSlotType, IownSection.getSlotType, OwnrSection.setSlotType, IownSection.setSlotType.
    rewrite SO, SI. cbn [obind].
    destruct (Z.eqb_spec scope Scope.Game) as [->|Hg]; [|destruct (Z.eqb_spec scope Scope.Editor) as [->|He]];
      cbn [deref obind iown]; rewrite ?SI; cbn [obind]; (eexists; split; [reflexivity|]); (split; [unfold players_ok; cbn [ownr iown]; rewrite ?Ho, ?Hi; do 2 eexists;
        (split; [reflexivity|]); (split; [reflexivity|]); split; assumption|]);
      cbn [ownr iown]; rewrite ?Ho, ?Hi; cbn [deref obind];
      change (Scope.Game =? Scope.Game) with true; change (Scope.Editor =? Scope.Game) with false;
      change (Scope.Editor =? Scope.Editor) with true; cbv iota;
      split; intros j Hj; rewrite ?GO, ?GI by done; repeat case_decide; naive_solver.
Qed.

Lemma slot_types_witness :
  exists p', setSlotType 0 5 Scope.Both (newPlayers true) = Ret p' /\ getSlotType 0 Scope.Editor p' = Ret 5.
Proof.
  destruct (slot_types (newPlayers true) 0 5 Scope.Both) as [_ H].
  - do 2 eexists. split_and!; [reflexivity | reflexivity | solve_default | solve_default].
  - vm_compute; split; congruence.
  - lia.
  - destruct H as (p' & H1 & _ & _ & H2); [vm_compute; reflexivity|]. exists p'. split; [exact H1|].
    exact (H2 0 ltac:(lia)).
Defined.
