(* ===== verification/ScenarioVersions.v ===== *)
(** The class [Versions] of Scenario.cpp and the change of a scenario's
    version: the version sections, the number of locations, the unused strings
    and the list of sections that are saved.

    [Versions] holds pointers to structure sections; [layers] is the map, whose
    location section and triggers take part in the change.  The scenario's
    other sections that use strings are [users]; [file] is the list of sections
    and [ptr] gives the section object each class of the scenario points to. *)
From S2P Require Import Prelude Codec ChkTypes ChkSection Accessors StructSections StringUsers Locations Triggers StringTable StrSection Kstr Ktrg Ktgp ScenarioStrings ScenarioFile ScenarioLayers ScenarioSettings.
Open Scope Z_scope.

(** ** Versions *)

Module VersionsClass.
Record Versions := mkVersions {
  ver : SectionPtr;
  type : SectionPtr;
  iver : SectionPtr;
  ive2 : SectionPtr;
  vcod : SectionPtr
}.

Section defaults.
(** The capacity a vector grows to. *)
Variable grow : Z -> Z -> Z.

Definition defaultType (version : Z) : SectionPtr :=
  Some (newStructSectionFrom TYPE.layout grow SectionName.TYPE true (TypeSection.GetDefault version)).
Definition defaultIver : SectionPtr :=
  Some (newStructSectionFrom IVER.layout grow SectionName.IVER true IverSection.GetDefault).
Definition defaultIve2 : SectionPtr :=
  Some (newStructSectionFrom IVE2.layout grow SectionName.IVE2 true Ive2Section.GetDefault).

(** [Versions(useDefault)] *)
Definition newVersions (useDefault : bool) : Versions :=
  if useDefault then mkVersions
    (Some (newStructSectionFrom VER.layout grow SectionName.VER false VerSection.GetDefault))
    (defaultType (VerSection.getVersion VerSection.GetDefault)) defaultIver defaultIve2
    (Some (newStructSectionFrom VCOD.layout grow SectionName.VCOD false VcodSection.GetDefault))
  else mkVersions None None None None None.

(** [found] are the sections [GetSection] finds. *)
Definition set (found : Versions) : outcome Versions :=
  if notNull (ver found) then
    let* version := read_through VER.layout (fun d => Ret (VerSection.getVersion d)) (ver found) in
    Ret (mkVersions (ver found)
      (if notNull (type found) then type found else defaultType version)
      (if notNull (iver found) then iver found else defaultIver)
      (if notNull (ive2 found) then ive2 found else defaultIve2)
      (vcod found))
  else Ret found.
End defaults.

Definition clear (v : Versions) : Versions := mkVersions None None None None None.

Definition empty (v : Versions) : bool :=
  negb (notNull (ver v)) && negb (notNull (type v)) && negb (notNull (iver v)) &&
  negb (notNull (ive2 v)) && negb (notNull (vcod v)).

Definition getVersion (v : Versions) : outcome Z :=
  read_through VER.layout (fun d => Ret (VerSection.getVersion d)) (ver v).
(** [Versions::is] *)
Definition isVersion (version : Z) (v : Versions) : outcome bool :=
  let* current := getVersion v in Ret (current =? version).
Definition isOriginal (v : Versions) : outcome bool :=
  read_through VER.layout (fun d => Ret (VerSection.isOriginal d)) (ver v).
Definition isHybrid (v : Versions) : outcome bool :=
  read_through VER.layout (fun d => Ret (VerSection.isHybrid d)) (ver v).
Definition isExpansion (v : Versions) : outcome bool :=
  read_through VER.layout (fun d => Ret (VerSection.isExpansion d)) (ver v).
Definition isHybridOrAbove (v : Versions) : outcome bool :=
  read_through VER.layout (fun d => Ret (VerSection.isHybridOrAbove d)) (ver v).

Definition hasDefaultValidation (v : Versions) : outcome bool :=
  read_through VCOD.layout (fun d => Ret (VcodSection.isDefault d)) (vcod v).
Definition setToDefaultValidation (v : Versions) : outcome Versions :=
  let* vcod' := write_through VCOD.layout (fun d => Ret (VcodSection.setToDefault d)) (vcod v) in
  Ret (mkVersions (ver v) (type v) (iver v) (ive2 v) vcod').

(** The assignments of [changeTo]. *)
Definition setVer (version : Z) (v : Versions) : outcome Versions :=
  let* ver' := write_through VER.layout (fun d => Ret (VerSection.setVersion d version)) (ver v) in
  Ret (mkVersions ver' (type v) (iver v) (ive2 v) (vcod v)).
Definition setType (scenarioType : Z) (v : Versions) : outcome Versions :=
  let* s := deref (type v) in
  let* s := TypeSection.setType scenarioType s in
  Ret (mkVersions (ver v) (Some s) (iver v) (ive2 v) (vcod v)).
Definition IVersion_Current : Z := 10.
Definition setIver (v : Versions) : outcome Versions :=
  let* iver' := write_through IVER.layout (fun d => Ret (IverSection.setVersion d IVersion_Current)) (iver v) in
  Ret (mkVersions (ver v) (type v) iver' (ive2 v) (vcod v)).
Definition I2Version_StarCraft_1_04 : Z := 11.
Definition setIve2 (v : Versions) : outcome Versions :=
  let* ive2' := write_through IVE2.layout (fun d => Ret (Ive2Section.setVersion d I2Version_StarCraft_1_04)) (ive2 v) in
  Ret (mkVersions (ver v) (type v) (iver v) ive2' (vcod v)).

(** The versions, the layers, the triggers, and whether the change was made. *)
Definition changeTo (version : Z) (lockAnywhere autoDefragmentLocations : bool)
    (v : Versions) (layers : Layers) (trig : TrigSection.t)
    : outcome (Versions * Layers * TrigSection.t * bool) :=
  let* _ := getVersion v in
  let* v := setVer version v in
  if version <? Version_StarCraft_Hybrid then
    let* (layers, trig, trimmed) :=
      LayersClass.trimLocationsToOriginal lockAnywhere autoDefragmentLocations trig layers in
    if trimmed then
      let* v := setType Type_RAWS v in
      let* v := setIver v in
      Ret (v, layers, trig, true)
    else Ret (v, layers, trig, false)
  else
    let* v := setType (if version <? Version_StarCraft_BroodWar then Type_RAWS else Type_RAWB) v in
    let* v := setIver v in
    let* v := setIve2 v in
    let* layers := LayersClass.expandToScHybridOrExpansion layers in
    Ret (v, layers, trig, true).
End VersionsClass.

(** ** The sections that are saved *)

Section sections.
(** The section of each name that the classes of the scenario point to. *)
Variable ptr : Z -> option nat.

Fixpoint removeSections (names : list Z) (p : parser) : option parser :=
  match names with
  | [] => Some p
  | name :: names => match removeSection name p with Some p => removeSections names p | None => None end
  end.
Definition addSections (names : list Z) (p : parser) : parser :=
  fold_left (fun p name => addSection (ptr name) p) names p.

(** The part of [changeVersionTo] that adds and removes sections. *)
Definition changeSections (version : Z) (p : parser) : option parser :=
  let changed :=
    if version <? Version_StarCraft_BroodWar then
      let trimmed :=
        if version <? Version_StarCraft_Hybrid
        then removeSections [SectionName.TYPE; SectionName.PUPx; SectionName.PTEx; SectionName.UNIx;
                             SectionName.TECx] p
        else Some p in
      match trimmed with
      | Some p =>
          addSections [SectionName.IVER; SectionName.UPGR; SectionName.PTEC; SectionName.UNIS; SectionName.UPGS;
                       SectionName.TECS] <$> removeSections [SectionName.COLR] p
      | None => None
      end
    else
      addSections [SectionName.COLR] <$>
        removeSections [SectionName.IVER; SectionName.UPGR; SectionName.PTEC; SectionName.UNIS; SectionName.UPGS;
                        SectionName.TECS] p in
  if version >=? Version_StarCraft_Hybrid
  then addSections [SectionName.TYPE; SectionName.PUPx; SectionName.PTEx; SectionName.UNIx; SectionName.UPGx;
                    SectionName.TECx] <$> changed
  else changed.

(** [updateSaveSections()]: the editor's own sections are saved when they hold
    anything. *)
Definition updateSaveSections (ostr : bool) (kstr : option KstrSection.KstrSection)
    (ktrg : option KtrgSection.t) (ktgp : option KtgpSection.t) (p : parser) : parser :=
  let hasExtendedStrings := ostr && match kstr with Some s => negb (KstrSection.empty s) | None => false end in
  let p := if hasExtendedStrings then addSections [SectionName.OSTR; SectionName.KSTR] p else p in
  let p := if match ktrg with Some l => negb (KtrgSection.empty l) | None => false end
           then addSections [SectionName.KTRG] p else p in
  if match ktgp with Some l => negb (KtgpSection.empty l) | None => false end
  then addSections [SectionName.KTGP] p else p.
End sections.

(** ** Changing the version of a scenario *)

Record Scenario := mkScenario {
  versions : VersionsClass.Versions;
  layers : Layers;
  users : ScenarioStrings.Sections;
  str : StrSection.StrSection;
  kstr : KstrSection.KstrSection;
  file : parser
}.

(** [Strings::deleteUnusedStrings(storageScope)] *)
Definition deleteUnusedStrings (storageScope : Z) (s : ScenarioStrings.Sections) (str : StrSection.StrSection)
    (kstr : KstrSection.KstrSection) : outcome (StrSection.StrSection * KstrSection.KstrSection) :=
  let sync := ScenarioStrings.Strings.synchronizer in
  if storageScope =? Scope.Game then
    let* str := StrSection.deleteUnusedStrings sync str s in Ret (str, kstr)
  else if storageScope =? Scope.Editor then
    let* kstr := KstrSection.deleteUnusedStrings sync kstr s in Ret (str, kstr)
  else if storageScope =? Scope.Both then
    let* str := StrSection.deleteUnusedStrings sync str s in
    let* kstr := KstrSection.deleteUnusedStrings sync kstr s in
    Ret (str, kstr)
  else Ret (str, kstr).

(** The users of strings with the locations and triggers as they are now. *)
Definition withLocations (locations : MrgnSection.t) (trig : TrigSection.t) (s : ScenarioStrings.Sections)
    : ScenarioStrings.Sections :=
  let (sprp, forc, unis, unix, _, wav, swnm, _, mbrf, ostr, ktrg) := s in
  ScenarioStrings.mkSections sprp forc unis unix locations wav swnm trig mbrf ostr ktrg.

Definition changeVersionTo (ptr : Z -> option nat) (version : Z) (lockAnywhere autoDefragmentLocations : bool)
    (sc : Scenario) : outcome (option (Scenario * bool)) :=
  let* (versions, layers, trig, changed) :=
    VersionsClass.changeTo version lockAnywhere autoDefragmentLocations (versions sc) (layers sc)
      (ScenarioStrings.trig (users sc)) in
  let* locations := deref (mrgn layers) in
  let users := withLocations locations trig (users sc) in
  if changed then
    let* (str, kstr) := deleteUnusedStrings Scope.Both users (str sc) (kstr sc) in
    Ret (match changeSections ptr version (file sc) with
         | Some file => Some (mkScenario versions layers users str kstr file, true)
         | None => None
         end)
  else Ret (Some (mkScenario versions layers users (str sc) (kstr sc) (file sc), false)).
