(* ===== verification/ScenarioNames.v ===== *)
(** The class [Strings] of Scenario.cpp by scope and by name: the operations on
    the game's strings (STR) and the editor's (KSTR) together, and the names of
    scenario, forces, units, sounds, switches and locations, each of which has a
    string id in a section of the game and another one in OSTR.

    [str] and [kstr] are the two string sections, [users] all sections with
    string ids, and [hybridOrAbove] what [versions] answers.  None of the
    sections is null. *)
From S2P Require Import Prelude Codec ChkTypes ChkSection Accessors UnitTechSections StringUsers Terrain Objects Locations Triggers StringTable StrSection Ktrg ScenarioStrings Kstr ScenarioTriggers ScenarioSettings ScenarioLayers.
Open Scope Z_scope.

Module StringsClass.
Import ScenarioStrings.

Record Strings := mkStrings {
  str : StrSection.StrSection;
  kstr : KstrSection.KstrSection;
  users : Sections;
  hybridOrAbove : bool
}.

Definition sync : StrSynchronizer Sections := ScenarioStrings.Strings.synchronizer.
Definition withStr (s : StrSection.StrSection) (st : Strings) : Strings :=
  mkStrings s (kstr st) (users st) (hybridOrAbove st).
Definition withKstr (s : KstrSection.KstrSection) (st : Strings) : Strings :=
  mkStrings (str st) s (users st) (hybridOrAbove st).
Definition withUsers (s : Sections) (st : Strings) : Strings :=
  mkStrings (str st) (kstr st) s (hybridOrAbove st).
Definition isEither (scope : Z) : bool := scope =? Scope.Either.
Definition Scope_GameOverEditor : Z := 8.

(** ** The two string sections *)

Definition hasExtendedStrings (st : Strings) : bool := negb (KstrSection.empty (kstr st)).

Definition getCapacity (storageScope : Z) (st : Strings) : Z :=
  if storageScope =? Scope.Game then StrSection.getCapacity (str st)
  else if storageScope =? Scope.Editor then KstrSection.getCapacity (kstr st)
  else 0.

Definition getBytesUsed (storageScope : Z) (st : Strings) : outcome (Strings * Z) :=
  if storageScope =? Scope.Game then
    let* (s, n) := StrSection.getBytesUsed (Some sync) (str st) in Ret (withStr s st, n)
  else if storageScope =? Scope.Editor then
    let* (s, n) := KstrSection.getBytesUsed true (kstr st) in Ret (withKstr s st, n)
  else Ret (st, 0).

Definition stringStored (stringId storageScope : Z) (st : Strings) : outcome bool :=
  let* game := if has_flag storageScope Scope.Game then StrSection.stringStored (str st) stringId else Ret false in
  if game then Ret true
  else if has_flag storageScope Scope.Editor then KstrSection.stringStored (kstr st) stringId else Ret false.

Definition getProperties (editorStringId : Z) (st : Strings) : outcome StrProp.StrProp :=
  KstrSection.getProperties (kstr st) editorStringId.
Definition setProperties (editorStringId : Z) (strProp : StrProp.StrProp) (st : Strings) : outcome Strings :=
  let* s := KstrSection.setProperties (kstr st) editorStringId strProp in Ret (withKstr s st).

Definition getString (stringId storageScope : Z) (st : Strings) : outcome (option bytes) :=
  let game := StrSection.getString (str st) stringId in
  let editor := KstrSection.getString (kstr st) stringId in
  let over (first second : outcome (option bytes)) :=
    let* result := first in match result with Some s => Ret (Some s) | None => second end in
  if isEither storageScope || (storageScope =? Scope_EditorOverGame) then over editor game
  else if storageScope =? Scope.Game then game
  else if storageScope =? Scope.Editor then editor
  else if storageScope =? Scope_GameOverEditor then over game editor
  else Ret None.

Definition findString (text : bytes) (storageScope : Z) (st : Strings) : outcome Z :=
  let game := StrSection.findString (str st) text in
  let editor := KstrSection.findString (kstr st) text in
  let over (first second : outcome Z) :=
    let* result := first in if negb (result =? 0) then Ret result else second in
  if storageScope =? Scope.Game then game
  else if storageScope =? Scope.Editor then editor
  else if (storageScope =? Scope_GameOverEditor) || isEither storageScope then over game editor
  else if storageScope =? Scope_EditorOverGame then over editor game
  else Ret 0.

Definition setCapacity (stringCapacity storageScope : Z) (autoDefragment : bool) (st : Strings) : outcome Strings :=
  if storageScope =? Scope.Game then
    let* (s, u) := StrSection.setCapacity sync (str st) (users st) stringCapacity autoDefragment in
    Ret (withUsers u (withStr s st))
  else if storageScope =? Scope.Editor then
    let* (s, u) := KstrSection.setCapacity sync (kstr st) (users st) stringCapacity autoDefragment in
    Ret (withUsers u (withKstr s st))
  else Ret st.

Definition addString (text : bytes) (storageScope : Z) (autoDefragment : bool) (st : Strings)
    : outcome (Strings * Z) :=
  if storageScope =? Scope.Game then
    let* (s, u, stringId) := StrSection.addString sync (str st) (users st) text autoDefragment in
    Ret (withUsers u (withStr s st), stringId)
  else if storageScope =? Scope.Editor then
    let* (s, u, stringId) := KstrSection.addString sync (kstr st) (users st) text autoDefragment in
    Ret (withUsers u (withKstr s st), stringId)
  else Ret (st, 0).

Definition replaceString (stringId : Z) (text : bytes) (storageScope : Z) (st : Strings) : outcome Strings :=
  if storageScope =? Scope.Game then
    let* s := StrSection.replaceString (str st) stringId text in Ret (withStr s st)
  else if storageScope =? Scope.Editor then
    let* s := KstrSection.replaceString (kstr st) stringId text in Ret (withKstr s st)
  else Ret st.

Definition moveString (stringIdFrom stringIdTo storageScope : Z) (st : Strings) : outcome Strings :=
  if storageScope =? Scope.Game then
    let* (s, u) := StrSection.moveString sync (str st) (users st) stringIdFrom stringIdTo in
    Ret (withUsers u (withStr s st))
  else if storageScope =? Scope.Editor then
    let* (s, u) := KstrSection.moveString sync (kstr st) (users st) stringIdFrom stringIdTo in
    Ret (withUsers u (withKstr s st))
  else Ret st.

(** [stringUsed] with what the two sections store. *)
Definition stringUsed (stringId usageScope storageScope userMask : Z) (ensureStored : bool) (st : Strings)
    : outcome bool :=
  let* gameStored := StrSection.stringStored (str st) stringId in
  let* editorStored := KstrSection.stringStored (kstr st) stringId in
  ScenarioStrings.Strings.stringUsed gameStored editorStored (users st) stringId usageScope storageScope userMask
    ensureStored.

#[export] Instance sections_sprp : Updater sprp :=
  {| upd v s := mkSections v (forc s) (unis s) (unix s) (mrgn s) (wav s) (swnm s) (trig s) (mbrf s) (ostr s) (ktrg s); upd_get v s := eq_refl; upd_upd v w s := eq_refl |}.
#[export] Instance sections_forc : Updater forc :=
  {| upd v s := mkSections (sprp s) v (unis s) (unix s) (mrgn s) (wav s) (swnm s) (trig s) (mbrf s) (ostr s) (ktrg s); upd_get v s := eq_refl; upd_upd v w s := eq_refl |}.
#[export] Instance sections_unis : Updater unis :=
  {| upd v s := mkSections (sprp s) (forc s) v (unix s) (mrgn s) (wav s) (swnm s) (trig s) (mbrf s) (ostr s) (ktrg s); upd_get v s := eq_refl; upd_upd v w s := eq_refl |}.
#[export] Instance sections_unix : Updater unix :=
  {| upd v s := mkSections (sprp s) (forc s) (unis s) v (mrgn s) (wav s) (swnm s) (trig s) (mbrf s) (ostr s) (ktrg s); upd_get v s := eq_refl; upd_upd v w s := eq_refl |}.
#[export] Instance sections_mrgn : Updater mrgn :=
  {| upd v s := mkSections (sprp s) (forc s) (unis s) (unix s) v (wav s) (swnm s) (trig s) (mbrf s) (ostr s) (ktrg s); upd_get v s := eq_refl; upd_upd v w s := eq_refl |}.
#[export] Instance sections_wav : Updater wav :=
  {| upd v s := mkSections (sprp s) (forc s) (unis s) (unix s) (mrgn s) v (swnm s) (trig s) (mbrf s) (ostr s) (ktrg s); upd_get v s := eq_refl; upd_upd v w s := eq_refl |}.
#[export] Instance sections_swnm : Updater swnm :=
  {| upd v s := mkSections (sprp s) (forc s) (unis s) (unix s) (mrgn s) (wav s) v (trig s) (mbrf s) (ostr s) (ktrg s); upd_get v s := eq_refl; upd_upd v w s := eq_refl |}.
#[export] Instance sections_trig : Updater trig :=
  {| upd v s := mkSections (sprp s) (forc s) (unis s) (unix s) (mrgn s) (wav s) (swnm s) v (mbrf s) (ostr s) (ktrg s); upd_get v s := eq_refl; upd_upd v w s := eq_refl |}.
#[export] Instance sections_mbrf : Updater mbrf :=
  {| upd v s := mkSections (sprp s) (forc s) (unis s) (unix s) (mrgn s) (wav s) (swnm s) (trig s) v (ostr s) (ktrg s); upd_get v s := eq_refl; upd_upd v w s := eq_refl |}.
#[export] Instance sections_ostr : Updater ostr :=
  {| upd v s := mkSections (sprp s) (forc s) (unis s) (unix s) (mrgn s) (wav s) (swnm s) (trig s) (mbrf s) v (ktrg s); upd_get v s := eq_refl; upd_upd v w s := eq_refl |}.
#[export] Instance sections_ktrg : Updater ktrg :=
  {| upd v s := mkSections (sprp s) (forc s) (unis s) (unix s) (mrgn s) (wav s) (swnm s) (trig s) (mbrf s) (ostr s) v; upd_get v s := eq_refl; upd_upd v w s := eq_refl |}.

(** The part of [deleteString] for the scope [Editor]; the one for [Game] is
    [deleteGameString]. *)
Definition deleteEditorString (stringId : Z) (deleteOnlyIfUnused : bool) (st : Strings) : outcome Strings :=
  let* used := if deleteOnlyIfUnused
               then stringUsed stringId Scope.Either Scope.Editor StringUserFlag.All true st else Ret false in
  if negb deleteOnlyIfUnused || negb used then
    let* (k, _) := KstrSection.deleteString sync (kstr st) stringId deleteOnlyIfUnused (Some (users st)) in
    let* o := OstrSection.deleteString (ostr (users st)) stringId in
    let* u := TriggersClass.deleteString ((users st) <| ostr := o |>) stringId Scope.Editor in
    Ret (withUsers u (withKstr k st))
  else Ret st.

Definition deleteString (stringId storageScope : Z) (deleteOnlyIfUnused : bool) (st : Strings) : outcome Strings :=
  let* st := if has_flag storageScope Scope.Game then
               let* (s, u) := ScenarioStrings.Strings.deleteGameString (str st) (users st) stringId deleteOnlyIfUnused in
               Ret (withUsers u (withStr s st))
             else Ret st in
  if has_flag storageScope Scope.Editor then deleteEditorString stringId deleteOnlyIfUnused st else Ret st.

Definition deleteUnusedStrings (storageScope : Z) (st : Strings) : outcome Strings :=
  let game (st : Strings) := let* s := StrSection.deleteUnusedStrings sync (str st) (users st) in Ret (withStr s st) in
  let editor (st : Strings) :=
    let* s := KstrSection.deleteUnusedStrings sync (kstr st) (users st) in Ret (withKstr s st) in
  if storageScope =? Scope.Game then game st
  else if storageScope =? Scope.Editor then editor st
  else if storageScope =? Scope.Both then let* st := game st in editor st
  else Ret st.

Definition getTailData (st : Strings) : bytes := StrSection.tailData (str st).
Definition getTailDataOffset (st : Strings) : outcome (Strings * Z) :=
  let* (s, n) := StrSection.getTailDataOffset sync (str st) in Ret (withStr s st, n).
Definition getInitialTailDataOffset (st : Strings) : Z := StrSection.initialTailDataOffset (str st).
Definition getBytePaddedTo (st : Strings) : Z := StrSection.bytePaddedTo (str st).
Definition setBytePaddedTo (bytePaddedTo : Z) (st : Strings) : Strings :=
  withStr (StrSection.setBytePaddedTo (str st) bytePaddedTo) st.

(** ** String ids by name *)

(** [properties->useExpansionUnitSettings(useExp)] when both sections are
    there. *)
Definition useExpansionUnitSettings (useExp : UseExpSection) (st : Strings) : bool :=
  match useExp with
  | Auto => hybridOrAbove st
  | Yes | No | NoIfOrigAvailable => false
  | YesIfAvailable | Both => true
  end.

(** [properties->getUnitNameStringId] and [setUnitNameStringId]. *)
Definition gameUnitNameStringId (unitType : Z) (useExp : UseExpSection) (st : Strings) : outcome Z :=
  if useExpansionUnitSettings useExp st then UnixSection.getUnitNameStringId (unix (users st)) unitType
  else UnisSection.getUnitNameStringId (unis (users st)) unitType.
Definition setGameUnitNameStringId (unitType nameStringId : Z) (useExp : UseExpSection) (s : Sections)
    : outcome Sections :=
  let onOrig (s : Sections) :=
    let* d := UnisSection.setUnitNameStringId (unis s) unitType (u16 nameStringId) in Ret (s <| unis := d |>) in
  let onExp (s : Sections) :=
    let* d := UnixSection.setUnitNameStringId (unix s) unitType (u16 nameStringId) in Ret (s <| unix := d |>) in
  match useExp with
  | Auto | Both => let* s := onOrig s in onExp s
  | Yes | YesIfAvailable => onExp s
  | No | NoIfOrigAvailable => onOrig s
  end.

(** [layers->getLocation(locationId)->stringId], 0 for a null pointer. *)
Definition gameLocationNameStringId (locationId : Z) (s : Sections) : outcome Z :=
  let* p := MrgnSection.getLocation (mrgn s) locationId in
  Ret (match p with Some l => Location.stringId l | None => 0 end).
Definition setGameLocationNameStringId (locationId stringId : Z) (s : Sections) : outcome Sections :=
  let* p := MrgnSection.getLocation (mrgn s) locationId in
  match p with
  | Some l => let* m := vset (mrgn s) locationId (Some (l <| Location.stringId := u16 stringId |>)) in
              Ret (s <| mrgn := m |>)
  | None => Ret s
  end.

Definition getScenarioNameStringId (storageScope : Z) (st : Strings) : Z :=
  if storageScope =? Scope.Editor then OstrSection.getScenarioNameStringId (ostr (users st))
  else SprpSection.getScenarioNameStringId (sprp (users st)).
Definition getScenarioDescriptionStringId (storageScope : Z) (st : Strings) : Z :=
  if storageScope =? Scope.Editor then OstrSection.getScenarioDescriptionStringId (ostr (users st))
  else SprpSection.getScenarioDescriptionStringId (sprp (users st)).
Definition getForceNameStringId (force storageScope : Z) (st : Strings) : outcome Z :=
  if storageScope =? Scope.Editor then OstrSection.getForceNameStringId (ostr (users st)) force
  else ForcSection.getForceStringId (forc (users st)) force.
Definition getUnitNameStringId (unitType : Z) (useExp : UseExpSection) (storageScope : Z) (st : Strings) : outcome Z :=
  let orig := OstrSection.getUnitNameStringId (ostr (users st)) unitType in
  let exp := OstrSection.getExpUnitNameStringId (ostr (users st)) unitType in
  let over (first second : outcome Z) := let* id := first in if negb (id =? 0) then Ret id else second in
  if storageScope =? Scope.Game then gameUnitNameStringId unitType useExp st
  else if storageScope =? Scope.Editor then
    match useExp with
    | Auto => if hybridOrAbove st then exp else orig
    | Yes => exp
    | No => orig
    | YesIfAvailable => over exp orig
    | NoIfOrigAvailable => over orig exp
    | Both => Ret 0
    end
  else Ret 0.
Definition getSoundPathStringId (soundIndex storageScope : Z) (st : Strings) : outcome Z :=
  if storageScope =? Scope.Editor then OstrSection.getSoundPathStringId (ostr (users st)) soundIndex
  else WavSection.getSoundStringId (wav (users st)) soundIndex.
Definition getSwitchNameStringId (switchIndex storageScope : Z) (st : Strings) : outcome Z :=
  if storageScope =? Scope.Editor then OstrSection.getSwitchNameStringId (ostr (users st)) switchIndex
  else SwnmSection.getSwitchNameStringId (swnm (users st)) switchIndex.
Definition getLocationNameStringId (locationId storageScope : Z) (st : Strings) : outcome Z :=
  if storageScope =? Scope.Editor then OstrSection.getLocationNameStringId (ostr (users st)) locationId
  else gameLocationNameStringId locationId (users st).

(** Storing an id in OSTR, or in a section of the game. *)
Definition onOstr (f : OSTR.OSTR -> outcome OSTR.OSTR) (s : Sections) : outcome Sections :=
  let* o := f (ostr s) in Ret (s <| ostr := o |>).
Definition onSprp (f : SPRP.SPRP -> SPRP.SPRP) (s : Sections) : outcome Sections := Ret (s <| sprp := f (sprp s) |>).
Definition onForc (f : FORC.FORC -> outcome FORC.FORC) (s : Sections) : outcome Sections :=
  let* d := f (forc s) in Ret (s <| forc := d |>).
Definition onWav (f : WAV.WAV -> outcome WAV.WAV) (s : Sections) : outcome Sections :=
  let* d := f (wav s) in Ret (s <| wav := d |>).
Definition onSwnm (f : SWNM.SWNM -> outcome SWNM.SWNM) (s : Sections) : outcome Sections :=
  let* d := f (swnm s) in Ret (s <| swnm := d |>).

Definition scoped (storageScope : Z) (editor game : Sections -> outcome Sections) (st : Strings) : outcome Strings :=
  let* s := (if storageScope =? Scope.Editor then editor else game) (users st) in Ret (withUsers s st).

Definition setScenarioNameStringId (id storageScope : Z) : Strings -> outcome Strings :=
  scoped storageScope (onOstr (fun d => Ret (OstrSection.setScenarioNameStringId d (u32 id))))
    (onSprp (fun d => SprpSection.setScenarioNameStringId d (u16 id))).
Definition setScenarioDescriptionStringId (id storageScope : Z) : Strings -> outcome Strings :=
  scoped storageScope (onOstr (fun d => Ret (OstrSection.setScenarioDescriptionStringId d (u32 id))))
    (onSprp (fun d => SprpSection.setScenarioDescriptionStringId d (u16 id))).
Definition setForceNameStringId (force id storageScope : Z) : Strings -> outcome Strings :=
  scoped storageScope (onOstr (fun d => OstrSection.setForceNameStringId d force (u32 id)))
    (onForc (fun d => ForcSection.setForceStringId d force (u16 id))).
Definition setUnitNameStringId (unitType id : Z) (useExp : UseExpSection) (storageScope : Z) (st : Strings)
    : outcome Strings :=
  let orig := onOstr (fun d => OstrSection.setUnitNameStringId d unitType (u32 id)) in
  let exp := onOstr (fun d => OstrSection.setExpUnitNameStringId d unitType (u32 id)) in
  let* s := if storageScope =? Scope.Game then setGameUnitNameStringId unitType id useExp (users st)
            else match useExp with
                 | Auto | Both => let* s := orig (users st) in exp s
                 | YesIfAvailable | Yes => exp (users st)
                 | NoIfOrigAvailable | No => orig (users st)
                 end in
  Ret (withUsers s st).
Definition setSoundPathStringId (soundIndex id storageScope : Z) : Strings -> outcome Strings :=
  scoped storageScope (onOstr (fun d => OstrSection.setSoundPathStringId d soundIndex (u32 id)))
    (onWav (fun d => WavSection.setSoundStringId d soundIndex (u32 id))).
Definition setSwitchNameStringId (switchIndex id storageScope : Z) : Strings -> outcome Strings :=
  scoped storageScope (onOstr (fun d => OstrSection.setSwitchNameStringId d switchIndex (u32 id)))
    (onSwnm (fun d => SwnmSection.setSwitchNameStringId d switchIndex (u32 id))).
Definition setLocationNameStringId (locationId id storageScope : Z) : Strings -> outcome Strings :=
  scoped storageScope (onOstr (fun d => OstrSection.setLocationNameStringId d locationId (u32 id)))
    (setGameLocationNameStringId locationId id).

(** ** Names *)

(** [getString(gameStringId, editorStringId, storageScope)] *)
Definition getEitherString (gameStringId editorStringId storageScope : Z) (st : Strings) : outcome (option bytes) :=
  let game := getString gameStringId Scope.Game st in
  let editor := getString editorStringId Scope.Editor st in
  if storageScope =? Scope.Game then game
  else if storageScope =? Scope.Editor then editor
  else if storageScope =? Scope_GameOverEditor then (if negb (gameStringId =? 0) then game else editor)
  else if isEither storageScope || (storageScope =? Scope_EditorOverGame)
  then (if negb (editorStringId =? 0) then editor else game)
  else Ret None.

Definition getScenarioName (storageScope : Z) (st : Strings) : outcome (option bytes) :=
  getEitherString (SprpSection.getScenarioNameStringId (sprp (users st)))
    (OstrSection.getScenarioNameStringId (ostr (users st))) storageScope st.
Definition getScenarioDescription (storageScope : Z) (st : Strings) : outcome (option bytes) :=
  getEitherString (SprpSection.getScenarioDescriptionStringId (sprp (users st)))
    (OstrSection.getScenarioDescriptionStringId (ostr (users st))) storageScope st.
Definition getForceName (force storageScope : Z) (st : Strings) : outcome (option bytes) :=
  let* gameId := ForcSection.getForceStringId (forc (users st)) force in
  let* editorId := OstrSection.getForceNameStringId (ostr (users st)) force in
  getEitherString gameId editorId storageScope st.
(** [defaultDisplayNames] are the game's own names of the units; the one of a
    type that is none is [idName]. *)
Definition getUnitName (defaultDisplayNames : list bytes) (idName : Z -> bytes) (unitType : Z)
    (useExp : UseExpSection) (storageScope : Z) (st : Strings) : outcome bytes :=
  if unitType <? Unit_TotalTypes then
    let* gameId := gameUnitNameStringId unitType useExp st in
    let* editorId := if useExpansionUnitSettings useExp st
                     then OstrSection.getExpUnitNameStringId (ostr (users st)) unitType
                     else OstrSection.getUnitNameStringId (ostr (users st)) unitType in
    let* mapUnitName := getEitherString gameId editorId storageScope st in
    match mapUnitName with
    | Some name => Ret name
    | None => vget defaultDisplayNames unitType
    end
  else Ret (idName unitType).
Definition getSoundPath (soundIndex storageScope : Z) (st : Strings) : outcome (option bytes) :=
  let* gameId := WavSection.getSoundStringId (wav (users st)) soundIndex in
  let* editorId := OstrSection.getSoundPathStringId (ostr (users st)) soundIndex in
  getEitherString gameId editorId storageScope st.
Definition getSwitchName (switchIndex storageScope : Z) (st : Strings) : outcome (option bytes) :=
  let* gameId := SwnmSection.getSwitchNameStringId (swnm (users st)) switchIndex in
  let* editorId := OstrSection.getSwitchNameStringId (ostr (users st)) switchIndex in
  getEitherString gameId editorId storageScope st.
Definition getLocationName (locationId storageScope : Z) (st : Strings) : outcome (option bytes) :=
  let* gameId := if (locationId >? 0) && (locationId <=? MrgnSection.numLocations (mrgn (users st))) then
                   let* p := MrgnSection.getLocation (mrgn (users st)) locationId in
                   let* l := deref p in Ret (Location.stringId l)
                 else Ret 0 in
  let* editorId := OstrSection.getLocationNameStringId (ostr (users st)) locationId in
  getEitherString gameId editorId storageScope st.

(** The triggers with their extended data. *)
Definition extensions (s : Sections) : Extensions := mkExtensions (trig s) (ktrg s).
Definition withExtensions (e : Extensions) (s : Sections) : Sections :=
  s <| trig := ScenarioTriggers.trig e |> <| ktrg := ScenarioTriggers.ktrg e |>.

Definition getComment (triggerIndex : Z) (st : Strings) : outcome (option bytes) :=
  let* id := getCommentStringId (extensions (users st)) triggerIndex in getString id Scope.Game st.
Definition getExtendedComment (triggerIndex : Z) (st : Strings) : outcome (option bytes) :=
  let* id := getExtendedCommentStringId (extensions (users st)) triggerIndex in getString id Scope.Editor st.
Definition getExtendedNotes (triggerIndex : Z) (st : Strings) : outcome (option bytes) :=
  let* id := getExtendedNotesStringId (extensions (users st)) triggerIndex in getString id Scope.Editor st.

(** The body the setters of names share: [guard] is their condition. *)
Definition setName (guard : bool) (game editor : Z -> Sections -> outcome Sections) (text : bytes)
    (storageScope : Z) (autoDefragment : bool) (st : Strings) : outcome Strings :=
  if guard then
    let* (st, newStringId) := addString text storageScope autoDefragment st in
    if negb (newStringId =? 0) then
      let* s := if storageScope =? Scope.Game then game newStringId (users st)
                else if storageScope =? Scope.Editor then editor newStringId (users st)
                else Ret (users st) in
      Ret (withUsers s st)
    else Ret st
  else Ret st.
Definition gameOrEditor (storageScope : Z) : bool := (storageScope =? Scope.Game) || (storageScope =? Scope.Editor).

Definition setScenarioName (text : bytes) (storageScope : Z) : bool -> Strings -> outcome Strings :=
  setName (gameOrEditor storageScope)
    (fun id => onSprp (fun d => SprpSection.setScenarioNameStringId d (u16 id)))
    (fun id => onOstr (fun d => Ret (OstrSection.setScenarioNameStringId d (u32 id)))) text storageScope.
Definition setScenarioDescription (text : bytes) (storageScope : Z) : bool -> Strings -> outcome Strings :=
  setName (gameOrEditor storageScope)
    (fun id => onSprp (fun d => SprpSection.setScenarioDescriptionStringId d (u16 id)))
    (fun id => onOstr (fun d => Ret (OstrSection.setScenarioDescriptionStringId d (u32 id)))) text storageScope.
Definition setForceName (force : Z) (text : bytes) (storageScope : Z) : bool -> Strings -> outcome Strings :=
  setName (gameOrEditor storageScope && (force <? TotalForces))
    (fun id => onForc (fun d => ForcSection.setForceStringId d force (u16 id)))
    (fun id => onOstr (fun d => OstrSection.setForceNameStringId d force (u32 id))) text storageScope.
Definition setUnitName (unitType : Z) (text : bytes) (useExp : UseExpSection) (storageScope : Z)
    (autoDefragment : bool) (st : Strings) : outcome Strings :=
  let orig id := onOstr (fun d => OstrSection.setUnitNameStringId d unitType (u32 id)) in
  let exp id := onOstr (fun d => OstrSection.setExpUnitNameStringId d unitType (u32 id)) in
  setName (gameOrEditor storageScope && (unitType <? Unit_TotalTypes))
    (fun id => setGameUnitNameStringId unitType id useExp)
    (fun id s => match useExp with
                 | Auto => if hybridOrAbove st then exp id s else orig id s
                 | Yes => exp id s
                 | No => orig id s
                 | _ => let* s := orig id s in exp id s
                 end) text storageScope autoDefragment st.
(** The index is only checked for the editor's scope. *)
Definition setSoundPath (soundIndex : Z) (text : bytes) (storageScope : Z) : bool -> Strings -> outcome Strings :=
  setName ((storageScope =? Scope.Game) || (storageScope =? Scope.Editor) && (soundIndex <? TotalSounds))
    (fun id => onWav (fun d => WavSection.setSoundStringId d soundIndex id))
    (fun id => onOstr (fun d => OstrSection.setSoundPathStringId d soundIndex (u32 id))) text storageScope.
Definition setSwitchName (switchIndex : Z) (text : bytes) (storageScope : Z) : bool -> Strings -> outcome Strings :=
  setName ((storageScope =? Scope.Game) || (storageScope =? Scope.Editor) && (switchIndex <? TotalSwitches))
    (fun id => onSwnm (fun d => SwnmSection.setSwitchNameStringId d switchIndex id))
    (fun id => onOstr (fun d => OstrSection.setSwitchNameStringId d switchIndex (u32 id))) text storageScope.
(** [layers->getLocation(locationId)->stringId = ...] *)
Definition assignLocationName (locationId id : Z) (s : Sections) : outcome Sections :=
  let* p := MrgnSection.getLocation (mrgn s) locationId in
  let* l := deref p in
  let* m := vset (mrgn s) locationId (Some (l <| Location.stringId := u16 id |>)) in
  Ret (s <| mrgn := m |>).
Definition setLocationName (locationId : Z) (text : bytes) (storageScope : Z) (autoDefragment : bool) (st : Strings)
    : outcome Strings :=
  setName ((storageScope =? Scope.Game) || (storageScope =? Scope.Editor) && (locationId >? 0) &&
           (locationId <=? MrgnSection.numLocations (mrgn (users st))))
    (assignLocationName locationId)
    (fun id => onOstr (fun d => OstrSection.setLocationNameStringId d locationId (u32 id)))
    text storageScope autoDefragment st.

(** The body of [setExtendedComment] and [setExtendedNotes]: the extended data
    is found or made first, then the string is added. *)
Definition setExtensionText (set : Z -> ExtendedTrigData.ExtendedTrigData -> ExtendedTrigData.ExtendedTrigData)
    (triggerIndex : Z) (text : bytes) (autoDefragment : bool) (st : Strings) : outcome Strings :=
  let* (e, found) := getTriggerExtension (extensions (users st)) triggerIndex true in
  let st := withUsers (withExtensions e (users st)) st in
  match found with
  | None => Ret st
  | Some i =>
      let* (st, newStringId) := addString text Scope.Editor autoDefragment st in
      if negb (newStringId =? 0) then
        let* p := vget (ktrg (users st)) i in
        let* d := deref p in
        let* k := vset (ktrg (users st)) i (Some (set (u32 newStringId) d)) in
        Ret (withUsers ((users st) <| ktrg := k |>) st)
      else Ret st
  end.
Definition setExtendedComment :=
  setExtensionText (fun id d => d <| ExtendedTrigData.commentStringId := id |>).
Definition setExtendedNotes :=
  setExtensionText (fun id d => d <| ExtendedTrigData.notesStringId := id |>).

(** ** Moving a string between the sections *)

(** [std::set<u32>]: its elements in order. *)
Fixpoint insertId (id : Z) (ids : list Z) : list Z :=
  match ids with
  | [] => [id]
  | i :: rest => if id <? i then id :: ids else if id =? i then ids else i :: insertId id rest
  end.

(** [if ( stringId == get() ) { replaced.insert(get'()); set'(newStringId); }] *)
Definition rescopeOne (stringId : Z) (get get' : Sections -> outcome Z) (set' : Sections -> outcome Sections)
    (st : Sections * list Z) : outcome (Sections * list Z) :=
  let '(s, replaced) := st in
  let* id := get s in
  if stringId =? id then
    let* old := get' s in
    let* s := set' s in
    Ret (s, insertId (u32 old) replaced)
  else Ret st.

(** The names in the order in which they are looked at: the id in the sections
    of the game, the one in OSTR, and the assignments. *)
Record nameSlot := mkNameSlot {
  gameId : Sections -> outcome Z;
  editorId : Sections -> outcome Z;
  assignGame : Z -> Sections -> outcome Sections;
  assignEditor : Z -> Sections -> outcome Sections
}.

(** [layers->getLocation(i)->stringId] *)
Definition locationNameId (i : Z) (s : Sections) : outcome Z :=
  let* p := MrgnSection.getLocation (mrgn s) i in let* l := deref p in Ret (Location.stringId l).

Definition scenarioNameSlot : nameSlot := mkNameSlot
  (fun s => Ret (SprpSection.getScenarioNameStringId (sprp s)))
  (fun s => Ret (OstrSection.getScenarioNameStringId (ostr s)))
  (fun id => onSprp (fun d => SprpSection.setScenarioNameStringId d (u16 id)))
  (fun id => onOstr (fun d => Ret (OstrSection.setScenarioNameStringId d (u32 id)))).
Definition scenarioDescriptionSlot : nameSlot := mkNameSlot
  (fun s => Ret (SprpSection.getScenarioDescriptionStringId (sprp s)))
  (fun s => Ret (OstrSection.getScenarioDescriptionStringId (ostr s)))
  (fun id => onSprp (fun d => SprpSection.setScenarioDescriptionStringId d (u16 id)))
  (fun id => onOstr (fun d => Ret (OstrSection.setScenarioDescriptionStringId d (u32 id)))).
Definition forceNameSlot (i : Z) : nameSlot := mkNameSlot
  (fun s => ForcSection.getForceStringId (forc s) i)
  (fun s => OstrSection.getForceNameStringId (ostr s) i)
  (fun id => onForc (fun d => ForcSection.setForceStringId d i (u16 id)))
  (fun id => onOstr (fun d => OstrSection.setForceNameStringId d i (u32 id))).
Definition unitNameSlot (i : Z) : nameSlot := mkNameSlot
  (fun s => UnisSection.getUnitNameStringId (unis s) i)
  (fun s => OstrSection.getUnitNameStringId (ostr s) i)
  (fun id => setGameUnitNameStringId i id No)
  (fun id => onOstr (fun d => OstrSection.setUnitNameStringId d i (u32 id))).
(** The expansion's unit names are read with [UseExpSection::Yes]: from the
    original section. *)
Definition expUnitNameSlot (i : Z) : nameSlot := mkNameSlot
  (fun s => UnisSection.getUnitNameStringId (unis s) i)
  (fun s => OstrSection.getExpUnitNameStringId (ostr s) i)
  (fun id => setGameUnitNameStringId i id Yes)
  (fun id => onOstr (fun d => OstrSection.setExpUnitNameStringId d i (u32 id))).
Definition soundPathSlot (i : Z) : nameSlot := mkNameSlot
  (fun s => WavSection.getSoundStringId (wav s) i)
  (fun s => OstrSection.getSoundPathStringId (ostr s) i)
  (fun id => onWav (fun d => WavSection.setSoundStringId d i id))
  (fun id => onOstr (fun d => OstrSection.setSoundPathStringId d i (u32 id))).
Definition switchNameSlot (i : Z) : nameSlot := mkNameSlot
  (fun s => SwnmSection.getSwitchNameStringId (swnm s) i)
  (fun s => OstrSection.getSwitchNameStringId (ostr s) i)
  (fun id => onSwnm (fun d => SwnmSection.setSwitchNameStringId d i id))
  (fun id => onOstr (fun d => OstrSection.setSwitchNameStringId d i (u32 id))).
Definition locationNameSlot (i : Z) : nameSlot := mkNameSlot (locationNameId i)
  (fun s => OstrSection.getLocationNameStringId (ostr s) i)
  (assignLocationName i)
  (fun id => onOstr (fun d => OstrSection.setLocationNameStringId d i (u32 id))).

Definition nameSlots (s : Sections) : list nameSlot :=
  [scenarioNameSlot; scenarioDescriptionSlot] ++ (forceNameSlot <$> range 0 TotalForces) ++
  (unitNameSlot <$> range 0 Unit_TotalTypes) ++ (expUnitNameSlot <$> range 0 Unit_TotalTypes) ++
  (soundPathSlot <$> range 0 TotalSounds) ++ (switchNameSlot <$> range 0 TotalSwitches) ++
  (locationNameSlot <$> range 1 (MrgnSection.numLocations (mrgn s) + 1)).

(** The result is always 0. *)
Definition rescopeString (stringId changeStorageScopeTo : Z) (autoDefragment : bool) (st : Strings)
    : outcome (Strings * Z) :=
  let move (from to_ : Z) (slot : nameSlot -> Z -> Sections * list Z -> outcome (Sections * list Z)) :=
    let* toRescope := getString stringId from st in
    let* text := deref toRescope in
    let* (st, newStringId) := addString text to_ autoDefragment st in
    if negb (newStringId =? 0) then
      let* (s, replaced) := for_each (fun n => slot n newStringId) (nameSlots (users st)) (users st, []) in
      let* st := deleteString stringId from false (withUsers s st) in
      let* st := for_each (fun id => deleteString id to_ true) replaced st in
      Ret (st, 0)
    else Ret (st, 0) in
  let* gameUsed := if changeStorageScopeTo =? Scope.Editor
                   then stringUsed stringId Scope.Either Scope.Game StringUserFlag.All true st else Ret false in
  if gameUsed then
    move Scope.Game Scope.Editor (fun n id => rescopeOne stringId (gameId n) (editorId n) (assignEditor n id))
  else
    let* editorUsed := if changeStorageScopeTo =? Scope.Game
                       then stringUsed stringId Scope.Either Scope.Editor StringUserFlag.All true st else Ret false in
    if editorUsed then
      move Scope.Editor Scope.Game (fun n id => rescopeOne stringId (editorId n) (gameId n) (assignGame n id))
    else Ret (st, 0).
End StringsClass.
