(* ===== verification/ScenarioNamesProps.v ===== *)
(** Properties of the strings and names of a scenario: [Strings] is a lawful
    synchronizer for KSTR too, so that adding a string in either scope keeps
    every string in use, and setting a name makes it the name that is read. *)
From S2P Require Import Prelude Codec ChkTypes ChkSection Accessors UnitTechSections StringUsers Terrain Objects Locations Triggers TriggerStrings StringTable StrSection TableProps Ktrg ScenarioStrings ScenarioProps Kstr ScenarioTriggers ScenarioSettings ScenarioLayers ScenarioNames.
Open Scope Z_scope.

Import ScenarioStrings StringsClass.

(** ** The synchronizer of KSTR *)

(** The editor's strings that extended trigger data uses. *)
Definition ktrg_ids (l : KtrgSection.t) : list Z :=
  flat_map (fun d => match d with
    | Some d => [ExtendedTrigData.commentStringId d; ExtendedTrigData.notesStringId d]
    | None => [] end) l.

(** Every string of KSTR in use: by a name in OSTR or by extended trigger data. *)
Definition editor_ids (s : Sections) : list Z := (ostr_users (ostr s)).*2 ++ ktrg_ids (ktrg s).

Definition below (v : Z) : Prop := 0 <= v < MaxStrings.

Record editor_wf (s : Sections) : Prop := mkEditorWf {
  wf_ostr : cwf OSTR.layout (ostr s);
  wf_editor_ids : Forall below (editor_ids s)
}.

Lemma ktrg_mark_one v bs : below v ->
  (if negb (v =? 0) then bs_set MaxStrings bs v else Ret bs) = Ret (ids_set [v] ∪ bs).
Proof.
  intros [H0 H1]. rewrite ids_set_cons. change (ids_set []) with (∅ : gset Z). unfold markable, bs_set.
  destruct (Z.eqb_spec v 0) as [->|Hne]; cbn [negb].
  - f_equal. set_solver.
  - rewrite !(proj2 (Z.ltb_lt _ _)), (proj2 (Z.leb_le _ _)) by lia. cbn [andb]. f_equal. set_solver.
Qed.

Lemma ktrg_mark l bs : Forall below (ktrg_ids l) ->
  KtrgSection.markUsedEditorStrings l bs StringUserFlag.All = Ret (ids_set (ktrg_ids l) ∪ bs).
Proof.
  unfold KtrgSection.markUsedEditorStrings. revert bs. induction l as [|[d|] l IH]; intros bs Hl.
  - cbn. f_equal. change (ids_set []) with (∅ : gset Z). set_solver.
  - cbn [ktrg_ids flat_map app] in Hl. apply Forall_cons in Hl as [Hc Hl]. apply Forall_cons in Hl as [Hn Hl].
    cbn [for_each].
    change (has_flag StringUserFlag.All StringUserFlag.ExtendedTriggerComment) with true.
    change (has_flag StringUserFlag.All StringUserFlag.ExtendedTriggerNotes) with true. cbn [andb].
    rewrite ktrg_mark_one by done. cbn [obind]. rewrite ktrg_mark_one by done. cbn [obind].
    rewrite IH by done. f_equal. cbn [ktrg_ids flat_map app].
    change (flat_map _ l) with (ktrg_ids l). rewrite !ids_set_cons. change (ids_set []) with (∅ : gset Z). set_solver.
  - apply IH, Hl.
Qed.

Lemma editor_mark s bs : editor_wf s ->
  ScenarioStrings.Strings.markUsedStrings s bs Scope.Either Scope.Editor StringUserFlag.All =
  Ret (ids_set (editor_ids s) ∪ bs).
Proof.
  intros [Ho Hi]. unfold editor_ids in Hi. apply Forall_app in Hi as [Hi Hk].
  unfold ScenarioStrings.Strings.markUsedStrings, TriggersClass.markUsedStrings, when.
  change (Scope.Editor =? Scope.Game) with false. change (Scope.Editor =? Scope.Editor) with true.
  rewrite ostr_mark; [|done|].
  2:{ rewrite Forall_fmap in Hi. eapply Forall_impl; [exact Hi|]. intros p Hp. apply Hp. }
  cbn [obind]. change (true && any_flag _ _) with true. cbn [negb].
  rewrite ktrg_mark by done. f_equal. unfold editor_ids. rewrite ids_set_app. set_solver.
Qed.

#[export] Instance editor_synchronizer_laws :
  StrSynchronizerLaws Scope.Editor sync editor_wf (fun s => ids_set (editor_ids s)).
Proof.
  split; cbn [sync ScenarioStrings.Strings.synchronizer sync_markUsedStrings sync_markValidUsedStrings].
  - intros s i _ Hi. apply elem_of_ids_set in Hi as [Hi _]. exact Hi.
  - intros s Hs. rewrite editor_mark by done. f_equal. apply union_empty_r_L.
  - intros s strings Hs. unfold ScenarioStrings.Strings.markValidUsedStrings. rewrite editor_mark by done.
    cbn [obind]. by rewrite union_empty_r_L.
Qed.

(** ** Adding a string *)

(** Adding to a table that keeps to the ids there are: the string is under
    the id returned, and every other id and every id in use keeps its string. *)
Lemma table_add {Σ} storage (sy : StrSynchronizer Σ) wf used (Hlaws : StrSynchronizerLaws storage sy wf used)
    grow strings σ text auto :
  0 <= grow -> wf σ -> 0 < zlen strings \/ (exists i, 1 <= i < MaxStrings /\ i ∉ used σ) ->
  zlen strings <= MaxStrings ->
  (StringTable.addString sy storage grow strings σ text auto = Throw MaximumStringsExceeded /\
     forall i, 1 <= i < MaxStrings -> i ∈ used σ) \/
  exists strings' id, StringTable.addString sy storage grow strings σ text auto = Ret (strings', σ, id) /\
    0 < id < MaxStrings /\ StringTable.getString strings' id = Ret (Some (ScStr.cstr text)) /\
    0 < zlen strings' <= MaxStrings /\
    forall i, 0 <= i -> i <> id \/ i ∈ used σ -> StringTable.getString strings' i = StringTable.getString strings i.
Proof.
  intros Hg Hw Hroom Hmax.
  destruct (addString_cases storage sy wf used Hlaws grow strings σ text auto Hg Hw Hroom)
    as [(id & s & Hid & Hs & Hc & E)|[_ [[Hall E]|(id & strings' & Hid & Hn & _ & E & Hget & Hoth & _ & Hz)]]].
  - right. exists strings, id. assert (Hb : stored strings id) by (by exists s). apply stored_bounds in Hb.
    split; [done|]. split; [lia|]. split; [|split; [lia | done]].
    unfold StringTable.getString. rewrite (proj2 (Z.ltb_lt _ _)), Hs by lia. cbn. unfold ScStr.toString.
    apply bool_decide_eq_true in Hc. by rewrite Hc, cstr_snoc.
  - by left.
  - right. exists strings', id. split; [done|]. split; [lia|]. split; [done|]. split; [lia|].
    intros i Hi [Hne|Hu]; apply Hoth; [done | done | done | by intros ->].
Qed.

Definition used_ids (storageScope : Z) (s : Sections) : gset Z :=
  if storageScope =? Scope.Game then ids_set (game_users s).*2 else ids_set (editor_ids s).

(** No id is left. *)
Definition all_used (storageScope : Z) (s : Sections) : Prop :=
  forall i, 1 <= i < MaxStrings -> i ∈ used_ids storageScope s.

Record strings_wf (st : Strings) : Prop := mkStringsWf {
  wf_game : scenario_wf (users st);
  wf_editor : editor_wf (users st);
  wf_str : 0 < zlen (StrSection.strings (str st)) <= MaxStrings;
  wf_kstr : zlen (KstrSection.strings (kstr st)) <= MaxStrings;
  wf_room : 0 < zlen (KstrSection.strings (kstr st)) \/
            exists i, 1 <= i < MaxStrings /\ i ∉ ids_set (editor_ids (users st))
}.

(** Only the string [id] of a scope may differ, and not if it was in use. *)
Definition keeps_strings (storageScope id : Z) (st st' : Strings) : Prop :=
  (forall i, 0 <= i -> i <> id \/ i ∈ used_ids storageScope (users st) ->
     getString i storageScope st' = getString i storageScope st) /\
  (forall i other, gameOrEditor other = true -> other <> storageScope ->
     getString i other st' = getString i other st).

Lemma scope_cases storageScope : gameOrEditor storageScope = true ->
  storageScope = Scope.Game \/ storageScope = Scope.Editor.
Proof. unfold gameOrEditor. rewrite orb_true_iff, !Z.eqb_eq. done. Qed.

Lemma addString_scoped storageScope text auto st : gameOrEditor storageScope = true -> strings_wf st ->
  (addString text storageScope auto st = Throw MaximumStringsExceeded /\ all_used storageScope (users st)) \/
  exists st' id, addString text storageScope auto st = Ret (st', id) /\ 0 < id < MaxStrings /\
    users st' = users st /\ hybridOrAbove st' = hybridOrAbove st /\ strings_wf st' /\
    (storageScope = Scope.Editor -> 0 < zlen (KstrSection.strings (kstr st'))) /\
    getString id storageScope st' = Ret (Some (ScStr.cstr text)) /\ keeps_strings storageScope id st st'.
Proof.
  intros Hsc [Hg He Hs Hk Hr]. destruct (scope_cases _ Hsc) as [-> | ->]; unfold addString.
  - change (Scope.Game =? Scope.Game) with true. cbn iota. unfold StrSection.addString.
    destruct (table_add Scope.Game sync scenario_wf _ strings_synchronizer_laws 1 (StrSection.strings (str st))
      (users st) text auto) as [[-> Hall]|(strings' & id & -> & Hid & Hget & Hz & Hoth)]; try done; [by left; lia | lia | by left|].
    right. cbn [obind]. do 2 eexists. split; [reflexivity|]. split; [done|]. do 2 (split; [done|]).
    split; [by split|]. split; [done|]. split; [exact Hget|]. split; [exact Hoth|].
    intros i other Ho Hne. by destruct (scope_cases _ Ho) as [-> | ->].
  - change (Scope.Editor =? Scope.Game) with false. change (Scope.Editor =? Scope.Editor) with true. cbn iota.
    unfold KstrSection.addString.
    destruct (table_add Scope.Editor sync editor_wf _ editor_synchronizer_laws 0 (KstrSection.strings (kstr st))
      (users st) text auto) as [[-> Hall]|(strings' & id & -> & Hid & Hget & Hz & Hoth)]; try done; [by left|].
    right. cbn [obind]. do 2 eexists. split; [reflexivity|]. split; [done|]. do 2 (split; [done|]).
    split; [split; try done; [apply Hz | left; apply Hz]|]. split; [intros _; apply Hz|].
    split; [exact Hget|]. split; [exact Hoth|].
    intros i other Ho Hne. by destruct (scope_cases _ Ho) as [-> | ->].
Qed.

(** ** The ids of a name *)

Definition names_wf (s : Sections) : Prop := scenario_wf s /\ editor_wf s.

(** One of the two ids of a name: it is read, and [put] stores it, which gives
    exactly the sections [store id s]. *)
Record SlotSide (ok : Sections -> Prop) (get : Sections -> outcome Z) (put : Z -> Sections -> outcome Sections)
    (store : Z -> Sections -> Sections) : Prop := mkSlotSide {
  side_get : forall s, names_wf s -> ok s -> is_ret (get s);
  side_put : forall s id, names_wf s -> ok s -> below id ->
    put id s = Ret (store id s) /\ names_wf (store id s) /\ ok (store id s) /\ get (store id s) = Ret id
}.

(** An entry of an array of a section. *)
Definition storeEntry {D} (sec : Sections -> D) `{!Updater sec} (f : D -> list Z) `{!Updater f} (i id : Z)
    (s : Sections) : Sections :=
  s <| sec := (sec s) <| f := <[Z.to_nat i := id]> (f (sec s)) |> |>.

Lemma entry_side {D} (sec : Sections -> D) `{!Updater sec} (layout : codec D) (f : D -> list Z) `{!Updater f}
    c N `{!Member layout f c N} ok i put :
  (forall s, names_wf s -> cwf layout (sec s)) -> 0 <= i < N -> (forall id, below id -> cwf c id) ->
  (forall s id, names_wf s -> below id -> cwf layout (sec (storeEntry sec f i id s)) ->
     names_wf (storeEntry sec f i id s)) ->
  (forall s id, ok s -> ok (storeEntry sec f i id s)) ->
  (forall s id, below id ->
     put id s = let* d := (let* l := vset (f (sec s)) i id in Ret ((sec s) <| f := l |>)) in Ret (s <| sec := d |>)) ->
  SlotSide ok (fun s => get_at N (f (sec s)) i) put (storeEntry sec f i).
Proof.
  intros Hwf Hi Hc Hput Hok Eput. unfold get_at. rewrite (proj2 (Z.ltb_lt _ _)) by lia. split.
  - intros s Hs _. destruct (vget_in (f (sec s)) i) as (v & _ & ->); [|by eexists].
    by rewrite (member_zlen layout f c N) by auto.
  - intros s id Hs Ho Hid. assert (Hz : 0 <= i < zlen (f (sec s))) by (by rewrite (member_zlen layout f c N) by auto).
    rewrite Eput, vset_in by done. cbn [obind]. split; [done|].
    destruct (member_wf (sec s) (Hwf s Hs)) as [Hl Hf]. split; [|split; [by apply Hok|]].
    + apply Hput; [done | done|]. unfold storeEntry. rewrite upd_get.
      apply member_upd; [by apply Hwf | by rewrite length_insert | by apply Forall_insert; auto].
    + unfold storeEntry. rewrite !upd_get, vget_vset by (done || lia). by rewrite decide_True.
Qed.

(** Assigning a section keeps the invariants. *)
Lemma below_u16 id : below id -> is_u 16 id.
Proof. unfold below. change MaxStrings with (2 ^ 16). unfold is_u. lia. Qed.
Lemma below_u32 id : below id -> is_u 32 id.
Proof. unfold below. change MaxStrings with (2 ^ 16). unfold is_u. lia. Qed.

Lemma names_put_ostr s o : names_wf s -> cwf OSTR.layout o ->
  (forall v, v ∈ (ostr_users o).*2 -> v ∈ (ostr_users (ostr s)).*2 \/ below v) -> names_wf (s <| ostr := o |>).
Proof.
  intros [[] [Ho Hi]] Hc Hv. split; [by split|]. split; [done|]. unfold editor_ids in *.
  change (Forall below ((ostr_users o).*2 ++ ktrg_ids (ktrg s))).
  apply Forall_app in Hi as [Hi Hk]. apply Forall_app. split; [|done].
  apply Forall_forall. intros v Hin. destruct (Hv v Hin); [|done]. by eapply Forall_forall in Hi.
Qed.

Lemma elem_of_inserted {A} (l : list A) i x v : v ∈ <[i := x]> l -> v ∈ l \/ v = x.
Proof.
  intros (j & Hj)%list_elem_of_lookup. destruct (decide (i = j)) as [->|Hne].
  - right. destruct (decide (j < length l)%nat).
    + rewrite list_lookup_insert_eq in Hj by done. by injection Hj.
    + rewrite lookup_ge_None_2 in Hj; [done|]. rewrite length_insert. lia.
  - left. rewrite list_lookup_insert_ne in Hj by done. by eapply list_elem_of_lookup_2.
Qed.

(** An entry of an array of OSTR. *)
Ltac ostr_entry :=
  intros ? ? Hs ? Hc; apply names_put_ostr; [done | exact Hc|]; rewrite !ostr_ids by (exact Hc || apply Hs);
  intros ?; destruct (ostr _); cbn; rewrite !elem_of_cons, !elem_of_app;
  intros Hv; destruct_or? Hv;
  try (apply elem_of_inserted in Hv as [Hv | ->]; [|right; assumption]); tauto.

Lemma set_at_in {A} N (l : list A) i a : 0 <= i < N -> set_at N l i a = vset l i a.
Proof. intros Hi. unfold set_at. by rewrite (proj2 (Z.ltb_lt _ _)) by lia. Qed.
Lemma set_quiet_in {A} N (l : list A) i a : 0 <= i < N -> set_quiet N l i a = vset l i a.
Proof. intros Hi. unfold set_quiet. by rewrite (proj2 (Z.ltb_lt _ _)) by lia. Qed.

(** The assignments of the slots, as the update of the array. *)
Ltac unfold_slots :=
  cbv [assignEditor assignGame forceNameSlot unitNameSlot expUnitNameSlot soundPathSlot switchNameSlot onOstr onForc
    onWav onSwnm setGameUnitNameStringId assign OstrSection.setForceNameStringId OstrSection.setUnitNameStringId
    OstrSection.setExpUnitNameStringId OstrSection.setSoundPathStringId OstrSection.setSwitchNameStringId
    ForcSection.setForceStringId WavSection.setSoundStringId SwnmSection.setSwitchNameStringId
    UnisSection.setUnitNameStringId UnixSection.setUnitNameStringId].
Ltac solve_put :=
  intros; unfold_slots; rewrite ?u16_id, ?u32_id by (by apply below_u16 || by apply below_u32);
  rewrite ?set_at_in, ?set_quiet_in by done; reflexivity.

Tactic Notation "ostr_side" constr(f) constr(N) :=
  intros; apply (entry_side ostr OSTR.layout f u32c N);
  [ by intros ? [? []] | done | exact below_u32 | ostr_entry | done | solve_put ].
Tactic Notation "game_side" constr(sec) constr(layout) constr(f) constr(c) constr(N) :=
  intros; apply (entry_side sec layout f c N);
  [ by intros ? [[] ?] | done | exact below_u16 || exact below_u32
  | intros ? ? [[] []] ? ?; split; by split | done | solve_put ].

Definition always (_ : Sections) : Prop := True.

Lemma force_sides i : 0 <= i < TotalForces ->
  SlotSide always (gameId (forceNameSlot i)) (assignGame (forceNameSlot i)) (storeEntry forc FORC.forceString i) /\
  SlotSide always (editorId (forceNameSlot i)) (assignEditor (forceNameSlot i)) (storeEntry ostr OSTR.forceName i).
Proof.
  split; [game_side forc FORC.layout FORC.forceString u16c TotalForces | ostr_side OSTR.forceName TotalForces].
Qed.
Lemma unit_sides i : 0 <= i < Unit_TotalTypes ->
  SlotSide always (gameId (unitNameSlot i)) (assignGame (unitNameSlot i)) (storeEntry unis UNIS.nameStringId i) /\
  SlotSide always (editorId (unitNameSlot i)) (assignEditor (unitNameSlot i)) (storeEntry ostr OSTR.unitName i).
Proof.
  split; [game_side unis UNIS.layout UNIS.nameStringId u16c Unit_TotalTypes | ostr_side OSTR.unitName Unit_TotalTypes].
Qed.
(** The expansion's names, read from UNIx. *)
Lemma exp_unit_sides i : 0 <= i < Unit_TotalTypes ->
  SlotSide always (fun s => UnixSection.getUnitNameStringId (unix s) i) (assignGame (expUnitNameSlot i))
    (storeEntry unix UNIx.nameStringId i) /\
  SlotSide always (editorId (expUnitNameSlot i)) (assignEditor (expUnitNameSlot i)) (storeEntry ostr OSTR.expUnitName i).
Proof.
  split; [game_side unix UNIx.layout UNIx.nameStringId u16c Unit_TotalTypes | ostr_side OSTR.expUnitName Unit_TotalTypes].
Qed.
Lemma sound_sides i : 0 <= i < TotalSounds ->
  SlotSide always (gameId (soundPathSlot i)) (assignGame (soundPathSlot i)) (storeEntry wav WAV.soundPathStringId i) /\
  SlotSide always (editorId (soundPathSlot i)) (assignEditor (soundPathSlot i)) (storeEntry ostr OSTR.soundPath i).
Proof.
  split; [game_side wav WAV.layout WAV.soundPathStringId u32c TotalSounds | ostr_side OSTR.soundPath TotalSounds].
Qed.
Lemma switch_sides i : 0 <= i < TotalSwitches ->
  SlotSide always (gameId (switchNameSlot i)) (assignGame (switchNameSlot i)) (storeEntry swnm SWNM.switchName i) /\
  SlotSide always (editorId (switchNameSlot i)) (assignEditor (switchNameSlot i)) (storeEntry ostr OSTR.switchName i).
Proof.
  split; [game_side swnm SWNM.layout SWNM.switchName u32c TotalSwitches | ostr_side OSTR.switchName TotalSwitches].
Qed.

(** The names of the scenario. *)

Ltac scalar_ostr :=
  split; [by eexists|]; intros s id Hs _ Hid; cbn; rewrite u32_id by (by apply below_u32); split; [done|];
  split; [|done]; apply names_put_ostr; [done | |];
  [ destruct Hs as [_ [Ho _]]; destruct (ostr s); cbn in *; destruct_and?; split_and!; (assumption || by apply below_u32)
  | intros v; destruct (ostr s); cbn; rewrite !elem_of_cons; intros Hv; destruct_or? Hv; subst;
    try (right; assumption); tauto ].
Ltac scalar_game :=
  split; [by eexists|]; intros s id Hs _ Hid; cbn; rewrite u16_id by (by apply below_u16); split; [done|];
  split; [|done]; destruct Hs as [[] []]; split; [split; try done | by split]; cbn;
  destruct (sprp s); cbn in *; destruct_and?; split_and!; (assumption || by apply below_u16).

Lemma scenario_name_sides :
  SlotSide always (gameId scenarioNameSlot) (assignGame scenarioNameSlot)
    (fun id s => s <| sprp := (sprp s) <| SPRP.scenarioNameStringId := id |> |>) /\
  SlotSide always (editorId scenarioNameSlot) (assignEditor scenarioNameSlot)
    (fun id s => s <| ostr := (ostr s) <| OSTR.scenarioName := id |> |>).
Proof. split; [scalar_game | scalar_ostr]. Qed.
Lemma scenario_description_sides :
  SlotSide always (gameId scenarioDescriptionSlot) (assignGame scenarioDescriptionSlot)
    (fun id s => s <| sprp := (sprp s) <| SPRP.scenarioDescriptionStringId := id |> |>) /\
  SlotSide always (editorId scenarioDescriptionSlot) (assignEditor scenarioDescriptionSlot)
    (fun id s => s <| ostr := (ostr s) <| OSTR.scenarioDescription := id |> |>).
Proof. split; [scalar_game | scalar_ostr]. Qed.

Lemma side_get_ext ok get get' put store : (forall s, get' s = get s) ->
  SlotSide ok get put store -> SlotSide ok get' put store.
Proof. intros E [H1 H2]. split; [intros s; rewrite E; apply H1 | intros s id; rewrite E; apply H2]. Qed.

(** The name of a location in MRGN. *)
Definition storeLocation (i id : Z) (s : Sections) : Sections :=
  s <| mrgn := alter (fmap (fun l => l <| Location.stringId := id |>)) (Z.to_nat i) (mrgn s) |>.
Definition isLocation (i : Z) (s : Sections) : Prop := 1 <= i <= MrgnSection.numLocations (mrgn s).

Lemma mrgn_lookup locations i : mrgn_wf locations -> 1 <= i <= MrgnSection.numLocations locations ->
  exists l, locations !! Z.to_nat i = Some (Some l) /\ cwf Location.layout l /\ 0 <= i < zlen locations.
Proof.
  intros (ls & -> & Hls). unfold MrgnSection.numLocations. rewrite zlen_cons, Z.gtb_ltb.
  rewrite (proj2 (Z.ltb_lt _ _)) by (pose proof (zlen_nonneg (Some <$> ls)); lia).
  replace (zlen (Some <$> ls)) with (zlen ls) by (unfold zlen; by rewrite length_fmap). intros Hi.
  assert (Hlt : (Z.to_nat (i - 1) < length ls)%nat) by (unfold zlen in Hi; lia).
  apply lookup_lt_is_Some in Hlt as (l & Hl). exists l.
  replace (Z.to_nat i) with (S (Z.to_nat (i - 1))) by lia.
  rewrite lookup_cons, list_lookup_fmap, Hl.
  split; [done|]. split; [by eapply Forall_lookup_1 in Hls|lia].
Qed.

Lemma alter_some {A} (g : A -> A) i (ls : list A) : alter (fmap g) i (Some <$> ls) = Some <$> alter g i ls.
Proof. revert i. induction ls as [|l ls IH]; intros [|i]; try done. cbn. f_equal. apply IH. Qed.

Lemma mrgn_alter locations i id : mrgn_wf locations -> is_u 16 id ->
  mrgn_wf (alter (fmap (fun l => l <| Location.stringId := id |>)) i locations).
Proof.
  intros (ls & -> & Hls) Hid. destruct i as [|i]; [by exists ls|].
  exists (alter (fun l => l <| Location.stringId := id |>) i ls). split; [cbn; f_equal; apply alter_some|].
  apply Forall_alter; [done|]. intros l _ Hl. destruct l; cbn in *. destruct_and?. by split_and!.
Qed.

Lemma location_game_side i :
  SlotSide (isLocation i) (gameId (locationNameSlot i)) (assignGame (locationNameSlot i)) (storeLocation i).
Proof.
  split; cbn [gameId assignGame locationNameSlot]; unfold locationNameId, assignLocationName, MrgnSection.getLocation.
  - intros s [Hs _] Hi. destruct (mrgn_lookup _ i (wf_mrgn _ Hs) Hi) as (l & Hl & _ & Hz).
    rewrite (vget_Some _ _ (Some l)) by (done || lia). by eexists.
  - intros s id [Hs He] Hi Hid. destruct (mrgn_lookup _ i (wf_mrgn _ Hs) Hi) as (l & Hl & Hc & Hz).
    rewrite (vget_Some _ _ (Some l)) by (done || lia). cbn [obind deref]. rewrite vset_in by done. cbn [obind].
    rewrite u16_id by (by apply below_u16).
    assert (E : <[Z.to_nat i := Some (l <| Location.stringId := id |>)]> (mrgn s) = mrgn (storeLocation i id s)).
    { cbn. apply list_eq. intros j. destruct (decide (j = Z.to_nat i)) as [->|Hne].
      - by rewrite list_lookup_alter_eq, list_lookup_insert_eq, Hl by (by eapply lookup_lt_Some).
      - by rewrite list_lookup_alter_ne, list_lookup_insert_ne by done. }
    rewrite E. split; [done|].
    split; [|split].
    + destruct He. split; [|by split]. destruct Hs. split; try done. by apply mrgn_alter; [|apply below_u16].
    + unfold isLocation, storeLocation, MrgnSection.numLocations, zlen in *. cbn. by rewrite length_alter.
    + rewrite <- E. rewrite vget_vset by (done || lia). by rewrite decide_True.
Qed.

Lemma location_editor_side ok i : 1 <= i <= TotalLocations -> (forall s id, ok s -> ok (storeEntry ostr OSTR.locationName (i - 1) id s)) ->
  SlotSide ok (editorId (locationNameSlot i)) (assignEditor (locationNameSlot i)) (storeEntry ostr OSTR.locationName (i - 1)).
Proof.
  intros Hi Hok. apply (side_get_ext _ (fun s => get_at TotalLocations (OSTR.locationName (ostr s)) (i - 1))).
  { intros s. cbn [editorId locationNameSlot]. unfold OstrSection.getLocationNameStringId, get_at.
    by rewrite Z.gtb_ltb, !(proj2 (Z.ltb_lt _ _)), (proj2 (Z.leb_le _ _)) by lia. }
  apply (entry_side ostr OSTR.layout OSTR.locationName u32c TotalLocations);
    [ by intros ? [? []] | lia | exact below_u32 | ostr_entry | done | ].
  intros s id Hid. cbn [assignEditor locationNameSlot]. unfold onOstr, OstrSection.setLocationNameStringId, assign.
  by rewrite Z.gtb_ltb, (proj2 (Z.ltb_lt _ _)), (proj2 (Z.leb_le _ _)), u32_id by (lia || by apply below_u32).
Qed.

Lemma below_neq0 id : 0 < id < MaxStrings -> below id.
Proof. unfold below. lia. Qed.

(** ** Setting a name *)

(** [set] in a scope gives the name the new text: unless every id is in use,
    the string is stored under an id below 65536, the id is stored in the
    section of the name and nowhere else ([store]), it and the text are what
    [getId] and [getText] read, and no string in use is lost. *)
Definition NameLaw (storageScope : Z) (cond : bool -> Prop) (ok : Sections -> Prop) (store : Z -> Sections -> Sections)
    (set : bytes -> Z -> bool -> Strings -> outcome Strings) (getId : Z -> Strings -> outcome Z)
    (getText : Z -> Strings -> outcome (option bytes)) : Prop :=
  forall text auto st, strings_wf st -> cond (hybridOrAbove st) -> ok (users st) ->
    (set text storageScope auto st = Throw MaximumStringsExceeded /\ all_used storageScope (users st)) \/
    exists st' id, set text storageScope auto st = Ret st' /\ 0 < id < MaxStrings /\ strings_wf st' /\
      users st' = store id (users st) /\ getId storageScope st' = Ret id /\
      getText storageScope st' = Ret (Some (ScStr.cstr text)) /\ keeps_strings storageScope id st st'.

Lemma side_law storageScope (cond : bool -> Prop) ok get put store set getId getText :
  gameOrEditor storageScope = true -> SlotSide ok get put store ->
  (storageScope = Scope.Game -> forall s id, editor_ids (store id s) = editor_ids s) ->
  (forall text auto st, strings_wf st -> cond (hybridOrAbove st) -> ok (users st) ->
     set text storageScope auto st =
       let* (st, id) := addString text storageScope auto st in
       if negb (id =? 0) then let* s := put id (users st) in Ret (withUsers s st) else Ret st) ->
  (forall st, strings_wf st -> cond (hybridOrAbove st) -> ok (users st) -> getId storageScope st = get (users st)) ->
  (forall st id, strings_wf st -> cond (hybridOrAbove st) -> ok (users st) -> get (users st) = Ret id ->
     forall text, getString id storageScope st = Ret (Some text) -> getText storageScope st = Ret (Some text)) ->
  NameLaw storageScope cond ok store set getId getText.
Proof.
  intros Hsc [_ Hput] Hframe Hset Hid Htext text auto st Hst Hc Hok. rewrite Hset by done.
  destruct (addString_scoped storageScope text auto st Hsc Hst)
    as [[-> Hall]|(st1 & id & -> & Hb & Hu & Hh & Hw & Hk & Hget & Hkeep)]; [by left|].
  right. cbn [obind]. rewrite (proj2 (Z.eqb_neq _ _)) by lia. cbn [negb]. rewrite Hu.
  destruct Hst as [Hg He _ _ _].
  destruct (Hput (users st) id) as (-> & [Hs' He'] & Hok' & Hgot); [by split | done | by apply below_neq0|]. cbn [obind].
  set (st' := withUsers _ st1). exists st', id. split; [done|]. split; [done|].
  assert (Hwf : strings_wf st').
  { destruct Hw as [_ _ Hzs Hzk Hr]. split; [done | done | done | done|].
    destruct (scope_cases _ Hsc) as [-> | ->]; [|left; by apply Hk].
    destruct Hr as [|(i & Hi & Hn)]; [by left|]. right. exists i. split; [done|].
    unfold st', withUsers. cbn [users]. rewrite Hframe by done. by rewrite <- Hu. }
  assert (Hstr : forall i sc, getString i sc st' = getString i sc st1) by done.
  split; [done|]. split; [done|]. assert (Hc' : cond (hybridOrAbove st')) by (cbn; by rewrite Hh).
  split; [by rewrite Hid|]. split; [by apply (Htext st' id Hwf Hc' Hok' Hgot)|].
  destruct Hkeep as [Hkeep Hother]. split; [exact Hkeep | exact Hother].
Qed.

(** In both scopes. *)
Definition NameLaws (cond : bool -> Prop) (ok : Sections -> Prop) (storeGame storeEditor : Z -> Sections -> Sections)
    (set : bytes -> Z -> bool -> Strings -> outcome Strings) (getId : Z -> Strings -> outcome Z)
    (getText : Z -> Strings -> outcome (option bytes)) : Prop :=
  NameLaw Scope.Game cond ok storeGame set getId getText /\
  NameLaw Scope.Editor cond ok storeEditor set getId getText.

Definition anyVersion (_ : bool) : Prop := True.

(** A name of the list of slots whose text is read by its two ids. *)
Lemma slot_laws n ok storeGame storeEditor set getId getText :
  SlotSide ok (gameId n) (assignGame n) storeGame -> SlotSide ok (editorId n) (assignEditor n) storeEditor ->
  (forall s id, editor_ids (storeGame id s) = editor_ids s) ->
  (forall text scope auto st, gameOrEditor scope = true -> ok (users st) ->
     set text scope auto st = setName true (assignGame n) (assignEditor n) text scope auto st) ->
  (forall st, strings_wf st -> ok (users st) -> getId Scope.Game st = gameId n (users st)) ->
  (forall st, getId Scope.Editor st = editorId n (users st)) ->
  (forall scope st, ok (users st) ->
     getText scope st = let* g := gameId n (users st) in let* e := editorId n (users st) in getEitherString g e scope st) ->
  NameLaws anyVersion ok storeGame storeEditor set getId getText.
Proof.
  intros G E Hframe Hset HG HE Htext. split.
  - apply (side_law Scope.Game _ _ _ _ _ _ _ _ eq_refl G); [by intros _ | | intros st Hs _ Hok; by apply HG|].
    + intros text auto st _ _ Hok. by rewrite Hset.
    + intros st id [Hg He _ _ _] _ Hok Hid text Hget.
      destruct (side_get _ _ _ _ E (users st)) as [e Ee]; [done..|]. rewrite Htext, Hid, Ee by done. exact Hget.
  - apply (side_law Scope.Editor _ _ _ _ _ _ _ _ eq_refl E); [done | | by intros st _ _ _|].
    + intros text auto st _ _ Hok. by rewrite Hset.
    + intros st id [Hg He _ _ _] _ Hok Hid text Hget.
      destruct (side_get _ _ _ _ G (users st)) as [g Eg]; [done..|]. rewrite Htext, Hid, Eg by done. exact Hget.
Qed.

(** The guards of the setters. *)
Lemma guard_in (a b : bool) : a = true -> b = true -> a && b = true.
Proof. by intros -> ->. Qed.
Lemma guard_precedence scope (b : bool) : gameOrEditor scope = true -> b = true ->
  (scope =? Scope.Game) || (scope =? Scope.Editor) && b = true.
Proof. intros H ->. by rewrite andb_true_r. Qed.

(** C31: Setting the name or the description of the scenario, the name of a force,
    switch or location or the path of a sound, in the game's strings or in the
    editor's, makes it the name that is read there; it changes the one id of
    that name, and no string in use is lost. *)
Theorem names_set_and_read :
  NameLaws anyVersion always (fun id s => s <| sprp := (sprp s) <| SPRP.scenarioNameStringId := id |> |>)
    (fun id s => s <| ostr := (ostr s) <| OSTR.scenarioName := id |> |>)
    setScenarioName (fun scope st => Ret (getScenarioNameStringId scope st)) getScenarioName /\
  NameLaws anyVersion always (fun id s => s <| sprp := (sprp s) <| SPRP.scenarioDescriptionStringId := id |> |>)
    (fun id s => s <| ostr := (ostr s) <| OSTR.scenarioDescription := id |> |>)
    setScenarioDescription (fun scope st => Ret (getScenarioDescriptionStringId scope st)) getScenarioDescription /\
  (forall i, 0 <= i < TotalForces ->
     NameLaws anyVersion always (storeEntry forc FORC.forceString i) (storeEntry ostr OSTR.forceName i)
       (setForceName i) (getForceNameStringId i) (getForceName i)) /\
  (forall i, 0 <= i < TotalSounds ->
     NameLaws anyVersion always (storeEntry wav WAV.soundPathStringId i) (storeEntry ostr OSTR.soundPath i)
       (setSoundPath i) (getSoundPathStringId i) (getSoundPath i)) /\
  (forall i, 0 <= i < TotalSwitches ->
     NameLaws anyVersion always (storeEntry swnm SWNM.switchName i) (storeEntry ostr OSTR.switchName i)
       (setSwitchName i) (getSwitchNameStringId i) (getSwitchName i)) /\
  (forall i, 1 <= i <= TotalLocations ->
     NameLaws anyVersion (isLocation i) (storeLocation i) (storeEntry ostr OSTR.locationName (i - 1))
       (setLocationName i) (getLocationNameStringId i) (getLocationName i)).
Proof.
  split_and!.
  - destruct scenario_name_sides as [G E]. apply (slot_laws scenarioNameSlot); try done.
    intros. unfold setScenarioName. by rewrite H.
  - destruct scenario_description_sides as [G E]. apply (slot_laws scenarioDescriptionSlot); try done.
    intros. unfold setScenarioDescription. by rewrite H.
  - intros i Hi. destruct (force_sides i Hi) as [G E]. apply (slot_laws (forceNameSlot i)); try done.
    intros. unfold setForceName. by rewrite guard_in by (done || (apply Z.ltb_lt; lia)).
  - intros i Hi. destruct (sound_sides i Hi) as [G E]. apply (slot_laws (soundPathSlot i)); try done.
    intros. unfold setSoundPath. by rewrite guard_precedence by (done || (apply Z.ltb_lt; lia)).
  - intros i Hi. destruct (switch_sides i Hi) as [G E]. apply (slot_laws (switchNameSlot i)); try done.
    intros. unfold setSwitchName. by rewrite guard_precedence by (done || (apply Z.ltb_lt; lia)).
  - intros i Hi. apply (slot_laws (locationNameSlot i)); [apply location_game_side | by apply location_editor_side | | | | |];
      try done.
    + intros text scope auto st Hsc Hok. unfold setLocationName. rewrite <- andb_assoc.
      rewrite guard_precedence; [done | done|]. unfold isLocation in Hok.
      by rewrite Z.gtb_ltb, (proj2 (Z.ltb_lt _ _)), (proj2 (Z.leb_le _ _)) by lia.
    + intros st [Hs _ _ _ _] Hok. unfold getLocationNameStringId, gameLocationNameStringId. cbn.
      unfold locationNameId, MrgnSection.getLocation.
      destruct (mrgn_lookup _ i (wf_mrgn _ Hs) Hok) as (l & Hl & _ & Hz). by rewrite (vget_Some _ _ (Some l)) by (done || lia).
    + intros scope st Hok. unfold isLocation in Hok. unfold getLocationName.
      by rewrite Z.gtb_ltb, (proj2 (Z.ltb_lt _ _)), (proj2 (Z.leb_le _ _)) by lia.
Qed.

(** *** Unit names *)

(** Two assignments in a row, the second of which keeps what the first is read
    by. *)
Lemma side_seq ok (get1 get2 : Sections -> outcome Z) put1 put2 store1 store2 (second : bool) :
  SlotSide ok get1 put1 store1 -> SlotSide ok get2 put2 store2 ->
  (forall s id, get1 (store2 id s) = get1 s) ->
  SlotSide ok (fun s => if second then get2 s else get1 s) (fun id s => let* s := put1 id s in put2 id s)
    (fun id s => store2 id (store1 id s)).
Proof.
  intros [G1 P1] [G2 P2] Hkeep. split.
  - intros s Hs Ho. destruct second; auto.
  - intros s id Hs Ho Hid. destruct (P1 s id Hs Ho Hid) as (-> & Hs1 & Ho1 & Hg1). cbn [obind].
    destruct (P2 _ id Hs1 Ho1 Hid) as (-> & Hs2 & Ho2 & Hg2). split; [done|]. split; [done|]. split; [done|].
    destruct second; [done | by rewrite Hkeep].
Qed.

Section unit_names.
Context (defaultDisplayNames : list bytes) (idName : Z -> bytes) (i : Z) (Hi : 0 <= i < Unit_TotalTypes).

(** [getUnitName], which is never null. *)
Definition unitName (useExp : UseExpSection) (scope : Z) (st : Strings) : outcome (option bytes) :=
  let* name := getUnitName defaultDisplayNames idName i useExp scope st in Ret (Some name).

Lemma unit_guard scope : gameOrEditor scope = true -> gameOrEditor scope && (i <? Unit_TotalTypes) = true.
Proof using Hi. intros ->. apply Z.ltb_lt. lia. Qed.

(** The text is the string of the id that is read. *)
Lemma unitName_game useExp st id text : strings_wf st -> gameUnitNameStringId i useExp st = Ret id ->
  getString id Scope.Game st = Ret (Some text) -> unitName useExp Scope.Game st = Ret (Some text).
Proof using Hi.
  intros [Hg He _ _ _] Hid Hget. unfold unitName, getUnitName. rewrite (proj2 (Z.ltb_lt _ _)), Hid by lia.
  destruct (side_get _ _ _ _ (proj2 (exp_unit_sides i Hi)) (users st)) as [e Ee]; [done..|].
  destruct (side_get _ _ _ _ (proj2 (unit_sides i Hi)) (users st)) as [o Eo]; [done..|]. cbn in Ee, Eo.
  rewrite Ee, Eo. cbn [obind]. destruct (useExpansionUnitSettings useExp st); cbn [obind];
    change (getEitherString id _ Scope.Game st) with (getString id Scope.Game st); by rewrite Hget.
Qed.

Lemma unitName_editor useExp st id text : strings_wf st ->
  (if useExpansionUnitSettings useExp st then OstrSection.getExpUnitNameStringId (ostr (users st)) i
   else OstrSection.getUnitNameStringId (ostr (users st)) i) = Ret id ->
  getString id Scope.Editor st = Ret (Some text) -> unitName useExp Scope.Editor st = Ret (Some text).
Proof using Hi.
  intros [Hg He _ _ _] Hid Hget. unfold unitName, getUnitName, gameUnitNameStringId.
  rewrite (proj2 (Z.ltb_lt _ _)), Hid by lia.
  destruct (side_get _ _ _ _ (proj1 (exp_unit_sides i Hi)) (users st)) as [e Ee]; [done..|].
  destruct (side_get _ _ _ _ (proj1 (unit_sides i Hi)) (users st)) as [o Eo]; [done..|]. cbn in Ee, Eo.
  rewrite Ee, Eo. destruct (useExpansionUnitSettings useExp st); cbn [obind];
    change (getEitherString _ id Scope.Editor st) with (getString id Scope.Editor st); by rewrite Hget.
Qed.

Ltac unit_set := intros; unfold setUnitName; rewrite unit_guard by done; unfold setName.

(** The original's names. *)
Lemma unit_name_original :
  NameLaws anyVersion always (storeEntry unis UNIS.nameStringId i) (storeEntry ostr OSTR.unitName i)
    (fun text => setUnitName i text No) (getUnitNameStringId i No) (unitName No).
Proof using Hi.
  destruct (unit_sides i Hi) as [G E]. split.
  - apply (side_law Scope.Game _ _ _ _ _ _ _ _ eq_refl G); [done | by unit_set | done|].
    intros st id Hs _ _ Hid text. by apply unitName_game.
  - apply (side_law Scope.Editor _ _ _ _ _ _ _ _ eq_refl E); [done | by unit_set | done|].
    intros st id Hs _ _ Hid text. by apply unitName_editor.
Qed.

(** The names of the map's own version: both sections of the game get the
    name, and the array of OSTR that version uses. *)
Lemma unit_name_auto (hybrid : bool) :
  NameLaws (eq hybrid) always (fun id s => storeEntry unix UNIx.nameStringId i id (storeEntry unis UNIS.nameStringId i id s))
    (if hybrid then storeEntry ostr OSTR.expUnitName i else storeEntry ostr OSTR.unitName i)
    (fun text => setUnitName i text Auto) (getUnitNameStringId i Auto) (unitName Auto).
Proof using Hi.
  destruct (unit_sides i Hi) as [G E], (exp_unit_sides i Hi) as [G' E']. split.
  - apply (side_law Scope.Game _ _ _ _ _ _ _ _ eq_refl (side_seq _ _ _ _ _ _ _ hybrid G G' (fun _ _ => eq_refl)));
      [done | by unit_set | by intros st _ -> _|].
    intros st id Hs Hh _ Hid text. apply unitName_game; [done|]. unfold gameUnitNameStringId. cbn. rewrite <- Hh. exact Hid.
  - assert (S : SlotSide always (fun s => if hybrid then OstrSection.getExpUnitNameStringId (ostr s) i
                                           else OstrSection.getUnitNameStringId (ostr s) i)
      (if hybrid then assignEditor (expUnitNameSlot i) else assignEditor (unitNameSlot i))
      (if hybrid then storeEntry ostr OSTR.expUnitName i else storeEntry ostr OSTR.unitName i)) by (by destruct hybrid).
    apply (side_law Scope.Editor _ _ _ _ _ _ _ _ eq_refl S); [done | | by intros st _ -> _|].
    + unit_set. match goal with H : hybrid = _ |- _ => rewrite <- H end. by destruct hybrid.
    + intros st id Hs Hh _ Hid text. apply unitName_editor; [done|]. cbn. by rewrite <- Hh.
Qed.
End unit_names.

(** The names of units: setting the original's name, or the one of the map's
    own version, makes it the name that is read for that version.  With
    [UseExpSection::Yes] the name goes to the expansion's section but is read
    from the original's: it is not the one read back. *)
Theorem unit_names_set_and_read names idName i (hybrid : bool) : 0 <= i < Unit_TotalTypes ->
  NameLaws anyVersion always (storeEntry unis UNIS.nameStringId i) (storeEntry ostr OSTR.unitName i)
    (fun text => setUnitName i text No) (getUnitNameStringId i No) (unitName names idName i No) /\
  NameLaws (eq hybrid) always (fun id s => storeEntry unix UNIx.nameStringId i id (storeEntry unis UNIS.nameStringId i id s))
    (if hybrid then storeEntry ostr OSTR.expUnitName i else storeEntry ostr OSTR.unitName i)
    (fun text => setUnitName i text Auto) (getUnitNameStringId i Auto) (unitName names idName i Auto) /\
  (forall text auto st, strings_wf st ->
     (setUnitName i text Yes Scope.Game auto st = Throw MaximumStringsExceeded /\ all_used Scope.Game (users st)) \/
     exists st', setUnitName i text Yes Scope.Game auto st = Ret st' /\
       getUnitNameStringId i Yes Scope.Game st' = getUnitNameStringId i Yes Scope.Game st).
Proof.
  intros Hi. split; [by apply unit_name_original|]. split; [by apply unit_name_auto|].
  intros text auto st Hst.
  assert (L : NameLaw Scope.Game anyVersion always (storeEntry unix UNIx.nameStringId i) (fun text => setUnitName i text Yes)
    (fun _ st => UnixSection.getUnitNameStringId (unix (users st)) i)
    (fun _ st => let* id := UnixSection.getUnitNameStringId (unix (users st)) i in getString id Scope.Game st)).
  { apply (side_law Scope.Game _ _ _ _ _ _ _ _ eq_refl (proj1 (exp_unit_sides i Hi))); [done | | done|].
    - intros. unfold setUnitName. by rewrite unit_guard.
    - intros st' id _ _ _ -> text' Hget. exact Hget. }
  destruct (L text auto st Hst I I) as [E|(st' & id & E & _ & _ & Hu & _)]; [by left|].
  right. exists st'. split; [done|]. unfold getUnitNameStringId. change (Scope.Game =? Scope.Game) with true. cbn iota.
  unfold gameUnitNameStringId. cbn [useExpansionUnitSettings]. by rewrite Hu.
Qed.

(** ** Deleting a string of the editor *)

Lemma ktrg_delete_ids l id : ktrg_ids (KtrgSection.deleteEditorString l id) = clear1 id <$> ktrg_ids l.
Proof.
  induction l as [|[[c n ? ? ?]|] l IH]; [done | |exact IH].
  change (KtrgSection.deleteEditorString (Some ?d :: l) id) with
    (KtrgSection.deleteEditorString [Some d] id ++ KtrgSection.deleteEditorString l id).
  change (ktrg_ids (Some ?d :: l)) with (ktrg_ids [Some d] ++ ktrg_ids l).
  unfold ktrg_ids at 1. rewrite flat_map_app, fmap_app. f_equal; [|exact IH].
  cbn. unfold clear1. repeat case_match; cbn in *; congruence.
Qed.

Lemma clear1_below id ids : Forall below ids -> Forall below (clear1 id <$> ids).
Proof.
  intros H. apply Forall_fmap. eapply Forall_impl; [exact H|]. intros v Hv. cbn. unfold clear1.
  destruct (v =? id); [|done]. by split.
Qed.

Lemma kstr_delete_string st id (only : bool) : cwf OSTR.layout (ostr (users st)) ->
  0 <= id < zlen (KstrSection.strings (kstr st)) -> only = false \/ id ∉ (ostr_users (ostr (users st))).*2 ->
  KstrSection.deleteString sync (kstr st) id only (Some (users st)) =
  Ret (KstrSection.setStrings (kstr st) (<[Z.to_nat id := None]> (KstrSection.strings (kstr st))), true).
Proof.
  intros Ho Hid Hcond. unfold KstrSection.deleteString, StringTable.deleteString.
  cbn [sync ScenarioStrings.Strings.synchronizer sync_stringUsed].
  unfold ScenarioStrings.Strings.stringUsed. change (Scope.Editor =? Scope.Game) with false.
  change (Scope.Editor =? Scope.Editor) with true. cbn [andb negb orb].
  assert (E : (if negb only then Ret true
      else let* used := OstrSection.stringUsed (ostr (users st)) id (2 ^ 32 - 1) in Ret (negb used)) = Ret true).
  { destruct only; [|done]. cbn [negb]. destruct Hcond as [?|Hn]; [done|].
    change (2 ^ 32 - 1) with StringUserFlag.All. by rewrite ostr_used, bool_decide_eq_false_2 by done. }
  rewrite E. cbn [obind]. by rewrite (proj2 (Z.ltb_lt _ _)), vset_in by lia.
Qed.

(** Deleting a string of the editor clears every id of it in OSTR and in the
    extended trigger data.  A string that is only to be deleted when it is
    unused is kept when a name in OSTR uses it; that extended trigger data uses
    it as a comment or as notes does not keep it. *)
Theorem deleteEditorString_spec st id (only : bool) : strings_wf st -> 0 < id < zlen (KstrSection.strings (kstr st)) ->
  (only = true -> stored (KstrSection.strings (kstr st)) id -> id ∈ (ostr_users (ostr (users st))).*2 ->
   deleteString id Scope.Editor only st = Ret st) /\
  (only = false \/ id ∉ (ostr_users (ostr (users st))).*2 ->
   exists st', deleteString id Scope.Editor only st = Ret st' /\
     getString id Scope.Editor st' = Ret None /\
     (forall i, 0 <= i -> i <> id -> getString i Scope.Editor st' = getString i Scope.Editor st) /\
     editor_ids (users st') = clear1 id <$> editor_ids (users st) /\
     str st' = str st /\ game_users (users st') = game_users (users st) /\ names_wf (users st')).
Proof.
  intros [Hg [Ho Hi] Hs Hk _] Hid. unfold deleteString.
  change (has_flag Scope.Editor Scope.Game) with false. change (has_flag Scope.Editor Scope.Editor) with true.
  cbn [obind]. unfold deleteEditorString, stringUsed, StrSection.stringStored, KstrSection.stringStored.
  destruct (stringStored_in (StrSection.strings (str st)) id) as (gs & ->); [lia|].
  destruct (stringStored_in (KstrSection.strings (kstr st)) id) as (es & Hes); [lia|]. rewrite Hes. cbn [obind].
  unfold ScenarioStrings.Strings.stringUsed. change (Scope.Editor =? Scope.Game) with false.
  change (Scope.Editor =? Scope.Editor) with true. cbn [andb negb orb]. rewrite orb_false_r.
  split.
  - intros -> (s & Hst) Hin. unfold StringTable.stringStored in Hes.
    rewrite (proj2 (Z.ltb_lt _ _)), Hst in Hes by lia. cbn in Hes. injection Hes as <-.
    rewrite ostr_used by done. by rewrite bool_decide_eq_true_2.
  - intros Hcond.
    assert (E : (if only then if es then OstrSection.stringUsed (ostr (users st)) id StringUserFlag.All else Ret false
                 else Ret false) = Ret false).
    { destruct Hcond as [->|Hn]; [done|]. rewrite ostr_used, bool_decide_eq_false_2 by done. by destruct only, es. }
    rewrite E. cbn [obind negb]. rewrite orb_true_r.
    destruct (law_deleteString (ops := ostr_ops) _ id Ho) as (o & Ro & Wo & Uo). cbn in Ro.
    rewrite kstr_delete_string by (done || lia). cbn [obind].
    rewrite Ro. cbn [obind]. eexists. split; [reflexivity|].
    assert (Eids : (ostr_users o).*2 = clear1 id <$> (ostr_users (ostr (users st))).*2)
      by (rewrite Uo; apply prod_map_snd).
    split_and!.
    + unfold getString. change (Scope.Editor =? Scope.Game) with false. cbn. unfold KstrSection.getString, StringTable.getString.
      cbn. rewrite zlen_insert, (proj2 (Z.ltb_lt _ _)), vget_vset by lia. by rewrite decide_True.
    + intros i Hi0 Hne. change (getString ?j Scope.Editor ?x) with (StringTable.getString (KstrSection.strings (kstr x)) j).
      unfold StringTable.getString. cbn. rewrite zlen_insert, vget_vset by lia. by rewrite decide_False.
    + unfold editor_ids. cbn [users withUsers withKstr ostr ktrg upd sections_ostr]. rewrite Eids, fmap_app. f_equal. apply ktrg_delete_ids.
    + done.
    + done.
    + destruct Hg. split; [by split|]. split; [done|].
      unfold editor_ids in *. cbn [users withUsers withKstr ostr ktrg upd sections_ostr]. rewrite Eids, ktrg_delete_ids.
      rewrite <- fmap_app. by apply clear1_below.
Qed.

(** ** A scenario to try them on *)

#[export] Instance below_decision v : Decision (below v) := and_dec _ _.

Definition names_sample : Strings := mkStrings (StrSection.GetDefault false)
  (KstrSection.mkKstrSection [None; Some (ScStr.new [65])] [] KstrSection.CurrentVersion)
  (mkSections (SprpSection.GetDefault 1 2) ForcSection.GetDefault (blank UNIS.layout) (blank UNIx.layout)
     [None; Some (Location.mkLocation 0 0 64 64 3 0)] WavSection.GetDefault SwnmSection.GetDefault [] []
     (blank OSTR.layout) [None; None; Some (ExtendedTrigData.mkExtendedTrigData 1 0 0 0 0)]) true.

Lemma names_sample_wf : strings_wf names_sample.
Proof.
  split; [| | by vm_compute | by vm_compute | by left].
  - split; cbn [users names_sample sprp forc unis unix mrgn wav swnm trig mbrf]; try solve_default; try by constructor.
    exists [Location.mkLocation 0 0 64 64 3 0]. split; [done|]. apply Forall_singleton. solve_default.
  - split; [solve_default|]. apply (bool_decide_unpack _). by vm_compute.
Qed.

Lemma sample_free scope : all_used scope (users names_sample) -> False.
Proof.
  intros H. specialize (H 9 ltac:(by vm_compute)). revert H. unfold used_ids. destruct (scope =? Scope.Game);
    rewrite elem_of_ids_set; intros [_ H]; revert H; apply (bool_decide_unpack _); by vm_compute.
Qed.

Lemma names_set_and_read_witness : exists st',
  setForceName 1 [72; 105] Scope.Editor true names_sample = Ret st' /\
  getForceName 1 Scope.Editor st' = Ret (Some [72; 105]).
Proof.
  destruct names_set_and_read as (_ & _ & F & _). destruct (F 1) as [_ L]; [by vm_compute|].
  destruct (L [72; 105] true names_sample names_sample_wf I I) as [[_ E]|(st' & id & E & _ & _ & _ & _ & H & _)];
    [by apply sample_free in E | exists st'; split; [exact E | exact H]].
Defined.

Lemma unit_names_set_and_read_witness : exists st',
  setUnitName 7 [72; 105] Yes Scope.Game true names_sample = Ret st' /\
  getUnitNameStringId 7 Yes Scope.Game st' = Ret 0.
Proof.
  destruct (unit_names_set_and_read [] (fun _ => []) 7 true) as (_ & _ & F); [by vm_compute|].
  destruct (F [72; 105] true names_sample names_sample_wf) as [[_ E]|(st' & E & H)].
  - by apply sample_free in E.
  - exists st'. split; [exact E|]. rewrite H. vm_compute. reflexivity.
Defined.

Lemma deleteEditorString_spec_witness :
  KtrgSection.editorStringUsed (ktrg (users names_sample)) 1 StringUserFlag.All = true /\
  exists st', deleteString 1 Scope.Editor true names_sample = Ret st' /\ getString 1 Scope.Editor st' = Ret None.
Proof.
  split; [by vm_compute|].
  destruct (deleteEditorString_spec names_sample 1 true names_sample_wf) as [_ F]; [by vm_compute|].
  destruct F as (st' & E & H & _); [right; apply (bool_decide_unpack _); vm_compute; exact I | exists st'; split; [exact E | exact H]].
Defined.

(** *** Unused strings *)

(** The two string sections, with the scenario as their synchronizer. *)
Lemma deleteUnused_str s l : scenario_wf s -> zlen (StrSection.strings l) <= MaxStrings ->
  exists l', StrSection.deleteUnusedStrings sync l s = Ret l' /\
    zlen (StrSection.strings l') = zlen (StrSection.strings l) /\
    forall i, 0 <= i -> StrSection.getString l' i =
      if bool_decide (i ∈ ids_set (game_users s).*2) then StrSection.getString l i else Ret None.
Proof.
  intros Hs Hz. unfold StrSection.deleteUnusedStrings.
  destruct (deleteUnused_table Scope.Game sync scenario_wf _ strings_synchronizer_laws (StrSection.strings l) s)
    as (t & -> & Ht & Hget); [done..|]. cbn [obind]. by eexists.
Qed.

Lemma deleteUnused_kstr s l : editor_wf s -> zlen (KstrSection.strings l) <= MaxStrings ->
  exists l', KstrSection.deleteUnusedStrings sync l s = Ret l' /\
    zlen (KstrSection.strings l') = zlen (KstrSection.strings l) /\
    forall i, 0 <= i -> KstrSection.getString l' i =
      if bool_decide (i ∈ ids_set (editor_ids s)) then KstrSection.getString l i else Ret None.
Proof.
  intros Hs Hz. unfold KstrSection.deleteUnusedStrings.
  destruct (deleteUnused_table Scope.Editor sync editor_wf _ editor_synchronizer_laws (KstrSection.strings l) s)
    as (t & -> & Ht & Hget); [done..|]. cbn [obind]. by eexists.
Qed.

(** What stays of both sections. *)
Lemma deleteUnused_scoped st storageScope : strings_wf st ->
  storageScope ∈ [Scope.Game; Scope.Editor; Scope.Both] ->
  exists st', deleteUnusedStrings storageScope st = Ret st' /\ users st' = users st /\ strings_wf st' /\
    forall i scope, 0 <= i -> gameOrEditor scope = true -> getString i scope st' =
      if bool_decide ((storageScope = scope \/ storageScope = Scope.Both) /\ i ∉ used_ids scope (users st))
      then Ret None else getString i scope st.
Proof.
  intros [Hg He Hs Hk Hr] Hscope.
  destruct (deleteUnused_str (users st) (str st) Hg ltac:(lia)) as (l & El & Hl & Hgetl).
  destruct (deleteUnused_kstr (users st) (kstr st) He Hk) as (k & Ek & Hzk & Hgetk).
  assert (Hboth : forall st', users st' = users st -> str st' ∈ [str st; l] -> kstr st' ∈ [kstr st; k] -> strings_wf st').
  { intros st' Eu H1 H2. rewrite elem_of_cons, list_elem_of_singleton in H1. rewrite elem_of_cons, list_elem_of_singleton in H2.
    assert (zlen (StrSection.strings (str st')) = zlen (StrSection.strings (str st))) by (by destruct H1 as [->| ->]).
    assert (zlen (KstrSection.strings (kstr st')) = zlen (KstrSection.strings (kstr st))) by (by destruct H2 as [->| ->]).
    split; rewrite ?Eu; try done; [lia.. | destruct Hr as [?|?]; [left; lia | by right]]. }
  rewrite !elem_of_cons, elem_of_nil in Hscope. unfold deleteUnusedStrings.
  destruct Hscope as [->|[->|[->|[]]]]; cbv zeta; change (Scope.Game =? Scope.Game) with true; change (Scope.Editor =? Scope.Game) with false;
    change (Scope.Editor =? Scope.Editor) with true; change (Scope.Both =? Scope.Game) with false;
    change (Scope.Both =? Scope.Editor) with false; change (Scope.Both =? Scope.Both) with true; cbn iota;
    rewrite ?El; cbn [obind withStr kstr users]; rewrite ?Ek; cbn [obind];
    (eexists; split; [reflexivity|]; split; [done|]; split; [apply Hboth; cbn; [done | set_solver | set_solver]|]);
    intros i scope Hi Hsc; destruct (scope_cases _ Hsc) as [-> | ->].
  all: match goal with
       | |- getString ?j Scope.Game ?t = _ => change (getString j Scope.Game t) with (StrSection.getString (str t) j)
       | |- getString ?j Scope.Editor ?t = _ => change (getString j Scope.Editor t) with (KstrSection.getString (kstr t) j)
       end; cbn [str kstr withStr withKstr users]; rewrite ?Hgetl, ?Hgetk by done; unfold used_ids.
  all: repeat case_bool_decide; try done; try tauto; exfalso; by destruct H as [[?|?] _].
Qed.

(** C8: [Strings::deleteUnusedStrings] over a whole scenario, for the game's
    strings, the editor's or both: of the strings of that scope exactly those stay
    that some section uses, the game's by any name, text or sound of the scenario,
    the editor's by OSTR or by extended trigger data; the strings of the other
    scope and all that uses strings stay as they are. *)
Theorem unused_strings_deleted st storageScope : strings_wf st ->
  storageScope ∈ [Scope.Game; Scope.Editor; Scope.Both] ->
  exists st', deleteUnusedStrings storageScope st = Ret st' /\ users st' = users st /\ strings_wf st' /\
    forall i scope, 0 <= i -> gameOrEditor scope = true -> getString i scope st' =
      if bool_decide ((storageScope = scope \/ storageScope = Scope.Both) /\ i ∉ used_ids scope (users st))
      then Ret None else getString i scope st.
Proof. apply deleteUnused_scoped. Qed.

Lemma unused_strings_deleted_witness : exists st', deleteUnusedStrings Scope.Both names_sample = Ret st' /\
  getString 3 Scope.Game st' = getString 3 Scope.Game names_sample /\ getString 9 Scope.Game st' = Ret None.
Proof.
  destruct (unused_strings_deleted names_sample Scope.Both names_sample_wf) as (st' & E & _ & _ & Hget); [set_solver|].
  exists st'. split; [exact E|]. split.
  - rewrite (Hget 3 Scope.Game ltac:(lia) eq_refl), bool_decide_eq_false_2; [reflexivity|]. intros [_ H]. apply H.
    unfold used_ids. change (Scope.Game =? Scope.Game) with true. cbv iota. apply elem_of_ids_set.
    clear. split; [vm_compute; split; reflexivity|]. apply (bool_decide_unpack _). vm_compute. exact I.
  - rewrite (Hget 9 Scope.Game ltac:(lia) eq_refl), bool_decide_eq_true_2; [reflexivity|]. split; [by right|].
    unfold used_ids. change (Scope.Game =? Scope.Game) with true. cbv iota. rewrite elem_of_ids_set. intros [_ H]. revert H.
    apply (bool_decide_unpack _). vm_compute. exact I.
Defined.

(** *** Moving a string to the other section *)

(** The answer is always 0: the new id is not returned. *)
Lemma rescopeString_result id scope auto st st' r : rescopeString id scope auto st = Ret (st', r) -> r = 0.
Proof.
  unfold rescopeString. intros (gameUsed & _ & H)%bind_inv. destruct gameUsed.
  - apply bind_inv in H as (text & _ & H). apply bind_inv in H as (bs & _ & H).
    apply bind_inv in H as ([st1 n] & _ & H). destruct (negb (n =? 0)); [|congruence].
    apply bind_inv in H as ([s l] & _ & H). apply bind_inv in H as (st2 & _ & H).
    apply bind_inv in H as (st3 & _ & H). congruence.
  - apply bind_inv in H as (editorUsed & _ & H). destruct editorUsed; [|congruence].
    apply bind_inv in H as (text & _ & H). apply bind_inv in H as (bs & _ & H).
    apply bind_inv in H as ([st1 n] & _ & H). destruct (negb (n =? 0)); [|congruence].
    apply bind_inv in H as ([s l] & _ & H). apply bind_inv in H as (st2 & _ & H).
    apply bind_inv in H as (st3 & _ & H). congruence.
Qed.
