(* ===== verification/ScenarioVersionsProps.v ===== *)
(** What a change of the version leaves of a scenario: which sections are
    saved, what the version sections say, and how many locations there are. *)
From S2P Require Import Prelude Codec ChkTypes ChkSection Accessors StructSections StringUsers Locations Triggers StringTable StrSection Kstr Ktrg Ktgp ScenarioStrings ScenarioProps ScenarioFile ScenarioLayers ScenarioSettings ScenarioSettingsProps ScenarioVersions ScenarioNames ScenarioNamesProps.
Open Scope Z_scope.

(** ** Adding and removing sections *)













(** ** The version sections *)

Import VersionsClass.










(** ** A scenario of another version *)



(** ** Witness *)




