(* ===== verification/ScenarioUpgrade.v ===== *)
(** [Scenario::upgradeKstrToCurrent] (Scenario.cpp).  Before version 3 of KSTR an
    editor string [k] was used under the id [65536 - k] in the sections of the
    game.  When such a map is read, these ids are moved to OSTR and KTRG, where
    the editor's ids are since then, or removed where there is no place for them.

    [allSections] are the names of the sections in their order in the file: each
    is the one the scenario uses, as it is unless the file has two sections of a
    name that does not append.  What is written to the log is left out. *)
From S2P Require Import Prelude Codec ChkTypes ChkSection Accessors UnitTechSections StringUsers Terrain Objects Locations TriggerTables Triggers StringTable StrSection Ktrg ScenarioStrings Kstr ScenarioTriggers ScenarioSettings ScenarioLayers ScenarioNames.
Open Scope Z_scope.

Import ScenarioStrings StringsClass.

(** An id that stands for the string [65536 - id] of KSTR. *)
Definition isExtended (strCapacity id : Z) (st : Strings) : outcome bool :=
  if (id >? strCapacity) && negb (id =? 0) && (id <? 65536) then stringStored (65536 - id) Scope.Editor st
  else Ret false.

(** ** Names *)

(** The id of a name is moved from its section to OSTR. *)
Definition upgradeName (strCapacity : Z) (get : Sections -> outcome Z) (n : nameSlot) (st : Strings) : outcome Strings :=
  let* id := get (users st) in
  let* extended := isExtended strCapacity id st in
  if extended then
    let* s := assignEditor n (65536 - id) (users st) in
    let* s := assignGame n 0 s in
    Ret (withUsers s st)
  else Ret st.

Definition upgradeMrgn (strCapacity : Z) (st : Strings) : outcome Strings :=
  for_each (fun i => upgradeName strCapacity (gameLocationNameStringId i) (locationNameSlot i))
    (range 0 (MrgnSection.numLocations (mrgn (users st)))) st.

Definition upgradeSprp (strCapacity : Z) (st : Strings) : outcome Strings :=
  let* st := upgradeName strCapacity (fun s => Ret (u16 (SprpSection.getScenarioNameStringId (sprp s))))
    scenarioNameSlot st in
  upgradeName strCapacity (fun s => Ret (u16 (SprpSection.getScenarioDescriptionStringId (sprp s))))
    scenarioDescriptionSlot st.

(** The entries of an array of ids, each cast to a width. *)
Definition upgradeEach (strCapacity N : Z) (cast : Z -> Z) (get : Z -> Sections -> outcome Z) (slot : Z -> nameSlot)
    (st : Strings) : outcome Strings :=
  for_each (fun i => upgradeName strCapacity (fun s => let* id := get i s in Ret (cast id)) (slot i)) (range 0 N) st.

Definition upgradeForc (strCapacity : Z) : Strings -> outcome Strings :=
  upgradeEach strCapacity TotalForces u16 (fun i s => ForcSection.getForceStringId (forc s) i) forceNameSlot.
Definition upgradeWav (strCapacity : Z) : Strings -> outcome Strings :=
  upgradeEach strCapacity TotalSounds u32 (fun i s => WavSection.getSoundStringId (wav s) i) soundPathSlot.
Definition upgradeSwnm (strCapacity : Z) : Strings -> outcome Strings :=
  upgradeEach strCapacity TotalSwitches u32 (fun i s => SwnmSection.getSwitchNameStringId (swnm s) i) switchNameSlot.
Definition upgradeUnis (strCapacity : Z) : Strings -> outcome Strings :=
  upgradeEach strCapacity Unit_TotalTypes u16 (fun i s => UnisSection.getUnitNameStringId (unis s) i) unitNameSlot.
Definition upgradeUnix (strCapacity : Z) : Strings -> outcome Strings :=
  upgradeEach strCapacity Unit_TotalTypes u16 (fun i s => UnixSection.getUnitNameStringId (unix s) i) expUnitNameSlot.

(** ** Triggers *)

Definition alterAction (f : Action.Action -> Action.Action) (j : Z) (t : Trigger.Trigger) : outcome Trigger.Trigger :=
  let* a := vget (Trigger.actions t) j in
  let* actions := vset (Trigger.actions t) j (f a) in
  Ret (t <| Trigger.actions := actions |>).
Definition alterTrigAction (f : Action.Action -> Action.Action) (i j : Z) (s : Sections) : outcome Sections :=
  let* t := TrigSection.getTrigger (trig s) i in
  let* t := alterAction f j t in
  let* l := vset (trig s) i t in
  Ret (s <| trig := l |>).
Definition noText (a : Action.Action) : Action.Action := a <| Action.stringId := 0 |>.
Definition noSound (a : Action.Action) : Action.Action := a <| Action.soundStringId := 0 |>.

Definition Action_Type_Comment : Z := 47.

(** A trigger with the ids of its extended comment and notes. *)
Record Commented := mkCommented {
  scenario : Strings;
  extendedCommentStringId : Z;
  extendedNotesStringId : Z
}.

(** The text of an action that uses one.  A comment goes to the extended data of
    its trigger when there is room, and other texts are lost. *)
Definition upgradeActionText (strCapacity i j : Z) (a : Action.Action) (c : Commented) : outcome Commented :=
  let st := scenario c in
  let cleared (s : Sections) := let* s := alterTrigAction noText i j s in Ret (withUsers s st) in
  let* extended := if ACT.uses ActionArgs.NumActionTypes ActionArgs.actionUsesStringArg a
                   then isExtended strCapacity (Action.stringId a) st else Ret false in
  if negb extended then Ret c
  else if (Action.actionType a =? Action_Type_Comment) &&
          ((extendedCommentStringId c =? 0) || (extendedNotesStringId c =? 0)) then
    if extendedCommentStringId c =? 0 then
      let* e := setExtendedCommentStringId (extensions (users st)) i (65536 - Action.stringId a) in
      let* id := getExtendedCommentStringId e i in
      let* st := cleared (withExtensions e (users st)) in
      Ret (mkCommented st id (extendedNotesStringId c))
    else
      let* e := setExtendedNotesStringId (extensions (users st)) i (65536 - Action.stringId a) in
      let* id := getExtendedNotesStringId e i in
      let* st := cleared (withExtensions e (users st)) in
      Ret (mkCommented st (extendedCommentStringId c) id)
  else
    let* st := cleared (users st) in
    Ret (mkCommented st (extendedCommentStringId c) (extendedNotesStringId c)).

Definition upgradeActionSound (strCapacity i j : Z) (a : Action.Action) (c : Commented) : outcome Commented :=
  let* extended := if ACT.uses ActionArgs.NumActionTypes ActionArgs.actionUsesSoundArg a
                   then isExtended strCapacity (Action.soundStringId a) (scenario c) else Ret false in
  if extended then
    let* s := alterTrigAction noSound i j (users (scenario c)) in
    Ret (mkCommented (withUsers s (scenario c)) (extendedCommentStringId c) (extendedNotesStringId c))
  else Ret c.

Definition upgradeAction (strCapacity i j : Z) (c : Commented) : outcome Commented :=
  let* t := TrigSection.getTrigger (trig (users (scenario c))) i in
  let* a := vget (Trigger.actions t) j in
  let* c := upgradeActionText strCapacity i j a c in
  upgradeActionSound strCapacity i j a c.

Definition upgradeTrigger (strCapacity i : Z) (st : Strings) : outcome Strings :=
  let* comment := getExtendedCommentStringId (extensions (users st)) i in
  let* notes := getExtendedNotesStringId (extensions (users st)) i in
  let* c := for_each (upgradeAction strCapacity i) (range 0 MaxActions) (mkCommented st comment notes) in
  Ret (scenario c).

Definition upgradeTrig (strCapacity : Z) (st : Strings) : outcome Strings :=
  for_each (upgradeTrigger strCapacity) (range 0 (TrigSection.numTriggers (trig (users st)))) st.

(** The sound of a briefing action is looked up under the id of its text. *)
Definition upgradeBriefingAction (strCapacity j : Z) (st : Strings) (t : Trigger.Trigger) : outcome Trigger.Trigger :=
  let* a := vget (Trigger.actions t) j in
  let* text := if ACT.uses ActionArgs.NumBriefingActionTypes ActionArgs.briefingActionUsesStringArg a
               then isExtended strCapacity (Action.stringId a) st else Ret false in
  let* t := if text then alterAction noText j t else Ret t in
  let* a := vget (Trigger.actions t) j in
  let id := Action.soundStringId a in
  let* sound := if ACT.uses ActionArgs.NumBriefingActionTypes ActionArgs.briefingActionUsesSoundArg a &&
                   (id >? strCapacity) && negb (id =? 0) && (id <? 65536)
                then stringStored (u32 (65536 - Action.stringId a)) Scope.Editor st else Ret false in
  if sound then alterAction noSound j t else Ret t.

Definition upgradeMbrf (strCapacity : Z) (st : Strings) : outcome Strings :=
  for_each (fun i st =>
    let* t := MbrfSection.getBriefingTrigger (mbrf (users st)) i in
    let* t := for_each (fun j => upgradeBriefingAction strCapacity j st) (range 0 MaxActions) t in
    let* l := vset (mbrf (users st)) i t in
    Ret (withUsers ((users st) <| mbrf := l |>) st))
    (range 0 (MbrfSection.numBriefingTriggers (mbrf (users st)))) st.

(** ** The scenario *)

Definition upgradeSection (strCapacity name : Z) : Strings -> outcome Strings :=
  if name =? SectionName.TRIG then upgradeTrig strCapacity
  else if name =? SectionName.MBRF then upgradeMbrf strCapacity
  else if name =? SectionName.MRGN then upgradeMrgn strCapacity
  else if name =? SectionName.SPRP then upgradeSprp strCapacity
  else if name =? SectionName.FORC then upgradeForc strCapacity
  else if name =? SectionName.WAV then upgradeWav strCapacity
  else if name =? SectionName.SWNM then upgradeSwnm strCapacity
  else if name =? SectionName.UNIS then upgradeUnis strCapacity
  else if name =? SectionName.UNIx then upgradeUnix strCapacity
  else Ret.

Definition upgradeKstrToCurrent (allSections : list Z) (st : Strings) : outcome Strings :=
  let version := KstrSection.getVersion (kstr st) in
  if (version =? 0) || (version =? 2) then
    let strCapacity := getCapacity Scope.Game st in
    let* st := for_each (upgradeSection strCapacity) allSections st in
    let* k := KstrSection.setVersion KstrSection.CurrentVersion (kstr st) in
    deleteUnusedStrings Scope.Both (withKstr k st)
  else if version =? 1 then Ret (withKstr KstrSection.GetDefault st)
  else Ret st.
