(* ===== verification/ScenarioUpgradeProps.v ===== *)
(** The upgrade of old editor strings: every name that was an editor string under
    an id of the game keeps its text, now in OSTR, and the triggers are freed of
    such ids; only the name of the last location is forgotten. *)
From S2P Require Import Prelude Codec ChkTypes ChkSection Accessors UnitTechSections StringUsers Terrain Objects Locations TriggerTables Triggers TriggerStrings TriggerProps StringTable StrSection TableProps Ktrg ScenarioStrings ScenarioProps Kstr ScenarioTriggers ScenarioTriggersProps ScenarioSettings ScenarioLayers ScenarioNames ScenarioNamesProps ScenarioUpgrade.
Open Scope Z_scope.

Import ScenarioStrings StringsClass.

(** ** The names *)

Inductive Name :=
  | ScenarioName
  | ScenarioDescription
  | ForceName (i : Z)
  | UnitName (i : Z)
  | ExpUnitName (i : Z)
  | SoundPath (i : Z)
  | SwitchName (i : Z)
  | LocationName (i : Z).

#[export] Instance name_eq_dec : EqDecision Name.
Proof. solve_decision. Defined.

Definition slotOf (n : Name) : nameSlot :=
  match n with
  | ScenarioName => scenarioNameSlot
  | ScenarioDescription => scenarioDescriptionSlot
  | ForceName i => forceNameSlot i
  | UnitName i => unitNameSlot i
  | ExpUnitName i => expUnitNameSlot i
  | SoundPath i => soundPathSlot i
  | SwitchName i => switchNameSlot i
  | LocationName i => locationNameSlot i
  end.

(** Its id in the section of the game, and its id in OSTR. *)
Definition gameOf (n : Name) : Sections -> outcome Z :=
  match n with
  | ExpUnitName i => fun s => UnixSection.getUnitNameStringId (unix s) i
  | _ => gameId (slotOf n)
  end.
Definition editorOf (n : Name) : Sections -> outcome Z := editorId (slotOf n).

Definition valid (n : Name) : Prop :=
  match n with
  | ScenarioName | ScenarioDescription => True
  | ForceName i => 0 <= i < TotalForces
  | UnitName i | ExpUnitName i => 0 <= i < Unit_TotalTypes
  | SoundPath i => 0 <= i < TotalSounds
  | SwitchName i => 0 <= i < TotalSwitches
  | LocationName i => 1 <= i <= TotalLocations
  end.
Definition there (n : Name) (s : Sections) : Prop :=
  match n with LocationName i => isLocation i s | _ => always s end.

Definition storeGame (n : Name) : Z -> Sections -> Sections :=
  match n with
  | ScenarioName => fun id s => s <| sprp := (sprp s) <| SPRP.scenarioNameStringId := id |> |>
  | ScenarioDescription => fun id s => s <| sprp := (sprp s) <| SPRP.scenarioDescriptionStringId := id |> |>
  | ForceName i => storeEntry forc FORC.forceString i
  | UnitName i => storeEntry unis UNIS.nameStringId i
  | ExpUnitName i => storeEntry unix UNIx.nameStringId i
  | SoundPath i => storeEntry wav WAV.soundPathStringId i
  | SwitchName i => storeEntry swnm SWNM.switchName i
  | LocationName i => storeLocation i
  end.
Definition storeEditor (n : Name) : Z -> Sections -> Sections :=
  match n with
  | ScenarioName => fun id s => s <| ostr := (ostr s) <| OSTR.scenarioName := id |> |>
  | ScenarioDescription => fun id s => s <| ostr := (ostr s) <| OSTR.scenarioDescription := id |> |>
  | ForceName i => storeEntry ostr OSTR.forceName i
  | UnitName i => storeEntry ostr OSTR.unitName i
  | ExpUnitName i => storeEntry ostr OSTR.expUnitName i
  | SoundPath i => storeEntry ostr OSTR.soundPath i
  | SwitchName i => storeEntry ostr OSTR.switchName i
  | LocationName i => storeEntry ostr OSTR.locationName (i - 1)
  end.

Lemma game_side_of n : valid n -> SlotSide (there n) (gameOf n) (assignGame (slotOf n)) (storeGame n).
Proof.
  destruct n as [| |i|i|i|i|i|i]; cbn [valid there gameOf slotOf storeGame]; intros Hv;
    first [ apply scenario_name_sides | apply scenario_description_sides | by apply force_sides | by apply unit_sides
          | by apply exp_unit_sides | by apply sound_sides | by apply switch_sides | apply location_game_side ].
Qed.

Lemma editor_side_of n : valid n -> SlotSide (there n) (editorOf n) (assignEditor (slotOf n)) (storeEditor n).
Proof.
  unfold editorOf. destruct n as [| |i|i|i|i|i|i]; cbn [valid there slotOf storeEditor]; intros Hv;
    first [ apply scenario_name_sides | apply scenario_description_sides | by apply force_sides | by apply unit_sides
          | by apply exp_unit_sides | by apply sound_sides | by apply switch_sides | by apply location_editor_side ].
Qed.

(** Storing one id changes no other. *)
Lemma vget_other {A} (l : list A) i j a : 0 <= i -> 0 <= j -> i <> j -> vget (<[Z.to_nat i := a]> l) j = vget l j.
Proof.
  intros Hi Hj Hne. unfold vget. destruct (Z.ltb_spec j 0); [done|]. by rewrite list_lookup_insert_ne by lia.
Qed.

Lemma vget_altered {A} (f : A -> A) (l : list A) i j : 0 <= i -> 0 <= j -> i <> j -> vget (alter f (Z.to_nat i) l) j = vget l j.
Proof.
  intros Hi Hj Hne. unfold vget. destruct (Z.ltb_spec j 0); [done|]. by rewrite list_lookup_alter_ne by lia.
Qed.

Ltac unfold_name :=
  cbv [gameOf editorOf slotOf storeGame storeEditor storeEntry storeLocation gameId editorId scenarioNameSlot
    scenarioDescriptionSlot forceNameSlot unitNameSlot expUnitNameSlot soundPathSlot switchNameSlot locationNameSlot
    locationNameId MrgnSection.getLocation ForcSection.getForceStringId UnisSection.getUnitNameStringId
    UnixSection.getUnitNameStringId WavSection.getSoundStringId SwnmSection.getSwitchNameStringId
    OstrSection.getForceNameStringId OstrSection.getUnitNameStringId OstrSection.getExpUnitNameStringId
    OstrSection.getSoundPathStringId OstrSection.getSwitchNameStringId OstrSection.getLocationNameStringId get_at].

Lemma game_frame n m v s : valid n -> valid m -> n <> m -> gameOf m (storeGame n v s) = gameOf m s.
Proof.
  destruct n as [| |i|i|i|i|i|i], m as [| |j|j|j|j|j|j]; cbn [valid]; intros Hn Hm Hne; try reflexivity; try done;
    (assert (i <> j) by congruence); unfold_name; cbn; rewrite ?vget_other, ?vget_altered by lia; done.
Qed.
Lemma editor_frame n m v s : valid n -> valid m -> n <> m -> editorOf m (storeEditor n v s) = editorOf m s.
Proof.
  destruct n as [| |i|i|i|i|i|i], m as [| |j|j|j|j|j|j]; cbn [valid]; intros Hn Hm Hne; try reflexivity; try done;
    (assert (i <> j) by congruence); unfold_name; cbn; rewrite ?vget_other by lia; done.
Qed.
Lemma game_of_editor n m v s : gameOf m (storeEditor n v s) = gameOf m s.
Proof. by destruct n, m. Qed.
Lemma editor_of_game n m v s : editorOf m (storeGame n v s) = editorOf m s.
Proof. by destruct n, m. Qed.

Definition locations (s : Sections) : Z := MrgnSection.numLocations (mrgn s).
Lemma locations_game n v s : locations (storeGame n v s) = locations s.
Proof.
  destruct n; try done. unfold locations, MrgnSection.numLocations, zlen. cbn. by rewrite length_alter.
Qed.
Lemma locations_editor n v s : locations (storeEditor n v s) = locations s.
Proof. by destruct n. Qed.
Lemma there_locations n s s' : locations s' = locations s -> there n s -> there n s'.
Proof. destruct n; try done. cbn. unfold isLocation, locations. by intros ->. Qed.

(** ** Moving the names *)

Section Upgrade.
Context (st0 : Strings).
Abbreviation s0 := (users st0).
Definition cap : Z := getCapacity Scope.Game st0.

(** An id that stands for an editor string. *)
Definition extended (id : Z) : bool := bool_decide (isExtended cap id st0 = Ret true).

Lemma isExtended_same id st : kstr st = kstr st0 -> isExtended cap id st = Ret (extended id).
Proof.
  intros E. transitivity (isExtended cap id st0).
  - unfold isExtended, stringStored. change (has_flag Scope.Editor Scope.Game) with false. cbn [obind]. by rewrite E.
  - unfold extended. destruct (isExtended cap id st0) as [b| |] eqn:Eb; [|exfalso..].
    { destruct b; [by rewrite bool_decide_eq_true_2|]. by rewrite bool_decide_eq_false_2. }
    all: unfold isExtended, stringStored in Eb; change (has_flag Scope.Editor Scope.Game) with false in Eb;
      change (has_flag Scope.Editor Scope.Editor) with true in Eb; cbn [obind] in Eb;
      destruct ((id >? cap) && negb (id =? 0) && (id <? 65536)) eqn:Ec; [|done];
      apply andb_prop in Ec as [_ Hlt%Z.ltb_lt];
      destruct (stringStored_in (KstrSection.strings (kstr st0)) (65536 - id)) as [b Hb]; [lia|];
      unfold KstrSection.stringStored in Eb; by rewrite Hb in Eb.
Qed.

Lemma extended_bounds id : extended id = true -> 0 <= cap < id /\ id < 65536.
Proof.
  unfold extended. intros H%bool_decide_eq_true. unfold isExtended in H.
  destruct ((id >? cap) && negb (id =? 0) && (id <? 65536)) eqn:Ec; [|done].
  rewrite !andb_true_iff, Z.gtb_lt, Z.ltb_lt in Ec. split; [|lia]. split; [|lia].
  unfold cap, getCapacity. cbn. apply zlen_nonneg.
Qed.
Lemma extended_0 : extended 0 = false.
Proof. destruct (extended 0) eqn:E; [|done]. apply extended_bounds in E. lia. Qed.

Definition present (n : Name) : Prop := valid n /\ there n s0.
(** The upgrade stops before the last location. *)
Definition reached (n : Name) : Prop :=
  present n /\ match n with LocationName i => i < locations s0 | _ => True end.

Definition same (s : Sections) (n : Name) : Prop := gameOf n s = gameOf n s0 /\ editorOf n s = editorOf n s0.
(** The name is an editor string now, if it was one. *)
Definition moved (s : Sections) (n : Name) : Prop := exists g e,
  gameOf n s0 = Ret g /\ editorOf n s0 = Ret e /\
  gameOf n s = Ret (if extended g then 0 else g) /\ editorOf n s = Ret (if extended g then 65536 - g else e).

Record NamesInv (s : Sections) : Prop := mkNamesInv {
  inv_wf : names_wf s;
  inv_locations : locations s = locations s0;
  inv_reached : forall n, reached n -> same s n \/ moved s n;
  inv_kept : forall n, present n -> ~ reached n -> same s n
}.

(** [s'] is as far as [s] and the names [ns]. *)
Record Further (s s' : Sections) (ns : Name -> Prop) : Prop := mkFurther {
  fur_inv : NamesInv s';
  fur_new : forall n, ns n -> moved s' n;
  fur_old : forall n, reached n -> moved s n -> moved s' n;
  fur_trig : trig s' = trig s;
  fur_mbrf : mbrf s' = mbrf s;
  fur_ktrg : ktrg s' = ktrg s
}.

Lemma further_trans s1 s2 s3 P Q : Further s1 s2 P -> Further s2 s3 Q -> (forall n, P n -> reached n) ->
  Further s1 s3 (fun n => P n \/ Q n).
Proof.
  intros [] [] HP. split; [done | intros n [Hn|Hn]; [|by auto] | by auto | by etrans..].
  auto.
Qed.
Lemma further_refl s : NamesInv s -> Further s s (fun _ => False).
Proof. by split. Qed.

Lemma upgradeName_further st n : kstr st = kstr st0 -> NamesInv (users st) -> reached n ->
  exists s', upgradeName cap (gameOf n) (slotOf n) st = Ret (withUsers s' st) /\ Further (users st) s' (eq n).
Proof.
  intros Hk Hinv Hr. pose proof Hr as [[Hv Ht0] _]. destruct Hinv as [Hw Hl Hre Hke].
  assert (Ht : there n (users st)) by (by apply (there_locations n s0)).
  pose proof (game_side_of n Hv) as G. pose proof (editor_side_of n Hv) as E.
  destruct (side_get _ _ _ _ G _ Hw Ht) as [g Hg]. destruct (side_get _ _ _ _ E _ Hw Ht) as [e He].
  unfold upgradeName. rewrite Hg. cbn [obind]. rewrite isExtended_same by done. cbn [obind].
  destruct (extended g) eqn:Eg.
  - destruct (extended_bounds g Eg) as [Hb1 Hb2].
    assert (Hid : below (65536 - g)) by (unfold below; change MaxStrings with 65536; lia).
    destruct (side_put _ _ _ _ E _ (65536 - g) Hw Ht Hid) as (-> & Hw1 & Ht1 & He1). cbn [obind].
    destruct (side_put _ _ _ _ G _ 0 Hw1 Ht1) as (-> & Hw2 & Ht2 & Hg2); [unfold below; change MaxStrings with 65536; lia|].
    cbn [obind]. eexists. split; [reflexivity|].
    set (s' := storeGame n 0 _) in *.
    assert (Hsame : same (users st) n).
    { destruct (Hre n Hr) as [|(g0 & e0 & Hg0 & He0 & Hgm & _)]; [done|].
      rewrite Hg in Hgm. injection Hgm as Hgm. destruct (extended g0) eqn:E0; subst g; [by rewrite extended_0 in Eg|congruence]. }
    assert (Hmoved : moved s' n).
    { destruct Hsame as [Hsg Hse]. exists g, e. rewrite <- Hsg, <- Hse, Eg. split_and!; try done.
      unfold s'. by rewrite editor_of_game. }
    assert (Hother : forall m, present m -> m <> n -> gameOf m s' = gameOf m (users st) /\ editorOf m s' = editorOf m (users st)).
    { intros m [Hvm _] Hne. unfold s'. rewrite game_frame, game_of_editor, editor_of_game, editor_frame by done. done. }
    split; [split| | | by destruct n..].
    + done.
    + unfold s'. rewrite locations_game, locations_editor. done.
    + intros m Hm. destruct (decide (m = n)) as [->|Hne]; [by right|].
      destruct (Hother m (proj1 Hm) Hne) as [H1 H2]. unfold same, moved. rewrite H1, H2. by apply Hre.
    + intros m Hm Hn. destruct (decide (m = n)) as [->|Hne]; [done|].
      destruct (Hother m Hm Hne) as [H1 H2]. unfold same. rewrite H1, H2. by apply Hke.
    + by intros m <-.
    + intros m Hm Hmm. destruct (decide (m = n)) as [->|Hne]; [done|].
      destruct (Hother m (proj1 Hm) Hne) as [H1 H2]. unfold moved. by rewrite H1, H2.
  - exists (users st). split; [by destruct st|]. split; [by split | | done..].
    intros m <-. destruct (Hre n Hr) as [[Hsg Hse]|]; [|done]. exists g, e. by rewrite <- Hsg, <- Hse, Eg.
Qed.

Lemma upgrade_loop {A} (name : A -> Name) (f : A -> Strings -> outcome Strings) l st :
  kstr st = kstr st0 -> NamesInv (users st) -> (forall a, a ∈ l -> reached (name a)) ->
  (forall a st, a ∈ l -> kstr st = kstr st0 -> NamesInv (users st) ->
     f a st = upgradeName cap (gameOf (name a)) (slotOf (name a)) st) ->
  exists s', for_each f l st = Ret (withUsers s' st) /\ Further (users st) s' (fun n => exists a, a ∈ l /\ n = name a).
Proof.
  revert st. induction l as [|a l IH]; intros st Hk Hinv Hr Hf; cbn [for_each].
  - exists (users st). split; [by destruct st|]. split; try done. intros n (a & Ha & _). by apply elem_of_nil in Ha.
  - assert (Ha : reached (name a)) by (apply Hr, elem_of_cons; by left).
    rewrite Hf by (done || (apply elem_of_cons; by left)).
    destruct (upgradeName_further st (name a) Hk Hinv Ha) as (s1 & -> & F1). cbn [obind].
    destruct (IH (withUsers s1 st)) as (s2 & -> & F2); [done | apply F1 | | |].
    + intros b Hb. apply Hr, elem_of_cons. by right.
    + intros b st1 Hb. apply Hf, elem_of_cons. by right.
    + exists s2. split; [done|]. pose proof (further_trans _ _ _ _ _ F1 F2) as [F G O T1 T2 T3]; [by intros n <-|].
      split; try done. intros n (b & [->|Hb]%elem_of_cons & ->); apply G; [by left | right; by exists b].
Qed.

(** An id that fits its field. *)
Lemma entry_width {D} (layout : codec D) (f : D -> list Z) `{!Updater f} c N `{!Member layout f c N} d i v :
  cwf layout d -> get_at N (f d) i = Ret v -> cwf c v.
Proof.
  intros Hd. unfold get_at. destruct (i <? N); [|done]. intros Hv. by apply (vget_Forall (cwf c) (f d) i v); [apply member_wf|].
Qed.

Lemma each_further (name : Z -> Name) N cast get slot st :
  kstr st = kstr st0 -> NamesInv (users st) -> (forall i, 0 <= i < N -> reached (name i)) ->
  (forall i, slot i = slotOf (name i)) -> (forall i s, get i s = gameOf (name i) s) ->
  (forall i s v, names_wf s -> gameOf (name i) s = Ret v -> cast v = v) ->
  exists s', upgradeEach cap N cast get slot st = Ret (withUsers s' st) /\
    Further (users st) s' (fun n => exists i, 0 <= i < N /\ n = name i).
Proof.
  intros Hk Hinv Hr Hslot Hget Hcast. unfold upgradeEach.
  destruct (upgrade_loop name (fun i => upgradeName cap (fun s => let* id := get i s in Ret (cast id)) (slot i)) (range 0 N) st)
    as (s' & Es & [F G O T1 T2 T3]); [done | done | intros i Hi%elem_of_range; by apply Hr | |].
  - intros i st' Hi%elem_of_range Hk' Hi'. unfold upgradeName. rewrite Hslot, Hget.
    destruct (gameOf (name i) (users st')) as [v| |] eqn:Ev; [|done..]. cbn [obind].
    by rewrite (Hcast i (users st') v) by (done || apply Hi').
  - exists s'. split; [done|]. split; try done. intros n (i & Hi & ->). apply G. exists i. by rewrite elem_of_range.
Qed.

Tactic Notation "each_side" constr(Hs) constr(layout) constr(f) constr(c) constr(N) :=
  intros Hk Hinv; apply each_further; try done; intros ? s v [[] _] Hv;
  apply Hs, (entry_width layout f c N _ _ _ ltac:(eassumption) Hv).

Section names.
Context (st : Strings) (Hk : kstr st = kstr st0) (Hinv : NamesInv (users st)).

Lemma forc_further : exists s', upgradeForc cap st = Ret (withUsers s' st) /\
  Further (users st) s' (fun n => exists i, 0 <= i < TotalForces /\ n = ForceName i).
Proof. revert Hk Hinv. each_side u16_id FORC.layout FORC.forceString u16c TotalForces. Qed.
Lemma wav_further : exists s', upgradeWav cap st = Ret (withUsers s' st) /\
  Further (users st) s' (fun n => exists i, 0 <= i < TotalSounds /\ n = SoundPath i).
Proof. revert Hk Hinv. each_side u32_id WAV.layout WAV.soundPathStringId u32c TotalSounds. Qed.
Lemma swnm_further : exists s', upgradeSwnm cap st = Ret (withUsers s' st) /\
  Further (users st) s' (fun n => exists i, 0 <= i < TotalSwitches /\ n = SwitchName i).
Proof. revert Hk Hinv. each_side u32_id SWNM.layout SWNM.switchName u32c TotalSwitches. Qed.
Lemma unis_further : exists s', upgradeUnis cap st = Ret (withUsers s' st) /\
  Further (users st) s' (fun n => exists i, 0 <= i < Unit_TotalTypes /\ n = UnitName i).
Proof. revert Hk Hinv. each_side u16_id UNIS.layout UNIS.nameStringId u16c Unit_TotalTypes. Qed.
Lemma unix_further : exists s', upgradeUnix cap st = Ret (withUsers s' st) /\
  Further (users st) s' (fun n => exists i, 0 <= i < Unit_TotalTypes /\ n = ExpUnitName i).
Proof. revert Hk Hinv. each_side u16_id UNIx.layout UNIx.nameStringId u16c Unit_TotalTypes. Qed.

Lemma sprp_further : exists s', upgradeSprp cap st = Ret (withUsers s' st) /\
  Further (users st) s' (fun n => n = ScenarioName \/ n = ScenarioDescription).
Proof.
  unfold upgradeSprp. change scenarioNameSlot with (slotOf ScenarioName).
  change scenarioDescriptionSlot with (slotOf ScenarioDescription).
  assert (Hcast : forall st n, NamesInv (users st) -> n = ScenarioName \/ n = ScenarioDescription ->
    forall get, (forall s, gameOf n s = Ret (get (sprp s))) ->
    upgradeName cap (fun s => Ret (u16 (get (sprp s)))) (slotOf n) st = upgradeName cap (gameOf n) (slotOf n) st).
  { intros st1 n [[[] _] _ _ _] Hn get Hget. unfold upgradeName. rewrite Hget. cbn [obind]. rewrite u16_id; [done|].
    destruct Hn as [-> | ->]; cbn in Hget; injection (Hget (users st1)) as <-; destruct (sprp (users st1)); cbn in *; tauto. }
  rewrite (Hcast st ScenarioName Hinv (or_introl eq_refl) SprpSection.getScenarioNameStringId) by done.
  destruct (upgradeName_further st ScenarioName) as (s1 & -> & F1); [done..|]. cbn [obind].
  rewrite (Hcast (withUsers s1 st) ScenarioDescription (fur_inv _ _ _ F1) (or_intror eq_refl) SprpSection.getScenarioDescriptionStringId) by done.
  destruct (upgradeName_further (withUsers s1 st) ScenarioDescription) as (s2 & -> & F2); [done | apply F1 | done|].
  exists s2. split; [done|]. destruct (further_trans _ _ _ _ _ F1 F2) as [F G O T1 T2 T3]; [by intros n <-|].
  split; try done. intros n [-> | ->]; apply G; auto.
Qed.
End names.

(** ** Locations *)

Lemma location_null s : names_wf s -> 0 < locations s -> gameLocationNameStringId 0 s = Ret 0.
Proof. intros [[] _] _. destruct wf_mrgn as (ls & E & _). unfold gameLocationNameStringId. by rewrite E. Qed.

Lemma location_id i s : names_wf s -> isLocation i s -> gameLocationNameStringId i s = gameOf (LocationName i) s.
Proof.
  intros [[] _] Hi. destruct (mrgn_lookup _ i wf_mrgn Hi) as (l & Hl & _ & Hz). cbn.
  unfold gameLocationNameStringId, locationNameId, MrgnSection.getLocation. by rewrite (vget_Some _ _ (Some l)) by (done || lia).
Qed.

Lemma mrgn_further st : kstr st = kstr st0 -> NamesInv (users st) -> locations s0 <= TotalLocations ->
  exists s', upgradeMrgn cap st = Ret (withUsers s' st) /\
    Further (users st) s' (fun n => exists i, 1 <= i < locations s0 /\ n = LocationName i).
Proof.
  intros Hk Hinv Hmax. unfold upgradeMrgn. fold (locations (users st)). rewrite (inv_locations _ Hinv).
  destruct (Z.ltb_spec 0 (locations s0)) as [Hpos|Hnone].
  2:{ rewrite range_empty by lia. exists (users st). split; [by destruct st|]. split; try done. intros n (i & Hi & _). lia. }
  rewrite range_cons by done. cbn [for_each]. unfold upgradeName at 1.
  rewrite location_null by (apply Hinv || by rewrite (inv_locations _ Hinv)). cbn [obind].
  rewrite isExtended_same, extended_0 by done. cbn [obind].
  destruct (upgrade_loop LocationName (fun i => upgradeName cap (gameLocationNameStringId i) (locationNameSlot i))
    (range (0 + 1) (locations s0)) st) as (s' & -> & [F G O T1 T2 T3]); [done | done | | |].
  - intros i Hi%elem_of_range. split; [|lia]. split; cbn; unfold isLocation; fold (locations s0); lia.
  - intros i st' Hi%elem_of_range Hk' Hi'. unfold upgradeName. rewrite location_id; [done | apply Hi'|].
    unfold isLocation. fold (locations (users st')). rewrite (inv_locations _ Hi'). lia.
  - exists s'. split; [done|]. split; try done. intros n (i & Hi & ->). apply G. exists i. by rewrite elem_of_range.
Qed.

(** ** Briefings *)

Lemma alterAction_in f j t : cwf Trigger.layout t -> 0 <= j < MaxActions ->
  (forall a, cwf Action.layout a -> cwf Action.layout (f a)) ->
  exists t', alterAction f j t = Ret t' /\ cwf Trigger.layout t' /\
    t' = t <| Trigger.actions := alter f (Z.to_nat j) (Trigger.actions t) |>.
Proof.
  intros Ht Hj Hf. assert (Hz : 0 <= j < zlen (Trigger.actions t)) by (by rewrite (trigger_actions_zlen t Ht)).
  destruct (vget_in _ _ Hz) as (a & Ha & Hv). unfold alterAction. rewrite Hv. cbn [obind]. rewrite vset_in by done.
  cbn [obind]. eexists. split; [reflexivity|].
  assert (E : <[Z.to_nat j := f a]> (Trigger.actions t) = alter f (Z.to_nat j) (Trigger.actions t)).
  { apply list_eq. intros k. destruct (decide (k = Z.to_nat j)) as [->|Hne].
    - by rewrite list_lookup_alter_eq, list_lookup_insert_eq, Ha by (by eapply lookup_lt_Some).
    - by rewrite list_lookup_alter_ne, list_lookup_insert_ne by done. }
  rewrite E. split; [|done]. rewrite <- E.
  assert (Hc : cwf Action.layout a).
  { apply (trig_action_wf [t] t a); [by apply Forall_singleton | by apply list_elem_of_singleton | by eapply list_elem_of_lookup_2]. }
  destruct (member_wf (f := Trigger.actions) (c := Action.layout) (N := MaxActions) t Ht) as [Hl Hfo].
  apply (member_upd (c := Action.layout) (N := MaxActions)); [done | by rewrite length_insert | by apply Forall_insert; [|apply Hf]].
Qed.

Lemma noText_wf a : cwf Action.layout a -> cwf Action.layout (noText a).
Proof. destruct a; cbn. intros; destruct_and?. split_and!; try done. Qed.
Lemma noSound_wf a : cwf Action.layout a -> cwf Action.layout (noSound a).
Proof. destruct a; cbn. intros; destruct_and?. split_and!; try done. Qed.

Lemma stored_total st id : kstr st = kstr st0 -> 0 <= id -> exists b, stringStored id Scope.Editor st = Ret b.
Proof.
  intros Hk Hid. unfold stringStored. change (has_flag Scope.Editor Scope.Game) with false.
  change (has_flag Scope.Editor Scope.Editor) with true. cbn [obind]. rewrite Hk. by apply stringStored_in.
Qed.

Lemma extended_if st (b : bool) id : kstr st = kstr st0 ->
  (if b then isExtended cap id st else Ret false) = Ret (b && extended id).
Proof. intros Hk. destruct b; [by apply isExtended_same | done]. Qed.

Lemma briefing_action st j t : kstr st = kstr st0 -> cwf Trigger.layout t -> 0 <= j < MaxActions ->
  exists t', upgradeBriefingAction cap j st t = Ret t' /\ cwf Trigger.layout t'.
Proof.
  intros Hk Ht Hj. unfold upgradeBriefingAction.
  destruct (action_get t j Ht Hj) as (a & _ & -> & _). cbn [obind]. rewrite extended_if by done. cbn [obind].
  assert (Hmid : exists t1, (if ACT.uses ActionArgs.NumBriefingActionTypes ActionArgs.briefingActionUsesStringArg a
      && extended (Action.stringId a) then alterAction noText j t else Ret t) = Ret t1 /\ cwf Trigger.layout t1).
  { destruct (_ && _); [|by exists t]. destruct (alterAction_in noText j t Ht Hj noText_wf) as (t1 & ? & ? & _). by exists t1. }
  destruct Hmid as (t1 & -> & Ht1). cbn [obind]. destruct (action_get t1 j Ht1 Hj) as (b & _ & -> & _). cbn [obind].
  destruct (stored_total st (u32 (65536 - Action.stringId b)) Hk) as [x Hx]; [apply u32_range|]. rewrite Hx.
  destruct (alterAction_in noSound j t1 Ht1 Hj noSound_wf) as (t2 & Et2 & Ht2 & _).
  destruct (_ && _ && _ && _); cbn [obind]; [destruct x|]; rewrite ?Et2; eauto.
Qed.

Lemma names_other_sections n s b : gameOf n (s <| mbrf := b |>) = gameOf n s /\ editorOf n (s <| mbrf := b |>) = editorOf n s.
Proof. by destruct n. Qed.

(** Other sections may change. *)
Lemma inv_sections s s' : NamesInv s -> names_wf s' ->
  (forall n, gameOf n s' = gameOf n s /\ editorOf n s' = editorOf n s) -> locations s' = locations s -> NamesInv s'.
Proof.
  intros [Hw Hl Hre Hke] Hw' He Hloc. split; [done | by rewrite Hloc | |].
  - intros n Hn. destruct (He n) as [E1 E2]. unfold same, moved. rewrite E1, E2. by apply Hre.
  - intros n Hn Hr. destruct (He n) as [E1 E2]. unfold same. rewrite E1, E2. by apply Hke.
Qed.

Lemma mbrf_upgraded st : kstr st = kstr st0 -> NamesInv (users st) ->
  exists l, upgradeMbrf cap st = Ret (withUsers ((users st) <| mbrf := l |>) st) /\ trig_wf l.
Proof.
  intros Hk [[Hw _] _ _ _]. unfold upgradeMbrf. change (MbrfSection.numBriefingTriggers (mbrf (users st))) with (zlen (mbrf (users st))).
  destruct (for_each_range_inv (fun _ st' => exists l, st' = withUsers ((users st) <| mbrf := l |>) st /\ trig_wf l /\
      zlen l = zlen (mbrf (users st))) (fun i st =>
    let* t := MbrfSection.getBriefingTrigger (mbrf (users st)) i in
    let* t := for_each (fun j => upgradeBriefingAction cap j st) (range 0 MaxActions) t in
    let* l := vset (mbrf (users st)) i t in
    Ret (withUsers ((users st) <| mbrf := l |>) st)) 0 (zlen (mbrf (users st))) st)
    as (st' & -> & l & -> & Hl & _).
  - apply zlen_nonneg.
  - intros i st' Hi (l & E & Hl & Hz). assert (Hm : mbrf (users st') = l) by (by rewrite E).
    assert (Hk' : kstr st' = kstr st0) by (by rewrite E). rewrite Hm.
    destruct (vget_in l i) as (t & Ht & Hv); [lia|].
    change (MbrfSection.getBriefingTrigger l i) with (vget l i). rewrite Hv. cbn [obind].
    assert (Hcw : cwf Trigger.layout t) by (by eapply Forall_lookup_1).
    destruct (for_each_range_inv (fun _ t => cwf Trigger.layout t)
      (fun j => upgradeBriefingAction cap j st') 0 MaxActions t) as (t' & -> & Ht');
      [done | intros j u Hj Hu; by apply briefing_action | done|].
    cbn [obind]. rewrite vset_in by lia. cbn [obind]. eexists. split; [reflexivity|]. exists (<[Z.to_nat i:=t']> l).
    split; [by rewrite E|]. split; [by apply Forall_insert | by rewrite zlen_insert].
  - exists (mbrf (users st)). split; [by destruct st as [? ? [] ?]|]. split; [apply Hw | done].
  - exists l. done.
Qed.

(** ** Extended data *)

Definition ids_below (d : ExtendedTrigData.ExtendedTrigData) : Prop :=
  below (ExtendedTrigData.commentStringId d) /\ below (ExtendedTrigData.notesStringId d).

Lemma ktrg_below (l : KtrgSection.t) :
  Forall below (ktrg_ids l) <-> forall i d, 0 <= i -> KtrgSection.getExtendedTrigger l i = Ret (Some d) -> ids_below d.
Proof.
  assert (Hin : forall d, (Some d ∈ l <-> exists i, 0 <= i /\ KtrgSection.getExtendedTrigger l i = Ret (Some d))).
  { intros d. rewrite list_elem_of_lookup. split.
    - intros (k & Hk). exists (Z.of_nat k). split; [lia|]. rewrite getExtendedTrigger_lookup by lia. by rewrite Nat2Z.id, Hk.
    - intros (i & Hi & E). rewrite getExtendedTrigger_lookup in E by done. exists (Z.to_nat i).
      destruct (l !! Z.to_nat i); cbn in E; congruence. }
  unfold ktrg_ids. rewrite Forall_forall. split.
  - intros H i d Hi E. assert (Hd : Some d ∈ l) by (apply Hin; eauto).
    split; apply H, list_elem_of_In, in_flat_map; exists (Some d); (split; [by apply list_elem_of_In|]); cbn; auto.
  - intros H v (o & Ho & Hv)%list_elem_of_In%in_flat_map. apply list_elem_of_In in Ho. destruct o as [d|]; [|done].
    destruct (proj1 (Hin d) Ho) as (i & Hi & E). destruct (H i d Hi E). destruct Hv as [<-|[<-|[]]]; done.
Qed.

Lemma ktrg_grows l d l' i : KtrgSection.addExtendedTrigger l (Some d) = Ret (l', i) -> zlen l' <= zlen l + 3.
Proof.
  unfold KtrgSection.addExtendedTrigger. intros (o & _ & H)%bind_inv. destruct o as [k|].
  - apply bind_inv in H as (l1 & H1 & H). injection H as <- <-. unfold vset in H1.
    destruct (_ && _); [|done]. injection H1 as <-. rewrite zlen_insert. lia.
  - cbn [KtrgSection.skipUnusable] in H.
    destruct (KtrgSection.unusable (zlen l)); [|cbn in H; injection H as <- <-; unfold zlen; rewrite ?length_app; cbn [length]; lia].
    destruct (KtrgSection.unusable (zlen (l ++ [None]))); [|cbn in H; injection H as <- <-; unfold zlen; rewrite ?length_app; cbn [length]; lia].
    destruct (KtrgSection.unusable (zlen ((l ++ [None]) ++ [None]))); [done|].
    cbn in H. injection H as <- <-. unfold zlen. rewrite ?length_app. cbn [length]. lia.
Qed.

Lemma usable_valid e : KtrgSection.unusable e = false -> 0 <= e <= TRG.ExtendedTrigDataIndex_MaxIndex -> valid_index e.
Proof.
  intros Hu He. split; [done|]. rewrite !elem_of_cons, elem_of_nil. intros Hin. destruct_or? Hin; subst; done.
Qed.

(** A trigger without its owners, which hold the index of its extended data. *)
Definition ownerless (t : Trigger.Trigger) : Trigger.Trigger := t <| Trigger.owners := [] |>.

Record Extended (e e' : Extensions) : Prop := mkExtended {
  ext_wf : trig_wf (ScenarioTriggers.trig e');
  ext_same : ownerless <$> ScenarioTriggers.trig e' = ownerless <$> ScenarioTriggers.trig e;
  ext_size : zlen (ScenarioTriggers.ktrg e') <= zlen (ScenarioTriggers.ktrg e) + 3;
  ext_ids : Forall below (ktrg_ids (ScenarioTriggers.ktrg e')) 
}.

Definition roomy (e : Extensions) : Prop := zlen (ScenarioTriggers.ktrg e) + 3 <= TRG.ExtendedTrigDataIndex_MaxIndex.

Lemma getTriggerExtension_in e i : trig_wf (ScenarioTriggers.trig e) -> 0 <= i < zlen (ScenarioTriggers.trig e) -> roomy e ->
  Forall below (ktrg_ids (ScenarioTriggers.ktrg e)) ->
  exists e' k d, getTriggerExtension e i true = Ret (e', Some k) /\ Extended e e' /\ 0 <= k < zlen (ScenarioTriggers.ktrg e') /\
    KtrgSection.getExtendedTrigger (ScenarioTriggers.ktrg e') k = Ret (Some d).
Proof.
  intros Hw Hi Hroom Hids. destruct (vget_in _ _ Hi) as (t & Ht & Hv).
  assert (Hcw : cwf Trigger.layout t) by (by eapply Forall_lookup_1).
  unfold getTriggerExtension, findTriggerExtension.
  change (TrigSection.getTrigger (ScenarioTriggers.trig e) i) with (vget (ScenarioTriggers.trig e) i). rewrite Hv. cbn [obind].
  rewrite getExtendedTrigger_lookup by apply idx_nonneg. cbn [obind].
  set (k := TRG.getExtendedDataIndex t). destruct (ScenarioTriggers.ktrg e !! Z.to_nat k) as [[d|]|] eqn:Ek.
  { cbn. exists e, k, d. pose proof (idx_nonneg t). apply lookup_lt_Some in Ek as Hlt.
    split; [done|]. split; [split; [done | done | lia | done]|]. split; [unfold zlen, k in *; lia|].
    by rewrite getExtendedTrigger_lookup, Ek by done. }
  all: cbn [default obind];
    destruct (ktrg_add (ScenarioTriggers.ktrg e) KtrgSection.blankData) as (l' & x & Ea & Hx & Hu & _ & Hget & Hother);
    rewrite Ea; cbn [obind]; pose proof (ktrg_grows _ _ _ _ Ea) as Hg; unfold roomy in Hroom;
    (destruct (Z.eqb_spec x 0) as [->|Hx0]; [done|]); cbn [negb];
    (destruct (setExtendedDataIndex_valid t x Hcw) as (w & Hww & -> & _); [apply usable_valid; [done | lia]|]);
    cbn [obind]; rewrite vset_in by done; cbn [obind]; do 3 eexists; (split; [reflexivity|]); (split; [|by split]);
    split; cbn [ScenarioTriggers.trig ScenarioTriggers.ktrg].
  all: try lia.
  all: try (apply Forall_insert; [done | by apply cwf_setOwners]).
  all: try (rewrite list_fmap_insert; apply list_insert_id; rewrite list_lookup_fmap, Ht; by destruct t).
  all: apply ktrg_below; intros j d' Hj Ed; destruct (decide (j = x)) as [->|Hne];
    [rewrite Hget in Ed; injection Ed as <-; by split
    | rewrite Hother in Ed by done; by apply (proj1 (ktrg_below (ScenarioTriggers.ktrg e)) Hids j)].
Qed.

Lemma set_extension set e i id : trig_wf (ScenarioTriggers.trig e) -> 0 <= i < zlen (ScenarioTriggers.trig e) -> roomy e ->
  Forall below (ktrg_ids (ScenarioTriggers.ktrg e)) -> 0 < id < MaxStrings ->
  (forall d, ids_below d -> ids_below (set id d)) ->
  exists e', set_extension_id set e i id = Ret e' /\ Extended e e'.
Proof.
  intros Hw Hi Hroom Hids Hid Hset. unfold set_extension_id. rewrite (proj2 (Z.eqb_neq id 0)) by lia. cbn [negb].
  destruct (getTriggerExtension_in e i Hw Hi Hroom Hids) as (e1 & k & d & -> & [Hw1 Hs1 Hz1 Hi1] & Hk & Hd). cbn [obind].
  rewrite Hd. cbn [obind]. rewrite vset_in by done. cbn [obind andb]. eexists. split; [reflexivity|].
  rewrite u32_id by (apply below_u32, below_neq0, Hid).
  split; cbn [ScenarioTriggers.trig ScenarioTriggers.ktrg]; [done | done | by rewrite zlen_insert|].
  apply ktrg_below. intros j d' Hj. rewrite getExtendedTrigger_lookup by done. intros Ed.
  assert (Hold : forall j d, 0 <= j -> KtrgSection.getExtendedTrigger (ScenarioTriggers.ktrg e1) j = Ret (Some d) -> ids_below d)
    by (by apply ktrg_below). destruct (decide (j = k)) as [->|Hne].
  - rewrite list_lookup_insert_eq in Ed by (unfold zlen in Hk; lia). cbn in Ed. injection Ed as <-. eauto.
  - rewrite list_lookup_insert_ne in Ed by lia. apply (Hold j); [done|]. by rewrite getExtendedTrigger_lookup.
Qed.

Lemma extension_id_total f e i : 0 <= i < zlen (ScenarioTriggers.trig e) -> exists v, extension_id f e i = Ret v.
Proof.
  intros Hi. destruct (vget_in _ _ Hi) as (t & _ & Hv). unfold extension_id, findTriggerExtension.
  change (TrigSection.getTrigger (ScenarioTriggers.trig e) i) with (vget (ScenarioTriggers.trig e) i). rewrite Hv. cbn [obind].
  rewrite getExtendedTrigger_lookup by apply idx_nonneg. cbn [obind].
  destruct (default None _) eqn:Ed; cbn [obind]; [|by eexists].
  rewrite getExtendedTrigger_lookup, Ed by apply idx_nonneg. cbn [obind]. by eexists.
Qed.

(** ** Triggers *)

Definition act (ts : list Trigger.Trigger) (i j : Z) : option Action.Action :=
  ts !! Z.to_nat i ≫= fun t => Trigger.actions t !! Z.to_nat j.
(** The conditions and flags of a trigger. *)
Definition bare (t : Trigger.Trigger) : Trigger.Trigger := ownerless t <| Trigger.actions := [] |>.

(** The actions change by [f], and nothing else but the owners. *)
Record Acted (f : Z -> Z -> Action.Action -> Action.Action) (ts ts' : list Trigger.Trigger) : Prop := mkActed {
  acted_wf : trig_wf ts';
  acted_bare : bare <$> ts' = bare <$> ts;
  acted_act : forall i j, 0 <= i -> 0 <= j -> act ts' i j = f i j <$> act ts i j
}.

Lemma acted_length f ts ts' : Acted f ts ts' -> zlen ts' = zlen ts.
Proof. intros [_ H _]. unfold zlen. apply (f_equal length) in H. rewrite !length_fmap in H. by rewrite H. Qed.

Lemma acted_trans f g ts1 ts2 ts3 : Acted f ts1 ts2 -> Acted g ts2 ts3 -> Acted (fun i j a => g i j (f i j a)) ts1 ts3.
Proof.
  intros [_ B1 A1] [W2 B2 A2]. split; [done | by rewrite B2|]. intros i j Hi Hj. rewrite A2, A1 by done. by destruct (act ts1 i j).
Qed.
Lemma acted_ext f g ts ts' : (forall i j a, 0 <= i -> 0 <= j -> act ts i j = Some a -> f i j a = g i j a) ->
  Acted f ts ts' -> Acted g ts ts'.
Proof.
  intros H [W B A]. split; [done | done|]. intros i j Hi Hj. rewrite A by done.
  destruct (act ts i j) as [a|] eqn:E; [|done]. cbn. by rewrite (H i j a).
Qed.
Lemma acted_refl ts : trig_wf ts -> Acted (fun _ _ a => a) ts ts.
Proof. intros H. split; [done | done|]. intros i j _ _. by destruct (act ts i j). Qed.

Lemma acted_extended e e' : Extended e e' -> Acted (fun _ _ a => a) (ScenarioTriggers.trig e) (ScenarioTriggers.trig e').
Proof.
  intros [W S _ _]. split; [done| |].
  - rewrite <- (list_fmap_ext ((fun t => t <| Trigger.actions := [] |>) ∘ ownerless) bare) by (intros; done).
    rewrite list_fmap_compose, S, <- list_fmap_compose. apply list_fmap_ext. done.
  - intros i j _ _. unfold act. pose proof (f_equal (.!! Z.to_nat i) S) as Hi. cbn beta in Hi. rewrite !list_lookup_fmap in Hi.
    destruct (_ !! _) as [t'|], (ScenarioTriggers.trig e !! _) as [t|]; try done.
    assert (E : Trigger.actions t' = Trigger.actions t).
    { change (Trigger.actions (ownerless t') = Trigger.actions (ownerless t)). f_equal.
      change (Some (ownerless t') = Some (ownerless t)) in Hi. by apply (inj Some) in Hi. }
    cbn. rewrite E. by destruct (_ !! _).
Qed.

Definition at_action (i j : Z) (b : bool) (f : Action.Action -> Action.Action) (i' j' : Z) (a : Action.Action) : Action.Action :=
  if bool_decide (i' = i /\ j' = j) && b then f a else a.

Lemma alterTrigAction_in f i j s : trig_wf (trig s) -> 0 <= i < zlen (trig s) -> 0 <= j < MaxActions ->
  (forall a, cwf Action.layout a -> cwf Action.layout (f a)) ->
  exists ts, alterTrigAction f i j s = Ret (s <| trig := ts |>) /\ Acted (at_action i j true f) (trig s) ts.
Proof.
  intros Hw Hi Hj Hf. destruct (vget_in _ _ Hi) as (t & Ht & Hv).
  assert (Hcw : cwf Trigger.layout t) by (by eapply Forall_lookup_1).
  unfold alterTrigAction. change (TrigSection.getTrigger (trig s) i) with (vget (trig s) i). rewrite Hv. cbn [obind].
  destruct (alterAction_in f j t Hcw Hj Hf) as (t' & -> & Hcw' & Et'). cbn [obind]. rewrite vset_in by done. cbn [obind].
  eexists. split; [reflexivity|]. split.
  - by apply Forall_insert.
  - rewrite list_fmap_insert. apply list_insert_id. rewrite list_lookup_fmap, Ht, Et'. by destruct t.
  - intros i' j' Hi' Hj'. unfold act, at_action. destruct (decide (i' = i)) as [->|Hne].
    + rewrite list_lookup_insert_eq by (by eapply lookup_lt_Some). rewrite Ht. cbn. rewrite Et'. cbn.
      destruct (decide (j' = j)) as [->|Hnj].
      * rewrite list_lookup_alter_eq, bool_decide_eq_true_2 by done. cbn. by destruct (_ !! _).
      * rewrite list_lookup_alter_ne, bool_decide_eq_false_2 by (lia || tauto). cbn. by destruct (Trigger.actions t !! Z.to_nat j').
    + rewrite list_lookup_insert_ne, bool_decide_eq_false_2 by (lia || tauto). cbn. by destruct (_ ≫= _).
Qed.

Definition hasText (a : Action.Action) : bool :=
  ACT.uses ActionArgs.NumActionTypes ActionArgs.actionUsesStringArg a && extended (Action.stringId a).
Definition hasSound (a : Action.Action) : bool :=
  ACT.uses ActionArgs.NumActionTypes ActionArgs.actionUsesSoundArg a && extended (Action.soundStringId a).

(** An action without its editor strings. *)
Definition cleanAction (a : Action.Action) : Action.Action :=
  let b := if hasText a then noText a else a in if hasSound a then noSound b else b.

Section Triggers.
Context (st : Strings) (Hk : kstr st = kstr st0).

(** The scenario with other triggers and extended data. *)
Definition within (e : Extensions) : Strings := withUsers (withExtensions e (users st)) st.

(** [f] was done to the actions, with at most [n] new entries of extended data. *)
Record Cleaned (f : Z -> Z -> Action.Action -> Action.Action) (n : Z) (e e' : Extensions) : Prop := mkCleaned {
  cl_acted : Acted f (ScenarioTriggers.trig e) (ScenarioTriggers.trig e');
  cl_size : zlen (ScenarioTriggers.ktrg e') <= zlen (ScenarioTriggers.ktrg e) + n;
  cl_ids : Forall below (ktrg_ids (ScenarioTriggers.ktrg e'))
}.

Lemma cleaned_ext f g n e e' :
  (forall i j a, 0 <= i -> 0 <= j -> act (ScenarioTriggers.trig e) i j = Some a -> f i j a = g i j a) ->
  Cleaned f n e e' -> Cleaned g n e e'.
Proof. intros H [A S I]. split; [by eapply acted_ext | done | done]. Qed.
Lemma cleaned_trans f g n m e1 e2 e3 : Cleaned f n e1 e2 -> Cleaned g m e2 e3 ->
  Cleaned (fun i j a => g i j (f i j a)) (n + m) e1 e3.
Proof. intros [A1 S1 I1] [A2 S2 I2]. split; [by eapply acted_trans | lia | done]. Qed.
Lemma cleaned_refl e n : trig_wf (ScenarioTriggers.trig e) -> Forall below (ktrg_ids (ScenarioTriggers.ktrg e)) -> 0 <= n ->
  Cleaned (fun _ _ a => a) n e e.
Proof. intros. split; [by apply acted_refl | lia | done]. Qed.

Section Action.
Context (e : Extensions) (i j : Z) (a : Action.Action) (c : Commented).
Context (Hw : trig_wf (ScenarioTriggers.trig e)) (Hids : Forall below (ktrg_ids (ScenarioTriggers.ktrg e))).
Context (Hi : 0 <= i < zlen (ScenarioTriggers.trig e)) (Hj : 0 <= j < MaxActions) (Hc : scenario c = within e).

Lemma clear_within f e' n : Extended e e' -> zlen (ScenarioTriggers.ktrg e') <= zlen (ScenarioTriggers.ktrg e) + n ->
  (forall a, cwf Action.layout a -> cwf Action.layout (f a)) ->
  exists e2, (let* s := alterTrigAction f i j (withExtensions e' (users st)) in Ret (withUsers s (within e))) = Ret (within e2) /\
    Cleaned (at_action i j true f) n e e2 /\ ScenarioTriggers.ktrg e2 = ScenarioTriggers.ktrg e'.
Proof.
  intros He' Hn Hf. pose proof (acted_extended _ _ He') as A.
  destruct (alterTrigAction_in f i j (withExtensions e' (users st))) as (ts & -> & A2);
    [apply He' | by rewrite <- (acted_length _ _ _ A) in Hi | done | done|].
  cbn [obind]. exists (mkExtensions ts (ScenarioTriggers.ktrg e')). split; [done|]. split; [|done].
  split; [exact (acted_trans _ _ _ _ _ A A2) | done | apply He'].
Qed.

Lemma extended_refl : Extended e e.
Proof. split; [done | done | lia | done]. Qed.

Lemma text_cleaned : roomy e -> exists c' e', upgradeActionText cap i j a c = Ret c' /\ scenario c' = within e' /\
  Cleaned (at_action i j (hasText a) noText) 3 e e'.
Proof.
  intros Hroom. unfold upgradeActionText. rewrite Hc. rewrite extended_if by done. fold (hasText a). cbn [obind].
  destruct (hasText a) eqn:Ht; cbn [negb].
  2:{ exists c, e. split; [done|]. split; [done|]. eapply cleaned_ext; [|by apply cleaned_refl].
      intros. unfold at_action. by rewrite andb_false_r. }
  assert (Hid : 0 < 65536 - Action.stringId a < MaxStrings).
  { apply andb_prop in Ht as [_ Ht]. apply extended_bounds in Ht. change MaxStrings with 65536. lia. }
  assert (Hset : forall set, (forall d, ids_below d -> ids_below (set (65536 - Action.stringId a) d)) ->
    exists e', set_extension_id set (extensions (users (within e))) i (65536 - Action.stringId a) = Ret e' /\ Extended e e').
  { intros set Hs. destruct e as [ts k] eqn:Ee. by apply set_extension. }
  assert (Hlost : exists e2, (let* s := alterTrigAction noText i j (users (within e)) in Ret (withUsers s (within e))) = Ret (within e2) /\
    Cleaned (at_action i j true noText) 3 e e2).
  { destruct (clear_within noText e 3 extended_refl ltac:(lia) noText_wf) as (e2 & E2 & C & _). by exists e2. }
  destruct (_ && (_ || _)).
  - destruct (_ =? 0).
    + destruct (Hset (fun id d => d <| ExtendedTrigData.commentStringId := id |>)) as (e1 & E1 & X1).
      { intros d [_ Hn]. split; [by apply below_neq0 | exact Hn]. }
      unfold setExtendedCommentStringId. rewrite E1. cbn [obind].
      destruct (extension_id_total ExtendedTrigData.commentStringId e1 i) as [v Hv];
        [by rewrite (acted_length _ _ _ (acted_extended _ _ X1))|].
      unfold getExtendedCommentStringId. rewrite Hv. cbn [obind].
      destruct (clear_within noText e1 3 X1 (ext_size _ _ X1) noText_wf) as (e2 & E2 & C & _).
      change (withExtensions e1 (users (within e))) with (withExtensions e1 (users st)). rewrite E2. cbn [obind]. eauto.
    + destruct (Hset (fun id d => d <| ExtendedTrigData.notesStringId := id |>)) as (e1 & E1 & X1).
      { intros d [Hn _]. split; [exact Hn | by apply below_neq0]. }
      unfold setExtendedNotesStringId. rewrite E1. cbn [obind].
      destruct (extension_id_total ExtendedTrigData.notesStringId e1 i) as [v Hv];
        [by rewrite (acted_length _ _ _ (acted_extended _ _ X1))|].
      unfold getExtendedNotesStringId. rewrite Hv. cbn [obind].
      destruct (clear_within noText e1 3 X1 (ext_size _ _ X1) noText_wf) as (e2 & E2 & C & _).
      change (withExtensions e1 (users (within e))) with (withExtensions e1 (users st)). rewrite E2. cbn [obind]. eauto.
  - destruct Hlost as (e2 & -> & C). cbn [obind]. eauto.
Qed.

Lemma sound_cleaned : exists c' e', upgradeActionSound cap i j a c = Ret c' /\ scenario c' = within e' /\
  Cleaned (at_action i j (hasSound a) noSound) 0 e e'.
Proof.
  unfold upgradeActionSound. rewrite Hc. rewrite extended_if by done. fold (hasSound a). cbn [obind].
  destruct (hasSound a) eqn:Ht.
  - destruct (clear_within noSound e 0 extended_refl ltac:(lia) noSound_wf) as (e2 & E2 & C & _).
    apply bind_inv in E2 as (s2 & Es & E2). change (users (within e)) with (withExtensions e (users st)). rewrite Es.
    cbn [obind]. do 2 eexists. split; [reflexivity|]. cbn [scenario]. split; [|exact C]. congruence.
  - exists c, e. split; [done|]. split; [done|]. eapply cleaned_ext; [|by apply cleaned_refl].
    intros. unfold at_action. by rewrite andb_false_r.
Qed.
End Action.

Lemma act_in ts i j : trig_wf ts -> 0 <= i < zlen ts -> 0 <= j < MaxActions -> exists t a,
  vget ts i = Ret t /\ vget (Trigger.actions t) j = Ret a /\ act ts i j = Some a.
Proof.
  intros Hw Hi Hj. destruct (vget_in _ _ Hi) as (t & Ht & Hv).
  assert (Hcw : cwf Trigger.layout t) by (by eapply Forall_lookup_1).
  destruct (action_get t j Hcw Hj) as (a & _ & Ha & _). exists t, a. split; [done|]. split; [done|].
  unfold act. rewrite Ht. cbn. by apply vget_inv in Ha as [_ Ha].
Qed.

Lemma act_bounds ts i j a : act ts i j = Some a -> 0 <= i -> i < zlen ts.
Proof.
  unfold act. intros (t & Ht & _)%bind_Some Hi. apply lookup_lt_Some in Ht. unfold zlen. lia.
Qed.

Definition ok (e : Extensions) : Prop :=
  trig_wf (ScenarioTriggers.trig e) /\ Forall below (ktrg_ids (ScenarioTriggers.ktrg e)).
Lemma cleaned_ok f n e e' : Cleaned f n e e' -> ok e'.
Proof. intros [[] ? ?]. by split. Qed.

Lemma action_cleaned e i j c : ok e -> 0 <= i < zlen (ScenarioTriggers.trig e) -> 0 <= j < MaxActions -> scenario c = within e ->
  roomy e -> exists c' e', upgradeAction cap i j c = Ret c' /\ scenario c' = within e' /\
    Cleaned (at_action i j true cleanAction) 3 e e'.
Proof.
  intros [Hw Hids] Hi Hj Hc Hroom. unfold upgradeAction. rewrite Hc.
  change (trig (users (within e))) with (ScenarioTriggers.trig e).
  destruct (act_in _ i j Hw Hi Hj) as (t & a & Hv & Ha & Hact).
  change (TrigSection.getTrigger (ScenarioTriggers.trig e) i) with (vget (ScenarioTriggers.trig e) i). rewrite Hv. cbn [obind].
  rewrite Ha. cbn [obind]. destruct (text_cleaned e i j a c Hw Hids Hi Hj Hc Hroom) as (c1 & e1 & -> & Hc1 & C1). cbn [obind].
  destruct (cleaned_ok _ _ _ _ C1) as [Hw1 Hids1].
  destruct (sound_cleaned e1 i j a c1 Hw1 Hids1) as (c2 & e2 & -> & Hc2 & C2);
    [by rewrite (acted_length _ _ _ (cl_acted _ _ _ _ C1)) | done | done|].
  exists c2, e2. split; [done|]. split; [done|]. eapply cleaned_ext; [|exact (cleaned_trans _ _ _ _ _ _ _ C1 C2)].
  intros i' j' b Hi' Hj' Hb. unfold at_action. destruct (bool_decide_reflect (i' = i /\ j' = j)) as [[-> ->]|]; [|done].
  rewrite Hact in Hb. injection Hb as <-. cbn [andb]. unfold cleanAction. by destruct (hasText a), (hasSound a).
Qed.

Definition upto (i j : Z) (i' j' : Z) (a : Action.Action) : Action.Action :=
  if (i' <? i) || ((i' =? i) && (j' <? j)) then cleanAction a else a.

Lemma upto_step e e1 e2 i j n m : 0 <= j -> Cleaned (upto i j) n e e1 -> Cleaned (at_action i j true cleanAction) m e1 e2 ->
  Cleaned (upto i (j + 1)) (n + m) e e2.
Proof.
  intros Hj C1 C2. eapply cleaned_ext; [|exact (cleaned_trans _ _ _ _ _ _ _ C1 C2)].
  intros i' j' a Hi' Hj' _. unfold upto, at_action. rewrite andb_true_r.
  destruct (Z.ltb_spec i' i) as [Hlt|Hge]; cbn [orb].
  { rewrite bool_decide_eq_false_2 by lia. done. }
  destruct (Z.eqb_spec i' i) as [->|Hne]; cbn [andb]; [|by rewrite bool_decide_eq_false_2 by lia].
  destruct (Z.ltb_spec j' j), (Z.ltb_spec j' (j + 1)); try lia.
  - by rewrite bool_decide_eq_false_2 by lia.
  - by rewrite bool_decide_eq_true_2 by lia.
  - by rewrite bool_decide_eq_false_2 by lia.
Qed.

Lemma upto_row e e' i n : Cleaned (upto i MaxActions) n e e' -> trig_wf (ScenarioTriggers.trig e) -> Cleaned (upto (i + 1) 0) n e e'.
Proof.
  intros C Hw. eapply cleaned_ext; [|exact C]. intros i' j' a Hi' Hj' Ha. unfold upto.
  assert (Hlt : j' < MaxActions).
  { unfold act in Ha. apply bind_Some in Ha as (t & Ht & Ha). apply lookup_lt_Some in Ha.
    assert (Hcw : cwf Trigger.layout t) by (by eapply Forall_lookup_1).
    pose proof (trigger_actions_zlen t Hcw) as Hz. unfold zlen in Hz. lia. }
  destruct (Z.ltb_spec i' i), (Z.ltb_spec i' (i + 1)), (Z.eqb_spec i' i), (Z.eqb_spec i' (i + 1)), (Z.ltb_spec j' MaxActions), (Z.ltb_spec j' 0);
    try lia; done.
Qed.

(** There is room for the extended data of [n] more triggers. *)
Definition room_for (n : Z) (e : Extensions) : Prop :=
  zlen (ScenarioTriggers.ktrg e) + 3 * MaxActions * n <= TRG.ExtendedTrigDataIndex_MaxIndex.

Lemma trigs_cleaned e : ok e -> room_for (zlen (ScenarioTriggers.trig e)) e ->
  exists e', upgradeTrig cap (within e) = Ret (within e') /\
    Cleaned (fun _ _ => cleanAction) (3 * MaxActions * zlen (ScenarioTriggers.trig e)) e e'.
Proof.
  intros Hok Hroom. unfold upgradeTrig, room_for in *. set (n := zlen (ScenarioTriggers.trig e)) in *.
  change (TrigSection.numTriggers (trig (users (within e)))) with n.
  destruct (for_each_range_inv (fun i s => exists e', s = within e' /\ Cleaned (upto i 0) (3 * MaxActions * i) e e')
    (upgradeTrigger cap) 0 n (within e)) as (s' & -> & e' & -> & C).
  - apply zlen_nonneg.
  - intros i s Hi (e1 & -> & C1). pose proof (acted_length _ _ _ (cl_acted _ _ _ _ C1)) as Hlen.
    unfold upgradeTrigger. change (extensions (users (within e1))) with (mkExtensions (ScenarioTriggers.trig e1) (ScenarioTriggers.ktrg e1)).
    destruct e1 as [ts1 k1]. cbn [ScenarioTriggers.trig ScenarioTriggers.ktrg] in *.
    destruct (extension_id_total ExtendedTrigData.commentStringId (mkExtensions ts1 k1) i) as [v1 Hv1]; [cbn; lia|].
    destruct (extension_id_total ExtendedTrigData.notesStringId (mkExtensions ts1 k1) i) as [v2 Hv2]; [cbn; lia|].
    unfold getExtendedCommentStringId, getExtendedNotesStringId. rewrite Hv1. cbn [obind]. rewrite Hv2. cbn [obind].
    destruct (for_each_range_inv (fun j c => exists e2, scenario c = within e2 /\
        Cleaned (upto i j) (3 * MaxActions * i + 3 * j) e e2) (upgradeAction cap i) 0 MaxActions
        (mkCommented (within (mkExtensions ts1 k1)) v1 v2)) as (c & -> & e2 & Hc & C2).
    + done.
    + intros j c Hj (e2 & Hc & C2). pose proof (acted_length _ _ _ (cl_acted _ _ _ _ C2)) as Hlen2.
      destruct (action_cleaned e2 i j c) as (c' & e3 & -> & Hc' & C3);
        [by eapply cleaned_ok | fold n in Hlen2; lia | done | done | |].
      { pose proof (cl_size _ _ _ _ C2). unfold roomy. change MaxActions with 64 in *. lia. }
      exists c'. split; [done|]. exists e3. split; [done|].
      replace (3 * MaxActions * i + 3 * (j + 1)) with (3 * MaxActions * i + 3 * j + 3) by lia.
      by apply (upto_step e e2); [lia | |].
    + exists (mkExtensions ts1 k1). split; [done|]. by rewrite Z.mul_0_r, Z.add_0_r.
    + cbn [obind]. eexists. split; [reflexivity|]. exists e2. split; [done|]. apply upto_row; [|apply Hok].
      replace (3 * MaxActions * (i + 1)) with (3 * MaxActions * i + 3 * MaxActions) by lia. done.
  - exists e. split; [done|]. eapply cleaned_ext; [|apply cleaned_refl; [apply Hok | apply Hok | lia]].
    intros i j a Hi Hj _. unfold upto. destruct (Z.ltb_spec i 0), (Z.eqb_spec i 0), (Z.ltb_spec j 0); try lia; done.
  - exists e'. split; [done|]. eapply cleaned_ext; [|exact C]. intros i j a Hi Hj Ha. unfold upto.
    apply act_bounds in Ha; [|done]. by rewrite (proj2 (Z.ltb_lt _ _)) by done.
Qed.
End Triggers.

(** Nothing is left to do the second time. *)
Lemma cleanAction_clean a : hasText (cleanAction a) = false /\ hasSound (cleanAction a) = false.
Proof.
  unfold cleanAction. destruct (hasText a) eqn:Et, (hasSound a) eqn:Es; split; try done; unfold hasText, hasSound in *; cbn;
    by rewrite ?extended_0, ?andb_false_r.
Qed.

Lemma for_each_idle {A S} (f : A -> S -> outcome S) l s : (forall a, a ∈ l -> f a s = Ret s) -> for_each f l s = Ret s.
Proof.
  induction l as [|a l IH]; intros H; [done|]. cbn [for_each]. rewrite H by (apply elem_of_cons; by left). cbn [obind].
  apply IH. intros b Hb. apply H, elem_of_cons. by right.
Qed.

Lemma trigs_idle st : kstr st = kstr st0 -> trig_wf (trig (users st)) ->
  (forall i j a, 0 <= i -> 0 <= j -> act (trig (users st)) i j = Some a -> hasText a = false /\ hasSound a = false) ->
  upgradeTrig cap st = Ret st.
Proof.
  intros Hk Hw Hclean. unfold upgradeTrig. change (TrigSection.numTriggers (trig (users st))) with (zlen (trig (users st))).
  apply for_each_idle. intros i Hi%elem_of_range. unfold upgradeTrigger.
  destruct (extension_id_total ExtendedTrigData.commentStringId (extensions (users st)) i) as [v1 Hv1]; [done|].
  destruct (extension_id_total ExtendedTrigData.notesStringId (extensions (users st)) i) as [v2 Hv2]; [done|].
  unfold getExtendedCommentStringId, getExtendedNotesStringId. rewrite Hv1. cbn [obind]. rewrite Hv2. cbn [obind].
  rewrite for_each_idle; [done|]. intros j Hj%elem_of_range. unfold upgradeAction. cbn [scenario].
  destruct (act_in _ i j Hw Hi Hj) as (t & a & Hv & Ha & Hact).
  change (TrigSection.getTrigger (trig (users st)) i) with (vget (trig (users st)) i). rewrite Hv. cbn [obind]. rewrite Ha. cbn [obind].
  destruct (Hclean i j a ltac:(lia) ltac:(lia) Hact) as [Ht Hs].
  unfold upgradeActionText. cbn [scenario]. rewrite extended_if by done. fold (hasText a). rewrite Ht. cbn [obind negb].
  unfold upgradeActionSound. cbn [scenario]. rewrite extended_if by done. fold (hasSound a). by rewrite Hs.
Qed.

(** ** The sections in turn *)

Definition sectionOf (n : Name) : Z :=
  match n with
  | ScenarioName | ScenarioDescription => SectionName.SPRP
  | ForceName _ => SectionName.FORC
  | UnitName _ => SectionName.UNIS
  | ExpUnitName _ => SectionName.UNIx
  | SoundPath _ => SectionName.WAV
  | SwitchName _ => SectionName.SWNM
  | LocationName _ => SectionName.MRGN
  end.

Definition cleaned (s : Sections) : Prop :=
  bare <$> trig s = bare <$> trig s0 /\
  forall i j, 0 <= i -> 0 <= j -> act (trig s) i j = cleanAction <$> act (trig s0) i j.

Record Progress (sections : list Z) (st : Strings) : Prop := mkProgress {
  pr_str : str st = str st0;
  pr_kstr : kstr st = kstr st0;
  pr_names : NamesInv (users st);
  pr_moved : forall n, reached n -> sectionOf n ∈ sections -> moved (users st) n;
  pr_trig : (trig (users st) = trig s0 /\ ktrg (users st) = ktrg s0) \/ cleaned (users st);
  pr_cleaned : SectionName.TRIG ∈ sections -> cleaned (users st)
}.

Lemma progress_names sections name st s' (ns : Name -> Prop) : Progress sections st -> name <> SectionName.TRIG ->
  Further (users st) s' ns -> (forall n, reached n -> sectionOf n = name -> ns n) ->
  Progress (name :: sections) (withUsers s' st).
Proof.
  intros [Hs Hk Hn Hm Ht Hc] Hne [Fi Fn Fo Ft _ Fk] Hns. split; cbn [str kstr users withUsers]; try done.
  - intros n Hr [E|Hin]%elem_of_cons; [by apply Fn, Hns | by apply Fo; [|apply Hm]].
  - unfold cleaned. by rewrite Ft, Fk.
  - intros [E|Hin]%elem_of_cons; [done|]. unfold cleaned. rewrite Ft. by apply Hc.
Qed.

Lemma progress_idle sections name st : Progress sections st -> name <> SectionName.TRIG ->
  (forall n, sectionOf n <> name) -> Progress (name :: sections) st.
Proof.
  intros [Hs Hk Hn Hm Ht Hc] Hne Hno. split; try done.
  - intros n Hr [E|Hin]%elem_of_cons; [by destruct (Hno n) | by apply Hm].
  - intros [E|Hin]%elem_of_cons; [done | by apply Hc].
Qed.

Lemma progress_mbrf sections st : Progress sections st ->
  exists st', upgradeMbrf cap st = Ret st' /\ Progress (SectionName.MBRF :: sections) st'.
Proof.
  intros H. pose proof H as [Hs Hk Hn Hm Ht Hc]. destruct (mbrf_upgraded st Hk Hn) as (l & -> & Hl).
  eexists. split; [reflexivity|]. apply progress_idle; [|done | by intros []].
  assert (He : forall n, gameOf n ((users st) <| mbrf := l |>) = gameOf n (users st) /\
    editorOf n ((users st) <| mbrf := l |>) = editorOf n (users st)) by (intros n; apply names_other_sections).
  split; try done.
  - apply (inv_sections (users st)); [done | | done | done]. destruct (inv_wf _ Hn) as [[] []]. split; by split.
  - intros n Hr Hin. cbn [users withUsers]. destruct (He n) as [E1 E2]. unfold moved. rewrite E1, E2. by apply Hm.
Qed.

Lemma within_self st : within st (extensions (users st)) = st.
Proof. by destruct st as [? ? [] ?]. Qed.

Lemma progress_trig sections st : room_for (zlen (trig s0)) (extensions s0) -> Progress sections st ->
  exists st', upgradeTrig cap st = Ret st' /\ Progress (SectionName.TRIG :: sections) st'.
Proof.
  intros Hroom H. pose proof H as [Hs Hk Hn Hm Ht Hc]. destruct (inv_wf _ Hn) as [Hg [Ho Hids]].
  unfold editor_ids in Hids. apply Forall_app in Hids as [Hio Hik].
  destruct Ht as [[Ht1 Ht2]|Hclean].
  - destruct (trigs_cleaned st Hk (extensions (users st))) as (e' & E & [[Aw Ab Aa] _ Ai]).
    { split; [apply Hg | done]. }
    { unfold room_for, extensions. cbn [ScenarioTriggers.trig ScenarioTriggers.ktrg]. rewrite Ht1, Ht2. exact Hroom. }
    rewrite within_self in E. rewrite E. eexists. split; [reflexivity|].
    assert (Hcl : cleaned (users (within st e'))).
    { cbn [ScenarioTriggers.trig extensions] in Ab, Aa. rewrite Ht1 in Ab, Aa. by split. }
    assert (He : forall n, gameOf n (users (within st e')) = gameOf n (users st) /\
      editorOf n (users (within st e')) = editorOf n (users st)) by (by intros []).
    split; try done.
    + apply (inv_sections (users st)); [done | | done | done]. destruct Hg. split; [by split|]. split; [done|].
      unfold editor_ids. by apply Forall_app.
    + intros n Hr [E1|Hin]%elem_of_cons; [by destruct n|]. destruct (He n) as [E1 E2]. unfold moved. rewrite E1, E2. by apply Hm.
    + by right.
  - exists st. rewrite trigs_idle; [|done | apply Hg|].
    + split; [done|]. split; try done; [|by right]. intros n Hr [E1|Hin]%elem_of_cons; [by destruct n | by apply Hm].
    + intros i j a Hi Hj Ha. destruct Hclean as [_ Hact]. rewrite Hact in Ha by done.
      destruct (act (trig s0) i j) as [b|]; [|done]. injection Ha as <-. apply cleanAction_clean.
Qed.

Lemma progress_section sections name st : locations s0 <= TotalLocations -> room_for (zlen (trig s0)) (extensions s0) ->
  Progress sections st -> exists st', upgradeSection cap name st = Ret st' /\ Progress (name :: sections) st'.
Proof.
  intros Hmax Hroom H. pose proof H as [_ Hk Hn _ _ _]. unfold upgradeSection.
  repeat match goal with |- context [name =? ?k] => destruct (Z.eqb_spec name k) as [->|] end.
  - by apply progress_trig.
  - by apply progress_mbrf.
  - destruct (mrgn_further st Hk Hn Hmax) as (s' & -> & F). eexists. split; [reflexivity|].
    eapply progress_names; [done | done | exact F|]. intros [] [[Hv Ht] Hr] E; try done. eexists. split; [|done]. cbn in Hv. lia.
  - destruct (sprp_further st Hk Hn) as (s' & -> & F). eexists. split; [reflexivity|].
    eapply progress_names; [done | done | exact F|]. intros [] Hr E; try done; auto.
  - destruct (forc_further st Hk Hn) as (s' & -> & F). eexists. split; [reflexivity|].
    eapply progress_names; [done | done | exact F|]. intros [] [[Hv Ht] Hr] E; try done. by eexists.
  - destruct (wav_further st Hk Hn) as (s' & -> & F). eexists. split; [reflexivity|].
    eapply progress_names; [done | done | exact F|]. intros [] [[Hv Ht] Hr] E; try done. by eexists.
  - destruct (swnm_further st Hk Hn) as (s' & -> & F). eexists. split; [reflexivity|].
    eapply progress_names; [done | done | exact F|]. intros [] [[Hv Ht] Hr] E; try done. by eexists.
  - destruct (unis_further st Hk Hn) as (s' & -> & F). eexists. split; [reflexivity|].
    eapply progress_names; [done | done | exact F|]. intros [] [[Hv Ht] Hr] E; try done. by eexists.
  - destruct (unix_further st Hk Hn) as (s' & -> & F). eexists. split; [reflexivity|].
    eapply progress_names; [done | done | exact F|]. intros [] [[Hv Ht] Hr] E; try done. by eexists.
  - exists st. split; [done|]. apply progress_idle; [done | done|]. intros []; cbn [sectionOf]; congruence.
Qed.

Lemma progress_all sections st order : locations s0 <= TotalLocations -> room_for (zlen (trig s0)) (extensions s0) ->
  Progress sections st -> exists st' sections', for_each (upgradeSection cap) order st = Ret st' /\
    Progress sections' st' /\ forall name, name ∈ order \/ name ∈ sections -> name ∈ sections'.
Proof.
  intros Hmax Hroom. revert sections st. induction order as [|name order IH]; intros sections st H; cbn [for_each].
  - exists st, sections. split; [done|]. split; [done|]. intros name [[]%elem_of_nil|]; done.
  - destruct (progress_section sections name st Hmax Hroom H) as (st1 & -> & H1). cbn [obind].
    destruct (IH _ _ H1) as (st2 & sections2 & -> & H2 & Hin). exists st2, sections2. split; [done|]. split; [done|].
    intros m [[->|Hm]%elem_of_cons|Hm]; apply Hin; rewrite elem_of_cons; tauto.
Qed.

Lemma progress_start : names_wf s0 -> Progress [] st0.
Proof.
  intros Hw. split; [done | done | | | by left |]; [|intros n _ []%elem_of_nil | intros []%elem_of_nil].
  split; [done | done | | done]. intros n _. by left.
Qed.
End Upgrade.

(** An id of OSTR keeps its string in use. *)
Lemma editor_id_used n s id : names_wf s -> valid n -> editorOf n s = Ret id -> id ∈ editor_ids s.
Proof.
  intros [_ [Ho _]] Hv. unfold editor_ids. rewrite elem_of_app, (ostr_ids _ Ho). intros H. left. revert H.
  destruct n; cbn [valid] in Hv; unfold_name; cbn;
    rewrite ?Z.gtb_ltb; rewrite ?(proj2 (Z.ltb_lt _ _)), ?(proj2 (Z.leb_le _ _)) by lia; cbn [andb];
    try (intros [= <-]); try (intros H%vget_elem); set_solver.
Qed.

(** Both string sections keep exactly what is in use. *)
Lemma deleteUnused_both st : names_wf (users st) -> zlen (StrSection.strings (str st)) <= MaxStrings ->
  zlen (KstrSection.strings (kstr st)) <= MaxStrings ->
  exists st', deleteUnusedStrings Scope.Both st = Ret st' /\ users st' = users st /\
    KstrSection.version (kstr st') = KstrSection.version (kstr st) /\
    forall id, 0 <= id ->
      getString id Scope.Game st' = (if bool_decide (id ∈ used_ids Scope.Game (users st)) then getString id Scope.Game st else Ret None) /\
      getString id Scope.Editor st' = (if bool_decide (id ∈ used_ids Scope.Editor (users st)) then getString id Scope.Editor st else Ret None).
Proof.
  intros [Hg He] Hs Hk. unfold deleteUnusedStrings. change (Scope.Both =? Scope.Game) with false.
  change (Scope.Both =? Scope.Editor) with false. change (Scope.Both =? Scope.Both) with true. cbn iota.
  unfold StrSection.deleteUnusedStrings, KstrSection.deleteUnusedStrings.
  destruct (deleteUnused_table Scope.Game sync scenario_wf _ strings_synchronizer_laws (StrSection.strings (str st)) (users st))
    as (s' & -> & Hz & Hget); [done | done|]. cbn [obind].
  cbn [kstr withStr users].
  destruct (deleteUnused_table Scope.Editor sync editor_wf _ editor_synchronizer_laws (KstrSection.strings (kstr st)) (users st))
    as (k' & -> & Hz' & Hget'); [done | done|]. cbn [obind].
  eexists. split; [reflexivity|]. split; [done|]. split; [done|]. intros id Hid. split; [exact (Hget id Hid) | exact (Hget' id Hid)].
Qed.

Lemma stored_editor st id : stringStored id Scope.Editor st = Ret true ->
  exists text, getString id Scope.Editor st = Ret (Some text).
Proof.
  unfold stringStored. change (has_flag Scope.Editor Scope.Game) with false.
  change (has_flag Scope.Editor Scope.Editor) with true. cbn [obind].
  change (getString id Scope.Editor st) with (StringTable.getString (KstrSection.strings (kstr st)) id).
  unfold KstrSection.stringStored, StringTable.stringStored, StringTable.getString.
  destruct (_ <? _); [|done]. destruct (vget _ _) as [o| |]; [|done..]. cbn. intros [= [s ->]%bool_decide_eq_true]. by eexists.
Qed.

(** The name that is shown. *)
Definition textOf (n : Name) (st : Strings) : outcome (option bytes) :=
  let* g := gameOf n (users st) in let* e := editorOf n (users st) in getEitherString g e Scope.Either st.

Definition nameSections : list Z :=
  [SectionName.TRIG; SectionName.MRGN; SectionName.SPRP; SectionName.FORC; SectionName.WAV; SectionName.SWNM;
   SectionName.UNIS; SectionName.UNIx].

(** C32: Reading a map with editor strings of version 0 or 2 brings them to version 3:
    every name that was an editor string is one of OSTR with the same text, every
    other name keeps its ids, and no action of a trigger has the id of an editor
    string any more.  Only the last location is left out: it keeps its id, and
    its name is lost unless something else has that string. *)
Theorem upgrade_keeps_names (allSections : list Z) (st : Strings) (Hwf : strings_wf st)
    (Hversion : KstrSection.version (kstr st) = 0 \/ KstrSection.version (kstr st) = 2)
    (Hall : forall name, name ∈ nameSections -> name ∈ allSections)
    (Hmax : locations (users st) <= TotalLocations)
    (Hroom : room_for (zlen (trig (users st))) (extensions (users st))) :
  exists st', upgradeKstrToCurrent allSections st = Ret st' /\ KstrSection.version (kstr st') = 3 /\
    (forall n, reached st n -> moved st (users st') n) /\
    (forall n g, reached st n -> gameOf n (users st) = Ret g -> extended st g = true ->
       exists text, getString (65536 - g) Scope.Editor st = Ret (Some text) /\ textOf n st' = Ret (Some text)) /\
    (forall i j, 0 <= i -> 0 <= j ->
       act (trig (users st')) i j = cleanAction st <$> act (trig (users st)) i j) /\
    (forall i g, i = locations (users st) -> 0 < i -> locationNameId i (users st) = Ret g ->
       locationNameId i (users st') = Ret g /\
       (extended st g = true -> 65536 - g ∉ editor_ids (users st') -> getString (65536 - g) Scope.Editor st' = Ret None)).
Proof.
  pose proof Hwf as [Hg He Hs Hk _]. assert (Hn : names_wf (users st)) by (by split).
  unfold upgradeKstrToCurrent, KstrSection.getVersion. replace ((_ =? 0) || (_ =? 2)) with true by lia.
  destruct (progress_all st [] st allSections Hmax Hroom (progress_start st Hn)) as (st1 & done1 & E1 & [Ps Pk Pn Pm _ Pc] & Hin).
  change (getCapacity Scope.Game st) with (cap st). rewrite E1. cbn [obind]. rewrite Pk.
  change (KstrSection.setVersion KstrSection.CurrentVersion (kstr st))
    with (Ret (KstrSection.mkKstrSection (KstrSection.strings (kstr st)) (KstrSection.stringBytes (kstr st)) 3)). cbn [obind].
  set (k3 := KstrSection.mkKstrSection _ _ 3).
  destruct (deleteUnused_both (withKstr k3 st1)) as (st' & -> & Hu & Hv & Hget);
    [apply Pn | cbn; rewrite Ps; lia | exact Hk|]. change (users (withKstr k3 st1)) with (users st1) in *.
  exists st'. rewrite Hu. split; [done|]. split; [exact Hv|].
  assert (Hdone : forall n, reached st n -> moved st (users st1) n).
  { intros n Hr. apply Pm; [done|]. apply Hin. left. apply Hall. destruct n; cbn; set_solver. }
  split; [exact Hdone|]. split; [|split].
  - intros n g Hr Hng Hext. destruct (Hdone n Hr) as (g' & e & Hg' & _ & Hgm & Hem). rewrite Hng in Hg'. injection Hg' as <-.
    rewrite Hext in Hgm, Hem. destruct (extended_bounds st g Hext) as [Hb1 Hb2].
    assert (Hstored : exists text, getString (65536 - g) Scope.Editor st = Ret (Some text)).
    { unfold extended in Hext. apply bool_decide_eq_true in Hext. unfold isExtended in Hext.
      destruct (_ && _); [|done]. by apply stored_editor. }
    destruct Hstored as [text Htext]. exists text. split; [done|].
    unfold textOf. rewrite Hu, Hgm, Hem. cbn [obind].
    unfold getEitherString. change (Scope.Either =? Scope.Game) with false. change (Scope.Either =? Scope.Editor) with false.
    change (Scope.Either =? Scope_GameOverEditor) with false. change (isEither Scope.Either) with true. cbn [orb].
    rewrite (proj2 (Z.eqb_neq (65536 - g) 0)) by lia. cbn [negb].
    destruct (Hget (65536 - g) ltac:(lia)) as [_ ->]. rewrite bool_decide_eq_true_2; [exact Htext|].
    apply elem_of_ids_set. split; [change MaxStrings with 65536; lia|].
    apply (editor_id_used n); [apply Pn | apply Hr | exact Hem].
  - apply Pc, Hin. left. apply Hall. cbn. set_solver.
  - intros i g Hi Hpos Hid.
    assert (Hp : present st (LocationName i)) by (split; cbn; [lia | unfold isLocation; fold (locations (users st)); lia]).
    destruct (inv_kept _ _ Pn (LocationName i) Hp) as [Hsame _]; [intros [_ Hr]; lia|].
    split; [by transitivity (locationNameId i (users st))|]. intros Hext Hno.
    destruct (extended_bounds st g Hext) as [Hb1 Hb2]. destruct (Hget (65536 - g) ltac:(lia)) as [_ ->].
    rewrite bool_decide_eq_false_2; [done|]. intros [_ Hm]%elem_of_ids_set. done.
Qed.

(** ** A map with old editor strings *)

Definition upgrade_sample : Strings := mkStrings (StrSection.GetDefault false)
  (KstrSection.mkKstrSection [None; Some (ScStr.new [65]); Some (ScStr.new [66])] [] 2)
  (mkSections (SprpSection.GetDefault 1 2) (ForcSection.GetDefault <| FORC.forceString := [0; 65535; 0; 0] |>)
     (blank UNIS.layout) (blank UNIx.layout)
     [None; Some (Location.mkLocation 0 0 64 64 65535 0); Some (Location.mkLocation 0 0 64 64 65534 0)]
     WavSection.GetDefault SwnmSection.GetDefault [] [] (blank OSTR.layout) []) true.

Lemma upgrade_sample_wf : strings_wf upgrade_sample.
Proof.
  split; [| | by vm_compute | by vm_compute | by left].
  - split; cbn [users upgrade_sample sprp forc unis unix mrgn wav swnm trig mbrf]; try solve_default; try by constructor.
    exists [Location.mkLocation 0 0 64 64 65535 0; Location.mkLocation 0 0 64 64 65534 0].
    split; [done|]. apply Forall_cons. split; [solve_default|]. apply Forall_singleton. solve_default.
  - split; [solve_default|]. apply (bool_decide_unpack _). by vm_compute.
Qed.

Lemma upgrade_keeps_names_witness : exists st',
  upgradeKstrToCurrent nameSections upgrade_sample = Ret st' /\ textOf (ForceName 1) st' = Ret (Some [65]) /\
  locationNameId 2 (users st') = Ret 65534.
Proof.
  destruct (upgrade_keeps_names nameSections upgrade_sample upgrade_sample_wf) as (st' & E & _ & _ & T & _ & L);
    [by right | done | by vm_compute | by vm_compute|].
  exists st'. split; [exact E|]. split.
  - destruct (T (ForceName 1) 65535) as (text & H1 & H2).
    + split; [|done]. split; [cbn; change TotalForces with 4; lia | exact I].
    + by vm_compute.
    + by vm_compute.
    + rewrite H2. assert (Ht : getString (65536 - 65535) Scope.Editor upgrade_sample = Ret (Some [65])) by reflexivity.
      rewrite Ht in H1. by injection H1 as <-.
  - apply (L 2 65534); by vm_compute.
Defined.
