(* ===== verification/TextLib.v ===== *)
(** The parts of [std::string] and of the C library that the text trigger
    compiler is written with: searching, comparing and copying characters, and
    the conversions of numbers.  Text is a list of bytes. *)
From stdpp Require Import strings.
From S2P Require Import Prelude Codec EscapeStrings.
Open Scope Z_scope.

(** ** Literals *)

Definition lit (s : string) : bytes := (fun c => Z.of_N (Ascii.N_of_ascii c)) <$> String.list_ascii_of_string s.
Definition char (s : string) : Z := default 0 (head (lit s)).

(** ** Strings *)

(** [text.find(c, pos)]; [None] is [npos]. *)
Definition find (text : bytes) (c pos : Z) : option Z :=
  if pos <? zlen text
  then match list_find (fun x => x = c) (drop (Z.to_nat pos) text) with
       | Some (i, _) => Some (pos + Z.of_nat i)
       | None => None
       end
  else None.

(** [text.substr(pos, n)], which throws for a position past the end. *)
Definition substr (text : bytes) (pos n : Z) : outcome bytes :=
  if pos >? zlen text then Throw OutOfRange
  else Ret (take (Z.to_nat (Z.min n (zlen text - pos))) (drop (Z.to_nat pos) text)).

(** [text.compare(pos, n, s) == 0] *)
Definition compareAt (text : bytes) (pos n : Z) (s : bytes) : outcome bool :=
  let* t := substr text pos n in Ret (bool_decide (t = s)).

(** [std::memcpy] of [n] characters from [&text[pos]], terminator included. *)
Definition slice (text : bytes) (pos n : Z) : outcome bytes :=
  if (0 <=? pos) && (pos + n <=? zlen text + 1)
  then Ret (take (Z.to_nat n) (drop (Z.to_nat pos) (text ++ [0]))) else Undef.

Definition isLower (c : Z) : bool := (97 <=? c) && (c <=? 122).
Definition upper (c : Z) : Z := if isLower c then c - 32 else c.

(** [findNext(str, pos, character, terminator)] *)
Definition findNext (text : bytes) (pos character terminator : Z) : option Z :=
  if pos <? zlen text
  then match list_find (fun x => x = character \/ x = terminator) (drop (Z.to_nat pos) text) with
       | Some (i, x) => if x =? character then Some (pos + Z.of_nat i) else None
       | None => None
       end
  else None.

(** [findStringEnd(str, pos)]: one round per quote that is looked at. *)
Fixpoint findStringEnd_loop (fuel : nat) (text : bytes) (pos : Z) : outcome (option Z) :=
  if pos <? zlen text then
    match fuel with
    | O => Undef
    | S fuel =>
        match find text 34 pos with
        | None => Ret None
        | Some nextQuote =>
            let* escaped := if nextQuote >? 0 then let* c := vget text (nextQuote - 1) in Ret (c =? 92) else Ret false in
            if escaped then findStringEnd_loop fuel text (nextQuote + 1) else Ret (Some nextQuote)
        end
    end
  else Ret None.
Definition findStringEnd (text : bytes) (pos : Z) : outcome (option Z) :=
  findStringEnd_loop (length text) text pos.

(** ** Numbers *)

Definition isSpace (c : Z) : bool := (c =? 32) || ((9 <=? c) && (c <=? 13)).
Fixpoint skipSpace (s : bytes) : bytes :=
  match s with c :: r => if isSpace c then skipSpace r else s | [] => [] end.

(** The value of a digit of [strtoll]. *)
Definition digitValue (base c : Z) : option Z :=
  let v := if (48 <=? c) && (c <=? 57) then c - 48
           else if (97 <=? c) && (c <=? 122) then c - 87
           else if (65 <=? c) && (c <=? 90) then c - 55 else base in
  if v <? base then Some v else None.

Fixpoint digits (base acc : Z) (s : bytes) : Z :=
  match s with
  | [] => acc
  | c :: r => match digitValue base c with Some v => digits base (acc * base + v) r | None => acc end
  end.

(** [strtoll] on a C string; [None] when nothing is converted.  The callers
    pass few enough characters that the result fits. *)
Definition strtoll (base : Z) (s : bytes) : option Z :=
  let s := skipSpace (until_nul s) in
  let '(negative, s) := match s with 45 :: r => (true, r) | 43 :: r => (false, r) | _ => (false, s) end in
  let s := match s with
           | 48 :: x :: d :: r =>
               if (base =? 16) && ((x =? 120) || (x =? 88)) && bool_decide (is_Some (digitValue 16 d)) then d :: r else s
           | _ => s
           end in
  match s with
  | c :: _ => match digitValue base c with
              | Some _ => Some (if negative then - digits base 0 s else digits base 0 s)
              | None => None
              end
  | [] => None
  end.
(** [atoi], [atoll] *)
Definition atoi (s : bytes) : Z := default 0 (strtoll 10 s).

(** [std::to_string] of a number that is not negative. *)
Fixpoint decimal_loop (fuel : nat) (n : Z) (acc : bytes) : bytes :=
  match fuel with
  | O => acc
  | S fuel => let acc := (48 + n mod 10) :: acc in if n <? 10 then acc else decimal_loop fuel (n / 10) acc
  end.
Definition to_string (n : Z) : bytes :=
  if n <? 0 then 45 :: decimal_loop 20 (- n) [] else decimal_loop 20 n [].

(** The text between [pos] and [end_] as a number, with what it leaves in
    [dest]: [bits] is its width, [limit] the size the buffer has room for.  The
    exception of [stol] for no digits is caught. *)
Definition parseNumber (bits limit : Z) (text : bytes) (dest pos end_ : Z) : outcome (bool * Z) :=
  let wrap z := z mod 2 ^ bits in
  let size := u64 (end_ - pos) in
  if size <? limit then
    let* first := if (size =? 1) || (size >? 2) then sget text pos else Ret 0 in
    if (size =? 1) && (first =? 48) then Ret (true, 0)
    else
      let* hex := if (size >? 2) && (first =? 48)
                  then let* x := sget text (pos + 1) in Ret ((x =? 120) || (x =? 88)) else Ret false in
      if hex then
        let* buffer := slice text (pos + 2) (size - 2) in
        Ret (match strtoll 16 buffer with Some v => (true, wrap v) | None => (false, dest) end)
      else
        let* buffer := slice text pos size in
        let v := wrap (atoi buffer) in Ret (v >? 0, v)
  else Ret (false, dest).
Definition parseLong : bytes -> Z -> Z -> Z -> outcome (bool * Z) := parseNumber 32 12.
Definition parseShort : bytes -> Z -> Z -> Z -> outcome (bool * Z) := parseNumber 16 7.
Definition parseByte : bytes -> Z -> Z -> Z -> outcome (bool * Z) := parseNumber 8 5.

Definition parseBinaryLong (text : bytes) (dest pos end_ : Z) : outcome (bool * Z) :=
  let size := u64 (end_ - pos) in
  if size <? 33 then
    if size =? 0 then Ret (true, 0)
    else
      let* buffer := slice text pos size in
      if forallb (fun c => c =? 48) buffer then Ret (true, 0)
      else let v := u32 (default 0 (strtoll 2 buffer)) in Ret (v >? 0, v)
  else Ret (false, dest).

(** ** Copies without spaces *)

(** [copyUpperCaseNoSpace] into an array: the terminator is put at [size], also
    when spaces were left out. *)
Definition copyUpperCaseNoSpace (dest source : bytes) : outcome bytes :=
  let* (dest, _) := for_each (fun c (st : bytes * Z) =>
      let '(dest, at_) := st in
      if c =? 32 then Ret (dest, at_)
      else let* dest := vset dest at_ (upper c) in Ret (dest, at_ + 1)) source (dest, 0) in
  vset dest (zlen source) 0.

(** The argument as a word: capital letters, no spaces and tabs. *)
Definition word (text : bytes) : bytes := upper <$> filter (fun c => c <> 32 /\ c <> 9) text.
