(* ===== verification/TextTrigNames.v ===== *)
(** The names the text trigger compiler knows: of conditions, of actions (in
    [parseActionName] and again in [parseAction]) and of units.  Each function
    is the source's [switch] on a character with its comparisons in order;
    [None] leaves the result as it was. *)
From stdpp Require Import strings.
From S2P Require Import Prelude Codec EscapeStrings TextLib.
Open Scope Z_scope.

(** [if ( test ) yes else no] *)
Definition when_ {A} (test : outcome bool) (yes no : outcome A) : outcome A :=
  let* b := test in if b then yes else no.

(** ** Conditions *)

(** [parseConditionName]: the word after the opening character only has to
    begin with the name. *)
Definition parseConditionName (arg : bytes) : outcome (option Z) :=
  let* c := sget arg 0 in
    if c =? char "A" then when_ (compareAt arg 1 9 (lit "CCUMULATE")) (Ret (Some 4 (* Accumulate *)))
      (when_ (compareAt arg 1 5 (lit "LWAYS")) (Ret (Some 22 (* Always *)))
      (Ret None)) else
    if c =? char "B" then when_ (compareAt arg 1 4 (lit "RING")) (Ret (Some 3 (* Bring *)))
      (Ret None) else
    if c =? char "C" then when_ (compareAt arg 1 6 (lit "OMMAND")) (
        when_ (compareAt arg 7 8 (lit "THELEAST")) (
          when_ (compareAt arg 15 2 (lit "AT")) (Ret (Some 17 (* CommandTheLeastAt *)))
          (when_ (Ret (zlen arg =? 15)) (Ret (Some 16 (* CommandTheLeast *)))
          (Ret None)))
        (when_ (compareAt arg 7 7 (lit "THEMOST")) (
          when_ (compareAt arg 14 2 (lit "AT")) (Ret (Some 7 (* CommandTheMostAt *)))
          (when_ (Ret (zlen arg =? 14)) (Ret (Some 6 (* CommandTheMost *)))
          (Ret None)))
        (when_ (compareAt arg 7 10 (lit "STHEMOSTAT")) (Ret (Some 7 (* CommandTheMostAt *)))
        (when_ (Ret (zlen arg =? 7)) (Ret (Some 2 (* Command *)))
        (Ret None)))))
      (when_ (compareAt arg 1 13 (lit "OUNTDOWNTIMER")) (Ret (Some 1 (* CountdownTimer *)))
      (when_ (compareAt arg 1 5 (lit "USTOM")) (Ret (Some (-1) (* Custom *)))
      (Ret None))) else
    if c =? char "D" then when_ (compareAt arg 1 5 (lit "EATHS")) (Ret (Some 15 (* Deaths *)))
      (Ret None) else
    if c =? char "E" then when_ (compareAt arg 1 10 (lit "LAPSEDTIME")) (Ret (Some 12 (* ElapsedTime *)))
      (Ret None) else
    if c =? char "H" then when_ (compareAt arg 1 11 (lit "IGHESTSCORE")) (Ret (Some 9 (* HighestScore *)))
      (Ret None) else
    if c =? char "K" then when_ (compareAt arg 1 3 (lit "ILL")) (Ret (Some 5 (* Kill *)))
      (Ret None) else
    if c =? char "L" then when_ (compareAt arg 1 4 (lit "EAST")) (
        when_ (compareAt arg 5 5 (lit "KILLS")) (Ret (Some 18 (* LeastKills *)))
        (when_ (compareAt arg 5 9 (lit "RESOURCES")) (Ret (Some 20 (* LeastResources *)))
        (Ret None)))
      (when_ (compareAt arg 1 10 (lit "OWESTSCORE")) (Ret (Some 19 (* LowestScore *)))
      (Ret None)) else
    if c =? char "M" then when_ (compareAt arg 1 5 (lit "EMORY")) (Ret (Some (-2) (* Memory *)))
      (when_ (compareAt arg 1 3 (lit "OST")) (
        when_ (compareAt arg 4 5 (lit "KILLS")) (Ret (Some 8 (* MostKills *)))
        (when_ (compareAt arg 4 9 (lit "RESOURCES")) (Ret (Some 10 (* MostResources *)))
        (Ret None)))
      (Ret None)) else
    if c =? char "N" then when_ (compareAt arg 1 4 (lit "EVER")) (Ret (Some 23 (* Never *)))
      (Ret None) else
    if c =? char "O" then when_ (compareAt arg 1 8 (lit "PPONENTS")) (Ret (Some 14 (* Opponents *)))
      (Ret None) else
    if c =? char "S" then when_ (compareAt arg 1 4 (lit "CORE")) (Ret (Some 21 (* Score *)))
      (when_ (compareAt arg 1 5 (lit "WITCH")) (Ret (Some 11 (* Switch *)))
      (Ret None)) else
    Ret None.

(** ** Actions *)

Definition parseActionName (arg : bytes) : outcome (option Z) :=
  let* c := sget arg 0 in
    if c =? char "C" then when_ (compareAt arg 1 6 (lit "OMMENT")) (Ret (Some 47 (* Comment *)))
      (when_ (compareAt arg 1 9 (lit "REATEUNIT")) (
        when_ (compareAt arg 10 14 (lit "WITHPROPERTIES")) (Ret (Some 11 (* CreateUnitWithProperties *)))
        (when_ (Ret (zlen arg =? 10)) (Ret (Some 44 (* CreateUnit *)))
        (Ret None)))
      (when_ (compareAt arg 1 9 (lit "ENTERVIEW")) (Ret (Some 10 (* CenterView *)))
      (when_ (compareAt arg 1 5 (lit "USTOM")) (Ret (Some (-1) (* Custom *)))
      (Ret None)))) else
    if c =? char "D" then when_ (compareAt arg 1 17 (lit "ISPLAYTEXTMESSAGE")) (Ret (Some 9 (* DisplayTextMessage *)))
      (when_ (compareAt arg 1 5 (lit "EFEAT")) (Ret (Some 2 (* Defeat *)))
      (when_ (compareAt arg 1 3 (lit "RAW")) (Ret (Some 56 (* Draw *)))
      (Ret None))) else
    if c =? char "G" then when_ (compareAt arg 1 16 (lit "IVEUNITSTOPLAYER")) (Ret (Some 48 (* GiveUnitsToPlayer *)))
      (Ret None) else
    if c =? char "K" then when_ (compareAt arg 1 7 (lit "ILLUNIT")) (
        when_ (compareAt arg 8 10 (lit "ATLOCATION")) (Ret (Some 23 (* KillUnitAtLocation *)))
        (when_ (Ret (zlen arg =? 8)) (Ret (Some 22 (* KillUnit *)))
        (Ret None)))
      (Ret None) else
    if c =? char "L" then when_ (compareAt arg 1 10 (lit "EADERBOARD")) (
        when_ (compareAt arg 11 4 (lit "GOAL")) (
          when_ (compareAt arg 15 7 (lit "CONTROL")) (
            when_ (compareAt arg 22 10 (lit "ATLOCATION")) (Ret (Some 34 (* LeaderboardGoalCtrlAtLoc *)))
            (when_ (Ret (zlen arg =? 22)) (Ret (Some 33 (* LeaderboardGoalCtrl *)))
            (Ret None)))
          (when_ (compareAt arg 15 5 (lit "KILLS")) (Ret (Some 36 (* LeaderboardGoalKills *)))
          (when_ (compareAt arg 15 6 (lit "POINTS")) (Ret (Some 37 (* LeaderboardGoalPoints *)))
          (when_ (compareAt arg 15 9 (lit "RESOURCES")) (Ret (Some 35 (* LeaderboardGoalResources *)))
          (Ret None)))))
        (when_ (compareAt arg 11 7 (lit "CONTROL")) (
          when_ (compareAt arg 18 10 (lit "ATLOCATION")) (Ret (Some 18 (* LeaderboardCtrlAtLoc *)))
          (when_ (Ret (zlen arg =? 18)) (Ret (Some 17 (* LeaderboardCtrl *)))
          (Ret None)))
        (when_ (compareAt arg 11 5 (lit "GREED")) (Ret (Some 40 (* LeaderboardGreed *)))
        (when_ (compareAt arg 11 5 (lit "KILLS")) (Ret (Some 20 (* LeaderboardKills *)))
        (when_ (compareAt arg 11 6 (lit "POINTS")) (Ret (Some 21 (* LeaderboardPoints *)))
        (when_ (compareAt arg 11 9 (lit "RESOURCES")) (Ret (Some 19 (* LeaderboardResources *)))
        (when_ (compareAt arg 11 15 (lit "COMPUTERPLAYERS")) (Ret (Some 32 (* LeaderboardCompPlayers *)))
        (Ret None))))))))
      (Ret None) else
    if c =? char "M" then when_ (compareAt arg 1 5 (lit "EMORY")) (Ret (Some (-2) (* SetMemory *)))
      (when_ (compareAt arg 1 3 (lit "OVE")) (
        when_ (compareAt arg 4 4 (lit "UNIT")) (Ret (Some 39 (* MoveUnit *)))
        (when_ (compareAt arg 4 8 (lit "LOCATION")) (Ret (Some 38 (* MoveLocation *)))
        (Ret None)))
      (when_ (compareAt arg 1 9 (lit "ODIFYUNIT")) (
        when_ (compareAt arg 10 6 (lit "ENERGY")) (Ret (Some 50 (* ModifyUnitEnergy *)))
        (when_ (compareAt arg 10 11 (lit "HANGERCOUNT")) (Ret (Some 53 (* ModifyUnitHangerCount *)))
        (when_ (compareAt arg 10 9 (lit "HITPOINTS")) (Ret (Some 49 (* ModifyUnitHitpoints *)))
        (when_ (compareAt arg 10 14 (lit "RESOURCEAMOUNT")) (Ret (Some 52 (* ModifyUnitResourceAmount *)))
        (when_ (compareAt arg 10 12 (lit "SHIELDPOINTS")) (Ret (Some 51 (* ModifyUnitShieldPoints *)))
        (Ret None))))))
      (when_ (compareAt arg 1 10 (lit "INIMAPPING")) (Ret (Some 28 (* MinimapPing *)))
      (when_ (compareAt arg 1 13 (lit "UTEUNITSPEECH")) (Ret (Some 30 (* MuteUnitSpeech *)))
      (Ret None))))) else
    if c =? char "O" then when_ (compareAt arg 1 4 (lit "RDER")) (Ret (Some 46 (* Order *)))
      (Ret None) else
    if c =? char "P" then when_ (compareAt arg 1 14 (lit "RESERVETRIGGER")) (Ret (Some 3 (* PreserveTrigger *)))
      (when_ (compareAt arg 1 6 (lit "LAYWAV")) (Ret (Some 8 (* PlaySound *)))
      (when_ (compareAt arg 1 4 (lit "AUSE")) (
        when_ (compareAt arg 5 4 (lit "GAME")) (Ret (Some 5 (* PauseGame *)))
        (when_ (compareAt arg 5 5 (lit "TIMER")) (Ret (Some 54 (* PauseTimer *)))
        (Ret None)))
      (Ret None))) else
    if c =? char "R" then when_ (compareAt arg 1 9 (lit "EMOVEUNIT")) (
        when_ (compareAt arg 10 10 (lit "ATLOCATION")) (Ret (Some 25 (* RemoveUnitAtLocation *)))
        (when_ (Ret (zlen arg =? 10)) (Ret (Some 24 (* RemoveUnit *)))
        (Ret None)))
      (when_ (compareAt arg 1 10 (lit "UNAISCRIPT")) (
        when_ (compareAt arg 11 10 (lit "ATLOCATION")) (Ret (Some 16 (* RunAiScriptAtLocation *)))
        (when_ (Ret (zlen arg =? 11)) (Ret (Some 15 (* RunAiScript *)))
        (Ret None)))
      (Ret None)) else
    if c =? char "S" then when_ (compareAt arg 1 2 (lit "ET")) (
        when_ (compareAt arg 3 6 (lit "DEATHS")) (Ret (Some 45 (* SetDeaths *)))
        (when_ (compareAt arg 3 6 (lit "SWITCH")) (Ret (Some 13 (* SetSwitch *)))
        (when_ (compareAt arg 3 9 (lit "RESOURCES")) (Ret (Some 26 (* SetResources *)))
        (when_ (compareAt arg 3 5 (lit "SCORE")) (Ret (Some 27 (* SetScore *)))
        (when_ (compareAt arg 3 14 (lit "ALLIANCESTATUS")) (Ret (Some 57 (* SetAllianceStatus *)))
        (when_ (compareAt arg 3 14 (lit "COUNTDOWNTIMER")) (Ret (Some 14 (* SetCountdownTimer *)))
        (when_ (compareAt arg 3 11 (lit "DOODADSTATE")) (Ret (Some 42 (* SetDoodadState *)))
        (when_ (compareAt arg 3 13 (lit "INVINCIBILITY")) (Ret (Some 43 (* SetInvincibility *)))
        (when_ (compareAt arg 3 17 (lit "MISSIONOBJECTIVES")) (Ret (Some 12 (* SetMissionObjectives *)))
        (when_ (compareAt arg 3 12 (lit "NEXTSCENARIO")) (Ret (Some 41 (* SetNextScenario *)))
        (when_ (compareAt arg 3 6 (lit "MEMORY")) (Ret (Some (-2) (* SetMemory *)))
        (Ret None))))))))))))
      (Ret None) else
    if c =? char "T" then when_ (compareAt arg 1 14 (lit "ALKINGPORTRAIT")) (Ret (Some 29 (* TalkingPortrait *)))
      (when_ (compareAt arg 1 11 (lit "RANSMISSION")) (Ret (Some 7 (* Transmission *)))
      (Ret None)) else
    if c =? char "U" then when_ (compareAt arg 1 6 (lit "NPAUSE")) (
        when_ (compareAt arg 7 5 (lit "TIMER")) (Ret (Some 55 (* UnpauseTimer *)))
        (when_ (compareAt arg 7 4 (lit "GAME")) (Ret (Some 6 (* UnpauseGame *)))
        (Ret None)))
      (when_ (compareAt arg 1 15 (lit "NMUTEUNITSPEECH")) (Ret (Some 30 (* MuteUnitSpeech *)))
      (Ret None)) else
    if c =? char "V" then when_ (compareAt arg 1 6 (lit "ICTORY")) (Ret (Some 1 (* Victory *)))
      (Ret None) else
    if c =? char "W" then when_ (compareAt arg 1 3 (lit "AIT")) (Ret (Some 4 (* Wait *)))
      (Ret None) else
    Ret None.

(** The copy of the names in [parseAction]. *)
Definition parseAction_name (arg : bytes) : outcome (option Z) :=
  let* c := sget arg 0 in
    if c =? char "C" then when_ (compareAt arg 1 6 (lit "OMMENT")) (Ret (Some 47 (* Comment *)))
      (when_ (compareAt arg 1 9 (lit "REATEUNIT")) (
        when_ (compareAt arg 10 14 (lit "WITHPROPERTIES")) (Ret (Some 11 (* CreateUnitWithProperties *)))
        (when_ (Ret (zlen arg =? 10)) (Ret (Some 44 (* CreateUnit *)))
        (Ret None)))
      (when_ (compareAt arg 1 9 (lit "ENTERVIEW")) (Ret (Some 10 (* CenterView *)))
      (when_ (compareAt arg 1 5 (lit "USTOM")) (Ret (Some (-1) (* Custom *)))
      (Ret None)))) else
    if c =? char "D" then when_ (compareAt arg 1 17 (lit "ISPLAYTEXTMESSAGE")) (Ret (Some 9 (* DisplayTextMessage *)))
      (when_ (compareAt arg 1 5 (lit "EFEAT")) (Ret (Some 2 (* Defeat *)))
      (when_ (compareAt arg 1 3 (lit "RAW")) (Ret (Some 56 (* Draw *)))
      (Ret None))) else
    if c =? char "G" then when_ (compareAt arg 1 16 (lit "IVEUNITSTOPLAYER")) (Ret (Some 48 (* GiveUnitsToPlayer *)))
      (Ret None) else
    if c =? char "K" then when_ (compareAt arg 1 7 (lit "ILLUNIT")) (
        when_ (compareAt arg 8 10 (lit "ATLOCATION")) (Ret (Some 23 (* KillUnitAtLocation *)))
        (when_ (Ret (zlen arg =? 8)) (Ret (Some 22 (* KillUnit *)))
        (Ret None)))
      (Ret None) else
    if c =? char "L" then when_ (compareAt arg 1 10 (lit "EADERBOARD")) (
        when_ (compareAt arg 11 4 (lit "GOAL")) (
          when_ (compareAt arg 15 7 (lit "CONTROL")) (
            when_ (compareAt arg 22 10 (lit "ATLOCATION")) (Ret (Some 34 (* LeaderboardGoalCtrlAtLoc *)))
            (when_ (Ret (zlen arg =? 22)) (Ret (Some 33 (* LeaderboardGoalCtrl *)))
            (Ret None)))
          (when_ (compareAt arg 15 5 (lit "KILLS")) (Ret (Some 36 (* LeaderboardGoalKills *)))
          (when_ (compareAt arg 15 6 (lit "POINTS")) (Ret (Some 37 (* LeaderboardGoalPoints *)))
          (when_ (compareAt arg 15 9 (lit "RESOURCES")) (Ret (Some 35 (* LeaderboardGoalResources *)))
          (Ret None)))))
        (when_ (compareAt arg 11 7 (lit "CONTROL")) (
          when_ (compareAt arg 18 10 (lit "ATLOCATION")) (Ret (Some 18 (* LeaderboardCtrlAtLoc *)))
          (when_ (Ret (zlen arg =? 18)) (Ret (Some 17 (* LeaderboardCtrl *)))
          (Ret None)))
        (when_ (compareAt arg 11 5 (lit "GREED")) (Ret (Some 40 (* LeaderboardGreed *)))
        (when_ (compareAt arg 11 5 (lit "KILLS")) (Ret (Some 20 (* LeaderboardKills *)))
        (when_ (compareAt arg 11 6 (lit "POINTS")) (Ret (Some 21 (* LeaderboardPoints *)))
        (when_ (compareAt arg 11 9 (lit "RESOURCES")) (Ret (Some 19 (* LeaderboardResources *)))
        (when_ (compareAt arg 11 15 (lit "COMPUTERPLAYERS")) (Ret (Some 32 (* LeaderboardCompPlayers *)))
        (Ret None))))))))
      (Ret None) else
    if c =? char "M" then when_ (compareAt arg 1 5 (lit "EMORY")) (Ret (Some (-2) (* SetMemory *)))
      (when_ (compareAt arg 1 3 (lit "OVE")) (
        when_ (compareAt arg 4 4 (lit "UNIT")) (Ret (Some 39 (* MoveUnit *)))
        (when_ (compareAt arg 4 8 (lit "LOCATION")) (Ret (Some 38 (* MoveLocation *)))
        (Ret None)))
      (when_ (compareAt arg 1 9 (lit "ODIFYUNIT")) (
        when_ (compareAt arg 10 6 (lit "ENERGY")) (Ret (Some 50 (* ModifyUnitEnergy *)))
        (when_ (compareAt arg 10 11 (lit "HANGERCOUNT")) (Ret (Some 53 (* ModifyUnitHangerCount *)))
        (when_ (compareAt arg 10 9 (lit "HITPOINTS")) (Ret (Some 49 (* ModifyUnitHitpoints *)))
        (when_ (compareAt arg 10 14 (lit "RESOURCEAMOUNT")) (Ret (Some 52 (* ModifyUnitResourceAmount *)))
        (when_ (compareAt arg 10 12 (lit "SHIELDPOINTS")) (Ret (Some 51 (* ModifyUnitShieldPoints *)))
        (Ret None))))))
      (when_ (compareAt arg 1 10 (lit "INIMAPPING")) (Ret (Some 28 (* MinimapPing *)))
      (when_ (compareAt arg 1 13 (lit "UTEUNITSPEECH")) (Ret (Some 30 (* MuteUnitSpeech *)))
      (Ret None))))) else
    if c =? char "O" then when_ (compareAt arg 1 4 (lit "RDER")) (Ret (Some 46 (* Order *)))
      (Ret None) else
    if c =? char "P" then when_ (compareAt arg 1 14 (lit "RESERVETRIGGER")) (Ret (Some 3 (* PreserveTrigger *)))
      (when_ (compareAt arg 1 6 (lit "LAYWAV")) (Ret (Some 8 (* PlaySound *)))
      (when_ (compareAt arg 1 4 (lit "AUSE")) (
        when_ (compareAt arg 5 4 (lit "GAME")) (Ret (Some 5 (* PauseGame *)))
        (when_ (compareAt arg 5 5 (lit "TIMER")) (Ret (Some 54 (* PauseTimer *)))
        (Ret None)))
      (Ret None))) else
    if c =? char "R" then when_ (compareAt arg 1 9 (lit "EMOVEUNIT")) (
        when_ (compareAt arg 10 10 (lit "ATLOCATION")) (Ret (Some 25 (* RemoveUnitAtLocation *)))
        (when_ (Ret (zlen arg =? 10)) (Ret (Some 24 (* RemoveUnit *)))
        (Ret None)))
      (when_ (compareAt arg 1 10 (lit "UNAISCRIPT")) (
        when_ (compareAt arg 11 10 (lit "ATLOCATION")) (Ret (Some 16 (* RunAiScriptAtLocation *)))
        (when_ (Ret (zlen arg =? 11)) (Ret (Some 15 (* RunAiScript *)))
        (Ret None)))
      (Ret None)) else
    if c =? char "S" then when_ (compareAt arg 1 2 (lit "ET")) (
        when_ (compareAt arg 3 6 (lit "DEATHS")) (Ret (Some 45 (* SetDeaths *)))
        (when_ (compareAt arg 3 6 (lit "SWITCH")) (Ret (Some 13 (* SetSwitch *)))
        (when_ (compareAt arg 3 9 (lit "RESOURCES")) (Ret (Some 26 (* SetResources *)))
        (when_ (compareAt arg 3 5 (lit "SCORE")) (Ret (Some 27 (* SetScore *)))
        (when_ (compareAt arg 3 14 (lit "ALLIANCESTATUS")) (Ret (Some 57 (* SetAllianceStatus *)))
        (when_ (compareAt arg 3 14 (lit "COUNTDOWNTIMER")) (Ret (Some 14 (* SetCountdownTimer *)))
        (when_ (compareAt arg 3 11 (lit "DOODADSTATE")) (Ret (Some 42 (* SetDoodadState *)))
        (when_ (compareAt arg 3 13 (lit "INVINCIBILITY")) (Ret (Some 43 (* SetInvincibility *)))
        (when_ (compareAt arg 3 17 (lit "MISSIONOBJECTIVES")) (Ret (Some 12 (* SetMissionObjectives *)))
        (when_ (compareAt arg 3 12 (lit "NEXTSCENARIO")) (Ret (Some 41 (* SetNextScenario *)))
        (when_ (compareAt arg 3 6 (lit "MEMORY")) (Ret (Some (-2) (* SetMemory *)))
        (Ret None))))))))))))
      (Ret None) else
    if c =? char "T" then when_ (compareAt arg 1 14 (lit "ALKINGPORTRAIT")) (Ret (Some 29 (* TalkingPortrait *)))
      (when_ (compareAt arg 1 11 (lit "RANSMISSION")) (Ret (Some 7 (* Transmission *)))
      (Ret None)) else
    if c =? char "U" then when_ (compareAt arg 1 6 (lit "NPAUSE")) (
        when_ (compareAt arg 7 5 (lit "TIMER")) (Ret (Some 55 (* UnpauseTimer *)))
        (when_ (compareAt arg 7 4 (lit "GAME")) (Ret (Some 6 (* UnpauseGame *)))
        (Ret None)))
      (when_ (compareAt arg 1 15 (lit "NMUTEUNITSPEECH")) (Ret (Some 31 (* UnmuteUnitSpeech *)))
      (Ret None)) else
    if c =? char "V" then when_ (compareAt arg 1 6 (lit "ICTORY")) (Ret (Some 1 (* Victory *)))
      (Ret None) else
    if c =? char "W" then when_ (compareAt arg 1 3 (lit "AIT")) (Ret (Some 4 (* Wait *)))
      (Ret None) else
    Ret None.

(** ** Units *)

(** [unit] is an array of 40 characters that ends in zeros. *)
Definition at_ (unit : bytes) (i : Z) : Z := default 0 (unit !! Z.to_nat i).
(** [strcmp(&unit[off], name) == 0] for the first such name. *)
Definition oneOf (unit : bytes) (off : Z) (names : list (string * Z)) : option Z :=
  match list_find (fun p => until_nul (drop (Z.to_nat off) unit) = lit p.1) names with
  | Some (_, p) => Some p.2
  | None => None
  end.
(** A case without [break]: what the next case finds replaces the result. *)
Definition over (next this : option Z) : option Z := match next with Some v => Some v | None => this end.

(** The standard names. *)
Definition standardUnitName (unit : bytes) : option Z :=
  let c := at_ unit 0 in
  if c =? char "A" then (oneOf unit 1 [
      ("LAN SCHEZAR (GOLIATH)", 17);
      ("LAN SCHEZAR TURRET", 18);
      ("LDARIS (TEMPLAR)", 87);
      ("LEXEI STUKOV (GHOST)", 100);
      ("NY UNIT", 229);
      ("RCTURUS MENGSK (BATTLECRUISER)", 27);
      ("RTANIS (SCOUT)", 88)])
  else if c =? char "B" then (oneOf unit 1 [
      ("ENGALAAS (JUNGLE CRITTER)", 90);
      ("UILDINGS", 231)])
  else if c =? char "C" then (oneOf unit 1 [
      ("ARGO SHIP (UNUSED)", 91);
      ("ATINA (UNUSED)", 181);
      ("AVE (UNUSED)", 179);
      ("AVE-IN (UNUSED)", 180)])
  else if c =? char "D" then (oneOf unit 1 [
      ("ANIMOTH (ARBITER)", 86);
      ("ARK SWARM", 202);
      ("ATA DISC", 218);
      ("EVOURING ONE (ZERGLING)", 54);
      ("ISRUPTION WEB", 105)])
  else if c =? char "E" then (oneOf unit 1 [
      ("DMUND DUKE (SIEGE MODE)", 25);
      ("DMUND DUKE (TANK MODE)", 23);
      ("DMUND DUKE TURRET (SIEGE MODE)", 26);
      ("DMUND DUKE TURRET (TANK MODE)", 24)])
  else if c =? char "F" then (oneOf unit 1 [
      ("ACTORIES", 232);
      ("ENIX (DRAGOON)", 78);
      ("ENIX (ZEALOT)", 77);
      ("LAG", 215);
      ("LOOR GUN TRAP", 209);
      ("LOOR HATCH (UNUSED)", 204);
      ("LOOR MISSILE TRAP", 203)])
  else if c =? char "G" then (oneOf unit 1 [
      ("ANTRITHOR (CARRIER)", 82);
      ("ERARD DUGALLE (BATTLECRUISER)", 102);
      ("OLIATH TURRET", 4);
      ("UI MONTAG (FIREBAT)", 10)])
  else if c =? char "H" then (oneOf unit 1 [
      ("UNTER KILLER (HYDRALISK)", 53);
      ("YPERION (BATTLECRUISER)", 28)])
  else if c =? char "I" then (oneOf unit 1 [
      ("NDEPENDENT COMMAND CENTER (UNUSED)", 183);
      ("NDEPENDENT JUMP GATE (UNUSED)", 185);
      ("NDEPENDENT STARPORT (UNUSED)", 184);
      ("NFESTED COMMAND CENTER", 130);
      ("NFESTED DURAN (INFESTED TERRAN)", 104);
      ("NFESTED KERRIGAN (INFESTED TERRAIN)", 51);
      ("NFESTED TERRAN", 50);
      ("ON CANNON", 127)])
  else if c =? char "J" then (oneOf unit 1 [
      ("IM RAYNOR (MARINE)", 20);
      ("IM RAYNOR (VULTURE)", 19)])
  else if c =? char "K" then (oneOf unit 1 [
      ("AKARU (TWILIGHT CRITTER)", 94);
      ("HADARIN CRYSTAL FORMATION (UNUSED)", 187);
      ("HALIS CRYSTAL", 129);
      ("HAYDARIN CRYSTAL", 219);
      ("HAYDARIN CRYSTAL FORMATION", 173);
      ("UKULZA (GUARDIAN)", 56);
      ("UKULZA (MUTALISK)", 55)])
  else if c =? char "L" then (oneOf unit 1 [
      ("EFT PIT DOOR", 207);
      ("EFT UPPER LEVEL DOOR", 205);
      ("EFT WALL FLAME TRAP", 211);
      ("EFT WALL MISSILE TRAP", 210);
      ("URKER EGG", 97)])
  else if c =? char "M" then (oneOf unit 1 [
      ("AGELLAN (SCIENCE VESSEL)", 22);
      ("AP REVEALER", 101);
      ("ATRIARCH (QUEEN)", 49);
      ("ATURE CRYSALIS", 150);
      ("EN", 230);
      ("ERCENARY GUNSHIP (UNUSED)", 92);
      ("INERAL CLUSTER TYPE 1", 220);
      ("INERAL CLUSTER TYPE 2", 221);
      ("INERAL FIELD (TYPE 1)", 176);
      ("INERAL FIELD (TYPE 2)", 177);
      ("INERAL FIELD (TYPE 3)", 178);
      ("INING PLATFORM (UNUSED)", 182);
      ("OJO (SCOUT)", 80);
      ("UTALISK COCOON", 59)])
  else if c =? char "N" then (oneOf unit 1 [
      ("ORAD II (BATTLECRUISER)", 29);
      ("ORAD II (CRASHED)", 126);
      ("UCLEAR MISSILE", 14)])
  else if c =? char "O" then (oneOf unit 1 [
      ("VERMIND COCOON", 201)])
  else if c =? char "P" then (if at_ unit 1 =? char "R" then
      (let c := at_ unit 8 in
      if c =? char "A" then (oneOf unit 2 [
          ("OTOSS ARBITER", 71);
          ("OTOSS ARBITER TRIBUNAL", 170);
          ("OTOSS ARCHON", 68);
          ("OTOSS ASSIMILATOR", 157)])
      else if c =? char "B" then (oneOf unit 2 [
          ("OTOSS BEACON", 196)])
      else if c =? char "C" then (oneOf unit 2 [
          ("OTOSS CARRIER", 72);
          ("OTOSS CITADEL OF ADUN", 163);
          ("OTOSS CORSAIR", 60);
          ("OTOSS CYBERNETICS CORE", 164)])
      else if c =? char "D" then (oneOf unit 2 [
          ("OTOSS DARK ARCHON", 63);
          ("OTOSS DARK TEMPLAR (HERO)", 74);
          ("OTOSS DARK TEMPLAR (UNIT)", 61);
          ("OTOSS DRAGOON", 66)])
      else if c =? char "F" then (oneOf unit 2 [
          ("OTOSS FLAG BEACON", 199);
          ("OTOSS FLEET BEACON", 169);
          ("OTOSS FORGE", 166)])
      else if c =? char "G" then (oneOf unit 2 [
          ("OTOSS GATEWAY", 160)])
      else if c =? char "H" then (oneOf unit 2 [
          ("OTOSS HIGH TEMPLAR", 67)])
      else if c =? char "I" then (oneOf unit 2 [
          ("OTOSS INTERCEPTOR", 73)])
      else if c =? char "M" then (oneOf unit 2 [
          ("OTOSS MARKER", 193)])
      else if c =? char "N" then (oneOf unit 2 [
          ("OTOSS NEXUS", 154)])
      else if c =? char "O" then (oneOf unit 2 [
          ("OTOSS OBSERVATORY", 159);
          ("OTOSS OBSERVER", 84)])
      else if c =? char "P" then (oneOf unit 2 [
          ("OTOSS PHOTON CANNON", 162);
          ("OTOSS PROBE", 64);
          ("OTOSS PYLON", 156)])
      else if c =? char "R" then (oneOf unit 2 [
          ("OTOSS REAVER", 83);
          ("OTOSS ROBOTICS FACILITY", 155);
          ("OTOSS ROBOTICS SUPPORT BAY", 171)])
      else if c =? char "S" then (oneOf unit 2 [
          ("OTOSS SCARAB", 85);
          ("OTOSS SCOUT", 70);
          ("OTOSS SHIELD BATTERY", 172);
          ("OTOSS SHUTTLE", 69);
          ("OTOSS STARGATE", 167)])
      else if c =? char "T" then (oneOf unit 2 [
          ("OTOSS TEMPLAR ARCHIVES", 165);
          ("OTOSS TEMPLE", 174)])
      else if c =? char "V" then (oneOf unit 2 [
          ("OTOSS VESPENE GAS ORB TYPE 1", 222);
          ("OTOSS VESPENE GAS ORB TYPE 2", 223)])
      else if c =? char "Z" then (oneOf unit 2 [
          ("OTOSS ZEALOT", 65)])
      else None)
    else if at_ unit 1 =? char "S" then
      (oneOf unit 2 [
        ("I DISRUPTER", 190);
        ("I EMITTER", 217)])
    else oneOf unit 1 [
      ("OWER GENERATOR", 200)])
  else if c =? char "R" then (oneOf unit 1 [
      ("AGNASAUR (ASHWORLD CRITTER)", 95);
      ("ASZAGAL (CORSAIR)", 98);
      ("EPAIR BAY (UNUSED)", 121);
      ("HYNADON (BADLANDS CRITTER)", 89);
      ("IGHT PIT DOOR", 208);
      ("IGHT UPPER LEVEL DOOR", 206);
      ("IGHT WALL FLAME TRAP", 213);
      ("IGHT WALL MISSILE TRAP", 212);
      ("UINS (UNUSED)", 186)])
  else if c =? char "S" then (oneOf unit 1 [
      ("AMIR DURAN (GHOST)", 99);
      ("ARAH KERRIGAN (GHOST)", 16);
      ("CANNER SWEEP", 33);
      ("CANTID (DESERT CRITTER)", 93);
      ("IEGE TANK TURRET (SIEGE MODE)", 31);
      ("IEGE TANK TURRET (TANK MODE)", 6);
      ("PIDER MINE", 13);
      ("TARBASE (UNUSED)", 119);
      ("TART LOCATION", 214);
      ("TASIS CELL/PRISON", 168)])
  else if c =? char "T" then (if at_ unit 1 =? char "E" then
      (let c := at_ unit 7 in
      if c =? char "A" then (oneOf unit 2 [
          ("RRAN ACADEMY", 112);
          ("RRAN ARMORY", 123)])
      else if c =? char "B" then (oneOf unit 2 [
          ("RRAN BARRACKS", 111);
          ("RRAN BATTLECRUISER", 12);
          ("RRAN BEACON", 195);
          ("RRAN BUNKER", 125)])
      else if c =? char "C" then (oneOf unit 2 [
          ("RRAN CIVILIAN", 15);
          ("RRAN COMMAND CENTER", 106);
          ("RRAN COMSAT STATION", 107);
          ("RRAN CONTROL TOWER", 115);
          ("RRAN COVERT OPS", 117)])
      else if c =? char "D" then (oneOf unit 2 [
          ("RRAN DROPSHIP", 11)])
      else if c =? char "E" then (oneOf unit 2 [
          ("RRAN ENGINEERING BAY", 122)])
      else if c =? char "F" then (oneOf unit 2 [
          ("RRAN FACTORY", 113);
          ("RRAN FIREBAT", 32);
          ("RRAN FLAG BEACON", 198)])
      else if c =? char "G" then (oneOf unit 2 [
          ("RRAN GHOST", 1);
          ("RRAN GOLIATH", 3)])
      else if c =? char "M" then (oneOf unit 2 [
          ("RRAN MACHINE SHOP", 120);
          ("RRAN MARINE", 0);
          ("RRAN MARKER", 192);
          ("RRAN MEDIC", 34);
          ("RRAN MISSILE TURRET", 124)])
      else if c =? char "N" then (oneOf unit 2 [
          ("RRAN NUCLEAR SILO", 108)])
      else if c =? char "P" then (oneOf unit 2 [
          ("RRAN PHYSICS LAB", 118)])
      else if c =? char "R" then (oneOf unit 2 [
          ("RRAN REFINERY", 110)])
      else if c =? char "S" then (oneOf unit 2 [
          ("RRAN SCIENCE FACILITY", 116);
          ("RRAN SCIENCE VESSEL", 9);
          ("RRAN SCV", 7);
          ("RRAN SIEGE TANK (SIEGE MODE)", 30);
          ("RRAN SIEGE TANK (TANK MODE)", 5);
          ("RRAN STARPORT", 114);
          ("RRAN SUPPLY DEPOT", 109)])
      else if c =? char "V" then (oneOf unit 2 [
          ("RRAN VALKYRIE", 58);
          ("RRAN VESPENE GAS TANK TYPE 1", 226);
          ("RRAN VESPENE GAS TANK TYPE 2", 227);
          ("RRAN VULTURE", 2)])
      else if c =? char "W" then (oneOf unit 2 [
          ("RRAN WRAITH", 8)])
      else None)
    else if at_ unit 1 =? char "A" then
      (oneOf unit 2 [
        ("SSADAR (TEMPLAR)", 79);
        ("SSADAR/ZERATUL (ARCHON)", 76)])
    else if at_ unit 1 =? char "O" then
      (oneOf unit 2 [
        ("M KAZANSKY (WRAITH)", 21);
        ("RRASQUE (ULTRALISK)", 48)])
    else None)
  else if c =? char "U" then (oneOf unit 1 [
      ("NCLEAN ONE (DEFILER)", 52);
      ("NUSED PROTOSS BUILDING 1", 158);
      ("NUSED PROTOSS BUILDING 2", 161);
      ("NUSED ZERG BUILDING 1", 145);
      ("NUSED ZERG BUILDING 2", 145);
      ("RAJ CRYSTAL", 128);
      ("RSADON (ICE WORLD CRITTER)", 96)])
  else if c =? char "V" then (oneOf unit 1 [
      ("ESPENE GEYSER", 188)])
  else if c =? char "W" then (oneOf unit 1 [
      ("ARBRINGER (REAVER)", 81);
      ("ARP GATE", 189)])
  else if c =? char "X" then (oneOf unit 1 [
      ("EL'NAGA TEMPLE", 175)])
  else if c =? char "Y" then (oneOf unit 1 [
      ("GGDRASILL (OVERLORD)", 57);
      ("OUNG CHRYSALIS", 216)])
  else if c =? char "Z" then (if at_ unit 3 =? char "G" then
      (let c := at_ unit 5 in
      if c =? char "B" then (oneOf unit 1 [
          ("ERG BEACON", 194);
          ("ERG BROODLING", 40)])
      else if c =? char "C" then (oneOf unit 1 [
          ("ERG CEREBRATE", 151);
          ("ERG CEREBRATE DAGGOTH", 152);
          ("ERG CREEP COLONY", 143)])
      else if c =? char "D" then (oneOf unit 1 [
          ("ERG DEFILER", 46);
          ("ERG DEFILER MOUND", 136);
          ("ERG DEVOURER", 62);
          ("ERG DRONE", 41)])
      else if c =? char "E" then (oneOf unit 1 [
          ("ERG EGG", 36);
          ("ERG EVOLUTION CHAMBER", 139);
          ("ERG EXTRACTOR", 149)])
      else if c =? char "F" then (oneOf unit 1 [
          ("ERG FLAG BEACON", 197)])
      else if c =? char "G" then (oneOf unit 1 [
          ("ERG GREATER SPIRE", 137);
          ("ERG GUARDIAN", 44)])
      else if c =? char "H" then (oneOf unit 1 [
          ("ERG HATCHERY", 131);
          ("ERG HIVE", 133);
          ("ERG HYDRALISK", 38);
          ("ERG HYDRALISK DEN", 135)])
      else if c =? char "L" then (oneOf unit 1 [
          ("ERG LAIR", 132);
          ("ERG LARVA", 35);
          ("ERG LURKER", 103)])
      else if c =? char "M" then (oneOf unit 1 [
          ("ERG MARKER", 191);
          ("ERG MUTALISK", 43)])
      else if c =? char "N" then (oneOf unit 1 [
          ("ERG NYDUS CANAL", 134)])
      else if c =? char "O" then (oneOf unit 1 [
          ("ERG OVERLORD", 42);
          ("ERG OVERMIND", 148);
          ("ERG OVERMIND (WITH SHELL)", 147)])
      else if c =? char "Q" then (oneOf unit 1 [
          ("ERG QUEEN", 45);
          ("ERG QUEEN'S NEST", 138)])
      else if c =? char "S" then (oneOf unit 1 [
          ("ERG SCOURGE", 47);
          ("ERG SPAWNING POOL", 142);
          ("ERG SPIRE", 141);
          ("ERG SPORE COLONY", 144);
          ("ERG SUNKEN COLONY", 146)])
      else if c =? char "U" then (oneOf unit 1 [
          ("ERG ULTRALISK", 39);
          ("ERG ULTRALISK CAVERN", 140)])
      else if c =? char "V" then (oneOf unit 1 [
          ("ERG VESPENE GAS SAC TYPE 1", 224);
          ("ERG VESPENE GAS SAC TYPE 2", 225)])
      else if c =? char "Z" then (oneOf unit 1 [
          ("ERG ZERGLING", 37)])
      else None)
    else oneOf unit 1 [
      ("ERATUL (DARK TEMPLAR)", 75)])
  else None.

(** Legacy names and short forms. *)
Definition legacyUnitName (unit : bytes) : option Z :=
  let c := at_ unit 0 in
  if c =? char "[" then (oneOf unit 1 [
      ("ANY UNIT]", 229);
      ("BUILDINGS]", 231);
      ("FACTORIES]", 232);
      ("MEN]", 230)])
  else if c =? char "A" then (oneOf unit 1 [
      ("LAN TURRET", 18)])
  else if c =? char "B" then (oneOf unit 1 [
      ("ENGALAAS (JUNGLE)", 90)])
  else if c =? char "C" then (oneOf unit 1 [
      ("ANTINA", 181);
      ("AVE", 179);
      ("AVE-IN", 180);
      ("OCOON", 59)])
  else if c =? char "D" then (oneOf unit 1 [
      ("ARK TEMPLAR (HERO)", 74);
      ("ISRUPTION FIELD", 105);
      ("UKE TURRET TYPE 1", 24);
      ("UKE TURRET TYPE 2", 26)])
  else if c =? char "E" then (oneOf unit 1 [
      ("DMUND DUKE (SIEGE TANK)", 23)])
  else if c =? char "G" then (oneOf unit 1 [
      ("ERARD DUGALLE (GHOST)", 102)])
  else if c =? char "I" then (oneOf unit 1 [
      ("NDEPENDENT COMMAND CENTER", 183);
      ("NDEPENDENT STARPORT", 184);
      ("NFESTED DURAN", 104);
      ("NFESTED KERRIGAN (INFESTED TERRAN)", 51);
      ("NVALID UNIT", 228)])
  else if c =? char "J" then (oneOf unit 1 [
      ("UMP GATE", 185)])
  else if c =? char "K" then (oneOf unit 1 [
      ("AKARU (TWILIGHT)", 94);
      ("YADARIN CRYSTAL FORMATION", 187)])
  else if c =? char "M" then (oneOf unit 1 [
      ("INING PLATFORM", 182);
      ("INERAL CHUNK (TYPE 1)", 220);
      ("INERAL CHUNK (TYPE 2)", 221)])
  else if c =? char "N" then (oneOf unit 1 [
      ("ORAD II (CRASHED BATTLECRUISER)", 126)])
  else if c =? char "P" then (oneOf unit 1 [
      ("ROTOSS DARK TEMPLAR", 61);
      ("ROTOSS UNUSED TYPE 1", 158);
      ("ROTOSS UNUSED TYPE 2", 161)])
  else if c =? char "R" then (over (oneOf unit 1 [
      ("CANTID (DESERT)", 93)])
    (oneOf unit 1 [
      ("AGNASAUR (ASH WORLD)", 95);
      ("UINS", 186);
      ("HYNADON (BADLANDS)", 89);
      ("ASZAGAL (DARK TEMPLAR)", 98)]))
  else if c =? char "S" then (oneOf unit 1 [
      ("CANTID (DESERT)", 93)])
  else if c =? char "T" then (oneOf unit 1 [
      ("ANK TURRET TYPE 1", 6);
      ("ANK TURRET TYPE 2", 31)])
  else if c =? char "U" then (oneOf unit 1 [
      ("NUSED TERRAN BLDG TYPE 1", 119);
      ("NUSED TERRAN BLDG TYPE 2", 121);
      ("NUSED TYPE 1", 91);
      ("NUSED TYPE 2", 92);
      ("NUSED ZERG BLDG", 145);
      ("NUSED ZERG BLDG 5", 153);
      ("RSADON (ICE WORLD)", 96)])
  else if c =? char "V" then (oneOf unit 1 [
      ("ULTURE SPIDER MINE", 13);
      ("ESPENE TANK (TERRAN TYPE 1)", 226);
      ("ESPENE TANK (TERRAN TYPE 2)", 227);
      ("ESPENE ORB (PROTOSS TYPE 1)", 222);
      ("ESPENE ORB (PROTOSS TYPE 2)", 223);
      ("ESPENE SAC (ZERG TYPE 1)", 224);
      ("ESPENE SAC (ZERG TYPE 2)", 225)])
  else if c =? char "Z" then (oneOf unit 1 [
      ("ERG LURKER EGG", 97)])
  else None.
