(* ===== verification/TextTrigArgs.v ===== *)
(** The arguments of text triggers (TextTrigCompiler.cpp): numbers, keywords,
    players, units, locations, switches, scripts and strings, and the choice of
    what an argument of a condition or an action may be.

    A parser takes the value its [dest] refers to and the position in the list
    of quoted texts, and returns whether it succeeded with what it left in both:
    one that fails may have changed them, and the next alternative of a
    disjunction starts from there. *)
From stdpp Require Import strings.
From S2P Require Import Prelude Codec ChkTypes TriggerTables Triggers StringTable EscapeStrings TextLib TextTrigNames.
Open Scope Z_scope.

(** ** What the compiler leaves to the runtime *)

(** [std::hash], the order in which an [unordered_multimap] keeps the values of
    one key (its elements are listed here in the order of insertion), and the
    characters an array without initializer holds. *)
Class Runtime := {
  strHash : bytes -> Z;
  equal_range : forall {A : Type}, list (Z * A) -> Z -> list A;
  indeterminate : bytes
}.

Class RuntimeLaws `{Runtime} := {
  equal_range_perm : forall (A : Type) (table : list (Z * A)) (key : Z),
    equal_range table key ≡ₚ (filter (fun p => p.1 = key) table).*2;
  indeterminate_length : length indeterminate = 12%nat;
  indeterminate_bytes : Forall (is_u 8) indeterminate
}.

(** ** The compiler *)

(** [LocationTableNode], [UnitTableNode], [SwitchTableNode], [GroupTableNode]
    and [ScriptTableNode] *)
Record TableNode := mkTableNode { nodeName : bytes; nodeId : Z }.

(** A [u32 *]: the field of an action of a trigger being compiled. *)
Record Assignee := mkAssignee { ofTrigger : Z; ofAction : Z; ofField : ActionArgs.ArgField }.

Record StringTableNode := mkStringTableNode {
  unused : bool;
  scStr : ScStr.ScStr;
  stringId : Z;
  assignees : list Assignee
}.
#[global] Instance updn_unused : Updater unused :=
  {| upd v s := mkStringTableNode v (scStr s) (stringId s) (assignees s); upd_get v s := eq_refl; upd_upd v w s := eq_refl |}.
#[global] Instance updn_scStr : Updater scStr :=
  {| upd v s := mkStringTableNode (unused s) v (stringId s) (assignees s); upd_get v s := eq_refl; upd_upd v w s := eq_refl |}.
#[global] Instance updn_stringId : Updater stringId :=
  {| upd v s := mkStringTableNode (unused s) (scStr s) v (assignees s); upd_get v s := eq_refl; upd_upd v w s := eq_refl |}.
#[global] Instance updn_assignees : Updater assignees :=
  {| upd v s := mkStringTableNode (unused s) (scStr s) (stringId s) v; upd_get v s := eq_refl; upd_upd v w s := eq_refl |}.

(** The nodes of strings are shared between tables: the tables hold their
    numbers in [nodes]. *)
Record TextTrigCompiler := mkTextTrigCompiler {
  useAddressesForMemory : bool;
  deathTableOffset : Z;
  locationTable : list (Z * TableNode);
  unitTable : list (Z * TableNode);
  switchTable : list (Z * TableNode);
  groupTable : list (Z * TableNode);
  scriptTable : list (Z * TableNode);
  newStringTable : list (Z * Z);
  unassignedStrings : list Z;
  newExtendedStringTable : list (Z * Z);
  unassignedExtendedStrings : list Z;
  nodes : list StringTableNode
}.
#[global] Instance updc_useAddressesForMemory : Updater useAddressesForMemory :=
  {| upd v s := mkTextTrigCompiler v (deathTableOffset s) (locationTable s) (unitTable s) (switchTable s) (groupTable s) (scriptTable s) (newStringTable s) (unassignedStrings s) (newExtendedStringTable s) (unassignedExtendedStrings s) (nodes s); upd_get v s := eq_refl; upd_upd v w s := eq_refl |}.
#[global] Instance updc_deathTableOffset : Updater deathTableOffset :=
  {| upd v s := mkTextTrigCompiler (useAddressesForMemory s) v (locationTable s) (unitTable s) (switchTable s) (groupTable s) (scriptTable s) (newStringTable s) (unassignedStrings s) (newExtendedStringTable s) (unassignedExtendedStrings s) (nodes s); upd_get v s := eq_refl; upd_upd v w s := eq_refl |}.
#[global] Instance updc_locationTable : Updater locationTable :=
  {| upd v s := mkTextTrigCompiler (useAddressesForMemory s) (deathTableOffset s) v (unitTable s) (switchTable s) (groupTable s) (scriptTable s) (newStringTable s) (unassignedStrings s) (newExtendedStringTable s) (unassignedExtendedStrings s) (nodes s); upd_get v s := eq_refl; upd_upd v w s := eq_refl |}.
#[global] Instance updc_unitTable : Updater unitTable :=
  {| upd v s := mkTextTrigCompiler (useAddressesForMemory s) (deathTableOffset s) (locationTable s) v (switchTable s) (groupTable s) (scriptTable s) (newStringTable s) (unassignedStrings s) (newExtendedStringTable s) (unassignedExtendedStrings s) (nodes s); upd_get v s := eq_refl; upd_upd v w s := eq_refl |}.
#[global] Instance updc_switchTable : Updater switchTable :=
  {| upd v s := mkTextTrigCompiler (useAddressesForMemory s) (deathTableOffset s) (locationTable s) (unitTable s) v (groupTable s) (scriptTable s) (newStringTable s) (unassignedStrings s) (newExtendedStringTable s) (unassignedExtendedStrings s) (nodes s); upd_get v s := eq_refl; upd_upd v w s := eq_refl |}.
#[global] Instance updc_groupTable : Updater groupTable :=
  {| upd v s := mkTextTrigCompiler (useAddressesForMemory s) (deathTableOffset s) (locationTable s) (unitTable s) (switchTable s) v (scriptTable s) (newStringTable s) (unassignedStrings s) (newExtendedStringTable s) (unassignedExtendedStrings s) (nodes s); upd_get v s := eq_refl; upd_upd v w s := eq_refl |}.
#[global] Instance updc_scriptTable : Updater scriptTable :=
  {| upd v s := mkTextTrigCompiler (useAddressesForMemory s) (deathTableOffset s) (locationTable s) (unitTable s) (switchTable s) (groupTable s) v (newStringTable s) (unassignedStrings s) (newExtendedStringTable s) (unassignedExtendedStrings s) (nodes s); upd_get v s := eq_refl; upd_upd v w s := eq_refl |}.
#[global] Instance updc_newStringTable : Updater newStringTable :=
  {| upd v s := mkTextTrigCompiler (useAddressesForMemory s) (deathTableOffset s) (locationTable s) (unitTable s) (switchTable s) (groupTable s) (scriptTable s) v (unassignedStrings s) (newExtendedStringTable s) (unassignedExtendedStrings s) (nodes s); upd_get v s := eq_refl; upd_upd v w s := eq_refl |}.
#[global] Instance updc_unassignedStrings : Updater unassignedStrings :=
  {| upd v s := mkTextTrigCompiler (useAddressesForMemory s) (deathTableOffset s) (locationTable s) (unitTable s) (switchTable s) (groupTable s) (scriptTable s) (newStringTable s) v (newExtendedStringTable s) (unassignedExtendedStrings s) (nodes s); upd_get v s := eq_refl; upd_upd v w s := eq_refl |}.
#[global] Instance updc_newExtendedStringTable : Updater newExtendedStringTable :=
  {| upd v s := mkTextTrigCompiler (useAddressesForMemory s) (deathTableOffset s) (locationTable s) (unitTable s) (switchTable s) (groupTable s) (scriptTable s) (newStringTable s) (unassignedStrings s) v (unassignedExtendedStrings s) (nodes s); upd_get v s := eq_refl; upd_upd v w s := eq_refl |}.
#[global] Instance updc_unassignedExtendedStrings : Updater unassignedExtendedStrings :=
  {| upd v s := mkTextTrigCompiler (useAddressesForMemory s) (deathTableOffset s) (locationTable s) (unitTable s) (switchTable s) (groupTable s) (scriptTable s) (newStringTable s) (unassignedStrings s) (newExtendedStringTable s) v (nodes s); upd_get v s := eq_refl; upd_upd v w s := eq_refl |}.
#[global] Instance updc_nodes : Updater nodes :=
  {| upd v s := mkTextTrigCompiler (useAddressesForMemory s) (deathTableOffset s) (locationTable s) (unitTable s) (switchTable s) (groupTable s) (scriptTable s) (newStringTable s) (unassignedStrings s) (newExtendedStringTable s) (unassignedExtendedStrings s) v; upd_get v s := eq_refl; upd_upd v w s := eq_refl |}.

(** What the parsers of arguments change beside their destination. *)
Record Cursor := mkCursor { nextString : Z; compiler : TextTrigCompiler }.

(** ** Parsers *)

Definition parser (S : Type) : Type := S -> Cursor -> outcome (bool * S * Cursor).

Definition fail {S} : parser S := fun s cur => Ret (false, s, cur).
(** [p || q] *)
Definition orElse {S} (p q : parser S) : parser S := fun s cur =>
  let* (ok, s, cur) := p s cur in if ok then Ret (true, s, cur) else q s cur.
Notation "p '|||' q" := (orElse p q) (at level 50, left associativity).

Definition numeric (f : Z -> outcome (bool * Z)) : parser Z := fun dest cur =>
  let* (ok, dest) := f dest in Ret (ok, dest, cur).
(** A parser of a field. *)
Definition into {R} (get : R -> Z) (set : Z -> R -> R) (p : parser Z) : parser R := fun r cur =>
  let* (ok, v, cur) := p (get r) cur in Ret (ok, set v r, cur).
(** The overloads for a wider destination start from 0. *)
Definition widened (p : parser Z) : parser Z := fun _ cur => p 0 cur.

Definition found (result : option Z) : parser Z := fun dest cur =>
  match result with Some v => Ret (true, v, cur) | None => Ret (false, dest, cur) end.

Section Arguments.
Context `{Runtime}.
Variables (text : bytes) (stringContents : list bytes).

(** ** Tables of names *)

(** The id of the nodes with this name, the lowest when there are several. *)
Definition lookupName (table : list (Z * TableNode)) (name : bytes) : option Z :=
  match equal_range table (strHash name) with
  | [node] => if bool_decide (nodeName node = name) then Some (nodeId node) else None
  | matching =>
      fold_left (fun (best : option Z) node =>
        if bool_decide (nodeName node = name) then
          match best with
          | None => Some (nodeId node)
          | Some id => Some (if nodeId node <? id then nodeId node else id)
          end
        else best) matching None
  end.

(** The first node with this name. *)
Definition lookupScript (table : list (Z * TableNode)) (name : bytes) : option Z :=
  match list_find (fun node => nodeName node = name) (equal_range table (strHash name)) with
  | Some (_, node) => Some (nodeId node)
  | None => None
  end.

(** Whether a quote opens the argument. *)
Definition quotedAt (pos : Z) : outcome bool := let* c := sget text pos in Ret (c =? 34).

(** [stringContents[nextString]], [nextString ++] *)
Definition takeString (cur : Cursor) : outcome (bytes * Cursor) :=
  let* s := vget stringContents (nextString cur) in
  Ret (s, mkCursor (nextString cur + 1) (compiler cur)).

(** ** Strings *)

Definition setNode (c : TextTrigCompiler) (n : Z) (node : StringTableNode) : outcome TextTrigCompiler :=
  let* ns := vset (nodes c) n node in Ret (c <| nodes := ns |>).

(** The first node of [newStringTable] with this text. *)
Definition matchingNode (c : TextTrigCompiler) (str : bytes) : outcome (option Z) :=
  first_such (fun n => let* node := vget (nodes c) n in Ret (ScStr.compareEq (scStr node) str))
             (equal_range (newStringTable c) (strHash str)).

Definition parseString (dest_ref : Assignee) (pos end_ : Z) : parser Z := fun dest cur =>
  let* noString := compareAt text pos (u64 (end_ - pos)) (lit "NOSTRING") in
  if noString then Ret (true, 0, cur) else
  let* quoted := if pos <? end_ then quotedAt pos else Ret false in
  if quoted then
    let* (str, cur) := takeString cur in
    let c := compiler cur in
    let* n := matchingNode c str in
    match n with
    | Some n =>
        let* node := vget (nodes c) n in
        let node := node <| unused := false |> in
        if stringId node =? 0 then
          let* c := setNode c n (node <| assignees := assignees node ++ [dest_ref] |>) in
          Ret (true, dest, mkCursor (nextString cur) c)
        else
          let* c := setNode c n node in
          Ret (true, stringId node, mkCursor (nextString cur) c)
    | None =>
        let n := zlen (nodes c) in
        let c := c <| nodes := nodes c ++ [mkStringTableNode false (ScStr.new str) 0 [dest_ref]] |>
                   <| newStringTable := newStringTable c ++ [(strHash str, n)] |>
                   <| unassignedStrings := unassignedStrings c ++ [n] |> in
        Ret (true, dest, mkCursor (nextString cur) c)
    end
  else numeric (fun d => parseLong text d pos end_) dest cur.

Definition parseSoundName (dest_ref : Assignee) (pos end_ : Z) : parser Z := fun dest cur =>
  let* noSound := compareAt text pos (u64 (end_ - pos)) (lit "NOWAV") in
  if noSound then Ret (true, 0, cur) else parseString dest_ref pos end_ dest cur.

(** ** Names in the map *)

(** A quoted text, or a number that is parsed at once, or the text itself. *)
Definition argumentText (quoted : bool) (number : Z -> outcome (bool * Z)) (pos end_ : Z) (dest : Z) (cur : Cursor)
    : outcome (option bytes * Z * Cursor) :=
  if quoted then let* (str, cur) := takeString cur in Ret (Some str, dest, cur)
  else
    let* (ok, dest) := number dest in
    if ok then Ret (None, dest, cur)
    else let* str := substr text pos (u64 (end_ - pos)) in Ret (Some str, dest, cur).

Definition parseLocationName (pos end_ : Z) : parser Z := fun dest cur =>
  let* noLocation := compareAt text pos (u64 (end_ - pos)) (lit "NOLOCATION") in
  if noLocation then Ret (true, 0, cur) else
  let* quoted := if pos <? end_ then quotedAt pos else Ret false in
  let* (str, dest, cur) := argumentText quoted (fun d => parseLong text d pos end_) pos end_ dest cur in
  match str with
  | None => Ret (true, dest, cur)
  | Some str =>
      let str := if bool_decide (str = lit "anywhere") then lit "Anywhere" else str in
      found (lookupName (locationTable (compiler cur)) str) dest cur
  end.

(** [char unit[40]] *)
Definition unitBuffer (str : bytes) : bytes :=
  (upper <$> str) ++ replicate (40 - length str) 0.

(** The standard names, where [ID:] is followed by a number. *)
Definition standardUnit (unit : bytes) (size dest : Z) : outcome (bool * Z) :=
  if (at_ unit 0 =? char "I") && (at_ unit 1 =? char "D") && (at_ unit 2 =? char ":")
  then parseShort (until_nul unit) dest 3 size
  else Ret (match standardUnitName unit with Some v => (true, v) | None => (false, dest) end).

Definition parseUnitName (pos end_ : Z) : parser Z := fun dest cur =>
  let* quoted := quotedAt pos in
  if quoted && (u64 (end_ - pos) <? 2) then Ret (false, dest, cur) else
  let* (str, dest, cur) := argumentText quoted (fun d => parseShort text d pos end_) pos end_ dest cur in
  match str with
  | None => Ret (true, dest, cur)
  | Some str =>
      let short := zlen str <? 40 in
      let unit := unitBuffer str in
      let* (ok, dest) := if short then standardUnit unit (zlen str) dest else Ret (false, dest) in
      if ok then Ret (true, dest, cur)
      else match lookupName (unitTable (compiler cur)) str with
           | Some v => Ret (true, v, cur)
           | None => found (if short then legacyUnitName unit else None) dest cur
           end
  end.

(** [(number = atoi(&str[at]))] when it is not 0 and [limit] allows it. *)
Definition numberAt (str : bytes) (at_ limit offset : Z) : option Z :=
  let number := u32 (atoi (drop (Z.to_nat at_) str)) in
  if negb (number =? 0) && (number <? limit) then Some (u32 (number - 1 + offset)) else None.

Definition isDigit (c : Z) : bool := (47 <? c) && (c <? 58).

(** The standard names of players and groups, in capital letters. *)
Definition standardPlayer (str : bytes) : outcome (option Z) :=
  let starts at_ s := compareAt str at_ (zlen (lit s)) (lit s) in
  let* c := sget str 0 in
  if c =? char "P" then
    let* c := sget str 1 in
    if c =? char "L" then when_ (starts 2 "AYER") (Ret (numberAt str 6 13 0)) (Ret None)
    else if isDigit c then Ret (numberAt str 2 13 0)
    else Ret None
  else if c =? char "F" then
    let* c := sget str 1 in
    if c =? char "O" then
      when_ (starts 2 "RCE") (Ret (numberAt str 5 5 18))
      (when_ (starts 2 "ES") (Ret (Some 14 (* Foes *))) (Ret None))
    else if isDigit c then Ret (numberAt str 2 5 18)
    else Ret None
  else if c =? char "A" then
    let* c := sget str 1 in
    if c =? char "L" then
      when_ (starts 2 "LPLAYERS") (Ret (Some 17 (* AllPlayers *)))
      (when_ (starts 2 "LIES") (Ret (Some 15 (* Allies *))) (Ret None))
    else if c =? char "P" then Ret (Some 17)
    else Ret None
  else if c =? char "C" then
    when_ (starts 1 "URRENTPLAYER") (Ret (Some 13 (* CurrentPlayer *)))
    (let* c := sget str 1 in if c =? char "P" then Ret (Some 13) else Ret None)
  else if c =? char "I" then
    when_ (starts 1 "D:") (Ret (numberAt str 3 (2 ^ 32) 1)) (Ret None)
  else if c =? char "N" then
    when_ (starts 1 "EUTRALPLAYERS") (Ret (Some 16 (* NeutralPlayers *)))
    (when_ (starts 1 "ONALLIEDVICTORYPLAYERS") (Ret (Some 26 (* NonAlliedVictoryPlayers *)))
    (when_ (starts 1 "ONE") (Ret (Some 12 (* None *)))
    (when_ (starts 1 "ONAVPLAYERS") (Ret (Some 26)) (Ret None))))
  else if c =? char "U" then
    when_ (starts 1 "NKNOWN/UNUSED") (Ret (Some 12))
    (when_ (starts 1 "NUSED1") (Ret (Some 22 (* Unused1 *)))
    (when_ (starts 1 "NUSED2") (Ret (Some 23))
    (when_ (starts 1 "NUSED3") (Ret (Some 24))
    (when_ (starts 1 "NUSED4") (Ret (Some 25)) (Ret None)))))
  else if isDigit c then Ret (numberAt str 0 (2 ^ 32) 1)
  else Ret None.

Definition parsePlayer (pos end_ : Z) : parser Z := fun dest cur =>
  let* quoted := quotedAt pos in
  let* (str, dest, cur) := argumentText quoted (fun d => parseLong text d pos end_) pos end_ dest cur in
  match str with
  | None => Ret (true, dest, cur)
  | Some str =>
      let* standard := standardPlayer (word str) in
      match standard with
      | Some v => Ret (true, v, cur)
      | None => found (lookupName (groupTable (compiler cur)) str) dest cur
      end
  end.

(** [std::array<char, 12> sw] has no initializer. *)
Definition standardSwitch (str : bytes) (dest : Z) : outcome (bool * Z) :=
  if zlen str <? 12 then
    let* sw := copyUpperCaseNoSpace indeterminate str in
    if bool_decide (take 6 sw = lit "SWITCH") then
      let dest := u8 (atoi (drop 6 sw)) in
      if dest =? 0 then Ret (false, dest) else Ret (true, dest - 1)
    else Ret (false, dest)
  else Ret (false, dest).

Definition parseSwitch (pos end_ : Z) : parser Z := fun dest cur =>
  let* quoted := quotedAt pos in
  let* (str, dest, cur) := argumentText quoted (fun d => parseByte text d pos end_) pos end_ dest cur in
  match str with
  | None => Ret (true, dest, cur)
  | Some str =>
      let* (ok, dest) := standardSwitch str dest in
      if ok then Ret (true, dest, cur)
      else found (lookupName (switchTable (compiler cur)) str) dest cur
  end.

Definition parseScript (pos end_ : Z) : parser Z := fun dest cur =>
  let* noScript := compareAt text pos (u64 (end_ - pos)) (lit "NOSCRIPT") in
  if noScript then Ret (true, 0, cur) else
  let* quoted := quotedAt pos in
  let* (str, cur) := if quoted then takeString cur
                     else let* s := substr text pos (u64 (end_ - pos)) in Ret (s, cur) in
  match lookupScript (scriptTable (compiler cur)) str with
  | Some v => Ret (true, v, cur)
  | None =>
      match str with
      | [a; b; c; d] =>
          let nonNumeric := existsb (fun x => negb ((48 <=? x) && (x <=? 57))) str in
          if quoted || nonNumeric then Ret (true, a + b * 2 ^ 8 + c * 2 ^ 16 + d * 2 ^ 24, cur)
          else Ret (false, dest, cur)
      | _ => Ret (false, dest, cur)
      end
  end.

(** ** Keywords *)

(** The argument in capital letters without spaces in an array of [n] zeros. *)
Definition keywordText (n : nat) (pos end_ : Z) (cur : Cursor) : outcome (bytes * Cursor) :=
  let* quoted := quotedAt pos in
  let* (source, cur) := if quoted then takeString cur
                        else let* s := slice text pos (u64 (end_ - pos)) in Ret (s, cur) in
  let* array := copyUpperCaseNoSpace (replicate n 0) source in
  Ret (until_nul array, cur).

Definition keyword (n : nat) (words : list (string * (Z -> Z))) (pos end_ : Z) : parser Z := fun dest cur =>
  let* (str, cur) := keywordText n pos end_ cur in
  match list_find (fun w => lit w.1 = str) words with
  | Some (_, w) => Ret (true, w.2 dest, cur)
  | None => Ret (false, dest, cur)
  end.

Definition to (v : Z) : Z -> Z := fun _ => v.

Definition parseNumericComparison : Z -> Z -> parser Z :=
  keyword 12 [("ATLEAST", to 0); ("ATMOST", to 1); ("EXACTLY", to 10)].
Definition parseSwitchState : Z -> Z -> parser Z :=
  keyword 8 [("CLEARED", to 3); ("NOTSET", to 3); ("SET", to 2)].
Definition parseSpecialUnitAmount : Z -> Z -> parser Z := keyword 4 [("ALL", to 0)].
Definition parseAllianceStatus : Z -> Z -> parser Z :=
  keyword 16 [("ALLIEDVICTORY", to 2); ("ALLY", to 1); ("ENEMY", to 0)].
Definition parseResourceType : Z -> Z -> parser Z :=
  keyword 12 [("ORE", to 0); ("OREANDGAS", to 2); ("GAS", to 1)].
Definition parseScoreType : Z -> Z -> parser Z :=
  keyword 20 [("BUILDINGS", to 2); ("CUSTOM", to 7); ("KILLS", to 4); ("KILLSANDRAZINGS", to 6);
              ("RAZINGS", to 5); ("TOTAL", to 0); ("UNITS", to 1); ("UNITSANDBUILDINGS", to 3)].
Definition parseTextDisplayFlag : Z -> Z -> parser Z :=
  keyword 24 [("ALWAYSDISPLAY", fun d => Z.lor d 4); ("DON'TALWAYSDISPLAY", fun d => Z.land d 0xFB)].
Definition parseNumericModifier : Z -> Z -> parser Z :=
  keyword 12 [("ADD", to 8); ("SETTO", to 7); ("SUBTRACT", to 9)].
Definition parseSwitchMod : Z -> Z -> parser Z :=
  keyword 10 [("CLEAR", to 5); ("RANDOMIZE", to 11); ("SET", to 4); ("TOGGLE", to 6)].
Definition parseStateMod : Z -> Z -> parser Z :=
  keyword 12 [("DISABLE", to 5); ("DISABLED", to 5); ("ENABLE", to 4); ("ENABLED", to 4); ("TOGGLE", to 6)].
Definition parseOrder : Z -> Z -> parser Z :=
  keyword 8 [("ATTACK", to 2); ("MOVE", to 0); ("PATROL", to 1)].

Definition parseMemoryAddress (offset pos end_ : Z) : parser Z := fun dest cur =>
  let* (ok, temp) := parseLong text 0 pos end_ in
  Ret (if ok then (true, u32 (temp / 4 * 4 - offset) / 4, cur) else (false, dest, cur)).

End Arguments.

(** ** Arguments of conditions and actions *)

(** [returnMsg(test, msg)]: [None] on success, else the message. *)
Definition returnMsg {S} (p : parser S) (msg : string) (s : S) (cur : Cursor)
    : outcome (option string * S * Cursor) :=
  let* (ok, s, cur) := p s cur in Ret (if ok then None else Some msg, s, cur).

Section Fields.
Context `{Runtime}.
Variables (text : bytes) (stringContents : list bytes) (pos end_ : Z).

Definition long : parser Z := numeric (fun d => parseLong text d pos end_).
Definition short : parser Z := numeric (fun d => parseShort text d pos end_).
Definition byte : parser Z := numeric (fun d => parseByte text d pos end_).

(** The argument of [Memory] and [SetMemory]. *)
Definition memoryOffset : parser Z := fun dest cur =>
  if useAddressesForMemory (compiler cur)
  then parseMemoryAddress text (deathTableOffset (compiler cur)) pos end_ dest cur
  else long dest cur.
Definition memoryMsg (cur : Cursor) : string :=
  if useAddressesForMemory (compiler cur) then "Expected: 4-byte address"
  else "Expected: 4-byte death table offset".

Import ConditionArgs.

Definition parseConditionArg (argument : Argument) (c : Condition.Condition) (cur : Cursor)
    : outcome (option string * Condition.Condition * Cursor) :=
  let locationId := into Condition.locationId (upd Condition.locationId) in
  let player := into Condition.player (upd Condition.player) in
  let amount := into Condition.amount (upd Condition.amount) in
  let unitType := into Condition.unitType (upd Condition.unitType) in
  let comparison := into Condition.comparison (upd Condition.comparison) in
  let conditionType := into Condition.conditionType (upd Condition.conditionType) in
  let typeIndex := into Condition.typeIndex (upd Condition.typeIndex) in
  let flags := into Condition.flags (upd Condition.flags) in
  let maskFlag := into Condition.maskFlag (upd Condition.maskFlag) in
  match type argument with
  | T_Unit => returnMsg (unitType (parseUnitName text stringContents pos end_ ||| short))
      "Expected: Unit name or 2-byte unitID" c cur
  | T_Location => returnMsg (locationId (parseLocationName text stringContents pos end_ ||| long))
      "Expected: Location name or 4-byte locationNum" c cur
  | T_Player => returnMsg (player (parsePlayer text stringContents pos end_ ||| long))
      "Expected: Player/group name or 4-byte id" c cur
  | T_Amount => returnMsg (amount long) "Expected: 4-byte amount" c cur
  | T_NumericComparison => returnMsg (comparison (parseNumericComparison text stringContents pos end_ ||| byte))
      "Expected: Numeric comparison or 1-byte comparisonID" c cur
  | T_ResourceType => returnMsg (typeIndex (parseResourceType text stringContents pos end_ ||| byte))
      "Expected: Resource type or 1-byte resourceID" c cur
  | T_ScoreType => returnMsg (typeIndex (parseScoreType text stringContents pos end_ ||| byte))
      "Expected: Score type or 1-byte scoreID" c cur
  | T_Switch => returnMsg (typeIndex (parseSwitch text stringContents pos end_ ||| byte))
      "Expected: Switch name or 1-byte switchID" c cur
  | T_SwitchState => returnMsg (comparison (parseSwitchState text stringContents pos end_ ||| byte))
      "Expected: Switch state or 1-byte comparisonID" c cur
  | T_Comparison => returnMsg (comparison (byte ||| parseNumericComparison text stringContents pos end_
        ||| parseSwitchState text stringContents pos end_))
      "Expected: 1-byte comparison" c cur
  | T_ConditionType => returnMsg (conditionType byte) "Expected: 1-byte conditionID" c cur
  | T_TypeIndex => returnMsg (typeIndex (byte ||| parseResourceType text stringContents pos end_
        ||| parseScoreType text stringContents pos end_ ||| parseSwitch text stringContents pos end_))
      "Expected: 1-byte typeId, resource type, score type, or switch name" c cur
  | T_Flags => returnMsg (flags byte) "Expected: 1-byte flags" c cur
  | T_MaskFlag => returnMsg (maskFlag short) "Expected: 2-byte internal data" c cur
  | T_MemoryOffset => returnMsg (player memoryOffset) (memoryMsg cur) c cur
  | T_NoType => Ret (Some EmptyString, c, cur)
  end.

Import ActionArgs.

(** [place] tells where a field of the action is, for the strings whose id
    is not known yet. *)
Definition parseActionArg (place : ArgField -> Assignee) (arg : Argument) (a : Action.Action) (cur : Cursor)
    : outcome (option string * Action.Action * Cursor) :=
  let locationId := into Action.locationId (upd Action.locationId) in
  let stringId := into Action.stringId (upd Action.stringId) in
  let soundStringId := into Action.soundStringId (upd Action.soundStringId) in
  let time := into Action.time (upd Action.time) in
  let group := into Action.group (upd Action.group) in
  let number := into Action.number (upd Action.number) in
  let type_ := into Action.type (upd Action.type) in
  let actionType := into Action.actionType (upd Action.actionType) in
  let type2 := into Action.type2 (upd Action.type2) in
  let flags := into Action.flags (upd Action.flags) in
  let padding := into Action.padding (upd Action.padding) in
  let maskFlag := into Action.maskFlag (upd Action.maskFlag) in
  let isNumber := bool_decide (field arg = F_Number) in
  let isType2 := bool_decide (field arg = F_Type2) in
  let scoreType16 := widened (parseScoreType text stringContents pos end_) in
  let resourceType16 := widened (parseResourceType text stringContents pos end_) in
  let switch32 := widened (parseSwitch text stringContents pos end_) in
  match type arg with
  | T_Location => returnMsg ((if isNumber then number else locationId)
        (parseLocationName text stringContents pos end_ ||| long))
      "Expected: Location name or 4-byte locationNum" a cur
  | T_String => returnMsg (stringId (parseString text stringContents (place F_StringId) pos end_ ||| long))
      "Expected: String or stringNum" a cur
  | T_Player => returnMsg ((if isNumber then number else group) (parsePlayer text stringContents pos end_ ||| long))
      "Expected: Group name or 4-byte groupID" a cur
  | T_Unit => returnMsg (type_ (parseUnitName text stringContents pos end_ ||| short))
      "Expected: Unit name or 2-byte unitID" a cur
  | T_NumUnits => returnMsg (type2 (parseSpecialUnitAmount text stringContents pos end_ ||| byte))
      "Expected: 1-byte number" a cur
  | T_CUWP | T_Percent | T_Amount =>
      returnMsg (if isType2 then type2 byte else number long)
        (if isType2 then "Expected: 1-byte number" else "Expected: 4-byte number") a cur
  | T_ScoreType => returnMsg (type_ (scoreType16 ||| short)) "Expected: Score type or 1-byte scoreID" a cur
  | T_ResourceType => returnMsg (type_ (resourceType16 ||| short)) "Expected: Resource type or 2-byte number" a cur
  | T_StateMod => returnMsg (type2 (parseStateMod text stringContents pos end_ ||| byte))
      "Expected: State modifier or 1-byte number" a cur
  | T_Order => returnMsg (type2 (parseOrder text stringContents pos end_ ||| byte))
      "Expected: Order or 1-byte number" a cur
  | T_Sound => returnMsg (soundStringId (parseSoundName text stringContents (place F_SoundStringId) pos end_ ||| long))
      "Expected: Wav name or 4-byte wavID" a cur
  | T_Duration => returnMsg (time long) "Expected: 4-byte duration" a cur
  | T_Script => returnMsg (number (parseScript text stringContents pos end_ ||| long))
      "Expected: Script name or 4-byte script num" a cur
  | T_AllyState => returnMsg (type_ (parseAllianceStatus text stringContents pos end_ ||| short))
      "Expected: Alliance status or 2-byte number" a cur
  | T_NumericMod => returnMsg (type2 (parseNumericModifier text stringContents pos end_ ||| byte))
      "Expected: Numeric modifier or 1-byte number" a cur
  | T_Switch => returnMsg (number (switch32 ||| long)) "Expected: Switch name or 4-byte number" a cur
  | T_SwitchMod => returnMsg (type2 (parseSwitchMod text stringContents pos end_ ||| byte))
      "Expected: Switch modifier or 1-byte number" a cur
  | T_ActionType => returnMsg (actionType byte) "Expected: 1-byte actionID" a cur
  | T_TextFlags | T_Flags => returnMsg (flags (parseTextDisplayFlag text stringContents pos end_ ||| byte))
      "Expected: Always display text flags or 1-byte flag data" a cur
  | T_Number => returnMsg (number (parsePlayer text stringContents pos end_
        ||| parseLocationName text stringContents pos end_ ||| parseScript text stringContents pos end_
        ||| switch32 ||| long))
      "Expected: Group, location, script, switch, or 4-byte number" a cur
  | T_TypeIndex => returnMsg (type_ (parseUnitName text stringContents pos end_
        ||| scoreType16 ||| resourceType16 ||| parseAllianceStatus text stringContents pos end_ ||| short))
      "Expected: Unit, score type, resource type, alliance status, or 2-byte typeID" a cur
  | T_SecondaryTypeIndex => returnMsg (type2 (parseSwitchMod text stringContents pos end_
        ||| parseOrder text stringContents pos end_ ||| parseNumericModifier text stringContents pos end_
        ||| parseStateMod text stringContents pos end_ ||| byte))
      "Expected: Switch modifier, order, numeric modifier, state modifier, or 1-byte number" a cur
  | T_Padding => returnMsg (padding byte) "Expected: 1-byte padding" a cur
  | T_MaskFlag => returnMsg (maskFlag short) "Expected: 2-byte mask flag" a cur
  | T_MemoryOffset => returnMsg (group memoryOffset) (memoryMsg cur) a cur
  | T_NoType => Ret (Some EmptyString, a, cur)
  end.

End Fields.
