(* ===== verification/TextTrigParser.v ===== *)
(** The text of triggers (TextTrigCompiler.cpp): [cleanText], which takes out
    spaces, comments and quoted texts, and [parseTriggers], a state machine over
    the clean text with one function for each thing it can expect.

    An error is the line and the message.  The fuel of the two loops is one unit
    for each round; [None] stands for a loop that has not ended by then. *)
From stdpp Require Import strings.
From S2P Require Import Prelude Codec ChkTypes Accessors TriggerTables Triggers EscapeStrings TextLib TextTrigNames TextTrigArgs.
Open Scope Z_scope.

(** ** Cleaning *)

Definition npos : Z := 2 ^ 64 - 1.

(** Where a comment ends. *)
Definition commentEnd (text : bytes) (pos : Z) : Z :=
  match find text 10 pos with
  | Some p => p
  | None => match find text 13 pos with
            | Some p => p
            | None => match find text 11 pos with
                      | Some p => p
                      | None => default (zlen text) (find text 12 pos)
                      end
            end
  end.

Record Cleaning := mkCleaning { cleanPos : Z; cleanDest : bytes; cleanStrings : list bytes }.

(** One round of the loop of [cleanText]. *)
Definition cleanStep (text : bytes) (st : Cleaning) : outcome Cleaning :=
  let '(mkCleaning pos dest strings) := st in
  let* c := vget text pos in
  let pos := pos + 1 in
  if (c =? 32) || (c =? 9) then Ret (mkCleaning pos dest strings)
  else if c =? 13 then
    let* next := sget text pos in
    Ret (mkCleaning (if next =? 10 then pos + 1 else pos) (dest ++ [10]) strings)
  else if (c =? 10) || (c =? 11) || (c =? 12) then Ret (mkCleaning pos (dest ++ [10]) strings)
  else if c =? char "/" then
    let* next := sget text pos in
    Ret (mkCleaning (if next =? char "/" then commentEnd text pos else pos) dest strings)
  else if c =? 34 then
    let* close := findStringEnd text pos in
    let closeQuotePos := default npos close in
    let* escString := substr text pos (u64 (closeQuotePos - pos)) in
    let* rawString := convertStr EscString RawString escString in
    Ret (mkCleaning (u64 (closeQuotePos + 1)) (dest ++ [34; 34]) (strings ++ [default [] rawString]))
  else Ret (mkCleaning pos (dest ++ [upper c]) strings).

Fixpoint cleanLoop (fuel : nat) (text : bytes) (st : Cleaning) : option (outcome (bytes * list bytes)) :=
  if cleanPos st <? zlen text then
    match fuel with
    | O => None
    | S fuel =>
        match cleanStep text st with
        | Ret st => cleanLoop fuel text st
        | Throw e => Some (Throw e)
        | Undef => Some Undef
        end
    end
  else Some (Ret (cleanDest st, cleanStrings st)).

(** [cleanText]: the clean text and the contents of the quoted texts. *)
Definition cleanText (fuel : nat) (text : bytes) : option (outcome (bytes * list bytes)) :=
  cleanLoop fuel text (mkCleaning 0 [] []).

(** ** The state of the parser *)

Inductive Expecting :=
  | Trigger_EndOfText
  | Player_EndOfPlayers
  | OpenTriggerBody
  | SectionStart_EndOfTrigger
  | ConditionStart_NonConditionSectionStart
  | ConditionArg_EndOfCondition
  | NonConditionSectionStart_EndOfTrigger
  | ActionStart_FlagSectionStart_EndOfTrigger
  | ActionArg_EndOfAction
  | FlagSectionStart_EndOfTrigger
  | ExecutionFlags
  | EndOfTrigger
  | Last.

#[global] Instance Expecting_eq_dec : EqDecision Expecting.
Proof. solve_decision. Defined.

(** The local variables of [parseTriggers].  [currCondition] and [currAction]
    point into [currTrig], which is null until the first trigger starts. *)
Record Parse := mkParse {
  pos : Z;
  line : Z;
  expecting : Expecting;
  argIndex : Z;
  numConditions : Z;
  numActions : Z;
  conditionId : Z;
  actionId : Z;
  currTrig : option Trigger.Trigger;
  currCondition : Z;
  currAction : Z;
  cursor : Cursor;
  output : list Trigger.Trigger
}.
#[global] Instance updp_pos : Updater pos :=
  {| upd v s := mkParse v (line s) (expecting s) (argIndex s) (numConditions s) (numActions s) (conditionId s) (actionId s) (currTrig s) (currCondition s) (currAction s) (cursor s) (output s); upd_get v s := eq_refl; upd_upd v w s := eq_refl |}.
#[global] Instance updp_line : Updater line :=
  {| upd v s := mkParse (pos s) v (expecting s) (argIndex s) (numConditions s) (numActions s) (conditionId s) (actionId s) (currTrig s) (currCondition s) (currAction s) (cursor s) (output s); upd_get v s := eq_refl; upd_upd v w s := eq_refl |}.
#[global] Instance updp_expecting : Updater expecting :=
  {| upd v s := mkParse (pos s) (line s) v (argIndex s) (numConditions s) (numActions s) (conditionId s) (actionId s) (currTrig s) (currCondition s) (currAction s) (cursor s) (output s); upd_get v s := eq_refl; upd_upd v w s := eq_refl |}.
#[global] Instance updp_argIndex : Updater argIndex :=
  {| upd v s := mkParse (pos s) (line s) (expecting s) v (numConditions s) (numActions s) (conditionId s) (actionId s) (currTrig s) (currCondition s) (currAction s) (cursor s) (output s); upd_get v s := eq_refl; upd_upd v w s := eq_refl |}.
#[global] Instance updp_numConditions : Updater numConditions :=
  {| upd v s := mkParse (pos s) (line s) (expecting s) (argIndex s) v (numActions s) (conditionId s) (actionId s) (currTrig s) (currCondition s) (currAction s) (cursor s) (output s); upd_get v s := eq_refl; upd_upd v w s := eq_refl |}.
#[global] Instance updp_numActions : Updater numActions :=
  {| upd v s := mkParse (pos s) (line s) (expecting s) (argIndex s) (numConditions s) v (conditionId s) (actionId s) (currTrig s) (currCondition s) (currAction s) (cursor s) (output s); upd_get v s := eq_refl; upd_upd v w s := eq_refl |}.
#[global] Instance updp_conditionId : Updater conditionId :=
  {| upd v s := mkParse (pos s) (line s) (expecting s) (argIndex s) (numConditions s) (numActions s) v (actionId s) (currTrig s) (currCondition s) (currAction s) (cursor s) (output s); upd_get v s := eq_refl; upd_upd v w s := eq_refl |}.
#[global] Instance updp_actionId : Updater actionId :=
  {| upd v s := mkParse (pos s) (line s) (expecting s) (argIndex s) (numConditions s) (numActions s) (conditionId s) v (currTrig s) (currCondition s) (currAction s) (cursor s) (output s); upd_get v s := eq_refl; upd_upd v w s := eq_refl |}.
#[global] Instance updp_currTrig : Updater currTrig :=
  {| upd v s := mkParse (pos s) (line s) (expecting s) (argIndex s) (numConditions s) (numActions s) (conditionId s) (actionId s) v (currCondition s) (currAction s) (cursor s) (output s); upd_get v s := eq_refl; upd_upd v w s := eq_refl |}.
#[global] Instance updp_currCondition : Updater currCondition :=
  {| upd v s := mkParse (pos s) (line s) (expecting s) (argIndex s) (numConditions s) (numActions s) (conditionId s) (actionId s) (currTrig s) v (currAction s) (cursor s) (output s); upd_get v s := eq_refl; upd_upd v w s := eq_refl |}.
#[global] Instance updp_currAction : Updater currAction :=
  {| upd v s := mkParse (pos s) (line s) (expecting s) (argIndex s) (numConditions s) (numActions s) (conditionId s) (actionId s) (currTrig s) (currCondition s) v (cursor s) (output s); upd_get v s := eq_refl; upd_upd v w s := eq_refl |}.
#[global] Instance updp_cursor : Updater cursor :=
  {| upd v s := mkParse (pos s) (line s) (expecting s) (argIndex s) (numConditions s) (numActions s) (conditionId s) (actionId s) (currTrig s) (currCondition s) (currAction s) v (output s); upd_get v s := eq_refl; upd_upd v w s := eq_refl |}.
#[global] Instance updp_output : Updater output :=
  {| upd v s := mkParse (pos s) (line s) (expecting s) (argIndex s) (numConditions s) (numActions s) (conditionId s) (actionId s) (currTrig s) (currCondition s) (currAction s) (cursor s) v; upd_get v s := eq_refl; upd_upd v w s := eq_refl |}.

Record ParseError := mkParseError { errorLine : Z; errorText : list string }.

Definition blankTrigger : Trigger.Trigger := Trigger.mkTrigger
  (replicate 16 TRG.blankCondition) (replicate 64 TRG.blankAction) 0 (replicate 27 0) 0.

(** What a part returns: the error, or the state in which to go on. *)
Definition part : Type := outcome (ParseError + Parse).
Definition expected (st : Parse) (messages : list string) : part := Ret (inl (mkParseError (line st) messages)).
Definition continue (st : Parse) : part := Ret (inr st).

(** [*currTrig] *)
Definition theTrigger (st : Parse) : outcome Trigger.Trigger :=
  match currTrig st with Some t => Ret t | None => Undef end.

Fixpoint newlines (s : bytes) : Z :=
  match s with c :: r => if c =? 10 then 1 + newlines r else 0 | [] => 0 end.

Section Parts.
Context `{Runtime}.
Variables (text : bytes) (stringContents : list bytes).

Definition advance (n : Z) (st : Parse) : Parse := st <| pos := pos st + n |>.
Definition expect (e : Expecting) (st : Parse) : Parse := st <| expecting := e |>.

(** [while ( text[pos] == '\n' ) { pos ++; line ++; }] *)
Definition skipLines (st : Parse) : Parse :=
  let n := newlines (drop (Z.to_nat (pos st)) text) in
  (advance n st) <| line := u32 (line st + n) |>.

Definition charAt (st : Parse) : outcome Z := sget text (pos st).
Definition isAt (st : Parse) (s : string) : outcome bool := compareAt text (pos st) (zlen (lit s)) (lit s).

(** The character [c] is next, or an error. *)
Definition need (c : Z) (messages : list string) (next : Expecting) (st : Parse) : part :=
  let* here := charAt st in
  if here =? c then continue (expect next (advance 1 st)) else expected st messages.

(** ** The parts *)

Definition newTrigger (st : Parse) : Parse :=
  st <| currTrig := Some blankTrigger |> <| currCondition := 0 |> <| currAction := 0 |>.

Definition parsePartZero (st : Parse) : part :=
  let* open := isAt st "TRIGGER(" in
  if open then continue (newTrigger (expect Player_EndOfPlayers (advance 8 st))) else
  let* name := isAt st "TRIGGER" in
  if name then
    let st := skipLines (advance 7 st) in
    let* here := charAt st in
    if here =? char "(" then continue (newTrigger (expect Player_EndOfPlayers (advance 1 st)))
    else expected st ["Expected: '('"]
  else
    let* here := charAt st in
    if here =? 0 then continue (newTrigger (advance 1 st))
    else expected st ["Expected: 'Trigger' or End of Text"].

(** The owner that is named, and the value after a colon. *)
Definition parseExecutingPlayer (pos end_ : Z) (t : Trigger.Trigger) (cur : Cursor)
    : outcome (bool * Trigger.Trigger * Cursor) :=
  let own (group value : Z) (cur : Cursor) :=
    let* os := vset (Trigger.owners t) group value in
    Ret (true, t <| Trigger.owners := os |>, cur) in
  let separator := find text (char ":") pos in
  let* (ok, group, cur) :=
    match separator with
    | Some sep => parsePlayer text stringContents pos sep 0 cur
    | None => Ret (false, 0, cur)
    end in
  if ok && (group <? 27) then
    let sep := default 0 separator in
    let* (ok, value) := parseByte text 0 (sep + 1) end_ in
    own group (if ok then value else 1) cur
  else
    let* (ok, group, cur) := parsePlayer text stringContents pos end_ group cur in
    if ok && (group <? 27) then own group 1 cur else Ret (false, t, cur).

Definition parsePartOne (st : Parse) : part :=
  let* here := charAt st in
  if here =? char ")" then continue (expect OpenTriggerBody (advance 1 st)) else
  let nextComma := findNext text (pos st) (char ",") (char "{") in
  let playerEnd := match nextComma with
                   | Some p => Some p
                   | None => findNext text (pos st) (char ")") (char "{")
                   end in
  match playerEnd with
  | None => expected st ["Expected: ',' or ')'"]
  | Some playerEnd =>
      let lineEnd := default (zlen text) (find text 10 (pos st)) in
      let playerEnd := Z.min playerEnd lineEnd in
      let* t := theTrigger st in
      let* (ok, t, cur) := parseExecutingPlayer (pos st) playerEnd t (cursor st) in
      let st := st <| currTrig := Some t |> <| cursor := cur |> in
      if ok then
        let st := skipLines (st <| pos := playerEnd |>) in
        let* here := charAt st in
        continue (advance 1 (if here =? char ")" then expect OpenTriggerBody st else st))
      else expected st ["Expected: Player Identifier"]
  end.

Definition parsePartTwo (st : Parse) : part := need (char "{") ["Expected: '{'"] SectionStart_EndOfTrigger st.

Definition parsePartThree (st : Parse) : part :=
  let* conditions := isAt st "CONDITIONS:" in
  if conditions then continue (expect ConditionStart_NonConditionSectionStart (advance 11 st)) else
  let* actions := isAt st "ACTIONS:" in
  if actions then continue (expect ActionStart_FlagSectionStart_EndOfTrigger (advance 8 st)) else
  let* flags := isAt st "FLAGS:" in
  if flags then continue (expect ExecutionFlags (advance 6 st)) else
  let* here := charAt st in
  if here =? char "}" then continue (expect Last (advance 1 st)) else
  let* hasConditions := isAt st "CONDITIONS" in
  let* hasActions := if hasConditions then Ret false else isAt st "ACTIONS" in
  if hasConditions || hasActions then
    need (char ":") ["Expected: ':'"]
      (if hasConditions then ConditionStart_NonConditionSectionStart else ActionStart_FlagSectionStart_EndOfTrigger)
      (skipLines (advance (if hasConditions then 10 else 7) st))
  else expected st ["Expected: 'Conditions' or 'Actions' or 'Flags' or '}'"].

(** [parseCondition]: the type and its flags. *)
Definition parseCondition (pos end_ : Z) : outcome (Z * Z) :=
  let* s := slice text pos (end_ - pos) in
  let* name := parseConditionName (word s) in
  let conditionType := default 0 name in
  let* flags := CND.getDefaultFlagsVirtual conditionType in
  Ret (conditionType, flags).

Definition extendedToRegularConditionType (conditionType : Z) : Z :=
  if conditionType =? -2 then 15 else u8 conditionType.

(** A condition whose name ends before [conditionEnd]. *)
Definition conditionStart (disabled : bool) (conditionEnd : Z) (st : Parse) : part :=
  let* (id, flags) := parseCondition (pos st) conditionEnd in
  let st := st <| conditionId := id |> in
  if id =? 0 then expected st ["Expected: Condition Name"] else
  let st := st <| argIndex := 0 |> in
  if numConditions st >? MaxConditions then expected st ["Condition Max Exceeded!"] else
  let* t := theTrigger st in
  let* c := TRG.condition t (numConditions st) in
  let c := c <| Condition.flags := if disabled then Z.lor flags CND.Flags_Disabled else flags |>
             <| Condition.conditionType := if id <? 0 then extendedToRegularConditionType id else u8 id |> in
  let* cs := set_at MaxConditions (Trigger.conditions t) (numConditions st) c in
  let st := st <| currTrig := Some (t <| Trigger.conditions := cs |>) |>
               <| currCondition := numConditions st |> <| numConditions := numConditions st + 1 |> in
  need (char "(") ["Expected: '('"] ConditionArg_EndOfCondition (skipLines (st <| pos := conditionEnd |>)).

Definition parsePartFour (st : Parse) : part :=
  let* here := charAt st in
  if here =? char ";" then
    let st := skipLines (advance 1 st) in
    match find text (char "(") (pos st) with
    | None => expected st ["Expected: '('"]
    | Some conditionEnd =>
        (* the end of the line is taken for the end of the text, and [npos] is kept *)
        conditionStart true
          (match find text 10 (pos st) with Some _ => Z.min conditionEnd (zlen text) | None => conditionEnd end) st
    end
  else if here =? char "}" then continue (expect Last (advance 1 st)) else
  let* actions := isAt st "ACTIONS" in
  if actions then
    need (char ":") ["Expected: ':'"] ActionStart_FlagSectionStart_EndOfTrigger (skipLines (advance 7 st)) else
  let* flags := isAt st "FLAGS" in
  if flags then need (char ":") ["Expected: ':'"] ExecutionFlags (advance 5 st) else
  match find text (char "(") (pos st) with
  | None => expected st ["Expected: '('"]
  | Some conditionEnd =>
      let lineEnd := default (zlen text) (find text 10 (pos st)) in
      conditionStart false (Z.min conditionEnd lineEnd) st
  end.

(** The current condition with what its argument changes. *)
Definition conditionArgument (argument : ConditionArgs.Argument) (argEnd : Z) (st : Parse)
    : outcome (option string * Parse) :=
  let* t := theTrigger st in
  let* c := vget (Trigger.conditions t) (currCondition st) in
  let* (error, c, cur) := parseConditionArg text stringContents (pos st) argEnd argument c (cursor st) in
  let* cs := vset (Trigger.conditions t) (currCondition st) c in
  Ret (error, st <| currTrig := Some (t <| Trigger.conditions := cs |>) |> <| cursor := cur |>).

Definition parsePartFive (st : Parse) : part :=
  let* argument := CND.getTextArgVirtual (conditionId st) (argIndex st) in
  let noType := bool_decide (ConditionArgs.type argument = ConditionArgs.T_NoType) in
  let* here := charAt st in
  if here =? char ")" then
    if negb noType then expected st ["Expected: Condition Argument"]
    else need (char ";") ["Expected: ';'"] ConditionStart_NonConditionSectionStart (skipLines (advance 1 st))
  else if noType then expected st ["Expected: ')'"]
  else
    let* next := CND.getTextArgTypeVirtual (conditionId st) (argIndex st + 1) in
    let isLast := bool_decide (next = ConditionArgs.T_NoType) in
    match find text (if isLast then char ")" else char ",") (pos st) with
    | None => expected st [if isLast then "Expected: ')'" else "Expected: ','"]
    | Some argEnd =>
        let* (error, st) := conditionArgument argument argEnd st in
        match error with
        | None => continue (st <| pos := if isLast then argEnd else argEnd + 1 |> <| argIndex := argIndex st + 1 |>)
        | Some msg => expected st [msg]
        end
    end.

Definition parsePartSix (st : Parse) : part :=
  let* here := charAt st in
  if here =? char "}" then continue (expect Last (advance 1 st)) else
  let* actions := isAt st "ACTIONS:" in
  if actions then continue (expect ActionStart_FlagSectionStart_EndOfTrigger (advance 8 st)) else
  let* flags := isAt st "FLAGS:" in
  if flags then continue (expect ExecutionFlags (advance 6 st)) else
  let* a := isAt st "ACTIONS" in
  let* f := if a then Ret true else isAt st "FLAGS" in
  expected st [if f then "Expected: ':'" else "Expected: 'Actions' or 'Flags' or '}'"].

Definition parseAction (pos end_ : Z) : outcome (Z * Z) :=
  let* s := slice text pos (end_ - pos) in
  let* name := parseAction_name (word s) in
  let actionType := default 0 name in
  let* flags := ACT.getDefaultFlagsVirtual actionType in
  Ret (actionType, flags).

Definition extendedToRegularActionType (actionType : Z) : Z :=
  if actionType =? -2 then 45 else u8 actionType.

Definition actionStart (disabled : bool) (actionEnd : Z) (st : Parse) : part :=
  let* (id, flags) := parseAction (pos st) actionEnd in
  let st := st <| actionId := id |> in
  if id =? 0 then expected st ["Expected: Action Name or '}'"] else
  let st := st <| argIndex := 0 |> in
  if numActions st >? MaxActions then expected st ["Action Max Exceeded!"] else
  let* t := theTrigger st in
  let* a := TRG.action t (numActions st) in
  let a := a <| Action.flags := if disabled then Z.lor flags ACT.Flags_Disabled else flags |>
             <| Action.actionType := if id <? 0 then extendedToRegularActionType id else u8 id |> in
  let* as_ := set_at MaxActions (Trigger.actions t) (numActions st) a in
  continue (expect ActionArg_EndOfAction
    (st <| currTrig := Some (t <| Trigger.actions := as_ |>) |>
        <| currAction := numActions st |> <| numActions := numActions st + 1 |>
        <| pos := actionEnd + 1 |>)).

Definition parsePartSeven (st : Parse) : part :=
  let* here := charAt st in
  let lineEnd st := default (zlen text) (find text 10 (pos st)) in
  if here =? char ";" then
    let st := advance 1 st in
    match find text (char "(") (pos st) with
    | None => continue st
    | Some actionEnd => actionStart true (Z.min actionEnd (lineEnd st)) st
    end
  else if here =? char "}" then continue (expect Last (advance 1 st)) else
  let* flags := isAt st "FLAGS" in
  if flags then need (char ":") ["Expected: ':'"] ExecutionFlags (advance 5 st) else
  match find text (char "(") (pos st) with
  | None => expected st ["Expected: '('"]
  | Some actionEnd => actionStart false (Z.min actionEnd (lineEnd st)) st
  end.

(** The place of a field of the current action. *)
Definition place (st : Parse) (f : ActionArgs.ArgField) : Assignee := mkAssignee (zlen (output st)) (currAction st) f.

Definition actionArgument (argument : ActionArgs.Argument) (argEnd : Z) (st : Parse)
    : outcome (option string * Parse) :=
  let* t := theTrigger st in
  let* a := vget (Trigger.actions t) (currAction st) in
  let* (error, a, cur) := parseActionArg text stringContents (pos st) argEnd (place st) argument a (cursor st) in
  let* as_ := vset (Trigger.actions t) (currAction st) a in
  Ret (error, st <| currTrig := Some (t <| Trigger.actions := as_ |>) |> <| cursor := cur |>).

Definition parsePartEight (st : Parse) : part :=
  let* argument := ACT.getTextArgVirtual (actionId st) (argIndex st) in
  let noType := bool_decide (ActionArgs.type argument = ActionArgs.T_NoType) in
  let* here := charAt st in
  if here =? char ")" then
    if negb noType then expected st ["Expected: Action Argument"]
    else need (char ";") ["Expected: ';'"] ActionStart_FlagSectionStart_EndOfTrigger (skipLines (advance 1 st))
  else if noType then expected st ["Expected: ')'"]
  else
    let* next := ACT.getTextArgTypeVirtual (actionId st) (argIndex st + 1) in
    let isLast := bool_decide (next = ActionArgs.T_NoType) in
    match find text (if isLast then char ")" else char ",") (pos st) with
    | None => expected st [if isLast then "Expected: ')'" else "Expected: Additional Arguments"]
    | Some argEnd =>
        let* (error, st) := actionArgument argument argEnd st in
        match error with
        | None => continue (st <| pos := if isLast then argEnd else argEnd + 1 |> <| argIndex := argIndex st + 1 |>)
        | Some msg => expected st ["Expected: Action Argument"; msg]
        end
    end.

Definition parsePartNine (st : Parse) : part :=
  let* here := charAt st in
  if here =? char "}" then continue (expect Last (advance 1 st)) else
  let* flags := isAt st "FLAGS:" in
  if flags then continue (expect ExecutionFlags (advance 6 st)) else
  let* f := isAt st "FLAGS" in
  expected st [if f then "Expected: ':'" else "Expected: 'Flags' or '}'"].

Definition parseExecutionFlags (pos end_ : Z) : outcome (bool * Z) :=
  let* s := slice text pos (end_ - pos) in
  let arg := word s in
  parseBinaryLong arg 0 0 (zlen arg).

Definition parsePartTen (st : Parse) : part :=
  let* here := charAt st in
  if here =? char ";" then continue (expect EndOfTrigger (advance 1 st)) else
  match find text (char ";") (pos st) with
  | None => expected st ["Expected: ';'"]
  | Some flagsEnd =>
      let* t := theTrigger st in
      let* (ok, flags) := parseExecutionFlags (pos st) flagsEnd in
      let st := st <| currTrig := Some (t <| Trigger.flags := flags |>) |> in
      if ok then continue (expect EndOfTrigger (st <| pos := flagsEnd + 1 |>))
      else expected st ["Expected: Binary Execution Flags (32-bit max)."]
  end.

Definition parsePartEleven (st : Parse) : part := need (char "}") ["Expected: '}'"] Last st.

(** ** The loop *)

(** [true] when the function returns in this round. *)
Definition step (st : Parse) : outcome (ParseError + bool * Parse) :=
  let go (p : part) : outcome (ParseError + bool * Parse) :=
    let* r := p in Ret (match r with inl e => inl e | inr st => inr (false, st) end) in
  let* here := charAt st in
  if here =? 10 then Ret (inr (false, (advance 1 st) <| line := u32 (line st + 1) |>)) else
  match expecting st with
  | Trigger_EndOfText => go (parsePartZero st)
  | Player_EndOfPlayers => go (parsePartOne st)
  | OpenTriggerBody => go (parsePartTwo st)
  | SectionStart_EndOfTrigger => go (parsePartThree st)
  | ConditionStart_NonConditionSectionStart => go (parsePartFour st)
  | ConditionArg_EndOfCondition => go (parsePartFive st)
  | NonConditionSectionStart_EndOfTrigger => go (parsePartSix st)
  | ActionStart_FlagSectionStart_EndOfTrigger => go (parsePartSeven st)
  | ActionArg_EndOfAction => go (parsePartEight st)
  | FlagSectionStart_EndOfTrigger => go (parsePartNine st)
  | ExecutionFlags => go (parsePartTen st)
  | EndOfTrigger => go (parsePartEleven st)
  | Last =>
      let* t := theTrigger st in
      let st := expect Trigger_EndOfText
        (st <| numConditions := 0 |> <| numActions := 0 |> <| output := output st ++ [t] |>) in
      Ret (inr (here =? 0, st))
  end.

Fixpoint run (fuel : nat) (st : Parse) : option (outcome (ParseError + Parse)) :=
  if pos st <? zlen text then
    match fuel with
    | O => None
    | S fuel =>
        match step st with
        | Ret (inl e) => Some (Ret (inl e))
        | Ret (inr (true, st)) => Some (Ret (inr st))
        | Ret (inr (false, st)) => run fuel st
        | Throw e => Some (Throw e)
        | Undef => Some Undef
        end
    end
  else Some (Ret (inr st)).

End Parts.

Definition initialParse (c : TextTrigCompiler) : Parse :=
  mkParse 0 1 Trigger_EndOfText 0 0 0 0 0 None 0 0 (mkCursor 0 c) [].

(** [parseTriggers]: the triggers and the compiler with the strings they use. *)
Definition parseTriggers `{Runtime} (fuel : nat) (text : bytes) (stringContents : list bytes) (c : TextTrigCompiler)
    : option (outcome (ParseError + list Trigger.Trigger * TextTrigCompiler)) :=
  match run (text ++ [0]) stringContents fuel (initialParse c) with
  | None => None
  | Some o => Some (let* r := o in
                    Ret (match r with inl e => inl e | inr st => inr (output st, compiler (cursor st)) end))
  end.
