(* ===== verification/TextTrigProps.v ===== *)
(** What holds of the parser of text triggers for every text: the loop of
    [parseTriggers] ends, [cleanText] ends at once or never, and every trigger
    that is parsed fits its place in the file. *)
From stdpp Require Import strings.
From S2P Require Import Prelude Codec ChkTypes Accessors TriggerTables Triggers StringTable EscapeStrings EscapeProps TextLib TextTrigNames TextTrigArgs TextTrigParser.
Open Scope Z_scope.

(** ** Reasoning about parts *)

(** [Q] holds of every state in which the part goes on. *)
Definition yields (p : part) (Q : Parse -> Prop) : Prop := forall st', p = Ret (inr st') -> Q st'.

Lemma yields_bind {A} (o : outcome A) (f : A -> part) Q :
  (forall a, o = Ret a -> yields (f a) Q) -> yields (let* a := o in f a) Q.
Proof. intros H st' E. apply bind_inv in E as (a & Ea & E). exact (H a Ea st' E). Qed.

Lemma yields_expected st msgs Q : yields (expected st msgs) Q.
Proof. intros st' E. discriminate E. Qed.

Lemma yields_continue st (Q : Parse -> Prop) : Q st -> yields (continue st) Q.
Proof. intros H st' E. by injection E as <-. Qed.

Lemma yields_need text c msgs next st (Q : Parse -> Prop) :
  Q (expect next (advance 1 st)) -> yields (need text c msgs next st) Q.
Proof.
  intros HQ. unfold need. apply yields_bind. intros here _.
  destruct (here =? c); [by apply yields_continue | apply yields_expected].
Qed.

(** Walk through a part: a goal is left for each way to go on. *)
Ltac walk :=
  repeat match goal with
  | |- forall x, _ -> yields _ _ => intros ? ?
  | |- yields (obind _ _) _ => apply yields_bind; intros ? ?
  | |- yields (expected _ _) _ => apply yields_expected
  | |- yields (continue _) _ => apply yields_continue
  | |- yields (need _ _ _ _ _) _ => apply yields_need
  | |- yields (if ?b then _ else _) _ => destruct b eqn:?
  | |- yields (match ?o with Some _ => _ | None => _ end) _ => destruct o eqn:?
  | |- yields (match ?p with pair _ _ => _ end) _ => destruct p
  end.

(** ** Positions *)

Lemma find_range text c p q : 0 <= p -> find text c p = Some q -> p <= q < zlen text.
Proof.
  unfold find. intros Hp. destruct (Z.ltb_spec p (zlen text)) as [Hlt|]; [|discriminate].
  destruct (list_find _ _) as [[i x]|] eqn:E; [|discriminate]. intros Hq. injection Hq as <-.
  apply list_find_Some in E as (E & _). apply lookup_lt_Some in E. rewrite length_drop in E.
  unfold zlen in *. lia.
Qed.

Lemma findNext_range text p c t q : 0 <= p -> findNext text p c t = Some q -> p <= q < zlen text.
Proof.
  unfold findNext. intros Hp. destruct (Z.ltb_spec p (zlen text)) as [Hlt|]; [|discriminate].
  destruct (list_find _ _) as [[i x]|] eqn:E; [|discriminate].
  destruct (x =? c); [|discriminate]. intros Hq. injection Hq as <-.
  apply list_find_Some in E as (E & _). apply lookup_lt_Some in E. rewrite length_drop in E.
  unfold zlen in *. lia.
Qed.

Lemma newlines_range s : 0 <= newlines s <= zlen s.
Proof. induction s as [|c s IH]; [done|]. cbn [newlines]. rewrite zlen_cons. destruct (c =? 10); lia. Qed.

Lemma skipLines_pos text st : pos st <= pos (skipLines text st).
Proof. pose proof (newlines_range (drop (Z.to_nat (pos st)) text)). cbn. lia. Qed.

(** The next character is not at the end of a line. *)
Lemma lineEnd_range text p (Hp : 0 <= p <= zlen text) : p <= default (zlen text) (find text 10 p) <= zlen text.
Proof. destruct (find text 10 p) eqn:E; cbn; [apply find_range in E|]; lia. Qed.

Lemma find_later text c p q : 0 <= p -> find text c p = Some q -> vget text p <> Ret c -> p < q.
Proof.
  intros Hp E Hc. pose proof (find_range _ _ _ _ Hp E) as Hr.
  destruct (Z.eq_dec p q) as [<-|]; [|lia]. exfalso. apply Hc.
  unfold find in E. destruct (p <? zlen text); [|discriminate].
  destruct (list_find _ _) as [[i x]|] eqn:L; [|discriminate]. injection E as E.
  apply list_find_Some in L as (L & -> & _). assert (i = 0%nat) as -> by lia.
  rewrite lookup_drop, Nat.add_0_r in L. by apply vget_Some.
Qed.

(** ** The loop ends *)

Section Ends.
Context `{Runtime}.
Variables (text : bytes) (stringContents : list bytes).

(** A state in the text. *)
Definition inText (st : Parse) : Prop := 0 <= pos st < zlen text.
Definition passes (st st' : Parse) : Prop := pos st < pos st'.

Lemma charAt_here st c : inText st -> charAt text st = Ret c -> vget text (pos st) = Ret c.
Proof. unfold inText, charAt, sget. intros Hin. by destruct (Z.eqb_spec (pos st) (zlen text)); [lia|]. Qed.

Lemma conditionStart_passes disabled e st :
  pos st <= e -> yields (conditionStart text disabled e st) (passes st).
Proof.
  intros He. unfold conditionStart. walk. unfold passes.
  match goal with |- context [skipLines text ?s] => pose proof (skipLines_pos text s) as Hs; cbn in Hs |- * end. lia.
Qed.

Lemma actionStart_passes disabled e st :
  pos st <= e -> yields (actionStart text disabled e st) (passes st).
Proof. intros He. unfold actionStart. walk. unfold passes. cbn. lia. Qed.

Lemma conditionArgument_pos argument e st r :
  conditionArgument text stringContents argument e st = Ret r -> pos r.2 = pos st.
Proof. unfold conditionArgument. intros E. ret_inv. destruct a1 as [[? ?] ?]. by ret_inv. Qed.

Lemma actionArgument_pos argument e st r :
  actionArgument text stringContents argument e st = Ret r -> pos r.2 = pos st.
Proof. unfold actionArgument. intros E. ret_inv. destruct a1 as [[? ?] ?]. by ret_inv. Qed.

Lemma passes_skip st st' : passes st st' -> passes st (skipLines text st').
Proof. unfold passes. pose proof (skipLines_pos text st'). lia. Qed.

(** The end of an argument is behind its first character, which does not end it. *)
Lemma argument_end st here c e :
  inText st -> charAt text st = Ret here -> (here =? c) = false -> find text c (pos st) = Some e -> pos st < e.
Proof.
  intros Hin Hh Hne Hf. apply (find_later text c); [unfold inText in Hin; lia|done|].
  rewrite (charAt_here _ _ Hin Hh). intros E. injection E as ->. by rewrite Z.eqb_refl in Hne.
Qed.

Lemma advance_passes n st : 0 < n -> passes st (advance n st).
Proof. unfold passes. cbn. lia. Qed.

(** Positions after the lines that were skipped. *)
Ltac pass :=
  unfold passes;
  repeat match goal with |- context [skipLines text ?s] =>
    let n := fresh "n" in
    pose proof (skipLines_pos text s); set (n := skipLines text s) in *; clearbody n
  end;
  cbn in *; lia.

Lemma partOne_passes st : inText st -> yields (parsePartOne text stringContents st) (passes st).
Proof.
  intros Hin. unfold parsePartOne. walk; [unfold passes; cbn; lia|]. unfold inText in Hin.
  match goal with Hz : match findNext ?t ?p ?c ?e with _ => _ end = Some ?z |- _ =>
    assert (pos st <= z) by (destruct (findNext t p c e) eqn:E; simplify_eq;
      [apply findNext_range in E | apply findNext_range in Hz]; lia) end.
  pose proof (lineEnd_range text (pos st) ltac:(lia)).
  match goal with |- context [skipLines text ?s] => pose proof (skipLines_pos text s) as Hs; cbn in Hs end.
  unfold passes. match goal with |- context [if ?b then _ else _] => destruct b end; cbn; lia.
Qed.

Lemma partFour_passes st : inText st -> yields (parsePartFour text st) (passes st).
Proof.
  intros Hin. pose proof (lineEnd_range text (pos st) ltac:(unfold inText in Hin; lia)) as Hl.
  unfold parsePartFour. walk; try pass.
  - set (st1 := skipLines text (advance 1 st)) in *.
    assert (Hp : passes st st1) by (apply passes_skip, advance_passes; lia).
    assert (Hq : pos st1 <= z < zlen text)
      by (eapply find_range; [unfold passes, inText in *; lia | eassumption]).
    intros st' E. eapply conditionStart_passes in E; [unfold passes in *; lia|].
    destruct (find text 10 (pos st1)); lia.
  - apply conditionStart_passes. unfold inText in Hin.
    match goal with Hf : find _ _ _ = Some _ |- _ => apply find_range in Hf end; lia.
Qed.

Lemma partFive_passes st : inText st -> yields (parsePartFive text stringContents st) (passes st).
Proof.
  intros Hin. unfold parsePartFive. walk; try pass.
  match goal with Hr : conditionArgument _ _ _ _ _ = Ret _ |- _ => apply conditionArgument_pos in Hr; cbn in Hr end.
  unfold passes. cbn. match goal with |- context [if ?b then _ else _] => destruct b end.
  - eapply argument_end; eassumption.
  - match goal with Hf : find _ _ _ = Some _ |- _ => apply find_range in Hf end; unfold inText in Hin; lia.
Qed.

Lemma partSeven_passes st : inText st -> yields (parsePartSeven text st) (passes st).
Proof.
  intros Hin. pose proof (lineEnd_range text (pos st) ltac:(unfold inText in Hin; lia)) as Hl.
  unfold parsePartSeven. walk; try pass; unfold inText in Hin;
    match goal with Hf : find _ _ _ = Some _ |- _ => apply find_range in Hf; cbn in Hf; [|cbn; lia] end.
  - intros st' E. apply actionStart_passes in E; [unfold passes in *; cbn in E; lia|].
    pose proof (lineEnd_range text (pos (advance 1 st)) ltac:(cbn; lia)). cbn in *. lia.
  - apply actionStart_passes. lia.
Qed.

Lemma partEight_passes st : inText st -> yields (parsePartEight text stringContents st) (passes st).
Proof.
  intros Hin. unfold parsePartEight. walk; try pass.
  match goal with Hr : actionArgument _ _ _ _ _ = Ret _ |- _ => apply actionArgument_pos in Hr; cbn in Hr end.
  unfold passes. cbn. match goal with |- context [if ?b then _ else _] => destruct b end.
  - eapply argument_end; eassumption.
  - match goal with Hf : find _ _ _ = Some _ |- _ => apply find_range in Hf end; unfold inText in Hin; lia.
Qed.

Lemma partTen_passes st : inText st -> yields (parsePartTen text st) (passes st).
Proof.
  intros Hin. unfold parsePartTen. walk; unfold passes; cbn; [lia|].
  match goal with Hf : find _ _ _ = Some _ |- _ => apply find_range in Hf end; unfold inText in Hin; lia.
Qed.

(** What is left to do: twice the characters, and one round for a trigger that
    has just ended. *)
Definition remaining (st : Parse) : Z :=
  2 * (zlen text - pos st) + (if bool_decide (expecting st = Last) then 1 else 0).

Lemma passes_remaining st st' :
  passes st st' -> remaining st' + (if bool_decide (expecting st = Last) then 2 else 1) <= remaining st.
Proof. unfold passes, remaining. repeat case_bool_decide; lia. Qed.

Lemma step_remaining st st' :
  inText st -> step text stringContents st = Ret (inr (false, st')) ->
  remaining st' < remaining st /\ pos st <= pos st'.
Proof.
  intros Hin E. unfold step in E. apply bind_inv in E as (here & Hh & E).
  destruct (here =? 10); [ret_inv; simplify_eq; unfold remaining; cbn; case_bool_decide; lia|].
  assert (Hpart : forall p : part, yields p (passes st) -> expecting st <> Last ->
    (let* r := p in Ret (match r with inl e => inl e | inr st => inr (false, st) end)) = Ret (inr (false, st')) ->
    remaining st' < remaining st /\ pos st <= pos st').
  { intros p Hp Hl Ep. apply bind_inv in Ep as (r & Ep & Er). destruct r as [e|s]; [discriminate|]. injection Er as <-.
    specialize (Hp _ Ep). pose proof (passes_remaining _ _ Hp). rewrite bool_decide_eq_false_2 in * by done.
    unfold passes in Hp. lia. }
  destruct (expecting st) eqn:Ex;
    try (eapply Hpart; [|congruence|exact E]; clear E Hpart;
      first [by apply partOne_passes | by apply partFour_passes | by apply partFive_passes
            | by apply partSeven_passes | by apply partEight_passes | by apply partTen_passes
            | unfold parsePartZero, parsePartTwo, parsePartThree, parsePartSix, parsePartNine, parsePartEleven;
              walk; try match goal with |- context [if ?b then 10 else 7] => destruct b end; pass]).
  ret_inv. simplify_eq. unfold remaining. cbn. rewrite Ex. repeat case_bool_decide; simplify_eq; lia.
Qed.

Lemma run_ends fuel st :
  0 <= pos st -> remaining st <= Z.of_nat fuel -> is_Some (run text stringContents fuel st).
Proof.
  revert st. induction fuel as [|fuel IH]; intros st Hp Hr; cbn [run];
    destruct (Z.ltb_spec (pos st) (zlen text)) as [Hlt|]; try by eexists.
  - unfold remaining in Hr. case_bool_decide; lia.
  - destruct (step text stringContents st) as [[e|[[|] st']]| |] eqn:E; try by eexists.
    destruct (step_remaining st st' ltac:(by split) E). apply IH; lia.
Qed.
End Ends.

(** C7: [parseTriggers] comes to an end on every text: two rounds for each character
    and two for the terminator are enough, whatever the text says and whatever
    the tables of names hold. *)
Theorem parseTriggers_ends `{Runtime} (text : bytes) (stringContents : list bytes) (c : TextTrigCompiler) :
  is_Some (parseTriggers (2 * (length text + 1)) text stringContents c).
Proof.
  unfold parseTriggers.
  destruct (run_ends (text ++ [0]) stringContents (2 * (length text + 1)) (initialParse c)) as [o ->]; [done| |by eexists].
  unfold remaining. rewrite zlen_app. change (zlen [0]) with 1. cbn [initialParse pos expecting].
  rewrite bool_decide_eq_false_2 by done. unfold zlen. lia.
Qed.

(** ** Cleaning ends or never does *)

Section Clean.
Variables (text : bytes) (Hsize : zlen text < 2 ^ 64).

Lemma findStringEnd_loop_ok fuel p :
  0 <= p -> zlen text - p <= Z.of_nat fuel ->
  exists r, findStringEnd_loop fuel text p = Ret r /\ (forall q, r = Some q -> p <= q < zlen text).
Proof.
  revert p. induction fuel as [|fuel IH]; intros p Hp Hf; cbn [findStringEnd_loop];
    destruct (Z.ltb_spec p (zlen text)) as [Hlt|]; try lia; try by exists None.
  destruct (find text 34 p) as [q|] eqn:E; [|by exists None].
  pose proof (find_range _ _ _ _ Hp E) as Hq.
  assert (exists b, (if q >? 0 then let* c := vget text (q - 1) in Ret (c =? 92) else Ret false) = Ret b) as [b ->].
  { destruct (Z.gtb_spec q 0); [|by eexists].
    destruct (vget_in text (q - 1) ltac:(lia)) as (c & _ & ->). by eexists. }
  cbn [obind]. destruct b.
  - destruct (IH (q + 1)) as (r & -> & Hr); [lia..|]. exists r. split; [done|].
    intros q' ->. specialize (Hr q' eq_refl). lia.
  - exists (Some q). split; [done|]. intros q' Eq. injection Eq as <-. lia.
Qed.

Lemma findStringEnd_ok p : 0 <= p ->
  exists r, findStringEnd text p = Ret r /\ (forall q, r = Some q -> p <= q < zlen text).
Proof. intros Hp. apply findStringEnd_loop_ok; [done|]. unfold zlen. lia. Qed.

(** What a round adds does not depend on what was there. *)
Lemma cleanStep_appends p dest strings :
  cleanStep text (mkCleaning p dest strings) =
  let* r := cleanStep text (mkCleaning p [] []) in
  Ret (mkCleaning (cleanPos r) (dest ++ cleanDest r) (strings ++ cleanStrings r)).
Proof.
  unfold cleanStep. destruct (vget text p) as [c| |]; cbn [obind]; [|done..].
  repeat (case_match; cbn [obind cleanPos cleanDest cleanStrings app];
    rewrite ?app_nil_r; try done).
  - destruct (sget text (p + 1)); cbn; by rewrite ?app_nil_r.
  - destruct (sget text (p + 1)); cbn; by rewrite ?app_nil_r.
  - destruct (findStringEnd text (p + 1)); cbn [obind]; [|done..].
    destruct (substr _ _ _); cbn [obind]; [|done..].
    by destruct (convertStr _ _ _); cbn.
Qed.

(** Where the text is read, outside of comments and quoted texts: after a
    character, after the line feed of a pair, at the end of a comment and after
    the end of a quoted text. *)
Inductive lexed : Z -> Prop :=
  | lexed_start : lexed 0
  | lexed_char p c : lexed p -> vget text p = Ret c -> c <> 13 -> c <> char "/" -> c <> 34 -> lexed (p + 1)
  | lexed_return p : lexed p -> vget text p = Ret 13 -> vget text (p + 1) <> Ret 10 -> lexed (p + 1)
  | lexed_pair p : lexed p -> vget text p = Ret 13 -> vget text (p + 1) = Ret 10 -> lexed (p + 2)
  | lexed_slash p : lexed p -> vget text p = Ret (char "/") -> vget text (p + 1) <> Ret (char "/") -> lexed (p + 1)
  | lexed_comment p : lexed p -> vget text p = Ret (char "/") -> vget text (p + 1) = Ret (char "/") ->
      lexed (commentEnd text (p + 1))
  | lexed_quote p q : lexed p -> vget text p = Ret 34 -> findStringEnd text (p + 1) = Ret (Some q) -> lexed (q + 1).

(** There is a quote, outside of comments and quoted texts, that is not closed. *)
Definition openQuote : Prop := exists p, lexed p /\ vget text p = Ret 34 /\ findStringEnd text (p + 1) = Ret None.

Lemma commentEnd_range p : 0 <= p <= zlen text -> p <= commentEnd text p.
Proof.
  intros Hp. unfold commentEnd.
  repeat match goal with |- context [find ?t ?c ?q] =>
    destruct (find t c q) eqn:?; [by match goal with Hf : find _ _ _ = Some _ |- _ => apply find_range in Hf; cbn; lia end|]
  end. cbn. lia.
Qed.

Lemma commentEnd_le p : 0 <= p <= zlen text -> commentEnd text p <= zlen text.
Proof.
  intros Hp. unfold commentEnd.
  repeat match goal with |- context [find ?t ?c ?q] =>
    destruct (find t c q) eqn:?; [by match goal with Hf : find _ _ _ = Some _ |- _ => apply find_range in Hf; cbn; lia end|]
  end. cbn. lia.
Qed.

Lemma unescape_returns e : exists raw, convertStr EscString RawString e = Ret raw.
Proof. unfold convertStr, parseEscStr. rewrite parseEscStr_ref. cbn [obind]. case_match; by eexists. Qed.

Lemma sget_vget p c : 0 <= p <= zlen text -> c <> 0 ->
  exists d, sget text p = Ret d /\ (d = c <-> vget text p = Ret c).
Proof.
  intros Hp Hc. unfold sget. destruct (Z.eqb_spec p (zlen text)) as [->|Hne].
  - exists 0. split; [done|]. split; [lia|]. intros [Hl _]%vget_inv. lia.
  - destruct (vget_in text p ltac:(lia)) as (d & _ & E). exists d. rewrite E. split; [done|]. split; [by intros -> | by intros [= ->]].
Qed.

(** A round returns, and goes to the next position that is read; from a quote
    that is not closed it goes back to the start. *)
Lemma cleanStep_moves p :
  0 <= p < zlen text -> lexed p -> exists r, cleanStep text (mkCleaning p [] []) = Ret r /\
    (p < cleanPos r /\ lexed (cleanPos r) \/ cleanPos r = 0 /\ openQuote).
Proof.
  intros Hp Hl. unfold cleanStep. destruct (vget_in text p Hp) as (c & _ & Ec). rewrite Ec. cbn [obind].
  pose proof (commentEnd_range (p + 1) ltac:(lia)) as Hcomment.
  destruct (sget_vget (p + 1) 10 ltac:(lia) ltac:(lia)) as (d & Ed & Hd).
  destruct (sget_vget (p + 1) (char "/") ltac:(lia) ltac:(done)) as (d' & Ed' & Hd').
  rewrite Ed in Ed' |- *. injection Ed' as <-. cbn [obind].
  destruct (Z.eqb_spec c 13) as [->|H13]; [|destruct (Z.eqb_spec c (char "/")) as [->|Hslash]];
    [| |destruct (Z.eqb_spec c 34) as [->|H34]].
  - eexists. split; [reflexivity|]. left. cbn [cleanPos]. destruct (Z.eqb_spec d 10).
    + split; [lia|]. replace (p + 1 + 1) with (p + 2) by lia. apply lexed_pair; tauto.
    + split; [lia|]. apply lexed_return; tauto.
  - eexists. split; [reflexivity|]. left. cbn [cleanPos]. destruct (Z.eqb_spec d (char "/")).
    + split; [lia|]. apply lexed_comment; tauto.
    + split; [lia|]. apply lexed_slash; tauto.
  - destruct (findStringEnd_ok (p + 1)) as (q & Eq & Hq); [lia|].
    change ((34 =? 32) || (34 =? 9)) with false. change ((34 =? 10) || (34 =? 11) || (34 =? 12)) with false. cbv iota.
    rewrite Eq. cbn [obind]. unfold substr. rewrite Z.gtb_ltb, (proj2 (Z.ltb_ge _ _)) by lia. cbn [obind].
    match goal with |- context [convertStr EscString RawString ?e] => destruct (unescape_returns e) as [raw ->] end.
    eexists. split; [reflexivity|]. cbn [cleanPos]. destruct q as [q|]; cbn [default].
    + specialize (Hq q eq_refl). left. unfold u64, id. rewrite Z.mod_small by lia. split; [lia|]. by eapply lexed_quote.
    + right. split; [done|]. by exists p.
  - assert (lexed (p + 1)) by (by eapply lexed_char).
    repeat case_match; (eexists; split; [reflexivity|]; left; cbn [cleanPos]; split; [lia | done]).
Qed.

(** The rounds from a position that are not enough. *)
Definition short (fuel : nat) (p : Z) : Prop := cleanLoop fuel text (mkCleaning p [] []) = None.

Lemma cleanLoop_short fuel p dest strings :
  cleanLoop fuel text (mkCleaning p dest strings) = None <-> short fuel p.
Proof.
  unfold short. revert p dest strings. induction fuel as [|fuel IH]; intros p dest strings; cbn [cleanLoop cleanPos];
    destruct (p <? zlen text); try done.
  rewrite (cleanStep_appends p dest strings).
  destruct (cleanStep text (mkCleaning p [] [])) as [[p' d' s']| |]; cbn [obind cleanPos]; try done.
  by rewrite IH, (IH p' d' s').
Qed.

Lemma short_step fuel p r :
  p < zlen text -> cleanStep text (mkCleaning p [] []) = Ret r -> short (S fuel) p <-> short fuel (cleanPos r).
Proof.
  intros Hp E. unfold short at 1. cbn [cleanLoop cleanPos].
  destruct (Z.ltb_spec p (zlen text)); [|lia]. rewrite E. destruct r. apply cleanLoop_short.
Qed.

(** From a position that is read, either [k] rounds end the loop or it gets to an
    open quote. *)
Lemma clean_from k p : 0 <= p -> lexed p -> zlen text - p <= Z.of_nat k -> ~ openQuote -> ~ short k p.
Proof.
  revert p. induction k as [|k IH]; intros p Hp Hl Hk Ho.
  - unfold short. cbn. destruct (Z.ltb_spec p (zlen text)); [lia|done].
  - destruct (Z.ltb_spec p (zlen text)) as [Hlt|Hge];
      [|unfold short; cbn [cleanLoop cleanPos]; by destruct (Z.ltb_spec p (zlen text)); [lia|]].
    destruct (cleanStep_moves p ltac:(lia) Hl) as (r & E & [[Hm Hl']|[_ Hq]]); [|done].
    rewrite (short_step k p r Hlt E). apply IH; [lia|done|lia|done].
Qed.

Lemma clean_returns k p dest strings : 0 <= p -> lexed p ->
  cleanLoop k text (mkCleaning p dest strings) = None \/
  exists d ss, cleanLoop k text (mkCleaning p dest strings) = Some (Ret (d, ss)).
Proof.
  revert p dest strings. induction k as [|k IH]; intros p dest strings Hp Hl; cbn [cleanLoop cleanPos];
    (destruct (Z.ltb_spec p (zlen text)); [|right; by do 2 eexists]); [by left|].
  rewrite cleanStep_appends. destruct (cleanStep_moves p ltac:(lia) Hl) as (r & -> & Hr). cbn [obind].
  destruct Hr as [[Hm Hl']|[-> _]]; apply IH; [lia|done|lia|constructor].
Qed.

Lemma short_0 p : p < zlen text -> short 0 p.
Proof. intros Hp. unfold short. cbn. by destruct (Z.ltb_spec p (zlen text)); [|lia]. Qed.

Lemma lexed_range p : lexed p -> 0 <= p <= zlen text.
Proof.
  induction 1 as [|p c _ IH E|p _ IH E|p _ IH E E2|p _ IH E|p _ IH E|p q _ IH E Eq]; [pose proof (zlen_nonneg text); lia|..];
    apply vget_inv in E as [E _]; try lia.
  - apply vget_inv in E2 as [E2 _]. lia.
  - split; [pose proof (commentEnd_range (p + 1)); lia|]. apply commentEnd_le. lia.
  - destruct (findStringEnd_ok (p + 1) ltac:(lia)) as (r & Er & Hr). rewrite Eq in Er. injection Er as <-. specialize (Hr q eq_refl). lia.
Qed.

(** Where a round at a quote goes. *)
Lemma cleanStep_quote p r close : 0 <= p < zlen text -> vget text p = Ret 34 -> findStringEnd text (p + 1) = Ret close ->
  cleanStep text (mkCleaning p [] []) = Ret r -> cleanPos r = default 0 (Z.succ <$> close).
Proof.
  intros Hp Ev Eq. unfold cleanStep. rewrite Ev. cbn [obind].
  change ((34 =? 32) || (34 =? 9)) with false. change ((34 =? 10) || (34 =? 11) || (34 =? 12)) with false.
  change (34 =? 13) with false. change (34 =? char "/") with false. change (34 =? 34) with true. cbv iota.
  rewrite Eq. cbn [obind]. intros E. ret_inv. cbn [cleanPos]. destruct close as [q|]; [|done]. cbn [default fmap option_fmap option_map].
  destruct (findStringEnd_ok (p + 1) ltac:(lia)) as (x & Ex & Hx). rewrite Eq in Ex. injection Ex as <-. specialize (Hx q eq_refl).
  unfold u64, id. rewrite Z.mod_small; lia.
Qed.

(** The rounds that lead to a position that is read. *)
Lemma lexed_reached p : lexed p -> exists n, forall f, short (n + f) 0 <-> short f p.
Proof.
  assert (Hstep : forall p r, lexed p -> p < zlen text -> cleanStep text (mkCleaning p [] []) = Ret r ->
    (exists n, forall f, short (n + f) 0 <-> short f p) -> exists n, forall f, short (n + f) 0 <-> short f (cleanPos r)).
  { intros p' r _ Hlt E [n Hn]. exists (n + 1)%nat. intros f. rewrite <- Nat.add_assoc, Hn. by apply short_step. }
  assert (Hnext : forall p t c, lexed p -> vget text p = Ret c -> (forall r, cleanStep text (mkCleaning p [] []) = Ret r -> cleanPos r = t) ->
    (exists n, forall f, short (n + f) 0 <-> short f p) -> exists n, forall f, short (n + f) 0 <-> short f t).
  { intros p' t c Hl Ev Ht IH. apply vget_inv in Ev as [Hv _]. destruct (cleanStep_moves p' Hv Hl) as (r & E & _).
    specialize (Ht r E). subst t. by apply (Hstep p'); [done|lia|..]. }
  induction 1 as [|p c Hl IH Ec H13 Hs H34|p Hl IH Ec En|p Hl IH Ec En|p Hl IH Ec En|p Hl IH Ec En|p q Hl IH Ec Eq];
    [by exists 0%nat|..]; (eapply Hnext; [exact Hl | exact Ec | | exact IH]); intros r; unfold cleanStep; rewrite Ec; cbn [obind];
    pose proof Ec as Ev; apply vget_inv in Ec as [Hp _];
    destruct (sget_vget (p + 1) 10 ltac:(lia) ltac:(lia)) as (d & Ed & Hd);
    destruct (sget_vget (p + 1) (char "/") ltac:(lia) ltac:(done)) as (d' & Ed' & Hd');
    rewrite ?Ed in Ed' |- *; injection Ed' as <-; cbn [obind].
  - rewrite (proj2 (Z.eqb_neq c 13) H13), (proj2 (Z.eqb_neq c (char "/")) Hs), (proj2 (Z.eqb_neq c 34) H34).
    repeat case_match; by intros [= <-].
  - cbn. intros [= <-]. cbn. destruct (Z.eqb_spec d 10); [tauto|done].
  - cbn. intros [= <-]. cbn. destruct (Z.eqb_spec d 10); [lia|tauto].
  - cbn -[char]. intros [= <-]. cbn -[char]. destruct (Z.eqb_spec d (char "/")); [tauto|done].
  - cbn -[char]. intros [= <-]. cbn -[char]. destruct (Z.eqb_spec d (char "/")); [done|tauto].
  - intros E. rewrite (cleanStep_quote p r (Some q) Hp Ev Eq); [done|]. unfold cleanStep. by rewrite Ev.
Qed.

Lemma short_less f g p : (g <= f)%nat -> short f p -> short g p.
Proof.
  unfold short. generalize (mkCleaning p [] []). revert g. induction f as [|f IH]; intros g st Hle.
  - by assert (g = 0%nat) as -> by lia.
  - destruct g as [|g]; cbn [cleanLoop]; destruct (_ <? _); try done. destruct (cleanStep text st); try done. apply IH. lia.
Qed.

Lemma open_never : openQuote -> forall f, short f 0.
Proof.
  intros (p & Hl & Ev & Eq). destruct (lexed_reached p Hl) as [n Hn]. pose proof (vget_inv _ _ _ Ev) as [Hp _].
  assert (Hback : forall f, short (n + S f) 0 <-> short f 0).
  { intros f. rewrite Hn. destruct (cleanStep_moves p Hp Hl) as (r & E & _). rewrite (short_step f p r ltac:(lia) E).
    by rewrite (cleanStep_quote p r None Hp Ev Eq E). }
  intros f. induction f as [f IH] using lt_wf_ind. destruct (decide (f <= n)%nat) as [Hle|Hgt].
  - apply (short_less n f 0 Hle). replace n with (n + 0)%nat by lia. apply Hn, short_0. lia.
  - replace f with (n + S (f - n - 1))%nat by lia. apply Hback, IH. lia.
Qed.

End Clean.

(** C33: [cleanText] ends after one round for each character at most, with a result,
    when every quote outside of comments and quoted texts is closed.  When one is
    not closed, it never ends: from there it starts again at the beginning of
    the text. *)
Theorem cleanText_ends_or_never (text : bytes) (H : zlen text < 2 ^ 64) :
  (~ openQuote text -> exists clean stringContents, cleanText (length text) text = Some (Ret (clean, stringContents))) /\
  (openQuote text -> forall fuel, cleanText fuel text = None).
Proof.
  split; [|by apply open_never].
  intros Ho. pose proof (clean_from text H (length text) 0 ltac:(lia) (lexed_start text) ltac:(unfold zlen; lia) Ho) as Hs.
  destruct (clean_returns text H (length text) 0 [] []) as [E|(d & ss & E)]; [lia|constructor|done|by exists d, ss].
Qed.
Lemma cleanText_ends_or_never_witness :
  zlen [32; 34] < 2 ^ 64 /\ forall fuel, cleanText fuel [32; 34] = None.
Proof.
  split; [done|]. apply (cleanText_ends_or_never [32; 34]); [done|]. exists 1. split; [|done].
  apply (lexed_char [32; 34] 0 32); [apply lexed_start | done..].
Defined.
