(* ===== verification/TextTrigTypes.v ===== *)
(** What the parser of text triggers produces fits the file: every field of a
    parsed trigger has the width it has in the section, whatever the text is, as
    long as the ids in the tables of names do. *)
From stdpp Require Import strings.
From S2P Require Import Prelude Codec ChkTypes Accessors TriggerTables Triggers TriggerStrings StringTable EscapeStrings TextLib TextTrigNames TextTrigArgs TextTrigParser TextTrigProps.
Open Scope Z_scope.

(** ** Tables and parsers *)

Definition table_ok (bits : Z) (table : list (Z * TableNode)) : Prop :=
  Forall (fun p => is_u bits (nodeId p.2)) table.

(** The ids in the compiler's tables have the width of the fields they go to. *)
Record compiler_ok (c : TextTrigCompiler) : Prop := {
  locations_ok : table_ok 32 (locationTable c);
  units_ok : table_ok 16 (unitTable c);
  switches_ok : table_ok 8 (switchTable c);
  groups_ok : table_ok 32 (groupTable c);
  scripts_ok : table_ok 32 (scriptTable c);
  strings_ok : Forall (fun node => is_u 32 (stringId node)) (nodes c)
}.

(** A parser keeps [P] true of its destination. *)
Definition keeps {S} (P : S -> Prop) (p : parser S) : Prop :=
  forall s cur ok s' cur', P s -> compiler_ok (compiler cur) -> p s cur = Ret (ok, s', cur') ->
  P s' /\ compiler_ok (compiler cur').
Definition fits (bits : Z) : parser Z -> Prop := keeps (is_u bits).

Lemma keeps_orElse {S} (P : S -> Prop) p q : keeps P p -> keeps P q -> keeps P (p ||| q).
Proof.
  intros Hp Hq s cur ok s' cur' Hs Hc E. unfold orElse in E. apply bind_inv in E as ([[ok1 s1] cur1] & E1 & E).
  destruct (Hp _ _ _ _ _ Hs Hc E1) as [Hs1 Hc1].
  destruct ok1; [by simplify_eq | by eapply Hq].
Qed.

Lemma fits_orElse bits p q : fits bits p -> fits bits q -> fits bits (p ||| q).
Proof. apply keeps_orElse. Qed.

Lemma keeps_into {R} (P : R -> Prop) bits get set p :
  (forall r, P r -> is_u bits (get r)) -> (forall r v, P r -> is_u bits v -> P (set v r)) ->
  fits bits p -> keeps P (into get set p).
Proof.
  intros Hg Hs Hp r cur ok r' cur' Hr Hc E. unfold into in E. apply bind_inv in E as ([[ok1 v] cur1] & E1 & E).
  simplify_eq. destruct (Hp _ _ _ _ _ (Hg _ Hr) Hc E1). eauto.
Qed.

Lemma fits_widened bits bits' p : 0 <= bits <= bits' -> fits bits p -> fits bits' (widened p).
Proof.
  intros Hb Hp d cur ok d' cur' _ Hc E. unfold widened in E.
  destruct (Hp 0 cur ok d' cur') as [Hd Hc']; [|done..|].
  - unfold is_u. assert (0 < 2 ^ bits) by (apply Z.pow_pos_nonneg; lia). lia.
  - split; [|done]. unfold is_u in *. assert (2 ^ bits <= 2 ^ bits') by (apply Z.pow_le_mono_r; lia). lia.
Qed.

Lemma parseNumber_fits bits limit text p e d ok d' :
  0 <= bits -> is_u bits d -> parseNumber bits limit text d p e = Ret (ok, d') -> is_u bits d'.
Proof.
  intros Hb Hd E. unfold parseNumber in E.
  assert (Hw : forall z, is_u bits (z mod 2 ^ bits))
    by (intros z; unfold is_u; assert (0 < 2 ^ bits) by (apply Z.pow_pos_nonneg; lia); by apply Z.mod_pos_bound).
  assert (Hz : is_u bits 0) by (unfold is_u; specialize (Hw 0); unfold is_u in Hw; lia).
  repeat match type of E with
  | (if ?b then _ else _) = _ => destruct b
  | obind _ _ = _ => apply bind_inv in E as (? & _ & E)
  | Ret (match ?s with Some _ => _ | None => _ end) = _ => destruct s
  end; injection E as _ <-; auto.
Qed.

Lemma fits_numeric bits limit text p e :
  0 <= bits -> fits bits (numeric (fun d => parseNumber bits limit text d p e)).
Proof.
  intros Hb d cur ok d' cur' Hd Hc E. unfold numeric in E. apply bind_inv in E as ([ok1 d1] & E1 & E). simplify_eq.
  split; [by eapply parseNumber_fits | done].
Qed.

(** A result that fits. *)
Definition fits_option (bits : Z) (o : option Z) : Prop := match o with Some v => is_u bits v | None => True end.

Lemma fits_found bits o d cur ok d' cur' :
  fits_option bits o -> is_u bits d -> compiler_ok (compiler cur) -> found o d cur = Ret (ok, d', cur') ->
  is_u bits d' /\ compiler_ok (compiler cur').
Proof. intros Ho Hd Hc E. unfold found in E. by destruct o; simplify_eq. Qed.

(** ** The names the compiler knows *)

Lemma oneOf_fits unit off names :
  forallb (fun p => (0 <=? p.2) && (p.2 <? 2 ^ 16)) names = true -> fits_option 16 (oneOf unit off names).
Proof.
  intros Hn. unfold oneOf. destruct (list_find _ _) as [[i p]|] eqn:E; [|done]. cbn.
  apply list_find_Some in E as (E & _). apply list_elem_of_lookup_2 in E.
  rewrite forallb_forall in Hn. specialize (Hn p). rewrite <- list_elem_of_In in Hn.
  specialize (Hn E). apply andb_prop in Hn as [? ?]. unfold is_u. split; [by apply Z.leb_le | by apply Z.ltb_lt].
Qed.

Lemma over_fits bits a b : fits_option bits a -> fits_option bits b -> fits_option bits (over a b).
Proof. by destruct a. Qed.

Ltac known_names :=
  cbv zeta;
  repeat match goal with
  | |- fits_option _ (if ?b then _ else _) => destruct b
  | |- fits_option _ (let c := _ in _) => cbv zeta
  | |- fits_option _ (oneOf _ _ _) => apply oneOf_fits; vm_compute; reflexivity
  | |- fits_option _ (over _ _) => apply over_fits
  | |- fits_option _ None => exact I
  end.

Lemma standardUnitName_fits unit : fits_option 16 (standardUnitName unit).
Proof. unfold standardUnitName. known_names. Qed.

Lemma legacyUnitName_fits unit : fits_option 16 (legacyUnitName unit).
Proof. unfold legacyUnitName. known_names. Qed.

Lemma numberAt_fits str i limit offset : fits_option 32 (numberAt str i limit offset).
Proof. unfold numberAt. case_match; [apply u32_range | done]. Qed.

Lemma standardPlayer_fits str r : standardPlayer str = Ret r -> fits_option 32 r.
Proof.
  unfold standardPlayer, when_. intros E.
  repeat match type of E with
  | (if ?b then _ else _) = _ => destruct b
  | obind _ _ = _ => apply bind_inv in E as (? & _ & E)
  end; injection E as <-; first [apply numberAt_fits | exact I | done].
Qed.

(** ** The parsers of arguments *)

Section Parsers.
Context `{RuntimeLaws}.
Variables (text : bytes) (stringContents : list bytes).
Hypothesis text_bytes : Forall (is_u 8) text.
Hypothesis strings_bytes : Forall (Forall (is_u 8)) stringContents.

Lemma equal_range_in {A} (table : list (Z * A)) key x : x ∈ equal_range table key -> exists k, (k, x) ∈ table.
Proof.
  rewrite equal_range_perm, list_elem_of_fmap. intros ([k y] & -> & Hy).
  apply list_elem_of_filter in Hy as [_ Hy]. by exists k.
Qed.

Lemma table_in bits table key node :
  table_ok bits table -> node ∈ equal_range table key -> is_u bits (nodeId node).
Proof.
  intros Ht Hn. apply equal_range_in in Hn as (k & Hk). unfold table_ok in Ht. rewrite Forall_forall in Ht.
  exact (Ht _ Hk).
Qed.

Lemma lookupName_fits bits table name : table_ok bits table -> fits_option bits (lookupName table name).
Proof.
  intros Ht. unfold lookupName. pose proof (fun node => table_in bits table (strHash name) node Ht) as Hin.
  assert (Hfold : forall l best, (forall node, node ∈ l -> is_u bits (nodeId node)) -> fits_option bits best ->
    fits_option bits (fold_left (fun (best : option Z) node =>
      if bool_decide (nodeName node = name) then
        match best with None => Some (nodeId node)
        | Some id => Some (if nodeId node <? id then nodeId node else id) end
      else best) l best)).
  { intros l. induction l as [|node l IH]; intros best Hl Hb; [done|]. cbn. apply IH; [set_solver|].
    assert (is_u bits (nodeId node)) by (apply Hl; set_solver).
    repeat case_match; done. }
  destruct (equal_range table (strHash name)) as [|node [|node' l]]; [done| |by apply Hfold].
  case_match; [|done]. apply Hin. set_solver.
Qed.

Lemma lookupScript_fits bits table name : table_ok bits table -> fits_option bits (lookupScript table name).
Proof.
  intros Ht. unfold lookupScript. destruct (list_find _ _) as [[i node]|] eqn:E; [|done].
  apply list_find_Some in E as (E & _). eapply table_in; [done|]. by eapply list_elem_of_lookup_2.
Qed.

Lemma takeString_ok cur s cur' :
  takeString stringContents cur = Ret (s, cur') -> Forall (is_u 8) s /\ compiler cur' = compiler cur.
Proof.
  unfold takeString. intros E. apply bind_inv in E as (x & Ex & E). simplify_eq. split; [|done].
  apply vget_elem in Ex. rewrite Forall_forall in strings_bytes. auto.
Qed.

Lemma argumentText_fits bits quoted number pos e d cur r d' cur' :
  (forall d ok d', is_u bits d -> number d = Ret (ok, d') -> is_u bits d') ->
  is_u bits d -> argumentText text stringContents quoted number pos e d cur = Ret (r, d', cur') ->
  is_u bits d' /\ compiler cur' = compiler cur.
Proof.
  intros Hn Hd E. unfold argumentText in E. destruct quoted.
  - apply bind_inv in E as ([s c] & Es & E). simplify_eq. apply takeString_ok in Es as [_ ?]. done.
  - apply bind_inv in E as ([ok d1] & En & E). apply Hn in En; [|done]. destruct ok.
    + by simplify_eq.
    + apply bind_inv in E as (s & _ & E). by simplify_eq.
Qed.

Lemma is_u_0 bits : 0 <= bits -> is_u bits 0.
Proof. intros Hb. unfold is_u. assert (0 < 2 ^ bits) by (apply Z.pow_pos_nonneg; lia). lia. Qed.

Lemma parseLong_keeps pos e d ok d' : is_u 32 d -> parseLong text d pos e = Ret (ok, d') -> is_u 32 d'.
Proof. intros Hd E. by eapply parseNumber_fits in E. Qed.
Lemma parseShort_keeps t pos e d ok d' : is_u 16 d -> parseShort t d pos e = Ret (ok, d') -> is_u 16 d'.
Proof. intros Hd E. by eapply parseNumber_fits in E. Qed.
Lemma parseByte_keeps t pos e d ok d' : is_u 8 d -> parseByte t d pos e = Ret (ok, d') -> is_u 8 d'.
Proof. intros Hd E. by eapply parseNumber_fits in E. Qed.

Lemma parseLocationName_fits pos e : fits 32 (parseLocationName text stringContents pos e).
Proof.
  intros d cur ok d' cur' Hd Hc E. unfold parseLocationName in E.
  apply bind_inv in E as (b & _ & E). destruct b; [simplify_eq; split; [by apply is_u_0 | done]|].
  apply bind_inv in E as (q & _ & E). apply bind_inv in E as ([[s d1] cur1] & Es & E).
  eapply argumentText_fits in Es as [Hd1 Hc1]; [|intros; by eapply parseLong_keeps|exact Hd].
  rewrite <- Hc1 in Hc. destruct s as [s|]; [|by simplify_eq].
  eapply fits_found, E; [by apply lookupName_fits, Hc | done..].
Qed.

Lemma parsePlayer_fits pos e : fits 32 (parsePlayer text stringContents pos e).
Proof.
  intros d cur ok d' cur' Hd Hc E. unfold parsePlayer in E.
  apply bind_inv in E as (q & _ & E). apply bind_inv in E as ([[s d1] cur1] & Es & E).
  eapply argumentText_fits in Es as [Hd1 Hc1]; [|intros; by eapply parseLong_keeps|exact Hd].
  rewrite <- Hc1 in Hc. destruct s as [s|]; [|by simplify_eq].
  apply bind_inv in E as (o & Eo & E). apply standardPlayer_fits in Eo.
  destruct o as [v|]; [by simplify_eq|]. eapply fits_found, E; [by apply lookupName_fits, Hc | done..].
Qed.

Lemma standardUnit_fits unit size d ok d' : is_u 16 d -> standardUnit unit size d = Ret (ok, d') -> is_u 16 d'.
Proof.
  intros Hd E. unfold standardUnit in E. case_match; [by eapply parseShort_keeps|].
  pose proof (standardUnitName_fits unit). case_match; by simplify_eq.
Qed.

Lemma parseUnitName_fits pos e : fits 16 (parseUnitName text stringContents pos e).
Proof.
  intros d cur ok d' cur' Hd Hc E. unfold parseUnitName in E.
  apply bind_inv in E as (q & _ & E). case_match; [by simplify_eq|].
  apply bind_inv in E as ([[s d1] cur1] & Es & E).
  eapply argumentText_fits in Es as [Hd1 Hc1]; [|intros; by eapply parseShort_keeps|exact Hd].
  rewrite <- Hc1 in Hc. destruct s as [s|]; [|by simplify_eq].
  apply bind_inv in E as ([ok2 d2] & Eu & E).
  assert (Hd2 : is_u 16 d2) by (destruct (zlen s <? 40); [by eapply standardUnit_fits | by simplify_eq]).
  destruct ok2; [by simplify_eq|].
  pose proof (lookupName_fits 16 (unitTable (compiler cur1)) s (units_ok _ Hc)) as Hl.
  destruct (lookupName _ _); [by simplify_eq|]. eapply fits_found, E; [|done..].
  case_match; [apply legacyUnitName_fits | done].
Qed.

Lemma standardSwitch_fits s d ok d' : is_u 8 d -> standardSwitch s d = Ret (ok, d') -> is_u 8 d'.
Proof.
  intros Hd E. unfold standardSwitch in E. case_match; [|by simplify_eq].
  apply bind_inv in E as (sw & _ & E). case_match; [|by simplify_eq].
  pose proof (u8_range (atoi (drop 6 sw))) as Hr.
  destruct (Z.eqb_spec (u8 (atoi (drop 6 sw))) 0); simplify_eq; [done|]. unfold is_u in *. lia.
Qed.

Lemma parseSwitch_fits pos e : fits 8 (parseSwitch text stringContents pos e).
Proof.
  intros d cur ok d' cur' Hd Hc E. unfold parseSwitch in E.
  apply bind_inv in E as (q & _ & E). apply bind_inv in E as ([[s d1] cur1] & Es & E).
  eapply argumentText_fits in Es as [Hd1 Hc1]; [|intros; by eapply parseByte_keeps|exact Hd].
  rewrite <- Hc1 in Hc. destruct s as [s|]; [|by simplify_eq].
  apply bind_inv in E as ([ok2 d2] & Eu & E). eapply standardSwitch_fits in Eu; [|done].
  destruct ok2; [by simplify_eq|]. eapply fits_found, E; [by apply lookupName_fits, Hc | done..].
Qed.

Lemma substr_bytes pos n s : substr text pos n = Ret s -> Forall (is_u 8) s.
Proof.
  unfold substr. case_match; [done|]. intros E. simplify_eq. by apply Forall_take, Forall_drop.
Qed.

Lemma parseScript_fits pos e : fits 32 (parseScript text stringContents pos e).
Proof.
  intros d cur ok d' cur' Hd Hc E. unfold parseScript in E.
  apply bind_inv in E as (b & _ & E). destruct b; [simplify_eq; split; [by apply is_u_0 | done]|].
  apply bind_inv in E as (q & _ & E). apply bind_inv in E as ([s cur1] & Es & E).
  assert (Hs : Forall (is_u 8) s /\ compiler cur1 = compiler cur).
  { destruct q; [by apply takeString_ok in Es|].
    apply bind_inv in Es as (x & Ex & Es). simplify_eq. split; [by eapply substr_bytes | done]. }
  destruct Hs as [Hs Hc1]. rewrite <- Hc1 in Hc.
  pose proof (lookupScript_fits 32 (scriptTable (compiler cur1)) s (scripts_ok _ Hc)) as Hl.
  destruct (lookupScript _ _); [by simplify_eq|].
  destruct s as [|x0 [|x1 [|x2 [|x3 [|x4 s]]]]]; try (simplify_eq; done).
  rewrite !Forall_cons in Hs. match type of E with (if ?b then _ else _) = _ => destruct b end; simplify_eq; [|done].
  split; [|done]. unfold is_u in *. lia.
Qed.

Lemma vset_Forall {A} (P : A -> Prop) l i a l' : Forall P l -> P a -> vset l i a = Ret l' -> Forall P l'.
Proof. unfold vset. intros Hl Ha. case_match; [|done]. intros E. simplify_eq. by apply Forall_insert. Qed.

Lemma compiler_ok_nodes c ns :
  compiler_ok c -> Forall (fun node => is_u 32 (stringId node)) ns -> compiler_ok (c <| nodes := ns |>).
Proof. intros [] Hn. by split. Qed.

Lemma setNode_ok c n node c' :
  compiler_ok c -> is_u 32 (stringId node) -> setNode c n node = Ret c' -> compiler_ok c'.
Proof.
  intros Hc Hn E. unfold setNode in E. apply bind_inv in E as (ns & En & E). simplify_eq.
  apply compiler_ok_nodes; [done|]. eapply vset_Forall; [apply Hc | exact Hn | exact En].
Qed.

Lemma parseString_fits place pos e : fits 32 (parseString text stringContents place pos e).
Proof.
  intros d cur ok d' cur' Hd Hc E. unfold parseString in E.
  apply bind_inv in E as (b & _ & E). destruct b; [simplify_eq; split; [by apply is_u_0 | done]|].
  apply bind_inv in E as (q & _ & E). destruct q; [|by eapply fits_numeric in E].
  apply bind_inv in E as ([s cur1] & Es & E). apply takeString_ok in Es as [_ Hc1]. rewrite <- Hc1 in Hc.
  apply bind_inv in E as (n & _ & E). destruct n as [n|].
  - apply bind_inv in E as (node & En & E).
    assert (Hn : is_u 32 (stringId node)).
    { pose proof (strings_ok _ Hc) as Hs. rewrite Forall_forall in Hs. eapply (Hs node), vget_elem, En. }
    cbn in E. destruct (stringId node =? 0); apply bind_inv in E as (c' & Ec & E); simplify_eq;
      split; try done; by eapply setNode_ok in Ec.
  - simplify_eq. split; [done|]. destruct Hc. split; try done. cbn. apply Forall_app. split; [done|].
    constructor; [by apply is_u_0 | constructor].
Qed.

Lemma parseSoundName_fits place pos e : fits 32 (parseSoundName text stringContents place pos e).
Proof.
  intros d cur ok d' cur' Hd Hc E. unfold parseSoundName in E.
  apply bind_inv in E as (b & _ & E). destruct b; [simplify_eq; split; [by apply is_u_0 | done]|].
  by eapply parseString_fits in E.
Qed.

Lemma keyword_fits bits n words pos e :
  Forall (fun w : string * (Z -> Z) => forall d, is_u bits d -> is_u bits (w.2 d)) words ->
  fits bits (keyword text stringContents n words pos e).
Proof.
  intros Hw d cur ok d' cur' Hd Hc E. unfold keyword in E. apply bind_inv in E as ([s cur1] & Es & E).
  assert (Hc1 : compiler cur1 = compiler cur).
  { unfold keywordText in Es. apply bind_inv in Es as (q & _ & Es). apply bind_inv in Es as ([s1 cur2] & E1 & Es).
    apply bind_inv in Es as (arr & _ & Es). simplify_eq. destruct q; [by apply takeString_ok in E1 as [_ ?]|].
    apply bind_inv in E1 as (s2 & _ & E1). by simplify_eq. }
  rewrite <- Hc1 in Hc. destruct (list_find _ _) as [[i w]|] eqn:Ew; simplify_eq; split; try done.
  apply list_find_Some in Ew as (Ew & _). rewrite Forall_forall in Hw.
  apply (Hw w); [by eapply list_elem_of_lookup_2 | done].
Qed.

Lemma lor_u8 d m : is_u 8 d -> 0 <= m < 2 ^ 8 -> is_u 8 (Z.lor d m).
Proof.
  unfold is_u. intros Hd Hm. assert (0 <= Z.lor d m) by (apply Z.lor_nonneg; lia). split; [done|].
  destruct (Z.eq_dec (Z.lor d m) 0) as [->|]; [lia|]. apply Z.log2_lt_pow2; [lia|].
  rewrite Z.log2_lor by lia. apply Z.max_lub_lt.
  - destruct (Z.eq_dec d 0) as [->|]; [done|]. apply Z.log2_lt_pow2; lia.
  - destruct (Z.eq_dec m 0) as [->|]; [done|]. apply Z.log2_lt_pow2; lia.
Qed.

Lemma land_u8 d m : is_u 8 d -> 0 <= m < 2 ^ 8 -> is_u 8 (Z.land d m).
Proof.
  unfold is_u. intros Hd Hm. assert (0 <= Z.land d m) by (apply Z.land_nonneg; lia). split; [done|].
  destruct (Z.eq_dec (Z.land d m) 0) as [->|]; [lia|]. apply Z.log2_lt_pow2; [lia|].
  pose proof (Z.log2_land d m ltac:(lia) ltac:(lia)).
  assert (Z.log2 d < 8) by (destruct (Z.eq_dec d 0) as [->|]; [done|]; apply Z.log2_lt_pow2; lia). lia.
Qed.

Lemma parseMemoryAddress_fits offset pos e : fits 32 (parseMemoryAddress text offset pos e).
Proof.
  intros d cur ok d' cur' Hd Hc E. unfold parseMemoryAddress in E. apply bind_inv in E as ([ok1 t] & _ & E).
  destruct ok1; simplify_eq; split; try done.
  pose proof (u32_range (t / 4 * 4 - offset)) as Hr. unfold is_u in *.
  split; [apply Z.div_pos; lia|]. apply Z.div_lt_upper_bound; lia.
Qed.

Lemma memoryOffset_fits pos e : fits 32 (memoryOffset text pos e).
Proof.
  intros d cur ok d' cur' Hd Hc E. unfold memoryOffset in E.
  destruct (useAddressesForMemory (compiler cur)); [by eapply parseMemoryAddress_fits in E | by eapply fits_numeric in E].
Qed.
End Parsers.

(** ** Conditions and actions *)

Section Fields.
Context `{RuntimeLaws}.
Variables (text : bytes) (stringContents : list bytes).
Hypothesis text_bytes : Forall (is_u 8) text.
Hypothesis strings_bytes : Forall (Forall (is_u 8)) stringContents.

Lemma returnMsg_keeps {S} (P : S -> Prop) p msg s cur r s' cur' :
  keeps P p -> P s -> compiler_ok (compiler cur) -> returnMsg p msg s cur = Ret (r, s', cur') ->
  P s' /\ compiler_ok (compiler cur').
Proof.
  intros Hp Hs Hc E. unfold returnMsg in E. apply bind_inv in E as ([[ok s1] cur1] & E1 & E). simplify_eq.
  by eapply Hp in E1.
Qed.

(** The words of a keyword fit. *)
Ltac words :=
  repeat (apply Forall_cons; split); try apply Forall_nil; cbn; intros; unfold to;
  first [by apply lor_u8 | by apply land_u8 | unfold is_u in *; lia].

(** A parser of a field is made of parsers that fit. *)
Ltac fit :=
  repeat match goal with
  | |- fits _ (_ ||| _) => apply fits_orElse
  | |- fits _ (parseUnitName _ _ _ _) => by apply parseUnitName_fits
  | |- fits _ (parseLocationName _ _ _ _) => by apply parseLocationName_fits
  | |- fits _ (parsePlayer _ _ _ _) => by apply parsePlayer_fits
  | |- fits _ (parseScript _ _ _ _) => by apply parseScript_fits
  | |- fits _ (parseString _ _ _ _ _) => by apply parseString_fits
  | |- fits _ (parseSoundName _ _ _ _ _) => by apply parseSoundName_fits
  | |- fits _ (parseSwitch _ _ _ _) => by apply parseSwitch_fits
  | |- fits _ (widened _) => apply (fits_widened 8); [lia|]
  | |- fits _ (long _ _ _) => by apply (fits_numeric _)
  | |- fits _ (TextTrigArgs.short _ _ _) => by apply (fits_numeric _)
  | |- fits _ (byte _ _ _) => by apply (fits_numeric _)
  | |- fits _ (memoryOffset _ _ _) => apply memoryOffset_fits
  | |- fits _ _ => apply keyword_fits; [done | solve [words]]
  end.
Ltac field_of bits :=
  apply (keeps_into _ bits);
    [ intros []; cbn -[Z.mul]; change (8 * Z.of_nat 4) with 32; change (8 * Z.of_nat 2) with 16;
      change (8 * Z.of_nat 1) with 8; tauto
    | intros [] ?; cbn -[Z.mul]; change (8 * Z.of_nat 4) with 32; change (8 * Z.of_nat 2) with 16;
      change (8 * Z.of_nat 1) with 8; tauto
    | solve [fit]].
Ltac field := first [field_of 8 | field_of 16 | field_of 32].

Lemma parseConditionArg_ok pos e argument c cur r c' cur' :
  cwf Condition.layout c -> compiler_ok (compiler cur) ->
  parseConditionArg text stringContents pos e argument c cur = Ret (r, c', cur') ->
  cwf Condition.layout c' /\ compiler_ok (compiler cur').
Proof.
  intros Hc Hcur E. unfold parseConditionArg in E. cbv zeta in E.
  destruct (ConditionArgs.type argument); [by simplify_eq|..];
    (eapply returnMsg_keeps in E; [exact E | field | done | done]).
Qed.

Lemma parseActionArg_ok pos e place argument a cur r a' cur' :
  cwf Action.layout a -> compiler_ok (compiler cur) ->
  parseActionArg text stringContents pos e place argument a cur = Ret (r, a', cur') ->
  cwf Action.layout a' /\ compiler_ok (compiler cur').
Proof.
  intros Ha Hcur E. unfold parseActionArg in E. cbv zeta in E.
  destruct (ActionArgs.type argument); [by simplify_eq|..];
    (eapply returnMsg_keeps in E; [exact E | repeat case_bool_decide; field | done | done]).
Qed.
End Fields.

(** ** The parser *)

#[export] Instance trigger_owners_member : Member Trigger.layout Trigger.owners u8c MaxOwners.
Proof. solve_member. Qed.
Section States.
Context `{RuntimeLaws}.
Variables (text : bytes) (stringContents : list bytes).
Hypothesis text_bytes : Forall (is_u 8) text.
Hypothesis strings_bytes : Forall (Forall (is_u 8)) stringContents.

(** The triggers of a state fit the file. *)
Record parse_ok (st : Parse) : Prop := {
  current_ok : forall t, currTrig st = Some t -> cwf Trigger.layout t;
  output_ok : Forall (cwf Trigger.layout) (output st);
  cursor_ok : compiler_ok (compiler (cursor st))
}.

Lemma vset_member {A} (f : Trigger.Trigger -> list A) `{!Updater f} (c : codec A) N `{!Member Trigger.layout f c N} t i a l :
  cwf Trigger.layout t -> cwf c a -> vset (f t) i a = Ret l -> cwf Trigger.layout (t <| f := l |>).
Proof.
  intros Ht Ha E. destruct (member_wf t Ht) as [Hl Hf]. apply (member_upd t l Ht).
  - unfold vset in E. case_match; simplify_eq. by rewrite length_insert.
  - by eapply vset_Forall.
Qed.

Lemma theTrigger_ok st t : parse_ok st -> theTrigger st = Ret t -> cwf Trigger.layout t.
Proof. intros Hs E. unfold theTrigger in E. destruct (currTrig st) eqn:Et; simplify_eq. by apply Hs. Qed.

(** A state with other positions, and one with another trigger. *)
Lemma parse_ok_same st st' :
  parse_ok st -> currTrig st' = currTrig st -> output st' = output st -> cursor st' = cursor st -> parse_ok st'.
Proof. intros [Ht Ho Hc] E1 E2 E3. split; [by rewrite E1 | by rewrite E2 | by rewrite E3]. Qed.

Lemma parse_ok_trigger st st' t :
  parse_ok st -> cwf Trigger.layout t -> currTrig st' = Some t -> output st' = output st ->
  compiler_ok (compiler (cursor st')) -> parse_ok st'.
Proof. intros [Ht Ho Hc] Hw E1 E2 Hc'. split; [|by rewrite E2|done]. rewrite E1. intros ? [= <-]. done. Qed.

Lemma blankTrigger_ok : cwf Trigger.layout blankTrigger.
Proof. solve_default. Qed.

Lemma parseExecutingPlayer_ok pos e t cur ok t' cur' :
  cwf Trigger.layout t -> compiler_ok (compiler cur) ->
  parseExecutingPlayer text stringContents pos e t cur = Ret (ok, t', cur') ->
  cwf Trigger.layout t' /\ compiler_ok (compiler cur').
Proof.
  intros Ht Hc E. unfold parseExecutingPlayer in E. cbv zeta in E.
  apply bind_inv in E as ([[ok1 g1] cur1] & E1 & E).
  assert (Hc1 : is_u 32 g1 /\ compiler_ok (compiler cur1)).
  { destruct (find text (char ":") pos); [|simplify_eq; split; [by apply is_u_0 | done]].
    exact (parsePlayer_fits text stringContents text_bytes strings_bytes _ _ _ _ _ _ _ (is_u_0 32 ltac:(lia)) Hc E1). }
  destruct Hc1 as [Hg1 Hc1].
  destruct (ok1 && (g1 <? 27)).
  - apply bind_inv in E as ([ok2 v] & E2 & E). apply parseByte_keeps in E2; [|by apply is_u_0].
    apply bind_inv in E as (l & El & E). simplify_eq. split; [|done].
    refine (vset_member Trigger.owners u8c MaxOwners t _ _ _ Ht _ El). by destruct ok2.
  - apply bind_inv in E as ([[ok2 g2] cur2] & E2 & E). eapply parsePlayer_fits in E2 as [_ Hc2]; [|done..].
    destruct (ok2 && (g2 <? 27)); [|by simplify_eq].
    apply bind_inv in E as (l & El & E). simplify_eq. split; [|done].
    by refine (vset_member Trigger.owners u8c MaxOwners t _ _ _ Ht _ El).
Qed.

Lemma get_at_elem {A} N (l : list A) i a : get_at N l i = Ret a -> a ∈ l.
Proof. unfold get_at. case_match; [|done]. apply vget_elem. Qed.
Lemma set_at_vset {A} N (l l' : list A) i a : set_at N l i a = Ret l' -> vset l i a = Ret l'.
Proof. unfold set_at. by case_match. Qed.

Lemma condition_member t c : cwf Trigger.layout t -> c ∈ Trigger.conditions t -> cwf Condition.layout c.
Proof. intros Ht Hc. destruct (member_wf (f := Trigger.conditions) t Ht) as [_ Hf]. rewrite Forall_forall in Hf. auto. Qed.
Lemma action_member t a : cwf Trigger.layout t -> a ∈ Trigger.actions t -> cwf Action.layout a.
Proof. intros Ht Ha. destruct (member_wf (f := Trigger.actions) t Ht) as [_ Hf]. rewrite Forall_forall in Hf. auto. Qed.

(** The default flags are bytes. *)
Lemma conditionFlags_ok id flags : CND.getDefaultFlagsVirtual id = Ret flags -> is_u 8 flags.
Proof.
  assert (Hall : Forall (is_u 8) ConditionArgs.defaultFlags)
    by (apply (bool_decide_unpack _); vm_compute; exact I).
  rewrite Forall_forall in Hall. unfold CND.getDefaultFlagsVirtual, CND.getDefaultFlags.
  repeat case_match; intros E; try (by simplify_eq; apply is_u_0); by apply vget_elem in E; auto.
Qed.
Lemma actionFlags_ok id flags : ACT.getDefaultFlagsVirtual id = Ret flags -> is_u 8 flags.
Proof.
  assert (Hall : Forall (is_u 8) ActionArgs.defaultFlags)
    by (apply (bool_decide_unpack _); vm_compute; exact I).
  rewrite Forall_forall in Hall. unfold ACT.getDefaultFlagsVirtual, ACT.getDefaultFlags.
  repeat case_match; intros E; try (by simplify_eq; apply is_u_0); by apply vget_elem in E; auto.
Qed.

(** A part that only moves. *)
Ltac moved := (eapply parse_ok_same; [eassumption | reflexivity..]).

Lemma conditionStart_ok disabled e st :
  parse_ok st -> yields (conditionStart text disabled e st) parse_ok.
Proof.
  intros Hs. unfold conditionStart. apply yields_bind. intros [id flags] Ef.
  assert (Hflags : is_u 8 flags).
  { unfold parseCondition in Ef. ret_inv. simplify_eq. by eapply conditionFlags_ok. }
  walk.
  repeat match goal with Hx : theTrigger _ = Ret ?t |- _ =>
    assert (cwf Trigger.layout t) by (eapply theTrigger_ok; [|exact Hx]; moved); clear Hx end.
  match goal with Hx : TRG.condition ?t _ = Ret _, Hw : cwf _ ?t |- _ =>
    apply get_at_elem, (condition_member _ _ Hw) in Hx end.
  match goal with Hx : set_at _ _ _ _ = Ret _, Hw : cwf Trigger.layout ?t |- _ =>
    apply set_at_vset in Hx; eapply (vset_member Trigger.conditions Condition.layout MaxConditions t) in Hx; [|done|] end.
  - eapply parse_ok_trigger; [exact Hs | | reflexivity | reflexivity | apply Hs]. assumption.
  - assert (is_u 8 (if disabled then Z.lor flags CND.Flags_Disabled else flags))
      by (destruct disabled; [by apply lor_u8 | done]).
    assert (is_u 8 (if id <? 0 then extendedToRegularConditionType id else u8 id))
      by (unfold extendedToRegularConditionType; repeat case_match; first [apply u8_range | done]).
    match goal with Hx : cwf Condition.layout ?c |- _ => destruct c; cbn in * end. tauto.
Qed.

Lemma actionStart_ok disabled e st :
  parse_ok st -> yields (actionStart text disabled e st) parse_ok.
Proof.
  intros Hs. unfold actionStart. apply yields_bind. intros [id flags] Ef.
  assert (Hflags : is_u 8 flags).
  { unfold parseAction in Ef. ret_inv. simplify_eq. by eapply actionFlags_ok. }
  walk.
  repeat match goal with Hx : theTrigger _ = Ret ?t |- _ =>
    assert (cwf Trigger.layout t) by (eapply theTrigger_ok; [|exact Hx]; moved); clear Hx end.
  match goal with Hx : TRG.action ?t _ = Ret _, Hw : cwf _ ?t |- _ =>
    apply get_at_elem, (action_member _ _ Hw) in Hx end.
  match goal with Hx : set_at _ _ _ _ = Ret _, Hw : cwf Trigger.layout ?t |- _ =>
    apply set_at_vset in Hx; eapply (vset_member Trigger.actions Action.layout MaxActions t) in Hx; [|done|] end.
  - eapply parse_ok_trigger; [exact Hs | | reflexivity | reflexivity | apply Hs]. assumption.
  - assert (is_u 8 (if disabled then Z.lor flags ACT.Flags_Disabled else flags))
      by (destruct disabled; [by apply lor_u8 | done]).
    assert (is_u 8 (if id <? 0 then extendedToRegularActionType id else u8 id))
      by (unfold extendedToRegularActionType; repeat case_match; first [apply u8_range | done]).
    match goal with Hx : cwf Action.layout ?c |- _ => destruct c; cbn in * end. tauto.
Qed.

Lemma conditionArgument_ok argument e st r :
  parse_ok st -> conditionArgument text stringContents argument e st = Ret r -> parse_ok r.2.
Proof.
  intros Hs E. unfold conditionArgument in E. apply bind_inv in E as (t & Et & E).
  apply (theTrigger_ok _ _ Hs) in Et. apply bind_inv in E as (c & Ec & E).
  apply vget_elem, (condition_member _ _ Et) in Ec. apply bind_inv in E as ([[err c'] cur] & Ep & E).
  apply (parseConditionArg_ok text stringContents text_bytes strings_bytes _ _ _ _ _ _ _ _ Ec (cursor_ok _ Hs)) in Ep as [Hc' Hcur].
  apply bind_inv in E as (cs & Ev & E). injection E as <-.
  pose proof (vset_member Trigger.conditions Condition.layout MaxConditions t _ _ _ Et Hc' Ev).
  by eapply parse_ok_trigger.
Qed.

Lemma actionArgument_ok argument e st r :
  parse_ok st -> actionArgument text stringContents argument e st = Ret r -> parse_ok r.2.
Proof.
  intros Hs E. unfold actionArgument in E. apply bind_inv in E as (t & Et & E).
  apply (theTrigger_ok _ _ Hs) in Et. apply bind_inv in E as (a & Ea & E).
  apply vget_elem, (action_member _ _ Et) in Ea. apply bind_inv in E as ([[err a'] cur] & Ep & E).
  apply (parseActionArg_ok text stringContents text_bytes strings_bytes _ _ _ _ _ _ _ _ _ Ea (cursor_ok _ Hs)) in Ep as [Ha' Hcur].
  apply bind_inv in E as (as_ & Ev & E). injection E as <-.
  pose proof (vset_member Trigger.actions Action.layout MaxActions t _ _ _ Et Ha' Ev).
  by eapply parse_ok_trigger.
Qed.

Lemma parseExecutionFlags_ok pos e ok flags :
  parseExecutionFlags text pos e = Ret (ok, flags) -> is_u 32 flags.
Proof.
  unfold parseExecutionFlags, parseBinaryLong. intros E. apply bind_inv in E as (s & _ & E).
  repeat match type of E with
  | (if ?b then _ else _) = _ => destruct b
  | obind _ _ = _ => apply bind_inv in E as (? & _ & E)
  end; injection E as _ <-; first [apply u32_range | by apply is_u_0].
Qed.

Lemma partOne_ok st : parse_ok st -> yields (parsePartOne text stringContents st) parse_ok.
Proof.
  intros Hs. unfold parsePartOne. walk; [moved|].
  match goal with Hx : theTrigger _ = Ret _ |- _ => apply (theTrigger_ok _ _ Hs) in Hx end.
  match goal with Hx : parseExecutingPlayer _ _ _ _ _ _ = Ret _ |- _ =>
    apply parseExecutingPlayer_ok in Hx as [Hw Hc]; [|done|apply Hs] end.
  match goal with |- context [if ?b then _ else _] => destruct b end;
    (eapply parse_ok_trigger; [exact Hs | | reflexivity | reflexivity | exact Hc]; exact Hw).
Qed.

Lemma step_ok st r : parse_ok st -> step text stringContents st = Ret (inr r) -> parse_ok r.2.
Proof.
  intros Hs E. unfold step in E. apply bind_inv in E as (here & _ & E).
  destruct (here =? 10); [injection E as <-; moved|].
  assert (Hpart : forall p : part, yields p parse_ok ->
    (let* x := p in Ret (match x with inl e => inl e | inr st => inr (false, st) end)) = Ret (inr r) -> parse_ok r.2).
  { intros p Hp Ep. apply bind_inv in Ep as (x & Ep & Er). destruct x as [e|s]; [discriminate|].
    injection Er as <-. exact (Hp _ Ep). }
  destruct (expecting st); try (eapply Hpart; [|exact E]; clear E Hpart).
  - unfold parsePartZero. walk; (eapply parse_ok_trigger;
      [exact Hs | apply blankTrigger_ok | reflexivity | reflexivity | apply Hs]).
  - by apply partOne_ok.
  - unfold parsePartTwo. walk. moved.
  - unfold parsePartThree. walk; moved.
  - unfold parsePartFour. walk; try moved; apply conditionStart_ok; [moved | done].
  - unfold parsePartFive. walk; try moved.
    match goal with Hx : conditionArgument _ _ _ _ _ = Ret _ |- _ => apply (conditionArgument_ok _ _ _ _ Hs) in Hx end. moved.
  - unfold parsePartSix. walk; moved.
  - unfold parsePartSeven. walk; try moved; apply actionStart_ok; [moved | done].
  - unfold parsePartEight. walk; try moved.
    match goal with Hx : actionArgument _ _ _ _ _ = Ret _ |- _ => apply (actionArgument_ok _ _ _ _ Hs) in Hx end. moved.
  - unfold parsePartNine. walk; moved.
  - unfold parsePartTen. walk; [moved|].
    match goal with Hx : theTrigger _ = Ret _ |- _ => apply (theTrigger_ok _ _ Hs) in Hx as Hw end.
    match goal with Hx : parseExecutionFlags _ _ _ = Ret _ |- _ => apply parseExecutionFlags_ok in Hx end.
    eapply parse_ok_trigger; [exact Hs | | reflexivity | reflexivity | apply Hs].
    match goal with Hx : cwf Trigger.layout ?t |- _ => destruct t; cbn in * end. tauto.
  - unfold parsePartEleven. walk. moved.
  - apply bind_inv in E as (t & Et & E). apply (theTrigger_ok _ _ Hs) in Et. injection E as <-.
    split; cbn; [apply Hs | | apply Hs]. apply Forall_app. split; [apply Hs | by constructor].
Qed.

Lemma run_ok fuel st st' : parse_ok st -> run text stringContents fuel st = Some (Ret (inr st')) -> parse_ok st'.
Proof.
  revert st. induction fuel as [|fuel IH]; intros st Hs; cbn [run]; case_match; try done;
    try (intros E; by simplify_eq).
  destruct (step text stringContents st) as [[e|[b st1]]| |] eqn:Es; try done.
  apply (step_ok _ _ Hs) in Es. destruct b; [intros E; by simplify_eq | by apply IH].
Qed.
End States.

(** Every trigger that [parseTriggers] returns has all its fields in the width
    they have in the TRIG section, whatever the text: a number that is too large
    is cut, and a name gives the id of its table.  So the section can be written
    with the triggers as they are. *)
Theorem parseTriggers_fits `{RuntimeLaws} (fuel : nat) (text : bytes) (stringContents : list bytes)
    (c : TextTrigCompiler) (triggers : list Trigger.Trigger) (c' : TextTrigCompiler)
    (Htext : Forall (is_u 8) text) (Hstrings : Forall (Forall (is_u 8)) stringContents) (Hc : compiler_ok c)
    (E : parseTriggers fuel text stringContents c = Some (Ret (inr (triggers, c')))) :
  Forall (cwf Trigger.layout) triggers.
Proof.
  unfold parseTriggers in E.
  destruct (run (text ++ [0]) stringContents fuel (initialParse c)) as [[[e|st]| |]|] eqn:Er; simplify_eq.
  cbn in E. injection E as <- <-. eapply run_ok in Er as [_ Ho _]; [exact Ho | | exact Hstrings | by split; [| constructor |]].
  apply Forall_app. split; [exact Htext|]. constructor; [by apply is_u_0 | constructor].
Qed.

(** ** A sample *)

(** A runtime whose tables keep the order of insertion. *)
#[export] Instance plainRuntime : Runtime := {|
  strHash s := fold_left Z.add s 0;
  equal_range A table key := (filter (fun p => p.1 = key) table).*2;
  indeterminate := replicate 12 0
|}.
#[export] Instance plainRuntime_laws : RuntimeLaws.
Proof. split; [done | done | apply (bool_decide_unpack _); vm_compute; exact I]. Qed.

Definition sampleCompiler : TextTrigCompiler :=
  mkTextTrigCompiler false 0 [(strHash (lit "Base"), mkTableNode (lit "Base") 7)] [] [] [] [] [] [] [] [] [].
(** A trigger of the players 1 and 2 that looks for marines at "Base". *)
Definition sampleText : bytes := lit (
  "TRIGGER(PLAYER1,PLAYER2){CONDITIONS:BRING(CURRENTPLAYER," ++ String (Ascii.ascii_of_nat 34) (String (Ascii.ascii_of_nat 34) EmptyString)
  ++ "," ++ String (Ascii.ascii_of_nat 34) (String (Ascii.ascii_of_nat 34) EmptyString)
  ++ ",ATLEAST,5);ACTIONS:DISPLAYTEXTMESSAGE(ALWAYSDISPLAY,"
  ++ String (Ascii.ascii_of_nat 34) (String (Ascii.ascii_of_nat 34) EmptyString) ++ ");PRESERVETRIGGER();FLAGS:100;}")%string.
Definition sampleStrings : list bytes := [lit "Terran Marine"; lit "Base"; lit "Well done"].
Definition sampleTriggers : list Trigger.Trigger :=
  match parseTriggers 1000 sampleText sampleStrings sampleCompiler with
  | Some (Ret (inr (ts, _))) => ts | _ => [] end.
Definition sampleResult : TextTrigCompiler :=
  match parseTriggers 1000 sampleText sampleStrings sampleCompiler with
  | Some (Ret (inr (_, c))) => c | _ => sampleCompiler end.

(** The condition and the actions it is compiled to. *)
Example sample_compiles :
  (fun t => (take 1 (Trigger.conditions t), take 3 (Trigger.actions t), Trigger.flags t)) <$> sampleTriggers =
  [([Condition.mkCondition 7 13 5 0 0 3 0 16 0],
    [Action.mkAction 0 0 0 0 0 0 0 9 0 4 0 0; Action.mkAction 0 0 0 0 0 0 0 3 0 4 0 0; TRG.blankAction], 4)].
Proof. vm_compute. reflexivity. Qed.

Lemma parseTriggers_fits_witness : Forall (cwf Trigger.layout) sampleTriggers /\ length sampleTriggers = 1%nat.
Proof.
  split; [|vm_compute; reflexivity].
  refine (parseTriggers_fits 1000 sampleText sampleStrings sampleCompiler sampleTriggers sampleResult _ _ _ _).
  - apply (bool_decide_unpack _). vm_compute. exact I.
  - apply (bool_decide_unpack _). vm_compute. exact I.
  - split; apply (bool_decide_unpack _); vm_compute; exact I.
  - vm_compute. reflexivity.
Defined.
