(* ===== verification/TextTrigBuild.v ===== *)
(** Compiling text triggers into a scenario (TextTrigCompiler.cpp): the tables of
    names and strings that are read from the scenario first, [buildNewMap], which
    puts the triggers and their new strings into it, and the functions the editor
    calls.

    The scenario is the class [Strings] with its string sections and the
    sections that use them, the triggers among them.  The names of units that
    the map does not rename and those of the scripts are arguments: they come
    from the game's data files. *)
From stdpp Require Import strings.
From S2P Require Import Prelude Codec ChkTypes Accessors StringUsers Objects Locations TriggerTables Triggers StringTable StrSection ScenarioStrings Kstr ScenarioSettings ScenarioNames EscapeStrings TextLib TextTrigNames TextTrigArgs TextTrigParser.
Import ScenarioStrings StringsClass.
Open Scope Z_scope.

(** [Chk::StringUserFlag::xTrigger]: all but the text of trigger actions. *)
Definition StringUserFlag_xTrigger : Z := 0xFFFFFEFF.

Section Build.
Context `{Runtime}.
Variables (defaultDisplayNames : list bytes) (idName : Z -> bytes).
(** [scData.ai.getName(i, aiName)] for each script. *)
Variable scripts : list (option bytes).

(** ** Tables of names *)

Definition addName (name : bytes) (id : Z) (table : list (Z * TableNode)) : list (Z * TableNode) :=
  table ++ [(strHash name, mkTableNode name id)].
Definition addNameIf (name : option bytes) (id : Z) (table : list (Z * TableNode)) : list (Z * TableNode) :=
  match name with Some name => addName name id table | None => table end.
(** The name of something in the game and the one in the editor. *)
Definition addBothNames (id : Z) (name : Z -> outcome (option bytes)) (table : list (Z * TableNode))
    : outcome (list (Z * TableNode)) :=
  let* gameString := name Scope.Game in
  let* editorString := name Scope.Editor in
  Ret (addNameIf editorString id (addNameIf gameString id table)).

Definition prepLocationTable (st : Strings) (c : TextTrigCompiler) : outcome TextTrigCompiler :=
  let* table := for_each (fun i table =>
      let* _ := MrgnSection.getLocation (mrgn (users st)) i in
      if i =? LocationId_Anywhere then Ret (addName (lit "Anywhere") LocationId_Anywhere table)
      else addBothNames (u8 i) (fun scope => getLocationName i scope st) table)
    (range 1 (MrgnSection.numLocations (mrgn (users st)) + 1))
    (addName (lit "No Location") 0 (locationTable c)) in
  Ret (c <| locationTable := table |>).

(** [getUnitName] is never null here. *)
Definition prepUnitTable (st : Strings) (c : TextTrigCompiler) : outcome TextTrigCompiler :=
  let name unitId scope :=
    let* s := getUnitName defaultDisplayNames idName unitId Auto scope st in Ret (Some s) in
  let* table := for_each (fun unitId => addBothNames unitId (name unitId)) (range 0 Unit_TotalTypes) (unitTable c) in
  Ret (c <| unitTable := table |>).

Definition prepSwitchTable (st : Strings) (c : TextTrigCompiler) : outcome TextTrigCompiler :=
  let* table := for_each (fun i => addBothNames (u8 i) (fun scope => getSwitchName i scope st))
    (range 0 256) (switchTable c) in
  Ret (c <| switchTable := table |>).

Definition prepGroupTable (st : Strings) (c : TextTrigCompiler) : outcome TextTrigCompiler :=
  let* table := for_each (fun i => addBothNames (i + 18) (fun scope => getForceName i scope st))
    (range 0 4) (groupTable c) in
  Ret (c <| groupTable := table |>).

(** The node that is inserted is never filled. *)
Definition prepScriptTable (c : TextTrigCompiler) : TextTrigCompiler :=
  c <| scriptTable := fold_left (fun table name =>
         match name with Some _ => addName [] 0 table | None => table end) scripts (scriptTable c) |>.

(** ** Tables of strings *)

(** A new node, and its number in the table that holds it. *)
Definition newNode (node : StringTableNode) (table : list (Z * Z)) (key : Z) (c : TextTrigCompiler)
    : TextTrigCompiler * list (Z * Z) :=
  (c <| nodes := nodes c ++ [node] |>, table ++ [(key, zlen (nodes c))]).

Definition prepTriggerString (st : Strings) (stringId : Z) (inReplacedRange : bool) (scope : Z)
    (s : TextTrigCompiler * list (Z * Z)) : outcome (TextTrigCompiler * list (Z * Z)) :=
  let '(c, table) := s in
  let* rawString := getString stringId scope st in
  match rawString with
  | None => Ret (c, table)
  | Some rawString =>
      let* n := first_such (fun n =>
          let* node := vget (nodes c) n in
          Ret ((TextTrigArgs.stringId node =? stringId) && ScStr.compareEq (scStr node) rawString))
        (equal_range table (strHash rawString)) in
      match n with
      | Some n =>
          let* node := vget (nodes c) n in
          if unused node && negb inReplacedRange
          then let* c := setNode c n (node <| unused := false |>) in Ret (c, table)
          else Ret (c, table)
      | None =>
          Ret (newNode (mkStringTableNode inReplacedRange (ScStr.new rawString) stringId [])
                 table (strHash rawString) c)
      end
  end.

(** The strings that sections use, but for the triggers in the scope of the game. *)
Definition prepUsedStrings (st : Strings) (scope : Z) (s : TextTrigCompiler * list (Z * Z))
    : outcome (TextTrigCompiler * list (Z * Z)) :=
  let userMask := if scope =? Scope.Game then StringUserFlag_xTrigger else StringUserFlag.All in
  let* marked := ScenarioStrings.Strings.markUsedStrings (users st) ∅ Scope.Either scope userMask in
  let* stringUsed := StringTable.unmarkUnstoredStrings
    (if scope =? Scope.Game then StrSection.strings (str st) else KstrSection.strings (kstr st)) marked in
  for_each (fun stringId (s : TextTrigCompiler * list (Z * Z)) =>
      if bool_decide (stringId ∈ stringUsed) then
        let* rawString := getString stringId scope st in
        Ret (match rawString with
             | Some rawString =>
                 newNode (mkStringTableNode false (ScStr.new rawString) stringId []) s.2 (strHash rawString) s.1
             | None => s
             end)
      else Ret s)
    (range 1 (getCapacity scope st + 1)) s.

(** The strings of an action. *)
Definition prepActionStrings (st : Strings) (inReplacedRange : bool) (a : Action.Action)
    (s : TextTrigCompiler * list (Z * Z)) : outcome (TextTrigCompiler * list (Z * Z)) :=
  let type := Action.actionType a in
  if type <? ActionArgs.NumActionTypes then
    let* s := if flag_at ActionArgs.actionUsesStringArg type && (Action.stringId a >? 0)
              then prepTriggerString st (Action.stringId a) inReplacedRange Scope.Game s else Ret s in
    if flag_at ActionArgs.actionUsesSoundArg type && (Action.soundStringId a >? 0)
    then prepTriggerString st (Action.soundStringId a) inReplacedRange Scope.Game s else Ret s
  else Ret s.

Definition prepStringTable (st : Strings) (trigIndexBegin trigIndexEnd scope : Z)
    (s : TextTrigCompiler * list (Z * Z)) : outcome (TextTrigCompiler * list (Z * Z)) :=
  let* s := prepUsedStrings st scope s in
  if scope =? Scope.Game then
    for_each (fun trigIndex s =>
        let* t := TrigSection.getTrigger (trig (users st)) trigIndex in
        for_each (prepActionStrings st ((trigIndexBegin <=? trigIndex) && (trigIndex <? trigIndexEnd)))
          (Trigger.actions t) s)
      (range 0 (TrigSection.numTriggers (trig (users st)))) s
  else Ret s.

(** ** Loading *)

(** [scriptTable] is not cleared. *)
Definition clearCompiler (c : TextTrigCompiler) : TextTrigCompiler :=
  mkTextTrigCompiler (useAddressesForMemory c) (deathTableOffset c) [] [] [] [] (scriptTable c) [] [] [] [] [].

Definition Data_Locations : Z := 1.
Definition Data_Units : Z := 2.
Definition Data_Switches : Z := 4.
Definition Data_Groups : Z := 8.
Definition Data_Scripts : Z := 16.
Definition Data_StandardStrings : Z := 32.
Definition Data_ExtendedStrings : Z := 64.
Definition Data_Strings : Z := Z.lor Data_StandardStrings Data_ExtendedStrings.
Definition Data_All : Z := 2 ^ 32 - 1.

(** Every step succeeds, so [loadCompiler] returns [true]. *)
Definition loadCompiler (st : Strings) (trigIndexBegin trigIndexEnd dataTypes : Z) (c : TextTrigCompiler)
    : outcome TextTrigCompiler :=
  let prep flag (f : TextTrigCompiler -> outcome TextTrigCompiler) c := if has_flag dataTypes flag then f c else Ret c in
  let c := clearCompiler c in
  let* c := prep Data_Locations (prepLocationTable st) c in
  let* c := prep Data_Units (prepUnitTable st) c in
  let* c := prep Data_Switches (prepSwitchTable st) c in
  let* c := prep Data_Groups (prepGroupTable st) c in
  let* c := prep Data_Scripts (fun c => Ret (prepScriptTable c)) c in
  let* c := prep Data_StandardStrings (fun c =>
      let* (c, table) := prepStringTable st trigIndexBegin trigIndexEnd Scope.Game (c, newStringTable c) in
      Ret (c <| newStringTable := table |>)) c in
  prep Data_ExtendedStrings (fun c =>
      let* (c, table) := prepStringTable st trigIndexBegin trigIndexEnd Scope.Editor (c, newExtendedStringTable c) in
      Ret (c <| newExtendedStringTable := table |>)) c.

(** ** Building *)

Definition replaceTriggers (st : Strings) (beginIndex endIndex : Z) (triggers : list Trigger.Trigger)
    : outcome (Strings * list Trigger.Trigger) :=
  let* (l, _, replaced) := TrigSection.replaceRange (trig (users st)) beginIndex endIndex triggers in
  Ret (withUsers ((users st) <| trig := l |>) st, replaced).

(** [*assignee = id]: the compiled triggers start at [first] in the section. *)
Definition assignString (first id : Z) (a : Assignee) (st : Strings) : outcome Strings :=
  let* t := vget (trig (users st)) (first + ofTrigger a) in
  let* action := vget (Trigger.actions t) (ofAction a) in
  let action := match ofField a with
                | ActionArgs.F_SoundStringId => action <| Action.soundStringId := id |>
                | _ => action <| Action.stringId := id |>
                end in
  let* actions := vset (Trigger.actions t) (ofAction a) action in
  let* l := vset (trig (users st)) (first + ofTrigger a) (t <| Trigger.actions := actions |>) in
  Ret (withUsers ((users st) <| trig := l |>) st).

(** An exception leaves what the steps before did. *)
Definition attempt {A} (o : outcome A) (a : A) : outcome (bool * A) :=
  match o with Ret a' => Ret (true, a') | Throw _ => Ret (false, a) | Undef => Undef end.

(** The loop over [unassignedStrings]. *)
Fixpoint addStrings (first : Z) (c : TextTrigCompiler) (ns : list Z) (st : Strings) : outcome (bool * Strings) :=
  match ns with
  | [] => Ret (true, st)
  | n :: ns =>
      let* node := vget (nodes c) n in
      let* (ok, (st, id)) :=
        attempt (addString (ScStr.toString (scStr node)) Scope.Game true st) (st, 0) in
      if negb ok || (id =? 0) then Ret (false, st)
      else let* st := for_each (assignString first id) (assignees node) st in addStrings first c ns st
  end.

Definition buildNewMap (trigIndexBegin trigIndexEnd : Z) (triggers : list Trigger.Trigger) (c : TextTrigCompiler)
    (st : Strings) : outcome (bool * Strings) :=
  let strBackup := str st in
  let* (st, replacedTriggers) := replaceTriggers st trigIndexBegin trigIndexEnd triggers in
  let* (ok, st) := attempt (deleteUnusedStrings Scope.Game st) st in
  let* (ok, st) := if ok then attempt (deleteUnusedStrings Scope.Editor st) st else Ret (false, st) in
  let* (success, st) := if ok then addStrings trigIndexBegin c (unassignedStrings c) st else Ret (false, st) in
  if success then Ret (true, st)
  else
    let unreplaceEndIndex := trigIndexBegin + zlen replacedTriggers in
    let* (st, _) := replaceTriggers st trigIndexBegin unreplaceEndIndex replacedTriggers in
    Ret (false, withStr (StrSection.restore (str st) strBackup).1 st).

(** ** Compiling *)

Inductive Report :=
  | Completed
  | TextError (e : ParseError)
  | BuildFailed
  | TriggerCount (found : Z).

Definition lift {A B} (o : option (outcome A)) (f : A -> option (outcome B)) : option (outcome B) :=
  match o with
  | None => None
  | Some (Ret a) => f a
  | Some (Throw e) => Some (Throw e)
  | Some Undef => Some Undef
  end.

(** The text as triggers, with the compiler loaded. *)
Definition readTriggers (fuel : nat) (text : bytes) (trigIndexBegin trigIndexEnd : Z) (st : Strings)
    (c : TextTrigCompiler) : option (outcome (ParseError + list Trigger.Trigger * TextTrigCompiler)) :=
  lift (Some (loadCompiler st trigIndexBegin trigIndexEnd Data_All c)) (fun c =>
  lift (cleanText fuel text) (fun '(text, stringContents) =>
  parseTriggers fuel text stringContents c)).

(** [compileTriggers] swaps the section with the compiled triggers at the end:
    those are the ones that start at [trigIndexBegin]. *)
Definition compileTriggers (fuel : nat) (text : bytes) (trigIndexBegin trigIndexEnd : Z) (st : Strings)
    (c : TextTrigCompiler) : option (outcome (Report * Strings)) :=
  lift (readTriggers fuel text trigIndexBegin trigIndexEnd st c) (fun r =>
  match r with
  | inl e => Some (Ret (TextError e, st))
  | inr (triggers, c) => Some (
      let* (ok, st) := buildNewMap trigIndexBegin trigIndexEnd triggers c st in
      if ok then
        let compiled := take (length triggers) (drop (Z.to_nat trigIndexBegin) (trig (users st))) in
        Ret (Completed, withUsers ((users st) <| trig := compiled |>) st)
      else Ret (BuildFailed, st))
  end).

Definition compileTrigger (fuel : nat) (text : bytes) (trigIndex : Z) (st : Strings) (c : TextTrigCompiler)
    : option (outcome (Report * Strings)) :=
  lift (readTriggers fuel text trigIndex (trigIndex + 1) st c) (fun r =>
  match r with
  | inl e => Some (Ret (TextError e, st))
  | inr (triggers, c) => Some (
      if zlen triggers =? 1 then
        let* (ok, st) := buildNewMap trigIndex (trigIndex + 1) triggers c st in
        Ret (if ok then Completed else BuildFailed, st)
      else Ret (TriggerCount (zlen triggers), st))
  end).

(** ** Single names and arguments *)

(** The type in the file of a name or a number. *)
Definition parseTypeName (name : bytes -> outcome (option Z)) (regular : Z -> Z) (fuel : nat) (text : bytes)
    : option (outcome (option Z)) :=
  lift (cleanText fuel text) (fun '(text, _) => Some (
    let toRegular v := if v <? 0 then regular v else u8 v in
    let* type := name text in
    match type with
    | Some v => if negb (v =? 0) && negb (v =? -1) then Ret (Some (toRegular v))
                else let* (ok, temp) := parseLong text 0 0 (zlen text) in
                     Ret (if ok then Some (toRegular (s32 temp)) else None)
    | None => let* (ok, temp) := parseLong text 0 0 (zlen text) in
              Ret (if ok then Some (toRegular (s32 temp)) else None)
    end)).
Definition conditionTypeOf : nat -> bytes -> option (outcome (option Z)) :=
  parseTypeName parseConditionName extendedToRegularConditionType.
Definition actionTypeOf : nat -> bytes -> option (outcome (option Z)) :=
  parseTypeName parseActionName extendedToRegularActionType.

Definition conditionDataTypes (t : ConditionArgs.ArgType) : Z :=
  match t with
  | ConditionArgs.T_Unit => Data_Units
  | ConditionArgs.T_Location => Data_Locations
  | ConditionArgs.T_Player => Data_Groups
  | ConditionArgs.T_Switch | ConditionArgs.T_TypeIndex => Data_Switches
  | _ => 0
  end.
Definition actionDataTypes (t : ActionArgs.ArgType) : Z :=
  match t with
  | ActionArgs.T_Location => Data_Locations
  | ActionArgs.T_String => Data_Strings
  | ActionArgs.T_Player => Data_Groups
  | ActionArgs.T_Unit | ActionArgs.T_TypeIndex => Data_Units
  | ActionArgs.T_Script => Data_Scripts
  | ActionArgs.T_Switch => Data_Switches
  | ActionArgs.T_Number => Z.lor (Z.lor Data_Groups Data_Locations) Data_Scripts
  | _ => 0
  end.

(** The argument is the whole text; quoted or not, it is also the only string. *)
Definition compileConditionArg (text : bytes) (argument : ConditionArgs.Argument) (trigIndex : Z) (st : Strings)
    (condition : Condition.Condition) (c : TextTrigCompiler)
    : outcome (bool * Condition.Condition * TextTrigCompiler) :=
  let* c := loadCompiler st trigIndex (trigIndex + 1) (conditionDataTypes (ConditionArgs.type argument)) c in
  let* (error, condition, cur) := parseConditionArg text [text] 0 (zlen text) argument condition (mkCursor 0 c) in
  Ret (match error with None => true | Some _ => false end, condition, compiler cur).

Definition compileActionArg (text : bytes) (argument : ActionArgs.Argument) (trigIndex : Z) (st : Strings)
    (action : Action.Action) (c : TextTrigCompiler) : outcome (bool * Action.Action * TextTrigCompiler) :=
  let* c := loadCompiler st trigIndex (trigIndex + 1) (actionDataTypes (ActionArgs.type argument)) c in
  let* (error, action, cur) := parseActionArg text [text] 0 (zlen text) (mkAssignee 0 0) argument action (mkCursor 0 c) in
  Ret (match error with None => true | Some _ => false end, action, compiler cur).

End Build.
