(* ===== verification/TextTrigBuildProps.v ===== *)
(** Compiling text triggers into a scenario: the names that are found, the ids
    the strings get, and what a build leaves in the scenario. *)
From stdpp Require Import strings.
From S2P Require Import Prelude Codec ChkTypes Accessors StringUsers Objects Locations TriggerTables Triggers TriggerStrings TriggerProps StringTable StrSection TableProps ScenarioStrings ScenarioProps Kstr ScenarioSettings ScenarioNames ScenarioNamesProps EscapeStrings TextLib TextTrigNames TextTrigArgs TextTrigParser TextTrigProps TextTrigTypes TextTrigBuild.
Import ScenarioStrings StringsClass.
Open Scope Z_scope.

(** ** Names *)

Section Names.
Context `{RuntimeLaws}.

(** The table has a node with this name and this id. *)
Definition named (table : list (Z * TableNode)) (name : bytes) (id : Z) : Prop :=
  exists key node, (key, node) ∈ table /\ nodeName node = name /\ nodeId node = id.
(** Every node is under the hash of its name. *)
Definition keyed (table : list (Z * TableNode)) : Prop :=
  Forall (fun p => p.1 = strHash (nodeName p.2)) table.
(** The lowest number of which [P] holds. *)
Definition lowest (P : Z -> Prop) (o : option Z) : Prop :=
  match o with
  | Some id => P id /\ forall id', P id' -> id <= id'
  | None => forall id, ~ P id
  end.

Lemma lowest_iff P Q o : (forall id, P id <-> Q id) -> lowest P o -> lowest Q o.
Proof. intros HPQ. destruct o as [id|]; cbn; [|by intros Hn id Hq%HPQ; apply (Hn id)].
  intros [Hp Hl]. split; [by apply HPQ|]. intros id' Hq%HPQ. by apply Hl. Qed.

Lemma in_equal_range table name node :
  keyed table -> nodeName node = name ->
  node ∈ equal_range table (strHash name) <-> exists key, (key, node) ∈ table.
Proof.
  intros Hk <-. rewrite equal_range_perm, list_elem_of_fmap. split.
  - intros ([k n] & -> & Hn). apply list_elem_of_filter in Hn as [_ Hn]. by exists k.
  - intros (k & Hn). exists (k, node). split; [done|]. apply list_elem_of_filter. split; [|done]. cbn.
    unfold keyed in Hk. rewrite Forall_forall in Hk. exact (Hk _ Hn).
Qed.

(** The loop over the nodes of a key. *)
Lemma lowest_fold name nodes (P : Z -> Prop) best :
  lowest P best ->
  lowest (fun id => P id \/ exists node, node ∈ nodes /\ nodeName node = name /\ nodeId node = id)
    (fold_left (fun (best : option Z) node =>
        if bool_decide (nodeName node = name) then
          match best with
          | None => Some (nodeId node)
          | Some id => Some (if nodeId node <? id then nodeId node else id)
          end
        else best) nodes best).
Proof.
  revert P best. induction nodes as [|node nodes IH]; intros P best Hb; cbn [fold_left].
  - eapply lowest_iff; [|exact Hb]. set_solver.
  - eapply lowest_iff; [|apply (IH (fun id => P id \/ (nodeName node = name /\ nodeId node = id)))].
    + intros id. setoid_rewrite elem_of_cons. split; [|naive_solver].
      intros [[HP|[? ?]]|(n & ? & ? & ?)]; [by left|right; exists node; auto|right; exists n; auto].
    + case_bool_decide as Hn; [|eapply lowest_iff; [|exact Hb]; naive_solver].
      destruct best as [b|]; cbn in *.
      * destruct Hb as [Hp Hl]. destruct (Z.ltb_spec (nodeId node) b).
        -- split; [by right|]. intros id' [Hp'%Hl|[_ <-]]; lia.
        -- split; [by left|]. intros id' [Hp'%Hl|[_ <-]]; lia.
      * split; [by right|]. intros id' [Hp'|[_ <-]]; [by destruct (Hb id') | lia].
Qed.

(** Whatever the hash and the order of the table are, the lowest id is found. *)
Lemma lookupName_lowest table name : keyed table -> lowest (named table name) (lookupName table name).
Proof.
  intros Hk. unfold lookupName. set (nodes := equal_range table (strHash name)).
  assert (Hf := lowest_fold name nodes (fun _ => False) None (fun _ h => h)).
  eapply (lowest_iff _ (named table name)) in Hf.
  - destruct nodes as [|node [|node' nodes]]; [exact Hf | | exact Hf].
    cbn in *. by destruct (bool_decide (nodeName node = name)).
  - intros id. unfold named. split.
    + intros [[]|(node & Hn & Hname & Hid)]. apply (in_equal_range _ _ _ Hk Hname) in Hn as (k & Hn). by exists k, node.
    + intros (k & node & Hn & Hname & Hid). right. exists node. split; [|done].
      apply (in_equal_range _ _ _ Hk Hname). by exists k.
Qed.

(** ** The tables of names *)

Lemma addName_keyed name id table : keyed table -> keyed (addName name id table).
Proof. intros Hk. apply Forall_app. split; [exact Hk|]. by constructor. Qed.

Lemma addName_named name id table s i :
  named (addName name id table) s i <-> named table s i \/ (s = name /\ i = id).
Proof.
  unfold named, addName. setoid_rewrite elem_of_app. setoid_rewrite list_elem_of_singleton. split.
  - intros (k & n & [Hn|E] & Hs & Hi); [left; eauto|right; by simplify_eq].
  - intros [(k & n & ?)|[-> ->]]; [exists k, n; naive_solver|].
    exists (strHash name), (mkTableNode name id). split; [by right|done].
Qed.

(** The name of something in one of the scopes. *)
Definition hasName (name : Z -> outcome (option bytes)) (s : bytes) : Prop :=
  name Scope.Game = Ret (Some s) \/ name Scope.Editor = Ret (Some s).

Lemma addBothNames_spec id name table table' :
  keyed table -> addBothNames id name table = Ret table' ->
  keyed table' /\ forall s i, named table' s i <-> named table s i \/ (i = id /\ hasName name s).
Proof.
  intros Hk E. unfold addBothNames in E. apply bind_inv in E as (g & Eg & E). apply bind_inv in E as (e & Ee & E).
  injection E as <-. unfold hasName. rewrite Eg, Ee.
  destruct g as [g|], e as [e|]; cbn [addNameIf];
    (split; [by repeat apply addName_keyed|]); intros s i; rewrite ?addName_named; naive_solver.
Qed.

Lemma names_loop (l : list Z) (body : Z -> list (Z * TableNode) -> outcome (list (Z * TableNode)))
    (has : Z -> bytes -> Z -> Prop) table table' :
  (forall i t t', i ∈ l -> keyed t -> body i t = Ret t' ->
     keyed t' /\ forall s id, named t' s id <-> named t s id \/ has i s id) ->
  keyed table -> for_each body l table = Ret table' ->
  keyed table' /\ forall s id, named table' s id <-> named table s id \/ exists i, i ∈ l /\ has i s id.
Proof.
  intros Hb. revert table. induction l as [|i l IH]; intros table Hk E; cbn in E.
  - simplify_eq. split; [done|]. intros s id. set_solver.
  - apply bind_inv in E as (t & Et & E). destruct (Hb i table t ltac:(set_solver) Hk Et) as [Hkt Ht].
    destruct (IH ltac:(intros; apply Hb; set_solver) t Hkt E) as [Hk' Hn]. split; [done|].
    intros s id. rewrite Hn, Ht. setoid_rewrite elem_of_cons. naive_solver.
Qed.
End Names.

(** ** Loading *)

Section Loading.
Context `{RuntimeLaws}.
Definition nameTables (c : TextTrigCompiler) : list (list (Z * TableNode)) :=
  [locationTable c; unitTable c; switchTable c; groupTable c; scriptTable c].

Lemma setNode_tables c n node c' : setNode c n node = Ret c' -> nameTables c' = nameTables c.
Proof. unfold setNode. intros E. by ret_inv. Qed.

Lemma prepTriggerString_tables st id b scope s s' :
  prepTriggerString st id b scope s = Ret s' -> nameTables s'.1 = nameTables s.1.
Proof.
  unfold prepTriggerString. destruct s as [c t]. intros E. apply bind_inv in E as (raw & _ & E).
  destruct raw as [raw|]; [|by simplify_eq]. apply bind_inv in E as (n & _ & E).
  destruct n as [n|]; [|by simplify_eq]. apply bind_inv in E as (node & _ & E).
  case_match; [|by simplify_eq]. apply bind_inv in E as (c' & Ec & E). simplify_eq. by apply setNode_tables in Ec.
Qed.

Lemma prepActionStrings_tables st b a s s' :
  prepActionStrings st b a s = Ret s' -> nameTables s'.1 = nameTables s.1.
Proof.
  unfold prepActionStrings. case_match; [|intros E; by simplify_eq]. intros E.
  apply bind_inv in E as (s1 & E1 & E).
  assert (nameTables s1.1 = nameTables s.1) as <-
    by (match type of E1 with (if ?b then _ else _) = _ => destruct b end;
        [by eapply prepTriggerString_tables | by simplify_eq]).
  match type of E with (if ?b then _ else _) = _ => destruct b end; [by eapply prepTriggerString_tables | by simplify_eq].
Qed.

Lemma prepStringTable_tables st b e scope s s' :
  prepStringTable st b e scope s = Ret s' -> nameTables s'.1 = nameTables s.1.
Proof.
  unfold prepStringTable. intros E. apply bind_inv in E as (s1 & E1 & E).
  assert (Hn : nameTables s1.1 = nameTables s.1).
  { unfold prepUsedStrings in E1. apply bind_inv in E1 as (m & _ & E1). apply bind_inv in E1 as (u & _ & E1).
    eapply (for_each_inv (fun x => nameTables x.1 = nameTables s.1)) in E1; [exact E1 | | done].
    intros i x x' Hx Ex. cbn beta in Ex. case_bool_decide; [|injection Ex as <-; exact Hx].
    apply bind_inv in Ex as (raw & _ & Ex). injection Ex as <-. destruct raw; exact Hx. }
  destruct (scope =? Scope.Game); [|injection E as <-; exact Hn].
  eapply (for_each_inv (fun x => nameTables x.1 = nameTables s.1)) in E; [exact E | | done].
  intros i x x' Hx Ex. cbn beta in Ex. apply bind_inv in Ex as (t & _ & Ex).
  eapply (for_each_inv (fun x => nameTables x.1 = nameTables s.1)) in Ex; [exact Ex | | done].
  intros a y y' Hy Ey. apply prepActionStrings_tables in Ey. congruence.
Qed.

(** The names of locations, units, switches and forces in a scenario. *)
Definition locationNamed (st : Strings) (s : bytes) (id : Z) : Prop :=
  (id = 0 /\ s = lit "No Location") \/
  exists i, 1 <= i <= MrgnSection.numLocations (mrgn (users st)) /\ id = u8 i /\
    (if i =? LocationId_Anywhere then s = lit "Anywhere" else hasName (fun scope => getLocationName i scope st) s).
Definition switchNamed (st : Strings) (s : bytes) (id : Z) : Prop :=
  0 <= id < 256 /\ hasName (fun scope => getSwitchName id scope st) s.
Definition groupNamed (st : Strings) (s : bytes) (id : Z) : Prop :=
  18 <= id < 22 /\ hasName (fun scope => getForceName (id - 18) scope st) s.

Lemma prepLocationTable_spec st c c' :
  locationTable c = [] -> prepLocationTable st c = Ret c' ->
  keyed (locationTable c') /\ forall s id, named (locationTable c') s id <-> locationNamed st s id.
Proof.
  intros Hc E. unfold prepLocationTable in E. rewrite Hc in E. apply bind_inv in E as (t & Et & E).
  injection E as <-. cbn [locationTable upd updc_locationTable].
  assert (Hk : keyed (addName (lit "No Location") 0 [])) by (apply addName_keyed; constructor).
  apply (names_loop _ _ (fun i s id => id = u8 i /\
    (if i =? LocationId_Anywhere then s = lit "Anywhere" else hasName (fun scope => getLocationName i scope st) s)))
    in Et as [Hkt Hn]; [|  |exact Hk].
  - split; [done|]. intros s id. rewrite Hn, addName_named. unfold locationNamed.
    setoid_rewrite elem_of_range. split.
    + intros [[(k & n & Hin & _)|[-> ->]]|(i & Hi & Hr)]; [by apply elem_of_nil in Hin|by left|].
      right. exists i. split; [lia|done].
    + intros [[-> ->]|(i & Hi & Hr)]; [left; by right|]. right. exists i. split; [lia|done].
  - intros i t0 t0' _ Hkt0 Eb. apply bind_inv in Eb as (l & _ & Eb).
    destruct (Z.eqb_spec i LocationId_Anywhere) as [->|Hne].
    + injection Eb as <-. split; [by apply addName_keyed|]. intros s id. rewrite addName_named.
      change (u8 LocationId_Anywhere) with LocationId_Anywhere. tauto.
    + eapply addBothNames_spec in Eb; done.
Qed.

Variables (defaultDisplayNames : list bytes) (idName : Z -> bytes) (scripts : list (option bytes)).

Definition unitNamed (st : Strings) (s : bytes) (id : Z) : Prop :=
  0 <= id < Unit_TotalTypes /\
  (getUnitName defaultDisplayNames idName id Auto Scope.Game st = Ret s \/
   getUnitName defaultDisplayNames idName id Auto Scope.Editor st = Ret s).

(** A table made of the names of a range of things. *)
Lemma rangeTable_spec lo hi (idOf : Z -> Z) (name : Z -> Z -> outcome (option bytes)) table :
  for_each (fun i => addBothNames (idOf i) (name i)) (range lo hi) [] = Ret table ->
  keyed table /\ forall s id, named table s id <-> exists i, lo <= i < hi /\ id = idOf i /\ hasName (name i) s.
Proof.
  intros Et. apply (names_loop _ _ (fun i s id => id = idOf i /\ hasName (name i) s)) in Et as [Hk Hn]; [| |by constructor].
  - split; [done|]. intros s id. rewrite Hn. setoid_rewrite elem_of_range. split; [|by right].
    intros [(k & n & Hin & _)|?]; [by apply elem_of_nil in Hin | done].
  - intros i t t' _ Hk Eb. by eapply addBothNames_spec in Eb.
Qed.

Lemma prepUnitTable_spec st c c' :
  unitTable c = [] -> prepUnitTable defaultDisplayNames idName st c = Ret c' ->
  keyed (unitTable c') /\ forall s id, named (unitTable c') s id <-> unitNamed st s id.
Proof.
  intros Hc E. unfold prepUnitTable in E. rewrite Hc in E. apply bind_inv in E as (t & Et & E). injection E as <-.
  apply rangeTable_spec in Et as [Hk Hn]. split; [done|]. intros s id. cbn [unitTable upd updc_unitTable]. rewrite Hn.
  assert (Hname : forall scope, (let* x := getUnitName defaultDisplayNames idName id Auto scope st in Ret (Some x)) = Ret (Some s)
    <-> getUnitName defaultDisplayNames idName id Auto scope st = Ret s)
    by (intros scope; destruct (getUnitName _ _ _ _ _ _); cbn; split; congruence).
  unfold unitNamed, hasName. rewrite <- !Hname. split; [by intros (i & Hi & -> & Hh)|]. intros [Hi Hh]. by exists id.
Qed.

Lemma prepSwitchTable_spec st c c' :
  switchTable c = [] -> prepSwitchTable st c = Ret c' ->
  keyed (switchTable c') /\ forall s id, named (switchTable c') s id <-> switchNamed st s id.
Proof.
  intros Hc E. unfold prepSwitchTable in E. rewrite Hc in E. apply bind_inv in E as (t & Et & E). injection E as <-.
  apply rangeTable_spec in Et as [Hk Hn]. split; [done|]. intros s id. cbn [switchTable upd updc_switchTable]. rewrite Hn.
  unfold switchNamed. split.
  - intros (i & Hi & -> & Hh). rewrite u8_id by (unfold is_u; lia). done.
  - intros [Hi Hh]. exists id. rewrite u8_id by (unfold is_u; lia). done.
Qed.

Lemma prepGroupTable_spec st c c' :
  groupTable c = [] -> prepGroupTable st c = Ret c' ->
  keyed (groupTable c') /\ forall s id, named (groupTable c') s id <-> groupNamed st s id.
Proof.
  intros Hc E. unfold prepGroupTable in E. rewrite Hc in E. apply bind_inv in E as (t & Et & E). injection E as <-.
  apply rangeTable_spec in Et as [Hk Hn]. split; [done|]. intros s id. cbn [groupTable upd updc_groupTable]. rewrite Hn.
  unfold groupNamed. split.
  - intros (i & Hi & -> & Hh). replace (i + 18 - 18) with i by lia. split; [lia|done].
  - intros [Hi Hh]. exists (id - 18). split; [lia|]. split; [lia|done].
Qed.

Lemma prepScriptTable_names c :
  Forall (fun p => nodeName p.2 = []) (scriptTable c) ->
  Forall (fun p => nodeName p.2 = []) (scriptTable (prepScriptTable scripts c)).
Proof.
  unfold prepScriptTable. cbn. generalize (scriptTable c). induction scripts as [|o l IH]; intros t Ht; [done|].
  cbn. apply IH. destruct o; [|done]. apply Forall_app. split; [done|]. by constructor.
Qed.
(** Loading what the names need, with or without the strings. *)
Definition Data_Names : Z := 31.

Lemma names_flag dataTypes flag :
  has_flag dataTypes Data_Names = true -> has_flag Data_Names flag = true -> has_flag dataTypes flag = true.
Proof.
  unfold has_flag. rewrite !Z.eqb_eq. intros Hd Hf.
  by rewrite <- Hf at 1; rewrite Z.land_assoc, Hd.
Qed.

(** Loading strings leaves the tables of names as they are. *)
Lemma prepStrings_tables st b e scope (flag : bool) (set : list (Z * Z) -> TextTrigCompiler -> TextTrigCompiler)
    (get : TextTrigCompiler -> list (Z * Z)) c c' :
  (forall t c, nameTables (set t c) = nameTables c) ->
  (if flag then let* (c, table) := prepStringTable st b e scope (c, get c) in Ret (set table c) else Ret c) = Ret c' ->
  nameTables c' = nameTables c.
Proof.
  intros Hset E. destruct flag; [|by injection E as <-].
  apply bind_inv in E as ([c1 t1] & E1 & E). apply prepStringTable_tables in E1. injection E as <-. by rewrite Hset.
Qed.

(** The tables of names are made one after another, each from an empty one. *)
Lemma loadCompiler_tables st b e dataTypes c c' :
  has_flag dataTypes Data_Names = true ->
  Forall (fun p => nodeName p.2 = []) (scriptTable c) ->
  loadCompiler defaultDisplayNames idName scripts st b e dataTypes c = Ret c' ->
  exists cl cu cs cg, prepLocationTable st (clearCompiler c) = Ret cl /\
    prepUnitTable defaultDisplayNames idName st ((clearCompiler c) <| locationTable := locationTable cl |>) = Ret cu /\
    prepSwitchTable st (cu <| switchTable := [] |>) = Ret cs /\ prepGroupTable st (cs <| groupTable := [] |>) = Ret cg /\
    locationTable c' = locationTable cl /\ unitTable c' = unitTable cu /\ switchTable c' = switchTable cs /\
    groupTable c' = groupTable cg /\ Forall (fun p => nodeName p.2 = []) (scriptTable c').
Proof.
  intros Hd Hscripts E. unfold loadCompiler in E. cbv zeta in E.
  rewrite (names_flag dataTypes Data_Locations), (names_flag dataTypes Data_Units),
    (names_flag dataTypes Data_Switches), (names_flag dataTypes Data_Groups), (names_flag dataTypes Data_Scripts) in E by done.
  apply bind_inv in E as (cl & El & E). apply bind_inv in E as (cu & Eu & E). apply bind_inv in E as (cs & Es & E).
  apply bind_inv in E as (cg & Eg & E). cbn [obind] in E. apply bind_inv in E as (c1 & E1 & E).
  apply (prepStrings_tables _ _ _ _ _ (upd newExtendedStringTable)) in E; [|done].
  apply (prepStrings_tables _ _ _ _ _ (upd newStringTable)) in E1; [|done].
  rewrite E1 in E. clear E1. injection E as Hl Hu Hs Hg Hsc.
  assert (exists t, cl = (clearCompiler c) <| locationTable := t |>) as [tl ->]
    by (unfold prepLocationTable in El; ret_inv; eauto).
  assert (exists t, cu = ((clearCompiler c) <| locationTable := tl |>) <| unitTable := t |>) as [tu ->]
    by (unfold prepUnitTable in Eu; ret_inv; eauto).
  assert (exists t, cs = (((clearCompiler c) <| locationTable := tl |>) <| unitTable := tu |>) <| switchTable := t |>) as [ts ->]
    by (unfold prepSwitchTable in Es; ret_inv; eauto).
  assert (exists t, cg = ((((clearCompiler c) <| locationTable := tl |>) <| unitTable := tu |>) <| switchTable := ts |>)
     <| groupTable := t |>) as [tg ->] by (unfold prepGroupTable in Eg; ret_inv; eauto).
  do 4 eexists. split; [exact El|]. split; [exact Eu|]. split; [exact Es|]. split; [exact Eg|].
  split; [exact Hl|]. split; [exact Hu|]. split; [exact Hs|]. split; [exact Hg|]. rewrite Hsc.
  apply (prepScriptTable_names (((((clearCompiler c) <| locationTable := tl |>) <| unitTable := tu |>)
    <| switchTable := ts |>) <| groupTable := tg |>)). exact Hscripts.
Qed.
End Loading.

(** C9: After [loadCompiler] a name of a location, unit, switch or force in the map
    gives the lowest id that has it in the game's or the editor's strings, and no
    other name gives one; neither the hash nor the order of the tables matters.
    AI scripts are never found by their names, because their nodes are empty. *)
Theorem loaded_names `{RuntimeLaws} (defaultDisplayNames : list bytes) (idName : Z -> bytes)
    (scripts : list (option bytes)) (st : Strings) (b e dataTypes : Z) (c c' : TextTrigCompiler)
    (Hd : has_flag dataTypes Data_Names = true) (Hscripts : Forall (fun p => nodeName p.2 = []) (scriptTable c))
    (E : loadCompiler defaultDisplayNames idName scripts st b e dataTypes c = Ret c') (s : bytes) :
  lowest (locationNamed st s) (lookupName (locationTable c') s) /\
  lowest (unitNamed defaultDisplayNames idName st s) (lookupName (unitTable c') s) /\
  lowest (switchNamed st s) (lookupName (switchTable c') s) /\
  lowest (groupNamed st s) (lookupName (groupTable c') s) /\
  (s <> [] -> lookupScript (scriptTable c') s = None).
Proof.
  apply loadCompiler_tables in E as (cl & cu & cs & cg & El & Eu & Es & Eg & Hl & Hu & Hs & Hg & Hsc); [|exact Hd|exact Hscripts].
  rewrite Hl, Hu, Hs, Hg.
  apply prepLocationTable_spec in El as [Kl Nl]; [|reflexivity]. apply prepUnitTable_spec in Eu as [Ku Nu]; [|reflexivity].
  apply prepSwitchTable_spec in Es as [Ks Ns]; [|reflexivity]. apply prepGroupTable_spec in Eg as [Kg Ng]; [|reflexivity].
  split; [exact (lowest_iff _ _ _ (Nl s) (lookupName_lowest _ s Kl))|].
  split; [exact (lowest_iff _ _ _ (Nu s) (lookupName_lowest _ s Ku))|].
  split; [exact (lowest_iff _ _ _ (Ns s) (lookupName_lowest _ s Ks))|].
  split; [exact (lowest_iff _ _ _ (Ng s) (lookupName_lowest _ s Kg))|].
  intros Hne. unfold lookupScript. destruct (list_find _ _) as [[i node]|] eqn:Ef; [|done]. exfalso.
  apply list_find_Some in Ef as (Ef & Hname & _). apply list_elem_of_lookup_2, equal_range_in in Ef as (k & Hk).
  rewrite Forall_forall in Hsc. specialize (Hsc _ Hk). cbn in Hsc. congruence.
Qed.

(** A scenario whose location is called "Base". *)
Definition base_sample : Strings :=
  mkStrings (StrSection.setStrings (str names_sample) [None; Some (ScStr.new (lit "Base"))]) (kstr names_sample)
    ((users names_sample) <| mrgn := [None; Some (Location.mkLocation 0 0 64 64 1 0)] |>) (hybridOrAbove names_sample).
Definition base_loaded : TextTrigCompiler :=
  match loadCompiler (replicate 228 (lit "Unit")) (fun _ => []) [Some (lit "Expansion")] base_sample 0 0 Data_Names sampleCompiler with
  | Ret c => c | _ => sampleCompiler end.

Lemma loaded_names_witness :
  has_flag Data_Names Data_Names = true /\
  lowest (locationNamed base_sample (lit "Base")) (lookupName (locationTable base_loaded) (lit "Base")) /\
  lookupName (locationTable base_loaded) (lit "Base") = Some 1 /\
  lookupScript (scriptTable base_loaded) (lit "Expansion") = None.
Proof.
  split; [done|].
  destruct (loaded_names (replicate 228 (lit "Unit")) (fun _ => []) [Some (lit "Expansion")] base_sample 0 0 Data_Names
    sampleCompiler base_loaded ltac:(done) ltac:(constructor) ltac:(vm_compute; reflexivity) (lit "Base")) as (HL & _).
  split; [exact HL|]. split; vm_compute; reflexivity.
Defined.
