(* ===== verification/TextTrigStrings.v ===== *)
(** The strings of compiled triggers: [buildNewMap] adds the texts that are not
    in the map yet and puts their ids into the actions that show them. *)
From stdpp Require Import strings.
From S2P Require Import Prelude Codec ChkTypes Accessors StringUsers Objects Locations TriggerTables Triggers TriggerStrings TriggerProps StringTable StrSection TableProps ScenarioStrings ScenarioProps Kstr ScenarioSettings ScenarioNames ScenarioNamesProps EscapeStrings TextLib TextTrigNames TextTrigArgs TextTrigParser TextTrigProps TextTrigTypes TextTrigBuild TextTrigBuildProps.
Import ScenarioStrings StringsClass.
Open Scope Z_scope.

(** ** Places *)

Lemma vget_range {A} (l : list A) i a : vget l i = Ret a -> 0 <= i < zlen l.
Proof.
  unfold vget, zlen. destruct (Z.ltb_spec i 0); [done|]. destruct (l !! Z.to_nat i) eqn:E; [|done].
  intros _. apply lookup_lt_Some in E. lia.
Qed.

(** The action an assignee is in, when the compiled triggers start at [first]. *)
Definition actionOf (first : Z) (a : Assignee) (ts : list Trigger.Trigger) : outcome Action.Action :=
  let* t := vget ts (first + ofTrigger a) in vget (Trigger.actions t) (ofAction a).
Definition isSound (a : Assignee) : bool :=
  match ofField a with ActionArgs.F_SoundStringId => true | _ => false end.
Definition fieldOf (sound : bool) (act : Action.Action) : Z :=
  if sound then Action.soundStringId act else Action.stringId act.
Definition setField (sound : bool) (id : Z) (act : Action.Action) : Action.Action :=
  if sound then act <| Action.soundStringId := id |> else act <| Action.stringId := id |>.
(** The field of an assignee: two assignees with the same slot are the same pointer. *)
Definition slot (a : Assignee) : Z * Z * bool := (ofTrigger a, ofAction a, isSound a).
(** The field counts as a use of the string for this type of action. *)
Definition counts (sound : bool) (act : Action.Action) : bool :=
  ACT.uses ActionArgs.NumActionTypes (if sound then ActionArgs.actionUsesSoundArg else ActionArgs.actionUsesStringArg) act.

(** The field of [a] holds [id]. *)
Definition holds (first : Z) (a : Assignee) (id : Z) (st : Strings) : Prop :=
  exists act, actionOf first a (trig (users st)) = Ret act /\ fieldOf (isSound a) act = id.
Definition counted (first : Z) (a : Assignee) (st : Strings) : Prop :=
  exists act, actionOf first a (trig (users st)) = Ret act /\ counts (isSound a) act = true.

(** What the assignment of an id does. *)
Lemma assignString_spec first id a st st' :
  assignString first id a st = Ret st' ->
  exists t act, vget (trig (users st)) (first + ofTrigger a) = Ret t /\ vget (Trigger.actions t) (ofAction a) = Ret act /\
    st' = withUsers ((users st) <| trig := <[Z.to_nat (first + ofTrigger a) :=
      t <| Trigger.actions := <[Z.to_nat (ofAction a) := setField (isSound a) id act]> (Trigger.actions t) |>]>
      (trig (users st)) |>) st.
Proof.
  unfold assignString. intros E. apply bind_inv in E as (t & Et & E). apply bind_inv in E as (act & Ea & E).
  pose proof (vget_range _ _ _ Et). pose proof (vget_range _ _ _ Ea).
  cbv zeta in E. rewrite vset_in in E by done. cbn [obind] in E. rewrite vset_in in E by done. cbn [obind] in E.
  exists t, act. split; [done|]. split; [done|]. injection E as <-. unfold setField, isSound.
  by destruct (ofField a).
Qed.

Lemma actionOf_update first a b t act act' ts act'' :
  vget ts (first + ofTrigger a) = Ret t -> vget (Trigger.actions t) (ofAction a) = Ret act ->
  actionOf first b ts = Ret act'' ->
  actionOf first b (<[Z.to_nat (first + ofTrigger a) :=
      t <| Trigger.actions := <[Z.to_nat (ofAction a) := act']> (Trigger.actions t) |>]> ts) =
  Ret (if bool_decide (ofTrigger b = ofTrigger a /\ ofAction b = ofAction a) then act' else act'').
Proof.
  intros Et Ea Eb. unfold actionOf in *. pose proof (vget_range _ _ _ Et) as Ht. pose proof (vget_range _ _ _ Ea) as Ha.
  apply bind_inv in Eb as (t' & Et' & Eb). pose proof (vget_range _ _ _ Et') as Ht'. pose proof (vget_range _ _ _ Eb) as Hb.
  rewrite vget_vset by lia. destruct (decide (first + ofTrigger b = first + ofTrigger a)) as [Heq|Hne]; cbn [obind].
  - assert (ofTrigger b = ofTrigger a) as HT by lia. rewrite Heq, Et in Et'. injection Et' as <-.
    cbn [Trigger.actions upd Trigger.upd_actions]. rewrite vget_vset by lia.
    destruct (decide (ofAction b = ofAction a)); [rewrite bool_decide_eq_true_2 by done; done|].
    rewrite bool_decide_eq_false_2 by tauto. exact Eb.
  - rewrite Et'. cbn [obind]. rewrite bool_decide_eq_false_2 by lia. exact Eb.
Qed.

(** Assigning [id] to [a]: it holds [id], the other fields hold what they held,
    and every field counts as before. *)
Lemma assignString_holds first id a st st' :
  assignString first id a st = Ret st' ->
  holds first a id st' /\
  (forall b v, slot b <> slot a -> holds first b v st -> holds first b v st') /\
  (forall b, counted first b st -> counted first b st').
Proof.
  intros E. apply assignString_spec in E as (t & act & Et & Ea & ->). unfold holds, counted. cbn [withUsers users trig upd].
  assert (Hself : actionOf first a (trig (users st)) = Ret act) by (unfold actionOf; by rewrite Et).
  split; [|split].
  - eexists. split; [by apply (actionOf_update first a a t act)|].
    rewrite bool_decide_eq_true_2 by done. by destruct (isSound a).
  - intros b v Hb (act' & E' & Hv). eexists. split; [by apply (actionOf_update first a b t act)|].
    case_bool_decide as Hp; [|done]. destruct Hp as [HT HA].
    assert (isSound b <> isSound a) by (intros HS; apply Hb; unfold slot; congruence).
    assert (act' = act) as -> by (unfold actionOf in *; rewrite HT, HA in E'; congruence).
    destruct (isSound a), (isSound b); done.
  - intros b (act' & E' & Hc). eexists. split; [by apply (actionOf_update first a b t act)|].
    case_bool_decide as Hp; [|done]. destruct Hp as [HT HA].
    assert (act' = act) as -> by (unfold actionOf in *; rewrite HT, HA in E'; congruence).
    by destruct (isSound a).
Qed.

(** ** Uses *)

Lemma scenario_wf_trig s ts : scenario_wf s -> trig_wf ts -> scenario_wf (s <| trig := ts |>).
Proof. intros [] Ht. by split. Qed.

Lemma strings_wf_trig st ts : strings_wf st -> trig_wf ts -> strings_wf (withUsers ((users st) <| trig := ts |>) st).
Proof.
  intros [Hg [Ho Hi] Hs Hk Hr] Ht. split; [by apply scenario_wf_trig | by split | exact Hs | exact Hk | exact Hr].
Qed.

Lemma setField_wf sound id act : is_u 32 id -> cwf Action.layout act -> cwf Action.layout (setField sound id act).
Proof. intros Hi. destruct sound, act; cbn; change (8 * Z.of_nat 4) with 32; tauto. Qed.

Lemma assignString_wf first id a st st' :
  strings_wf st -> is_u 32 id -> assignString first id a st = Ret st' ->
  strings_wf st' /\ str st' = str st /\ kstr st' = kstr st.
Proof.
  intros Hw Hid E. apply assignString_spec in E as (t & act & Et & Ea & ->). split; [|done].
  pose proof (wf_trig _ (wf_game _ Hw)) as Ht. apply strings_wf_trig; [done|]. apply Forall_insert; [done|].
  assert (Hwt : cwf Trigger.layout t) by (unfold trig_wf in Ht; rewrite Forall_forall in Ht; by eapply Ht, vget_elem).
  destruct (member_wf (f := Trigger.actions) t Hwt) as [Hl Hf].
  apply (member_upd t); [done | by rewrite length_insert | ]. apply Forall_insert; [done|].
  apply setField_wf; [done|]. rewrite Forall_forall in Hf. by eapply Hf, vget_elem.
Qed.

(** An id that a counted field holds is in use. *)
Lemma counted_used first a id st :
  strings_wf st -> 0 < id < MaxStrings -> counted first a st -> holds first a id st ->
  id ∈ used_ids Scope.Game (users st).
Proof.
  intros Hw Hid (act & Ea & Hc) (act' & Ea' & Hv). rewrite Ea in Ea'. injection Ea' as <-.
  unfold used_ids. change (Scope.Game =? Scope.Game) with true. cbn iota. rewrite elem_of_ids_set. split; [done|].
  unfold game_users. rewrite !fmap_app, !elem_of_app. do 7 right. left.
  rewrite trig_users_ids by apply (wf_game _ Hw).
  unfold actionOf in Ea. apply bind_inv in Ea as (t & Et & Ea). apply vget_elem in Et, Ea.
  apply list_elem_of_In, in_concat. exists (trigger_ids ActionArgs.NumActionTypes ActionArgs.actionUsesStringArg ActionArgs.actionUsesSoundArg t).
  split; [apply list_elem_of_In; by apply list_elem_of_fmap_2|]. apply in_concat.
  exists (action_ids ActionArgs.NumActionTypes ActionArgs.actionUsesStringArg ActionArgs.actionUsesSoundArg act).
  split; [apply list_elem_of_In; by apply list_elem_of_fmap_2|]. apply list_elem_of_In. unfold action_ids, counts, fieldOf in *.
  destruct (isSound a); subst; rewrite Hc, elem_of_app; [right | left]; set_solver.
Qed.

(** ** The strings that are added *)

Lemma cstr_idemp str : ScStr.cstr (ScStr.cstr str) = ScStr.cstr str.
Proof. induction str as [|x str IH]; [done|]. cbn. destruct (x =? 0) eqn:E; [done|]. cbn. by rewrite E, IH. Qed.

Section Adding.
Context `{Runtime} (first : Z).

(** The text of [node] is stored under [id], and every place that shows it, one
    of which counts, holds [id]. *)
Definition settled (node : StringTableNode) (id : Z) (st : Strings) : Prop :=
  0 < id < MaxStrings /\ getString id Scope.Game st = Ret (Some (ScStr.toString (scStr node))) /\
  (forall a, a ∈ assignees node -> holds first a id st) /\
  (exists a, a ∈ assignees node /\ counted first a st).

Lemma settled_used node id st : strings_wf st -> settled node id st -> id ∈ used_ids Scope.Game (users st).
Proof. intros Hw (Hid & _ & Hh & a & Ha & Hc). apply (counted_used first a); auto. Qed.

Lemma settled_add node id text st st' id' :
  strings_wf st -> settled node id st -> addString text Scope.Game true st = Ret (st', id') -> settled node id st'.
Proof.
  intros Hw Hs E. pose proof (settled_used _ _ _ Hw Hs) as Hu.
  destruct (addString_scoped Scope.Game text true st eq_refl Hw) as [[E' _]|(st1 & id1 & E' & Hid1 & Hus & _ & _ & _ & _ & Hk & _)];
    rewrite E in E'; [done|]. injection E' as <- <-.
  destruct Hs as (Hid & Hg & Hh & Hc). split; [done|]. split; [rewrite Hk; [done|lia|by right]|].
  unfold holds, counted in *. by rewrite Hus.
Qed.

Lemma settled_assign node id id' a st st' :
  settled node id st -> slot a ∉ slot <$> assignees node -> assignString first id' a st = Ret st' ->
  settled node id st'.
Proof.
  intros (Hid & Hg & Hh & b & Hb & Hc) Ha E. split; [done|].
  pose proof (assignString_holds _ _ _ _ _ E) as (_ & Hoth & Hcount).
  apply assignString_spec in E as (t & act & _ & _ & ->). split; [exact Hg|]. split.
  - intros a' Ha'. apply Hoth; [|by apply Hh]. intros Eq. apply Ha. rewrite <- Eq. by apply list_elem_of_fmap_2.
  - exists b. split; [done|]. by apply Hcount.
Qed.

Lemma settled_assign_all node id id' l st st' :
  settled node id st -> (forall a, a ∈ assignees node -> slot a ∉ slot <$> l) ->
  for_each (assignString first id') l st = Ret st' -> settled node id st'.
Proof.
  revert st. induction l as [|a l IH]; intros st Hs Hfree E; cbn in E; [by simplify_eq|].
  apply bind_inv in E as (st1 & E1 & E).
  assert (Hb : forall b, b ∈ assignees node -> slot b <> slot a /\ slot b ∉ slot <$> l).
  { intros b Hb. specialize (Hfree b Hb). rewrite fmap_cons, not_elem_of_cons in Hfree. exact Hfree. }
  apply (IH st1); [|intros b Hbn; by apply Hb | exact E].
  eapply settled_assign; [exact Hs| |exact E1]. intros (b & Eq & Hin)%list_elem_of_fmap. destruct (Hb b Hin) as [Hne _]. congruence.
Qed.

(** The assignments of one id. *)
Lemma assign_all id l st st' :
  strings_wf st -> is_u 32 id -> for_each (assignString first id) l st = Ret st' -> NoDup (slot <$> l) ->
  strings_wf st' /\ str st' = str st /\ kstr st' = kstr st /\
  (forall a, a ∈ l -> holds first a id st') /\ (forall a, counted first a st -> counted first a st') /\
  (forall a v, slot a ∉ slot <$> l -> holds first a v st -> holds first a v st').
Proof.
  revert st. induction l as [|a l IH]; intros st Hw Hid E Hn; cbn in E.
  { injection E as <-. do 3 (split; [done|]). split; [by intros a ?%elem_of_nil | done]. }
  apply bind_inv in E as (st1 & E1 & E). rewrite fmap_cons in Hn. apply NoDup_cons in Hn as [Ha Hn].
  destruct (assignString_wf _ _ _ _ _ Hw Hid E1) as (Hw1 & Hs1 & Hk1).
  destruct (assignString_holds _ _ _ _ _ E1) as (Hself & Hoth & Hcount).
  destruct (IH st1 Hw1 Hid E Hn) as (Hw' & Hs' & Hk' & Hh & Hc & Hrest).
  split; [done|]. split; [congruence|]. split; [congruence|]. split.
  { intros b Hb. apply elem_of_cons in Hb as [->|Hb]; [by apply Hrest | by apply Hh]. }
  split; [auto|]. intros b v Hb Hv. rewrite fmap_cons, not_elem_of_cons in Hb. destruct Hb as [Hb1 Hb2].
  apply Hrest; [done|]. by apply Hoth.
Qed.

Variable c : TextTrigCompiler.

Definition assigneesOf (n : Z) : list Assignee :=
  match vget (nodes c) n with Ret node => assignees node | _ => [] end.

(** Strings of other places are not disturbed, and those of the list are settled. *)
Lemma addStrings_settled ns st st' :
  strings_wf st -> addStrings first c ns st = Ret (true, st') ->
  NoDup (slot <$> concat (assigneesOf <$> ns)) ->
  (forall n, n ∈ ns -> exists a, a ∈ assigneesOf n /\ counted first a st) ->
  strings_wf st' /\ (forall a, counted first a st -> counted first a st') /\
  (forall node id, settled node id st ->
     (forall a, a ∈ assignees node -> slot a ∉ slot <$> concat (assigneesOf <$> ns)) -> settled node id st') /\
  (forall n, n ∈ ns -> exists node id, vget (nodes c) n = Ret node /\ settled node id st').
Proof.
  revert st. induction ns as [|n ns IH]; intros st Hw E Hn Hc; cbn [addStrings] in E.
  { injection E as <-. do 3 (split; [done|]). by intros n ?%elem_of_nil. }
  apply bind_inv in E as (node & En & E). apply bind_inv in E as ([ok [st1 id]] & E1 & E).
  destruct ok; [|done]. cbn [negb orb] in E. destruct (Z.eqb_spec id 0) as [|Hid0]; [done|].
  unfold attempt in E1. destruct (addString _ _ _ st) as [r| |] eqn:Eadd; simplify_eq.
  apply bind_inv in E as (st2 & E2 & E).
  destruct (addString_scoped Scope.Game (ScStr.toString (scStr node)) true st eq_refl Hw)
    as [[E' _]|(st1' & id1 & E' & Hid & Hus & _ & Hw1 & _ & Hget & _)]; rewrite Eadd in E'; [done|].
  injection E' as <- <-.
  assert (Hnode : assigneesOf n = assignees node) by (unfold assigneesOf; by rewrite En).
  cbn [concat fmap list_fmap] in Hn. rewrite Hnode, fmap_app in Hn. apply NoDup_app in Hn as (Hn1 & Hdisj & Hn2).
  assert (H32 : is_u 32 id) by (unfold is_u; change MaxStrings with 65536 in Hid; lia).
  destruct (assign_all id (assignees node) st1 st2 Hw1 H32 E2 Hn1) as (Hw2 & Hs2 & Hk2 & Hh2 & Hc2 & Hrest2).
  assert (Hcounted : forall a, counted first a st -> counted first a st2).
  { intros a Ha. apply Hc2. unfold counted in *. by rewrite Hus. }
  assert (Hsettled : settled node id st2).
  { split; [done|]. split.
    - unfold getString in *. rewrite Hs2, Hk2. replace (ScStr.cstr (ScStr.toString (scStr node))) with (ScStr.toString (scStr node)) in Hget; [exact Hget|].
      unfold ScStr.toString. by rewrite cstr_idemp.
    - split; [exact Hh2|]. destruct (Hc n ltac:(set_solver)) as (a & Ha & Hca). rewrite Hnode in Ha. exists a. auto. }
  destruct (IH st2 Hw2 E Hn2) as (Hw' & Hcount' & Hframe & Hall).
  { intros m Hm. destruct (Hc m ltac:(set_solver)) as (a & Ha & Hca). exists a. auto. }
  split; [done|]. split; [auto|]. split.
  - intros node' id' Hs' Hfree. apply Hframe.
    + eapply (settled_add _ _ _ _ _ _ Hw) in Eadd; [|exact Hs'].
      eapply settled_assign_all; [exact Eadd| |exact E2]. intros a Ha. specialize (Hfree a Ha).
      cbn [concat fmap list_fmap] in Hfree. rewrite Hnode, fmap_app, not_elem_of_app in Hfree. tauto.
    + intros a Ha. specialize (Hfree a Ha). cbn [concat fmap list_fmap] in Hfree. rewrite fmap_app, not_elem_of_app in Hfree. tauto.
  - intros m Hm. apply elem_of_cons in Hm as [->|Hm]; [|by apply Hall].
    exists node, id. split; [done|]. apply Hframe; [done|]. intros a Ha Hin. apply (Hdisj (slot a)); [by apply list_elem_of_fmap_2 | done].
Qed.
End Adding.

(** ** Every step returns *)

Section Total.
Context `{Runtime} (first : Z) (c : TextTrigCompiler).

(** The place exists. *)
Definition placed (a : Assignee) (st : Strings) : Prop := is_ret (actionOf first a (trig (users st))).

Lemma assignString_total id a st : placed a st ->
  exists st', assignString first id a st = Ret st' /\ zlen (trig (users st')) = zlen (trig (users st)) /\
    forall b, placed b st -> placed b st'.
Proof.
  intros (act & Ea). pose proof Ea as Ea'. unfold actionOf in Ea'. apply bind_inv in Ea' as (t & Et & Eact).
  assert (exists st', assignString first id a st = Ret st') as [st' E].
  { unfold assignString. rewrite Et. cbn [obind]. rewrite Eact. cbn [obind].
    rewrite vset_in by (by eapply vget_range). cbn [obind]. rewrite vset_in by (by eapply vget_range). by eexists. }
  exists st'. split; [done|]. apply assignString_spec in E as (t' & act' & Et' & Ea' & ->).
  split; [cbn; by rewrite zlen_insert|]. intros b (actb & Eb).
  eexists. by apply (actionOf_update first a b t' act').
Qed.

Lemma assign_total id l st : Forall (fun a => placed a st) l ->
  exists st', for_each (assignString first id) l st = Ret st' /\ zlen (trig (users st')) = zlen (trig (users st)) /\
    forall b, placed b st -> placed b st'.
Proof.
  revert st. induction l as [|a l IH]; intros st Hl; [by exists st|]. apply Forall_cons in Hl as [Ha Hl]. cbn.
  destruct (assignString_total id a st Ha) as (st1 & -> & Hz & Hp). cbn [obind].
  destruct (IH st1) as (st2 & -> & Hz2 & Hp2); [eapply Forall_impl; [exact Hl|]; auto|].
  exists st2. split; [done|]. split; [congruence|auto].
Qed.

Lemma addStrings_total ns st : strings_wf st ->
  Forall (fun n => exists node, vget (nodes c) n = Ret node /\ Forall (fun a => placed a st) (assignees node) /\
                     NoDup (slot <$> assignees node)) ns ->
  exists ok st', addStrings first c ns st = Ret (ok, st') /\ zlen (trig (users st')) = zlen (trig (users st)).
Proof.
  revert st. induction ns as [|n ns IH]; intros st Hw Hn; [by exists true, st|].
  apply Forall_cons in Hn as [(node & En & Hp & Hd) Hn]. cbn [addStrings]. rewrite En. cbn [obind].
  destruct (addString_scoped Scope.Game (ScStr.toString (scStr node)) true st eq_refl Hw)
    as [[-> _]|(st1 & id & -> & Hid & Hus & _ & Hw1 & _)]; cbn [attempt obind negb orb]; [by exists false, st|].
  rewrite (proj2 (Z.eqb_neq id 0)) by lia.
  assert (Hpl : forall a, placed a st -> placed a st1) by (intros a; unfold placed; by rewrite Hus).
  destruct (assign_total id (assignees node) st1) as (st2 & E2 & Hz & Hp2); [eapply Forall_impl; [exact Hp|]; auto|].
  rewrite E2. cbn [obind].
  destruct (assign_all first id _ _ _ Hw1 ltac:(unfold is_u; change MaxStrings with 65536 in Hid; lia) E2 Hd) as (Hw2 & _).
  destruct (IH st2 Hw2) as (ok & st' & -> & Hz').
  { eapply Forall_impl; [exact Hn|]. intros m (nd & Em & Hpm & Hdm). exists nd. split; [done|]. split; [|done].
    eapply Forall_impl; [exact Hpm|]. auto. }
  exists ok, st'. split; [done|]. rewrite Hz', Hz, Hus. done.
Qed.
End Total.

(** ** What else stays *)

(** Actions and triggers that are the same but for the ids of texts and sounds. *)
Definition sameAction (a a' : Action.Action) : Prop :=
  a' = setField true (Action.soundStringId a') (setField false (Action.stringId a') a).
Definition sameTrigger (t t' : Trigger.Trigger) : Prop :=
  t' = t <| Trigger.actions := Trigger.actions t' |> /\ Forall2 sameAction (Trigger.actions t) (Trigger.actions t').

#[export] Instance sameAction_preorder : PreOrder sameAction.
Proof. split; [by intros [] | intros [] [] []; unfold sameAction, setField; cbn; congruence]. Qed.
#[export] Instance sameTrigger_preorder : PreOrder sameTrigger.
Proof.
  split; [intros []; by split|]. intros [] [] [] [E1 F1] [E2 F2]. split; [cbn in *; congruence|].
  by etransitivity.
Qed.

Lemma setField_same sound id a : sameAction a (setField sound id a).
Proof. by destruct sound, a. Qed.

Lemma Forall2_insert_r {A} (R : A -> A -> Prop) `{!Reflexive R} l (i : nat) a a' :
  l !! i = Some a -> R a a' -> Forall2 R l (<[i := a']> l).
Proof. intros Hi Ha. rewrite <- (list_insert_id l i a Hi) at 1. by apply Forall2_insert. Qed.

Lemma assignString_same first id a st st' : assignString first id a st = Ret st' ->
  Forall2 sameTrigger (trig (users st)) (trig (users st')).
Proof.
  intros (t & act & Et & Ea & ->)%assignString_spec. cbn [withUsers users trig upd].
  apply vget_inv in Et as [_ Et]. apply vget_inv in Ea as [_ Ea].
  apply (Forall2_insert_r _ _ _ t _ Et). split; [done|]. cbn.
  apply (Forall2_insert_r _ _ _ act _ Ea), setField_same.
Qed.

Lemma assign_same first id l st st' : for_each (assignString first id) l st = Ret st' ->
  Forall2 sameTrigger (trig (users st)) (trig (users st')) /\
  forall a v, slot a ∉ slot <$> l -> holds first a v st -> holds first a v st'.
Proof.
  revert st. induction l as [|b l IH]; intros st E; cbn in E; [by simplify_eq|].
  apply bind_inv in E as (st1 & E1 & E). destruct (IH st1 E) as [Hs Hh]. split.
  - etransitivity; [by eapply assignString_same | exact Hs].
  - intros a v Ha Hv. rewrite fmap_cons, not_elem_of_cons in Ha. apply Hh; [apply Ha|].
    apply (assignString_holds _ _ _ _ _ E1); [apply Ha | done].
Qed.

Lemma addStrings_same `{Runtime} first c ns st st' ok : strings_wf st -> addStrings first c ns st = Ret (ok, st') ->
  NoDup (slot <$> concat (assigneesOf c <$> ns)) ->
  Forall2 sameTrigger (trig (users st)) (trig (users st')) /\
  forall a v, slot a ∉ slot <$> concat (assigneesOf c <$> ns) -> holds first a v st -> holds first a v st'.
Proof.
  revert st. induction ns as [|n ns IH]; intros st Hw E Hn; cbn [addStrings] in E; [by simplify_eq|].
  apply bind_inv in E as (node & En & E).
  assert (Hnode : assigneesOf c n = assignees node) by (unfold assigneesOf; by rewrite En).
  cbn [concat fmap list_fmap] in Hn |- *. rewrite Hnode, fmap_app in *. apply NoDup_app in Hn as (Hn1 & _ & Hn2).
  destruct (addString_scoped Scope.Game (ScStr.toString (scStr node)) true st eq_refl Hw)
    as [[Ea _]|(st1 & id & Ea & Hid & Hus & _ & Hw1 & _)]; rewrite Ea in E; cbn [attempt obind negb orb] in E; [by simplify_eq|].
  rewrite (proj2 (Z.eqb_neq id 0)) in E by lia. apply bind_inv in E as (st2 & E2 & E).
  destruct (assign_all first id _ _ _ Hw1 ltac:(unfold is_u; change MaxStrings with 65536 in Hid; lia) E2 Hn1) as (Hw2 & _).
  destruct (assign_same _ _ _ _ _ E2) as [Hs2 Hh2]. rewrite Hus in Hs2. destruct (IH st2 Hw2 E Hn2) as [Hs Hh]. split.
  - by etransitivity.
  - intros a v Ha Hv. rewrite not_elem_of_app in Ha. apply Hh; [apply Ha|]. apply Hh2; [apply Ha|].
    unfold holds in *. by rewrite Hus.
Qed.

(** ** Unused strings *)

Lemma deleteUnused_game st : strings_wf st ->
  exists st', deleteUnusedStrings Scope.Game st = Ret st' /\ strings_wf st' /\ users st' = users st /\
    forall i, 0 <= i -> i ∈ used_ids Scope.Game (users st) -> getString i Scope.Game st' = getString i Scope.Game st.
Proof.
  intros [Hg He Hs Hk Hr]. unfold deleteUnusedStrings. change (Scope.Game =? Scope.Game) with true. cbn iota.
  unfold StrSection.deleteUnusedStrings.
  destruct (deleteUnused_table Scope.Game sync scenario_wf _ strings_synchronizer_laws (StrSection.strings (str st)) (users st))
    as (s' & -> & Hz & Hget); [done|lia|]. cbn [obind].
  eexists. split; [reflexivity|]. split; [split; try done; cbn; lia|]. split; [done|].
  intros i Hi Hu. specialize (Hget i Hi). rewrite bool_decide_eq_true_2 in Hget by exact Hu. exact Hget.
Qed.

Lemma deleteUnused_editor st : strings_wf st ->
  exists st', deleteUnusedStrings Scope.Editor st = Ret st' /\ strings_wf st' /\ users st' = users st /\ str st' = str st.
Proof.
  intros [Hg He Hs Hk Hr]. unfold deleteUnusedStrings. change (Scope.Editor =? Scope.Game) with false.
  change (Scope.Editor =? Scope.Editor) with true. cbn iota. unfold KstrSection.deleteUnusedStrings.
  destruct (deleteUnused_table Scope.Editor sync editor_wf _ editor_synchronizer_laws (KstrSection.strings (kstr st)) (users st))
    as (s' & -> & Hz & Hget); [done|lia|]. cbn [obind].
  eexists. split; [reflexivity|]. split; [|done]. split; try done; cbn; [lia|].
  destruct Hr as [Hr|Hr]; [left; lia | by right].
Qed.

Lemma settled_keep first node id st st' :
  strings_wf st -> settled first node id st -> users st' = users st ->
  (forall i, 0 <= i -> i ∈ used_ids Scope.Game (users st) -> getString i Scope.Game st' = getString i Scope.Game st) ->
  settled first node id st'.
Proof.
  intros Hw Hs Hu Hk. pose proof (settled_used first _ _ _ Hw Hs) as Hin.
  destruct Hs as (Hid & Hg & Hh & Hc). split; [done|]. split; [rewrite Hk; [done|lia|done]|].
  unfold holds, counted in *. by rewrite Hu.
Qed.

(** ** The whole section *)

Section Whole.
Context `{Runtime} (triggers : list Trigger.Trigger) (c : TextTrigCompiler).

(** The texts that have no id yet: each has a place in the compiled triggers that
    counts, and no two pointers are the same. *)
Record assignable : Prop := {
  assign_nodes : forall n, n ∈ unassignedStrings c -> is_ret (vget (nodes c) n);
  assign_slots : NoDup (slot <$> concat (assigneesOf c <$> unassignedStrings c));
  assign_places : forall n a, n ∈ unassignedStrings c -> a ∈ assigneesOf c n -> is_ret (actionOf 0 a triggers);
  assign_counts : forall n, n ∈ unassignedStrings c ->
    exists a act, a ∈ assigneesOf c n /\ actionOf 0 a triggers = Ret act /\ counts (isSound a) act = true
}.

Lemma replaceWhole st : trig (users st) <> [] \/ triggers = [] ->
  replaceTriggers st 0 (zlen (trig (users st))) triggers =
  Ret (withUsers ((users st) <| trig := triggers |>) st, trig (users st)).
Proof.
  intros Hne. unfold replaceTriggers. rewrite replaceRange_spec by (try apply zlen_nonneg; lia). cbn [Z.eqb andb].
  destruct (Z.eqb_spec (zlen (trig (users st))) (zlen triggers)) as [|Hz]; [done|].
  pose proof (zlen_nonneg (trig (users st))).
  assert (0 < zlen (trig (users st))).
  { destruct Hne as [Hne | ->]; [|change (zlen []) with 0 in Hz; lia].
    destruct (trig (users st)) as [|x l]; [done|]. rewrite zlen_cons. pose proof (zlen_nonneg l). lia. }
  rewrite (proj2 (Z.ltb_lt 0 _)), Z.leb_refl by done. cbn [andb obind].
  change (Z.to_nat 0) with 0%nat. unfold zlen. rewrite Nat2Z.id, firstn_all, drop_all, app_nil_r. done.
Qed.

(** Put back what was there. *)
Lemma restoreWhole st old : trig_wf old ->
  replaceTriggers st 0 (0 + zlen old) old = Ret (withUsers ((users st) <| trig := old |>) st, trig (users st)).
Proof.
  intros _. unfold replaceTriggers. rewrite replaceRange_spec by (pose proof (zlen_nonneg old); lia).
  cbn [Z.eqb andb]. by rewrite Z.add_0_l, Z.eqb_refl.
Qed.

(** The text of an action that counts: stored under the id the field holds. *)
Definition shows (a : Assignee) (text : bytes) (st : Strings) : Prop :=
  exists id, 0 < id < MaxStrings /\ holds 0 a id st /\ getString id Scope.Game st = Ret (Some text).

Lemma getString_cstr i st s : getString i Scope.Game st = Ret (Some s) -> ScStr.cstr s = s.
Proof.
  change (getString i Scope.Game st) with (StringTable.getString (StrSection.strings (str st)) i).
  unfold StringTable.getString. destruct (i <? _); [|done]. intros (o & _ & E)%bind_inv.
  destruct o as [x|]; cbn in E; [|done]. injection E as <-. apply cstr_idemp.
Qed.
End Whole.

(** The section is exchanged for the compiled triggers. *)
Lemma build_exchanged `{Runtime} (triggers : list Trigger.Trigger) (c : TextTrigCompiler) (st : Strings) e :
  strings_wf st -> trig_wf triggers -> assignable triggers c ->
  replaceTriggers st 0 e triggers = Ret (withUsers ((users st) <| trig := triggers |>) st, trig (users st)) ->
  exists ok st', buildNewMap 0 e triggers c st = Ret (ok, st') /\
  if ok then
    Forall2 sameTrigger triggers (trig (users st')) /\
    (forall a act, actionOf 0 a triggers = Ret act -> slot a ∉ slot <$> concat (assigneesOf c <$> unassignedStrings c) ->
       holds 0 a (fieldOf (isSound a) act) st') /\
    (forall n node a, n ∈ unassignedStrings c -> vget (nodes c) n = Ret node -> a ∈ assignees node ->
       shows a (ScStr.toString (scStr node)) st') /\
    (forall a act text, actionOf 0 a triggers = Ret act -> counts (isSound a) act = true ->
       slot a ∉ slot <$> concat (assigneesOf c <$> unassignedStrings c) -> fieldOf (isSound a) act < MaxStrings ->
       0 < fieldOf (isSound a) act -> getString (fieldOf (isSound a) act) Scope.Game st = Ret (Some text) ->
       shows a text st')
  else trig (users st') = trig (users st) /\ str st' = str st.
Proof.
  intros Hw Ht Ha Hrep. unfold buildNewMap. rewrite Hrep. cbn [obind].
  set (st1 := withUsers ((users st) <| trig := triggers |>) st).
  assert (Hw1 : strings_wf st1) by (by apply strings_wf_trig).
  destruct (deleteUnused_game st1 Hw1) as (st2 & -> & Hw2 & Hu2 & Hk2). cbn [attempt obind].
  destruct (deleteUnused_editor st2 Hw2) as (st3 & -> & Hw3 & Hu3 & Hs3). cbn [attempt obind].
  assert (Hu : users st3 = users st1) by congruence.
  assert (Hk : forall i, 0 <= i -> i ∈ used_ids Scope.Game (users st1) ->
    getString i Scope.Game st3 = getString i Scope.Game st1).
  { intros i Hi Hin. rewrite <- (Hk2 i Hi Hin). unfold getString. by rewrite Hs3. }
  assert (Hcounted : forall n, n ∈ unassignedStrings c -> exists a, a ∈ assigneesOf c n /\ counted 0 a st3).
  { intros n Hn. destruct (assign_counts _ _ Ha n Hn) as (a & act & Hin & Eact & Hc). exists a. split; [done|].
    exists act. rewrite Hu. split; [exact Eact | exact Hc]. }
  destruct (addStrings_total 0 c (unassignedStrings c) st3 Hw3) as (ok & st4 & E4 & Hz4).
  { apply Forall_forall. intros n Hn. destruct (assign_nodes _ _ Ha n Hn) as [node En]. exists node. split; [done|].
    assert (Hnode : assigneesOf c n = assignees node) by (unfold assigneesOf; by rewrite En). split.
    - apply Forall_forall. intros a Hin. unfold placed. rewrite Hu. apply (assign_places _ _ Ha n); [done|].
      by rewrite Hnode.
    - rewrite <- Hnode. pose proof (assign_slots _ _ Ha) as Hd.
      apply list_elem_of_split in Hn as (l1 & l2 & Eq). rewrite Eq, fmap_app, concat_app, !fmap_app in Hd.
      apply NoDup_app in Hd as (_ & _ & Hd). cbn [concat fmap list_fmap] in Hd. rewrite fmap_app in Hd.
      by apply NoDup_app in Hd as (Hd & _). }
  rewrite E4. cbn [obind]. destruct ok.
  - exists true, st4. split; [done|].
    destruct (addStrings_same 0 c _ _ _ _ Hw3 E4 (assign_slots _ _ Ha)) as [Hsame Hheld]. rewrite Hu in Hsame.
    split; [exact Hsame|]. split; [intros a act Eact Hfree; apply Hheld; [exact Hfree | exists act; by rewrite Hu]|].
    destruct (addStrings_settled 0 c _ _ _ Hw3 E4 (assign_slots _ _ Ha) Hcounted) as (_ & _ & Hframe & Hall). split.
    + intros n node a Hn En Hin. destruct (Hall n Hn) as (node' & id & En' & Hid & Hg & Hh & _).
      rewrite En in En'. injection En' as <-. exists id. auto.
    + intros a act text Eact Hc Hfree Hmax Hpos Hget.
      assert (Hs : settled 0 (mkStringTableNode false (ScStr.new text) 0 [a]) (fieldOf (isSound a) act) st4).
      { apply Hframe; [apply (settled_keep 0 _ _ st1 st3 Hw1); [|exact Hu|exact Hk]|].
        - split; [done|]. split.
          + change (getString (fieldOf (isSound a) act) Scope.Game st = Ret (Some (ScStr.toString (ScStr.new text)))).
            rewrite Hget. unfold ScStr.toString, ScStr.new. cbn [ScStr.allocation]. rewrite cstr_allocate.
            by rewrite (getString_cstr _ _ _ Hget).
          + split; [intros b ->%list_elem_of_singleton; by exists act|]. exists a. split; [set_solver|]. by exists act.
        - intros b ->%list_elem_of_singleton. exact Hfree. }
      destruct Hs as (Hid & Hg & Hh & _). exists (fieldOf (isSound a) act). split; [done|].
      split; [apply Hh; set_solver|]. rewrite Hg. unfold ScStr.toString, ScStr.new. cbn [ScStr.allocation scStr].
      rewrite cstr_allocate. by rewrite (getString_cstr _ _ _ Hget).
  - rewrite restoreWhole by apply (wf_game _ Hw). cbn [obind]. do 2 eexists. split; [reflexivity|]. done.
Qed.

(** C6: [buildNewMap] on the whole section, as the editor calls it, for a map that
    has triggers (or a text without any) and for compiled triggers whose new texts
    each have a place of their own that counts as a use.  It returns.  When it
    succeeds, the section has the compiled triggers, field for field, except that
    every place of a new text holds the id under which the map now has this text;
    and the actions whose text was in the map still show it, although the unused
    strings are gone.  When it fails, the triggers and the game's strings are as
    they were; nothing is said of the editor's strings, whose unused ones stay
    deleted. *)
Theorem buildNewMap_whole `{Runtime} (triggers : list Trigger.Trigger) (c : TextTrigCompiler) (st : Strings)
    (Hw : strings_wf st) (Ht : trig_wf triggers) (Ha : assignable triggers c)
    (Hne : trig (users st) <> [] \/ triggers = []) :
  exists ok st', buildNewMap 0 (zlen (trig (users st))) triggers c st = Ret (ok, st') /\
  if ok then
    Forall2 sameTrigger triggers (trig (users st')) /\
    (forall a act, actionOf 0 a triggers = Ret act -> slot a ∉ slot <$> concat (assigneesOf c <$> unassignedStrings c) ->
       holds 0 a (fieldOf (isSound a) act) st') /\
    (forall n node a, n ∈ unassignedStrings c -> vget (nodes c) n = Ret node -> a ∈ assignees node ->
       shows a (ScStr.toString (scStr node)) st') /\
    (forall a act text, actionOf 0 a triggers = Ret act -> counts (isSound a) act = true ->
       slot a ∉ slot <$> concat (assigneesOf c <$> unassignedStrings c) -> fieldOf (isSound a) act < MaxStrings ->
       0 < fieldOf (isSound a) act -> getString (fieldOf (isSound a) act) Scope.Game st = Ret (Some text) ->
       shows a text st')
  else trig (users st') = trig (users st) /\ str st' = str st.
Proof. apply build_exchanged; [done..|]. by apply replaceWhole. Qed.

(** Two calls that do not do what they are for.  In a map without triggers the
    range is empty, and any text with a trigger ends in an exception.  And the
    range of the first trigger alone is as long as the list that replaces it, so
    that the whole section is exchanged: all the other triggers are gone. *)
Theorem buildNewMap_edges `{Runtime} (t : Trigger.Trigger) (ts : list Trigger.Trigger) (c : TextTrigCompiler) (st : Strings)
    (Hw : strings_wf st) (Ht : cwf Trigger.layout t) (Ha : assignable [t] c) :
  (trig (users st) = [] -> buildNewMap 0 0 (t :: ts) c st = Throw OutOfRange) /\
  exists ok st', buildNewMap 0 (0 + 1) [t] c st = Ret (ok, st') /\
    if ok then zlen (trig (users st')) = 1 else trig (users st') = trig (users st).
Proof.
  split.
  - intros He. unfold buildNewMap, replaceTriggers. rewrite He, replaceRange_spec, Z.eqb_refl, zlen_cons by lia.
    pose proof (zlen_nonneg ts). by rewrite (proj2 (Z.eqb_neq 0 _)) by lia.
  - destruct (build_exchanged [t] c st 1) as (ok & st' & E & Hok); [done | by constructor | done | |].
    + unfold replaceTriggers. by rewrite replaceRange_spec by lia.
    + exists ok, st'. split; [exact E|]. destruct ok; [|by destruct Hok].
      destruct Hok as [Hs _]. unfold zlen. by rewrite <- (Forall2_length _ _ _ Hs).
Qed.

(** ** A sample *)

(** A map with one trigger, into which the sample text is compiled. *)
Definition build_sample : Strings := withUsers ((users names_sample) <| trig := [blankTrigger] |>) names_sample.

Lemma build_sample_wf : strings_wf build_sample.
Proof. apply strings_wf_trig; [apply names_sample_wf|]. constructor; [apply blankTrigger_ok | constructor]. Qed.

Definition sampleTrigger : Trigger.Trigger := default blankTrigger (head sampleTriggers).

Lemma sampleTrigger_wf : cwf Trigger.layout sampleTrigger.
Proof. solve_default. Qed.

Lemma sample_assignable : assignable [sampleTrigger] sampleResult.
Proof.
  assert (Hu : unassignedStrings sampleResult = [0]) by (vm_compute; reflexivity).
  assert (Hn : assigneesOf sampleResult 0 = [mkAssignee 0 0 ActionArgs.F_StringId]) by (vm_compute; reflexivity).
  assert (Hact : actionOf 0 (mkAssignee 0 0 ActionArgs.F_StringId) [sampleTrigger] =
    Ret (Action.mkAction 0 0 0 0 0 0 0 9 0 4 0 0)) by (vm_compute; reflexivity).
  split; rewrite Hu.
  - intros n ->%list_elem_of_singleton. eexists. vm_compute. reflexivity.
  - cbn [concat fmap list_fmap]. rewrite Hn. apply NoDup_singleton.
  - intros n a ->%list_elem_of_singleton. rewrite Hn. intros ->%list_elem_of_singleton. by eexists.
  - intros n ->%list_elem_of_singleton. rewrite Hn. do 2 eexists. split; [by apply list_elem_of_singleton|].
    split; [exact Hact | vm_compute; reflexivity].
Qed.

Lemma buildNewMap_whole_witness : exists ok st',
  buildNewMap 0 (zlen (trig (users build_sample))) [sampleTrigger] sampleResult build_sample = Ret (ok, st') /\
  if ok then shows (mkAssignee 0 0 ActionArgs.F_StringId) (lit "Well done") st' else str st' = str build_sample.
Proof.
  destruct (buildNewMap_whole [sampleTrigger] sampleResult build_sample build_sample_wf
    ltac:(constructor; [apply sampleTrigger_wf | constructor]) sample_assignable ltac:(by left)) as (ok & st' & E & Hok).
  exists ok, st'. split; [exact E|]. destruct ok; [|apply Hok]. destruct Hok as (_ & _ & Hnew & _).
  apply (Hnew 0 (mkStringTableNode false (ScStr.new (lit "Well done")) 0 [mkAssignee 0 0 ActionArgs.F_StringId]));
    [vm_compute; apply list_elem_of_here | vm_compute; reflexivity | apply list_elem_of_here].
Defined.

Lemma buildNewMap_edges_witness : exists ok st',
  buildNewMap 0 (0 + 1) [sampleTrigger] sampleResult build_sample = Ret (ok, st') /\
  if ok then zlen (trig (users st')) = 1 else trig (users st') = trig (users build_sample).
Proof.
  exact (proj2 (buildNewMap_edges sampleTrigger [] sampleResult build_sample build_sample_wf sampleTrigger_wf sample_assignable)).
Defined.
