(* ===== verification/TextTrigGenerator.v ===== *)
(** * The generator of text triggers

    TextTrigGenerator.cpp: the tables of names it loads from a map, the text of
    each argument, and the text of triggers, which the compiler of
    [TextTrigParser] reads.  A [StringBuffer] is the list of its characters, and
    what is appended to it is the result of the function.  The kinds of string
    are all [std::string] here: an [EscString] that is put into a table of
    [ChkdString] is copied and not converted. *)
From stdpp Require Import strings gmap.
From S2P Require Import Prelude Codec ChkTypes Accessors StringUsers Objects Locations TriggerTables Triggers StringTable StrSection ScenarioStrings Kstr ScenarioSettings ScenarioLayers ScenarioNames EscapeStrings TextLib ScNames.
Import ScenarioStrings StringsClass.
Open Scope Z_scope.

Module Generator.

Record TextTrigGenerator := mkTextTrigGenerator {
  useAddressesForMemory : bool;
  deathTableOffset : Z;
  stringTable : list bytes;
  extendedStringTable : list bytes;
  locationTable : list bytes;
  unitTable : list bytes;
  switchTable : list bytes;
  groupTable : list bytes;
  scriptTable : gmap Z bytes;
  conditionTable : list bytes;
  actionTable : list bytes;
  goodConditionTable : bool;
  goodActionTable : bool
}.
#[global] Instance updg_useAddressesForMemory : Updater useAddressesForMemory :=
  {| upd v s := mkTextTrigGenerator v (deathTableOffset s) (stringTable s) (extendedStringTable s) (locationTable s) (unitTable s) (switchTable s) (groupTable s) (scriptTable s) (conditionTable s) (actionTable s) (goodConditionTable s) (goodActionTable s);
     upd_get v s := eq_refl; upd_upd v w s := eq_refl |}.
#[global] Instance updg_deathTableOffset : Updater deathTableOffset :=
  {| upd v s := mkTextTrigGenerator (useAddressesForMemory s) v (stringTable s) (extendedStringTable s) (locationTable s) (unitTable s) (switchTable s) (groupTable s) (scriptTable s) (conditionTable s) (actionTable s) (goodConditionTable s) (goodActionTable s);
     upd_get v s := eq_refl; upd_upd v w s := eq_refl |}.
#[global] Instance updg_stringTable : Updater stringTable :=
  {| upd v s := mkTextTrigGenerator (useAddressesForMemory s) (deathTableOffset s) v (extendedStringTable s) (locationTable s) (unitTable s) (switchTable s) (groupTable s) (scriptTable s) (conditionTable s) (actionTable s) (goodConditionTable s) (goodActionTable s);
     upd_get v s := eq_refl; upd_upd v w s := eq_refl |}.
#[global] Instance updg_extendedStringTable : Updater extendedStringTable :=
  {| upd v s := mkTextTrigGenerator (useAddressesForMemory s) (deathTableOffset s) (stringTable s) v (locationTable s) (unitTable s) (switchTable s) (groupTable s) (scriptTable s) (conditionTable s) (actionTable s) (goodConditionTable s) (goodActionTable s);
     upd_get v s := eq_refl; upd_upd v w s := eq_refl |}.
#[global] Instance updg_locationTable : Updater locationTable :=
  {| upd v s := mkTextTrigGenerator (useAddressesForMemory s) (deathTableOffset s) (stringTable s) (extendedStringTable s) v (unitTable s) (switchTable s) (groupTable s) (scriptTable s) (conditionTable s) (actionTable s) (goodConditionTable s) (goodActionTable s);
     upd_get v s := eq_refl; upd_upd v w s := eq_refl |}.
#[global] Instance updg_unitTable : Updater unitTable :=
  {| upd v s := mkTextTrigGenerator (useAddressesForMemory s) (deathTableOffset s) (stringTable s) (extendedStringTable s) (locationTable s) v (switchTable s) (groupTable s) (scriptTable s) (conditionTable s) (actionTable s) (goodConditionTable s) (goodActionTable s);
     upd_get v s := eq_refl; upd_upd v w s := eq_refl |}.
#[global] Instance updg_switchTable : Updater switchTable :=
  {| upd v s := mkTextTrigGenerator (useAddressesForMemory s) (deathTableOffset s) (stringTable s) (extendedStringTable s) (locationTable s) (unitTable s) v (groupTable s) (scriptTable s) (conditionTable s) (actionTable s) (goodConditionTable s) (goodActionTable s);
     upd_get v s := eq_refl; upd_upd v w s := eq_refl |}.
#[global] Instance updg_groupTable : Updater groupTable :=
  {| upd v s := mkTextTrigGenerator (useAddressesForMemory s) (deathTableOffset s) (stringTable s) (extendedStringTable s) (locationTable s) (unitTable s) (switchTable s) v (scriptTable s) (conditionTable s) (actionTable s) (goodConditionTable s) (goodActionTable s);
     upd_get v s := eq_refl; upd_upd v w s := eq_refl |}.
#[global] Instance updg_scriptTable : Updater scriptTable :=
  {| upd v s := mkTextTrigGenerator (useAddressesForMemory s) (deathTableOffset s) (stringTable s) (extendedStringTable s) (locationTable s) (unitTable s) (switchTable s) (groupTable s) v (conditionTable s) (actionTable s) (goodConditionTable s) (goodActionTable s);
     upd_get v s := eq_refl; upd_upd v w s := eq_refl |}.
#[global] Instance updg_conditionTable : Updater conditionTable :=
  {| upd v s := mkTextTrigGenerator (useAddressesForMemory s) (deathTableOffset s) (stringTable s) (extendedStringTable s) (locationTable s) (unitTable s) (switchTable s) (groupTable s) (scriptTable s) v (actionTable s) (goodConditionTable s) (goodActionTable s);
     upd_get v s := eq_refl; upd_upd v w s := eq_refl |}.
#[global] Instance updg_actionTable : Updater actionTable :=
  {| upd v s := mkTextTrigGenerator (useAddressesForMemory s) (deathTableOffset s) (stringTable s) (extendedStringTable s) (locationTable s) (unitTable s) (switchTable s) (groupTable s) (scriptTable s) (conditionTable s) v (goodConditionTable s) (goodActionTable s);
     upd_get v s := eq_refl; upd_upd v w s := eq_refl |}.
#[global] Instance updg_goodConditionTable : Updater goodConditionTable :=
  {| upd v s := mkTextTrigGenerator (useAddressesForMemory s) (deathTableOffset s) (stringTable s) (extendedStringTable s) (locationTable s) (unitTable s) (switchTable s) (groupTable s) (scriptTable s) (conditionTable s) (actionTable s) v (goodActionTable s);
     upd_get v s := eq_refl; upd_upd v w s := eq_refl |}.
#[global] Instance updg_goodActionTable : Updater goodActionTable :=
  {| upd v s := mkTextTrigGenerator (useAddressesForMemory s) (deathTableOffset s) (stringTable s) (extendedStringTable s) (locationTable s) (unitTable s) (switchTable s) (groupTable s) (scriptTable s) (conditionTable s) (actionTable s) (goodConditionTable s) v;
     upd_get v s := eq_refl; upd_upd v w s := eq_refl |}.

Definition newGenerator (useAddressesForMemory : bool) (deathTableOffset : Z) : TextTrigGenerator :=
  mkTextTrigGenerator useAddressesForMemory deathTableOffset [] [] [] [] [] [] ∅ [] [] false false.

(** [table[i]] when there is one, and the number otherwise. *)
Definition entry (table : list bytes) (i : Z) : outcome bytes :=
  if i <? zlen table then vget table i else Ret (to_string i).
Definition quote (s : bytes) : bytes := [34] ++ s ++ [34].
Definition quoteIf (quoteArgs : bool) (s : bytes) : bytes := if quoteArgs then quote s else s.

(** ** Names of values *)

Definition textFlags : list bytes := lits ["Don't Always Display"; "Always Display"].
Definition scoreTypes : list bytes :=
  lits ["Total"; "Units"; "Buildings"; "Units and buildings"; "Kills"; "Razings"; "Kills and razings"; "Custom"].
Definition resourceTypes : list bytes := lits ["ore"; "gas"; "ore and gas"].
Definition orderTypes : list bytes := lits ["move"; "patrol"; "attack"].
Definition stateModifiers : list bytes := lits ["0"; "1"; "2"; "3"; "enabled"; "disabled"; "toggle"].
Definition switchStates : list bytes := lits ["0"; "1"; "set"; "not set"].
Definition switchModifiers : list bytes :=
  lits ["0"; "1"; "2"; "3"; "set"; "clear"; "toggle"; "7"; "8"; "9"; "10"; "randomize"].
Definition allyStates : list bytes := lits ["Enemy"; "Ally"; "Allied Victory"].
Definition numericComparisons : list bytes :=
  lits ["At least"; "At most"; "2"; "3"; "4"; "5"; "6"; "7"; "8"; "9"; "Exactly"].
Definition numericModifiers : list bytes :=
  lits ["0"; "1"; "2"; "3"; "4"; "5"; "6"; "Set To"; "Add"; "Subtract"].

(** The extended types of conditions and actions for memory. *)
Definition VirtualType_Memory : Z := -2.
Definition VirtualType_SetMemory : Z := -2.
Definition MaskFlag_Enabled : Z := 0x4353.
Definition MaskFlag_Disabled : Z := 0.
Definition Flags_Disabled : Z := 2.
Definition Flags_AlwaysDisplay : Z := 4.

(** The digits of a number that is not negative. *)
Fixpoint radix_loop (base : Z) (fuel : nat) (n : Z) (acc : bytes) : bytes :=
  match fuel with
  | O => acc
  | S fuel =>
      let acc := hex_digit (n mod base) :: acc in
      if n <? base then acc else radix_loop base fuel (n / base) acc
  end.
(** [snprintf] with [0x%X] *)
Definition to_hex_string (n : Z) : bytes := lit "0x" ++ radix_loop 16 8 n [].
(** [_itoa_s] in base 2 *)
Definition to_binary (n : Z) : bytes := radix_loop 2 32 n [].

(** ** Text of an argument *)

Section Append.
Variable g : TextTrigGenerator.

Definition appendLocation (locationId : Z) : outcome bytes := entry (locationTable g) locationId.

Definition appendString (stringId : Z) : outcome bytes :=
  if stringId =? 0 then Ret (lit "No String")
  else if (stringId <? zlen (stringTable g)) || (u64 (65536 - stringId) <? zlen (extendedStringTable g)) then
    if stringId <? zlen (stringTable g) then vget (stringTable g) stringId
    else let* s := vget (extendedStringTable g) (u64 (65536 - stringId)) in Ret (lit "k" ++ s)
  else Ret (to_string stringId).

Definition appendSound (stringId : Z) : outcome bytes :=
  if stringId =? 0 then Ret (lit "No WAV") else appendString stringId.

Definition appendPlayer (playerIndex : Z) : outcome bytes := entry (groupTable g) playerIndex.
Definition appendAmount (amount : Z) : outcome bytes := Ret (to_string amount).
Definition appendUnit (unitType : Z) : outcome bytes := entry (unitTable g) unitType.
Definition appendSwitch (switchIndex : Z) : outcome bytes := entry (switchTable g) switchIndex.
Definition appendScoreType : Z -> outcome bytes := entry scoreTypes.
Definition appendResourceType : Z -> outcome bytes := entry resourceTypes.
Definition appendOrder : Z -> outcome bytes := entry orderTypes.
Definition appendStateModifier : Z -> outcome bytes := entry stateModifiers.
Definition appendSwitchState : Z -> outcome bytes := entry switchStates.
Definition appendSwitchModifier : Z -> outcome bytes := entry switchModifiers.
Definition appendAllyState : Z -> outcome bytes := entry allyStates.
Definition appendNumericComparison : Z -> outcome bytes := entry numericComparisons.
Definition appendNumericModifier : Z -> outcome bytes := entry numericModifiers.

(** For a script that is not in the table the code reads the byte after the id. *)
Definition appendScript (scriptId : Z) : outcome bytes :=
  if scriptId =? 0 then Ret (lit "No Script")
  else match scriptTable g !! scriptId with Some s => Ret s | None => Undef end.

Definition appendNumUnits (numUnits : Z) : outcome bytes :=
  Ret (if numUnits =? 0 then lit "All" else to_string numUnits).
Definition appendNumber (number : Z) : outcome bytes := Ret (to_string number).
Definition appendMaskFlag (maskFlag : Z) : outcome bytes :=
  Ret (if maskFlag =? MaskFlag_Enabled then lit "Enabled"
       else if maskFlag =? MaskFlag_Disabled then lit "Disabled" else to_string maskFlag).
Definition appendMemory (memory : Z) : outcome bytes :=
  Ret (if useAddressesForMemory g then to_hex_string (u32 (memory * 4 + deathTableOffset g)) else to_string memory).
Definition appendTextFlags (flags : Z) : outcome bytes :=
  Ret (if Z.land flags Flags_AlwaysDisplay =? 0 then lit "Don't Always Display"
       else if Z.land flags Flags_AlwaysDisplay =? Flags_AlwaysDisplay then lit "Always Display"
       else to_string flags).

Definition appendConditionArgument (c : Condition.Condition) (argument : ConditionArgs.Argument) : outcome bytes :=
  match ConditionArgs.type argument with
  | ConditionArgs.T_Unit => appendUnit (Condition.unitType c)
  | ConditionArgs.T_Location => appendLocation (Condition.locationId c)
  | ConditionArgs.T_Player => appendPlayer (Condition.player c)
  | ConditionArgs.T_Amount => appendAmount (Condition.amount c)
  | ConditionArgs.T_Comparison
  | ConditionArgs.T_NumericComparison => appendNumericComparison (Condition.comparison c)
  | ConditionArgs.T_ResourceType => appendResourceType (Condition.typeIndex c)
  | ConditionArgs.T_ScoreType => appendScoreType (Condition.typeIndex c)
  | ConditionArgs.T_Switch => appendSwitch (Condition.typeIndex c)
  | ConditionArgs.T_SwitchState => appendSwitchState (Condition.comparison c)
  | ConditionArgs.T_ConditionType => appendNumber (Condition.conditionType c)
  | ConditionArgs.T_TypeIndex => appendNumber (Condition.typeIndex c)
  | ConditionArgs.T_Flags => appendNumber (Condition.flags c)
  | ConditionArgs.T_MaskFlag => appendMaskFlag (Condition.maskFlag c)
  | ConditionArgs.T_MemoryOffset => appendMemory (Condition.player c)
  | ConditionArgs.T_NoType => Ret []
  end.

Definition inNumber (argument : ActionArgs.Argument) : bool :=
  bool_decide (ActionArgs.field argument = ActionArgs.F_Number).

Definition appendActionArgument (a : Action.Action) (argument : ActionArgs.Argument) : outcome bytes :=
  match ActionArgs.type argument with
  | ActionArgs.T_Location => appendLocation (if inNumber argument then Action.number a else Action.locationId a)
  | ActionArgs.T_String => appendString (Action.stringId a)
  | ActionArgs.T_Player => appendPlayer (if inNumber argument then Action.number a else Action.group a)
  | ActionArgs.T_Unit => appendUnit (Action.type a)
  | ActionArgs.T_NumUnits => appendNumUnits (Action.type2 a)
  | ActionArgs.T_CUWP => appendNumber (Action.number a)
  | ActionArgs.T_TextFlags => appendTextFlags (Action.flags a)
  | ActionArgs.T_Amount =>
      appendNumber (if bool_decide (ActionArgs.field argument = ActionArgs.F_Type2) then Action.type2 a else Action.number a)
  | ActionArgs.T_ScoreType => appendScoreType (u8 (Action.type a))
  | ActionArgs.T_ResourceType => appendResourceType (u8 (Action.type a))
  | ActionArgs.T_StateMod => appendStateModifier (Action.type2 a)
  | ActionArgs.T_Percent => appendNumber (Action.number a)
  | ActionArgs.T_Order => appendOrder (Action.type2 a)
  | ActionArgs.T_Sound => appendSound (Action.soundStringId a)
  | ActionArgs.T_Duration => appendNumber (Action.time a)
  | ActionArgs.T_Script => appendScript (Action.number a)
  | ActionArgs.T_AllyState => appendAllyState (Action.type a)
  | ActionArgs.T_NumericMod => appendNumericModifier (Action.type2 a)
  | ActionArgs.T_Switch => appendSwitch (Action.number a)
  | ActionArgs.T_SwitchMod => appendSwitchModifier (Action.type2 a)
  | ActionArgs.T_ActionType => appendNumber (Action.actionType a)
  | ActionArgs.T_Number => appendNumber (Action.number a)
  | ActionArgs.T_TypeIndex => appendNumber (Action.type a)
  | ActionArgs.T_SecondaryTypeIndex => appendNumber (Action.type2 a)
  | ActionArgs.T_Flags => appendNumber (Action.flags a)
  | ActionArgs.T_Padding => appendNumber (Action.padding a)
  | ActionArgs.T_MaskFlag => appendMaskFlag (Action.maskFlag a)
  | ActionArgs.T_MemoryOffset => appendMemory (Action.group a)
  | ActionArgs.T_NoType => Ret []
  end.

(** ** Text of a trigger *)

(** The arguments up to the first that has no type, with commas between them. *)
Fixpoint appendArguments {A} (arg : Z -> outcome A) (isEnd : A -> bool) (print : A -> outcome bytes) (n : nat) (i : Z)
    : outcome bytes :=
  match n with
  | O => Ret []
  | S n =>
      let* argument := arg i in
      if isEnd argument then Ret []
      else let* s := print argument in
           let* rest := appendArguments arg isEnd print n (i + 1) in
           Ret ((if i >? 0 then lit ", " else []) ++ s ++ rest)
  end.

Definition noCondition (a : ConditionArgs.Argument) : bool := bool_decide (ConditionArgs.type a = ConditionArgs.T_NoType).
Definition noAction (a : ActionArgs.Argument) : bool := bool_decide (ActionArgs.type a = ActionArgs.T_NoType).

Definition appendCondition (c : Condition.Condition) : outcome bytes :=
  let conditionType := Condition.conditionType c in
  if conditionType =? 0 then Ret [] else
  let isMemory := (conditionType =? 15) && (Condition.player c >? 28) in
  let* name := if isMemory then Ret (lit "Memory")
               else if (conditionType >=? 0) && (conditionType <? zlen (conditionTable g))
               then vget (conditionTable g) conditionType else Ret (lit "Custom") in
  let virtualType := if isMemory then VirtualType_Memory else conditionType in
  let* arguments := appendArguments (CND.getTextArgVirtual virtualType) noCondition (appendConditionArgument c)
                      (Z.to_nat ConditionArgs.MaxArguments) 0 in
  Ret ((if Z.land (Condition.flags c) Flags_Disabled =? Flags_Disabled then [10; 59; 9] else [10; 9])
       ++ name ++ lit "(" ++ arguments ++ lit ");").

Definition appendAction (a : Action.Action) : outcome bytes :=
  let actionType := Action.actionType a in
  if actionType =? 0 then Ret [] else
  let isMemory := (actionType =? 45) && (Action.group a >? 28) in
  let* name := if isMemory then Ret (lit "Set Memory")
               else if (actionType >=? 0) && (actionType <? zlen (actionTable g))
               then vget (actionTable g) actionType else Ret (lit "Custom") in
  let virtualType := if isMemory then VirtualType_SetMemory else actionType in
  let* arguments := appendArguments (ACT.getTextArgVirtual virtualType) noAction (appendActionArgument a)
                      (Z.to_nat ActionArgs.MaxArguments) 0 in
  Ret ((if Z.land (Action.flags a) Flags_Disabled =? Flags_Disabled then [10; 59; 9] else [10; 9])
       ++ name ++ lit "(" ++ arguments ++ lit ");").

(** One of the players: its name, and what the trigger has for it when that is
    neither [Yes] nor [No]. *)
Definition appendOwner (t : Trigger.Trigger) (groupNum : Z) (s : bytes * bool) : outcome (bytes * bool) :=
  let '(output, hasPrevious) := s in
  let* owned := TRG.owned t groupNum in
  if owned =? 0 then Ret (output, hasPrevious)
  else
    let* name := vget (groupTable g) groupNum in
    Ret (output ++ (if hasPrevious then lit "," else []) ++ name
           ++ (if owned =? 1 then [] else lit ":" ++ to_string owned), true).

Definition appendFlags (flags : Z) : bytes :=
  if flags >? 0 then
    let number := to_binary flags in
    [10; 10] ++ lit "Flags:" ++ [10] ++ replicate (32 - length number) 48 ++ number ++ lit ";"
  else [].

Definition appendTrigger (t : Trigger.Trigger) : outcome bytes :=
  let* (owners, _) := for_each (appendOwner t) (range 0 MaxOwners) ([], false) in
  let* conditions := for_each (fun i output =>
      let* c := TRG.condition t i in let* s := appendCondition c in Ret (output ++ s)) (range 0 MaxConditions) [] in
  let* actions := for_each (fun i output =>
      let* a := TRG.action t i in let* s := appendAction a in Ret (output ++ s)) (range 0 MaxActions) [] in
  Ret (lit "Trigger(" ++ owners ++ lit "){" ++ [10] ++ lit "Conditions:" ++ conditions
       ++ [10; 10] ++ lit "Actions:" ++ actions ++ appendFlags (Trigger.flags t)
       ++ [10] ++ lit "}" ++ [10; 10]
       ++ lit "//-----------------------------------------------------------------//" ++ [10; 10]).

End Append.

Definition appendTriggers (g : TextTrigGenerator) (st : Strings) : outcome bytes :=
  for_each (fun trigIndex output =>
      let* t := TrigSection.getTrigger (trig (users st)) trigIndex in
      let* s := appendTrigger g t in Ret (output ++ s))
    (range 0 (TrigSection.numTriggers (trig (users st)))) [].

(** The characters of [buf] from [pos] on; a line ending becomes CR LF.  After
    a CR the character that follows is read, past the end after the last. *)
Fixpoint correctLineEndings (buf : bytes) : outcome bytes :=
  match buf with
  | [] => Ret []
  | c :: rest =>
      if c =? 13 then
        match rest with
        | [] => Undef
        | d :: rest' => let* dest := if d =? 10 then correctLineEndings rest' else correctLineEndings rest in
                        Ret ([13; 10] ++ dest)
        end
      else let* dest := correctLineEndings rest in
           Ret ((if (10 <=? c) && (c <=? 12) then [13; 10] else [c]) ++ dest)
  end.

(** ** Loading the names of a map *)

(** [getString<EscString>] and the like. *)
Definition escaped (s : option bytes) : outcome (option bytes) :=
  match s with
  | None => Ret None
  | Some raw => let* e := convertStr RawString EscString raw in Ret (Some (default [] e))
  end.

Definition conditionNames : list bytes := lits [
    "No Condition"; "Countdown Timer"; "Command"; "Bring"; "Accumulate"; "Kill"; "Command the Most";
    "Commands the Most At"; "Most Kills"; "Highest Score"; "Most Resources"; "Switch"; "Elapsed Time"; "Never";
    "Opponents"; "Deaths"; "Command the Least"; "Command the Least At"; "Least Kills"; "Lowest Score";
    "Least Resources"; "Score"; "Always"; "Never"].
Definition actionNames : list bytes := lits [
    "No Action"; "Victory"; "Defeat"; "Preserve Trigger"; "Wait"; "Pause Game"; "Unpause Game"; "Transmission";
    "Play WAV"; "Display Text Message"; "Center View"; "Create Unit with Properties"; "Set Mission Objectives";
    "Set Switch"; "Set Countdown Timer"; "Run AI Script"; "Run AI Script At Location"; "Leader Board Control";
    "Leader Board Control At Location"; "Leader Board Resources"; "Leader Board Kills"; "Leader Board Points";
    "Kill Unit"; "Kill Unit At Location"; "Remove Unit"; "Remove Unit At Location"; "Set Resources";
    "Set Score"; "Minimap Ping"; "Talking Portrait"; "Mute Unit Speech"; "Unmute Unit Speech";
    "Leaderboard Computer Players"; "Leaderboard Goal Control"; "Leaderboard Goal Control At Location";
    "Leaderboard Goal Resources"; "Leaderboard Goal Kills"; "Leaderboard Goal Points"; "Move Location";
    "Move Unit"; "Leaderboard Greed"; "Set Next Scenario"; "Set Doodad State"; "Set Invincibility";
    "Create Unit"; "Set Deaths"; "Order"; "Comment"; "Give Units to Player"; "Modify Unit Hit Points";
    "Modify Unit Energy"; "Modify Unit Shield Points"; "Modify Unit Resource Amount";
    "Modify Unit Hanger Count"; "Pause Timer"; "Unpause Timer"; "Draw"; "Set Alliance Status";
    "Disable Debug Mode"; "Enable Debug Mode"].

(** The names, then [Custom] up to 256 entries. *)
Definition filled (names : list bytes) : list bytes := names ++ replicate (256 - length names) (lit "Custom").

Definition prepConditionTable (g : TextTrigGenerator) : TextTrigGenerator :=
  if goodConditionTable g then g
  else g <| conditionTable := conditionTable g ++ filled conditionNames |> <| goodConditionTable := true |>.
Definition prepActionTable (g : TextTrigGenerator) : TextTrigGenerator :=
  if goodActionTable g then g
  else g <| actionTable := actionTable g ++ filled actionNames |> <| goodActionTable := true |>.

Definition locationEntry (st : Strings) (quoteArgs : bool) (i : Z) : outcome (option bytes) :=
  let* loc := MrgnSection.getLocation (mrgn (users st)) i in
  match loc with
  | None => Ret None
  | Some l =>
      if i =? LocationId_Anywhere then Ret (Some (quoteIf quoteArgs (lit "Anywhere")))
      else if Location.stringId l >? 0 then
        let* raw := getLocationName i Scope.Game st in
        let* name := escaped raw in
        Ret (quoteIf quoteArgs <$> name)
      else Ret None
  end.
Definition prepLocationTable (st : Strings) (quoteArgs : bool) (g : TextTrigGenerator) : outcome TextTrigGenerator :=
  let* table := for_each (fun i table =>
      let* name := locationEntry st quoteArgs i in
      let table := match name with Some name => table ++ [name] | None => table end in
      Ret (if zlen table =? i then table ++ [to_string i] else table))
    (range 1 (MrgnSection.numLocations (mrgn (users st)) + 1)) [lit "No Location"] in
  Ret (g <| locationTable := table |>).

Definition Unit_TotalReferenceTypes : Z := 233.

(** [getUnitName(unitType, false)]: [defaultDisplayNames] is also what it gives
    for a unit without a name of its own. *)
Definition unitEntry (st : Strings) (quoteArgs useCustomNames : bool) (unitType : Z) : outcome bytes :=
  if useCustomNames && (unitType <? 228) then
    let* raw := getUnitName defaultDisplayNames (fun u => lit "ID:" ++ to_string u) unitType Auto Scope_EditorOverGame st in
    let* name := escaped (Some raw) in
    Ret (quoteIf quoteArgs (default [] name))
  else let* name := vget legacyTextTrigDisplayNames unitType in Ret (quoteIf quoteArgs name).
Definition prepUnitTable (st : Strings) (quoteArgs useCustomNames : bool) (g : TextTrigGenerator)
    : outcome TextTrigGenerator :=
  let* table := for_each (fun unitType table =>
      let* name := unitEntry st quoteArgs useCustomNames unitType in Ret (table ++ [name]))
    (range 0 Unit_TotalReferenceTypes) [] in
  Ret (g <| unitTable := table |>).

Definition prepSwitchTable (st : Strings) (quoteArgs : bool) (g : TextTrigGenerator) : outcome TextTrigGenerator :=
  let* table := for_each (fun switchIndex table =>
      let* name := getSwitchName switchIndex Scope_EditorOverGame st in
      Ret (table ++ [quoteIf quoteArgs (default (lit "Switch" ++ to_string (switchIndex + 1)) name)]))
    (range 0 256) [] in
  Ret (g <| switchTable := table |>).

(** Local arrays, whose names are used after their scope has ended; the model
    takes them to be there still. *)
Definition lowerGroups : list bytes := lits [
    "Player 1"; "Player 2"; "Player 3"; "Player 4"; "Player 5"; "Player 6"; "Player 7"; "Player 8"; "Player 9";
    "Player 10"; "Player 11"; "Player 12"; "unknown/unused"; "Current Player"; "Foes"; "Allies";
    "Neutral Players"; "All players"].
Definition upperGroups : list bytes := lits [
    "22"; "23"; "24"; "25"; "Non Allied Victory Players"; "unknown/unused"].
Definition prepGroupTable (st : Strings) (quoteArgs : bool) (g : TextTrigGenerator) : outcome TextTrigGenerator :=
  let* forces := for_each (fun i table =>
      let* raw := getForceName i Scope_EditorOverGame st in
      let* name := escaped raw in
      Ret (table ++ [quoteIf quoteArgs (default (lit "Force " ++ to_string i) name)]))
    (range 0 4) [] in
  Ret (g <| groupTable := (quoteIf quoteArgs <$> lowerGroups) ++ forces ++ (quoteIf quoteArgs <$> upperGroups) |>).

(** The four characters of an id, with spaces for NUL. *)
Definition scriptText (number : Z) : bytes := (fun c => if c =? 0 then 32 else c) <$> le_enc 4 number.
Definition prepScript (quoteArgs : bool) (a : Action.Action) (table : gmap Z bytes) : gmap Z bytes :=
  let type := Action.actionType a in
  if ((type =? 15) || (type =? 16)) && negb (Action.number a =? 0) then
    match table !! Action.number a with
    | Some _ => table
    | None => <[Action.number a := quoteIf quoteArgs (scriptText (Action.number a))]> table
    end
  else table.
Definition prepScriptTable (st : Strings) (quoteArgs : bool) (g : TextTrigGenerator) : outcome TextTrigGenerator :=
  let* table := for_each (fun i table =>
      let* t := TrigSection.getTrigger (trig (users st)) i in
      for_each (fun n table => let* a := TRG.action t n in Ret (prepScript quoteArgs a table)) (range 0 MaxActions) table)
    (range 0 (TrigSection.numTriggers (trig (users st)))) {[0 := lit "No Script"]} in
  Ret (g <| scriptTable := table |>).

(** [markValidUsedStrings(stringIdUsed, Either, scope)] *)
Definition validUsedStrings (st : Strings) (scope : Z) : outcome (gset Z) :=
  let* marked := ScenarioStrings.Strings.markUsedStrings (users st) ∅ Scope.Either scope StringUserFlag.All in
  StringTable.unmarkUnstoredStrings
    (if scope =? Scope.Game then StrSection.strings (str st) else KstrSection.strings (kstr st)) marked.

(** The last string that was looked up stays for the ids that are not used. *)
Definition nextString (st : Strings) (scope : Z) (used : gset Z) (i : Z) (str : option bytes) : outcome (option bytes) :=
  if bool_decide (i ∈ used) then let* raw := getString i scope st in escaped raw else Ret str.
Definition escapeQuotes (s : bytes) : bytes := s ≫= (fun c => if c =? 34 then [92; 34] else [c]).

Definition prepStringTable (st : Strings) (quoteArgs : bool) (g : TextTrigGenerator) : outcome TextTrigGenerator :=
  let* stringUsed := validUsedStrings st Scope.Game in
  let* extendedStringUsed := validUsedStrings st Scope.Editor in
  let* (strings, str) := for_each (fun i (s : list bytes * option bytes) =>
      let* str := nextString st Scope.Game stringUsed i s.2 in
      Ret (s.1 ++ [match str with Some str => quoteIf quoteArgs str | None => [] end], str))
    (range 0 (getCapacity Scope.Game st)) ([], None) in
  let* (strings, extended, _) := for_each (fun i (s : list bytes * list bytes * option bytes) =>
      let '(strings, extended, str) := s in
      let* str := nextString st Scope.Editor extendedStringUsed i str in
      Ret (match str with
           | Some str => (strings, extended ++ [quoteIf quoteArgs (escapeQuotes str)], Some str)
           | None => (strings ++ [[]], extended, None)
           end))
    (range 0 (getCapacity Scope.Editor st)) (strings, [], str) in
  Ret (g <| stringTable := strings |> <| extendedStringTable := extended |>).

Definition loadScenario (st : Strings) (quoteArgs useCustomNames : bool) (g : TextTrigGenerator)
    : outcome TextTrigGenerator :=
  let g := prepActionTable (prepConditionTable g) in
  let* g := prepLocationTable st quoteArgs g in
  let* g := prepUnitTable st quoteArgs useCustomNames g in
  let* g := prepSwitchTable st quoteArgs g in
  let* g := prepGroupTable st quoteArgs g in
  let* g := prepScriptTable st quoteArgs g in
  prepStringTable st quoteArgs g.
(** [loadScenario(map)] *)
Definition loadScenarioNames (st : Strings) : TextTrigGenerator -> outcome TextTrigGenerator := loadScenario st false true.

Definition clearScenario (g : TextTrigGenerator) : TextTrigGenerator :=
  g <| stringTable := [] |> <| extendedStringTable := [] |> <| locationTable := [] |> <| unitTable := [] |>
    <| switchTable := [] |> <| groupTable := [] |>.

Definition buildTextTrigs (st : Strings) (g : TextTrigGenerator) : outcome (bytes * TextTrigGenerator) :=
  let* output := appendTriggers g st in
  let* output := correctLineEndings output in
  Ret (output, clearScenario g).
Definition buildTextTrig (t : Trigger.Trigger) (trigString : bytes) (g : TextTrigGenerator)
    : outcome (bytes * TextTrigGenerator) :=
  let* output := appendTrigger g t in
  let* output := correctLineEndings output in
  Ret (trigString ++ output, clearScenario g).

Definition generateTextTrigs (st : Strings) (g : TextTrigGenerator) : outcome (bytes * TextTrigGenerator) :=
  let* g := loadScenario st true false g in buildTextTrigs st g.
(** [generateTextTrigs(map, trigIndex, trigString)] *)
Definition generateTextTrig (st : Strings) (trigIndex : Z) (trigString : bytes) (g : TextTrigGenerator)
    : outcome (bytes * TextTrigGenerator) :=
  let* t := TrigSection.getTrigger (trig (users st)) trigIndex in
  let* g := loadScenario st true false g in buildTextTrig t trigString g.

(** ** Text for windows *)

Definition getConditionName (g : TextTrigGenerator) (conditionType : Z) : outcome bytes := entry (conditionTable g) conditionType.
Definition getActionName (g : TextTrigGenerator) (actionType : Z) : outcome bytes := entry (actionTable g) actionType.
Definition getConditionArgument (g : TextTrigGenerator) (c : Condition.Condition) (textArgumentIndex : Z) : outcome bytes :=
  let* argument := CND.getTextArg (Condition.conditionType c) textArgumentIndex in appendConditionArgument g c argument.
Definition getActionArgument (g : TextTrigGenerator) (a : Action.Action) (textArgumentIndex : Z) : outcome bytes :=
  let* argument := ACT.getTextArg (Action.actionType a) textArgumentIndex in appendActionArgument g a argument.

Definition getTrigLocation (g : TextTrigGenerator) (locationId : Z) : outcome bytes :=
  if (locationId >? 0) && (locationId <? zlen (locationTable g)) then vget (locationTable g) locationId
  else Ret (to_string locationId).
Definition getTrigString (g : TextTrigGenerator) : Z -> outcome bytes := appendString g.
Definition getTrigWav (g : TextTrigGenerator) (stringId : Z) : outcome bytes :=
  if stringId =? 0 then Ret (lit "No WAV") else getTrigString g stringId.
(** The name up to its first NUL. *)
Definition getTrigPlayer (g : TextTrigGenerator) (playerIndex : Z) : outcome bytes :=
  if playerIndex <? zlen (groupTable g) then let* s := vget (groupTable g) playerIndex in Ret (until_nul s)
  else Ret (to_string playerIndex).
Definition getTrigUnit (g : TextTrigGenerator) : Z -> outcome bytes := entry (unitTable g).
Definition getTrigSwitch (g : TextTrigGenerator) : Z -> outcome bytes := entry (switchTable g).
Definition getTrigScoreType : Z -> outcome bytes := entry (lits
  ["total"; "units"; "buildings"; "units and buildings"; "kills"; "razings"; "kills and razings"; "custom"]).
Definition getTrigResourceType : Z -> outcome bytes := entry (lits ["ore"; "gas"; "ore and gas"]).
Definition getTrigOrder : Z -> outcome bytes := entry (lits ["move"; "patrol"; "attack"]).
Definition getTrigStateModifier : Z -> outcome bytes :=
  entry (lits ["0"; "1"; "2"; "3"; "Enable"; "Disable"; "Toggle"]).
Definition getTrigSwitchState : Z -> outcome bytes := entry (lits ["0"; "1"; "Set"; "Cleared"]).
Definition getTrigSwitchModifier : Z -> outcome bytes := entry (lits
  ["0"; "1"; "2"; "3"; "Set"; "Clear"; "Toggle"; "7"; "8"; "9"; "10"; "Randomize"]).
Definition getTrigAllyState : Z -> outcome bytes := entry (lits ["Enemy"; "Ally"; "Allied Victory"]).
Definition getTrigNumericComparison : Z -> outcome bytes := entry (lits
  ["at least"; "at most"; "2"; "3"; "4"; "5"; "6"; "7"; "8"; "9"; "exactly"]).
Definition getTrigNumericModifier : Z -> outcome bytes := entry (lits
  ["0"; "1"; "2"; "3"; "4"; "5"; "6"; "Set To"; "Add"; "Subtract"]).
Definition getTrigScript (scriptId : Z) : bytes :=
  if scriptId =? 0 then lit "No Script" else until_nul (le_enc 4 scriptId).
Definition getTrigNumUnits (numUnits : Z) : bytes := if numUnits =? 0 then lit "All" else to_string numUnits.
Definition getTrigNumber (number : Z) : bytes := to_string number.
Definition getTrigTextFlags (flags : Z) : outcome bytes := appendTextFlags flags.

End Generator.
