(* ===== verification/TextTrigClean.v ===== *)
(** Cleaning of generated text: what [cleanText] of the compiler makes of the
    pieces that the generator puts together, plain text, line endings, quoted
    texts and comments, and of their concatenation. *)
From stdpp Require Import strings.
From S2P Require Import Prelude Codec ChkTypes Accessors EscapeStrings EscapeProps TextLib TextTrigArgs TextTrigParser TextTrigProps ScNames TextTrigGenerator.
Import Generator.
Open Scope Z_scope.

(** ** Line endings *)

Definition isLineEnd (c : Z) : bool := (10 <=? c) && (c <=? 12).
Definition crlf (a : bytes) : bytes := a ≫= (fun c => if isLineEnd c then [13; 10] else [c]).

Lemma crlf_app a b : crlf (a ++ b) = crlf a ++ crlf b.
Proof. apply bind_app. Qed.
Lemma crlf_cons c a : crlf (c :: a) = (if isLineEnd c then [13; 10] else [c]) ++ crlf a.
Proof. done. Qed.

Lemma correctLineEndings_crlf a : (13 ∉ a) -> correctLineEndings a = Ret (crlf a).
Proof.
  induction a as [|c a IH]; intros Hc; [done|]. rewrite not_elem_of_cons in Hc. destruct Hc as [Hn Hc].
  cbn [correctLineEndings]. rewrite (proj2 (Z.eqb_neq c 13)) by done. rewrite IH by done. done.
Qed.

(** ** Pieces *)

(** From the start of [a], wherever it is, [cleanText] goes to its end with
    [a'] and the texts [ss] added, in at most one round per character. *)
Definition cleans (a a' : bytes) (ss : list bytes) : Prop :=
  forall pre post dest strs, zlen (pre ++ a ++ post) < 2 ^ 64 ->
  exists n, (n <= length a)%nat /\ forall fuel,
    cleanLoop (n + fuel) (pre ++ a ++ post) (mkCleaning (zlen pre) dest strs) =
    cleanLoop fuel (pre ++ a ++ post) (mkCleaning (zlen pre + zlen a) (dest ++ a') (strs ++ ss)).

Lemma cleans_nil : cleans [] [] [].
Proof.
  intros pre post dest strs _. exists 0%nat. split; [done|]. intros fuel.
  by rewrite !app_nil_r, Z.add_0_r.
Qed.

Lemma cleans_app a a' ss b b' tt : cleans a a' ss -> cleans b b' tt -> cleans (a ++ b) (a' ++ b') (ss ++ tt).
Proof.
  intros Ha Hb pre post dest strs Hz. rewrite <- app_assoc in Hz |- *.
  destruct (Ha pre (b ++ post) dest strs Hz) as (n & Hn & En).
  destruct (Hb (pre ++ a) post (dest ++ a') (strs ++ ss)) as (m & Hm & Em); [by rewrite <- app_assoc|].
  rewrite <- app_assoc in Em. rewrite zlen_app in Em.
  exists (n + m)%nat. rewrite length_app. split; [lia|]. intros fuel.
  rewrite <- Nat.add_assoc, En, Em. rewrite zlen_app, !app_assoc. do 2 f_equal. lia.
Qed.

(** A piece that takes one round. *)
Lemma cleans_round a a' ss :
  a <> [] ->
  (forall pre post, zlen (pre ++ a ++ post) < 2 ^ 64 ->
     cleanStep (pre ++ a ++ post) (mkCleaning (zlen pre) [] []) = Ret (mkCleaning (zlen pre + zlen a) a' ss)) ->
  cleans a a' ss.
Proof.
  intros Ha Hs pre post dest strs Hz. exists 1%nat. split; [destruct a; [done|cbn; lia]|]. intros fuel.
  cbn [Nat.add cleanLoop cleanPos].
  assert (Hlt : zlen pre < zlen (pre ++ a ++ post)).
  { rewrite !zlen_app. destruct a; [done|]. rewrite zlen_cons. pose proof (zlen_nonneg a). pose proof (zlen_nonneg post). lia. }
  rewrite (proj2 (Z.ltb_lt _ _) Hlt), cleanStep_appends, Hs by done. done.
Qed.

Lemma vget_here {A} (pre : list A) c post : vget (pre ++ c :: post) (zlen pre) = Ret c.
Proof.
  apply vget_Some; [apply zlen_nonneg|]. unfold zlen. rewrite Nat2Z.id.
  by rewrite lookup_app_r, Nat.sub_diag by done.
Qed.

Lemma sget_next pre c (post : bytes) : sget (pre ++ c :: post) (zlen pre + 1) = Ret (nth0 post 0).
Proof.
  rewrite <- sget_head. rewrite (cons_middle c pre post), app_assoc.
  rewrite <- (sget_shift (pre ++ [c]) post 0) by done. f_equal. rewrite zlen_app. change (zlen [c]) with 1. lia.
Qed.

(** ** Plain text *)

Definition isPlain (c : Z) : bool :=
  negb ((c =? 32) || (c =? 9) || (c =? 13) || isLineEnd c || (c =? 47) || (c =? 34)).

(** What is left of text without quotes, slashes and returns. *)
Fixpoint plain (a : bytes) : option bytes :=
  match a with
  | [] => Some []
  | c :: a =>
      match plain a with
      | None => None
      | Some r => if (c =? 32) || (c =? 9) then Some r
                  else if isLineEnd c then Some (10 :: r)
                  else if isPlain c then Some (upper c :: r) else None
      end
  end.

Lemma isPlain_spec c : isPlain c = true -> c <> 32 /\ c <> 9 /\ c <> 13 /\ ~ (10 <= c <= 12) /\ c <> 47 /\ c <> 34.
Proof. unfold isPlain, isLineEnd. zb; cbn; try done; intros _; lia. Qed.
Lemma isLineEnd_spec c : isLineEnd c = true -> 10 <= c <= 12.
Proof. unfold isLineEnd. by zb. Qed.

Lemma cleans_char c : isPlain c = true -> cleans [c] [upper c] [].
Proof.
  intros Hc%isPlain_spec. apply cleans_round; [done|]. intros pre post _. cbn [app].
  unfold cleanStep. rewrite vget_here. cbn [obind]. change (char "/") with 47. by zb.
Qed.

Lemma cleans_blank c : (c =? 32) || (c =? 9) = true -> cleans [c] [] [].
Proof.
  intros Hc. apply cleans_round; [done|]. intros pre post _. cbn [app].
  unfold cleanStep. rewrite vget_here. cbn [obind]. by rewrite Hc.
Qed.

Lemma cleans_line : cleans [13; 10] [10] [].
Proof.
  apply cleans_round; [done|]. intros pre post _. cbn [app].
  unfold cleanStep. rewrite vget_here. cbn [obind]. cbn [Z.eqb Pos.eqb orb].
  rewrite sget_next. change (nth0 (10 :: post) 0) with 10. cbn [obind Z.eqb Pos.eqb]. change (zlen [13; 10]) with 2. do 2 f_equal. lia.
Qed.

Lemma cleans_plain a a' : plain a = Some a' -> cleans (crlf a) a' [].
Proof.
  revert a'. induction a as [|c a IH]; intros a' Ha.
  - injection Ha as <-. apply cleans_nil.
  - cbn [plain] in Ha. destruct (plain a) as [r|] eqn:Er; [|done]. specialize (IH r eq_refl).
    rewrite crlf_cons. destruct ((c =? 32) || (c =? 9)) eqn:Hb.
    { injection Ha as <-. assert (isLineEnd c = false) as -> by (revert Hb; unfold isLineEnd; by zb).
      exact (cleans_app _ [] [] _ _ [] (cleans_blank c Hb) IH). }
    destruct (isLineEnd c) eqn:Hl.
    { injection Ha as <-. exact (cleans_app _ [10] [] _ _ [] cleans_line IH). }
    destruct (isPlain c) eqn:Hp; [|done]. injection Ha as <-.
    exact (cleans_app _ [upper c] [] _ _ [] (cleans_char c Hp) IH).
Qed.

Lemma plain_app a b a' b' : plain a = Some a' -> plain b = Some b' -> plain (a ++ b) = Some (a' ++ b').
Proof.
  revert a'. induction a as [|c a IH]; intros a' Ha Hb; [by injection Ha as <-|].
  cbn [plain app] in *. destruct (plain a) as [r|]; [|done]. rewrite (IH r) by done.
  repeat case_match; simplify_eq; done.
Qed.

(** ** Comments *)

Lemma find_here pre c (body post : bytes) :
  (c ∉ body) -> find (pre ++ body ++ c :: post) c (zlen pre) = Some (zlen pre + zlen body).
Proof.
  intros Hc. unfold find.
  assert (Hlt : zlen pre < zlen (pre ++ body ++ c :: post)).
  { rewrite !zlen_app, zlen_cons. pose proof (zlen_nonneg body). pose proof (zlen_nonneg post). lia. }
  rewrite (proj2 (Z.ltb_lt _ _) Hlt). unfold zlen at 1. rewrite Nat2Z.id, drop_app_length.
  assert (list_find (fun x => x = c) (body ++ c :: post) = Some (length body, c)) as ->; [|done].
  apply list_find_Some. rewrite lookup_app_r, Nat.sub_diag by lia. split_and!; [done..|].
  intros j y Hj Hlt' ->. rewrite lookup_app_l in Hj by done. by apply list_elem_of_lookup_2 in Hj.
Qed.

(** A comment is left out; the end of its line stays. *)
Lemma cleans_comment body : (10 ∉ body) -> cleans (lit "//" ++ body ++ [10]) [10] [].
Proof.
  intros Hb pre post dest strs Hz. exists 2%nat. split; [cbn; rewrite length_app; cbn; lia|]. intros fuel.
  set (text := pre ++ (lit "//" ++ body ++ [10]) ++ post) in *.
  assert (Et : text = pre ++ 47 :: 47 :: body ++ 10 :: post) by (unfold text; cbn; by rewrite <- app_assoc).
  assert (Hend : commentEnd text (zlen pre + 1) = zlen pre + 2 + zlen body).
  { unfold commentEnd. replace (zlen pre + 1) with (zlen (pre ++ [47])) by (rewrite zlen_app; done).
    replace text with ((pre ++ [47]) ++ (47 :: body) ++ 10 :: post) by (rewrite Et, <- app_assoc; done).
    rewrite find_here by (rewrite elem_of_cons; intros [|]; done).
    rewrite zlen_app, !zlen_cons. change (zlen []) with 0. lia. }
  assert (E1 : cleanStep text (mkCleaning (zlen pre) dest strs) = Ret (mkCleaning (zlen pre + 2 + zlen body) dest strs)).
  { unfold cleanStep. rewrite Et at 1. rewrite vget_here. cbn [obind]. change (char "/") with 47.
    change (47 =? 32) with false. cbn [Z.eqb Pos.eqb orb].
    rewrite Et at 1. rewrite sget_next. change (nth0 (47 :: body ++ 10 :: post) 0) with 47. cbn [obind Z.eqb Pos.eqb]. by rewrite Hend. }
  assert (E2 : cleanStep text (mkCleaning (zlen pre + 2 + zlen body) dest strs) =
               Ret (mkCleaning (zlen pre + 2 + zlen body + 1) (dest ++ [10]) strs)).
  { unfold cleanStep.
    assert (vget text (zlen pre + 2 + zlen body) = Ret 10) as ->; [|done].
    replace (zlen pre + 2 + zlen body) with (zlen (pre ++ 47 :: 47 :: body)) by (rewrite zlen_app, !zlen_cons; lia).
    replace text with ((pre ++ 47 :: 47 :: body) ++ 10 :: post) by (rewrite Et, <- app_assoc; done).
    apply vget_here. }
  assert (Hlen : zlen text = zlen pre + 2 + zlen body + 1 + zlen post).
  { rewrite Et, zlen_app, !zlen_cons, zlen_app, zlen_cons. lia. }
  pose proof (zlen_nonneg body). pose proof (zlen_nonneg post).
  cbn [Nat.add cleanLoop cleanPos]. rewrite (proj2 (Z.ltb_lt (zlen pre) _)) by lia. rewrite E1.
  cbn [cleanLoop cleanPos]. rewrite (proj2 (Z.ltb_lt (zlen pre + 2 + zlen body) _)) by lia. rewrite E2.
  rewrite app_nil_r. do 2 f_equal. rewrite !zlen_app. change (zlen (lit "//")) with 2. change (zlen [10]) with 1. lia.
Qed.

(** ** Quoted texts *)

(** Every quote in [e] is escaped, and the one that follows it is not. *)
Definition closed (e : bytes) : Prop :=
  (forall i, e !! i = Some 34 -> exists j, i = S j /\ e !! j = Some 92) /\ last e <> Some 92.

Lemma vget_at pre (e post : bytes) j c : e !! j = Some c -> vget (pre ++ e ++ post) (zlen pre + Z.of_nat j) = Ret c.
Proof.
  intros Hj. apply vget_Some; [pose proof (zlen_nonneg pre); lia|].
  rewrite Z2Nat.inj_add, Nat2Z.id by (try apply zlen_nonneg; lia). unfold zlen. rewrite Nat2Z.id.
  rewrite lookup_app_r by lia. replace (_ + j - _)%nat with j by lia.
  rewrite lookup_app_l; [done|]. by eapply lookup_lt_Some.
Qed.

Section Quoted.
Variables (pre e post : bytes).
Hypothesis Hclosed : closed e.
Let text := pre ++ 34 :: e ++ 34 :: post.

Lemma text_split e1 e2 : e = e1 ++ e2 -> text = (pre ++ 34 :: e1) ++ e2 ++ 34 :: post.
Proof. intros ->. unfold text. by simplify_list_eq. Qed.

Lemma zlen_quote_pre (e1 : bytes) : zlen (pre ++ 34 :: e1) = zlen pre + 1 + zlen e1.
Proof. rewrite zlen_app, zlen_cons. lia. Qed.

(** Whether the quote after [e1] is escaped. *)
Lemma before_quote e1 e2 : e = e1 ++ e2 ->
  vget text (zlen pre + 1 + zlen e1 - 1) = Ret (default 34 (last e1)).
Proof.
  intros He. rewrite (text_split e1 e2 He). destruct e1 as [|c e1 _] using rev_ind.
  - replace (zlen pre + 1 + zlen [] - 1) with (zlen pre + 0) by (change (zlen []) with 0; lia).
    rewrite <- app_assoc. apply (vget_at pre [34] (e2 ++ 34 :: post) 0). done.
  - rewrite last_snoc. replace (pre ++ 34 :: e1 ++ [c]) with ((pre ++ 34 :: e1) ++ [c]) by (by rewrite <- app_assoc).
    rewrite <- app_assoc.
    replace (zlen pre + 1 + zlen (e1 ++ [c]) - 1) with (zlen (pre ++ 34 :: e1) + Z.of_nat 0)
      by (rewrite zlen_quote_pre, zlen_app; change (zlen [c]) with 1; lia).
    by apply vget_at.
Qed.

Lemma closed_last e1 e2 : e = e1 ++ 34 :: e2 -> last e1 = Some 92.
Proof.
  intros He. destruct Hclosed as [Hq _]. destruct (Hq (length e1)) as (j & Hj & E).
  { by rewrite He, lookup_app_r, Nat.sub_diag by lia. }
  rewrite last_lookup, Hj. cbn [Nat.pred]. rewrite He, lookup_app_l in E by lia. done.
Qed.

Lemma findStringEnd_from fuel : forall e1 e2, e = e1 ++ e2 -> (length e2 < fuel)%nat ->
  findStringEnd_loop fuel text (zlen pre + 1 + zlen e1) = Ret (Some (zlen pre + 1 + zlen e)).
Proof.
  induction fuel as [|fuel IH]; intros e1 e2 He Hf; [lia|]. cbn [findStringEnd_loop].
  assert (Hlen : zlen text = zlen pre + 1 + zlen e1 + zlen e2 + 1 + zlen post).
  { rewrite (text_split e1 e2 He), !zlen_app, !zlen_cons. lia. }
  pose proof (zlen_nonneg pre). pose proof (zlen_nonneg e1). pose proof (zlen_nonneg e2). pose proof (zlen_nonneg post).
  rewrite (proj2 (Z.ltb_lt (zlen pre + 1 + zlen e1) _)) by lia.
  destruct (decide (34 ∈ e2)) as [Hin|Hout].
  - apply list_elem_of_split_l in Hin as (b & e3 & -> & Hb). pose proof (zlen_nonneg b).
    assert (Ef : find text 34 (zlen pre + 1 + zlen e1) = Some (zlen pre + 1 + zlen e1 + zlen b)).
    { replace text with ((pre ++ 34 :: e1) ++ b ++ 34 :: (e3 ++ 34 :: post))
        by (rewrite (text_split e1 _ He); by simplify_list_eq).
      rewrite <- zlen_quote_pre. by apply find_here. }
    rewrite Ef, (proj2 (Z.gtb_lt _ _)) by lia.
    assert (He' : e = (e1 ++ b) ++ 34 :: e3) by (by rewrite <- app_assoc).
    replace (zlen pre + 1 + zlen e1 + zlen b - 1) with (zlen pre + 1 + zlen (e1 ++ b) - 1) by (rewrite zlen_app; lia).
    rewrite (before_quote _ _ He'), (closed_last _ _ He'). cbn [default obind from_option id Z.eqb Pos.eqb].
    replace (zlen pre + 1 + zlen e1 + zlen b + 1) with (zlen pre + 1 + zlen (e1 ++ b ++ [34]))
      by (rewrite !zlen_app; change (zlen [34]) with 1; lia).
    apply (IH _ e3); [by rewrite <- !app_assoc|]. rewrite length_app in Hf. cbn in Hf. lia.
  - assert (Ef : find text 34 (zlen pre + 1 + zlen e1) = Some (zlen pre + 1 + zlen e1 + zlen e2)).
    { rewrite (text_split e1 e2 He), <- zlen_quote_pre. by apply find_here. }
    rewrite Ef, (proj2 (Z.gtb_lt _ _)) by lia.
    replace (zlen pre + 1 + zlen e1 + zlen e2) with (zlen pre + 1 + zlen e) by (rewrite He, zlen_app; lia).
    rewrite (before_quote e [] (eq_sym (app_nil_r e))). cbn [obind].
    destruct Hclosed as [_ Hl]. destruct (last e) as [c|]; [|done]. cbn [default from_option id].
    by destruct (Z.eqb_spec c 92) as [->|].
Qed.

Lemma findStringEnd_closed : findStringEnd text (zlen pre + 1) = Ret (Some (zlen pre + 1 + zlen e)).
Proof.
  unfold findStringEnd. rewrite <- (findStringEnd_from (length text) [] e eq_refl).
  - f_equal. change (zlen []) with 0. lia.
  - unfold text. rewrite length_app. cbn. rewrite length_app. cbn. lia.
Qed.
End Quoted.

(** The text [e] between quotes stands for the string [raw]. *)
Record quotes (e raw : bytes) : Prop := {
  quotes_closed : closed e;
  quotes_lines : Forall (fun c => ~ (10 <= c <= 13)) e;
  quotes_raw : convertStr EscString RawString e = Ret (Some raw)
}.

Lemma crlf_id e : Forall (fun c => ~ (10 <= c <= 13)) e -> crlf e = e.
Proof.
  induction 1 as [|c e Hc _ IH]; [done|]. rewrite crlf_cons, IH.
  assert (isLineEnd c = false) as ->; [|done]. unfold isLineEnd. by zb.
Qed.

Lemma crlf_quote e : Forall (fun c => ~ (10 <= c <= 13)) e -> crlf (quote e) = quote e.
Proof. intros He. unfold quote. rewrite !crlf_app, (crlf_id e) by done. done. Qed.

Lemma cleans_quoted e raw : quotes e raw -> cleans (crlf (quote e)) [34; 34] [raw].
Proof.
  intros [Hc Hl Hr]. rewrite crlf_quote by done. apply cleans_round; [done|]. intros pre post Hz. unfold quote in *.
  assert (Et : pre ++ ([34] ++ e ++ [34]) ++ post = pre ++ 34 :: e ++ 34 :: post) by (by rewrite <- !app_assoc).
  rewrite Et in *. unfold cleanStep. rewrite vget_here. cbn [obind Z.eqb Pos.eqb orb]. change (34 =? char "/") with false.
  rewrite findStringEnd_closed by done. cbn [obind default from_option]. unfold id.
  rewrite zlen_app, zlen_cons, zlen_app, zlen_cons in Hz.
  pose proof (zlen_nonneg pre). pose proof (zlen_nonneg e). pose proof (zlen_nonneg post).
  assert (substr (pre ++ 34 :: e ++ 34 :: post) (zlen pre + 1) (u64 (zlen pre + 1 + zlen e - (zlen pre + 1))) = Ret e) as ->.
  { unfold substr, u64. rewrite zlen_app, zlen_cons, zlen_app, zlen_cons.
    destruct (Z.gtb_spec (zlen pre + 1) (zlen pre + (1 + (zlen e + (1 + zlen post))))); [lia|].
    rewrite Z.mod_small by lia. rewrite Z.min_l by lia. f_equal.
    replace (zlen pre + 1 + zlen e - (zlen pre + 1)) with (zlen e) by lia.
    rewrite (cons_middle 34 pre), app_assoc.
    replace (Z.to_nat (zlen pre + 1)) with (length (pre ++ [34])) by (rewrite length_app; unfold zlen; cbn; lia).
    rewrite drop_app_length. unfold zlen. rewrite Nat2Z.id. by rewrite take_app_length. }
  cbn [obind]. rewrite Hr. cbn [obind default from_option]. unfold id, u64. rewrite Z.mod_small by lia.
  do 2 f_equal. rewrite !zlen_app. change (zlen [34]) with 1. lia.
Qed.

(** ** Texts that can be quoted *)

(** A string of a map: bytes without NUL. *)
Definition isRaw (raw : bytes) : Prop := Forall raw_char raw.

Definition escape (raw : bytes) : bytes := encode esc_chunk [] raw.

Lemma escaped_escape raw : escaped (Some raw) = Ret (Some (escape raw)).
Proof. unfold escaped, convertStr. cbn [obind]. by rewrite makeEscStr_encode. Qed.

Lemma hex_digit_bounds d : 0 <= d < 16 -> 48 <= hex_digit d <= 70.
Proof. intros Hd. unfold hex_digit. destruct (Z.gtb_spec d 9); lia. Qed.

(** What a chunk is made of. *)
Lemma esc_chunk_spec pre c rest : raw_char c ->
  Forall (fun x => ~ (10 <= x <= 13)) (esc_chunk pre c rest) /\
  (forall i, esc_chunk pre c rest !! i = Some 34 -> exists j, i = S j /\ esc_chunk pre c rest !! j = Some 92) /\
  (last (esc_chunk pre c rest) = Some 92 -> c = 92) /\ esc_chunk pre c rest <> [].
Proof.
  intros [Hc H0]. unfold is_u in Hc. change (2 ^ 8) with 256 in Hc.
  pose proof (hex_digit_bounds (c / 16) ltac:(split; [apply Z.div_pos | apply Z.div_lt_upper_bound]; lia)) as H1.
  pose proof (hex_digit_bounds (c mod 16) ltac:(apply Z.mod_pos_bound; lia)) as H2.
  unfold esc_chunk, needs_hex. zb; cbn [orb andb];
    (split_and!; [repeat (apply Forall_cons_2; [lia|]); apply Forall_nil_2 | | cbn; intros E; first [lia | injection E; lia] | done]);
    intros [|[|[|[|i]]]] E; cbn in E; simplify_eq; try lia; try (eexists; split; reflexivity).
Qed.

Lemma encode_closed pre raw : isRaw raw -> last raw <> Some 92 -> closed (encode esc_chunk pre raw).
Proof.
  revert pre. induction raw as [|c raw IH]; intros pre Hr Hl; [by split|].
  apply Forall_cons in Hr as [Hc Hr]. cbn [encode].
  destruct (esc_chunk_spec pre c raw Hc) as (_ & Hq & Hlast & Hne).
  assert (IH' : closed (encode esc_chunk (pre ++ [c]) raw)).
  { apply IH; [done|]. intros E. apply Hl. by destruct raw. }
  destruct IH' as [IHq IHl]. split.
  - intros i Hi. apply lookup_app_Some in Hi as [Hi|[Hge Hi]].
    + destruct (Hq i Hi) as (j & -> & Hj). exists j. split; [done|].
      rewrite lookup_app_l; [done|]. by eapply lookup_lt_Some.
    + destruct (IHq _ Hi) as (j & Hj & E). exists (length (esc_chunk pre c raw) + j)%nat. split; [lia|].
      rewrite lookup_app_r by lia. by replace (_ + j - _)%nat with j by lia.
  - destruct raw as [|d raw].
    + cbn [encode]. rewrite app_nil_r. intros E. apply Hlast in E as ->. done.
    + rewrite last_app. cbn [encode] in *.
      destruct (esc_chunk_spec (pre ++ [c]) d raw) as (_ & _ & _ & Hne').
      { by apply Forall_cons in Hr as [? _]. }
      destruct (last (esc_chunk (pre ++ [c]) d raw ++ _)) eqn:E; [done|].
      apply last_None, app_eq_nil in E as [? _]. done.
Qed.

Lemma encode_lines pre raw : isRaw raw -> Forall (fun c => ~ (10 <= c <= 13)) (encode esc_chunk pre raw).
Proof.
  revert pre. induction raw as [|c raw IH]; intros pre Hr; [constructor|]. apply Forall_cons in Hr as [Hc Hr].
  cbn [encode]. apply Forall_app. split; [by apply esc_chunk_spec | by apply IH].
Qed.

(** An escaped string is read back, when it does not end in a backslash. *)
Lemma quotes_escape raw : isRaw raw -> last raw <> Some 92 -> quotes (escape raw) raw.
Proof.
  intros Hr Hl. split; [by apply encode_closed | by apply encode_lines |].
  unfold convertStr, parseEscStr, escape.
  by rewrite (parse_encoded _ _ _ _ raw parseEscStr_ref esc_decodes Hr).
Qed.

(** Characters that stand for themselves between quotes. *)
Definition verbatim (c : Z) : Prop := c <> 0 /\ c <> 34 /\ c <> 92 /\ ~ (10 <= c <= 13).

Lemma encode_id (chunk : list Z -> Z -> list Z -> list Z) pre raw :
  (forall p c r, chunk p c r = [c]) -> encode chunk pre raw = raw.
Proof. intros Hc. revert pre. induction raw as [|c raw IH]; intros pre; [done|]. cbn [encode]. by rewrite Hc, IH. Qed.

Lemma quotes_verbatim e : Forall verbatim e -> quotes e e.
Proof.
  intros He. split.
  - split.
    + intros i Hi. eapply Forall_lookup_1 in He; [|exact Hi]. by destruct He as (_ & ? & _).
    + intros Hl. apply last_Some in Hl as (k & ->). apply Forall_app in He as [_ He].
      apply Forall_cons in He as [(_ & _ & ? & _) _]. done.
  - eapply Forall_impl; [exact He|]. intros c (_ & _ & _ & ?). done.
  - unfold convertStr, parseEscStr.
    pose proof (parse_encoded _ _ (fun _ c _ => [c]) verbatim e parseEscStr_ref) as Hp.
    rewrite (encode_id (fun _ c _ => [c])) in Hp by done.
    rewrite Hp; [done| |done]. intros _ c _ (H0 & _ & H92 & _). exists c, []. split; [done|]. intros suf. cbn.
    by rewrite (proj2 (Z.eqb_neq c 92)), (proj2 (Z.eqb_neq c 0)).
Qed.
