(* ===== verification/TextTrigTokens.v ===== *)
(** The words of generated text as the compiler reads them: numbers in the
    three bases, keywords, and quoted texts, each wherever it is in the text. *)
From stdpp Require Import strings.
From S2P Require Import Prelude Codec ChkTypes Accessors EscapeStrings EscapeProps TextLib TextTrigNames TextTrigArgs TextTrigParser TextTrigProps ScNames TextTrigGenerator TextTrigClean.
Import Generator.
Open Scope Z_scope.

(** ** Digits *)

Lemma decimal_radix fuel n acc : decimal_loop fuel n acc = radix_loop 10 fuel n acc.
Proof.
  revert n acc. induction fuel as [|fuel IH]; intros n acc; [done|]. cbn [decimal_loop radix_loop].
  assert (hex_digit (n mod 10) = 48 + n mod 10) as ->.
  { pose proof (Z.mod_pos_bound n 10 ltac:(lia)). unfold hex_digit. destruct (Z.gtb_spec (n mod 10) 9); lia. }
  destruct (n <? 10); [done|]. apply IH.
Qed.

Definition isDigitOf (base c : Z) : Prop := exists d, 0 <= d < base /\ c = hex_digit d.

Lemma digitValue_hex base d : 0 <= d < base -> base <= 16 -> digitValue base (hex_digit d) = Some d.
Proof.
  intros Hd Hb. assert (Hv : digitValue base (hex_digit d) = if d <? base then Some d else None).
  { assert (Hin : d ∈ [0; 1; 2; 3; 4; 5; 6; 7; 8; 9; 10; 11; 12; 13; 14; 15])
      by (change (d ∈ range 0 16); apply elem_of_range; lia).
    rewrite !elem_of_cons in Hin. repeat (destruct Hin as [->|Hin]; [reflexivity|]). by apply not_elem_of_nil in Hin. }
  rewrite Hv. by rewrite (proj2 (Z.ltb_lt _ _)) by lia.
Qed.

(** The digits of [n]. *)
Record numeral (base n : Z) (ds : bytes) : Prop := {
  numeral_digits : Forall (isDigitOf base) ds;
  numeral_value : forall a r, digits base a (ds ++ r) = digits base (a * base ^ zlen ds + n) r;
  numeral_head : exists c r, ds = c :: r /\ (c = 48 -> n = 0 /\ r = []) /\ (n = 0 -> c = 48);
  numeral_length : forall k, 0 < k -> n < base ^ k -> zlen ds <= k
}.

Lemma radix_loop_numeral base fuel : forall n acc,
  2 <= base <= 16 -> 0 <= n -> (0 < fuel)%nat -> n < base ^ Z.of_nat fuel ->
  exists ds, radix_loop base fuel n acc = ds ++ acc /\ numeral base n ds.
Proof.
  induction fuel as [|fuel IH]; intros n acc Hb Hn Hf Hlt; [lia|]. cbn [radix_loop].
  pose proof (Z.mod_pos_bound n base ltac:(lia)) as Hm.
  destruct (Z.ltb_spec n base) as [Hs|Hs].
  - rewrite Z.mod_small by lia. exists [hex_digit n]. split; [done|]. split.
    + apply Forall_singleton. exists n. split; [lia|done].
    + intros a r. cbn [app digits]. rewrite digitValue_hex by lia. change (zlen [hex_digit n]) with 1. by rewrite Z.pow_1_r.
    + exists (hex_digit n), []. unfold hex_digit. split_and!; [done| |by intros ->]. intros E. split; [|done].
      destruct (Z.gtb_spec n 9); lia.
    + intros k Hk _. change (zlen [hex_digit n]) with 1. lia.
  - assert (Hq : 0 < n / base) by (apply Z.div_str_pos; lia).
    assert (Hfuel : (0 < fuel)%nat).
    { destruct fuel; [|lia]. change (Z.of_nat 1) with 1 in Hlt. rewrite Z.pow_1_r in Hlt. lia. }
    destruct (IH (n / base) (hex_digit (n mod base) :: acc)) as (ds & -> & Hds); [lia..| |].
    { apply Z.div_lt_upper_bound; [lia|]. rewrite Nat2Z.inj_succ, Z.pow_succ_r in Hlt by lia. lia. }
    destruct Hds as [Hd Hv (c & r & -> & Hc & _) Hl].
    exists ((c :: r) ++ [hex_digit (n mod base)]). split; [by rewrite <- app_assoc|]. split.
    + apply Forall_app. split; [done|]. apply Forall_singleton. eexists. split; [exact Hm|done].
    + intros a r'. rewrite <- app_assoc, Hv. cbn [app digits]. rewrite digitValue_hex by lia.
      assert ((a * base ^ zlen (c :: r) + n / base) * base + n mod base
              = a * base ^ zlen ((c :: r) ++ [hex_digit (n mod base)]) + n) as ->; [|done].
      rewrite zlen_app. change (zlen [hex_digit (n mod base)]) with 1.
      rewrite Z.pow_add_r by (try apply zlen_nonneg; lia). rewrite Z.pow_1_r.
      pose proof (Z.div_mod n base ltac:(lia)). lia.
    + exists c, (r ++ [hex_digit (n mod base)]). split_and!; [done| |lia]. intros E. destruct (Hc E). lia.
    + intros k Hk Hnk. rewrite zlen_app. change (zlen [hex_digit (n mod base)]) with 1.
      enough (zlen (c :: r) <= k - 1) by lia.
      assert (1 < k). { destruct (Z.eq_dec k 1) as [->|]; [rewrite Z.pow_1_r in Hnk; lia | lia]. }
      apply Hl; [lia|]. apply Z.div_lt_upper_bound; [lia|].
      rewrite <- Z.pow_succ_r by lia. by replace (Z.succ (k - 1)) with k by lia.
Qed.

Lemma to_string_numeral n : 0 <= n < 10 ^ 20 -> numeral 10 n (to_string n).
Proof.
  intros Hn. unfold to_string. destruct (Z.ltb_spec n 0); [lia|]. rewrite decimal_radix.
  destruct (radix_loop_numeral 10 20 n []) as (ds & -> & H'); [lia..|]. by rewrite app_nil_r.
Qed.
Lemma to_binary_numeral n : 0 <= n < 2 ^ 32 -> numeral 2 n (to_binary n).
Proof.
  intros Hn. unfold to_binary. destruct (radix_loop_numeral 2 32 n []) as (ds & -> & H'); [lia..|]. by rewrite app_nil_r.
Qed.
Lemma hex_numeral n : 0 <= n < 2 ^ 32 -> numeral 16 n (radix_loop 16 8 n []).
Proof.
  intros Hn. destruct (radix_loop_numeral 16 8 n []) as (ds & -> & H'); [lia..|]. by rewrite app_nil_r.
Qed.

(** ** Numbers *)

Lemma digit_char base c : base <= 16 -> isDigitOf base c -> 48 <= c <= 57 \/ 65 <= c <= 70.
Proof. intros Hb (d & Hd & ->). unfold hex_digit. destruct (Z.gtb_spec d 9); lia. Qed.

Lemma until_nul_id s : Forall (fun c => c <> 0) s -> until_nul s = s.
Proof.
  induction 1 as [|c s Hc _ IH]; [done|]. cbn [until_nul]. by rewrite (proj2 (Z.eqb_neq c 0)), IH.
Qed.

Lemma strtoll_digits base ds : 2 <= base <= 16 -> Forall (isDigitOf base) ds -> ds <> [] ->
  strtoll base ds = Some (digits base 0 ds).
Proof.
  intros Hb Hd Hne.
  assert (Hc : Forall (fun c => 48 <= c <= 57 \/ 65 <= c <= 70) ds).
  { eapply Forall_impl; [exact Hd|]. intros c. apply digit_char. lia. }
  unfold strtoll. rewrite until_nul_id by (eapply Forall_impl; [exact Hc|]; cbn; intros; lia).
  destruct ds as [|c ds]; [done|]. apply Forall_cons in Hd as [(d & Hd0 & ->) Hd]. apply Forall_cons in Hc as [Hc0 Hc].
  assert (skipSpace (hex_digit d :: ds) = hex_digit d :: ds) as ->.
  { cbn. unfold isSpace. zb; done. }
  assert (Hsign : forall A (x y z : A), match hex_digit d with 45 => x | 43 => y | _ => z end = z).
  { intros. clear -Hc0. revert Hc0. generalize (hex_digit d) as c. intros [|c|c] Hc; try done.
    do 7 (destruct c as [c|c|]; try done; try lia). }
  match goal with |- (let '(negative, s) := ?m in _) = _ => assert (m = (false, hex_digit d :: ds)) as -> end.
  { apply Hsign. }
  match goal with |- match ?m with _ => _ end = _ => assert (m = hex_digit d :: ds) as -> end.
  { destruct ds as [|x ds]; [destruct (hex_digit d) as [|c|c]; try done; by do 7 (destruct c as [c|c|]; try done)|].
    apply Forall_cons in Hc as [Hx _].
    destruct ds as [|y ds]; [destruct (hex_digit d) as [|c|c]; try done; by do 7 (destruct c as [c|c|]; try done)|].
    rewrite (proj2 (Z.eqb_neq x 120)), (proj2 (Z.eqb_neq x 88)) by lia. rewrite andb_false_r. cbn [andb].
    destruct (hex_digit d) as [|c|c]; try done; by do 7 (destruct c as [c|c|]; try done). }
  by rewrite digitValue_hex by lia.
Qed.

Lemma numeral_digits_value base n ds : numeral base n ds -> digits base 0 ds = n.
Proof. intros H. rewrite <- (app_nil_r ds), (numeral_value _ _ _ H). cbn. lia. Qed.
Lemma numeral_nonempty base n ds : numeral base n ds -> ds <> [].
Proof. intros [_ _ (c & r & -> & _) _]. done. Qed.

Lemma strtoll_numeral base n ds : 2 <= base <= 16 -> numeral base n ds -> strtoll base ds = Some n.
Proof.
  intros Hb Hn. rewrite strtoll_digits; [|done|by apply (numeral_digits _ n)|by apply (numeral_nonempty base n)].
  by rewrite (numeral_digits_value _ _ _ Hn).
Qed.

(** A word in the text. *)
Section Here.
Variables (pre tok post : bytes).
Let text := pre ++ tok ++ post.
Hypothesis Hsize : zlen text < 2 ^ 64.

Lemma tok_size : u64 (zlen pre + zlen tok - zlen pre) = zlen tok.
Proof.
  unfold text in Hsize. rewrite !zlen_app in Hsize.
  pose proof (zlen_nonneg pre). pose proof (zlen_nonneg tok). pose proof (zlen_nonneg post).
  unfold u64. rewrite Z.mod_small; lia.
Qed.

Lemma drop_pre : drop (Z.to_nat (zlen pre)) text = tok ++ post.
Proof. unfold zlen. rewrite Nat2Z.id. apply drop_app_length. Qed.

Lemma substr_tok : substr text (zlen pre) (zlen tok) = Ret tok.
Proof.
  unfold substr. assert (Hl : zlen text = zlen pre + zlen tok + zlen post) by (unfold text; rewrite !zlen_app; lia).
  pose proof (zlen_nonneg tok). pose proof (zlen_nonneg post).
  destruct (Z.gtb_spec (zlen pre) (zlen text)); [lia|]. rewrite drop_pre, Z.min_l by lia.
  unfold zlen. rewrite Nat2Z.id. by rewrite take_app_length.
Qed.

Lemma slice_tok : slice text (zlen pre) (zlen tok) = Ret tok.
Proof.
  unfold slice. assert (Hl : zlen text = zlen pre + zlen tok + zlen post) by (unfold text; rewrite !zlen_app; lia).
  pose proof (zlen_nonneg pre). pose proof (zlen_nonneg tok). pose proof (zlen_nonneg post).
  rewrite (proj2 (Z.leb_le 0 _)), (proj2 (Z.leb_le _ (zlen text + 1))) by lia. cbn [andb].
  unfold zlen. rewrite !Nat2Z.id. unfold text. rewrite <- app_assoc, drop_app_length, <- app_assoc. by rewrite take_app_length.
Qed.
End Here.

Lemma sget_tok pre c (tok post : bytes) : sget (pre ++ (c :: tok) ++ post) (zlen pre) = Ret c.
Proof. apply sget_at0. Qed.

(** [parseNumber] of the digits of a number of its width. *)
Lemma parseNumber_reads bits limit pre post n dest :
  zlen (pre ++ to_string n ++ post) < 2 ^ 64 -> 0 <= n < 2 ^ bits -> 2 ^ bits <= 10 ^ (limit - 1) -> 1 < limit <= 20 ->
  parseNumber bits limit (pre ++ to_string n ++ post) dest (zlen pre) (zlen pre + zlen (to_string n)) = Ret (true, n).
Proof.
  intros Hz Hn Hbits Hlimit.
  assert (Hn20 : n < 10 ^ 20) by (pose proof (Z.pow_le_mono_r 10 (limit - 1) 20 ltac:(lia) ltac:(lia)); lia).
  pose proof (to_string_numeral n ltac:(lia)) as Hnum. revert Hz Hnum. generalize (to_string n) as ds. intros ds Hz Hnum.
  unfold parseNumber. rewrite (tok_size pre ds post) by done.
  pose proof (numeral_length _ _ _ Hnum (limit - 1) ltac:(lia) ltac:(lia)) as Hlen.
  rewrite (proj2 (Z.ltb_lt (zlen ds) limit)) by lia.
  destruct (numeral_head _ _ _ Hnum) as (c & r & -> & Hc & Hz0).
  assert (Hfirst : (if (zlen (c :: r) =? 1) || (zlen (c :: r) >? 2)
                    then sget (pre ++ (c :: r) ++ post) (zlen pre) else Ret 0) = Ret (if zlen r =? 1 then 0 else c)).
  { rewrite sget_tok, zlen_cons. pose proof (zlen_nonneg r). rewrite Z.gtb_ltb. zb; cbn [orb]; try done; lia. }
  rewrite Hfirst. cbn [obind]. rewrite slice_tok. cbn [obind].
  assert (Hatoi : (atoi (c :: r)) mod 2 ^ bits = n).
  { unfold atoi. rewrite (strtoll_numeral 10 n) by (done || lia). cbn. by apply Z.mod_small. }
  destruct (Z.eqb_spec c 48) as [->|Hc48].
  - destruct (Hc eq_refl) as [-> ->]. done.
  - assert (((if zlen r =? 1 then 0 else c) =? 48) = false) as -> by (destruct (zlen r =? 1); [done | by apply Z.eqb_neq]).
    rewrite !andb_false_r. cbn [obind]. rewrite Hatoi.
    assert (0 < n) by (destruct (Z.eq_dec n 0); [by destruct Hc48; apply Hz0 | lia]).
    rewrite (proj2 (Z.gtb_lt n 0)) by lia. done.
Qed.

(** ** Parsers *)

(** A parser at a word of the text, with the quoted texts from [nextString] on. *)
Definition family : Type := bytes -> list bytes -> Z -> Z -> parser Z.

(** The parser takes the word [tok], whose quoted texts are [ss], and gives
    [f dest]; the tables are [c] before and [c'] after. *)
Definition reads (p : family) (tok : bytes) (ss : list bytes) (f : Z -> Z) (c c' : TextTrigCompiler) : Prop :=
  forall pre post S0 S1 dest, zlen (pre ++ tok ++ post) < 2 ^ 64 ->
    p (pre ++ tok ++ post) (S0 ++ ss ++ S1) (zlen pre) (zlen pre + zlen tok) dest (mkCursor (zlen S0) c) =
    Ret (true, f dest, mkCursor (zlen S0 + zlen ss) c').

(** The parser does not take the word; its destination may have changed. *)
Definition rejects (p : family) (tok : bytes) : Prop :=
  forall pre post ss dest cur, zlen (pre ++ tok ++ post) < 2 ^ 64 ->
    exists d, p (pre ++ tok ++ post) ss (zlen pre) (zlen pre + zlen tok) dest cur = Ret (false, d, cur).

Definition either (p q : family) : family := fun text ss a b => p text ss a b ||| q text ss a b.

Lemma reads_left p q tok ss f c c' : reads p tok ss f c c' -> reads (either p q) tok ss f c c'.
Proof. intros Hp pre post S0 S1 dest Hz. unfold either, orElse. by rewrite Hp. Qed.
Lemma reads_right p q tok ss v c c' :
  rejects p tok -> reads q tok ss (fun _ => v) c c' -> reads (either p q) tok ss (fun _ => v) c c'.
Proof.
  intros Hp Hq pre post S0 S1 dest Hz. unfold either, orElse.
  destruct (Hp pre post (S0 ++ ss ++ S1) dest (mkCursor (zlen S0) c) Hz) as [d ->]. cbn [obind]. by apply Hq.
Qed.

(** The overloads for a wider destination. *)
Definition wide (p : family) : family := fun text ss a b => widened (p text ss a b).
Lemma reads_wide p tok ss v c c' : reads p tok ss (fun _ => v) c c' -> reads (wide p) tok ss (fun _ => v) c c'.
Proof. intros Hp pre post S0 S1 dest Hz. unfold wide, widened. by apply Hp. Qed.
Lemma rejects_wide p tok : rejects p tok -> rejects (wide p) tok.
Proof. intros Hp pre post ss dest cur Hz. unfold wide, widened. by apply Hp. Qed.

Definition longs : family := fun text _ a b => TextTrigArgs.long text a b.
Definition shorts : family := fun text _ a b => TextTrigArgs.short text a b.
Definition bytes_ : family := fun text _ a b => TextTrigArgs.byte text a b.

Lemma number_reads bits limit n c :
  0 <= n < 2 ^ bits -> 2 ^ bits <= 10 ^ (limit - 1) -> 1 < limit <= 20 ->
  reads (fun text _ a b => numeric (fun d => parseNumber bits limit text d a b)) (to_string n) [] (fun _ => n) c c.
Proof.
  intros Hn Hb Hl pre post S0 S1 dest Hz. unfold numeric. rewrite parseNumber_reads by done. cbn.
  change (zlen []) with 0. by rewrite Z.add_0_r.
Qed.
Lemma long_reads n c : is_u 32 n -> reads longs (to_string n) [] (fun _ => n) c c.
Proof. intros Hn. by apply (number_reads 32 12). Qed.
Lemma short_reads n c : is_u 16 n -> reads shorts (to_string n) [] (fun _ => n) c c.
Proof. intros Hn. by apply (number_reads 16 7). Qed.
Lemma byte_reads n c : is_u 8 n -> reads bytes_ (to_string n) [] (fun _ => n) c c.
Proof. intros Hn. by apply (number_reads 8 5). Qed.

(** ** Keywords *)

(** A word of capital letters and other characters without blanks. *)
Definition bareChar (c : Z) : Prop :=
  upper c = c /\ c ∉ [0; 9; 10; 32; 40; 41; 44; 58; 59; 123; 125].
Definition bare (tok : bytes) : Prop := tok <> [] /\ Forall bareChar tok.

#[global] Instance bareChar_dec c : Decision (bareChar c).
Proof. unfold bareChar. apply _. Defined.
#[global] Instance bare_dec tok : Decision (bare tok).
Proof. unfold bare. apply _. Defined.

Lemma bareChar_range c : bareChar c -> c <> 0 /\ c <> 10 /\ c <> 32 /\ c <> 40 /\ c <> 41 /\ c <> 44 /\ c <> 58 /\ c <> 59.
Proof. intros [_ Hc]. rewrite !not_elem_of_cons in Hc. naive_solver. Qed.

Lemma copy_word tok : Forall bareChar tok -> forall d1 m, (length tok <= m)%nat ->
  for_each (fun c (st : bytes * Z) =>
      let '(dest, at_) := st in
      if c =? 32 then Ret (dest, at_)
      else let* dest := vset dest at_ (upper c) in Ret (dest, at_ + 1)) tok (d1 ++ replicate m 0, zlen d1) =
  Ret (d1 ++ tok ++ replicate (m - length tok) 0, zlen d1 + zlen tok).
Proof.
  induction 1 as [|c tok Hc _ IH]; intros d1 m Hm.
  - cbn [for_each length app]. rewrite Nat.sub_0_r. change (zlen []) with 0. by rewrite Z.add_0_r.
  - cbn [for_each]. pose proof (bareChar_range c Hc) as (_ & _ & H32 & _). destruct Hc as [Hu _].
    rewrite (proj2 (Z.eqb_neq c 32)), Hu by done. destruct m as [|m]; [cbn in Hm; lia|].
    rewrite vset_in by (rewrite zlen_app; pose proof (zlen_nonneg d1); cbn [replicate]; rewrite zlen_cons;
                        pose proof (zlen_nonneg (replicate m 0)); lia).
    cbn [obind]. unfold zlen at 1. rewrite Nat2Z.id.
    replace (length d1) with (length d1 + 0)%nat at 1 by lia. rewrite insert_app_r. cbn [replicate insert list_insert].
    rewrite (cons_middle c d1), app_assoc.
    replace (zlen d1 + 1) with (zlen (d1 ++ [c])) by (by rewrite zlen_app).
    rewrite IH by (cbn in Hm; lia). rewrite <- app_assoc, zlen_app, !zlen_cons. change (zlen []) with 0.
    cbn [length app Nat.sub]. do 2 f_equal. lia.
Qed.

Lemma keywordText_word n pre tok post ss cur :
  zlen (pre ++ tok ++ post) < 2 ^ 64 -> bare tok -> head tok <> Some 34 -> (length tok < n)%nat ->
  keywordText (pre ++ tok ++ post) ss n (zlen pre) (zlen pre + zlen tok) cur = Ret (tok, cur).
Proof.
  intros Hz [Hne Hb] Hq Hn. unfold keywordText, quotedAt. rewrite (tok_size pre tok post) by done.
  destruct tok as [|c tok]; [done|]. rewrite sget_tok. cbn [obind].
  rewrite (proj2 (Z.eqb_neq c 34)) by (intros ->; done). rewrite slice_tok. cbn [obind].
  unfold copyUpperCaseNoSpace. pose proof (copy_word _ Hb [] n ltac:(lia)) as Hcopy.
  rewrite !app_nil_l in Hcopy. change (zlen []) with 0 in Hcopy. rewrite Hcopy. cbn [obind].
  rewrite vset_in by (rewrite zlen_app; unfold zlen; rewrite length_replicate; lia). cbn [obind].
  unfold zlen. rewrite Nat2Z.id. replace (length (c :: tok)) with (length (c :: tok) + 0)%nat at 1 by lia.
  rewrite (insert_app_r (c :: tok)). destruct (n - length (c :: tok))%nat as [|k] eqn:Ek; [lia|].
  cbn [replicate insert list_insert].
  assert (Hnul : forall s k, Forall (fun c => c <> 0) s -> until_nul (s ++ 0 :: replicate k 0) = s).
  { clear. intros s k Hs. induction Hs as [|x s Hx _ IH]; [done|]. cbn [until_nul app].
    by rewrite (proj2 (Z.eqb_neq x 0)), IH. }
  rewrite Hnul; [done|]. eapply Forall_impl; [exact Hb|]. intros x Hx. by apply bareChar_range in Hx as (? & _).
Qed.

(** A word among the keywords, or not. *)
Lemma keyword_reads n words tok i w c :
  bare tok -> head tok <> Some 34 -> (length tok < n)%nat ->
  list_find (fun w : string * (Z -> Z) => lit w.1 = tok) words = Some (i, w) ->
  reads (fun text ss => keyword text ss n words) tok [] w.2 c c.
Proof.
  intros Hb Hq Hn Hw pre post S0 S1 dest Hz. unfold keyword. rewrite keywordText_word by done. cbn [obind]. rewrite Hw.
  change (zlen []) with 0. by rewrite Z.add_0_r.
Qed.
Lemma keyword_rejects n words tok :
  bare tok -> head tok <> Some 34 -> (length tok < n)%nat ->
  list_find (fun w : string * (Z -> Z) => lit w.1 = tok) words = None ->
  rejects (fun text ss => keyword text ss n words) tok.
Proof.
  intros Hb Hq Hn Hw pre post ss dest cur Hz. unfold keyword. rewrite keywordText_word by done. cbn [obind]. rewrite Hw. by exists dest.
Qed.

(** ** What the generator writes *)

(** The text [s] is cleaned to the word [tok]. *)
Record says (s tok : bytes) : Prop := {
  says_plain : plain s = Some tok;
  says_bare : bare tok;
  says_open : head tok <> Some 34
}.

Lemma digit_facts base c : base <= 16 -> isDigitOf base c -> isPlain c = true /\ bareChar c /\ c <> 34 /\ upper c = c.
Proof.
  intros Hb Hc. apply digit_char in Hc; [|done].
  assert (Hu : upper c = c) by (unfold upper, isLower; zb; done).
  split_and!; [|split|lia|]; try done.
  - unfold isPlain, isLineEnd. zb; done.
  - rewrite !not_elem_of_cons. split_and!; try lia. apply not_elem_of_nil.
Qed.

Lemma plain_digits base ds : base <= 16 -> Forall (isDigitOf base) ds -> plain ds = Some ds.
Proof.
  intros Hb. induction 1 as [|c ds Hc _ IH]; [done|]. cbn [plain]. rewrite IH.
  destruct (digit_facts base c Hb Hc) as (Hp & _ & _ & ->). pose proof (isPlain_spec c Hp) as (? & ? & ? & ? & _).
  rewrite Hp. unfold isLineEnd. zb; cbn [orb andb]; done.
Qed.

Lemma digits_say base ds : base <= 16 -> ds <> [] -> Forall (isDigitOf base) ds -> says ds ds.
Proof.
  intros Hb Hne Hd. split.
  - by apply (plain_digits base).
  - split; [done|]. eapply Forall_impl; [exact Hd|]. intros c Hc. by destruct (digit_facts base c Hb Hc) as (_ & ? & _).
  - destruct Hd as [|c ds Hc]; [done|]. cbn. apply (digit_facts base) in Hc as (_ & _ & ? & _); [congruence|done].
Qed.

Lemma number_says n : 0 <= n < 10 ^ 20 -> says (to_string n) (to_string n).
Proof.
  intros Hn. pose proof (to_string_numeral n Hn) as Hnum.
  apply (digits_say 10); [lia|by apply (numeral_nonempty 10 n)|by apply (numeral_digits 10 n)].
Qed.

Lemma number_length n k : 0 <= n < 10 ^ Z.of_nat k -> (0 < k <= 20)%nat -> (length (to_string n) <= k)%nat.
Proof.
  intros Hn Hk. assert (n < 10 ^ 20) by (pose proof (Z.pow_le_mono_r 10 (Z.of_nat k) 20 ltac:(lia) ltac:(lia)); lia).
  pose proof (numeral_length _ _ _ (to_string_numeral n ltac:(lia)) (Z.of_nat k) ltac:(lia) ltac:(lia)) as Hl.
  unfold zlen in Hl. lia.
Qed.

(** Keywords with the values they stand for. *)
Definition constants (ws : list (string * Z)) : list (string * (Z -> Z)) := (fun w => (w.1, to w.2)) <$> ws.

Definition keywords_ok (ws : list (string * Z)) : bool :=
  forallb (fun w => match lit w.1 with c :: _ => negb ((48 <=? c) && (c <=? 57)) | [] => false end) ws.

(** Each entry of the table is a keyword for its index or the number itself. *)
Definition table_ok (n : nat) (ws : list (string * Z)) (table : list bytes) : bool :=
  forallb (fun p : nat * bytes =>
    match plain p.2 with
    | None => false
    | Some tok =>
        bool_decide (bare tok /\ head tok <> Some 34 /\ (length tok < n)%nat) &&
        match list_find (fun w : string * Z => lit w.1 = tok) ws with
        | Some (_, w) => w.2 =? Z.of_nat p.1
        | None => bool_decide (tok = to_string (Z.of_nat p.1))
        end
    end) (imap pair table).

Lemma find_constants ws tok : list_find (fun w : string * (Z -> Z) => lit w.1 = tok) (constants ws) =
  prod_map id (fun w : string * Z => (w.1, to w.2)) <$> list_find (fun w : string * Z => lit w.1 = tok) ws.
Proof. unfold constants. by rewrite list_find_fmap. Qed.

Lemma keywords_not_number ws v : keywords_ok ws = true -> 0 <= v < 10 ^ 20 ->
  list_find (fun w : string * Z => lit w.1 = to_string v) ws = None.
Proof.
  intros Hk Hv. apply list_find_None, Forall_forall. intros w Hw E.
  unfold keywords_ok in Hk. rewrite forallb_forall in Hk. specialize (Hk w). rewrite <- list_elem_of_In in Hk.
  specialize (Hk Hw). rewrite E in Hk. pose proof (to_string_numeral v Hv) as [Hd _ (c & r & Ec & _) _].
  rewrite Ec in Hk, Hd. apply Forall_cons in Hd as [(d & Hd & ->) _]. unfold hex_digit in Hk.
  destruct (Z.gtb_spec d 9); [lia|]. apply negb_true_iff, andb_false_iff in Hk as [Hk|Hk]; apply Z.leb_gt in Hk; lia.
Qed.

Lemma value_reads n ws table (k : family -> family) number v s :
  (forall p tok w c, reads p tok [] (fun _ => w) c c -> reads (k p) tok [] (fun _ => w) c c) ->
  (forall p tok, rejects p tok -> rejects (k p) tok) ->
  keywords_ok ws = true -> table_ok n ws table = true ->
  0 <= v < 10 ^ 20 -> (length (to_string v) < n)%nat -> (forall c, reads number (to_string v) [] (fun _ => v) c c) ->
  entry table v = Ret s ->
  exists tok, says s tok /\
    forall c, reads (either (k (fun text ss => keyword text ss n (constants ws))) number) tok [] (fun _ => v) c c.
Proof.
  intros Hreads Hrejects Hk Ht Hv Hlen Hnum Hs.
  assert (Hdigits : says (to_string v) (to_string v) /\
    forall c, reads (either (k (fun text ss => keyword text ss n (constants ws))) number) (to_string v) [] (fun _ => v) c c).
  { pose proof (number_says v Hv) as Hsay. split; [done|]. intros c. destruct Hsay. apply reads_right; [|done].
    apply Hrejects, keyword_rejects; [done..|]. by rewrite find_constants, keywords_not_number. }
  unfold entry in Hs. destruct (Z.ltb_spec v (zlen table)); [|injection Hs as <-; by exists (to_string v)].
  destruct (vget_in table v ltac:(lia)) as (s' & Hl & E). rewrite E in Hs. injection Hs as ->.
  unfold table_ok in Ht. rewrite forallb_forall in Ht. specialize (Ht (Z.to_nat v, s)).
  rewrite <- list_elem_of_In in Ht. specialize (Ht ltac:(apply list_elem_of_lookup_2 with (Z.to_nat v); by rewrite list_lookup_imap, Hl)).
  cbn [fst snd] in Ht. destruct (plain s) as [tok|] eqn:Ep; [|done].
  apply andb_prop in Ht as [Hb Hw]. apply bool_decide_eq_true in Hb as (Hb & Hq & Hn).
  rewrite Z2Nat.id in Hw by lia.
  destruct (list_find _ ws) as [[i w]|] eqn:Ef.
  - exists tok. split; [by split|]. intros c. apply reads_left, Hreads. apply Z.eqb_eq in Hw. rewrite <- Hw.
    apply (keyword_reads n (constants ws) tok i (w.1, to w.2) c Hb Hq Hn). by rewrite find_constants, Ef.
  - apply bool_decide_eq_true in Hw as ->. exists (to_string v). split; [by split|]. apply Hdigits.
Qed.

(** ** Addresses and flags *)

Lemma slice_rest pre a (tok post : bytes) : slice (pre ++ (a ++ tok) ++ post) (zlen pre + zlen a) (zlen tok) = Ret tok.
Proof.
  rewrite <- app_assoc, (app_assoc pre), <- zlen_app. apply slice_tok.
Qed.

Lemma parseLong_hex pre post n dest :
  let tok := lit "0X" ++ radix_loop 16 8 n [] in
  zlen (pre ++ tok ++ post) < 2 ^ 64 -> is_u 32 n ->
  parseLong (pre ++ tok ++ post) dest (zlen pre) (zlen pre + zlen tok) = Ret (true, n).
Proof.
  cbv zeta. intros Hz Hn. unfold is_u in Hn. pose proof (hex_numeral n Hn) as Hnum. revert Hz Hnum.
  generalize (radix_loop 16 8 n []) as ds. intros ds Hz Hnum.
  unfold parseLong, parseNumber. rewrite (tok_size pre (lit "0X" ++ ds) post) by done.
  pose proof (numeral_length _ _ _ Hnum 8 ltac:(lia) ltac:(lia)) as Hlen.
  assert (Hpos : 0 < zlen ds). { destruct (numeral_head _ _ _ Hnum) as (c & r & -> & _). rewrite zlen_cons. pose proof (zlen_nonneg r). lia. }
  rewrite zlen_app. change (zlen (lit "0X")) with 2.
  rewrite (proj2 (Z.ltb_lt (2 + zlen ds) 12)), (proj2 (Z.gtb_lt (2 + zlen ds) 2)) by lia.
  rewrite (proj2 (Z.eqb_neq (2 + zlen ds) 1)) by lia. cbn [orb].
  change (lit "0X" ++ ds) with (48 :: 88 :: ds). rewrite sget_tok. cbn [obind andb Z.eqb Pos.eqb].
  rewrite <- app_comm_cons, sget_next. change (nth0 ((88 :: ds) ++ post) 0) with 88. cbn [obind Z.eqb Pos.eqb orb].
  change (pre ++ 48 :: (88 :: ds) ++ post) with (pre ++ (lit "0X" ++ ds) ++ post).
  replace (zlen pre + 2) with (zlen pre + zlen (lit "0X")) by done. replace (2 + zlen ds - 2) with (zlen ds) by lia.
  rewrite slice_rest. cbn [obind]. rewrite (strtoll_numeral 16 n) by (done || lia).
  by rewrite Z.mod_small by lia.
Qed.

Lemma hex_says n : is_u 32 n -> says (to_hex_string n) (lit "0X" ++ radix_loop 16 8 n []).
Proof.
  intros Hn. pose proof (hex_numeral n Hn) as Hnum.
  destruct (digits_say 16 _ ltac:(lia) (numeral_nonempty _ _ _ Hnum) (numeral_digits _ _ _ Hnum)) as [Hp [Hne Hb] _].
  split; [|split; [done|]|done].
  - unfold to_hex_string. by apply plain_app.
  - apply Forall_app. split; [|done]. by apply (bool_decide_unpack _).
Qed.

(** The flags of a trigger, 32 digits. *)
Definition flagDigits (flags : Z) : bytes := replicate (32 - length (to_binary flags)) 48 ++ to_binary flags.

Lemma flagDigits_spec flags : 0 < flags < 2 ^ 32 ->
  Forall (isDigitOf 2) (flagDigits flags) /\ length (flagDigits flags) = 32%nat /\ digits 2 0 (flagDigits flags) = flags.
Proof.
  intros Hf. pose proof (to_binary_numeral flags ltac:(lia)) as Hnum. unfold flagDigits.
  pose proof (numeral_length _ _ _ Hnum 32 ltac:(lia) ltac:(lia)) as Hl. unfold zlen in Hl. split_and!.
  - apply Forall_app. split; [|by apply (numeral_digits 2 flags)]. apply Forall_replicate. by exists 0.
  - rewrite length_app, length_replicate. lia.
  - generalize (32 - length (to_binary flags))%nat as k. intros k.
    assert (digits 2 0 (replicate k 48 ++ to_binary flags) = digits 2 0 (to_binary flags)) as ->;
      [by induction k | by apply numeral_digits_value].
Qed.

Lemma forallb_digits base ds : base <= 16 -> Forall (isDigitOf base) ds -> forallb (fun c => c =? 48) ds = true -> digits base 0 ds = 0.
Proof.
  intros Hb. induction 1 as [|c ds Hc Hd IH]; [done|]. cbn [forallb]. intros [->%Z.eqb_eq Hds]%andb_prop.
  destruct Hc as (d & Hd0 & E). cbn [digits]. rewrite E, digitValue_hex by done.
  assert (d = 0) as -> by (unfold hex_digit in E; destruct (Z.gtb_spec d 9); lia). by apply IH.
Qed.

Lemma parseExecutionFlags_reads pre post flags : 0 < flags < 2 ^ 32 ->
  parseExecutionFlags (pre ++ flagDigits flags ++ post) (zlen pre) (zlen pre + zlen (flagDigits flags)) = Ret (true, flags).
Proof.
  intros Hf. destruct (flagDigits_spec flags Hf) as (Hd & Hlen & Hv). revert Hd Hlen Hv.
  generalize (flagDigits flags) as ds. intros ds Hd Hlen Hv. unfold parseExecutionFlags.
  replace (zlen pre + zlen ds - zlen pre) with (zlen ds) by lia. rewrite slice_tok. cbn [obind].
  assert (Hz : zlen ds = 32) by (unfold zlen; lia).
  assert (word ds = ds) as ->.
  { clear Hlen Hv Hz. unfold word. induction Hd as [|c ds Hc _ IH]; [done|].
    destruct (digit_facts 2 c ltac:(lia) Hc) as (Hp & _ & _ & Hu). apply isPlain_spec in Hp.
    rewrite filter_cons_True by naive_solver. rewrite fmap_cons, Hu. by rewrite IH. }
  unfold parseBinaryLong. rewrite Hz. change (u64 (32 - 0)) with 32. cbn [Z.ltb Z.compare Pos.compare Pos.compare_cont Z.eqb].
  pose proof (slice_tok [] ds []) as Hs. cbn [app] in Hs. rewrite app_nil_r in Hs. change (zlen []) with 0 in Hs.
  rewrite <- Hz, Hs. cbn [obind].
  destruct (forallb (fun c => c =? 48) ds) eqn:E.
  { apply (forallb_digits 2) in E; [lia..|done]. }
  rewrite (strtoll_digits 2) by (done || lia || by intros ->). cbn [default from_option]. unfold id.
  rewrite Hv, u32_id by (unfold is_u; lia). by rewrite (proj2 (Z.gtb_lt flags 0)) by lia.
Qed.
