(* ===== verification/TextTrigReads.v ===== *)
(** The arguments of generated text as the compiler reads them back: locations,
    players, units, switches, strings, sounds, scripts, keywords and numbers.
    [knows] says what the tables of the generator and of the compiler have to
    agree on for a name to be read as the id it was printed for. *)
From stdpp Require Import strings.
From S2P Require Import Prelude Codec ChkTypes Accessors TriggerTables Triggers StringTable EscapeStrings EscapeProps TextLib TextTrigNames TextTrigArgs TextTrigParser TextTrigProps ScNames TextTrigGenerator TextTrigClean TextTrigTokens.
Import Generator(quote, quoteIf, entry).
Open Scope Z_scope.

(** ** Marking *)

(** The compiler after strings it knows were used: nodes of strings are marked
    as used, and nothing else has changed. *)
Definition nodeText (n : StringTableNode) : ScStr.ScStr * Z * list Assignee := (scStr n, stringId n, assignees n).
Definition marked (c c' : TextTrigCompiler) : Prop :=
  exists ns, c' = c <| nodes := ns |> /\ nodeText <$> ns = nodeText <$> nodes c.

Lemma marked_refl c : marked c c.
Proof. exists (nodes c). split; [by destruct c | done]. Qed.
Lemma marked_trans c1 c2 c3 : marked c1 c2 -> marked c2 c3 -> marked c1 c3.
Proof.
  intros (n1 & -> & E1) (n2 & -> & E2). exists n2. split; [by destruct c1|]. by rewrite E2, <- E1.
Qed.

(** ** Words *)

(** The text [s] is cleaned to the word [tok] with the quoted texts [ss], which
    [p] reads, giving [f dest], when the names are those of [c0]. *)
Record writes (p : family) (s tok : bytes) (ss : list bytes) (f : Z -> Z) (c0 : TextTrigCompiler) : Prop := {
  writes_lines : 13 ∉ s;
  writes_clean : cleans (crlf s) tok ss;
  writes_bare : bare tok;
  writes_reads : forall c, marked c0 c -> exists c', marked c0 c' /\ reads p tok ss f c c'
}.
Definition written (p : family) (s : bytes) (f : Z -> Z) (c0 : TextTrigCompiler) : Prop :=
  exists tok ss, writes p s tok ss f c0.

Lemma plain_returns s tok : plain s = Some tok -> 13 ∉ s.
Proof.
  revert tok. induction s as [|c s IH]; intros tok Hp; [apply not_elem_of_nil|]. cbn [plain] in Hp.
  destruct (plain s) as [r|] eqn:Er; [|done]. apply not_elem_of_cons. split; [|by apply (IH r)].
  intros <-. done.
Qed.

Lemma says_written p s tok f c0 : says s tok -> (forall c, marked c0 c -> reads p tok [] f c c) -> written p s f c0.
Proof.
  intros [Hp Hb _] Hr. exists tok, []. split; [by eapply plain_returns | by apply cleans_plain | done|]. intros c Hc. exists c. split; [done | by apply Hr].
Qed.

Lemma quoted_written p e raw f c0 : quotes e raw ->
  (forall c, marked c0 c -> exists c', marked c0 c' /\ reads p [34; 34] [raw] f c c') -> written p (quote e) f c0.
Proof.
  intros Hq Hr. exists [34; 34], [raw]. split; [|by apply cleans_quoted| by apply (bool_decide_unpack _) |done].
  destruct Hq as [_ Hl _]. unfold quote. rewrite !elem_of_app, !list_elem_of_singleton.
  intros [?|[Hin|?]]; [done| |done]. rewrite Forall_forall in Hl. apply (Hl 13 Hin). lia.
Qed.

(** ** At a word *)

Lemma quotedAt_quote pre post : quotedAt (pre ++ [34; 34] ++ post) (zlen pre) = Ret true.
Proof. unfold quotedAt. by rewrite sget_tok. Qed.

Lemma quotedAt_word pre tok post : bare tok -> head tok <> Some 34 -> quotedAt (pre ++ tok ++ post) (zlen pre) = Ret false.
Proof.
  intros [Hne _] Hq. destruct tok as [|c tok]; [done|]. unfold quotedAt. rewrite sget_tok. cbn [obind].
  by rewrite (proj2 (Z.eqb_neq c 34)) by (intros ->; done).
Qed.

Lemma takeString_here S0 raw S1 c :
  takeString (S0 ++ [raw] ++ S1) (mkCursor (zlen S0) c) = Ret (raw, mkCursor (zlen S0 + zlen [raw]) c).
Proof.
  unfold takeString. cbn [nextString compiler app].
  assert (vget (S0 ++ raw :: S1) (zlen S0) = Ret raw) as ->; [|done].
  apply vget_Some; [apply zlen_nonneg|]. unfold zlen. rewrite Nat2Z.id. by rewrite lookup_app_r, Nat.sub_diag.
Qed.

Lemma compareAt_word pre tok post w : zlen (pre ++ tok ++ post) < 2 ^ 64 ->
  compareAt (pre ++ tok ++ post) (zlen pre) (u64 (zlen pre + zlen tok - zlen pre)) w = Ret (bool_decide (tok = w)).
Proof. intros Hz. unfold compareAt. rewrite (tok_size pre tok post) by done. by rewrite substr_tok. Qed.

(** The parser takes the quoted text, or the number. *)
Lemma argument_quoted number pre post S0 raw S1 dest c :
  argumentText (pre ++ [34; 34] ++ post) (S0 ++ [raw] ++ S1) true number (zlen pre) (zlen pre + zlen [34; 34]) dest
    (mkCursor (zlen S0) c) = Ret (Some raw, dest, mkCursor (zlen S0 + zlen [raw]) c).
Proof. unfold argumentText. rewrite takeString_here. done. Qed.

Lemma argument_number bits limit n pre post ss dest cur :
  zlen (pre ++ to_string n ++ post) < 2 ^ 64 -> 0 <= n < 2 ^ bits -> 2 ^ bits <= 10 ^ (limit - 1) -> 1 < limit <= 20 ->
  let text := pre ++ to_string n ++ post in let e := zlen pre + zlen (to_string n) in
  argumentText text ss false (fun d => parseNumber bits limit text d (zlen pre) e) (zlen pre) e dest cur = Ret (None, n, cur).
Proof. intros Hz Hn Hb Hl. cbv zeta. unfold argumentText. by rewrite parseNumber_reads by done. Qed.

(** A number is no keyword. *)
Lemma number_word n : 0 <= n < 10 ^ 20 -> forall w c, head (lit w) = Some c -> ~ (48 <= c <= 57) ->
  bool_decide (to_string n = lit w) = false.
Proof.
  intros Hn w c Hw Hc. apply bool_decide_eq_false. intros E. rewrite <- E in Hw.
  destruct (to_string_numeral n Hn) as [Hd _ (d & r & Ed & _) _]. rewrite Ed in *. injection Hw as ->.
  apply Forall_cons in Hd as [(x & Hx & ->) _]. apply Hc. unfold hex_digit. destruct (Z.gtb_spec x 9); lia.
Qed.

Ltac cursor_done := change (zlen []) with 0; rewrite ?Z.add_0_r; reflexivity.

Section Names.
Context `{Runtime}.
Variable c : TextTrigCompiler.

(** ** Locations *)

Definition locations : family := fun text ss a b => parseLocationName text ss a b.

Definition locationNamed (raw : bytes) (id : Z) : Prop :=
  lookupName (locationTable c) (if bool_decide (raw = lit "anywhere") then lit "Anywhere" else raw) = Some id.

Lemma location_quoted raw id : locationNamed raw id -> reads locations [34; 34] [raw] (fun _ => id) c c.
Proof.
  intros Hn pre post S0 S1 dest Hz. unfold locations, parseLocationName. rewrite compareAt_word by done.
  rewrite bool_decide_eq_false_2 by done. cbn [obind].
  rewrite (proj2 (Z.ltb_lt (zlen pre) _)) by (change (zlen [34; 34]) with 2; lia).
  rewrite quotedAt_quote. cbn [obind]. rewrite argument_quoted. cbn [obind compiler].
  unfold locationNamed in Hn. unfold found. by rewrite Hn.
Qed.

Lemma location_number n : is_u 32 n -> reads locations (to_string n) [] (fun _ => n) c c.
Proof.
  intros Hn pre post S0 S1 dest Hz. unfold is_u in Hn. pose proof (number_says n ltac:(lia)) as [_ Hb Hq].
  unfold locations, parseLocationName.
  rewrite compareAt_word by done. rewrite (number_word n) with (c := 78) by (done || lia). cbn [obind].
  rewrite quotedAt_word by done.
  assert (Hf : (if zlen pre <? zlen pre + zlen (to_string n) then Ret false else Ret false) = Ret false) by (by case_match).
  rewrite Hf. cbn [obind]. unfold parseLong. rewrite argument_number by (done || lia). cbn [obind]. cursor_done.
Qed.

Lemma location_none : reads locations (lit "NOLOCATION") [] (fun _ => 0) c c.
Proof.
  intros pre post S0 S1 dest Hz. unfold locations, parseLocationName. rewrite compareAt_word by done.
  rewrite bool_decide_eq_true_2 by done. cbn [obind]. cursor_done.
Qed.

(** ** Players *)

Definition players : family := fun text ss a b => parsePlayer text ss a b.

Definition playerNamed (raw : bytes) (id : Z) : Prop :=
  standardPlayer (word raw) = Ret (Some id) \/
  (standardPlayer (word raw) = Ret None /\ lookupName (groupTable c) raw = Some id).

Lemma player_quoted raw id : playerNamed raw id -> reads players [34; 34] [raw] (fun _ => id) c c.
Proof.
  intros Hn pre post S0 S1 dest Hz. unfold players, parsePlayer. rewrite quotedAt_quote. cbn [obind].
  rewrite argument_quoted. cbn [obind compiler]. destruct Hn as [->|[-> Hn]]; cbn [obind]; [done|].
  unfold found. by rewrite Hn.
Qed.

Lemma player_number n : is_u 32 n -> reads players (to_string n) [] (fun _ => n) c c.
Proof.
  intros Hn pre post S0 S1 dest Hz. unfold is_u in Hn. pose proof (number_says n ltac:(lia)) as [_ Hb Hq].
  unfold players, parsePlayer. rewrite quotedAt_word by done. cbn [obind].
  unfold parseLong. rewrite argument_number by (done || lia). cbn [obind]. cursor_done.
Qed.

(** ** Units *)

Definition units : family := fun text ss a b => parseUnitName text ss a b.

(** A standard name comes first, then the names of the map, then the old names. *)
Definition unitNamed (raw : bytes) (id : Z) : Prop :=
  zlen raw < 40 /\
  ((forall d, standardUnit (unitBuffer raw) (zlen raw) d = Ret (true, id)) \/
   ((forall d, standardUnit (unitBuffer raw) (zlen raw) d = Ret (false, d)) /\
    (lookupName (unitTable c) raw = Some id \/
     (lookupName (unitTable c) raw = None /\ legacyUnitName (unitBuffer raw) = Some id)))).

Lemma unit_quoted raw id : unitNamed raw id -> reads units [34; 34] [raw] (fun _ => id) c c.
Proof.
  intros [Hlen Hn] pre post S0 S1 dest Hz. unfold units, parseUnitName. rewrite quotedAt_quote. cbn [obind].
  rewrite (tok_size pre [34; 34] post) by done. change (zlen [34; 34] <? 2) with false. cbn [andb].
  change (zlen pre + zlen [34; 34]) with (zlen pre + zlen [34; 34]).
  rewrite argument_quoted. cbn [obind compiler]. rewrite (proj2 (Z.ltb_lt (zlen raw) 40)) by done.
  destruct Hn as [->|[-> [Hn|[-> Hn]]]]; cbn [obind]; [done|by rewrite Hn|]. unfold found. by rewrite Hn.
Qed.

Lemma unit_number n : is_u 16 n -> reads units (to_string n) [] (fun _ => n) c c.
Proof.
  intros Hn pre post S0 S1 dest Hz. unfold is_u in Hn. pose proof (number_says n ltac:(lia)) as [_ Hb Hq].
  unfold units, parseUnitName. rewrite quotedAt_word by done. cbn [obind andb].
  unfold parseShort. rewrite argument_number by (done || lia). cbn [obind]. cursor_done.
Qed.

(** ** Switches *)

Definition switches : family := fun text ss a b => parseSwitch text ss a b.

Definition switchNamed (raw : bytes) (id : Z) : Prop :=
  (forall d, standardSwitch raw d = Ret (true, id)) \/
  (forall d, exists d', standardSwitch raw d = Ret (false, d')) /\ lookupName (switchTable c) raw = Some id.

Lemma switch_quoted raw id : switchNamed raw id -> reads switches [34; 34] [raw] (fun _ => id) c c.
Proof.
  intros Hn pre post S0 S1 dest Hz. unfold switches, parseSwitch. rewrite quotedAt_quote. cbn [obind].
  rewrite argument_quoted. cbn [obind compiler]. destruct Hn as [->|[Hs Hn]]; cbn [obind]; [done|].
  destruct (Hs dest) as [d' ->]. cbn [obind]. unfold found. by rewrite Hn.
Qed.

(** ** Scripts *)

Definition scripts : family := fun text ss a b => parseScript text ss a b.

Lemma script_quoted n : is_u 32 n -> lookupScript (scriptTable c) (le_enc 4 n) = None ->
  reads scripts [34; 34] [le_enc 4 n] (fun _ => n) c c.
Proof.
  intros Hn Hl pre post S0 S1 dest Hz. unfold scripts, parseScript. rewrite compareAt_word by done.
  rewrite bool_decide_eq_false_2 by done. cbn [obind]. rewrite quotedAt_quote. cbn [obind].
  rewrite takeString_here. cbn [obind compiler]. rewrite Hl. cbn [le_enc].
  pose proof (le_dec_enc 4 n [] Hn) as Hd. cbn [le_enc le_dec app] in Hd. cbn [orb].
  match goal with |- Ret (true, ?v, _) = _ => replace v with n by lia end. done.
Qed.

Lemma script_none : reads scripts (lit "NOSCRIPT") [] (fun _ => 0) c c.
Proof.
  intros pre post S0 S1 dest Hz. unfold scripts, parseScript. rewrite compareAt_word by done.
  rewrite bool_decide_eq_true_2 by done. cbn [obind]. cursor_done.
Qed.

(** ** Strings *)

Definition stringNamed (raw : bytes) (id : Z) : Prop :=
  exists n node, matchingNode c raw = Ret (Some n) /\ vget (nodes c) n = Ret node /\ stringId node = id /\ id <> 0.

Definition strings_ (a : Assignee) : family := fun text ss => parseString text ss a.
Definition sounds (a : Assignee) : family := fun text ss => parseSoundName text ss a.

Lemma string_number a n : is_u 32 n -> reads (strings_ a) (to_string n) [] (fun _ => n) c c.
Proof.
  intros Hn pre post S0 S1 dest Hz. unfold is_u in Hn. pose proof (number_says n ltac:(lia)) as [_ Hb Hq].
  unfold strings_, parseString.
  rewrite compareAt_word by done. rewrite (number_word n) with (c := 78) by (done || lia). cbn [obind].
  rewrite quotedAt_word by done.
  assert (Hf : (if zlen pre <? zlen pre + zlen (to_string n) then Ret false else Ret false) = Ret false) by (by case_match).
  rewrite Hf. cbn [obind]. pose proof (number_reads 32 12 n c Hn ltac:(lia) ltac:(lia) pre post S0 S1 dest Hz) as Hnum. exact Hnum.
Qed.

Lemma string_none a : reads (strings_ a) (lit "NOSTRING") [] (fun _ => 0) c c.
Proof.
  intros pre post S0 S1 dest Hz. unfold strings_, parseString. rewrite compareAt_word by done.
  rewrite bool_decide_eq_true_2 by done. cbn [obind]. cursor_done.
Qed.

Lemma sound_none a : reads (sounds a) (lit "NOWAV") [] (fun _ => 0) c c.
Proof.
  intros pre post S0 S1 dest Hz. unfold sounds, parseSoundName. rewrite compareAt_word by done.
  rewrite bool_decide_eq_true_2 by done. cbn [obind]. cursor_done.
Qed.

(** Any word for a string but [NOWAV]. *)
Lemma sound_string a tok ss f c' : tok <> lit "NOWAV" -> reads (strings_ a) tok ss f c c' -> reads (sounds a) tok ss f c c'.
Proof.
  intros Hw Hr pre post S0 S1 dest Hz. unfold sounds, parseSoundName. rewrite compareAt_word by done.
  rewrite bool_decide_eq_false_2 by done. cbn [obind]. by apply Hr.
Qed.
End Names.

(** ** Strings of the map *)

Section Strings.
Context `{Runtime}.

Lemma marked_node c c' n node : marked c c' -> vget (nodes c) n = Ret node ->
  exists node', vget (nodes c') n = Ret node' /\ nodeText node' = nodeText node.
Proof.
  intros (ns & -> & E) Hn. cbn. unfold vget in *. destruct (n <? 0); [done|].
  destruct (nodes c !! Z.to_nat n) as [x|] eqn:Ex; [|done]. injection Hn as ->.
  assert (Hx : (nodeText <$> ns) !! Z.to_nat n = Some (nodeText node)) by (by rewrite E, list_lookup_fmap, Ex).
  rewrite list_lookup_fmap in Hx. destruct (ns !! Z.to_nat n) as [y|] eqn:Ey; [|done]. cbn in Hx. exists y.
  split; [done | congruence].
Qed.
Lemma marked_nodes_out c c' n : marked c c' -> (forall node, vget (nodes c) n <> Ret node) -> vget (nodes c') n = vget (nodes c) n.
Proof.
  intros (ns & -> & E) Hn. cbn. unfold vget in *. destruct (n <? 0); [done|].
  destruct (nodes c !! Z.to_nat n) as [x|] eqn:Ex; [by destruct (Hn x)|].
  assert (Hx : (nodeText <$> ns) !! Z.to_nat n = None) by (by rewrite E, list_lookup_fmap, Ex).
  rewrite list_lookup_fmap in Hx. by destruct (ns !! Z.to_nat n).
Qed.

Lemma marked_matching c c' raw : marked c c' -> matchingNode c' raw = matchingNode c raw.
Proof.
  intros Hm. unfold matchingNode.
  assert (newStringTable c' = newStringTable c) as -> by (by destruct Hm as (ns & -> & _)).
  induction (equal_range (newStringTable c) (strHash raw)) as [|n l IH]; [done|]. cbn [first_such].
  destruct (vget (nodes c) n) as [node|e|] eqn:En.
  - destruct (marked_node c c' n node Hm En) as (node' & -> & Et). cbn [obind].
    assert (scStr node' = scStr node) as -> by (unfold nodeText in Et; congruence).
    destruct (ScStr.compareEq (scStr node) raw); [done|]. apply IH.
  - by rewrite (marked_nodes_out c c' n Hm), En by (intros ?; rewrite En; discriminate).
  - by rewrite (marked_nodes_out c c' n Hm), En by (intros ?; rewrite En; discriminate).
Qed.

Lemma stringNamed_marked c c' raw id : marked c c' -> stringNamed c raw id -> stringNamed c' raw id.
Proof.
  intros Hm (n & node & Ef & En & Hid & H0). destruct (marked_node c c' n node Hm En) as (node' & En' & Et).
  exists n, node'. rewrite (marked_matching c c') by done. unfold nodeText in Et. split_and!; [done|done|congruence|done].
Qed.

Lemma string_quoted c a raw id : stringNamed c raw id ->
  exists c', marked c c' /\ reads (strings_ a) [34; 34] [raw] (fun _ => id) c c'.
Proof.
  intros (n & node & Ef & En & Hid & H0).
  assert (Hn : 0 <= n < zlen (nodes c)).
  { unfold vget in En. destruct (Z.ltb_spec n 0); [done|]. destruct (nodes c !! Z.to_nat n) eqn:E; [|done].
    apply lookup_lt_Some in E. unfold zlen. lia. }
  exists (c <| nodes := <[Z.to_nat n := node <| unused := false |>]> (nodes c) |>). split.
  - eexists. split; [reflexivity|]. rewrite list_fmap_insert.
    apply list_insert_id. rewrite list_lookup_fmap.
    destruct (vget_in (nodes c) n Hn) as (x & Ex & Ex'). rewrite Ex' in En. injection En as ->. by rewrite Ex.
  - intros pre post S0 S1 dest Hz. unfold strings_, parseString. rewrite compareAt_word by done.
    rewrite bool_decide_eq_false_2 by done. cbn [obind].
    rewrite (proj2 (Z.ltb_lt (zlen pre) _)) by (change (zlen [34; 34]) with 2; lia).
    rewrite quotedAt_quote. cbn [obind]. rewrite takeString_here. cbn [obind compiler nextString].
    rewrite Ef. cbn [obind]. rewrite En. cbn [obind].
    assert (stringId (node <| unused := false |>) = id) as -> by (by destruct node).
    rewrite (proj2 (Z.eqb_neq id 0)) by done. unfold setNode. rewrite vset_in by done. done.
Qed.
End Strings.
