(* ===== verification/TextTrigArguments.v ===== *)
(** Whole arguments: what the generator prints for the argument of a condition
    or an action is read back by [parseConditionArg] and [parseActionArg] into
    the same field, when the names it is printed with are known to the
    compiler. *)
From stdpp Require Import strings.
From S2P Require Import Prelude Codec ChkTypes Accessors TriggerTables Triggers StringTable EscapeStrings EscapeProps TextLib TextTrigNames TextTrigArgs TextTrigParser TextTrigProps ScNames TextTrigGenerator TextTrigClean TextTrigTokens TextTrigReads.
Import Generator(quote, quoteIf, entry, TextTrigGenerator, to_hex_string, radix_loop).
Open Scope Z_scope.

(** ** Keywords *)

Lemma is_u_bound bits n : 0 <= bits <= 32 -> is_u bits n -> 0 <= n < 10 ^ 20.
Proof.
  intros Hb Hn. unfold is_u in Hn. pose proof (Z.pow_le_mono_r 2 bits 32 ltac:(lia) ltac:(lia)). lia.
Qed.

Lemma entry_ret table v : 0 <= v -> exists s, entry table v = Ret s.
Proof.
  intros Hv. unfold entry. destruct (Z.ltb_spec v (zlen table)); [|by eexists].
  destruct (vget_in table v ltac:(lia)) as (s & _ & ->). by eexists.
Qed.

Section Values.
Variable c0 : TextTrigCompiler.

(** A keyword or a number of [bits] bits, of at most [len] digits. *)
Lemma value_written n ws table k number bits len v :
  (forall p tok w c, reads p tok [] (fun _ => w) c c -> reads (k p) tok [] (fun _ => w) c c) ->
  (forall p tok, rejects p tok -> rejects (k p) tok) ->
  (forall v c, is_u bits v -> reads number (to_string v) [] (fun _ => v) c c) ->
  keywords_ok ws = true -> table_ok n ws table = true -> (0 < len <= 20)%nat -> (len < n)%nat ->
  0 <= bits <= 32 -> 2 ^ bits <= 10 ^ Z.of_nat len -> is_u bits v ->
  exists s, entry table v = Ret s /\
    written (either (k (fun text ss => keyword text ss n (constants ws))) number) s (fun _ => v) c0.
Proof.
  intros Hreads Hrejects Hnum Hk Ht Hlen Hn Hbits Hpow Hv. pose proof (is_u_bound bits v Hbits Hv) as Hb.
  destruct (entry_ret table v ltac:(lia)) as [s Hs]. exists s. split; [done|].
  assert (Hl : (length (to_string v) <= len)%nat) by (apply number_length; [unfold is_u in Hv; lia | done]).
  destruct (value_reads n ws table k number v s) as (tok & Hsay & Hr); [done..|lia|by intros c; apply Hnum|done|].
  apply (says_written _ _ tok); [done|]. intros c _. apply Hr.
Qed.

Lemma long_written v : is_u 32 v -> written longs (to_string v) (fun _ => v) c0.
Proof.
  intros Hv. pose proof (is_u_bound 32 v ltac:(lia) Hv). eapply says_written; [by apply number_says|].
  intros c _. by apply long_reads.
Qed.
Lemma byte_written v : is_u 8 v -> written bytes_ (to_string v) (fun _ => v) c0.
Proof.
  intros Hv. pose proof (is_u_bound 8 v ltac:(lia) Hv). eapply says_written; [by apply number_says|].
  intros c _. by apply byte_reads.
Qed.

Lemma written_left p q s f : written p s f c0 -> written (either p q) s f c0.
Proof.
  intros (tok & ss & [Hl Hc Hb Hr]). exists tok, ss. split; [done..|]. intros c Hm.
  destruct (Hr c Hm) as (c' & Hm' & Hp). exists c'. split; [done|]. by apply reads_left.
Qed.
End Values.

(** ** Names *)

Section Known.
Context `{Runtime}.
Variables (g : TextTrigGenerator) (c0 : TextTrigCompiler).

(** The text of an entry is a quoted name that stands for its index. *)
Definition named (text : outcome bytes) (resolves : bytes -> Prop) : Prop :=
  exists e raw, text = Ret (quote e) /\ quotes e raw /\ resolves raw.

Definition knowsLocation (id : Z) : Prop :=
  let text := Generator.appendLocation g id in
  is_u 32 id /\ ((text = Ret (lit "No Location") /\ id = 0) \/ text = Ret (to_string id) \/
                 named text (fun raw => locationNamed c0 raw id)).
Definition knowsPlayer (id : Z) : Prop :=
  let text := Generator.appendPlayer g id in
  is_u 32 id /\ (text = Ret (to_string id) \/ named text (fun raw => playerNamed c0 raw id)).
Definition knowsUnit (id : Z) : Prop :=
  let text := Generator.appendUnit g id in
  is_u 16 id /\ (text = Ret (to_string id) \/ named text (fun raw => unitNamed c0 raw id)).
Definition knowsSwitch (id : Z) : Prop :=
  named (Generator.appendSwitch g id) (fun raw => switchNamed c0 raw id).
Definition knowsScript (id : Z) : Prop :=
  is_u 32 id /\ (id = 0 \/ (Generator.appendScript g id = Ret (quote (le_enc 4 id)) /\ Forall verbatim (le_enc 4 id) /\
                            lookupScript (scriptTable c0) (le_enc 4 id) = None)).
Definition knowsString (id : Z) : Prop :=
  let text := Generator.appendString g id in
  is_u 32 id /\ (id = 0 \/ text = Ret (to_string id) \/ named text (fun raw => stringNamed c0 raw id)).
Definition knowsMemory (m : Z) : Prop :=
  is_u 32 m /\ Generator.useAddressesForMemory g = useAddressesForMemory c0 /\
  Generator.deathTableOffset g = deathTableOffset c0 /\
  (useAddressesForMemory c0 = true -> deathTableOffset c0 mod 4 = 0 /\ m < 2 ^ 30).

Lemma location_written id s : knowsLocation id -> Generator.appendLocation g id = Ret s -> written locations s (fun _ => id) c0.
Proof.
  intros [Hid Hk] E. rewrite E in Hk. pose proof (is_u_bound 32 id ltac:(lia) Hid) as Hb.
  destruct Hk as [[Hs ->]|[Hs|(e & raw & Hs & Hq & Hr)]]; injection Hs as ->.
  - apply (says_written _ _ (lit "NOLOCATION")); [|intros c _; apply location_none].
    split; [done | by apply (bool_decide_unpack _) | done].
  - eapply says_written; [by apply number_says|]. intros c _. by apply location_number.
  - apply (quoted_written _ _ raw); [done|]. intros c Hm. exists c. split; [done|]. apply location_quoted.
    by destruct Hm as (ns & -> & _).
Qed.

Lemma player_written id s : knowsPlayer id -> Generator.appendPlayer g id = Ret s -> written players s (fun _ => id) c0.
Proof.
  intros [Hid Hk] E. rewrite E in Hk. pose proof (is_u_bound 32 id ltac:(lia) Hid) as Hb.
  destruct Hk as [Hs|(e & raw & Hs & Hq & Hr)]; injection Hs as ->.
  - eapply says_written; [by apply number_says|]. intros c _. by apply player_number.
  - apply (quoted_written _ _ raw); [done|]. intros c Hm. exists c. split; [done|]. apply player_quoted.
    by destruct Hm as (ns & -> & _).
Qed.

Lemma unit_written id s : knowsUnit id -> Generator.appendUnit g id = Ret s -> written units s (fun _ => id) c0.
Proof.
  intros [Hid Hk] E. rewrite E in Hk. pose proof (is_u_bound 16 id ltac:(lia) Hid) as Hb.
  destruct Hk as [Hs|(e & raw & Hs & Hq & Hr)]; injection Hs as ->.
  - eapply says_written; [by apply number_says|]. intros c _. by apply unit_number.
  - apply (quoted_written _ _ raw); [done|]. intros c Hm. exists c. split; [done|]. apply unit_quoted.
    by destruct Hm as (ns & -> & _).
Qed.

Lemma switch_written id s : knowsSwitch id -> Generator.appendSwitch g id = Ret s -> written switches s (fun _ => id) c0.
Proof.
  intros (e & raw & Hs & Hq & Hr) E. rewrite E in Hs. injection Hs as ->.
  apply (quoted_written _ _ raw); [done|]. intros c Hm. exists c. split; [done|]. apply switch_quoted.
  by destruct Hm as (ns & -> & _).
Qed.

Lemma script_written id s : knowsScript id -> Generator.appendScript g id = Ret s -> written scripts s (fun _ => id) c0.
Proof.
  intros [Hid [->|(Hs & Hv & Hl)]] E.
  - injection E as <-. apply (says_written _ _ (lit "NOSCRIPT")); [|intros c _; apply script_none].
    split; [done | by apply (bool_decide_unpack _) | done].
  - rewrite E in Hs. injection Hs as ->. apply (quoted_written _ _ (le_enc 4 id)); [by apply quotes_verbatim|].
    intros c Hm. exists c. split; [done|]. apply script_quoted; [done|]. by destruct Hm as (ns & -> & _).
Qed.

Lemma string_written a id s : knowsString id -> Generator.appendString g id = Ret s -> written (strings_ a) s (fun _ => id) c0.
Proof.
  intros [Hid Hk] E. pose proof (is_u_bound 32 id ltac:(lia) Hid) as Hb. rewrite E in Hk.
  destruct Hk as [->|[Hs|(e & raw & Hs & Hq & Hr)]].
  - injection E as <-. apply (says_written _ _ (lit "NOSTRING")); [|intros c _; apply string_none].
    split; [done | by apply (bool_decide_unpack _) | done].
  - injection Hs as ->. eapply says_written; [by apply number_says|]. intros c _. by apply string_number.
  - injection Hs as ->. apply (quoted_written _ _ raw); [done|]. intros c Hm.
    destruct (string_quoted c a raw id) as (c' & Hm' & Hr'); [by apply (stringNamed_marked c0)|].
    exists c'. split; [by apply (marked_trans _ c) | done].
Qed.

Lemma sound_written a id s : knowsString id -> Generator.appendSound g id = Ret s -> written (sounds a) s (fun _ => id) c0.
Proof.
  intros Hk E. unfold Generator.appendSound in E. destruct (Z.eqb_spec id 0) as [->|Hne].
  - injection E as <-. apply (says_written _ _ (lit "NOWAV")); [|intros c _; apply sound_none].
    split; [done | by apply (bool_decide_unpack _) | done].
  - destruct Hk as [Hid Hk]. pose proof (is_u_bound 32 id ltac:(lia) Hid) as Hb. rewrite E in Hk.
    destruct Hk as [->|[Hs|(e & raw & Hs & Hq & Hr)]]; [done| |]; injection Hs as ->.
    + eapply says_written; [by apply number_says|]. intros c _. apply sound_string; [|by apply string_number].
      pose proof (number_word id Hb "NOWAV" 78 eq_refl ltac:(lia)) as Hw. by apply bool_decide_eq_false in Hw.
    + apply (quoted_written _ _ raw); [done|]. intros c Hm.
      destruct (string_quoted c a raw id) as (c' & Hm' & Hr'); [by apply (stringNamed_marked c0)|].
      exists c'. split; [by apply (marked_trans _ c) | by apply sound_string].
Qed.

Definition memories : family := fun text _ a b => memoryOffset text a b.

Lemma memory_written m s : knowsMemory m -> Generator.appendMemory g m = Ret s -> written memories s (fun _ => m) c0.
Proof.
  intros (Hm & Hu & Ho & Ha) E. unfold Generator.appendMemory in E. rewrite Hu, Ho in E. injection E as <-.
  destruct (useAddressesForMemory c0) eqn:Euse.
  - destruct (Ha eq_refl) as [Hoff Hlt]. unfold is_u in Hm.
    pose proof (u32_range (m * 4 + deathTableOffset c0)) as Hv.
    apply (says_written _ _ _ _ _ (hex_says _ Hv)). intros c Hmark pre post S0 S1 dest Hz.
    assert (Hsame : useAddressesForMemory c = true /\ deathTableOffset c = deathTableOffset c0)
      by (by destruct Hmark as (ns & -> & _)). destruct Hsame as [Hs1 Hs2].
    unfold memories, memoryOffset. cbn [compiler]. rewrite Hs1, Hs2. unfold parseMemoryAddress.
    rewrite parseLong_hex by done. cbn [obind].
    assert (u32 (u32 (m * 4 + deathTableOffset c0) / 4 * 4 - deathTableOffset c0) / 4 = m) as ->; [|cursor_done].
    assert (Hdiv : u32 (m * 4 + deathTableOffset c0) / 4 * 4 = u32 (m * 4 + deathTableOffset c0)).
    { rewrite Z.mul_comm. symmetry. apply Z.div_exact; [lia|]. unfold u32.
      rewrite Z.mod_mod_divide by (by exists (2 ^ 30)).
      rewrite Z.add_mod, Z.mod_mul, Hoff by lia. done. }
    rewrite Hdiv. unfold u32. rewrite Zminus_mod_idemp_l. replace (m * 4 + deathTableOffset c0 - deathTableOffset c0) with (m * 4) by lia.
    rewrite Z.mod_small by lia. apply Z.div_mul. lia.
  - pose proof (is_u_bound 32 m ltac:(lia) Hm) as Hb. eapply says_written; [by apply number_says|].
    intros c Hmark pre post S0 S1 dest Hz.
    assert (Hs : useAddressesForMemory c = false) by (by destruct Hmark as (ns & -> & _)).
    unfold memories, memoryOffset. cbn [compiler]. rewrite Hs. exact (long_reads m c Hm pre post S0 S1 dest Hz).
Qed.
End Known.

(** ** Arguments of conditions *)

(** The text [s] of an argument: the word it is cleaned to, and the effect
    [copy] on the record the argument is read into. *)
Record argumentWord {R} (parse : bytes -> list bytes -> Z -> Z -> R -> Cursor -> outcome (option string * R * Cursor))
    (copy : R -> R) (c0 : TextTrigCompiler) (s tok : bytes) (ss : list bytes) : Prop := {
  argument_lines : 13 ∉ s;
  argument_clean : cleans (crlf s) tok ss;
  argument_bare : bare tok;
  argument_reads : forall c, marked c0 c -> exists c', marked c0 c' /\
    forall pre post S0 S1 r, zlen (pre ++ tok ++ post) < 2 ^ 64 ->
      parse (pre ++ tok ++ post) (S0 ++ ss ++ S1) (zlen pre) (zlen pre + zlen tok) r (mkCursor (zlen S0) c) =
      Ret (None, copy r, mkCursor (zlen S0 + zlen ss) c')
}.

(** The generator prints an argument with effect [copy]. *)
Definition prints {R} (text : outcome bytes)
    (parse : bytes -> list bytes -> Z -> Z -> R -> Cursor -> outcome (option string * R * Cursor))
    (copy : R -> R) (c0 : TextTrigCompiler) : Prop :=
  exists s tok ss, text = Ret s /\ argumentWord parse copy c0 s tok ss.

Lemma prints_field {R} (get : R -> Z) (set : Z -> R -> R) (p : family) (msg : Cursor -> string) text s f c0 :
  text = Ret s -> written p s f c0 ->
  prints text (fun text ss a b r cur => returnMsg (into get set (p text ss a b)) (msg cur) r cur)
    (fun r => set (f (get r)) r) c0.
Proof.
  intros Ht (tok & ss & [Hl Hc Hb Hr]). exists s, tok, ss. split; [done|]. split; [done..|]. intros c Hm.
  destruct (Hr c Hm) as (c' & Hm' & Hp). exists c'. split; [done|]. intros pre post S0 S1 r Hz.
  unfold returnMsg, into. by rewrite Hp by done.
Qed.

Section Arguments.
Context `{Runtime}.
Variables (g : TextTrigGenerator) (c0 : TextTrigCompiler).

(** The value of the argument can be read back. *)
Definition conditionKnown (src : Condition.Condition) (argument : ConditionArgs.Argument) : Prop :=
  match ConditionArgs.type argument with
  | ConditionArgs.T_Unit => knowsUnit g c0 (Condition.unitType src)
  | ConditionArgs.T_Location => knowsLocation g c0 (Condition.locationId src)
  | ConditionArgs.T_Player => knowsPlayer g c0 (Condition.player src)
  | ConditionArgs.T_Amount => is_u 32 (Condition.amount src)
  | ConditionArgs.T_NumericComparison | ConditionArgs.T_SwitchState => is_u 8 (Condition.comparison src)
  | ConditionArgs.T_ResourceType | ConditionArgs.T_ScoreType => is_u 8 (Condition.typeIndex src)
  | ConditionArgs.T_Switch => knowsSwitch g c0 (Condition.typeIndex src)
  | ConditionArgs.T_MemoryOffset => knowsMemory g c0 (Condition.player src)
  | _ => False
  end.

(** The field of an argument is taken from [src]. *)
Definition copyCondition (argument : ConditionArgs.Argument) (src c : Condition.Condition) : Condition.Condition :=
  match ConditionArgs.type argument with
  | ConditionArgs.T_Unit => c <| Condition.unitType := Condition.unitType src |>
  | ConditionArgs.T_Location => c <| Condition.locationId := Condition.locationId src |>
  | ConditionArgs.T_Player | ConditionArgs.T_MemoryOffset => c <| Condition.player := Condition.player src |>
  | ConditionArgs.T_Amount => c <| Condition.amount := Condition.amount src |>
  | ConditionArgs.T_NumericComparison | ConditionArgs.T_SwitchState =>
      c <| Condition.comparison := Condition.comparison src |>
  | ConditionArgs.T_ResourceType | ConditionArgs.T_ScoreType | ConditionArgs.T_Switch =>
      c <| Condition.typeIndex := Condition.typeIndex src |>
  | _ => c
  end.

Definition parsesCondition (argument : ConditionArgs.Argument) :=
  fun text ss a b c cur => parseConditionArg text ss a b argument c cur.

Lemma known_text text resolves : named text resolves -> is_ret text.
Proof. intros (e & raw & -> & _). by eexists. Qed.

Lemma location_ret id : knowsLocation g c0 id -> is_ret (Generator.appendLocation g id).
Proof. intros [_ [[-> _]|[->|Hn%known_text]]]; [by eexists..|done]. Qed.
Lemma player_ret id : knowsPlayer g c0 id -> is_ret (Generator.appendPlayer g id).
Proof. intros [_ [->|Hn%known_text]]; [by eexists|done]. Qed.
Lemma unit_ret id : knowsUnit g c0 id -> is_ret (Generator.appendUnit g id).
Proof. intros [_ [->|Hn%known_text]]; [by eexists|done]. Qed.
Lemma switch_ret id : knowsSwitch g c0 id -> is_ret (Generator.appendSwitch g id).
Proof. apply known_text. Qed.
Lemma script_ret id : knowsScript g c0 id -> is_ret (Generator.appendScript g id).
Proof. intros [_ [->|(-> & _)]]; by eexists. Qed.
Lemma string_ret id : knowsString g c0 id -> is_ret (Generator.appendString g id).
Proof. intros [_ [->|[->|Hn%known_text]]]; [by eexists..|done]. Qed.
Lemma sound_ret id : knowsString g c0 id -> is_ret (Generator.appendSound g id).
Proof. intros Hk. unfold Generator.appendSound. destruct (id =? 0); [by eexists | by apply string_ret]. Qed.

(** A field that is read by [p]. *)
Ltac field get p v W := exact (prints_field get (upd get) p (fun _ => _) _ _ (fun _ => v) c0 eq_refl W).
(** A name, whose text is returned by [R]. *)
Ltac name_field get p v R W Hk :=
  let s := fresh in let Hs := fresh in
  destruct (R _ Hk) as [s Hs]; rewrite Hs; field get p v (W _ _ Hk Hs).
(** A value with keywords. *)
Ltac value_field get n ws table k number bits len v H :=
  let s := fresh in let Hs := fresh in let Hw := fresh in
  destruct (value_written c0 n ws table k number bits len v) as (s & Hs & Hw);
    [first [done | intros; by apply reads_wide] | first [done | intros; by apply rejects_wide] | exact H
    | first [done | vm_compute; reflexivity | lia | cbn; lia]..|];
  rewrite Hs; field get (either (k (fun text ss => keyword text ss n (constants ws))) number) v Hw.

Definition comparisonWords : list (string * Z) := [("ATLEAST", 0); ("ATMOST", 1); ("EXACTLY", 10)].
Definition switchStateWords : list (string * Z) := [("CLEARED", 3); ("NOTSET", 3); ("SET", 2)].
Definition resourceWords : list (string * Z) := [("ORE", 0); ("OREANDGAS", 2); ("GAS", 1)].
Definition scoreWords : list (string * Z) :=
  [("BUILDINGS", 2); ("CUSTOM", 7); ("KILLS", 4); ("KILLSANDRAZINGS", 6);
   ("RAZINGS", 5); ("TOTAL", 0); ("UNITS", 1); ("UNITSANDBUILDINGS", 3)].

Lemma condition_prints src argument : conditionKnown src argument ->
  prints (Generator.appendConditionArgument g src argument) (parsesCondition argument) (copyCondition argument src) c0.
Proof.
  destruct argument as [ty fld]. unfold conditionKnown, Generator.appendConditionArgument, parsesCondition, parseConditionArg, copyCondition.
  cbn [ConditionArgs.type]. destruct ty; try done; intros Hk.
  - name_field Condition.unitType (either units shorts) (Condition.unitType src) unit_ret
      (fun id s Hk Hs => written_left c0 units shorts s _ (unit_written g c0 id s Hk Hs)) Hk.
  - name_field Condition.locationId (either locations longs) (Condition.locationId src) location_ret
      (fun id s Hk Hs => written_left c0 locations longs s _ (location_written g c0 id s Hk Hs)) Hk.
  - name_field Condition.player (either players longs) (Condition.player src) player_ret
      (fun id s Hk Hs => written_left c0 players longs s _ (player_written g c0 id s Hk Hs)) Hk.
  - field Condition.amount longs (Condition.amount src) (long_written c0 _ Hk).
  - unfold Generator.appendNumericComparison.
    value_field Condition.comparison 12%nat comparisonWords Generator.numericComparisons (fun p : family => p) bytes_ 8 3%nat
      (Condition.comparison src) byte_reads.
  - unfold Generator.appendResourceType.
    value_field Condition.typeIndex 12%nat resourceWords Generator.resourceTypes (fun p : family => p) bytes_ 8 3%nat
      (Condition.typeIndex src) byte_reads.
  - unfold Generator.appendScoreType.
    value_field Condition.typeIndex 20%nat scoreWords Generator.scoreTypes (fun p : family => p) bytes_ 8 3%nat
      (Condition.typeIndex src) byte_reads.
  - name_field Condition.typeIndex (either switches bytes_) (Condition.typeIndex src) switch_ret
      (fun id s Hk Hs => written_left c0 switches bytes_ s _ (switch_written g c0 id s Hk Hs)) Hk.
  - unfold Generator.appendSwitchState.
    value_field Condition.comparison 8%nat switchStateWords Generator.switchStates (fun p : family => p) bytes_ 8 3%nat
      (Condition.comparison src) byte_reads.
  - assert (is_ret (Generator.appendMemory g (Condition.player src))) as [s Hs] by (by eexists). rewrite Hs.
    exact (prints_field Condition.player (upd Condition.player) memories memoryMsg _ _ (fun _ => Condition.player src) c0 eq_refl
      (memory_written g c0 _ s Hk Hs)).
Qed.
(** ** Arguments of actions *)

Definition inNumber (argument : ActionArgs.Argument) : Prop := ActionArgs.field argument = ActionArgs.F_Number.
Definition inType2 (argument : ActionArgs.Argument) : Prop := ActionArgs.field argument = ActionArgs.F_Type2.

Definition actionKnown (src : Action.Action) (argument : ActionArgs.Argument) : Prop :=
  match ActionArgs.type argument with
  | ActionArgs.T_Location =>
      knowsLocation g c0 (if Generator.inNumber argument then Action.number src else Action.locationId src)
  | ActionArgs.T_String => knowsString g c0 (Action.stringId src)
  | ActionArgs.T_Player =>
      knowsPlayer g c0 (if Generator.inNumber argument then Action.number src else Action.group src)
  | ActionArgs.T_Unit => knowsUnit g c0 (Action.type src)
  | ActionArgs.T_NumUnits | ActionArgs.T_StateMod | ActionArgs.T_Order | ActionArgs.T_NumericMod
  | ActionArgs.T_SwitchMod => is_u 8 (Action.type2 src)
  | ActionArgs.T_CUWP | ActionArgs.T_Percent => is_u 32 (Action.number src) /\ inNumber argument
  | ActionArgs.T_Amount =>
      (inType2 argument /\ is_u 8 (Action.type2 src)) \/ (inNumber argument /\ is_u 32 (Action.number src))
  | ActionArgs.T_TextFlags => True
  | ActionArgs.T_ScoreType | ActionArgs.T_ResourceType => is_u 8 (Action.type src)
  | ActionArgs.T_AllyState => is_u 16 (Action.type src)
  | ActionArgs.T_Sound => knowsString g c0 (Action.soundStringId src)
  | ActionArgs.T_Duration => is_u 32 (Action.time src)
  | ActionArgs.T_Script => knowsScript g c0 (Action.number src)
  | ActionArgs.T_Switch => knowsSwitch g c0 (Action.number src)
  | ActionArgs.T_MemoryOffset => knowsMemory g c0 (Action.group src)
  | _ => False
  end.

Definition alwaysDisplay (flags : Z) : bool := negb (Z.land flags Generator.Flags_AlwaysDisplay =? 0).

(** The field of an argument is taken from [src]; of the flags only the one for
    texts that are always displayed. *)
Definition copyAction (argument : ActionArgs.Argument) (src a : Action.Action) : Action.Action :=
  match ActionArgs.type argument with
  | ActionArgs.T_Location =>
      if Generator.inNumber argument then a <| Action.number := Action.number src |>
      else a <| Action.locationId := Action.locationId src |>
  | ActionArgs.T_String => a <| Action.stringId := Action.stringId src |>
  | ActionArgs.T_Player =>
      if Generator.inNumber argument then a <| Action.number := Action.number src |>
      else a <| Action.group := Action.group src |>
  | ActionArgs.T_Unit | ActionArgs.T_ScoreType | ActionArgs.T_ResourceType | ActionArgs.T_AllyState =>
      a <| Action.type := Action.type src |>
  | ActionArgs.T_NumUnits | ActionArgs.T_StateMod | ActionArgs.T_Order | ActionArgs.T_NumericMod
  | ActionArgs.T_SwitchMod => a <| Action.type2 := Action.type2 src |>
  | ActionArgs.T_CUWP | ActionArgs.T_Percent | ActionArgs.T_Amount =>
      if bool_decide (inType2 argument) then a <| Action.type2 := Action.type2 src |>
      else a <| Action.number := Action.number src |>
  | ActionArgs.T_TextFlags =>
      a <| Action.flags := if alwaysDisplay (Action.flags src) then Z.lor (Action.flags a) 4 else Z.land (Action.flags a) 0xFB |>
  | ActionArgs.T_Sound => a <| Action.soundStringId := Action.soundStringId src |>
  | ActionArgs.T_Duration => a <| Action.time := Action.time src |>
  | ActionArgs.T_Script | ActionArgs.T_Switch => a <| Action.number := Action.number src |>
  | ActionArgs.T_MemoryOffset => a <| Action.group := Action.group src |>
  | _ => a
  end.

Definition parsesAction (place : ActionArgs.ArgField -> Assignee) (argument : ActionArgs.Argument) :=
  fun text ss a b r cur => parseActionArg text ss a b place argument r cur.

Definition numericModWords : list (string * Z) := [("ADD", 8); ("SETTO", 7); ("SUBTRACT", 9)].
Definition switchModWords : list (string * Z) := [("CLEAR", 5); ("RANDOMIZE", 11); ("SET", 4); ("TOGGLE", 6)].
Definition stateModWords : list (string * Z) :=
  [("DISABLE", 5); ("DISABLED", 5); ("ENABLE", 4); ("ENABLED", 4); ("TOGGLE", 6)].
Definition orderWords : list (string * Z) := [("ATTACK", 2); ("MOVE", 0); ("PATROL", 1)].
Definition allyWords : list (string * Z) := [("ALLIEDVICTORY", 2); ("ALLY", 1); ("ENEMY", 0)].

Lemma numUnits_entry v : is_u 8 v -> Generator.appendNumUnits v = entry [lit "All"] v.
Proof.
  intros Hv. unfold is_u in Hv. unfold Generator.appendNumUnits, entry. change (zlen [lit "All"]) with 1.
  destruct (Z.eqb_spec v 0) as [->|]; [done|]. by rewrite (proj2 (Z.ltb_ge v 1)) by lia.
Qed.

(** The texts for the flag. *)
Lemma land_4 flags : Z.land flags 4 = 0 \/ Z.land flags 4 = 4.
Proof.
  enough (Z.land flags 4 = if Z.testbit flags 2 then 4 else 0) as -> by (destruct (Z.testbit flags 2); auto).
  apply Z.bits_inj'. intros n Hn. rewrite Z.land_spec. change 4 with (2 ^ 2). rewrite Z.pow2_bits_eqb by lia.
  destruct (Z.eqb_spec 2 n) as [<-|Hne].
  - by destruct (Z.testbit flags 2).
  - rewrite andb_false_r. destruct (Z.testbit flags 2); [|by rewrite Z.bits_0].
    rewrite Z.pow2_bits_eqb by lia. symmetry. by apply Z.eqb_neq.
Qed.

Lemma textFlags_prints src :
  prints (Generator.appendTextFlags (Action.flags src))
    (fun text ss a b r cur => returnMsg (into Action.flags (upd Action.flags) (parseTextDisplayFlag text ss a b ||| TextTrigArgs.byte text a b))
       "Expected: Always display text flags or 1-byte flag data" r cur)
    (fun r => r <| Action.flags := if alwaysDisplay (Action.flags src) then Z.lor (Action.flags r) 4 else Z.land (Action.flags r) 0xFB |>) c0.
Proof.
  unfold Generator.appendTextFlags, alwaysDisplay, Generator.Flags_AlwaysDisplay.
  destruct (land_4 (Action.flags src)) as [E|E]; rewrite E; cbn [Z.eqb Pos.eqb negb].
  - eapply (prints_field Action.flags (upd Action.flags) (either parseTextDisplayFlag bytes_) (fun _ => _) _ _ (fun d => Z.land d 0xFB)); [done|].
    apply (says_written _ _ (lit "DON'TALWAYSDISPLAY")); [split; [done | by apply (bool_decide_unpack _) | done]|].
    intros c _. apply reads_left.
    eapply (keyword_reads 24 _ _ 1 ("DON'TALWAYSDISPLAY"%string, fun d => Z.land d 0xFB)); [by apply (bool_decide_unpack _) | done | cbn; lia | done].
  - eapply (prints_field Action.flags (upd Action.flags) (either parseTextDisplayFlag bytes_) (fun _ => _) _ _ (fun d => Z.lor d 4)); [done|].
    apply (says_written _ _ (lit "ALWAYSDISPLAY")); [split; [done | by apply (bool_decide_unpack _) | done]|].
    intros c _. apply reads_left.
    eapply (keyword_reads 24 _ _ 0 ("ALWAYSDISPLAY"%string, fun d => Z.lor d 4)); [by apply (bool_decide_unpack _) | done | cbn; lia | done].
Qed.

Lemma action_prints place src argument : actionKnown src argument ->
  prints (Generator.appendActionArgument g src argument) (parsesAction place argument) (copyAction argument src) c0.
Proof.
  destruct argument as [ty fld]. unfold actionKnown, Generator.appendActionArgument, parsesAction, parseActionArg, copyAction, inNumber, inType2.
  cbn [ActionArgs.type ActionArgs.field]. destruct ty; try done; intros Hk.
  - unfold Generator.inNumber in *. cbn [ActionArgs.field] in *. destruct (bool_decide (fld = ActionArgs.F_Number)).
    + name_field Action.number (either locations longs) (Action.number src) location_ret
        (fun id s Hk Hs => written_left c0 locations longs s _ (location_written g c0 id s Hk Hs)) Hk.
    + name_field Action.locationId (either locations longs) (Action.locationId src) location_ret
        (fun id s Hk Hs => written_left c0 locations longs s _ (location_written g c0 id s Hk Hs)) Hk.
  - name_field Action.stringId (either (strings_ (place ActionArgs.F_StringId)) longs) (Action.stringId src) string_ret
      (fun id s Hk Hs => written_left c0 _ longs s _ (string_written g c0 (place ActionArgs.F_StringId) id s Hk Hs)) Hk.
  - unfold Generator.inNumber in *. cbn [ActionArgs.field] in *. destruct (bool_decide (fld = ActionArgs.F_Number)).
    + name_field Action.number (either players longs) (Action.number src) player_ret
        (fun id s Hk Hs => written_left c0 players longs s _ (player_written g c0 id s Hk Hs)) Hk.
    + name_field Action.group (either players longs) (Action.group src) player_ret
        (fun id s Hk Hs => written_left c0 players longs s _ (player_written g c0 id s Hk Hs)) Hk.
  - name_field Action.type (either units shorts) (Action.type src) unit_ret
      (fun id s Hk Hs => written_left c0 units shorts s _ (unit_written g c0 id s Hk Hs)) Hk.
  - rewrite numUnits_entry by done.
    value_field Action.type2 4%nat [("ALL"%string, 0)] [lit "All"] (fun p : family => p) bytes_ 8 3%nat (Action.type2 src) byte_reads.
  - destruct Hk as [Hk ->]. field Action.number longs (Action.number src) (long_written c0 _ Hk).
  - apply textFlags_prints.
  - destruct Hk as [[-> Hk]|[-> Hk]].
    + field Action.type2 bytes_ (Action.type2 src) (byte_written c0 _ Hk).
    + field Action.number longs (Action.number src) (long_written c0 _ Hk).
  - unfold Generator.appendScoreType. rewrite u8_id by done.
    value_field Action.type 20%nat scoreWords Generator.scoreTypes wide shorts 8 3%nat (Action.type src)
      (fun v c (Hv : is_u 8 v) => short_reads v c ltac:(unfold is_u in *; lia)).
  - unfold Generator.appendResourceType. rewrite u8_id by done.
    value_field Action.type 12%nat resourceWords Generator.resourceTypes wide shorts 8 3%nat (Action.type src)
      (fun v c (Hv : is_u 8 v) => short_reads v c ltac:(unfold is_u in *; lia)).
  - unfold Generator.appendStateModifier.
    value_field Action.type2 12%nat stateModWords Generator.stateModifiers (fun p : family => p) bytes_ 8 3%nat (Action.type2 src) byte_reads.
  - destruct Hk as [Hk ->]. field Action.number longs (Action.number src) (long_written c0 _ Hk).
  - unfold Generator.appendOrder.
    value_field Action.type2 8%nat orderWords Generator.orderTypes (fun p : family => p) bytes_ 8 3%nat (Action.type2 src) byte_reads.
  - name_field Action.soundStringId (either (sounds (place ActionArgs.F_SoundStringId)) longs) (Action.soundStringId src) sound_ret
      (fun id s Hk Hs => written_left c0 _ longs s _ (sound_written g c0 (place ActionArgs.F_SoundStringId) id s Hk Hs)) Hk.
  - field Action.time longs (Action.time src) (long_written c0 _ Hk).
  - name_field Action.number (either scripts longs) (Action.number src) script_ret
      (fun id s Hk Hs => written_left c0 scripts longs s _ (script_written g c0 id s Hk Hs)) Hk.
  - unfold Generator.appendAllyState.
    value_field Action.type 16%nat allyWords Generator.allyStates (fun p : family => p) shorts 16 5%nat (Action.type src) short_reads.
  - unfold Generator.appendNumericModifier.
    value_field Action.type2 12%nat numericModWords Generator.numericModifiers (fun p : family => p) bytes_ 8 3%nat (Action.type2 src) byte_reads.
  - destruct (switch_ret _ Hk) as [s Hs]. rewrite Hs.
    assert (Hw : written (wide switches) s (fun _ => Action.number src) c0).
    { destruct (switch_written g c0 _ s Hk Hs) as (tok & ss & [Hl Hc Hb Hr]). exists tok, ss. split; [done..|].
      intros c Hm. destruct (Hr c Hm) as (c' & Hm' & Hp). exists c'. split; [done | by apply reads_wide]. }
    field Action.number (either (wide switches) longs) (Action.number src) (written_left c0 _ longs s _ Hw).
  - unfold Generator.appendSwitchModifier.
    value_field Action.type2 10%nat switchModWords Generator.switchModifiers (fun p : family => p) bytes_ 8 3%nat (Action.type2 src) byte_reads.
  - assert (is_ret (Generator.appendMemory g (Action.group src))) as [s Hs] by (by eexists). rewrite Hs.
    exact (prints_field Action.group (upd Action.group) memories memoryMsg _ _ (fun _ => Action.group src) c0 eq_refl
      (memory_written g c0 _ s Hk Hs)).
Qed.
End Arguments.
