(* ===== verification/TextTrigSteps.v ===== *)
(** The parser of text triggers on generated text: how its state changes at each
    piece, a newline, a player, the name of a condition or action, its
    arguments, the flags, wherever the piece is. *)
From stdpp Require Import strings.
From S2P Require Import Prelude Codec ChkTypes Accessors TriggerTables Triggers StringTable EscapeStrings EscapeProps TextLib TextTrigNames TextTrigArgs TextTrigParser TextTrigProps ScNames TextTrigGenerator TextTrigClean TextTrigTokens TextTrigReads TextTrigArguments.
Import Generator(TextTrigGenerator, noCondition, noAction).
Open Scope Z_scope.

(** ** Rounds *)

Section Rounds.
Context `{Runtime}.
Variables (T : bytes) (S : list bytes).

(** From [st] the loop comes to a state in [Q]. *)
Definition leads (st : Parse) (Q : Parse -> Prop) : Prop :=
  exists n st', Q st' /\ forall fuel, run T S (n + fuel) st = run T S fuel st'.

Lemma leads_here st (Q : Parse -> Prop) : Q st -> leads st Q.
Proof. intros HQ. by exists 0%nat, st. Qed.

Lemma leads_trans st (Q R : Parse -> Prop) : leads st Q -> (forall st', Q st' -> leads st' R) -> leads st R.
Proof.
  intros (n & st1 & HQ & En) HR. destruct (HR st1 HQ) as (m & st2 & HR2 & Em).
  exists (n + m)%nat, st2. split; [done|]. intros fuel. by rewrite <- Nat.add_assoc, En, Em.
Qed.

Lemma leads_step st st' (Q : Parse -> Prop) :
  pos st < zlen T -> step T S st = Ret (inr (false, st')) -> Q st' -> leads st Q.
Proof.
  intros Hp Hs HQ. exists 1%nat, st'. split; [done|]. intros fuel. cbn [Nat.add run].
  by rewrite (proj2 (Z.ltb_lt _ _) Hp), Hs.
Qed.
End Rounds.

(** ** Pieces *)

(** What the parser has found so far: its variables but for the position, the
    line and the cursor. *)
Record View := mkView {
  viewExpecting : Expecting;
  viewIndex : Z;
  viewConditions : Z;
  viewActions : Z;
  viewConditionId : Z;
  viewActionId : Z;
  viewTrigger : option Trigger.Trigger;
  viewCondition : Z;
  viewAction : Z;
  viewOutput : list Trigger.Trigger
}.
Definition view (st : Parse) : View :=
  mkView (expecting st) (argIndex st) (numConditions st) (numActions st) (conditionId st) (actionId st)
    (currTrig st) (currCondition st) (currAction st) (output st).

Section Pieces.
Context `{Runtime}.
Variable c0 : TextTrigCompiler.

(** The parser is behind the text [pre] and the quoted texts [S0], and has only
    used strings that [c0] knows. *)
Record here (pre : bytes) (S0 : list bytes) (st : Parse) : Prop := {
  here_pos : pos st = zlen pre;
  here_next : nextString (cursor st) = zlen S0;
  here_marked : marked c0 (compiler (cursor st))
}.

(** From a state in [P] the parser reads [tok], whose quoted texts are [ss],
    and comes to a state in [Q], wherever [tok] is. *)
Definition moves (P : View -> Prop) (tok : bytes) (ss : list bytes) (Q : View -> Prop) : Prop :=
  forall pre post S0 S1 st, zlen (pre ++ tok ++ post) < 2 ^ 63 ->
    here pre S0 st -> P (view st) ->
    leads (pre ++ tok ++ post) (S0 ++ ss ++ S1) st (fun st' => here (pre ++ tok) (S0 ++ ss) st' /\ Q (view st')).

Lemma moves_nil P : moves P [] [] P.
Proof. intros pre post S0 S1 st _ Hh HP. apply leads_here. by rewrite !app_nil_r. Qed.

Lemma moves_app P Q R t1 s1 t2 s2 : moves P t1 s1 Q -> moves Q t2 s2 R -> moves P (t1 ++ t2) (s1 ++ s2) R.
Proof.
  intros H1 H2 pre post S0 S1 st Hz Hh HP.
  replace (pre ++ (t1 ++ t2) ++ post) with (pre ++ t1 ++ t2 ++ post) in * by (by rewrite <- app_assoc).
  replace (S0 ++ (s1 ++ s2) ++ S1) with (S0 ++ s1 ++ s2 ++ S1) by (by rewrite <- app_assoc).
  eapply leads_trans; [by apply H1|]. cbn beta. intros st1 [Hh1 HQ]. rewrite !app_assoc in *.
  specialize (H2 (pre ++ t1) post (S0 ++ s1) S1 st1). rewrite !app_assoc in H2. by apply H2.
Qed.

Lemma moves_weaken (P P' Q Q' : View -> Prop) tok ss :
  moves P tok ss Q -> (forall v, P' v -> P v) -> (forall v, Q v -> Q' v) -> moves P' tok ss Q'.
Proof.
  intros Hm HP HQ pre post S0 S1 st Hz Hh HP'. eapply leads_trans; [by apply Hm; [..|apply HP]|].
  intros st' [? ?]. apply leads_here. split; [done | by apply HQ].
Qed.

Lemma in_piece pre tok (post : bytes) : tok <> [] -> zlen pre < zlen (pre ++ tok ++ post).
Proof.
  intros Hne. rewrite !zlen_app. destruct tok; [done|]. rewrite zlen_cons. pose proof (zlen_nonneg tok).
  pose proof (zlen_nonneg post). lia.
Qed.

(** A piece that is read in one round. *)
Lemma moves_step (P Q : View -> Prop) tok :
  tok <> [] ->
  (forall pre post S st, zlen (pre ++ tok ++ post) < 2 ^ 63 -> pos st = zlen pre -> P (view st) ->
     exists st', step (pre ++ tok ++ post) S st = Ret (inr (false, st')) /\
       pos st' = zlen pre + zlen tok /\ cursor st' = cursor st /\ Q (view st')) ->
  moves P tok [] Q.
Proof.
  intros Hne Hs pre post S0 S1 st Hz [Hp Hn Hm] HP. destruct (Hs pre post (S0 ++ [] ++ S1) st Hz Hp HP) as (st' & E & Hp' & Hc & HQ).
  eapply leads_step; [|exact E|].
  - rewrite Hp. by apply in_piece.
  - split; [|done]. rewrite app_nil_r. split; [by rewrite zlen_app | by rewrite Hc..].
Qed.

(** The same for a piece with quoted texts. *)
Lemma moves_reads (P Q : View -> Prop) tok ss :
  tok <> [] ->
  (forall pre post S0 S1 st c, zlen (pre ++ tok ++ post) < 2 ^ 63 -> pos st = zlen pre -> cursor st = mkCursor (zlen S0) c ->
     marked c0 c -> P (view st) ->
     exists st' c', step (pre ++ tok ++ post) (S0 ++ ss ++ S1) st = Ret (inr (false, st')) /\
       pos st' = zlen pre + zlen tok /\ cursor st' = mkCursor (zlen S0 + zlen ss) c' /\ marked c0 c' /\ Q (view st')) ->
  moves P tok ss Q.
Proof.
  intros Hne Hs pre post S0 S1 st Hz [Hp Hn Hm] HP. destruct (cursor st) as [n c] eqn:Ec. cbn in Hn, Hm. subst n.
  destruct (Hs pre post S0 S1 st c Hz Hp Ec Hm HP) as (st' & c' & E & Hp' & Hc' & Hm' & HQ).
  eapply leads_step; [rewrite Hp; by apply in_piece|exact E|].
  split; [|done]. split; [by rewrite zlen_app | by rewrite Hc', zlen_app | by rewrite Hc'].
Qed.

(** The character at an index of the piece. *)
Lemma charAt_at pre tok post st k c : tok !! k = Some c -> pos st = zlen pre + Z.of_nat k -> charAt (pre ++ tok ++ post) st = Ret c.
Proof.
  intros Hk Hp. apply list_elem_of_split_length in Hk as (a & b & -> & ->). unfold charAt. rewrite Hp.
  rewrite <- (sget_tok (pre ++ a) c b post). rewrite zlen_app, <- !app_assoc. done.
Qed.

Lemma moves_newline P : moves P [10] [] P.
Proof.
  apply moves_step; [done|]. intros pre post S st Hz Hp HP. unfold step.
  rewrite (charAt_at _ _ _ _ 0 10) by (done || lia). cbn [obind Z.eqb Pos.eqb].
  eexists. split; [reflexivity|]. destruct st. cbn in *. subst. done.
Qed.

(** The text [s] of the generator is cleaned to something the parser reads from
    [P] to [Q]. *)
Definition piece (P : View -> Prop) (s : bytes) (Q : View -> Prop) : Prop :=
  (13 ∉ s) /\ exists tok ss, cleans (crlf s) tok ss /\ moves P tok ss Q.

Lemma piece_nil P : piece P [] P.
Proof. split; [apply not_elem_of_nil|]. exists [], []. split; [apply cleans_nil | apply moves_nil]. Qed.

Lemma piece_app P Q R s1 s2 : piece P s1 Q -> piece Q s2 R -> piece P (s1 ++ s2) R.
Proof.
  intros [H1 (t1 & ss1 & C1 & M1)] [H2 (t2 & ss2 & C2 & M2)]. split; [rewrite elem_of_app; naive_solver|].
  exists (t1 ++ t2), (ss1 ++ ss2). rewrite crlf_app. split; [by apply cleans_app | by eapply moves_app].
Qed.

Lemma piece_plain P s tok Q : plain s = Some tok -> moves P tok [] Q -> piece P s Q.
Proof. intros Hp Hm. split; [by eapply plain_returns|]. exists tok, []. split; [by apply cleans_plain | done]. Qed.

Lemma piece_newline P : piece P [10] P.
Proof. by apply (piece_plain _ _ [10]); [|apply moves_newline]. Qed.

Lemma piece_comment P body : Forall (fun c => ~ (10 <= c <= 13)) body -> piece P (lit "//" ++ body ++ [10]) P.
Proof.
  intros Hb. split.
  - rewrite !elem_of_app, list_elem_of_singleton. intros [Hin|[Hin|Hin]]; [|rewrite Forall_forall in Hb; apply (Hb 13 Hin); lia|done].
    by revert Hin; apply (bool_decide_unpack _).
  - exists [10], []. split; [|apply moves_newline]. rewrite !crlf_app, (crlf_id body) by done.
    pose proof (cleans_comment (body ++ [13])) as Hc. rewrite <- !app_assoc in Hc. apply Hc.
    rewrite elem_of_app, list_elem_of_singleton. intros [Hin|?]; [|done]. rewrite Forall_forall in Hb. apply (Hb 10 Hin). lia.
Qed.
End Pieces.

(** ** Words at the position *)

(** Whether text that starts with [tok] starts with [w], if [tok] tells. *)
Fixpoint agree (w tok : bytes) : option bool :=
  match w, tok with
  | [], _ => Some true
  | _, [] => None
  | x :: w, y :: tok => if x =? y then agree w tok else Some false
  end.

Lemma agree_spec w tok b : agree w tok = Some b -> forall post, b = bool_decide (w `prefix_of` tok ++ post).
Proof.
  revert tok. induction w as [|x w IH]; intros tok Ha post.
  - injection Ha as <-. symmetry. apply bool_decide_eq_true_2, prefix_nil.
  - destruct tok as [|y tok]; [done|]. cbn [agree] in Ha. destruct (Z.eqb_spec x y) as [->|Hne].
    + rewrite (IH tok Ha post). cbn [app]. apply bool_decide_ext. split; [apply prefix_cons | apply prefix_cons_inv_2].
    + injection Ha as <-. symmetry. apply bool_decide_eq_false_2. intros Hp. by apply prefix_cons_inv_1 in Hp.
Qed.

Lemma isAt_agree w pre tok post st b : pos st = zlen pre -> agree (lit w) tok = Some b ->
  isAt (pre ++ tok ++ post) st w = Ret b.
Proof.
  intros Hp Ha. rewrite (agree_spec _ _ _ Ha post). clear Ha. unfold isAt, compareAt, substr. rewrite Hp, drop_pre.
  generalize (lit w) as v. intros v. rewrite !zlen_app.
  pose proof (zlen_nonneg tok). pose proof (zlen_nonneg post). pose proof (zlen_nonneg v).
  destruct (Z.gtb_spec (zlen pre) (zlen pre + (zlen tok + zlen post))); [lia|]. cbn [obind]. f_equal. apply bool_decide_ext.
  replace (zlen pre + (zlen tok + zlen post) - zlen pre) with (zlen (tok ++ post)) by (rewrite zlen_app; lia).
  generalize (tok ++ post) as r. intros r. split.
  - intros E. rewrite <- E. exists (drop (Z.to_nat (Z.min (zlen v) (zlen r))) r). by rewrite take_drop.
  - intros [k ->]. rewrite zlen_app, Z.min_l by (pose proof (zlen_nonneg k); lia). unfold zlen. rewrite Nat2Z.id. apply take_app_length.
Qed.

(** No newline is skipped when none is there. *)
Lemma skipLines_at pre tok post st k c : tok !! k = Some c -> c <> 10 -> pos st = zlen pre + Z.of_nat k ->
  exists l, skipLines (pre ++ tok ++ post) st = st <| line := l |>.
Proof.
  intros Hk Hc Hp. apply list_elem_of_split_length in Hk as (a & b & -> & ->). unfold skipLines.
  replace (pre ++ (a ++ c :: b) ++ post) with ((pre ++ a) ++ (c :: b) ++ post) by (by rewrite <- !app_assoc).
  replace (pos st) with (zlen (pre ++ a)) by (rewrite zlen_app, Hp; done). rewrite drop_pre. cbn [app newlines].
  rewrite (proj2 (Z.eqb_neq c 10)) by done.
  exists (u32 (line st + 0)). unfold advance. destruct st. cbn in *. by rewrite Z.add_0_r.
Qed.

(** A character that is not in a word is found behind it. *)
Lemma find_past pre tok (post : bytes) c q : (c ∉ tok) -> find (pre ++ tok ++ post) c (zlen pre) = Some q -> zlen pre + zlen tok <= q.
Proof.
  intros Hn E. unfold find in E. destruct (zlen pre <? zlen (pre ++ tok ++ post)); [|done].
  rewrite drop_pre in E. destruct (list_find _ _) as [[i x]|] eqn:Ef; [|done]. injection E as <-.
  apply list_find_Some in Ef as (Ei & -> & _).
  destruct (decide (i < length tok)%nat) as [Hlt|]; [|unfold zlen; lia].
  rewrite lookup_app_l in Ei by done. by apply list_elem_of_lookup_2 in Ei.
Qed.

(** The end of the line is not before the end of a word. *)
Lemma min_line pre tok (post : bytes) : (10 ∉ tok) ->
  Z.min (zlen pre + zlen tok) (default (zlen (pre ++ tok ++ post)) (find (pre ++ tok ++ post) 10 (zlen pre))) = zlen pre + zlen tok.
Proof.
  intros Hn. apply Z.min_l. destruct (find _ _ _) as [q|] eqn:E; cbn; [by apply find_past in E|].
  rewrite !zlen_app. pose proof (zlen_nonneg post). lia.
Qed.

(** The first of two characters. *)
Lemma findNext_here pre tok x (post : bytes) c t : (c ∉ tok) -> (t ∉ tok) -> x = c \/ x = t ->
  findNext (pre ++ tok ++ x :: post) (zlen pre) c t = if x =? c then Some (zlen pre + zlen tok) else None.
Proof.
  intros Hc Ht Hx. unfold findNext. rewrite drop_pre.
  assert (zlen pre < zlen (pre ++ tok ++ x :: post)) as ->%Z.ltb_lt.
  { rewrite !zlen_app, zlen_cons. pose proof (zlen_nonneg tok). pose proof (zlen_nonneg post). lia. }
  assert (list_find (fun y => y = c \/ y = t) (tok ++ x :: post) = Some (length tok, x)) as ->; [|done].
  apply list_find_app_Some. right. split_and!; [lia| |].
  - apply list_find_None, Forall_forall. intros y Hy [-> | ->]; done.
  - rewrite Nat.sub_diag. cbn. by rewrite decide_True.
Qed.

Lemma bare_free tok c : bare tok -> ~ bareChar c -> c ∉ tok.
Proof. intros [_ Hb] Hc Hin. rewrite Forall_forall in Hb. by apply Hc, Hb. Qed.

Lemma not_bare c : c ∈ [0; 9; 10; 32; 40; 41; 44; 58; 59; 123; 125] -> ~ bareChar c.
Proof. intros Hin [_ Hc]. done. Qed.

Ltac free := apply bare_free; [assumption | apply not_bare; apply (bool_decide_unpack _); vm_compute; exact I].

(** ** The trigger that is built *)

Definition pad {A} (n : nat) (blank : A) (l : list A) : list A := l ++ replicate (n - length l) blank.

Record Draft := mkDraft {
  dOwners : list Z;
  dConditions : list Condition.Condition;
  dActions : list Action.Action;
  dFlags : Z
}.
Definition draft (d : Draft) : Trigger.Trigger := Trigger.mkTrigger
  (pad 16 TRG.blankCondition (dConditions d)) (pad 64 TRG.blankAction (dActions d)) (dFlags d) (dOwners d) 0.

Definition building (e : Expecting) (d : Draft) (out : list Trigger.Trigger) (v : View) : Prop :=
  viewExpecting v = e /\ viewConditions v = zlen (dConditions d) /\ viewActions v = zlen (dActions d) /\
  viewTrigger v = Some (draft d) /\ viewOutput v = out.

(** Between two triggers: the last one has been put out, or is about to be. *)
Definition ready (out : list Trigger.Trigger) (v : View) : Prop :=
  viewExpecting v = Trigger_EndOfText /\ viewConditions v = 0 /\ viewActions v = 0 /\ viewOutput v = out.
Definition pending (out : list Trigger.Trigger) (v : View) : Prop :=
  ready out v \/ exists t out', out = out' ++ [t] /\ viewExpecting v = Last /\ viewTrigger v = Some t /\ viewOutput v = out'.

(** The variables of a state, with what is known of them. *)
Ltac open_state st :=
  destruct st; unfold view in *; cbn [pos line expecting argIndex numConditions numActions conditionId actionId currTrig
    currCondition currAction cursor output viewExpecting viewIndex viewConditions viewActions viewConditionId viewActionId
    viewTrigger viewCondition viewAction viewOutput] in *; subst.
Ltac at_pos := cbn [pos advance expect upd]; change (Z.of_nat 0) with 0; first [lia | reflexivity].
(** The character at index [k] of the piece, a word at its start, and no newline
    at index [k]. *)
Ltac at_char k :=
  erewrite (charAt_at _ _ _ _ k) by first [reflexivity | eassumption | at_pos]; cbn [obind].
Ltac at_word := erewrite isAt_agree by reflexivity; cbn [obind].
Ltac no_lines k :=
  match goal with |- context [skipLines (?pre ++ ?tok ++ ?post) ?s] =>
    let l := fresh "l" in let Hl := fresh in
    edestruct (skipLines_at pre tok post s k) as [l Hl]; [reflexivity || eassumption | done | at_pos | rewrite Hl; clear Hl]
  end.
Ltac at_end :=
  match goal with |- _ = _ + zlen ?t =>
    let v := eval vm_compute in (zlen t) in change (zlen t) with v; cbn [pos expect advance upd updp_pos updp_expecting updp_line]; lia
  end.
Ltac moved := eexists; split; [reflexivity|]; split_and!; try done; try at_end.

Section Steps.
Context `{Runtime}.
Variable c0 : TextTrigCompiler.

Lemma moves_open d out : moves c0 (building OpenTriggerBody d out) (lit "{") [] (building SectionStart_EndOfTrigger d out).
Proof.
  apply moves_step; [done|]. intros pre post S st Hz Hp (He & Hc & Ha & Ht & Ho). open_state st.
  unfold step. at_char 0%nat. unfold parsePartTwo, need. at_char 0%nat. moved.
Qed.

Lemma moves_conditions d out :
  moves c0 (building SectionStart_EndOfTrigger d out) (lit "CONDITIONS:") [] (building ConditionStart_NonConditionSectionStart d out).
Proof.
  apply moves_step; [done|]. intros pre post S st Hz Hp (He & Hc & Ha & Ht & Ho). open_state st.
  unfold step. at_char 0%nat. unfold parsePartThree. at_word. moved.
Qed.

Lemma moves_actions d out :
  moves c0 (building ConditionStart_NonConditionSectionStart d out) (lit "ACTIONS:") [] (building ActionStart_FlagSectionStart_EndOfTrigger d out).
Proof.
  apply moves_step; [done|]. intros pre post S st Hz Hp (He & Hc & Ha & Ht & Ho). open_state st.
  unfold step. at_char 0%nat. unfold parsePartFour. at_char 0%nat. cbn [Z.eqb Pos.eqb].
  change (char ";") with 59. change (char "}") with 125. cbn [Z.eqb Pos.eqb].
  at_word. no_lines 7%nat. unfold need. at_char 7%nat. moved.
Qed.

Lemma moves_close d out e : e = ActionStart_FlagSectionStart_EndOfTrigger \/ e = EndOfTrigger ->
  moves c0 (building e d out) (lit "}") [] (pending (out ++ [draft d])).
Proof.
  intros Hx. apply moves_step; [done|]. intros pre post S st Hz Hp (He & Hc & Ha & Ht & Ho). open_state st.
  unfold step. at_char 0%nat. cbn [expecting].
  destruct Hx as [-> | ->]; unfold parsePartSeven, parsePartEleven, need; at_char 0%nat; moved;
    right; by exists (draft d), out.
Qed.

Lemma moves_flags d out :
  moves c0 (building ActionStart_FlagSectionStart_EndOfTrigger d out) (lit "FLAGS:") [] (building ExecutionFlags d out).
Proof.
  apply moves_step; [done|]. intros pre post S st Hz Hp (He & Hc & Ha & Ht & Ho). open_state st.
  unfold step. at_char 0%nat. unfold parsePartSeven. at_char 0%nat.
  change (char ";") with 59. change (char "}") with 125. cbn [Z.eqb Pos.eqb].
  at_word. unfold need. at_char 5%nat. moved.
Qed.

(** A character of the digits of flags. *)
Lemma flagDigits_char flags c : 0 < flags < 2 ^ 32 -> c ∈ flagDigits flags -> c = 48 \/ c = 49.
Proof.
  intros Hf Hin. destruct (flagDigits_spec flags Hf) as (Hd & _). rewrite Forall_forall in Hd.
  destruct (Hd c Hin) as (x & Hx & ->). assert (x = 0 \/ x = 1) as [-> | ->] by lia; auto.
Qed.

Lemma moves_flagDigits d out flags : 0 < flags < 2 ^ 32 ->
  moves c0 (building ExecutionFlags d out) (flagDigits flags ++ lit ";") []
    (building EndOfTrigger (mkDraft (dOwners d) (dConditions d) (dActions d) flags) out).
Proof.
  intros Hf. destruct (flagDigits_spec flags Hf) as (_ & Hlen & _).
  pose proof (fun pre post => parseExecutionFlags_reads pre post flags Hf) as Hr.
  assert (Hc : forall c, c ∈ flagDigits flags -> c = 48 \/ c = 49) by (intros c; by apply flagDigits_char).
  revert Hlen Hr Hc. generalize (flagDigits flags) as ds. intros ds Hlen Hr Hc.
  assert (Eds : exists x r, ds = x :: r) by (destruct ds; [done|by eexists _, _]). destruct Eds as (x & r & Eds).
  assert (Hx : (x =? 10) = false /\ (x =? 59) = false).
  { destruct (Hc x) as [-> | ->]; [rewrite Eds; apply list_elem_of_here|done..]. }
  assert (H0 : (ds ++ lit ";") !! 0%nat = Some x) by (by rewrite Eds).
  apply moves_step; [by rewrite Eds|]. clear Eds. intros pre post S st Hz Hp (He & Hc' & Ha & Ht & Ho). open_state st.
  unfold step. at_char 0%nat. rewrite (proj1 Hx). unfold parsePartTen. at_char 0%nat.
  change (char ";") with 59. rewrite (proj2 Hx). rewrite <- app_assoc. change (lit ";" ++ post) with (59 :: post). cbn [pos].
  rewrite (find_here pre 59 ds post) by (intros Hin; destruct (Hc _ Hin); done).
  unfold theTrigger. cbn [currTrig obind]. rewrite Hr. cbn [obind].
  eexists. split; [reflexivity|]. split_and!; try done.
  rewrite zlen_app. change (zlen pre + zlen ds + 1 = zlen pre + (zlen ds + 1)). lia.
Qed.

(** The start of a trigger, after the one before has been put out. *)
Definition noOwners : list Z := replicate 27 0.

Lemma moves_start out :
  moves c0 (ready out) (lit "TRIGGER(") [] (building Player_EndOfPlayers (mkDraft noOwners [] [] 0) out).
Proof.
  apply moves_step; [done|]. intros pre post S st Hz Hp (He & Hc & Ha & Ho). open_state st.
  unfold step. at_char 0%nat. unfold parsePartZero. at_word. moved.
Qed.

Lemma moves_trigger out :
  moves c0 (pending out) (lit "TRIGGER(") [] (building Player_EndOfPlayers (mkDraft noOwners [] [] 0) out).
Proof.
  intros pre post S0 S1 st Hz Hh [Hr|(t & out' & -> & He & Ht & Ho)]; [by apply moves_start|].
  destruct Hh as [Hp Hn Hm].
  eapply leads_trans with (Q := fun st' => here c0 pre S0 st' /\ ready (out' ++ [t]) (view st')).
  - eapply leads_step; [rewrite Hp; by apply in_piece| |].
    + open_state st. unfold step. at_char 0%nat. cbn [expecting]. unfold theTrigger. cbn [currTrig obind]. reflexivity.
    + open_state st. done.
  - intros st' [Hh' Hr]. by apply moves_start.
Qed.

(** Nothing but the terminator is left. *)
Lemma pending_end T S out st : pos st = zlen T -> pending out (view st) ->
  exists st', forall fuel, run (T ++ [0]) S (1 + fuel) st = Some (Ret (inr st')) /\ output st' = out /\ cursor st' = cursor st.
Proof.
  intros Hp Hr. cbn [Nat.add run].
  assert (pos st < zlen (T ++ [0])) as ->%Z.ltb_lt by (rewrite zlen_app, Hp; change (zlen [0]) with 1; lia).
  pose proof (charAt_at T [0] [] st 0 0 eq_refl ltac:(lia)) as Hc. rewrite app_nil_r in Hc.
  destruct Hr as [(He & Hc1 & Ha & Ho)|(t & out' & -> & He & Ht & Ho)]; open_state st; unfold step; rewrite Hc; cbn [obind expecting].
  - unfold parsePartZero.
    assert (Hw : forall w, agree (lit w) [0] = Some false -> forall st', pos st' = zlen T -> isAt (T ++ [0]) st' w = Ret false).
    { intros w Ha' st' Hp'. pose proof (isAt_agree w T [0] [] st' false Hp' Ha') as Hw. by rewrite app_nil_r in Hw. }
    rewrite !Hw by done. cbn [obind]. rewrite Hc. cbn [obind].
    match goal with |- context [continue ?s] => exists s end. intros fuel. split; [|split; reflexivity].
    destruct fuel; cbn; by rewrite (proj2 (Z.ltb_ge _ _)) by (rewrite zlen_app; change (zlen [0]) with 1; lia).
  - eexists. intros fuel. split; [reflexivity|]. done.
Qed.
End Steps.
