(* ===== verification/TextTrigPieces.v ===== *)
(** The pieces of a generated trigger as the parser reads them: its players, its
    conditions and its actions. *)
From stdpp Require Import strings.
From S2P Require Import Prelude Codec ChkTypes Accessors TriggerTables Triggers StringTable EscapeStrings EscapeProps TextLib TextTrigNames TextTrigArgs TextTrigParser TextTrigProps ScNames TextTrigGenerator TextTrigClean TextTrigTokens TextTrigReads TextTrigArguments TextTrigSteps.
Import Generator(TextTrigGenerator, noCondition, noAction, appendArguments, quote).
Open Scope Z_scope.

Ltac not_in := rewrite !not_elem_of_cons; split_and!; [try done; by symmetry..|apply not_elem_of_nil].

(** ** Players *)

Section Owners.
Context `{Runtime}.
Variable c0 : TextTrigCompiler.

(** A quoted player, whatever is taken for its end. *)
Lemma player_quoted_any pre post S0 S1 raw id e dest c : playerNamed c raw id ->
  parsePlayer (pre ++ [34; 34] ++ post) (S0 ++ [raw] ++ S1) (zlen pre) e dest (mkCursor (zlen S0) c) =
  Ret (true, id, mkCursor (zlen S0 + zlen [raw]) c).
Proof.
  intros Hn. unfold parsePlayer. rewrite quotedAt_quote. cbn [obind].
  unfold argumentText. rewrite takeString_here. cbn [obind compiler]. destruct Hn as [->|[-> Hn]]; cbn [obind]; [done|].
  unfold found. by rewrite Hn.
Qed.

(** What follows the player when the trigger has another value than 1 for it. *)
Definition ownerSuffix (v : Z) : bytes := if v =? 1 then [] else lit ":" ++ to_string v.
Definition ownerWord (v : Z) : bytes := [34; 34] ++ ownerSuffix v.

Lemma number_chars n c : 0 <= n < 10 ^ 20 -> c ∈ to_string n -> 48 <= c <= 57.
Proof.
  intros Hn Hin. destruct (to_string_numeral n Hn) as [Hd _ _ _]. rewrite Forall_forall in Hd.
  destruct (Hd c Hin) as (x & Hx & ->). unfold hex_digit. destruct (Z.gtb_spec x 9); lia.
Qed.

Lemma ownerWord_chars v c : is_u 8 v -> c ∈ ownerWord v -> c = 34 \/ c = 58 \/ 48 <= c <= 57.
Proof.
  intros Hv. unfold is_u in Hv. unfold ownerWord, ownerSuffix. rewrite elem_of_app. intros [Hin|Hin].
  - rewrite !elem_of_cons in Hin. left. destruct Hin as [->|[->|Hin]]; [done..|]. by apply not_elem_of_nil in Hin.
  - destruct (v =? 1); [by apply not_elem_of_nil in Hin|]. rewrite elem_of_app in Hin. destruct Hin as [Hin|Hin].
    + change (lit ":") with [58] in Hin. apply list_elem_of_singleton in Hin. auto.
    + apply number_chars in Hin; [auto | lia].
Qed.

Lemma parseByte_wraps text dest a b : 0 <= b -> b < a -> a < 2 ^ 63 -> parseByte text dest a b = Ret (false, dest).
Proof.
  intros Hb Hlt Ha. unfold parseByte, parseNumber. assert (u64 (b - a) = 2 ^ 64 + (b - a)) as ->.
  { unfold u64. rewrite <- (Z.mod_add _ 1) by lia. rewrite Z.mod_small; lia. }
  by rewrite (proj2 (Z.ltb_ge _ _)) by lia.
Qed.

Lemma executing_player pre x post S0 S1 raw i v t c :
  zlen (pre ++ ownerWord v ++ x :: post) < 2 ^ 63 -> playerNamed c raw i -> 0 <= i < 27 -> 0 < v < 256 -> x <> 58 ->
  zlen (Trigger.owners t) = 27 ->
  parseExecutingPlayer (pre ++ ownerWord v ++ x :: post) (S0 ++ [raw] ++ S1) (zlen pre) (zlen pre + zlen (ownerWord v)) t (mkCursor (zlen S0) c) =
  Ret (true, t <| Trigger.owners := <[Z.to_nat i := v]> (Trigger.owners t) |>, mkCursor (zlen S0 + zlen [raw]) c).
Proof.
  intros Hz Hn Hi Hv Hx Ho. unfold parseExecutingPlayer, ownerWord, ownerSuffix in *. change (char ":") with 58.
  rewrite <- !app_assoc in *.
  destruct (Z.eqb_spec v 1) as [->|Hv1].
  - cbn [app] in Hz |- *. pose proof (fun e d => player_quoted_any pre (x :: post) S0 S1 raw i e d c Hn) as Hp. cbn [app] in Hp.
    destruct (find _ 58 (zlen pre)) as [sep|] eqn:Ef.
    + rewrite Hp. cbn [obind andb]. rewrite (proj2 (Z.ltb_lt i 27)) by lia. cbn [default from_option].
      pose proof (find_past pre [34; 34; x] post 58 sep ltac:(not_in) Ef) as Hs.
      pose proof (find_range _ _ _ _ (zlen_nonneg pre) Ef) as Hr.
      change (zlen [34; 34; x]) with 3 in Hs. change (zlen [34; 34]) with 2.
      rewrite parseByte_wraps by (pose proof (zlen_nonneg pre); unfold id; lia). cbn [obind]. by rewrite vset_in by lia.
    + cbn [obind andb]. rewrite Hp. cbn [obind andb]. rewrite (proj2 (Z.ltb_lt i 27)) by lia. by rewrite vset_in by lia.
  - rewrite <- !app_assoc in *. assert (Hf : find (pre ++ [34; 34] ++ lit ":" ++ to_string v ++ x :: post) 58 (zlen pre) = Some (zlen pre + zlen [34; 34])).
    { apply (find_here pre 58 [34; 34]). not_in. }
    rewrite Hf, (player_quoted_any _ _ _ _ _ i) by done. cbn [obind andb]. rewrite (proj2 (Z.ltb_lt i 27)) by lia. cbn [default from_option].
    pose proof (parseNumber_reads 8 5 (pre ++ [34; 34; 58]) (x :: post) v 0) as Hr. rewrite <- !app_assoc in Hr. cbn [app] in *.
    rewrite (zlen_app pre [34; 34; 58]) in Hr. change (zlen [34; 34; 58]) with 3 in Hr. unfold id.
    replace (zlen pre + zlen [34; 34] + 1) with (zlen pre + 3) by (change (zlen [34; 34]) with 2; lia).
    replace (zlen pre + zlen (34 :: 34 :: lit ":" ++ to_string v)) with (zlen pre + 3 + zlen (to_string v))
      by (rewrite !zlen_cons, zlen_app; change (zlen (lit ":")) with 1; lia).
    change (lit ":" ++ to_string v ++ x :: post) with (58 :: to_string v ++ x :: post) in *.
    unfold parseByte. rewrite Hr by (done || lia).
    cbn [obind]. by rewrite vset_in by lia.
Qed.

Definition owning (d : Draft) (i v : Z) : Draft := mkDraft (<[Z.to_nat i := v]> (dOwners d)) (dConditions d) (dActions d) (dFlags d).

(** The end of the player: a comma, or the parenthesis before the brace. *)
Lemma player_end pre v x post : is_u 8 v -> x = 44 \/ (x = 41 /\ exists p, post = 123 :: p) ->
  let T := pre ++ ownerWord v ++ x :: post in
  match findNext T (zlen pre) 44 123 with Some p => Some p | None => findNext T (zlen pre) 41 123 end = Some (zlen pre + zlen (ownerWord v)).
Proof.
  intros Hv Hx. cbv zeta. pose proof (fun c => ownerWord_chars v c Hv) as Hc.
  assert (Hno : forall c, c = 44 \/ c = 41 \/ c = 123 -> c ∉ ownerWord v) by (intros c ? Hin; specialize (Hc c Hin); lia).
  destruct Hx as [->|[-> (p & ->)]]; [by rewrite (findNext_here pre _ 44 post) by auto|].
  rewrite (findNext_here pre _ 41 (123 :: p) 41) by auto.
  replace (pre ++ ownerWord v ++ 41 :: 123 :: p) with (pre ++ (ownerWord v ++ [41]) ++ 123 :: p) by (by rewrite <- app_assoc).
  rewrite findNext_here; [done| | |auto]; rewrite elem_of_app, list_elem_of_singleton; intros [Hin|?]; try done; apply Hno in Hin; auto.
Qed.

Lemma owner_step pre x post S0 S1 raw i v d out st c :
  zlen (pre ++ ownerWord v ++ x :: post) < 2 ^ 63 -> pos st = zlen pre -> cursor st = mkCursor (zlen S0) c ->
  playerNamed c raw i -> 0 <= i < 27 -> 0 < v < 256 -> zlen (dOwners d) = 27 ->
  x = 44 \/ (x = 41 /\ exists p, post = 123 :: p) -> building Player_EndOfPlayers d out (view st) ->
  exists st', step (pre ++ ownerWord v ++ x :: post) (S0 ++ [raw] ++ S1) st = Ret (inr (false, st')) /\
    pos st' = zlen pre + zlen (ownerWord v) + 1 /\ cursor st' = mkCursor (zlen S0 + zlen [raw]) c /\
    building (if x =? 41 then OpenTriggerBody else Player_EndOfPlayers) (owning d i v) out (view st').
Proof.
  intros Hz Hp Hcur Hn Hi Hv Ho Hx (He & Hc & Ha & Ht & Hout). open_state st.
  assert (H0 : (ownerWord v) !! 0%nat = Some 34) by done. unfold step. at_char 0%nat.
  cbn [Z.eqb Pos.eqb expecting]. unfold parsePartOne. at_char 0%nat.
  change (char ")") with 41. change (char ",") with 44. change (char "{") with 123. cbn [Z.eqb Pos.eqb pos].
  rewrite (player_end pre v x post) by (unfold is_u; auto with lia). unfold theTrigger. cbn [currTrig obind].
  rewrite min_line by (intros Hin; apply ownerWord_chars in Hin; unfold is_u; lia). cbn [cursor].
  rewrite (executing_player pre x post S0 S1 raw i v) by (done || lia). cbn [obind].
  replace (pre ++ ownerWord v ++ x :: post) with (pre ++ (ownerWord v ++ [x]) ++ post) by (by rewrite <- app_assoc).
  assert (Hlx : (ownerWord v ++ [x]) !! length (ownerWord v) = Some x) by (by rewrite lookup_app_r, Nat.sub_diag by lia).
  match goal with |- context [skipLines ?t ?s] => destruct (skipLines_at pre (ownerWord v ++ [x]) post s (length (ownerWord v)) x) as [l ->];
    [done | destruct Hx as [->|[-> _]]; done | done|] end.
  rewrite (charAt_at pre (ownerWord v ++ [x]) post _ (length (ownerWord v)) x) by done. cbn [obind].
  eexists. split; [reflexivity|]. destruct Hx as [->|[-> _]]; done.
Qed.

Lemma moves_owner raw i v d out : (forall c, marked c0 c -> playerNamed c raw i) -> 0 <= i < 27 -> 0 < v < 256 -> zlen (dOwners d) = 27 ->
  moves c0 (building Player_EndOfPlayers d out) (ownerWord v ++ lit ",") [raw] (building Player_EndOfPlayers (owning d i v) out).
Proof.
  intros Hn Hi Hv Ho. apply moves_reads; [done|]. intros pre post S0 S1 st c Hz Hp Hcur Hm Hb.
  rewrite <- app_assoc in *. change (lit "," ++ post) with (44 :: post) in *.
  destruct (owner_step pre 44 post S0 S1 raw i v d out st c) as (st' & E & Hp' & Hc' & Hb'); auto.
  exists st', c. split_and!; [done| |done..]. rewrite Hp', zlen_app. change (zlen (lit ",")) with 1. lia.
Qed.

Lemma moves_lastOwner raw i v d out : (forall c, marked c0 c -> playerNamed c raw i) -> 0 <= i < 27 -> 0 < v < 256 -> zlen (dOwners d) = 27 ->
  moves c0 (building Player_EndOfPlayers d out) (ownerWord v ++ lit "){") [raw] (building SectionStart_EndOfTrigger (owning d i v) out).
Proof.
  intros Hn Hi Hv Ho pre post S0 S1 st Hz [Hp Hnx Hm] Hb. destruct (cursor st) as [n c] eqn:Ec. cbn in Hnx, Hm. subst n.
  replace (pre ++ (ownerWord v ++ lit "){") ++ post) with (pre ++ ownerWord v ++ 41 :: 123 :: post) in * by (by rewrite <- app_assoc).
  destruct (owner_step pre 41 (123 :: post) S0 S1 raw i v d out st c) as (st' & E & Hp' & Hc' & Hb'); eauto 10.
  eapply leads_trans with (Q := fun st1 => st1 = st').
  { eapply leads_step; [rewrite Hp; by apply in_piece|exact E|done]. }
  intros st1 ->. pose proof (moves_open c0 (owning d i v) out ((pre ++ ownerWord v) ++ [41]) post (S0 ++ [raw]) S1 st') as Ho'.
  rewrite (app_nil_r (S0 ++ [raw])), <- (app_assoc S0 [raw]) in Ho'. rewrite <- !(app_assoc (A := Z)) in Ho'.
  apply Ho'; [done| |done].
  split; rewrite ?Hp', ?Hc', ?zlen_app; [change (zlen [41]) with 1; lia | done..].
Qed.

Lemma moves_noOwner d out :
  moves c0 (building Player_EndOfPlayers d out) (lit "){") [] (building SectionStart_EndOfTrigger d out).
Proof.
  eapply (moves_app _ _ (building OpenTriggerBody d out) _ (lit ")") [] (lit "{") []); [|apply moves_open].
  apply moves_step; [done|]. intros pre post S st Hz Hp (He & Hc & Ha & Ht & Ho). open_state st.
  unfold step. at_char 0%nat. unfold parsePartOne. at_char 0%nat. moved.
Qed.

(** A quoted text and the plain text behind it. *)
Lemma quotes_returns e raw : quotes e raw -> 13 ∉ quote e.
Proof.
  intros [_ Hl _]. unfold quote. rewrite !elem_of_app, !list_elem_of_singleton.
  intros [?|[Hin|?]]; [done| |done]. rewrite Forall_forall in Hl. apply (Hl 13 Hin). lia.
Qed.

Lemma piece_quoted P e raw s tok Q : quotes e raw -> plain s = Some tok -> moves c0 P ([34; 34] ++ tok) [raw] Q -> piece c0 P (quote e ++ s) Q.
Proof.
  intros Hq Hs Hm. split.
  - rewrite elem_of_app. intros [Hin|Hin]; [by apply (quotes_returns e raw) in Hin | by eapply plain_returns in Hin].
  - exists ([34; 34] ++ tok), ([raw] ++ []). rewrite crlf_app. split; [|done].
    apply cleans_app; [by apply cleans_quoted | by apply cleans_plain].
Qed.

(** The generator prints the players that have another value than 0. *)
Definition ownerText (g : TextTrigGenerator) (iv : Z * Z) : bytes :=
  (match vget (Generator.groupTable g) iv.1 with Ret s => s | _ => [] end) ++ ownerSuffix iv.2.
Fixpoint ownersText (g : TextTrigGenerator) (l : list (Z * Z)) : bytes :=
  match l with
  | [] => []
  | [iv] => ownerText g iv
  | iv :: l => ownerText g iv ++ lit "," ++ ownersText g l
  end.

Record ownerKnown (g : TextTrigGenerator) (iv : Z * Z) : Prop := {
  owner_index : 0 <= iv.1 < 27;
  owner_value : 0 < iv.2 < 256;
  owner_named : named (vget (Generator.groupTable g) iv.1) (fun raw => playerNamed c0 raw iv.1)
}.

Lemma ownerSuffix_plain v : is_u 8 v -> plain (ownerSuffix v) = Some (ownerSuffix v).
Proof.
  intros Hv. unfold is_u in Hv. unfold ownerSuffix. destruct (v =? 1); [done|]. apply plain_app; [done|].
  apply (number_says v ltac:(lia)).
Qed.

Lemma piece_owner g iv d out delim Q : ownerKnown g iv -> zlen (dOwners d) = 27 -> plain delim = Some delim ->
  (forall raw, (forall c, marked c0 c -> playerNamed c raw iv.1) -> moves c0 (building Player_EndOfPlayers d out) (ownerWord iv.2 ++ delim) [raw] Q) ->
  piece c0 (building Player_EndOfPlayers d out) (ownerText g iv ++ delim) Q.
Proof.
  intros [Hi Hv (e & raw & Hs & Hq & Hr)] Ho Hd Hm. unfold ownerText. rewrite Hs, <- app_assoc.
  apply (piece_quoted _ e raw _ (ownerSuffix iv.2 ++ delim)); [done| |].
  - apply plain_app; [apply ownerSuffix_plain; unfold is_u; lia | done].
  - unfold ownerWord in Hm. rewrite app_assoc. apply Hm. intros c Hmark. by destruct Hmark as (ns & -> & _).
Qed.

Lemma owning_length d i v : zlen (dOwners (owning d i v)) = zlen (dOwners d).
Proof. cbn. unfold zlen. by rewrite length_insert. Qed.

Lemma piece_owners g l d out : Forall (ownerKnown g) l -> zlen (dOwners d) = 27 ->
  piece c0 (building Player_EndOfPlayers d out) (ownersText g l ++ lit "){")
    (building SectionStart_EndOfTrigger (foldl (fun d iv => owning d iv.1 iv.2) d l) out).
Proof.
  intros Hl. revert d. induction Hl as [|iv l Hk Hl IH]; intros d Ho.
  - by apply (piece_plain _ _ _ (lit "){")); [|apply moves_noOwner].
  - pose proof Hk as [Hi Hv _]. destruct l as [|iw l].
    + apply piece_owner; [done..|]. intros raw Hr. by apply moves_lastOwner.
    + change (ownersText g (iv :: iw :: l)) with (ownerText g iv ++ lit "," ++ ownersText g (iw :: l)).
      rewrite <- !app_assoc, (app_assoc (ownerText g iv)). eapply piece_app.
      * apply piece_owner with (Q := building Player_EndOfPlayers (owning d iv.1 iv.2) out); [done..|].
        intros raw Hr. by apply moves_owner.
      * cbn [foldl]. apply IH. by rewrite owning_length.
Qed.

(** The players of a trigger that are printed. *)
Fixpoint ownersFrom (i : Z) (os : list Z) : list (Z * Z) :=
  match os with
  | [] => []
  | v :: os => if v =? 0 then ownersFrom (i + 1) os else (i, v) :: ownersFrom (i + 1) os
  end.

Lemma ownersText_cons g iv l : ownersText g (iv :: l) = ownerText g iv ++ (if bool_decide (l = []) then [] else lit "," ++ ownersText g l).
Proof. destruct l; [|done]. cbn. by rewrite app_nil_r. Qed.

Lemma appendOwners g t rest : forall pre output hp,
  Trigger.owners t = pre ++ rest -> zlen (Trigger.owners t) = 27 -> Forall (ownerKnown g) (ownersFrom (zlen pre) rest) ->
  exists hp', for_each (Generator.appendOwner g t) (range (zlen pre) 27) (output, hp) =
    Ret (output ++ (if hp && bool_decide (ownersFrom (zlen pre) rest <> []) then lit "," else []) ++ ownersText g (ownersFrom (zlen pre) rest), hp').
Proof.
  induction rest as [|v rest IH]; intros pre output hp Ho Hlen Hk.
  - rewrite app_nil_r in Ho. rewrite <- Ho, Hlen. exists hp. cbn. by rewrite andb_false_r, !app_nil_r.
  - assert (Hlt : zlen pre < 27) by (rewrite <- Hlen, Ho, zlen_app, zlen_cons; pose proof (zlen_nonneg rest); lia).
    rewrite range_cons by done. cbn [for_each]. unfold Generator.appendOwner at 1, TRG.owned, get_at.
    pose proof (zlen_nonneg pre). change MaxOwners with 27. zb; cbn [andb]; try lia.
    rewrite Ho. rewrite vget_here. cbn [obind].
    assert (Hpre : zlen pre + 1 = zlen (pre ++ [v])) by (by rewrite zlen_app).
    assert (Ho' : Trigger.owners t = (pre ++ [v]) ++ rest) by (by rewrite <- app_assoc).
    cbn [ownersFrom] in Hk |- *. rewrite Hpre in *. destruct (Z.eqb_spec v 0) as [->|Hv].
    + by apply IH.
    + apply Forall_cons in Hk as [Hk1 Hk]. pose proof Hk1 as [Hi Hv' (e & raw & Hs & _)]. cbn [fst snd] in *. rewrite Hs. cbn [obind].
      edestruct (IH (pre ++ [v])) as [hp' ->]; [done..|]. exists hp'. do 2 f_equal. rewrite ownersText_cons.
      rewrite (bool_decide_eq_true_2 (_ :: _ <> [])) by done. rewrite andb_true_r. cbn [andb].
      unfold ownerText, ownerSuffix. cbn [fst snd]. rewrite Hs, <- !app_assoc. do 4 f_equal.
      destruct (ownersFrom (zlen (pre ++ [v])) rest); [done|]. done.
Qed.

Lemma owning_all os cs as_ flags : forall pre,
  foldl (fun d iv => owning d iv.1 iv.2) (mkDraft (pre ++ replicate (length os) 0) cs as_ flags) (ownersFrom (zlen pre) os) =
  mkDraft (pre ++ os) cs as_ flags.
Proof.
  induction os as [|v os IH]; intros pre; [done|]. cbn [ownersFrom length replicate].
  assert (Hpre : zlen pre + 1 = zlen (pre ++ [v])) by (by rewrite zlen_app). rewrite Hpre.
  specialize (IH (pre ++ [v])). rewrite <- !app_assoc in IH. destruct (Z.eqb_spec v 0) as [->|Hv]; [exact IH|].
  cbn [foldl]. etrans; [|exact IH]. f_equal. unfold owning. cbn [dOwners dConditions dActions dFlags fst snd]. f_equal.
  unfold zlen. rewrite Nat2Z.id. by rewrite insert_app_r_alt, Nat.sub_diag by lia.
Qed.
End Owners.

(** ** Slots *)

Lemma pad_blank {A} n (b : A) l : (length l < n)%nat -> pad n b l = pad n b (l ++ [b]).
Proof.
  intros Hl. unfold pad. rewrite length_app. cbn [length]. rewrite <- app_assoc. f_equal.
  by replace (n - length l)%nat with (S (n - (length l + 1)))%nat by lia.
Qed.
Lemma pad_last {A} n (b : A) l x : pad n b (l ++ [x]) !! length l = Some x.
Proof. unfold pad. rewrite <- app_assoc. by rewrite lookup_app_r, Nat.sub_diag. Qed.
Lemma pad_update {A} n (b : A) l x y : <[length l := y]> (pad n b (l ++ [x])) = pad n b (l ++ [y]).
Proof. unfold pad. rewrite !length_app, <- !app_assoc. rewrite insert_app_r_alt, Nat.sub_diag by lia. done. Qed.
Lemma pad_length {A} n (b : A) l : (length l <= n)%nat -> length (pad n b l) = n.
Proof. intros Hl. unfold pad. rewrite length_app, length_replicate. lia. Qed.

Lemma vget_pad {A} n (b : A) l x : vget (pad n b (l ++ [x])) (zlen l) = Ret x.
Proof. apply vget_Some; [apply zlen_nonneg|]. unfold zlen. rewrite Nat2Z.id. apply pad_last. Qed.
Lemma vset_pad {A} n (b : A) l x y : (length l < n)%nat -> vset (pad n b (l ++ [x])) (zlen l) y = Ret (pad n b (l ++ [y])).
Proof.
  intros Hl. rewrite vset_in by (unfold zlen; rewrite pad_length by (rewrite length_app; cbn; lia); lia).
  unfold zlen. by rewrite Nat2Z.id, pad_update.
Qed.

(** ** Arguments of conditions *)

(** The arguments up to the first without a type. *)
Fixpoint argumentsFrom {A} (arg : Z -> outcome A) (isEnd : A -> bool) (n : nat) (i : Z) : list A :=
  match n with
  | O => []
  | S n => match arg i with
           | Ret a => if isEnd a then [] else a :: argumentsFrom arg isEnd n (i + 1)
           | _ => []
           end
  end.

Lemma forallb_elem {A} (f : A -> bool) l x : forallb f l = true -> x ∈ l -> f x = true.
Proof. rewrite forallb_forall. intros Hall Hx. by apply Hall, list_elem_of_In. Qed.

(** The types that conditions and actions are printed with. *)
Definition conditionIds : list Z := [-2; 1; 2; 3; 4; 5; 6; 7; 8; 9; 10; 11; 12; 14; 15; 16; 17; 18; 19; 20; 21; 22; 23].
Definition actionIds : list Z := -2 :: range 1 58.

Lemma condition_arguments id i : id ∈ conditionIds -> 0 <= i <= 9 -> exists a,
  CND.getTextArgVirtual id i = Ret a /\ CND.getTextArgTypeVirtual id i = Ret (ConditionArgs.type a) /\ (i = 9 -> noCondition a = true).
Proof.
  intros Hid Hi.
  assert (Hall : forallb (fun id => forallb (fun i =>
     match CND.getTextArgVirtual id i with
     | Ret a => bool_decide (CND.getTextArgTypeVirtual id i = Ret (ConditionArgs.type a)) && (negb (i =? 9) || noCondition a)
     | _ => false
     end) (range 0 10)) conditionIds = true) by (vm_compute; reflexivity).
  pose proof (forallb_elem _ _ _ (forallb_elem _ _ _ Hall Hid) (proj2 (elem_of_range 0 10 i) ltac:(lia))) as Hi'. cbn beta in Hi'.
  destruct (CND.getTextArgVirtual id i) as [a| |]; [|done..]. apply andb_prop in Hi' as [Ht%bool_decide_eq_true He].
  exists a. split_and!; [done..|]. intros ->. done.
Qed.

Section Conditions.
Context `{Runtime}.
Variables (g : TextTrigGenerator) (c0 : TextTrigCompiler).

Definition adding (d : Draft) (c : Condition.Condition) : Draft :=
  mkDraft (dOwners d) (dConditions d ++ [c]) (dActions d) (dFlags d).

(** Before argument [i] of the condition [c], the last of the trigger. *)
Definition arguing (id i : Z) (c : Condition.Condition) (d : Draft) (out : list Trigger.Trigger) (v : View) : Prop :=
  viewExpecting v = ConditionArg_EndOfCondition /\ viewIndex v = i /\ viewConditionId v = id /\
  viewCondition v = zlen (dConditions d) /\ viewConditions v = zlen (dConditions d) + 1 /\
  viewActions v = zlen (dActions d) /\ viewTrigger v = Some (draft (adding d c)) /\ viewOutput v = out.

Lemma moves_conditionEnd id i a c d out : CND.getTextArgVirtual id i = Ret a -> noCondition a = true ->
  moves c0 (arguing id i c d out) (lit ");") [] (building ConditionStart_NonConditionSectionStart (adding d c) out).
Proof.
  intros Ha Hend. apply moves_step; [done|]. intros pre post S st Hz Hp (He & Hi & Hid & Hc & Hn & Hac & Ht & Ho). open_state st.
  unfold step. at_char 0%nat. unfold parsePartFive. cbn [conditionId argIndex]. rewrite Ha. cbn [obind]. at_char 0%nat.
  unfold noCondition in Hend. rewrite Hend. no_lines 1%nat. unfold need. at_char 1%nat. moved.
  split_and!; try done. change (zlen (dConditions d) + 1 = zlen (dConditions d ++ [c])). by rewrite zlen_app.
Qed.

(** One argument is read, up to the comma or the parenthesis behind it. *)
Lemma condition_step id i a (last : bool) c copy s tok ss d out pre post S0 S1 st cc : id ∈ conditionIds -> 0 <= i < 9 ->
  CND.getTextArgVirtual id i = Ret a -> noCondition a = false ->
  (exists b, CND.getTextArgVirtual id (i + 1) = Ret b /\ noCondition b = last) ->
  argumentWord (parsesCondition a) copy c0 s tok ss -> zlen (dConditions d) < 16 -> let x := if last then 41 else 44 in
  zlen (pre ++ tok ++ x :: post) < 2 ^ 63 -> pos st = zlen pre -> cursor st = mkCursor (zlen S0) cc -> marked c0 cc ->
  arguing id i c d out (view st) ->
  exists st' cc', step (pre ++ tok ++ x :: post) (S0 ++ ss ++ S1) st = Ret (inr (false, st')) /\
    pos st' = zlen pre + zlen tok + (if last then 0 else 1) /\ cursor st' = mkCursor (zlen S0 + zlen ss) cc' /\ marked c0 cc' /\
    arguing id (i + 1) (copy c) d out (view st').
Proof.
  intros Hid Hi Ha Hna (b & Hb & Hlast) [_ _ Hbare Hr] Hd x Hz Hp Hcur Hm (He & Hix & Hcid & Hc & Hn & Hac & Ht & Ho). open_state st. set (last := noCondition b) in *.
  destruct (Hr cc Hm) as (cc' & Hm' & Hparse). pose proof (bare_free tok x Hbare ltac:(by apply not_bare; unfold x; destruct last; apply (bool_decide_unpack _))) as Hx.
  assert (Htok : exists y r, tok = y :: r /\ y <> 10 /\ y <> 41).
  { destruct Hbare as [Hne Hf]. destruct tok as [|y r]; [done|]. exists y, r. apply Forall_cons in Hf as [Hy _].
    apply bareChar_range in Hy. split_and!; [done|tauto..]. }
  destruct Htok as (y & r & Etok & Hy10 & Hy41). assert (H0 : tok !! 0%nat = Some y) by (by rewrite Etok).
  unfold step. at_char 0%nat. rewrite (proj2 (Z.eqb_neq y 10)) by done. cbn [expecting]. unfold parsePartFive. cbn [conditionId argIndex].
  rewrite Ha. cbn [obind]. at_char 0%nat. change (char ")") with 41. change (char ",") with 44. rewrite (proj2 (Z.eqb_neq y 41)) by done.
  unfold noCondition in Hna. rewrite Hna.
  destruct (condition_arguments id (i + 1) Hid ltac:(lia)) as (b' & Hb' & Hty & _). rewrite Hb in Hb'. injection Hb' as <-.
  rewrite Hty. cbn [obind]. change (bool_decide (ConditionArgs.type b = ConditionArgs.T_NoType)) with last. fold x. cbn [pos]. rewrite find_here by done.
  unfold conditionArgument, theTrigger. cbn [currTrig currCondition cursor pos obind].
  change (Trigger.conditions (draft (adding d c))) with (pad 16 TRG.blankCondition (dConditions d ++ [c])).
  rewrite vget_pad. cbn [obind]. unfold parsesCondition in Hparse. rewrite Hparse by lia. cbn [obind].
  rewrite vset_pad by (unfold zlen in Hd; lia). cbn [obind].
  eexists _, cc'. split; [reflexivity|]. split_and!; try done. destruct last; cbn; lia.
Qed.

(** The text of an argument followed by plain text. *)
Lemma piece_word {R} parse (copy : R -> R) s tok ss s' tok' P Q : argumentWord parse copy c0 s tok ss -> plain s' = Some tok' ->
  moves c0 P (tok ++ tok') ss Q -> piece c0 P (s ++ s') Q.
Proof.
  intros [Hl Hc _ _] Hs Hm. split; [rewrite elem_of_app; intros [?|Hin]; [done | by eapply plain_returns in Hin]|].
  exists (tok ++ tok'), (ss ++ []). rewrite crlf_app. split; [apply cleans_app; [done | by apply cleans_plain] | by rewrite app_nil_r].
Qed.

Lemma word_nonempty {R} parse (copy : R -> R) s tok ss : argumentWord parse copy c0 s tok ss -> tok <> [].
Proof. by intros [_ _ [? _] _]. Qed.

Section Argument.
Variables (id i : Z) (a b : ConditionArgs.Argument) (c : Condition.Condition) (copy : Condition.Condition -> Condition.Condition).
Variables (s tok : bytes) (ss : list bytes) (d : Draft) (out : list Trigger.Trigger).
Hypotheses (Hid : id ∈ conditionIds) (Hi : 0 <= i < 9) (Ha : CND.getTextArgVirtual id i = Ret a) (Hna : noCondition a = false).
Hypotheses (Hb : CND.getTextArgVirtual id (i + 1) = Ret b) (Hw : argumentWord (parsesCondition a) copy c0 s tok ss).
Hypothesis Hd : zlen (dConditions d) < 16.

Lemma piece_conditionArgument : noCondition b = false -> piece c0 (arguing id i c d out) (s ++ lit ", ") (arguing id (i + 1) (copy c) d out).
Proof.
  intros Hnb. eapply (piece_word _ _ _ _ _ _ (lit ",")); [exact Hw|done|]. apply moves_reads; [by destruct (tok)|].
  intros pre post S0 S1 st cc Hz Hp Hcur Hm Hv.
  rewrite <- app_assoc in *. change (lit "," ++ post) with (44 :: post) in *.
  destruct (condition_step id i a false c copy s tok ss d out pre post S0 S1 st cc) as (st' & cc' & E & Hp' & Hc' & Hm' & Hv'); eauto.
  exists st', cc'. split_and!; try done. rewrite Hp', zlen_app. change (zlen (lit ",")) with 1. lia.
Qed.

Lemma piece_lastCondition : noCondition b = true ->
  piece c0 (arguing id i c d out) (s ++ lit ");") (building ConditionStart_NonConditionSectionStart (adding d (copy c)) out).
Proof.
  intros Hnb. eapply (piece_word _ _ _ _ _ _ (lit ");")); [exact Hw|done|].
  intros pre post S0 S1 st Hz [Hp Hnx Hm] Hv. destruct (cursor st) as [n cc] eqn:Ec. cbn in Hnx, Hm. subst n.
  replace (pre ++ (tok ++ lit ");") ++ post) with (pre ++ tok ++ 41 :: 59 :: post) in * by (by rewrite <- app_assoc).
  destruct (condition_step id i a true c copy s tok ss d out pre (59 :: post) S0 S1 st cc) as (st' & cc' & E & Hp' & Hc' & Hm' & Hv'); eauto.
  eapply leads_trans with (Q := fun st1 => st1 = st').
  { eapply leads_step; [rewrite Hp; apply in_piece; by eapply word_nonempty|exact E|done]. }
  intros st1 ->. pose proof (moves_conditionEnd id (i + 1) b (copy c) d out Hb Hnb (pre ++ tok) post (S0 ++ ss) S1 st') as Ho'.
  rewrite (app_nil_r (S0 ++ ss)), <- (app_assoc S0 ss) in Ho'. rewrite <- !(app_assoc (A := Z)) in Ho'.
  apply Ho'; [done| |done]. split; rewrite ?Hp', ?Hc', ?zlen_app; [lia | done..].
Qed.
End Argument.

Definition conditionArguments (id : Z) : nat -> Z -> list ConditionArgs.Argument := argumentsFrom (CND.getTextArgVirtual id) noCondition.
Definition copyArguments (src c : Condition.Condition) : list ConditionArgs.Argument -> Condition.Condition :=
  foldl (fun c a => copyCondition a src c) c.

Lemma piece_conditionArguments id src d out : id ∈ conditionIds -> zlen (dConditions d) < 16 -> forall n i c,
  Z.of_nat n + i = 9 -> 0 <= i -> let args := conditionArguments id n i in Forall (conditionKnown g c0 src) args ->
  exists body, appendArguments (CND.getTextArgVirtual id) noCondition (Generator.appendConditionArgument g src) n i =
      Ret ((if (i >? 0) && bool_decide (args <> []) then lit ", " else []) ++ body) /\
    piece c0 (arguing id i c d out) (body ++ lit ");") (building ConditionStart_NonConditionSectionStart (adding d (copyArguments src c args)) out).
Proof.
  intros Hid Hd. induction n as [|n IH]; intros i c Hn Hi args Hk; unfold args, conditionArguments in *; clear args; cbn [argumentsFrom appendArguments] in *;
    destruct (condition_arguments id i Hid ltac:(lia)) as (a & Ha & _ & Hend).
  - exists []. split; [by rewrite andb_false_r|]. apply (piece_plain _ _ _ (lit ");")); [done|].
    eapply moves_conditionEnd; [exact Ha | apply Hend; lia].
  - rewrite Ha in *. cbn [obind]. destruct (noCondition a) eqn:Hna.
    + exists []. split; [by rewrite andb_false_r|]. apply (piece_plain _ _ _ (lit ");")); [done|]. by eapply moves_conditionEnd.
    + apply Forall_cons in Hk as [Hka Hk]. destruct (condition_prints g c0 src a Hka) as (s & tok & ss & Hs & Hw).
      destruct (IH (i + 1) (copyCondition a src c) ltac:(lia) ltac:(lia) Hk) as (body & Hb & Hpiece).
      destruct (condition_arguments id (i + 1) Hid ltac:(lia)) as (b & Hb1 & _ & _).
      assert (Hempty : bool_decide (argumentsFrom (CND.getTextArgVirtual id) noCondition n (i + 1) = []) = noCondition b).
      { destruct n as [|n]; cbn [argumentsFrom].
        - destruct (condition_arguments id (i + 1) Hid ltac:(lia)) as (b' & Hb1' & _ & He'). rewrite Hb1 in Hb1'. injection Hb1' as <-.
          rewrite He' by lia. done.
        - rewrite Hb1. by destruct (noCondition b). }
      exists (s ++ (if noCondition b then [] else lit ", ") ++ body). rewrite Hs, Hb. cbn [obind].
      assert (Hsep : bool_decide (argumentsFrom (CND.getTextArgVirtual id) noCondition n (i + 1) <> []) = negb (noCondition b)).
      { rewrite bool_decide_not. by rewrite Hempty. }
      rewrite Hsep, (proj2 (Z.gtb_lt (i + 1) 0)) by lia. rewrite (bool_decide_eq_true_2 (_ :: _ <> [])), andb_true_r by done. cbn [andb].
      split; [by destruct (noCondition b)|]. rewrite <- !app_assoc. cbn [copyArguments foldl].
      destruct (noCondition b) eqn:Hnb; cbn [app].
      * apply bool_decide_eq_true in Hempty. rewrite Hempty in *.
        rewrite bool_decide_eq_false_2, andb_false_r in Hb by (intros Hx; by apply Hx).
        assert (body = []) as ->. { destruct n; cbn [appendArguments] in Hb; [by injection Hb|]. rewrite Hb1 in Hb. cbn [obind] in Hb. rewrite Hnb in Hb. by injection Hb. }
        eapply (piece_lastCondition id i a b c (copyCondition a src)); eauto with lia.
      * rewrite app_assoc. eapply piece_app; [|exact Hpiece]. eapply (piece_conditionArgument id i a b); eauto with lia.
Qed.

(** ** Names of conditions *)

Definition conditionName (id : Z) : bytes :=
  if id =? -2 then lit "Memory" else default [] (Generator.conditionNames !! Z.to_nat id).
Definition defaultConditionFlags (id : Z) : Z := match CND.getDefaultFlagsVirtual id with Ret f => f | _ => 0 end.
Definition regularCondition (id : Z) : Z := if id <? 0 then extendedToRegularConditionType id else u8 id.

(** A condition before its arguments are read. *)
Definition newCondition (id : Z) (disabled : bool) : Condition.Condition :=
  TRG.blankCondition
    <| Condition.flags := if disabled then Z.lor (defaultConditionFlags id) CND.Flags_Disabled else defaultConditionFlags id |>
    <| Condition.conditionType := regularCondition id |>.

Record header (name : bytes -> outcome (option Z)) (flags : Z -> outcome Z) (others : list string) (id : Z) (tok : bytes) : Prop := {
  header_bare : bare tok;
  header_name : name (word tok) = Ret (Some id);
  header_flags : is_ret (flags id);
  header_others : Forall (fun w => agree (lit w) (tok ++ lit "(") = Some false) others;
  header_id : id <> 0
}.
Definition isHeader (name : bytes -> outcome (option Z)) (flags : Z -> outcome Z) (others : list string) (id : Z) (tok : bytes) : bool :=
  bool_decide (bare tok) && (match name (word tok) with Ret (Some i) => i =? id | _ => false end) &&
  (match flags id with Ret _ => true | _ => false end) &&
  forallb (fun w => bool_decide (agree (lit w) (tok ++ lit "(") = Some false)) others && negb (id =? 0).

Lemma isHeader_spec name flags others id tok : isHeader name flags others id tok = true -> header name flags others id tok.
Proof.
  unfold isHeader. rewrite !andb_true_iff. intros ((((Hb & Hn) & Hf) & Ho) & Hid). split.
  - by apply bool_decide_eq_true in Hb.
  - destruct (name (word tok)) as [[i|]| |]; try done. by apply Z.eqb_eq in Hn as ->.
  - destruct (flags id) as [f| |]; try done. by exists f.
  - apply Forall_forall. intros w Hw. by apply (forallb_elem _ _ w Ho), bool_decide_eq_true in Hw.
  - by apply negb_true_iff, Z.eqb_neq in Hid.
Qed.

Definition conditionOthers : list string := ["ACTIONS"; "FLAGS"]%string.

Lemma condition_header id : id ∈ conditionIds -> exists tok, plain (conditionName id) = Some tok /\
  header parseConditionName CND.getDefaultFlagsVirtual conditionOthers id tok.
Proof.
  intros Hid.
  assert (Hall : forallb (fun id => match plain (conditionName id) with
     | Some tok => isHeader parseConditionName CND.getDefaultFlagsVirtual conditionOthers id tok | None => false end) conditionIds = true)
    by (vm_compute; reflexivity).
  pose proof (forallb_elem _ _ _ Hall Hid) as Hi. cbn beta in Hi. destruct (plain (conditionName id)) as [tok|]; [|done].
  exists tok. split; [done | by apply isHeader_spec].
Qed.

Lemma conditionStart_here id tok disabled pre post d out st :
  header parseConditionName CND.getDefaultFlagsVirtual conditionOthers id tok -> zlen (dConditions d) < 16 ->
  pos st = zlen pre -> building ConditionStart_NonConditionSectionStart d out (view st) ->
  exists st', conditionStart (pre ++ tok ++ 40 :: post) disabled (zlen pre + zlen tok) st = continue st' /\
    pos st' = zlen pre + zlen tok + 1 /\ cursor st' = cursor st /\ arguing id 0 (newCondition id disabled) d out (view st').
Proof.
  intros [Hb Hn [f Hf] _ Hid] Hd Hp (He & Hc & Ha & Ht & Ho). open_state st. unfold conditionStart, parseCondition. cbn [pos].
  replace (zlen pre + zlen tok - zlen pre) with (zlen tok) by lia. rewrite slice_tok. cbn [obind]. rewrite Hn. cbn [obind].
  change (default 0 (Some id)) with id. rewrite Hf. cbn [obind]. rewrite (proj2 (Z.eqb_neq id 0)) by done.
  repeat match goal with |- context [numConditions ?s] => change (numConditions s) with (zlen (dConditions d)) end. change MaxConditions with 16. rewrite Z.gtb_ltb, (proj2 (Z.ltb_ge 16 (zlen (dConditions d)))) by lia.
  match goal with |- context [theTrigger ?s] => change (theTrigger s) with (Ret (draft d)) end. cbn [obind]. unfold TRG.condition, get_at, set_at. change MaxConditions with 16.
  pose proof (zlen_nonneg (dConditions d)). rewrite (proj2 (Z.ltb_lt (zlen (dConditions d)) 16)) by lia.
  change (Trigger.conditions (draft d)) with (pad 16 TRG.blankCondition (dConditions d)).
  rewrite pad_blank by (unfold zlen in Hd; lia). rewrite vget_pad. cbn [obind]. rewrite vset_pad by (unfold zlen in Hd; lia). cbn [obind].
  replace (pre ++ tok ++ 40 :: post) with (pre ++ (tok ++ [40]) ++ post) by (by rewrite <- app_assoc).
  assert (Hlx : (tok ++ [40]) !! length tok = Some 40) by (by rewrite lookup_app_r, Nat.sub_diag by lia).
  match goal with |- context [skipLines ?t ?s] => destruct (skipLines_at pre (tok ++ [40]) post s (length tok) 40) as [l ->]; [done..|] end.
  unfold need. rewrite (charAt_at pre (tok ++ [40]) post _ (length tok) 40) by done. cbn [obind].
  eexists. split; [reflexivity|]. split_and!; try done.
  unfold arguing. cbn. split_and!; try done. unfold newCondition, defaultConditionFlags. by rewrite Hf.
Qed.

Lemma bare_head tok : bare tok -> exists y r, tok = y :: r /\ y <> 10 /\ y <> 41 /\ y <> 59 /\ y <> 125.
Proof.
  intros [Hne Hf]. destruct tok as [|y r]; [done|]. exists y, r. apply Forall_cons in Hf as [[_ Hy] _].
  rewrite !not_elem_of_cons in Hy. split_and!; [done|tauto..].
Qed.

(** The round in which [conditionStart] or [actionStart] goes on. *)
Lemma round_continues T S st p st' : parsePartFour T st = continue st' -> expecting st = ConditionStart_NonConditionSectionStart ->
  charAt T st = Ret p -> p <> 10 -> step T S st = Ret (inr (false, st')).
Proof. intros Hc He Hp H10. unfold step. rewrite Hp. cbn [obind]. by rewrite (proj2 (Z.eqb_neq p 10)), He, Hc by done. Qed.

Lemma moves_conditionHeader id tok disabled d out :
  header parseConditionName CND.getDefaultFlagsVirtual conditionOthers id tok -> zlen (dConditions d) < 16 ->
  moves c0 (building ConditionStart_NonConditionSectionStart d out) ((if disabled : bool then [59] else []) ++ tok ++ lit "(") []
    (arguing id 0 (newCondition id disabled) d out).
Proof.
  intros Hh Hd. pose proof Hh as [Hb _ _ Ho _]. destruct (bare_head tok Hb) as (y & r & Ey & Hy10 & _ & Hy59 & Hy125).
  pose proof (bare_free tok 40 Hb ltac:(by apply not_bare; apply (bool_decide_unpack _))) as H40.
  pose proof (bare_free tok 10 Hb ltac:(by apply not_bare; apply (bool_decide_unpack _))) as H10.
  apply moves_step; [by destruct disabled, tok|]. intros pre post S st Hz Hp Hv.
  assert (He : expecting st = ConditionStart_NonConditionSectionStart) by apply Hv.
  destruct disabled.
  - assert (H0 : ([59] ++ tok ++ lit "(") !! 0%nat = Some 59) by done.
    assert (H1 : ([59] ++ tok ++ lit "(") !! 1%nat = Some y) by (by rewrite Ey).
    set (s1 := advance 1 st). destruct (skipLines_at pre ([59] ++ tok ++ lit "(") post s1 1 y H1 Hy10) as [l Hl];
      [unfold s1; cbn; lia|].
    destruct (conditionStart_here id tok true (pre ++ [59]) post d out (s1 <| line := l |>) Hh Hd) as (st' & Hc & Hp' & Hcur & Hv').
    { rewrite zlen_app. unfold s1. cbn. rewrite Hp. done. }
    { unfold s1. by destruct st. }
    exists st'. split_and!; [|rewrite Hp', !zlen_app; change (zlen [59]) with 1; change (zlen (lit "(")) with 1; lia
                             |rewrite Hcur; by destruct st|done].
    eapply round_continues; [|done|by eapply (charAt_at _ _ _ _ 0 59); [|lia]|done].
    unfold parsePartFour. rewrite (charAt_at _ _ _ _ 0 59) by (done || lia). cbn [obind]. change (59 =? char ";") with true. cbv iota.
    fold s1. rewrite Hl. cbv zeta.
    replace (pre ++ ([59] ++ tok ++ lit "(") ++ post) with ((pre ++ [59]) ++ tok ++ 40 :: post) by (by rewrite <- !app_assoc).
    assert (Hpos : pos (s1 <| line := l |>) = zlen (pre ++ [59])) by (unfold s1; cbn; rewrite zlen_app, Hp; done).
    rewrite Hpos. change (char "(") with 40. rewrite find_here by done.
    rewrite Z.min_l by (rewrite !zlen_app, !zlen_cons; pose proof (zlen_nonneg post); lia).
    by destruct (find _ 10 _).
  - cbn [app] in *. destruct (conditionStart_here id tok false pre post d out st Hh Hd Hp Hv) as (st' & Hc & Hp' & Hcur & Hv').
    exists st'. split_and!; [|rewrite Hp', !zlen_app; change (zlen (lit "(")) with 1; lia|done..].
    assert (H0 : (tok ++ lit "(") !! 0%nat = Some y) by (by rewrite Ey).
    eapply round_continues; [|done|by eapply (charAt_at _ _ _ _ 0 y); [|lia]|done].
    unfold parsePartFour. rewrite (charAt_at _ _ _ _ 0 y) by (done || lia). cbn [obind].
    rewrite (proj2 (Z.eqb_neq y (char ";"))), (proj2 (Z.eqb_neq y (char "}"))) by done.
    apply Forall_cons in Ho as [Hoa Ho]. apply Forall_cons in Ho as [Hof _].
    rewrite (isAt_agree "ACTIONS" pre _ post st false) by done. cbn [obind].
    rewrite (isAt_agree "FLAGS" pre _ post st false) by done. cbn [obind].
    replace (pre ++ (tok ++ lit "(") ++ post) with (pre ++ tok ++ 40 :: post) by (by rewrite <- !app_assoc).
    rewrite Hp. change (char "(") with 40. rewrite find_here, min_line by done. exact Hc.
Qed.

(** ** Conditions *)

(** The type a condition is printed with. *)
Definition printedCondition (c : Condition.Condition) : Z :=
  if (Condition.conditionType c =? 15) && (Condition.player c >? 28) then -2 else Condition.conditionType c.
Definition isDisabled (flags : Z) : bool := Z.land flags 2 =? 2.

Record conditionPrintable (c : Condition.Condition) : Prop := {
  printable_type : 0 <= Condition.conditionType c;
  printable_condition : printedCondition c ∈ conditionIds;
  printable_arguments : Forall (conditionKnown g c0 c) (conditionArguments (printedCondition c) 9 0)
}.

(** What is left of a condition: its type, the flags of the type, whether it is
    disabled, and the fields of its arguments. *)
Definition normalCondition (c : Condition.Condition) : Condition.Condition :=
  copyArguments c (newCondition (printedCondition c) (isDisabled (Condition.flags c))) (conditionArguments (printedCondition c) 9 0).

Lemma conditionIds_range id : id ∈ conditionIds -> id = -2 \/ 1 <= id <= 23.
Proof.
  intros Hid. assert (Hall : forallb (fun id => (id =? -2) || ((1 <=? id) && (id <=? 23))) conditionIds = true) by done.
  pose proof (forallb_elem _ _ _ Hall Hid) as Hi. cbn beta in Hi. revert Hi. zb; cbn; try done; lia.
Qed.

Lemma conditionName_printed c : Generator.conditionTable g = Generator.filled Generator.conditionNames ->
  0 <= Condition.conditionType c -> printedCondition c ∈ conditionIds ->
  (if (Condition.conditionType c =? 15) && (Condition.player c >? 28) then Ret (lit "Memory")
   else if (Condition.conditionType c >=? 0) && (Condition.conditionType c <? zlen (Generator.conditionTable g))
        then vget (Generator.conditionTable g) (Condition.conditionType c) else Ret (lit "Custom")) = Ret (conditionName (printedCondition c)) /\
  Condition.conditionType c <> 0.
Proof.
  intros Hg Ht. unfold printedCondition. rewrite Hg. destruct ((_ =? 15) && _) eqn:E.
  - intros _. split; [done|]. apply andb_prop in E as [E%Z.eqb_eq _]. lia.
  - intros [Hx|Hx]%conditionIds_range; [lia|]. split; [|lia]. change (zlen (Generator.filled Generator.conditionNames)) with 256.
    rewrite Z.geb_leb, (proj2 (Z.leb_le 0 _)), (proj2 (Z.ltb_lt (Condition.conditionType c) 256)) by lia. cbn [andb].
    unfold conditionName. rewrite (proj2 (Z.eqb_neq (Condition.conditionType c) (-2))) by lia.
    destruct (lookup_lt_is_Some_2 Generator.conditionNames (Z.to_nat (Condition.conditionType c))) as [n Hn];
      [change (length Generator.conditionNames) with 24%nat; lia|].
    rewrite Hn. apply vget_Some; [lia|]. unfold Generator.filled. by apply lookup_app_l_Some.
Qed.

Lemma piece_condition c d out : Generator.conditionTable g = Generator.filled Generator.conditionNames ->
  conditionPrintable c -> zlen (dConditions d) < 16 ->
  exists s, Generator.appendCondition g c = Ret s /\
    piece c0 (building ConditionStart_NonConditionSectionStart d out) s
      (building ConditionStart_NonConditionSectionStart (adding d (normalCondition c)) out).
Proof.
  intros Hg [Ht Hid Hargs] Hd. destruct (conditionName_printed c Hg Ht Hid) as [Hname Hne].
  destruct (condition_header _ Hid) as (tok & Hplain & Hh).
  destruct (piece_conditionArguments _ c d out Hid Hd 9 0 (newCondition (printedCondition c) (isDisabled (Condition.flags c)))
    eq_refl ltac:(lia) Hargs) as (body & Hb & Hp).
  unfold Generator.appendCondition. rewrite (proj2 (Z.eqb_neq _ 0)) by done. rewrite Hname. cbn [obind].
  change (if (_ =? 15) && (_ >? 28) then Generator.VirtualType_Memory else _) with (printedCondition c).
  change (Z.to_nat ConditionArgs.MaxArguments) with 9%nat. rewrite Hb. cbn [obind andb Z.gtb Z.compare app].
  fold (isDisabled (Condition.flags c)). eexists. split; [reflexivity|].
  assert (Hstart : piece c0 (building ConditionStart_NonConditionSectionStart d out)
    ((if isDisabled (Condition.flags c) then [10; 59; 9] else [10; 9]) ++ conditionName (printedCondition c) ++ lit "(")
    (arguing (printedCondition c) 0 (newCondition (printedCondition c) (isDisabled (Condition.flags c))) d out)).
  { eapply (piece_plain _ _ _ ([10] ++ (if isDisabled (Condition.flags c) then [59] else []) ++ tok ++ lit "(")).
    - rewrite (app_assoc [10]). apply plain_app; [by destruct (isDisabled _)|]. by apply plain_app.
    - eapply (moves_app _ _ _ _ [10] [] _ []); [apply moves_newline | by apply moves_conditionHeader]. }
  pose proof (piece_app _ _ _ _ _ _ Hstart Hp) as Hall. rewrite <- !app_assoc in Hall. exact Hall.
Qed.

(** The conditions of a trigger in their order; one without a type prints nothing. *)
Definition printedConditions (cs : list Condition.Condition) : list Condition.Condition :=
  filter (fun c => Condition.conditionType c <> 0) cs.

Lemma piece_conditions t rest : Generator.conditionTable g = Generator.filled Generator.conditionNames ->
  zlen (Trigger.conditions t) = 16 ->
  forall pre output d out, Trigger.conditions t = pre ++ rest ->
  Forall conditionPrintable (printedConditions rest) -> zlen (dConditions d) <= zlen pre ->
  exists s, for_each (fun i output => let* c := TRG.condition t i in let* s := Generator.appendCondition g c in Ret (output ++ s))
      (range (zlen pre) MaxConditions) output = Ret (output ++ s) /\
    piece c0 (building ConditionStart_NonConditionSectionStart d out) s
      (building ConditionStart_NonConditionSectionStart (foldl adding d (normalCondition <$> printedConditions rest)) out).
Proof.
  intros Hg Hlen. change MaxConditions with 16. induction rest as [|c rest IH]; intros pre output d out Hc Hk Hd.
  - rewrite app_nil_r in Hc. rewrite <- Hc, Hlen. exists []. split; [by rewrite app_nil_r | apply piece_nil].
  - assert (Hlt : zlen pre < 16) by (rewrite <- Hlen, Hc, zlen_app, zlen_cons; pose proof (zlen_nonneg rest); lia).
    assert (Hget : TRG.condition t (zlen pre) = Ret c).
    { unfold TRG.condition, get_at. change MaxConditions with 16. rewrite (proj2 (Z.ltb_lt (zlen pre) 16)) by done.
      rewrite Hc. apply vget_here. }
    rewrite range_cons by done. cbn [for_each]. rewrite Hget. cbn [obind].
    replace (zlen pre + 1) with (zlen (pre ++ [c])) by (by rewrite zlen_app).
    assert (Hc' : Trigger.conditions t = (pre ++ [c]) ++ rest) by (by rewrite <- app_assoc).
    unfold printedConditions in *. rewrite filter_cons in *. destruct (decide (Condition.conditionType c <> 0)) as [Hne|He].
    + apply Forall_cons in Hk as [Hk1 Hk]. destruct (piece_condition c d out Hg Hk1 ltac:(lia)) as (s1 & Hs1 & Hp1). rewrite Hs1. cbn [obind].
      destruct (IH (pre ++ [c]) (output ++ s1) (adding d (normalCondition c)) out Hc' Hk) as (s & Hs & Hp).
      { cbn [adding dConditions]. rewrite !zlen_app. change (zlen [c]) with 1. change (zlen [normalCondition c]) with 1. lia. }
      exists (s1 ++ s). rewrite Hs, app_assoc. split; [done|]. by eapply piece_app.
    + apply dec_stable in He. unfold Generator.appendCondition at 1. rewrite He. cbn [Z.eqb obind]. rewrite app_nil_r.
      apply (IH (pre ++ [c])); [done..|]. rewrite zlen_app. change (zlen [c]) with 1. lia.
Qed.
End Conditions.
