(* ===== verification/TextTrigActionPieces.v ===== *)
(** The actions of a generated trigger as the parser reads them. *)
From stdpp Require Import strings.
From S2P Require Import Prelude Codec ChkTypes Accessors TriggerTables Triggers StringTable EscapeStrings EscapeProps TextLib TextTrigNames TextTrigArgs TextTrigParser TextTrigProps ScNames TextTrigGenerator TextTrigClean TextTrigTokens TextTrigReads TextTrigArguments TextTrigSteps TextTrigPieces.
Import Generator(TextTrigGenerator, noAction, appendArguments, quote).
Open Scope Z_scope.

Lemma action_arguments id i : id ∈ actionIds -> 0 <= i <= 11 -> exists a,
  ACT.getTextArgVirtual id i = Ret a /\ ACT.getTextArgTypeVirtual id i = Ret (ActionArgs.type a) /\ (i = 11 -> noAction a = true).
Proof.
  intros Hid Hi.
  assert (Hall : forallb (fun id => forallb (fun i =>
     match ACT.getTextArgVirtual id i with
     | Ret a => bool_decide (ACT.getTextArgTypeVirtual id i = Ret (ActionArgs.type a)) && (negb (i =? 11) || noAction a)
     | _ => false
     end) (range 0 12)) actionIds = true) by (vm_compute; reflexivity).
  pose proof (forallb_elem _ _ _ (forallb_elem _ _ _ Hall Hid) (proj2 (elem_of_range 0 12 i) ltac:(lia))) as Hi'. cbn beta in Hi'.
  destruct (ACT.getTextArgVirtual id i) as [a| |]; [|done..]. apply andb_prop in Hi' as [Ht%bool_decide_eq_true He].
  exists a. split_and!; [done..|]. intros ->. done.
Qed.

Section Actions.
Context `{Runtime}.
Variables (g : TextTrigGenerator) (c0 : TextTrigCompiler).

(** The place of a field of the action that is added to [d]. *)
Definition placeIn (d : Draft) (out : list Trigger.Trigger) : ActionArgs.ArgField -> Assignee :=
  mkAssignee (zlen out) (zlen (dActions d)).

Definition addingAction (d : Draft) (c : Action.Action) : Draft :=
  mkDraft (dOwners d) (dConditions d) (dActions d ++ [c]) (dFlags d).

(** Before argument [i] of the action [c], the last of the trigger. *)
Definition acting (id i : Z) (c : Action.Action) (d : Draft) (out : list Trigger.Trigger) (v : View) : Prop :=
  viewExpecting v = ActionArg_EndOfAction /\ viewIndex v = i /\ viewActionId v = id /\
  viewAction v = zlen (dActions d) /\ viewActions v = zlen (dActions d) + 1 /\
  viewConditions v = zlen (dConditions d) /\ viewTrigger v = Some (draft (addingAction d c)) /\ viewOutput v = out.

Lemma moves_actionEnd id i a c d out : ACT.getTextArgVirtual id i = Ret a -> noAction a = true ->
  moves c0 (acting id i c d out) (lit ");") [] (building ActionStart_FlagSectionStart_EndOfTrigger (addingAction d c) out).
Proof.
  intros Ha Hend. apply moves_step; [done|]. intros pre post S st Hz Hp (He & Hi & Hid & Hc & Hn & Hac & Ht & Ho). open_state st.
  unfold step. at_char 0%nat. unfold parsePartEight. cbn [actionId argIndex]. rewrite Ha. cbn [obind]. at_char 0%nat.
  unfold noAction in Hend. rewrite Hend. no_lines 1%nat. unfold need. at_char 1%nat. moved.
  split_and!; try done. change (zlen (dActions d) + 1 = zlen (dActions d ++ [c])). by rewrite zlen_app.
Qed.

(** One argument is read, up to the comma or the parenthesis behind it. *)
Lemma action_step id i a (last : bool) c copy s tok ss d out pre post S0 S1 st cc : id ∈ actionIds -> 0 <= i < 11 ->
  ACT.getTextArgVirtual id i = Ret a -> noAction a = false ->
  (exists b, ACT.getTextArgVirtual id (i + 1) = Ret b /\ noAction b = last) ->
  argumentWord (parsesAction (placeIn d out) a) copy c0 s tok ss -> zlen (dActions d) < 64 -> let x := if last then 41 else 44 in
  zlen (pre ++ tok ++ x :: post) < 2 ^ 63 -> pos st = zlen pre -> cursor st = mkCursor (zlen S0) cc -> marked c0 cc ->
  acting id i c d out (view st) ->
  exists st' cc', step (pre ++ tok ++ x :: post) (S0 ++ ss ++ S1) st = Ret (inr (false, st')) /\
    pos st' = zlen pre + zlen tok + (if last then 0 else 1) /\ cursor st' = mkCursor (zlen S0 + zlen ss) cc' /\ marked c0 cc' /\
    acting id (i + 1) (copy c) d out (view st').
Proof.
  intros Hid Hi Ha Hna (b & Hb & Hlast) [_ _ Hbare Hr] Hd x Hz Hp Hcur Hm (He & Hix & Hcid & Hc & Hn & Hac & Ht & Ho). open_state st. set (last := noAction b) in *.
  destruct (Hr cc Hm) as (cc' & Hm' & Hparse). pose proof (bare_free tok x Hbare ltac:(by apply not_bare; unfold x; destruct last; apply (bool_decide_unpack _))) as Hx.
  assert (Htok : exists y r, tok = y :: r /\ y <> 10 /\ y <> 41).
  { destruct Hbare as [Hne Hf]. destruct tok as [|y r]; [done|]. exists y, r. apply Forall_cons in Hf as [Hy _].
    apply bareChar_range in Hy. split_and!; [done|tauto..]. }
  destruct Htok as (y & r & Etok & Hy10 & Hy41). assert (H0 : tok !! 0%nat = Some y) by (by rewrite Etok).
  unfold step. at_char 0%nat. rewrite (proj2 (Z.eqb_neq y 10)) by done. cbn [expecting]. unfold parsePartEight. cbn [actionId argIndex].
  rewrite Ha. cbn [obind]. at_char 0%nat. change (char ")") with 41. change (char ",") with 44. rewrite (proj2 (Z.eqb_neq y 41)) by done.
  unfold noAction in Hna. rewrite Hna.
  destruct (action_arguments id (i + 1) Hid ltac:(lia)) as (b' & Hb' & Hty & _). rewrite Hb in Hb'. injection Hb' as <-.
  rewrite Hty. cbn [obind]. change (bool_decide (ActionArgs.type b = ActionArgs.T_NoType)) with last. fold x. cbn [pos]. rewrite find_here by done.
  unfold actionArgument, theTrigger. cbn [currTrig currAction cursor pos obind].
  change (Trigger.actions (draft (addingAction d c))) with (pad 64 TRG.blankAction (dActions d ++ [c])).
  rewrite vget_pad. cbn [obind]. unfold parsesAction in Hparse. rewrite Hparse by lia. cbn [obind].
  rewrite vset_pad by (unfold zlen in Hd; lia). cbn [obind].
  eexists _, cc'. split; [reflexivity|]. split_and!; try done. destruct last; cbn; lia.
Qed.

Section Argument.
Variables (id i : Z) (a b : ActionArgs.Argument) (c : Action.Action) (copy : Action.Action -> Action.Action).
Variables (s tok : bytes) (ss : list bytes) (d : Draft) (out : list Trigger.Trigger).
Hypotheses (Hid : id ∈ actionIds) (Hi : 0 <= i < 11) (Ha : ACT.getTextArgVirtual id i = Ret a) (Hna : noAction a = false).
Hypotheses (Hb : ACT.getTextArgVirtual id (i + 1) = Ret b) (Hw : argumentWord (parsesAction (placeIn d out) a) copy c0 s tok ss).
Hypothesis Hd : zlen (dActions d) < 64.

Lemma piece_actionArgument : noAction b = false -> piece c0 (acting id i c d out) (s ++ lit ", ") (acting id (i + 1) (copy c) d out).
Proof.
  intros Hnb. eapply (piece_word _ _ _ _ _ _ _ (lit ",")); [exact Hw|done|]. apply moves_reads; [by destruct (tok)|].
  intros pre post S0 S1 st cc Hz Hp Hcur Hm Hv.
  rewrite <- app_assoc in *. change (lit "," ++ post) with (44 :: post) in *.
  destruct (action_step id i a false c copy s tok ss d out pre post S0 S1 st cc) as (st' & cc' & E & Hp' & Hc' & Hm' & Hv'); eauto.
  exists st', cc'. split_and!; try done. rewrite Hp', zlen_app. change (zlen (lit ",")) with 1. lia.
Qed.

Lemma piece_lastAction : noAction b = true ->
  piece c0 (acting id i c d out) (s ++ lit ");") (building ActionStart_FlagSectionStart_EndOfTrigger (addingAction d (copy c)) out).
Proof.
  intros Hnb. eapply (piece_word _ _ _ _ _ _ _ (lit ");")); [exact Hw|done|].
  intros pre post S0 S1 st Hz [Hp Hnx Hm] Hv. destruct (cursor st) as [n cc] eqn:Ec. cbn in Hnx, Hm. subst n.
  replace (pre ++ (tok ++ lit ");") ++ post) with (pre ++ tok ++ 41 :: 59 :: post) in * by (by rewrite <- app_assoc).
  destruct (action_step id i a true c copy s tok ss d out pre (59 :: post) S0 S1 st cc) as (st' & cc' & E & Hp' & Hc' & Hm' & Hv'); eauto.
  eapply leads_trans with (Q := fun st1 => st1 = st').
  { eapply leads_step; [rewrite Hp; apply in_piece; by eapply word_nonempty|exact E|done]. }
  intros st1 ->. pose proof (moves_actionEnd id (i + 1) b (copy c) d out Hb Hnb (pre ++ tok) post (S0 ++ ss) S1 st') as Ho'.
  rewrite (app_nil_r (S0 ++ ss)), <- (app_assoc S0 ss) in Ho'. rewrite <- !(app_assoc (A := Z)) in Ho'.
  apply Ho'; [done| |done]. split; rewrite ?Hp', ?Hc', ?zlen_app; [lia | done..].
Qed.
End Argument.

Definition actionArguments (id : Z) : nat -> Z -> list ActionArgs.Argument := argumentsFrom (ACT.getTextArgVirtual id) noAction.
Definition copyActionArguments (src c : Action.Action) : list ActionArgs.Argument -> Action.Action :=
  foldl (fun c a => copyAction a src c) c.

Lemma piece_actionArguments id src d out : id ∈ actionIds -> zlen (dActions d) < 64 -> forall n i c,
  Z.of_nat n + i = 11 -> 0 <= i -> let args := actionArguments id n i in Forall (actionKnown g c0 src) args ->
  exists body, appendArguments (ACT.getTextArgVirtual id) noAction (Generator.appendActionArgument g src) n i =
      Ret ((if (i >? 0) && bool_decide (args <> []) then lit ", " else []) ++ body) /\
    piece c0 (acting id i c d out) (body ++ lit ");") (building ActionStart_FlagSectionStart_EndOfTrigger (addingAction d (copyActionArguments src c args)) out).
Proof.
  intros Hid Hd. induction n as [|n IH]; intros i c Hn Hi args Hk; unfold args, actionArguments in *; clear args; cbn [argumentsFrom appendArguments] in *;
    destruct (action_arguments id i Hid ltac:(lia)) as (a & Ha & _ & Hend).
  - exists []. split; [by rewrite andb_false_r|]. apply (piece_plain _ _ _ (lit ");")); [done|].
    eapply moves_actionEnd; [exact Ha | apply Hend; lia].
  - rewrite Ha in *. cbn [obind]. destruct (noAction a) eqn:Hna.
    + exists []. split; [by rewrite andb_false_r|]. apply (piece_plain _ _ _ (lit ");")); [done|]. by eapply moves_actionEnd.
    + apply Forall_cons in Hk as [Hka Hk]. destruct (action_prints g c0 (placeIn d out) src a Hka) as (s & tok & ss & Hs & Hw).
      destruct (IH (i + 1) (copyAction a src c) ltac:(lia) ltac:(lia) Hk) as (body & Hb & Hpiece).
      destruct (action_arguments id (i + 1) Hid ltac:(lia)) as (b & Hb1 & _ & _).
      assert (Hempty : bool_decide (argumentsFrom (ACT.getTextArgVirtual id) noAction n (i + 1) = []) = noAction b).
      { destruct n as [|n]; cbn [argumentsFrom].
        - destruct (action_arguments id (i + 1) Hid ltac:(lia)) as (b' & Hb1' & _ & He'). rewrite Hb1 in Hb1'. injection Hb1' as <-.
          rewrite He' by lia. done.
        - rewrite Hb1. by destruct (noAction b). }
      exists (s ++ (if noAction b then [] else lit ", ") ++ body). rewrite Hs, Hb. cbn [obind].
      assert (Hsep : bool_decide (argumentsFrom (ACT.getTextArgVirtual id) noAction n (i + 1) <> []) = negb (noAction b)).
      { rewrite bool_decide_not. by rewrite Hempty. }
      rewrite Hsep, (proj2 (Z.gtb_lt (i + 1) 0)) by lia. rewrite (bool_decide_eq_true_2 (_ :: _ <> [])), andb_true_r by done. cbn [andb].
      split; [by destruct (noAction b)|]. rewrite <- !app_assoc. cbn [copyActionArguments foldl].
      destruct (noAction b) eqn:Hnb; cbn [app].
      * apply bool_decide_eq_true in Hempty. rewrite Hempty in *.
        rewrite bool_decide_eq_false_2, andb_false_r in Hb by (intros Hx; by apply Hx).
        assert (body = []) as ->. { destruct n; cbn [appendArguments] in Hb; [by injection Hb|]. rewrite Hb1 in Hb. cbn [obind] in Hb. rewrite Hnb in Hb. by injection Hb. }
        eapply (piece_lastAction id i a b c (copyAction a src)); eauto with lia.
      * rewrite app_assoc. eapply piece_app; [|exact Hpiece]. eapply (piece_actionArgument id i a b); eauto with lia.
Qed.

(** ** Names of actions *)

Definition actionName (id : Z) : bytes :=
  if id =? -2 then lit "Set Memory" else default [] (Generator.actionNames !! Z.to_nat id).
Definition defaultActionFlags (id : Z) : Z := match ACT.getDefaultFlagsVirtual id with Ret f => f | _ => 0 end.
Definition regularAction (id : Z) : Z := if id <? 0 then extendedToRegularActionType id else u8 id.

(** An action before its arguments are read. *)
Definition newAction (id : Z) (disabled : bool) : Action.Action :=
  TRG.blankAction
    <| Action.flags := if disabled then Z.lor (defaultActionFlags id) ACT.Flags_Disabled else defaultActionFlags id |>
    <| Action.actionType := regularAction id |>.

Definition actionOthers : list string := ["FLAGS"]%string.

Lemma action_header id : id ∈ actionIds -> exists tok, plain (actionName id) = Some tok /\
  header parseAction_name ACT.getDefaultFlagsVirtual actionOthers id tok.
Proof.
  intros Hid.
  assert (Hall : forallb (fun id => match plain (actionName id) with
     | Some tok => isHeader parseAction_name ACT.getDefaultFlagsVirtual actionOthers id tok | None => false end) actionIds = true)
    by (vm_compute; reflexivity).
  pose proof (forallb_elem _ _ _ Hall Hid) as Hi. cbn beta in Hi. destruct (plain (actionName id)) as [tok|]; [|done].
  exists tok. split; [done | by apply isHeader_spec].
Qed.

Lemma actionStart_here id tok disabled pre post d out st :
  header parseAction_name ACT.getDefaultFlagsVirtual actionOthers id tok -> zlen (dActions d) < 64 ->
  pos st = zlen pre -> building ActionStart_FlagSectionStart_EndOfTrigger d out (view st) ->
  exists st', actionStart (pre ++ tok ++ 40 :: post) disabled (zlen pre + zlen tok) st = continue st' /\
    pos st' = zlen pre + zlen tok + 1 /\ cursor st' = cursor st /\ acting id 0 (newAction id disabled) d out (view st').
Proof.
  intros [Hb Hn [f Hf] _ Hid] Hd Hp (He & Hc & Ha & Ht & Ho). open_state st. unfold actionStart, parseAction. cbn [pos].
  replace (zlen pre + zlen tok - zlen pre) with (zlen tok) by lia. rewrite slice_tok. cbn [obind]. rewrite Hn. cbn [obind].
  change (default 0 (Some id)) with id. rewrite Hf. cbn [obind]. rewrite (proj2 (Z.eqb_neq id 0)) by done.
  repeat match goal with |- context [numActions ?s] => change (numActions s) with (zlen (dActions d)) end. change MaxActions with 64. rewrite Z.gtb_ltb, (proj2 (Z.ltb_ge 64 (zlen (dActions d)))) by lia.
  match goal with |- context [theTrigger ?s] => change (theTrigger s) with (Ret (draft d)) end. cbn [obind]. unfold TRG.action, get_at, set_at. change MaxActions with 64.
  pose proof (zlen_nonneg (dActions d)). rewrite (proj2 (Z.ltb_lt (zlen (dActions d)) 64)) by lia.
  change (Trigger.actions (draft d)) with (pad 64 TRG.blankAction (dActions d)).
  rewrite pad_blank by (unfold zlen in Hd; lia). rewrite vget_pad. cbn [obind]. rewrite vset_pad by (unfold zlen in Hd; lia). cbn [obind].
  eexists. split; [reflexivity|]. split_and!; try done.
  unfold acting. cbn. split_and!; try done. unfold newAction, defaultActionFlags. by rewrite Hf.
Qed.

Lemma action_round T S st p st' : parsePartSeven T st = continue st' -> expecting st = ActionStart_FlagSectionStart_EndOfTrigger ->
  charAt T st = Ret p -> p <> 10 -> step T S st = Ret (inr (false, st')).
Proof. intros Hc He Hp H10. unfold step. rewrite Hp. cbn [obind]. by rewrite (proj2 (Z.eqb_neq p 10)), He, Hc by done. Qed.

Lemma moves_actionHeader id tok disabled d out :
  header parseAction_name ACT.getDefaultFlagsVirtual actionOthers id tok -> zlen (dActions d) < 64 ->
  moves c0 (building ActionStart_FlagSectionStart_EndOfTrigger d out) ((if disabled : bool then [59] else []) ++ tok ++ lit "(") []
    (acting id 0 (newAction id disabled) d out).
Proof.
  intros Hh Hd. pose proof Hh as [Hb _ _ Ho _]. destruct (bare_head tok Hb) as (y & r & Ey & Hy10 & _ & Hy59 & Hy125).
  pose proof (bare_free tok 40 Hb ltac:(by apply not_bare; apply (bool_decide_unpack _))) as H40.
  pose proof (bare_free tok 10 Hb ltac:(by apply not_bare; apply (bool_decide_unpack _))) as H10.
  apply moves_step; [by destruct disabled, tok|]. intros pre post S st Hz Hp Hv.
  assert (He : expecting st = ActionStart_FlagSectionStart_EndOfTrigger) by apply Hv.
  destruct disabled.
  - assert (H0 : ([59] ++ tok ++ lit "(") !! 0%nat = Some 59) by done. set (s1 := advance 1 st).
    assert (Hpos : pos s1 = zlen (pre ++ [59])) by (unfold s1; cbn; rewrite zlen_app, Hp; done).
    destruct (actionStart_here id tok true (pre ++ [59]) post d out s1 Hh Hd Hpos) as (st' & Hc & Hp' & Hcur & Hv').
    { unfold s1. by destruct st. }
    exists st'. split_and!; [|rewrite Hp', !zlen_app; change (zlen [59]) with 1; change (zlen (lit "(")) with 1; lia
                             |rewrite Hcur; by destruct st|done].
    eapply action_round; [|done|by eapply (charAt_at _ _ _ _ 0 59); [|lia]|done].
    unfold parsePartSeven. rewrite (charAt_at _ _ _ _ 0 59) by (done || lia). cbn [obind]. change (59 =? char ";") with true. cbv iota zeta.
    fold s1.
    replace (pre ++ ([59] ++ tok ++ lit "(") ++ post) with ((pre ++ [59]) ++ tok ++ 40 :: post) by (by rewrite <- !app_assoc).
    rewrite Hpos. change (char "(") with 40. rewrite find_here, min_line by done. exact Hc.
  - cbn [app] in *. destruct (actionStart_here id tok false pre post d out st Hh Hd Hp Hv) as (st' & Hc & Hp' & Hcur & Hv').
    exists st'. split_and!; [|rewrite Hp', !zlen_app; change (zlen (lit "(")) with 1; lia|done..].
    assert (H0 : (tok ++ lit "(") !! 0%nat = Some y) by (by rewrite Ey).
    eapply action_round; [|done|by eapply (charAt_at _ _ _ _ 0 y); [|lia]|done].
    unfold parsePartSeven. rewrite (charAt_at _ _ _ _ 0 y) by (done || lia). cbn [obind].
    rewrite (proj2 (Z.eqb_neq y (char ";"))), (proj2 (Z.eqb_neq y (char "}"))) by done.
    apply Forall_cons in Ho as [Hof _].
    rewrite (isAt_agree "FLAGS" pre _ post st false) by done. cbn [obind].
    replace (pre ++ (tok ++ lit "(") ++ post) with (pre ++ tok ++ 40 :: post) by (by rewrite <- !app_assoc).
    rewrite Hp. change (char "(") with 40. rewrite find_here, min_line by done. exact Hc.
Qed.

(** ** Actions *)

(** The type a action is printed with. *)
Definition printedAction (c : Action.Action) : Z :=
  if (Action.actionType c =? 45) && (Action.group c >? 28) then -2 else Action.actionType c.

Record actionPrintable (c : Action.Action) : Prop := {
  printable_actionType : 0 <= Action.actionType c;
  printable_action : printedAction c ∈ actionIds;
  printable_actionArguments : Forall (actionKnown g c0 c) (actionArguments (printedAction c) 11 0)
}.

(** What is left of an action: its type, the flags of the type, whether it is
    disabled, and the fields of its arguments. *)
Definition normalAction (c : Action.Action) : Action.Action :=
  copyActionArguments c (newAction (printedAction c) (isDisabled (Action.flags c))) (actionArguments (printedAction c) 11 0).

Lemma actionIds_range id : id ∈ actionIds -> id = -2 \/ 1 <= id <= 57.
Proof.
  intros Hid. assert (Hall : forallb (fun id => (id =? -2) || ((1 <=? id) && (id <=? 57))) actionIds = true) by done.
  pose proof (forallb_elem _ _ _ Hall Hid) as Hi. cbn beta in Hi. revert Hi. zb; cbn; try done; lia.
Qed.

Lemma actionName_printed c : Generator.actionTable g = Generator.filled Generator.actionNames ->
  0 <= Action.actionType c -> printedAction c ∈ actionIds ->
  (if (Action.actionType c =? 45) && (Action.group c >? 28) then Ret (lit "Set Memory")
   else if (Action.actionType c >=? 0) && (Action.actionType c <? zlen (Generator.actionTable g))
        then vget (Generator.actionTable g) (Action.actionType c) else Ret (lit "Custom")) = Ret (actionName (printedAction c)) /\
  Action.actionType c <> 0.
Proof.
  intros Hg Ht. unfold printedAction. rewrite Hg. destruct ((_ =? 45) && _) eqn:E.
  - intros _. split; [done|]. apply andb_prop in E as [E%Z.eqb_eq _]. lia.
  - intros [Hx|Hx]%actionIds_range; [lia|]. split; [|lia]. change (zlen (Generator.filled Generator.actionNames)) with 256.
    rewrite Z.geb_leb, (proj2 (Z.leb_le 0 _)), (proj2 (Z.ltb_lt (Action.actionType c) 256)) by lia. cbn [andb].
    unfold actionName. rewrite (proj2 (Z.eqb_neq (Action.actionType c) (-2))) by lia.
    destruct (lookup_lt_is_Some_2 Generator.actionNames (Z.to_nat (Action.actionType c))) as [n Hn];
      [change (length Generator.actionNames) with 60%nat; lia|].
    rewrite Hn. apply vget_Some; [lia|]. unfold Generator.filled. by apply lookup_app_l_Some.
Qed.

Lemma piece_action c d out : Generator.actionTable g = Generator.filled Generator.actionNames ->
  actionPrintable c -> zlen (dActions d) < 64 ->
  exists s, Generator.appendAction g c = Ret s /\
    piece c0 (building ActionStart_FlagSectionStart_EndOfTrigger d out) s
      (building ActionStart_FlagSectionStart_EndOfTrigger (addingAction d (normalAction c)) out).
Proof.
  intros Hg [Ht Hid Hargs] Hd. destruct (actionName_printed c Hg Ht Hid) as [Hname Hne].
  destruct (action_header _ Hid) as (tok & Hplain & Hh).
  destruct (piece_actionArguments _ c d out Hid Hd 11 0 (newAction (printedAction c) (isDisabled (Action.flags c)))
    eq_refl ltac:(lia) Hargs) as (body & Hb & Hp).
  unfold Generator.appendAction. rewrite (proj2 (Z.eqb_neq _ 0)) by done. rewrite Hname. cbn [obind].
  change (if (_ =? 45) && (_ >? 28) then Generator.VirtualType_SetMemory else _) with (printedAction c).
  change (Z.to_nat ActionArgs.MaxArguments) with 11%nat. rewrite Hb. cbn [obind andb Z.gtb Z.compare app].
  fold (isDisabled (Action.flags c)). eexists. split; [reflexivity|].
  assert (Hstart : piece c0 (building ActionStart_FlagSectionStart_EndOfTrigger d out)
    ((if isDisabled (Action.flags c) then [10; 59; 9] else [10; 9]) ++ actionName (printedAction c) ++ lit "(")
    (acting (printedAction c) 0 (newAction (printedAction c) (isDisabled (Action.flags c))) d out)).
  { eapply (piece_plain _ _ _ ([10] ++ (if isDisabled (Action.flags c) then [59] else []) ++ tok ++ lit "(")).
    - rewrite (app_assoc [10]). apply plain_app; [by destruct (isDisabled _)|]. by apply plain_app.
    - eapply (moves_app _ _ _ _ [10] [] _ []); [apply moves_newline | by apply moves_actionHeader]. }
  pose proof (piece_app _ _ _ _ _ _ Hstart Hp) as Hall. rewrite <- !app_assoc in Hall. exact Hall.
Qed.

(** The actions of a trigger in their order; one without a type prints nothing. *)
Definition printedActions (cs : list Action.Action) : list Action.Action :=
  filter (fun c => Action.actionType c <> 0) cs.

Lemma piece_actions t rest : Generator.actionTable g = Generator.filled Generator.actionNames ->
  zlen (Trigger.actions t) = 64 ->
  forall pre output d out, Trigger.actions t = pre ++ rest ->
  Forall actionPrintable (printedActions rest) -> zlen (dActions d) <= zlen pre ->
  exists s, for_each (fun i output => let* c := TRG.action t i in let* s := Generator.appendAction g c in Ret (output ++ s))
      (range (zlen pre) MaxActions) output = Ret (output ++ s) /\
    piece c0 (building ActionStart_FlagSectionStart_EndOfTrigger d out) s
      (building ActionStart_FlagSectionStart_EndOfTrigger (foldl addingAction d (normalAction <$> printedActions rest)) out).
Proof.
  intros Hg Hlen. change MaxActions with 64. induction rest as [|c rest IH]; intros pre output d out Hc Hk Hd.
  - rewrite app_nil_r in Hc. rewrite <- Hc, Hlen. exists []. split; [by rewrite app_nil_r | apply piece_nil].
  - assert (Hlt : zlen pre < 64) by (rewrite <- Hlen, Hc, zlen_app, zlen_cons; pose proof (zlen_nonneg rest); lia).
    assert (Hget : TRG.action t (zlen pre) = Ret c).
    { unfold TRG.action, get_at. change MaxActions with 64. rewrite (proj2 (Z.ltb_lt (zlen pre) 64)) by done.
      rewrite Hc. apply vget_here. }
    rewrite range_cons by done. cbn [for_each]. rewrite Hget. cbn [obind].
    replace (zlen pre + 1) with (zlen (pre ++ [c])) by (by rewrite zlen_app).
    assert (Hc' : Trigger.actions t = (pre ++ [c]) ++ rest) by (by rewrite <- app_assoc).
    unfold printedActions in *. rewrite filter_cons in *. destruct (decide (Action.actionType c <> 0)) as [Hne|He].
    + apply Forall_cons in Hk as [Hk1 Hk]. destruct (piece_action c d out Hg Hk1 ltac:(lia)) as (s1 & Hs1 & Hp1). rewrite Hs1. cbn [obind].
      destruct (IH (pre ++ [c]) (output ++ s1) (addingAction d (normalAction c)) out Hc' Hk) as (s & Hs & Hp).
      { cbn [addingAction dActions]. rewrite !zlen_app. change (zlen [c]) with 1. change (zlen [normalAction c]) with 1. lia. }
      exists (s1 ++ s). rewrite Hs, app_assoc. split; [done|]. by eapply piece_app.
    + apply dec_stable in He. unfold Generator.appendAction at 1. rewrite He. cbn [Z.eqb obind]. rewrite app_nil_r.
      apply (IH (pre ++ [c])); [done..|]. rewrite zlen_app. change (zlen [c]) with 1. lia.
Qed.
End Actions.
