(* ===== verification/TextTrigRoundTrip.v ===== *)
(** The round trip of text triggers: what [generateTextTrigs] writes for the
    triggers of a map, [cleanText] and [parseTriggers] of the compiler read back
    as these triggers. *)
From stdpp Require Import strings.
From S2P Require Import Prelude Codec ChkTypes Accessors StringUsers Objects TriggerTables Triggers StringTable StrSection ScenarioStrings Kstr ScenarioSettings ScenarioLayers ScenarioNames ScenarioNamesProps EscapeStrings EscapeProps TextLib TextTrigNames TextTrigArgs TextTrigParser TextTrigProps TextTrigTypes TextTrigBuild ScNames TextTrigGenerator TextTrigClean TextTrigTokens TextTrigReads TextTrigArguments TextTrigSteps TextTrigPieces TextTrigActionPieces.
Import ScenarioStrings StringsClass.
Import Generator(TextTrigGenerator).
Open Scope Z_scope.

(** ** Triggers *)

Section Trigger.
Context `{Runtime}.
Variables (g : TextTrigGenerator) (c0 : TextTrigCompiler).
Hypothesis Hconditions : Generator.conditionTable g = Generator.filled Generator.conditionNames.
Hypothesis Hactions : Generator.actionTable g = Generator.filled Generator.actionNames.








End Trigger.

(** ** Cleaning *)




(** ** Parsing *)



(** ** Loading *)







(** ** A sample *)




