(* ===== verification/TextTrigNormal.v ===== *)
(** The triggers that a text is read to are read back unchanged when they are
    generated again: what the round trip leaves out of a trigger is left out the
    first time. *)
From stdpp Require Import strings.
From S2P Require Import Prelude Codec ChkTypes Accessors StringUsers Objects TriggerTables Triggers StringTable StrSection ScenarioStrings Kstr ScenarioSettings ScenarioLayers ScenarioNames ScenarioNamesProps EscapeStrings EscapeProps TextLib TextTrigNames TextTrigArgs TextTrigParser TextTrigProps TextTrigTypes TextTrigBuild ScNames TextTrigGenerator TextTrigClean TextTrigTokens TextTrigReads TextTrigArguments TextTrigSteps TextTrigPieces TextTrigActionPieces TextTrigRoundTrip.
Import ScenarioStrings StringsClass.
Import Generator(TextTrigGenerator).
Open Scope Z_scope.

(** ** Conditions *)












(** ** Actions *)










(** ** Triggers *)










