(* ===== verification/Selections.v ===== *)
(** The selections of the editor (ChkdraftLib, Selections.cpp): the tiles that
    are selected, each with the edges that are drawn around it, the selected
    location with the ones that were selected before it, and the indices of the
    selected units, which follow the units when these are moved.

    The vectors are lists in their order; a [POINT] is a pair.  [map] is only
    asked for its locations, which are an argument. *)
From S2P Require Import Prelude Codec ChkTypes ChkSection Locations.
Open Scope Z_scope.

(** [TileNeighbor]: the sides at which a tile has no selected neighbour. *)
Module TileNeighbor.
Definition Left : Z := 1.
Definition Top : Z := 2.
Definition Right : Z := 4.
Definition Bottom : Z := 8.
Definition All : Z := 15.
Definition xLeft : Z := 0xFE.
Definition xTop : Z := 0xFD.
Definition xRight : Z := 0xFB.
Definition xBottom : Z := 0xF7.
Definition None : Z := 0.
End TileNeighbor.

Module UnitSortFlags.
Definition Swapped : Z := 0x4000.
Definition Moved : Z := 0x8000.
Definition Unswap : Z := 0xBFFF.
Definition Unmove : Z := 0x7FFF.
End UnitSortFlags.

Module LocSelFlags.
Definition North : Z := 1.
Definition South : Z := 2.
Definition East : Z := 4.
Definition West : Z := 8.
Definition Middle : Z := 15.
Definition None : Z := 0.
End LocSelFlags.

Definition NO_LOCATION : Z := 0xFFFF.

Record TileNode := mkTileNode { value : Z; xc : Z; yc : Z; neighbors : Z }.
Definition withNeighbors (n : Z) (t : TileNode) : TileNode := mkTileNode (value t) (xc t) (yc t) n.

(** [neighbors |= side] and [neighbors &= side] *)
Definition orNeighbors (side : Z) (t : TileNode) : TileNode := withNeighbors (Z.lor (neighbors t) side) t.
Definition andNeighbors (side : Z) (t : TileNode) : TileNode := withNeighbors (Z.land (neighbors t) side) t.

Record Selections := mkSelections {
  startDrag : Z * Z;
  endDrag : Z * Z;
  selUnits : list Z;
  selTiles : list TileNode;
  selectedLocation : Z;
  numRecentLocations : Z;
  recentLocations : list Z;
  locSelFlags : Z;
  moved : bool
}.

Definition newSelections : Selections :=
  mkSelections (-1, -1) (-1, -1) [] [] 0 0 (replicate (Z.to_nat TotalLocations) 0) LocSelFlags.None false.

Definition withUnits (units : list Z) (s : Selections) : Selections :=
  mkSelections (startDrag s) (endDrag s) units (selTiles s) (selectedLocation s) (numRecentLocations s)
    (recentLocations s) (locSelFlags s) (moved s).
Definition withTiles (tiles : list TileNode) (s : Selections) : Selections :=
  mkSelections (startDrag s) (endDrag s) (selUnits s) tiles (selectedLocation s) (numRecentLocations s)
    (recentLocations s) (locSelFlags s) (moved s).
Definition withLocation (selected numRecent : Z) (recent : list Z) (s : Selections) : Selections :=
  mkSelections (startDrag s) (endDrag s) (selUnits s) (selTiles s) selected numRecent recent (locSelFlags s) (moved s).

(** ** Dragging *)

Definition withDrags (startDrag endDrag : Z * Z) (s : Selections) : Selections :=
  mkSelections startDrag endDrag (selUnits s) (selTiles s) (selectedLocation s) (numRecentLocations s)
    (recentLocations s) (locSelFlags s) (moved s).
Definition withMoved (moved : bool) (s : Selections) : Selections :=
  mkSelections (startDrag s) (endDrag s) (selUnits s) (selTiles s) (selectedLocation s) (numRecentLocations s)
    (recentLocations s) (locSelFlags s) moved.
Definition setStartDrag (x y : Z) (s : Selections) : Selections := withDrags (x, y) (endDrag s) s.
Definition setEndDrag (x y : Z) (s : Selections) : Selections := withDrags (startDrag s) (x, y) s.
Definition setDrags (x y : Z) (s : Selections) : Selections := withDrags (x, y) (x, y) s.
Definition setMoved : Selections -> Selections := withMoved true.
Definition resetMoved : Selections -> Selections := withMoved false.
Definition startEqualsEndDrag (s : Selections) : bool := bool_decide (startDrag s = endDrag s).
Definition sortDragPoints (s : Selections) : Selections :=
  withDrags (Z.min (startDrag s).1 (endDrag s).1, Z.min (startDrag s).2 (endDrag s).2)
    (Z.max (startDrag s).1 (endDrag s).1, Z.max (startDrag s).2 (endDrag s).2) s.
Definition selectionAreaIsNull (s : Selections) : bool := bool_decide (startDrag s = (-1, -1)).
Definition setLocationFlags (flags : Z) (s : Selections) : Selections :=
  mkSelections (startDrag s) (endDrag s) (selUnits s) (selTiles s) (selectedLocation s) (numRecentLocations s)
    (recentLocations s) flags (moved s).

(** ** Tiles *)

(** The edge between [t] and the tile at the coordinates is drawn again. *)
Definition unmatch (x y : Z) (t : TileNode) : TileNode :=
  if yc t =? y then
    if xc t =? x - 1 then orNeighbors TileNeighbor.Right t
    else if xc t =? x + 1 then orNeighbors TileNeighbor.Left t
    else t
  else if xc t =? x then
    if yc t =? y - 1 then orNeighbors TileNeighbor.Bottom t
    else if yc t =? y + 1 then orNeighbors TileNeighbor.Top t
    else t
  else t.

Definition at_tile (x y : Z) (t : TileNode) : bool := (xc t =? x) && (yc t =? y).

(** The last tile with these coordinates is erased. *)
Fixpoint eraseLast (p : TileNode -> bool) (l : list TileNode) : option (list TileNode) :=
  match l with
  | [] => None
  | t :: l =>
      match eraseLast p l with
      | Some l' => Some (t :: l')
      | None => if p t then Some l else None
      end
  end.

Definition removeTile (x y : Z) (s : Selections) : Selections :=
  let tiles := unmatch x y <$> selTiles s in
  withTiles (default tiles (eraseLast (at_tile x y) tiles)) s.
Definition removeTileNode (tile : TileNode) (s : Selections) : Selections := removeTile (xc tile) (yc tile) s.

(** The edges between a selected tile and the new one are removed from both. *)
Definition matchTile (t tile : TileNode) : TileNode * TileNode :=
  if yc t =? yc tile then
    if xc t =? xc tile - 1 then (andNeighbors TileNeighbor.xRight t, andNeighbors TileNeighbor.xLeft tile)
    else if xc t =? xc tile + 1 then (andNeighbors TileNeighbor.xLeft t, andNeighbors TileNeighbor.xRight tile)
    else (t, tile)
  else if xc t =? xc tile then
    if yc t =? yc tile - 1 then (andNeighbors TileNeighbor.xBottom t, andNeighbors TileNeighbor.xTop tile)
    else if yc t =? yc tile + 1 then (andNeighbors TileNeighbor.xTop t, andNeighbors TileNeighbor.xBottom tile)
    else (t, tile)
  else (t, tile).

(** The loop over the selected tiles: the tiles after it, and the new tile
    unless it is already one of them. *)
Fixpoint matchTiles (tiles : list TileNode) (tile : TileNode) : list TileNode * option TileNode :=
  match tiles with
  | [] => ([], Some tile)
  | t :: rest =>
      if at_tile (xc tile) (yc tile) t then (t :: rest, None)
      else
        let '(t, tile) := matchTile t tile in
        let '(rest, found) := matchTiles rest tile in (t :: rest, found)
  end.

Definition addTile (v x y : Z) (s : Selections) : Selections :=
  match matchTiles (selTiles s) (mkTileNode v x y TileNeighbor.All) with
  | (tiles, Some tile) => withTiles (tiles ++ [tile]) s
  | (tiles, None) => removeTile x y (withTiles tiles s)
  end.
Definition addTileWith (v x y n : Z) (s : Selections) : Selections :=
  withTiles (selTiles s ++ [mkTileNode v x y n]) s.
Definition removeTiles (s : Selections) : Selections := withTiles [] s.
Definition hasTiles (s : Selections) : bool := zlen (selTiles s) >? 0.
Definition getFirstTile (s : Selections) : TileNode :=
  default (mkTileNode 0 0 0 TileNeighbor.None) (selTiles s !! 0%nat).

(** ** The selected location *)

Definition selectLocationIndex (index : Z) (s : Selections) : outcome Selections :=
  let* recent := vset (recentLocations s) 0 (u8 index) in
  Ret (withLocation index 1 recent s).

(** The click is within the location, whose sides may be inverted. *)
Definition locationAt (clickX clickY : Z) (location : Location.Location) : bool :=
  let locLeft := s32 (Z.min (Location.left location) (Location.right location)) in
  let locRight := s32 (Z.max (Location.left location) (Location.right location)) in
  let locTop := s32 (Z.min (Location.top location) (Location.bottom location)) in
  let locBottom := s32 (Z.max (Location.top location) (Location.bottom location)) in
  (clickX >=? locLeft) && (clickX <=? locRight) && (clickY >=? locTop) && (clickY <=? locBottom).

Definition recentlySelected (i : Z) (s : Selections) : outcome bool :=
  let* found := first_such (fun recentIndex => let* r := vget (recentLocations s) recentIndex in Ret (i =? r))
    (range 0 (numRecentLocations s)) in
  Ret (match found with Some _ => true | None => false end).

(** The location [i] can be selected by the click. *)
Definition clickable (locations : MrgnSection.t) (clickX clickY : Z) (canSelectAnywhere : bool) (s : Selections)
    (i : Z) : outcome bool :=
  if negb (i =? selectedLocation s) && (negb (i =? LocationId_Anywhere) || canSelectAnywhere) then
    let* p := MrgnSection.getLocation locations i in
    Ret (match p with Some location => locationAt clickX clickY location | None => false end)
  else Ret false.

(** The loop over the locations: the first that can be selected and was not
    recently, or else the first that was. *)
Fixpoint clicked (locations : MrgnSection.t) (clickX clickY : Z) (canSelectAnywhere : bool) (s : Selections)
    (ids : list Z) (firstRecentlySelected : Z) : outcome (Z * bool) :=
  match ids with
  | [] => Ret (firstRecentlySelected, false)
  | i :: ids =>
      let* here := clickable locations clickX clickY canSelectAnywhere s i in
      let next := clicked locations clickX clickY canSelectAnywhere s ids in
      if here then
        let* recent := recentlySelected i s in
        if recent then next (if firstRecentlySelected =? NO_LOCATION then i else firstRecentlySelected)
        else Ret (i, true)
      else next firstRecentlySelected
  end.

(** A u16 counts the locations, of which there are less than 65535. *)
Definition selectLocation (locations : MrgnSection.t) (clickX clickY : Z) (canSelectAnywhere : bool) (s : Selections)
    : outcome Selections :=
  let* (i, madeSelection) := clicked locations clickX clickY canSelectAnywhere s
    (range 1 (MrgnSection.numLocations locations + 1)) NO_LOCATION in
  if madeSelection then
    if numRecentLocations s <? TotalLocations then
      let* recent := vset (recentLocations s) (numRecentLocations s) (u8 i) in
      Ret (withLocation i (u8 (numRecentLocations s + 1)) recent s)
    else
      let* recent := vset (recentLocations s) 0 (u8 i) in
      Ret (withLocation i 1 recent s)
  else
    let* recent := vset (recentLocations s) 0 (u8 i) in
    Ret (withLocation i 1 recent s).

(** ** Units *)

Definition unitIsSelected (index : Z) (s : Selections) : bool := existsb (fun i => i =? index) (selUnits s).
Definition addUnit (index : Z) (s : Selections) : Selections :=
  if unitIsSelected index s then s else withUnits (index :: selUnits s) s.
(** The first occurrence is erased. *)
Fixpoint eraseUnit (index : Z) (l : list Z) : list Z :=
  match l with
  | [] => []
  | i :: l => if i =? index then l else i :: eraseUnit index l
  end.
Definition removeUnit (index : Z) (s : Selections) : Selections := withUnits (eraseUnit index (selUnits s)) s.
Definition removeUnits (s : Selections) : Selections := withUnits [] s.
Definition ensureFirst (index : Z) (s : Selections) : Selections :=
  match selUnits s with
  | first :: _ =>
      if negb (first =? index) && unitIsSelected index s
      then withUnits (index :: eraseUnit index (selUnits s)) s else s
  | [] => s
  end.

Definition sendSwap (oldIndex newIndex : Z) (s : Selections) : Selections :=
  withUnits ((fun i => if i =? newIndex then u16 (Z.lor oldIndex UnitSortFlags.Swapped)
                       else if i =? oldIndex then newIndex else i) <$> selUnits s) s.
(** A unit goes from [newIndex] back to [oldIndex]. *)
Definition sendMove (oldIndex newIndex : Z) (s : Selections) : Selections :=
  withUnits ((fun i => if i =? newIndex then u16 (Z.lor oldIndex UnitSortFlags.Moved)
                       else if (newIndex >? i) && (oldIndex <=? i) then u16 (i + 1)
                       else if (newIndex <? i) && (oldIndex >=? i) then u16 (i - 1) else i) <$> selUnits s) s.
Definition finish (flag unflag : Z) (i : Z) : Z := if Z.land i flag =? 0 then i else Z.land i unflag.
Definition finishSwap (s : Selections) : Selections :=
  withUnits (finish UnitSortFlags.Swapped UnitSortFlags.Unswap <$> selUnits s) s.
Definition finishMove (s : Selections) : Selections :=
  withUnits (finish UnitSortFlags.Moved UnitSortFlags.Unmove <$> selUnits s) s.

Definition hasUnits (s : Selections) : bool := zlen (selUnits s) >? 0.
Definition numUnits (s : Selections) : Z := if zlen (selUnits s) <? 0xFFFF then zlen (selUnits s) else 0xFFFF.
Definition numUnitsUnder (index : Z) (s : Selections) : Z :=
  fold_left (fun n i => if i <? index then u16 (n + 1) else n) (selUnits s) 0.
Definition getFirstUnit (s : Selections) : Z := default 0 (selUnits s !! 0%nat).
Definition getHighestIndex (s : Selections) : Z :=
  u16 (fold_left (fun highest i => if i >? highest then i else highest) (selUnits s) (-1)).
Definition getLowestIndex (s : Selections) : Z :=
  fold_left (fun lowest i => if i <? lowest then i else lowest) (selUnits s) 0xFFFF.

(** [std::sort] of integers, in either order. *)
Fixpoint insertSorted (before : Z -> Z -> bool) (i : Z) (l : list Z) : list Z :=
  match l with
  | [] => [i]
  | j :: rest => if before j i then j :: insertSorted before i rest else i :: l
  end.
Definition sortUnits (ascending : bool) (s : Selections) : Selections :=
  withUnits (foldr (insertSorted (if ascending then Z.ltb else Z.gtb)) [] (selUnits s)) s.
