(* ===== verification/SelectionsProps.v ===== *)
(** What holds of selections: the edges that are drawn are those of the selected
    area, selected indices follow their units, and clicking reaches every location
    under the cursor. *)
From S2P Require Import Prelude Codec ChkTypes ChkSection Locations Selections.
Open Scope Z_scope.

(** ** The edges of the selected tiles *)

Definition coords (t : TileNode) : Z * Z := (xc t, yc t).

(** The sides of a tile at which nothing of [cs] is. *)
Definition sides (left top right bottom : bool) : Z :=
  (if left then 0 else 1) + (if top then 0 else 2) + (if right then 0 else 4) + (if bottom then 0 else 8).
Definition border (cs : list (Z * Z)) (p : Z * Z) : Z :=
  sides (bool_decide ((p.1 - 1, p.2) ∈ cs)) (bool_decide ((p.1, p.2 - 1) ∈ cs))
    (bool_decide ((p.1 + 1, p.2) ∈ cs)) (bool_decide ((p.1, p.2 + 1) ∈ cs)).

(** No tile is selected twice, and each has the edges of the selected area. *)
Record bordered (tiles : list TileNode) : Prop := mkBordered {
  bordered_once : NoDup (coords <$> tiles);
  bordered_edges : Forall (fun t => neighbors t = border (coords <$> tiles) (coords t)) tiles
}.

Lemma border_ext cs cs' p : (forall q, q <> p -> q ∈ cs <-> q ∈ cs') -> border cs p = border cs' p.
Proof.
  intros H. destruct p as [x y]. unfold border. cbn [fst snd]. f_equal; apply bool_decide_ext; apply H; intros [=]; lia.
Qed.

Lemma coords_unmatch x y t : coords (unmatch x y t) = coords t.
Proof. unfold unmatch. by repeat case_match. Qed.
Lemma value_unmatch x y t : value (unmatch x y t) = value t.
Proof. unfold unmatch. by repeat case_match. Qed.

Lemma sides_lor l t r b :
  Z.lor (sides l t r b) 1 = sides false t r b /\ Z.lor (sides l t r b) 2 = sides l false r b /\
  Z.lor (sides l t r b) 4 = sides l t false b /\ Z.lor (sides l t r b) 8 = sides l t r false.
Proof. by destruct l, t, r, b. Qed.
Lemma sides_land l t r b :
  Z.land (sides l t r b) 0xFE = sides true t r b /\ Z.land (sides l t r b) 0xFD = sides l true r b /\
  Z.land (sides l t r b) 0xFB = sides l t true b /\ Z.land (sides l t r b) 0xF7 = sides l t r true.
Proof. by destruct l, t, r, b. Qed.

Ltac same_side Hother Hgone :=
  f_equal; first [ symmetry; apply Hother; intros [=]; lia | apply Hgone; f_equal; lia ].

(** Taking a tile away draws the edges its neighbours had with it. *)
Lemma border_unmatch cs x y t : neighbors t = border cs (coords t) -> coords t <> (x, y) ->
  neighbors (unmatch x y t) = border (filter (fun q => q <> (x, y)) cs) (coords t).
Proof.
  intros Hn Hne. destruct t as [v tx ty n]. change (n = border cs (tx, ty)) in Hn. change ((tx, ty) <> (x, y)) in Hne. subst n. unfold unmatch, border. cbn [xc yc coords fst snd].
  destruct (sides_lor (bool_decide ((tx - 1, ty) ∈ cs)) (bool_decide ((tx, ty - 1) ∈ cs))
    (bool_decide ((tx + 1, ty) ∈ cs)) (bool_decide ((tx, ty + 1) ∈ cs))) as (L1 & L2 & L3 & L4).
  assert (Hother : forall q, q <> (x, y) -> bool_decide (q ∈ filter (fun q => q <> (x, y)) cs) = bool_decide (q ∈ cs)).
  { intros q Hq. apply bool_decide_ext. rewrite list_elem_of_filter. tauto. }
  assert (Hgone : forall q, q = (x, y) -> false = bool_decide (q ∈ filter (fun q => q <> (x, y)) cs)).
  { intros q ->. symmetry. apply bool_decide_eq_false. rewrite list_elem_of_filter. tauto. }
  destruct (Z.eqb_spec ty y) as [->|Hy]; [|destruct (Z.eqb_spec tx x) as [->|Hx]].
  - destruct (Z.eqb_spec tx (x - 1)) as [->|Hl]; [|destruct (Z.eqb_spec tx (x + 1)) as [->|Hr]]; cbn [neighbors orNeighbors withNeighbors].
    + change TileNeighbor.Right with 4. rewrite L3. same_side Hother Hgone.
    + change TileNeighbor.Left with 1. rewrite L1. same_side Hother Hgone.
    + same_side Hother Hgone.
  - destruct (Z.eqb_spec ty (y - 1)) as [->|Hl]; [|destruct (Z.eqb_spec ty (y + 1)) as [->|Hr]]; cbn [neighbors orNeighbors withNeighbors].
    + change TileNeighbor.Bottom with 8. rewrite L4. same_side Hother Hgone.
    + change TileNeighbor.Top with 2. rewrite L2. same_side Hother Hgone.
    + same_side Hother Hgone.
  - cbn [neighbors]. same_side Hother Hgone.
Qed.

(** Putting a tile next to others takes the edges between them away. *)
Lemma border_match cs t tile : neighbors t = border cs (coords t) -> coords t <> coords tile ->
  neighbors (matchTile t tile).1 = border (coords tile :: cs) (coords t).
Proof.
  intros Hn Hne. destruct t as [v tx ty n], tile as [w x y m]. change (n = border cs (tx, ty)) in Hn.
  change ((tx, ty) <> (x, y)) in Hne. subst n. unfold matchTile, border. cbn [xc yc coords fst snd].
  destruct (sides_land (bool_decide ((tx - 1, ty) ∈ cs)) (bool_decide ((tx, ty - 1) ∈ cs))
    (bool_decide ((tx + 1, ty) ∈ cs)) (bool_decide ((tx, ty + 1) ∈ cs))) as (L1 & L2 & L3 & L4).
  assert (Hother : forall q, q <> (x, y) -> bool_decide (q ∈ (x, y) :: cs) = bool_decide (q ∈ cs)).
  { intros q Hq. apply bool_decide_ext. rewrite elem_of_cons. tauto. }
  assert (Hnew : forall q, q = (x, y) -> true = bool_decide (q ∈ (x, y) :: cs)).
  { intros q ->. symmetry. apply bool_decide_eq_true, elem_of_cons. by left. }
  destruct (Z.eqb_spec ty y) as [->|Hy]; [|destruct (Z.eqb_spec tx x) as [->|Hx]].
  - destruct (Z.eqb_spec tx (x - 1)) as [->|Hl]; [|destruct (Z.eqb_spec tx (x + 1)) as [->|Hr]];
      cbn [neighbors andNeighbors withNeighbors fst].
    + change TileNeighbor.xRight with 0xFB. rewrite L3. same_side Hother Hnew.
    + change TileNeighbor.xLeft with 0xFE. rewrite L1. same_side Hother Hnew.
    + same_side Hother Hnew.
  - destruct (Z.eqb_spec ty (y - 1)) as [->|Hl]; [|destruct (Z.eqb_spec ty (y + 1)) as [->|Hr]];
      cbn [neighbors andNeighbors withNeighbors fst].
    + change TileNeighbor.xBottom with 0xF7. rewrite L4. same_side Hother Hnew.
    + change TileNeighbor.xTop with 0xFD. rewrite L2. same_side Hother Hnew.
    + same_side Hother Hnew.
  - cbn [neighbors fst]. same_side Hother Hnew.
Qed.

(** The same for the tile that is put. *)
Lemma border_matched cs t tile : neighbors tile = border cs (coords tile) -> coords t <> coords tile ->
  neighbors (matchTile t tile).2 = border (coords t :: cs) (coords tile).
Proof.
  intros Hn Hne. destruct t as [v tx ty n], tile as [w x y m]. change (m = border cs (x, y)) in Hn.
  change ((tx, ty) <> (x, y)) in Hne. subst m. unfold matchTile, border. cbn [xc yc coords fst snd].
  destruct (sides_land (bool_decide ((x - 1, y) ∈ cs)) (bool_decide ((x, y - 1) ∈ cs))
    (bool_decide ((x + 1, y) ∈ cs)) (bool_decide ((x, y + 1) ∈ cs))) as (L1 & L2 & L3 & L4).
  assert (Hother : forall q, q <> (tx, ty) -> bool_decide (q ∈ (tx, ty) :: cs) = bool_decide (q ∈ cs)).
  { intros q Hq. apply bool_decide_ext. rewrite elem_of_cons. tauto. }
  assert (Hnew : forall q, q = (tx, ty) -> true = bool_decide (q ∈ (tx, ty) :: cs)).
  { intros q ->. symmetry. apply bool_decide_eq_true, elem_of_cons. by left. }
  destruct (Z.eqb_spec ty y) as [->|Hy]; [|destruct (Z.eqb_spec tx x) as [->|Hx]].
  - destruct (Z.eqb_spec tx (x - 1)) as [->|Hl]; [|destruct (Z.eqb_spec tx (x + 1)) as [->|Hr]];
      cbn [neighbors andNeighbors withNeighbors snd].
    + change TileNeighbor.xLeft with 0xFE. rewrite L1. same_side Hother Hnew.
    + change TileNeighbor.xRight with 0xFB. rewrite L3. same_side Hother Hnew.
    + same_side Hother Hnew.
  - destruct (Z.eqb_spec ty (y - 1)) as [->|Hl]; [|destruct (Z.eqb_spec ty (y + 1)) as [->|Hr]];
      cbn [neighbors andNeighbors withNeighbors snd].
    + change TileNeighbor.xTop with 0xFD. rewrite L2. same_side Hother Hnew.
    + change TileNeighbor.xBottom with 0xF7. rewrite L4. same_side Hother Hnew.
    + same_side Hother Hnew.
  - cbn [neighbors snd]. same_side Hother Hnew.
Qed.

Lemma coords_match t tile : coords (matchTile t tile).1 = coords t /\ coords (matchTile t tile).2 = coords tile.
Proof. unfold matchTile. by repeat case_match. Qed.

Lemma at_tile_coords x y t : at_tile x y t = bool_decide (coords t = (x, y)).
Proof.
  unfold at_tile, coords. destruct (Z.eqb_spec (xc t) x), (Z.eqb_spec (yc t) y); cbn; symmetry;
    [by apply bool_decide_eq_true; congruence | apply bool_decide_eq_false; congruence..].
Qed.

Definition others (x y : Z) (l : list TileNode) : list TileNode := filter (fun t => coords t <> (x, y)) l.

Lemma others_id x y l : (x, y) ∉ coords <$> l -> others x y l = l.
Proof.
  unfold others. induction l as [|t l IH]; [done|]. rewrite fmap_cons, not_elem_of_cons. intros [Ht Hl].
  rewrite filter_cons_True by congruence. by rewrite IH.
Qed.

Lemma eraseLast_others x y l : NoDup (coords <$> l) ->
  default l (eraseLast (at_tile x y) l) = others x y l /\
  (eraseLast (at_tile x y) l = None <-> (x, y) ∉ coords <$> l).
Proof.
  induction l as [|t l IH]; [split; [done|split; [intros _; apply not_elem_of_nil | done]]|]. rewrite fmap_cons. intros [Ht Hd]%NoDup_cons. destruct (IH Hd) as [E1 E2].
  cbn [eraseLast]. rewrite at_tile_coords, not_elem_of_cons.
  destruct (eraseLast (at_tile x y) l) as [l'|] eqn:El.
  - assert (Hin : ~ ((x, y) ∉ coords <$> l)) by (intros Hx; by apply E2 in Hx).
    cbn in E1. split; [change (t :: l' = others x y (t :: l)) | split; [done | tauto]]. unfold others. rewrite filter_cons_True; [by rewrite E1|]. intros E. rewrite E in Ht. tauto.
  - assert (Hn : (x, y) ∉ coords <$> l) by (by apply E2). destruct (bool_decide_reflect (coords t = (x, y))) as [E|E].
    + split; [|split; [done|]; intros [Hne _]; congruence]. unfold others. rewrite filter_cons_False by tauto. symmetry. by apply others_id.
    + split; [|split; [|done]; by split; [congruence|]]. change (t :: l = others x y (t :: l)). unfold others. rewrite filter_cons_True by done. f_equal. by symmetry in E1.
Qed.

Lemma coords_others x y l : coords <$> others x y l = filter (fun q => q <> (x, y)) (coords <$> l).
Proof.
  unfold others. induction l as [|t l IH]; [done|]. rewrite fmap_cons. destruct (decide (coords t = (x, y))) as [E|E].
  - rewrite !filter_cons_False by tauto. exact IH.
  - rewrite !filter_cons_True by done. rewrite fmap_cons. by f_equal.
Qed.

Lemma removed_bordered x y tiles : bordered tiles ->
  let tiles' := unmatch x y <$> tiles in
  bordered (default tiles' (eraseLast (at_tile x y) tiles')) /\
  coords <$> default tiles' (eraseLast (at_tile x y) tiles') = filter (fun q => q <> (x, y)) (coords <$> tiles).
Proof.
  intros [Hd He] tiles'.
  assert (Ec : coords <$> tiles' = coords <$> tiles).
  { unfold tiles'. rewrite <- list_fmap_compose. apply list_fmap_ext. intros. apply coords_unmatch. }
  destruct (eraseLast_others x y tiles') as [-> _]; [by rewrite Ec|]. rewrite coords_others, Ec. split; [|done].
  split; rewrite coords_others, Ec; [by apply NoDup_filter|].
  apply Forall_forall. intros t [Ht Hin]%list_elem_of_filter. unfold tiles' in Hin.
  apply list_elem_of_fmap in Hin as (u & -> & Hu). rewrite coords_unmatch in *.
  apply border_unmatch; [|done]. by apply (proj1 (Forall_forall _ _) He).
Qed.

(** The loop of [addTile] for a new tile, and for one that is selected. *)
Lemma matchTiles_new cs seen tiles tile : Forall (fun t => neighbors t = border cs (coords t)) tiles ->
  coords tile ∉ coords <$> tiles -> neighbors tile = border seen (coords tile) ->
  exists tiles' tile', matchTiles tiles tile = (tiles', Some tile') /\ coords <$> tiles' = coords <$> tiles /\
    Forall (fun t => neighbors t = border (coords tile :: cs) (coords t)) tiles' /\
    coords tile' = coords tile /\ neighbors tile' = border ((coords <$> tiles) ++ seen) (coords tile).
Proof.
  revert seen tile. induction tiles as [|t tiles IH]; intros seen tile Ht Hn Hs; cbn [matchTiles].
  - exists [], tile. done.
  - apply Forall_cons in Ht as [Ht Hts]. rewrite fmap_cons, not_elem_of_cons in Hn. destruct Hn as [Hne Hn].
    rewrite at_tile_coords, bool_decide_eq_false_2 by (unfold coords in *; congruence).
    destruct (coords_match t tile) as [C1 C2].
    assert (N1 := border_match cs t tile Ht ltac:(congruence)). assert (N2 := border_matched seen t tile Hs ltac:(congruence)).
    destruct (matchTile t tile) as [t1 tile1] eqn:Em. cbn [fst snd] in *.
    destruct (IH (coords t :: seen) tile1) as (tiles' & tile' & -> & Ec & Hf & Ct & Nt); [done | by rewrite C2 | by rewrite C2|].
    exists (t1 :: tiles'), tile'. split; [done|]. split; [by rewrite !fmap_cons, C1, Ec|].
    rewrite C2 in Hf, Ct, Nt. split; [apply Forall_cons; split; [by rewrite C1 | done]|]. split; [done|].
    rewrite Nt. apply border_ext. intros q Hq. rewrite !elem_of_app, fmap_cons, !elem_of_cons. tauto.
Qed.

Lemma matchTiles_again cs tiles tile : Forall (fun t => neighbors t = border cs (coords t)) tiles ->
  coords tile ∈ coords <$> tiles -> coords tile ∈ cs ->
  exists tiles', matchTiles tiles tile = (tiles', None) /\ coords <$> tiles' = coords <$> tiles /\
    Forall (fun t => neighbors t = border cs (coords t)) tiles'.
Proof.
  revert tile. induction tiles as [|t tiles IH]; intros tile Ht Hin Hcs; cbn [matchTiles]; [by apply elem_of_nil in Hin|].
  rewrite at_tile_coords. destruct (bool_decide_reflect (coords t = (xc tile, yc tile))) as [E|E].
  - by exists (t :: tiles).
  - apply Forall_cons in Ht as [Ht Hts]. rewrite fmap_cons, elem_of_cons in Hin. destruct Hin as [Hin|Hin].
    { by destruct E. }
    destruct (coords_match t tile) as [C1 C2]. assert (N1 := border_match cs t tile Ht E).
    destruct (matchTile t tile) as [t1 tile1] eqn:Em. cbn [fst snd] in *.
    destruct (IH tile1) as (tiles' & -> & Ec & Hf); [done | by rewrite C2 | by rewrite C2|].
    exists (t1 :: tiles'). split; [done|]. split; [by rewrite !fmap_cons, C1, Ec|]. apply Forall_cons. split; [|done].
    rewrite C1, N1. apply border_ext. intros q Hq. rewrite elem_of_cons. split; [|tauto]. by intros [->|].
Qed.

(** One more call keeps the edges right and changes the selection by its tile. *)
Lemma tile_step (s : Selections) (v x y : Z) (H : bordered (selTiles s)) :
  bordered (selTiles (addTile v x y s)) /\ bordered (selTiles (removeTile x y s)) /\
  (forall p, p ∈ coords <$> selTiles (addTile v x y s) <->
     (p ∈ coords <$> selTiles s /\ p <> (x, y)) \/ (p = (x, y) /\ (x, y) ∉ coords <$> selTiles s)) /\
  (forall p, p ∈ coords <$> selTiles (removeTile x y s) <-> p ∈ coords <$> selTiles s /\ p <> (x, y)).
Proof.
  pose proof H as [Hd He]. destruct (removed_bordered x y (selTiles s) H) as [R1 R2].
  assert (Hrem : forall p, p ∈ coords <$> selTiles (removeTile x y s) <-> p ∈ coords <$> selTiles s /\ p <> (x, y)).
  { intros p. cbn. rewrite R2, list_elem_of_filter. tauto. }
  enough (bordered (selTiles (addTile v x y s)) /\ forall p, p ∈ coords <$> selTiles (addTile v x y s) <->
     (p ∈ coords <$> selTiles s /\ p <> (x, y)) \/ (p = (x, y) /\ (x, y) ∉ coords <$> selTiles s)) by tauto.
  unfold addTile. set (tile := mkTileNode v x y TileNeighbor.All). destruct (decide ((x, y) ∈ coords <$> selTiles s)) as [Hin|Hin].
  - destruct (matchTiles_again _ _ tile He Hin Hin) as (tiles' & -> & Ec & Hf).
    destruct (removed_bordered x y tiles') as [B1 B2]; [split; rewrite Ec; done|]. cbn. split; [exact B1|].
    intros p. rewrite B2, Ec, list_elem_of_filter. tauto.
  - destruct (matchTiles_new _ [] _ tile He Hin eq_refl) as (tiles' & tile' & -> & Ec & Hf & Ct & Nt). cbn.
    assert (Ea : coords <$> (tiles' ++ [tile']) = (coords <$> selTiles s) ++ [(x, y)]) by (by rewrite fmap_app, Ec; cbn; rewrite Ct).
    split; [split|].
    + rewrite Ea. apply NoDup_app. split; [done|]. split; [|apply NoDup_singleton]. intros q Hq ->%list_elem_of_singleton. done.
    + rewrite Ea, Forall_app, Forall_singleton. split.
      * eapply Forall_impl; [exact Hf|]. intros t ->. apply border_ext. intros q.
        rewrite elem_of_app, elem_of_cons, list_elem_of_singleton. change (coords tile) with (x, y). tauto.
      * rewrite Nt, Ct. apply border_ext. intros q Hq. rewrite app_nil_r, elem_of_app, list_elem_of_singleton.
        change (coords tile) with (x, y) in Hq. tauto.
    + intros p. rewrite Ea, elem_of_app, list_elem_of_singleton. split; [|tauto]. intros [Hp|Hp]; [left; split; [done|]|tauto].
      by intros ->.
Qed.

(** The calls by which the editor selects single tiles and areas: tiles are
    toggled one by one with [addTile], and [openTileProperties] selects one tile
    alone, with all its edges. *)
Inductive TileCall :=
  | Toggle (v x y : Z)
  | Remove (x y : Z)
  | Clear
  | Single (v x y : Z).
Definition call (s : Selections) (c : TileCall) : Selections :=
  match c with
  | Toggle v x y => addTile v x y s
  | Remove x y => removeTile x y s
  | Clear => removeTiles s
  | Single v x y => addTileWith v x y TileNeighbor.All (removeTiles s)
  end.
(** What a call means for the set of selected places. *)
Definition selects (area : gset (Z * Z)) (c : TileCall) : gset (Z * Z) :=
  match c with
  | Toggle _ x y => if decide ((x, y) ∈ area) then area ∖ {[(x, y)]} else area ∪ {[(x, y)]}
  | Remove x y => area ∖ {[(x, y)]}
  | Clear => ∅
  | Single _ x y => {[(x, y)]}
  end.

Lemma call_bordered s c area : bordered (selTiles s) -> (forall p, p ∈ coords <$> selTiles s <-> p ∈ area) ->
  bordered (selTiles (call s c)) /\ forall p, p ∈ coords <$> selTiles (call s c) <-> p ∈ selects area c.
Proof.
  intros H Harea. destruct c as [v x y|x y| |v x y]; cbn [call selects].
  - destruct (tile_step s v x y H) as (Hb & _ & Hp & _). split; [exact Hb|]. intros p. rewrite Hp, !Harea.
    destruct (decide ((x, y) ∈ area)) as [Hin|Hin]; [set_solver|]. rewrite elem_of_union, elem_of_singleton.
    split; [tauto|]. intros [Hp'|Hp']; [left; split; [done|]; by intros -> | tauto].
  - destruct (tile_step s 0 x y H) as (_ & Hb & _ & Hp). split; [exact Hb|]. intros p. rewrite Hp, Harea. set_solver.
  - split; [split; [apply NoDup_nil_2 | constructor]|]. intros p. cbn. set_solver.
  - split; [split; [apply NoDup_singleton|]|intros p; cbn; set_solver]. cbn [selTiles addTileWith removeTiles withTiles app].
    apply Forall_singleton. unfold border. cbn [coords fmap list_fmap xc yc fst snd].
    by rewrite !bool_decide_eq_false_2 by (rewrite list_elem_of_singleton; intros [=]; lia).
Qed.

(** C34: Whatever tiles are toggled one by one, taken away or selected alone, from an
    empty selection on: no tile is selected twice, every selected tile has an edge
    at exactly the sides where its neighbour is not selected, and the selected
    places are those the calls mean.  [GuiMap::selectAll], which adds tiles with
    edges of its own choice, is not among these calls. *)
Theorem tile_borders (s : Selections) (calls : list TileCall) : selTiles s = [] ->
  let s' := fold_left call calls s in
  bordered (selTiles s') /\ forall p, p ∈ coords <$> selTiles s' <-> p ∈ fold_left selects calls ∅.
Proof.
  intros Hs. assert (Hb : bordered (selTiles s)) by (rewrite Hs; split; [apply NoDup_nil_2 | constructor]).
  assert (Ha : forall p, p ∈ coords <$> selTiles s <-> p ∈ (∅ : gset (Z * Z))) by (intros p; rewrite Hs; set_solver).
  clear Hs. revert s Hb Ha. generalize (∅ : gset (Z * Z)).
  induction calls as [|c calls IH]; intros area s Hb Ha; [by split|]. cbn [fold_left].
  destruct (call_bordered s c area Hb Ha) as [Hb' Ha']. by apply IH.
Qed.

Lemma tile_borders_witness : let s' := fold_left call [Single 3 7 7; Clear; Toggle 4 0 0; Toggle 5 1 0; Toggle 6 0 1; Toggle 5 1 0] newSelections in
  neighbors <$> selTiles s' = [7; 13] /\ bordered (selTiles s').
Proof. split; [reflexivity|]. by apply (tile_borders newSelections). Defined.

(** ** Indices of units *)

(** Where the unit at an index goes when the unit at [newIndex] is moved to
    [oldIndex]. *)
Definition shifted (oldIndex newIndex i : Z) : Z :=
  if i =? newIndex then oldIndex
  else if (newIndex >? i) && (oldIndex <=? i) then i + 1
  else if (newIndex <? i) && (oldIndex >=? i) then i - 1 else i.

Lemma lookup_shifted {A} (l : list A) (o n i : nat) u : l !! n = Some u -> (o < length l)%nat -> (i < length l)%nat ->
  (take o (delete n l) ++ u :: drop o (delete n l)) !! Z.to_nat (shifted (Z.of_nat o) (Z.of_nat n) (Z.of_nat i)) = l !! i.
Proof.
  intros Hn Ho Hi. assert (Hlt : (n < length l)%nat) by (by eapply lookup_lt_Some).
  pose proof (length_delete l n ltac:(by eexists)) as Hlen.
  assert (Htake : length (take o (delete n l)) = o) by (rewrite length_take; lia).
  unfold shifted. destruct (Z.eqb_spec (Z.of_nat i) (Z.of_nat n)) as [E|E].
  { assert (i = n) as -> by lia. rewrite lookup_app_r by lia. rewrite Htake, Nat2Z.id, Nat.sub_diag. by rewrite Hn. }
  assert (Hat : forall k, (k < o)%nat -> (take o (delete n l) ++ u :: drop o (delete n l)) !! k = delete n l !! k).
  { intros k Hk. rewrite lookup_app_l by lia. by rewrite lookup_take_lt by lia. }
  assert (Hafter : forall k, (o < k)%nat -> (take o (delete n l) ++ u :: drop o (delete n l)) !! k = delete n l !! (k - 1)%nat).
  { intros k Hk. rewrite lookup_app_r, Htake by lia. destruct (k - o)%nat as [|m] eqn:Em; [lia|].
    rewrite lookup_cons, lookup_drop. f_equal. lia. }
  destruct ((_ >? _) && (_ <=? _)) eqn:E1; [|destruct ((_ <? _) && (_ >=? _)) eqn:E2].
  - rewrite andb_true_iff, Z.gtb_lt, Z.leb_le in E1. replace (Z.to_nat (Z.of_nat i + 1)) with (S i) by lia.
    rewrite Hafter by lia. replace (S i - 1)%nat with i by lia. by rewrite list_lookup_delete_lt by lia.
  - rewrite andb_true_iff, Z.ltb_lt, Z.geb_le in E2. replace (Z.to_nat (Z.of_nat i - 1)) with (i - 1)%nat by lia.
    rewrite Hat by lia. rewrite list_lookup_delete_ge by lia. f_equal. lia.
  - assert (~ (i < n /\ o <= i)%nat) by (intros [??]; rewrite andb_false_iff, Z.gtb_ltb, Z.ltb_ge, Z.leb_gt in E1; lia).
    assert (~ (n < i /\ i <= o)%nat) by (intros [??]; rewrite andb_false_iff, Z.ltb_ge, Z.geb_leb, Z.leb_gt in E2; lia).
    rewrite Nat2Z.id. destruct (decide (i < o)%nat).
    + rewrite Hat by lia. by rewrite list_lookup_delete_lt by lia.
    + rewrite Hafter by lia. rewrite list_lookup_delete_ge by lia. f_equal. lia.
Qed.

(** One index through [sendMove] and [finishMove]. *)
Lemma finish_moved oldIndex newIndex i : 0 <= oldIndex < 0x8000 -> 0 <= newIndex < 0x8000 -> 0 <= i < 0x8000 ->
  finish UnitSortFlags.Moved UnitSortFlags.Unmove
    (if i =? newIndex then u16 (Z.lor oldIndex UnitSortFlags.Moved)
     else if (newIndex >? i) && (oldIndex <=? i) then u16 (i + 1)
     else if (newIndex <? i) && (oldIndex >=? i) then u16 (i - 1) else i) = shifted oldIndex newIndex i.
Proof.
  intros Ho Hn Hi. assert (Hsmall : forall k, 0 <= k < 0x8000 -> finish UnitSortFlags.Moved UnitSortFlags.Unmove k = k).
  { intros k Hk. unfold finish. change UnitSortFlags.Moved with (2 ^ 15).
    rewrite (proj2 (Z.eqb_eq _ 0)); [done|]. apply Z.bits_inj. intros b. rewrite Z.land_spec, Z.pow2_bits_eqb, Z.bits_0 by lia.
    destruct (Z.eqb_spec 15 b) as [<-|]; [|by rewrite andb_false_r]. rewrite andb_true_r.
    rewrite Z.testbit_odd, Z.shiftr_div_pow2, Z.div_small by lia. done. }
  unfold shifted. destruct (i =? newIndex).
  { assert (Hb : forall b, 15 <= b -> Z.testbit oldIndex b = false).
    { intros b Hb. rewrite Z.testbit_odd, Z.shiftr_div_pow2, Z.div_small; [done| |lia].
      split; [lia|]. apply Z.lt_le_trans with (2 ^ 15); [lia|]. apply Z.pow_le_mono_r; lia. }
    assert (Hbit : forall b, 0 <= b -> Z.testbit (u16 (Z.lor oldIndex UnitSortFlags.Moved)) b = Z.testbit oldIndex b || (b =? 15)).
    { intros b Hb0. unfold u16. change UnitSortFlags.Moved with (2 ^ 15). rewrite <- Z.land_ones by lia.
      rewrite Z.land_spec, Z.lor_spec, Z.pow2_bits_eqb by lia. rewrite (Z.eqb_sym 15 b).
      destruct (Z.ltb_spec b 16); [rewrite Z.ones_spec_low by lia; by rewrite andb_true_r|].
      rewrite Z.ones_spec_high, Hb, (proj2 (Z.eqb_neq b 15)) by lia. done. }
    unfold finish. rewrite (proj2 (Z.eqb_neq _ 0)).
    - apply Z.bits_inj'. intros b Hb0. change UnitSortFlags.Unmove with (Z.ones 15). rewrite Z.land_spec, Hbit by done.
      destruct (Z.ltb_spec b 15); [rewrite Z.ones_spec_low, (proj2 (Z.eqb_neq b 15)) by lia; by rewrite orb_false_r, andb_true_r|].
      rewrite Z.ones_spec_high, Hb by lia. by rewrite andb_false_r.
    - intros E. apply (f_equal (fun z => Z.testbit z 15)) in E. rewrite Z.land_spec, Hbit in E by lia.
      change UnitSortFlags.Moved with (2 ^ 15) in E. rewrite Z.pow2_bits_true, Z.bits_0, orb_true_r in E by lia. done. }
  destruct ((newIndex >? i) && (oldIndex <=? i)) eqn:E1; [|destruct ((newIndex <? i) && (oldIndex >=? i)) eqn:E2].
  - rewrite andb_true_iff, Z.gtb_lt, Z.leb_le in E1. rewrite u16_id by (unfold is_u; lia). apply Hsmall. lia.
  - rewrite andb_true_iff, Z.ltb_lt, Z.geb_le in E2. rewrite u16_id by (unfold is_u; lia). apply Hsmall. lia.
  - by apply Hsmall.
Qed.

(** ** Clicking on locations *)

Section Clicks.
Context (locations : MrgnSection.t) (clickX clickY : Z) (canSelectAnywhere : bool).
Context (Hmax : MrgnSection.numLocations locations <= TotalLocations).

(** The locations under the cursor, in order. *)
Definition under (i : Z) : bool :=
  (negb (i =? LocationId_Anywhere) || canSelectAnywhere) &&
  match locations !! Z.to_nat i with Some (Some location) => locationAt clickX clickY location | _ => false end.
Definition candidates : list Z := filter (fun i => under i = true) (range 1 (MrgnSection.numLocations locations + 1)).

(** The selected location and the ones before it. *)
Definition view (s : Selections) : Z * list Z :=
  (selectedLocation s, take (Z.to_nat (numRecentLocations s)) (recentLocations s)).

Record selecting (s : Selections) : Prop := mkSelecting {
  sel_size : zlen (recentLocations s) = TotalLocations;
  sel_num : 0 <= numRecentLocations s <= TotalLocations;
  sel_once : NoDup (view s).2;
  sel_ids : Forall (fun i => 1 <= i <= TotalLocations) (view s).2;
  sel_recent : 1 <= selectedLocation s <= TotalLocations -> selectedLocation s ∈ (view s).2
}.

Definition fresh (v : Z * list Z) (i : Z) : Prop := i <> v.1 /\ i ∉ v.2.
#[local] Instance fresh_dec v i : Decision (fresh v i).
Proof. unfold fresh. apply _. Defined.

(** A click: the first candidate that is neither selected nor recent; when there
    is none, the first that is not selected, and all others are forgotten. *)
Definition click (C : list Z) (v : Z * list Z) : Z * list Z :=
  match head (filter (fresh v) C) with
  | Some i => (i, v.2 ++ [i])
  | None => let i := default NO_LOCATION (head (filter (fun i => i <> v.1) C)) in (i, [u8 i])
  end.

Lemma candidate_bounds i : i ∈ candidates -> 1 <= i <= TotalLocations.
Proof. unfold candidates. rewrite list_elem_of_filter, elem_of_range. lia. Qed.

Lemma recently_spec i s : selecting s -> recentlySelected i s = Ret (bool_decide (i ∈ (view s).2)).
Proof.
  intros [Hz Hn _ _ _]. unfold recentlySelected.
  assert (H : forall n, (n <= Z.to_nat (numRecentLocations s))%nat -> forall lo, lo = numRecentLocations s - Z.of_nat n ->
    exists o, first_such (fun recentIndex => let* r := vget (recentLocations s) recentIndex in Ret (i =? r)) (range lo (numRecentLocations s)) = Ret o /\
      (is_Some o <-> i ∈ drop (Z.to_nat lo) (take (Z.to_nat (numRecentLocations s)) (recentLocations s)))).
  { induction n as [|n IH]; intros Hle lo ->.
    - rewrite range_empty by lia. exists None. split; [done|]. rewrite drop_ge by (rewrite length_take; lia).
      rewrite elem_of_nil. split; [by intros []|done].
    - rewrite range_cons by lia. cbn [first_such].
      set (k := numRecentLocations s - Z.of_nat (S n)). destruct (vget_in (recentLocations s) k) as (r & Hr & Hv); [lia|].
      rewrite Hv. cbn [obind].
      assert (Hdrop : drop (Z.to_nat k) (take (Z.to_nat (numRecentLocations s)) (recentLocations s)) =
        r :: drop (Z.to_nat (k + 1)) (take (Z.to_nat (numRecentLocations s)) (recentLocations s))).
      { replace (Z.to_nat (k + 1)) with (S (Z.to_nat k)) by lia. apply drop_S.
        rewrite lookup_take_lt by lia. done. }
      rewrite Hdrop. destruct (Z.eqb_spec i r) as [->|Hne].
      + exists (Some k). split; [done|]. rewrite elem_of_cons. split; [by left | by eexists].
      + destruct (IH ltac:(lia) (k + 1) ltac:(lia)) as (o & -> & Ho). exists o. split; [done|]. rewrite Ho, elem_of_cons. tauto. }
  destruct (H (Z.to_nat (numRecentLocations s)) ltac:(lia) 0 ltac:(lia)) as (o & -> & Ho). cbn [obind]. f_equal.
  change (Z.to_nat 0) with 0%nat in Ho. rewrite drop_0 in Ho. destruct o as [k|].
  - symmetry. apply bool_decide_eq_true, Ho. by eexists.
  - symmetry. apply bool_decide_eq_false. rewrite <- Ho. by intros [].
Qed.

Lemma clickable_spec i s : 1 <= i <= MrgnSection.numLocations locations ->
  clickable locations clickX clickY canSelectAnywhere s i = Ret (negb (i =? selectedLocation s) && under i).
Proof.
  intros Hi. unfold clickable, under, MrgnSection.getLocation.
  destruct (negb (i =? selectedLocation s)); cbn [andb]; [|done].
  destruct (negb (i =? LocationId_Anywhere) || canSelectAnywhere); cbn [andb]; [|done].
  destruct (vget_in locations i) as (p & Hp & Hv).
  { revert Hi. unfold MrgnSection.numLocations. destruct (Z.gtb_spec (zlen locations) 0); lia. }
  rewrite Hv, Hp. cbn [obind]. by destruct p.
Qed.

Lemma clicked_spec s ids first : selecting s -> Forall (fun i => 1 <= i <= MrgnSection.numLocations locations) ids ->
  let C := filter (fun i => under i = true) ids in
  clicked locations clickX clickY canSelectAnywhere s ids first =
  Ret (match head (filter (fresh (view s)) C) with
       | Some i => (i, true)
       | None => (if first =? NO_LOCATION then default NO_LOCATION (head (filter (fun i => i <> selectedLocation s) C)) else first, false)
       end).
Proof.
  intros Hs. revert first. induction ids as [|i ids IH]; intros first Hids; cbn [clicked].
  { cbn. destruct (Z.eqb_spec first NO_LOCATION) as [->|]; done. }
  apply Forall_cons in Hids as [Hi Hids]. rewrite clickable_spec by done. cbn [obind].
  destruct (under i) eqn:Hu; [|rewrite andb_false_r, IH, filter_cons_False by (done || congruence); done].
  rewrite filter_cons_True by done. rewrite andb_true_r. destruct (Z.eqb_spec i (selectedLocation s)) as [->|Hne]; cbn [negb].
  { rewrite IH by done. rewrite !(filter_cons_False _ (selectedLocation s)); [done | tauto | unfold fresh; cbn; tauto]. }
  rewrite recently_spec by done. cbn [obind]. destruct (bool_decide_reflect (i ∈ (view s).2)) as [Hin|Hin].
  - rewrite IH by done. rewrite (filter_cons_False (fresh (view s))) by (unfold fresh; tauto).
    rewrite (filter_cons_True (fun i => i <> selectedLocation s)) by done. cbn [head default].
    destruct (head (filter (fresh (view s)) _)); [done|]. destruct (Z.eqb_spec first NO_LOCATION) as [->|]; [|by rewrite (proj2 (Z.eqb_neq _ _)) by done].
    rewrite (proj2 (Z.eqb_neq i NO_LOCATION)); [done|]. unfold NO_LOCATION. change TotalLocations with 255 in Hmax. lia.
  - rewrite filter_cons_True by (split; done). done.
Qed.

(** [selectLocation] is a click. *)
Lemma nodup_short (l : list Z) : NoDup l -> Forall (fun i => 1 <= i <= TotalLocations) l -> zlen l <= TotalLocations.
Proof.
  intros Hd Hl. assert (Hsub : l ⊆ range 1 (TotalLocations + 1)).
  { intros i Hi. apply elem_of_range. apply (proj1 (Forall_forall _ _) Hl) in Hi. lia. }
  apply (NoDup_submseteq _ _ Hd) in Hsub. apply submseteq_length in Hsub. rewrite range_seqZ, length_seqZ in Hsub.
  unfold zlen. change TotalLocations with 255 in *. lia.
Qed.

Lemma recent_first s v : selecting s -> exists recent, vset (recentLocations s) 0 v = Ret recent /\
  zlen recent = TotalLocations /\ take 1 recent = [v].
Proof.
  intros [Hz _ _ _ _]. change TotalLocations with 255 in *. rewrite vset_in by lia. eexists. split; [reflexivity|].
  rewrite zlen_insert. split; [done|]. destruct (recentLocations s); [done|]. done.
Qed.

Lemma selectLocation_click s : selecting s ->
  exists s', selectLocation locations clickX clickY canSelectAnywhere s = Ret s' /\ selecting s' /\
    view s' = click candidates (view s).
Proof.
  intros Hs. pose proof Hs as [Hz Hn Hd Hids _]. unfold selectLocation.
  rewrite clicked_spec by (done || (apply Forall_forall; intros i Hi%elem_of_range; lia)).
  fold candidates. rewrite Z.eqb_refl. cbn [obind].
  unfold click. destruct (head (filter (fresh (view s)) candidates)) as [i|] eqn:Eh.
  - assert (Hi : i ∈ filter (fresh (view s)) candidates) by (apply head_Some_elem_of in Eh; done).
    apply list_elem_of_filter in Hi as [[Hne Hfresh] Hin]. apply candidate_bounds in Hin as Hb.
    assert (Hlen : length (view s).2 = Z.to_nat (numRecentLocations s)).
    { cbn. rewrite length_take. unfold zlen in Hz. lia. }
    assert (Hlt : numRecentLocations s < TotalLocations).
    { assert (zlen ((view s).2 ++ [i]) <= TotalLocations) as Hle.
      { apply nodup_short; [|apply Forall_app; split; [done | by apply Forall_singleton]].
        apply NoDup_app. split; [done|]. split; [|apply NoDup_singleton]. intros j Hj ->%list_elem_of_singleton. done. }
      unfold zlen in Hle. rewrite length_app, Hlen in Hle. cbn in Hle. lia. }
    rewrite (proj2 (Z.ltb_lt _ _)) by done. rewrite u8_id by (unfold is_u; change TotalLocations with 255 in *; lia).
    rewrite vset_in by lia. cbn [obind]. rewrite u8_id by (unfold is_u; change TotalLocations with 255 in *; lia).
    eexists. split; [reflexivity|]. unfold withLocation.
    assert (Hview : take (Z.to_nat (numRecentLocations s + 1)) (<[Z.to_nat (numRecentLocations s):=i]> (recentLocations s)) =
      (view s).2 ++ [i]).
    { replace (Z.to_nat (numRecentLocations s + 1)) with (S (Z.to_nat (numRecentLocations s))) by lia.
      erewrite take_S_r by (apply list_lookup_insert_eq; unfold zlen in Hz; lia).
      by rewrite take_insert_ge by lia. }
    split; [|unfold view at 1; cbn; by rewrite Hview].
    split; cbn [recentLocations numRecentLocations view fst snd]; [by rewrite zlen_insert | lia | rewrite Hview | rewrite Hview | rewrite Hview].
    + apply NoDup_app. split; [done|]. split; [|apply NoDup_singleton]. intros j Hj ->%list_elem_of_singleton. done.
    + apply Forall_app. split; [done | by apply Forall_singleton].
    + intros _. cbn. rewrite elem_of_app, list_elem_of_singleton. by right.
  - set (i := default NO_LOCATION _).
    destruct (recent_first s (u8 i) Hs) as (recent & -> & Hz' & Ht). cbn [obind]. eexists. split; [reflexivity|].
    assert (Hb : 1 <= u8 i <= TotalLocations).
    { unfold i. destruct (head (filter (fun i => i <> selectedLocation s) candidates)) as [k|] eqn:Ek; cbn [default].
      2: { change (1 <= 255 <= 255). lia. }
      assert (Hk : k ∈ filter (fun i => i <> selectedLocation s) candidates) by (apply head_Some_elem_of in Ek; done).
      apply list_elem_of_filter in Hk as [_ Hk%candidate_bounds]. unfold id. rewrite u8_id; [done|]. unfold is_u. change TotalLocations with 255 in *. lia. }
    assert (Hv : view (withLocation i 1 recent s) = (i, [u8 i])) by (unfold view, withLocation; cbn [selectedLocation numRecentLocations recentLocations]; change (Z.to_nat 1) with 1%nat; by rewrite Ht).
    split; [|exact Hv].
    split; cbn [recentLocations numRecentLocations view fst snd withLocation]; [done | done | | |]; change (Z.to_nat 1) with 1%nat; rewrite Ht.
    + apply NoDup_singleton.
    + by apply Forall_singleton.
    + change (selectedLocation (withLocation i 1 recent s)) with i. intros Hi. rewrite u8_id by (unfold is_u; change TotalLocations with 255 in *; lia).
      by apply list_elem_of_singleton.
Qed.

(** Many clicks. *)
Fixpoint clicks (n : nat) (s : Selections) : outcome Selections :=
  match n with
  | O => Ret s
  | S n => let* s := selectLocation locations clickX clickY canSelectAnywhere s in clicks n s
  end.
Fixpoint viewed (n : nat) (v : Z * list Z) : Z * list Z :=
  match n with O => v | S n => viewed n (click candidates v) end.

Lemma clicks_view n s : selecting s -> exists s', clicks n s = Ret s' /\ selecting s' /\ view s' = viewed n (view s).
Proof.
  revert s. induction n as [|n IH]; intros s Hs; cbn [clicks viewed]; [by exists s|].
  destruct (selectLocation_click s Hs) as (s1 & -> & H1 & <-). cbn [obind]. by apply IH.
Qed.

Lemma viewed_add m n v : viewed (m + n) v = viewed n (viewed m v).
Proof. revert v. induction m as [|m IH]; intros v; [done|]. apply IH. Qed.

(** A candidate is fresh unless it is recent. *)
Definition settled (v : Z * list Z) : Prop := v.1 ∈ candidates -> v.1 ∈ v.2.

Lemma click_settled v : settled (click candidates v).
Proof.
  unfold settled, click. destruct (head (filter (fresh v) candidates)) as [i|]; cbn [fst snd].
  - intros _. rewrite elem_of_app, list_elem_of_singleton. by right.
  - intros Hb%candidate_bounds. rewrite u8_id by (unfold is_u; change TotalLocations with 255 in *; lia). by apply list_elem_of_singleton.
Qed.

Lemma candidates_nodup : NoDup candidates.
Proof. apply NoDup_filter. rewrite range_seqZ. apply NoDup_seqZ. Qed.

Lemma filter_ext_in {A} (P Q : A -> Prop) `{!forall x, Decision (P x), !forall x, Decision (Q x)} (l : list A) :
  (forall x, x ∈ l -> P x <-> Q x) -> filter P l = filter Q l.
Proof.
  induction l as [|x l IH]; intros Hpq; [done|]. rewrite !filter_cons, IH by (intros y Hy; apply Hpq; by constructor).
  destruct (Hpq x ltac:(by constructor)). destruct (decide (P x)), (decide (Q x)); tauto || done.
Qed.

Lemma click_next v i rest : settled v -> filter (fresh v) candidates = i :: rest ->
  click candidates v = (i, v.2 ++ [i]) /\ filter (fresh (click candidates v)) candidates = rest.
Proof.
  intros Hv E. assert (Ec : click candidates v = (i, v.2 ++ [i])) by (unfold click; by rewrite E). split; [done|]. rewrite Ec.
  assert (Hd : NoDup (i :: rest)) by (rewrite <- E; apply NoDup_filter, candidates_nodup). apply NoDup_cons in Hd as [Hi Hd].
  transitivity (filter (fun j => j <> i) (filter (fresh v) candidates)).
  - rewrite list_filter_filter. apply filter_ext_in. intros j Hj. unfold fresh. cbn [fst snd].
    rewrite elem_of_app, list_elem_of_singleton. split; [|tauto]. intros [H1 H2]. split; [done|]. split; [|tauto].
    intros ->. apply H2. left. by apply Hv.
  - rewrite E, filter_cons_False by tauto. rewrite (filter_ext_in _ (fun _ => True)); [|by intros j Hj; split; [|intros _ ->]].
    clear. induction rest as [|j rest IH]; [done|]. by rewrite filter_cons_True, IH.
Qed.


(** As long as there are fresh candidates, each click takes the next of them. *)
Lemma fresh_reached v i : settled v -> i ∈ filter (fresh v) candidates ->
  exists n, (n <= length (filter (fresh v) candidates))%nat /\ (viewed n v).1 = i.
Proof.
  remember (filter (fresh v) candidates) as F eqn:E. revert v E. induction F as [|j F IH]; intros v E Hv Hi; [by apply not_elem_of_nil in Hi|].
  destruct (click_next v j F Hv (eq_sym E)) as [Ec EF].
  apply elem_of_cons in Hi as [->|Hi]; [exists 1%nat; cbn [viewed]; rewrite Ec; cbn; split; [lia | done]|].
  destruct (IH (click candidates v) (eq_sym EF) (click_settled v) Hi) as (n & Hn & H). exists (S n). cbn. split; [lia | exact H].
Qed.

Lemma fresh_exhausted v : settled v -> exists n w, (n <= length (filter (fresh v) candidates))%nat /\ viewed n v = w /\
  settled w /\ filter (fresh w) candidates = [].
Proof.
  remember (filter (fresh v) candidates) as F eqn:E. revert v E. induction F as [|j F IH]; intros v E Hv; [exists 0%nat, v; cbn; auto|].
  destruct (click_next v j F Hv (eq_sym E)) as [Ec EF].
  destruct (IH (click candidates v) (eq_sym EF) (click_settled v)) as (n & w & Hn & H). exists (S n), w. cbn. split; [lia | exact H].
Qed.

Lemma candidate_reached v i : settled v -> i ∈ candidates ->
  exists n, (n <= 2 * length candidates)%nat /\ (viewed n v).1 = i.
Proof.
  intros Hv Hi. assert (Hle : forall w, (length (filter (fresh w) candidates) <= length candidates)%nat) by (intros w; apply length_filter).
  destruct (decide (fresh v i)) as [Hf|Hf].
  { destruct (fresh_reached v i Hv) as (n & Hn & H); [by apply list_elem_of_filter|]. exists n. split; [|done]. specialize (Hle v). lia. }
  assert (Hlt : (length (filter (fresh v) candidates) < length candidates)%nat) by (by apply length_filter_lt with i).
  destruct (fresh_exhausted v Hv) as (m & w & Hm & Ew & Hw & Enone).
  destruct (decide (w.1 = i)) as [E|E]; [exists m; rewrite Ew; split; [lia | done]|].
  assert (Ec : exists k, click candidates w = (k, [u8 k]) /\ k ∈ candidates).
  { unfold click. rewrite Enone. cbn [head]. destruct (filter (fun i => i <> w.1) candidates) as [|k ks] eqn:Ek.
    - exfalso. by apply (filter_nil_not_elem_of _ _ i Ek (not_eq_sym E)) in Hi.
    - exists k. split; [done|]. assert (Hk : k ∈ k :: ks) by constructor. rewrite <- Ek in Hk. by apply list_elem_of_filter in Hk as [_ Hk]. }
  destruct Ec as (k & Ec & Hk). apply candidate_bounds in Hk as Hb.
  rewrite u8_id in Ec by (unfold is_u; change TotalLocations with 255 in *; lia).
  destruct (decide (i = k)) as [->|Hik].
  { exists (m + 1)%nat. rewrite viewed_add, Ew. cbn [viewed]. rewrite Ec. split; [lia | done]. }
  destruct (fresh_reached (click candidates w) i (click_settled w)) as (n & Hn & H).
  { apply list_elem_of_filter. split; [|done]. rewrite Ec. split; [done|]. cbn. rewrite list_elem_of_singleton. done. }
  exists (m + (1 + n))%nat. rewrite viewed_add, Ew, viewed_add. split; [|exact H]. specialize (Hle (click candidates w)). lia.
Qed.

(** C35: Whatever was selected before, each of the locations under the cursor is
    selected within two rounds of clicks on the same point, however the
    locations overlap, and no click reads or writes past the recent locations. *)
Theorem clicks_select_each s i : selecting s -> i ∈ candidates ->
  (forall n, exists s', clicks n s = Ret s' /\ selecting s') /\
  exists n s', (n <= 2 * length candidates)%nat /\ clicks n s = Ret s' /\ selectedLocation s' = i.
Proof.
  intros Hs Hi. split; [intros n; destruct (clicks_view n s Hs) as (s' & H & H' & _); eauto|].
  destruct (candidate_reached (view s) i) as (n & Hn & H); [|done|].
  { intros Hc%candidate_bounds. by apply (sel_recent _ Hs). }
  destruct (clicks_view n s Hs) as (s' & E & _ & Ev). exists n, s'. split; [done|]. split; [done|]. by rewrite <- Ev in H.
Qed.

End Clicks.

(** Two locations overlap at the point (5, 5). *)
Definition overlapping : MrgnSection.t :=
  [None; Some (Location.mkLocation 0 0 10 10 1 0); Some (Location.mkLocation 20 20 30 30 2 0); Some (Location.mkLocation 10 10 4 4 3 0)].
Lemma clicks_select_each_witness : selecting newSelections /\ 3 ∈ candidates overlapping 5 5 false /\
  exists n s', (n <= 4)%nat /\ clicks overlapping 5 5 false n newSelections = Ret s' /\ selectedLocation s' = 3.
Proof.
  assert (Hs : selecting newSelections) by (split; cbn; [done | done | constructor | constructor | lia]).
  assert (Hi : 3 ∈ candidates overlapping 5 5 false) by (change (3 ∈ [1; 3]); set_solver).
  split; [exact Hs|]. split; [exact Hi|].
  apply (clicks_select_each overlapping 5 5 false ltac:(done) newSelections 3 Hs Hi).
Defined.
