(* ===== verification/EditorUndos.v ===== *)
(** Undoing and redoing in the editor (ChkdraftLib: Reversibles.cpp, Undos.cpp
    and the members of GuiMap.cpp that keep track of changes).

    A [Reversible] is an action or a vector of them.  [Reverse] puts the value
    an action keeps into the object it is given and keeps the replaced one, so
    that reversing it again is a redo.  [Undos] has a list of actions to undo
    and one to redo, and counts the changes of each type.  A pointer in one of
    the lists of [Undos] is in no other list, so that an action is a value.
    The object, a [void*], is of any type; [EditorActions] has the actions of
    the map. *)
From S2P Require Import Prelude.
Open Scope Z_scope.

(** ** Reversible actions *)

(** [ReversibleAction]; its [Count] is 1. *)
Class Reversing (A O : Type) := {
  Reverse : A -> O -> outcome (A * O);
  GetType : A -> Z
}.

Inductive Reversible (A : Type) : Type :=
  | ReversibleAction (a : A)
  | ReversibleActions (actions : list (Reversible A)) (reversed : bool).
Arguments ReversibleAction {A} a.
Arguments ReversibleActions {A} actions reversed.

(** The loops over a vector from its begin and from its end. *)
Definition forward {A O} (f : A -> O -> outcome (A * O)) : list A -> O -> outcome (list A * O) :=
  fix go (l : list A) (o : O) : outcome (list A * O) :=
    match l with
    | [] => Ret ([], o)
    | a :: l =>
        let* (a, o) := f a o in
        let* (l, o) := go l o in
        Ret (a :: l, o)
    end.
Definition backward {A O} (f : A -> O -> outcome (A * O)) : list A -> O -> outcome (list A * O) :=
  fix go (l : list A) (o : O) : outcome (list A * O) :=
    match l with
    | [] => Ret ([], o)
    | a :: l =>
        let* (l, o) := go l o in
        let* (a, o) := f a o in
        Ret (a :: l, o)
    end.

Section reversible.
Context {A O : Type} {HR : Reversing A O}.

Fixpoint reverse (r : Reversible A) (o : O) : outcome (Reversible A * O) :=
  match r with
  | ReversibleAction a => let* (a, o) := Reverse a o in Ret (ReversibleAction a, o)
  | ReversibleActions actions reversed =>
      let* (actions, o) := if reversed then backward reverse actions o else forward reverse actions o in
      Ret (ReversibleActions actions (negb reversed), o)
  end.

Fixpoint getType (r : Reversible A) : Z :=
  match r with
  | ReversibleAction a => GetType a
  | ReversibleActions actions _ =>
      (fix first (l : list (Reversible A)) : Z :=
         match l with
         | [] => 0
         | r :: l => if negb (getType r =? 0) then getType r else first l
         end) actions
  end.

Definition Count (r : Reversible A) : Z :=
  match r with
  | ReversibleAction _ => 1
  | ReversibleActions actions _ => s32 (zlen actions)
  end.

(** [ReversibleActions::Make] and [Insert]. *)
Definition Make : Reversible A := ReversibleActions [] true.
Definition Insert (action r : Reversible A) : Reversible A :=
  match r with
  | ReversibleAction a => ReversibleAction a
  | ReversibleActions actions reversed => ReversibleActions (actions ++ [action]) reversed
  end.

(** ** The lists of actions *)

Record Undos := mkUndos {
  undos : list (Reversible A);
  redos : list (Reversible A);
  changeCounters : gmap Z Z
}.

Definition newUndos : Undos := mkUndos [] [] ∅.

(** What the observer is told. *)
Inductive Notification := ChangesMade | ChangesReversed.

(** The counters stay far below the limits of an int32_t. *)
Definition AdjustChangeCount (type adjustBy : Z) (u : Undos) : Undos * Notification :=
  let counters := match changeCounters u !! type with
                  | Some count =>
                      let newCount := count + adjustBy in
                      if newCount =? 0 then delete type (changeCounters u)
                      else <[type := newCount]> (changeCounters u)
                  | None => <[type := adjustBy]> (changeCounters u)
                  end in
  (mkUndos (undos u) (redos u) counters, if decide (counters = ∅) then ChangesReversed else ChangesMade).

Definition AddUndo (action : Reversible A) (u : Undos) : Undos * option Notification :=
  if Count action >? 0 then
    let '(u, n) := AdjustChangeCount (getType action) 1 (mkUndos (action :: undos u) (redos u) (changeCounters u)) in
    (u, Some n)
  else (u, None).

(** [popUndo] and [popRedo]: the first action of the type and the others. *)
Fixpoint pop (type : Z) (l : list (Reversible A)) : option (Reversible A * list (Reversible A)) :=
  match l with
  | [] => None
  | r :: l =>
      if type =? getType r then Some (r, l)
      else match pop type l with Some (found, l) => Some (found, r :: l) | None => None end
  end.

Definition doUndo (type : Z) (u : Undos) (obj : O) : outcome (Undos * O * option Notification) :=
  match pop type (undos u) with
  | Some (r, rest) =>
      let* (r, obj) := reverse r obj in
      let '(u, n) := AdjustChangeCount (getType r) (-1) (mkUndos rest (r :: redos u) (changeCounters u)) in
      Ret (u, obj, Some n)
  | None => Ret (u, obj, None)
  end.

Definition doRedo (type : Z) (u : Undos) (obj : O) : outcome (Undos * O * option Notification) :=
  match pop type (redos u) with
  | Some (r, rest) =>
      let* (r, obj) := reverse r obj in
      let '(u, n) := AdjustChangeCount (getType r) 1 (mkUndos (r :: undos u) rest (changeCounters u)) in
      Ret (u, obj, Some n)
  | None => Ret (u, obj, None)
  end.

Definition ResetChangeCount (u : Undos) : Undos := mkUndos (undos u) (redos u) ∅.

(** ** The object with its unsaved changes *)

Record Editing := mkEditing {
  object : O;
  history : Undos;
  unsavedChanges : bool;
  changeLock : bool
}.

(** [GuiMap::notifyChange] and [changesUndone], without the window's title. *)
Definition notifyChange (undoable : bool) (g : Editing) : Editing :=
  mkEditing (object g) (history g) true (if negb (changeLock g) && negb undoable then true else changeLock g).
Definition changesUndone (g : Editing) : Editing :=
  if negb (changeLock g) then mkEditing (object g) (history g) false (changeLock g) else g.
Definition observe (n : option Notification) (g : Editing) : Editing :=
  match n with
  | Some ChangesMade => notifyChange true g
  | Some ChangesReversed => changesUndone g
  | None => g
  end.

Definition withObject (o : O) (g : Editing) : Editing := mkEditing o (history g) (unsavedChanges g) (changeLock g).
Definition withHistory (u : Undos) (g : Editing) : Editing := mkEditing (object g) u (unsavedChanges g) (changeLock g).

Definition addUndo (r : Reversible A) (g : Editing) : Editing :=
  let '(u, n) := AddUndo r (history g) in observe n (withHistory u g).
Definition undo (type : Z) (g : Editing) : outcome Editing :=
  let* (u, o, n) := doUndo type (history g) (object g) in Ret (observe n (withObject o (withHistory u g))).
Definition redo (type : Z) (g : Editing) : outcome Editing :=
  let* (u, o, n) := doRedo type (history g) (object g) in Ret (observe n (withObject o (withHistory u g))).
(** [GuiMap::SaveFile] once the file is written. *)
Definition saved (g : Editing) : Editing :=
  if unsavedChanges g then mkEditing (object g) (ResetChangeCount (history g)) false false
  else mkEditing (object g) (history g) (unsavedChanges g) false.
End reversible.
Arguments Undos : clear implicits.
Arguments Editing : clear implicits.
Arguments mkEditing {A O} object history unsavedChanges changeLock.
