(* ===== verification/EditorHistory.v ===== *)
(** Properties of undoing and redoing.

    The class [ReversingLaws] is what the actions promise: there are types of
    changes, each with the part of the object it is about, and an action looks
    at and changes the part of its type alone.  From this it is shown that
    [Undos], which keeps the actions of all types in common lists, is for every
    type a timeline of its own ([Timeline]), and that the unsaved changes are
    known from the counters. *)
From stdpp Require Import functions.
From S2P Require Import Prelude EditorUndos.
Open Scope Z_scope.

Class ReversingLaws (A O : Type) {HR : Reversing A O} := {
  (** The objects agree on the part that the changes of a type are about. *)
  same : Z -> relation O;
  same_equivalence : forall t, Equivalence (same t);
  type_nonzero : forall a, GetType a <> 0;
  reverse_type : forall a o a' o', Reverse a o = Ret (a', o') -> GetType a' = GetType a;
  reverse_local : forall a o a' o' p, Reverse a o = Ret (a', o') -> same (GetType a) o p ->
    exists p', Reverse a p = Ret (a', p') /\ same (GetType a) o' p';
  reverse_frame : forall a o a' o' t, Reverse a o = Ret (a', o') -> t <> GetType a -> same t o o'
}.
#[export] Existing Instance same_equivalence.

(** ** A timeline *)

Record Timeline (O : Type) := mkTimeline {
  past : list O;
  present : O;
  future : list O;
  stale : bool
}.
Arguments mkTimeline {O} past present future stale.
Arguments past {O} t.
Arguments present {O} t.
Arguments future {O} t.
Arguments stale {O} t.

Section timeline.
Context {O : Type}.
Definition born (o : O) : Timeline O := mkTimeline [] o [] false.
(** An edit ends what could be redone, which [Undos] nevertheless keeps. *)
Definition edit (o : O) (t : Timeline O) : Timeline O :=
  mkTimeline (present t :: past t) o [] (stale t || match future t with [] => false | _ => true end).
Definition back (t : Timeline O) : Timeline O :=
  match past t with
  | [] => t
  | o :: past => mkTimeline past o (present t :: future t) (stale t)
  end.
Definition forth (t : Timeline O) : option (Timeline O) :=
  match future t with
  | [] => if stale t then None else Some t
  | o :: future => Some (mkTimeline (present t :: past t) o future (stale t))
  end.
End timeline.

Section laws.
Context {A O : Type} {HR : Reversing A O} {HL : ReversingLaws A O}.
Implicit Types (r : Reversible A) (o p q : O).

(** ** One type of actions *)

(** All actions of a vector have one type. *)
Inductive uniform (t : Z) : Reversible A -> Prop :=
  | uniform_action a : GetType a = t -> uniform t (ReversibleAction a)
  | uniform_actions l b : Forall (uniform t) l -> uniform t (ReversibleActions l b).

Lemma reversible_ind (P : Reversible A -> Prop) :
  (forall a, P (ReversibleAction a)) -> (forall l b, Forall P l -> P (ReversibleActions l b)) -> forall r, P r.
Proof.
  intros Ha Hl. fix IH 1. intros [a|l b]; [apply Ha | apply Hl]. induction l as [|r l IHl]; constructor; [apply IH | exact IHl].
Qed.

Definition firstNonzero (l : list Z) : Z := default 0 (head (filter (fun t => t <> 0) l)).
Lemma getType_actions (l : list (Reversible A)) b : getType (ReversibleActions l b) = firstNonzero (getType <$> l).
Proof.
  unfold firstNonzero. cbn [getType]. induction l as [|r l IH]; [done|]. rewrite fmap_cons, filter_cons, IH.
  destruct (Z.eqb_spec (getType r) 0) as [E|E]; [by rewrite decide_False by tauto | by rewrite decide_True].
Qed.

(** What is shown of a step holds for the loops over a vector. *)
Definition Steps (t : Z) (f : Reversible A -> O -> outcome (Reversible A * O)) (r : Reversible A) : Prop :=
  forall o r' o', f r o = Ret (r', o') ->
    uniform t r' /\ getType r' = getType r /\ (forall p, same t o p -> exists p', f r p = Ret (r', p') /\ same t o' p') /\
    (forall t', t' <> t -> same t' o o').
Definition StepsAll (t : Z) (f : list (Reversible A) -> O -> outcome (list (Reversible A) * O)) (l : list (Reversible A)) : Prop :=
  forall o l' o', f l o = Ret (l', o') ->
    Forall (uniform t) l' /\ getType <$> l' = getType <$> l /\
    (forall p, same t o p -> exists p', f l p = Ret (l', p') /\ same t o' p') /\ (forall t', t' <> t -> same t' o o').

Lemma forward_steps t f l : Forall (Steps t f) l -> StepsAll t (forward f) l.
Proof.
  induction 1 as [|r l Hr Hl IH]; intros o l' o'; cbn [forward].
  { intros [= <- <-]. repeat split; [constructor | intros p Hp; eauto | reflexivity]. }
  destruct (f r o) as [[r1 o1]| |] eqn:E1; cbn [obind]; [|done|done]. fold (forward f).
  destruct (forward f l o1) as [[l1 o2]| |] eqn:E2; cbn [obind]; [|done|done]. intros [= <- <-].
  destruct (Hr _ _ _ E1) as (U1 & N1 & L1 & F1), (IH _ _ _ E2) as (U2 & N2 & L2 & F2).
  split; [by constructor|]. split; [cbn; by f_equal|]. split.
  - intros p Hp. destruct (L1 p Hp) as (p1 & -> & Hp1). cbn [obind]. destruct (L2 p1 Hp1) as (p2 & -> & Hp2). cbn. eauto.
  - intros t' Ht. etransitivity; [by apply F1 | by apply F2].
Qed.

Lemma backward_steps t f l : Forall (Steps t f) l -> StepsAll t (backward f) l.
Proof.
  induction 1 as [|r l Hr Hl IH]; intros o l' o'; cbn [backward].
  { intros [= <- <-]. repeat split; [constructor | intros p Hp; eauto | reflexivity]. }
  fold (backward f). destruct (backward f l o) as [[l1 o1]| |] eqn:E1; cbn [obind]; [|done|done].
  destruct (f r o1) as [[r1 o2]| |] eqn:E2; cbn [obind]; [|done|done]. intros [= <- <-].
  destruct (IH _ _ _ E1) as (U1 & N1 & L1 & F1), (Hr _ _ _ E2) as (U2 & N2 & L2 & F2).
  split; [by constructor|]. split; [cbn; by f_equal|]. split.
  - intros p Hp. destruct (L1 p Hp) as (p1 & -> & Hp1). cbn [obind]. destruct (L2 p1 Hp1) as (p2 & -> & Hp2). cbn. eauto.
  - intros t' Ht. etransitivity; [by apply F1 | by apply F2].
Qed.

Lemma uniform_steps t r : uniform t r -> Steps t reverse r.
Proof.
  revert r. apply (reversible_ind (fun r => uniform t r -> Steps t reverse r)).
  - intros a Hu o r' o'. inversion Hu as [? Ha|]; subst. cbn [reverse].
    destruct (Reverse a o) as [[a1 o1]| |] eqn:E; cbn [obind]; [|done|done]. intros [= <- <-].
    assert (Ht1 : GetType a1 = GetType a) by (by eapply reverse_type). split; [by constructor|]. split; [done|]. split.
    + intros p Hp. destruct (reverse_local a o a1 o1 p E Hp) as (p' & Ep & Hp'). exists p'. by rewrite Ep.
    + intros t' Ht. by eapply reverse_frame.
  - intros l b IH Hu o r' o'. inversion Hu as [|? ? Hl]; subst. cbn [reverse].
    assert (Hs : Forall (Steps t reverse) l).
    { apply Forall_forall. intros x Hx. apply (proj1 (Forall_forall _ _) IH x Hx), (proj1 (Forall_forall _ _) Hl x Hx). }
    destruct b.
    + destruct (backward reverse l o) as [[l1 o1]| |] eqn:E; cbn [obind]; [|done|done]. intros [= <- <-].
      destruct (backward_steps t reverse l Hs _ _ _ E) as (U & N & L & F). split; [by constructor|].
      split; [by rewrite !getType_actions, N|]. split; [|done].
      intros p Hp. destruct (L p Hp) as (p' & -> & Hp'). cbn. eauto.
    + destruct (forward reverse l o) as [[l1 o1]| |] eqn:E; cbn [obind]; [|done|done]. intros [= <- <-].
      destruct (forward_steps t reverse l Hs _ _ _ E) as (U & N & L & F). split; [by constructor|].
      split; [by rewrite !getType_actions, N|]. split; [|done].
      intros p Hp. destruct (L p Hp) as (p' & -> & Hp'). cbn. eauto.
Qed.

(** ** Swapping *)

(** [r] leads from [o] to [p], as far as type [t] goes, and back as [r']. *)
Definition Swaps (t : Z) (r r' : Reversible A) (o p : O) : Prop :=
  uniform t r /\ uniform t r' /\ getType r' = getType r /\
  (forall q, same t o q -> exists q', reverse r q = Ret (r', q') /\ same t p q' /\ forall t', t' <> t -> same t' q q') /\
  (forall q, same t p q -> exists q', reverse r' q = Ret (r, q') /\ same t o q' /\ forall t', t' <> t -> same t' q q').

Lemma swaps_sym t r r' o p : Swaps t r r' o p -> Swaps t r' r p o.
Proof. by intros (U & U' & E & F & B). Qed.

#[export] Instance swaps_proper t r r' : Proper (same t ==> same t ==> iff) (Swaps t r r').
Proof.
  assert (H : forall o1 o2 p1 p2, same t o1 o2 -> same t p1 p2 -> Swaps t r r' o1 p1 -> Swaps t r r' o2 p2).
  { intros o1 o2 p1 p2 Ho Hp (U & U' & E & F & B). repeat (split; [done|]). split.
    - intros q Hq. destruct (F q) as (q' & Eq & Hq' & Fr); [by rewrite Ho|]. exists q'. by rewrite <- Hp.
    - intros q Hq. destruct (B q) as (q' & Eq & Hq' & Fr); [by rewrite Hp|]. exists q'. by rewrite <- Ho. }
  intros o1 o2 Ho p1 p2 Hp. split; apply H; try done; by symmetry.
Qed.

Lemma swaps_intro t r r' o p o' : uniform t r -> reverse r o = Ret (r', p) -> reverse r' p = Ret (r, o') -> same t o o' ->
  Swaps t r r' o p.
Proof.
  intros U E E' Ho. destruct (uniform_steps t r U _ _ _ E) as (U' & N & L & F).
  destruct (uniform_steps t r' U' _ _ _ E') as (_ & _ & L' & F').
  split; [done|]. split; [done|]. split; [done|]. split.
  - intros q Hq. destruct (L q Hq) as (q' & Eq & Hq'). exists q'. split; [done|]. split; [done|].
    by apply (uniform_steps t r U _ _ _ Eq).
  - intros q Hq. destruct (L' q Hq) as (q' & Eq & Hq'). exists q'. split; [done|]. split; [by rewrite Ho|].
    by apply (uniform_steps t r' U' _ _ _ Eq).
Qed.

(** A vector of actions, the first of which belongs to the first change. *)
Inductive SwapsAll (t : Z) : list (Reversible A) -> list (Reversible A) -> O -> O -> Prop :=
  | swaps_nil o p : same t o p -> SwapsAll t [] [] o p
  | swaps_snoc rs rs' r r' o p q : SwapsAll t rs rs' p q -> Swaps t r r' o p -> SwapsAll t (rs ++ [r]) (rs' ++ [r']) o q.

Lemma backward_app {B} (f : B -> O -> outcome (B * O)) l1 l2 o : backward f (l1 ++ l2) o =
  let* (l2', o1) := backward f l2 o in let* (l1', o2) := backward f l1 o1 in Ret (l1' ++ l2', o2).
Proof.
  revert o. induction l1 as [|a l1 IH]; intros o; cbn [app backward]; fold (backward f).
  - destruct (backward f l2 o) as [[? ?]| |]; done.
  - rewrite IH. destruct (backward f l2 o) as [[l2' o1]| |]; cbn [obind]; [|done|done].
    destruct (backward f l1 o1) as [[l1' o2]| |]; cbn [obind]; [|done|done]. by destruct (f a o2) as [[? ?]| |].
Qed.
Lemma forward_app {B} (f : B -> O -> outcome (B * O)) l1 l2 o : forward f (l1 ++ l2) o =
  let* (l1', o1) := forward f l1 o in let* (l2', o2) := forward f l2 o1 in Ret (l1' ++ l2', o2).
Proof.
  revert o. induction l1 as [|a l1 IH]; intros o; cbn [app forward]; fold (forward f).
  - cbn. by destruct (forward f l2 o) as [[? ?]| |].
  - destruct (f a o) as [[a' o1]| |]; cbn [obind]; [|done|done]. rewrite IH.
    destruct (forward f l1 o1) as [[l1' o2]| |]; cbn [obind]; [|done|done]. by destruct (forward f l2 o2) as [[? ?]| |].
Qed.

Lemma swaps_all t rs rs' o p : SwapsAll t rs rs' o p ->
  Swaps t (ReversibleActions rs true) (ReversibleActions rs' false) o p.
Proof.
  assert (H : SwapsAll t rs rs' o p -> Forall (uniform t) rs /\ Forall (uniform t) rs' /\ getType <$> rs' = getType <$> rs /\
    (forall q, same t o q -> exists q', backward reverse rs q = Ret (rs', q') /\ same t p q' /\ forall t', t' <> t -> same t' q q') /\
    (forall q, same t p q -> exists q', forward reverse rs' q = Ret (rs, q') /\ same t o q' /\ forall t', t' <> t -> same t' q q')).
  { induction 1 as [o p Hop|rs rs' r r' o p q Hs (U & U' & N & F & B) (Ur & Ur' & Nr & Fr & Br)].
    { repeat (split; [by constructor|]). split; intros q Hq; exists q; (split; [done|]); (split; [|done]);
        [by rewrite <- Hop | by rewrite Hop]. }
    split; [by apply Forall_app_2; [|constructor]|]. split; [by apply Forall_app_2; [|constructor]|].
    split; [rewrite !fmap_app, N; cbn; by rewrite Nr|]. split.
    - intros x Hx. destruct (Fr x Hx) as (x1 & E1 & H1 & T1), (F x1 H1) as (x2 & E2 & H2 & T2).
      exists x2. rewrite backward_app. cbn [backward]. cbn [obind]. rewrite E1. cbn [obind]. rewrite E2. cbn [obind].
      split; [done|]. split; [done|]. intros t' Ht. etransitivity; eauto.
    - intros x Hx. destruct (B x Hx) as (x1 & E1 & H1 & T1), (Br x1 H1) as (x2 & E2 & H2 & T2).
      exists x2. rewrite forward_app, E1. cbn [obind forward]. rewrite E2. cbn [obind].
      split; [done|]. split; [done|]. intros t' Ht. etransitivity; eauto. }
  intros (U & U' & N & F & B)%H. split; [by constructor|]. split; [by constructor|]. split; [by rewrite !getType_actions, N|]. split.
  - intros q Hq. destruct (F q Hq) as (q' & E & Hq'). exists q'. cbn [reverse]. by rewrite E.
  - intros q Hq. destruct (B q Hq) as (q' & E & Hq'). exists q'. cbn [reverse]. by rewrite E.
Qed.

(** ** Histories *)

(** What the editor does: an edit with the action that reverses it, a change
    that cannot be undone, undoing, redoing and saving.  [T] has the timelines of
    all types, [N] the changes since the map was saved. *)
Inductive History : Editing A O -> (Z -> Timeline O) -> (Z -> Z) -> Prop :=
  | started o : History (mkEditing o newUndos false false) (fun _ => born o) (fun _ => 0)
  | edited g T N t r r' o : History g T N -> t <> 0 -> getType r = t -> 0 < Count r -> Swaps t r r' o (object g) ->
      (forall t', t' <> t -> same t' (object g) o) ->
      History (addUndo r (withObject o g)) (<[t := edit o (T t)]> T) (<[t := N t + 1]> N)
  | locked g T N : History g T N -> History (notifyChange false g) T N
  | undone g T N t g' : History g T N -> t <> 0 -> undo t g = Ret g' ->
      History g' (<[t := back (T t)]> T) (match past (T t) with [] => N | _ => <[t := N t - 1]> N end)
  | redone g T N t g' tl : History g T N -> t <> 0 -> forth (T t) = Some tl -> redo t g = Ret g' ->
      History g' (<[t := tl]> T) (match future (T t) with [] => N | _ => <[t := N t + 1]> N end)
  | stored g T N : History g T N -> History (saved g) T (fun _ => 0).

(** The actions of a list lead from an object through the others. *)
Fixpoint chain (t : Z) (rs : list (Reversible A)) (o : O) (os : list O) : Prop :=
  match rs, os with
  | [], [] => True
  | r :: rs, p :: os => (exists r', Swaps t r r' o p) /\ chain t rs p os
  | _, _ => False
  end.

#[export] Instance chain_proper t rs : Proper (same t ==> eq ==> iff) (chain t rs).
Proof.
  intros o1 o2 Ho os ? <-. destruct rs, os; cbn [chain]; [done|done|done|]. by setoid_rewrite Ho.
Qed.

Definition ofType (t : Z) (l : list (Reversible A)) : list (Reversible A) := filter (fun r => getType r = t) l.

Lemma pop_none t (l : list (Reversible A)) : pop t l = None -> ofType t l = [].
Proof.
  induction l as [|r l IH]; cbn [pop]; [done|]. unfold ofType. rewrite filter_cons. destruct (Z.eqb_spec t (getType r)) as [->|E]; [done|].
  destruct (pop t l) as [[? ?]|]; [done|]. intros _. rewrite decide_False by auto. by apply IH.
Qed.
Lemma pop_some t (l : list (Reversible A)) r rest : pop t l = Some (r, rest) ->
  getType r = t /\ ofType t l = r :: ofType t rest /\ forall t', t' <> t -> ofType t' l = ofType t' rest.
Proof.
  revert rest. induction l as [|x l IH]; cbn [pop]; [done|]. intros rest. unfold ofType. rewrite filter_cons.
  destruct (Z.eqb_spec t (getType x)) as [E|E].
  - intros [= <- <-]. split; [done|]. rewrite decide_True by done. split; [done|]. intros t' Ht. by rewrite filter_cons_False by congruence.
  - destruct (pop t l) as [[y l']|]; [|done]. intros [= <- <-]. destruct (IH l' eq_refl) as (Ey & El & Eo). split; [done|].
    rewrite decide_False by auto. split; [rewrite filter_cons_False by auto; done|].
    intros t' Ht. rewrite !filter_cons. specialize (Eo t' Ht). unfold ofType in Eo. by rewrite Eo.
Qed.

(** What holds of every history. *)
Definition onTimeline (t : Z) (u : Undos A) (o : O) (tl : Timeline O) : Prop :=
  same t (present tl) o /\ chain t (ofType t (undos u)) (present tl) (past tl) /\
  exists valid rest, ofType t (redos u) = valid ++ rest /\ chain t valid (present tl) (future tl) /\ (stale tl = false -> rest = []).
Definition counted (u : Undos A) (N : Z -> Z) : Prop :=
  forall t, changeCounters u !! t = if decide (N t = 0) then None else Some (N t).
Definition told (g : Editing A O) : Prop :=
  unsavedChanges g = changeLock g || negb (bool_decide (changeCounters (history g) = ∅)).

Lemma adjust_counted (u : Undos A) N t n : counted u N -> n <> 0 -> counted (AdjustChangeCount t n u).1 (<[t := N t + n]> N).
Proof.
  intros HN Hn t'. unfold AdjustChangeCount. cbn. rewrite (HN t). destruct (decide (N t = 0)) as [E|E].
  - rewrite E, Z.add_0_l. destruct (decide (t' = t)) as [->|Ht].
    + by rewrite lookup_insert_eq, fn_lookup_insert, decide_False.
    + by rewrite lookup_insert_ne, fn_lookup_insert_ne.
  - destruct (Z.eqb_spec (N t + n) 0) as [E0|E0]; destruct (decide (t' = t)) as [->|Ht].
    + by rewrite lookup_delete_eq, fn_lookup_insert, decide_True.
    + by rewrite lookup_delete_ne, fn_lookup_insert_ne.
    + by rewrite lookup_insert_eq, fn_lookup_insert, decide_False.
    + by rewrite lookup_insert_ne, fn_lookup_insert_ne.
Qed.

Lemma adjust_lists t n (u : Undos A) : undos (AdjustChangeCount t n u).1 = undos u /\ redos (AdjustChangeCount t n u).1 = redos u.
Proof. done. Qed.

(** The observer is told of the counters. *)
Lemma observe_told o (u : Undos A) t n (g : Editing A O) : told g -> told (observe (Some (AdjustChangeCount t n u).2)
  (withObject o (withHistory (AdjustChangeCount t n u).1 g))).
Proof.
  unfold told. set (a := AdjustChangeCount t n u). assert (Ha : a.2 = if decide (changeCounters a.1 = ∅) then ChangesReversed else ChangesMade) by done.
  rewrite Ha. destruct (decide (changeCounters a.1 = ∅)) as [E|E]; cbn.
  - unfold changesUndone. cbn. intros Ht. destruct (changeLock g) eqn:El; cbn in *; [by rewrite Ht, El | by rewrite E].
  - intros _. rewrite bool_decide_false by done. cbn. by rewrite orb_true_r.
Qed.

Lemma observed n (g : Editing A O) : object (observe n g) = object g /\ history (observe n g) = history g.
Proof. destruct n as [[]|]; cbn; [done| |done]. unfold changesUndone. by destruct (negb _). Qed.

(** The timelines of the types a step is not about. *)
Lemma timeline_other t (u u' : Undos A) o o' tl : onTimeline t u o tl -> same t o o' ->
  ofType t (undos u') = ofType t (undos u) -> ofType t (redos u') = ofType t (redos u) -> onTimeline t u' o' tl.
Proof. intros (Hp & Hc & Hr) Ho Eu Er. unfold onTimeline. rewrite Eu, Er. split; [by rewrite Hp | done]. Qed.

Lemma ofType_cons t r (l : list (Reversible A)) : ofType t (r :: l) = if decide (getType r = t) then r :: ofType t l else ofType t l.
Proof. unfold ofType. by rewrite filter_cons. Qed.

Lemma chain_cons t r rs o p os r' : Swaps t r r' o p -> chain t rs p os -> chain t (r :: rs) o (p :: os).
Proof. cbn. eauto. Qed.

Lemma timeline_edit t (u : Undos A) c o o' r r' tl : onTimeline t u o tl -> getType r = t -> Swaps t r r' o' o ->
  onTimeline t (mkUndos (r :: undos u) (redos u) c) o' (edit o' tl).
Proof.
  intros (Hp & Hc & valid & rest & Er & Hv & Hs) Ht Hw. split; [done|]. cbn [undos redos past present future stale edit].
  rewrite ofType_cons, decide_True by done. split.
  { eapply chain_cons; [rewrite Hp; exact Hw | exact Hc]. }
  exists [], (valid ++ rest). split; [done|]. split; [done|]. destruct (stale tl); [done|]. cbn.
  destruct (future tl); [|done]. destruct valid; [|done]. intros _. by rewrite Hs.
Qed.

(** Undoing: there is nothing to undo, or the action swaps present and past. *)
Lemma timeline_undo t (u : Undos A) o tl : onTimeline t u o tl ->
  match past tl with
  | [] => pop t (undos u) = None
  | p :: _ => exists r r' rest o', pop t (undos u) = Some (r, rest) /\ reverse r o = Ret (r', o') /\ getType r' = t /\
      (forall t', t' <> t -> same t' o o' /\ ofType t' rest = ofType t' (undos u)) /\
      forall c, onTimeline t (mkUndos rest (r' :: redos u) c) o' (back tl)
  end.
Proof.
  intros (Hp & Hc & valid & rest & Er & Hv & Hs). destruct (pop t (undos u)) as [[r others]|] eqn:E.
  - destruct (pop_some _ _ _ _ E) as (Ht & Eu & Eo). rewrite Eu in Hc. destruct (past tl) as [|p ps] eqn:Ep; [done|].
    cbn [chain] in Hc. destruct Hc as ((r' & Hw) & Hc). pose proof Hw as (_ & _ & Nr & F & _).
    destruct (F o Hp) as (o' & Eq & Hq & Fr). exists r, r', others, o'. repeat (split; [done || congruence|]).
    split; [intros t' Ht'; split; [by apply Fr | symmetry; by apply Eo]|]. intros c. unfold back. rewrite Ep.
    split; [done|]. split; [exact Hc|]. cbn [redos present future stale]. rewrite ofType_cons, decide_True by congruence.
    exists (r' :: valid), rest. split; [by rewrite Er|]. split; [|done]. eapply chain_cons; [apply swaps_sym, Hw | exact Hv].
  - apply pop_none in E. rewrite E in Hc. by destruct (past tl).
Qed.

Lemma timeline_redo t (u : Undos A) o tl tl' : onTimeline t u o tl -> forth tl = Some tl' ->
  match future tl with
  | [] => pop t (redos u) = None /\ tl' = tl
  | p :: _ => exists r r' rest o', pop t (redos u) = Some (r, rest) /\ reverse r o = Ret (r', o') /\ getType r' = t /\
      (forall t', t' <> t -> same t' o o' /\ ofType t' rest = ofType t' (redos u)) /\
      forall c, onTimeline t (mkUndos (r' :: undos u) rest c) o' tl'
  end.
Proof.
  intros (Hp & Hc & valid & rest & Er & Hv & Hs). unfold forth. destruct (future tl) as [|p fs] eqn:Ef.
  - destruct (stale tl); [done|]. intros [= <-]. split; [|done]. destruct valid; [|done]. rewrite Hs in Er by done.
    destruct (pop t (redos u)) as [[r others]|] eqn:E; [|done]. destruct (pop_some _ _ _ _ E) as (_ & Eu & _). by rewrite Er in Eu.
  - intros [= <-]. destruct valid as [|r valid]; [done|]. cbn [chain] in Hv. destruct Hv as ((r' & Hw) & Hv).
    destruct (pop t (redos u)) as [[x others]|] eqn:E; [|apply pop_none in E; by rewrite E in Er].
    destruct (pop_some _ _ _ _ E) as (Ht & Eu & Eo). rewrite Eu in Er. injection Er as -> Er. pose proof Hw as (_ & _ & Nr & F & _).
    destruct (F o Hp) as (o' & Eq & Hq & Fr). exists r, r', others, o'. repeat (split; [done || congruence|]).
    split; [intros t' Ht'; split; [by apply Fr | symmetry; by apply Eo]|]. intros c.
    split; [done|]. cbn [undos redos past present future stale]. rewrite ofType_cons, decide_True by congruence.
    split; [eapply chain_cons; [apply swaps_sym, Hw | exact Hc]|]. exists valid, rest. split; [by rewrite Er | done].
Qed.

Definition Invariant (g : Editing A O) (T : Z -> Timeline O) (N : Z -> Z) : Prop :=
  (forall t, t <> 0 -> onTimeline t (history g) (object g) (T t)) /\ counted (history g) N /\ told g.

(** A step that changes the lists, the counter of its type and the object. *)
Lemma invariant_step g T N t u o n tl : Invariant g T N -> n <> 0 ->
  onTimeline t (AdjustChangeCount t n u).1 o tl ->
  (forall t', t' <> t -> same t' (object g) o) -> (forall t', t' <> t -> ofType t' (undos u) = ofType t' (undos (history g))) ->
  (forall t', t' <> t -> ofType t' (redos u) = ofType t' (redos (history g))) -> changeCounters u = changeCounters (history g) ->
  Invariant (observe (Some (AdjustChangeCount t n u).2) (withObject o (withHistory (AdjustChangeCount t n u).1 g)))
    (<[t := tl]> T) (<[t := N t + n]> N).
Proof.
  intros (HT & HN & Hu) Hn Ht Ho Eu Er Ec. unfold Invariant.
  destruct (observed (Some (AdjustChangeCount t n u).2) (withObject o (withHistory (AdjustChangeCount t n u).1 g))) as [-> ->].
  split; [|split; [|by apply observe_told]].
  - intros t' Ht0. destruct (decide (t' = t)) as [->|Hne]; [by rewrite fn_lookup_insert|]. rewrite fn_lookup_insert_ne by done.
    apply (timeline_other t' (history g) _ (object g)); [by apply HT | by apply Ho | by apply Eu | by apply Er].
  - apply adjust_counted; [|done]. intros t'. rewrite Ec. apply HN.
Qed.

Lemma undo_step g T N t : Invariant g T N -> t <> 0 -> exists g', undo t g = Ret g' /\
  Invariant g' (<[t := back (T t)]> T) (match past (T t) with [] => N | _ => <[t := N t - 1]> N end).
Proof.
  intros HI Ht. pose proof (timeline_undo t _ _ _ (proj1 HI t Ht)) as Hu. unfold undo, doUndo.
  destruct (past (T t)) as [|p ps] eqn:Ep.
  - rewrite Hu. cbn [obind]. eexists. split; [reflexivity|]. unfold back. rewrite Ep.
    destruct HI as (HT & HN & Htold). split; [|done]. intros t' Ht'.
    destruct (decide (t' = t)) as [->|Hne]; [rewrite fn_lookup_insert | rewrite fn_lookup_insert_ne by done]; by apply HT.
  - destruct Hu as (r & r' & rest & o' & -> & E & Et & Fr & Hb). rewrite E. cbn [obind]. rewrite Et.
    set (u := mkUndos rest (r' :: redos (history g)) (changeCounters (history g))).
    exists (observe (Some (AdjustChangeCount t (-1) u).2) (withObject o' (withHistory (AdjustChangeCount t (-1) u).1 g))).
    split; [reflexivity|]. apply (invariant_step g T N t u o' (-1)); [done | lia | apply Hb | | | |done].
    + intros t' Hne. by apply Fr.
    + intros t' Hne. by apply Fr.
    + intros t' Hne. unfold u. cbn [redos]. by rewrite ofType_cons, decide_False by congruence.
Qed.

Lemma redo_step g T N t tl : Invariant g T N -> t <> 0 -> forth (T t) = Some tl -> exists g', redo t g = Ret g' /\
  Invariant g' (<[t := tl]> T) (match future (T t) with [] => N | _ => <[t := N t + 1]> N end).
Proof.
  intros HI Ht Hf. pose proof (timeline_redo t _ _ _ _ (proj1 HI t Ht) Hf) as Hu. unfold redo, doRedo.
  destruct (future (T t)) as [|p ps] eqn:Ep.
  - destruct Hu as [-> ->]. cbn [obind]. eexists. split; [reflexivity|].
    destruct HI as (HT & HN & Htold). split; [|done]. intros t' Ht'.
    destruct (decide (t' = t)) as [->|Hne]; [rewrite fn_lookup_insert | rewrite fn_lookup_insert_ne by done]; by apply HT.
  - destruct Hu as (r & r' & rest & o' & -> & E & Et & Fr & Hb). rewrite E. cbn [obind]. rewrite Et.
    set (u := mkUndos (r' :: undos (history g)) rest (changeCounters (history g))).
    exists (observe (Some (AdjustChangeCount t (1) u).2) (withObject o' (withHistory (AdjustChangeCount t (1) u).1 g))).
    split; [reflexivity|]. apply (invariant_step g T N t u o' (1)); [done | lia | apply Hb | | | |done].
    + intros t' Hne. by apply Fr.
    + intros t' Hne. unfold u. cbn [undos]. by rewrite ofType_cons, decide_False by congruence.
    + intros t' Hne. by apply Fr.
Qed.

Lemma edit_step g T N t r r' o : Invariant g T N -> t <> 0 -> getType r = t -> 0 < Count r -> Swaps t r r' o (object g) ->
  (forall t', t' <> t -> same t' (object g) o) ->
  Invariant (addUndo r (withObject o g)) (<[t := edit o (T t)]> T) (<[t := N t + 1]> N).
Proof.
  intros HI Ht Et Hc Hw Fr. unfold addUndo, AddUndo. rewrite (proj2 (Z.gtb_lt _ _)) by done. rewrite Et.
  apply (invariant_step g T N t (mkUndos (r :: undos (history g)) (redos (history g)) (changeCounters (history g))) o);
    [done | lia | | done | | done | done].
  - by apply (timeline_edit t (history g) _ (object g) o r r'); [apply (proj1 HI) | |].
  - intros t' Hne. cbn [undos]. by rewrite ofType_cons, decide_False by congruence.
Qed.

Lemma saved_step g T N : Invariant g T N -> Invariant (saved g) T (fun _ => 0).
Proof.
  intros (HT & HN & Hu). unfold saved. unfold told in Hu. destruct (unsavedChanges g).
  - split; [|split]; [exact HT | done | done].
  - symmetry in Hu. apply orb_false_iff in Hu as [El Ee]. apply negb_false_iff, bool_decide_eq_true in Ee.
    split; [exact HT|]. split; [|unfold told; cbn; by rewrite bool_decide_true]. intros t. cbn. by rewrite Ee.
Qed.

Lemma history_invariant g T N : History g T N -> Invariant g T N.
Proof.
  induction 1 as [o|g T N t r r' o _ IH Ht Et Hc Hw Fr|g T N _ IH|g T N t g' _ IH Ht E|g T N t g' tl _ IH Ht Hf E|g T N _ IH].
  - split; [|split]; [|done|done]. intros t Ht. split; [reflexivity|]. split; [done|]. by exists [], [].
  - by eapply edit_step.
  - destruct IH as (HT & HN & Hu). split; [done|]. split; [done|]. unfold told in *. cbn. by destruct (changeLock g).
  - destruct (undo_step g T N t IH Ht) as (g1 & E1 & HI). rewrite E in E1. injection E1 as <-. exact HI.
  - destruct (redo_step g T N t tl IH Ht Hf) as (g1 & E1 & HI). rewrite E in E1. injection E1 as <-. exact HI.
  - by apply (saved_step g T N).
Qed.

Lemma timelines g T N : History g T N ->
  (forall t, t <> 0 -> same t (present (T t)) (object g)) /\
  (forall t, t <> 0 -> exists g', undo t g = Ret g' /\
    forall t', t' <> 0 -> same t' (present (if decide (t' = t) then back (T t) else T t')) (object g')) /\
  (forall t tl, t <> 0 -> forth (T t) = Some tl -> exists g', redo t g = Ret g' /\
    forall t', t' <> 0 -> same t' (present (if decide (t' = t) then tl else T t')) (object g')) /\
  (unsavedChanges g = true <-> changeLock g = true \/ exists t, N t <> 0).
Proof.
  intros HI%history_invariant.
  assert (Hat : forall t tl t' (g' : Editing A O) N', t' <> 0 -> Invariant g' (<[t := tl]> T) N' ->
    same t' (present (if decide (t' = t) then tl else T t')) (object g')).
  { intros t tl t' g' N' Ht' (HT & _). destruct (HT t' Ht') as (Hp & _). destruct (decide (t' = t)) as [->|Hne].
    - by rewrite fn_lookup_insert in Hp.
    - by rewrite fn_lookup_insert_ne in Hp. }
  split; [intros t Ht; apply (proj1 HI t Ht)|]. split; [|split].
  - intros t Ht. destruct (undo_step g T N t HI Ht) as (g' & E & HI'). exists g'. split; [done|]. intros t' Ht'. by eapply Hat.
  - intros t tl Ht Hf. destruct (redo_step g T N t tl HI Ht Hf) as (g' & E & HI'). exists g'. split; [done|]. intros t' Ht'. by eapply Hat.
  - destruct HI as (_ & HN & ->). rewrite orb_true_iff, negb_true_iff, bool_decide_eq_false.
    split; (intros [?|H]; [by left | right]).
    + apply map_choose in H as (t & n & Hn). exists t. rewrite (HN t) in Hn. by destruct (decide (N t = 0)).
    + destruct H as (t & Hn). intros E. specialize (HN t). rewrite E, lookup_empty, decide_False in HN by done. done.
Qed.

(** C36: In every history of edits, undos and redos of any types in which each edit
    adds an action that [Swaps] the state after it with the state before it, and
    nothing is redone that was undone before another edit of its type, the map is
    on the timeline of each type: undoing never fails and leads back to the state
    before the last edit of that type, redoing leads forth to the state that was
    undone as long as no edit of that type came in between, and neither affects
    what the other types are about.  There are unsaved changes exactly when some
    type has more edits than undos, or fewer, since the map was saved, or when
    there was a change that cannot be undone.  The condition on the edits is not
    met by every command of the editor: [commands_undone] has commands that meet
    it, [undo_failures] of EditorUndoProps.v some that do not. *)
Theorem undos_are_timelines g T N : History g T N ->
  (forall t, t <> 0 -> same t (present (T t)) (object g)) /\
  (forall t, t <> 0 -> exists g', undo t g = Ret g' /\
    forall t', t' <> 0 -> same t' (present (if decide (t' = t) then back (T t) else T t')) (object g')) /\
  (forall t tl, t <> 0 -> forth (T t) = Some tl -> exists g', redo t g = Ret g' /\
    forall t', t' <> 0 -> same t' (present (if decide (t' = t) then tl else T t')) (object g')) /\
  (unsavedChanges g = true <-> changeLock g = true \/ exists t, N t <> 0).
Proof. apply timelines. Qed.
End laws.
