(* ===== verification/EditorActions.v ===== *)
(** The actions that are undone in the editor (ChkdraftLib, ChkdUndos): changes of
    tiles, of the fields of units and locations, creation and deletion of units
    and locations, and moves of units within their list.

    The map is the part of [GuiMap] the actions use: the layers, the strings and
    the selections.  The section of the locations is reached both through
    [layers] and through [strings]: it is kept in the latter, and [layersOf] has
    the layers with that section; the one of [layers] itself is not used. *)
From S2P Require Import Prelude Codec ChkTypes ChkSection Objects Locations Triggers StringTable ScenarioStrings ScenarioLayers ScenarioNames Selections EditorUndos.
Open Scope Z_scope.

#[export] Existing Instance StringsClass.sections_mrgn.

Record GuiMap := mkGuiMap {
  layers : Layers;
  strings : StringsClass.Strings;
  selections : Selections
}.

Definition locationsOf (m : GuiMap) : MrgnSection.t := ScenarioStrings.mrgn (StringsClass.users (strings m)).
Definition layersOf (m : GuiMap) : Layers := (layers m) <| mrgn := Some (locationsOf m) |>.
Definition withSelections (s : Selections) (m : GuiMap) : GuiMap := mkGuiMap (layers m) (strings m) s.
Definition withStrings (st : StringsClass.Strings) (m : GuiMap) : GuiMap := mkGuiMap (layers m) st (selections m).
Definition withLocations (locations : MrgnSection.t) (m : GuiMap) : GuiMap :=
  withStrings (StringsClass.withUsers
    ((StringsClass.users (strings m)) <| ScenarioStrings.mrgn := locations |>) (strings m)) m.
(** A call that changes [layers]. *)
Definition onLayers (f : Layers -> outcome Layers) (m : GuiMap) : outcome GuiMap :=
  let* l := f (layersOf m) in
  let* locations := deref (mrgn l) in
  Ret (withLocations locations (mkGuiMap (l <| mrgn := mrgn (layers m) |>) (strings m) (selections m))).
Definition onSelections (f : Selections -> Selections) (m : GuiMap) : GuiMap := withSelections (f (selections m)) m.

(** ** Fields *)

(** [Chk::Unit::Field] *)
Inductive UnitField := ClassId | Xc | Yc | Type_ | RelationFlags | ValidStateFlags | ValidFieldFlags | Owner
  | HitpointPercent | ShieldPercent | EnergyPercent | ResourceAmount | HangerAmount | StateFlags | Unused
  | RelationClassId.

Definition unitField (field : UnitField) (u : Unit.Unit) : Z :=
  match field with
  | ClassId => Unit.classId u | Xc => Unit.xc u | Yc => Unit.yc u | Type_ => Unit.type u
  | RelationFlags => Unit.relationFlags u | ValidStateFlags => Unit.validStateFlags u
  | ValidFieldFlags => Unit.validFieldFlags u | Owner => Unit.owner u
  | HitpointPercent => Unit.hitpointPercent u | ShieldPercent => Unit.shieldPercent u
  | EnergyPercent => Unit.energyPercent u | ResourceAmount => Unit.resourceAmount u
  | HangerAmount => Unit.hangerAmount u | StateFlags => Unit.stateFlags u | Unused => Unit.unused u
  | RelationClassId => Unit.relationClassId u
  end.
Definition setUnitField (field : UnitField) (data : Z) (u : Unit.Unit) : Unit.Unit :=
  match field with
  | ClassId => u <| Unit.classId := data |>
  | Xc => u <| Unit.xc := u16 data |>
  | Yc => u <| Unit.yc := u16 data |>
  | Type_ => u <| Unit.type := u16 data |>
  | RelationFlags => u <| Unit.relationFlags := u16 data |>
  | ValidStateFlags => u <| Unit.validStateFlags := u16 data |>
  | ValidFieldFlags => u <| Unit.validFieldFlags := u16 data |>
  | Owner => u <| Unit.owner := u8 data |>
  | HitpointPercent => u <| Unit.hitpointPercent := u8 data |>
  | ShieldPercent => u <| Unit.shieldPercent := u8 data |>
  | EnergyPercent => u <| Unit.energyPercent := u8 data |>
  | ResourceAmount => u <| Unit.resourceAmount := data |>
  | HangerAmount => u <| Unit.hangerAmount := u16 data |>
  | StateFlags => u <| Unit.stateFlags := u16 data |>
  | Unused => u <| Unit.unused := data |>
  | RelationClassId => u <| Unit.relationClassId := data |>
  end.

(** [Chk::Location::Field] *)
Inductive LocationField := Left | Top | Right | Bottom | StringId | ElevationFlags.

Definition locationField (field : LocationField) (l : Location.Location) : Z :=
  match field with
  | Left => Location.left l | Top => Location.top l | Right => Location.right l | Bottom => Location.bottom l
  | StringId => Location.stringId l | ElevationFlags => Location.elevationFlags l
  end.
Definition setLocationField (field : LocationField) (data : Z) (l : Location.Location) : Location.Location :=
  match field with
  | Left => l <| Location.left := data |>
  | Top => l <| Location.top := data |>
  | Right => l <| Location.right := data |>
  | Bottom => l <| Location.bottom := data |>
  | StringId => l <| Location.stringId := u16 data |>
  | ElevationFlags => l <| Location.elevationFlags := u16 data |>
  end.

(** An assignment through the pointer that [getUnit] or [getLocation] returns. *)
Definition updateUnit (unitIndex : Z) (f : Unit.Unit -> Unit.Unit) (m : GuiMap) : outcome GuiMap :=
  onLayers (layer unit (fun units =>
    let* u := UnitSection.getUnit units unitIndex in vset units unitIndex (f u))) m.
Definition updateLocation (locationId : Z) (f : Location.Location -> Location.Location) (m : GuiMap)
    : outcome GuiMap :=
  onLayers (layer mrgn (fun locations =>
    let* p := MrgnSection.getLocation locations locationId in
    let* l := deref p in vset locations locationId (Some (f l)))) m.

(** ** Actions *)

Module UndoTypes.
Definition TileChange : Z := 1.
Definition UnitChange : Z := 2.
Definition LocationChange : Z := 3.
End UndoTypes.

Inductive Action :=
  | TileChange (xc yc tileValue : Z)
  | UnitChange (unitIndex : Z) (field : UnitField) (data : Z)
  | UnitCreateDel (index : Z) (unit : option Unit.Unit)
  | UnitIndexMove (oldIndex newIndex : Z)
  | UnitIndexMoveBoundary
  | LocationChange (locationId : Z) (field : LocationField) (data : Z)
  | LocationMove (locationId xChange yChange : Z)
  | LocationCreateDel (locationId : Z) (location : option Location.Location) (locationName : bytes).

Definition actionType (a : Action) : Z :=
  match a with
  | TileChange _ _ _ => UndoTypes.TileChange
  | UnitChange _ _ _ | UnitCreateDel _ _ | UnitIndexMove _ _ | UnitIndexMoveBoundary => UndoTypes.UnitChange
  | LocationChange _ _ _ | LocationMove _ _ _ | LocationCreateDel _ _ _ => UndoTypes.LocationChange
  end.

(** [TileChange::Reverse] *)
Definition reverseTileChange (xc yc tileValue : Z) (m : GuiMap) : outcome (Action * GuiMap) :=
  let* replacedValue := TerrainClass.getTile xc yc Scope.Game (layersOf m) in
  let* m := onLayers (TerrainClass.setTile xc yc tileValue Scope.Both) m in
  Ret (TileChange xc yc replacedValue, m).

Definition reverseUnitChange (unitIndex : Z) (field : UnitField) (data : Z) (m : GuiMap)
    : outcome (Action * GuiMap) :=
  let* u := LayersClass.getUnit unitIndex (layersOf m) in
  let replacedData := unitField field u in
  let* m := updateUnit unitIndex (setUnitField field data) m in
  Ret (UnitChange unitIndex field replacedData, m).

Definition reverseUnitCreateDel (index : Z) (unit : option Unit.Unit) (m : GuiMap) : outcome (Action * GuiMap) :=
  match unit with
  | None =>
      let* unit := LayersClass.getUnit index (layersOf m) in
      let* m := onLayers (LayersClass.deleteUnit index) m in
      Ret (UnitCreateDel index (Some unit), m)
  | Some unit =>
      let* m := onLayers (LayersClass.insertUnit index unit) m in
      Ret (UnitCreateDel index None, m)
  end.

Definition reverseUnitIndexMove (oldIndex newIndex : Z) (m : GuiMap) : outcome (Action * GuiMap) :=
  let* preserve := LayersClass.getUnit newIndex (layersOf m) in
  let* m := onLayers (LayersClass.deleteUnit newIndex) m in
  let* m := onLayers (LayersClass.insertUnit oldIndex preserve) m in
  Ret (UnitIndexMove newIndex oldIndex, onSelections (sendMove oldIndex newIndex) m).

Definition reverseLocationChange (locationId : Z) (field : LocationField) (data : Z) (m : GuiMap)
    : outcome (Action * GuiMap) :=
  let* p := LayersClass.getLocation locationId (layersOf m) in
  let* location := deref p in
  let replacedData := locationField field location in
  let* m := updateLocation locationId (setLocationField field data) m in
  Ret (LocationChange locationId field replacedData, m).

(** [-change] of an s32, whose least value has no negation. *)
Definition negated (change : Z) : outcome Z := if change =? - 2 ^ 31 then Undef else Ret (- change).
Definition movedBy (xChange yChange : Z) (loc : Location.Location) : Location.Location :=
  loc <| Location.left := u32 (Location.left loc + xChange) |>
      <| Location.right := u32 (Location.right loc + xChange) |>
      <| Location.top := u32 (Location.top loc + yChange) |>
      <| Location.bottom := u32 (Location.bottom loc + yChange) |>.
Definition reverseLocationMove (locationId xChange yChange : Z) (m : GuiMap) : outcome (Action * GuiMap) :=
  let* m := updateLocation locationId (movedBy xChange yChange) m in
  let* x := negated xChange in
  let* y := negated yChange in
  Ret (LocationMove locationId x y, m).

(** The new location is shared with the section when it has got a place there:
    its name is assigned through the pointer. *)
Definition reverseLocationCreateDel (locationId : Z) (location : option Location.Location) (locationName : bytes)
    (m : GuiMap) : outcome (Action * GuiMap) :=
  match location with
  | None =>
      let* p := LayersClass.getLocation locationId (layersOf m) in
      let* location := deref p in
      let* locName := StringsClass.getLocationName locationId Scope.Game (strings m) in
      let locationName := default [] locName in
      let* m := onLayers (LayersClass.deleteLocation (ScenarioStrings.trig (StringsClass.users (strings m)))
                  locationId true) m in
      let* st := StringsClass.deleteUnusedStrings Scope.Both (strings m) in
      Ret (LocationCreateDel locationId (Some location) locationName, withStrings st m)
  | Some location =>
      let newLocation := location <| Location.stringId := 0 |> in
      let* (l, newId) := LayersClass.addLocation (Some newLocation) (layersOf m) in
      let* m := onLayers (fun _ => Ret l) m in
      let* (st, stringId) := StringsClass.addString locationName Scope.Game true (strings m) in
      let m := withStrings st m in
      let* m := if newId =? LocationId_NoLocation then Ret m
                else updateLocation newId (fun l => l <| Location.stringId := u16 stringId |>) m in
      Ret (LocationCreateDel locationId None [], m)
  end.

#[export] Instance map_reversing : Reversing Action GuiMap := {
  Reverse a m :=
    match a with
    | TileChange xc yc tileValue => reverseTileChange xc yc tileValue m
    | UnitChange unitIndex field data => reverseUnitChange unitIndex field data m
    | UnitCreateDel index unit => reverseUnitCreateDel index unit m
    | UnitIndexMove oldIndex newIndex => reverseUnitIndexMove oldIndex newIndex m
    | UnitIndexMoveBoundary => Ret (UnitIndexMoveBoundary, onSelections finishMove m)
    | LocationChange locationId field data => reverseLocationChange locationId field data m
    | LocationMove locationId xChange yChange => reverseLocationMove locationId xChange yChange m
    | LocationCreateDel locationId location locationName => reverseLocationCreateDel locationId location locationName m
    end;
  GetType := actionType
}.
