(* ===== verification/EditorActionsProps.v ===== *)
(** Properties of the actions of the editor: they obey [ReversingLaws], with the
    terrain, the units and the strings with the locations as the parts of the
    three types, and when an action swaps two maps. *)
From S2P Require Import Prelude Codec ChkTypes ChkSection Accessors StructSections Terrain Objects Locations Triggers StringTable ScenarioStrings ScenarioLayers ScenarioNames Selections SelectionsProps EditorUndos EditorHistory EditorActions.
Open Scope Z_scope.

(** ** The parts of the map *)

Definition samePart (t : Z) (m n : GuiMap) : Prop :=
  if t =? UndoTypes.TileChange then
    dim (layers m) = dim (layers n) /\ mtxm (layers m) = mtxm (layers n) /\ tile (layers m) = tile (layers n)
  else if t =? UndoTypes.UnitChange then unit (layers m) = unit (layers n)
  else if t =? UndoTypes.LocationChange then strings m = strings n
  else True.

#[export] Instance samePart_equivalence t : Equivalence (samePart t).
Proof.
  split; [intros m | intros m n H | intros m n p H K]; unfold samePart in *;
    destruct (t =? UndoTypes.TileChange), (t =? UndoTypes.UnitChange), (t =? UndoTypes.LocationChange); intuition congruence.
Qed.

Lemma setTile_parts x y v m : onLayers (TerrainClass.setTile x y v Scope.Both) m =
  let* i := TerrainClass.tileIndex x y (layers m) in
  let* game := deref (mtxm (layers m)) in
  let* game := MtxmSection.setTile game i v in
  let* editor := deref (tile (layers m)) in
  let* editor := TileSection.setTile editor i v in
  Ret (mkGuiMap ((layers m) <| mtxm := Some game |> <| tile := Some editor |>) (strings m) (selections m)).
Proof.
  destruct m as [l st sel]. destruct st as [s k u h]. destruct u. unfold onLayers, TerrainClass.setTile, TerrainClass.tileIndex,
    TerrainClass.getTileWidth, ask, layer, layersOf, locationsOf, withLocations, withStrings. cbn.
  destruct (dim l) as [d|]; cbn; [|done]. destruct (mtxm l) as [g|]; cbn; [|done].
  destruct (MtxmSection.setTile g _ v); cbn; [|done|done]. destruct (tile l) as [e|]; cbn; [|done].
  by destruct (TileSection.setTile e _ v).
Qed.

Lemma unit_part f m : onLayers (layer unit f) m =
  let* units := deref (unit (layers m)) in
  let* units := f units in
  Ret (mkGuiMap ((layers m) <| unit := Some units |>) (strings m) (selections m)).
Proof.
  destruct m as [l st sel]. destruct st as [s k u h]. destruct u. unfold onLayers, layer, layersOf, locationsOf, withLocations, withStrings. cbn.
  destruct (unit l) as [us|]; cbn; [|done]. by destruct (f us).
Qed.

Lemma location_part f m : onLayers (layer mrgn f) m =
  let* locations := f (locationsOf m) in
  Ret (withLocations locations m).
Proof. destruct m as [[] st sel]. unfold onLayers, layer, layersOf, locationsOf. cbn. by destruct (f _). Qed.

Lemma deleteLocation_part trigs id m : onLayers (LayersClass.deleteLocation trigs id true) m =
  let* used := TrigSection.locationUsed trigs id in
  let* locations := if used then Ret (locationsOf m) else MrgnSection.deleteLocation (locationsOf m) id in
  Ret (withLocations locations m).
Proof.
  destruct m as [[] st sel]. unfold onLayers, LayersClass.deleteLocation, layer, layersOf, locationsOf. cbn.
  destruct (TrigSection.locationUsed trigs id) as [[]| |]; cbn; [done| |done|done]. by destruct (MrgnSection.deleteLocation _ id).
Qed.

(** Case analysis on the outcomes of an equation. *)
Ltac outcomes H :=
  repeat match type of H with
  | context [obind ?o _] => lazymatch o with obind _ _ => fail | _ =>
      let E := fresh "E" in destruct o eqn:E; cbn [obind] in H; [|discriminate H|discriminate H] end
  end.

Ltac replay := repeat (progress cbn [obind] || match goal with H : ?o = Ret _ |- context [obind ?o _] => rewrite H end).

(** The parts other than that of a type are as they were. *)
Ltac other_parts := let t := fresh "t" in let Ht := fresh "Ht" in intros t Ht; unfold samePart;
  destruct (Z.eqb_spec t UndoTypes.TileChange), (Z.eqb_spec t UndoTypes.UnitChange), (Z.eqb_spec t UndoTypes.LocationChange);
  congruence || done || by repeat split.

Lemma tile_reverse x y v m : reverseTileChange x y v m =
  let* i := TerrainClass.tileIndex x y (layers m) in
  let* game := deref (mtxm (layers m)) in
  let* replaced := MtxmSection.getTile game i in
  let* game := MtxmSection.setTile game i v in
  let* editor := deref (tile (layers m)) in
  let* editor := TileSection.setTile editor i v in
  Ret (TileChange x y replaced,
       mkGuiMap ((layers m) <| mtxm := Some game |> <| tile := Some editor |>) (strings m) (selections m)).
Proof.
  unfold reverseTileChange. rewrite setTile_parts. unfold TerrainClass.getTile.
  change (TerrainClass.tileIndex x y (layersOf m)) with (TerrainClass.tileIndex x y (layers m)).
  destruct (TerrainClass.tileIndex x y (layers m)) as [i| |]; cbn; [|done|done]. unfold ask. cbn.
  destruct (mtxm (layers m)) as [g|]; cbn; [|done]. destruct (MtxmSection.getTile g i); cbn; [|done|done].
  destruct (MtxmSection.setTile g i v); cbn; [|done|done]. destruct (tile (layers m)) as [e|]; cbn; [|done].
  by destruct (TileSection.setTile e i v).
Qed.

Lemma tile_local x y v m a m' n : reverseTileChange x y v m = Ret (a, m') -> samePart UndoTypes.TileChange m n ->
  (exists n', reverseTileChange x y v n = Ret (a, n') /\ samePart UndoTypes.TileChange m' n') /\
  actionType a = UndoTypes.TileChange /\ forall t, t <> UndoTypes.TileChange -> samePart t m m'.
Proof.
  rewrite !tile_reverse. intros E (Ed & Eg & Ee).
  assert (Ei : TerrainClass.tileIndex x y (layers n) = TerrainClass.tileIndex x y (layers m)).
  { unfold TerrainClass.tileIndex, TerrainClass.getTileWidth, ask. by rewrite Ed. }
  rewrite Ei, <- Eg, <- Ee. outcomes E. injection E as <- <-. replay. split; [|split; [done|other_parts]].
  eexists. split; [reflexivity|]. by split.
Qed.

Lemma unit_change_local i f v m a m' n : reverseUnitChange i f v m = Ret (a, m') -> samePart UndoTypes.UnitChange m n ->
  (exists n', reverseUnitChange i f v n = Ret (a, n') /\ samePart UndoTypes.UnitChange m' n') /\
  actionType a = UndoTypes.UnitChange /\ forall t, t <> UndoTypes.UnitChange -> samePart t m m'.
Proof.
  unfold reverseUnitChange, updateUnit, LayersClass.getUnit, ask. rewrite !unit_part. cbn. intros E Eu. rewrite <- Eu.
  outcomes E. injection E as <- <-. replay. split; [|split; [done|other_parts]]. eexists. by split.
Qed.

Lemma unit_create_local i u m a m' n : reverseUnitCreateDel i u m = Ret (a, m') -> samePart UndoTypes.UnitChange m n ->
  (exists n', reverseUnitCreateDel i u n = Ret (a, n') /\ samePart UndoTypes.UnitChange m' n') /\
  actionType a = UndoTypes.UnitChange /\ forall t, t <> UndoTypes.UnitChange -> samePart t m m'.
Proof.
  unfold reverseUnitCreateDel, LayersClass.getUnit, LayersClass.deleteUnit, LayersClass.insertUnit, ask.
  intros E Eu. destruct u; rewrite !unit_part in *; cbn in *; rewrite <- Eu; outcomes E; injection E as <- <-; replay; (split; [|split; [done|other_parts]]); eexists; by split.
Qed.

Lemma unit_move_reverse i j m : reverseUnitIndexMove i j m =
  let* units := deref (unit (layers m)) in
  let* u := UnitSection.getUnit units j in
  let* units := UnitSection.deleteUnit units j in
  let* units := UnitSection.insertUnit units i u in
  Ret (UnitIndexMove j i, mkGuiMap ((layers m) <| unit := Some units |>) (strings m) (sendMove i j (selections m))).
Proof.
  unfold reverseUnitIndexMove, LayersClass.getUnit, LayersClass.deleteUnit, LayersClass.insertUnit, ask. rewrite unit_part. cbn.
  destruct (unit (layers m)) as [units|]; cbn; [|done]. destruct (UnitSection.getUnit units j) as [u| |]; cbn; [|done|done].
  destruct (UnitSection.deleteUnit units j) as [units'| |]; cbn; [|done|done]. rewrite unit_part. cbn.
  by destruct (UnitSection.insertUnit units' i u).
Qed.

Lemma unit_move_local i j m a m' n : reverseUnitIndexMove i j m = Ret (a, m') -> samePart UndoTypes.UnitChange m n ->
  (exists n', reverseUnitIndexMove i j n = Ret (a, n') /\ samePart UndoTypes.UnitChange m' n') /\
  actionType a = UndoTypes.UnitChange /\ forall t, t <> UndoTypes.UnitChange -> samePart t m m'.
Proof.
  rewrite !unit_move_reverse. intros E Eu. rewrite <- Eu. outcomes E. injection E as <- <-. replay.
  split; [|split; [done|other_parts]]. eexists. by split.
Qed.

(** Actions on locations look at the strings and locations alone. *)
Lemma location_change_local i f v m a m' n : reverseLocationChange i f v m = Ret (a, m') -> samePart UndoTypes.LocationChange m n ->
  (exists n', reverseLocationChange i f v n = Ret (a, n') /\ samePart UndoTypes.LocationChange m' n') /\
  actionType a = UndoTypes.LocationChange /\ forall t, t <> UndoTypes.LocationChange -> samePart t m m'.
Proof.
  unfold reverseLocationChange, updateLocation, LayersClass.getLocation, ask. rewrite !location_part. cbn. unfold locationsOf.
  intros E Es. change (strings m = strings n) in Es. rewrite <- Es. outcomes E. injection E as <- <-. replay.
  split; [|split; [done|other_parts]]. eexists. split; [reflexivity|]. cbn. unfold withLocations. cbn. by rewrite Es.
Qed.

Lemma location_move_local i x y m a m' n : reverseLocationMove i x y m = Ret (a, m') -> samePart UndoTypes.LocationChange m n ->
  (exists n', reverseLocationMove i x y n = Ret (a, n') /\ samePart UndoTypes.LocationChange m' n') /\
  actionType a = UndoTypes.LocationChange /\ forall t, t <> UndoTypes.LocationChange -> samePart t m m'.
Proof.
  unfold reverseLocationMove, updateLocation. rewrite !location_part. unfold locationsOf.
  intros E Es. change (strings m = strings n) in Es. rewrite <- Es. outcomes E. injection E as <- <-. replay.
  split; [|split; [done|other_parts]]. eexists. split; [reflexivity|]. cbn. unfold withLocations. cbn. by rewrite Es.
Qed.

Definition stringsWith (locations : MrgnSection.t) (st : StringsClass.Strings) : StringsClass.Strings :=
  StringsClass.withUsers ((StringsClass.users st) <| ScenarioStrings.mrgn := locations |>) st.

(** [LocationCreateDel::Reverse] on the strings with the locations. *)
Definition createDel (id : Z) (location : option Location.Location) (name : bytes) (st : StringsClass.Strings)
    : outcome (Action * StringsClass.Strings) :=
  let locations := ScenarioStrings.mrgn (StringsClass.users st) in
  match location with
  | None =>
      let* p := MrgnSection.getLocation locations id in
      let* location := deref p in
      let* locName := StringsClass.getLocationName id Scope.Game st in
      let* used := TrigSection.locationUsed (ScenarioStrings.trig (StringsClass.users st)) id in
      let* locations := if used then Ret locations else MrgnSection.deleteLocation locations id in
      let* st := StringsClass.deleteUnusedStrings Scope.Both (stringsWith locations st) in
      Ret (LocationCreateDel id (Some location) (default [] locName), st)
  | Some location =>
      let* (locations, newId) := MrgnSection.addLocation locations (Some (location <| Location.stringId := 0 |>)) in
      let* (st, stringId) := StringsClass.addString name Scope.Game true (stringsWith locations st) in
      let locations := ScenarioStrings.mrgn (StringsClass.users st) in
      let* st := if newId =? LocationId_NoLocation then Ret st
                 else let* p := MrgnSection.getLocation locations newId in
                      let* l := deref p in
                      let* locations := vset locations newId (Some (l <| Location.stringId := u16 stringId |>)) in
                      Ret (stringsWith locations st) in
      Ret (LocationCreateDel id None [], st)
  end.

#[local] Arguments StringsClass.addString : simpl never.
#[local] Arguments StringsClass.deleteUnusedStrings : simpl never.
#[local] Arguments StringsClass.getLocationName : simpl never.

Lemma location_create_reverse id location name m : reverseLocationCreateDel id location name m =
  let* (a, st) := createDel id location name (strings m) in Ret (a, withStrings st m).
Proof.
  unfold reverseLocationCreateDel, createDel, LayersClass.getLocation, ask. destruct location as [location|]; cbn.
  - unfold LayersClass.addLocation. cbn. fold (locationsOf m).
    destruct (MrgnSection.addLocation (locationsOf m) _) as [[locations newId]| |]; cbn; [|done|done].
    unfold onLayers. cbn. repeat match goal with |- context [StringsClass.addString name Scope.Game true ?s] =>
      progress change s with (stringsWith locations (strings m)) end.
    destruct (StringsClass.addString name Scope.Game true (stringsWith locations (strings m))) as [[st stringId]| |]; cbn; [|done|done].
    destruct (newId =? LocationId_NoLocation); cbn; [by destruct m as [[] ? ?]|]. unfold updateLocation. rewrite location_part.
    unfold locationsOf. cbn [strings withStrings].
    destruct (MrgnSection.getLocation _ newId) as [p| |]; cbn; [|done|done]. destruct p as [l|]; cbn; [|done].
    destruct (vset _ newId _); cbn; [|done|done]. by destruct m as [[] ? ?].
  - fold (locationsOf m). destruct (MrgnSection.getLocation (locationsOf m) id) as [p| |]; cbn; [|done|done].
    destruct p as [location|]; cbn; [|done]. destruct (StringsClass.getLocationName id Scope.Game (strings m)) as [locName| |]; cbn; [|done|done].
    rewrite deleteLocation_part. destruct (TrigSection.locationUsed _ id) as [used| |]; cbn; [|done|done].
    destruct (if used then _ else _) as [locations| |]; cbn; [|done|done].
    repeat match goal with |- context [StringsClass.deleteUnusedStrings Scope.Both ?s] =>
      progress change s with (stringsWith locations (strings m)) end.
    by destruct (StringsClass.deleteUnusedStrings Scope.Both (stringsWith locations (strings m))).
Qed.

Lemma location_create_local i l s m a m' n : reverseLocationCreateDel i l s m = Ret (a, m') -> samePart UndoTypes.LocationChange m n ->
  (exists n', reverseLocationCreateDel i l s n = Ret (a, n') /\ samePart UndoTypes.LocationChange m' n') /\
  actionType a = UndoTypes.LocationChange /\ forall t, t <> UndoTypes.LocationChange -> samePart t m m'.
Proof.
  rewrite !location_create_reverse. intros E Es. change (strings m = strings n) in Es. rewrite <- Es.
  destruct (createDel i l s (strings m)) as [[a1 st]| |] eqn:Ec; cbn [obind] in E; [|done|done]. injection E as <- <-. cbn [obind].
  split; [eexists; split; [reflexivity | done]|]. split; [|other_parts].
  unfold createDel in Ec. destruct l; outcomes Ec; try (by injection Ec as <- _).
  all: repeat match type of Ec with context [let '(_, _) := ?p in _] => destruct p end; outcomes Ec;
    repeat match type of Ec with context [let '(_, _) := ?p in _] => destruct p end; outcomes Ec; by injection Ec as <- _.
Qed.

#[export, refine] Instance map_laws : ReversingLaws Action GuiMap := { same := samePart }.
Proof.
  - by intros [].
  - intros a m a' m' E. cbn in *. destruct a.
    + by eapply tile_local.
    + by eapply unit_change_local.
    + by eapply unit_create_local.
    + by eapply unit_move_local.
    + by injection E as <- <-.
    + by eapply location_change_local.
    + by eapply location_move_local.
    + by eapply location_create_local.
  - intros a m a' m' n E Hs. cbn in *. destruct a.
    + by eapply tile_local.
    + by eapply unit_change_local.
    + by eapply unit_create_local.
    + by eapply unit_move_local.
    + injection E as <- <-. by eexists.
    + by eapply location_change_local.
    + by eapply location_move_local.
    + by eapply location_create_local.
  - intros a m a' m' t E Ht. cbn in *. destruct a.
    + by eapply tile_local.
    + by eapply unit_change_local.
    + by eapply unit_create_local.
    + by eapply unit_move_local.
    + injection E as <- <-. by revert t Ht; other_parts.
    + by eapply location_change_local.
    + by eapply location_move_local.
    + by eapply location_create_local.
Defined.

(** ** When an action swaps two maps *)

Definition swapsAction (t : Z) (a a' : Action) (m m' : GuiMap) : Prop := Swaps t (ReversibleAction a) (ReversibleAction a') m m'.

Lemma swaps_action a a' (m m' : GuiMap) : Reverse a m = Ret (a', m') -> Reverse a' m' = Ret (a, m) ->
  swapsAction (GetType a) a a' m m'.
Proof.
  intros E E'. apply (swaps_intro _ _ _ m m' m); [by constructor | | | reflexivity]; cbn [reverse]; by rewrite ?E, ?E'.
Qed.

Lemma map_with_tiles m : mkGuiMap ((layers m) <| mtxm := mtxm (layers m) |> <| tile := tile (layers m) |>) (strings m) (selections m) = m.
Proof. by destruct m as [[] ? ?]. Qed.
Lemma map_with_units m : mkGuiMap ((layers m) <| unit := unit (layers m) |>) (strings m) (selections m) = m.
Proof. by destruct m as [[] ? ?]. Qed.
Lemma map_with_locations m : withLocations (locationsOf m) m = m.
Proof. destruct m as [? [? ? [] ?] ?]. done. Qed.

(** The tile is [w] in both sections of the terrain. *)
Definition tileAt (x y w : Z) (m : GuiMap) : Prop :=
  exists i game editor, TerrainClass.tileIndex x y (layers m) = Ret i /\ mtxm (layers m) = Some game /\ tile (layers m) = Some editor /\
    0 <= i < zlen game /\ i < zlen editor /\ game !! Z.to_nat i = Some w /\ editor !! Z.to_nat i = Some w.
Definition withTile (i v : Z) (m : GuiMap) : GuiMap :=
  mkGuiMap ((layers m) <| mtxm := (<[Z.to_nat i := v]> <$> mtxm (layers m)) |> <| tile := (<[Z.to_nat i := v]> <$> tile (layers m)) |>)
    (strings m) (selections m).

Lemma tile_reverse_at x y v w m : tileAt x y w m -> exists i, TerrainClass.tileIndex x y (layers m) = Ret i /\
  TerrainClass.getTile x y Scope.Game (layersOf m) = Ret w /\
  onLayers (TerrainClass.setTile x y v Scope.Both) m = Ret (withTile i v m) /\
  Reverse (TileChange x y v) m = Ret (TileChange x y w, withTile i v m) /\ tileAt x y v (withTile i v m) /\
  withTile i w (withTile i v m) = m.
Proof.
  intros (i & game & editor & Ei & Eg & Ee & Hg & He & Hw & Hw'). exists i. split; [done|].
  assert (Hget : MtxmSection.getTile game i = Ret w).
  { unfold MtxmSection.getTile, get_tile, get_at. rewrite (proj2 (Z.ltb_lt _ _)) by lia. apply vget_Some; [lia | done]. }
  assert (Hset : MtxmSection.setTile game i v = Ret (<[Z.to_nat i := v]> game)).
  { unfold MtxmSection.setTile, set_tile, set_at. rewrite (proj2 (Z.ltb_lt _ _)) by lia. by apply vset_in. }
  assert (Hset' : TileSection.setTile editor i v = Ret (<[Z.to_nat i := v]> editor)).
  { unfold TileSection.setTile, set_tile, set_at. rewrite (proj2 (Z.ltb_lt _ _)) by lia. apply vset_in. lia. }
  split; [|split; [|split; [|split]]].
  - unfold TerrainClass.getTile. change (TerrainClass.tileIndex x y (layersOf m)) with (TerrainClass.tileIndex x y (layers m)).
    rewrite Ei. cbn. unfold ask. cbn. by rewrite Eg.
  - rewrite setTile_parts, Ei, Eg, Ee. cbn. rewrite Hset. cbn. rewrite Hset'. unfold withTile. by rewrite Eg, Ee.
  - cbn [Reverse map_reversing]. rewrite tile_reverse, Ei, Eg, Ee. cbn. rewrite Hget. cbn. rewrite Hset. cbn. rewrite Hset'.
    unfold withTile. by rewrite Eg, Ee.
  - exists i, (<[Z.to_nat i := v]> game), (<[Z.to_nat i := v]> editor). cbn. rewrite Eg, Ee, !zlen_insert.
    unfold zlen in *. split; [done|]. repeat (split; [done || lia|]). split; apply list_lookup_insert_eq; lia.
  - unfold withTile. cbn. rewrite Eg, Ee. cbn. rewrite !list_insert_insert_eq, !list_insert_id by done.
    rewrite <- Eg, <- Ee at 1. apply map_with_tiles.
Qed.

Lemma tile_swaps x y v w m : tileAt x y w m -> exists i, TerrainClass.tileIndex x y (layers m) = Ret i /\
  swapsAction UndoTypes.TileChange (TileChange x y w) (TileChange x y v) (withTile i v m) m.
Proof.
  intros H. destruct (tile_reverse_at x y v w m H) as (i & Ei & _ & _ & E & H' & Hid). exists i. split; [done|].
  destruct (tile_reverse_at x y w v _ H') as (j & Ej & _ & _ & E' & _ & _).
  assert (j = i) as -> by (change (TerrainClass.tileIndex x y (layers m) = Ret j) in Ej; congruence).
  apply (swaps_action (TileChange x y w)); [by rewrite E', Hid | done].
Qed.

(** *** Units *)

Definition unitsOf (m : GuiMap) : list Unit.Unit := default [] (unit (layers m)).
Definition hasUnitSection (m : GuiMap) : Prop := is_Some (unit (layers m)).
Definition withUnitsOf (units : list Unit.Unit) (m : GuiMap) : GuiMap :=
  mkGuiMap ((layers m) <| unit := Some units |>) (strings m) (selections m).

Lemma withUnitsOf_id m : hasUnitSection m -> withUnitsOf (unitsOf m) m = m.
Proof. intros [us E]. unfold withUnitsOf, unitsOf. rewrite E. cbn. rewrite <- E. apply map_with_units. Qed.
Lemma withUnitsOf_twice a b m : withUnitsOf a (withUnitsOf b m) = withUnitsOf a m.
Proof. done. Qed.
Lemma unitsOf_with units m : unitsOf (withUnitsOf units m) = units.
Proof. done. Qed.

Lemma unit_part_of f m : hasUnitSection m -> onLayers (layer unit f) m = let* units := f (unitsOf m) in Ret (withUnitsOf units m).
Proof. intros [us E]. rewrite unit_part. unfold unitsOf. by rewrite E. Qed.
Lemma getUnit_of i m : hasUnitSection m -> LayersClass.getUnit i (layersOf m) = UnitSection.getUnit (unitsOf m) i.
Proof. intros [us E]. unfold LayersClass.getUnit, ask, unitsOf. cbn. by rewrite E. Qed.

(** A value that is stored in the field as it is. *)
Definition fits (field : UnitField) (v : Z) : Prop :=
  match field with
  | Owner | HitpointPercent | ShieldPercent | EnergyPercent => is_u 8 v
  | ClassId | ResourceAmount | Unused | RelationClassId => True
  | _ => is_u 16 v
  end.

Lemma field_set f v u : fits f v -> unitField f (setUnitField f v u) = v.
Proof. destruct f; cbn; intros H; rewrite ?u8_id, ?u16_id by done; done. Qed.
Lemma field_restored f v u : fits f (unitField f u) -> setUnitField f (unitField f u) (setUnitField f v u) = u.
Proof. destruct u, f; cbn; intros H; rewrite ?u8_id, ?u16_id by done; done. Qed.

Lemma unit_change_at i f v u m : hasUnitSection m -> unitsOf m !! Z.to_nat i = Some u -> 0 <= i ->
  updateUnit i (setUnitField f v) m = Ret (withUnitsOf (<[Z.to_nat i := setUnitField f v u]> (unitsOf m)) m) /\
  Reverse (UnitChange i f v) m = Ret (UnitChange i f (unitField f u), withUnitsOf (<[Z.to_nat i := setUnitField f v u]> (unitsOf m)) m).
Proof.
  intros Hm Hu Hi. assert (Hg : UnitSection.getUnit (unitsOf m) i = Ret u) by (by apply vget_Some).
  assert (Hup : updateUnit i (setUnitField f v) m = Ret (withUnitsOf (<[Z.to_nat i := setUnitField f v u]> (unitsOf m)) m)).
  { unfold updateUnit. rewrite unit_part_of, Hg by done. cbn [obind]. rewrite vset_in; [done|].
    apply lookup_lt_Some in Hu. unfold zlen. lia. }
  split; [done|]. cbn. unfold reverseUnitChange. rewrite getUnit_of, Hg by done. cbn [obind]. by rewrite Hup.
Qed.

Lemma unit_change_swaps i f v u m : hasUnitSection m -> unitsOf m !! Z.to_nat i = Some u -> 0 <= i ->
  fits f v -> fits f (unitField f u) ->
  swapsAction UndoTypes.UnitChange (UnitChange i f (unitField f u)) (UnitChange i f v)
    (withUnitsOf (<[Z.to_nat i := setUnitField f v u]> (unitsOf m)) m) m.
Proof.
  intros Hm Hu Hi Hv Hf. set (m' := withUnitsOf _ m). assert (Hlt : (Z.to_nat i < length (unitsOf m))%nat) by (by eapply lookup_lt_Some).
  assert (Hu' : unitsOf m' !! Z.to_nat i = Some (setUnitField f v u)) by (by apply list_lookup_insert_eq).
  apply (swaps_action (UnitChange i f (unitField f u))).
  - destruct (unit_change_at i f (unitField f u) _ m' ltac:(by eexists) Hu' Hi) as [_ ->]. rewrite field_set, field_restored by done.
    unfold m'. rewrite unitsOf_with, list_insert_insert_eq, list_insert_id by done. by rewrite withUnitsOf_twice, withUnitsOf_id.
  - by apply unit_change_at.
Qed.

(** A unit put at a place of the list. *)
Definition placed (i : Z) (u : Unit.Unit) (l : list Unit.Unit) : list Unit.Unit :=
  take (Z.to_nat i) l ++ u :: drop (Z.to_nat i) l.

Lemma placed_laws i u l : 0 <= i <= zlen l ->
  UnitSection.insertUnit l i u = Ret (placed i u l) /\ UnitSection.getUnit (placed i u l) i = Ret u /\
  UnitSection.deleteUnit (placed i u l) i = Ret l.
Proof.
  intros Hi. split; [by apply insert_object_in|].
  assert (Hl : zlen (placed i u l) = zlen l + 1).
  { unfold placed, zlen in *. rewrite length_app. cbn. rewrite length_take, length_drop. lia. }
  split.
  - apply vget_Some; [lia|]. unfold placed. apply list_lookup_middle. rewrite length_take. unfold zlen in *. lia.
  - unfold UnitSection.deleteUnit, delete_object. rewrite Hl, (proj2 (Z.ltb_lt _ _)), verase_in by lia.
    unfold placed. by rewrite delete_inserted.
Qed.
Lemma placed_deleted i u l : 0 <= i -> l !! Z.to_nat i = Some u -> placed i u (delete (Z.to_nat i) l) = l /\
  0 <= i <= zlen (delete (Z.to_nat i) l).
Proof.
  intros Hi Hu. pose proof (lookup_lt_Some _ _ _ Hu). pose proof (length_delete l (Z.to_nat i) ltac:(by eexists)).
  split; [|unfold zlen; lia]. unfold placed. rewrite delete_take_drop.
  rewrite take_app_length', drop_app_length' by (rewrite length_take; lia). by apply take_drop_middle.
Qed.

Lemma unit_create_at i u m : hasUnitSection m -> 0 <= i <= zlen (unitsOf m) ->
  let m' := withUnitsOf (placed i u (unitsOf m)) m in
  onLayers (LayersClass.insertUnit i u) m = Ret m' /\ onLayers (LayersClass.deleteUnit i) m' = Ret m /\
  LayersClass.getUnit i (layersOf m') = Ret u /\
  swapsAction UndoTypes.UnitChange (UnitCreateDel i None) (UnitCreateDel i (Some u)) m' m.
Proof.
  intros Hm Hi m'. destruct (placed_laws i u (unitsOf m) Hi) as (Hin & Hg & Hd).
  assert (E1 : onLayers (LayersClass.insertUnit i u) m = Ret m').
  { unfold LayersClass.insertUnit. by rewrite unit_part_of, Hin. }
  assert (E2 : onLayers (LayersClass.deleteUnit i) m' = Ret m).
  { unfold LayersClass.deleteUnit. rewrite unit_part_of by (by eexists). unfold m'. rewrite unitsOf_with, Hd. cbn [obind]. by rewrite withUnitsOf_twice, withUnitsOf_id. }
  assert (E3 : LayersClass.getUnit i (layersOf m') = Ret u) by (rewrite getUnit_of by (by eexists); apply Hg).
  split; [done|]. split; [done|]. split; [done|]. apply (swaps_action (UnitCreateDel i None)); cbn [Reverse map_reversing]; unfold reverseUnitCreateDel.
  - rewrite E3. cbn [obind]. by rewrite E2.
  - by rewrite E1.
Qed.

(** Moving a unit from one index to another. *)
Lemma unit_move_at from to u m : hasUnitSection m -> 0 <= from -> unitsOf m !! Z.to_nat from = Some u -> 0 <= to < zlen (unitsOf m) ->
  let m' := withUnitsOf (placed to u (delete (Z.to_nat from) (unitsOf m))) m in
  (let* preserve := LayersClass.getUnit from (layersOf m) in
   let* m := onLayers (LayersClass.deleteUnit from) m in
   onLayers (LayersClass.insertUnit to preserve) m) = Ret m' /\
  Reverse (UnitIndexMove to from) m = Ret (UnitIndexMove from to, onSelections (sendMove to from) m') /\
  unitsOf m' !! Z.to_nat to = Some u /\ zlen (unitsOf m') = zlen (unitsOf m) /\
  placed from u (delete (Z.to_nat to) (unitsOf m')) = unitsOf m.
Proof.
  intros Hm Hf Hu Ht m'. set (rest := delete (Z.to_nat from) (unitsOf m)). destruct (placed_deleted from u _ Hf Hu) as [Hback Hfr].
  fold rest in Hback, Hfr. assert (Hlen : zlen (unitsOf m) = zlen rest + 1).
  { pose proof (lookup_lt_Some _ _ _ Hu). unfold rest, zlen. rewrite length_delete by (by eexists). lia. }
  destruct (placed_laws to u rest ltac:(lia)) as (Hin & Hg & Hd).
  destruct (placed_laws from u rest Hfr) as (_ & Hg0 & Hd0). rewrite Hback in Hg0, Hd0.
  assert (Hdel : onLayers (LayersClass.deleteUnit from) m = Ret (withUnitsOf rest m)).
  { unfold LayersClass.deleteUnit. by rewrite unit_part_of, Hd0. }
  assert (Hins : onLayers (LayersClass.insertUnit to u) (withUnitsOf rest m) = Ret m').
  { unfold LayersClass.insertUnit. by rewrite unit_part_of, unitsOf_with, Hin by (by eexists). }
  assert (Hget : unitsOf m' !! Z.to_nat to = Some u).
  { apply list_lookup_middle. rewrite length_take. fold rest. unfold zlen in *. lia. }
  rewrite getUnit_of, Hg0 by done. cbn [obind]. rewrite Hdel. cbn [obind].
  split; [done|]. split; [|split; [done|split]].
  - cbn [Reverse map_reversing]. unfold reverseUnitIndexMove. rewrite getUnit_of, Hg0 by done. cbn [obind]. rewrite Hdel. cbn [obind].
    by rewrite Hins.
  - unfold m'. rewrite unitsOf_with. fold rest. rewrite Hlen. unfold placed, zlen. rewrite length_app. cbn.
    rewrite length_take, length_drop. unfold zlen in *. lia.
  - unfold m'. rewrite unitsOf_with. fold rest. replace (delete (Z.to_nat to) (placed to u rest)) with rest; [done|].
    symmetry. unfold placed. apply delete_inserted. lia.
Qed.

Lemma unit_move_swaps from to u m : hasUnitSection m -> 0 <= from -> unitsOf m !! Z.to_nat from = Some u -> 0 <= to < zlen (unitsOf m) ->
  swapsAction UndoTypes.UnitChange (UnitIndexMove from to) (UnitIndexMove to from)
    (withUnitsOf (placed to u (delete (Z.to_nat from) (unitsOf m))) m) m.
Proof.
  intros Hm Hf Hu Ht. set (m' := withUnitsOf _ m).
  destruct (unit_move_at from to u m Hm Hf Hu Ht) as (_ & E & Hu' & Hl & Hback). fold m' in E, Hu', Hl, Hback.
  pose proof (lookup_lt_Some _ _ _ Hu).
  destruct (unit_move_at to from u m' ltac:(by eexists) ltac:(lia) Hu' ltac:(unfold zlen in *; lia)) as (_ & E' & _).
  rewrite Hback in E'. set (p := onSelections (sendMove to from) m').
  assert (Hp : same UndoTypes.UnitChange m' p) by done.
  destruct (reverse_local _ _ _ _ p E' Hp) as (m2 & E2 & H2). apply swaps_sym.
  assert (Hs : Swaps UndoTypes.UnitChange (ReversibleAction (UnitIndexMove to from)) (ReversibleAction (UnitIndexMove from to)) m p).
  { apply (swaps_intro _ _ _ m p m2); [by constructor | cbn [reverse]; by rewrite E | cbn [reverse]; by rewrite E2|].
    rewrite <- H2. change (same UndoTypes.UnitChange m (withUnitsOf (unitsOf m) m)). by rewrite withUnitsOf_id. }
  by rewrite Hp.
Qed.

(** *** Locations *)

Definition fitsLocation (field : LocationField) (v : Z) : Prop :=
  match field with StringId | ElevationFlags => is_u 16 v | _ => True end.

Lemma location_field_set f v l : fitsLocation f v -> locationField f (setLocationField f v l) = v.
Proof. destruct f; cbn; intros H; rewrite ?u16_id by done; done. Qed.
Lemma location_field_restored f v l : fitsLocation f (locationField f l) -> setLocationField f (locationField f l) (setLocationField f v l) = l.
Proof. destruct l, f; cbn; intros H; rewrite ?u16_id by done; done. Qed.

Definition withLocationAt (id : Z) (l : Location.Location) (m : GuiMap) : GuiMap :=
  withLocations (<[Z.to_nat id := Some l]> (locationsOf m)) m.
Definition locationIs (id : Z) (l : Location.Location) (m : GuiMap) : Prop := 0 <= id /\ locationsOf m !! Z.to_nat id = Some (Some l).

Lemma withLocationAt_twice id l l' m : withLocationAt id l' (withLocationAt id l m) = withLocationAt id l' m.
Proof. unfold withLocationAt. unfold withLocations at 1 3. cbn. unfold locationsOf. cbn. by rewrite list_insert_insert_eq. Qed.
Lemma withLocationAt_id id l m : locationIs id l m -> withLocationAt id l m = m.
Proof. intros [_ H]. unfold withLocationAt. rewrite list_insert_id by done. apply map_with_locations. Qed.
Lemma locationIs_with id l l' m : locationIs id l m -> locationIs id l' (withLocationAt id l' m).
Proof. intros [Hi H]. split; [done|]. apply list_lookup_insert_eq. by eapply lookup_lt_Some. Qed.

Lemma updateLocation_at id f l m : locationIs id l m -> updateLocation id f m = Ret (withLocationAt id (f l) m).
Proof.
  intros [Hi H]. unfold updateLocation. rewrite location_part. unfold MrgnSection.getLocation. rewrite (vget_Some _ _ _ Hi H). cbn [obind deref].
  rewrite vset_in; [done|]. apply lookup_lt_Some in H. unfold zlen. lia.
Qed.

Lemma location_change_swaps id f v l m : locationIs id l m -> fitsLocation f v -> fitsLocation f (locationField f l) ->
  swapsAction UndoTypes.LocationChange (LocationChange id f (locationField f l)) (LocationChange id f v)
    (withLocationAt id (setLocationField f v l) m) m.
Proof.
  intros Hl Hv Hf. assert (H : forall v l m, locationIs id l m ->
    Reverse (LocationChange id f v) m = Ret (LocationChange id f (locationField f l), withLocationAt id (setLocationField f v l) m)).
  { clear. intros v l m Hl. cbn [Reverse map_reversing]. unfold reverseLocationChange, LayersClass.getLocation, ask. cbn [layersOf mrgn upd mrgn_updater deref obind].
    pose proof Hl as [Hi H]. unfold MrgnSection.getLocation. fold (locationsOf m). rewrite (vget_Some _ _ _ Hi H). cbn [obind deref].
    by rewrite (updateLocation_at id _ l). }
  apply (swaps_action (LocationChange id f (locationField f l))); [|by apply H].
  rewrite (H _ (setLocationField f v l)) by (by eapply locationIs_with). rewrite location_field_set, location_field_restored by done.
  by rewrite withLocationAt_twice, withLocationAt_id.
Qed.

Lemma location_move_swaps id x y l m : locationIs id l m -> - 2 ^ 31 < x < 2 ^ 31 -> - 2 ^ 31 < y < 2 ^ 31 ->
  is_u 32 (Location.left l) -> is_u 32 (Location.right l) -> is_u 32 (Location.top l) -> is_u 32 (Location.bottom l) ->
  swapsAction UndoTypes.LocationChange (LocationMove id (- x) (- y)) (LocationMove id x y) (withLocationAt id (movedBy x y l) m) m.
Proof.
  intros Hl Hx Hy H1 H2 H3 H4.
  assert (H : forall x y l m, locationIs id l m -> - 2 ^ 31 < x < 2 ^ 31 -> - 2 ^ 31 < y < 2 ^ 31 ->
    Reverse (LocationMove id x y) m = Ret (LocationMove id (- x) (- y), withLocationAt id (movedBy x y l) m)).
  { clear. intros x y l m Hl Hx Hy. cbn [Reverse map_reversing]. unfold reverseLocationMove, negated. rewrite (updateLocation_at id _ l) by done.
    cbn [obind]. rewrite !(proj2 (Z.eqb_neq _ _)) by lia. done. }
  assert (Hback : movedBy (- x) (- y) (movedBy x y l) = l).
  { assert (Hu : forall z d, is_u 32 z -> u32 (u32 (z + d) + - d) = z).
    { intros z d Hz. unfold u32. rewrite Zplus_mod_idemp_l. replace (z + d + - d) with z by lia. by apply Z.mod_small. }
    destruct l. unfold movedBy. cbn in *. by rewrite !Hu. }
  apply (swaps_action (LocationMove id (- x) (- y))).
  - rewrite (H _ _ (movedBy x y l)) by (by eapply locationIs_with || lia). rewrite !Z.opp_involutive, Hback.
    by rewrite withLocationAt_twice, withLocationAt_id.
  - by apply H.
Qed.

(** ** Selected units *)

(** Reversing a move of a unit, with the boundary after it: every index of the
    selection follows its unit. *)
Theorem selection_follows_units oldIndex newIndex m : hasUnitSection m -> zlen (unitsOf m) <= 0x8000 ->
  0 <= oldIndex < zlen (unitsOf m) -> 0 <= newIndex < zlen (unitsOf m) ->
  Forall (fun i => 0 <= i < zlen (unitsOf m)) (selUnits (selections m)) ->
  exists m1 m2, Reverse (UnitIndexMove oldIndex newIndex) m = Ret (UnitIndexMove newIndex oldIndex, m1) /\
    Reverse UnitIndexMoveBoundary m1 = Ret (UnitIndexMoveBoundary, m2) /\
    Forall2 (fun i i' => 0 <= i' < zlen (unitsOf m2) /\ unitsOf m2 !! Z.to_nat i' = unitsOf m !! Z.to_nat i)
      (selUnits (selections m)) (selUnits (selections m2)).
Proof.
  intros Hm Hmax Ho Hn Hs. destruct (vget_in (unitsOf m) newIndex Hn) as (u & Hu & _).
  destruct (unit_move_at newIndex oldIndex u m Hm ltac:(lia) Hu Ho) as (_ & E & _ & Hl & _).
  set (m' := withUnitsOf _ m) in *. eexists _, _. split; [exact E|]. split; [reflexivity|].
  change (unitsOf (onSelections finishMove (onSelections (sendMove oldIndex newIndex) m'))) with (unitsOf m'). rewrite Hl.
  cbn [selections onSelections withSelections finishMove sendMove selUnits withUnits].
  change (selUnits (selections m')) with (selUnits (selections m)). rewrite <- list_fmap_compose. apply Forall2_fmap_r.
  apply Forall_Forall2_diag. eapply Forall_impl; [exact Hs|]. intros i Hi. cbn beta in *. unfold compose.
  rewrite finish_moved by lia. set (j := shifted oldIndex newIndex i).
  assert (Hj : 0 <= j < zlen (unitsOf m)).
  { unfold j, shifted. destruct (Z.eqb_spec i newIndex); [lia|]. destruct ((newIndex >? i) && (oldIndex <=? i)) eqn:E1.
    - rewrite andb_true_iff, Z.gtb_lt, Z.leb_le in E1. lia.
    - destruct ((newIndex <? i) && (oldIndex >=? i)) eqn:E2; [|lia]. rewrite andb_true_iff, Z.ltb_lt, Z.geb_le in E2. lia. }
  split; [done|]. unfold m'. rewrite unitsOf_with. unfold placed.
  pose proof (lookup_shifted (unitsOf m) (Z.to_nat oldIndex) (Z.to_nat newIndex) (Z.to_nat i) u Hu) as Hsh.
  rewrite !Z2Nat.id in Hsh by lia. fold j in Hsh. apply Hsh; unfold zlen in *; lia.
Qed.
