(* ===== verification/EditorCommands.v ===== *)
(** Commands of the editor that change the map and add what undoes the change:
    GuiMap.cpp, UnitProperties.cpp and LocationProperties.cpp of ChkdraftLib.

    A command takes the map with its history ([Editing]) and what the user has
    entered; the windows that display the map are left out.  A [u16 &] of a loop
    over the selected units is the position of the element in the vector, which
    the body assigns to. *)
From S2P Require Import Prelude Codec ChkTypes ChkSection Objects Locations Triggers StringTable ScenarioStrings ScenarioLayers ScenarioNames Selections EditorUndos EditorActions.
Open Scope Z_scope.

Abbreviation Session := (Editing Action GuiMap).
Abbreviation Changes := (Reversible Action).

Definition act (a : Action) : Changes := ReversibleAction a.
(** A part of a command that changes the map. *)
Definition onMap (f : GuiMap -> outcome GuiMap) (g : Session) : outcome Session :=
  let* m := f (object g) in Ret (withObject m g).

(** ** GuiMap *)

Inductive Layer := Terrain | Units | Locations.

Definition layerType (l : Layer) : Z :=
  match l with
  | Terrain => UndoTypes.TileChange
  | Units => UndoTypes.UnitChange
  | Locations => UndoTypes.LocationChange
  end.
(** [GuiMap::undo] and [redo] *)
Definition undoLayer (l : Layer) (g : Session) : outcome Session := undo (layerType l) g.
Definition redoLayer (l : Layer) (g : Session) : outcome Session := redo (layerType l) g.

(** The coordinates are s32, of which the undo keeps the low 16 bits. *)
Definition SetTile (x y tileNum : Z) (g : Session) : outcome (Session * bool) :=
  let l := layersOf (object g) in
  let* xSize := TerrainClass.getTileWidth l in
  let* ySize := TerrainClass.getTileHeight l in
  if (x >? u16 xSize) || (y >? u16 ySize) then Ret (g, false)
  else
    let* old := TerrainClass.getTile (u16 x) (u16 y) Scope.Game l in
    let g := addUndo (act (TileChange (u16 x) (u16 y) old)) g in
    let* g := onMap (onLayers (TerrainClass.setTile (u64 x) (u64 y) tileNum Scope.Both)) g in
    Ret (g, true).

(** [deleteSelection] of the layer of the terrain: every tile is an undo of its own. *)
Definition deleteTiles (g : Session) : outcome Session :=
  let* g := for_each (fun tile g =>
      let* old := TerrainClass.getTile (xc tile) (yc tile) Scope.Game (layersOf (object g)) in
      let g := addUndo (act (TileChange (xc tile) (yc tile) old)) g in
      onMap (onLayers (TerrainClass.setTile (xc tile) (yc tile) 0 Scope.Both)) g)
    (selTiles (selections (object g))) g in
  Ret (withObject (onSelections removeTiles (object g)) g).

(** [selectAll] of the layer of the terrain: tiles are added with edges by their
    row and column; the coordinates are int, of which [addTile] takes 16 bits. *)
Definition selectTile (x y side : Z) (m : GuiMap) : outcome GuiMap :=
  let* tileValue := TerrainClass.getTile (u64 x) (u64 y) Scope.Game (layersOf m) in
  Ret (onSelections (addTileWith tileValue (u16 x) (u16 y) side) m).
Definition selectRow (width y : Z) (m : GuiMap) : outcome GuiMap :=
  let* m := selectTile 0 y TileNeighbor.Left m in
  let* m := for_each (fun x => selectTile x y TileNeighbor.None) (range 1 (width - 1)) m in
  selectTile (width - 1) y TileNeighbor.Right m.
Definition selectAllTiles (m : GuiMap) : outcome GuiMap :=
  let m := if hasTiles (selections m) then onSelections removeTiles m else m in
  let* width := TerrainClass.getTileWidth (layersOf m) in
  let* height := TerrainClass.getTileHeight (layersOf m) in
  let width := u16 width in
  let height := u16 height in
  let* m := for_each (fun x => selectTile x 0 TileNeighbor.Top) (range 0 width) m in
  let* m := for_each (selectRow width) (range 0 (height - 1)) m in
  let* m := selectTile 0 (height - 1) (Z.lor TileNeighbor.Left TileNeighbor.Bottom) m in
  let* m := for_each (fun x => selectTile x (height - 1) TileNeighbor.Bottom) (range 1 (width - 1)) m in
  selectTile (width - 1) (height - 1) (Z.lor TileNeighbor.Right TileNeighbor.Bottom) m.

(** The loop that deletes the selected units from the highest index down, with
    one round for each of them. *)
Fixpoint deleteUnitsLoop (fuel : nat) (m : GuiMap) (deletes : Changes) : outcome (GuiMap * Changes) :=
  if hasUnits (selections m) then
    match fuel with
    | O => Undef
    | S fuel =>
        let index := getHighestIndex (selections m) in
        let m := onSelections (removeUnit index) m in
        let* delUnit := LayersClass.getUnit index (layersOf m) in
        let deletes := Insert (act (UnitCreateDel index (Some delUnit))) deletes in
        let* m := onLayers (LayersClass.deleteUnit index) m in
        deleteUnitsLoop fuel m deletes
    end
  else Ret (m, deletes).
Definition deleteUnits (g : Session) : outcome Session :=
  let* (m, deletes) := deleteUnitsLoop (length (selUnits (selections (object g)))) (object g) Make in
  Ret (addUndo deletes (withObject m g)).

(** The undo of a deleted location is the one of a created location. *)
Definition clearedLocation (loc : Location.Location) : Location.Location :=
  loc <| Location.elevationFlags := 0 |> <| Location.left := 0 |> <| Location.right := 0 |>
      <| Location.top := 0 |> <| Location.bottom := 0 |> <| Location.stringId := 0 |>.
Definition deleteSelectedLocation (g : Session) : outcome Session :=
  let index := selectedLocation (selections (object g)) in
  let* p := if negb (index =? NO_LOCATION) then LayersClass.getLocation index (layersOf (object g)) else Ret None in
  match p with
  | Some loc =>
      let g := addUndo (act (LocationCreateDel index None [])) g in
      let* g := onMap (updateLocation index clearedLocation) g in
      let stringNum := Location.stringId loc in
      let* g := if stringNum >? 0
                then let* st := StringsClass.deleteString stringNum Scope.Both true (strings (object g)) in
                     Ret (withObject (withStrings st (object g)) g)
                else Ret g in
      let* s := selectLocationIndex NO_LOCATION (selections (object g)) in
      Ret (withObject (withSelections s (object g)) g)
  | None => Ret g
  end.

Definition deleteSelection (l : Layer) (g : Session) : outcome Session :=
  match l with
  | Terrain => deleteTiles g
  | Units => deleteUnits g
  | Locations => deleteSelectedLocation g
  end.

(** A loop over the selected units that assigns to a field of each of them, if
    it is to be changed, and inserts the old value. *)
Definition changeUnits (field : UnitField) (changes : Unit.Unit -> bool) (value : Unit.Unit -> Z) (g : Session)
    : outcome Session :=
  let* (m, r) := for_each (fun unitIndex '(m, r) =>
      let* unit := LayersClass.getUnit unitIndex (layersOf m) in
      if changes unit then
        let* m := updateUnit unitIndex (setUnitField field (value unit)) m in
        Ret (m, Insert (act (UnitChange unitIndex field (unitField field unit))) r)
      else Ret (m, r))
    (selUnits (selections (object g))) (object g, Make) in
  Ret (addUndo r (withObject m g)).

Definition PlayerChanged (newPlayer : Z) : Session -> outcome Session :=
  changeUnits Owner (fun _ => true) (fun _ => newPlayer).

(** ** The window of unit properties *)

Definition ChangeCurrOwner (newOwner : Z) : Session -> outcome Session :=
  changeUnits Owner (fun unit => negb (Unit.owner unit =? newOwner)) (fun _ => newOwner).

(** [Chk::Unit::State] *)
Module UnitState.
Definition Cloak : Z := 1.
Definition Burrow : Z := 2.
Definition InTransit : Z := 4.
Definition Hallucinated : Z := 8.
Definition Invincible : Z := 16.
End UnitState.

Definition flagClicked (flag : Z) (isChecked : bool) : Session -> outcome Session :=
  changeUnits StateFlags (fun _ => true) (fun unit =>
    if isChecked then Z.lor (Unit.stateFlags unit) flag else Z.ldiff (Unit.stateFlags unit) flag).
Definition NotifyInvincibleClicked := flagClicked UnitState.Invincible.
Definition NotifyHallucinatedClicked := flagClicked UnitState.Hallucinated.
Definition NotifyBurrowedClicked := flagClicked UnitState.Burrow.
Definition NotifyCloakedClicked := flagClicked UnitState.Cloak.
Definition NotifyLiftedClicked := flagClicked UnitState.InTransit.

(** [unitIndex = index] for the reference to the element [k]. *)
Definition setSelected (k index : Z) (m : GuiMap) : outcome GuiMap :=
  let* units := vset (selUnits (selections m)) k index in Ret (onSelections (withUnits units) m).

(** [preserve = getUnit(from); deleteUnit(from); insertUnit(to, preserve)] *)
Definition placeUnit (from to : Z) (m : GuiMap) : outcome GuiMap :=
  let* preserve := LayersClass.getUnit from (layersOf m) in
  let* m := onLayers (LayersClass.deleteUnit from) m in
  onLayers (LayersClass.insertUnit to preserve) m.

(** The end of the four commands that move units by one group of changes. *)
Definition addMoves (m : GuiMap) (r : Changes) (g : Session) : Session :=
  let r := Insert (act UnitIndexMoveBoundary) r in
  if Count r >? 2 then addUndo r (withObject m g) else withObject m g.

(** Moves one of the selected units to the index it belongs at. *)
Definition moveSelected (k target : Z) (m : GuiMap) (r : Changes) (top : Z) : outcome (GuiMap * Changes * Z) :=
  let* unitIndex := vget (selUnits (selections m)) k in
  let* m := placeUnit unitIndex target m in
  let* m := setSelected k (u16 target) m in
  Ret (m, Insert (act (UnitIndexMove unitIndex (u16 target))) r, if unitIndex =? top then u16 target else top).

Definition NotifyMoveTopPressed (g : Session) : outcome Session :=
  let unitStackTopIndex := getFirstUnit (selections (object g)) in
  let m := onSelections (sortUnits true) (object g) in
  let* (m, r, top) := for_each (fun k '(m, r, top) =>
      let* unitIndex := vget (selUnits (selections m)) k in
      if negb (unitIndex =? 0) then moveSelected k (u16 k) m r top else Ret (m, r, top))
    (range 0 (zlen (selUnits (selections m)))) (m, Insert (act UnitIndexMoveBoundary) Make, unitStackTopIndex) in
  let g := addMoves m r g in
  Ret (withObject (onSelections (ensureFirst top) (object g)) g).

Definition NotifyMoveEndPressed (g : Session) : outcome Session :=
  let unitStackTopIndex := getFirstUnit (selections (object g)) in
  let m := onSelections (sortUnits false) (object g) in
  let* numUnits := LayersClass.numUnits (layersOf m) in
  let* (m, r, top) := for_each (fun k '(m, r, top) =>
      let* unitIndex := vget (selUnits (selections m)) k in
      if negb (unitIndex =? u64 (numUnits - 1)) then moveSelected k (u64 (numUnits - u16 (k + 1))) m r top
      else Ret (m, r, top))
    (range 0 (zlen (selUnits (selections m)))) (m, Insert (act UnitIndexMoveBoundary) Make, unitStackTopIndex) in
  let g := addMoves m r g in
  Ret (withObject (onSelections (ensureFirst top) (object g)) g).

Definition NotifyMoveUpPressed (g : Session) : outcome Session :=
  let m := onSelections (sortUnits true) (object g) in
  let* (m, r) := for_each (fun k '(m, r) =>
      let* unitIndex := vget (selUnits (selections m)) k in
      if (unitIndex >? 0) && negb (unitIsSelected (u16 (unitIndex - 1)) (selections m)) then
        let* m := onLayers (LayersClass.moveUnit unitIndex (unitIndex - 1)) m in
        let* m := setSelected k (u16 (unitIndex - 1)) m in
        Ret (m, Insert (act (UnitIndexMove unitIndex (u16 (unitIndex - 1)))) r)
      else Ret (m, r))
    (range 0 (zlen (selUnits (selections m)))) (m, Insert (act UnitIndexMoveBoundary) Make) in
  Ret (addMoves m r g).

(** The condition lets the last unit through. *)
Definition NotifyMoveDownPressed (g : Session) : outcome Session :=
  let m := onSelections (sortUnits false) (object g) in
  let* (m, r) := for_each (fun k '(m, r) =>
      let* unitIndex := vget (selUnits (selections m)) k in
      let* numUnits := LayersClass.numUnits (layersOf m) in
      if (unitIndex <? numUnits) && negb (unitIsSelected (u16 (unitIndex + 1)) (selections m)) then
        let* m := onLayers (LayersClass.moveUnit unitIndex (unitIndex + 1)) m in
        let* m := setSelected k (u16 (unitIndex + 1)) m in
        Ret (m, Insert (act (UnitIndexMove unitIndex (u16 (unitIndex + 1)))) r)
      else Ret (m, r))
    (range 0 (zlen (selUnits (selections m)))) (m, Insert (act UnitIndexMoveBoundary) Make) in
  Ret (addMoves m r g).

(** The units are taken out from the last to the first and put back from
    [unitMoveTo] on; [units] is the array [selectedUnits] from its last element
    that is filled. *)
Definition takeOut (unitMoveTo shift : Z) (m : GuiMap) : outcome (GuiMap * list Unit.Unit * Changes) :=
  for_each (fun i '(m, units, r) =>
      let* unitIndex := vget (selUnits (selections m)) i in
      let* unit := LayersClass.getUnit unitIndex (layersOf m) in
      let* m := onLayers (LayersClass.deleteUnit unitIndex) m in
      let* m := setSelected i (u16 (unitMoveTo + shift - i)) m in
      Ret (m, unit :: units, Insert (act (UnitCreateDel unitIndex (Some unit))) r))
    (range 0 (zlen (selUnits (selections m)))) (m, [], Make).
Definition NotifyMoveToPressed (unitMoveTo : Z) (g : Session) : outcome Session :=
  let* mapUnits := LayersClass.numUnits (layersOf (object g)) in
  let numUnits := numUnits (selections (object g)) in
  if unitMoveTo <? u32 mapUnits then
    if unitMoveTo =? 0 then NotifyMoveTopPressed g
    else if u32 (unitMoveTo + numUnits) >=? mapUnits then NotifyMoveEndPressed g
    else
      let unitStackTopIndex := getFirstUnit (selections (object g)) in
      let* (m, selectedUnits, r) := takeOut unitMoveTo (u16 (numUnits - 1)) (onSelections (sortUnits false) (object g)) in
      let* (m, r) := for_each (fun i '(m, r) =>
          let* unit := vget selectedUnits i in
          let* m := onLayers (LayersClass.insertUnit (unitMoveTo + i) unit) m in
          Ret (m, Insert (act (UnitCreateDel (u16 (unitMoveTo + i)) None)) r))
        (range 0 numUnits) (m, r) in
      let m := onSelections (ensureFirst unitStackTopIndex) (onSelections finishMove m) in
      Ret (addUndo r (withObject m g))
  else Ret g.

Definition NotifyDeletePressed : Session -> outcome Session := deleteUnits.

(** ** The window of location properties *)

Definition currentLocation (currentLocationId : Z) (g : Session) : outcome (option Location.Location) :=
  if negb (currentLocationId =? NO_LOCATION) then LayersClass.getLocation currentLocationId (layersOf (object g))
  else Ret None.

(** A command that adds the values of some fields and then changes the location. *)
Definition changeLocation (currentLocationId : Z) (undo : Location.Location -> Changes)
    (f : Location.Location -> Location.Location) (g : Session) : outcome Session :=
  let* locRef := currentLocation currentLocationId g in
  match locRef with
  | Some loc => onMap (updateLocation currentLocationId f) (addUndo (undo loc) g)
  | None => Ret g
  end.
Definition fieldChange (id : Z) (loc : Location.Location) (field : LocationField) : Changes :=
  act (LocationChange id field (locationField field loc)).
Definition swapX (l : Location.Location) : Location.Location :=
  l <| Location.left := Location.right l |> <| Location.right := Location.left l |>.
Definition swapY (l : Location.Location) : Location.Location :=
  l <| Location.top := Location.bottom l |> <| Location.bottom := Location.top l |>.

Definition InvertXc (id : Z) : Session -> outcome Session :=
  changeLocation id (fun l => Insert (fieldChange id l Right) (Insert (fieldChange id l Left) Make)) swapX.
Definition InvertYc (id : Z) : Session -> outcome Session :=
  changeLocation id (fun l => Insert (fieldChange id l Bottom) (Insert (fieldChange id l Top) Make)) swapY.
Definition InvertXY (id : Z) : Session -> outcome Session :=
  changeLocation id (fun l => Insert (fieldChange id l Bottom) (Insert (fieldChange id l Top)
    (Insert (fieldChange id l Right) (Insert (fieldChange id l Left) Make)))) (fun l => swapY (swapX l)).

(** A checked box takes the flag away: the flags are of the elevations that do
    not count. *)
Module Elevation.
Definition LowElevation : Z := 1.
Definition MediumElevation : Z := 2.
Definition HighElevation : Z := 4.
Definition LowAir : Z := 8.
Definition MediumAir : Z := 16.
Definition HighAir : Z := 32.
End Elevation.
Definition elevationClicked (flag id : Z) (isChecked : bool) : Session -> outcome Session :=
  changeLocation id (fun l => fieldChange id l ElevationFlags) (fun l =>
    l <| Location.elevationFlags := if isChecked then Z.ldiff (Location.elevationFlags l) flag
                                    else Z.lor (Location.elevationFlags l) flag |>).
Definition NotifyLowGroundClicked := elevationClicked Elevation.LowElevation.
Definition NotifyMedGroundClicked := elevationClicked Elevation.MediumElevation.
Definition NotifyHighGroundClicked := elevationClicked Elevation.HighElevation.
Definition NotifyLowAirClicked := elevationClicked Elevation.LowAir.
Definition NotifyMedAirClicked := elevationClicked Elevation.MediumAir.
Definition NotifyHighAirClicked := elevationClicked Elevation.HighAir.

(** A coordinate is left: [preservedStat] is the value it had at the start. *)
Definition coordinateFocusLost (field : LocationField) (id preservedStat newVal : Z) (g : Session) : outcome Session :=
  let* locRef := currentLocation id g in
  match locRef with
  | Some _ =>
      let* g := onMap (updateLocation id (setLocationField field (u32 newVal))) g in
      Ret (if negb (u32 newVal =? preservedStat) then addUndo (act (LocationChange id field preservedStat)) g else g)
  | None => Ret g
  end.
Definition LocationLeftFocusLost := coordinateFocusLost Left.
Definition LocationTopFocusLost := coordinateFocusLost Top.
Definition LocationRightFocusLost := coordinateFocusLost Right.
Definition LocationBottomFocusLost := coordinateFocusLost Bottom.
