(* ===== verification/EditorCommandsProps.v ===== *)
(** Properties of the commands of the editor: each of them is an edit, which is
    undone and redone as the histories of [EditorHistory] say, and what it makes
    of the map. *)
From Stdlib Require Import Sorting.Sorted.
From stdpp Require Import functions.
From S2P Require Import Prelude Codec ChkTypes ChkSection Accessors StructSections Terrain Objects Locations Triggers StringTable ScenarioStrings ScenarioLayers ScenarioNames ScenarioNamesProps Selections SelectionsProps EditorUndos EditorHistory EditorActions EditorActionsProps EditorCommands.
Open Scope Z_scope.

(** The map has become [m], by an edit of type [t]. *)
Definition Edits (t : Z) (g g' : Session) : Prop :=
  exists r r', g' = addUndo r (withObject (object g') g) /\ getType r = t /\ 0 < Count r /\
    Swaps t r r' (object g') (object g) /\ forall t', t' <> t -> same t' (object g) (object g').

Lemma addUndo_object (r : Changes) (m : GuiMap) (g : Session) : withObject m (addUndo r g) = addUndo r (withObject m g).
Proof.
  unfold addUndo. cbn. destruct (AddUndo r (history g)) as [u [[]|]]; cbn; [done| |done]. unfold changesUndone. cbn. by destruct (changeLock g).
Qed.
Lemma object_addUndo (r : Changes) (g : Session) : object (addUndo r g) = object g.
Proof. unfold addUndo. destruct (AddUndo r (history g)) as [u n]. by destruct (observed n (withHistory u g)) as [-> _]. Qed.

Lemma edits_intro t r r' m g : getType r = t -> 0 < Count r -> Swaps t r r' m (object g) ->
  (forall t', t' <> t -> same t' (object g) m) -> Edits t g (addUndo r (withObject m g)).
Proof. intros Ht Hc Hs Hf. exists r, r'. rewrite object_addUndo. done. Qed.

Lemma edits_history t g g' T N : History g T N -> t <> 0 -> Edits t g g' ->
  History g' (<[t := edit (object g') (T t)]> T) (<[t := N t + 1]> N).
Proof.
  intros H Ht (r & r' & E & Et & Hc & Hs & Hf). rewrite E at 1. eapply edited; try done.
Qed.

(** *** Vectors of actions *)

Definition group (l : list Changes) : Changes := ReversibleActions l true.

Lemma insert_group a (l : list Changes) : Insert a (group l) = group (l ++ [a]).
Proof. done. Qed.

Lemma group_type t (l : list Changes) : t <> 0 -> l <> [] -> Forall (fun r => getType r = t) l -> getType (group l) = t.
Proof.
  intros Ht Hl Hf. unfold group. rewrite getType_actions. destruct l as [|r l]; [done|]. apply Forall_cons in Hf as [E _].
  unfold firstNonzero. rewrite fmap_cons, filter_cons, decide_True by congruence. done.
Qed.

Lemma group_count (l : list Changes) : l <> [] -> zlen l < 2 ^ 31 -> 0 < Count (group l).
Proof.
  intros Hl Hz. cbn. rewrite s32_id; [|unfold zlen in *; lia]. unfold zlen. destruct l; [done|]. cbn. lia.
Qed.

Lemma swapsAll_types t rs rs' (m n : GuiMap) : t <> 0 -> SwapsAll t rs rs' m n ->
  Forall (fun r => exists a, r = ReversibleAction a) rs -> Forall (fun r : Changes => getType r = t) rs.
Proof.
  intros Ht. induction 1 as [m n _|rs rs' r r' m n p Hs IH Hw]; intros Ha; [constructor|].
  apply Forall_app in Ha as [Ha Hr]. apply Forall_singleton in Hr as [a ->]. apply Forall_app_2; [by apply IH|].
  apply Forall_singleton. destruct Hw as (U & _). by inversion U.
Qed.

(** The changes of a loop so far: the actions swap the map with the first one. *)
Definition Changed (t : Z) (m0 m : GuiMap) (l : list Changes) : Prop :=
  (exists l', SwapsAll t l l' m m0) /\ Forall (fun r : Changes => exists a, r = ReversibleAction a) l /\
  forall t', t' <> t -> samePart t' m0 m.

Lemma changed_nil t m : Changed t m m [].
Proof. split; [exists []; by constructor|]. by split; [constructor|]. Qed.

Lemma changed_snoc t m0 m m' l a a' : Changed t m0 m l -> swapsAction t a a' m' m -> (forall t', t' <> t -> samePart t' m m') ->
  Changed t m0 m' (l ++ [act a]).
Proof.
  intros ((l' & Hl) & Ha & Hf) Hs Hf'. split; [|split].
  - exists (l' ++ [ReversibleAction a']). by econstructor.
  - apply Forall_app_2; [done|]. apply Forall_singleton. by eexists.
  - intros t' Ht. etransitivity; [by apply Hf | by apply Hf'].
Qed.

(** A change the type is not about, such as one of the selections. *)
Lemma changed_same t m0 m m' l : Changed t m0 m l -> (forall t', samePart t' m m') -> Changed t m0 m' l.
Proof.
  intros ((l' & Hl) & Ha & Hf) Hsame. split; [|split]; [|done|].
  - pose proof (Hsame t) as Hst. change (same t m m') in Hst.
    destruct Hl as [m n Hmn|rs rs' r r' m n p Hs Hw]; [exists []; constructor | exists (rs' ++ [r']); econstructor; [exact Hs|]].
    + by rewrite <- Hst.
    + by rewrite <- Hst.
  - intros t' Ht. etransitivity; [by apply Hf | apply Hsame].
Qed.

Lemma changed_edits t m0 m l g : t <> 0 -> object g = m0 -> Changed t m0 m l -> l <> [] -> zlen l < 2 ^ 31 ->
  Edits t g (addUndo (group l) (withObject m g)).
Proof.
  intros Ht <- ((l' & Hl) & Ha & Hf) Hne Hz. apply (edits_intro t (group l) (ReversibleActions l' false)); [|by apply group_count| |done].
  - apply group_type; [done|done|]. by eapply swapsAll_types.
  - by apply swaps_all.
Qed.

(** ** Tiles *)


(** ** Fields of units *)

Definition inRange (m : GuiMap) (ids : list Z) : Prop := NoDup ids /\ Forall (fun i => 0 <= i < zlen (unitsOf m)) ids.


Lemma samePart_units units m t : t <> UndoTypes.UnitChange -> samePart t m (withUnitsOf units m).
Proof. revert t. other_parts. Qed.

Lemma samePart_selections s m t : samePart t m (withSelections s m).
Proof.
  unfold samePart. destruct (t =? UndoTypes.TileChange), (t =? UndoTypes.UnitChange), (t =? UndoTypes.LocationChange); done.
Qed.




(** ** Deleting units *)

(** The units whose index is not in the list, counted from [k] on. *)
Fixpoint omit (k : Z) (ids : list Z) (l : list Unit.Unit) : list Unit.Unit :=
  match l with
  | [] => []
  | u :: l => if bool_decide (k ∈ ids) then omit (k + 1) ids l else u :: omit (k + 1) ids l
  end.

Lemma omit_app k ids l1 l2 : omit k ids (l1 ++ l2) = omit k ids l1 ++ omit (k + zlen l1) ids l2.
Proof.
  revert k. induction l1 as [|u l1 IH]; intros k; cbn [app omit]; [by rewrite Z.add_0_r|].
  rewrite IH, zlen_cons, Z.add_assoc. replace (k + 1 + zlen l1) with (k + zlen l1 + 1) by lia.
  by destruct (bool_decide (k ∈ ids)).
Qed.
Lemma omit_ext k ids ids' l : (forall j, k <= j < k + zlen l -> j ∈ ids <-> j ∈ ids') -> omit k ids l = omit k ids' l.
Proof.
  revert k. induction l as [|u l IH]; intros k H; [done|]. rewrite zlen_cons in H. pose proof (zlen_nonneg l). cbn [omit].
  rewrite (bool_decide_ext _ _ (H k ltac:(lia))), (IH (k + 1)); [done|]. intros j Hj. apply H. lia.
Qed.
Lemma omit_nil k l : omit k [] l = l.
Proof. revert k. induction l as [|u l IH]; intros k; [done|]. cbn [omit]. rewrite bool_decide_false by apply not_elem_of_nil. by rewrite IH. Qed.
Lemma omit_above k ids l : (forall j, j ∈ ids -> j < k) -> omit k ids l = l.
Proof.
  intros H. rewrite <- (omit_nil k l) at 2. apply omit_ext. intros j Hj. split; [intros Hj'%H; lia | by intros ?%elem_of_nil].
Qed.

(** The unit with the highest of the indices. *)
Lemma omit_highest h ids ids' l u : 0 <= h -> l !! Z.to_nat h = Some u -> (forall j, j ∈ ids <-> j = h \/ j ∈ ids') ->
  (forall j, j ∈ ids' -> j < h) ->
  exists front back, zlen front = h /\ l = front ++ u :: back /\ omit 0 ids l = omit 0 ids' front ++ back /\
    omit 0 ids' l = omit 0 ids' front ++ u :: back.
Proof.
  intros Hh Hu Hids Hmax. exists (take (Z.to_nat h) l), (drop (S (Z.to_nat h)) l).
  pose proof (lookup_lt_Some _ _ _ Hu) as Hlt. assert (Hz : zlen (take (Z.to_nat h) l) = h) by (unfold zlen; rewrite length_take; lia).
  assert (El : l = take (Z.to_nat h) l ++ u :: drop (S (Z.to_nat h)) l) by (symmetry; by apply take_drop_middle).
  assert (Hall : forall s, omit 0 s l = omit 0 s (take (Z.to_nat h) l) ++ omit h s (u :: drop (S (Z.to_nat h)) l)).
  { intros s. rewrite El at 1. by rewrite omit_app, Hz. }
  split; [done|]. split; [done|]. rewrite !Hall. cbn [omit].
  rewrite bool_decide_true by (apply Hids; by left). rewrite bool_decide_false by (intros Hj%Hmax; lia).
  rewrite !(omit_above (h + 1)); [| intros j Hj%Hmax; lia | intros j [->|Hj%Hmax]%Hids; lia].
  split; [|done]. f_equal. apply omit_ext. rewrite Hz. intros j Hj. rewrite Hids. split; [intros [?|?]; [lia|done] | by right].
Qed.






(** ** Moving units to the top *)

(** The units at the indices, in their order. *)
Definition only (ids : list Z) (l : list Unit.Unit) : list Unit.Unit := omap (fun i => l !! Z.to_nat i) ids.

Abbreviation ascending := (StronglySorted Z.lt).

Lemma ascending_snoc s h : ascending (s ++ [h]) <-> ascending s /\ forall j, j ∈ s -> j < h.
Proof.
  induction s as [|i s IH]; cbn [app].
  - split; [intros _; split; [constructor | by intros j ?%elem_of_nil] | intros _; repeat constructor].
  - split.
    + intros [Hs Hi]%StronglySorted_inv. apply IH in Hs as [Hs Hh]. apply Forall_app in Hi as [Hi Hih]. split; [by constructor|].
      intros j [->|Hj]%elem_of_cons; [by apply (proj1 (Forall_singleton _ _) Hih) | by apply Hh].
    + intros [[Hs Hi]%StronglySorted_inv Hh]. constructor; [apply IH; split; [done|]; intros j Hj; apply Hh; by right|].
      apply Forall_app. split; [done|]. apply Forall_singleton, Hh. by left.
Qed.

Lemma omit_length s l : ascending s -> Forall (fun i => 0 <= i < zlen l) s -> zlen (omit 0 s l) = zlen l - zlen s.
Proof.
  induction s as [|h s IH] using rev_ind; intros Hs Hr; [rewrite omit_nil; unfold zlen; cbn; lia|].
  apply ascending_snoc in Hs as [Hs Hh]. apply Forall_app in Hr as [Hr Hhr]. apply (proj1 (Forall_singleton _ _)) in Hhr. cbn beta in Hhr.
  destruct (vget_in l h Hhr) as (u & Hu & _).
  destruct (omit_highest h (s ++ [h]) s l u) as (front & back & _ & _ & E1 & E2); [lia | done | | done|].
  { intros j. rewrite elem_of_app, list_elem_of_singleton. tauto. }
  specialize (IH Hs Hr). rewrite E2 in IH. rewrite E1. rewrite zlen_app, zlen_cons in IH. rewrite !zlen_app. change (zlen [h]) with 1. lia.
Qed.

Lemma only_length s l : Forall (fun i => 0 <= i < zlen l) s -> zlen (only s l) = zlen s.
Proof.
  induction s as [|i s IH]; intros Hr; [done|]. apply Forall_cons in Hr as [Hi Hr]. destruct (vget_in l i Hi) as (u & Hu & _).
  unfold only. cbn. rewrite Hu. rewrite !zlen_cons. f_equal. by apply IH.
Qed.

(** The next of the indices: the unit is taken from its place to the end of those before it. *)
Lemma gather_step s h l u : ascending (s ++ [h]) -> Forall (fun i => 0 <= i < zlen l) (s ++ [h]) -> l !! Z.to_nat h = Some u ->
  let now := only s l ++ omit 0 s l in
  zlen now = zlen l /\ zlen s <= h /\ now !! Z.to_nat h = Some u /\
  placed (zlen s) u (delete (Z.to_nat h) now) = only (s ++ [h]) l ++ omit 0 (s ++ [h]) l.
Proof.
  intros [Hs Hh]%ascending_snoc [Hr Hhr]%Forall_app Hu now. apply (proj1 (Forall_singleton _ _)) in Hhr. cbn beta in Hhr.
  destruct (omit_highest h (s ++ [h]) s l u) as (front & back & Hf & El & E1 & E2); [lia | done | | done|].
  { intros j. rewrite elem_of_app, list_elem_of_singleton. tauto. }
  assert (Hfr : Forall (fun i => 0 <= i < zlen front) s).
  { apply Forall_forall. intros j Hj. pose proof (proj1 (Forall_forall _ _) Hr j Hj) as Hjr. cbn beta in Hjr. specialize (Hh j Hj). lia. }
  pose proof (omit_length s front Hs Hfr) as Hx. pose proof (only_length s l Hr) as Ho. pose proof (omit_length s l Hs Hr) as Hz.
  assert (Hnow : now = (only s l ++ omit 0 s front) ++ u :: back) by (unfold now; rewrite E2; by rewrite app_assoc).
  assert (Hn : length (only s l ++ omit 0 s front) = Z.to_nat h) by (rewrite length_app; unfold zlen in *; lia).
  split; [unfold now; rewrite zlen_app; lia|]. split; [pose proof (zlen_nonneg (omit 0 s front)); lia|].
  rewrite Hnow. split; [by apply list_lookup_middle|]. rewrite <- Hn, delete_middle, <- app_assoc.
  unfold placed. rewrite take_app_length', drop_app_length' by (unfold zlen in *; lia).
  rewrite E1. replace (only (s ++ [h]) l) with (only s l ++ [u]) by (unfold only; rewrite omap_app; cbn; by rewrite Hu). by rewrite <- app_assoc.
Qed.

Definition topBody (k : Z) (st : GuiMap * Changes * Z) : outcome (GuiMap * Changes * Z) :=
  let '(m, r, top) := st in
  let* unitIndex := vget (selUnits (selections m)) k in
  if negb (unitIndex =? 0) then moveSelected k (u16 k) m r top else Ret (m, r, top).

(** The loop has brought [before] to the top and goes on with [rest]; the first
    unit of the selection, at [f], is now at [top]. *)
Record Gathered (U : list Unit.Unit) (f : Z) (before rest : list Z) (m : GuiMap) (top : Z) : Prop := mkGathered {
  gathered_section : hasUnitSection m;
  gathered_selection : selUnits (selections m) = range 0 (zlen before) ++ rest;
  gathered_units : unitsOf m = only before U ++ omit 0 before U;
  gathered_top : (0 <= top < zlen before /\ before !! Z.to_nat top = Some f) \/ (top = f /\ f ∈ rest)
}.

Lemma zlen_range k : 0 <= k -> zlen (range 0 k) = k.
Proof. intros Hk. rewrite range_seqZ. unfold zlen. rewrite length_seqZ. lia. Qed.

Lemma gathered_next U f before h rest m top : let k := zlen before in
  ascending (before ++ h :: rest) -> Forall (fun i => 0 <= i < zlen U) (before ++ h :: rest) ->
  Gathered U f before (h :: rest) m top ->
  exists u, 0 <= k <= h /\ h < zlen (unitsOf m) /\ unitsOf m !! Z.to_nat h = Some u /\ vget (selUnits (selections m)) k = Ret h /\
    placed k u (delete (Z.to_nat h) (unitsOf m)) = only (before ++ [h]) U ++ omit 0 (before ++ [h]) U /\
    <[Z.to_nat k := k]> (selUnits (selections m)) = range 0 (k + 1) ++ rest /\
    let top' := if h =? top then k else top in
    (0 <= top' < zlen (before ++ [h]) /\ (before ++ [h]) !! Z.to_nat top' = Some f) \/ (top' = f /\ f ∈ rest).
Proof.
  intros k Hs Hr [_ Esel Eun Htop]. pose proof (zlen_nonneg before) as Hk. fold k in Hk, Htop, Esel.
  assert (Hs1 : ascending (before ++ [h])).
  { clear -Hs. revert Hs. induction before as [|i before IH]; cbn; [repeat constructor|]. intros [Hs Hi]%StronglySorted_inv.
    constructor; [by apply IH|]. apply Forall_app in Hi as [Hi1 Hi2]. apply Forall_cons in Hi2 as [Hi2 _].
    apply Forall_app. split; [done|]. by constructor. }
  assert (Hr1 : Forall (fun i => 0 <= i < zlen U) (before ++ [h])).
  { apply Forall_app in Hr as [Hr1 Hr2]. apply Forall_cons in Hr2 as [Hr2 _]. apply Forall_app. split; [done|]. by constructor. }
  pose proof (proj1 (Forall_forall _ _) Hr1 h ltac:(apply elem_of_app; right; by left)) as Hh. cbn beta in Hh.
  destruct (vget_in U h Hh) as (u & Hu & _). destruct (gather_step before h U u Hs1 Hr1 Hu) as (Hz & Hkh & Hget & Hput).
  rewrite <- Eun in Hz, Hget, Hput. exists u. fold k in Hkh, Hput. split; [lia|]. split; [lia|]. split; [done|].
  assert (Hlen : length (range 0 k) = Z.to_nat k) by (pose proof (zlen_range k Hk) as Hzr; unfold zlen in Hzr; lia).
  split; [rewrite Esel; apply vget_Some; [lia|]; by apply list_lookup_middle|]. split; [done|]. split.
  - rewrite Esel, range_snoc by lia. rewrite <- Hlen, insert_app_r_alt, Nat.sub_diag by lia. cbn. by rewrite <- app_assoc.
  - cbn zeta. rewrite zlen_app. change (zlen [h]) with 1. fold k. destruct (Z.eqb_spec h top) as [<-|Hne].
    + destruct Htop as [[Ht _]|[<- _]]; [lia|]. left. split; [lia|]. apply list_lookup_middle. unfold k, zlen. lia.
    + destruct Htop as [[Ht Ef]|[-> [->|Hf]%elem_of_cons]]; [left|done|by right]. split; [lia|].
      rewrite lookup_app_l; [done|]. by eapply lookup_lt_Some.
Qed.

Lemma moveTop_loop U f rest : forall before m0 m l top,
  ascending (before ++ rest) -> Forall (fun i => 0 <= i < zlen U) (before ++ rest) -> Forall (fun i => 0 <= i < 0x10000) (before ++ rest) ->
  Gathered U f before rest m top -> Changed UndoTypes.UnitChange m0 m l ->
  exists m' l' top', for_each topBody (range (zlen before) (zlen (before ++ rest))) (m, group l, top) = Ret (m', group (l ++ l'), top') /\
    Changed UndoTypes.UnitChange m0 m' (l ++ l') /\ zlen l' <= zlen rest /\ Gathered U f (before ++ rest) [] m' top'.
Proof.
  induction rest as [|h rest IH]; intros before m0 m l top Hs Hr H16 Hg Hch.
  { exists m, [], top. rewrite app_nil_r in *. rewrite range_empty by lia. rewrite app_nil_r. done. }
  destruct (gathered_next U f before h rest m top Hs Hr Hg) as (u & Hk & Hh & Hu & Hv & Hput & Hsel & Htop).
  pose proof (zlen_nonneg rest). rewrite zlen_app, zlen_cons. rewrite range_cons by lia. cbn [for_each topBody]. rewrite Hv. cbn [obind].
  set (k := zlen before) in *. assert (H16h : 0 <= h < 0x10000).
  { apply (proj1 (Forall_forall _ _) H16). apply elem_of_app. right. by left. }
  assert (Ek : u16 k = k) by (apply u16_id; unfold is_u; lia).
  assert (Hk1 : zlen (before ++ [h]) = k + 1) by (rewrite zlen_app; done).
  assert (Hcat : before ++ h :: rest = (before ++ [h]) ++ rest) by (by rewrite <- app_assoc).
  assert (Hend : k + (1 + zlen rest) = zlen ((before ++ [h]) ++ rest)) by (rewrite zlen_app; lia).
  pose proof Hg as [Hm Esel Eun Htop0]. destruct (Z.eqb_spec h 0) as [->|Hh0]; cbn [negb].
  - assert (k = 0) as Hk0 by lia. destruct (IH (before ++ [0]) m0 m l top) as (m' & l' & top' & E & Hch' & Hl & Hg').
    + by rewrite <- Hcat.
    + by rewrite <- Hcat.
    + by rewrite <- Hcat.
    + split; [done| | |].
      * rewrite Hk1, Esel. fold k. rewrite Hk0. done.
      * rewrite <- Hput, Hk0. symmetry. by apply placed_deleted.
      * destruct (Z.eqb_spec 0 top) as [<-|]; [|done]. by rewrite Hk0 in Htop.
    + done.
    + exists m', l', top'. cbn [obind]. replace (k + (1 + zlen rest)) with (zlen ((before ++ [0]) ++ rest)) by lia.
      replace (k + 1) with (zlen (before ++ [0])) by lia. rewrite E, Hcat. split; [done|]. split; [done|]. split; [lia | done].
  - unfold moveSelected. rewrite Hv. cbn [obind]. unfold placeUnit. rewrite Ek.
    destruct (unit_move_at h k u m Hm ltac:(lia) Hu ltac:(lia)) as (-> & _). cbn [obind]. rewrite Hput.
    pose proof (unit_move_swaps h k u m Hm ltac:(lia) Hu ltac:(lia)) as Hsw. rewrite Hput in Hsw.
    set (units := only (before ++ [h]) U ++ omit 0 (before ++ [h]) U) in *. unfold setSelected.
    assert (Hin : 0 <= k < zlen (selUnits (selections m))).
    { split; [lia|]. rewrite Esel, zlen_app, zlen_range, zlen_cons by lia. fold k. lia. }
    change (selUnits (selections (withUnitsOf units m))) with (selUnits (selections m)). rewrite Ek, vset_in by done. cbn [obind]. rewrite Hsel.
    set (m1 := onSelections (withUnits _) (withUnitsOf units m)).
    destruct (IH (before ++ [h]) m0 m1 (l ++ [act (UnitIndexMove h k)]) (if h =? top then k else top)) as (m' & l' & top' & E & Hch' & Hl & Hg').
    + by rewrite <- Hcat.
    + by rewrite <- Hcat.
    + by rewrite <- Hcat.
    + split; [by eexists | | done | done]. rewrite Hk1. done.
    + eapply changed_same; [eapply changed_snoc; [done | exact Hsw|]|intros t; apply samePart_selections].
      intros t Ht. by apply samePart_units.
    + exists m', (act (UnitIndexMove h k) :: l'), top'. rewrite insert_group. replace (k + (1 + zlen rest)) with (zlen ((before ++ [h]) ++ rest)) by lia.
      replace (k + 1) with (zlen (before ++ [h])) by lia. rewrite E, Hcat. rewrite <- app_assoc in *. split; [done|]. split; [done|].
      split; [rewrite ?zlen_cons; lia|]. by rewrite <- app_assoc.
Qed.

Lemma boundary_swaps m : swapsAction UndoTypes.UnitChange UnitIndexMoveBoundary UnitIndexMoveBoundary m m.
Proof.
  assert (H : forall q : GuiMap, same UndoTypes.UnitChange m q -> exists q', reverse (ReversibleAction UnitIndexMoveBoundary) q = Ret (ReversibleAction UnitIndexMoveBoundary, q') /\
    same UndoTypes.UnitChange m q' /\ forall t', t' <> UndoTypes.UnitChange -> same t' q q').
  { intros q Hq. exists (onSelections finishMove q). split; [done|]. split; [exact Hq|]. intros t _. apply samePart_selections. }
  split; [by constructor|]. split; [by constructor|]. done.
Qed.

Lemma insertSorted_spec i l : ascending l -> i ∉ l -> ascending (insertSorted Z.ltb i l) /\ insertSorted Z.ltb i l ≡ₚ i :: l.
Proof.
  induction l as [|j l IH]; intros Hs Hi; cbn [insertSorted]; [split; [repeat constructor | done]|].
  apply StronglySorted_inv in Hs as [Hs Hj]. rewrite elem_of_cons in Hi. destruct (Z.ltb_spec j i).
  - destruct (IH Hs ltac:(tauto)) as [H1 H2]. split; [|rewrite H2; constructor]. constructor; [done|]. rewrite H2. by constructor.
  - split; [|done]. constructor; [by constructor|]. constructor; [lia|]. eapply Forall_impl; [exact Hj|]. cbn. lia.
Qed.
Lemma sorted_spec ids : NoDup ids -> let s := foldr (insertSorted Z.ltb) [] ids in ascending s /\ s ≡ₚ ids.
Proof.
  induction 1 as [|i ids Hi Hd IH]; cbn; [split; [constructor | done]|]. destruct IH as [H1 H2].
  destruct (insertSorted_spec i (foldr (insertSorted Z.ltb) [] ids) H1) as [H3 H4]; [by rewrite H2|]. split; [done|]. by rewrite H4, H2.
Qed.

Lemma eraseUnit_perm h ids : h ∈ ids -> h :: eraseUnit h ids ≡ₚ ids.
Proof.
  induction ids as [|i ids IH]; intros Hh; [by apply not_elem_of_nil in Hh|]. cbn [eraseUnit]. destruct (Z.eqb_spec i h) as [->|Hne]; [done|].
  apply elem_of_cons in Hh as [->|Hh]; [done|]. rewrite <- (IH Hh) at 2. constructor.
Qed.
Lemma ensureFirst_spec top s : top ∈ selUnits s -> selUnits (ensureFirst top s) ≡ₚ selUnits s /\ head (selUnits (ensureFirst top s)) = Some top.
Proof.
  intros Ht. unfold ensureFirst. destruct (selUnits s) as [|i l] eqn:E; [by apply not_elem_of_nil in Ht|].
  destruct (Z.eqb_spec i top) as [->|Hne]; cbn [negb andb]; [by rewrite E|].
  assert (Hin : unitIsSelected top s = true).
  { unfold unitIsSelected. rewrite E. apply existsb_exists. exists top. split; [by apply list_elem_of_In | apply Z.eqb_refl]. }
  rewrite Hin. cbn [selUnits withUnits head]. split; [by apply eraseUnit_perm|done].
Qed.

Lemma only_lookup s l k i : Forall (fun i => 0 <= i < zlen l) s -> s !! k = Some i -> only s l !! k = l !! Z.to_nat i.
Proof.
  revert k. induction s as [|j s IH]; intros k Hr Hk; [done|]. apply Forall_cons in Hr as [Hj Hr]. destruct (vget_in l j Hj) as (u & Hu & _).
  unfold only. cbn. rewrite Hu. destruct k as [|k]; cbn in *; [by injection Hk as <- | by apply IH].
Qed.

(** A group of moves is added when it has a move. *)
Lemma addMoves_object m r g : object (addMoves m r g) = m.
Proof. unfold addMoves. destruct (_ >? 2); [by rewrite object_addUndo | done]. Qed.

Lemma addMoves_edits m l sel g : let b := act UnitIndexMoveBoundary in
  Changed UndoTypes.UnitChange (object g) m (b :: l) -> zlen l < 2 ^ 30 ->
  let g' := withObject (withSelections sel m) (addMoves m (group (b :: l)) g) in
  Edits UndoTypes.UnitChange g g' \/ history g' = history g /\ forall t, same t (object g) (object g').
Proof.
  intros b Hch Hl g'. unfold g', addMoves. cbv zeta. rewrite !insert_group. fold b.
  assert (Hc : Count (group ((b :: l) ++ [b])) = zlen l + 2).
  { cbn. rewrite s32_id; [|rewrite zlen_cons, zlen_app; change (zlen [b]) with 1; pose proof (zlen_nonneg l); lia].
    rewrite zlen_cons, zlen_app. change (zlen [b]) with 1. lia. }
  rewrite Hc. destruct (Z.gtb_spec (zlen l + 2) 2) as [Hgt|Hle].
  - left. rewrite addUndo_object.
    change (withObject (withSelections sel m) (withObject m g)) with (withObject (withSelections sel m) g).
    apply (changed_edits _ (object g)); [done|done| |done|].
    + eapply changed_same; [eapply (changed_snoc _ _ m m); [exact Hch | apply boundary_swaps | done]|]. intros t. apply samePart_selections.
    + rewrite zlen_app, zlen_cons. change (zlen [b]) with 1. lia.
  - right. split; [done|]. assert (l = []) as -> by (destruct l; [done|]; rewrite zlen_cons in Hle; pose proof (zlen_nonneg l); lia).
    destruct Hch as ((l' & Hs) & _ & Hf). assert (Hsame : same UndoTypes.UnitChange (object g) m).
    { apply swaps_all in Hs as (_ & _ & _ & F & _). destruct (F m ltac:(reflexivity)) as (q' & E & Hq & _). cbn in E. injection E as _ <-. exact Hq. }
    intros t. cbn [object withObject]. etransitivity; [|apply samePart_selections].
    destruct (decide (t = UndoTypes.UnitChange)) as [->|Ht]; [exact Hsame | by apply Hf].
Qed.

(** Moving the selected units to the top of the list of units puts them there,
    in their order, before all others; the selection is then the first units,
    and the first selected unit is still the first one.  It is an edit that can
    be undone, unless nothing moved. *)
Lemma moveTop_edit g : let m := object g in let ids := selUnits (selections m) in
  hasUnitSection m -> inRange m ids -> Forall (fun i => 0 <= i < 0x10000) ids -> ids <> [] -> zlen ids < 2 ^ 30 ->
  exists g' first, NotifyMoveTopPressed g = Ret g' /\
    unitsOf (object g') = only (foldr (insertSorted Z.ltb) [] ids) (unitsOf m) ++ omit 0 ids (unitsOf m) /\
    selUnits (selections (object g')) ≡ₚ range 0 (zlen ids) /\ head (selUnits (selections (object g'))) = Some first /\
    unitsOf (object g') !! Z.to_nat first = unitsOf m !! Z.to_nat (getFirstUnit (selections m)) /\
    (Edits UndoTypes.UnitChange g g' \/ history g' = history g /\ forall t, same t (object g) (object g')).
Proof.
  intros m ids Hm [Hd Hr] H16 Hne Hlen. set (s := foldr (insertSorted Z.ltb) [] ids).
  destruct (sorted_spec ids Hd) as [Hs Hperm]. fold s in Hs, Hperm. set (m1 := onSelections (sortUnits true) m).
  set (f := getFirstUnit (selections m)).
  assert (Hf : f ∈ s) by (rewrite Hperm; unfold f, getFirstUnit; fold ids; destruct ids; [done | by left]).
  assert (Hzs : zlen s = zlen ids) by (unfold zlen; by rewrite Hperm).
  assert (Hg : Gathered (unitsOf m) f [] s m1 f).
  { split; [done | done | | by right]. change (unitsOf m1) with (unitsOf m). by rewrite omit_nil. }
  assert (Hch : Changed UndoTypes.UnitChange m m1 [act UnitIndexMoveBoundary]).
  { apply (changed_snoc _ m m1 m1 [] _ UnitIndexMoveBoundary); [|apply boundary_swaps|done].
    eapply changed_same; [apply changed_nil|]. intros t. apply samePart_selections. }
  destruct (moveTop_loop (unitsOf m) f s [] m m1 [act UnitIndexMoveBoundary] f Hs) as (m2 & l & top & E & Hch2 & Hl & Hg2);
    [cbn [app]; by rewrite Hperm | cbn [app]; by rewrite Hperm | done | exact Hch|]. cbn [app] in *.
  change (zlen (@nil Z)) with 0 in E. destruct Hg2 as [Hm2 Esel Eun Htop]. rewrite app_nil_r in Esel. destruct Htop as [[Ht Hft]|[_ Ht]]; [|by apply not_elem_of_nil in Ht].
  unfold NotifyMoveTopPressed. fold m m1 f. change (zlen (selUnits (selections m1))) with (zlen s).
  change (Insert (act UnitIndexMoveBoundary) Make) with (group [act UnitIndexMoveBoundary]).
  change (for_each _ (range 0 (zlen s)) ?st) with (for_each topBody (range 0 (zlen s)) st). rewrite E. cbn [obind].
  set (m3 := onSelections (ensureFirst top) m2). exists (withObject m3 (addMoves m2 (group (act UnitIndexMoveBoundary :: l)) g)), top.
  rewrite addMoves_object. cbn [object withObject]. change (unitsOf m3) with (unitsOf m2).
  change (selections m3) with (ensureFirst top (selections m2)).
  destruct (ensureFirst_spec top (selections m2)) as [Hp Hh].
  { rewrite Esel, elem_of_range. lia. }
  split; [done|]. split; [|split; [by rewrite Hp, Esel, Hzs|split; [done|split]]].
  - rewrite Eun. f_equal. apply omit_ext. intros j _. by rewrite Hperm.
  - assert (Hrs : Forall (fun i => 0 <= i < zlen (unitsOf m)) s) by (by rewrite Hperm).
    rewrite Eun, lookup_app_l; [by apply only_lookup|]. pose proof (only_length s (unitsOf m) Hrs) as Ho. unfold zlen in *. lia.
  - apply addMoves_edits; [exact Hch2 | lia].
Qed.

(** ** Fields of a location *)







(** ** Commands *)




(** The selected units are in the list, and the fields of all units fit. *)
Definition unitsReady (m : GuiMap) : Prop :=
  hasUnitSection m /\ inRange m (selUnits (selections m)) /\ Forall (fun i => 0 <= i < 0x10000) (selUnits (selections m)) /\
  zlen (selUnits (selections m)) < 2 ^ 30 /\ Forall (fun u => is_u 8 (Unit.owner u) /\ is_u 16 (Unit.stateFlags u)) (unitsOf m).




(** ** Selecting all tiles *)

(** The selected tiles with some more. *)
Definition moreTiles (m m' : GuiMap) : Prop := selTiles (selections m) `prefix_of` selTiles (selections m').
#[export] Instance moreTiles_preorder : PreOrder moreTiles.
Proof. split; [by intros m; unfold moreTiles | intros m1 m2 m3; unfold moreTiles; by etransitivity]. Qed.

Lemma selectTile_more x y side m m' : selectTile x y side m = Ret m' ->
  moreTiles m m' /\ exists t, selTiles (selections m') = selTiles (selections m) ++ [t] /\ coords t = (u16 x, u16 y).
Proof.
  unfold selectTile. intros (v & _ & [= <-])%bind_inv. split; [by eexists|]. by eexists.
Qed.

Lemma for_each_more {A} (f : A -> GuiMap -> outcome GuiMap) l m m' :
  (forall a m m', f a m = Ret m' -> moreTiles m m') -> for_each f l m = Ret m' -> moreTiles m m'.
Proof.
  intros Hf. revert m. induction l as [|a l IH]; intros m; cbn; [by intros [= <-]|].
  intros (m1 & E1 & E)%bind_inv. etransitivity; [by eapply Hf | by apply IH].
Qed.

Lemma selectRow_more width y m m' : selectRow width y m = Ret m' -> moreTiles m m'.
Proof.
  unfold selectRow. intros (m1 & E1 & E)%bind_inv. apply bind_inv in E as (m2 & E2 & E3).
  apply selectTile_more in E1 as [E1 _]. apply selectTile_more in E3 as [E3 _]. etransitivity; [exact E1|]. etransitivity; [|exact E3].
  eapply for_each_more; [|exact E2]. intros x m3 m4 Hx. by apply selectTile_more in Hx as [Hx _].
Qed.

(** Selecting all tiles of a map of two rows or more selects its first row twice:
    once as the first row and once with the rows in the middle. *)
Theorem selectAll_twice m m' width height :
  TerrainClass.getTileWidth (layersOf m) = Ret width -> TerrainClass.getTileHeight (layersOf m) = Ret height ->
  1 <= width < 2 ^ 16 -> 2 <= height < 2 ^ 16 -> selectAllTiles m = Ret m' -> ~ bordered (selTiles (selections m')).
Proof.
  intros Ew Eh Hw Hh. unfold selectAllTiles. set (m0 := if hasTiles (selections m) then _ else m).
  assert (layersOf m0 = layersOf m) as -> by (unfold m0; by case_match). rewrite Ew, Eh. cbn [obind].
  rewrite !u16_id by (unfold is_u; lia).
  assert (Hmore : forall x y side m m', selectTile x y side m = Ret m' -> moreTiles m m') by (intros ????? H; by apply selectTile_more in H as [H _]).
  intros (m1 & E1 & E)%bind_inv. apply bind_inv in E as (m2 & E2 & E). apply bind_inv in E as (m3 & E3 & E). apply bind_inv in E as (m4 & E4 & E5).
  apply Hmore in E3, E5. apply for_each_more in E4; [|intros; by eapply Hmore].
  rewrite range_cons in E1 by lia. cbn [for_each] in E1. apply bind_inv in E1 as (n1 & F1 & E1). apply for_each_more in E1; [|intros; by eapply Hmore].
  rewrite range_cons in E2 by lia. cbn [for_each] in E2. apply bind_inv in E2 as (n2 & F2 & E2). apply for_each_more in E2; [|intros; by eapply selectRow_more].
  unfold selectRow in F2. apply bind_inv in F2 as (n3 & F3 & F2). apply bind_inv in F2 as (n4 & F4 & F2).
  apply for_each_more in F4; [|intros; by eapply Hmore]. apply Hmore in F2.
  apply selectTile_more in F1 as (_ & t1 & T1 & C1). apply selectTile_more in F3 as (_ & t2 & T2 & C2).
  assert (H : moreTiles n3 m') by (do 5 (etransitivity; [eassumption|]); done).
  intros [Hd _]. destruct E1 as [l1 L1]. destruct H as [l2 L2]. rewrite L2, T2, L1, T1, !fmap_app in Hd. cbn [fmap list_fmap] in Hd.
  rewrite C1, C2 in Hd. apply NoDup_app in Hd as (Hd & _). apply NoDup_app in Hd as (_ & Hd & _).
  apply (Hd (u16 0, u16 0)); [|by apply list_elem_of_singleton]. rewrite !elem_of_app, list_elem_of_singleton. tauto.
Qed.

(** ** A map to try them on *)

Definition sampleMap : GuiMap := mkGuiMap
  (mkLayers None (Some (DIM.mkDIM 3 2)) (Some [1; 1; 2; 2; 1; 1]) (Some [1; 1; 2; 2; 1; 1]) None None None None
     (Some [sampleUnit 1; sampleUnit 2; sampleUnit 3]) None)
  names_sample (withUnits [2; 1] newSelections).
Definition sampleSession : Session := mkEditing sampleMap newUndos false false.

Lemma selectAll_twice_witness : exists m', selectAllTiles sampleMap = Ret m' /\ ~ bordered (selTiles (selections m')).
Proof.
  assert (exists m', selectAllTiles sampleMap = Ret m') as [m' E] by (vm_compute; by eexists).
  exists m'. split; [exact E|]. by apply (selectAll_twice sampleMap m' 3 2).
Defined.

Lemma sample_ready : unitsReady sampleMap.
Proof.
  split; [by eexists|]. split; [split; [repeat constructor; set_solver|]|].
  - repeat constructor; cbn; lia.
  - split; [repeat constructor; cbn; lia|]. split; [done|]. repeat constructor; done.
Qed.

(** C38: Moving the selected units to the top of the list puts them there, in the
    order they had, before all others; the selection is then the first units,
    the first selected unit is still the first one, and the move can be undone. *)
Theorem moveTop_spec g : let m := object g in let ids := selUnits (selections m) in
  hasUnitSection m -> inRange m ids -> Forall (fun i => 0 <= i < 0x10000) ids -> ids <> [] -> zlen ids < 2 ^ 30 ->
  exists g' first, NotifyMoveTopPressed g = Ret g' /\
    unitsOf (object g') = only (foldr (insertSorted Z.ltb) [] ids) (unitsOf m) ++ omit 0 ids (unitsOf m) /\
    selUnits (selections (object g')) ≡ₚ range 0 (zlen ids) /\ head (selUnits (selections (object g'))) = Some first /\
    unitsOf (object g') !! Z.to_nat first = unitsOf m !! Z.to_nat (getFirstUnit (selections m)) /\
    (Edits UndoTypes.UnitChange g g' \/ history g' = history g /\ forall t, same t (object g) (object g')).
Proof. apply moveTop_edit. Qed.

Lemma moveTop_spec_witness : exists g' first, NotifyMoveTopPressed sampleSession = Ret g' /\
  unitsOf (object g') = [sampleUnit 2; sampleUnit 3; sampleUnit 1] /\
  head (selUnits (selections (object g'))) = Some first /\ unitsOf (object g') !! Z.to_nat first = Some (sampleUnit 3).
Proof.
  destruct sample_ready as (Hm & Hr & H16 & Hz & _).
  destruct (moveTop_spec sampleSession Hm Hr H16 ltac:(done) Hz) as (g' & first & E & Hu & _ & Hh & Hf & _).
  exists g', first. split; [exact E|]. split; [exact Hu|]. split; [exact Hh | exact Hf].
Defined.


(** A history with one edit, of the owner of a unit. *)
Definition recolored : GuiMap := withUnitsOf (<[2%nat := setUnitField Owner 3 (sampleUnit 3)]> (unitsOf sampleMap)) sampleMap.
Lemma recolored_edit : Edits UndoTypes.UnitChange sampleSession (addUndo (act (UnitChange 2 Owner 0)) (withObject recolored sampleSession)).
Proof.
  eapply edits_intro; [done | done | by apply (unit_change_swaps 2 Owner 3 (sampleUnit 3) sampleMap); [by eexists | | | | ] | by apply samePart_units].
Qed.
Lemma undos_are_timelines_witness : exists g T N, History g T N /\ unitsOf (object g) !! 2%nat = Some (setUnitField Owner 3 (sampleUnit 3)) /\
  unsavedChanges g = true /\ exists g', undo UndoTypes.UnitChange g = Ret g' /\ unitsOf (object g') = unitsOf sampleMap.
Proof.
  pose proof (edits_history UndoTypes.UnitChange _ _ _ _ (started sampleMap) ltac:(done) recolored_edit) as H.
  set (g := addUndo _ _) in H. destruct (undos_are_timelines g _ _ H) as (_ & Hu & _ & Hc).
  eexists g, _, _. split; [exact H|]. split; [done|]. split; [apply Hc; right; exists UndoTypes.UnitChange; by rewrite fn_lookup_insert|].
  destruct (Hu UndoTypes.UnitChange ltac:(done)) as (g' & E & Hs). exists g'. split; [exact E|].
  specialize (Hs UndoTypes.UnitChange ltac:(done)). rewrite decide_True, fn_lookup_insert in Hs by done.
  change (unit (layers sampleMap) = unit (layers (object g'))) in Hs. unfold unitsOf. by rewrite <- Hs.
Defined.

Lemma selection_follows_units_witness : exists m1 m2, Reverse (UnitIndexMove 0 2) sampleMap = Ret (UnitIndexMove 2 0, m1) /\
  Reverse UnitIndexMoveBoundary m1 = Ret (UnitIndexMoveBoundary, m2) /\
  Forall2 (fun i i' => 0 <= i' < zlen (unitsOf m2) /\ unitsOf m2 !! Z.to_nat i' = unitsOf sampleMap !! Z.to_nat i)
    [2; 1] (selUnits (selections m2)).
Proof.
  apply (selection_follows_units 0 2 sampleMap); change (zlen (unitsOf sampleMap)) with 3; [by eexists | lia | lia | lia|].
  change (selUnits (selections sampleMap)) with [2; 1]. repeat constructor; lia.
Defined.
