(* ===== verification/EditorUndoProps.v ===== *)
(** Where undoing and redoing in the editor do not lead back (ChkdraftLib:
    Undos.cpp, UnitProperties.cpp, GuiMap.cpp): stale redos, the move of the last
    unit down, and deleted locations. *)
From S2P Require Import Prelude Codec ChkTypes ChkSection Accessors StringUsers Objects Locations Triggers TriggerStrings TriggerProps StringTable StrSection ScenarioStrings ScenarioProps Kstr ScenarioLayers ScenarioNames ScenarioNamesProps Selections SelectionsProps EditorUndos EditorHistory EditorActions EditorActionsProps EditorCommands EditorCommandsProps.
Open Scope Z_scope.

(** ** The last undo and the last redo *)

Section last.
Context (t : Z) (r : Changes) (g : Session).
Hypotheses (Htype : getType r = t) (Hcount : 0 < Count r).

Lemma added_history : undos (history (addUndo r g)) = r :: undos (history g) /\
  redos (history (addUndo r g)) = redos (history g).
Proof.
  unfold addUndo, AddUndo. rewrite (proj2 (Z.gtb_lt _ _)) by done. unfold AdjustChangeCount. cbn [undos redos changeCounters].
  match goal with |- context [observe ?n ?h] => destruct (observed n h) as [_ ->] end. done.
Qed.

(** The undo that was added last is the one that is undone. *)
Lemma undo_added : match reverse r (object g) with
  | Ret (r', o) => exists g', undo t (addUndo r g) = Ret g' /\ object g' = o /\ redos (history g') = r' :: redos (history g)
  | Throw e => undo t (addUndo r g) = Throw e
  | Undef => undo t (addUndo r g) = Undef
  end.
Proof.
  destruct added_history as [Hu Hr]. unfold undo, doUndo. rewrite Hu, object_addUndo. cbn [pop]. rewrite Htype, Z.eqb_refl.
  destruct (reverse r (object g)) as [[r' o]| |]; cbn [obind]; [|done..]. unfold AdjustChangeCount. cbn [undos redos changeCounters obind].
  eexists. split; [reflexivity|].
  match goal with |- context [observe ?n ?h] => destruct (observed n h) as [-> ->] end. cbn. by rewrite Hr.
Qed.
End last.

(** A redo whose reversal is undefined. *)
Lemma redo_undef t r rest (g : Session) : redos (history g) = r :: rest -> getType r = t -> reverse r (object g) = Undef ->
  redo t g = Undef.
Proof. intros Hr Ht E. unfold redo, doRedo. rewrite Hr. cbn [pop]. by rewrite Ht, Z.eqb_refl, E. Qed.

(** ** Deleting one unit *)

Definition selectingUnits (ids : list Z) (g : Session) : Session := withObject (onSelections (withUnits ids) (object g)) g.

Lemma deleteUnits_one i u g : hasUnitSection (object g) -> 0 <= i < 2 ^ 16 -> unitsOf (object g) !! Z.to_nat i = Some u ->
  deleteUnits (selectingUnits [i] g) =
  Ret (addUndo (group [act (UnitCreateDel i (Some u))])
         (withObject (withUnitsOf (delete (Z.to_nat i) (unitsOf (object g))) (onSelections (withUnits []) (object g))) g)).
Proof.
  intros Hs Hi Hu. unfold deleteUnits. cbn [selectingUnits withObject object selections onSelections withSelections selUnits withUnits length deleteUnitsLoop].
  change (hasUnits _) with true at 1. cbv iota. unfold getHighestIndex. cbn [selUnits withUnits fold_left].
  rewrite (proj2 (Z.gtb_lt i (-1))), u16_id by (unfold is_u; lia).
  assert (onSelections (removeUnit i) (onSelections (withUnits [i]) (object g)) = onSelections (withUnits []) (object g)) as ->
    by (unfold onSelections, removeUnit, withSelections; cbn; by rewrite Z.eqb_refl).
  set (m := onSelections (withUnits []) (object g)). assert (Hm : hasUnitSection m) by exact Hs. rewrite getUnit_of by done.
  change (unitsOf m) with (unitsOf (object g)). unfold UnitSection.getUnit, get_object. rewrite (vget_Some _ i u ltac:(lia) Hu). cbn [obind].
  unfold LayersClass.deleteUnit. rewrite unit_part_of by done. change (unitsOf m) with (unitsOf (object g)).
  pose proof (lookup_lt_Some _ _ _ Hu). unfold UnitSection.deleteUnit, delete_object.
  rewrite (proj2 (Z.ltb_lt _ _)), verase_in by (unfold zlen; lia). cbn [obind]. done.
Qed.

(** ** Moving the last unit down *)

Lemma moveDown_last n g : hasUnitSection (object g) -> n = zlen (unitsOf (object g)) -> 1 <= n < 2 ^ 16 - 1 ->
  NotifyMoveDownPressed (selectingUnits [n - 1] g) =
  Ret (addUndo (group [act UnitIndexMoveBoundary; act (UnitIndexMove (n - 1) n); act UnitIndexMoveBoundary])
         (withObject (onSelections (withUnits [n]) (object g)) g)).
Proof.
  intros Hs Hn Hr. unfold NotifyMoveDownPressed.
  assert (onSelections (sortUnits false) (object (selectingUnits [n - 1] g)) = onSelections (withUnits [n - 1]) (object g)) as -> by done.
  set (m := onSelections (withUnits [n - 1]) (object g)). assert (Hm : hasUnitSection m) by exact Hs.
  change (selUnits (selections m)) with [n - 1]. change (zlen [n - 1]) with 1. change (range 0 1) with [0]. cbn [for_each].
  change (vget (selUnits (selections m)) 0) with (Ret (n - 1)). cbn [obind].
  assert (LayersClass.numUnits (layersOf m) = Ret n) as ->.
  { destruct Hs as [us E]. unfold LayersClass.numUnits, ask. unfold unitsOf in Hn. rewrite E in Hn. cbn. rewrite E. cbn. by rewrite Hn. }
  cbn [obind]. rewrite (proj2 (Z.ltb_lt _ _)) by lia. replace (n - 1 + 1) with n by lia. rewrite u16_id by (unfold is_u; lia).
  unfold unitIsSelected. change (selUnits (selections m)) with [n - 1]. cbn [existsb]. rewrite (proj2 (Z.eqb_neq (n - 1) n)) by lia. cbn [orb negb andb].
  unfold LayersClass.moveUnit. rewrite unit_part_of by done. unfold UnitSection.moveUnit, move_object.
  change (unitsOf m) with (unitsOf (object g)). rewrite Z.max_r, <- Hn, Z.ltb_irrefl by lia. cbn [andb obind].
  change (unitsOf (object g)) with (unitsOf m). rewrite withUnitsOf_id by done. unfold setSelected. by cbn [obind].
Qed.

Lemma moveDown_dangles n (m : GuiMap) : hasUnitSection m -> n = zlen (unitsOf m) ->
  reverse (group [act UnitIndexMoveBoundary; act (UnitIndexMove (n - 1) n); act UnitIndexMoveBoundary]) m = Undef.
Proof.
  intros Hm Hn. cbn [reverse group backward act Reverse map_reversing obind]. unfold reverseUnitIndexMove.
  rewrite getUnit_of by exact Hm. unfold UnitSection.getUnit, get_object.
  change (unitsOf (onSelections finishMove m)) with (unitsOf m). by rewrite vget_out by lia.
Qed.

(** ** Deleting a location *)

Definition selectingLocation (id : Z) (g : Session) : Session :=
  withObject (onSelections (fun s => withLocation id 0 (recentLocations s) s) (object g)) g.
Definition blankLocation : Location.Location := Location.mkLocation 0 0 0 0 0 0.

Lemma mrgn_wf_insert i l (loc loc' : Location.Location) : mrgn_wf l -> 0 < i -> l !! Z.to_nat i = Some (Some loc) ->
  cwf Location.layout loc' -> mrgn_wf (<[Z.to_nat i := Some loc']> l).
Proof.
  intros (ls & -> & Hls) Hi _ Hw. exists (<[(Z.to_nat i - 1)%nat := loc']> ls). split; [|by apply Forall_insert].
  replace (Z.to_nat i) with (S (Z.to_nat i - 1)) by lia. cbn. by rewrite list_fmap_insert, Nat.sub_0_r.
Qed.

Lemma strings_wf_mrgn st l : strings_wf st -> mrgn_wf l -> strings_wf (stringsWith l st).
Proof. intros [[] [] ? ? ?] Hl. split; [by split | by split | done..]. Qed.

(** The reversal of a creation on a location that is blank. *)
Lemma createDel_blank i st : strings_wf st -> 1 <= i <= TotalLocations ->
  ScenarioStrings.mrgn (StringsClass.users st) !! Z.to_nat i = Some (Some blankLocation) ->
  exists a st', createDel i None [] st = Ret (a, st') /\
    ScenarioStrings.mrgn (StringsClass.users st') = ScenarioStrings.mrgn (StringsClass.users st).
Proof.
  intros Hw Hi Hl. pose proof (lookup_lt_Some _ _ _ Hl) as Hlt. unfold createDel, MrgnSection.getLocation.
  rewrite (vget_Some _ i _ ltac:(lia) Hl). cbn [obind deref].
  assert (exists name, StringsClass.getLocationName i Scope.Game st = Ret name) as [name ->].
  { unfold StringsClass.getLocationName, MrgnSection.numLocations, MrgnSection.getLocation.
    rewrite !(proj2 (Z.gtb_lt _ _)), (proj2 (Z.leb_le _ _)) by (unfold zlen; lia). cbn [andb].
    rewrite (vget_Some _ i _ ltac:(lia) Hl). cbn [obind deref blankLocation Location.stringId].
    destruct (wf_editor _ Hw) as [Ho _]. pose proof (member_zlen OSTR.layout OSTR.locationName u32c TotalLocations _ Ho) as Hz.
    unfold OstrSection.getLocationNameStringId. rewrite (proj2 (Z.gtb_lt _ _)), (proj2 (Z.leb_le _ _)) by lia. cbn [andb].
    destruct (vget_in (OSTR.locationName (ScenarioStrings.ostr (StringsClass.users st))) (i - 1)) as (e & _ & ->); [lia|]. cbn [obind].
    change (StringsClass.getEitherString 0 e Scope.Game st) with (StringTable.getString (StrSection.strings (StringsClass.str st)) 0).
    unfold StringTable.getString. pose proof (wf_str _ Hw). rewrite (proj2 (Z.ltb_lt _ _)) by lia.
    destruct (vget_in (StrSection.strings (StringsClass.str st)) 0) as (s & _ & ->); [lia|]. cbn [obind]. by eexists. }
  cbn [obind]. rewrite trig_loc_used by apply (wf_trig _ (wf_game _ Hw)). cbn [obind].
  assert (Hdel : (if bool_decide (i ∈ trig_locs (ScenarioStrings.trig (StringsClass.users st)))
    then Ret (ScenarioStrings.mrgn (StringsClass.users st)) else MrgnSection.deleteLocation (ScenarioStrings.mrgn (StringsClass.users st)) i) =
    Ret (ScenarioStrings.mrgn (StringsClass.users st))).
  { case_bool_decide; [done|]. unfold MrgnSection.deleteLocation. rewrite (proj2 (Z.gtb_lt _ _)), (proj2 (Z.ltb_lt _ _)) by (unfold zlen; lia). cbn [andb].
    rewrite (vget_Some _ i _ ltac:(lia) Hl). cbn [obind deref]. rewrite vset_in by (unfold zlen; lia). f_equal. by apply list_insert_id. }
  rewrite Hdel. cbn [obind]. assert (stringsWith (ScenarioStrings.mrgn (StringsClass.users st)) st = st) as -> by (destruct st as [? ? [] ?]; done).
  destruct (deleteUnused_scoped st Scope.Both Hw) as (st' & -> & Hu & _); [set_solver|]. cbn [obind]. do 2 eexists. split; [reflexivity|]. by rewrite Hu.
Qed.

Lemma location_lost i loc g : locationIs i loc (object g) -> 1 <= i <= TotalLocations -> Location.stringId loc = 0 ->
  strings_wf (strings (object g)) -> recentLocations (selections (object g)) <> [] ->
  exists g1 g2, deleteSelectedLocation (selectingLocation i g) = Ret g1 /\ undo UndoTypes.LocationChange g1 = Ret g2 /\
    locationIs i blankLocation (object g2).
Proof.
  intros Hl Hi Hs Hw Hrec. unfold deleteSelectedLocation. set (g0 := selectingLocation i g).
  change (selectedLocation (selections (object g0))) with i. rewrite (proj2 (Z.eqb_neq i NO_LOCATION)) by (unfold NO_LOCATION, TotalLocations in *; lia). cbn [negb].
  assert (Hl0 : locationIs i loc (object g0)) by exact Hl. pose proof Hl0 as [_ Hlook].
  assert (LayersClass.getLocation i (layersOf (object g0)) = Ret (Some loc)) as -> by (unfold LayersClass.getLocation, ask; cbn; by apply vget_Some; [lia|]).
  cbn [obind]. set (r := act (LocationCreateDel i None [])). unfold onMap. rewrite object_addUndo, (updateLocation_at i clearedLocation loc) by done. cbn [obind].
  rewrite Hs. cbn [Z.gtb Z.compare obind].
  unfold selectLocationIndex. set (m1 := withLocationAt i (clearedLocation loc) (object g0)).
  assert (Hc : clearedLocation loc = blankLocation) by (by destruct loc).
  destruct (recentLocations (selections (object g))) as [|x rest] eqn:Er; [done|].
  assert (exists recent, vset (recentLocations (selections m1)) 0 (u8 NO_LOCATION) = Ret recent) as [recent Erec].
  { change (recentLocations (selections m1)) with (recentLocations (selections (object g))). rewrite Er. by eexists. }
  change (selections (object (withObject m1 (addUndo r g0)))) with (selections m1). rewrite Erec. cbn [obind].
  change (object (withObject m1 (addUndo r g0))) with m1. set (m2 := withSelections _ m1).
  assert (withObject m2 (withObject m1 (addUndo r g0)) = addUndo r (withObject m2 g0)) as -> by (change (withObject m2 (withObject m1 (addUndo r g0))) with (withObject m2 (addUndo r g0)); apply addUndo_object).
  eexists. pose proof (undo_added UndoTypes.LocationChange r (withObject m2 g0) eq_refl ltac:(done)) as Hundo.
  cbn [reverse r act Reverse map_reversing object withObject] in Hundo. rewrite location_create_reverse in Hundo.
  destruct Hl0 as [Hi0 _]. pose proof (locationIs_with i loc blankLocation (object g0) Hl) as [_ Hblank].
  destruct (createDel_blank i (strings m2)) as (a & st' & E & Hmr).
  - change (strings m2) with (stringsWith (<[Z.to_nat i := Some (clearedLocation loc)]> (locationsOf (object g0))) (strings (object g))).
    apply strings_wf_mrgn; [done|]. apply (mrgn_wf_insert i _ loc); [apply (wf_mrgn _ (wf_game _ Hw)) | lia | exact Hlook|]. rewrite Hc. solve_default.
  - done.
  - rewrite <- Hc in Hblank. rewrite <- Hc. exact Hblank.
  - rewrite E in Hundo. cbn [obind] in Hundo. destruct Hundo as (g2 & E2 & Ho & _). exists g2. split; [reflexivity|]. split; [exact E2|].
    split; [done|]. rewrite Ho. change (locationsOf (withStrings st' m2)) with (ScenarioStrings.mrgn (StringsClass.users st')). rewrite Hmr.
    rewrite <- Hc in Hblank. rewrite <- Hc. exact Hblank.
Qed.

(** ** The three cases *)

(** C40: Three cases where undoing and redoing do not lead back, whatever the history
    is.  In a map of [n] units: moving the last one down does not move it, but
    makes an undo that reads past the units.  Adding an undo does not clear the
    redos: after the last unit is deleted, the deletion undone and the unit deleted
    again, a redo acts on a unit that is not there.  And, where the strings are well formed, a location without a name
    that is deleted is blank after the undo as well, whatever it was, since its
    undo is the one of a created location. *)
Theorem undo_failures (g : Session) (n : Z) :
  hasUnitSection (object g) -> n = zlen (unitsOf (object g)) -> 1 <= n < 2 ^ 16 - 1 ->
  (exists g1, NotifyMoveDownPressed (selectingUnits [n - 1] g) = Ret g1 /\ unitsOf (object g1) = unitsOf (object g) /\
     undo UndoTypes.UnitChange g1 = Undef) /\
  (exists g1 g2 g3, deleteUnits (selectingUnits [n - 1] g) = Ret g1 /\ undo UndoTypes.UnitChange g1 = Ret g2 /\
     unitsOf (object g2) = unitsOf (object g) /\ deleteUnits (selectingUnits [n - 1] g2) = Ret g3 /\
     redo UndoTypes.UnitChange g3 = Undef) /\
  (forall i loc, locationIs i loc (object g) -> 1 <= i <= TotalLocations -> Location.stringId loc = 0 ->
     strings_wf (strings (object g)) -> recentLocations (selections (object g)) <> [] ->
     exists g1 g2, deleteSelectedLocation (selectingLocation i g) = Ret g1 /\ undo UndoTypes.LocationChange g1 = Ret g2 /\
       locationIs i blankLocation (object g2)).
Proof.
  intros Hs Hn Hr. split; [|split; [|intros i loc; apply location_lost]].
  - eexists. split; [by apply moveDown_last|]. rewrite object_addUndo. split; [done|].
    pose proof (undo_added UndoTypes.UnitChange (group [act UnitIndexMoveBoundary; act (UnitIndexMove (n - 1) n); act UnitIndexMoveBoundary])
      (withObject (onSelections (withUnits [n]) (object g)) g) eq_refl eq_refl) as H.
    by rewrite moveDown_dangles in H.
  - destruct (vget_in (unitsOf (object g)) (n - 1)) as (u & Hu & _); [lia|].
    set (m1 := withUnitsOf (delete (Z.to_nat (n - 1)) (unitsOf (object g))) (onSelections (withUnits []) (object g))).
    destruct (placed_deleted (n - 1) u (unitsOf (object g)) ltac:(lia) Hu) as [Hp Hz].
    destruct (unit_create_at (n - 1) u m1 ltac:(by eexists) Hz) as (Ein & _).
    pose proof (undo_added UndoTypes.UnitChange (group [act (UnitCreateDel (n - 1) (Some u))]) (withObject m1 g) eq_refl eq_refl) as H.
    cbn [reverse group backward act Reverse map_reversing reverseUnitCreateDel object withObject obind] in H. rewrite Ein in H. cbn [obind] in H.
    destruct H as (g2 & Eu & Ho & Hredos).
    assert (Hback : unitsOf (object g2) = unitsOf (object g)) by (rewrite Ho; change (unitsOf m1) with (delete (Z.to_nat (n - 1)) (unitsOf (object g))); by rewrite Hp).
    eexists _, g2, _. split; [by apply (deleteUnits_one (n - 1) u); [done | lia | done]|]. split; [exact Eu|]. split; [exact Hback|].
    split; [apply (deleteUnits_one (n - 1) u); [rewrite Ho; by eexists | lia | by rewrite Hback]|].
    eapply redo_undef; [rewrite (proj2 (added_history (group [act (UnitCreateDel (n - 1) (Some u))]) _ eq_refl)); exact Hredos | done|].
    rewrite object_addUndo. cbn [reverse negb forward act Reverse map_reversing reverseUnitCreateDel object withObject].
    rewrite getUnit_of by (by eexists). rewrite unitsOf_with, Hback. unfold UnitSection.getUnit, get_object. rewrite vget_out; [done|].
    unfold zlen. rewrite length_delete by (by eexists). unfold zlen in Hn. lia.
Qed.

(** The map of the samples with a location that has no name. *)
Definition unnamedSession : Session := withObject (withLocationAt 1 (Location.mkLocation 0 0 64 64 0 0) sampleMap) sampleSession.

Lemma undo_failures_witness :
  (exists g1, NotifyMoveDownPressed (selectingUnits [2] unnamedSession) = Ret g1 /\ undo UndoTypes.UnitChange g1 = Undef) /\
  exists g1 g2, deleteSelectedLocation (selectingLocation 1 unnamedSession) = Ret g1 /\ undo UndoTypes.LocationChange g1 = Ret g2 /\
    locationIs 1 blankLocation (object g2).
Proof.
  destruct (undo_failures unnamedSession 3) as ((g1 & E1 & _ & E2) & _ & Hl); [by eexists | reflexivity | lia|].
  split; [exists g1; split; [exact E1 | exact E2]|].
  apply (Hl 1 (Location.mkLocation 0 0 64 64 0 0)); [split; [lia | reflexivity] | unfold TotalLocations; lia | reflexivity | | discriminate].
  apply strings_wf_mrgn; [apply names_sample_wf|].
  apply (mrgn_wf_insert 1 _ (Location.mkLocation 0 0 64 64 3 0)); [apply (wf_mrgn _ (wf_game _ names_sample_wf)) | lia | reflexivity | solve_default].
Defined.
