(* ===== verification/EditorClipboard.v ===== *)
(** The clipboard of the editor (ChkdraftLib, Clipboard.cpp): copying the
    selected tiles or units, and pasting them, with the option to fill a region
    of equal tiles.

    Coordinates on the map are pixels, which stay far from the limits of an s32;
    [/] is the division of C++, which truncates.  [unitSize] gives the extent of
    a type of unit in the four directions, which the data files of the game
    have.  The text clipboard of Windows is left out. *)
From S2P Require Import Prelude Codec ChkTypes ChkSection Objects Locations Triggers StringTable ScenarioStrings ScenarioLayers ScenarioNames Selections EditorUndos EditorActions EditorCommands.
Open Scope Z_scope.

Record PasteTileNode := mkPasteTileNode { tileValue : Z; tileXc : Z; tileYc : Z; tileNeighbors : Z }.
(** The node has a unit of its own. *)
Record PasteUnitNode := mkPasteUnitNode { pasteUnit : Unit.Unit; unitXc : Z; unitYc : Z }.
Definition newPasteUnitNode (unit : Unit.Unit) : PasteUnitNode := mkPasteUnitNode unit (Unit.xc unit) (Unit.yc unit).

Record Rect := mkRect { rectLeft : Z; rectTop : Z; rectRight : Z; rectBottom : Z }.
Definition noRect : Rect := mkRect (-1) (-1) (-1) (-1).

Record Clipboard := mkClipboard {
  pasting : bool;
  quickPaste : bool;
  fillSimilarTiles : bool;
  edges : Rect;
  copyTiles : list PasteTileNode;
  quickTiles : list PasteTileNode;
  copyUnits : list PasteUnitNode;
  quickUnits : list PasteUnitNode;
  prevPaste : Z * Z
}.

Definition newClipboard : Clipboard := mkClipboard false false false noRect [] [] [] [] (-1, -1).

Definition withCopyTiles (tiles : list PasteTileNode) (e : Rect) (c : Clipboard) : Clipboard :=
  mkClipboard (pasting c) (quickPaste c) (fillSimilarTiles c) e tiles (quickTiles c) (copyUnits c) (quickUnits c) (prevPaste c).
Definition withCopyUnits (units : list PasteUnitNode) (e : Rect) (c : Clipboard) : Clipboard :=
  mkClipboard (pasting c) (quickPaste c) (fillSimilarTiles c) e (copyTiles c) (quickTiles c) units (quickUnits c) (prevPaste c).
Definition withQuick (tiles : list PasteTileNode) (units : list PasteUnitNode) (c : Clipboard) : Clipboard :=
  mkClipboard (pasting c) (quickPaste c) (fillSimilarTiles c) (edges c) (copyTiles c) tiles (copyUnits c) units (prevPaste c).
Definition withPasting (pasting quickPaste : bool) (prevPaste : Z * Z) (c : Clipboard) : Clipboard :=
  mkClipboard pasting quickPaste (fillSimilarTiles c) (edges c) (copyTiles c) (quickTiles c) (copyUnits c) (quickUnits c) prevPaste.
Definition withPrevPaste (p : Z * Z) (c : Clipboard) : Clipboard := withPasting (pasting c) (quickPaste c) p c.

Definition hasCopiedTiles (c : Clipboard) : bool := zlen (copyTiles c) >? 0.
Definition hasCopiedUnits (c : Clipboard) : bool := zlen (copyUnits c) >? 0.
Definition hasQuickTiles (c : Clipboard) : bool := zlen (quickTiles c) >? 0.
Definition hasQuickUnits (c : Clipboard) : bool := zlen (quickUnits c) >? 0.
Definition isQuickPasting (c : Clipboard) : bool := pasting c && quickPaste c.
Definition isPreviousPasteLoc (x y : Z) (c : Clipboard) : bool := (x =? (prevPaste c).1) && (y =? (prevPaste c).2).

Definition ClearCopyTiles : Clipboard -> Clipboard := withCopyTiles [] noRect.
Definition ClearCopyUnits : Clipboard -> Clipboard := withCopyUnits [] noRect.
Definition ClearQuickItems : Clipboard -> Clipboard := withQuick [] [].

(** ** Copying *)

(** The edges are moved out to a tile or unit: the second comparison of each
    pair is made only when the first fails. *)
Definition extended (left top right bottom : Z) (e : Rect) : Rect :=
  let '(l, r) := if left <? rectLeft e then (left, rectRight e)
                 else (rectLeft e, if right >? rectRight e then right else rectRight e) in
  let '(t, b) := if top <? rectTop e then (top, rectBottom e)
                 else (rectTop e, if bottom >? rectBottom e then bottom else rectBottom e) in
  mkRect l t r b.
Definition middle (e : Rect) : Z * Z :=
  (rectLeft e + Z.quot (rectRight e - rectLeft e) 2, rectTop e + Z.quot (rectBottom e - rectTop e) 2).

Definition copyTerrain (s : Selections) (c : Clipboard) : Clipboard :=
  let c := ClearCopyTiles c in
  if hasTiles s then
    let firstTile := getFirstTile s in
    let e := mkRect (xc firstTile * 32) (yc firstTile * 32) (xc firstTile * 32 + 32) (yc firstTile * 32 + 32) in
    let '(e, tiles) := fold_left (fun '(e, tiles) selTile =>
        let tile := mkPasteTileNode (value selTile) (xc selTile * 32) (yc selTile * 32) (neighbors selTile) in
        (extended (tileXc tile) (tileYc tile) (tileXc tile + 32) (tileYc tile + 32) e, tiles ++ [tile]))
      (selTiles s) (e, copyTiles c) in
    let mid := middle e in
    withCopyTiles ((fun t => mkPasteTileNode (tileValue t) (tileXc t - mid.1) (tileYc t - mid.2) (tileNeighbors t)) <$> tiles) e c
  else c.

Definition copyUnitsOf (m : GuiMap) (c : Clipboard) : outcome Clipboard :=
  let c := ClearCopyUnits c in
  let s := selections m in
  if hasUnits s then
    let* currUnit := LayersClass.getUnit (getFirstUnit s) (layersOf m) in
    let e := mkRect (Unit.xc currUnit) (Unit.yc currUnit) (Unit.xc currUnit) (Unit.yc currUnit) in
    let* (e, units) := for_each (fun unitIndex '(e, units) =>
        let* currUnit := LayersClass.getUnit unitIndex (layersOf m) in
        let add := newPasteUnitNode currUnit in
        Ret (extended (unitXc add) (unitYc add) (unitXc add) (unitYc add) e, units ++ [add]))
      (selUnits s) (e, copyUnits c) in
    let mid := middle e in
    Ret (withCopyUnits ((fun u => mkPasteUnitNode (pasteUnit u) (unitXc u - mid.1) (unitYc u - mid.2)) <$> units) e c)
  else Ret c.

Definition copy (m : GuiMap) (l : Layer) (c : Clipboard) : outcome Clipboard :=
  match l with
  | Terrain => Ret (copyTerrain (selections m) c)
  | Units => copyUnitsOf m c
  | Locations => Ret c
  end.

Definition addQuickTile (index xc yc : Z) (c : Clipboard) : Clipboard :=
  withQuick (quickTiles c ++ [mkPasteTileNode index xc yc TileNeighbor.All]) (quickUnits c) c.
Definition addQuickUnit (unit : Unit.Unit) (c : Clipboard) : Clipboard :=
  withQuick (quickTiles c) (quickUnits c ++ [newPasteUnitNode unit]) c.
Definition beginPasting (isQuickPaste : bool) (c : Clipboard) : Clipboard := withPasting true isQuickPaste (prevPaste c) c.
Definition endPasting (c : Clipboard) : Clipboard :=
  if pasting c then withPasting false false (-1, -1) (if quickPaste c then ClearQuickItems c else c) else c.
Definition toggleFillSimilarTiles (c : Clipboard) : Clipboard :=
  mkClipboard (pasting c) (quickPaste c) (negb (fillSimilarTiles c)) (edges c) (copyTiles c) (quickTiles c) (copyUnits c)
    (quickUnits c) (prevPaste c).

Definition getTiles (c : Clipboard) : list PasteTileNode := if quickPaste c then quickTiles c else copyTiles c.
Definition getUnits (c : Clipboard) : list PasteUnitNode := if quickPaste c then quickUnits c else copyUnits c.
Definition withUnitNodes (units : list PasteUnitNode) (c : Clipboard) : Clipboard :=
  if quickPaste c then withQuick (quickTiles c) units c else withCopyUnits units (edges c) c.

(** ** Pasting tiles *)

(** [tileChanges->Insert(...)] with the tile that is replaced, and the change. *)
Definition changeTile (xc yc v : Z) (m : GuiMap) (r : Changes) : outcome (GuiMap * Changes) :=
  let* old := TerrainClass.getTile xc yc Scope.Game (layersOf m) in
  let r := Insert (act (TileChange (u16 xc) (u16 yc) old)) r in
  let* m := onLayers (TerrainClass.setTile xc yc v Scope.Both) m in
  Ret (m, r).

(** A click is pasted once: the place is compared with the one before. *)
Definition pastedBefore (mapClickX mapClickY : Z) (c : Clipboard) : bool :=
  (Z.quot mapClickX 16 =? (prevPaste c).1) && (Z.quot mapClickY 16 =? (prevPaste c).2).
Definition pasted (mapClickX mapClickY : Z) (c : Clipboard) : Clipboard :=
  withPrevPaste (Z.quot mapClickX 16, Z.quot mapClickY 16) c.

Definition pasteTiles (mapClickX mapClickY : Z) (c : Clipboard) (g : Session) : outcome (Clipboard * Session) :=
  let mapClickX := mapClickX + 16 in
  let mapClickY := mapClickY + 16 in
  if negb (pastedBefore mapClickX mapClickY c) then
    let c := pasted mapClickX mapClickY c in
    let* xSize := TerrainClass.getTileWidth (layersOf (object g)) in
    let* ySize := TerrainClass.getTileHeight (layersOf (object g)) in
    let* (m, r) := for_each (fun tile '(m, r) =>
        let xc := Z.quot (tileXc tile + mapClickX) 32 in
        let yc := Z.quot (tileYc tile + mapClickY) 32 in
        if (xc >=? 0) && (xc <? u16 xSize) && (yc >=? 0) && (yc <? u16 ySize) then
          let* old := TerrainClass.getTile xc yc Scope.Game (layersOf m) in
          if negb (old =? tileValue tile) then changeTile xc yc (tileValue tile) m r else Ret (m, r)
        else Ret (m, r))
      (getTiles c) (object g, Make) in
    Ret (c, addUndo r (withObject m g))
  else Ret (c, g).

(** A point of s16 coordinates. *)
Definition s16 (z : Z) : Z := (z + 2 ^ 15) mod 2 ^ 16 - 2 ^ 15.
Definition points (x y : Z) : Z * Z := (s16 x, s16 y).

(** The tiles beside one that has been filled, as they are pushed: the last is
    processed first. *)
Definition pushNeighbors (xc yc xSize ySize : Z) (processed : gset (Z * Z)) (stack : list (Z * Z)) : list (Z * Z) :=
  let push (c : bool) (p : Z * Z) (stack : list (Z * Z)) :=
    if c && bool_decide (p ∉ processed) then p :: stack else stack in
  push (yc <? ySize - 1) (points xc (yc + 1))
    (push (yc >=? 1) (points xc (yc - 1))
      (push (xc <? xSize - 1) (points (xc + 1) yc)
        (push (xc >=? 1) (points (xc - 1) yc) stack))).

(** The loop while there are tiles to process. *)
Fixpoint fillLoop (fuel : nat) (xSize ySize filled v : Z) (processed : gset (Z * Z)) (stack : list (Z * Z))
    (m : GuiMap) (r : Changes) : outcome (GuiMap * Changes) :=
  match stack with
  | [] => Ret (m, r)
  | tile :: stack =>
      match fuel with
      | O => Undef
      | S fuel =>
          let processed := processed ∪ {[tile]} in
          let '(xc, yc) := tile in
          let* current := TerrainClass.getTile xc yc Scope.Game (layersOf m) in
          if current =? filled then
            let* (m, r) := changeTile xc yc v m r in
            fillLoop fuel xSize ySize filled v processed (pushNeighbors xc yc xSize ySize processed stack) m r
          else fillLoop fuel xSize ySize filled v processed stack m r
      end
  end.

(** Each tile of the map is filled once at most, and has four others beside it. *)
Definition fillPasteTerrain (mapClickX mapClickY : Z) (c : Clipboard) (g : Session) : outcome (Clipboard * Session) :=
  let mapClickX := mapClickX + 16 in
  let mapClickY := mapClickY + 16 in
  if negb (pastedBefore mapClickX mapClickY c) then
    let c := pasted mapClickX mapClickY c in
    let* xSize := TerrainClass.getTileWidth (layersOf (object g)) in
    let* ySize := TerrainClass.getTileHeight (layersOf (object g)) in
    let xSize := u16 xSize in
    let ySize := u16 ySize in
    let* (m, r) :=
      match getTiles c with
      | [pasteTile] =>
          let xc := Z.quot (tileXc pasteTile + mapClickX) 32 in
          let yc := Z.quot (tileYc pasteTile + mapClickY) 32 in
          if (xc >=? 0) && (xc <? xSize) && (yc >=? 0) && (yc <? ySize) then
            let* filled := TerrainClass.getTile xc yc Scope.Game (layersOf (object g)) in
            if negb (filled =? tileValue pasteTile) then
              let* tiles := deref (mtxm (layersOf (object g))) in
              fillLoop (4 * length tiles + 2) xSize ySize filled (tileValue pasteTile) ∅ [points xc yc] (object g) Make
            else Ret (object g, Make)
          else Ret (object g, Make)
      | _ => Ret (object g, Make)
      end in
    Ret (c, addUndo r (withObject m g))
  else Ret (c, g).

Definition pasteTerrain (mapClickX mapClickY : Z) (c : Clipboard) (g : Session) : outcome (Clipboard * Session) :=
  if fillSimilarTiles c && (zlen (getTiles c) =? 1) then fillPasteTerrain mapClickX mapClickY c g
  else pasteTiles mapClickX mapClickY c g.

(** ** Pasting units *)

(** [unitSize] of a type: to the left, right, up and down. *)
Definition extent (unitSize : Z -> Z * Z * Z * Z) (type xc yc : Z) : Rect :=
  let '(sizeLeft, sizeRight, sizeUp, sizeDown) := unitSize type in
  mkRect (xc - sizeLeft) (yc - sizeUp) (xc + sizeRight) (yc + sizeDown).
Definition overlap (a b : Rect) : bool :=
  (rectRight a >=? rectLeft b) && (rectLeft a <=? rectRight b) && (rectBottom a >=? rectTop b) && (rectTop a <=? rectBottom b).

(** No unit is in the way; their extent is taken by the type of the pasted unit. *)
Definition canPaste (unitSize : Z -> Z * Z * Z * Z) (allowStack : bool) (u : Unit.Unit) (m : GuiMap) : outcome bool :=
  if allowStack then Ret true
  else
    let* numUnits := LayersClass.numUnits (layersOf m) in
    let* found := first_such (fun i =>
        let* unit := LayersClass.getUnit i (layersOf m) in
        Ret (overlap (extent unitSize (Unit.type u) (Unit.xc u) (Unit.yc u))
               (extent unitSize (Unit.type u) (Unit.xc unit) (Unit.yc unit))))
      (range 0 numUnits) in
    Ret (match found with Some _ => false | None => true end).

(** The undo is added to the current map, which is the one that is pasted to. *)
Definition pasteUnitsAt (unitSize : Z -> Z * Z * Z * Z) (mapClickX mapClickY : Z) (allowStack : bool) (c : Clipboard)
    (g : Session) : outcome (Clipboard * Session) :=
  let* (nodes, prev, m, r) := for_each (fun node '(nodes, prev, m, r) =>
      let u := (pasteUnit node) <| Unit.xc := u16 (mapClickX + unitXc node) |> <| Unit.yc := u16 (mapClickY + unitYc node) |> in
      let nodes := nodes ++ [mkPasteUnitNode u (unitXc node) (unitYc node)] in
      if (mapClickX + unitXc node >=? 0) && (mapClickY + unitYc node >=? 0) then
        let* can := canPaste unitSize allowStack u m in
        if can then
          let* numUnits := LayersClass.numUnits (layersOf m) in
          let* m := onLayers (fun l => let* (l, _) := LayersClass.addUnit u l in Ret l) m in
          Ret (nodes, (Unit.xc u, Unit.yc u), m, Insert (act (UnitCreateDel (u16 numUnits) None)) r)
        else Ret (nodes, prev, m, r)
      else Ret (nodes, prev, m, r))
    (getUnits c) ([], prevPaste c, object g, Make) in
  Ret (withPrevPaste prev (withUnitNodes nodes c), addUndo r (withObject m g)).

Definition doPaste (unitSize : Z -> Z * Z * Z * Z) (l : Layer) (mapClickX mapClickY : Z) (allowStack : bool) (c : Clipboard)
    (g : Session) : outcome (Clipboard * Session) :=
  match l with
  | Terrain => pasteTerrain mapClickX mapClickY c g
  | Units => pasteUnitsAt unitSize mapClickX mapClickY allowStack c g
  | Locations => Ret (c, g)
  end.
