(* ===== verification/EditorClipboardProps.v ===== *)
(** Properties of the clipboard: filling similar tiles changes exactly the
    connected region of equal tiles around the click, comes to an end, and is an
    edit that can be undone. *)
From S2P Require Import Prelude Codec ChkTypes ChkSection Accessors StructSections Terrain Objects Locations Triggers StringTable ScenarioStrings ScenarioLayers ScenarioNames ScenarioNamesProps Selections SelectionsProps EditorUndos EditorHistory EditorActions EditorActionsProps EditorCommands EditorCommandsProps EditorClipboard.
Open Scope Z_scope.

Section Fill.
Context (xSize ySize : Z) (HW : 0 < xSize < 2 ^ 15) (HH : 0 < ySize < 2 ^ 15).

Definition inside (p : Z * Z) : Prop := 0 <= p.1 < xSize /\ 0 <= p.2 < ySize.
Definition place (p : Z * Z) : nat := Z.to_nat (p.2 * xSize + p.1).

Lemma place_inj p q : inside p -> inside q -> place p = place q -> p = q.
Proof.
  destruct p as [x y], q as [x' y']. unfold inside, place. cbn. intros [Hx Hy] [Hx' Hy'] E.
  assert (E' : y * xSize + x = y' * xSize + x') by nia. assert (y = y') as -> by nia. f_equal. lia.
Qed.

(** MTXM and TILE have the same tiles, at least as many as the map has. *)
Definition gridOf (tiles : list Z) (m : GuiMap) : Prop :=
  TerrainClass.getTileWidth (layers m) = Ret xSize /\ TerrainClass.getTileHeight (layers m) = Ret ySize /\
  mtxm (layers m) = Some tiles /\ tile (layers m) = Some tiles /\ xSize * ySize <= zlen tiles.

Lemma place_lt (tiles : list Z) p : inside p -> xSize * ySize <= zlen tiles -> (place p < length tiles)%nat.
Proof. destruct p as [x y]. unfold inside, place, zlen. cbn. nia. Qed.

Lemma grid_index tiles m p : gridOf tiles m -> inside p -> TerrainClass.tileIndex p.1 p.2 (layers m) = Ret (Z.of_nat (place p)).
Proof.
  destruct p as [x y]. intros (Ew & _) [Hx Hy]. cbn in *. unfold TerrainClass.tileIndex. rewrite Ew. cbn. f_equal. unfold u64, place. cbn.
  rewrite Z.mod_small by nia. lia.
Qed.

Lemma grid_tileAt tiles m p w : gridOf tiles m -> inside p -> tiles !! place p = Some w -> tileAt p.1 p.2 w m.
Proof.
  intros Hg Hp Hw. pose proof Hg as (_ & _ & Eg & Ee & _). pose proof (lookup_lt_Some _ _ _ Hw).
  exists (Z.of_nat (place p)), tiles, tiles. rewrite Nat2Z.id. split; [by apply (grid_index tiles)|]. unfold zlen. repeat (split; [done || lia|]). done.
Qed.

Lemma grid_with tiles m p v : gridOf tiles m -> inside p ->
  gridOf (<[place p := v]> tiles) (withTile (Z.of_nat (place p)) v m).
Proof.
  intros (Ew & Eh & Eg & Ee & Hz) Hp. unfold gridOf, withTile. cbn. rewrite Eg, Ee, Nat2Z.id, zlen_insert. done.
Qed.

Lemma getTile_grid tiles m p w : gridOf tiles m -> inside p -> tiles !! place p = Some w ->
  TerrainClass.getTile p.1 p.2 Scope.Game (layersOf m) = Ret w.
Proof. intros Hg Hp Hw. by destruct (tile_reverse_at p.1 p.2 0 w m (grid_tileAt _ _ _ _ Hg Hp Hw)) as (i & _ & E & _). Qed.

Lemma changeTile_grid tiles m p v w r : gridOf tiles m -> inside p -> tiles !! place p = Some w ->
  let m' := withTile (Z.of_nat (place p)) v m in
  changeTile p.1 p.2 v m r = Ret (m', Insert (act (TileChange p.1 p.2 w)) r) /\
  swapsAction UndoTypes.TileChange (TileChange p.1 p.2 w) (TileChange p.1 p.2 v) m' m.
Proof.
  intros Hg Hp Hw m'. pose proof (grid_tileAt _ _ _ _ Hg Hp Hw) as Hat. pose proof (grid_index _ _ _ Hg Hp) as Hi.
  destruct (tile_reverse_at p.1 p.2 v w m Hat) as (i & Ei & Eget & Eset & _). destruct (tile_swaps p.1 p.2 v w m Hat) as (j & Ej & Hs).
  assert (i = Z.of_nat (place p)) as -> by congruence. assert (j = Z.of_nat (place p)) as -> by congruence. split; [|exact Hs].
  unfold changeTile. rewrite Eget. cbn [obind]. rewrite Eset. cbn [obind]. destruct Hp as [Hx Hy].
  rewrite !u16_id by (unfold is_u; lia). done.
Qed.

(** ** The region *)

Definition beside (p q : Z * Z) : Prop := q = (p.1 - 1, p.2) \/ q = (p.1 + 1, p.2) \/ q = (p.1, p.2 - 1) \/ q = (p.1, p.2 + 1).

(** The tiles that are connected to [o] by tiles of the value [w]. *)
Inductive region (tiles : list Z) (w : Z) (o : Z * Z) : Z * Z -> Prop :=
  | region_origin : tiles !! place o = Some w -> region tiles w o o
  | region_beside p q : region tiles w o p -> beside p q -> inside q -> tiles !! place q = Some w -> region tiles w o q.

Lemma s16_id z : - 2 ^ 15 <= z < 2 ^ 15 -> s16 z = z.
Proof. intros Hz. unfold s16. rewrite Z.mod_small; lia. Qed.

Lemma pushed p processed stack q : inside p ->
  q ∈ pushNeighbors p.1 p.2 xSize ySize processed stack <-> q ∈ stack \/ (beside p q /\ inside q /\ q ∉ processed).
Proof.
  intros [Hx Hy]. destruct p as [x y]. cbn in Hx, Hy. unfold pushNeighbors. cbn [fst snd].
  assert (Hpush : forall (c : bool) n l, (c = true <-> inside n) -> q ∈ (if c && bool_decide (n ∉ processed) then n :: l else l) <->
    q ∈ l \/ (q = n /\ inside q /\ q ∉ processed)).
  { intros c n l Hc. destruct c; cbn [andb].
    - destruct (bool_decide_reflect (n ∉ processed)); rewrite ?elem_of_cons; [|naive_solver]. split; [intros [->|?]; tauto|].
      intros [?|[-> _]]; tauto.
    - split; [by left|]. intros [?|(-> & Hi & _)]; [done|]. by apply Hc in Hi. }
  unfold points. rewrite !(s16_id x), !(s16_id y), !(s16_id (x - 1)), !(s16_id (x + 1)), !(s16_id (y - 1)), !(s16_id (y + 1)) by lia.
  rewrite !Hpush; unfold inside; cbn [fst snd]; rewrite ?Z.geb_le, ?Z.ltb_lt; [unfold beside; cbn [fst snd]; tauto | lia..].
Qed.

Lemma pushed_length x y processed stack : (length (pushNeighbors x y xSize ySize processed stack) <= length stack + 4)%nat.
Proof. unfold pushNeighbors. repeat destruct (_ && _); cbn; lia. Qed.

(** ** The loop *)

Definition count (w : Z) (tiles : list Z) : nat := length (filter (fun t => t = w) tiles).

Lemma count_insert w v tiles i : v <> w -> tiles !! i = Some w -> S (count w (<[i := v]> tiles)) = count w tiles.
Proof.
  intros Hv. revert i. induction tiles as [|t tiles IH]; intros [|i] Hi; cbn in Hi; [done|done|injection Hi as ->|]; unfold count in *.
  - change (<[0%nat := v]> (w :: tiles)) with (v :: tiles). rewrite filter_cons_False, filter_cons_True by done. done.
  - change (<[S i := v]> (t :: tiles)) with (t :: <[i := v]> tiles). rewrite !filter_cons. specialize (IH i Hi).
    destruct (decide (t = w)); cbn [length]; lia.
Qed.

(** The tiles started as [before], are now [now], and [stack] is to be processed. *)
Record Filling (before : list Z) (w v : Z) (o : Z * Z) (processed : gset (Z * Z)) (stack : list (Z * Z)) (now : list Z) : Prop := mkFilling {
  fill_values : forall p, inside p -> now !! place p = before !! place p \/ (now !! place p = Some v /\ region before w o p);
  fill_stack : forall q, q ∈ stack -> inside q /\ (before !! place q = Some w -> region before w o q);
  fill_closed : forall p q, inside p -> now !! place p = Some v -> region before w o p -> beside p q -> inside q -> before !! place q = Some w ->
    now !! place q = Some v \/ q ∈ stack;
  fill_origin : now !! place o = Some v \/ o ∈ stack;
  fill_processed : forall p, p ∈ processed -> inside p /\ now !! place p <> Some w;
  fill_size : length now = length before
}.

Lemma fill_step_skip before w v o processed stack now p : v <> w -> Filling before w v o processed (p :: stack) now -> before !! place o = Some w ->
  now !! place p <> Some w -> Filling before w v o (processed ∪ {[p]}) stack now.
Proof.
  intros Hv [H1 H2 H3 H4 H5 H6] Ho Hp. destruct (H2 p ltac:(by left)) as [Hin _].
  assert (Hdone : before !! place p = Some w -> now !! place p = Some v).
  { intros Hb. destruct (H1 p Hin) as [E|[E _]]; [congruence | done]. }
  split; [done | intros q Hq; apply H2; by right | | | | done].
  - intros a q Ha Hva Hra Hb Hq Hw. destruct (H3 a q Ha Hva Hra Hb Hq Hw) as [?|[->|?]%elem_of_cons]; [by left | left; by apply Hdone | by right].
  - destruct H4 as [?|[->|?]%elem_of_cons]; [by left | left; by apply Hdone | by right].
  - intros q [Hq| ->%elem_of_singleton]%elem_of_union; [by apply H5 | by split].
Qed.

Lemma fill_step_change before w v o processed stack now p : v <> w -> Filling before w v o processed (p :: stack) now ->
  xSize * ySize <= zlen before -> now !! place p = Some w ->
  Filling before w v o (processed ∪ {[p]}) (pushNeighbors p.1 p.2 xSize ySize (processed ∪ {[p]}) stack) (<[place p := v]> now).
Proof.
  intros Hv [H1 H2 H3 H4 H5 H6] Hsize Hp. destruct (H2 p ltac:(by left)) as [Hin Hreg].
  assert (Hb : before !! place p = Some w) by (destruct (H1 p Hin) as [<-|[E _]]; [done | congruence]).
  specialize (Hreg Hb). pose proof (lookup_lt_Some _ _ _ Hp) as Hlt.
  assert (Hself : <[place p := v]> now !! place p = Some v) by (by apply list_lookup_insert_eq).
  assert (Hother : forall q, inside q -> q <> p -> <[place p := v]> now !! place q = now !! place q).
  { intros q Hq Hne. apply list_lookup_insert_ne. intros E. apply Hne. symmetry. by apply place_inj. }
  split.
  - intros q Hq. destruct (decide (q = p)) as [->|Hne]; [right; by split|]. rewrite Hother by done. by apply H1.
  - intros q [Hq|(Hb' & Hq & _)]%(pushed p _ _ _ Hin); [apply H2; by right|]. split; [done|]. intros Hw. by apply (region_beside before w o p q).
  - intros a q Ha Hva Hra Hab Hq Hw. rewrite (pushed p) by done. destruct (decide (q = p)) as [->|Hqp]; [by left|]. rewrite Hother by done.
    destruct (decide (a = p)) as [->|Hap].
    + destruct (decide (q ∈ processed ∪ {[p]})) as [[Hpr|?%elem_of_singleton]%elem_of_union|Hn]; [|done|right; right; done].
      left. destruct (H1 q Hq) as [E|[E _]]; [|done]. destruct (H5 q Hpr) as [_ Hnw]. by rewrite E in Hnw.
    + rewrite Hother in Hva by done. destruct (H3 a q Ha Hva Hra Hab Hq Hw) as [?|[->|?]%elem_of_cons]; [by left | done | right; by left].
  - rewrite (pushed p) by done. destruct (decide (o = p)) as [->|Hne]; [by left|]. destruct H4 as [E|[->|?]%elem_of_cons]; [|done|right; by left].
    left. destruct (decide (place o = place p)) as [->|]; [done|]. by rewrite list_lookup_insert_ne.
  - intros q [Hq| ->%elem_of_singleton]%elem_of_union; [|split; [done|]; rewrite Hself; congruence].
    destruct (H5 q Hq) as [Hqi Hqn]. split; [done|]. destruct (decide (q = p)) as [->|Hne]; [rewrite Hself; congruence | by rewrite Hother].
  - by rewrite length_insert.
Qed.

Lemma region_inside tiles w o p : inside o -> region tiles w o p -> inside p.
Proof. by intros Ho [|? ? _ _ ? _]. Qed.

Lemma fill_done before w v o processed now : inside o -> Filling before w v o processed [] now ->
  (forall p, inside p -> region before w o p -> now !! place p = Some v) /\
  (forall p, inside p -> ~ region before w o p -> now !! place p = before !! place p).
Proof.
  intros Ho [H1 H2 H3 H4 H5 H6]. split.
  - intros p Hp Hr. revert Hp. induction Hr as [|p q Hr IH Hb Hq Hw]; intros Hin.
    + destruct H4 as [?|Hn]; [done | by apply not_elem_of_nil in Hn].
    + assert (Hpin : inside p) by exact (region_inside _ _ _ _ Ho Hr). destruct (H3 p q Hpin (IH Hpin) Hr Hb Hq Hw) as [?|Hn]; [done | by apply not_elem_of_nil in Hn].
  - intros p Hp Hn. destruct (H1 p Hp) as [?|[_ ?]]; done.
Qed.

Lemma fill_loop before w v o m0 : v <> w -> before !! place o = Some w -> inside o ->
  forall fuel processed stack now m l, gridOf now m -> Filling before w v o processed stack now -> Changed UndoTypes.TileChange m0 m l ->
  (length stack + 4 * count w now <= fuel)%nat ->
  exists m' l' now' processed', fillLoop fuel xSize ySize w v processed stack m (group l) = Ret (m', group (l ++ l')) /\
    gridOf now' m' /\ Filling before w v o processed' [] now' /\ Changed UndoTypes.TileChange m0 m' (l ++ l') /\
    (length l' + count w now' = count w now)%nat /\ samePart UndoTypes.UnitChange m m' /\ selections m' = selections m.
Proof.
  intros Hv Ho Hin. induction fuel as [|fuel IH]; intros processed stack now m l Hg Hf Hch Hfuel.
  { destruct stack; [|cbn in Hfuel; lia]. exists m, [], now, processed. rewrite app_nil_r. done. }
  destruct stack as [|p stack].
  { exists m, [], now, processed. rewrite app_nil_r. done. }
  destruct (fill_stack _ _ _ _ _ _ _ Hf p ltac:(by left)) as [Hp _]. pose proof Hg as (_ & _ & _ & _ & Hz).
  destruct (lookup_lt_is_Some_2 now (place p) (place_lt now p Hp Hz)) as [t Ht].
  destruct p as [x y]. cbn [fillLoop]. pose proof (getTile_grid now m (x, y) t Hg Hp Ht) as Eget. cbn [fst snd] in Eget. rewrite Eget. cbn [obind].
  destruct (Z.eqb_spec t w) as [->|Hne].
  - destruct (changeTile_grid now m (x, y) v w (group l) Hg Hp Ht) as [Ech Hsw]. cbn [fst snd] in Ech, Hsw. rewrite Ech, insert_group. cbn [obind].
    set (m1 := withTile _ v m) in *. pose proof (count_insert w v now (place (x, y)) Hv Ht) as Hcount.
    pose proof (fill_step_change before w v o processed stack now (x, y) Hv Hf ltac:(unfold zlen in *; rewrite <- (fill_size _ _ _ _ _ _ _ Hf); lia) Ht) as Hf1.
    cbn [fst snd] in Hf1. pose proof (pushed_length x y (processed ∪ {[(x, y)]}) stack) as Hlen.
    destruct (IH _ _ _ m1 (l ++ [act (TileChange x y w)]) (grid_with now m (x, y) v Hg Hp) Hf1) as (m' & l' & now' & pr' & E & Hg' & Hf' & Hch' & Hc' & Hu & Hs).
    + eapply changed_snoc; [done | exact Hsw|]. unfold m1, withTile. other_parts.
    + cbn [length] in Hfuel. lia.
    + exists m', (act (TileChange x y w) :: l'), now', pr'. rewrite E. rewrite <- app_assoc in *. repeat (split; [done|]).
      split; [cbn [length]; lia|]. split; [done|]. by rewrite Hs.
  - apply (IH _ _ _ m l Hg); [|done|cbn in Hfuel; lia]. apply (fill_step_skip _ _ _ _ _ _ _ (x, y)); [done|done|done|congruence].
Qed.

(** C39: Pasting a single tile with the option to fill similar tiles, on a map
    whose sections MTXM and TILE hold the same tiles, at a point where the tile on the
    map is another one and nothing was pasted before in this stroke, comes to an
    end: it replaces exactly the tiles that are connected to the one under the
    cursor by tiles of the same value, in both sections, and adds an action that
    reverses all of it. *)
Theorem fill_region tiles c g node mapClickX mapClickY w :
  let o := (Z.quot (tileXc node + (mapClickX + 16)) 32, Z.quot (tileYc node + (mapClickY + 16)) 32) in
  gridOf tiles (object g) -> zlen tiles < 2 ^ 31 -> fillSimilarTiles c = true -> getTiles c = [node] ->
  pastedBefore (mapClickX + 16) (mapClickY + 16) c = false -> inside o -> tiles !! place o = Some w -> w <> tileValue node ->
  exists c' g' tiles', pasteTerrain mapClickX mapClickY c g = Ret (c', g') /\ gridOf tiles' (object g') /\ length tiles' = length tiles /\
    (forall p, inside p -> region tiles w o p -> tiles' !! place p = Some (tileValue node)) /\
    (forall p, inside p -> ~ region tiles w o p -> tiles' !! place p = tiles !! place p) /\
    Edits UndoTypes.TileChange g g'.
Proof.
  intros o Hg Hz Hfill Htiles Hbefore Hin Hw Hne. unfold pasteTerrain. rewrite Hfill, Htiles. cbn [andb]. change (zlen [node] =? 1) with true. cbn iota.
  unfold fillPasteTerrain. rewrite Hbefore. cbn [negb]. set (c' := pasted _ _ c).
  pose proof Hg as (Ew & Eh & Eg & Ee & Hsize).
  change (TerrainClass.getTileWidth (layersOf (object g))) with (TerrainClass.getTileWidth (layers (object g))).
  change (TerrainClass.getTileHeight (layersOf (object g))) with (TerrainClass.getTileHeight (layers (object g))).
  rewrite Ew, Eh. cbn [obind]. rewrite !u16_id by (unfold is_u; lia). change (getTiles c') with (getTiles c). rewrite Htiles.
  pose proof Hin as [Hx Hy]. unfold o in Hx, Hy. cbn [fst snd] in Hx, Hy.
  rewrite !(proj2 (Z.ltb_lt _ _)), !(proj2 (Z.geb_le _ _)) by lia. cbn [andb].
  pose proof (getTile_grid tiles _ o w Hg Hin Hw) as Eget. unfold o in Eget. cbn [fst snd] in Eget. rewrite Eget. cbn [obind].
  rewrite (proj2 (Z.eqb_neq _ _)) by done. cbn [negb]. change (mtxm (layersOf (object g))) with (mtxm (layers (object g))). rewrite Eg. cbn [deref obind].
  unfold points. rewrite !s16_id by lia. fold o. change (@Make Action) with (group []).
  destruct (fill_loop tiles w (tileValue node) o (object g) ltac:(done) Hw Hin (4 * length tiles + 2) ∅ [o] tiles (object g) [] Hg) as
    (m' & l' & tiles' & pr & E & Hg' & Hf & Hch & Hcount & _).
  - split; [by left | | | right; by left | | done].
    + intros q ->%list_elem_of_singleton. split; [done|]. by constructor.
    + intros p q Hp Hv Hr _ _ _. destruct Hr; congruence.
    + intros p Hp. by apply elem_of_empty in Hp.
  - apply changed_nil.
  - unfold count. pose proof (length_filter (fun t => t = w) tiles). cbn. lia.
  - rewrite E. cbn [obind app] in *. destruct (fill_done _ _ _ _ _ _ Hin Hf) as [Hyes Hno].
    eexists c', _, tiles'. split; [reflexivity|]. rewrite object_addUndo. split; [exact Hg'|]. split; [exact (fill_size _ _ _ _ _ _ _ Hf)|].
    split; [exact Hyes|]. split; [exact Hno|]. apply (changed_edits _ (object g)); [done|done|done| |].
    + intros ->. destruct Hch as ((l2 & Hs) & _ & _). apply swaps_all in Hs as (_ & _ & _ & F & _).
      destruct (F m' ltac:(reflexivity)) as (q & Eq & Hq & _). cbn in Eq. injection Eq as _ <-. destruct Hq as (_ & Hmt & _).
      destruct Hg' as (_ & _ & Eg' & _). assert (tiles' = tiles) as -> by congruence.
      specialize (Hyes o Hin (region_origin _ _ _ Hw)). congruence.
    + unfold count, zlen in *. pose proof (length_filter (fun t => t = w) tiles). lia.
Qed.
End Fill.

(** The corner of a map of three by two tiles is filled. *)
Definition fillNode : PasteTileNode := mkPasteTileNode 9 (-16) (-16) TileNeighbor.All.
Definition fillClipboard : Clipboard := toggleFillSimilarTiles (withCopyTiles [fillNode] noRect newClipboard).

Lemma fill_region_witness : exists c' g' tiles', pasteTerrain 0 0 fillClipboard sampleSession = Ret (c', g') /\
  gridOf 3 2 tiles' (object g') /\ tiles' !! place 3 (2, 1) = Some 9 /\ Edits UndoTypes.TileChange sampleSession g'.
Proof.
  destruct (fill_region 3 2 ltac:(lia) ltac:(lia) [1; 1; 2; 2; 1; 1] fillClipboard sampleSession fillNode 0 0 1) as
    (c' & g' & tiles' & E & Hg & _ & Hyes & _ & He).
  - split; [reflexivity|]. split; [reflexivity|]. split; [reflexivity|]. split; [reflexivity|]. change (3 * 2 <= 6). lia.
  - change (6 < 2 ^ 31). lia.
  - reflexivity.
  - reflexivity.
  - reflexivity.
  - change (inside 3 2 (0, 0)). split; cbn; lia.
  - reflexivity.
  - cbn. lia.
  - exists c', g', tiles'. split; [exact E|]. split; [exact Hg|]. split; [|exact He]. apply Hyes; [done|].
    assert (H0 : region 3 2 [1; 1; 2; 2; 1; 1] 1 (0, 0) (0, 0)) by (by constructor).
    assert (H1 : region 3 2 [1; 1; 2; 2; 1; 1] 1 (0, 0) (1, 0)) by (eapply region_beside; [exact H0 | right; by left | done | done]).
    assert (H2 : region 3 2 [1; 1; 2; 2; 1; 1] 1 (0, 0) (1, 1)) by (eapply region_beside; [exact H1 | right; right; by right | done | done]).
    eapply region_beside; [exact H2 | right; by left | done | done].
Defined.
